(* ===== verification/_CoqProject ===== *)
-Q . S2P
Prelude.v
Console.v
ConsoleProofs.v
Mmu.v
KState.v
KWp.v
Pmap.v
PmapInv.v
PmapSpec.v
PmapDir.v
PmapOps.v
VMem.v
Env.v
EnvFree.v
KInv.v
SchedProofs.v
EnvProofs.v
UserMem.v
Demo.v
MemProps.v
Syscall.v
SyscallProofs.v
SyscallSafe.v
Trap.v
TrapProofs.v
Machine.v
KernProps.v
ULib.v
ULibProofs.v
ForkProofs.v
ForkSpec.v
ForkProps.v
CMem.v
Str.v
StrProofs.v
Printf.v
PrintfProofs.v
LibProps.v
FsState.v
Ide.v
Bc.v
Fs.v
Serv.v
IdeProofs.v
BcProofs.v
BcMem.v
FsAlloc.v
FsInit.v
FsFile.v
FsData.v
FsRw.v
FsSync.v
FsTrunc.v
FsIso.v
FsDir.v
FsPath.v
FsCreate.v
FsDemo.v
FsProps.v
Inet.v
InetProofs.v
SysArch.v
SysProofs.v
Heap.v
HeapProofs.v
HeapClient.v
NetDemo.v
NetProps.v
