(* ===== verification/Prelude.v ===== *)
(** * JOS: verification of the kernel, its libraries and its servers

    The program is a small exokernel for the x86 (kern/), the library user
    environments link against (lib/), a file server that runs as a user
    environment (fs/), and a network server around lwIP (net/).  Environments enter the kernel by traps; the kernel
    gives them pages, address spaces and messages; the file server keeps a
    disk in its address space through page faults and answers requests that
    arrive as messages.

    ** Foundations

    - Prelude: machine integers (Z with the wrap-around written out), the
      monad [M S R A] of stateful code that can stop (a panic, a context
      switch, undefined behaviour), its weakest preconditions [wp], loops.
    - CMem: byte memory with 32-bit addresses and C loops.  [while] has fuel
      2^33, more than the number of addresses; [while_total] proves
      termination from a measure below the fuel.

    ** The kernel (kern/)

    - Mmu (inc/mmu.h, inc/memlayout.h): address arithmetic and page table
      entries.  KState (inc/env.h, inc/trap.h, kern/cpu.h): the state of the
      kernel as a record; physical memory is word addressed.  KWp: rules.
    - Console, ConsoleProofs (kern/console.c, kern/picirq.c): serial port, display, keyboard
      and the input buffer, driven by a list of port inputs.
    - Pmap (kern/pmap.c), PmapInv, PmapSpec, PmapDir, PmapOps: page allocator
      and page tables.  The invariant [minv] is the accounting: free list and
      mapped pages are disjoint, pp_ref counts the references in page tables,
      every table is referenced once.  [mapping] is the abstract address
      space.  MemProps: page_insert and page_remove are updates of it.
    - Env, EnvFree, EnvProofs (kern/env.c): environments.  KInv: the invariant
      [kcore] of kernel and environment table (identifiers, free list, one
      page directory per environment, kernel mappings shared).
    - SchedProofs (kern/sched.c): round robin.  VMem, UserMem: accesses of the
      kernel to user memory through the page tables, user_mem_check.
    - Syscall, SyscallProofs, SyscallSafe (kern/syscall.c): system calls.
      The contract of the memory calls is stated on [aspace], a map from
      environments and page numbers to pages.
    - Trap, TrapProofs (kern/trap.c): gate table, dispatch, page faults.
    - Machine: one CPU as a step relation and its invariant.  User code may
      store wherever it can write and trap with any registers; interrupts
      arrive when they like; no step is excluded.  [flaw] names the steps on
      which the code fails: two system calls that corrupt the kernel
      ([corrupts]: a reference count that wraps around, a page sent to a
      receiver at or above UTOP) and those on which it stops ([trap_stops]).
      KernProps: the properties.  Demo: a concrete state that satisfies the
      invariant.

    ** User-level fork (lib/fork.c, lib/pgfault.c, lib/syscall.c)

    - ULib: the code, run by the current environment.  A system call is a run
      of [trap] of the kernel; a memory access walks the page tables with
      user rights.  ULibProofs: what each system call does to the caller's
      view of memory, from the kernel's specifications.  ForkProofs: the
      copy-on-write handler and duppage.  ForkSpec: fork as a copy of the
      parent's image.  ForkProps: fork, the handler, and that a store to a
      copy-on-write page is private to the writer.

    ** The C library (lib/)

    - Str, StrProofs (lib/string.c): every function on byte memory.
    - Printf, PrintfProofs (lib/printfmt.c, lib/printf.c, lib/fprintf.c,
      kern/printf.c): formatted output.  LibProps: the properties.

    ** The file server (fs/)

    - FsState: memory, cached pages with dirty bits, the controller as a
      class [Ata] of port operations.  Ide (fs/ide.c), Bc (fs/bc.c), Fs
      (fs/fs.c), Serv (fs/serv.c): the code.
    - IdeProofs: the class [AtaDisk] states the protocol of the controller
      (status, task file, sector transfers); it promises nothing for a
      register, command or transfer to a controller that has not been polled
      ready, and the driver is verified against it.  The disk is healthy: a
      poll ends and reports no error; failures of the medium are not
      modelled.  BcProofs, BcMem: the view [vw], memory backed by the disk; faults
      and flushes do not change it.  FsInit: mounting.  FsAlloc, FsFile,
      FsData, FsRw: bitmap, block pointers, files as byte sequences [fbyte].
      FsSync, FsTrunc: flushing and truncation.  FsIso: files do not share
      blocks.  FsDir, FsPath, FsCreate: directories, path walks, creation.
    - FsDemo: a controller that satisfies the laws and a small disk.
      FsProps: the properties.

    ** The network server (net/)

    - Inet, InetProofs (net/lwip/core): addresses, byte order, checksums.
    - SysArch, SysProofs (net/lwip/jos/arch): semaphores and mailboxes.
    - Heap, HeapProofs, HeapClient (net/lwip/core/mem.c): the allocator, its
      block chain, and its contract as clients use it.
    - NetDemo: concrete states.  NetProps: the properties.

    ** Bounds

    Loops over tables are over [range]; recursion that is not structural has
    fuel with a proof that it is enough: vprintfmt consumes its format
    and printnum divides its number, 64 levels for 64 bits
    ([vprintfmt_total] covers both), page faults nest at most three deep ([touch_spec]),
    a path walk consumes its path, a copy loop moves at least one byte.

    ** Not modelled

    Assembly (boot loader, entry, trap stubs), memory and processor discovery
    at boot, the PCI and network card drivers, the monitor's commands and
    symbol tables, the protocols of the imported TCP/IP stack, and the user
    library above the system calls apart from fork (ipc, spawn, files).
    In fork, the stack writes of the library, the assembly upcall and
    interrupts between two system calls are left out.  Kernel code runs to completion in one step of [Machine]:
    the kernel lock makes other CPUs wait, so their interleaving inside the
    kernel is not modelled. *)

From stdpp Require Export base gmap sets list strings fin_maps.
From Stdlib Require Export ZArith Lia.

Declare Scope jos_scope.
Delimit Scope jos_scope with jos.
Global Open Scope Z_scope.

(** ** Machine integers

    C integers are kept as [Z]; the wrap-around of each width is written
    out where the code relies on it. *)

Definition u8 (x : Z) : Z := x `mod` 256.
Definition u16 (x : Z) : Z := x `mod` 65536.
Definition u32 (x : Z) : Z := x `mod` 4294967296.
Definition s32 (x : Z) : Z := (x + 2147483648) `mod` 4294967296 - 2147483648.

(** C truth value of an integer: [if (x)]. *)
Definition ctrue (x : Z) : bool := negb (x =? 0).
(** C value of a comparison. *)
Definition cbool (b : bool) : Z := if b then 1 else 0.

Lemma u32_range x : 0 ≤ u32 x < 4294967296.
Proof. unfold u32. apply Z.mod_pos_bound. lia. Qed.
Lemma u16_range x : 0 ≤ u16 x < 65536.
Proof. unfold u16. apply Z.mod_pos_bound. lia. Qed.
Lemma u8_range x : 0 ≤ u8 x < 256.
Proof. unfold u8. apply Z.mod_pos_bound. lia. Qed.
Lemma u32_small x : 0 ≤ x < 4294967296 → u32 x = x.
Proof. intros. unfold u32. by apply Z.mod_small. Qed.
Lemma u16_small x : 0 ≤ x < 65536 → u16 x = x.
Proof. intros. unfold u16. by apply Z.mod_small. Qed.
Lemma u8_small x : 0 ≤ x < 256 → u8 x = x.
Proof. intros. unfold u8. by apply Z.mod_small. Qed.
Lemma u32_idem x : u32 (u32 x) = u32 x.
Proof. apply u32_small, u32_range. Qed.
Lemma s32_small x : -2147483648 ≤ x < 2147483648 → s32 x = x.
Proof. intros. unfold s32. rewrite Z.mod_small; lia. Qed.
Lemma s32_range x : -2147483648 ≤ s32 x < 2147483648.
Proof.
  unfold s32. pose proof (Z.mod_pos_bound (x + 2147483648) 4294967296). lia.
Qed.

Lemma ctrue_true x : ctrue x = true ↔ x ≠ 0.
Proof. unfold ctrue. rewrite negb_true_iff, Z.eqb_neq. done. Qed.
Lemma ctrue_false x : ctrue x = false ↔ x = 0.
Proof. unfold ctrue. rewrite negb_false_iff, Z.eqb_eq. done. Qed.

(** ** Masks as division and remainder *)

Lemma land_ones_mod x n : 0 ≤ n → Z.land x (Z.ones n) = x `mod` 2 ^ n.
Proof. apply Z.land_ones. Qed.

Lemma land_1 x : Z.land x 1 = x `mod` 2.
Proof. exact (Z.land_ones x 1 ltac:(lia)). Qed.
Lemma land_0xFFF x : Z.land x 4095 = x `mod` 4096.
Proof. exact (Z.land_ones x 12 ltac:(lia)). Qed.
Lemma land_0x3FF x : Z.land x 1023 = x `mod` 1024.
Proof. exact (Z.land_ones x 10 ltac:(lia)). Qed.

(** Low bits disjoint from a multiple: bitwise or is addition. *)
Lemma lor_add_disjoint a b n :
  0 ≤ n → a `mod` 2 ^ n = 0 → 0 ≤ b < 2 ^ n → Z.lor a b = a + b.
Proof.
  intros Hn Ha Hb.
  assert (Hd : Z.land a b = 0).
  { apply Z.bits_inj'. intros i Hi. rewrite Z.land_spec, Z.bits_0.
    destruct (decide (i < n)).
    - replace (Z.testbit a i) with false; [done|].
      rewrite <- (Z.mod_pow2_bits_low a n i) by lia. by rewrite Ha, Z.bits_0.
    - replace (Z.testbit b i) with false; [by rewrite andb_false_r|].
      rewrite <- (Z.mod_small b (2 ^ n)) by lia.
      by rewrite Z.mod_pow2_bits_high by lia. }
  pose proof (Z.add_lor_land a b). lia.
Qed.

Lemma lor_range a b n : 0 ≤ n → 0 ≤ a < 2 ^ n → 0 ≤ b < 2 ^ n → 0 ≤ Z.lor a b < 2 ^ n.
Proof.
  intros Hn Ha Hb. assert (0 ≤ Z.lor a b) by (apply Z.lor_nonneg; lia). split; [done|].
  assert (Hs : Z.lor a b / 2 ^ n = 0).
  { rewrite <- Z.shiftr_div_pow2, Z.shiftr_lor, !Z.shiftr_div_pow2 by lia.
    by rewrite !Z.div_small by lia. }
  apply Z.div_small_iff in Hs; lia.
Qed.

(** ** State with early stop

    Kernel and server code is translated into a state monad whose
    computations may also stop: [Stop r s] records why the code does not
    return to its caller (a panic, a context switch, ...) and the state at
    that point. *)

Inductive outcome (S R A : Type) : Type :=
| Ok (a : A) (s : S)
| Stop (r : R) (s : S).
Arguments Ok {S R A} a s.
Arguments Stop {S R A} r s.

Definition M (S R A : Type) : Type := S → outcome S R A.

Global Instance M_ret S R : MRet (M S R) := λ A a s, Ok a s.
Global Instance M_bind S R : MBind (M S R) := λ A B f m s,
  match m s with Ok a s' => f a s' | Stop r s' => Stop r s' end.

Section Monad.
Context {S R : Type}.

Definition gets {A} (f : S → A) : M S R A := λ s, Ok (f s) s.
Definition modify (f : S → S) : M S R unit := λ s, Ok tt (f s).
Definition stop {A} (r : R) : M S R A := λ s, Stop r s.

(** [for (x in l) f x] *)
Fixpoint forM {A} (l : list A) (f : A → M S R unit) : M S R unit :=
  match l with
  | [] => mret tt
  | x :: l => f x ;; forM l f
  end.

(** [for (x in l) if ((r = f x) is Some) return r], [None] when the loop
    runs to its end. *)
Fixpoint forE {A B} (l : list A) (f : A → M S R (option B)) : M S R (option B) :=
  match l with
  | [] => mret None
  | x :: l => r ← f x; match r with Some b => mret (Some b) | None => forE l f end
  end.

(** A loop whose body either continues with a new loop state or leaves
    with a result; [None] when the fuel is used up. *)
Fixpoint loopM {X B} (fuel : nat) (body : X → M S R (X + B)) (x : X) : M S R (option B) :=
  match fuel with
  | O => mret None
  | Datatypes.S fuel => r ← body x; match r with inl x' => loopM fuel body x' | inr b => mret (Some b) end
  end.
End Monad.

(** ** Weakest preconditions

    [wp m Q E s]: run from [s], [m] either returns and its value and final
    state satisfy [Q], or stops and the reason and state satisfy [E]. *)

Definition wp {S R A} (m : M S R A) (Q : A → S → Prop) (E : R → S → Prop) (s : S) : Prop :=
  match m s with Ok a s' => Q a s' | Stop r s' => E r s' end.

(** No stop allowed. *)
Definition no_stop {S R : Type} : R → S → Prop := λ _ _, False.

Section Wp.
Context {S R : Type}.
Implicit Types s : S.

Lemma wp_ret {A} (a : A) (Q : A → S → Prop) (E : R → S → Prop) s : Q a s → wp (mret a) Q E s.
Proof. done. Qed.

Lemma wp_bind {A B} (m : M S R A) (f : A → M S R B) Q E s :
  wp m (λ a, wp (f a) Q E) E s → wp (m ≫= f) Q E s.
Proof. unfold wp, mbind, M_bind. by destruct (m s). Qed.

Lemma wp_mono {A} (m : M S R A) (Q Q' : A → S → Prop) (E E' : R → S → Prop) s :
  wp m Q E s → (∀ a s', Q a s' → Q' a s') → (∀ r s', E r s' → E' r s') → wp m Q' E' s.
Proof. unfold wp. destruct (m s); naive_solver. Qed.

Lemma wp_gets {A} (f : S → A) (Q : A → S → Prop) (E : R → S → Prop) s : Q (f s) s → wp (gets f) Q E s.
Proof. done. Qed.
Lemma wp_modify (f : S → S) (Q : unit → S → Prop) (E : R → S → Prop) s : Q tt (f s) → wp (modify f) Q E s.
Proof. done. Qed.
Lemma wp_stop {A} (r : R) (Q : A → S → Prop) (E : R → S → Prop) s : E r s → wp (stop r) Q E s.
Proof. done. Qed.

Lemma wp_ok {A} (m : M S R A) Q E s a s' : m s = Ok a s' → Q a s' → wp m Q E s.
Proof. unfold wp. by intros ->. Qed.

Lemma wp_no_stop {A} (m : M S R A) Q s :
  wp m Q no_stop s → ∃ a s', m s = Ok a s' ∧ Q a s'.
Proof. unfold wp, no_stop. destruct (m s); naive_solver. Qed.
Lemma wp_stops {A} (m : M S R A) E s :
  wp m (λ _ _, False) E s → ∃ r s', m s = Stop r s' ∧ E r s'.
Proof. unfold wp. destruct (m s); naive_solver. Qed.
Lemma wp_runs {A} (m : M S R A) Q E s :
  wp m Q E s → (∃ a s', m s = Ok a s' ∧ Q a s') ∨ (∃ r s', m s = Stop r s' ∧ E r s').
Proof. unfold wp. destruct (m s); naive_solver. Qed.

(** Loop rule: an invariant over the part of the list already visited. *)
Lemma wp_forM {A} (l : list A) (f : A → M S R unit) (I : list A → S → Prop) Q E s :
  I [] s →
  (∀ done_ x todo s, l = done_ ++ x :: todo → I done_ s →
     wp (f x) (λ _ s', I (done_ ++ [x]) s') E s) →
  (∀ s, I l s → Q tt s) →
  wp (forM l f) Q E s.
Proof.
  intros H0 Hstep HQ.
  assert (Hgen : ∀ todo done_ s, l = done_ ++ todo → I done_ s → wp (forM todo f) Q E s).
  { induction todo as [|x todo IH]; intros d s1 Hl HI.
    - rewrite app_nil_r in Hl. subst d. by apply wp_ret, HQ.
    - simpl. apply wp_bind. eapply wp_mono; [by eapply Hstep| |done].
      intros [] s2 HI2. apply (IH (d ++ [x])); [by rewrite <- app_assoc|done]. }
  by apply (Hgen l []).
Qed.

Lemma wp_forE {A B} (l : list A) (f : A → M S R (option B)) (I : list A → S → Prop) Q E s :
  I [] s →
  (∀ done_ x todo s, l = done_ ++ x :: todo → I done_ s →
     wp (f x) (λ r s', match r with Some b => Q (Some b) s' | None => I (done_ ++ [x]) s' end) E s) →
  (∀ s, I l s → Q None s) →
  wp (forE l f) Q E s.
Proof.
  intros H0 Hstep HQ.
  assert (Hgen : ∀ todo done_ s, l = done_ ++ todo → I done_ s → wp (forE todo f) Q E s).
  { induction todo as [|x todo IH]; intros d s1 Hl HI.
    - rewrite app_nil_r in Hl. subst d. by apply wp_ret, HQ.
    - simpl. apply wp_bind. eapply wp_mono; [by eapply Hstep| |done].
      intros [b|] s2 HI2; [by apply wp_ret|].
      apply (IH (d ++ [x])); [by rewrite <- app_assoc|done]. }
  by apply (Hgen l []).
Qed.
End Wp.

(** One symbolic step through a computation. *)
Ltac wp_step :=
  first
    [ apply wp_bind
    | apply wp_ret
    | apply wp_gets
    | apply wp_modify
    | apply wp_stop ].
Ltac wp_steps := repeat wp_step.

(** Set reasoning from the named hypotheses only. *)
Tactic Notation "sets" "using" hyp_list(Hs) := clear - Hs; set_solver.

(** ** Integer ranges *)

(** [range lo hi = [lo; lo+1; ...; hi-1]], the index list of a C for loop. *)
Definition range (lo hi : Z) : list Z := seqZ lo (hi - lo).

Lemma elem_of_range lo hi x : x ∈ range lo hi ↔ lo ≤ x < hi.
Proof. unfold range. rewrite elem_of_seqZ. lia. Qed.

Lemma range_nil lo hi : hi ≤ lo → range lo hi = [].
Proof. intros. unfold range. apply seqZ_nil. lia. Qed.

Lemma range_cons lo hi : lo < hi → range lo hi = lo :: range (lo + 1) hi.
Proof.
  intros. unfold range. rewrite seqZ_cons by lia. f_equal.
  unfold Z.succ. f_equal; lia.
Qed.

(** What has been visited when a range loop reaches [x]. *)
Lemma range_split lo hi d x t :
  range lo hi = d ++ x :: t → d = range lo x ∧ lo ≤ x < hi.
Proof.
  unfold range. intros H.
  assert (Hx : seqZ lo (hi - lo) !! length d = Some x).
  { rewrite H. rewrite lookup_app_r by lia. by rewrite Nat.sub_diag. }
  apply lookup_seqZ in Hx as [Hx1 Hx2].
  split; [|lia].
  apply list_eq. intros i.
  destruct (decide (i < length d)%nat).
  - assert (Hi : seqZ lo (hi - lo) !! i = d !! i).
    { rewrite H. by rewrite lookup_app_l. }
    rewrite <- Hi. transitivity (Some (lo + Z.of_nat i)).
    + apply lookup_seqZ. lia.
    + symmetry. apply lookup_seqZ. lia.
  - rewrite lookup_ge_None_2 by lia. symmetry.
    apply lookup_seqZ_ge. lia.
Qed.

Lemma range_snoc lo x : lo ≤ x → range lo x ++ [x] = range lo (x + 1).
Proof.
  intros. unfold range. replace (x + 1 - lo) with ((x - lo) + 1) by lia.
  rewrite seqZ_app by lia. do 2 f_equal.
  rewrite seqZ_cons by lia. rewrite seqZ_nil by lia. f_equal. lia.
Qed.

Lemma NoDup_range lo hi : NoDup (range lo hi).
Proof. apply NoDup_seqZ. Qed.

(** Loop rule for [for (i = lo; i < hi; i++)]. *)
Lemma wp_for_range {S R} lo hi (f : Z → M S R unit) (I : Z → S → Prop) Q E s :
  lo ≤ hi →
  I lo s →
  (∀ i s, lo ≤ i < hi → I i s → wp (f i) (λ _ s', I (i + 1) s') E s) →
  (∀ s, I hi s → Q tt s) →
  wp (forM (range lo hi) f) Q E s.
Proof.
  intros Hle H0 Hstep HQ.
  apply wp_forM with (I := λ d s, I (lo + Z.of_nat (length d)) s).
  - simpl. by rewrite Z.add_0_r.
  - intros d x t s1 Hl HI.
    destruct (range_split _ _ _ _ _ Hl) as [-> Hx].
    unfold range in HI. rewrite length_seqZ in HI.
    replace (lo + Z.of_nat (Z.to_nat (x - lo))) with x in HI by lia.
    eapply wp_mono; [by apply Hstep| |done].
    intros [] s2 HI2. rewrite length_app. unfold range. rewrite length_seqZ. simpl.
    by replace (lo + Z.of_nat (Z.to_nat (x - lo) + 1)) with (x + 1) by lia.
  - intros s1 HI. apply HQ. unfold range in HI. rewrite length_seqZ in HI.
    by replace (lo + Z.of_nat (Z.to_nat (hi - lo))) with hi in HI by lia.
Qed.
Lemma wp_forE_range {S R B} lo hi (f : Z → M S R (option B)) (I : Z → S → Prop) Q E s :
  lo ≤ hi →
  I lo s →
  (∀ i s, lo ≤ i < hi → I i s → wp (f i) (λ r s', match r with Some b => Q (Some b) s' | None => I (i + 1) s' end) E s) →
  (∀ s, I hi s → Q None s) →
  wp (forE (range lo hi) f) Q E s.
Proof.
  intros Hle H0 Hstep HQ.
  apply wp_forE with (I := λ d s, I (lo + Z.of_nat (length d)) s).
  - by rewrite Z.add_0_r.
  - intros d x todo s1 Hl HI. destruct (range_split _ _ _ _ _ Hl) as [-> Hx].
    replace (lo + Z.of_nat (length (range lo x))) with x in HI by (unfold range; rewrite length_seqZ; lia).
    eapply wp_mono; [apply Hstep; [lia|exact HI]| |done]. intros [b|] s2 H2; [exact H2|].
    rewrite length_app. cbn [length]. unfold range. rewrite length_seqZ.
    replace (lo + Z.of_nat (Z.to_nat (x - lo) + 1)) with (x + 1) by lia. exact H2.
  - intros s1 HI. apply HQ. replace (lo + Z.of_nat (length (range lo hi))) with hi in HI; [exact HI|].
    unfold range. rewrite length_seqZ. lia.
Qed.
