(* ===== verification/Console.v ===== *)
(** * Console devices and the console input buffer

    kern/console.c and kern/picirq.c.  The devices are reached by port I/O:
    [inputs] is the sequence of values the next [inb]s return (0 once it is
    used up: no device has data), [port_log] records every [outb] and every
    console message, newest first.  The display memory is [crt_buf].

    [cons_intr] runs as long as the device has data; with [inputs] of length
    n at most n rounds deliver a character, so n + 1 rounds of fuel are
    enough (cons_intr_ok of ConsoleProofs). *)

From S2P Require Import Prelude.

Inductive port_event :=
| Outb (port v : Z)
| Message (msg : string) (args : list Z).

Definition CONSBUFSIZE : Z := 512.
Definition CRT_ROWS : Z := 25.
Definition CRT_COLS : Z := 80.
Definition CRT_SIZE : Z := CRT_ROWS * CRT_COLS.

Record Console := {
  inputs : list Z;
  port_log : list port_event;
  serial_exists : bool;
  addr_6845 : Z;
  crt_buf : gmap Z Z;
  crt_pos : Z;                 (* uint16_t *)
  kbd_shift : Z;               (* static shift of kbd_proc_data *)
  cons_buf : gmap Z Z;
  cons_rpos : Z;
  cons_wpos : Z;
  irq_mask_8259A : Z;
  pic_didinit : bool
}.

Section ConsoleSet.
Implicit Types s : Console.
Definition set_inputs v s := Build_Console v (port_log s) (serial_exists s) (addr_6845 s) (crt_buf s) (crt_pos s) (kbd_shift s) (cons_buf s) (cons_rpos s) (cons_wpos s) (irq_mask_8259A s) (pic_didinit s).
Definition set_port_log v s := Build_Console (inputs s) v (serial_exists s) (addr_6845 s) (crt_buf s) (crt_pos s) (kbd_shift s) (cons_buf s) (cons_rpos s) (cons_wpos s) (irq_mask_8259A s) (pic_didinit s).
Definition set_serial_exists v s := Build_Console (inputs s) (port_log s) v (addr_6845 s) (crt_buf s) (crt_pos s) (kbd_shift s) (cons_buf s) (cons_rpos s) (cons_wpos s) (irq_mask_8259A s) (pic_didinit s).
Definition set_addr_6845 v s := Build_Console (inputs s) (port_log s) (serial_exists s) v (crt_buf s) (crt_pos s) (kbd_shift s) (cons_buf s) (cons_rpos s) (cons_wpos s) (irq_mask_8259A s) (pic_didinit s).
Definition set_crt_buf v s := Build_Console (inputs s) (port_log s) (serial_exists s) (addr_6845 s) v (crt_pos s) (kbd_shift s) (cons_buf s) (cons_rpos s) (cons_wpos s) (irq_mask_8259A s) (pic_didinit s).
Definition set_crt_pos v s := Build_Console (inputs s) (port_log s) (serial_exists s) (addr_6845 s) (crt_buf s) v (kbd_shift s) (cons_buf s) (cons_rpos s) (cons_wpos s) (irq_mask_8259A s) (pic_didinit s).
Definition set_kbd_shift v s := Build_Console (inputs s) (port_log s) (serial_exists s) (addr_6845 s) (crt_buf s) (crt_pos s) v (cons_buf s) (cons_rpos s) (cons_wpos s) (irq_mask_8259A s) (pic_didinit s).
Definition set_cons_buf v s := Build_Console (inputs s) (port_log s) (serial_exists s) (addr_6845 s) (crt_buf s) (crt_pos s) (kbd_shift s) v (cons_rpos s) (cons_wpos s) (irq_mask_8259A s) (pic_didinit s).
Definition set_cons_rpos v s := Build_Console (inputs s) (port_log s) (serial_exists s) (addr_6845 s) (crt_buf s) (crt_pos s) (kbd_shift s) (cons_buf s) v (cons_wpos s) (irq_mask_8259A s) (pic_didinit s).
Definition set_cons_wpos v s := Build_Console (inputs s) (port_log s) (serial_exists s) (addr_6845 s) (crt_buf s) (crt_pos s) (kbd_shift s) (cons_buf s) (cons_rpos s) v (irq_mask_8259A s) (pic_didinit s).
Definition set_irq_mask v s := Build_Console (inputs s) (port_log s) (serial_exists s) (addr_6845 s) (crt_buf s) (crt_pos s) (kbd_shift s) (cons_buf s) (cons_rpos s) (cons_wpos s) v (pic_didinit s).
Definition set_pic_didinit v s := Build_Console (inputs s) (port_log s) (serial_exists s) (addr_6845 s) (crt_buf s) (crt_pos s) (kbd_shift s) (cons_buf s) (cons_rpos s) (cons_wpos s) (irq_mask_8259A s) v.
End ConsoleSet.

(** Console code never stops. *)
Definition C (A : Type) : Type := M Console Empty_set A.

(** The devices are free to answer anything: a run of the code with given
    devices is the run on the list of the bytes they return, in the order of
    the reads and whatever the ports; the theorems are for every list. *)
Definition inb (port : Z) : C Z :=
  l ← gets inputs;
  match l with
  | [] => mret 0
  | v :: l => modify (set_inputs l) ;; mret (u8 v)
  end.
Definition outb (port v : Z) : C unit := modify (λ s, set_port_log (Outb port (u8 v) :: port_log s) s).
Definition message (msg : string) (args : list Z) : C unit :=
  modify (λ s, set_port_log (Message msg args :: port_log s) s).

Definition bit_set (x m : Z) : bool := ctrue (Z.land x m).

(** ** kern/picirq.c *)

Definition IO_PIC1 : Z := 0x20.
Definition IO_PIC2 : Z := 0xA0.
Definition IRQ_SLAVE : Z := 2.

Definition irq_setmask_8259A (mask : Z) : C unit :=
  modify (set_irq_mask (u16 mask)) ;;
  did ← gets pic_didinit;
  if negb did then mret tt
  else
    outb (IO_PIC1 + 1) mask ;;
    outb (IO_PIC2 + 1) (Z.shiftr (u16 mask) 8) ;;
    message "enabled interrupts:" [] ;;
    forM (range 0 16) (λ i,
      if bit_set (Z.lnot (u16 mask)) (Z.shiftl 1 i) then message " %d" [i] else mret tt) ;;
    message "\n" [].

Definition pic_init : C unit :=
  modify (set_pic_didinit true) ;;
  outb (IO_PIC1 + 1) 0xFF ;;
  outb (IO_PIC2 + 1) 0xFF ;;
  outb IO_PIC1 0x11 ;;
  outb (IO_PIC1 + 1) 32 ;;
  outb (IO_PIC1 + 1) (Z.shiftl 1 IRQ_SLAVE) ;;
  outb (IO_PIC1 + 1) 0x3 ;;
  outb IO_PIC2 0x11 ;;
  outb (IO_PIC2 + 1) (32 + 8) ;;
  outb (IO_PIC2 + 1) IRQ_SLAVE ;;
  outb (IO_PIC2 + 1) 0x01 ;;
  outb IO_PIC1 0x68 ;;
  outb IO_PIC1 0x0a ;;
  outb IO_PIC2 0x68 ;;
  outb IO_PIC2 0x0a ;;
  m ← gets irq_mask_8259A;
  if negb (m =? 0xFFFF) then irq_setmask_8259A m else mret tt.

Definition irq_eoi : C unit := outb IO_PIC1 0x20 ;; outb IO_PIC2 0x20.

(** ** Serial port *)

Definition COM1 : Z := 0x3F8.
Definition COM_RX : Z := 0.
Definition COM_TX : Z := 0.
Definition COM_DLL : Z := 0.
Definition COM_DLM : Z := 1.
Definition COM_IER : Z := 1.
Definition COM_IIR : Z := 2.
Definition COM_FCR : Z := 2.
Definition COM_LCR : Z := 3.
Definition COM_LCR_DLAB : Z := 0x80.
Definition COM_LCR_WLEN8 : Z := 0x03.
Definition COM_MCR : Z := 4.
Definition COM_LSR : Z := 5.
Definition COM_LSR_DATA : Z := 0x01.
Definition COM_LSR_TXRDY : Z := 0x20.
Definition IRQ_KBD : Z := 1.
Definition IRQ_SERIAL : Z := 4.

Definition delay : C unit :=
  inb 0x84 ;; inb 0x84 ;; inb 0x84 ;; inb 0x84 ;; mret tt.

Definition serial_proc_data : C Z :=
  lsr ← inb (COM1 + COM_LSR);
  if negb (bit_set lsr COM_LSR_DATA) then mret (-1) else inb (COM1 + COM_RX).

(** [for (i = 0; !(inb(port) & mask) && i < n; i++) delay();] *)
Fixpoint poll_ready (port mask : Z) (n : nat) : C unit :=
  v ← inb port;
  if bit_set v mask then mret tt
  else match n with O => mret tt | S n => delay ;; poll_ready port mask n end.

Definition serial_putc (c : Z) : C unit :=
  poll_ready (COM1 + COM_LSR) COM_LSR_TXRDY (Z.to_nat 12800) ;;
  outb (COM1 + COM_TX) c.

Definition serial_init : C unit :=
  outb (COM1 + COM_FCR) 0 ;;
  outb (COM1 + COM_LCR) COM_LCR_DLAB ;;
  outb (COM1 + COM_DLL) (115200 / 9600) ;;
  outb (COM1 + COM_DLM) 0 ;;
  outb (COM1 + COM_LCR) (Z.land COM_LCR_WLEN8 (Z.lnot COM_LCR_DLAB)) ;;
  outb (COM1 + COM_MCR) 0 ;;
  outb (COM1 + COM_IER) 0x01 ;;
  lsr ← inb (COM1 + COM_LSR);
  modify (set_serial_exists (negb (lsr =? 0xFF))) ;;
  inb (COM1 + COM_IIR) ;;
  inb (COM1 + COM_RX) ;;
  ex ← gets serial_exists;
  if ex : bool then
    m ← gets irq_mask_8259A;
    irq_setmask_8259A (Z.land m (Z.lnot (Z.shiftl 1 IRQ_SERIAL)))
  else mret tt.

(** ** Parallel port *)

Definition lpt_putc (c : Z) : C unit :=
  poll_ready (0x378 + 1) 0x80 (Z.to_nat 12800) ;;
  outb (0x378 + 0) c ;;
  outb (0x378 + 2) (Z.lor (Z.lor 0x08 0x04) 0x01) ;;
  outb (0x378 + 2) 0x08.

(** ** Display *)

Definition MONO_BASE : Z := 0x3B4.
Definition CGA_BASE : Z := 0x3D4.

Section Cga.
(** Whether the colour display answers the probe of its buffer. *)
Variable cga_present : bool.

Definition cga_init : C unit :=
  modify (set_addr_6845 (if cga_present then CGA_BASE else MONO_BASE)) ;;
  a ← gets addr_6845;
  outb a 14 ;;
  hi ← inb (a + 1);
  outb a 15 ;;
  lo ← inb (a + 1);
  modify (set_crt_pos (u16 (Z.lor (Z.shiftl hi 8) lo))).

End Cga.

(** The memmove and the blank last line. *)
Definition scroll (b : gmap Z Z) : gmap Z Z :=
  let moved := foldr (λ i m, match b !! (i + CRT_COLS) with Some v => <[i := v]> m | None => delete i m end)
                 b (range 0 (CRT_SIZE - CRT_COLS)) in
  foldr (λ i m, <[i := Z.lor 0x0700 32]> m) moved (range (CRT_SIZE - CRT_COLS) CRT_SIZE).

(** cga_putc with [putc] for the recursive calls of the tab case. *)
Definition cga_putc_body (putc : Z → C unit) (c : Z) : C unit :=
  let c := if negb (bit_set c (Z.lnot 0xFF)) then Z.lor c 0x0700 else c in
  let ch := Z.land c 0xff in
  (if ch =? 8 then
     p ← gets crt_pos;
     if p >? 0 then
       modify (set_crt_pos (p - 1)) ;;
       modify (λ s, set_crt_buf (<[p - 1 := u16 (Z.lor (Z.land c (Z.lnot 0xff)) 32)]> (crt_buf s)) s)
     else mret tt
   else if (ch =? 10) || (ch =? 13) then
     (if ch =? 10 then modify (λ s, set_crt_pos (u16 (crt_pos s + CRT_COLS)) s) else mret tt) ;;
     modify (λ s, set_crt_pos (u16 (crt_pos s - crt_pos s `mod` CRT_COLS)) s)
   else if ch =? 9 then
     putc 32 ;; putc 32 ;; putc 32 ;; putc 32 ;; putc 32
   else
     p ← gets crt_pos;
     modify (λ s, set_crt_buf (<[p := u16 c]> (crt_buf s)) s) ;;
     modify (set_crt_pos (u16 (p + 1)))) ;;
  p ← gets crt_pos;
  (if p >=? CRT_SIZE
   then modify (λ s, set_crt_buf (scroll (crt_buf s)) s) ;;
        modify (set_crt_pos (u16 (p - CRT_COLS)))
   else mret tt) ;;
  a ← gets addr_6845;
  p ← gets crt_pos;
  outb a 14 ;;
  outb (a + 1) (Z.shiftr p 8) ;;
  outb a 15 ;;
  outb (a + 1) p.

(** cons_putc calls cga_putc, and cga_putc calls cons_putc on blanks for a
    tab: the nesting depth is at most two (cons_putc_depth of ConsoleProofs). *)
Fixpoint cons_putc_rec (depth : nat) (c : Z) : C unit :=
  match depth with
  | O => mret tt
  | S d => serial_putc c ;; lpt_putc c ;; cga_putc_body (cons_putc_rec d) c
  end.
Definition cons_putc (c : Z) : C unit := cons_putc_rec 2 c.
Definition cga_putc (c : Z) : C unit := cga_putc_body cons_putc c.
Definition cputchar (c : Z) : C unit := cons_putc c.

(** ** Keyboard *)

Definition SHIFT : Z := Z.shiftl 1 0.
Definition CTL : Z := Z.shiftl 1 1.
Definition ALT : Z := Z.shiftl 1 2.
Definition CAPSLOCK : Z := Z.shiftl 1 3.
Definition NUMLOCK : Z := Z.shiftl 1 4.
Definition SCROLLLOCK : Z := Z.shiftl 1 5.
Definition E0ESC : Z := Z.shiftl 1 6.

Definition KBSTATP : Z := 0x64.
Definition KBDATAP : Z := 0x60.
Definition KBS_DIB : Z := 0x01.
Definition KBS_TERR : Z := 0x20.
Definition KEY_DEL : Z := 0xE9.

(** A 256-entry C array initialiser: leading elements, then designated ones;
    the others are 0. *)
Definition table (elems : list Z) (designated : list (Z * Z)) (i : Z) : Z :=
  match list_find (λ p, p.1 = i) designated with
  | Some (_, (_, v)) => v
  | None => default 0 (elems !! Z.to_nat i)
  end.

Definition shiftcode : Z → Z := table
  []
  [(0x1D, 2); (0x2A, 1); (0x36, 1); (0x38, 4); (0x9D, 2); (0xB8, 4)].

Definition togglecode : Z → Z := table
  []
  [(0x3A, 8); (0x45, 16); (0x46, 32)].

Definition normalmap : Z → Z := table
  [0; 27; 49; 50; 51; 52; 53; 54;
   55; 56; 57; 48; 45; 61; 8; 9;
   113; 119; 101; 114; 116; 121; 117; 105;
   111; 112; 91; 93; 10; 0; 97; 115;
   100; 102; 103; 104; 106; 107; 108; 59;
   39; 96; 0; 92; 122; 120; 99; 118;
   98; 110; 109; 44; 46; 47; 0; 42;
   0; 32; 0; 0; 0; 0; 0; 0;
   0; 0; 0; 0; 0; 0; 0; 55;
   56; 57; 45; 52; 53; 54; 43; 49;
   50; 51; 48; 46; 0; 0; 0; 0]
  [(0xC7, 224); (0x9C, 10); (0xB5, 47); (0xC8, 226); (0xC9, 230); (0xCB, 228); (0xCD, 229); (0xCF, 225); (0xD0, 227); (0xD1, 231); (0xD2, 232); (0xD3, 233)].

Definition shiftmap : Z → Z := table
  [0; 27; 33; 64; 35; 36; 37; 94;
   38; 42; 40; 41; 95; 43; 8; 9;
   81; 87; 69; 82; 84; 89; 85; 73;
   79; 80; 123; 125; 10; 0; 65; 83;
   68; 70; 71; 72; 74; 75; 76; 58;
   34; 126; 0; 124; 90; 88; 67; 86;
   66; 78; 77; 60; 62; 63; 0; 42;
   0; 32; 0; 0; 0; 0; 0; 0;
   0; 0; 0; 0; 0; 0; 0; 55;
   56; 57; 45; 52; 53; 54; 43; 49;
   50; 51; 48; 46; 0; 0; 0; 0]
  [(0xC7, 224); (0x9C, 10); (0xB5, 47); (0xC8, 226); (0xC9, 230); (0xCB, 228); (0xCD, 229); (0xCF, 225); (0xD0, 227); (0xD1, 231); (0xD2, 232); (0xD3, 233)].

Definition ctlmap : Z → Z := table
  [0; 0; 0; 0; 0; 0; 0; 0;
   0; 0; 0; 0; 0; 0; 0; 0;
   17; 23; 5; 18; 20; 25; 21; 9;
   15; 16; 0; 0; 13; 0; 1; 19;
   4; 6; 7; 8; 10; 11; 12; 0;
   0; 0; 0; 28; 26; 24; 3; 22;
   2; 14; 13; 0; 0; 239; 0; 0]
  [(0x97, 224); (0xB5, 239); (0xC8, 226); (0xC9, 230); (0xCB, 228); (0xCD, 229); (0xCF, 225); (0xD0, 227); (0xD1, 231); (0xD2, 232); (0xD3, 233)].

Definition charcode (i : Z) : Z → Z :=
  if i =? 0 then normalmap else if i =? 1 then shiftmap else ctlmap.

Definition kbd_proc_data : C Z :=
  stat ← inb KBSTATP;
  if Z.land stat KBS_DIB =? 0 then mret (-1)
  else if bit_set stat KBS_TERR then mret (-1)
  else
    data ← inb KBDATAP;
    shift ← gets kbd_shift;
    if data =? 0xE0 then
      modify (set_kbd_shift (Z.lor shift E0ESC)) ;; mret 0
    else if bit_set data 0x80 then
      let data := if bit_set shift E0ESC then data else Z.land data 0x7F in
      modify (set_kbd_shift (Z.land shift (Z.lnot (Z.lor (shiftcode data) E0ESC)))) ;; mret 0
    else
      let esc := bit_set shift E0ESC in
      let data := if esc then Z.lor data 0x80 else data in
      let shift := if esc then Z.land shift (Z.lnot E0ESC) else shift in
      let shift := Z.lor shift (shiftcode data) in
      let shift := Z.lxor shift (togglecode data) in
      modify (set_kbd_shift shift) ;;
      let c := charcode (Z.land shift (Z.lor CTL SHIFT)) data in
      let c := if bit_set shift CAPSLOCK then
                 if (97 <=? c) && (c <=? 122) then c + (65 - 97)
                 else if (65 <=? c) && (c <=? 90) then c + (97 - 65) else c
               else c in
      (if negb (bit_set (Z.lnot shift) (Z.lor CTL ALT)) && (c =? KEY_DEL)
       then message "Rebooting!\n" [] ;; outb 0x92 0x3
       else mret tt) ;;
      mret c.

(** ** The input buffer *)

(** One round of cons_intr with the character [c]. *)
Definition cons_store (c : Z) : C unit :=
  if c =? 0 then mret tt
  else
    w ← gets cons_wpos;
    modify (λ s, set_cons_buf (<[w := u8 c]> (cons_buf s)) s) ;;
    modify (set_cons_wpos (if w + 1 =? CONSBUFSIZE then 0 else w + 1)).

(** [while ((c = ( *proc)()) != -1)]; [None] is out of fuel. *)
Definition cons_intr_fuel (proc : C Z) (fuel : nat) : C (option unit) :=
  loopM fuel (λ _ : unit,
    c ← proc;
    if c =? -1 then mret (inr tt) else cons_store c ;; mret (inl tt)) tt.

Definition cons_intr (proc : C Z) : C unit :=
  l ← gets inputs;
  cons_intr_fuel proc (S (length l)) ;; mret tt.

Definition serial_intr : C unit :=
  ex ← gets serial_exists;
  if ex : bool then cons_intr serial_proc_data else mret tt.
Definition kbd_intr : C unit := cons_intr kbd_proc_data.

Definition kbd_init : C unit :=
  kbd_intr ;;
  m ← gets irq_mask_8259A;
  irq_setmask_8259A (Z.land m (Z.lnot (Z.shiftl 1 IRQ_KBD))).

Definition cons_getc : C Z :=
  serial_intr ;;
  kbd_intr ;;
  r ← gets cons_rpos;
  w ← gets cons_wpos;
  if negb (r =? w) then
    b ← gets cons_buf;
    modify (set_cons_rpos (if r + 1 =? CONSBUFSIZE then 0 else r + 1)) ;;
    mret (default 0 (b !! r))
  else mret 0.

Definition cons_init (cga_present : bool) : C unit :=
  cga_init cga_present ;;
  kbd_init ;;
  serial_init ;;
  ex ← gets serial_exists;
  if negb ex then message "Serial port does not exist!\n" [] else mret tt.

Definition iscons (fdnum : Z) : Z := 1.
