(* ===== verification/ConsoleProofs.v ===== *)
(** * Console input

    The circular buffer between the interrupt routines and cons_getc
    (kern/console.c) is a queue: [queue] lists the characters waiting.  A
    device routine ([Device]) does not look at the buffer and uses up input
    with every character, so cons_intr ends and appends what the device
    delivers; cons_getc takes from the other end. *)

From S2P Require Import Prelude Console.

Implicit Types (s : Console) (b : gmap Z Z).

(** ** The buffer as a queue *)

Definition waiting s : Z := (cons_wpos s - cons_rpos s) `mod` 512.
Definition queue s : list Z := (λ i, default 0 (cons_buf s !! ((cons_rpos s + i) `mod` 512))) <$> range 0 (waiting s).
Definition ring_ok s : Prop := 0 ≤ cons_rpos s < 512 ∧ 0 ≤ cons_wpos s < 512.

Definition set_ring b w s : Console := set_cons_wpos w (set_cons_buf b s).

Lemma waiting_range s : 0 ≤ waiting s < 512.
Proof. apply Z.mod_pos_bound. lia. Qed.

Lemma next_pos w : 0 ≤ w < 512 → (if w + 1 =? CONSBUFSIZE then 0 else w + 1) = (w + 1) `mod` 512.
Proof. intros Hw. change CONSBUFSIZE with 512. destruct (w + 1 =? 512) eqn:E; [by replace w with 511 by lia|]. rewrite Z.mod_small; lia. Qed.

Lemma length_queue s : length (queue s) = Z.to_nat (waiting s).
Proof. unfold queue. rewrite length_fmap. unfold range. rewrite length_seqZ. f_equal. lia. Qed.

Lemma lookup_queue s i : 0 ≤ i < waiting s → queue s !! Z.to_nat i = Some (default 0 (cons_buf s !! ((cons_rpos s + i) `mod` 512))).
Proof. intros Hi. unfold queue, range. rewrite list_lookup_fmap, lookup_seqZ_lt by lia. cbn [fmap option_fmap option_map]. by rewrite Z.add_0_l, Z2Nat.id by lia. Qed.

(** A character goes to the end of the queue while there is room; the room is
    one less than the size of the buffer. *)
Lemma cons_store_push c s : ring_ok s → c ≠ 0 → waiting s < 511 →
  ∃ b w, cons_store c s = Ok tt (set_ring b w s) ∧ ring_ok (set_ring b w s) ∧ queue (set_ring b w s) = queue s ++ [u8 c].
Proof.
  intros [Hr Hw] Hc Hroom. exists (<[cons_wpos s := u8 c]> (cons_buf s)), ((cons_wpos s + 1) `mod` 512).
  assert (Hn : 0 ≤ (cons_wpos s + 1) `mod` 512 < 512) by (apply Z.mod_pos_bound; lia).
  assert (Hwt : waiting (set_ring (<[cons_wpos s := u8 c]> (cons_buf s)) ((cons_wpos s + 1) `mod` 512) s) = waiting s + 1).
  { unfold waiting in *. cbn. rewrite Zminus_mod_idemp_l. replace (cons_wpos s + 1 - cons_rpos s) with (cons_wpos s - cons_rpos s + 1) by lia.
    rewrite <- Zplus_mod_idemp_l. apply Z.mod_small. pose proof (Z.mod_pos_bound (cons_wpos s - cons_rpos s) 512). lia. }
  split; [|split; [by split|]].
  - unfold cons_store. replace (c =? 0) with false by lia. by rewrite <- next_pos.
  - apply list_eq. intros i. pose proof (waiting_range s) as Hwr. destruct (decide (Z.of_nat i < waiting s + 1)) as [Hi|Hi].
    2:{ rewrite !lookup_ge_None_2; [done|rewrite length_app, length_queue; cbn; lia|rewrite length_queue, Hwt; lia]. }
    rewrite <- (Nat2Z.id i). rewrite lookup_queue by lia. cbn [cons_buf cons_rpos set_ring set_cons_wpos set_cons_buf].
    destruct (decide (Z.of_nat i < waiting s)) as [Hlt|Hge].
    + rewrite lookup_app_l by (rewrite length_queue; lia). rewrite lookup_queue by lia. rewrite lookup_insert_ne; [done|].
      unfold waiting in Hlt. intros E. rewrite E in Hlt. rewrite Zminus_mod_idemp_l in Hlt.
      replace (cons_rpos s + Z.of_nat i - cons_rpos s) with (Z.of_nat i) in Hlt by lia. rewrite Z.mod_small in Hlt; lia.
    + assert (Hi2 : Z.of_nat i = waiting s) by lia. rewrite Hi2. rewrite lookup_app_r by (rewrite length_queue; lia).
      rewrite length_queue, Nat.sub_diag. assert (E : (cons_rpos s + waiting s) `mod` 512 = cons_wpos s).
      { unfold waiting. rewrite Zplus_mod_idemp_r. replace (cons_rpos s + (cons_wpos s - cons_rpos s)) with (cons_wpos s) by lia. by apply Z.mod_small. }
      by rewrite E, lookup_insert_eq.
Qed.

(** ** Devices *)

Class Device (proc : C Z) : Prop := {
  device_ring s b w : proc (set_ring b w s) = match proc s with Ok c s' => Ok c (set_ring b w s') | Stop r _ => match r with end end;
  device_keeps s c s' : proc s = Ok c s' → cons_buf s' = cons_buf s ∧ cons_rpos s' = cons_rpos s ∧ cons_wpos s' = cons_wpos s;
  device_uses s c s' : proc s = Ok c s' → c ≠ -1 → (length (inputs s') < length (inputs s))%nat
}.

(** Code that does not look at the buffer. *)
Definition ringless {A} (m : C A) : Prop := ∀ s,
  (∀ b w, m (set_ring b w s) = match m s with Ok a s' => Ok a (set_ring b w s') | Stop r _ => match r with end end) ∧
  (∀ a s', m s = Ok a s' → cons_buf s' = cons_buf s ∧ cons_rpos s' = cons_rpos s ∧ cons_wpos s' = cons_wpos s).

Lemma ringless_ret {A} (a : A) : ringless (mret a).
Proof. intros s. split; [done|]. by intros ? ? [= <- <-]. Qed.
Lemma ringless_gets {A} (f : Console → A) : (∀ s b w, f (set_ring b w s) = f s) → ringless (gets f).
Proof. intros Hf s. split; [intros b w; unfold gets; by rewrite Hf|]. by intros ? ? [= <- <-]. Qed.
Lemma ringless_modify f : (∀ s b w, f (set_ring b w s) = set_ring b w (f s)) → (∀ s, cons_buf (f s) = cons_buf s ∧ cons_rpos (f s) = cons_rpos s ∧ cons_wpos (f s) = cons_wpos s) → ringless (modify f).
Proof. intros Hf Hk s. split; [intros b w; unfold modify; by rewrite Hf|]. intros ? ? [= <- <-]. apply Hk. Qed.
Lemma ringless_bind {A B} (m : C A) (k : A → C B) : ringless m → (∀ a, ringless (k a)) → ringless (m ≫= k).
Proof.
  intros Hm Hk s. destruct (Hm s) as [H1 H2]. split.
  - intros b w. unfold mbind, M_bind. rewrite H1. destruct (m s) as [a s1|[]]. apply Hk.
  - intros c s'. unfold mbind, M_bind. destruct (m s) as [a s1|[]]. intros Hc. destruct (proj2 (Hk a s1) c s' Hc) as (A1 & A2 & A3).
    destruct (H2 a s1 eq_refl) as (B1 & B2 & B3). by rewrite A1, A2, A3.
Qed.
Lemma ringless_inb p : ringless (inb p).
Proof.
  apply ringless_bind; [by apply ringless_gets|]. intros [|v l]; [apply ringless_ret|].
  apply ringless_bind; [by apply ringless_modify|intros _; apply ringless_ret].
Qed.
Create HintDb ring.
#[local] Hint Resolve ringless_ret ringless_inb ringless_bind : ring.
#[local] Hint Extern 3 (ringless (if ?x then _ else _)) => destruct x : ring.

(** Data arrives only while there is input. *)
Lemma inb_wp p (Q : Z → Console → Prop) s :
  Q 0 s → (∀ v l, inputs s = v :: l → Q (u8 v) (set_inputs l s)) → wp (inb p) Q no_stop s.
Proof. intros H0 H1. unfold inb, wp, mbind, M_bind, gets. destruct (inputs s) as [|v l] eqn:E; [exact H0|by apply H1]. Qed.

Definition uses s (c : Z) s' : Prop := c ≠ -1 → (length (inputs s') < length (inputs s))%nat.

Lemma uses_none s s' : uses s (-1) s'.
Proof. by intros []. Qed.
Lemma serial_uses s : wp serial_proc_data (uses s) no_stop s.
Proof.
  unfold serial_proc_data. apply wp_bind, inb_wp; [change (wp (mret (-1) : C Z) (uses s) no_stop s); apply wp_ret, uses_none|]. intros v l Hl. destruct (negb _); [apply wp_ret, uses_none|].
  apply inb_wp; [unfold uses; cbn; rewrite Hl; cbn; lia|]. intros v2 l2 Hl2. unfold uses. cbn in *. subst l. rewrite Hl. cbn. lia.
Qed.

Lemma keyboard_uses s : wp kbd_proc_data (uses s) no_stop s.
Proof.
  unfold kbd_proc_data. apply wp_bind, inb_wp; [change (wp (mret (-1) : C Z) (uses s) no_stop s); apply wp_ret, uses_none|]. intros v l Hl. destruct (_ =? 0); [apply wp_ret, uses_none|].
  destruct (bit_set _ _); [apply wp_ret, uses_none|].
  assert (Hk : ∀ s1, (inputs s1 = l ∨ ∃ v2, l = v2 :: inputs s1) → ∀ c, uses s c s1).
  { intros s1 Hs1 c. unfold uses. rewrite Hl. cbn. intros _. destruct Hs1 as [->|[v2 ->]]; cbn; lia. }
  apply wp_bind, inb_wp; [|intros v2 l2 Hl2]; apply wp_bind, wp_gets;
    (destruct (_ =? 224); [apply wp_bind, wp_modify, wp_ret; apply Hk; cbn in *; by eauto|]);
    (destruct (bit_set _ 128); [apply wp_bind, wp_modify, wp_ret; apply Hk; cbn in *; by eauto|]);
    apply wp_bind, wp_modify; (destruct (negb _ && _);
      [apply wp_bind, wp_bind, wp_modify, wp_modify, wp_ret; apply Hk; cbn in *; by eauto
      |apply wp_bind, wp_ret, wp_ret; apply Hk; cbn in *; by eauto]).
Qed.

Lemma device_of (proc : C Z) : ringless proc → (∀ s, wp proc (uses s) no_stop s) → Device proc.
Proof.
  intros Hr Hu. split; [intros s b w; apply (Hr s)|intros s c s'; apply (Hr s)|].
  intros s c s' Hp. specialize (Hu s). unfold wp in Hu. rewrite Hp in Hu. exact Hu.
Qed.
Global Instance serial_device : Device serial_proc_data.
Proof. apply device_of; [|exact serial_uses]. unfold serial_proc_data. eauto 10 with ring. Qed.
Global Instance keyboard_device : Device kbd_proc_data.
Proof.
  apply device_of; [|exact keyboard_uses]. unfold kbd_proc_data. cbv zeta. unfold message, outb.
  repeat first [apply ringless_ret | apply ringless_inb | by apply ringless_gets | by apply ringless_modify
    | apply ringless_bind; [|intros ?] | match goal with |- ringless (if ?x then _ else _) => destruct x end].
Qed.

(** The characters a device delivers until it has no more, and the state
    after that. *)
Fixpoint received (proc : C Z) (fuel : nat) s : list Z :=
  match fuel with
  | O => []
  | S fuel => match proc s with Ok c s' => if c =? -1 then [] else c :: received proc fuel s' | Stop _ _ => [] end
  end.
Fixpoint drained (proc : C Z) (fuel : nat) s : Console :=
  match fuel with
  | O => s
  | S fuel => match proc s with Ok c s' => if c =? -1 then s' else drained proc fuel s' | Stop _ s' => s' end
  end.

(** What ends up in the buffer. *)
Definition typed (l : list Z) : list Z := u8 <$> filter (λ c, c ≠ 0) l.

Lemma set_ring_ring b w b' w' s : set_ring b w (set_ring b' w' s) = set_ring b w s.
Proof. reflexivity. Qed.
Lemma set_ring_same s : set_ring (cons_buf s) (cons_wpos s) s = s.
Proof. by destruct s. Qed.

Lemma queue_keeps s s' : cons_buf s' = cons_buf s ∧ cons_rpos s' = cons_rpos s ∧ cons_wpos s' = cons_wpos s → queue s' = queue s ∧ (ring_ok s → ring_ok s').
Proof. intros (H1 & H2 & H3). unfold queue, ring_ok, waiting. by rewrite H1, H2, H3. Qed.

(** cons_intr ends and appends what the device delivers. *)
Lemma cons_intr_fuel_ok proc `{Device proc} fuel : ∀ s b w, (length (inputs s) < fuel)%nat → ring_ok (set_ring b w s) →
  (length (queue (set_ring b w s) ++ typed (received proc fuel s)) ≤ 511)%nat →
  ∃ b' w', cons_intr_fuel proc fuel (set_ring b w s) = Ok (Some tt) (set_ring b' w' (drained proc fuel s)) ∧
    ring_ok (set_ring b' w' (drained proc fuel s)) ∧
    queue (set_ring b' w' (drained proc fuel s)) = queue (set_ring b w s) ++ typed (received proc fuel s).
Proof.
  induction fuel as [|fuel IH]; intros s b w Hlen Hok Hroom; [lia|]. unfold cons_intr_fuel. cbn [loopM received drained] in *.
  unfold mbind at 1, M_bind. unfold mbind at 1. rewrite device_ring. destruct (proc s) as [c s1|[]] eqn:Hp.
  destruct (queue_keeps (set_ring b w s) (set_ring b w s1)) as [Hq1 Hok1]; [by destruct (device_keeps s c s1 Hp) as (_ & ? & _)|].
  destruct (c =? -1) eqn:Ec.
  { exists b, w. split; [reflexivity|]. split; [by apply Hok1|]. by rewrite Hq1, app_nil_r. }
  pose proof (device_uses s c s1 Hp ltac:(lia)) as Hless.
  destruct (decide (c = 0)) as [->|Hc0].
  - cbn [typed] in Hroom. unfold typed in *. rewrite filter_cons_False in * by (by intros []; done). rewrite <- Hq1 in *.
    destruct (IH s1 b w ltac:(lia) (Hok1 Hok) Hroom) as (b' & w' & H1 & H2 & H3). exists b', w'. split; [|by split]. exact H1.
  - unfold typed in *. rewrite filter_cons_True in * by done. rewrite fmap_cons in *. rewrite <- Hq1 in *.
    rewrite length_app in Hroom. cbn [length] in Hroom.
    destruct (cons_store_push c (set_ring b w s1) (Hok1 Hok) Hc0) as (b1 & w1 & Hst & Hok2 & Hq2).
    { pose proof (length_queue (set_ring b w s1)). pose proof (waiting_range (set_ring b w s1)). lia. }
    unfold mbind, M_bind. rewrite Hst. rewrite set_ring_ring in *. cbn [mret M_ret].
    destruct (IH s1 b1 w1 ltac:(lia) Hok2) as (b' & w' & H1 & H2 & H3).
    { rewrite Hq2, !length_app. cbn [length]. lia. }
    exists b', w'. split; [exact H1|]. split; [exact H2|]. rewrite H3, Hq2, <- app_assoc. reflexivity.
Qed.

Lemma received_ring proc `{Device proc} fuel : ∀ s b w, received proc fuel (set_ring b w s) = received proc fuel s.
Proof. induction fuel as [|fuel IH]; intros s b w; [done|]. cbn. rewrite device_ring. destruct (proc s) as [c s1|[]]. by rewrite IH. Qed.

Definition delivered (proc : C Z) s : list Z := typed (received proc (S (length (inputs s))) s).
Definition after (proc : C Z) s : Console := drained proc (S (length (inputs s))) s.

Lemma delivered_ring proc `{Device proc} b w s : delivered proc (set_ring b w s) = delivered proc s.
Proof. unfold delivered. cbn [inputs set_ring set_cons_wpos set_cons_buf]. by rewrite received_ring. Qed.

Lemma cons_intr_ok proc `{Device proc} s : ring_ok s → (length (queue s ++ delivered proc s) ≤ 511)%nat →
  ∃ b w, cons_intr proc s = Ok tt (set_ring b w (after proc s)) ∧ ring_ok (set_ring b w (after proc s)) ∧
    queue (set_ring b w (after proc s)) = queue s ++ delivered proc s.
Proof.
  intros Hok Hroom. unfold cons_intr, mbind, M_bind, gets.
  destruct (cons_intr_fuel_ok proc (S (length (inputs s))) s (cons_buf s) (cons_wpos s)) as (b & w & H1 & H2 & H3); [lia|by rewrite set_ring_same| |].
  { rewrite set_ring_same. exact Hroom. }
  rewrite set_ring_same in *. exists b, w. rewrite H1. split; [reflexivity|]. by split.
Qed.

(** ** cons_getc *)

(** The characters that wait once both devices have been asked. *)
Definition incoming s : list Z :=
  let s1 := if serial_exists s then after serial_proc_data s else s in
  (if serial_exists s then delivered serial_proc_data s else []) ++ delivered kbd_proc_data s1.

Lemma queue_pop s c l : ring_ok s → queue s = c :: l →
  cons_rpos s ≠ cons_wpos s ∧ default 0 (cons_buf s !! cons_rpos s) = c ∧
  ring_ok (set_cons_rpos ((cons_rpos s + 1) `mod` 512) s) ∧ queue (set_cons_rpos ((cons_rpos s + 1) `mod` 512) s) = l.
Proof.
  intros [Hr Hw] Hq. pose proof (waiting_range s) as Hwr. assert (Hlen : Z.of_nat (length (queue s)) = waiting s) by (rewrite length_queue; lia).
  rewrite Hq in Hlen. cbn [length] in Hlen. assert (Hne : cons_rpos s ≠ cons_wpos s).
  { intros E. unfold waiting in Hlen. rewrite E, Z.sub_diag, Z.mod_0_l in Hlen by lia. lia. }
  split; [exact Hne|]. assert (H0 := lookup_queue s 0 ltac:(lia)). rewrite Z.add_0_r, (Z.mod_small (cons_rpos s)) in H0 by lia.
  rewrite Hq in H0. cbn in H0. injection H0 as H0. split; [by symmetry|].
  assert (Hn : 0 ≤ (cons_rpos s + 1) `mod` 512 < 512) by (apply Z.mod_pos_bound; lia). split; [by split|].
  set (s' := set_cons_rpos ((cons_rpos s + 1) `mod` 512) s).
  assert (Hwt : waiting s' = waiting s - 1).
  { unfold waiting in *. cbn. rewrite Zminus_mod_idemp_r. replace (cons_wpos s - (cons_rpos s + 1)) with (cons_wpos s - cons_rpos s - 1) by lia.
    rewrite <- Zminus_mod_idemp_l. apply Z.mod_small. lia. }
  apply list_eq. intros i. destruct (decide (Z.of_nat i < waiting s')) as [Hi|Hi].
  - rewrite <- (Nat2Z.id i). rewrite lookup_queue by lia. cbn [cons_buf cons_rpos set_cons_rpos s'].
    assert (Hsi := lookup_queue s (Z.of_nat i + 1) ltac:(lia)). rewrite Hq in Hsi. replace (Z.to_nat (Z.of_nat i + 1)) with (S i) in Hsi by lia.
    cbn [lookup list_lookup] in Hsi. rewrite Nat2Z.id. etrans; [|symmetry; exact Hsi]. rewrite Zplus_mod_idemp_l.
    by replace (cons_rpos s + 1 + Z.of_nat i) with (cons_rpos s + (Z.of_nat i + 1)) by lia.
  - rewrite !lookup_ge_None_2; [done|lia|rewrite length_queue; lia].
Qed.

Lemma queue_empty s : ring_ok s → queue s = [] → cons_rpos s = cons_wpos s.
Proof.
  intros [Hr Hw] Hq. pose proof (length_queue s) as Hl. rewrite Hq in Hl. cbn in Hl. unfold waiting in Hl.
  pose proof (Z.mod_pos_bound (cons_wpos s - cons_rpos s) 512 ltac:(lia)).
  assert (E : (cons_wpos s - cons_rpos s) `mod` 512 = 0) by lia. apply Z.mod_divide in E as [k Hk]; [|lia]. lia.
Qed.

(** serial_intr and kbd_intr together. *)
Lemma both_devices s : ring_ok s → (length (queue s ++ incoming s) ≤ 511)%nat →
  ∃ s2, (serial_intr ;; kbd_intr) s = Ok tt s2 ∧ ring_ok s2 ∧ queue s2 = queue s ++ incoming s.
Proof.
  intros Hok Hroom. unfold incoming in *. cbv zeta in *. unfold serial_intr, kbd_intr, mbind, M_bind, gets. destruct (serial_exists s).
  - rewrite app_assoc in Hroom. rewrite length_app in Hroom.
    destruct (cons_intr_ok serial_proc_data s Hok ltac:(lia)) as (b & w & H1 & H2 & H3). rewrite H1.
    set (s1 := after serial_proc_data s) in *.
    assert (Hd : delivered kbd_proc_data (set_ring b w s1) = delivered kbd_proc_data s1) by exact (delivered_ring kbd_proc_data b w s1).
    destruct (cons_intr_ok kbd_proc_data (set_ring b w s1) H2) as (b' & w' & K1 & K2 & K3); [rewrite Hd, H3, length_app; lia|].
    eexists. split; [exact K1|]. split; [exact K2|]. by rewrite K3, H3, Hd, <- app_assoc.
  - destruct (cons_intr_ok kbd_proc_data s Hok Hroom) as (b' & w' & K1 & K2 & K3).
    eexists. split; [exact K1|]. by split.
Qed.

Lemma cons_getc_ok s : ring_ok s → (length (queue s ++ incoming s) ≤ 511)%nat →
  ∃ s', cons_getc s = Ok (hd 0 (queue s ++ incoming s)) s' ∧ ring_ok s' ∧ queue s' = tail (queue s ++ incoming s).
Proof.
  intros Hok Hroom. destruct (both_devices s Hok Hroom) as (s2 & Hrun & Hok2 & Hq2). rewrite <- Hq2. clear Hq2 Hroom Hok.
  unfold cons_getc. revert Hrun. unfold mbind, M_bind, gets. destruct (serial_intr s) as [[] s1|[]]. intros ->.
  destruct (queue s2) as [|c l] eqn:Hq.
  - rewrite (queue_empty s2 Hok2 Hq), Z.eqb_refl. exists s2. by split.
  - destruct (queue_pop s2 c l Hok2 Hq) as (Hne & Hc & Hok' & Hq'). replace (cons_rpos s2 =? cons_wpos s2) with false by lia.
    cbn [negb modify]. destruct Hok2 as [Hr Hw]. rewrite next_pos by exact Hr. eexists. split; [cbn [hd]; rewrite <- Hc; reflexivity|]. by split.
Qed.

(** A full buffer (511 characters) is emptied by the next character: the
    write position catches up with the read position. *)
Lemma cons_store_overflow c s : ring_ok s → c ≠ 0 → waiting s = 511 →
  ∃ b w, cons_store c s = Ok tt (set_ring b w s) ∧ queue (set_ring b w s) = [].
Proof.
  intros [Hr Hw] Hc Hfull. exists (<[cons_wpos s := u8 c]> (cons_buf s)), ((cons_wpos s + 1) `mod` 512). split.
  - unfold cons_store. replace (c =? 0) with false by lia. by rewrite <- next_pos.
  - unfold queue, waiting in *. cbn [cons_wpos cons_rpos cons_buf set_ring set_cons_wpos set_cons_buf]. rewrite Zminus_mod_idemp_l.
    replace (cons_wpos s + 1 - cons_rpos s) with (cons_wpos s - cons_rpos s + 1) by lia. rewrite <- Zplus_mod_idemp_l, Hfull. reflexivity.
Qed.

(** ** The depth of cons_putc *)

Lemma cga_putc_body_ext k k' c : (∀ s, k 32 s = k' 32 s) → ∀ s, cga_putc_body k c s = cga_putc_body k' c s.
Proof.
  intros Hk s. unfold cga_putc_body. cbv zeta. unfold mbind at 1, M_bind. unfold mbind at 13. cbv beta.
  set (cc := if negb _ then _ else _). destruct (Z.land cc 255 =? 8); [reflexivity|]. destruct (_ || _); [reflexivity|].
  destruct (Z.land cc 255 =? 9); [|reflexivity]. unfold mbind, M_bind. rewrite !Hk.
  do 5 (match goal with |- context [k' 32 ?x] => destruct (k' 32 x) as [[] ?|[]]; rewrite ?Hk end). reflexivity.
Qed.

(** A blank does not recurse, so deeper nesting changes nothing. *)
Lemma cons_putc_depth n c s : cons_putc_rec (2 + n) c s = cons_putc c s.
Proof.
  unfold cons_putc. cbn [Nat.add cons_putc_rec]. unfold mbind, M_bind. destruct (serial_putc c s) as [[] s1|[]]. destruct (lpt_putc c s1) as [[] s2|[]].
  apply cga_putc_body_ext. intros t. destruct n; cbn [cons_putc_rec]; unfold mbind, M_bind;
    destruct (serial_putc 32 t) as [[] t1|[]]; destruct (lpt_putc 32 t1) as [[] t2|[]]; reflexivity.
Qed.

(** C31: the console input buffer is a queue.  cons_getc first collects what
    the serial port and the keyboard deliver, then returns the oldest
    character that waits, 0 if there is none; the rest stays in order. *)
Theorem cons_getc_fifo s : ring_ok s → (length (queue s ++ incoming s) ≤ 511)%nat →
  ∃ s', cons_getc s = Ok (hd 0 (queue s ++ incoming s)) s' ∧ ring_ok s' ∧ queue s' = tail (queue s ++ incoming s).
Proof. apply cons_getc_ok. Qed.

(** Two characters on the serial port and the key "a". *)
Definition demo_typing : Console :=
  {| inputs := [1; 104; 1; 105; 0; 1; 0x1E]; port_log := []; serial_exists := true; addr_6845 := 0x3D4; crt_buf := ∅; crt_pos := 0;
     kbd_shift := 0; cons_buf := ∅; cons_rpos := 511; cons_wpos := 511; irq_mask_8259A := 0xFFFB; pic_didinit := true |}.

Lemma cons_getc_fifo_witness : ∃ s', cons_getc demo_typing = Ok 104 s' ∧ ring_ok s' ∧ queue s' = [105; 97].
Proof.
  assert (Hq : queue demo_typing ++ incoming demo_typing = [104; 105; 97]) by reflexivity.
  destruct (cons_getc_fifo demo_typing) as (s' & Hrun & Hok & Hqueue).
  - split; cbn; lia.
  - rewrite Hq. cbn. lia.
  - rewrite Hq in Hrun, Hqueue. exists s'. split; [exact Hrun|]. split; [exact Hok|exact Hqueue].
Defined.
