(* ===== verification/Mmu.v ===== *)
(** * Paging constants and macros

    The constants and macros of inc/mmu.h, inc/memlayout.h, inc/types.h and
    inc/error.h that the kernel and the user library use, with the
    arithmetic facts (masks and shifts as division and remainder) the other
    files rely on. *)

From S2P Require Import Prelude.

(** ** inc/types.h *)

Definition MIN (a b : Z) : Z := if a <=? b then a else b.
Definition MAX (a b : Z) : Z := if a >=? b then a else b.
(** [ROUNDDOWN] and [ROUNDUP] compute on [uint32_t]. *)
Definition ROUNDDOWN (a n : Z) : Z := u32 a - u32 a `mod` n.
Definition ROUNDUP (a n : Z) : Z := ROUNDDOWN (u32 (u32 a + u32 n - 1)) (u32 n).

(** ** inc/mmu.h: linear addresses *)

Definition PTXSHIFT : Z := 12.
Definition PDXSHIFT : Z := 22.
Definition NPDENTRIES : Z := 1024.
Definition NPTENTRIES : Z := 1024.
Definition PGSIZE : Z := 4096.
Definition PGSHIFT : Z := 12.
Definition PTSIZE : Z := PGSIZE * NPTENTRIES.

Definition PGNUM (la : Z) : Z := Z.shiftr (u32 la) PTXSHIFT.
Definition PDX (la : Z) : Z := Z.land (Z.shiftr (u32 la) PDXSHIFT) 0x3FF.
Definition PTX (la : Z) : Z := Z.land (Z.shiftr (u32 la) PTXSHIFT) 0x3FF.
Definition PGOFF (la : Z) : Z := Z.land (u32 la) 0xFFF.
Definition PGADDR (d t o : Z) : Z :=
  u32 (Z.lor (Z.lor (Z.shiftl d PDXSHIFT) (Z.shiftl t PTXSHIFT)) o).

(** ** inc/mmu.h: page table entry flags *)

Definition PTE_P : Z := 0x001.
Definition PTE_W : Z := 0x002.
Definition PTE_U : Z := 0x004.
Definition PTE_PWT : Z := 0x008.
Definition PTE_PCD : Z := 0x010.
Definition PTE_A : Z := 0x020.
Definition PTE_D : Z := 0x040.
Definition PTE_PS : Z := 0x080.
Definition PTE_G : Z := 0x100.
Definition PTE_AVAIL : Z := 0xE00.
Definition PTE_SYSCALL : Z := Z.lor (Z.lor (Z.lor PTE_AVAIL PTE_P) PTE_W) PTE_U.
Definition PTE_ADDR (pte : Z) : Z := Z.land (u32 pte) (u32 (Z.lnot 0xFFF)).

(** Page fault error codes and the eflags bits the kernel sets. *)
Definition FEC_PR : Z := 0x1.
Definition FEC_WR : Z := 0x2.
Definition FEC_U : Z := 0x4.
Definition FL_IF : Z := 0x200.
Definition FL_IOPL_MASK : Z := 0x3000.

(** Segment descriptors. *)
Record Segdesc := {
  sd_lim_15_0 : Z; sd_base_15_0 : Z; sd_base_23_16 : Z; sd_type : Z; sd_s : Z;
  sd_dpl : Z; sd_p : Z; sd_lim_19_16 : Z; sd_avl : Z; sd_rsv1 : Z; sd_db : Z;
  sd_g : Z; sd_base_31_24 : Z
}.

Definition SEG_NULL : Segdesc := Build_Segdesc 0 0 0 0 0 0 0 0 0 0 0 0 0.
Definition SEG (type base lim dpl : Z) : Segdesc :=
  Build_Segdesc (Z.land (Z.shiftr lim 12) 0xffff) (Z.land base 0xffff) (Z.land (Z.shiftr base 16) 0xff)
    type 1 dpl 1 (Z.shiftr (u32 lim) 28) 0 0 1 1 (Z.shiftr (u32 base) 24).
Definition SEG16 (type base lim dpl : Z) : Segdesc :=
  Build_Segdesc (Z.land lim 0xffff) (Z.land base 0xffff) (Z.land (Z.shiftr base 16) 0xff)
    type 1 dpl 1 (Z.shiftr (u32 lim) 16) 0 0 1 0 (Z.shiftr (u32 base) 24).
Definition set_sd_s v (d : Segdesc) : Segdesc :=
  Build_Segdesc (sd_lim_15_0 d) (sd_base_15_0 d) (sd_base_23_16 d) (sd_type d) v (sd_dpl d) (sd_p d)
    (sd_lim_19_16 d) (sd_avl d) (sd_rsv1 d) (sd_db d) (sd_g d) (sd_base_31_24 d).

Definition STA_X : Z := 0x8.
Definition STA_W : Z := 0x2.
Definition STA_R : Z := 0x2.
Definition STS_T32A : Z := 0x9.
Definition STS_IG32 : Z := 0xE.
Definition STS_TG32 : Z := 0xF.

(** Gate descriptors. *)
Record Gatedesc := {
  gd_off_15_0 : Z; gd_sel : Z; gd_args : Z; gd_rsv1 : Z; gd_type : Z;
  gd_s : Z; gd_dpl : Z; gd_p : Z; gd_off_31_16 : Z
}.

Definition SETGATE (istrap sel off dpl : Z) : Gatedesc :=
  {| gd_off_15_0 := Z.land (u32 off) 0xffff; gd_sel := sel; gd_args := 0; gd_rsv1 := 0;
     gd_type := if ctrue istrap then STS_TG32 else STS_IG32; gd_s := 0; gd_dpl := dpl; gd_p := 1;
     gd_off_31_16 := Z.shiftr (u32 off) 16 |}.

(** ** inc/memlayout.h *)

Definition GD_KT : Z := 0x08.
Definition GD_KD : Z := 0x10.
Definition GD_UT : Z := 0x18.
Definition GD_UD : Z := 0x20.
Definition GD_TSS0 : Z := 0x28.

Definition KERNBASE : Z := 0xF0000000.
Definition IOPHYSMEM : Z := 0x0A0000.
Definition EXTPHYSMEM : Z := 0x100000.
Definition KSTACKTOP : Z := KERNBASE.
Definition KSTKSIZE : Z := 8 * PGSIZE.
Definition KSTKGAP : Z := 8 * PGSIZE.
Definition MMIOLIM : Z := KSTACKTOP - PTSIZE.
Definition MMIOBASE : Z := MMIOLIM - PTSIZE.
Definition ULIM : Z := MMIOBASE.
Definition UVPT : Z := ULIM - PTSIZE.
Definition UPAGES : Z := UVPT - PTSIZE.
Definition UENVS : Z := UPAGES - PTSIZE.
Definition UTOP : Z := UENVS.
Definition UXSTACKTOP : Z := UTOP.
Definition USTACKTOP : Z := UTOP - 2 * PGSIZE.
Definition UTEXT : Z := 2 * PTSIZE.
Definition UTEMP : Z := PTSIZE.
Definition PFTEMP : Z := UTEMP + PTSIZE - PGSIZE.
Definition USTABDATA : Z := PTSIZE / 2.
Definition MPENTRY_PADDR : Z := 0x7000.

(** ** inc/lib.h *)

Definition PTE_SHARE : Z := 0x400.

(** ** inc/error.h *)

Definition E_UNSPECIFIED : Z := 1.
Definition E_BAD_ENV : Z := 2.
Definition E_INVAL : Z := 3.
Definition E_NO_MEM : Z := 4.
Definition E_NO_FREE_ENV : Z := 5.
Definition E_FAULT : Z := 6.
Definition E_IPC_NOT_RECV : Z := 7.
Definition E_EOF : Z := 8.
Definition E_NO_DISK : Z := 9.
Definition E_MAX_OPEN : Z := 10.
Definition E_NOT_FOUND : Z := 11.
Definition E_BAD_PATH : Z := 12.
Definition E_FILE_EXISTS : Z := 13.
Definition E_NOT_EXEC : Z := 14.
Definition E_NOT_SUPP : Z := 15.
Definition MAXERROR : Z := 16.

(** ** Automation *)

Create HintDb mmu.
#[export] Hint Unfold PTXSHIFT PDXSHIFT NPDENTRIES NPTENTRIES PGSIZE PGSHIFT PTSIZE
  PTE_P PTE_W PTE_U PTE_PWT PTE_PCD PTE_A PTE_D PTE_PS PTE_G PTE_AVAIL
  FEC_PR FEC_WR FEC_U FL_IF FL_IOPL_MASK GD_KT GD_KD GD_UT GD_UD GD_TSS0
  KERNBASE IOPHYSMEM EXTPHYSMEM KSTACKTOP KSTKSIZE KSTKGAP MMIOLIM MMIOBASE ULIM
  UVPT UPAGES UENVS UTOP UXSTACKTOP USTACKTOP UTEXT UTEMP PFTEMP MPENTRY_PADDR
  E_UNSPECIFIED E_BAD_ENV E_INVAL E_NO_MEM E_NO_FREE_ENV E_FAULT E_IPC_NOT_RECV E_EOF
  E_NO_DISK E_MAX_OPEN E_NOT_FOUND E_BAD_PATH E_FILE_EXISTS E_NOT_EXEC E_NOT_SUPP MAXERROR
  : mmu.

(** Linear arithmetic over the layout constants, with [/] and [mod]. *)
Ltac mlia := autounfold with mmu in *; Z.to_euclidean_division_equations; lia.

(** ** Address arithmetic *)

Lemma PGNUM_div la : PGNUM la = u32 la / 4096.
Proof. unfold PGNUM, PTXSHIFT. by rewrite Z.shiftr_div_pow2. Qed.

Lemma PDX_div la : PDX la = u32 la / 4194304.
Proof.
  unfold PDX, PDXSHIFT. rewrite land_0x3FF, Z.shiftr_div_pow2 by lia.
  pose proof (u32_range la). change (2 ^ 22) with 4194304.
  apply Z.mod_small. mlia.
Qed.

Lemma PTX_mod la : PTX la = (u32 la / 4096) `mod` 1024.
Proof. unfold PTX, PTXSHIFT. by rewrite land_0x3FF, Z.shiftr_div_pow2 by lia. Qed.

Lemma PGOFF_mod la : PGOFF la = u32 la `mod` 4096.
Proof. unfold PGOFF. apply land_0xFFF. Qed.

Lemma PDX_range la : 0 ≤ PDX la < 1024.
Proof. rewrite PDX_div. pose proof (u32_range la). mlia. Qed.
Lemma PTX_range la : 0 ≤ PTX la < 1024.
Proof. rewrite PTX_mod. mlia. Qed.
Lemma PGNUM_range la : 0 ≤ PGNUM la < 1048576.
Proof. rewrite PGNUM_div. pose proof (u32_range la). mlia. Qed.

(** A page number splits into directory and table index. *)
Lemma PDX_PGNUM la : PDX la = PGNUM la / 1024.
Proof. rewrite PDX_div, PGNUM_div, Z.div_div by lia. done. Qed.
Lemma PTX_PGNUM la : PTX la = PGNUM la `mod` 1024.
Proof. by rewrite PTX_mod, PGNUM_div. Qed.

Lemma land_high_mask x n m :
  0 ≤ n ≤ m → 0 ≤ x < 2 ^ m →
  Z.land x (2 ^ m - 2 ^ n) = x / 2 ^ n * 2 ^ n.
Proof.
  intros Hn Hx.
  assert (Hm : 2 ^ m - 2 ^ n = Z.shiftl (Z.ones (m - n)) n).
  { rewrite Z.shiftl_mul_pow2, Z.ones_equiv by lia.
    unfold Z.pred. rewrite Z.mul_add_distr_r, <- Z.pow_add_r by lia.
    replace (m - n + n) with m by lia. lia. }
  rewrite Hm, <- Z.shiftr_div_pow2, <- Z.shiftl_mul_pow2 by lia.
  apply Z.bits_inj'. intros i Hi. rewrite Z.land_spec.
  destruct (decide (i < n)).
  { rewrite !Z.shiftl_spec_low by lia. by rewrite andb_false_r. }
  rewrite !Z.shiftl_spec_high, Z.shiftr_spec by lia.
  replace (i - n + n) with i by lia.
  destruct (decide (i < m)).
  { rewrite Z.ones_spec_low by lia. by rewrite andb_true_r. }
  rewrite <- (Z.mod_small x (2 ^ m)) by lia.
  rewrite Z.mod_pow2_bits_high by lia. done.
Qed.

Lemma PTE_ADDR_div pte : PTE_ADDR pte = u32 pte / 4096 * 4096.
Proof.
  unfold PTE_ADDR. change (u32 (Z.lnot 0xFFF)) with (2 ^ 32 - 2 ^ 12).
  rewrite (land_high_mask _ 12 32); [done|lia|]. apply u32_range.
Qed.

Lemma PGNUM_PTE_ADDR pte : PGNUM (PTE_ADDR pte) = PGNUM pte.
Proof.
  rewrite !PGNUM_div, PTE_ADDR_div.
  pose proof (u32_range pte). rewrite (u32_small (_ * _)) by mlia. mlia.
Qed.

Lemma PTE_ADDR_PGNUM pte : PTE_ADDR pte = PGNUM pte * 4096.
Proof. by rewrite PTE_ADDR_div, PGNUM_div. Qed.

(** An entry built from an aligned address and permission bits. *)
Lemma lor_page_perm p perm : 0 ≤ perm < 4096 → Z.lor (p * 4096) perm = p * 4096 + perm.
Proof.
  intros. apply (lor_add_disjoint _ _ 12); [lia| |lia].
  change (2 ^ 12) with 4096. by rewrite Z.mod_mul.
Qed.

Lemma PGNUM_entry p perm :
  0 ≤ p < 1048576 → 0 ≤ perm < 4096 → PGNUM (p * 4096 + perm) = p.
Proof. intros. rewrite PGNUM_div, u32_small by lia. mlia. Qed.

Lemma land_7_lor a b : Z.land a 7 = 7 → Z.land (Z.lor a b) 7 = 7.
Proof.
  intros H. apply Z.bits_inj'. intros n Hn. apply (f_equal (λ z, Z.testbit z n)) in H.
  rewrite Z.land_spec in H |- *. rewrite Z.lor_spec. destruct (Z.testbit a n), (Z.testbit b n), (Z.testbit 7 n); done.
Qed.

(** The low permission bits of an entry. *)
Lemma land_7 x : Z.land x 7 = x `mod` 8.
Proof. change 7 with (Z.ones 3). by rewrite Z.land_ones. Qed.
Lemma land_7_page p f : Z.land (p * 4096 + f) 7 = Z.land f 7.
Proof. rewrite !land_7. mlia. Qed.

Lemma PGADDR_eq d t :
  0 ≤ d < 1024 → 0 ≤ t < 1024 → PGADDR d t 0 = (d * 1024 + t) * 4096.
Proof.
  intros. unfold PGADDR. rewrite Z.lor_0_r. unfold PDXSHIFT, PTXSHIFT.
  rewrite !Z.shiftl_mul_pow2 by lia.
  rewrite (lor_add_disjoint _ _ 22); [|lia| |].
  - change (2 ^ 22) with (1024 * 4096). change (2 ^ 12) with 4096.
    rewrite u32_small by lia. lia.
  - by rewrite Z.mod_mul.
  - change (2 ^ 22) with 4194304. change (2 ^ 12) with 4096. lia.
Qed.

Lemma PDX_PGADDR d t : 0 ≤ d < 1024 → 0 ≤ t < 1024 → PDX (PGADDR d t 0) = d.
Proof. intros. rewrite PGADDR_eq, PDX_div, u32_small by lia. mlia. Qed.
Lemma PTX_PGADDR d t : 0 ≤ d < 1024 → 0 ≤ t < 1024 → PTX (PGADDR d t 0) = t.
Proof. intros. rewrite PGADDR_eq, PTX_mod, u32_small by lia. mlia. Qed.

(** ** The present bit *)

Definition present (e : Z) : bool := ctrue (Z.land e PTE_P).

Lemma present_mod e : present e = (e `mod` 2 =? 1).
Proof.
  unfold present, ctrue, PTE_P. rewrite land_1.
  pose proof (Z.mod_pos_bound e 2). destruct (e `mod` 2 =? 0) eqn:E; simpl; lia.
Qed.

Lemma present_0 : present 0 = false.
Proof. done. Qed.

Lemma perm_or_P_range perm : 0 ≤ perm < 4096 → 0 ≤ Z.lor perm PTE_P < 4096.
Proof. intros. apply (lor_range _ _ 12); [lia|lia|]. unfold PTE_P. lia. Qed.

Lemma present_lor_P x : present (Z.lor x PTE_P) = true.
Proof.
  unfold present. apply ctrue_true. unfold PTE_P.
  intros H. apply (f_equal (λ z, Z.testbit z 0)) in H.
  rewrite Z.land_spec, Z.lor_spec in H. simpl in H. by rewrite orb_true_r in H.
Qed.

Lemma present_lor a b : present (Z.lor a b) = present a || present b.
Proof.
  rewrite !present_mod. change 2 with (2 ^ 1). rewrite <- !Z.land_ones by lia.
  change (Z.ones 1) with 1. rewrite Z.land_lor_distr_l. rewrite !land_1.
  pose proof (Z.mod_pos_bound a 2). pose proof (Z.mod_pos_bound b 2).
  assert (Ha : a `mod` 2 = 0 ∨ a `mod` 2 = 1) by lia. assert (Hb : b `mod` 2 = 0 ∨ b `mod` 2 = 1) by lia.
  destruct Ha as [-> | ->], Hb as [-> | ->]; done.
Qed.

(** Permission bits leave the page of an entry alone. *)
Lemma PGNUM_lor a perm : 0 ≤ a < 4294967296 → 0 ≤ perm < 4096 → PGNUM (Z.lor a perm) = PGNUM a.
Proof.
  intros Ha Hp. unfold PGNUM, PTXSHIFT. pose proof (lor_range a perm 32).
  rewrite !u32_small by lia. rewrite Z.shiftr_lor.
  rewrite (Z.shiftr_div_pow2 perm), Z.div_small by lia. apply Z.lor_0_r.
Qed.

Lemma entry_lor p a b : 0 ≤ a < 4096 → 0 ≤ b < 4096 → Z.lor (Z.lor (p * 4096) a) b = p * 4096 + Z.lor a b.
Proof. intros. rewrite <- Z.lor_assoc. apply lor_page_perm. by apply (lor_range a b 12). Qed.

(** The permission bits of an entry. *)
Lemma entry_perm p f : 0 ≤ f < 4096 → Z.land (p * 4096 + f) 0xFFF = f.
Proof. intros. rewrite land_0xFFF. mlia. Qed.

Lemma present_add_page p e : present (p * 4096 + e) = present e.
Proof. rewrite !present_mod. f_equal. mlia. Qed.

(** ** Rounding *)

Lemma ROUNDDOWN_page a : ROUNDDOWN a PGSIZE = u32 a / 4096 * 4096.
Proof. unfold ROUNDDOWN. pose proof (u32_range a). mlia. Qed.

Lemma ROUNDUP_page a :
  0 ≤ a → a + 4095 < 4294967296 → ROUNDUP a PGSIZE = (a + 4095) / 4096 * 4096.
Proof.
  intros. unfold ROUNDUP. change (u32 PGSIZE) with PGSIZE. rewrite ROUNDDOWN_page.
  unfold PGSIZE. rewrite (u32_small a) by lia. rewrite u32_idem, u32_small by lia.
  do 2 f_equal. lia.
Qed.
