(* ===== verification/KState.v ===== *)
(** * Kernel state

    The data of the kernel: struct PageInfo (inc/memlayout.h), struct Env
    and its trap frame (inc/env.h, inc/trap.h), struct CpuInfo
    (kern/cpu.h), the globals of kern/pmap.c, kern/env.c, kern/sched.c,
    kern/spinlock.c and kern/time.c, physical memory, and the monad kernel
    code is written in.

    Kernel pointers into physical memory are kernel virtual addresses, as in
    the code (KERNBASE + physical address).  A [struct PageInfo *] is an
    index of [pages], a [struct Env *] an index of [envs], and NULL is
    [None].  Physical memory is word addressed: [phys !! (pa / 4)] is the
    32-bit word at physical address [pa]; an absent key is the word 0. *)

From S2P Require Import Prelude Console Mmu.

(** ** inc/trap.h *)

Record PushRegs := {
  reg_edi : Z; reg_esi : Z; reg_ebp : Z; reg_oesp : Z;
  reg_ebx : Z; reg_edx : Z; reg_ecx : Z; reg_eax : Z
}.

Record Trapframe := {
  tf_regs : PushRegs;
  tf_es : Z; tf_padding1 : Z;
  tf_ds : Z; tf_padding2 : Z;
  tf_trapno : Z;
  tf_err : Z;
  tf_eip : Z;
  tf_cs : Z; tf_padding3 : Z;
  tf_eflags : Z;
  tf_esp : Z;
  tf_ss : Z; tf_padding4 : Z
}.

Record UTrapframe := {
  utf_fault_va : Z;
  utf_err : Z;
  utf_regs : PushRegs;
  utf_eip : Z;
  utf_eflags : Z;
  utf_esp : Z
}.

Definition zero_regs : PushRegs :=
  {| reg_edi := 0; reg_esi := 0; reg_ebp := 0; reg_oesp := 0;
     reg_ebx := 0; reg_edx := 0; reg_ecx := 0; reg_eax := 0 |}.

Definition zero_tf : Trapframe :=
  {| tf_regs := zero_regs; tf_es := 0; tf_padding1 := 0; tf_ds := 0; tf_padding2 := 0;
     tf_trapno := 0; tf_err := 0; tf_eip := 0; tf_cs := 0; tf_padding3 := 0;
     tf_eflags := 0; tf_esp := 0; tf_ss := 0; tf_padding4 := 0 |}.

Definition set_reg_eax (v : Z) (r : PushRegs) : PushRegs :=
  {| reg_edi := reg_edi r; reg_esi := reg_esi r; reg_ebp := reg_ebp r; reg_oesp := reg_oesp r;
     reg_ebx := reg_ebx r; reg_edx := reg_edx r; reg_ecx := reg_ecx r; reg_eax := v |}.

Definition set_tf_regs v (t : Trapframe) : Trapframe :=
  Build_Trapframe v (tf_es t) (tf_padding1 t) (tf_ds t) (tf_padding2 t) (tf_trapno t) (tf_err t) (tf_eip t) (tf_cs t) (tf_padding3 t) (tf_eflags t) (tf_esp t) (tf_ss t) (tf_padding4 t).
Definition set_tf_eip v (t : Trapframe) : Trapframe :=
  Build_Trapframe (tf_regs t) (tf_es t) (tf_padding1 t) (tf_ds t) (tf_padding2 t) (tf_trapno t) (tf_err t) v (tf_cs t) (tf_padding3 t) (tf_eflags t) (tf_esp t) (tf_ss t) (tf_padding4 t).
Definition set_tf_cs v (t : Trapframe) : Trapframe :=
  Build_Trapframe (tf_regs t) (tf_es t) (tf_padding1 t) (tf_ds t) (tf_padding2 t) (tf_trapno t) (tf_err t) (tf_eip t) v (tf_padding3 t) (tf_eflags t) (tf_esp t) (tf_ss t) (tf_padding4 t).
Definition set_tf_eflags v (t : Trapframe) : Trapframe :=
  Build_Trapframe (tf_regs t) (tf_es t) (tf_padding1 t) (tf_ds t) (tf_padding2 t) (tf_trapno t) (tf_err t) (tf_eip t) (tf_cs t) (tf_padding3 t) v (tf_esp t) (tf_ss t) (tf_padding4 t).
Definition set_tf_esp v (t : Trapframe) : Trapframe :=
  Build_Trapframe (tf_regs t) (tf_es t) (tf_padding1 t) (tf_ds t) (tf_padding2 t) (tf_trapno t) (tf_err t) (tf_eip t) (tf_cs t) (tf_padding3 t) (tf_eflags t) v (tf_ss t) (tf_padding4 t).

(** ** inc/memlayout.h *)

Record PageInfo := { pp_link : option Z; pp_ref : Z }.

(** ** inc/env.h *)

Definition LOG2NENV : Z := 10.
Definition NENV : Z := Z.shiftl 1 LOG2NENV.
Definition ENVX (envid : Z) : Z := Z.land envid (NENV - 1).

Inductive EnvStatus :=
| ENV_FREE | ENV_DYING | ENV_RUNNABLE | ENV_RUNNING | ENV_NOT_RUNNABLE.

Global Instance EnvStatus_eq_dec : EqDecision EnvStatus.
Proof. solve_decision. Defined.

Inductive EnvType := ENV_TYPE_USER | ENV_TYPE_FS | ENV_TYPE_NS.

Global Instance EnvType_eq_dec : EqDecision EnvType.
Proof. solve_decision. Defined.

Record Env := {
  env_tf : Trapframe;
  env_link : option Z;
  env_id : Z;
  env_parent_id : Z;
  env_type : EnvType;
  env_status : EnvStatus;
  env_runs : Z;
  env_cpunum : Z;
  env_pgdir : Z;
  env_pgfault_upcall : Z;
  env_ipc_recving : bool;
  env_ipc_dstva : Z;
  env_ipc_value : Z;
  env_ipc_from : Z;
  env_ipc_perm : Z
}.

(** A zeroed [struct Env], as after memset of [envs]. *)
Definition zero_env : Env :=
  {| env_tf := zero_tf; env_link := None; env_id := 0; env_parent_id := 0;
     env_type := ENV_TYPE_USER; env_status := ENV_FREE; env_runs := 0; env_cpunum := 0;
     env_pgdir := 0; env_pgfault_upcall := 0; env_ipc_recving := false; env_ipc_dstva := 0;
     env_ipc_value := 0; env_ipc_from := 0; env_ipc_perm := 0 |}.

(** Field updates, one per field the kernel assigns. *)
Section EnvSet.
Implicit Types e : Env.
Definition set_env_tf v e := Build_Env v (env_link e) (env_id e) (env_parent_id e) (env_type e) (env_status e) (env_runs e) (env_cpunum e) (env_pgdir e) (env_pgfault_upcall e) (env_ipc_recving e) (env_ipc_dstva e) (env_ipc_value e) (env_ipc_from e) (env_ipc_perm e).
Definition set_env_link v e := Build_Env (env_tf e) v (env_id e) (env_parent_id e) (env_type e) (env_status e) (env_runs e) (env_cpunum e) (env_pgdir e) (env_pgfault_upcall e) (env_ipc_recving e) (env_ipc_dstva e) (env_ipc_value e) (env_ipc_from e) (env_ipc_perm e).
Definition set_env_id v e := Build_Env (env_tf e) (env_link e) v (env_parent_id e) (env_type e) (env_status e) (env_runs e) (env_cpunum e) (env_pgdir e) (env_pgfault_upcall e) (env_ipc_recving e) (env_ipc_dstva e) (env_ipc_value e) (env_ipc_from e) (env_ipc_perm e).
Definition set_env_parent_id v e := Build_Env (env_tf e) (env_link e) (env_id e) v (env_type e) (env_status e) (env_runs e) (env_cpunum e) (env_pgdir e) (env_pgfault_upcall e) (env_ipc_recving e) (env_ipc_dstva e) (env_ipc_value e) (env_ipc_from e) (env_ipc_perm e).
Definition set_env_type v e := Build_Env (env_tf e) (env_link e) (env_id e) (env_parent_id e) v (env_status e) (env_runs e) (env_cpunum e) (env_pgdir e) (env_pgfault_upcall e) (env_ipc_recving e) (env_ipc_dstva e) (env_ipc_value e) (env_ipc_from e) (env_ipc_perm e).
Definition set_env_status v e := Build_Env (env_tf e) (env_link e) (env_id e) (env_parent_id e) (env_type e) v (env_runs e) (env_cpunum e) (env_pgdir e) (env_pgfault_upcall e) (env_ipc_recving e) (env_ipc_dstva e) (env_ipc_value e) (env_ipc_from e) (env_ipc_perm e).
Definition set_env_runs v e := Build_Env (env_tf e) (env_link e) (env_id e) (env_parent_id e) (env_type e) (env_status e) v (env_cpunum e) (env_pgdir e) (env_pgfault_upcall e) (env_ipc_recving e) (env_ipc_dstva e) (env_ipc_value e) (env_ipc_from e) (env_ipc_perm e).
Definition set_env_cpunum v e := Build_Env (env_tf e) (env_link e) (env_id e) (env_parent_id e) (env_type e) (env_status e) (env_runs e) v (env_pgdir e) (env_pgfault_upcall e) (env_ipc_recving e) (env_ipc_dstva e) (env_ipc_value e) (env_ipc_from e) (env_ipc_perm e).
Definition set_env_pgdir v e := Build_Env (env_tf e) (env_link e) (env_id e) (env_parent_id e) (env_type e) (env_status e) (env_runs e) (env_cpunum e) v (env_pgfault_upcall e) (env_ipc_recving e) (env_ipc_dstva e) (env_ipc_value e) (env_ipc_from e) (env_ipc_perm e).
Definition set_env_pgfault_upcall v e := Build_Env (env_tf e) (env_link e) (env_id e) (env_parent_id e) (env_type e) (env_status e) (env_runs e) (env_cpunum e) (env_pgdir e) v (env_ipc_recving e) (env_ipc_dstva e) (env_ipc_value e) (env_ipc_from e) (env_ipc_perm e).
Definition set_env_ipc_recving v e := Build_Env (env_tf e) (env_link e) (env_id e) (env_parent_id e) (env_type e) (env_status e) (env_runs e) (env_cpunum e) (env_pgdir e) (env_pgfault_upcall e) v (env_ipc_dstva e) (env_ipc_value e) (env_ipc_from e) (env_ipc_perm e).
Definition set_env_ipc_dstva v e := Build_Env (env_tf e) (env_link e) (env_id e) (env_parent_id e) (env_type e) (env_status e) (env_runs e) (env_cpunum e) (env_pgdir e) (env_pgfault_upcall e) (env_ipc_recving e) v (env_ipc_value e) (env_ipc_from e) (env_ipc_perm e).
Definition set_env_ipc_value v e := Build_Env (env_tf e) (env_link e) (env_id e) (env_parent_id e) (env_type e) (env_status e) (env_runs e) (env_cpunum e) (env_pgdir e) (env_pgfault_upcall e) (env_ipc_recving e) (env_ipc_dstva e) v (env_ipc_from e) (env_ipc_perm e).
Definition set_env_ipc_from v e := Build_Env (env_tf e) (env_link e) (env_id e) (env_parent_id e) (env_type e) (env_status e) (env_runs e) (env_cpunum e) (env_pgdir e) (env_pgfault_upcall e) (env_ipc_recving e) (env_ipc_dstva e) (env_ipc_value e) v (env_ipc_perm e).
Definition set_env_ipc_perm v e := Build_Env (env_tf e) (env_link e) (env_id e) (env_parent_id e) (env_type e) (env_status e) (env_runs e) (env_cpunum e) (env_pgdir e) (env_pgfault_upcall e) (env_ipc_recving e) (env_ipc_dstva e) (env_ipc_value e) (env_ipc_from e) v.
End EnvSet.

(** ** kern/cpu.h *)

Definition NCPU : Z := 8.

Inductive CpuStatus := CPU_UNUSED | CPU_STARTED | CPU_HALTED.

Global Instance CpuStatus_eq_dec : EqDecision CpuStatus.
Proof. solve_decision. Defined.

(** Of [cpu_ts] the kernel assigns the fields below (trap_init_percpu). *)
Record CpuInfo := {
  cpu_id : Z;
  cpu_status : CpuStatus;
  cpu_env : option Z;
  ts_esp0 : Z;
  ts_ss0 : Z;
  ts_iomb : Z
}.

Definition set_cpu_env v (c : CpuInfo) : CpuInfo :=
  Build_CpuInfo (cpu_id c) (cpu_status c) v (ts_esp0 c) (ts_ss0 c) (ts_iomb c).
Definition set_cpu_status v (c : CpuInfo) : CpuInfo :=
  Build_CpuInfo (cpu_id c) v (cpu_env c) (ts_esp0 c) (ts_ss0 c) (ts_iomb c).

(** ** kern/spinlock.h

    [pcs], the call stack recorded for debugging, is not kept. *)
Record spinlock := { locked : Z; lk_cpu : option Z }.

(** ** What the kernel does outside its own memory *)

Inductive event :=
| Cprintf (fmt : string) (args : list Z)
| Invlpg (va : Z)
| Lcr3 (pa : Z)
| LapicEoi
| Lgdt | Lidt | Lldt (sel : Z) | Ltr (sel : Z)
| LoadSeg (reg : string) (sel : Z)
| Monitor.                      (* monitor(tf): the kernel monitor runs and returns *)

(** Why kernel code does not return to its caller. *)
Inductive kstop :=
| Panic (msg : string)          (* panic(), a failed assert() *)
| Ub (what : string)            (* access outside an array, NULL dereference *)
| RunEnv (e : Z)                (* env_pop_tf: iret into environment e *)
| Halted                        (* sched_halt: hlt loop *)
| InMonitor                     (* while (1) monitor(NULL) *)
| Spin.                         (* loops without end, e.g. a lock another CPU holds *)

(** ** The kernel's globals *)

Record KState := {
  npages : Z;
  npages_basemem : Z;
  nextfree : Z;                  (* static of boot_alloc; 0 is NULL *)
  phys : gmap Z Z;
  pages : gmap Z PageInfo;
  page_free_list : option Z;
  kern_pgdir : Z;
  mmio_base : Z;                 (* static base of mmio_map_region *)
  user_mem_check_addr : Z;
  envs : gmap Z Env;
  env_free_list : option Z;
  cpunum : Z;                    (* the CPU this code runs on *)
  cpus : gmap Z CpuInfo;
  kernel_lock : spinlock;
  ticks : Z;
  cr3 : Z;
  trace : list event;            (* newest first *)
  cons : Console;                (* kern/console.c, kern/picirq.c *)
  gdt : gmap Z Segdesc;          (* kern/env.c *)
  idt : gmap Z Gatedesc          (* kern/trap.c *)
}.
Global Instance kstop_eq_dec : EqDecision kstop.
Proof. solve_decision. Defined.

Section KSet.
Implicit Types s : KState.
Definition set_nextfree v s := Build_KState (npages s) (npages_basemem s) v (phys s) (pages s) (page_free_list s) (kern_pgdir s) (mmio_base s) (user_mem_check_addr s) (envs s) (env_free_list s) (cpunum s) (cpus s) (kernel_lock s) (ticks s) (cr3 s) (trace s) (cons s) (gdt s) (idt s).
Definition set_npages v w s := Build_KState v w (nextfree s) (phys s) (pages s) (page_free_list s) (kern_pgdir s) (mmio_base s) (user_mem_check_addr s) (envs s) (env_free_list s) (cpunum s) (cpus s) (kernel_lock s) (ticks s) (cr3 s) (trace s) (cons s) (gdt s) (idt s).
Definition set_phys v s := Build_KState (npages s) (npages_basemem s) (nextfree s) v (pages s) (page_free_list s) (kern_pgdir s) (mmio_base s) (user_mem_check_addr s) (envs s) (env_free_list s) (cpunum s) (cpus s) (kernel_lock s) (ticks s) (cr3 s) (trace s) (cons s) (gdt s) (idt s).
Definition set_pages v s := Build_KState (npages s) (npages_basemem s) (nextfree s) (phys s) v (page_free_list s) (kern_pgdir s) (mmio_base s) (user_mem_check_addr s) (envs s) (env_free_list s) (cpunum s) (cpus s) (kernel_lock s) (ticks s) (cr3 s) (trace s) (cons s) (gdt s) (idt s).
Definition set_page_free_list v s := Build_KState (npages s) (npages_basemem s) (nextfree s) (phys s) (pages s) v (kern_pgdir s) (mmio_base s) (user_mem_check_addr s) (envs s) (env_free_list s) (cpunum s) (cpus s) (kernel_lock s) (ticks s) (cr3 s) (trace s) (cons s) (gdt s) (idt s).
Definition set_kern_pgdir v s := Build_KState (npages s) (npages_basemem s) (nextfree s) (phys s) (pages s) (page_free_list s) v (mmio_base s) (user_mem_check_addr s) (envs s) (env_free_list s) (cpunum s) (cpus s) (kernel_lock s) (ticks s) (cr3 s) (trace s) (cons s) (gdt s) (idt s).
Definition set_mmio_base v s := Build_KState (npages s) (npages_basemem s) (nextfree s) (phys s) (pages s) (page_free_list s) (kern_pgdir s) v (user_mem_check_addr s) (envs s) (env_free_list s) (cpunum s) (cpus s) (kernel_lock s) (ticks s) (cr3 s) (trace s) (cons s) (gdt s) (idt s).
Definition set_user_mem_check_addr v s := Build_KState (npages s) (npages_basemem s) (nextfree s) (phys s) (pages s) (page_free_list s) (kern_pgdir s) (mmio_base s) v (envs s) (env_free_list s) (cpunum s) (cpus s) (kernel_lock s) (ticks s) (cr3 s) (trace s) (cons s) (gdt s) (idt s).
Definition set_envs v s := Build_KState (npages s) (npages_basemem s) (nextfree s) (phys s) (pages s) (page_free_list s) (kern_pgdir s) (mmio_base s) (user_mem_check_addr s) v (env_free_list s) (cpunum s) (cpus s) (kernel_lock s) (ticks s) (cr3 s) (trace s) (cons s) (gdt s) (idt s).
Definition set_env_free_list v s := Build_KState (npages s) (npages_basemem s) (nextfree s) (phys s) (pages s) (page_free_list s) (kern_pgdir s) (mmio_base s) (user_mem_check_addr s) (envs s) v (cpunum s) (cpus s) (kernel_lock s) (ticks s) (cr3 s) (trace s) (cons s) (gdt s) (idt s).
Definition set_cpus v s := Build_KState (npages s) (npages_basemem s) (nextfree s) (phys s) (pages s) (page_free_list s) (kern_pgdir s) (mmio_base s) (user_mem_check_addr s) (envs s) (env_free_list s) (cpunum s) v (kernel_lock s) (ticks s) (cr3 s) (trace s) (cons s) (gdt s) (idt s).
Definition set_kernel_lock v s := Build_KState (npages s) (npages_basemem s) (nextfree s) (phys s) (pages s) (page_free_list s) (kern_pgdir s) (mmio_base s) (user_mem_check_addr s) (envs s) (env_free_list s) (cpunum s) (cpus s) v (ticks s) (cr3 s) (trace s) (cons s) (gdt s) (idt s).
Definition set_ticks v s := Build_KState (npages s) (npages_basemem s) (nextfree s) (phys s) (pages s) (page_free_list s) (kern_pgdir s) (mmio_base s) (user_mem_check_addr s) (envs s) (env_free_list s) (cpunum s) (cpus s) (kernel_lock s) v (cr3 s) (trace s) (cons s) (gdt s) (idt s).
Definition set_cr3 v s := Build_KState (npages s) (npages_basemem s) (nextfree s) (phys s) (pages s) (page_free_list s) (kern_pgdir s) (mmio_base s) (user_mem_check_addr s) (envs s) (env_free_list s) (cpunum s) (cpus s) (kernel_lock s) (ticks s) v (trace s) (cons s) (gdt s) (idt s).
Definition set_trace v s := Build_KState (npages s) (npages_basemem s) (nextfree s) (phys s) (pages s) (page_free_list s) (kern_pgdir s) (mmio_base s) (user_mem_check_addr s) (envs s) (env_free_list s) (cpunum s) (cpus s) (kernel_lock s) (ticks s) (cr3 s) v (cons s) (gdt s) (idt s).
Definition set_cons v s := Build_KState (npages s) (npages_basemem s) (nextfree s) (phys s) (pages s) (page_free_list s) (kern_pgdir s) (mmio_base s) (user_mem_check_addr s) (envs s) (env_free_list s) (cpunum s) (cpus s) (kernel_lock s) (ticks s) (cr3 s) (trace s) v (gdt s) (idt s).
Definition set_gdt v s := Build_KState (npages s) (npages_basemem s) (nextfree s) (phys s) (pages s) (page_free_list s) (kern_pgdir s) (mmio_base s) (user_mem_check_addr s) (envs s) (env_free_list s) (cpunum s) (cpus s) (kernel_lock s) (ticks s) (cr3 s) (trace s) (cons s) v (idt s).
Definition set_idt v s := Build_KState (npages s) (npages_basemem s) (nextfree s) (phys s) (pages s) (page_free_list s) (kern_pgdir s) (mmio_base s) (user_mem_check_addr s) (envs s) (env_free_list s) (cpunum s) (cpus s) (kernel_lock s) (ticks s) (cr3 s) (trace s) (cons s) (gdt s) v.
End KSet.

(** ** Kernel code *)

Definition K (A : Type) : Type := M KState kstop A.

Definition emit (ev : event) : K unit := modify (λ s, set_trace (ev :: trace s) s).
Definition cprintf (fmt : string) (args : list Z) : K unit := emit (Cprintf fmt args).
Definition panic {A} (msg : string) : K A := stop (Panic msg).
Definition kassert (b : bool) (msg : string) : K unit := if b then mret tt else panic msg.
Definition invlpg (va : Z) : K unit := emit (Invlpg va).
Definition lcr3 (pa : Z) : K unit := modify (set_cr3 pa) ;; emit (Lcr3 pa).

(** Console code inside the kernel. *)
Definition console {A} (m : C A) : K A := λ s,
  match m (cons s) with
  | Ok a c => Ok a (set_cons c s)
  | Stop r _ => match r with end
  end.

(** Words of physical memory. *)
Definition word (m : gmap Z Z) (w : Z) : Z := default 0 (m !! w).
(** The word index of a kernel virtual address. *)
Definition kidx (kva : Z) : Z := (kva - KERNBASE) / 4.
Definition kload32 (kva : Z) : K Z := gets (λ s, word (phys s) (kidx kva)).
Definition kstore32 (kva v : Z) : K unit :=
  modify (λ s, set_phys (<[kidx kva := u32 v]> (phys s)) s).
(** [n] zero words from word index [w]. *)
Definition zero_words (w n : Z) (m : gmap Z Z) : gmap Z Z :=
  foldr (λ i m, delete (w + i) m) m (range 0 n).
(** [memset(kva, 0, PGSIZE)] of a page. *)
Definition memset_page_0 (kva : Z) : K unit :=
  modify (λ s, set_phys (zero_words (kidx kva) 1024 (phys s)) s).

(** [pages[i]] and [envs[i]]; outside the array is undefined behaviour. *)
Definition get_page (pp : Z) : K PageInfo :=
  p ← gets (λ s, pages s !! pp);
  match p with Some p => mret p | None => stop (Ub "pages[] out of bounds") end.
Definition put_page (pp : Z) (p : PageInfo) : K unit :=
  get_page pp ;; modify (λ s, set_pages (<[pp := p]> (pages s)) s).
Definition get_env (i : Z) : K Env :=
  e ← gets (λ s, envs s !! i);
  match e with Some e => mret e | None => stop (Ub "envs[] out of bounds") end.
Definition put_env (i : Z) (e : Env) : K unit :=
  get_env i ;; modify (λ s, set_envs (<[i := e]> (envs s)) s).
(** [e->field = v] *)
Definition upd_env (i : Z) (f : Env → Env) : K unit := e ← get_env i; put_env i (f e).

Definition get_cpu : K CpuInfo :=
  c ← gets (λ s, cpus s !! cpunum s);
  match c with Some c => mret c | None => stop (Ub "cpus[] out of bounds") end.
Definition put_cpu (c : CpuInfo) : K unit := modify (λ s, set_cpus (<[cpunum s := c]> (cpus s)) s).
(** [curenv] is [thiscpu->cpu_env]. *)
Definition curenv : K (option Z) := c ← get_cpu; mret (cpu_env c).
Definition set_curenv (v : option Z) : K unit := c ← get_cpu; put_cpu (set_cpu_env v c).
(** [curenv->...]: dereference of a pointer that may be NULL. *)
Definition deref (o : option Z) : K Z :=
  match o with Some i => mret i | None => stop (Ub "NULL dereference") end.

(** ** kern/pmap.h *)

Definition PADDR (kva : Z) : K Z :=
  if u32 kva <? KERNBASE then panic "PADDR called with invalid kva"
  else mret (u32 kva - KERNBASE).
Definition KADDR (pa : Z) : K Z :=
  np ← gets npages;
  if PGNUM pa >=? np then panic "KADDR called with invalid pa"
  else mret (u32 (pa + KERNBASE)).
Definition page2pa (pp : Z) : Z := Z.shiftl pp PGSHIFT.
Definition pa2page (pa : Z) : K Z :=
  np ← gets npages;
  if PGNUM pa >=? np then panic "pa2page called with invalid pa" else mret (PGNUM pa).
Definition page2kva (pp : Z) : K Z := KADDR (page2pa pp).

(** ** Facts about memory words *)

Lemma word_insert m w v w' : word (<[w := v]> m) w' = if decide (w = w') then v else word m w'.
Proof. unfold word. rewrite lookup_insert. by case_decide. Qed.
Lemma word_insert_eq m w v : word (<[w := v]> m) w = v.
Proof. rewrite word_insert. by case_decide. Qed.
Lemma word_insert_ne m w v w' : w ≠ w' → word (<[w := v]> m) w' = word m w'.
Proof. intros. rewrite word_insert. by case_decide. Qed.

Lemma word_zero_words w n m w' :
  word (zero_words w n m) w' = if decide (w ≤ w' < w + n) then 0 else word m w'.
Proof.
  unfold zero_words.
  assert (H : ∀ l, word (foldr (λ i m, delete (w + i) m) m l) w'
              = if decide (w' - w ∈ l) then 0 else word m w').
  { induction l as [|i l IH]; cbn [foldr].
    - case_decide as Hd; [|done]. by apply not_elem_of_nil in Hd.
    - unfold word in *. rewrite lookup_delete. destruct (decide (w + i = w')) as [<-|Hi].
      + replace (w + i - w) with i by lia. rewrite decide_True; [done|]. left.
      + rewrite IH. assert (Hne : w' - w ≠ i) by lia.
        apply decide_ext. rewrite elem_of_cons. naive_solver. }
  rewrite H. apply decide_ext. rewrite elem_of_range. lia.
Qed.

Lemma page2pa_mul pp : page2pa pp = pp * 4096.
Proof. unfold page2pa, PGSHIFT. by rewrite Z.shiftl_mul_pow2. Qed.
