(* ===== verification/KWp.v ===== *)
(** * Weakest-precondition rules for kernel primitives

    One rule per primitive of KState (array accesses, curenv, register
    loads, console output) and the tactic [kwp] that runs them. *)

From S2P Require Import Prelude Mmu KState.

Section Rules.
Implicit Types (s : KState) (E : kstop → KState → Prop).

Lemma wp_emit ev (Q : unit → KState → Prop) E s :
  Q tt (set_trace (ev :: trace s) s) → wp (emit ev) Q E s.
Proof. done. Qed.

Lemma wp_cprintf fmt args (Q : unit → KState → Prop) E s :
  Q tt (set_trace (Cprintf fmt args :: trace s) s) → wp (cprintf fmt args) Q E s.
Proof. done. Qed.

Lemma wp_lcr3 pa (Q : unit → KState → Prop) E s :
  Q tt (set_trace (Lcr3 pa :: trace s) (set_cr3 pa s)) → wp (lcr3 pa) Q E s.
Proof. done. Qed.

Lemma wp_get_env i e (Q : Env → KState → Prop) E s :
  envs s !! i = Some e → Q e s → wp (get_env i) Q E s.
Proof. intros He HQ. unfold wp, get_env, mbind, M_bind, gets. by rewrite He. Qed.

Lemma wp_upd_env i f e (Q : unit → KState → Prop) E s :
  envs s !! i = Some e → Q tt (set_envs (<[i := f e]> (envs s)) s) → wp (upd_env i f) Q E s.
Proof.
  intros He HQ. unfold upd_env. apply wp_bind, (wp_get_env _ e); [done|].
  unfold put_env. apply wp_bind, (wp_get_env _ e); [done|]. done.
Qed.

Lemma wp_get_cpu c (Q : CpuInfo → KState → Prop) E s :
  cpus s !! cpunum s = Some c → Q c s → wp get_cpu Q E s.
Proof. intros He HQ. unfold wp, get_cpu, mbind, M_bind, gets. by rewrite He. Qed.

Lemma wp_curenv c (Q : option Z → KState → Prop) E s :
  cpus s !! cpunum s = Some c → Q (cpu_env c) s → wp curenv Q E s.
Proof. intros Hc HQ. unfold curenv. apply wp_bind, (wp_get_cpu c); [done|]. done. Qed.

Lemma wp_set_curenv c v (Q : unit → KState → Prop) E s :
  cpus s !! cpunum s = Some c →
  Q tt (set_cpus (<[cpunum s := set_cpu_env v c]> (cpus s)) s) → wp (set_curenv v) Q E s.
Proof. intros Hc HQ. unfold set_curenv. apply wp_bind, (wp_get_cpu c); [done|]. done. Qed.

Lemma wp_PADDR kva (Q : Z → KState → Prop) E s :
  KERNBASE ≤ kva < 4294967296 → Q (kva - KERNBASE) s → wp (PADDR kva) Q E s.
Proof.
  intros Hr HQ. unfold PADDR. rewrite u32_small by (unfold KERNBASE in Hr; lia).
  destruct (kva <? KERNBASE) eqn:Hl; [lia|]. done.
Qed.

Lemma wp_deref i (Q : Z → KState → Prop) E s : Q i s → wp (deref (Some i)) Q E s.
Proof. done. Qed.

Lemma wp_kload32 a (Q : Z → KState → Prop) E s : Q (word (phys s) (kidx a)) s → wp (kload32 a) Q E s.
Proof. done. Qed.

Lemma wp_kstore32 a v (Q : unit → KState → Prop) E s :
  Q tt (set_phys (<[kidx a := u32 v]> (phys s)) s) → wp (kstore32 a v) Q E s.
Proof. done. Qed.

(** A computation whose specification excludes stops, inside a larger one. *)
Lemma wp_call {A} (m : K A) (P Q : A → KState → Prop) E s :
  wp m P no_stop s → (∀ a s', P a s' → Q a s') → wp m Q E s.
Proof. intros H HQ. eapply wp_mono; [done|done|by intros ??[]]. Qed.

End Rules.

(** Runs primitives; lookups are found among the hypotheses. *)
Ltac kwp1 :=
  first
    [ apply wp_bind
    | apply wp_ret
    | apply wp_gets
    | apply wp_emit
    | apply wp_cprintf
    | apply wp_lcr3
    | apply wp_deref
    | apply wp_kload32
    | apply wp_kstore32
    | apply wp_modify
    | eapply wp_get_env; [eassumption|]
    | eapply wp_upd_env; [eassumption|]
    | eapply wp_curenv; [eassumption|] ].
Ltac kwp := repeat kwp1.
