(* ===== verification/Pmap.v ===== *)
(** * Physical pages and page tables (kern/pmap.c)

    The page allocator (page_init, page_alloc, page_free, page_decref), the
    two-level page table operations (pgdir_walk, page_lookup, page_insert,
    page_remove, boot_map_region, mmio_map_region) and the check of user
    pointers (user_mem_check).  The boot-time
    allocator (boot_alloc, page_init) is here too; mem_init and the self
    tests are not modelled.  [PmapInv] and the files after it prove the
    operations correct. *)

From S2P Require Import Prelude Mmu KState.

(** ** The page allocator *)

Definition ALLOC_ZERO : Z := 1.

Definition page_alloc (alloc_flags : Z) : K (option Z) :=
  fl ← gets page_free_list;
  match fl with
  | None => mret None
  | Some res =>
      p ← get_page res;
      modify (set_page_free_list (pp_link p)) ;;
      put_page res {| pp_link := None; pp_ref := pp_ref p |} ;;
      (if ctrue (Z.land alloc_flags ALLOC_ZERO)
       then kva ← page2kva res; memset_page_0 kva
       else mret tt) ;;
      mret (Some res)
  end.

Definition page_free (pp : Z) : K unit :=
  p ← get_page pp;
  if negb (bool_decide (pp_link p = None)) || negb (pp_ref p =? 0)
  then panic "pp->pp_link is not NULL or pp->pp_ref is not zero"
  else
    fl ← gets page_free_list;
    put_page pp {| pp_link := fl; pp_ref := pp_ref p |} ;;
    modify (set_page_free_list (Some pp)).

(** [pp->pp_ref++]; pp_ref is a uint16_t. *)
Definition page_incref (pp : Z) : K unit :=
  p ← get_page pp;
  put_page pp {| pp_link := pp_link p; pp_ref := u16 (pp_ref p + 1) |}.

Definition page_decref (pp : Z) : K unit :=
  p ← get_page pp;
  let r := u16 (pp_ref p - 1) in
  put_page pp {| pp_link := pp_link p; pp_ref := r |} ;;
  if r =? 0 then page_free pp else mret tt.

(** ** Page tables *)

(** Returns the kernel virtual address of the page table entry, or NULL. *)
Definition pgdir_walk (pgdir va : Z) (create : bool) : K (option Z) :=
  let va_dir_entry := pgdir + 4 * PDX va in
  let entry : K (option Z) :=
    pde ← kload32 va_dir_entry;
    kva ← KADDR (PTE_ADDR pde);
    mret (Some (kva + 4 * PTX va)) in
  pde ← kload32 va_dir_entry;
  if negb (present pde) then
    if negb create then mret None
    else
      opp ← page_alloc ALLOC_ZERO;
      match opp with
      | None => mret None
      | Some pp =>
          page_incref pp ;;
          kstore32 va_dir_entry (Z.lor (Z.lor (Z.lor (page2pa pp) PTE_U) PTE_P) PTE_W) ;;
          entry
      end
  else entry.

Fixpoint boot_map_loop (n : nat) (pgdir va pa perm : Z) : K unit :=
  match n with
  | O => mret tt
  | S n =>
      pte ← pgdir_walk pgdir va true;
      match pte with
      | None => panic "no enough memory to allocate for page!"
      | Some p =>
          kstore32 p (Z.lor (Z.lor pa perm) PTE_P) ;;
          boot_map_loop n pgdir (u32 (va + PGSIZE)) (u32 (pa + PGSIZE)) perm
      end
  end.

Definition boot_map_region (pgdir va size pa perm : Z) : K unit :=
  let pgs := size / PGSIZE in
  let pgs := if negb (size `mod` PGSIZE =? 0) then pgs + 1 else pgs in
  boot_map_loop (Z.to_nat pgs) pgdir va pa perm.

(** Returns the page and the address of its page table entry. *)
Definition page_lookup (pgdir va : Z) : K (option (Z * Z)) :=
  o ← pgdir_walk pgdir va false;
  match o with
  | None => mret None
  | Some ptep =>
      pte ← kload32 ptep;
      if negb (present pte) then mret None
      else pp ← pa2page (PTE_ADDR pte); mret (Some (pp, ptep))
  end.

Definition tlb_invalidate (pgdir va : Z) : K unit :=
  ce ← curenv;
  match ce with
  | None => invlpg va
  | Some c => e ← get_env c; if env_pgdir e =? pgdir then invlpg va else mret tt
  end.

Definition page_remove (pgdir va : Z) : K unit :=
  o ← page_lookup pgdir va;
  match o with
  | None => mret tt
  | Some (pp, ptep) =>
      page_decref pp ;;
      tlb_invalidate pgdir va ;;
      kstore32 ptep 0
  end.

Definition page_insert (pgdir pp va perm : Z) : K Z :=
  o ← pgdir_walk pgdir va true;
  match o with
  | None => mret (- E_NO_MEM)
  | Some ptep =>
      let add : K Z :=
        page_incref pp ;;
        kstore32 ptep (Z.lor (Z.lor (page2pa pp) PTE_P) perm) ;;
        pde ← kload32 (pgdir + 4 * PDX va);
        kstore32 (pgdir + 4 * PDX va) (Z.lor pde perm) ;;
        mret 0 in
      pte ← kload32 ptep;
      if present pte then
        if PTE_ADDR pte =? page2pa pp then
          kstore32 ptep (Z.lor (Z.lor (page2pa pp) perm) PTE_P) ;;
          mret 0
        else page_remove pgdir va ;; add
      else add
  end.

(** [base] is the static variable of the function. *)
Definition mmio_map_region (pa size : Z) : K Z :=
  start ← gets mmio_base;
  let size := ROUNDUP size PGSIZE in
  if (u32 (start + size) >=? MMIOLIM) || (u32 (start + size) <? start)
  then panic "mmio_map_region failed: size is too big!"
  else
    kp ← gets kern_pgdir;
    boot_map_region kp start size pa (Z.lor (Z.lor PTE_W PTE_PCD) PTE_PWT) ;;
    modify (set_mmio_base (u32 (start + size))) ;;
    mret start.

(** ** User pointers *)

(** One iteration of the loop: [Some r] returns [r]. *)
Definition user_mem_check_page (pgdir va perm start : Z) : K (option Z) :=
  pte ← pgdir_walk pgdir start false;
  bad ← match pte with
        | None => mret true
        | Some p => e ← kload32 p; mret (negb (present e) || negb (Z.land e perm =? perm))
        end;
  if (start >=? ULIM) || bad then
    modify (set_user_mem_check_addr (if start >? va then start else va)) ;;
    mret (Some (- E_FAULT))
  else mret None.

(** The page starts visited by [while (start < end) ... start += PGSIZE]. *)
Definition page_starts (start end_ : Z) : list Z :=
  (λ k, start + k * PGSIZE) <$> range 0 ((end_ - start) / PGSIZE).

Definition user_mem_check (env va len perm : Z) : K Z :=
  e ← get_env env;
  let start := ROUNDDOWN va PGSIZE in
  let end_ := ROUNDUP (u32 (va + len)) PGSIZE in
  r ← forE (page_starts start end_) (user_mem_check_page (env_pgdir e) va perm);
  mret (default 0 r).

(** ** Boot-time allocation *)

Section Boot.
(** The linker's [end] symbol. *)
Variable end_ : Z.

Definition boot_alloc (n : Z) : K Z :=
  nf ← gets nextfree;
  (if nf =? 0 then modify (set_nextfree (ROUNDUP end_ PGSIZE)) else mret tt) ;;
  nf ← gets nextfree;
  if n =? 0 then mret nf
  else
    let result := nf in
    let nf := ROUNDUP (u32 (nf + n)) PGSIZE in
    modify (set_nextfree nf) ;;
    np ← gets npages;
    if u32 (u32 nf - KERNBASE) >? u32 (np * PGSIZE) then panic "Out of memory!"
    else mret result.

Definition page_init : K unit :=
  put_page 0 {| pp_link := None; pp_ref := 1 |} ;;
  ke ← boot_alloc 0;
  kpa ← PADDR ke;
  let kernel_end_page := kpa / PGSIZE in
  let mpentry := MPENTRY_PADDR / PGSIZE in
  np ← gets npages;
  npb ← gets npages_basemem;
  forM (range 1 np) (λ i,
    if (i >=? npb) && (i <? kernel_end_page) then put_page i {| pp_link := None; pp_ref := 1 |}
    else if i =? mpentry then put_page i {| pp_link := None; pp_ref := 1 |}
    else
      fl ← gets page_free_list;
      put_page i {| pp_link := fl; pp_ref := 0 |} ;;
      modify (set_page_free_list (Some i))).
End Boot.
