(* ===== verification/PmapInv.v ===== *)
(** * Correctness of the page allocator and the page tables

    The accounting invariant of kern/pmap.c and the proofs that every
    operation keeps it:

    - [free_chain]: the linked free list, as the list of its pages;
    - [slots]: the words of physical memory that hold counted page
      references (the user part of every page directory, and every page
      table), [refs]: how many of them refer to a page;
    - [minv]: pp_ref is exactly the number of references, free pages are
      unreferenced, page tables are private to one directory entry and never
      mapped into user space;
    - [mapping]: the abstract address space a page directory stands for, a
      partial map from page numbers to a page and its permissions. *)

From S2P Require Import Prelude Mmu KState Pmap.

(** ** The free list *)

Fixpoint free_chain (pg : gmap Z PageInfo) (h : option Z) (l : list Z) : Prop :=
  match l with
  | [] => h = None
  | p :: l => h = Some p ∧ ∃ i, pg !! p = Some i ∧ free_chain pg (pp_link i) l
  end.

Lemma free_chain_insert_ne pg p i h l :
  p ∉ l → free_chain pg h l → free_chain (<[p := i]> pg) h l.
Proof.
  revert h. induction l as [|q l IH]; intros h Hp; simpl; [done|].
  intros (-> & j & Hj & Hc). split; [done|]. exists j.
  rewrite lookup_insert_ne by set_solver. split; [done|]. apply IH; set_solver.
Qed.

(** Changing only the reference count of a page keeps the chain. *)
Lemma free_chain_relink pg p i i' h l :
  pg !! p = Some i → pp_link i' = pp_link i → free_chain pg h l → free_chain (<[p := i']> pg) h l.
Proof.
  intros Hp Hl. revert h. induction l as [|q l IH]; intros h; simpl; [done|].
  intros (-> & j & Hj & Hc). split; [done|].
  destruct (decide (p = q)) as [->|].
  - exists i'. rewrite lookup_insert_eq. split; [done|]. rewrite Hl.
    simplify_eq. by apply IH.
  - exists j. rewrite lookup_insert_ne by done. split; [done|]. by apply IH.
Qed.

(** ** Counted references *)

(** User entries of a page directory: indices below PDX(UTOP). *)
Definition NUPDE : Z := PDX UTOP.

Lemma NUPDE_val : NUPDE = 955.
Proof. reflexivity. Qed.

Definition dir_words (p : Z) : gset Z := list_to_set ((λ i, p * 1024 + i) <$> range 0 955).
Definition tab_words (p : Z) : gset Z := list_to_set ((λ i, p * 1024 + i) <$> range 0 1024).

Definition dslots (PD : gset Z) : gset Z := set_bind dir_words PD.
Definition tslots (PT : gset Z) : gset Z := set_bind tab_words PT.
Definition slots (PD PT : gset Z) : gset Z := dslots PD ∪ tslots PT.

Lemma elem_of_dslots w PD : w ∈ dslots PD ↔ w / 1024 ∈ PD ∧ w `mod` 1024 < 955.
Proof.
  unfold dslots, dir_words. rewrite elem_of_set_bind. setoid_rewrite elem_of_list_to_set.
  setoid_rewrite list_elem_of_fmap. setoid_rewrite elem_of_range. split.
  - intros (p & Hp & i & -> & Hi).
    replace ((p * 1024 + i) / 1024) with p by mlia. split; [done|]. mlia.
  - intros [Hp Hm]. exists (w / 1024). split; [done|]. exists (w `mod` 1024). mlia.
Qed.

Lemma elem_of_tslots w PT : w ∈ tslots PT ↔ w / 1024 ∈ PT.
Proof.
  unfold tslots, tab_words. rewrite elem_of_set_bind. setoid_rewrite elem_of_list_to_set.
  setoid_rewrite list_elem_of_fmap. setoid_rewrite elem_of_range. split.
  - intros (p & Hp & i & -> & Hi). replace ((p * 1024 + i) / 1024) with p by mlia. done.
  - intros Hp. exists (w / 1024). split; [done|]. exists (w `mod` 1024). mlia.
Qed.

Global Opaque dslots tslots.

Definition refers (m : gmap Z Z) (p w : Z) : Prop := present (word m w) = true ∧ PGNUM (word m w) = p.

Definition refs (m : gmap Z Z) (S : gset Z) (p : Z) : Z := Z.of_nat (size (filter (refers m p) S)).

(** One reference or none. *)
Definition hit (v p : Z) : Z := if present v && (PGNUM v =? p) then 1 else 0.

Lemma hit_refers m p w : hit (word m w) p = if decide (refers m p w) then 1 else 0.
Proof.
  unfold hit, refers. case_decide as Hd.
  - destruct Hd as [-> ->]. by rewrite Z.eqb_refl.
  - destruct (present _) eqn:E; [|done]. simpl. destruct (PGNUM _ =? p) eqn:E2; [|done].
    apply Z.eqb_eq in E2. naive_solver.
Qed.

Lemma refs_nonneg m S p : 0 ≤ refs m S p.
Proof. unfold refs. lia. Qed.

Lemma refs_ext m m' S p : (∀ w, w ∈ S → word m w = word m' w) → refs m S p = refs m' S p.
Proof.
  intros H. unfold refs. do 2 f_equal. apply set_eq. intros w. rewrite !elem_of_filter.
  unfold refers. split; intros [[? ?] Hw]; specialize (H w Hw); (split; [|done]); split; congruence.
Qed.

(** A slot set with one more slot. *)
Lemma refs_add m S w p : w ∉ S → refs m ({[w]} ∪ S) p = refs m S p + hit (word m w) p.
Proof.
  intros Hw. unfold refs. rewrite filter_union_L, size_union; [| |apply _].
  2:{ intros x. rewrite !elem_of_filter. set_solver. }
  rewrite hit_refers, filter_singleton_L by apply _.
  case_decide; rewrite ?size_singleton, ?size_empty; lia || apply _.
Qed.

Lemma refs_insert m S w v p :
  w ∈ S → refs (<[w := v]> m) S p = refs m S p - hit (word m w) p + hit v p.
Proof.
  intros Hw.
  assert (HS : S = {[w]} ∪ (S ∖ {[w]})).
  { apply set_eq. intros x. destruct (decide (x = w)); set_solver. }
  rewrite HS. rewrite !refs_add by set_solver. rewrite word_insert_eq.
  rewrite (refs_ext (<[w := v]> m) m) by (intros x Hx; apply word_insert_ne; set_solver).
  lia.
Qed.

(** New slots without references change nothing. *)
Lemma refs_grow m S S' p :
  S ⊆ S' → (∀ w, w ∈ S' → w ∉ S → present (word m w) = false) → refs m S' p = refs m S p.
Proof.
  intros HS H. unfold refs. do 2 f_equal. apply set_eq. intros w. rewrite !elem_of_filter.
  unfold refers. split; intros [[Hp ?] Hw]; (split; [done|]); [|set_solver].
  destruct (decide (w ∈ S)); [done|]. by rewrite H in Hp.
Qed.

Lemma refs_pos m S p w : w ∈ S → present (word m w) = true → PGNUM (word m w) = p → 0 < refs m S p.
Proof.
  intros Hw H1 H2. unfold refs.
  assert (w ∈ filter (refers m p) S) by (apply elem_of_filter; done).
  assert (size (filter (refers m p) S) ≠ 0%nat); [|lia].
  intros H0. apply size_empty_inv in H0. set_solver.
Qed.

Lemma refs_zero m S p : refs m S p = 0 → ∀ w, w ∈ S → present (word m w) = true → PGNUM (word m w) ≠ p.
Proof. intros H w Hw Hp Hg. pose proof (refs_pos m S p w Hw Hp Hg). lia. Qed.

(** ** The invariant

    [PD]: pages that are page directories of environments; [PT]: pages that
    are page tables of their user part; [ext p]: references to [p] held
    outside the tables (an environment's hold on its directory, pages
    reserved at boot); [fl]: the free list. *)

Record minv (PD PT : gset Z) (ext : Z → Z) (fl : list Z)
    (np : Z) (m : gmap Z Z) (pg : gmap Z PageInfo) (h : option Z) : Prop := {
  mi_np : 0 ≤ np ≤ 65536;
  mi_dom : ∀ p, is_Some (pg !! p) ↔ 0 ≤ p < np;
  mi_chain : free_chain pg h fl;
  mi_nodup : NoDup fl;
  mi_free : ∀ p i, p ∈ fl → pg !! p = Some i → p ∉ PD ∪ PT ∧ pp_ref i = 0;
  mi_link : ∀ p i, p ∉ fl → pg !! p = Some i → pp_link i = None;
  mi_ref : ∀ p i, pg !! p = Some i → pp_ref i = refs m (slots PD PT) p + ext p;
  mi_ref16 : ∀ p i, pg !! p = Some i → pp_ref i < 65536;
  mi_ext : ∀ p, 0 ≤ ext p;
  mi_word : ∀ w, w ∈ slots PD PT → 0 ≤ word m w < 4294967296;
  mi_dir : ∀ w, w ∈ dslots PD → present (word m w) = true → PGNUM (word m w) ∈ PT;
  mi_pde : ∀ w, w ∈ dslots PD → present (word m w) = true → Z.land (word m w) 7 = 7;
  mi_inj : ∀ w w', w ∈ dslots PD → w' ∈ dslots PD →
    present (word m w) = true → present (word m w') = true →
    PGNUM (word m w) = PGNUM (word m w') → w = w';
  mi_own : ∀ p, p ∈ PT → ext p = 0 ∧ ∃ w, w ∈ dslots PD ∧ refers m p w;
  mi_tab : ∀ w, w ∈ tslots PT → present (word m w) = true →
    PGNUM (word m w) ∉ PD ∪ PT ∧ PGNUM (word m w) < np;
  mi_uext : ∀ w, w ∈ tslots PT → present (word m w) = true → ext (PGNUM (word m w)) = 0;
  mi_disj : PD ## PT;
  mi_range : ∀ p, p ∈ PD ∪ PT → 0 ≤ p < np
}.

(** The invariant of a kernel state. *)
Definition kminv (PD PT : gset Z) (ext : Z → Z) (fl : list Z) (s : KState) : Prop :=
  minv PD PT ext fl (npages s) (phys s) (pages s) (page_free_list s).

Lemma slots_split PD PT w : w ∈ slots PD PT ↔ w ∈ dslots PD ∨ w ∈ tslots PT.
Proof. unfold slots. set_solver. Qed.

Lemma slots_not_both PD PT w : PD ## PT → w ∈ dslots PD → w ∈ tslots PT → False.
Proof. rewrite elem_of_dslots, elem_of_tslots. set_solver. Qed.

(** Dom is kept by an update of an existing page. *)
Lemma dom_update (pg : gmap Z PageInfo) np p i i' :
  (∀ p, is_Some (pg !! p) ↔ 0 ≤ p < np) → pg !! p = Some i →
  ∀ q, is_Some (<[p := i']> pg !! q) ↔ 0 ≤ q < np.
Proof.
  intros Hd Hp q. rewrite lookup_insert. case_decide; [subst|by apply Hd].
  split; [|by eauto]. intros _. apply Hd. eauto.
Qed.

Lemma hit_entry p f q : 0 ≤ p < 1048576 → 0 ≤ f < 4096 → present f = true →
  hit (p * 4096 + f) q = if decide (p = q) then 1 else 0.
Proof.
  intros. unfold hit. rewrite present_add_page, PGNUM_entry by lia.
  case_decide; subst; [rewrite Z.eqb_refl; by destruct (present f)|].
  destruct (p =? q) eqn:E; [lia|]. by rewrite andb_false_r.
Qed.

Lemma hit_absent v p : present v = false → hit v p = 0.
Proof. unfold hit. by intros ->. Qed.

Lemma hit_present v p : present v = true → hit v p = if decide (PGNUM v = p) then 1 else 0.
Proof.
  unfold hit. intros ->. simpl. case_decide; [subst; by rewrite Z.eqb_refl|].
  destruct (PGNUM v =? p) eqn:E; [lia|done].
Qed.

(** Updates of the reference count of one page. *)
Lemma ref_update (pg : gmap Z PageInfo) p i (r : Z) (rf rf' : Z → Z) :
  pg !! p = Some i →
  (∀ q k, pg !! q = Some k → pp_ref k = rf q) →
  r = rf' p → (∀ q, q ≠ p → rf' q = rf q) →
  ∀ q k, <[p := {| pp_link := pp_link i; pp_ref := r |}]> pg !! q = Some k → pp_ref k = rf' q.
Proof.
  intros Hp Hrf Hr Hne q k. rewrite lookup_insert. case_decide.
  - subst. by intros [= <-].
  - intros Hk. rewrite Hne by done. eauto.
Qed.

Lemma link_update (pg : gmap Z PageInfo) p i r (fl : list Z) :
  pg !! p = Some i → p ∉ fl →
  (∀ q k, q ∉ fl → pg !! q = Some k → pp_link k = None) →
  ∀ q k, q ∉ fl → <[p := {| pp_link := pp_link i; pp_ref := r |}]> pg !! q = Some k → pp_link k = None.
Proof.
  intros Hp Hfl Hl q k Hq. rewrite lookup_insert. case_decide; [|by eauto].
  intros [= <-]. simpl. subst. eauto.
Qed.

Section MinvLemmas.
Context (PD PT : gset Z) (ext : Z → Z).
Implicit Types (fl : list Z) (m : gmap Z Z) (pg : gmap Z PageInfo) (h : option Z).

(** Reading the entry of a page that has a PageInfo. *)
Lemma minv_page fl np m pg h p :
  minv PD PT ext fl np m pg h → 0 ≤ p < np → ∃ i, pg !! p = Some i.
Proof. intros H Hp. by apply (mi_dom _ _ _ _ _ _ _ _ H) in Hp. Qed.

(** Memory that agrees on the slots. *)
Lemma minv_mem_ext fl np m m' pg h :
  minv PD PT ext fl np m pg h →
  (∀ w, w ∈ slots PD PT → word m w = word m' w) →
  minv PD PT ext fl np m' pg h.
Proof.
  intros [] Hw.
  assert (Hd : ∀ w, w ∈ dslots PD → word m w = word m' w) by (intros; apply Hw, slots_split; auto).
  assert (Ht : ∀ w, w ∈ tslots PT → word m w = word m' w) by (intros; apply Hw, slots_split; auto).
  split; try done.
  - intros p i Hp. rewrite <- (refs_ext m m') by done. eauto.
  - intros w H. rewrite <- Hw by done. eauto.
  - intros w H. rewrite <- Hd by done. eauto.
  - intros w H. rewrite <- Hd by done. eauto.
  - intros w w' H H'. rewrite <- !Hd by done. eauto.
  - intros p Hp. destruct (mi_own0 p Hp) as (? & w & Hw' & Hr).
    split; [done|]. exists w. split; [done|]. unfold refers in *. by rewrite <- Hd.
  - intros w H. rewrite <- Ht by done. eauto.
  - intros w H. rewrite <- Ht by done. eauto.
Qed.

(** Zeroing a page that is no table. *)
Lemma minv_zero_page fl np m pg h p :
  minv PD PT ext fl np m pg h → p ∉ PD ∪ PT →
  minv PD PT ext fl np (zero_words (p * 1024) 1024 m) pg h.
Proof.
  intros H Hp. eapply minv_mem_ext; [done|]. intros w Hw.
  rewrite word_zero_words. case_decide as Hd; [|done].
  replace w with (p * 1024 + (w - p * 1024)) in Hw by lia.
  rewrite slots_split, elem_of_dslots, elem_of_tslots in Hw.
  replace ((p * 1024 + (w - p * 1024)) / 1024) with p in Hw by mlia. set_solver.
Qed.

(** Taking the first free page. *)
Lemma minv_pop fl np m pg p i :
  minv PD PT ext (p :: fl) np m pg (Some p) → pg !! p = Some i →
  minv PD PT ext fl np m (<[p := {| pp_link := None; pp_ref := pp_ref i |}]> pg) (pp_link i).
Proof.
  intros [] Hi. apply NoDup_cons in mi_nodup0 as [Hp Hnd].
  destruct mi_chain0 as (_ & j & Hj & Hc). simplify_eq.
  split; try done.
  - by eapply dom_update.
  - by apply free_chain_insert_ne.
  - intros q k Hq. rewrite lookup_insert_ne by (intros ->; done). intros Hk.
    eapply mi_free0; [|done]. set_solver.
  - intros q k Hq. rewrite lookup_insert. case_decide; [naive_solver|].
    intros Hk. eapply mi_link0; [|done]. set_solver.
  - intros q k. rewrite lookup_insert. case_decide; [|by eauto]. intros [= <-]. subst. simpl. eauto.
  - intros q k. rewrite lookup_insert. case_decide; [|by eauto]. intros [= <-]. subst. simpl. eauto.
Qed.

(** Returning an unreferenced page. *)
Lemma minv_push fl np m pg h p i :
  minv PD PT ext fl np m pg h → pg !! p = Some i → p ∉ fl → p ∉ PD ∪ PT → pp_ref i = 0 →
  minv PD PT ext (p :: fl) np m (<[p := {| pp_link := h; pp_ref := pp_ref i |}]> pg) (Some p).
Proof.
  intros [] Hi Hfl HT Hr. split; try done.
  - by eapply dom_update.
  - simpl. split; [done|]. eexists. rewrite lookup_insert_eq. split; [done|]. simpl.
    by apply free_chain_insert_ne.
  - by apply NoDup_cons.
  - intros q k Hq. rewrite lookup_insert. case_decide; [naive_solver|].
    intros Hk. eapply mi_free0; [|done]. set_solver.
  - intros q k Hq. rewrite lookup_insert_ne by set_solver.
    intros Hk. eapply mi_link0; [|done]. set_solver.
  - intros q k. rewrite lookup_insert. case_decide; [|by eauto]. intros [= <-]. subst. simpl. eauto.
  - intros q k. rewrite lookup_insert. case_decide; [|by eauto]. intros [= <-]. subst. simpl. eauto.
Qed.

(** A free page is referenced by nothing. *)
Lemma minv_unreferenced fl np m pg h p i :
  minv PD PT ext fl np m pg h → pg !! p = Some i → pp_ref i = 0 →
  ext p = 0 ∧ ∀ w, w ∈ slots PD PT → present (word m w) = true → PGNUM (word m w) ≠ p.
Proof.
  intros H Hi Hr. pose proof (mi_ref _ _ _ _ _ _ _ _ H p i Hi) as Hrf.
  pose proof (mi_ext _ _ _ _ _ _ _ _ H p). pose proof (refs_nonneg m (slots PD PT) p).
  split; [lia|]. apply refs_zero. lia.
Qed.

(** A present entry of a table may change everything but its page. *)
Lemma minv_set_perm fl np m pg h w v :
  minv PD PT ext fl np m pg h → w ∈ slots PD PT → present (word m w) = true →
  present v = true → PGNUM v = PGNUM (word m w) → 0 ≤ v < 4294967296 →
  (w ∈ dslots PD → Z.land v 7 = 7) →
  minv PD PT ext fl np (<[w := v]> m) pg h.
Proof.
  intros [] Hw Hp Hv HG Hr H7. split; try done.
  - intros p i Hi. rewrite refs_insert by done.
    rewrite (hit_present v), (hit_present (word m w)), HG by done. rewrite (mi_ref0 p i Hi). lia.
  - intros x Hx. rewrite word_insert. case_decide; [done|]. eauto.
  - intros x Hx. rewrite word_insert. case_decide; [subst; rewrite HG|]; eauto.
  - intros x Hx. rewrite word_insert. case_decide; [subst|]; eauto.
  - intros x y Hx Hy. rewrite !word_insert.
    do 2 case_decide; subst; rewrite ?HG; eauto.
  - intros p Hpt. destruct (mi_own0 p Hpt) as (He & x & Hx & [Hx1 Hx2]). split; [done|].
    exists x. split; [done|]. unfold refers. rewrite word_insert. case_decide; subst; [|done]. by rewrite HG.
  - intros x Hx. rewrite word_insert. case_decide; [subst; rewrite HG|]; eauto.
  - intros x Hx. rewrite word_insert. case_decide; [subst; rewrite HG|]; eauto.
Qed.

(** A new reference in a page table. *)
Lemma minv_add_pte fl np m pg h w p i f :
  minv PD PT ext fl np m pg h → w ∈ tslots PT → present (word m w) = false →
  pg !! p = Some i → p ∉ PD ∪ PT → ext p = 0 → p ∉ fl → pp_ref i < 65535 →
  0 ≤ f < 4096 → present f = true →
  minv PD PT ext fl np (<[w := p * 4096 + f]> m)
    (<[p := {| pp_link := pp_link i; pp_ref := pp_ref i + 1 |}]> pg) h.
Proof.
  intros [] Hw Hab Hi HpT He0 Hfl Hlt Hf Hfp.
  assert (Hpr : 0 ≤ p < np) by (apply mi_dom0; eauto).
  assert (Hws : w ∈ slots PD PT) by (apply slots_split; auto).
  assert (Hnd : ∀ x, x ∈ dslots PD → x ≠ w) by (intros x Hx ->; by eapply slots_not_both).
  split; try done.
  - by eapply dom_update.
  - by eapply free_chain_relink.
  - intros q k Hq. rewrite lookup_insert_ne by (intros ->; done). eauto.
  - by eapply link_update.
  - eapply ref_update with (rf := λ q, refs m (slots PD PT) q + ext q); [done|done| |].
    + rewrite refs_insert, hit_absent, hit_entry by (done || lia). rewrite decide_True by done.
      rewrite (mi_ref0 p i Hi). lia.
    + intros q Hq. rewrite refs_insert, hit_absent, hit_entry by (done || lia).
      rewrite decide_False by done. lia.
  - intros q k. rewrite lookup_insert. case_decide; [intros [= <-]; simpl; lia|eauto].
  - intros x Hx. rewrite word_insert. case_decide; [lia|]. eauto.
  - intros x Hx. rewrite word_insert_ne by (apply not_eq_sym; eauto). eauto.
  - intros x Hx. rewrite word_insert_ne by (apply not_eq_sym; eauto). eauto.
  - intros x y Hx Hy. rewrite !word_insert_ne by (apply not_eq_sym; eauto). eauto.
  - intros q Hq. destruct (mi_own0 q Hq) as (He & x & Hx & Hr). split; [done|]. exists x. split; [done|].
    unfold refers in *. by rewrite !word_insert_ne by (apply not_eq_sym; eauto).
  - intros x Hx. rewrite word_insert. case_decide; [|by eauto]. intros _.
    rewrite PGNUM_entry by lia. split; [done|lia].
  - intros x Hx. rewrite word_insert. case_decide; [|by eauto]. intros _. by rewrite PGNUM_entry by lia.
Qed.

(** Dropping a reference from a page table. *)
Lemma minv_del_pte fl np m pg h w i :
  minv PD PT ext fl np m pg h → w ∈ tslots PT → present (word m w) = true →
  pg !! PGNUM (word m w) = Some i →
  0 < pp_ref i ∧ PGNUM (word m w) ∉ fl ∧ pp_link i = None ∧
  minv PD PT ext fl np (<[w := 0]> m)
    (<[PGNUM (word m w) := {| pp_link := pp_link i; pp_ref := pp_ref i - 1 |}]> pg) h.
Proof.
  intros [] Hw Hp Hi.
  assert (Hws : w ∈ slots PD PT) by (apply slots_split; auto).
  assert (Hnd : ∀ x, x ∈ dslots PD → x ≠ w) by (intros x Hx ->; by eapply slots_not_both).
  assert (Hpos : 0 < pp_ref i).
  { rewrite (mi_ref0 _ i Hi). pose proof (mi_ext0 (PGNUM (word m w))).
    pose proof (refs_pos m (slots PD PT) _ w Hws Hp eq_refl). lia. }
  assert (Hfl : PGNUM (word m w) ∉ fl).
  { intros Hin. destruct (mi_free0 _ _ Hin Hi). lia. }
  split; [done|]. split; [done|]. split; [eauto|].
  split; try done.
  - by eapply dom_update.
  - by eapply free_chain_relink.
  - intros q k Hq. rewrite lookup_insert_ne by (intros <-; done). eauto.
  - by eapply link_update.
  - eapply ref_update with (rf := λ q, refs m (slots PD PT) q + ext q); [done|done| |].
    + rewrite refs_insert, (hit_absent 0), hit_present by done. rewrite decide_True by done.
      rewrite (mi_ref0 _ i Hi). lia.
    + intros q Hq. rewrite refs_insert, (hit_absent 0), hit_present by done.
      rewrite decide_False by done. lia.
  - intros q k. rewrite lookup_insert. case_decide; [intros [= <-]; simpl|eauto].
    pose proof (mi_ref17 _ _ Hi). lia.
  - intros x Hx. rewrite word_insert. case_decide; [lia|]. eauto.
  - intros x Hx. rewrite word_insert_ne by (apply not_eq_sym; eauto). eauto.
  - intros x Hx. rewrite word_insert_ne by (apply not_eq_sym; eauto). eauto.
  - intros x y Hx Hy. rewrite !word_insert_ne by (apply not_eq_sym; eauto). eauto.
  - intros q Hq. destruct (mi_own0 q Hq) as (He & x & Hx & Hr). split; [done|]. exists x. split; [done|].
    unfold refers in *. by rewrite !word_insert_ne by (apply not_eq_sym; eauto).
  - intros x Hx. rewrite word_insert. case_decide; [|by eauto]. done.
  - intros x Hx. rewrite word_insert. case_decide; [|by eauto]. done.
Qed.
End MinvLemmas.

(** A fresh, zeroed page becomes a page table. *)
Lemma minv_add_table PD PT ext fl np m pg h w p i f :
  minv PD PT ext fl np m pg h → w ∈ dslots PD → present (word m w) = false →
  pg !! p = Some i → p ∉ PD ∪ PT → p ∉ fl → pp_ref i = 0 →
  (∀ x, x / 1024 = p → word m x = 0) →
  0 ≤ f < 4096 → present f = true → Z.land f 7 = 7 →
  minv PD ({[p]} ∪ PT) ext fl np (<[w := p * 4096 + f]> m)
    (<[p := {| pp_link := pp_link i; pp_ref := 1 |}]> pg) h.
Proof.
  intros Hm Hw Hab Hi HpT Hfl Hr0 Hz Hf Hfp H7.
  destruct (minv_unreferenced _ _ _ _ _ _ _ _ _ _ Hm Hi Hr0) as [Hext Hun].
  destruct Hm.
  assert (Hpr : 0 ≤ p < np) by (apply mi_dom0; eauto).
  assert (Hwp : w / 1024 ≠ p) by (rewrite elem_of_dslots in Hw; set_solver).
  assert (Hts : ∀ x, x ∈ tslots ({[p]} ∪ PT) ↔ x / 1024 = p ∨ x ∈ tslots PT).
  { intros x. rewrite !elem_of_tslots. set_solver. }
  assert (Hnt : ∀ x, x ∈ tslots ({[p]} ∪ PT) → x ≠ w).
  { intros x Hx ->. rewrite elem_of_tslots in Hx. rewrite elem_of_dslots in Hw. set_solver. }
  assert (HS : slots PD PT ⊆ slots PD ({[p]} ∪ PT)).
  { intros x. rewrite !slots_split, Hts. naive_solver. }
  assert (Hws : w ∈ slots PD ({[p]} ∪ PT)) by (apply slots_split; auto).
  assert (Hrefs : ∀ q, refs (<[w := p * 4096 + f]> m) (slots PD ({[p]} ∪ PT)) q
                       = refs m (slots PD PT) q + if decide (p = q) then 1 else 0).
  { intros q. rewrite refs_insert, hit_absent, hit_entry by (done || lia).
    rewrite (refs_grow m (slots PD PT)); [lia|done|].
    intros x. rewrite !slots_split, Hts. intros [?|[Hx|?]] Hn; [by destruct Hn; left|by rewrite Hz|by destruct Hn; right]. }
  assert (Hd : ∀ x, x ∈ slots PD PT → present (word m x) = true → PGNUM (word m x) ≠ p) by exact Hun.
  split; try done.
  - by eapply dom_update.
  - by eapply free_chain_relink.
  - intros q k Hq. rewrite lookup_insert_ne by (intros ->; done).
    intros Hk. destruct (mi_free0 q k Hq Hk). split; [set_solver|done].
  - by eapply link_update.
  - eapply ref_update with (rf := λ q, refs m (slots PD PT) q + ext q); [done|done| |].
    + rewrite Hrefs, decide_True by done. pose proof (mi_ref0 p i Hi). lia.
    + intros q Hq. rewrite Hrefs, decide_False by done. lia.
  - intros q k. rewrite lookup_insert. case_decide; [intros [= <-]; simpl; lia|eauto].
  - intros x Hx. rewrite word_insert. case_decide; [lia|].
    rewrite slots_split, Hts in Hx. destruct Hx as [Hx|[Hx|Hx]];
      [apply mi_word0, slots_split; auto|rewrite Hz by done; lia|apply mi_word0, slots_split; auto].
  - intros x Hx. rewrite word_insert. case_decide; [intros _; rewrite PGNUM_entry by lia; set_solver|].
    intros Hpr2. set_unfold. right. eauto.
  - intros x Hx. rewrite word_insert. case_decide; [intros _; by rewrite land_7_page|eauto].
  - intros x y Hx Hy. rewrite !word_insert.
    do 2 case_decide; subst; [done| | |by eauto]; rewrite PGNUM_entry by lia; intros H1 H2 HG; exfalso.
    + eapply (Hd y); [apply slots_split; auto|done|done].
    + eapply (Hd x); [apply slots_split; auto|done|done].
  - intros q Hq. apply elem_of_union in Hq as [Hq%elem_of_singleton|Hq].
    + subst. split; [done|]. exists w. split; [done|]. unfold refers.
      rewrite word_insert_eq, present_add_page, PGNUM_entry by lia. done.
    + destruct (mi_own0 q Hq) as (He & x & Hx & Hr). split; [done|]. exists x. split; [done|].
      unfold refers in *. rewrite !word_insert_ne; [done|]. intros <-. naive_solver congruence.
  - intros x Hx. rewrite word_insert_ne by (apply not_eq_sym; eauto).
    apply Hts in Hx as [Hx|Hx]; [by rewrite Hz|]. intros Hpx.
    destruct (mi_tab0 x Hx Hpx). split; [|done].
    assert (PGNUM (word m x) ≠ p) by (apply Hd; [apply slots_split; auto|done]). set_solver.
  - intros x Hx. rewrite word_insert_ne by (apply not_eq_sym; eauto).
    apply Hts in Hx as [Hx|Hx]; [by rewrite Hz|]. eauto.
  - set_solver.
  - intros q Hq. destruct (decide (q = p)); [by subst|]. apply mi_range0. set_solver.
Qed.
