(* ===== verification/PmapSpec.v ===== *)
(** * Specifications of the page table operations

    Every operation of [Pmap] against the invariant [minv] and the abstract
    address spaces [mapping]: page_lookup reads the map, page_insert inserts
    into it and page_remove deletes from it, while the accounting of
    references and free pages stays exact. *)

From S2P Require Import Prelude Mmu KState Pmap PmapInv.

(** ** Address spaces *)

(** The page and permission bits at page number [v] of directory [pd]. *)
Definition mapping (m : gmap Z Z) (pd v : Z) : option (Z * Z) :=
  let pde := word m (pd * 1024 + v / 1024) in
  if present pde then
    let pte := word m (PGNUM pde * 1024 + v `mod` 1024) in
    if present pte then Some (PGNUM pte, Z.land pte 0xFFF) else None
  else None.

(** The user part of the address space: page numbers below PGNUM(UTOP). *)
Definition user_vpn (v : Z) : Prop := 0 ≤ v < 977920.

Lemma user_vpn_UTOP va : 0 ≤ va < UTOP → user_vpn (PGNUM va).
Proof. unfold user_vpn. rewrite PGNUM_div. intros. rewrite u32_small by mlia. mlia. Qed.

(** Kernel virtual address of a page. *)
Definition kdir (p : Z) : Z := KERNBASE + p * 4096.

(** Changes to memory, page structures and the event trace only. *)
Definition frame (s s' : KState) : Prop :=
  s' = set_trace (trace s') (set_phys (phys s') (set_pages (pages s')
         (set_page_free_list (page_free_list s') s))).

Lemma frame_refl s : frame s s.
Proof. by destruct s. Qed.
Lemma frame_trans s1 s2 s3 : frame s1 s2 → frame s2 s3 → frame s1 s3.
Proof. unfold frame. intros H1 H2. rewrite H2, H1. reflexivity. Qed.
Lemma frame_npages s s' : frame s s' → npages s' = npages s.
Proof. intros H. by rewrite H. Qed.
Lemma frame_kern_pgdir s s' : frame s s' → kern_pgdir s' = kern_pgdir s.
Proof. intros H. by rewrite H. Qed.
Lemma frame_cr3 s s' : frame s s' → cr3 s' = cr3 s.
Proof. intros H. by rewrite H. Qed.
Lemma frame_env_free_list s s' : frame s s' → env_free_list s' = env_free_list s.
Proof. intros H. by rewrite H. Qed.
Lemma frame_envs s s' : frame s s' → envs s' = envs s.
Proof. intros H. by rewrite H. Qed.
Lemma frame_cpus s s' : frame s s' → cpus s' = cpus s ∧ cpunum s' = cpunum s.
Proof. intros H. by rewrite H. Qed.

(** [thiscpu] exists and [curenv] is NULL or a valid environment. *)
Definition cpu_ok (s : KState) : Prop :=
  ∃ c, cpus s !! cpunum s = Some c ∧ ∀ e, cpu_env c = Some e → is_Some (envs s !! e).

Lemma frame_cpu_ok s s' : frame s s' → cpu_ok s → cpu_ok s'.
Proof.
  intros Hf (c & Hc & He). destruct (frame_cpus _ _ Hf) as [H1 H2].
  exists c. rewrite H1, H2, (frame_envs _ _ Hf). done.
Qed.

(** ** Addresses of table words *)

Lemma kidx_entry p i : kidx (kdir p + 4 * i) = p * 1024 + i.
Proof. unfold kidx, kdir. mlia. Qed.

Lemma kidx_page p : kidx (kdir p) = p * 1024.
Proof. unfold kidx, kdir. mlia. Qed.

Lemma dir_slot PD pd va :
  pd ∈ PD → 0 ≤ va < UTOP → pd * 1024 + PDX va ∈ dslots PD.
Proof.
  intros Hpd Hva. rewrite elem_of_dslots, PDX_div, u32_small by mlia.
  assert (va / 4194304 < 955) by mlia. assert (0 ≤ va / 4194304) by mlia.
  replace ((pd * 1024 + va / 4194304) / 1024) with pd by mlia. split; [done|]. mlia.
Qed.

Lemma dir_slot_vpn PD pd v : pd ∈ PD → user_vpn v → pd * 1024 + v / 1024 ∈ dslots PD.
Proof.
  unfold user_vpn. intros Hpd Hv. rewrite elem_of_dslots.
  assert (v / 1024 < 955) by mlia. assert (0 ≤ v / 1024) by mlia.
  replace ((pd * 1024 + v / 1024) / 1024) with pd by mlia. split; [done|]. mlia.
Qed.

Lemma tab_slot PT q i : q ∈ PT → 0 ≤ i < 1024 → q * 1024 + i ∈ tslots PT.
Proof.
  intros. rewrite elem_of_tslots. by replace ((q * 1024 + i) / 1024) with q by mlia.
Qed.

Lemma KADDR_ok s q : 0 ≤ q < npages s → npages s ≤ 65536 → KADDR (q * 4096) s = Ok (kdir q) s.
Proof.
  intros. unfold KADDR, mbind, M_bind, gets.
  rewrite PGNUM_div, u32_small by lia. replace (q * 4096 / 4096) with q by mlia.
  destruct (q >=? npages s) eqn:E; [lia|]. unfold mret, M_ret, kdir, KERNBASE.
  rewrite u32_small by lia. f_equal. lia.
Qed.

Lemma pa2page_ok s q : 0 ≤ q < npages s → npages s ≤ 65536 → pa2page (q * 4096) s = Ok q s.
Proof.
  intros. unfold pa2page, mbind, M_bind, gets.
  rewrite PGNUM_div, u32_small by lia. replace (q * 4096 / 4096) with q by mlia.
  destruct (q >=? npages s) eqn:E; [lia|]. done.
Qed.

Lemma get_page_ok s p i : pages s !! p = Some i → get_page p s = Ok i s.
Proof. unfold get_page, mbind, M_bind, gets. by intros ->. Qed.

Lemma put_page_ok s p i i' :
  pages s !! p = Some i → put_page p i' s = Ok tt (set_pages (<[p := i']> (pages s)) s).
Proof. intros H. unfold put_page, mbind, M_bind. rewrite (get_page_ok s p i H). done. Qed.

(** ** The allocator *)

Section Specs.
Context (PD : gset Z) (ext : Z → Z).

Lemma page_alloc_spec PT fl flags s :
  kminv PD PT ext fl s →
  wp (page_alloc flags) (λ r s', match r with
    | None => fl = [] ∧ s' = s
    | Some p => ∃ fl' i, fl = p :: fl' ∧ kminv PD PT ext fl' s' ∧ frame s s' ∧ trace s' = trace s ∧
        pages s !! p = Some i ∧ pp_ref i = 0 ∧ p ∉ PD ∪ PT ∧ p ∉ fl' ∧
        pages s' = <[p := {| pp_link := None; pp_ref := 0 |}]> (pages s) ∧
        phys s' = if ctrue (Z.land flags ALLOC_ZERO) then zero_words (p * 1024) 1024 (phys s) else phys s
    end) no_stop s.
Proof.
  intros Hm. unfold page_alloc, wp, mbind, M_bind, gets.
  pose proof (mi_chain _ _ _ _ _ _ _ _ Hm) as Hc.
  destruct fl as [|p fl]; simpl in Hc; [by rewrite Hc|].
  destruct Hc as (Hh & i & Hi & Hc). rewrite Hh, (get_page_ok _ _ _ Hi). cbn [modify].
  rewrite (put_page_ok _ _ i) by done.
  destruct (mi_free _ _ _ _ _ _ _ _ Hm p i ltac:(left) Hi) as [HpT Hr].
  assert (Hpr : 0 ≤ p < npages s) by (apply (mi_dom _ _ _ _ _ _ _ _ Hm); eauto).
  pose proof (mi_np _ _ _ _ _ _ _ _ Hm) as Hnp.
  pose proof (mi_nodup _ _ _ _ _ _ _ _ Hm) as [Hfl _]%NoDup_cons.
  assert (Hm' : minv PD PT ext fl (npages s) (phys s) (<[p := {| pp_link := None; pp_ref := 0 |}]> (pages s)) (pp_link i)).
  { unfold kminv in Hm. rewrite Hh in Hm. rewrite <- Hr. by eapply minv_pop. }
  destruct (ctrue _) eqn:Hz.
  - unfold page2kva. rewrite page2pa_mul, KADDR_ok by (simpl; lia).
    unfold memset_page_0, modify, mret, M_ret. rewrite kidx_page.
    exists fl, i. split; [done|]. rewrite Hr. split; [by apply minv_zero_page|].
    split_and!; done.
  - unfold mret, M_ret. exists fl, i. rewrite Hr. split_and!; done.
Qed.

(** Returning a page whose count reached zero. *)
Lemma page_free_spec PT fl s p i :
  kminv PD PT ext fl s → pages s !! p = Some i → p ∉ fl → p ∉ PD ∪ PT → pp_ref i = 0 →
  wp (page_free p) (λ _ s', kminv PD PT ext (p :: fl) s' ∧ frame s s' ∧ trace s' = trace s ∧
    phys s' = phys s ∧
    pages s' = <[p := {| pp_link := page_free_list s; pp_ref := 0 |}]> (pages s)) no_stop s.
Proof.
  intros Hm Hi Hfl HT Hr. unfold page_free, wp, mbind, M_bind.
  rewrite (get_page_ok _ _ _ Hi). rewrite (mi_link _ _ _ _ _ _ _ _ Hm p i Hfl Hi), Hr. simpl.
  unfold gets. rewrite (put_page_ok _ _ i) by done. unfold modify.
  split; [|split; [by destruct s|done]].
  pose proof (minv_push PD PT ext fl _ _ _ _ p i Hm Hi Hfl HT Hr) as H. by rewrite Hr in H.
Qed.

(** ** Address spaces and memory updates *)

Section Mappings.
Context (PT : gset Z) (fl : list Z) (np : Z) (m : gmap Z Z) (pg : gmap Z PageInfo) (h : option Z).
Context (Hm : minv PD PT ext fl np m pg h).

Lemma pde_table pd v :
  pd ∈ PD → user_vpn v → present (word m (pd * 1024 + v / 1024)) = true →
  PGNUM (word m (pd * 1024 + v / 1024)) ∈ PT.
Proof. intros. by apply (mi_dir _ _ _ _ _ _ _ _ Hm); [apply dir_slot_vpn|]. Qed.

(** Memory agreeing on the slots gives the same address spaces. *)
Lemma mapping_ext m' pd v :
  (∀ w, w ∈ slots PD PT → word m w = word m' w) →
  pd ∈ PD → user_vpn v → mapping m' pd v = mapping m pd v.
Proof.
  intros Hw Hpd Hv. unfold mapping.
  assert (Hd : pd * 1024 + v / 1024 ∈ slots PD PT) by (apply slots_split; left; by apply dir_slot_vpn).
  rewrite <- (Hw _ Hd). destruct (present _) eqn:Hp; [|done].
  rewrite <- Hw; [done|]. apply slots_split. right. apply tab_slot; [by apply pde_table|].
  mlia.
Qed.

(** Writing the entry of page [v] of directory [pd]. *)
Lemma mapping_set_pte pd v e pd' v' :
  pd ∈ PD → user_vpn v → present (word m (pd * 1024 + v / 1024)) = true →
  pd' ∈ PD → user_vpn v' →
  mapping (<[PGNUM (word m (pd * 1024 + v / 1024)) * 1024 + v `mod` 1024 := e]> m) pd' v' =
  if decide (pd' = pd ∧ v' = v) then (if present e then Some (PGNUM e, Z.land e 0xFFF) else None)
  else mapping m pd' v'.
Proof.
  intros Hpd Hv Hp Hpd' Hv'. set (q := PGNUM (word m (pd * 1024 + v / 1024))).
  assert (Hq : q ∈ PT) by by apply pde_table.
  assert (Hne : ∀ x, x ∈ dslots PD → q * 1024 + v `mod` 1024 ≠ x).
  { intros x Hx Heq. eapply (slots_not_both PD PT x); [apply (mi_disj _ _ _ _ _ _ _ _ Hm)|done|].
    rewrite <- Heq. apply tab_slot; [done|mlia]. }
  unfold mapping. rewrite (word_insert_ne _ _ _ (pd' * 1024 + v' / 1024)) by by apply Hne, dir_slot_vpn.
  destruct (present (word m (pd' * 1024 + v' / 1024))) eqn:Hp'.
  2:{ case_decide as Hd; [|done]. destruct Hd as [-> ->]. congruence. }
  rewrite word_insert. case_decide as Hx.
  - assert (Hq2 : q = PGNUM (word m (pd' * 1024 + v' / 1024))) by mlia.
    assert (Hmod : v `mod` 1024 = v' `mod` 1024) by mlia.
    assert (Hw : pd * 1024 + v / 1024 = pd' * 1024 + v' / 1024).
    { apply (mi_inj _ _ _ _ _ _ _ _ Hm); auto using dir_slot_vpn. }
    unfold user_vpn in *. rewrite decide_True; [done|]. mlia.
  - rewrite decide_False; [done|]. intros [-> ->]. done.
Qed.

(** Changing the permissions of a directory entry. *)
Lemma mapping_set_pde w e pd' v' :
  w ∈ dslots PD → present (word m w) = true → present e = true → PGNUM e = PGNUM (word m w) →
  pd' ∈ PD → user_vpn v' →
  mapping (<[w := e]> m) pd' v' = mapping m pd' v'.
Proof.
  intros Hw Hp He HG Hpd' Hv'. unfold mapping. rewrite word_insert.
  assert (Hne : ∀ q i, q ∈ PT → 0 ≤ i < 1024 → w ≠ q * 1024 + i).
  { intros q i Hq Hi ->. eapply slots_not_both; [apply (mi_disj _ _ _ _ _ _ _ _ Hm)|done|].
    by apply tab_slot. }
  case_decide as Hd.
  - subst w. rewrite He, Hp, HG. rewrite word_insert_ne; [done|].
    apply Hne; [by apply pde_table|mlia].
  - destruct (present (word m (pd' * 1024 + v' / 1024))) eqn:Hp'; [|done].
    rewrite word_insert_ne; [done|]. apply Hne; [by apply pde_table|mlia].
Qed.
End Mappings.

(** ** pgdir_walk *)

Lemma vpn_split va : 0 ≤ va < UTOP → PGNUM va / 1024 = PDX va ∧ PGNUM va `mod` 1024 = PTX va.
Proof. intros. by rewrite PDX_PGNUM, PTX_PGNUM. Qed.

Lemma pgdir_walk_present PT fl s pd va create :
  kminv PD PT ext fl s → pd ∈ PD → 0 ≤ va < UTOP →
  present (word (phys s) (pd * 1024 + PDX va)) = true →
  pgdir_walk (kdir pd) va create s =
    Ok (Some (kdir (PGNUM (word (phys s) (pd * 1024 + PDX va))) + 4 * PTX va)) s.
Proof.
  intros Hm Hpd Hva Hp. unfold pgdir_walk, mbind, M_bind, kload32, gets. rewrite kidx_entry, Hp. simpl.
  pose proof (mi_dir _ _ _ _ _ _ _ _ Hm _ (dir_slot PD pd va Hpd Hva) Hp) as Hq.
  rewrite PTE_ADDR_PGNUM, KADDR_ok; [done| |apply (mi_np _ _ _ _ _ _ _ _ Hm)].
  apply (mi_range _ _ _ _ _ _ _ _ Hm). set_solver.
Qed.

Lemma pgdir_walk_absent s pd va :
  present (word (phys s) (pd * 1024 + PDX va)) = false →
  pgdir_walk (kdir pd) va false s = Ok None s.
Proof.
  intros Hp. unfold pgdir_walk, mbind, M_bind, kload32, gets. by rewrite kidx_entry, Hp.
Qed.

(** Memory outside the tables [PT'] and the pages [fl] is untouched. *)
Definition mem_kept (PT' : gset Z) (fl : list Z) (s s' : KState) : Prop :=
  ∀ w, w ∉ slots PD PT' → w / 1024 ∉ fl → word (phys s') w = word (phys s) w.

Lemma mem_kept_trans PT1 PT2 fl1 fl2 s s1 s2 :
  PT1 ⊆ PT2 → (∀ p, p ∈ fl2 → p ∈ fl1) →
  mem_kept PT1 fl1 s s1 → mem_kept PT2 fl2 s1 s2 → mem_kept PT2 fl1 s s2.
Proof.
  intros HPT Hfl H1 H2 w Hw Hwf. rewrite H2; [apply H1; [|done]|done|auto].
  intros Hin. apply Hw. rewrite slots_split in *. destruct Hin as [?|Hin]; [by left|right].
  rewrite elem_of_tslots in *. auto.
Qed.

(** No reference count rises by more than [n]. *)
Definition refs_grow (n : Z) (s s' : KState) : Prop :=
  ∀ p k', pages s' !! p = Some k' → ∃ k, pages s !! p = Some k ∧ pp_ref k' ≤ pp_ref k + n.
(** Only that of [pp] rises, by at most one. *)
Definition refs_one (pp : Z) (s s' : KState) : Prop :=
  ∀ p k', pages s' !! p = Some k' →
    ∃ k, pages s !! p = Some k ∧ pp_ref k' ≤ pp_ref k + (if decide (p = pp) then 1 else 0).

Lemma refs_grow_same s s' : pages s' = pages s → refs_grow 0 s s'.
Proof. intros H p k' Hk'. rewrite H in Hk'. exists k'. split; [done|lia]. Qed.
Lemma refs_grow_trans m n s s1 s2 : refs_grow m s s1 → refs_grow n s1 s2 → refs_grow (m + n) s s2.
Proof.
  intros H1 H2 p k2 Hk2. destruct (H2 p k2 Hk2) as (k1 & Hk1 & ?). destruct (H1 p k1 Hk1) as (k & Hk & ?).
  exists k. split; [done|lia].
Qed.
Lemma refs_grow_le m n s s' : m ≤ n → refs_grow m s s' → refs_grow n s s'.
Proof. intros Hle H p k' Hk'. destruct (H p k' Hk') as (k & Hk & ?). exists k. split; [done|lia]. Qed.

(** What a successful walk with [create] establishes. *)
Definition walked (PT : gset Z) (fl : list Z) (s : KState) (pd va : Z) (ptep : Z) (s' : KState) : Prop :=
  ∃ PT' fl' q, kminv PD PT' ext fl' s' ∧ frame s s' ∧ trace s' = trace s ∧
    q ∈ PT' ∧ ptep = kdir q + 4 * PTX va ∧
    present (word (phys s') (pd * 1024 + PDX va)) = true ∧
    PGNUM (word (phys s') (pd * 1024 + PDX va)) = q ∧
    (∀ p, p ∉ fl → pages s' !! p = pages s !! p) ∧ refs_grow 1 s s' ∧
    (∀ p, p ∈ fl' → p ∈ fl) ∧ PT ⊆ PT' ∧ (∀ p, p ∈ PT' → p ∈ PT ∨ p ∈ fl) ∧
    (∀ pd' v, pd' ∈ PD → user_vpn v → mapping (phys s') pd' v = mapping (phys s) pd' v) ∧
    mem_kept PT' fl s s'.

Lemma pgdir_walk_create_spec PT fl s pd va :
  kminv PD PT ext fl s → pd ∈ PD → 0 ≤ va < UTOP →
  wp (pgdir_walk (kdir pd) va true) (λ r s', match r with
    | None => fl = [] ∧ s' = s ∧ present (word (phys s) (pd * 1024 + PDX va)) = false
    | Some ptep => walked PT fl s pd va ptep s'
    end) no_stop s.
Proof.
  intros Hm Hpd Hva. set (w := pd * 1024 + PDX va).
  destruct (present (word (phys s) w)) eqn:Hp.
  { unfold wp. rewrite (pgdir_walk_present PT fl) by done.
    exists PT, fl, (PGNUM (word (phys s) w)).
    pose proof (mi_dir _ _ _ _ _ _ _ _ Hm _ (dir_slot PD pd va Hpd Hva) Hp) as Hq.
    split_and!; try done; [apply frame_refl|by apply (refs_grow_le 0); [lia|apply refs_grow_same]|auto]. }
  unfold pgdir_walk. apply wp_bind. unfold kload32. apply wp_gets. rewrite kidx_entry. fold w. rewrite Hp. simpl.
  apply wp_bind. eapply wp_mono; [by apply (page_alloc_spec PT fl)| |done].
  intros [q|] s1; [|intros [-> ->]; by apply wp_ret].
  intros (fl' & i & -> & Hm1 & Hf1 & Ht1 & Hi & Hr & HqT & Hqfl & Hpg & Hph).
  change (ctrue (Z.land ALLOC_ZERO ALLOC_ZERO)) with true in Hph. cbv iota in Hph.
  assert (Hpg1 : pages s1 !! q = Some {| pp_link := None; pp_ref := 0 |}) by (by rewrite Hpg, lookup_insert_eq).
  assert (Hw : w ∈ dslots PD) by by apply dir_slot.
  assert (Hwq : w / 1024 ≠ q).
  { intros Heq. apply elem_of_dslots in Hw as [Hin _]. apply HqT, elem_of_union_l. by rewrite <- Heq. }
  assert (Hpw : word (phys s1) w = word (phys s) w).
  { rewrite Hph, word_zero_words, decide_False; [done|]. mlia. }
  assert (Hq : 0 ≤ q < npages s1) by (apply (mi_dom _ _ _ _ _ _ _ _ Hm1); eauto).
  pose proof (mi_np _ _ _ _ _ _ _ _ Hm1) as Hnp.
  set (e := q * 4096 + 7).
  assert (He : Z.lor (Z.lor (Z.lor (page2pa q) PTE_U) PTE_P) PTE_W = e).
  { rewrite page2pa_mul, <- !Z.lor_assoc. apply lor_page_perm. done. }
  assert (Hm2 : minv PD ({[q]} ∪ PT) ext fl' (npages s1) (<[w := e]> (phys s1))
                  (<[q := {| pp_link := None; pp_ref := 1 |}]> (pages s1)) (page_free_list s1)).
  { apply (minv_add_table _ _ _ _ _ _ _ _ w q {| pp_link := None; pp_ref := 0 |} 7); try done.
    - by rewrite Hpw.
    - intros x Hx. rewrite Hph, word_zero_words, decide_True; [done|]. mlia. }
  unfold wp, mbind, M_bind, page_incref. unfold mbind, M_bind.
  rewrite (get_page_ok _ _ _ Hpg1). cbn [pp_link pp_ref]. rewrite (put_page_ok _ _ _ _ Hpg1).
  unfold kstore32, modify, gets. cbn [phys set_pages set_phys]. rewrite kidx_entry. fold w.
  rewrite He, word_insert_eq.
  assert (Heg : u32 e = e) by (unfold e; apply u32_small; lia). rewrite Heg.
  assert (HG : PGNUM e = q) by (unfold e; rewrite PGNUM_entry by lia; done).
  rewrite PTE_ADDR_PGNUM, HG, KADDR_ok by (simpl; lia). unfold mret, M_ret.
  exists ({[q]} ∪ PT), fl', q. split_and!; try done.
  - eapply frame_trans; [exact Hf1|]. by destruct s1.
  - by apply elem_of_union_l, elem_of_singleton.
  - cbn. rewrite word_insert_eq. unfold e. by rewrite present_add_page.
  - cbn. by rewrite word_insert_eq.
  - intros p [Hpq _]%not_elem_of_cons. cbn. rewrite lookup_insert_ne by done. rewrite Hpg. by rewrite lookup_insert_ne by done.
  - intros p k'. cbn. rewrite Hpg, insert_insert_eq. destruct (decide (q = p)) as [<-|].
    + rewrite lookup_insert_eq. intros [= <-]. exists i. split; [done|]. cbn [pp_ref]. change (u16 (0 + 1)) with 1. lia.
    + rewrite lookup_insert_ne by done. intros Hk'. exists k'. split; [done|lia].
  - intros p Hin. by right.
  - apply union_subseteq_r.
  - intros p [->%elem_of_singleton|Hin]%elem_of_union; [right; left|by left].
  - intros pd' v Hpd' Hv. cbn. unfold mapping. rewrite word_insert. case_decide as Hd.
    + rewrite <- Hd, Hp. unfold e. rewrite present_add_page, PGNUM_entry by lia.
      change (present 7) with true. cbv iota.
      rewrite word_insert_ne by mlia. rewrite Hph, word_zero_words, decide_True; [done|]. mlia.
    + pose proof (dir_slot_vpn PD pd' v Hpd' Hv) as Hw'.
      assert (Hw'q : (pd' * 1024 + v / 1024) / 1024 ≠ q).
      { intros Heq. apply elem_of_dslots in Hw' as [Hin _]. apply HqT, elem_of_union_l. by rewrite <- Heq. }
      assert (Hz : word (phys s1) (pd' * 1024 + v / 1024) = word (phys s) (pd' * 1024 + v / 1024)).
      { rewrite Hph, word_zero_words, decide_False; [done|]. mlia. }
      rewrite Hz. destruct (present (word (phys s) (pd' * 1024 + v / 1024))) eqn:Hp'; [|done].
      pose proof (pde_table _ _ _ _ _ _ Hm pd' v Hpd' Hv Hp') as Hq'.
      assert (Hqq : PGNUM (word (phys s) (pd' * 1024 + v / 1024)) ≠ q).
      { intros Heq. apply HqT, elem_of_union_r. by rewrite <- Heq. }
      rewrite word_insert_ne.
      * rewrite Hph, word_zero_words, decide_False; [done|]. mlia.
      * intros Hx. eapply slots_not_both; [apply (mi_disj _ _ _ _ _ _ _ _ Hm)|exact Hw|].
        rewrite Hx. apply tab_slot; [done|mlia].
  - intros x Hx [Hxq Hxf]%not_elem_of_cons. cbn. rewrite word_insert_ne.
    2:{ intros <-. apply Hx, slots_split. by left. }
    rewrite Hph, word_zero_words, decide_False; [done|]. mlia.
Qed.
End Specs.
