(* ===== verification/PmapDir.v ===== *)
(** * Creating and tearing down address spaces

    How the accounting invariant of PmapInv moves when env_setup_vm turns a
    fresh page into a page directory and env_free gives an empty page table
    and an empty page directory back. *)

From S2P Require Import Prelude Mmu KState Pmap PmapInv.

(** Exactly one slot refers to a page table. *)
Lemma refs_one m S p w :
  w ∈ S → refers m p w → (∀ w', w' ∈ S → refers m p w' → w' = w) → refs m S p = 1.
Proof.
  intros Hw Hr Hu. unfold refs.
  replace (filter (refers m p) S) with ({[w]} : gset Z).
  - by rewrite size_singleton.
  - apply set_eq. intros x. rewrite elem_of_filter, elem_of_singleton. split; [by intros ->|].
    intros [? ?]. by apply Hu.
Qed.

(** Dropping slots that hold no reference. *)
Lemma refs_shrink m S S' p :
  S' ⊆ S → (∀ w, w ∈ S → w ∉ S' → present (word m w) = false) → refs m S' p = refs m S p.
Proof. intros. symmetry. by apply refs_grow. Qed.

Section Teardown.
Context {PD PT : gset Z} {ext : Z → Z} {fl : list Z} {np : Z} {m : gmap Z Z}
        {pg : gmap Z PageInfo} {h : option Z}.
Context (Hm : minv PD PT ext fl np m pg h).

(** A page table is referenced once, by its directory entry. *)
Lemma table_ref w : w ∈ dslots PD → present (word m w) = true →
  refs m (slots PD PT) (PGNUM (word m w)) = 1.
Proof.
  intros Hw Hp. apply (refs_one _ _ _ w); [by apply slots_split; left|done|].
  intros x [Hx|Hx]%slots_split [Hpx HG].
  - by apply (mi_inj _ _ _ _ _ _ _ _ Hm).
  - destruct (mi_tab _ _ _ _ _ _ _ _ Hm x Hx Hpx) as [HT _]. destruct HT. rewrite HG.
    apply elem_of_union_r. by apply (mi_dir _ _ _ _ _ _ _ _ Hm).
Qed.

(** A page directory is referenced by no slot. *)
Lemma dir_ref p : p ∈ PD → refs m (slots PD PT) p = 0.
Proof.
  intros Hp. unfold refs. replace (filter (refers m p) (slots PD PT)) with (∅ : gset Z); [by rewrite size_empty|].
  symmetry. apply set_eq. intros w. rewrite elem_of_filter. split; [|set_solver].
  intros [[Hpr HG] [Hw|Hw]%slots_split].
  - pose proof (mi_dir _ _ _ _ _ _ _ _ Hm w Hw Hpr) as Hq. rewrite HG in Hq.
    pose proof (mi_disj _ _ _ _ _ _ _ _ Hm). set_solver.
  - destruct (mi_tab _ _ _ _ _ _ _ _ Hm w Hw Hpr) as [HT _]. set_solver.
Qed.

End Teardown.

(** env_free: an empty page table is unlinked and freed. *)
Lemma minv_del_table PD PT ext fl np m pg h w i :
  minv PD PT ext fl np m pg h → w ∈ dslots PD → present (word m w) = true →
  pg !! PGNUM (word m w) = Some i →
  (∀ x, x / 1024 = PGNUM (word m w) → present (word m x) = false) →
  pp_ref i = 1 ∧ pp_link i = None ∧
  minv PD (PT ∖ {[PGNUM (word m w)]}) ext fl np (<[w := 0]> m)
    (<[PGNUM (word m w) := {| pp_link := None; pp_ref := 0 |}]> pg) h ∧ PGNUM (word m w) ∉ fl.
Proof.
  intros Hm Hw Hp Hi Habs. set (q := PGNUM (word m w)) in *.
  assert (Hq : q ∈ PT) by by apply (mi_dir _ _ _ _ _ _ _ _ Hm).
  destruct (mi_own _ _ _ _ _ _ _ _ Hm q Hq) as [He _].
  assert (Hr : pp_ref i = 1).
  { rewrite (mi_ref _ _ _ _ _ _ _ _ Hm q i Hi). unfold q at 1. rewrite (table_ref Hm) by done. lia. }
  assert (Hfl : q ∉ fl).
  { intros Hin. destruct (mi_free _ _ _ _ _ _ _ _ Hm q i Hin Hi). lia. }
  pose proof (mi_link _ _ _ _ _ _ _ _ Hm q i Hfl Hi) as Hl.
  split; [done|]. split; [done|]. split; [|done].
  assert (HqD : q ∉ PD) by (pose proof (mi_disj _ _ _ _ _ _ _ _ Hm) as Hd; sets using Hd Hq).
  assert (Hts : ∀ x, x ∈ tslots (PT ∖ {[q]}) ↔ x / 1024 ≠ q ∧ x ∈ tslots PT).
  { intros x. rewrite !elem_of_tslots. clear. set_solver. }
  assert (Hnt : ∀ x, x ∈ tslots PT → x ≠ w).
  { intros x Hx ->. eapply slots_not_both; [apply (mi_disj _ _ _ _ _ _ _ _ Hm)|done|done]. }
  assert (HS : slots PD (PT ∖ {[q]}) ⊆ slots PD PT).
  { intros x. rewrite !slots_split, Hts. naive_solver. }
  assert (Hrefs : ∀ p, refs (<[w := 0]> m) (slots PD (PT ∖ {[q]})) p
                       = refs m (slots PD PT) p - if decide (q = p) then 1 else 0).
  { intros p. rewrite refs_insert by (apply slots_split; by left).
    rewrite (refs_shrink m (slots PD PT)); [|done|].
    - unfold hit. rewrite Hp. change (present 0) with false. cbn [andb]. fold q.
      destruct (q =? p) eqn:E; case_decide; lia.
    - intros x. rewrite !slots_split, Hts. intros [?|?] Hn; [by destruct Hn; left|].
      apply Habs. destruct (decide (x / 1024 = q)); [done|]. destruct Hn. by right. }
  destruct Hm as [mi_np0 mi_dom0 mi_chain0 mi_nodup0 mi_free0 mi_link0 mi_ref0 mi_ref160 mi_ext0 mi_word0 mi_dir0 mi_pde0 mi_inj0 mi_own0 mi_tab0 mi_uext0 mi_disj0 mi_range0]. split; try done.
  - by eapply dom_update.
  - apply (free_chain_relink pg q i); [done|by rewrite Hl|done].
  - intros p k Hpf. rewrite lookup_insert_ne by (intros ->; done).
    intros Hk. destruct (mi_free0 p k Hpf Hk) as [Hn ?]. split; [sets using Hn|done].
  - intros p k Hn. rewrite lookup_insert. case_decide; [by intros [= <-]|eauto].
  - intros p k. rewrite lookup_insert, Hrefs. case_decide; [intros [= <-]; subst; simpl|].
    + rewrite (mi_ref0 _ _ Hi) in Hr. lia.
    + intros Hk. rewrite (mi_ref0 _ _ Hk). lia.
  - intros p k. rewrite lookup_insert. case_decide; [intros [= <-]; simpl; lia|eauto].
  - intros x Hx. rewrite word_insert. case_decide; [lia|]. by apply mi_word0, HS.
  - intros x Hx. rewrite word_insert. case_decide; [done|]. intros Hpx.
    apply elem_of_difference. split; [eauto|]. rewrite elem_of_singleton. intros HG.
    assert (x = w) by by apply mi_inj0. done.
  - intros x Hx. rewrite word_insert. case_decide; [done|eauto].
  - intros x y Hx Hy. rewrite !word_insert. do 2 case_decide; [done..|]. eauto.
  - intros p [Hpt Hpq]%elem_of_difference. rewrite elem_of_singleton in Hpq.
    destruct (mi_own0 p Hpt) as (He' & x & Hx & Hrx). split; [done|]. exists x. split; [done|].
    unfold refers in *. rewrite word_insert_ne; [done|]. intros <-. naive_solver.
  - intros x Hx. apply Hts in Hx as [Hx1 Hx]. rewrite word_insert_ne by (apply not_eq_sym; eauto).
    intros Hpx. destruct (mi_tab0 x Hx Hpx) as [Hn ?]. split; [sets using Hn|done].
  - intros x Hx. apply Hts in Hx as [Hx1 Hx]. rewrite word_insert_ne by (apply not_eq_sym; eauto). eauto.
  - sets using mi_disj0.
  - intros p Hpp. apply mi_range0. sets using Hpp.
Qed.

(** The outside reference count of one page replaced. *)
Definition ext_set (p n : Z) (ext : Z → Z) (q : Z) : Z := if decide (q = p) then n else ext q.

Lemma ext_set_eq p n ext : ext_set p n ext p = n.
Proof. unfold ext_set. by case_decide. Qed.
Lemma ext_set_ne p n ext q : q ≠ p → ext_set p n ext q = ext q.
Proof. intros. unfold ext_set. by case_decide. Qed.

(** env_setup_vm: a fresh page without user entries becomes a directory. *)
Lemma minv_add_dir PD PT ext fl np m pg h p i :
  minv PD PT ext fl np m pg h → pg !! p = Some i → p ∉ PD ∪ PT → p ∉ fl → pp_ref i = 0 →
  (∀ x, x / 1024 = p → x `mod` 1024 < 955 → word m x = 0) →
  minv ({[p]} ∪ PD) PT (ext_set p 1 ext) fl np m (<[p := {| pp_link := pp_link i; pp_ref := 1 |}]> pg) h.
Proof.
  intros Hm Hi HpT Hfl Hr Hz.
  destruct (minv_unreferenced _ _ _ _ _ _ _ _ _ _ Hm Hi Hr) as [Hext Hun].
  destruct Hm as [mi_np0 mi_dom0 mi_chain0 mi_nodup0 mi_free0 mi_link0 mi_ref0 mi_ref160 mi_ext0 mi_word0 mi_dir0 mi_pde0 mi_inj0 mi_own0 mi_tab0 mi_uext0 mi_disj0 mi_range0].
  assert (Hds : ∀ x, x ∈ dslots ({[p]} ∪ PD) ↔ (x / 1024 = p ∧ x `mod` 1024 < 955) ∨ x ∈ dslots PD).
  { intros x. rewrite !elem_of_dslots. clear. set_solver. }
  assert (HS : ∀ x, x ∈ slots ({[p]} ∪ PD) PT → word m x = 0 ∨ x ∈ slots PD PT).
  { intros x. rewrite !slots_split, Hds. intros [[[??]|?]|?]; auto. }
  assert (HSsub : slots PD PT ⊆ slots ({[p]} ∪ PD) PT).
  { intros x. rewrite !slots_split, Hds. clear. tauto. }
  assert (Hrefs : ∀ q, refs m (slots ({[p]} ∪ PD) PT) q = refs m (slots PD PT) q).
  { intros q. apply refs_grow; [done|]. intros x Hx Hn. destruct (HS x Hx) as [->|]; done. }
  assert (Hold : ∀ x, x ∈ dslots ({[p]} ∪ PD) → present (word m x) = true → x ∈ dslots PD).
  { intros x Hx Hpx. apply Hds in Hx as [[??]|?]; [|done]. by rewrite Hz in Hpx. }
  split; try done.
  - by eapply dom_update.
  - by eapply free_chain_relink.
  - intros q k Hq. rewrite lookup_insert_ne by (intros ->; done). intros Hk.
    destruct (mi_free0 q k Hq Hk) as [Hn ?]. split; [|done].
    assert (q ≠ p) by (intros ->; done). clear -Hn H0. set_solver.
  - by eapply link_update.
  - eapply ref_update with (rf := λ q, refs m (slots PD PT) q + ext q); [done|done| |].
    + rewrite Hrefs, ext_set_eq. pose proof (mi_ref0 p i Hi). lia.
    + intros q Hq. by rewrite Hrefs, ext_set_ne.
  - intros q k. rewrite lookup_insert. case_decide; [intros [= <-]; simpl; lia|eauto].
  - intros q. unfold ext_set. case_decide; [lia|done].
  - intros x Hx. destruct (HS x Hx) as [->|]; [lia|auto].
  - intros x Hx Hpx. apply mi_dir0; auto.
  - intros x Hx Hpx. apply mi_pde0; auto.
  - intros x y Hx Hy Hpx Hpy. apply mi_inj0; auto.
  - intros q Hq. assert (q ≠ p) by (intros ->; sets using HpT Hq).
    rewrite ext_set_ne by done. destruct (mi_own0 q Hq) as (? & x & Hx & Hrx).
    split; [done|]. exists x. split; [|done]. apply Hds. by right.
  - intros x Hx Hpx. destruct (mi_tab0 x Hx Hpx) as [Hn ?]. split; [|done].
    assert (PGNUM (word m x) ≠ p) by (apply Hun; [apply slots_split; by right|done]). sets using Hn H0.
  - intros x Hx Hpx. rewrite ext_set_ne; [by auto|]. apply Hun; [apply slots_split; by right|done].
  - sets using mi_disj0 HpT.
  - intros q Hq. destruct (decide (q = p)); [subst; apply mi_dom0; eauto|]. apply mi_range0. sets using Hq n.
Qed.

(** env_free: an empty page directory loses its owner's reference. *)
Lemma minv_del_dir PD PT ext fl np m pg h p i :
  minv PD PT ext fl np m pg h → p ∈ PD → ext p = 1 → pg !! p = Some i →
  (∀ x, x / 1024 = p → x `mod` 1024 < 955 → present (word m x) = false) →
  pp_ref i = 1 ∧ pp_link i = None ∧ p ∉ fl ∧
  minv (PD ∖ {[p]}) PT (ext_set p 0 ext) fl np m (<[p := {| pp_link := None; pp_ref := 0 |}]> pg) h.
Proof.
  intros Hm Hp He Hi Habs.
  assert (Hr : pp_ref i = 1) by (rewrite (mi_ref _ _ _ _ _ _ _ _ Hm p i Hi), (dir_ref Hm) by done; lia).
  assert (Hfl : p ∉ fl).
  { intros Hin. destruct (mi_free _ _ _ _ _ _ _ _ Hm p i Hin Hi). lia. }
  pose proof (mi_link _ _ _ _ _ _ _ _ Hm p i Hfl Hi) as Hl. do 3 (split; [done|]).
  pose proof (dir_ref Hm p Hp) as Hr0.
  destruct Hm as [mi_np0 mi_dom0 mi_chain0 mi_nodup0 mi_free0 mi_link0 mi_ref0 mi_ref160 mi_ext0 mi_word0 mi_dir0 mi_pde0 mi_inj0 mi_own0 mi_tab0 mi_uext0 mi_disj0 mi_range0].
  assert (Hds : ∀ x, x ∈ dslots (PD ∖ {[p]}) ↔ x / 1024 ≠ p ∧ x ∈ dslots PD).
  { intros x. rewrite !elem_of_dslots. clear. set_solver. }
  assert (HS : slots (PD ∖ {[p]}) PT ⊆ slots PD PT).
  { intros x. rewrite !slots_split, Hds. clear. tauto. }
  assert (Hkeep : ∀ x, x ∈ dslots PD → present (word m x) = true → x ∈ dslots (PD ∖ {[p]})).
  { intros x Hx Hpx. apply Hds. split; [|done]. intros Hxp. apply elem_of_dslots in Hx as [_ Hx].
    by rewrite Habs in Hpx. }
  assert (Hrefs : ∀ q, refs m (slots (PD ∖ {[p]}) PT) q = refs m (slots PD PT) q).
  { intros q. apply refs_shrink; [done|]. intros x Hx Hn. apply slots_split in Hx as [Hx|Hx].
    - destruct (present (word m x)) eqn:E; [|done]. destruct Hn. apply slots_split. left. auto.
    - destruct Hn. apply slots_split. by right. }
  split; try done.
  - by eapply dom_update.
  - apply (free_chain_relink pg p i); [done|by rewrite Hl|done].
  - intros q k Hq. rewrite lookup_insert_ne by (intros ->; done). intros Hk.
    destruct (mi_free0 q k Hq Hk) as [Hn ?]. split; [sets using Hn|done].
  - intros q k Hq. rewrite lookup_insert. case_decide; [by intros [= <-]|eauto].
  - intros q k. rewrite lookup_insert, Hrefs. case_decide; [intros [= <-]; subst; simpl|].
    + rewrite ext_set_eq. lia.
    + intros Hk. rewrite ext_set_ne by done. eauto.
  - intros q k. rewrite lookup_insert. case_decide; [intros [= <-]; simpl; lia|eauto].
  - intros q. unfold ext_set. case_decide; [lia|done].
  - intros x Hx. by apply mi_word0, HS.
  - intros x Hx. apply Hds in Hx as [_ Hx]. eauto.
  - intros x Hx. apply Hds in Hx as [_ Hx]. eauto.
  - intros x y Hx Hy. apply Hds in Hx as [_ Hx]. apply Hds in Hy as [_ Hy]. eauto.
  - intros q Hq. assert (q ≠ p) by (intros ->; sets using Hp Hq mi_disj0).
    rewrite ext_set_ne by done. destruct (mi_own0 q Hq) as (? & x & Hx & Hrx).
    split; [done|]. exists x. split; [|done]. apply Hkeep; [done|apply Hrx].
  - intros x Hx Hpx. destruct (mi_tab0 x Hx Hpx) as [Hn ?]. split; [sets using Hn|done].
  - intros x Hx Hpx. unfold ext_set. case_decide; [done|auto].
  - sets using mi_disj0.
  - intros q Hq. apply mi_range0. sets using Hq.
Qed.
