(* ===== verification/PmapOps.v ===== *)
(** * page_lookup, page_remove and page_insert refine the abstract address space *)

From S2P Require Import Prelude Mmu KState Pmap PmapInv PmapSpec.

(** ** Dropping a reference *)

(** The state page_decref leaves. *)
Definition decref_state (p : Z) (i : PageInfo) (s : KState) : KState :=
  if pp_ref i =? 1
  then set_page_free_list (Some p)
         (set_pages (<[p := {| pp_link := page_free_list s; pp_ref := 0 |}]> (pages s)) s)
  else set_pages (<[p := {| pp_link := None; pp_ref := pp_ref i - 1 |}]> (pages s)) s.

Lemma page_decref_eq s p i :
  pages s !! p = Some i → pp_link i = None → 0 < pp_ref i < 65536 →
  page_decref p s = Ok tt (decref_state p i s).
Proof.
  intros Hi Hl Hr. unfold page_decref, mbind, M_bind. rewrite (get_page_ok _ _ _ Hi).
  rewrite (put_page_ok _ _ _ _ Hi). rewrite u16_small by lia. unfold decref_state.
  destruct (pp_ref i =? 1) eqn:E.
  - apply Z.eqb_eq in E. rewrite E, Hl. simpl. unfold page_free, mbind, M_bind.
    rewrite (get_page_ok _ p {| pp_link := None; pp_ref := 0 |}) by (simpl; by rewrite lookup_insert_eq).
    simpl. unfold gets. rewrite (put_page_ok _ p {| pp_link := None; pp_ref := 0 |}) by (simpl; by rewrite lookup_insert_eq).
    simpl. by rewrite insert_insert_eq.
  - destruct (pp_ref i - 1 =? 0) eqn:E2; [lia|]. rewrite Hl. done.
Qed.

Lemma tlb_invalidate_eq s pgdir va :
  cpu_ok s → ∃ t, tlb_invalidate pgdir va s = Ok tt (set_trace t s).
Proof.
  intros (c & Hc & He). unfold tlb_invalidate, curenv, get_cpu, mbind, M_bind, gets. rewrite Hc.
  unfold mret, M_ret. destruct (cpu_env c) as [e|].
  - destruct (He e eq_refl) as [x Hx]. unfold get_env, mbind, M_bind, gets. rewrite Hx.
    unfold mret, M_ret. destruct (_ =? _); [by eexists|]. exists (trace s). by destruct s.
  - by eexists.
Qed.

Section Ops.
Context (PD : gset Z) (ext : Z → Z).

(** The word holding the entry of [va] in directory [pd]. *)
Definition pte_word (m : gmap Z Z) (pd va : Z) : Z :=
  PGNUM (word m (pd * 1024 + PDX va)) * 1024 + PTX va.

Lemma mapping_pte m pd va :
  mapping m pd (PGNUM va) =
  if present (word m (pd * 1024 + PDX va)) then
    if present (word m (pte_word m pd va))
    then Some (PGNUM (word m (pte_word m pd va)), Z.land (word m (pte_word m pd va)) 0xFFF) else None
  else None.
Proof. unfold mapping, pte_word. by rewrite PDX_PGNUM, PTX_PGNUM. Qed.

Lemma pte_word_slot PT fl s pd va :
  kminv PD PT ext fl s → pd ∈ PD → 0 ≤ va < UTOP →
  present (word (phys s) (pd * 1024 + PDX va)) = true →
  pte_word (phys s) pd va ∈ tslots PT.
Proof.
  intros Hm Hpd Hva Hp. unfold pte_word. apply tab_slot; [|apply PTX_range].
  by apply (mi_dir _ _ _ _ _ _ _ _ Hm); [apply dir_slot|].
Qed.

(** page_lookup reads the abstract map. *)
Lemma page_lookup_eq PT fl s pd va :
  kminv PD PT ext fl s → pd ∈ PD → 0 ≤ va < UTOP →
  page_lookup (kdir pd) va s =
    Ok ((λ pf, (pf.1, KERNBASE + 4 * pte_word (phys s) pd va)) <$> mapping (phys s) pd (PGNUM va)) s.
Proof.
  intros Hm Hpd Hva. rewrite mapping_pte. unfold page_lookup. unfold mbind at 1, M_bind at 1.
  destruct (present (word (phys s) (pd * 1024 + PDX va))) eqn:Hp.
  - rewrite (pgdir_walk_present PD ext PT fl) by done.
    unfold mbind, M_bind, kload32, gets. rewrite kidx_entry. fold (pte_word (phys s) pd va).
    pose proof (pte_word_slot PT fl s pd va Hm Hpd Hva Hp) as Hw.
    destruct (present (word (phys s) (pte_word (phys s) pd va))) eqn:Hp2; [|done]. simpl.
    destruct (mi_tab _ _ _ _ _ _ _ _ Hm _ Hw Hp2) as [_ Hlt].
    pose proof (PGNUM_range (word (phys s) (pte_word (phys s) pd va))).
    rewrite PTE_ADDR_PGNUM, pa2page_ok; [|lia|apply (mi_np _ _ _ _ _ _ _ _ Hm)].
    unfold mret, M_ret. do 3 f_equal. unfold kdir, pte_word. lia.
  - by rewrite pgdir_walk_absent.
Qed.

(** page_remove deletes from the abstract map and drops one reference. *)
Definition removed PT fl (s : KState) pd va (s' : KState) : Prop :=
  match mapping (phys s) pd (PGNUM va) with
  | None => s' = s
  | Some (p, _) => ∃ i, pages s !! p = Some i ∧ p ∉ fl ∧
      kminv PD PT ext (if pp_ref i =? 1 then p :: fl else fl) s' ∧ frame s s' ∧
      phys s' = <[pte_word (phys s) pd va := 0]> (phys s) ∧
      (∀ p', p' ≠ p → pages s' !! p' = pages s !! p') ∧
      pp_ref <$> (pages s' !! p) = Some (pp_ref i - 1)
  end.

Lemma page_remove_spec PT fl s pd va :
  kminv PD PT ext fl s → cpu_ok s → pd ∈ PD → 0 ≤ va < UTOP →
  wp (page_remove (kdir pd) va) (λ _ s', removed PT fl s pd va s') no_stop s.
Proof.
  intros Hm Hcpu Hpd Hva. unfold page_remove, wp, mbind, M_bind, removed.
  rewrite (page_lookup_eq PT fl) by done.
  destruct (mapping (phys s) pd (PGNUM va)) as [[p f]|] eqn:Hmap; [|done]. simpl.
  rewrite mapping_pte in Hmap.
  destruct (present (word (phys s) (pd * 1024 + PDX va))) eqn:Hp; [|done].
  destruct (present (word (phys s) (pte_word (phys s) pd va))) eqn:Hp2; [|done].
  injection Hmap as Hpq _.
  pose proof (pte_word_slot PT fl s pd va Hm Hpd Hva Hp) as Hw.
  destruct (mi_tab _ _ _ _ _ _ _ _ Hm _ Hw Hp2) as [HpT Hlt].
  pose proof (PGNUM_range (word (phys s) (pte_word (phys s) pd va))) as Hrg.
  rewrite Hpq in *.
  destruct (minv_page _ _ _ _ _ _ _ _ p Hm) as [i Hi]; [lia|].
  pose proof (minv_del_pte PD PT ext fl _ _ _ _ _ i Hm Hw Hp2) as Hdel.
  rewrite Hpq in Hdel. destruct (Hdel Hi) as (Hpos & Hfl & Hlk & Hm').
  pose proof (mi_ref16 _ _ _ _ _ _ _ _ Hm p i Hi).
  rewrite (page_decref_eq s p i) by (done || lia).
  assert (Hcpu' : cpu_ok (decref_state p i s)).
  { eapply frame_cpu_ok; [|done]. unfold decref_state. by destruct (_ =? _), s. }
  destruct (tlb_invalidate_eq _ (kdir pd) va Hcpu') as [t ->].
  unfold kstore32, modify. exists i. split; [done|]. split; [done|].
  replace (kidx (KERNBASE + 4 * pte_word (phys s) pd va)) with (pte_word (phys s) pd va)
    by (unfold kidx; mlia). change (u32 0) with 0.
  unfold decref_state, kminv. rewrite Hlk in Hm'.
  destruct (pp_ref i =? 1) eqn:E; cbn.
  - apply Z.eqb_eq in E. rewrite E in *. split_and!; try done.
    + pose proof (minv_push PD PT ext fl _ _ _ _ p {| pp_link := None; pp_ref := 0 |} Hm') as Hpush.
      rewrite insert_insert_eq in Hpush. apply Hpush; try done. by rewrite lookup_insert_eq.
    + intros p' Hne. by rewrite lookup_insert_ne.
    + by rewrite lookup_insert_eq.
  - split_and!; try done.
    + intros p' Hne. by rewrite lookup_insert_ne.
    + by rewrite lookup_insert_eq.
Qed.

(** ** page_insert *)

(** The common tail of page_insert: the entry is absent. *)
Definition insert_tail (pgdir pp va perm ptep : Z) : K Z :=
  page_incref pp ;;
  kstore32 ptep (Z.lor (Z.lor (page2pa pp) PTE_P) perm) ;;
  pde ← kload32 (pgdir + 4 * PDX va);
  kstore32 (pgdir + 4 * PDX va) (Z.lor pde perm) ;;
  mret 0.

(** The abstract map with one more entry. *)
Definition inserted (s : KState) (pd va pp perm : Z) (s' : KState) : Prop :=
  ∀ pd' v, pd' ∈ PD → user_vpn v →
    mapping (phys s') pd' v =
    if decide (pd' = pd ∧ v = PGNUM va) then Some (pp, Z.lor perm PTE_P) else mapping (phys s) pd' v.

Lemma insert_tail_spec PT fl s pd va pp i perm :
  kminv PD PT ext fl s → pd ∈ PD → 0 ≤ va < UTOP →
  present (word (phys s) (pd * 1024 + PDX va)) = true →
  present (word (phys s) (pte_word (phys s) pd va)) = false →
  pages s !! pp = Some i → pp ∉ fl → pp ∉ PD ∪ PT → ext pp = 0 → pp_ref i < 65535 → 0 ≤ perm < 4096 →
  wp (insert_tail (kdir pd) pp va perm (KERNBASE + 4 * pte_word (phys s) pd va))
    (λ r s', r = 0 ∧ kminv PD PT ext fl s' ∧ frame s s' ∧ inserted s pd va pp perm s' ∧
      pages s' = <[pp := {| pp_link := pp_link i; pp_ref := pp_ref i + 1 |}]> (pages s) ∧
      (∀ y, y ∉ slots PD PT → word (phys s') y = word (phys s) y)) no_stop s.
Proof.
  intros Hm Hpd Hva Hp Hab Hi Hfl HT He0 Hr Hperm.
  pose proof (pte_word_slot PT fl s pd va Hm Hpd Hva Hp) as Hx.
  set (x := pte_word (phys s) pd va) in *. set (w := pd * 1024 + PDX va) in *.
  set (f := Z.lor perm PTE_P). pose proof (perm_or_P_range perm Hperm) as Hf.
  assert (Hpp : 0 ≤ pp < npages s) by (apply (mi_dom _ _ _ _ _ _ _ _ Hm); eauto).
  pose proof (mi_np _ _ _ _ _ _ _ _ Hm) as Hnp.
  assert (Href0 : 0 ≤ pp_ref i).
  { rewrite (mi_ref _ _ _ _ _ _ _ _ Hm pp i Hi).
    pose proof (refs_nonneg (phys s) (slots PD PT) pp). pose proof (mi_ext _ _ _ _ _ _ _ _ Hm pp). lia. }
  pose proof (minv_add_pte PD PT ext fl _ _ _ _ x pp i f Hm Hx Hab Hi HT He0 Hfl Hr Hf (present_lor_P perm)) as Hm1.
  assert (Hw : w ∈ dslots PD) by by apply dir_slot.
  assert (Hxw : x ≠ w).
  { intros Heq. eapply slots_not_both; [apply (mi_disj _ _ _ _ _ _ _ _ Hm)|exact Hw|]. by rewrite <- Heq. }
  pose proof (mi_word _ _ _ _ _ _ _ _ Hm w ltac:(apply slots_split; auto)) as Hww.
  set (pde := word (phys s) w) in *.
  assert (Hlr : 0 ≤ Z.lor pde perm < 4294967296) by (apply (lor_range _ _ 32); lia).
  assert (Hw1 : word (<[x := pp * 4096 + f]> (phys s)) w = pde) by by rewrite word_insert_ne.
  assert (Hm2 : minv PD PT ext fl (npages s) (<[w := Z.lor pde perm]> (<[x := pp * 4096 + f]> (phys s)))
                  (<[pp := {| pp_link := pp_link i; pp_ref := pp_ref i + 1 |}]> (pages s)) (page_free_list s)).
  { apply minv_set_perm; rewrite ?Hw1; try done; [apply slots_split; auto| | |].
    - by rewrite present_lor, Hp.
    - by rewrite PGNUM_lor.
    - intros _. apply land_7_lor. by apply (mi_pde _ _ _ _ _ _ _ _ Hm). }
  unfold wp, insert_tail, page_incref, mbind, M_bind. rewrite (get_page_ok _ _ _ Hi), (put_page_ok _ _ _ _ Hi).
  rewrite u16_small by lia. unfold kstore32, kload32, modify, gets.
  cbn [phys set_phys set_pages]. rewrite kidx_entry.
  replace (kidx (KERNBASE + 4 * x)) with x by (unfold kidx; mlia). fold w.
  rewrite page2pa_mul, entry_lor by (done || unfold PTE_P; lia).
  rewrite (Z.lor_comm PTE_P perm). fold f. rewrite (u32_small (_ + f)) by lia.
  rewrite Hw1, (u32_small (Z.lor pde perm)) by done.
  unfold mret, M_ret. split; [done|]. split; [exact Hm2|]. split; [by destruct s|]. split; [|split; [done|]].
  2:{ intros y Hy. cbn. rewrite slots_split in Hy. rewrite !word_insert_ne; [done|..]; intros <-; tauto. }
  intros pd' v Hpd' Hv. cbn [phys set_phys].
  rewrite (mapping_set_pde PD ext PT fl _ _ _ _ Hm1); rewrite ?Hw1; try done.
  2: by rewrite present_lor, Hp.
  2: by rewrite PGNUM_lor.
  unfold x, pte_word. fold w. fold pde.
  pose proof (mapping_set_pte PD ext PT fl _ _ _ _ Hm pd (PGNUM va) (pp * 4096 + f) pd' v Hpd
                (user_vpn_UTOP va Hva)) as Hset.
  rewrite <- PDX_PGNUM, <- PTX_PGNUM in Hset. fold w in Hset. fold pde in Hset. rewrite Hset by done.
  rewrite present_add_page, PGNUM_entry, entry_perm by lia. unfold f. by rewrite present_lor_P.
Qed.

Lemma page_insert_unfold pgdir pp va perm :
  page_insert pgdir pp va perm =
  (o ← pgdir_walk pgdir va true;
   match o with
   | None => mret (- E_NO_MEM)
   | Some ptep =>
       pte ← kload32 ptep;
       if present pte then
         if PTE_ADDR pte =? page2pa pp then
           kstore32 ptep (Z.lor (Z.lor (page2pa pp) perm) PTE_P) ;; mret 0
         else page_remove pgdir va ;; insert_tail pgdir pp va perm ptep
       else insert_tail pgdir pp va perm ptep
   end).
Proof. reflexivity. Qed.

Lemma refs_one_same pp s s' : pages s' = pages s → refs_one pp s s'.
Proof. intros H p k' Hk'. rewrite H in Hk'. exists k'. split; [done|]. case_decide; lia. Qed.

(** What page_insert promises when it returns 0; new tables come from [fl]. *)
Definition insert_done (PT : gset Z) (fl : list Z) (s : KState) (pd va pp perm r : Z) (s' : KState) : Prop :=
  r = 0 ∧ frame s s' ∧ inserted s pd va pp perm s' ∧
  ∃ PT' fl', kminv PD PT' ext fl' s' ∧ PT ⊆ PT' ∧ (∀ p, p ∈ PT' → p ∈ PT ∨ p ∈ fl) ∧ pp ∉ fl' ∧
    mem_kept PD PT' fl s s'.

Lemma insert_done_weaken PT PT1 fl s s1 pd va pp perm r s' :
  frame s s1 → PT ⊆ PT1 → (∀ p, p ∈ PT1 → p ∈ PT ∨ p ∈ fl) → mem_kept PD PT1 fl s s1 →
  (∀ pd' v, pd' ∈ PD → user_vpn v → ¬ (pd' = pd ∧ v = PGNUM va) → mapping (phys s1) pd' v = mapping (phys s) pd' v) →
  insert_done PT1 fl s1 pd va pp perm r s' → insert_done PT fl s pd va pp perm r s'.
Proof.
  intros Hf HPT Hnew Hkept Hmap (-> & Hf' & Hins & PT' & fl' & Hm & Hsub & Hnew' & Hpp & Hkept').
  split; [done|]. split; [by eapply frame_trans|]. split.
  - intros pd' v Hpd' Hv. rewrite Hins by done. case_decide; [done|]. by apply Hmap.
  - exists PT', fl'. split; [done|]. split; [by etrans|]. split; [|split; [done|by eapply mem_kept_trans]].
    intros p Hp. destruct (Hnew' p Hp); auto.
Qed.

Lemma mapping_set_va PT fl s pd va e pd' v :
  kminv PD PT ext fl s → pd ∈ PD → 0 ≤ va < UTOP →
  present (word (phys s) (pd * 1024 + PDX va)) = true → pd' ∈ PD → user_vpn v →
  mapping (<[pte_word (phys s) pd va := e]> (phys s)) pd' v =
    if decide (pd' = pd ∧ v = PGNUM va) then (if present e then Some (PGNUM e, Z.land e 0xFFF) else None)
    else mapping (phys s) pd' v.
Proof.
  intros Hm Hpd Hva Hp Hpd' Hv. unfold pte_word.
  pose proof (mapping_set_pte PD ext PT fl _ _ _ _ Hm pd (PGNUM va) e pd' v Hpd (user_vpn_UTOP va Hva)) as H.
  rewrite <- PDX_PGNUM, <- PTX_PGNUM in H. by apply H.
Qed.

(** The page is already mapped at [va]: only the permissions change. *)
Lemma insert_same PT fl fl0 s pd va pp perm :
  kminv PD PT ext fl s → pd ∈ PD → 0 ≤ va < UTOP →
  present (word (phys s) (pd * 1024 + PDX va)) = true →
  present (word (phys s) (pte_word (phys s) pd va)) = true →
  PGNUM (word (phys s) (pte_word (phys s) pd va)) = pp → pp ∉ fl → 0 ≤ pp < npages s → 0 ≤ perm < 4096 →
  wp (kstore32 (KERNBASE + 4 * pte_word (phys s) pd va) (Z.lor (Z.lor (page2pa pp) perm) PTE_P) ;; mret 0)
    (λ r s', insert_done PT fl0 s pd va pp perm r s' ∧ refs_one pp s s') no_stop s.
Proof.
  intros Hm Hpd Hva Hp Hpx HG Hfl Hpp Hperm.
  pose proof (pte_word_slot PT fl s pd va Hm Hpd Hva Hp) as Hx.
  pose proof (perm_or_P_range perm Hperm) as Hf. pose proof (mi_np _ _ _ _ _ _ _ _ Hm) as Hnp.
  unfold wp, kstore32, modify, mbind, M_bind, mret, M_ret, insert_done.
  replace (kidx (KERNBASE + 4 * pte_word (phys s) pd va)) with (pte_word (phys s) pd va) by (unfold kidx; mlia).
  rewrite page2pa_mul, entry_lor by (done || unfold PTE_P; lia). rewrite u32_small by lia.
  split; [|by apply refs_one_same]. split; [done|]. split; [by destruct s|]. split.
  - intros pd' v Hpd' Hv. cbn [phys set_phys]. rewrite (mapping_set_va PT fl) by done.
    by rewrite present_add_page, present_lor_P, PGNUM_entry, entry_perm by lia.
  - exists PT, fl. split; [|split; [done|split; [by left|split; [done|]]]].
    2:{ intros y Hy _. cbn. rewrite word_insert_ne; [done|]. intros <-. apply Hy, slots_split. by right. }
    unfold kminv. cbn. apply minv_set_perm; try done; [apply slots_split; auto| | |lia|].
    + by rewrite present_add_page, present_lor_P.
    + rewrite PGNUM_entry by lia. done.
    + intros Hd. by destruct (slots_not_both PD PT _ (mi_disj _ _ _ _ _ _ _ _ Hm) Hd Hx).
Qed.

Lemma insert_tail_done PT fl fl0 s pd va pp i perm :
  kminv PD PT ext fl s → pd ∈ PD → 0 ≤ va < UTOP →
  present (word (phys s) (pd * 1024 + PDX va)) = true →
  present (word (phys s) (pte_word (phys s) pd va)) = false →
  pages s !! pp = Some i → pp ∉ fl → pp ∉ PD ∪ PT → ext pp = 0 → pp_ref i < 65535 → 0 ≤ perm < 4096 →
  wp (insert_tail (kdir pd) pp va perm (KERNBASE + 4 * pte_word (phys s) pd va))
    (λ r s', insert_done PT fl0 s pd va pp perm r s' ∧ refs_one pp s s') no_stop s.
Proof.
  intros. eapply wp_mono; [by eapply (insert_tail_spec PT fl)| |done].
  intros r s' (-> & Hm' & Hf' & Hins & Hpg & Hkept). split.
  2:{ intros p k'. rewrite Hpg, lookup_insert. case_decide; intros Hk'; [simplify_eq/=|].
      - exists i. split; [done|]. rewrite decide_True by done. lia.
      - exists k'. split; [done|]. rewrite decide_False by done. lia. }
  split; [done|]. split; [done|]. split; [done|].
  exists PT, fl. split; [done|]. split; [done|]. split; [by left|]. split; [done|]. intros y Hy _. by apply Hkept.
Qed.

(** Another page is mapped at [va]: it is removed first. *)
Lemma insert_replace PT fl fl0 s pd va pp i perm :
  kminv PD PT ext fl s → cpu_ok s → pd ∈ PD → 0 ≤ va < UTOP →
  present (word (phys s) (pd * 1024 + PDX va)) = true →
  present (word (phys s) (pte_word (phys s) pd va)) = true →
  PGNUM (word (phys s) (pte_word (phys s) pd va)) ≠ pp →
  pages s !! pp = Some i → pp ∉ fl → pp ∉ PD ∪ PT → ext pp = 0 → pp_ref i < 65535 → 0 ≤ perm < 4096 →
  wp (page_remove (kdir pd) va ;; insert_tail (kdir pd) pp va perm (KERNBASE + 4 * pte_word (phys s) pd va))
    (λ r s', insert_done PT fl0 s pd va pp perm r s' ∧ refs_one pp s s') no_stop s.
Proof.
  intros Hm Hcpu Hpd Hva Hp Hpx HG Hi Hfl HT He0 Hr Hperm. apply wp_bind.
  pose proof (pte_word_slot PT fl s pd va Hm Hpd Hva Hp) as Hx.
  set (x := pte_word (phys s) pd va) in *.
  eapply wp_mono; [by apply (page_remove_spec PT fl)| |done].
  intros [] s2 Hrm. unfold removed in Hrm. rewrite mapping_pte, Hp in Hrm. fold x in Hrm. rewrite Hpx in Hrm.
  destruct Hrm as (j & Hj & Hjfl & Hm2 & Hf2 & Hph2 & Hpg2 & Hpgj).
  assert (Hxne : x ≠ pd * 1024 + PDX va).
  { intros Heq. eapply slots_not_both; [apply (mi_disj _ _ _ _ _ _ _ _ Hm)|by apply (dir_slot PD pd va)|].
    by rewrite <- Heq. }
  assert (Hx2 : pte_word (phys s2) pd va = x).
  { unfold pte_word. by rewrite Hph2, word_insert_ne by done. }
  assert (Hfl2 : pp ∉ (if pp_ref j =? 1 then PGNUM (word (phys s) x) :: fl else fl)).
  { destruct (_ =? _); [|done]. apply not_elem_of_cons. done. }
  rewrite <- Hx2. eapply wp_mono; [eapply (insert_tail_done PT); try done| |done].
  - by rewrite Hph2, word_insert_ne.
  - by rewrite Hx2, Hph2, word_insert_eq.
  - by rewrite Hpg2.
  - intros r s3 [Hd Hone]. split.
    2:{ intros p k3 Hk3. destruct (Hone p k3 Hk3) as (k2 & Hk2 & Hle). destruct (decide (p = PGNUM (word (phys s) x))) as [->|Hp'].
        - rewrite Hk2 in Hpgj. injection Hpgj as Hpgj. exists j. split; [done|]. rewrite decide_False in Hle |- * by done. lia.
        - exists k2. by rewrite <- Hpg2. }
    revert Hd. apply insert_done_weaken; [done|done|by left| |].
    { intros y Hy _. rewrite Hph2, word_insert_ne; [done|]. intros <-. apply Hy, slots_split. by right. }
    intros pd' v Hpd' Hv Hne. rewrite Hph2. unfold x. rewrite (mapping_set_va PT fl) by done.
    by rewrite decide_False.
Qed.

(** page_insert inserts into the abstract map, or fails without effect
    when a page table is needed and no page is free. *)
Lemma page_insert_spec PT fl s pd va pp i perm :
  kminv PD PT ext fl s → cpu_ok s → pd ∈ PD → 0 ≤ va < UTOP →
  pages s !! pp = Some i → pp ∉ fl → pp ∉ PD ∪ PT → ext pp = 0 → pp_ref i < 65535 → 0 ≤ perm < 4096 →
  wp (page_insert (kdir pd) pp va perm) (λ r s',
    (r = - E_NO_MEM ∧ s' = s ∧ fl = []) ∨ insert_done PT fl s pd va pp perm r s' ∧ refs_grow 1 s s') no_stop s.
Proof.
  intros Hm Hcpu Hpd Hva Hi Hfl HT He0 Hr Hperm. rewrite page_insert_unfold. apply wp_bind.
  eapply wp_mono; [by apply (pgdir_walk_create_spec PD ext PT fl)| |done].
  intros [ptep|] s1; [|intros (-> & -> & _); apply wp_ret; by left].
  intros (PT' & fl' & q & Hm1 & Hf1 & Ht1 & Hq & -> & Hpw & HG & Hpg & Hgrow & Hfl' & HPT & HPT' & Hmap1 & Hkept1).
  assert (Hcpu1 : cpu_ok s1) by by eapply frame_cpu_ok.
  assert (Hi1 : pages s1 !! pp = Some i) by by rewrite Hpg.
  assert (Hfl1 : pp ∉ fl') by (intros ?%Hfl'; done).
  assert (HT1 : pp ∉ PD ∪ PT').
  { rewrite not_elem_of_union in HT |- *. destruct HT as [HT1 HT2]. split; [done|].
    intros [?|?]%HPT'; done. }
  replace (kdir q + 4 * PTX va) with (KERNBASE + 4 * pte_word (phys s1) pd va)
    by (unfold pte_word, kdir; rewrite HG; lia).
  apply wp_bind, wp_gets.
  replace (kidx (KERNBASE + 4 * pte_word (phys s1) pd va)) with (pte_word (phys s1) pd va) by (unfold kidx; mlia).
  assert (Hfin : ∀ r s', insert_done PT' fl s1 pd va pp perm r s' ∧ refs_one pp s1 s' →
    (r = - E_NO_MEM ∧ s' = s ∧ fl = []) ∨ insert_done PT fl s pd va pp perm r s' ∧ refs_grow 1 s s').
  { intros r s' [Hd Hone]. right. split.
    2:{ intros p k2 Hk2. destruct (Hone p k2 Hk2) as (k1 & Hk1 & Hle). case_decide as Hpq.
        - subst p. rewrite Hpg in Hk1 by done. eauto.
        - destruct (Hgrow p k1 Hk1) as (k & ? & ?). exists k. split; [done|lia]. }
    eapply insert_done_weaken; [exact Hf1|done|done|done| |exact Hd]. intros. by apply Hmap1. }
  assert (Hpp : 0 ≤ pp < npages s1) by (apply (mi_dom _ _ _ _ _ _ _ _ Hm1); eauto).
  rewrite PTE_ADDR_PGNUM.
  destruct (present (word (phys s1) (pte_word (phys s1) pd va))) eqn:Hpx;
    [destruct (_ =? _) eqn:Hsame; rewrite page2pa_mul in Hsame|];
    (eapply wp_mono; [|exact Hfin|done]).
  - apply (insert_same PT' fl'); try done. lia.
  - eapply (insert_replace PT' fl'); try done. lia.
  - by eapply (insert_tail_done PT' fl').
Qed.
End Ops.
