(* ===== verification/VMem.v ===== *)
(** * Kernel accesses through the current page directory

    Kernel code that touches user addresses (load_icode, sys_cputs,
    sys_env_set_trapframe, page_fault_handler) goes through the MMU with the
    page directory in cr3.  The kernel runs with CR0_WP set (mem_init,
    mp_main), so a store needs a writable mapping.  A failed translation is a
    page fault in kernel mode, which page_fault_handler (kern/trap.c) answers
    with a panic. *)

From S2P Require Import Prelude Mmu KState.

(** The two-level walk of the MMU: the physical address of [va], if the
    access is allowed in supervisor mode with write protection on. *)
Definition mmu_translate (m : gmap Z Z) (cr3 va : Z) (write : bool) : option Z :=
  let pde := word m (PTE_ADDR cr3 / 4 + PDX va) in
  let pte := word m (PTE_ADDR pde / 4 + PTX va) in
  let writable e := negb (Z.land e PTE_W =? 0) in
  if present pde && present pte && (negb write || (writable pde && writable pte))
  then Some (PTE_ADDR pte + PGOFF va)
  else None.

Definition kernel_page_fault {A} : K A := panic "page_falut in kernel mode".

(** Byte [pa] of a word-addressed memory. *)
Definition get_byte (w k : Z) : Z := Z.land (Z.shiftr w (8 * k)) 255.
Definition set_byte (w k b : Z) : Z :=
  u32 (Z.lor (Z.land w (Z.lnot (Z.shiftl 255 (8 * k)))) (Z.shiftl (u8 b) (8 * k))).

Definition vload8 (va : Z) : K Z :=
  s ← gets id;
  match mmu_translate (phys s) (cr3 s) (u32 va) false with
  | Some pa => mret (get_byte (word (phys s) (pa / 4)) (pa `mod` 4))
  | None => kernel_page_fault
  end.

Definition vstore8 (va b : Z) : K unit :=
  s ← gets id;
  match mmu_translate (phys s) (cr3 s) (u32 va) true with
  | Some pa =>
      modify (set_phys (<[pa / 4 := set_byte (word (phys s) (pa / 4)) (pa `mod` 4) b]> (phys s)))
  | None => kernel_page_fault
  end.

(** Little-endian 16- and 32-bit accesses. *)
Definition vload16 (va : Z) : K Z :=
  b0 ← vload8 va; b1 ← vload8 (va + 1);
  mret (b0 + 256 * b1).
Definition vload32 (va : Z) : K Z :=
  h0 ← vload16 va; h1 ← vload16 (va + 2);
  mret (h0 + 65536 * h1).
Definition vstore32 (va v : Z) : K unit :=
  forM (range 0 4) (λ k, vstore8 (va + k) (get_byte v k)).
