(* ===== verification/Env.v ===== *)
(** * Environments, scheduling and the kernel lock

    kern/env.c, kern/sched.c, kern/spinlock.c and user_mem_assert of
    kern/pmap.c: the environment table with its free list, creation and
    destruction of environments, the round-robin scheduler and the context
    switch.  Functions that do not return (env_run, sched_yield on success,
    sched_halt) end in [Stop]. *)

From S2P Require Import Prelude Mmu KState Pmap VMem.

(** ** kern/spinlock.c *)

Definition holding (l : spinlock) (cpu : Z) : bool :=
  ctrue (locked l) && bool_decide (lk_cpu l = Some cpu).

Definition spin_lock : K unit :=
  l ← gets kernel_lock;
  c ← gets cpunum;
  if holding l c then panic "cannot acquire kernel_lock: already holding"
  else if negb (locked l =? 0) then stop Spin
  else modify (set_kernel_lock {| locked := 1; lk_cpu := Some c |}).

Definition spin_unlock : K unit :=
  l ← gets kernel_lock;
  c ← gets cpunum;
  if negb (holding l c) then panic "spin_unlock"
  else modify (set_kernel_lock {| locked := 0; lk_cpu := None |}).

Definition lock_kernel : K unit := spin_lock.
Definition unlock_kernel : K unit := spin_unlock.

(** ** Translating an envid *)

Definition ENVGENSHIFT : Z := 12.

(** Returns the error code and [*env_store]. *)
Definition envid2env (envid : Z) (checkperm : bool) : K (Z * option Z) :=
  if envid =? 0 then ce ← curenv; mret (0, ce)
  else
    let i := ENVX envid in
    e ← get_env i;
    if bool_decide (env_status e = ENV_FREE) || negb (env_id e =? envid)
    then mret (- E_BAD_ENV, None)
    else
      ce ← curenv;
      denied ← (if checkperm && negb (bool_decide (ce = Some i))
                then c ← deref ce; cur ← get_env c; mret (negb (env_parent_id e =? env_id cur))
                else mret false);
      if denied : bool then mret (- E_BAD_ENV, None) else mret (0, Some i).

(** ** Segments *)

(** The initialiser of [gdt]; the slots from GD_TSS0 on are null until
    trap_init_percpu fills them. *)
Definition gdt_init : gmap Z Segdesc :=
  <[Z.shiftr GD_KT 3 := SEG (Z.lor STA_X STA_R) 0x0 0xffffffff 0]>
  (<[Z.shiftr GD_KD 3 := SEG STA_W 0x0 0xffffffff 0]>
  (<[Z.shiftr GD_UT 3 := SEG (Z.lor STA_X STA_R) 0x0 0xffffffff 3]>
  (<[Z.shiftr GD_UD 3 := SEG STA_W 0x0 0xffffffff 3]>
  (list_to_map ((λ i, (i, SEG_NULL)) <$> range 0 (NCPU + 5)))))).

Definition env_init_percpu : K unit :=
  emit Lgdt ;;
  emit (LoadSeg "gs" (Z.lor GD_UD 3)) ;;
  emit (LoadSeg "fs" (Z.lor GD_UD 3)) ;;
  emit (LoadSeg "es" GD_KD) ;;
  emit (LoadSeg "ds" GD_KD) ;;
  emit (LoadSeg "ss" GD_KD) ;;
  emit (LoadSeg "cs" GD_KT) ;;
  emit (Lldt 0).

(** ** Initialising the table *)

Definition env_init : K unit :=
  modify (set_env_free_list None) ;;
  forM (reverse (range 0 NENV)) (λ i,
    fl ← gets env_free_list;
    upd_env i (λ e, set_env_link fl (set_env_status ENV_FREE (set_env_id 0 e))) ;;
    modify (set_env_free_list (Some i))) ;;
  env_init_percpu.

(** ** Creating environments *)

Definition env_setup_vm (e : Z) : K Z :=
  op ← page_alloc ALLOC_ZERO;
  match op with
  | None => mret (- E_NO_MEM)
  | Some p =>
      kva ← page2kva p;
      upd_env e (set_env_pgdir kva) ;;
      page_incref p ;;
      forM (range 0 (PDX UTOP)) (λ i, kstore32 (kva + 4 * i) 0) ;;
      kp ← gets kern_pgdir;
      forM (range (PDX UTOP) NPDENTRIES) (λ i, v ← kload32 (kp + 4 * i); kstore32 (kva + 4 * i) v) ;;
      pa ← PADDR kva;
      kstore32 (kva + 4 * PDX UVPT) (Z.lor (Z.lor pa PTE_P) PTE_U) ;;
      mret 0
  end.

(** The env_id given to the environment in slot [i] whose previous id was [old]. *)
Definition next_env_id (old i : Z) : Z :=
  let generation := Z.land (s32 (old + Z.shiftl 1 ENVGENSHIFT)) (Z.lnot (NENV - 1)) in
  let generation := if generation <=? 0 then Z.shiftl 1 ENVGENSHIFT else generation in
  Z.lor generation i.

(** The trap frame env_alloc installs: zero, then the segment registers,
    the stack pointer and the interrupt flag. *)
Definition initial_tf : Trapframe :=
  {| tf_regs := zero_regs; tf_es := Z.lor GD_UD 3; tf_padding1 := 0; tf_ds := Z.lor GD_UD 3; tf_padding2 := 0;
     tf_trapno := 0; tf_err := 0; tf_eip := 0; tf_cs := Z.lor GD_UT 3; tf_padding3 := 0;
     tf_eflags := Z.lor 0 FL_IF; tf_esp := USTACKTOP; tf_ss := Z.lor GD_UD 3; tf_padding4 := 0 |}.

(** Returns the error code and [*newenv_store]. *)
Definition env_alloc (parent_id : Z) : K (Z * option Z) :=
  fl ← gets env_free_list;
  match fl with
  | None => mret (- E_NO_FREE_ENV, None)
  | Some e =>
      r ← env_setup_vm e;
      if r <? 0 then mret (r, None)
      else
        upd_env e (λ v, set_env_id (next_env_id (env_id v) e) v) ;;
        upd_env e (λ v, set_env_runs 0 (set_env_status ENV_RUNNABLE
                          (set_env_type ENV_TYPE_USER (set_env_parent_id parent_id v)))) ;;
        upd_env e (set_env_tf initial_tf) ;;
        upd_env e (λ v, set_env_ipc_recving false (set_env_pgfault_upcall 0 v)) ;;
        v ← get_env e;
        modify (set_env_free_list (env_link v)) ;;
        ce ← curenv;
        cid ← match ce with Some c => cur ← get_env c; mret (env_id cur) | None => mret 0 end;
        cprintf "[%08x] new env %08x\n" [cid; env_id v] ;;
        mret (0, Some e)
  end.

Definition region_alloc (e va len : Z) : K unit :=
  v ← get_env e;
  let begin := ROUNDDOWN va PGSIZE in
  let end_ := ROUNDUP (u32 (va + len)) PGSIZE in
  forM (page_starts begin end_) (λ a,
    opg ← page_alloc 0;
    match opg with
    | None => panic "page allocation failed!"
    | Some pg => page_insert (env_pgdir v) pg a (Z.lor PTE_W PTE_U) ;; mret tt
    end).

(** ** Loading a program

    [binary] is the ELF image the linker embeds in the kernel, as a function
    from offsets to bytes; struct Elf and struct Proghdr (inc/elf.h) are read
    at their C offsets. *)

Definition ELF_MAGIC : Z := 0x464C457F.
Definition ELF_PROG_LOAD : Z := 1.

Section Load.
Variable binary : Z → Z.

Definition img8 (off : Z) : Z := u8 (binary (u32 off)).
Definition img16 (off : Z) : Z := img8 off + 256 * img8 (off + 1).
Definition img32 (off : Z) : Z := img16 off + 65536 * img16 (off + 2).

Definition e_magic : Z := img32 0.
Definition e_entry : Z := img32 24.
Definition e_phoff : Z := img32 28.
Definition e_phnum : Z := img16 44.
(** Fields of program header [ph] (an offset). *)
Definition p_type (ph : Z) : Z := img32 ph.
Definition p_offset (ph : Z) : Z := img32 (ph + 4).
Definition p_va (ph : Z) : Z := img32 (ph + 8).
Definition p_filesz (ph : Z) : Z := img32 (ph + 16).
Definition p_memsz (ph : Z) : Z := img32 (ph + 20).

Definition load_segment (e ph : Z) : K unit :=
  if p_type ph =? ELF_PROG_LOAD then
    if p_memsz ph <? p_filesz ph then panic "load_icode failed:p_memsz<p_filesz.\n"
    else
      region_alloc e (p_va ph) (p_memsz ph) ;;
      forM (range 0 (p_memsz ph)) (λ k, vstore8 (p_va ph + k) 0) ;;
      forM (range 0 (p_filesz ph)) (λ k, vstore8 (p_va ph + k) (img8 (p_offset ph + k)))
  else mret tt.

Definition load_icode (e : Z) : K unit :=
  if negb (e_magic =? ELF_MAGIC) then panic "load_icode failed:the binary is not elf.\n"
  else if e_entry =? 0 then panic "load_icode failed:the elf can't be excuted.\n"
  else
    upd_env e (λ v, set_env_tf (set_tf_eip e_entry (env_tf v)) v) ;;
    v ← get_env e;
    pa ← PADDR (env_pgdir v);
    lcr3 pa ;;
    forM (range 0 e_phnum) (λ i, load_segment e (e_phoff + 32 * i)) ;;
    kp ← gets kern_pgdir;
    pa ← PADDR kp;
    lcr3 pa ;;
    region_alloc e (USTACKTOP - PGSIZE) PGSIZE.

Definition env_create (type : EnvType) : K unit :=
  r ← env_alloc 0;
  match r with
  | (0, Some e) =>
      load_icode e ;;
      upd_env e (set_env_type type) ;;
      if bool_decide (type = ENV_TYPE_FS)
      then upd_env e (λ v, set_env_tf (set_tf_eflags (Z.lor (tf_eflags (env_tf v)) FL_IOPL_MASK) (env_tf v)) v)
      else mret tt
  | _ => panic "env_create failed: env_alloc failed.\n"
  end.

End Load.

(** ** Switching and scheduling *)

Definition env_pop_tf {A} (e : Z) : K A :=
  c ← curenv; ci ← deref c;
  n ← gets cpunum;
  upd_env ci (set_env_cpunum n) ;;
  stop (RunEnv e).

Definition env_run {A} (e : Z) : K A :=
  ce ← curenv;
  match ce with
  | Some c =>
      cur ← get_env c;
      if bool_decide (env_status cur = ENV_RUNNING) then upd_env c (set_env_status ENV_RUNNABLE) else mret tt
  | None => mret tt
  end ;;
  set_curenv (Some e) ;;
  upd_env e (set_env_status ENV_RUNNING) ;;
  upd_env e (λ v, set_env_runs (u32 (env_runs v + 1)) v) ;;
  v ← get_env e;
  pa ← PADDR (env_pgdir v);
  lcr3 pa ;;
  unlock_kernel ;;
  env_pop_tf e.

(** Statuses that keep the CPU from dropping into the monitor. *)
Definition live_status (st : EnvStatus) : bool :=
  match st with ENV_RUNNABLE | ENV_RUNNING | ENV_DYING => true | _ => false end.

Definition sched_halt {A} : K A :=
  found ← forE (range 0 NENV) (λ i,
    e ← get_env i; mret (if live_status (env_status e) then Some i else None));
  match found with
  | None => cprintf "No runnable environments in the system!\n" [] ;; stop InMonitor
  | Some _ =>
      set_curenv None ;;
      kp ← gets kern_pgdir;
      pa ← PADDR kp;
      lcr3 pa ;;
      c ← get_cpu; put_cpu (set_cpu_status CPU_HALTED c) ;;
      unlock_kernel ;;
      stop Halted
  end.

(** [for (j = 0; j != NENV; j++, i = (i + 1) % NENV)] with [n] rounds left. *)
Fixpoint sched_loop (n : nat) (i : Z) : K unit :=
  match n with
  | O => mret tt
  | S n =>
      e ← get_env i;
      (if bool_decide (env_status e = ENV_RUNNABLE)
       then cn ← gets cpunum; upd_env i (set_env_cpunum cn) ;; env_run i
       else mret tt) ;;
      sched_loop n ((i + 1) `mod` NENV)
  end.

Definition sched_yield {A} : K A :=
  idle ← curenv;
  i ← match idle with Some c => e ← get_env c; mret (ENVX (env_id e) + 1) | None => mret 0 end;
  sched_loop (Z.to_nat NENV) i ;;
  match idle with
  | Some c =>
      e ← get_env c;
      if bool_decide (env_status e = ENV_RUNNING)
      then cn ← gets cpunum; upd_env c (set_env_cpunum cn) ;; env_run c
      else mret tt
  | None => mret tt
  end ;;
  sched_halt.

(** ** Destroying environments *)

(** The body of the loop over page tables: unmap all PTEs of the table, then
    free the table itself. *)
Definition env_free_pde (pgdir pdeno : Z) : K unit :=
  pde ← kload32 (pgdir + 4 * pdeno);
  if negb (present pde) then mret tt
  else
    let pa := PTE_ADDR pde in
    pt ← KADDR pa;
    forM (range 0 (PTX (Z.lnot 0) + 1)) (λ pteno,
      pte ← kload32 (pt + 4 * pteno);
      if present pte then page_remove pgdir (PGADDR pdeno pteno 0) else mret tt) ;;
    kstore32 (pgdir + 4 * pdeno) 0 ;;
    pp ← pa2page pa;
    page_decref pp.

Definition env_free (e : Z) : K unit :=
  ce ← curenv;
  (if bool_decide (ce = Some e)
   then kp ← gets kern_pgdir; pa ← PADDR kp; lcr3 pa
   else mret tt) ;;
  cid ← match ce with Some c => cur ← get_env c; mret (env_id cur) | None => mret 0 end;
  v ← get_env e;
  cprintf "[%08x] free env %08x\n" [cid; env_id v] ;;
  forM (range 0 (PDX UTOP)) (env_free_pde (env_pgdir v)) ;;
  pa ← PADDR (env_pgdir v);
  upd_env e (set_env_pgdir 0) ;;
  pp ← pa2page pa;
  page_decref pp ;;
  upd_env e (set_env_status ENV_FREE) ;;
  fl ← gets env_free_list;
  upd_env e (set_env_link fl) ;;
  modify (set_env_free_list (Some e)).

Definition env_destroy (e : Z) : K unit :=
  v ← get_env e;
  ce ← curenv;
  if bool_decide (env_status v = ENV_RUNNING) && negb (bool_decide (ce = Some e))
  then upd_env e (set_env_status ENV_DYING)
  else
    env_free e ;;
    ce ← curenv;
    if bool_decide (ce = Some e) then set_curenv None ;; sched_yield else mret tt.

(** kern/pmap.c *)
Definition user_mem_assert (env va len perm : Z) : K unit :=
  r ← user_mem_check env va len (Z.lor perm PTE_U);
  if r <? 0 then
    e ← get_env env;
    a ← gets user_mem_check_addr;
    cprintf "[%08x] user_mem_check assertion failure for va %08x\n" [env_id e; a] ;;
    env_destroy env
  else mret tt.
