(* ===== verification/EnvFree.v ===== *)
(** * env_free gives everything back

    Proof that env_free (kern/env.c) unmaps every user page of the
    environment, frees its page tables and its page directory, and leaves
    every other address space as it was. *)

From S2P Require Import Prelude Mmu KState KWp Pmap PmapInv PmapSpec PmapDir PmapOps VMem Env.

(** Words outside page [q] and other than [w] agree. *)
Definition agree_but (q w : Z) (m m' : gmap Z Z) : Prop :=
  ∀ x, x / 1024 ≠ q → x ≠ w → word m' x = word m x.

(** The other address spaces do not see a change to one table of [pd]. *)
Lemma mapping_other PD PT ext fl np m pg h m' pd i pd' v :
  minv PD PT ext fl np m pg h → pd ∈ PD → 0 ≤ i < 955 →
  present (word m (pd * 1024 + i)) = true →
  agree_but (PGNUM (word m (pd * 1024 + i))) (pd * 1024 + i) m m' →
  pd' ∈ PD → pd' ≠ pd → user_vpn v → mapping m' pd' v = mapping m pd' v.
Proof.
  intros Hm Hpd Hi Hp Hag Hpd' Hne Hv.
  assert (Hw : pd * 1024 + i ∈ dslots PD).
  { rewrite elem_of_dslots. replace ((pd * 1024 + i) / 1024) with pd by mlia. split; [done|mlia]. }
  assert (Hw' : pd' * 1024 + v / 1024 ∈ dslots PD) by by apply dir_slot_vpn.
  assert (Hv1 : 0 ≤ v / 1024 < 1024) by (unfold user_vpn in Hv; mlia).
  pose proof (mi_dir _ _ _ _ _ _ _ _ Hm _ Hw Hp) as Hq.
  assert (HqD : pd' ≠ PGNUM (word m (pd * 1024 + i))).
  { pose proof (mi_disj _ _ _ _ _ _ _ _ Hm) as Hd. intros ->. sets using Hd Hq Hpd'. }
  unfold mapping. rewrite (Hag (pd' * 1024 + v / 1024)).
  2:{ intros Hx. apply HqD. rewrite <- Hx. mlia. }
  2:{ mlia. }
  destruct (present (word m (pd' * 1024 + v / 1024))) eqn:Hp'; [|done].
  rewrite Hag; [done| |].
  - intros Hx. assert (HG : PGNUM (word m (pd' * 1024 + v / 1024)) = PGNUM (word m (pd * 1024 + i))).
    { rewrite <- Hx. mlia. }
    pose proof (mi_inj _ _ _ _ _ _ _ _ Hm _ _ Hw' Hw Hp' Hp HG) as Heq. apply Hne.
    apply (f_equal (λ x, x / 1024)) in Heq. revert Heq. mlia.
  - intros Hx. pose proof (mi_dir _ _ _ _ _ _ _ _ Hm _ Hw' Hp') as Hq'.
    pose proof (mi_disj _ _ _ _ _ _ _ _ Hm) as Hd.
    assert (PGNUM (word m (pd' * 1024 + v / 1024)) = pd).
    { apply (f_equal (λ x, x / 1024)) in Hx. revert Hx. mlia. }
    subst pd. sets using Hd Hpd Hq'.
Qed.

Section Free.
Context (PD : gset Z) (ext : Z → Z).

(** Removing the entries of one table. *)
Lemma free_ptes_spec PT fl s pd pdeno :
  kminv PD PT ext fl s → cpu_ok s → pd ∈ PD → 0 ≤ pdeno < 955 →
  let w := pd * 1024 + pdeno in
  let q := PGNUM (word (phys s) w) in
  present (word (phys s) w) = true →
  wp (forM (range 0 1024) (λ pteno,
        pte ← kload32 (kdir q + 4 * pteno);
        if present pte then page_remove (kdir pd) (PGADDR pdeno pteno 0) else mret tt))
    (λ _ s', frame s s' ∧ (∃ fl', kminv PD PT ext fl' s') ∧
       (∀ x, x / 1024 ≠ q → word (phys s') x = word (phys s) x) ∧
       (∀ j, 0 ≤ j < 1024 → present (word (phys s') (q * 1024 + j)) = false)) no_stop s.
Proof.
  intros Hm Hcpu Hpd Hpi w q Hp.
  assert (Hwq : w / 1024 ≠ q).
  { assert (Hw : w ∈ dslots PD).
    { rewrite elem_of_dslots. unfold w. replace ((pd * 1024 + pdeno) / 1024) with pd by mlia. split; [done|mlia]. }
    pose proof (mi_dir _ _ _ _ _ _ _ _ Hm w Hw Hp) as Hq. pose proof (mi_disj _ _ _ _ _ _ _ _ Hm) as Hd.
    unfold w. replace ((pd * 1024 + pdeno) / 1024) with pd by mlia. intros Heq. fold q in Hq. rewrite <- Heq in Hq. sets using Hd Hq Hpd. }
  apply wp_for_range with (I := λ j s', frame s s' ∧ (∃ fl', kminv PD PT ext fl' s') ∧
       (∀ x, x / 1024 ≠ q → word (phys s') x = word (phys s) x) ∧
       (∀ j', 0 ≤ j' < j → present (word (phys s') (q * 1024 + j')) = false)); [lia| | |done].
  { split; [apply frame_refl|]. split; [by exists fl|]. split; [done|]. lia. }
  intros j s1 Hj (Hf & (fl1 & Hm1) & Hag & Habs). apply wp_bind, wp_kload32. rewrite kidx_entry.
  assert (Hva : 0 ≤ PGADDR pdeno j 0 < UTOP) by (rewrite PGADDR_eq by lia; mlia).
  assert (Hw1 : word (phys s1) (pd * 1024 + PDX (PGADDR pdeno j 0)) = word (phys s) w).
  { rewrite PDX_PGADDR by lia. apply Hag. exact Hwq. }
  assert (Hpte : pte_word (phys s1) pd (PGADDR pdeno j 0) = q * 1024 + j).
  { unfold pte_word. rewrite Hw1, PTX_PGADDR by lia. done. }
  destruct (present (word (phys s1) (q * 1024 + j))) eqn:Hpj.
  2:{ apply wp_ret. split_and!; eauto. intros j' Hj'. destruct (decide (j' = j)); [by subst|]. apply Habs. lia. }
  eapply wp_mono; [apply (page_remove_spec PD ext PT fl1); [done|by eapply frame_cpu_ok|done|done]| |done].
  intros [] s2. unfold removed. rewrite mapping_pte, Hw1, Hp, Hpte, Hpj.
  intros (i & Hi & _ & Hm2 & Hf2 & Hph & _ & _).
  split; [by eapply frame_trans|]. split; [eauto|]. split.
  - intros x Hx. rewrite Hph, word_insert_ne; [by apply Hag|]. intros <-. apply Hx. mlia.
  - intros j' Hj'. rewrite Hph, word_insert. case_decide; [done|]. apply Habs. lia.
Qed.

(** What freeing part of the address space [pd] may change. *)
Definition freeing (PT : gset Z) (pd : Z) (s s' : KState) : Prop :=
  frame s s' ∧ (∃ PT' fl', kminv PD PT' ext fl' s' ∧ PT' ⊆ PT) ∧
  (∀ pd' v, pd' ∈ PD → pd' ≠ pd → user_vpn v → mapping (phys s') pd' v = mapping (phys s) pd' v) ∧
  mem_kept PD PT [] s s'.

Lemma freeing_refl PT fl pd s : kminv PD PT ext fl s → freeing PT pd s s.
Proof. intros. split; [apply frame_refl|]. split; [by exists PT, fl|done]. Qed.

Lemma freeing_trans PT PT' pd s s1 s2 :
  PT' ⊆ PT → freeing PT pd s s1 → freeing PT' pd s1 s2 → freeing PT pd s s2.
Proof.
  intros HPT (Hf & _ & Hmap & Hk) (Hf' & (PT2 & fl2 & Hm2 & Hs2) & Hmap' & Hk').
  split; [by eapply frame_trans|]. split; [exists PT2, fl2; split; [done|by etrans]|].
  split; [intros; rewrite Hmap' by done; auto|].
  intros w Hw Hwf. rewrite Hk'; [by apply Hk| |done].
  rewrite slots_split, elem_of_tslots in *. intros [?|?]; apply Hw; auto.
Qed.

Lemma dir_entry_slot pd i : pd ∈ PD → 0 ≤ i < 955 → pd * 1024 + i ∈ dslots PD.
Proof.
  intros. rewrite elem_of_dslots. replace ((pd * 1024 + i) / 1024) with pd by mlia. split; [done|mlia].
Qed.

Lemma env_free_pde_spec PT fl s pd pdeno :
  kminv PD PT ext fl s → cpu_ok s → pd ∈ PD → 0 ≤ pdeno < 955 →
  wp (env_free_pde (kdir pd) pdeno) (λ _ s', freeing PT pd s s' ∧
    present (word (phys s') (pd * 1024 + pdeno)) = false ∧
    (∀ x, x ∈ dslots PD → x ≠ pd * 1024 + pdeno → word (phys s') x = word (phys s) x)) no_stop s.
Proof.
  intros Hm Hcpu Hpd Hpi. unfold env_free_pde. apply wp_bind, wp_kload32. rewrite kidx_entry.
  pose proof (dir_entry_slot pd pdeno Hpd Hpi) as Hw. set (w := pd * 1024 + pdeno) in *.
  destruct (present (word (phys s) w)) eqn:Hp; cbn [negb].
  2:{ apply wp_ret. split; [by eapply freeing_refl|done]. }
  set (q := PGNUM (word (phys s) w)).
  assert (Hq : q ∈ PT) by by apply (mi_dir _ _ _ _ _ _ _ _ Hm).
  assert (Hqr : 0 ≤ q < npages s) by (apply (mi_range _ _ _ _ _ _ _ _ Hm); by apply elem_of_union_r).
  pose proof (mi_np _ _ _ _ _ _ _ _ Hm) as Hnp.
  rewrite PTE_ADDR_PGNUM. fold q. apply wp_bind. eapply wp_ok; [apply KADDR_ok; lia|].
  apply wp_bind. change (PTX (Z.lnot 0) + 1) with 1024.
  eapply wp_mono; [by apply (free_ptes_spec PT fl)| |done].
  intros [] s1 (Hf1 & (fl1 & Hm1) & Hag & Habs). fold w in Hag, Habs. fold q in Hag, Habs.
  assert (HqD : ∀ x, x ∈ dslots PD → x / 1024 ≠ q).
  { intros x Hx Heq. apply elem_of_dslots in Hx as [Hx _]. rewrite Heq in Hx.
    pose proof (mi_disj _ _ _ _ _ _ _ _ Hm) as Hd. sets using Hd Hq Hx. }
  assert (Hw1 : word (phys s1) w = word (phys s) w) by by apply Hag, HqD.
  apply wp_bind, wp_kstore32. rewrite kidx_entry. fold w. change (u32 0) with 0.
  apply wp_bind. eapply wp_ok; [apply pa2page_ok; cbn; rewrite (frame_npages _ _ Hf1); lia|].
  destruct (minv_page PD PT ext fl1 (npages s1) (phys s1) (pages s1) (page_free_list s1) q Hm1) as [i Hi]; [by rewrite (frame_npages _ _ Hf1)|].
  destruct (minv_del_table PD PT ext fl1 (npages s1) (phys s1) (pages s1) (page_free_list s1) w i) as (Hr & Hl & Hm2 & Hqfl); try done.
  { by rewrite Hw1. } { by rewrite Hw1. }
  { intros x Hx. rewrite Hw1 in Hx. fold q in Hx. replace x with (q * 1024 + x `mod` 1024) by (rewrite <- Hx; mlia).
    apply Habs. mlia. }
  rewrite Hw1 in Hm2. fold q in Hm2, Hqfl. rewrite Hw1 in Hqfl. fold q in Hqfl.
  eapply wp_ok; [apply (page_decref_eq _ q i); [done|done|lia]|].
  unfold decref_state. rewrite Hr. cbn.
  assert (Hag' : agree_but q w (phys s) (<[w := 0]> (phys s1))).
  { intros x Hx Hxw. rewrite word_insert_ne by done. by apply Hag. }
  split; [|split].
  - split; [|split].
    + eapply frame_trans; [exact Hf1|]. by destruct s1.
    + exists (PT ∖ {[q]}), (q :: fl1). split; [|sets using Hq].
      pose proof (minv_push _ _ _ _ _ _ _ _ q {| pp_link := None; pp_ref := 0 |} Hm2) as Hpush.
      rewrite insert_insert_eq in Hpush. apply Hpush; [by rewrite lookup_insert_eq|done| |done].
      intros [Hx|[_ Hx]%elem_of_difference]%elem_of_union; [|by apply Hx, elem_of_singleton].
      pose proof (mi_disj _ _ _ _ _ _ _ _ Hm) as Hd. sets using Hd Hq Hx.
    + split; [intros pd' v Hpd' Hne Hv;
        by apply (mapping_other PD PT ext fl (npages s) (phys s) (pages s) (page_free_list s) _ pd pdeno)|].
      intros x Hx _. cbn. rewrite slots_split, elem_of_tslots in Hx. apply Hag'; [|intros ->; tauto].
      intros Heq. apply Hx. right. by rewrite Heq.
  - by rewrite word_insert_eq.
  - intros x Hx Hne. rewrite word_insert_ne by done. by apply Hag, HqD.
Qed.

Lemma free_user_spec PT fl s pd :
  kminv PD PT ext fl s → cpu_ok s → pd ∈ PD →
  wp (forM (range 0 (PDX UTOP)) (env_free_pde (kdir pd))) (λ _ s', freeing PT pd s s' ∧
    (∀ i, 0 ≤ i < 955 → present (word (phys s') (pd * 1024 + i)) = false)) no_stop s.
Proof.
  intros Hm Hcpu Hpd. change (PDX UTOP) with 955.
  apply wp_for_range with (I := λ n s', freeing PT pd s s' ∧
    (∀ i, 0 ≤ i < n → present (word (phys s') (pd * 1024 + i)) = false)); [lia| | |done].
  { split; [by eapply freeing_refl|lia]. }
  intros n s1 Hn [Hfr Habs]. destruct (Hfr) as (Hf1 & (PT1 & fl1 & Hm1 & HPT1) & _).
  eapply wp_mono; [apply (env_free_pde_spec PT1 fl1); [done|by eapply frame_cpu_ok|done|done]| |done].
  intros [] s2 (Hfr2 & Hab2 & Hag2). split; [by eapply freeing_trans|].
  intros i Hi. destruct (decide (i = n)); [by subst|].
  rewrite Hag2; [apply Habs; lia|apply dir_entry_slot; [done|lia]|lia].
Qed.

End Free.

(** Only memory, page structures, environments, cr3 and the trace change. *)
Definition kframe (s s' : KState) : Prop :=
  s' = set_cr3 (cr3 s') (set_trace (trace s') (set_phys (phys s') (set_pages (pages s')
         (set_page_free_list (page_free_list s') (set_envs (envs s') (set_env_free_list (env_free_list s') s)))))).

Lemma kframe_refl s : kframe s s.
Proof. by destruct s. Qed.
Lemma kframe_trans s1 s2 s3 : kframe s1 s2 → kframe s2 s3 → kframe s1 s3.
Proof. unfold kframe. intros H1 H2. rewrite H2, H1. reflexivity. Qed.
Lemma frame_kframe s s' : frame s s' → kframe s s'.
Proof. unfold frame, kframe. intros H. rewrite H. by destruct s. Qed.
Lemma kframe_npages s s' : kframe s s' → npages s' = npages s.
Proof. intros H. by rewrite H. Qed.
Lemma kframe_kern_pgdir s s' : kframe s s' → kern_pgdir s' = kern_pgdir s.
Proof. intros H. by rewrite H. Qed.
Lemma kframe_cpus s s' : kframe s s' → cpus s' = cpus s ∧ cpunum s' = cpunum s.
Proof. intros H. by rewrite H. Qed.

(** The entry of a freed environment. *)
Definition freed_env (link : option Z) (v : Env) : Env :=
  set_env_link link (set_env_status ENV_FREE (set_env_pgdir 0 v)).

(** The state after env_free of environment [e] with directory page [pd]. *)
Record env_freed (PD PT : gset Z) (ext : Z → Z) (pd e : Z) (v : Env) (s s' : KState) : Prop := {
  ef_mem : ∃ PT' fl', kminv (PD ∖ {[pd]}) PT' (ext_set pd 0 ext) fl' s' ∧ pd ∈ fl';
  ef_map : ∀ pd' x, pd' ∈ PD → pd' ≠ pd → user_vpn x → mapping (phys s') pd' x = mapping (phys s) pd' x;
  ef_kept : mem_kept PD PT [] s s';
  ef_envs : envs s' = <[e := freed_env (env_free_list s) v]> (envs s);
  ef_list : env_free_list s' = Some e;
  ef_frame : kframe s s'
}.

Lemma env_free_spec PD PT ext fl s e v pd :
  kminv PD PT ext fl s → cpu_ok s → KERNBASE ≤ kern_pgdir s < 4294967296 →
  envs s !! e = Some v → env_pgdir v = kdir pd → pd ∈ PD → ext pd = 1 →
  wp (env_free e) (λ _ s', env_freed PD PT ext pd e v s s') no_stop s.
Proof.
  intros Hm Hcpu Hk He Hdir Hpd Hext. unfold env_free.
  destruct (Hcpu) as (c & Hc & Hce).
  pose proof (mi_np _ _ _ _ _ _ _ _ Hm) as Hnp.
  assert (Hpr : 0 ≤ pd < npages s) by (apply (mi_range _ _ _ _ _ _ _ _ Hm); by apply elem_of_union_l).
  apply wp_bind, (wp_curenv c); [done|]. apply wp_bind.
  (* the switch to kern_pgdir only touches cr3 and the trace *)
  apply wp_mono with (E := no_stop) (Q := λ _ s1, ∃ r t, s1 = set_trace t (set_cr3 r s)); [| |done].
  { case_bool_decide.
    - apply wp_bind, wp_gets, wp_bind, wp_PADDR, wp_lcr3; [done|]. by eexists _, _.
    - apply wp_ret. exists (cr3 s), (trace s). by destruct s. }
  intros [] s1 (r & t & ->). apply wp_bind.
  eapply (wp_mono _ (λ _ s2, s2 = set_trace t (set_cr3 r s)) _ no_stop); [| |done].
  { destruct (cpu_env c) as [ce|] eqn:Hcc; [|done]. destruct (Hce ce eq_refl) as [x Hx].
    apply wp_bind, (wp_get_env _ x); done. }
  intros cid s2 ->. apply wp_bind, (wp_get_env _ v); [done|]. apply wp_bind, wp_cprintf.
  rewrite Hdir. apply wp_bind. set (s3 := set_trace _ _).
  assert (Hm3 : kminv PD PT ext fl s3) by done.
  assert (Hcpu3 : cpu_ok s3) by done.
  eapply wp_mono; [by apply (free_user_spec PD ext PT fl)| |done].
  intros [] s4 ((Hf4 & (PT4 & fl4 & Hm4 & HPT4) & Hmap4 & Hkept4) & Habs).
  apply wp_bind, wp_PADDR; [unfold kdir; mlia|].
  assert (He4 : envs s4 !! e = Some v) by by rewrite (frame_envs _ _ Hf4).
  apply wp_bind, (wp_upd_env _ _ v); [done|]. apply wp_bind.
  replace (kdir pd - KERNBASE) with (pd * 4096) by (unfold kdir; lia).
  eapply wp_ok; [apply pa2page_ok; cbn; rewrite (frame_npages _ _ Hf4); cbn; lia|].
  destruct (minv_page PD PT4 ext fl4 (npages s4) (phys s4) (pages s4) (page_free_list s4) pd Hm4) as [i Hi]; [by rewrite (frame_npages _ _ Hf4)|].
  destruct (minv_del_dir PD PT4 ext fl4 (npages s4) (phys s4) (pages s4) (page_free_list s4) pd i) as (Hr & Hl & Hnf & Hm5); try done.
  { intros x <- Hx. replace x with (x / 1024 * 1024 + x `mod` 1024) by mlia. apply Habs. mlia. }
  apply wp_bind. eapply wp_ok; [apply (page_decref_eq _ pd i); [done|done|lia]|].
  unfold decref_state. rewrite Hr. cbn [Z.eqb Pos.eqb].
  apply wp_bind. eapply wp_upd_env; [by cbn; rewrite lookup_insert_eq|].
  apply wp_bind, wp_gets, wp_bind. eapply wp_upd_env; [by cbn; rewrite lookup_insert_eq|].
  apply wp_modify. cbn. rewrite !insert_insert_eq. split; cbn.
  - exists PT4, (pd :: fl4). split; [|left]. unfold kminv. cbn.
    pose proof (minv_push _ _ _ _ _ _ _ _ pd {| pp_link := None; pp_ref := 0 |} Hm5) as Hpush.
    rewrite insert_insert_eq in Hpush. apply Hpush; [by rewrite lookup_insert_eq|done| |done].
    intros [[_ Hx]%elem_of_difference|Hx]%elem_of_union; [by apply Hx, elem_of_singleton|].
    pose proof (mi_disj _ _ _ _ _ _ _ _ Hm4) as Hd. sets using Hd Hpd Hx.
  - exact Hmap4.
  - exact Hkept4.
  - rewrite (frame_envs _ _ Hf4). unfold freed_env.
    by rewrite (frame_env_free_list _ _ Hf4).
  - done.
  - eapply (kframe_trans _ s3); [by destruct s|]. eapply kframe_trans; [by apply frame_kframe|]. by destruct s4.
Qed.
