(* ===== verification/KInv.v ===== *)
(** * The kernel invariant

    [kcore]: the accounting invariant of memory (PmapInv) together with the
    environment table: every environment in use owns one page directory of
    its own, its id names its slot, and the free list holds exactly the free
    slots.  [kinv] hides the ghost parameters.  [cur_ok]: this CPU's curenv,
    if any, is in use.  [held]: this CPU is up and holds the kernel lock. *)

From S2P Require Import Prelude Mmu KState KWp Pmap PmapInv PmapSpec PmapDir PmapOps Env EnvFree.

Fixpoint env_chain (es : gmap Z Env) (h : option Z) (l : list Z) : Prop :=
  match l with
  | [] => h = None
  | i :: l => h = Some i ∧ ∃ e, es !! i = Some e ∧ env_chain es (env_link e) l
  end.

Lemma env_chain_insert_ne es i e h l : i ∉ l → env_chain es h l → env_chain (<[i := e]> es) h l.
Proof.
  revert h. induction l as [|j l IH]; intros h Hi; simpl; [done|].
  intros (-> & v & Hv & Hc). apply not_elem_of_cons in Hi as [Hij Hi].
  split; [done|]. exists v. rewrite lookup_insert_ne by done. split; [done|]. by apply IH.
Qed.

(** An environment that is not on the free list. *)
Definition in_use (e : Env) : Prop := env_status e ≠ ENV_FREE.

(** Every page directory of an environment has the kernel's own entries above
    UTOP, except for the one at UVPT, which maps the directory itself; the
    kernel's page tables are in physical memory. *)
Definition shares_kernel (np : Z) (PD : gset Z) (kp : Z) (m : gmap Z Z) : Prop :=
  (∀ i, 955 ≤ i < 1024 → 0 ≤ word m (kp * 1024 + i) < 4294967296 ∧
     (present (word m (kp * 1024 + i)) = true → PGNUM (word m (kp * 1024 + i)) < np)) ∧
  ∀ pd i, pd ∈ PD → 955 ≤ i < 1024 →
    word m (pd * 1024 + i) = if decide (i = PDX UVPT) then pd * 4096 + 5 else word m (kp * 1024 + i).

Record kcore (PD PT : gset Z) (ext : Z → Z) (fl efl : list Z) (s : KState) : Prop := {
  kc_mem : kminv PD PT ext fl s;
  kc_envs : ∀ i, is_Some (envs s !! i) ↔ 0 ≤ i < 1024;
  kc_id : ∀ i e, envs s !! i = Some e → in_use e → ENVX (env_id e) = i ∧ 0 < env_id e < 2147483648;
  kc_dir : ∀ i e, envs s !! i = Some e → in_use e → ∃ pd, pd ∈ PD ∧ env_pgdir e = kdir pd ∧ ext pd = 1;
  kc_inj : ∀ i j e e', envs s !! i = Some e → envs s !! j = Some e' → in_use e → in_use e' →
    env_pgdir e = env_pgdir e' → i = j;
  kc_own : ∀ pd, pd ∈ PD → ∃ i e, envs s !! i = Some e ∧ in_use e ∧ env_pgdir e = kdir pd;
  kc_chain : env_chain (envs s) (env_free_list s) efl;
  kc_nodup : NoDup efl;
  kc_free : ∀ i e, envs s !! i = Some e → i ∈ efl ↔ env_status e = ENV_FREE;
  kc_kpd : ∃ kp, kern_pgdir s = kdir kp ∧ 0 ≤ kp < npages s ∧ 0 < ext kp ∧ kp ∉ PD ∧
    shares_kernel (npages s) PD kp (phys s)
}.

Definition kinv (s : KState) : Prop := ∃ PD PT ext fl efl, kcore PD PT ext fl efl s.

Definition cur_ok (s : KState) : Prop :=
  ∃ c, cpus s !! cpunum s = Some c ∧ ∀ i, cpu_env c = Some i → ∃ e, envs s !! i = Some e ∧ in_use e.

(** This CPU's current environment. *)
Definition cur (s : KState) : option Z := cpus s !! cpunum s ≫= cpu_env.

Definition has_lock (s : KState) : Prop := kernel_lock s = {| locked := 1; lk_cpu := Some (cpunum s) |}.
(** This CPU is not marked halted. *)
Definition started (s : KState) : Prop := ∃ c, cpus s !! cpunum s = Some c ∧ cpu_status c ≠ CPU_HALTED.
Definition held (s : KState) : Prop := has_lock s ∧ started s.
Definition released (s : KState) : Prop := kernel_lock s = {| locked := 0; lk_cpu := None |}.

Lemma cur_ok_cpu_ok s : cur_ok s → cpu_ok s.
Proof. intros (c & Hc & H). exists c. split; [done|]. intros e He. destruct (H e He) as (? & ? & _). eauto. Qed.

Lemma kdir_inj p q : kdir p = kdir q → p = q.
Proof. unfold kdir. lia. Qed.

(** States that agree on everything [kcore] mentions. *)
Lemma kcore_ext PD PT ext fl efl s s' :
  kcore PD PT ext fl efl s →
  npages s' = npages s → phys s' = phys s → pages s' = pages s → page_free_list s' = page_free_list s →
  envs s' = envs s → env_free_list s' = env_free_list s → kern_pgdir s' = kern_pgdir s →
  kcore PD PT ext fl efl s'.
Proof.
  intros [] H1 H2 H3 H4 H5 H6 H7. unfold kminv in *. split; unfold kminv; rewrite ?H1, ?H2, ?H3, ?H4, ?H5, ?H6, ?H7; done.
Qed.

Lemma kern_pgdir_range PD PT ext fl efl s :
  kcore PD PT ext fl efl s → KERNBASE ≤ kern_pgdir s < 4294967296.
Proof.
  intros []. destruct kc_kpd0 as (kp & -> & ? & _). pose proof (mi_np _ _ _ _ _ _ _ _ kc_mem0). unfold kdir. mlia.
Qed.

(** The shared kernel entries survive changes to the tables of the user part. *)
Lemma shares_kernel_kept np PD PT PT' ext fl fl' kp s s' :
  kminv PD PT ext fl s → kminv PD PT' ext fl' s' → mem_kept PD PT' fl s s' →
  0 < ext kp → kp ∉ PD → 0 ≤ kp < npages s →
  shares_kernel np PD kp (phys s) → shares_kernel np PD kp (phys s').
Proof.
  intros Hm Hm' Hkept He Hkp Hr [Hwr Hsh].
  assert (Hpage : ∀ p i, (p ∈ PD ∨ p = kp) → 955 ≤ i < 1024 → word (phys s') (p * 1024 + i) = word (phys s) (p * 1024 + i)).
  { intros p i Hp Hi. assert (Hdiv : (p * 1024 + i) / 1024 = p) by mlia. assert (Hmod : (p * 1024 + i) `mod` 1024 = i) by mlia.
    assert (HpT : p ∉ PT').
    { intros Hin. destruct Hp as [Hp| ->].
      - pose proof (mi_disj _ _ _ _ _ _ _ _ Hm') as Hd. sets using Hd Hp Hin.
      - destruct (mi_own _ _ _ _ _ _ _ _ Hm' kp Hin). lia. }
    apply Hkept.
    - rewrite slots_split, elem_of_dslots, elem_of_tslots, Hdiv, Hmod. intros [[_ ?]|?]; [lia|done].
    - rewrite Hdiv. intros Hin. assert (Hpr : 0 ≤ p < npages s).
      { destruct Hp as [Hp| ->]; [|done]. apply (mi_range _ _ _ _ _ _ _ _ Hm). by apply elem_of_union_l. }
      destruct (minv_page PD PT ext fl (npages s) (phys s) (pages s) (page_free_list s) p Hm Hpr) as [k Hk].
      destruct (mi_free _ _ _ _ _ _ _ _ Hm p k Hin Hk) as [HnT Hr0].
      destruct Hp as [Hp| ->]; [sets using HnT Hp|].
      pose proof (mi_ref _ _ _ _ _ _ _ _ Hm kp k Hk). pose proof (refs_nonneg (phys s) (slots PD PT) kp). lia. }
  split; [intros i Hi; rewrite Hpage by auto; auto|].
  intros pd i Hpd Hi. rewrite !Hpage by auto. by apply Hsh.
Qed.

(** Page operations keep the environment table. *)
Lemma kcore_frame PD PT PT' ext fl fl' efl s s' :
  kcore PD PT ext fl efl s → frame s s' → kminv PD PT' ext fl' s' → mem_kept PD PT' fl s s' →
  kcore PD PT' ext fl' efl s'.
Proof.
  intros [] Hf Hm Hkept. split; [done|..]; rewrite ?(frame_envs _ _ Hf), ?(frame_env_free_list _ _ Hf); try done.
  destruct kc_kpd0 as (kp & Hk & Hr & He & Hkp & Hsh). exists kp. rewrite (frame_npages _ _ Hf), (frame_kern_pgdir _ _ Hf).
  split_and!; try done; try apply Hr. by eapply (shares_kernel_kept _ PD PT PT').
Qed.

Lemma frame_cur_ok s s' : frame s s' → cur_ok s → cur_ok s'.
Proof.
  intros Hf (c & Hc & H). destruct (frame_cpus _ _ Hf) as [H1 H2].
  exists c. by rewrite H1, H2, (frame_envs _ _ Hf).
Qed.

(** Field updates of an environment in use. *)
Lemma kcore_upd PD PT ext fl efl s i e e' :
  kcore PD PT ext fl efl s → envs s !! i = Some e → in_use e → in_use e' →
  env_id e' = env_id e → env_pgdir e' = env_pgdir e →
  kcore PD PT ext fl efl (set_envs (<[i := e']> (envs s)) s).
Proof.
  intros [] Hi Hu Hu' Hid Hdir.
  assert (Hni : i ∉ efl) by (intros Hin; by apply Hu, (kc_free0 i e Hi)).
  assert (Hback : ∀ j v, <[i := e']> (envs s) !! j = Some v →
    ∃ v0, envs s !! j = Some v0 ∧ env_id v = env_id v0 ∧ env_pgdir v = env_pgdir v0 ∧ (in_use v ↔ in_use v0)).
  { intros j v. rewrite lookup_insert. case_decide; [intros [= <-]; subst; exists e; tauto|]. intros Hj. exists v. tauto. }
  split; try done; cbn.
  - intros j. rewrite lookup_insert. case_decide; [subst|by apply kc_envs0]. split; [|by eauto].
    intros _. apply kc_envs0. eauto.
  - intros j v Hj Hv. destruct (Hback j v Hj) as (v0 & Hj0 & -> & _ & Hu0). apply kc_id0; [done|tauto].
  - intros j v Hj Hv. destruct (Hback j v Hj) as (v0 & Hj0 & _ & -> & Hu0). eapply kc_dir0; [done|tauto].
  - intros j k v w Hj Hk Hv Hw. destruct (Hback j v Hj) as (v0 & Hj0 & _ & -> & Hu0).
    destruct (Hback k w Hk) as (w0 & Hk0 & _ & -> & Hu1). apply kc_inj0; tauto.
  - intros pd Hpd. destruct (kc_own0 pd Hpd) as (j & v & Hj & Hv & Hd). destruct (decide (i = j)) as [->|].
    + exists j, e'. rewrite lookup_insert_eq. split_and!; [done|done|]. congruence.
    + exists j, v. by rewrite lookup_insert_ne.
  - by apply env_chain_insert_ne.
  - intros j v. rewrite lookup_insert. case_decide; [|by apply kc_free0]. intros [= <-]. subst.
    unfold in_use in Hu'. tauto.
Qed.

(** Updates of fields the invariant does not mention, of any slot. *)
Lemma env_chain_insert_same es i e e' h l :
  es !! i = Some e → env_link e' = env_link e → env_chain es h l → env_chain (<[i := e']> es) h l.
Proof.
  intros Hi Hl. revert h. induction l as [|j l IH]; intros h; simpl; [done|]. intros (-> & v & Hv & Hc). split; [done|].
  destruct (decide (i = j)) as [->|].
  - exists e'. rewrite lookup_insert_eq. split; [done|]. assert (v = e) as -> by congruence. rewrite Hl. by apply IH.
  - exists v. rewrite lookup_insert_ne by done. split; [done|]. by apply IH.
Qed.

Lemma kcore_same PD PT ext fl efl s i e e' :
  kcore PD PT ext fl efl s → envs s !! i = Some e → env_status e' = env_status e → env_link e' = env_link e →
  env_id e' = env_id e → env_pgdir e' = env_pgdir e →
  kcore PD PT ext fl efl (set_envs (<[i := e']> (envs s)) s).
Proof.
  intros Hk Hi Hst Hl Hid Hdir. destruct (decide (env_status e = ENV_FREE)) as [Hf|Hf].
  2:{ eapply kcore_upd; [done|done|done|unfold in_use; congruence|done|done]. }
  assert (Hother : ∀ j v, <[i := e']> (envs s) !! j = Some v → in_use v → envs s !! j = Some v).
  { intros j v. rewrite lookup_insert. case_decide; [|done]. intros [= <-] Hv. destruct Hv. congruence. }
  destruct Hk. split; try done; cbn.
  - intros j. rewrite lookup_insert. case_decide; [subst|by apply kc_envs0]. split; [|by eauto].
    intros _. apply kc_envs0. eauto.
  - intros j v Hj Hv. eauto.
  - intros j v Hj Hv. eauto.
  - intros j k v w Hj Hk Hv Hw. eauto.
  - intros pd Hpd. destruct (kc_own0 pd Hpd) as (j & v & Hj & Hv & Hd). exists j, v. split; [|done].
    rewrite lookup_insert_ne; [done|]. intros <-. destruct Hv. congruence.
  - by eapply env_chain_insert_same.
  - intros j v. rewrite lookup_insert. case_decide; [|by apply kc_free0]. intros [= <-]. subst. rewrite Hst. by apply kc_free0.
Qed.

(** The same at the level of [cur_ok]. *)
Lemma cur_ok_upd s i e' : in_use e' → cur_ok s → cur_ok (set_envs (<[i := e']> (envs s)) s).
Proof.
  intros Hu (c & Hc & H). exists c. split; [done|]. intros j Hj. cbn. rewrite lookup_insert.
  case_decide; [by eauto|]. by apply H.
Qed.

(** Freeing an environment moves its slot to the free list. *)
Lemma kcore_freed PD PT ext fl efl s s' i e pd :
  kcore PD PT ext fl efl s → envs s !! i = Some e → in_use e → env_pgdir e = kdir pd → pd ∈ PD →
  env_freed PD PT ext pd i e s s' →
  ∃ PT' fl', kcore (PD ∖ {[pd]}) PT' (ext_set pd 0 ext) fl' (i :: efl) s' ∧ pd ∈ fl'.
Proof.
  intros [] Hi Hu Hdir Hpd [(PT' & fl' & Hm & Hfree) _ Hkept Henvs Hlist Hf]. exists PT', fl'. split; [|done].
  assert (Hni : i ∉ efl) by (intros Hin; by apply Hu, (kc_free0 i e Hi)).
  assert (Hother : ∀ j v, envs s' !! j = Some v → in_use v → j ≠ i ∧ envs s !! j = Some v).
  { intros j v. rewrite Henvs, lookup_insert. case_decide; [intros [= <-] Hv; by destruct Hv|]. auto. }
  split; [done|..].
  - intros j. rewrite Henvs, lookup_insert. case_decide; [subst|by apply kc_envs0].
    split; [|by eauto]. intros _. apply kc_envs0. eauto.
  - intros j v Hj Hv. destruct (Hother j v Hj Hv) as [_ Hj']. by apply kc_id0.
  - intros j v Hj Hv. destruct (Hother j v Hj Hv) as [Hji Hj'].
    destruct (kc_dir0 j v Hj' Hv) as (pd' & Hpd' & Hd' & He').
    assert (pd' ≠ pd). { intros ->. apply Hji. apply (kc_inj0 j i v e); try done. congruence. }
    exists pd'. rewrite ext_set_ne by done. split; [|done]. apply elem_of_difference. by rewrite elem_of_singleton.
  - intros j k v w Hj Hk Hv Hw. destruct (Hother j v Hj Hv), (Hother k w Hk Hw). by apply kc_inj0.
  - intros pd' [Hpd' Hne]%elem_of_difference. rewrite elem_of_singleton in Hne.
    destruct (kc_own0 pd' Hpd') as (j & v & Hj & Hv & Hd). exists j, v. split; [|done].
    rewrite Henvs, lookup_insert_ne; [done|]. intros <-. simplify_eq. apply Hne, kdir_inj. congruence.
  - rewrite Hlist. split; [done|]. eexists. rewrite Henvs, lookup_insert_eq. split; [done|].
    cbn. by apply env_chain_insert_ne.
  - by apply NoDup_cons.
  - intros j v. rewrite Henvs, lookup_insert, elem_of_cons. case_decide as Hd.
    + intros [= <-]. cbn. split; [done|]. by left.
    + intros Hj. rewrite <- (kc_free0 j v Hj). split; [intros [?|?]; [by subst|done]|auto].
  - destruct kc_kpd0 as (kp & Hkd & Hr & He & Hkp & Hsh). exists kp. rewrite (kframe_npages _ _ Hf), (kframe_kern_pgdir _ _ Hf).
    assert (kp ≠ pd) by (intros ->; done). rewrite ext_set_ne by done.
    split_and!; try done; try apply Hr; [sets using Hkp|]. destruct Hsh as [Hwr Hsh].
    assert (Hw : ∀ p k, p ∉ PT → 955 ≤ k < 1024 → word (phys s') (p * 1024 + k) = word (phys s) (p * 1024 + k)).
    { intros p k HpT Hk. apply Hkept; [|apply not_elem_of_nil]. rewrite slots_split, elem_of_dslots, elem_of_tslots.
      replace ((p * 1024 + k) / 1024) with p by mlia. replace ((p * 1024 + k) `mod` 1024) with k by mlia.
      intros [[_ ?]|?]; [lia|done]. }
    assert (HkT : kp ∉ PT).
    { intros Hin. destruct (mi_own _ _ _ _ _ _ _ _ kc_mem0 kp Hin). lia. }
    split; [intros k Hk; rewrite Hw by done; auto|].
    intros pd' k [Hpd' _]%elem_of_difference Hk. rewrite !Hw; [by apply Hsh|done..| |done].
    pose proof (mi_disj _ _ _ _ _ _ _ _ kc_mem0) as Hd. sets using Hd Hpd'.
Qed.

(** ** Switching *)

(** Changing the current environment does not change the CPU's status. *)
Lemma started_set_env s s' c v :
  started s → cpus s !! cpunum s = Some c → cpunum s' = cpunum s →
  cpus s' = <[cpunum s := set_cpu_env v c]> (cpus s) → started s'.
Proof.
  intros (c' & Hc' & Hst) Hc Hn Hs. assert (c' = c) as -> by congruence. exists (set_cpu_env v c).
  by rewrite Hs, Hn, lookup_insert_eq.
Qed.

(** The machine is in user mode in environment [i]. *)
Record running (i : Z) (s : KState) : Prop := {
  run_cur : cur s = Some i;
  run_env : ∃ e, envs s !! i = Some e ∧ env_status e = ENV_RUNNING ∧
                 cr3 s = env_pgdir e - KERNBASE ∧ env_cpunum e = cpunum s;
  run_lock : released s;
  run_cpu : started s
}.

Lemma wp_unlock (Q : unit → KState → Prop) E s :
  has_lock s → Q tt (set_kernel_lock {| locked := 0; lk_cpu := None |} s) → wp unlock_kernel Q E s.
Proof.
  intros Hh HQ. unfold unlock_kernel, spin_unlock. apply wp_bind, wp_gets, wp_bind, wp_gets.
  rewrite Hh. unfold holding. cbn. rewrite bool_decide_eq_true_2 by done. done.
Qed.

Lemma held_set_env s s' c v :
  held s → cpus s !! cpunum s = Some c → cpunum s' = cpunum s → kernel_lock s' = kernel_lock s →
  cpus s' = <[cpunum s := set_cpu_env v c]> (cpus s) → held s'.
Proof.
  intros [Hl Hs] Hc Hn Hk Hcpus. split; [|by eapply started_set_env]. unfold has_lock. by rewrite Hk, Hn.
Qed.

(** env_run from a state with the invariant: it never returns, and leaves the
    machine running environment [i]. *)
Definition runs (i : Z) (s : KState) (r : kstop) (s' : KState) : Prop :=
  r = RunEnv i ∧ running i s' ∧
  ∃ PD PT ext fl efl, kcore PD PT ext fl efl s ∧ kcore PD PT ext fl efl s' ∧ (phys s' = phys s ∧ pages s' = pages s) ∧ cur_ok s'.

(** The status changes of env_run, on the table of environments. *)
Definition env_run_envs (i : Z) (s : KState) : gmap Z Env :=
  let es := match cur s with
            | Some c => match envs s !! c with
                        | Some e => if bool_decide (env_status e = ENV_RUNNING)
                                    then <[c := set_env_status ENV_RUNNABLE e]> (envs s) else envs s
                        | None => envs s
                        end
            | None => envs s
            end in
  match es !! i with
  | Some e => <[i := set_env_cpunum (cpunum s) (set_env_runs (u32 (env_runs e + 1)) (set_env_status ENV_RUNNING e))]> es
  | None => es
  end.

Lemma set_envs_id s : set_envs (envs s) s = s.
Proof. by destruct s. Qed.

(** Step 1 of env_run: the current environment goes back to RUNNABLE. *)
Lemma demote_spec PD PT ext fl efl s c (E : kstop → KState → Prop) :
  kcore PD PT ext fl efl s → cur_ok s → cpus s !! cpunum s = Some c →
  wp (match cpu_env c with
      | Some c => cur ← get_env c;
          if bool_decide (env_status cur = ENV_RUNNING) then upd_env c (set_env_status ENV_RUNNABLE) else mret tt
      | None => mret tt
      end)
     (λ _ s', ∃ es, s' = set_envs es s ∧ kcore PD PT ext fl efl s' ∧ cur_ok s' ∧
        (∀ j v, envs s !! j = Some v → in_use v → ∃ v', es !! j = Some v' ∧ in_use v' ∧ env_pgdir v' = env_pgdir v) ∧
        es = match cur s with
            | Some c => match envs s !! c with
                        | Some e => if bool_decide (env_status e = ENV_RUNNING)
                                    then <[c := set_env_status ENV_RUNNABLE e]> (envs s) else envs s
                        | None => envs s
                        end
            | None => envs s
            end) E s.
Proof.
  intros Hk Hcur Hc. unfold cur. rewrite Hc. cbn.
  assert (Hsame : ∃ es, s = set_envs es s ∧ kcore PD PT ext fl efl s ∧ cur_ok s ∧
    (∀ j v, envs s !! j = Some v → in_use v → ∃ v', es !! j = Some v' ∧ in_use v' ∧ env_pgdir v' = env_pgdir v) ∧ es = envs s).
  { exists (envs s). rewrite set_envs_id. split_and!; eauto. }
  destruct (cpu_env c) as [j|] eqn:Hj; [|by apply wp_ret].
  destruct Hcur as (c' & Hc' & H). assert (c' = c) as -> by congruence. destruct (H j Hj) as (e & He & Hu).
  apply wp_bind, (wp_get_env _ e); [done|]. rewrite He. case_bool_decide as Hst; [|by apply wp_ret].
  eapply wp_upd_env; [done|].
  eexists. split; [done|]. split; [by eapply kcore_upd|]. split; [apply cur_ok_upd; [done|by exists c]|].
  split; [|done]. intros k v Hk' Hv. destruct (decide (j = k)) as [->|].
  - simplify_eq. eexists. rewrite lookup_insert_eq. split_and!; done.
  - exists v. by rewrite lookup_insert_ne.
Qed.

Lemma env_run_spec {A} PD PT ext fl efl s i e :
  kcore PD PT ext fl efl s → cur_ok s → held s → envs s !! i = Some e → in_use e →
  wp (env_run i : K A) (λ _ _, False) (λ r s', runs i s r s' ∧ envs s' = env_run_envs i s) s.
Proof.
  intros Hk Hcur [Hh Hst] Hi Hu. unfold env_run. destruct (Hcur) as (c & Hc & _).
  apply wp_bind, (wp_curenv c); [done|]. apply wp_bind.
  eapply wp_call; [by eapply demote_spec|].
  intros [] s1 (es & -> & Hk1 & Hcur1 & Hes & Hesv). destruct (Hes i e Hi Hu) as (e1 & Hi1 & Hu1 & Hd1).
  apply wp_bind, (wp_set_curenv c); [done|]. apply wp_bind, (wp_upd_env _ _ e1); [done|].
  apply wp_bind. eapply wp_upd_env; [by cbn; rewrite lookup_insert_eq|].
  apply wp_bind. eapply wp_get_env; [by cbn; rewrite lookup_insert_eq|].
  destruct (kc_dir _ _ _ _ _ _ Hk i e Hi Hu) as (pd & Hpd & Hdir & _).
  assert (Hpr : 0 ≤ pd < npages s) by (apply (mi_range _ _ _ _ _ _ _ _ (kc_mem _ _ _ _ _ _ Hk)); by apply elem_of_union_l).
  pose proof (mi_np _ _ _ _ _ _ _ _ (kc_mem _ _ _ _ _ _ Hk)) as Hnp.
  apply wp_bind, wp_PADDR; [cbn; rewrite Hd1, Hdir; unfold kdir; mlia|].
  apply wp_bind, wp_lcr3, wp_bind, wp_unlock; [done|].
  unfold env_pop_tf. apply wp_bind, (wp_curenv (set_cpu_env (Some i) c)); [by cbn; rewrite lookup_insert_eq|].
  apply wp_bind, wp_deref, wp_bind, wp_gets, wp_bind.
  eapply wp_upd_env; [by cbn; rewrite lookup_insert_eq|]. apply wp_stop. cbn. rewrite !insert_insert_eq.
  set (e2 := set_env_cpunum _ _).
  assert (Hu2 : in_use e2) by done.
  split.
  - split; [done|]. split.
    + split; [unfold cur; cbn; by rewrite lookup_insert_eq| |done|by eapply (started_set_env s)].
      exists e2. cbn. rewrite lookup_insert_eq. done.
    + exists PD, PT, ext, fl, efl. split; [done|]. split; [|split; [done|]].
      * eapply kcore_ext; [eapply (kcore_upd _ _ _ _ _ _ i e1 e2 Hk1); done|done..].
      * eexists. cbn. rewrite lookup_insert_eq. split; [done|]. intros j [= <-]. exists e2. by rewrite lookup_insert_eq.
  - unfold env_run_envs. rewrite <- Hesv. cbn. rewrite Hi1. done.
Qed.
