(* ===== verification/SchedProofs.v ===== *)
(** * The scheduler

    What sched_yield and sched_halt (kern/sched.c) do, from any state with
    the kernel invariant: round-robin choice of the next environment, or
    halting when there is none. *)

From S2P Require Import Prelude Mmu KState KWp Pmap PmapInv PmapSpec PmapDir PmapOps Env EnvFree KInv.

Definition has_status (st : EnvStatus) (s : KState) (i : Z) : Prop :=
  ∃ e, envs s !! i = Some e ∧ env_status e = st.

(** Slot [k] places after [start], counting circularly. *)
Definition slot_after (start k : Z) : Z := (start + k) `mod` NENV.

(** Where the search begins: just after the current environment. *)
Definition sched_start (s : KState) : Z := match cur s with Some c => c + 1 | None => 0 end.

(** [j] is the first RUNNABLE slot from [start] on. *)
Definition next_runnable (s : KState) (start j : Z) : Prop :=
  ∃ k, 0 ≤ k < NENV ∧ j = slot_after start k ∧ has_status ENV_RUNNABLE s j ∧
    ∀ k', 0 ≤ k' < k → ¬ has_status ENV_RUNNABLE s (slot_after start k').

(** Environment [j] is resumed with the invariant intact, memory unchanged,
    and no entry touched but its own and that of the current environment. *)
Definition resumes (j : Z) (s : KState) (r : kstop) (s' : KState) : Prop :=
  r = RunEnv j ∧ running j s' ∧ kinv s' ∧ cur_ok s' ∧ phys s' = phys s ∧
  ∀ i, i ≠ j → cur s ≠ Some i → envs s' !! i = envs s !! i.

(** The CPU idles on the kernel page directory with the lock released. *)
Definition idles (s : KState) (r : kstop) (s' : KState) : Prop :=
  r = Halted ∧ (∃ i e, envs s !! i = Some e ∧ live_status (env_status e) = true) ∧
  cur s' = None ∧ cr3 s' = kern_pgdir s' - KERNBASE ∧ released s' ∧
  (∃ c, cpus s' !! cpunum s' = Some c ∧ cpu_status c = CPU_HALTED) ∧ kinv s' ∧ cur_ok s' ∧ envs s' = envs s.

Definition drops_to_monitor (s : KState) (r : kstop) (s' : KState) : Prop :=
  r = InMonitor ∧ (∀ i e, envs s !! i = Some e → live_status (env_status e) = false) ∧ kinv s' ∧ envs s' = envs s.

Definition sched_post (s : KState) (r : kstop) (s' : KState) : Prop :=
  (∃ j, next_runnable s (sched_start s) j ∧ resumes j s r s') ∨
  ((∀ i, ¬ has_status ENV_RUNNABLE s i) ∧
   ((∃ c, cur s = Some c ∧ has_status ENV_RUNNING s c ∧ resumes c s r s') ∨
    ((∀ c, cur s = Some c → ¬ has_status ENV_RUNNING s c) ∧ (idles s r s' ∨ drops_to_monitor s r s')))).

(** env_run touches the new and the current environment only. *)
Lemma env_run_envs_ne i j s : j ≠ i → cur s ≠ Some j → env_run_envs i s !! j = envs s !! j.
Proof.
  intros Hji Hcj. unfold env_run_envs. set (es := match cur s with Some _ => _ | None => _ end).
  assert (Hes : es !! j = envs s !! j).
  { unfold es. destruct (cur s) as [c|]; [|done]. destruct (envs s !! c); [|done].
    case_bool_decide; [|done]. rewrite lookup_insert_ne; [done|congruence]. }
  destruct (es !! i); [|done]. by rewrite lookup_insert_ne.
Qed.

Section Sched.
Context {PD PT : gset Z} {ext : Z → Z} {fl efl : list Z} {s : KState}.
Context (Hk : kcore PD PT ext fl efl s) (Hcur : cur_ok s) (Hh : held s).

Lemma env_at i : 0 ≤ i < 1024 → ∃ e, envs s !! i = Some e.
Proof. intros. by apply (kc_envs _ _ _ _ _ _ Hk). Qed.

(** The common branch: record the CPU, then run. *)
Lemma pick_spec {A} i e : envs s !! i = Some e → in_use e →
  wp (cn ← gets cpunum; upd_env i (set_env_cpunum cn) ;; env_run i : K A) (λ _ _, False) (resumes i s) s.
Proof.
  intros Hi Hu. apply wp_bind, wp_gets, wp_bind, (wp_upd_env _ _ e); [done|].
  eapply wp_mono; [eapply (env_run_spec _ _ _ _ _ _ i (set_env_cpunum (cpunum s) e))|done|].
  - by eapply (kcore_upd _ _ _ _ _ _ i e).
  - by apply cur_ok_upd.
  - done.
  - cbn. by rewrite lookup_insert_eq.
  - done.
  - intros r s' ((-> & Hrun & PD' & PT' & ext' & fl' & efl' & _ & Hk' & [Hph _] & Hc') & Henvs).
    split; [done|]. split; [done|]. split; [by exists PD', PT', ext', fl', efl'|]. split; [done|]. split; [by rewrite Hph|].
    intros j Hji Hcj. rewrite Henvs, env_run_envs_ne by done. cbn. by rewrite lookup_insert_ne.
Qed.

Lemma sched_loop_spec n i : 0 ≤ i < NENV →
  wp (sched_loop n i)
    (λ _ s', s' = s ∧ ∀ k, 0 ≤ k < Z.of_nat n → ¬ has_status ENV_RUNNABLE s (slot_after i k))
    (λ r s', ∃ k, 0 ≤ k < Z.of_nat n ∧ has_status ENV_RUNNABLE s (slot_after i k) ∧
       (∀ k', 0 ≤ k' < k → ¬ has_status ENV_RUNNABLE s (slot_after i k')) ∧ resumes (slot_after i k) s r s') s.
Proof.
  change NENV with 1024. revert i. induction n as [|n IH]; intros i Hi; cbn [sched_loop].
  { apply wp_ret. split; [done|]. lia. }
  destruct (env_at i Hi) as [e He]. apply wp_bind, (wp_get_env _ e); [done|]. apply wp_bind.
  assert (Hi0 : slot_after i 0 = i) by (unfold slot_after; change NENV with 1024; mlia).
  assert (Hshift : ∀ k, slot_after ((i + 1) `mod` NENV) k = slot_after i (k + 1)).
  { intros k. unfold slot_after. change NENV with 1024. rewrite Zplus_mod_idemp_l. f_equal. lia. }
  case_bool_decide as Hst.
  - eapply wp_mono; [apply (pick_spec i e); [done|unfold in_use; congruence]|done|].
    intros r s' Hres. exists 0. rewrite Hi0. split; [lia|]. split; [by exists e|]. split; [lia|done].
  - apply wp_ret.
    assert (Hno : ¬ has_status ENV_RUNNABLE s (slot_after i 0)).
    { rewrite Hi0. intros (e' & He' & ?). congruence. }
    eapply wp_mono; [apply IH; change NENV with 1024; mlia| |].
    + intros _ s' [-> Hn]. split; [done|]. intros k Hkr. destruct (decide (k = 0)) as [->|]; [done|].
      replace k with (k - 1 + 1) by lia. rewrite <- Hshift. apply Hn. lia.
    + intros r s' (k & Hkr & Hrun & Hbefore & Hres). exists (k + 1). rewrite <- Hshift.
      split; [lia|]. split; [done|]. split; [|done].
      intros k' Hk'. destruct (decide (k' = 0)) as [->|]; [done|].
      replace k' with (k' - 1 + 1) by lia. rewrite <- Hshift. apply Hbefore. lia.
Qed.

Lemma sched_halt_spec {A} :
  wp (sched_halt : K A) (λ _ _, False) (λ r s', idles s r s' ∨ drops_to_monitor s r s') s.
Proof.
  unfold sched_halt. apply wp_bind.
  apply wp_mono with (E := no_stop) (Q := λ r s', s' = s ∧ match r with
    | Some i => ∃ e, envs s !! i = Some e ∧ live_status (env_status e) = true
    | None => ∀ i e, envs s !! i = Some e → live_status (env_status e) = false end); [| |done].
  { apply wp_forE with (I := λ d s', s' = s ∧ ∀ i e, i ∈ d → envs s !! i = Some e → live_status (env_status e) = false).
    - split; [done|]. intros i e Hin. by apply not_elem_of_nil in Hin.
    - intros d x t s1 Hd [-> HI]. destruct (range_split _ _ _ _ _ Hd) as [_ Hx]. change NENV with 1024 in Hx.
      destruct (env_at x Hx) as [e He]. apply wp_bind, (wp_get_env _ e); [done|]. apply wp_ret.
      destruct (live_status (env_status e)) eqn:Hl; [by eauto|]. split; [done|].
      intros i e' [Hin|Hin%list_elem_of_singleton]%elem_of_app Hi; [by eauto|congruence].
    - intros s1 [-> HI]. split; [done|]. intros i e Hi. eapply HI; [|done]. apply elem_of_range.
      change NENV with 1024. apply (kc_envs _ _ _ _ _ _ Hk). eauto. }
  destruct Hcur as (c & Hc & _).
  intros [i|] s1 [-> Hlive].
  - apply wp_bind, (wp_set_curenv c); [done|]. apply wp_bind, wp_gets, wp_bind, wp_PADDR; [apply (kern_pgdir_range _ _ _ _ _ _ Hk)|].
    apply wp_bind, wp_lcr3, wp_bind. eapply wp_get_cpu; [by cbn; rewrite lookup_insert_eq|].
    apply wp_bind. unfold put_cpu. apply wp_modify, wp_bind, wp_unlock; [exact (proj1 Hh)|]. apply wp_stop. left. cbn.
    rewrite insert_insert_eq.
    split; [done|]. split; [eauto|]. split; [unfold cur; cbn; by rewrite lookup_insert_eq|].
    do 2 (split; [done|]). split; [eexists; cbn; by rewrite lookup_insert_eq|]. split; [|split; [|done]].
    + exists PD, PT, ext, fl, efl. by eapply kcore_ext.
    + eexists. cbn. rewrite lookup_insert_eq. split; [done|]. done.
  - apply wp_bind, wp_cprintf, wp_stop. right. split; [done|]. split; [done|]. split; [|done].
    exists PD, PT, ext, fl, efl. by eapply kcore_ext.
Qed.

End Sched.

Lemma sched_yield_spec {A} PD PT ext fl efl s :
  kcore PD PT ext fl efl s → cur_ok s → held s → cur s ≠ Some 1023 →
  wp (sched_yield : K A) (λ _ _, False) (sched_post s) s.
Proof.
  intros Hk Hcur Hh H1023. unfold sched_yield. destruct (Hcur) as (c & Hc & Hce).
  assert (Hcs : cur s = cpu_env c) by (unfold cur; by rewrite Hc).
  apply wp_bind, (wp_curenv c); [done|]. apply wp_bind.
  apply wp_mono with (E := no_stop) (Q := λ i s', s' = s ∧ i = sched_start s ∧ 0 ≤ i < NENV); [| |done].
  { unfold sched_start. rewrite Hcs. rewrite Hcs in H1023. destruct (cpu_env c) as [i|]; [|by apply wp_ret].
    destruct (Hce i eq_refl) as (e & He & Hu). apply wp_bind, (wp_get_env _ e); [done|]. apply wp_ret.
    destruct (kc_id _ _ _ _ _ _ Hk i e He Hu) as [-> _]. split; [done|]. split; [done|].
    assert (Hr : 0 ≤ i < 1024) by (apply (kc_envs _ _ _ _ _ _ Hk); eauto).
    assert (i ≠ 1023) by congruence. change NENV with 1024. lia. }
  intros i s1 (-> & -> & Hi). apply wp_bind. eapply wp_mono; [by apply (sched_loop_spec Hk Hcur Hh)| |].
  2:{ intros r s' (k & Hkr & Hrun & Hb & Hres). left. exists (slot_after (sched_start s) k). split; [|done].
      exists k. done. }
  intros [] s1 [-> Hnone]. change (Z.of_nat (Z.to_nat NENV)) with NENV in Hnone.
  assert (Hno : ∀ j, ¬ has_status ENV_RUNNABLE s j).
  { intros j Hj. destruct (Hj) as (e & He & _).
    assert (Hjr : 0 ≤ j < 1024) by (apply (kc_envs _ _ _ _ _ _ Hk); eauto).
    apply (Hnone ((j - sched_start s) `mod` NENV)); [change NENV with 1024; mlia|].
    unfold slot_after. rewrite Zplus_mod_idemp_r. replace (sched_start s + (j - sched_start s)) with j by lia.
    change NENV with 1024. by rewrite Z.mod_small. }
  apply wp_bind.
  eapply (wp_mono _ (λ _ s', s' = s ∧ ∀ c, cur s = Some c → ¬ has_status ENV_RUNNING s c)
            _ (λ r s', ∃ c, cur s = Some c ∧ has_status ENV_RUNNING s c ∧ resumes c s r s')).
  { rewrite Hcs. destruct (cpu_env c) as [i|]; [|by apply wp_ret]. destruct (Hce i eq_refl) as (e & He & Hu).
    apply wp_bind, (wp_get_env _ e); [done|]. case_bool_decide as Hst.
    - eapply wp_mono; [by apply (pick_spec Hk Hcur Hh i e)|done|]. intros r s' Hres. exists i. by repeat (split; [by try exists e|]).
    - apply wp_ret. split; [done|]. intros j [= <-] (e' & He' & ?). congruence. }
  - intros [] s1 [-> Hnr]. eapply wp_mono; [apply (sched_halt_spec Hk Hcur Hh)|done|].
    intros r s' Hpost. right. split; [done|]. by right.
  - intros r s' (j & Hj & Hst & Hres). right. split; [done|]. left. by exists j.
Qed.

(** From the last slot the search starts at index NENV: the first thing the
    loop does is to read past the end of [envs]. *)
Definition past_table : kstop := Ub "envs[] out of bounds".

Lemma sched_yield_last {A} PD PT ext fl efl s :
  kcore PD PT ext fl efl s → cur_ok s → cur s = Some (NENV - 1) → (sched_yield : K A) s = Stop past_table s.
Proof.
  intros Hk (c & Hc & Hce) Hcur. assert (Hcc : cpu_env c = Some (NENV - 1)) by (unfold cur in Hcur; by rewrite Hc in Hcur).
  destruct (Hce _ Hcc) as (e & He & Hu). destruct (kc_id _ _ _ _ _ _ Hk _ e He Hu) as [Hx _].
  assert (Hnone : envs s !! NENV = None).
  { apply eq_None_not_Some. intros Hs%(kc_envs _ _ _ _ _ _ Hk). change NENV with 1024 in Hs. lia. }
  assert (Hloop : ∀ n, (0 < n)%nat → sched_loop n NENV s = Stop past_table s).
  { intros [|n] Hn; [lia|]. cbn [sched_loop]. unfold get_env, mbind, M_bind, gets. by rewrite Hnone. }
  unfold sched_yield, curenv, get_cpu, get_env, mbind, M_bind, gets, mret, M_ret. rewrite Hc, Hcc, He, Hx.
  change (NENV - 1 + 1) with NENV. rewrite Hloop; [done|]. change NENV with 1024. lia.
Qed.

(** What sched_yield does from any state with the invariant. *)
Definition sched_outcome (s : KState) (r : kstop) (s' : KState) : Prop :=
  if decide (cur s = Some (NENV - 1)) then r = past_table ∧ s' = s else sched_post s r s'.

Lemma sched_yield_any {A} PD PT ext fl efl s :
  kcore PD PT ext fl efl s → cur_ok s → held s → wp (sched_yield : K A) (λ _ _, False) (sched_outcome s) s.
Proof.
  intros Hk Hcur Hh. unfold sched_outcome. case_decide as Hl.
  - unfold wp. by rewrite (sched_yield_last PD PT ext fl efl s Hk Hcur Hl).
  - by apply (sched_yield_spec PD PT ext fl efl).
Qed.

(** Kernel code gives up the CPU with the invariant intact: user code runs,
    the CPU is halted, or the monitor is entered. *)
Definition leaves (r : kstop) (s' : KState) : Prop :=
  kinv s' ∧ ((∃ j, r = RunEnv j ∧ running j s' ∧ cur_ok s') ∨
             (r = Halted ∧ released s' ∧ cur s' = None ∧ cur_ok s' ∧
              ∃ c, cpus s' !! cpunum s' = Some c ∧ cpu_status c = CPU_HALTED) ∨
             r = InMonitor).

Lemma resumes_leaves j s r s' : resumes j s r s' → leaves r s'.
Proof. intros (-> & ? & ? & ? & _). split; [done|]. left. eauto. Qed.

Lemma sched_post_leaves s r s' : sched_post s r s' → leaves r s'.
Proof.
  intros [(j & _ & Hr)|(_ & [(c & _ & _ & Hr)|(_ & [Hi|Hm])])]; [by eapply resumes_leaves..| |].
  - destruct Hi as (-> & _ & ? & _ & ? & ? & ? & ? & _). split; [done|]. right; left. done.
  - destruct Hm as (-> & _ & ? & _). split; [done|]. by right; right.
Qed.

(** A free slot is not picked. *)
Lemma sched_post_free s r s' i : cur s = None → has_status ENV_FREE s i → sched_post s r s' → has_status ENV_FREE s' i.
Proof.
  intros Hc (e & He & Hst) [(j & (k & _ & _ & (ej & Hej & Hj) & _) & Hr)|(_ & [(c & Hcc & _)|(_ & [Hi|Hm])])].
  - destruct Hr as (_ & _ & _ & _ & _ & Hsame). exists e. rewrite Hsame; [done|congruence|congruence].
  - congruence.
  - destruct Hi as (_ & _ & _ & _ & _ & _ & _ & _ & Hs). exists e. by rewrite Hs.
  - destruct Hm as (_ & _ & _ & Hs). exists e. by rewrite Hs.
Qed.

(** The CPU is given away, or environment [c] sits in the last slot and the
    scheduler reads past the table. *)
Definition exits (c : Z) (r : kstop) (s' : KState) : Prop := leaves r s' ∨ (c = NENV - 1 ∧ r = past_table).

Lemma sched_outcome_exits c s r s' : cur s = Some c → sched_outcome s r s' → exits c r s'.
Proof.
  intros Hc. unfold sched_outcome. rewrite Hc. case_decide as Hl.
  - intros [-> _]. right. split; [congruence|done].
  - intros Hp. left. by eapply sched_post_leaves.
Qed.

(** ** Bounded waiting *)

(** What holds when the scheduler is entered. *)
Definition sched_entry (s : KState) : Prop := kinv s ∧ cur_ok s ∧ held s.

Definition chooses (s : KState) (i : Z) : Prop := ∃ s', (sched_yield : K unit) s = Stop (RunEnv i) s'.

Global Instance chooses_dec s i : Decision (chooses s i).
Proof.
  destruct ((sched_yield : K unit) s) as [a s'|r s'] eqn:E; [right; intros [t Ht]; congruence|].
  destruct (decide (r = RunEnv i)) as [->|Hne]; [left; by exists s'|right; intros [t Ht]; congruence].
Defined.

(** How many slots the search looks at before slot [i]. *)
Definition wait (s : KState) (i : Z) : Z := (i - sched_start s) `mod` NENV.

(** Every decision that does not choose a runnable environment brings it
    nearer. *)
Lemma sched_nearer s t i : sched_entry s → cur s ≠ Some (NENV - 1) → has_status ENV_RUNNABLE s i → 0 ≤ i < NENV → ¬ chooses s i →
  (∀ j, chooses s j → cur t = Some j) → wait t i < wait s i.
Proof.
  intros ((PD & PT & ext & fl & efl & Hk) & Hcur & Hh) Hne Hrun Hi Hno Hnext.
  destruct (wp_stops _ _ _ (sched_yield_spec (A := unit) PD PT ext fl efl s Hk Hcur Hh Hne)) as (r & s' & Hy & Hpost).
  destruct Hpost as [(j & (k & Hkr & -> & Hj & Hbefore) & (-> & _))|[Hnone _]]; [|destruct (Hnone i Hrun)].
  assert (Hch : chooses s (slot_after (sched_start s) k)) by (by exists s').
  unfold wait at 1, sched_start at 1. rewrite (Hnext _ Hch). unfold wait, slot_after in *. change NENV with 1024 in *.
  set (a := sched_start s) in *.
  assert (Hle : ¬ (i - a) `mod` 1024 < k).
  { intros Hlt. apply (Hbefore ((i - a) `mod` 1024)); [mlia|]. rewrite Zplus_mod_idemp_r.
    replace (a + (i - a)) with i by lia. by rewrite Z.mod_small by lia. }
  assert (Hneq : (i - a) `mod` 1024 ≠ k).
  { intros E. apply Hno. replace i with ((a + k) `mod` 1024); [exact Hch|]. rewrite <- E, Zplus_mod_idemp_r.
    replace (a + (i - a)) with i by lia. by rewrite Z.mod_small by lia. }
  clear -Hle Hneq Hkr. mlia.
Qed.

(** An environment that stays runnable is chosen within NENV decisions of a
    CPU.  [σ n] is the state in which the scheduler is entered for the [n]th
    time; in between the CPU runs the environment chosen last. *)
Lemma sched_bounded_wait i (σ : nat → KState) : 0 ≤ i < NENV →
  (∀ n, (∀ m, (m < n)%nat → ¬ chooses (σ m) i) →
     sched_entry (σ n) ∧ has_status ENV_RUNNABLE (σ n) i ∧ (∀ j, j ≠ i → chooses (σ n) j → cur (σ (S n)) = Some j)) →
  ∃ n, Z.of_nat n < NENV ∧ (chooses (σ n) i ∨ cur (σ n) = Some (NENV - 1)).
Proof.
  intros Hi Hσ. destruct (decide (Exists (λ n, chooses (σ n) i ∨ cur (σ n) = Some (NENV - 1)) (seq 0 1024))) as [(n & Hn%elem_of_seq & Hc)%Exists_exists|Hnone].
  { exists n. split; [change NENV with 1024; lia|exact Hc]. }
  exfalso. assert (Hall : ∀ n, Z.of_nat n < NENV → ¬ (chooses (σ n) i ∨ cur (σ n) = Some (NENV - 1))).
  { intros n Hn Hc. apply Hnone, Exists_exists. exists n. split; [|exact Hc]. apply elem_of_seq. change NENV with 1024 in Hn. lia. }
  assert (Hd : ∀ n, Z.of_nat n ≤ NENV → wait (σ n) i + Z.of_nat n < NENV).
  { induction n as [|n IH]; intros Hn; [unfold wait; change NENV with 1024; mlia|].
    assert (Hwait : ∀ m, (m < n)%nat → ¬ chooses (σ m) i) by (intros m Hm Hc; apply (Hall m); [lia|by left]).
    destruct (Hσ n Hwait) as (He & Hr & Hnext).
    assert (Hn0 : ¬ (chooses (σ n) i ∨ cur (σ n) = Some (NENV - 1))) by (apply Hall; lia).
    pose proof (sched_nearer (σ n) (σ (S n)) i He ltac:(tauto) Hr Hi ltac:(tauto)) as Hlt.
    assert (wait (σ (S n)) i < wait (σ n) i); [|specialize (IH ltac:(lia)); lia].
    apply Hlt. intros j Hj. apply Hnext; [|exact Hj]. intros ->. tauto. }
  specialize (Hd 1024%nat). change NENV with 1024 in Hd. specialize (Hd ltac:(lia)).
  assert (0 ≤ wait (σ 1024%nat) i) by (unfold wait; change NENV with 1024; mlia). lia.
Qed.
