(* ===== verification/EnvProofs.v ===== *)
(** * Environments: ids, permissions, creation and destruction

    envid2env, env_setup_vm, env_alloc and env_destroy (kern/env.c) against
    the kernel invariant. *)

From S2P Require Import Prelude Mmu KState KWp Pmap PmapInv PmapSpec PmapDir PmapOps Env EnvFree KInv SchedProofs.

(** ** Environment ids *)

Lemma ENVX_mod id : ENVX id = id `mod` 1024.
Proof. unfold ENVX. change (NENV - 1) with (Z.ones 10). by rewrite Z.land_ones. Qed.

(** The generation part of an id. *)
Lemma land_gen x : Z.land x (Z.lnot (NENV - 1)) = x / 1024 * 1024.
Proof.
  change (NENV - 1) with (Z.ones 10). rewrite <- Z.ldiff_land, Z.ldiff_ones_r by lia.
  rewrite Z.shiftl_mul_pow2, Z.shiftr_div_pow2 by lia. done.
Qed.

Lemma next_env_id_eq old i : 0 ≤ i < 1024 →
  next_env_id old i =
    (let g := s32 (old + 4096) / 1024 * 1024 in if g <=? 0 then 4096 else g) + i.
Proof.
  intros Hi. unfold next_env_id. rewrite land_gen. change (Z.shiftl 1 ENVGENSHIFT) with 4096.
  set (g := s32 (old + 4096) / 1024 * 1024). cbv zeta.
  assert (Hg : (if g <=? 0 then 4096 else g) `mod` 1024 = 0) by (destruct (g <=? 0); [done|unfold g; mlia]).
  rewrite (lor_add_disjoint _ _ 10); [done|lia|done|lia].
Qed.

Lemma next_env_id_range old i : 0 ≤ i < 1024 →
  ENVX (next_env_id old i) = i ∧ 0 < next_env_id old i < 2147483648.
Proof.
  intros Hi. rewrite ENVX_mod, next_env_id_eq by done. cbv zeta.
  pose proof (s32_range (old + 4096)). destruct (_ <=? 0) eqn:E; mlia.
Qed.

Lemma next_env_id_ne old i : 0 ≤ i < 1024 → next_env_id old i ≠ old.
Proof.
  intros Hi. rewrite next_env_id_eq by done. cbv zeta. unfold s32.
  destruct (_ <=? 0) eqn:E; mlia.
Qed.

(** ** envid2env *)

(** The environment in use with id [id] is in slot [i]. *)
Definition env_named (s : KState) (id i : Z) : Prop :=
  ∃ e, envs s !! i = Some e ∧ in_use e ∧ env_id e = id.

(** The caller may manipulate slot [i]: itself or an immediate child. *)
Definition permitted (s : KState) (i : Z) : Prop :=
  cur s = Some i ∨
  ∃ e c v, envs s !! i = Some e ∧ cur s = Some c ∧ envs s !! c = Some v ∧ env_parent_id e = env_id v.

Definition resolves (s : KState) (checkperm : bool) (id i : Z) : Prop :=
  if decide (id = 0) then cur s = Some i
  else env_named s id i ∧ (checkperm = true → permitted s i).

(** Outcome of envid2env: the slot the id resolves to, or -E_BAD_ENV when it
    resolves to none. *)
Definition resolved (s : KState) (checkperm : bool) (id : Z) (r : Z * option Z) : Prop :=
  match r.2 with
  | Some i => r.1 = 0 ∧ resolves s checkperm id i ∧ ∃ e, envs s !! i = Some e ∧ in_use e
  | None => r.1 = - E_BAD_ENV ∧ ∀ i, ¬ resolves s checkperm id i
  end.

Section Ids.
Context {PD PT : gset Z} {ext : Z → Z} {fl efl : list Z} {s : KState}.
Context (Hk : kcore PD PT ext fl efl s) (Hcur : cur_ok s).

Lemma env_named_slot id i : env_named s id i → i = ENVX id.
Proof. intros (e & He & Hu & <-). symmetry. by apply (kc_id _ _ _ _ _ _ Hk). Qed.

Lemma resolves_inj chk id i j : resolves s chk id i → resolves s chk id j → i = j.
Proof.
  unfold resolves. case_decide; [congruence|]. intros [Hi _] [Hj _].
  by rewrite (env_named_slot _ _ Hi), (env_named_slot _ _ Hj).
Qed.

Lemma envid2env_spec id chk c :
  cur s = Some c →
  wp (envid2env id chk) (λ r s', s' = s ∧ resolved s chk id r) no_stop s.
Proof.
  intros Hc. unfold envid2env. destruct (Hcur) as (cpu & Hcpu & Hce).
  assert (Hcc : cpu_env cpu = Some c) by (unfold cur in Hc; by rewrite Hcpu in Hc).
  destruct (Hce c Hcc) as (v & Hv & Huv).
  destruct (id =? 0) eqn:E0.
  { apply wp_bind, (wp_curenv cpu); [done|]. apply wp_ret. split; [done|]. unfold resolved, resolves; cbn.
    rewrite Hcc. rewrite decide_True by lia. eauto. }
  apply Z.eqb_neq in E0. unfold resolved, resolves. destruct (decide (id = 0)) as [|_]; [done|].
  set (i := ENVX id). assert (Hir : 0 ≤ i < 1024) by (unfold i; rewrite ENVX_mod; mlia).
  destruct (proj2 (kc_envs _ _ _ _ _ _ Hk i) Hir) as [e He].
  apply wp_bind, (wp_get_env _ e); [done|].
  destruct (bool_decide (env_status e = ENV_FREE) || negb (env_id e =? id)) eqn:Hbad.
  { apply wp_ret. split; [done|]. cbn. split; [done|]. intros j [Hn _]. assert (j = i) as -> by by apply env_named_slot.
    destruct Hn as (e' & He' & Hu & Hid). simplify_eq. apply orb_true_iff in Hbad as [Hb|Hb].
    - apply bool_decide_eq_true_1 in Hb. by apply Hu.
    - by rewrite Z.eqb_refl in Hb. }
  apply orb_false_iff in Hbad as [Hu Hid]. apply bool_decide_eq_false_1 in Hu.
  apply negb_false_iff, Z.eqb_eq in Hid.
  apply wp_bind, (wp_curenv cpu); [done|]. rewrite Hcc. apply wp_bind.
  assert (Hnamed : env_named s id i) by by exists e.
  destruct chk; cbn [andb].
  2:{ apply wp_ret, wp_ret. split; [done|]. cbn. split; [done|]. split; [by split|]. eauto. }
  case_bool_decide as Hself; cbn [negb].
  { apply wp_ret, wp_ret. split; [done|]. cbn. split; [done|]. split; [|by eauto]. split; [done|]. intros _. left. congruence. }
  apply wp_bind, wp_deref, wp_bind, (wp_get_env _ v); [done|]. apply wp_ret.
  destruct (env_parent_id e =? env_id v) eqn:Hpar; cbn [negb]; apply wp_ret; (split; [done|]); cbn.
  - apply Z.eqb_eq in Hpar. split; [done|]. split; [|by eauto]. split; [done|]. intros _. right. by exists e, c, v.
  - apply Z.eqb_neq in Hpar. split; [done|]. intros j [Hn Hperm]. assert (j = i) as -> by by apply env_named_slot.
    destruct (Hperm eq_refl) as [?|(e' & c' & v' & ? & ? & ? & ?)]; congruence.
Qed.

End Ids.

(** ** env_setup_vm *)

(** A loop of stores [base[i] = f i] into one page. *)
Lemma store_loop p lo hi (f : Z → Z) (E : kstop → KState → Prop) s (body : Z → K unit) :
  0 ≤ lo ≤ hi →
  (∀ i s', lo ≤ i < hi → s' = set_phys (phys s') s →
     (∀ w, w < p * 1024 + lo ∨ p * 1024 + hi ≤ w → word (phys s') w = word (phys s) w) →
     body i s' = Ok tt (set_phys (<[p * 1024 + i := f i]> (phys s')) s')) →
  wp (forM (range lo hi) body) (λ _ s', s' = set_phys (phys s') s ∧
    ∀ w, word (phys s') w = if decide (p * 1024 + lo ≤ w < p * 1024 + hi) then f (w - p * 1024) else word (phys s) w) E s.
Proof.
  intros Hlo Hbody.
  apply wp_for_range with (I := λ n s', s' = set_phys (phys s') s ∧
    ∀ w, word (phys s') w = if decide (p * 1024 + lo ≤ w < p * 1024 + n) then f (w - p * 1024) else word (phys s) w); [lia| | |done].
  - split; [by destruct s|]. intros w. rewrite decide_False by lia. done.
  - intros n s' Hn [Hs Hw]. eapply wp_ok; [apply Hbody; [done|done|]|].
    + intros w Hout. rewrite Hw, decide_False by lia. done.
    + split; [rewrite Hs; by destruct s|]. intros w. cbn. rewrite word_insert, Hw.
      repeat case_decide; try lia; try done. f_equal. lia.
Qed.

(** The state after a successful env_setup_vm of slot [e] with page [p]. *)
Record vm_ready (PD PT : gset Z) (ext : Z → Z) (fl' : list Z) (e p : Z) (v : Env) (s s' : KState) : Prop := {
  vr_mem : kminv ({[p]} ∪ PD) PT (ext_set p 1 ext) fl' s';
  vr_fresh : p ∉ PD ∪ PT;
  vr_kern : ∀ kp, kern_pgdir s = kdir kp → kp ≠ p → (∀ i, 955 ≤ i < 1024 → 0 ≤ word (phys s) (kp * 1024 + i) < 4294967296) →
    ∀ i, 955 ≤ i < 1024 → i ≠ PDX UVPT → word (phys s') (p * 1024 + i) = word (phys s) (kp * 1024 + i);
  vr_uvpt : word (phys s') (p * 1024 + PDX UVPT) = p * 4096 + 5;
  vr_empty : ∀ i, 0 ≤ i < 955 → word (phys s') (p * 1024 + i) = 0;
  vr_other : ∀ w, w / 1024 ≠ p → word (phys s') w = word (phys s) w;
  vr_envs : envs s' = <[e := set_env_pgdir (kdir p) v]> (envs s);
  vr_list : env_free_list s' = env_free_list s;
  vr_frame : kframe s s';
  vr_cr3 : cr3 s' = cr3 s;
  vr_refs : refs_grow 1 s s'
}.

Lemma env_setup_vm_spec PD PT ext fl s e v kp :
  kminv PD PT ext fl s → envs s !! e = Some v → kern_pgdir s = kdir kp → kp ∉ fl →
  wp (env_setup_vm e) (λ r s', (r = - E_NO_MEM ∧ fl = [] ∧ s' = s) ∨
    (r = 0 ∧ ∃ p fl', fl = p :: fl' ∧ vm_ready PD PT ext fl' e p v s s')) no_stop s.
Proof.
  intros Hm He Hkp Hkfl. unfold env_setup_vm. apply wp_bind.
  eapply wp_mono; [by apply (page_alloc_spec PD ext PT fl)| |done].
  intros [p|] s1; [|intros [-> ->]; apply wp_ret; by left].
  intros (fl' & i & -> & Hm1 & Hf1 & _ & Hi & Hr & HpT & Hpfl & Hpg & Hph).
  change (ctrue (Z.land ALLOC_ZERO ALLOC_ZERO)) with true in Hph. cbv iota in Hph.
  pose proof (mi_np _ _ _ _ _ _ _ _ Hm) as Hnp. apply not_elem_of_cons in Hkfl as [Hkp' _].
  assert (Hpr : 0 ≤ p < npages s) by (apply (mi_dom _ _ _ _ _ _ _ _ Hm); eauto).
  assert (Hpg1 : pages s1 !! p = Some {| pp_link := None; pp_ref := 0 |}) by by rewrite Hpg, lookup_insert_eq.
  apply wp_bind. unfold page2kva. rewrite page2pa_mul.
  eapply wp_ok; [apply KADDR_ok; rewrite (frame_npages _ _ Hf1); lia|].
  apply wp_bind, (wp_upd_env _ _ v); [by rewrite (frame_envs _ _ Hf1)|].
  apply wp_bind. eapply wp_ok.
  { unfold page_incref, mbind, M_bind. rewrite (get_page_ok _ p {| pp_link := None; pp_ref := 0 |}) by done.
    rewrite (put_page_ok _ p {| pp_link := None; pp_ref := 0 |}) by done. cbn. reflexivity. }
  set (s2 := set_pages _ _). change (PDX UTOP) with 955. apply wp_bind.
  eapply wp_mono; [apply (store_loop p 0 955 (λ _, 0) no_stop); [lia|]| |done].
  { intros j s' _ _ _. unfold kstore32, modify. by rewrite kidx_entry. }
  intros [] s3 [Hs3 Hw3]. apply wp_bind, wp_gets, wp_bind. change NPDENTRIES with 1024.
  assert (Hk3 : kern_pgdir s3 = kdir kp) by (rewrite Hs3; cbn; by rewrite (frame_kern_pgdir _ _ Hf1)).
  rewrite Hk3.
  eapply wp_mono; [apply (store_loop p 955 1024 (λ j, u32 (word (phys s3) (kp * 1024 + j))) no_stop); [lia|]| |done].
  { intros j s' Hj _ Hsame. unfold mbind, M_bind, kload32, kstore32, gets, modify. rewrite !kidx_entry.
    rewrite (Hsame (kp * 1024 + j)); [done|]. lia. }
  intros [] s4 [Hs4 Hw4]. apply wp_bind, wp_PADDR; [unfold kdir; mlia|].
  apply wp_bind, wp_kstore32. rewrite kidx_entry. apply wp_ret. right. split; [done|]. exists p, fl'. split; [done|].
  replace (kdir p - KERNBASE) with (p * 4096) by (unfold kdir; lia).
  assert (Hent : u32 (Z.lor (Z.lor (p * 4096) PTE_P) PTE_U) = p * 4096 + 5).
  { rewrite <- Z.lor_assoc. change (Z.lor PTE_P PTE_U) with 5. rewrite lor_page_perm by lia. apply u32_small. lia. }
  rewrite Hent.
  assert (Hall : ∀ w, word (<[p * 1024 + PDX UVPT := p * 4096 + 5]> (phys s4)) w =
    if decide (w = p * 1024 + PDX UVPT) then p * 4096 + 5
    else if decide (p * 1024 + 955 ≤ w < p * 1024 + 1024) then u32 (word (phys s) (kp * 1024 + (w - p * 1024)))
    else if decide (w / 1024 = p) then 0 else word (phys s) w).
  { assert (Hs1 : ∀ w, word (phys s1) w = if decide (w / 1024 = p) then 0 else word (phys s) w).
    { intros w. rewrite Hph, word_zero_words. repeat case_decide; try done; exfalso; mlia. }
    assert (Hs3' : ∀ w, word (phys s3) w = if decide (w / 1024 = p) then 0 else word (phys s) w).
    { intros w. rewrite Hw3. change (phys s2) with (phys s1). rewrite Hs1. repeat case_decide; try done; exfalso; mlia. }
    intros w. rewrite word_insert, Hw4, !Hs3'. repeat case_decide; try done; try (exfalso; mlia). }
  change (PDX UVPT) with 957 in *.
  split; cbn; try (rewrite Hs4, Hs3; cbn).
  - (* the invariant *)
    unfold kminv. cbn.
    eapply minv_mem_ext; [eapply (minv_add_dir PD PT ext fl' _ (phys s1) (pages s1) _ p {| pp_link := None; pp_ref := 0 |} Hm1 Hpg1); try done|].
    + intros x Hx _. rewrite Hph, word_zero_words, decide_True; [done|]. mlia.
    + intros w Hw. rewrite Hall, Hph, word_zero_words.
      rewrite slots_split, elem_of_dslots, elem_of_tslots in Hw.
      assert (w / 1024 = p → w `mod` 1024 < 955).
      { intros Hwp. destruct Hw as [[_ ?]|Hw]; [done|]. rewrite Hwp in Hw. destruct HpT. by apply elem_of_union_r. }
      repeat case_decide; try done; exfalso; mlia.
  - done.
  - intros kp' Hkp2 Hne Hwr j Hj Hju. change (PDX UVPT) with 957 in Hju. rewrite Hall. rewrite decide_False by lia. rewrite decide_True by lia.
    assert (kp' = kp) as -> by (apply kdir_inj; congruence).
    replace (p * 1024 + j - p * 1024) with j by lia. by apply u32_small, Hwr.
  - change (PDX UVPT) with 957. by rewrite word_insert_eq.
  - intros j Hj. rewrite Hall. rewrite !decide_False by lia. rewrite decide_True; [done|]. mlia.
  - intros w Hw. rewrite Hall. rewrite !decide_False; [done|done|mlia|mlia].
  - by rewrite (frame_envs _ _ Hf1).
  - by rewrite (frame_env_free_list _ _ Hf1).
  - eapply kframe_trans; [by apply frame_kframe|]. unfold kframe. cbn. by destruct s1.
  - by rewrite (frame_cr3 _ _ Hf1).
  - intros q k'. cbn. rewrite Hpg, insert_insert_eq, lookup_insert. case_decide; intros Hk'; [simplify_eq/=; exists i|exists k'];
      (split; [done|cbn; change (u16 (0 + 1)) with 1; lia]).
Qed.

(** ** env_alloc *)

(** The entry env_alloc writes over the free entry [v] of slot [e]. *)
Definition new_env (parent_id e p : Z) (v : Env) : Env :=
  set_env_ipc_recving false (set_env_pgfault_upcall 0 (set_env_tf initial_tf
    (set_env_runs 0 (set_env_status ENV_RUNNABLE (set_env_type ENV_TYPE_USER (set_env_parent_id parent_id
      (set_env_id (next_env_id (env_id v) e) (set_env_pgdir (kdir p) v)))))))).

Record env_allocated (PD PT : gset Z) (ext : Z → Z) (fl efl : list Z) (parent_id e p : Z) (s s' : KState) : Prop := {
  ea_core : ∃ fl' efl', fl = p :: fl' ∧ efl = e :: efl' ∧
    kcore ({[p]} ∪ PD) PT (ext_set p 1 ext) fl' efl' s';
  ea_fresh : p ∉ PD ∪ PT;
  ea_free : ∃ v, envs s !! e = Some v ∧ env_status v = ENV_FREE ∧
    envs s' = <[e := new_env parent_id e p v]> (envs s);
  ea_empty : ∀ x, user_vpn x → mapping (phys s') p x = None;
  ea_other : ∀ w, w / 1024 ≠ p → word (phys s') w = word (phys s) w;
  ea_frame : kframe s s';
  ea_cr3 : cr3 s' = cr3 s;
  ea_refs : refs_grow 1 s s'
}.

(** Adding the new environment to the invariant. *)
Lemma kcore_add_env PD PT ext fl fl' efl e p v v' s s' s1 :
  kcore PD PT ext fl (e :: efl) s → envs s !! e = Some v → p ∉ fl' → fl = p :: fl' →
  vm_ready PD PT ext fl' e p v s s1 →
  env_pgdir v' = kdir p → in_use v' → env_id v' = next_env_id (env_id v) e →
  kminv ({[p]} ∪ PD) PT (ext_set p 1 ext) fl' s' → phys s' = phys s1 →
  npages s' = npages s → kern_pgdir s' = kern_pgdir s →
  envs s' = <[e := v']> (envs s) → env_free_list s' = env_link v →
  kcore ({[p]} ∪ PD) PT (ext_set p 1 ext) fl' efl s'.
Proof.
  intros [kc_mem0 kc_envs0 kc_id0 kc_dir0 kc_inj0 kc_own0 kc_chain0 kc_nodup0 kc_free0 kc_kpd0]
    He Hpfl -> Hvr Hdir Hu Hid Hm' Hph Hnp Hkd Henvs Hfree.
  pose proof (vr_fresh _ _ _ _ _ _ _ _ _ Hvr) as HpT. rewrite not_elem_of_union in HpT. destruct HpT as [HpD _].
  destruct kc_chain0 as (_ & v0 & Hv0 & Hchain). simplify_eq.
  apply NoDup_cons in kc_nodup0 as [Hne Hnd].
  assert (Her : 0 ≤ e < 1024) by (apply kc_envs0; eauto).
  assert (Hold : ∀ j w, envs s' !! j = Some w → j ≠ e → envs s !! j = Some w).
  { intros j w. rewrite Henvs. intros Hj ?. by rewrite lookup_insert_ne in Hj. }
  assert (Hnew : ∀ w, envs s' !! e = Some w → w = v').
  { intros w. rewrite Henvs, lookup_insert_eq. by intros [= <-]. }
  assert (Hdne : ∀ j w, envs s' !! j = Some w → j ≠ e → in_use w → env_pgdir w ≠ kdir p).
  { intros j w Hj Hje Hw Heq. destruct (kc_dir0 j w (Hold j w Hj Hje) Hw) as (pd & Hpd & Hd & _).
    apply HpD. by rewrite (kdir_inj p pd) by congruence. }
  split; [done|..].
  - intros j. rewrite Henvs, lookup_insert. case_decide; [subst; split; [done|by eauto]|by apply kc_envs0].
  - intros j w Hj Hw. destruct (decide (j = e)) as [->|Hje].
    + rewrite (Hnew w Hj), Hid. by apply next_env_id_range.
    + apply kc_id0; [by apply Hold|done].
  - intros j w Hj Hw. destruct (decide (j = e)) as [->|Hje].
    + rewrite (Hnew w Hj). exists p. rewrite ext_set_eq. split; [by apply elem_of_union_l, elem_of_singleton|done].
    + destruct (kc_dir0 j w (Hold j w Hj Hje) Hw) as (pd & Hpd & Hd & Hext). exists pd.
      rewrite ext_set_ne by (intros ->; done). split; [by apply elem_of_union_r|done].
  - intros j k w w' Hj Hk Hw Hw' Heq.
    destruct (decide (j = e)) as [->|Hje], (decide (k = e)) as [->|Hke]; [done|..].
    + rewrite (Hnew w Hj), Hdir in Heq. by destruct (Hdne k w' Hk Hke Hw').
    + rewrite (Hnew w' Hk), Hdir in Heq. by destruct (Hdne j w Hj Hje Hw).
    + by apply (kc_inj0 j k w w'); [apply Hold|apply Hold|..].
  - intros pd [->%elem_of_singleton|Hpd]%elem_of_union.
    + exists e, v'. by rewrite Henvs, lookup_insert_eq.
    + destruct (kc_own0 pd Hpd) as (j & w & Hj & Hw & Hd). exists j, w. split; [|done].
      rewrite Henvs, lookup_insert_ne; [done|]. intros <-.
      assert (e ∈ e :: efl) as Hin by left. apply (kc_free0 e w Hj) in Hin. done.
  - rewrite Hfree, Henvs. by apply env_chain_insert_ne.
  - done.
  - intros j w Hj. destruct (decide (j = e)) as [->|Hje].
    + rewrite (Hnew w Hj). split; [done|]. intros Hst. by destruct Hu.
    + rewrite <- (kc_free0 j w (Hold j w Hj Hje)), elem_of_cons. tauto.
  - destruct kc_kpd0 as (kp & Hkp & Hr & Hext & HkD & Hwr & Hsh).
    assert (Hkpne : kp ≠ p).
    { intros ->. destruct (minv_page PD PT ext _ _ _ _ _ p kc_mem0 Hr) as [k Hk].
      destruct (mi_free _ _ _ _ _ _ _ _ kc_mem0 p k ltac:(left) Hk) as [_ H0].
      rewrite (mi_ref _ _ _ _ _ _ _ _ kc_mem0 p k Hk) in H0. pose proof (refs_nonneg (phys s) (slots PD PT) p). lia. }
    exists kp. rewrite Hnp, Hkd, Hph, ext_set_ne by done.
    split; [done|]. split; [done|]. split; [done|]. split; [sets using HkD Hkpne|].
    assert (Hoth : ∀ q i, q ≠ p → 955 ≤ i < 1024 → word (phys s1) (q * 1024 + i) = word (phys s) (q * 1024 + i)).
    { intros q i Hq Hi. apply (vr_other _ _ _ _ _ _ _ _ _ Hvr). intros Heq. apply Hq. rewrite <- Heq. mlia. }
    split; [intros i Hi; rewrite Hoth by done; auto|].
    intros pd i [->%elem_of_singleton|Hpd]%elem_of_union Hi; rewrite (Hoth kp) by done.
    + case_decide as Hd; [rewrite Hd; apply (vr_uvpt _ _ _ _ _ _ _ _ _ Hvr)|].
      apply (vr_kern _ _ _ _ _ _ _ _ _ Hvr); try done. intros k Hk. by apply Hwr.
    + rewrite Hoth by (done || intros ->; done). by apply Hsh.
Qed.

(** The page the kernel directory lives in is never free. *)
Lemma kern_page_not_free PD PT ext fl efl s kp :
  kcore PD PT ext fl efl s → kern_pgdir s = kdir kp → kp ∉ fl.
Proof.
  intros Hk Hkp Hin. pose proof (kc_mem _ _ _ _ _ _ Hk) as Hm.
  destruct (kc_kpd _ _ _ _ _ _ Hk) as (kp' & Hkp' & Hr & He & _).
  assert (kp' = kp) as -> by (apply kdir_inj; congruence).
  destruct (minv_page PD PT ext _ _ _ _ _ kp Hm Hr) as [k Hk'].
  destruct (mi_free _ _ _ _ _ _ _ _ Hm kp k Hin Hk') as [_ H0].
  rewrite (mi_ref _ _ _ _ _ _ _ _ Hm kp k Hk') in H0. pose proof (refs_nonneg (phys s) (slots PD PT) kp). lia.
Qed.

(** Printing the current environment's id touches nothing. *)
Lemma cur_id_spec c (Q : Z → KState → Prop) E s :
  cur_ok s → cpus s !! cpunum s = Some c → (∀ z, Q z s) →
  wp (match cpu_env c with Some c => cur ← get_env c; mret (env_id cur) | None => mret 0 end) Q E s.
Proof.
  intros (c' & Hc' & H) Hc HQ. assert (c' = c) as -> by congruence.
  destruct (cpu_env c) as [i|]; [|by apply wp_ret]. destruct (H i eq_refl) as (e & He & _).
  apply wp_bind, (wp_get_env _ e); [done|]. by apply wp_ret.
Qed.

Lemma env_alloc_spec PD PT ext fl efl s parent_id :
  kcore PD PT ext fl efl s → cur_ok s →
  wp (env_alloc parent_id) (λ r s',
    (r = (- E_NO_FREE_ENV, None) ∧ efl = [] ∧ s' = s) ∨
    (r = (- E_NO_MEM, None) ∧ fl = [] ∧ s' = s) ∨
    ∃ e p, r = (0, Some e) ∧ env_allocated PD PT ext fl efl parent_id e p s s' ∧ cur_ok s') no_stop s.
Proof.
  intros Hk Hcur. unfold env_alloc. apply wp_bind, wp_gets.
  pose proof (kc_chain _ _ _ _ _ _ Hk) as Hch. pose proof (kc_mem _ _ _ _ _ _ Hk) as Hm.
  destruct efl as [|e efl]; cbn in Hch; [rewrite Hch; apply wp_ret; by left|].
  destruct Hch as (-> & v & Hv & _).
  assert (Hst : env_status v = ENV_FREE) by (apply (kc_free _ _ _ _ _ _ Hk e v Hv); left).
  destruct (kc_kpd _ _ _ _ _ _ Hk) as (kp & Hkp & _).
  pose proof (kern_page_not_free _ _ _ _ _ _ kp Hk Hkp) as Hkfl.
  apply wp_bind. eapply wp_mono; [by eapply (env_setup_vm_spec PD PT ext fl)| |done].
  intros r s1 [(-> & -> & ->)|(-> & p & fl' & -> & Hvr)]; [apply wp_ret; right; by left|].
  cbn [Z.ltb Z.compare].
  pose proof (mi_nodup _ _ _ _ _ _ _ _ Hm) as [Hpfl _]%NoDup_cons.
  pose proof (vr_envs _ _ _ _ _ _ _ _ _ Hvr) as Henvs. pose proof (vr_frame _ _ _ _ _ _ _ _ _ Hvr) as Hf.
  apply wp_bind. eapply wp_upd_env; [by rewrite Henvs, lookup_insert_eq|].
  apply wp_bind. eapply wp_upd_env; [by cbn; rewrite lookup_insert_eq|].
  apply wp_bind. eapply wp_upd_env; [by cbn; rewrite lookup_insert_eq|].
  apply wp_bind. eapply wp_upd_env; [by cbn; rewrite lookup_insert_eq|].
  apply wp_bind. eapply wp_get_env; [by cbn; rewrite lookup_insert_eq|].
  apply wp_bind, wp_modify. cbn [env_link set_env_ipc_recving set_env_pgfault_upcall set_env_tf set_env_runs
    set_env_status set_env_type set_env_parent_id set_env_id set_env_pgdir].
  destruct (Hcur) as (c & Hc & Hce). destruct (kframe_cpus _ _ Hf) as [Hcp1 Hcp2].
  set (v' := new_env parent_id e p v).
  assert (Hfin : ∃ s2, s2 = set_env_free_list (env_link v) (set_envs (<[e := v']> (envs s)) s1)) by eauto.
  destruct Hfin as [s2 Hs2]. cbn. rewrite Henvs, !insert_insert_eq.
  change (set_env_free_list _ _) with (set_env_free_list (env_link v) (set_envs (<[e := v']> (envs s)) s1)).
  rewrite <- Hs2.
  assert (Hcur2 : cur_ok s2).
  { exists c. rewrite Hs2. cbn. rewrite Hcp1, Hcp2. split; [done|]. intros i Hi.
    destruct (Hce i Hi) as (ei & Hei & Hui). exists ei. rewrite lookup_insert_ne; [done|]. intros <-. simplify_eq. done. }
  apply wp_bind, (wp_curenv c); [by rewrite Hs2; cbn; rewrite Hcp1, Hcp2|]. apply wp_bind.
  apply (cur_id_spec c); [done|by rewrite Hs2; cbn; rewrite Hcp1, Hcp2|]. intros cid.
  apply wp_bind, wp_cprintf, wp_ret. right; right. exists e, p. split; [done|]. split; [|by rewrite Hs2 in *].
  split; cbn.
  - exists fl', efl. split; [done|]. split; [done|].
    eapply (kcore_add_env PD PT ext (p :: fl') fl' efl e p v v' s _ s1); try done; rewrite Hs2; cbn; try done.
    + apply (vr_mem _ _ _ _ _ _ _ _ _ Hvr).
    + by apply kframe_npages.
    + by apply kframe_kern_pgdir.
  - apply (vr_fresh _ _ _ _ _ _ _ _ _ Hvr).
  - exists v. rewrite Hs2. done.
  - intros x Hx. rewrite Hs2. cbn. unfold mapping. rewrite (vr_empty _ _ _ _ _ _ _ _ _ Hvr); [done|].
    unfold user_vpn in Hx. mlia.
  - rewrite Hs2. apply (vr_other _ _ _ _ _ _ _ _ _ Hvr).
  - eapply kframe_trans; [done|]. rewrite Hs2. by destruct s1.
  - rewrite Hs2. apply (vr_cr3 _ _ _ _ _ _ _ _ _ Hvr).
  - rewrite Hs2. apply (vr_refs _ _ _ _ _ _ _ _ _ Hvr).
Qed.

(** ** env_destroy *)

Lemma kframe_held s s' : kframe s s' → held s → held s'.
Proof. unfold held, has_lock, started. intros H Hh. rewrite H. exact Hh. Qed.

Lemma kframe_cur s s' : kframe s s' → cur s' = cur s.
Proof. intros H. unfold cur. destruct (kframe_cpus _ _ H) as [-> ->]. done. Qed.

(** [e] has left the set of environments that can run. *)
Definition gone (s' : KState) (e : Z) : Prop :=
  has_status ENV_DYING s' e ∨ has_status ENV_FREE s' e.

(** Environment [e] with entry [v] and directory page [pd] is freed: its slot
    heads the free list, its directory is a free page, nothing it mapped
    counts any more (the accounting of [kcore] goes on without [pd]), and the
    other address spaces are as before. *)
Record destroyed (PD : gset Z) (ext : Z → Z) (efl : list Z) (e : Z) (v : Env) (pd : Z) (s s' : KState) : Prop := {
  ds_core : ∃ PT' fl', kcore (PD ∖ {[pd]}) PT' (ext_set pd 0 ext) fl' (e :: efl) s' ∧ pd ∈ fl';
  ds_envs : envs s' = <[e := freed_env (env_free_list s) v]> (envs s);
  ds_spaces : ∀ pd' x, pd' ∈ PD → pd' ≠ pd → user_vpn x → mapping (phys s') pd' x = mapping (phys s) pd' x
}.

Lemma destroyed_kinv PD ext efl e v pd s s' : destroyed PD ext efl e v pd s s' → kinv s'.
Proof. intros [(PT' & fl' & Hk & _) _ _]. by eexists _, _, _, _, _. Qed.

Lemma destroyed_free PD ext efl e v pd s s' : destroyed PD ext efl e v pd s s' → has_status ENV_FREE s' e.
Proof. intros [_ Henvs _]. eexists. rewrite Henvs, lookup_insert_eq. done. Qed.

Lemma env_destroy_full PD PT ext fl efl s e v pd :
  kcore PD PT ext fl efl s → cur_ok s → held s → envs s !! e = Some v → in_use v → env_pgdir v = kdir pd → pd ∈ PD → ext pd = 1 →
  wp (env_destroy e)
    (λ _ s', cur s ≠ Some e ∧
       ((env_status v = ENV_RUNNING ∧ s' = set_envs (<[e := set_env_status ENV_DYING v]> (envs s)) s) ∨
        (env_status v ≠ ENV_RUNNING ∧ destroyed PD ext efl e v pd s s' ∧ cur_ok s' ∧ held s' ∧ cur s' = cur s)))
    (λ r s', cur s = Some e ∧ ∃ s1, destroyed PD ext efl e v pd s s1 ∧ cur s1 = None ∧ sched_post s1 r s') s.
Proof.
  intros Hk Hcur Hh He Hu Hdir Hpd Hext. unfold env_destroy. destruct (Hcur) as (c & Hc & Hce).
  assert (Hcs : cur s = cpu_env c) by (unfold cur; by rewrite Hc).
  apply wp_bind, (wp_get_env _ v); [done|]. apply wp_bind, (wp_curenv c); [done|]. rewrite <- Hcs.
  destruct (bool_decide (env_status v = ENV_RUNNING) && negb (bool_decide (cur s = Some e))) eqn:Hzombie.
  { apply andb_true_iff in Hzombie as [Hrun Hne]. apply negb_true_iff, bool_decide_eq_false_1 in Hne.
    apply bool_decide_eq_true_1 in Hrun. eapply wp_upd_env; [done|]. split; [done|]. by left. }
  apply andb_false_iff in Hzombie.
  apply wp_bind. eapply wp_call.
  { apply (env_free_spec PD PT ext fl s e v pd); try done.
    - apply (kc_mem _ _ _ _ _ _ Hk).
    - by apply cur_ok_cpu_ok.
    - by eapply kern_pgdir_range. }
  intros [] s1 Hfr. destruct (kcore_freed _ _ _ _ _ _ _ _ _ _ Hk He Hu Hdir Hpd Hfr) as (PT1 & fl1 & Hk1 & Hin1).
  pose proof (ef_frame _ _ _ _ _ _ _ _ Hfr) as Hf. destruct (kframe_cpus _ _ Hf) as [Hcp1 Hcp2].
  assert (Hc1 : cpus s1 !! cpunum s1 = Some c) by by rewrite Hcp1, Hcp2.
  assert (Hds : ∀ s2, kcore (PD ∖ {[pd]}) PT1 (ext_set pd 0 ext) fl1 (e :: efl) s2 → envs s2 = envs s1 → phys s2 = phys s1 →
    destroyed PD ext efl e v pd s s2).
  { intros s2 Hk2 He2 Hp2. split; [by exists PT1, fl1|by rewrite He2, (ef_envs _ _ _ _ _ _ _ _ Hfr)|].
    rewrite Hp2. apply (ef_map _ _ _ _ _ _ _ _ Hfr). }
  apply wp_bind, (wp_curenv c); [done|]. rewrite <- Hcs. destruct (bool_decide (cur s = Some e)) eqn:Hself; [apply bool_decide_eq_true_1 in Hself|apply bool_decide_eq_false_1 in Hself].
  - apply wp_bind, (wp_set_curenv c); [done|]. set (s2 := set_cpus _ s1).
    assert (Hk2 : kcore (PD ∖ {[pd]}) PT1 (ext_set pd 0 ext) fl1 (e :: efl) s2) by by eapply kcore_ext.
    assert (Hn2 : cur s2 = None) by (unfold cur, s2; cbn; by rewrite lookup_insert_eq).
    eapply wp_mono; [eapply (sched_yield_spec (PD ∖ {[pd]}) PT1 (ext_set pd 0 ext) fl1 (e :: efl) s2)|done|].
    + done.
    + eexists. cbn. rewrite lookup_insert_eq. split; [done|]. done.
    + by eapply (held_set_env s1); [eapply kframe_held|..].
    + by rewrite Hn2.
    + intros r s' Hp. split; [done|]. exists s2. split; [by apply Hds|]. done.
  - destruct Hzombie as [Hrun%bool_decide_eq_false_1|]; [|done].
    apply wp_ret. split; [done|]. right. split; [done|]. split; [by apply Hds|].
    split; [|split; [by eapply kframe_held|by apply kframe_cur]].
    exists c. split; [done|]. intros i Hi. destruct (Hce i Hi) as (ei & Hei & Hui). exists ei.
    rewrite (ef_envs _ _ _ _ _ _ _ _ Hfr), lookup_insert_ne; [done|]. intros <-. by rewrite Hcs, Hi in Hself.
Qed.

Lemma env_destroy_spec PD PT ext fl efl s e v :
  kcore PD PT ext fl efl s → cur_ok s → held s → envs s !! e = Some v → in_use v →
  wp (env_destroy e)
    (λ _ s', cur s ≠ Some e ∧ kinv s' ∧ cur_ok s' ∧ held s' ∧ cur s' = cur s ∧ gone s' e)
    (λ r s', cur s = Some e ∧ leaves r s') s.
Proof.
  intros Hk Hcur Hh He Hu. destruct (kc_dir _ _ _ _ _ _ Hk e v He Hu) as (pd & Hpd & Hdir & Hext).
  eapply wp_mono; [by eapply (env_destroy_full PD PT ext fl efl s e v pd)|..].
  - intros [] s' (Hne & [(_ & ->)|(_ & Hd & Hcur' & Hh' & Hc')]).
    + split; [done|]. split; [exists PD, PT, ext, fl, efl; by eapply kcore_upd|].
      split; [by apply cur_ok_upd|]. split; [done|]. split; [done|]. left. eexists. cbn. by rewrite lookup_insert_eq.
    + split; [done|]. split; [by eapply destroyed_kinv|]. do 3 (split; [done|]). right. by eapply destroyed_free.
  - intros r s' (Hs & s1 & _ & _ & Hp). split; [done|]. by eapply sched_post_leaves.
Qed.
