(* ===== verification/UserMem.v ===== *)
(** * Checking and using user memory

    user_mem_check (kern/pmap.c) against what the MMU does with the same
    page directory: memory that passes the check can be read, and written
    when write permission was asked for, without a fault in the kernel, as
    long as the range stays out of the last page, where the check wraps
    around ([check_end_wraps]). *)

From S2P Require Import Prelude Console Mmu KState KWp Pmap PmapInv PmapSpec PmapDir PmapOps VMem Env EnvFree KInv.
From S2P Require Import SchedProofs EnvProofs.

Definition pde_of (m : gmap Z Z) (pd va : Z) : Z := word m (pd * 1024 + PDX va).
Definition pte_of (m : gmap Z Z) (pd va : Z) : Z := word m (PGNUM (pde_of m pd va) * 1024 + PTX va).

(** [va] lies below ULIM and is mapped with all of [perm]. *)
Definition page_allows (m : gmap Z Z) (pd perm va : Z) : bool :=
  (va <? ULIM) && present (pde_of m pd va) && present (pte_of m pd va) && (Z.land (pte_of m pd va) perm =? perm).

(** Only the page of the address matters. *)
Lemma page_allows_page m pd perm va k :
  0 ≤ va → va `mod` 4096 = 0 → 0 ≤ k < 4096 → page_allows m pd perm (va + k) = page_allows m pd perm va.
Proof.
  intros H0 Hva Hk. destruct (decide (va + k < 4294967296)) as [Hlt|Hge].
  - assert (Hd : PDX (va + k) = PDX va) by (rewrite !PDX_div, !u32_small by lia; mlia).
    assert (Ht : PTX (va + k) = PTX va) by (rewrite !PTX_mod, !u32_small by lia; mlia).
    unfold page_allows, pte_of, pde_of. rewrite Hd, Ht. do 3 f_equal. unfold ULIM, MMIOLIM, MMIOBASE. mlia.
  - unfold page_allows. assert (va + k <? ULIM = false) as -> by mlia. assert (va <? ULIM = false) as -> by mlia. done.
Qed.

(** Where the check of [len] bytes from [va] ends: the end of the last page,
    computed modulo 2^32. *)
Definition check_end (va len : Z) : Z := ROUNDUP (u32 (va + len)) PGSIZE.

Lemma check_end_page va len : ∃ hi, check_end va len = hi * 4096 ∧ hi < 1048576.
Proof.
  unfold check_end, ROUNDUP. change (u32 PGSIZE) with PGSIZE. rewrite ROUNDDOWN_page. eexists. split; [done|].
  pose proof (u32_range (u32 (u32 (u32 (va + len)) + PGSIZE - 1))). mlia.
Qed.

(** The whole range is covered unless it reaches into the last page. *)
Lemma check_end_covers va len : 0 ≤ va → 0 ≤ len → va + len ≤ 4294963200 → va + len ≤ check_end va len < va + len + 4096.
Proof. intros. unfold check_end. rewrite (u32_small (va + len)), ROUNDUP_page by lia. mlia. Qed.

Lemma check_end_low va len : 0 ≤ va < 4294967296 → 0 ≤ len < 4096 → 4294963200 < va + len → check_end va len ≤ va.
Proof.
  intros. unfold check_end. destruct (decide (va + len < 4294967296)).
  - assert (u32 (va + len + 4095) = va + len + 4095 - 4294967296).
    { unfold u32. replace (va + len + 4095) with (va + len + 4095 - 4294967296 + 1 * 4294967296) by lia.
      rewrite Z.mod_add by lia. rewrite Z.mod_small; lia. }
    unfold ROUNDUP. change (u32 PGSIZE) with 4096. change PGSIZE with 4096. rewrite !(u32_small (va + len)) by lia.
    replace (va + len + 4096 - 1) with (va + len + 4095) by lia. unfold ROUNDDOWN. rewrite u32_small by apply u32_range. mlia.
  - assert (Hu : u32 (va + len) = va + len - 4294967296).
    { unfold u32. replace (va + len) with (va + len - 4294967296 + 1 * 4294967296) at 1 by lia.
      rewrite Z.mod_add by lia. apply Z.mod_small. lia. }
    rewrite Hu, ROUNDUP_page by lia. mlia.
Qed.

(** A range that reaches into the last page is not checked at all. *)
Lemma check_end_wraps va len : 0 ≤ va → 0 ≤ len → 4294963200 < va + len ≤ 4294967296 → check_end va len = 0.
Proof.
  intros. unfold check_end, ROUNDUP. change (u32 PGSIZE) with 4096. change PGSIZE with 4096.
  destruct (decide (va + len = 4294967296)) as [->|]; [done|]. rewrite !(u32_small (va + len)) by lia.
  replace (va + len + 4096 - 1) with (va + len - 4294963201 + 1 * 4294967296) by lia.
  assert (Hu : u32 (va + len - 4294963201 + 1 * 4294967296) = va + len - 4294963201).
  { unfold u32. rewrite Z.mod_add by lia. apply Z.mod_small. lia. }
  rewrite Hu. unfold ROUNDDOWN. rewrite u32_small, Z.mod_small by lia. lia.
Qed.

Section Check.
Context {PD PT : gset Z} {ext : Z → Z} {fl efl : list Z} {s : KState}.
Context (Hk : kcore PD PT ext fl efl s).

(** pgdir_walk without [create] on any address of an environment. *)
Lemma walk_any pd va : pd ∈ PD → 0 ≤ va < 4294967296 →
  pgdir_walk (kdir pd) va false s =
    Ok (if present (pde_of (phys s) pd va) then Some (kdir (PGNUM (pde_of (phys s) pd va)) + 4 * PTX va) else None) s.
Proof.
  intros Hpd Hva. pose proof (kc_mem _ _ _ _ _ _ Hk) as Hm. pose proof (mi_np _ _ _ _ _ _ _ _ Hm) as Hnp.
  destruct (present (pde_of (phys s) pd va)) eqn:Hp; [|by apply pgdir_walk_absent].
  assert (Hlt : 0 ≤ PGNUM (pde_of (phys s) pd va) < npages s).
  { pose proof (PGNUM_range (pde_of (phys s) pd va)). split; [lia|].
    assert (Hi : 0 ≤ PDX va < 1024) by apply PDX_range. unfold pde_of in *.
    destruct (decide (PDX va < 955)).
    - assert (Hw : pd * 1024 + PDX va ∈ dslots PD).
      { rewrite elem_of_dslots. replace ((pd * 1024 + PDX va) / 1024) with pd by mlia. split; [done|mlia]. }
      apply (mi_range _ _ _ _ _ _ _ _ Hm). apply elem_of_union_r. by apply (mi_dir _ _ _ _ _ _ _ _ Hm).
    - destruct (kc_kpd _ _ _ _ _ _ Hk) as (kp & _ & _ & _ & _ & Hwr & Hsh).
      rewrite (Hsh pd (PDX va)) in Hp |- * by (done || lia). case_decide.
      + assert (0 ≤ pd < npages s) by (apply (mi_range _ _ _ _ _ _ _ _ Hm); by apply elem_of_union_l).
        rewrite PGNUM_entry by lia. lia.
      + destruct (Hwr (PDX va)) as [_ Hb]; [lia|]. by apply Hb. }
  unfold pgdir_walk, mbind, M_bind, kload32, gets. unfold pde_of in *. rewrite kidx_entry, Hp. cbn [negb].
  rewrite PTE_ADDR_PGNUM, KADDR_ok by lia. done.
Qed.

Lemma check_page pd va perm start : pd ∈ PD → 0 ≤ start < 4294967296 →
  user_mem_check_page (kdir pd) va perm start s =
    if page_allows (phys s) pd perm start then Ok None s
    else Ok (Some (- E_FAULT)) (set_user_mem_check_addr (if start >? va then start else va) s).
Proof.
  intros Hpd Hst. unfold user_mem_check_page. unfold mbind at 1, M_bind at 1. rewrite walk_any by done.
  unfold page_allows, mbind, M_bind. destruct (present (pde_of (phys s) pd start)) eqn:Hp.
  - unfold kload32, gets. rewrite kidx_entry. fold (pte_of (phys s) pd start). unfold mret, M_ret.
    assert (start >=? ULIM = negb (start <? ULIM)) as -> by (destruct (start >=? ULIM) eqn:E1, (start <? ULIM) eqn:E2; lia || done).
    destruct (start <? ULIM), (present (pte_of (phys s) pd start)), (Z.land (pte_of (phys s) pd start) perm =? perm); done.
  - unfold mret, M_ret. rewrite orb_true_r, andb_false_r. done.
Qed.

(** The check covers the addresses from [va] to the end of its last page; the
    first bad one is recorded. *)
Definition check_result (m : gmap Z Z) (pd perm va hi : Z) (s : KState) (r : Z) (s' : KState) : Prop :=
  (r = 0 ∧ s' = s ∧ ∀ a, va ≤ a < hi → page_allows m pd perm a = true) ∨
  (r = - E_FAULT ∧ ∃ a, s' = set_user_mem_check_addr a s ∧ page_allows m pd perm a = false ∧ va ≤ a < hi ∧
     ∀ b, va ≤ b < a → page_allows m pd perm b = true).

Lemma user_mem_check_spec i e pd va len perm :
  envs s !! i = Some e → env_pgdir e = kdir pd → pd ∈ PD → 0 ≤ va < 4294967296 →
  wp (user_mem_check i va len perm) (check_result (phys s) pd perm va (check_end va len) s) no_stop s.
Proof.
  intros He Hdir Hpd Hva. unfold user_mem_check. apply wp_bind, (wp_get_env _ e); [done|]. rewrite Hdir.
  fold (check_end va len). destruct (check_end_page va len) as (hi & -> & Hhi).
  rewrite ROUNDDOWN_page, (u32_small va) by lia. set (lo := va / 4096).
  assert (Hlo : lo * 4096 ≤ va < lo * 4096 + 4096) by (unfold lo; mlia).
  clearbody lo. unfold page_starts. change PGSIZE with 4096.
  replace ((hi * 4096 - lo * 4096) / 4096) with (hi - lo) by mlia.
  apply wp_bind.
  set (Q := λ (r : option Z) s', check_result (phys s) pd perm va (hi * 4096) s (default 0 r) s').
  eapply (wp_mono _ Q _ no_stop); [|intros r s' HQ; by apply wp_ret|done].
  apply wp_forE with (I := λ d s', s' = s ∧ ∀ a, va ≤ a < (lo + Z.of_nat (length d)) * 4096 → page_allows (phys s) pd perm a = true).
  - split; [done|]. cbn. intros a Ha. mlia.
  - intros d x t s1 Hl [-> HI]. apply fmap_app_inv in Hl as (d0 & xt & -> & Hxt & Hl).
    destruct xt as [|k t0]; [done|]. cbn in Hxt. injection Hxt as -> ->.
    destruct (range_split _ _ _ _ _ Hl) as [-> Hkr].
    rewrite length_fmap in HI. unfold range in HI. rewrite length_seqZ in HI.
    assert (Hst : 0 ≤ lo * 4096 + k * 4096 < 4294967296) by mlia.
    unfold wp. rewrite check_page by done.
    assert (Hblk : ∀ a, va ≤ a → lo * 4096 + k * 4096 ≤ a < lo * 4096 + k * 4096 + 4096 →
      page_allows (phys s) pd perm a = page_allows (phys s) pd perm (lo * 4096 + k * 4096)).
    { intros a _ Ha. replace a with (lo * 4096 + k * 4096 + (a - (lo * 4096 + k * 4096))) by lia.
      apply page_allows_page; mlia. }
    destruct (page_allows (phys s) pd perm (lo * 4096 + k * 4096)) eqn:Hok.
    + split; [done|]. intros a Ha. rewrite length_app, length_fmap in Ha. unfold range in Ha. rewrite length_seqZ in Ha. cbn in Ha.
      destruct (decide (a < lo * 4096 + k * 4096)); [apply HI; lia|]. rewrite Hblk; [done|lia|lia].
    + right. split; [done|]. eexists. split; [done|].
      assert (Hmax : (if lo * 4096 + k * 4096 >? va then lo * 4096 + k * 4096 else va) = Z.max (lo * 4096 + k * 4096) va).
      { destruct (_ >? va) eqn:E; lia. }
      rewrite Hmax. split; [rewrite Hblk; [done|lia|mlia]|]. split; [lia|].
      intros b Hb. apply HI. lia.
  - intros s1 [-> HI]. left. split; [done|]. split; [done|]. intros a Ha. apply HI. rewrite length_fmap. unfold range. rewrite length_seqZ. mlia.
Qed.

End Check.

(** The check of a non-empty range out of the last page, byte by byte. *)
Lemma check_result_bytes m pd perm va len s r s' : 0 ≤ va → 0 < len → va + len ≤ 4294963200 →
  check_result m pd perm va (check_end va len) s r s' →
  r = 0 ↔ ∀ a, va ≤ a < va + len → page_allows m pd perm a = true.
Proof.
  intros Hva Hlen Hend Hres. pose proof (check_end_covers va len ltac:(lia) ltac:(lia) Hend).
  destruct (check_end_page va len) as (hi & Hhi & _). rewrite Hhi in *.
  destruct Hres as [(-> & _ & Hall)|(-> & a & _ & Hbad & Ha & _)]; [split; [intros _ b Hb; apply Hall; lia|done]|].
  split; [done|]. intros Hall. set (b := Z.max va (a / 4096 * 4096)).
  assert (Hb : page_allows m pd perm b = true) by (apply Hall; unfold b; mlia).
  replace b with (a / 4096 * 4096 + (b - a / 4096 * 4096)) in Hb by lia. rewrite page_allows_page in Hb by (unfold b; mlia).
  replace a with (a / 4096 * 4096 + a `mod` 4096) in Hbad by mlia. rewrite page_allows_page in Hbad by mlia. congruence.
Qed.

(** ** The MMU agrees with the check *)

Lemma PTE_ADDR_div4 e : PTE_ADDR e / 4 = PGNUM e * 1024.
Proof. rewrite PTE_ADDR_PGNUM. mlia. Qed.

Lemma translate_read m pd perm a :
  0 ≤ pd < 1048576 → page_allows m pd perm a = true →
  mmu_translate m (pd * 4096) a false = Some (PGNUM (pte_of m pd a) * 4096 + PGOFF a).
Proof.
  intros Hpd Ha. unfold page_allows in Ha. rewrite !andb_true_iff in Ha. destruct Ha as [[[_ H1] H2] _].
  unfold mmu_translate. rewrite !PTE_ADDR_div4. replace (PGNUM (pd * 4096)) with pd.
  2:{ rewrite PGNUM_div, u32_small by lia. mlia. }
  fold (pde_of m pd a). fold (pte_of m pd a). rewrite H1, H2. cbn. by rewrite PTE_ADDR_PGNUM.
Qed.

(** A user address whose page is mapped writable. *)
Definition user_writable (m : gmap Z Z) (pd a : Z) : Prop :=
  0 ≤ a < UTOP ∧ ∃ perm, page_allows m pd perm a = true ∧ Z.land perm PTE_W = PTE_W.

Section Store.
Context {PD PT : gset Z} {ext : Z → Z} {fl efl : list Z} {s : KState}.
Context (Hk : kcore PD PT ext fl efl s).

Lemma user_slot pd a : pd ∈ PD → 0 ≤ a < UTOP → present (pde_of (phys s) pd a) = true →
  PGNUM (pde_of (phys s) pd a) * 1024 + PTX a ∈ tslots PT.
Proof.
  intros Hpd Ha Hp. pose proof (kc_mem _ _ _ _ _ _ Hk) as Hm. apply tab_slot; [|apply PTX_range].
  by apply (mi_dir _ _ _ _ _ _ _ _ Hm); [apply dir_slot|].
Qed.

Lemma land_PTE_W_sub perm e : Z.land e perm = perm → Z.land perm PTE_W = PTE_W → Z.land e PTE_W = PTE_W.
Proof.
  intros He Hp. transitivity (Z.land (Z.land e perm) PTE_W); [by rewrite <- Z.land_assoc, Hp|by rewrite He, Hp].
Qed.

Lemma land_7_W e : Z.land e 7 = 7 → Z.land e PTE_W = PTE_W.
Proof. intros H. change PTE_W with (Z.land 7 PTE_W). rewrite Z.land_assoc. by rewrite H. Qed.

Lemma translate_write pd a : pd ∈ PD → user_writable (phys s) pd a →
  ∃ p, mmu_translate (phys s) (pd * 4096) a true = Some (p * 4096 + PGOFF a) ∧
    0 ≤ p < npages s ∧ p ∉ PD ∪ PT ∧ ext p = 0.
Proof.
  intros Hpd (Ha & perm & Hal & HW). pose proof (kc_mem _ _ _ _ _ _ Hk) as Hm.
  pose proof (mi_np _ _ _ _ _ _ _ _ Hm) as Hnp.
  assert (Hpr : 0 ≤ pd < npages s) by (apply (mi_range _ _ _ _ _ _ _ _ Hm); by apply elem_of_union_l).
  unfold page_allows in Hal. rewrite !andb_true_iff, Z.eqb_eq in Hal. destruct Hal as [[[_ H1] H2] H3].
  pose proof (user_slot pd a Hpd Ha H1) as Hw. fold (pte_of (phys s) pd a) in H2.
  exists (PGNUM (pte_of (phys s) pd a)).
  destruct (mi_tab _ _ _ _ _ _ _ _ Hm _ Hw H2) as [HT Hlt].
  pose proof (PGNUM_range (pte_of (phys s) pd a)).
  split; [|split; [split; [lia|done]|split; [done|by apply (mi_uext _ _ _ _ _ _ _ _ Hm)]]].
  unfold mmu_translate. rewrite !PTE_ADDR_div4. replace (PGNUM (pd * 4096)) with pd.
  2:{ rewrite PGNUM_div, u32_small by lia. mlia. }
  fold (pde_of (phys s) pd a). fold (pte_of (phys s) pd a). rewrite H1, H2, PTE_ADDR_PGNUM.
  assert (Hpd7 : Z.land (pde_of (phys s) pd a) PTE_W = PTE_W).
  { apply land_7_W. by apply (mi_pde _ _ _ _ _ _ _ _ Hm); [apply dir_slot|]. }
  rewrite Hpd7, (land_PTE_W_sub perm) by done. done.
Qed.

(** A store into a user page keeps the kernel invariant. *)
Lemma kcore_store p m' : p ∉ PD ∪ PT → ext p = 0 →
  (∀ w, w / 1024 ≠ p → word m' w = word (phys s) w) →
  kcore PD PT ext fl efl (set_phys m' s).
Proof.
  intros HpT He Hoth. pose proof (kc_kpd _ _ _ _ _ _ Hk) as (kp & Hkp & Hr & Hek & HkD & Hwr & Hsh).
  rewrite not_elem_of_union in HpT. destruct HpT as [HpD HpT].
  assert (Hkp_ne : kp ≠ p) by (intros ->; lia).
  destruct Hk. split; try done; cbn.
  - unfold kminv. cbn. eapply minv_mem_ext; [done|]. intros w Hw. symmetry. apply Hoth. intros <-.
    rewrite slots_split, elem_of_dslots, elem_of_tslots in Hw. tauto.
  - exists kp. do 4 (split; [done|]).
    assert (Hq : ∀ q i, q ≠ p → 955 ≤ i < 1024 → word m' (q * 1024 + i) = word (phys s) (q * 1024 + i)).
    { intros q i Hq Hi. apply Hoth. intros <-. apply Hq. mlia. }
    split; [intros i Hi; rewrite Hq by done; auto|].
    intros pd i Hpd Hi. rewrite (Hq kp), (Hq pd) by (done || intros ->; done). by apply Hsh.
Qed.

(** The check does not see stores outside the tables. *)
Lemma user_writable_kept m' pd a : pd ∈ PD →
  (∀ w, w ∈ slots PD PT → word m' w = word (phys s) w) →
  user_writable (phys s) pd a → user_writable m' pd a.
Proof.
  intros Hpd Hsame (Ha & perm & Hal & HW). split; [done|]. exists perm. split; [|done].
  assert (Hpde : pde_of m' pd a = pde_of (phys s) pd a).
  { apply Hsame, slots_split. left. by apply dir_slot. }
  assert (Hp : present (pde_of (phys s) pd a) = true).
  { unfold page_allows in Hal. rewrite !andb_true_iff in Hal. tauto. }
  assert (Hpte : pte_of m' pd a = pte_of (phys s) pd a).
  { unfold pte_of. rewrite Hpde. apply Hsame, slots_split. right. by apply user_slot. }
  unfold page_allows in *. by rewrite Hpde, Hpte.
Qed.

End Store.

(** What stores to user memory through cr3 may change. *)
Record user_stored (PD PT : gset Z) (ext : Z → Z) (fl efl : list Z) (s s' : KState) : Prop := {
  us_core : kcore PD PT ext fl efl s';
  us_state : s' = set_phys (phys s') s;
  us_slots : ∀ w, w ∈ slots PD PT → word (phys s') w = word (phys s) w
}.

Lemma user_stored_refl PD PT ext fl efl s : kcore PD PT ext fl efl s → user_stored PD PT ext fl efl s s.
Proof. intros. split; [done|by destruct s|done]. Qed.

Lemma user_stored_trans PD PT ext fl efl s1 s2 s3 :
  user_stored PD PT ext fl efl s1 s2 → user_stored PD PT ext fl efl s2 s3 → user_stored PD PT ext fl efl s1 s3.
Proof.
  intros [_ H2 H3] [H4 H5 H6]. split; [done| |].
  - rewrite H5, H2. by destruct s1.
  - intros w Hw. by rewrite H6, H3.
Qed.

Lemma user_stored_cr3 PD PT ext fl efl s s' : user_stored PD PT ext fl efl s s' → cr3 s' = cr3 s.
Proof. intros []. by rewrite us_state0. Qed.

Lemma vstore8_spec PD PT ext fl efl s pd a b :
  kcore PD PT ext fl efl s → cr3 s = pd * 4096 → pd ∈ PD → user_writable (phys s) pd a →
  wp (vstore8 a b) (λ _ s', user_stored PD PT ext fl efl s s') no_stop s.
Proof.
  intros Hk Hcr3 Hpd Hwr. destruct (translate_write Hk pd a Hpd Hwr) as (p & Htr & Hpr & HpT & He0).
  destruct Hwr as (Ha & _). unfold vstore8. apply wp_bind, wp_gets. cbn [id].
  rewrite u32_small, Hcr3, Htr by mlia. apply wp_modify.
  assert (Hoff : 0 ≤ PGOFF a < 4096) by (rewrite PGOFF_mod; mlia).
  set (w := (p * 4096 + PGOFF a) / 4). assert (Hwp : w / 1024 = p) by (unfold w; mlia).
  assert (Hoth : ∀ x v, x / 1024 ≠ p → word (<[w := v]> (phys s)) x = word (phys s) x).
  { intros x v Hx. apply word_insert_ne. intros <-. done. }
  split.
  - eapply (kcore_store Hk p); [done|done|]. intros x Hx. by apply Hoth.
  - done.
  - intros x Hx. apply Hoth. intros <-. rewrite slots_split, elem_of_dslots, elem_of_tslots in Hx.
    rewrite not_elem_of_union in HpT. tauto.
Qed.

(** A word store of four writable bytes. *)
Lemma vstore32_spec PD PT ext fl efl s pd a v :
  kcore PD PT ext fl efl s → cr3 s = pd * 4096 → pd ∈ PD →
  (∀ k, 0 ≤ k < 4 → user_writable (phys s) pd (a + k)) →
  wp (vstore32 a v) (λ _ s', user_stored PD PT ext fl efl s s') no_stop s.
Proof.
  intros Hk Hcr3 Hpd Hwr. unfold vstore32.
  apply wp_for_range with (I := λ _ s', user_stored PD PT ext fl efl s s'); [lia|by apply user_stored_refl| |done].
  intros k s1 Hkr Hus. eapply wp_mono; [apply (vstore8_spec PD PT ext fl efl s1 pd)| |done].
  - apply (us_core _ _ _ _ _ _ _ Hus).
  - by rewrite (user_stored_cr3 _ _ _ _ _ _ _ Hus).
  - done.
  - eapply (user_writable_kept Hk); [done|apply (us_slots _ _ _ _ _ _ _ Hus)|by apply Hwr].
  - intros [] s2 Hus2. by eapply user_stored_trans.
Qed.

(** ** Reading *)

Definition readable (m : gmap Z Z) (pd a : Z) : Prop :=
  0 ≤ a ∧ ∃ perm, page_allows m pd perm a = true.

Lemma get_byte_range w k : 0 ≤ get_byte w k < 256.
Proof. unfold get_byte. change 255 with (Z.ones 8). rewrite Z.land_ones by lia. by apply Z.mod_pos_bound. Qed.

Section Load.
Context {PD PT : gset Z} {ext : Z → Z} {fl efl : list Z} {s : KState} {pd : Z}.
Context (Hk : kcore PD PT ext fl efl s) (Hcr3 : cr3 s = pd * 4096) (Hpd : pd ∈ PD).

Lemma vload8_spec a E : readable (phys s) pd a → wp (vload8 a) (λ b s', s' = s ∧ 0 ≤ b < 256) E s.
Proof.
  intros (Ha & perm & Hal). pose proof (kc_mem _ _ _ _ _ _ Hk) as Hm. pose proof (mi_np _ _ _ _ _ _ _ _ Hm) as Hnp.
  assert (Hpr : 0 ≤ pd < npages s) by (apply (mi_range _ _ _ _ _ _ _ _ Hm); by apply elem_of_union_l).
  assert (a < ULIM) by (unfold page_allows in Hal; rewrite !andb_true_iff in Hal; lia).
  unfold vload8. apply wp_bind, wp_gets. cbn [id]. rewrite u32_small by mlia.
  rewrite Hcr3, (translate_read _ _ perm) by (done || lia). apply wp_ret. split; [done|]. apply get_byte_range.
Qed.

Lemma vload16_spec a E : (∀ k, 0 ≤ k < 2 → readable (phys s) pd (a + k)) →
  wp (vload16 a) (λ b s', s' = s ∧ 0 ≤ b < 65536) E s.
Proof.
  intros Hr. unfold vload16. apply wp_bind. eapply wp_mono; [apply vload8_spec|..|done].
  { rewrite <- (Z.add_0_r a). by apply Hr. }
  intros b0 s1 [-> H0]. apply wp_bind. eapply wp_mono; [apply vload8_spec; by apply Hr|..|done].
  intros b1 s1 [-> H1]. apply wp_ret. split; [done|]. lia.
Qed.

Lemma vload32_spec a E : (∀ k, 0 ≤ k < 4 → readable (phys s) pd (a + k)) →
  wp (vload32 a) (λ b s', s' = s ∧ 0 ≤ b < 4294967296) E s.
Proof.
  intros Hr. unfold vload32. apply wp_bind. eapply wp_mono; [apply vload16_spec|..|done].
  { intros k Hk'. apply Hr. lia. }
  intros b0 s1 [-> H0]. apply wp_bind. eapply wp_mono; [apply vload16_spec|..|done].
  { intros k Hk'. rewrite <- Z.add_assoc. apply Hr. lia. }
  intros b1 s1 [-> H1]. apply wp_ret. split; [done|]. lia.
Qed.

End Load.

(** ** user_mem_assert *)

(** The kernel carries on for the same environment. *)
Record returns (s s' : KState) : Prop := {
  rt_inv : kinv s';
  rt_cur_ok : cur_ok s';
  rt_held : held s';
  rt_cur : cur s' = cur s
}.

Lemma user_mem_assert_spec PD PT ext fl efl s i e pd va len perm :
  kcore PD PT ext fl efl s → cur_ok s → held s →
  envs s !! i = Some e → in_use e → env_pgdir e = kdir pd → pd ∈ PD → 0 ≤ va < 4294967296 →
  wp (user_mem_assert i va len perm)
    (λ _ s', (s' = s ∧ ∀ a, va ≤ a < check_end va len → page_allows (phys s) pd (Z.lor perm PTE_U) a = true) ∨
             (cur s ≠ Some i ∧ returns s s' ∧ gone s' i ∧
              ∃ a, va ≤ a < check_end va len ∧ page_allows (phys s) pd (Z.lor perm PTE_U) a = false))
    (λ r s', cur s = Some i ∧ leaves r s') s.
Proof.
  intros Hk Hcur Hh He Hu Hdir Hpd Hva. unfold user_mem_assert. apply wp_bind.
  eapply wp_call; [by eapply (user_mem_check_spec Hk)|].
  intros r s1 [(-> & -> & Hall)|(-> & a & -> & Hbad & Ha & _)]; [apply wp_ret; by left|].
  change (- E_FAULT <? 0) with true. cbv iota. apply wp_bind, (wp_get_env _ e); [done|].
  apply wp_bind, wp_gets, wp_bind, wp_cprintf.
  eapply wp_mono; [eapply (env_destroy_spec PD PT ext fl efl _ i e)|..]; try done.
  - by eapply kcore_ext.
  - intros [] s' (Hne & ? & ? & ? & ? & ?). right. split; [done|]. split; [by split|]. split; [done|]. by exists a.
Qed.
