(* ===== verification/Demo.v ===== *)
(** * A small machine

    A concrete kernel state that satisfies the kernel invariant: eight
    physical pages, one environment running on CPU 0 with one page mapped at
    UTEXT, three free pages, 1023 free environment slots.  It shows that the
    hypotheses of the theorems about the kernel can hold. *)

From S2P Require Import Prelude Console Mmu KState KWp Pmap PmapInv PmapSpec PmapDir PmapOps Env EnvFree KInv.

(** ** Tables over a range of indices *)

Definition tabulate {A} (lo hi : Z) (f : Z → A) : gmap Z A :=
  list_to_map ((λ i, (i, f i)) <$> range lo hi).

Lemma lookup_tabulate {A} lo hi (f : Z → A) i :
  tabulate lo hi f !! i = if decide (lo ≤ i < hi) then Some (f i) else None.
Proof.
  unfold tabulate. case_decide as Hd.
  - apply elem_of_list_to_map_1.
    + rewrite <- list_fmap_compose. unfold compose. cbn. rewrite list_fmap_id. apply NoDup_range.
    + apply list_elem_of_fmap. exists i. split; [done|]. by apply elem_of_range.
  - apply not_elem_of_list_to_map_1. rewrite <- list_fmap_compose. unfold compose. cbn. rewrite list_fmap_id.
    by rewrite elem_of_range.
Qed.

Global Opaque tabulate.

(** ** Memory *)

Definition demo_link (p : Z) : option Z := if p =? 5 then Some 6 else if p =? 6 then Some 7 else None.
Definition demo_ext0 (p : Z) : Z := if decide (0 ≤ p < 2) then 1 else 0.

(** Before any environment exists: pages 0 and 1 reserved, 5, 6, 7 free. *)
Definition demo_pages0 : gmap Z PageInfo :=
  tabulate 0 8 (λ p, {| pp_link := demo_link p; pp_ref := demo_ext0 p |}).

Lemma refs_empty S p : refs ∅ S p = 0.
Proof.
  unfold refs. replace (filter (refers ∅ p) S) with (∅ : gset Z); [by rewrite size_empty|].
  symmetry. apply set_eq. intros w. rewrite elem_of_filter. split; [|set_solver]. by intros [[H _] _].
Qed.

Lemma demo_minv0 : minv ∅ ∅ demo_ext0 [5; 6; 7] 8 ∅ demo_pages0 (Some 5).
Proof.
  assert (Hd : ∀ w, w ∉ dslots ∅) by (intros w; rewrite elem_of_dslots; set_solver).
  assert (Ht : ∀ w, w ∉ tslots ∅) by (intros w; rewrite elem_of_tslots; set_solver).
  assert (Hl : ∀ p i, demo_pages0 !! p = Some i → 0 ≤ p < 8 ∧ i = {| pp_link := demo_link p; pp_ref := demo_ext0 p |}).
  { intros p i. unfold demo_pages0. rewrite lookup_tabulate. case_decide; [by intros [= <-]|done]. }
  split; try done.
  - intros p. unfold demo_pages0. rewrite lookup_tabulate. case_decide; split; (done || eauto || by intros []).
  - cbn. unfold demo_pages0. split; [done|]. eexists. rewrite lookup_tabulate. split; [done|].
    split; [done|]. eexists. rewrite lookup_tabulate. split; [done|]. split; [done|].
    eexists. rewrite lookup_tabulate. done.
  - repeat (apply NoDup_cons; split; [set_solver|]). apply NoDup_nil_2.
  - intros p i Hp [_ ->]%Hl. split; [set_solver|]. rewrite !elem_of_cons, elem_of_nil in Hp. destruct Hp as [->|[->|[->|[]]]]; done.
  - intros p i Hp [Hr ->]%Hl. cbn. unfold demo_link.
    destruct (p =? 5) eqn:E5; [apply Z.eqb_eq in E5; subst; destruct Hp; set_solver|].
    destruct (p =? 6) eqn:E6; [apply Z.eqb_eq in E6; subst; destruct Hp; set_solver|done].
  - intros p i [_ ->]%Hl. by rewrite refs_empty.
  - intros p i [_ ->]%Hl. cbn. unfold demo_ext0. case_decide; lia.
  - intros p. unfold demo_ext0. case_decide; lia.
Qed.

(** Page 2 is the directory of the environment, page 3 its page table, page
    4 is mapped at UTEXT. *)
Definition demo_phys : gmap Z Z :=
  <[3 * 1024 := 4 * 4096 + 7]> (<[2 * 1024 + 2 := 3 * 4096 + 7]> (<[2 * 1024 + PDX UVPT := 2 * 4096 + 5]> ∅)).
Definition demo_pages : gmap Z PageInfo :=
  <[4 := {| pp_link := None; pp_ref := 1 |}]> (<[3 := {| pp_link := None; pp_ref := 1 |}]>
    (<[2 := {| pp_link := None; pp_ref := 1 |}]> demo_pages0)).
Definition demo_ext : Z → Z := ext_set 2 1 demo_ext0.

Lemma demo_minv : minv {[2]} {[3]} demo_ext [5; 6; 7] 8 demo_phys demo_pages (Some 5).
Proof.
  assert (H0 : minv ∅ ∅ demo_ext0 [5; 6; 7] 8 (<[2 * 1024 + PDX UVPT := 2 * 4096 + 5]> ∅) demo_pages0 (Some 5)).
  { eapply minv_mem_ext; [apply demo_minv0|]. intros w [Hw|Hw]%slots_split;
      [rewrite elem_of_dslots in Hw|rewrite elem_of_tslots in Hw]; set_solver. }
  assert (H1 : minv ({[2]} ∪ ∅) ∅ demo_ext [5; 6; 7] 8 (<[2 * 1024 + PDX UVPT := 2 * 4096 + 5]> ∅)
                 (<[2 := {| pp_link := None; pp_ref := 1 |}]> demo_pages0) (Some 5)).
  { eapply (minv_add_dir _ _ _ _ _ _ _ _ 2 {| pp_link := None; pp_ref := 0 |} H0);
      [by unfold demo_pages0; rewrite lookup_tabulate|set_solver|set_solver|done|].
    intros x Hx Hm. rewrite word_insert_ne; [done|]. change (PDX UVPT) with 957. mlia. }
  assert (H2 : minv ({[2]} ∪ ∅) ({[3]} ∪ ∅) demo_ext [5; 6; 7] 8
     (<[2 * 1024 + 2 := 3 * 4096 + 7]> (<[2 * 1024 + PDX UVPT := 2 * 4096 + 5]> ∅))
     (<[3 := {| pp_link := None; pp_ref := 1 |}]> (<[2 := {| pp_link := None; pp_ref := 1 |}]> demo_pages0)) (Some 5)).
  { eapply (minv_add_table _ _ _ _ _ _ _ _ _ 3 {| pp_link := None; pp_ref := 0 |} 7 H1);
      [rewrite elem_of_dslots; split; [set_solver|done]|done| |set_solver|set_solver|done| |done|done|done].
    - rewrite lookup_insert_ne by done. unfold demo_pages0. by rewrite lookup_tabulate.
    - intros x Hx. rewrite word_insert_ne; [done|]. change (PDX UVPT) with 957. mlia. }
  pose proof (minv_add_pte ({[2]} ∪ ∅) ({[3]} ∪ ∅) demo_ext _ _ _ _ _ (3 * 1024) 4 {| pp_link := None; pp_ref := 0 |} 7 H2) as H3.
  rewrite !(union_empty_r_L {[_]}) in H3.
  apply H3; [rewrite elem_of_tslots; (clear; set_solver)|done| |(clear; set_solver)|done|(clear; set_solver)|done|done|done].
  rewrite !lookup_insert_ne by done. unfold demo_pages0. by rewrite lookup_tabulate.
Qed.

(** ** Environments *)

(** The id of the running environment: first generation, slot 0. *)
Definition demo_id : Z := 4096.

Definition demo_env (i : Z) : Env :=
  if i =? 0 then
    set_env_status ENV_RUNNING (set_env_pgdir (kdir 2) (set_env_id demo_id (set_env_tf initial_tf zero_env)))
  else set_env_link (if i =? 1023 then None else Some (i + 1)) zero_env.

Definition demo_console : Console :=
  {| inputs := []; port_log := []; serial_exists := true; addr_6845 := CGA_BASE; crt_buf := ∅; crt_pos := 0;
     kbd_shift := 0; cons_buf := ∅; cons_rpos := 0; cons_wpos := 0; irq_mask_8259A := 0xFFFB; pic_didinit := true |}.

Definition demo : KState :=
  {| npages := 8; npages_basemem := 1; nextfree := 0; phys := demo_phys; pages := demo_pages;
     page_free_list := Some 5; kern_pgdir := kdir 1; mmio_base := MMIOBASE; user_mem_check_addr := 0;
     envs := tabulate 0 1024 demo_env; env_free_list := Some 1; cpunum := 0;
     cpus := {[ 0 := Build_CpuInfo 0 CPU_STARTED (Some 0) 0 0 0 ]};
     kernel_lock := {| locked := 1; lk_cpu := Some 0 |}; ticks := 0; cr3 := 2 * 4096; trace := [];
     cons := demo_console; gdt := gdt_init; idt := ∅ |}.

Lemma demo_lookup i : envs demo !! i = if decide (0 ≤ i < 1024) then Some (demo_env i) else None.
Proof. apply lookup_tabulate. Qed.

Lemma demo_in_use i e : envs demo !! i = Some e → in_use e → i = 0 ∧ e = demo_env 0.
Proof.
  rewrite demo_lookup. case_decide; [|done]. intros [= <-]. unfold in_use, demo_env.
  destruct (i =? 0) eqn:E; [by apply Z.eqb_eq in E as ->|done].
Qed.

Lemma demo_chain n : ∀ i, i + Z.of_nat n = 1024 → 1 ≤ i →
  env_chain (envs demo) (if i =? 1024 then None else Some i) (range i 1024).
Proof.
  induction n as [|n IH]; intros i Hn Hi.
  - replace i with 1024 by lia. by rewrite range_nil.
  - rewrite range_cons by lia. assert (i =? 1024 = false) as -> by lia. split; [done|].
    exists (demo_env i). rewrite demo_lookup, decide_True by lia. split; [done|].
    unfold demo_env. assert (i =? 0 = false) as -> by lia. cbn.
    replace (if i =? 1023 then None else Some (i + 1)) with (if i + 1 =? 1024 then None else Some (i + 1)).
    + apply IH; lia.
    + destruct (i =? 1023) eqn:E1, (i + 1 =? 1024) eqn:E2; done || lia.
Qed.

Lemma demo_kcore : kcore {[2]} {[3]} demo_ext [5; 6; 7] (range 1 1024) demo.
Proof.
  split.
  - apply demo_minv.
  - intros i. rewrite demo_lookup. case_decide; split; (done || eauto || by intros []).
  - intros i e Hi Hu. destruct (demo_in_use i e Hi Hu) as [-> ->]. clear. done.
  - intros i e Hi Hu. destruct (demo_in_use i e Hi Hu) as [-> ->]. clear. exists 2. split; [set_solver|done].
  - intros i j e e' Hi Hj Hu Hu' _. destruct (demo_in_use i e Hi Hu), (demo_in_use j e' Hj Hu'). congruence.
  - intros pd ->%elem_of_singleton. exists 0, (demo_env 0). by rewrite demo_lookup.
  - exact (demo_chain 1023 1 ltac:(lia) ltac:(lia)).
  - apply NoDup_range.
  - intros i e. rewrite demo_lookup. case_decide as Hd; [|done]. intros [= <-]. rewrite elem_of_range.
    unfold demo_env. destruct (i =? 0) eqn:E; cbn; split; (done || lia).
  - exists 1. split; [done|]. split; [done|]. split; [done|]. split; [set_solver|]. split.
    + intros i Hi. cbn. unfold demo_phys. change (PDX UVPT) with 957. rewrite !word_insert_ne by lia. done.
    + intros pd i ->%elem_of_singleton Hi. cbn. unfold demo_phys. change (PDX UVPT) with 957.
      rewrite !word_insert. repeat case_decide; lia || done.
Qed.

Lemma demo_cur_ok : cur_ok demo.
Proof. eexists. split; [done|]. intros i [= <-]. exists (demo_env 0). by rewrite demo_lookup. Qed.
Lemma demo_held : held demo.
Proof. split; [done|]. eexists. by split. Qed.
Lemma demo_cur : cur demo = Some 0.
Proof. done. Qed.
