(* ===== verification/MemProps.v ===== *)
(** * Properties of the page tables and the page allocator

    The contract of kern/pmap.c: the operations on page tables implement
    updates of the abstract address space [mapping], keep the accounting
    invariant, and leave every other address space and all other memory
    alone. *)

From S2P Require Import Prelude Console Mmu KState KWp Pmap PmapInv PmapSpec PmapDir PmapOps Env EnvFree KInv Demo.

Lemma demo_cpu_ok : cpu_ok demo.
Proof. apply cur_ok_cpu_ok, demo_cur_ok. Qed.

(** C7: page_insert either fails with -E_NO_MEM, changing nothing, when a
    page table is needed and no page is free, or returns 0 and the address
    space [pd] maps [va] to [pp] with [perm | PTE_P] while every other
    mapping of every address space is unchanged; the accounting invariant
    holds again, page tables only grow by pages taken from the free list, and
    no word outside page tables and formerly free pages changes. *)
Theorem page_insert_correct PD PT ext fl s pd va pp i perm :
  kminv PD PT ext fl s → cpu_ok s → pd ∈ PD → 0 ≤ va < UTOP →
  pages s !! pp = Some i → pp ∉ fl → pp ∉ PD ∪ PT → ext pp = 0 → pp_ref i < 65535 → 0 ≤ perm < 4096 →
  ∃ r s', page_insert (kdir pd) pp va perm s = Ok r s' ∧
    ((r = - E_NO_MEM ∧ s' = s ∧ fl = []) ∨
     (r = 0 ∧ frame s s' ∧ inserted PD s pd va pp perm s' ∧
      ∃ PT' fl', kminv PD PT' ext fl' s' ∧ PT ⊆ PT' ∧ (∀ p, p ∈ PT' → p ∈ PT ∨ p ∈ fl) ∧ pp ∉ fl' ∧
        mem_kept PD PT' fl s s')).
Proof.
  intros. apply wp_no_stop. eapply wp_mono; [by eapply page_insert_spec| |done]. intros r s' [?|[Hd _]]; [by left|by right].
Qed.

(** The free pages of the small machine are 5, 6, 7; page 4 is mapped at
    UTEXT.  Map it a second time, in a part that needs a new page table. *)
Lemma page_insert_correct_witness : ∃ r s', page_insert (kdir 2) 4 0x10000000 PTE_U demo = Ok r s'.
Proof.
  destruct (page_insert_correct {[2]} {[3]} demo_ext [5; 6; 7] demo 2 0x10000000 4 {| pp_link := None; pp_ref := 1 |} PTE_U)
    as (r & s' & H & _); [exact demo_minv|exact demo_cpu_ok|set_solver|done|done|set_solver|set_solver|done|done|done|].
  by exists r, s'.
Defined.

(** page_remove never fails; it deletes the mapping of [va] and drops one
    reference of the page that was mapped there, freeing it when that was the
    last one; if nothing was mapped at [va] the state is unchanged. *)
Theorem page_remove_correct PD PT ext fl s pd va :
  kminv PD PT ext fl s → cpu_ok s → pd ∈ PD → 0 ≤ va < UTOP →
  ∃ s', page_remove (kdir pd) va s = Ok tt s' ∧
    match mapping (phys s) pd (PGNUM va) with
    | None => s' = s
    | Some (p, _) => ∃ i, pages s !! p = Some i ∧ p ∉ fl ∧
        kminv PD PT ext (if pp_ref i =? 1 then p :: fl else fl) s' ∧ frame s s' ∧
        pp_ref <$> (pages s' !! p) = Some (pp_ref i - 1) ∧
        ∀ pd' v, pd' ∈ PD → user_vpn v →
          mapping (phys s') pd' v = if decide (pd' = pd ∧ v = PGNUM va) then None else mapping (phys s) pd' v
    end.
Proof.
  intros Hm Hcpu Hpd Hva.
  destruct (wp_no_stop _ _ _ (page_remove_spec PD ext PT fl s pd va Hm Hcpu Hpd Hva)) as ([] & s' & Hrun & Hrm).
  exists s'. split; [done|]. unfold removed in Hrm. rewrite mapping_pte in Hrm |- *.
  destruct (present (word (phys s) (pd * 1024 + PDX va))) eqn:Hp; [|done].
  destruct (present (word (phys s) (pte_word (phys s) pd va))) eqn:Hp2; [|done].
  destruct Hrm as (i & Hi & Hfl & Hm' & Hf & Hph & _ & Href). exists i. repeat (split; [done|]).
  intros pd' v Hpd' Hv. rewrite Hph, (mapping_set_va PD ext PT fl) by done. by case_decide.
Qed.

Lemma page_remove_correct_witness : ∃ s', page_remove (kdir 2) UTEXT demo = Ok tt s'.
Proof.
  destruct (page_remove_correct {[2]} {[3]} demo_ext [5; 6; 7] demo 2 UTEXT) as (s' & H & _);
    [exact demo_minv|exact demo_cpu_ok|set_solver|done|]. by exists s'.
Defined.
