(* ===== verification/Syscall.v ===== *)
(** * System calls

    kern/syscall.c and kern/time.c: every system call and the dispatcher.
    Pointers and envids arrive as 32-bit words; system calls return an
    [int32_t].  A system call that gives up the CPU for good (sys_yield,
    sys_ipc_recv, destroying the caller) ends in [Stop]. *)

From S2P Require Import Prelude Console Mmu KState Pmap VMem Env.

(** ** kern/time.c *)

Definition time_init : K unit := modify (set_ticks 0).

Definition time_tick : K unit :=
  t ← gets ticks;
  let t := u32 (t + 1) in
  modify (set_ticks t) ;;
  if u32 (t * 10) <? t then panic "time_tick: time overflowed" else mret tt.

Definition time_msec : K Z := t ← gets ticks; mret (u32 (t * 10)).

(** ** Output *)

(** The bytes [cprintf("%.*s", ...)] prints from address [p]: up to a zero
    byte or until the precision runs out.  As in vprintfmt the byte is read
    before the precision is tested. *)
Fixpoint print_str (fuel : nat) (p precision : Z) (acc : list Z) : K (list Z) :=
  match fuel with
  | O => stop Spin
  | S fuel =>
      ch ← vload8 p;
      if ch =? 0 then mret (reverse acc)
      else if precision <? 0 then print_str fuel (u32 (p + 1)) precision (ch :: acc)
      else if precision - 1 >=? 0 then print_str fuel (u32 (p + 1)) (precision - 1) (ch :: acc)
      else mret (reverse acc)
  end.

(** The characters of "(null)". *)
Definition null_text : list Z := [40; 110; 117; 108; 108; 41].

Definition cprintf_str (len s : Z) : K unit :=
  let precision := s32 len in
  bytes ← (if s =? 0
           then mret (if precision <? 0 then null_text else take (Z.to_nat precision) null_text)
           else print_str (if precision <? 0 then Z.to_nat 4294967296 else Z.to_nat (precision + 1)) s precision []);
  cprintf "%.*s" bytes.

Definition sys_cputs (s len : Z) : K unit :=
  c ← curenv; c ← deref c;
  user_mem_assert c s len 0 ;;
  cprintf_str len s.

Definition sys_cgetc : K Z := console cons_getc.

(** ** Environments *)

(** [curenv->env_id] *)
Definition sys_getenvid : K Z :=
  c ← curenv; c ← deref c; e ← get_env c; mret (env_id e).

Definition sys_env_destroy (envid : Z) : K Z :=
  '(r, oe) ← envid2env envid true;
  if r <? 0 then mret r
  else
    e ← deref oe;
    ce ← curenv;
    id ← sys_getenvid;
    v ← get_env e;
    (if bool_decide (ce = Some e) then cprintf "[%08x] exiting gracefully\n" [id]
     else cprintf "[%08x] destroying %08x\n" [id; env_id v]) ;;
    env_destroy e ;;
    mret 0.

Definition sys_yield : K unit := sched_yield.

Definition sys_exofork : K Z :=
  id ← sys_getenvid;
  '(ret, oe) ← env_alloc id;
  if ret <? 0 then mret ret
  else
    e ← deref oe;
    upd_env e (set_env_status ENV_NOT_RUNNABLE) ;;
    c ← curenv; c ← deref c; cur ← get_env c;
    upd_env e (set_env_tf (env_tf cur)) ;;
    upd_env e (λ v, set_env_tf (set_tf_regs (set_reg_eax 0 (tf_regs (env_tf v))) (env_tf v)) v) ;;
    v ← get_env e;
    mret (env_id v).

(** The C values of [enum EnvStatus] that sys_env_set_status accepts. *)
Definition status_of_int (status : Z) : option EnvStatus :=
  if status =? 2 then Some ENV_RUNNABLE
  else if status =? 4 then Some ENV_NOT_RUNNABLE
  else None.

Definition sys_env_set_status (envid status : Z) : K Z :=
  '(ret, oe) ← envid2env envid true;
  if ret <? 0 then mret ret
  else
    match status_of_int status with
    | None => mret (- E_INVAL)
    | Some st => e ← deref oe; upd_env e (set_env_status st) ;; mret 0
    end.

Definition SIZEOF_TRAPFRAME : Z := 68.

(** [*tf] read from the current address space. *)
Definition load_regs (p : Z) : K PushRegs :=
  edi ← vload32 p; esi ← vload32 (p + 4); ebp ← vload32 (p + 8); oesp ← vload32 (p + 12);
  ebx ← vload32 (p + 16); edx ← vload32 (p + 20); ecx ← vload32 (p + 24); eax ← vload32 (p + 28);
  mret {| reg_edi := edi; reg_esi := esi; reg_ebp := ebp; reg_oesp := oesp;
          reg_ebx := ebx; reg_edx := edx; reg_ecx := ecx; reg_eax := eax |}.

Definition load_trapframe (p : Z) : K Trapframe :=
  regs ← load_regs p;
  es ← vload16 (p + 32); pad1 ← vload16 (p + 34);
  ds ← vload16 (p + 36); pad2 ← vload16 (p + 38);
  trapno ← vload32 (p + 40); err ← vload32 (p + 44); eip ← vload32 (p + 48);
  cs ← vload16 (p + 52); pad3 ← vload16 (p + 54);
  eflags ← vload32 (p + 56); esp ← vload32 (p + 60);
  ss ← vload16 (p + 64); pad4 ← vload16 (p + 66);
  mret {| tf_regs := regs; tf_es := es; tf_padding1 := pad1; tf_ds := ds; tf_padding2 := pad2;
          tf_trapno := trapno; tf_err := err; tf_eip := eip; tf_cs := cs; tf_padding3 := pad3;
          tf_eflags := eflags; tf_esp := esp; tf_ss := ss; tf_padding4 := pad4 |}.

(** What sys_env_set_trapframe forces in the frame the user supplies. *)
Definition user_tf (t : Trapframe) : Trapframe :=
  let t := set_tf_cs (Z.lor (tf_cs t) 3) t in
  let t := set_tf_eflags (Z.land (tf_eflags t) (Z.lnot FL_IOPL_MASK)) t in
  set_tf_eflags (Z.lor (tf_eflags t) FL_IF) t.

Definition sys_env_set_trapframe (envid tf : Z) : K Z :=
  '(ret, oe) ← envid2env envid true;
  if ret <? 0 then mret ret
  else
    e ← deref oe;
    user_mem_assert e tf SIZEOF_TRAPFRAME PTE_U ;;
    t ← load_trapframe tf;
    upd_env e (set_env_tf (user_tf t)) ;;
    mret 0.

Definition sys_env_set_pgfault_upcall (envid func : Z) : K Z :=
  '(ret, oe) ← envid2env envid true;
  if ret <? 0 then mret (- E_BAD_ENV)
  else e ← deref oe; upd_env e (set_env_pgfault_upcall func) ;; mret 0.

(** ** Memory *)

(** [(perm & flag) != flag || (perm & ~(PTE_SYSCALL)) != 0] *)
Definition bad_perm (perm : Z) : bool :=
  negb (Z.land perm (Z.lor PTE_U PTE_P) =? Z.lor PTE_U PTE_P) || negb (Z.land perm (Z.lnot PTE_SYSCALL) =? 0).

(** [(uintptr_t)va >= UTOP || PGOFF(va)] *)
Definition bad_va (va : Z) : bool := (va >=? UTOP) || ctrue (PGOFF va).

Definition sys_page_alloc (envid va perm : Z) : K Z :=
  '(ret, oe) ← envid2env envid true;
  if ret <? 0 then mret ret
  else if bad_va va then mret (- E_INVAL)
  else if bad_perm perm then mret (- E_INVAL)
  else
    opg ← page_alloc 1;
    match opg with
    | None => mret (- E_NO_MEM)
    | Some pg =>
        e ← deref oe; v ← get_env e;
        r ← page_insert (env_pgdir v) pg va perm;
        if r <? 0 then page_free pg ;; mret (- E_NO_MEM) else mret 0
    end.

Definition sys_page_map (srcenvid srcva dstenvid dstva perm : Z) : K Z :=
  '(ret, ose) ← envid2env srcenvid true;
  if ret <? 0 then mret ret
  else
    '(ret, ode) ← envid2env dstenvid true;
    if ret <? 0 then mret ret
    else if bad_va srcva || bad_va dstva then mret (- E_INVAL)
    else if bad_perm perm then mret (- E_INVAL)
    else
      se ← deref ose; sv ← get_env se;
      opg ← page_lookup (env_pgdir sv) srcva;
      match opg with
      | None => mret (- E_INVAL)
      | Some (pg, entry) =>
          pte ← kload32 entry;
          if ctrue (Z.land perm PTE_W) && (Z.land pte PTE_W =? 0) then mret (- E_INVAL)
          else
            de ← deref ode; dv ← get_env de;
            r ← page_insert (env_pgdir dv) pg dstva perm;
            if r <? 0 then mret (- E_NO_MEM) else mret 0
      end.

Definition sys_page_unmap (envid va : Z) : K Z :=
  '(ret, oe) ← envid2env envid true;
  if ret <? 0 then mret ret
  else if bad_va va then mret (- E_INVAL)
  else e ← deref oe; v ← get_env e; page_remove (env_pgdir v) va ;; mret 0.

(** ** Inter-process communication *)

(** The page part of a send: [inl ret] is an early return with [ret]. *)
Definition ipc_send_page (dste srcva perm : Z) : K (Z + unit) :=
  if ctrue (PGOFF srcva) || (Z.land perm PTE_P =? 0) || (Z.land perm PTE_U =? 0)
     || ctrue (Z.land perm (Z.lnot PTE_SYSCALL))
  then mret (inl (- E_INVAL))
  else
    c ← curenv; c ← deref c; cur ← get_env c;
    opg ← page_lookup (env_pgdir cur) srcva;
    match opg with
    | None => mret (inl (- E_INVAL))
    | Some (pg, ptep) =>
        pte ← kload32 ptep;
        if ctrue (Z.land perm PTE_W) && negb (ctrue (Z.land pte PTE_W)) then mret (inl (- E_INVAL))
        else
          d ← get_env dste;
          if ctrue (env_ipc_dstva d) then
            ret ← page_insert (env_pgdir d) pg (env_ipc_dstva d) perm;
            if ret <? 0 then mret (inl ret)
            else upd_env dste (set_env_ipc_perm perm) ;; mret (inr tt)
          else mret (inr tt)
    end.

(** The updates of the receiver once the page is mapped. *)
Definition ipc_deliver (dste value : Z) : K Z :=
  id ← sys_getenvid;
  upd_env dste (set_env_ipc_from id) ;;
  upd_env dste (set_env_ipc_recving false) ;;
  upd_env dste (set_env_ipc_value value) ;;
  upd_env dste (set_env_status ENV_RUNNABLE) ;;
  upd_env dste (λ v, set_env_tf (set_tf_regs (set_reg_eax 0 (tf_regs (env_tf v))) (env_tf v)) v) ;;
  mret 0.

Definition sys_ipc_try_send (envid value srcva perm : Z) : K Z :=
  '(ret, oe) ← envid2env envid false;
  if ret <? 0 then mret ret
  else
    dste ← deref oe;
    d ← get_env dste;
    if negb (env_ipc_recving d) || negb (env_ipc_from d =? 0) then mret (- E_IPC_NOT_RECV)
    else
      r ← (if srcva <? UTOP then ipc_send_page dste srcva perm else mret (inr tt));
      match r with
      | inl ret => mret ret
      | inr _ => ipc_deliver dste value
      end.

Definition sys_ipc_recv (dstva : Z) : K Z :=
  if (dstva <? UTOP) && ctrue (PGOFF dstva) then mret (- E_INVAL)
  else
    c ← curenv; c ← deref c;
    upd_env c (set_env_ipc_recving true) ;;
    upd_env c (set_env_ipc_dstva dstva) ;;
    upd_env c (set_env_status ENV_NOT_RUNNABLE) ;;
    upd_env c (set_env_ipc_from 0) ;;
    sched_yield.

Definition sys_time_msec : K Z := t ← time_msec; mret (s32 t).

(** ** The dispatcher *)

Definition SYS_cputs : Z := 0.
Definition SYS_cgetc : Z := 1.
Definition SYS_getenvid : Z := 2.
Definition SYS_env_destroy : Z := 3.
Definition SYS_page_alloc : Z := 4.
Definition SYS_page_map : Z := 5.
Definition SYS_page_unmap : Z := 6.
Definition SYS_exofork : Z := 7.
Definition SYS_env_set_status : Z := 8.
Definition SYS_env_set_trapframe : Z := 9.
Definition SYS_env_set_pgfault_upcall : Z := 10.
Definition SYS_yield : Z := 11.
Definition SYS_ipc_try_send : Z := 12.
Definition SYS_ipc_recv : Z := 13.
Definition SYS_time_msec : Z := 14.

Definition syscall (syscallno a1 a2 a3 a4 a5 : Z) : K Z :=
  if syscallno =? SYS_cputs then sys_cputs a1 a2 ;; mret 0
  else if syscallno =? SYS_cgetc then sys_cgetc
  else if syscallno =? SYS_getenvid then sys_getenvid
  else if syscallno =? SYS_env_destroy then sys_env_destroy (s32 a1)
  else if syscallno =? SYS_yield then sys_yield ;; mret 0
  else if syscallno =? SYS_exofork then sys_exofork
  else if syscallno =? SYS_env_set_status then sys_env_set_status (s32 a1) (s32 a2)
  else if syscallno =? SYS_page_alloc then sys_page_alloc (s32 a1) a2 (s32 a3)
  else if syscallno =? SYS_page_map then sys_page_map (s32 a1) a2 (s32 a3) a4 (s32 a5)
  else if syscallno =? SYS_page_unmap then sys_page_unmap (s32 a1) a2
  else if syscallno =? SYS_env_set_pgfault_upcall then sys_env_set_pgfault_upcall (s32 a1) a2
  else if syscallno =? SYS_ipc_try_send then sys_ipc_try_send (s32 a1) a2 a3 a4
  else if syscallno =? SYS_ipc_recv then sys_ipc_recv a1
  else if syscallno =? SYS_env_set_trapframe then sys_env_set_trapframe (s32 a1) a2
  else if syscallno =? SYS_time_msec then sys_time_msec
  else mret (- E_INVAL).
