(* ===== verification/SyscallProofs.v ===== *)
(** * System calls that manage address spaces

    sys_page_alloc, sys_page_map and sys_page_unmap (kern/syscall.c) against
    an abstract view of the system: each environment in use has an address
    space, a partial map from page numbers to a page and its permissions. *)

From S2P Require Import Prelude Console Mmu KState KWp Pmap PmapInv PmapSpec PmapDir PmapOps VMem Env EnvFree KInv.
From S2P Require Import SchedProofs EnvProofs Syscall.

(** ** The abstract address space of an environment *)

Definition env_dir (e : Env) : Z := (env_pgdir e - KERNBASE) / 4096.

Definition aspace (s : KState) (i v : Z) : option (Z * Z) :=
  match envs s !! i with
  | Some e => mapping (phys s) (env_dir e) v
  | None => None
  end.

Lemma env_dir_kdir e pd : env_pgdir e = kdir pd → env_dir e = pd.
Proof. intros H. unfold env_dir. rewrite H. unfold kdir. mlia. Qed.

(** The address spaces of all environments in use after setting one entry. *)
Definition spaces_set (s s' : KState) (i v : Z) (o : option (Z * Z)) : Prop :=
  ∀ j x, (∃ e, envs s !! j = Some e ∧ in_use e) → user_vpn x →
    aspace s' j x = if decide (j = i ∧ x = v) then o else aspace s j x.

Definition spaces_kept (s s' : KState) : Prop :=
  ∀ j x, (∃ e, envs s !! j = Some e ∧ in_use e) → user_vpn x → aspace s' j x = aspace s j x.

(** The contents of every page mapped in an environment in use. *)
Definition contents_kept (s s' : KState) : Prop :=
  ∀ j x p f w, (∃ e, envs s !! j = Some e ∧ in_use e) → user_vpn x → aspace s j x = Some (p, f) →
    w / 1024 = p → word (phys s') w = word (phys s) w.

(** A state reached by page operations only, with the invariant: no mapped
    page changed its contents. *)
Record paged (s s' : KState) : Prop := {
  pg_inv : kinv s';
  pg_cur : cur_ok s';
  pg_frame : frame s s';
  pg_kept : contents_kept s s';
  pg_refs : refs_grow 1 s s'
}.

Lemma frame_held s s' : frame s s' → held s → held s'.
Proof. unfold held, has_lock, started. intros H Hh. rewrite H. exact Hh. Qed.
Lemma frame_cur s s' : frame s s' → cur s' = cur s.
Proof. intros H. unfold cur. destruct (frame_cpus _ _ H) as [-> ->]. done. Qed.

(** ** Permission arguments *)

Lemma bad_perm_false perm : bad_perm perm = false → 0 ≤ perm < 4096 ∧ Z.lor perm PTE_P = perm.
Proof.
  unfold bad_perm. rewrite orb_false_iff, !negb_false_iff, !Z.eqb_eq.
  change (Z.lor PTE_U PTE_P) with 5. intros [H5 Hs].
  assert (Hp : perm = Z.land perm 0xE07).
  { change 0xE07 with PTE_SYSCALL. apply Z.bits_inj'. intros n Hn. rewrite Z.land_spec.
    apply (f_equal (λ z, Z.testbit z n)) in Hs. rewrite Z.land_spec, Z.lnot_spec, Z.bits_0 in Hs by done.
    destruct (Z.testbit perm n), (Z.testbit PTE_SYSCALL n); done. }
  split.
  - assert (Hl : perm = Z.land perm (Z.ones 12)).
    { rewrite Hp at 1. rewrite Hp at 2. by rewrite <- Z.land_assoc. }
    rewrite Hl, Z.land_ones by lia. apply Z.mod_pos_bound. lia.
  - apply Z.bits_inj'. intros n Hn. rewrite Z.lor_spec. unfold PTE_P.
    destruct (decide (n = 0)) as [->|].
    + apply (f_equal (λ z, Z.testbit z 0)) in H5. rewrite Z.land_spec in H5.
      change (Z.testbit 5 0) with true in H5. rewrite andb_true_r in H5. by rewrite H5.
    + replace (Z.testbit 1 n) with false; [by rewrite orb_false_r|].
      symmetry. change 1 with (2 ^ 0). apply Z.pow2_bits_false. lia.
Qed.

Lemma bad_va_false va : 0 ≤ va → bad_va va = false → 0 ≤ va < UTOP.
Proof. unfold bad_va. intros Hva. rewrite orb_false_iff. intros [? _]. lia. Qed.

Lemma land_W pte : Z.land (Z.land pte 0xFFF) PTE_W = Z.land pte PTE_W.
Proof. rewrite <- Z.land_assoc. done. Qed.

Section Paging.
Context {PD PT : gset Z} {ext : Z → Z} {fl efl : list Z} {s : KState}.
Context (Hk : kcore PD PT ext fl efl s) (Hcur : cur_ok s).

(** An id that resolves names an environment with a directory of its own. *)
Lemma in_use_dir i e : envs s !! i = Some e → in_use e →
  ∃ pd, pd ∈ PD ∧ env_pgdir e = kdir pd ∧ ext pd = 1 ∧ ∀ v, aspace s i v = mapping (phys s) pd v.
Proof.
  intros He Hu. destruct (kc_dir _ _ _ _ _ _ Hk i e He Hu) as (pd & Hpd & Hdir & Hext).
  exists pd. split_and!; try done. intros v. unfold aspace. rewrite He. by rewrite (env_dir_kdir e pd).
Qed.

(** From page tables to address spaces. *)
Lemma mapping_spaces s' i e pd v o :
  envs s' = envs s → envs s !! i = Some e → in_use e → env_pgdir e = kdir pd → pd ∈ PD →
  (∀ pd' x, pd' ∈ PD → user_vpn x →
     mapping (phys s') pd' x = if decide (pd' = pd ∧ x = v) then o else mapping (phys s) pd' x) →
  spaces_set s s' i v o.
Proof.
  intros Henvs He Hu Hdir Hpd Hmap j x (ej & Hj & Huj) Hx. unfold aspace. rewrite Henvs, Hj.
  destruct (kc_dir _ _ _ _ _ _ Hk j ej Hj Huj) as (pj & Hpj & Hdj & _). rewrite (env_dir_kdir ej pj) by done.
  rewrite Hmap by done. apply decide_ext. split; intros [H1 ->]; (split; [|done]).
  - subst pj. apply (kc_inj _ _ _ _ _ _ Hk j i ej e); congruence.
  - subst j. apply kdir_inj. congruence.
Qed.

Lemma mapping_spaces_kept s' :
  envs s' = envs s → (∀ pd' x, pd' ∈ PD → user_vpn x → mapping (phys s') pd' x = mapping (phys s) pd' x) →
  spaces_kept s s'.
Proof.
  intros Henvs Hmap j x (ej & Hj & Huj) Hx. unfold aspace. rewrite Henvs, Hj.
  destruct (kc_dir _ _ _ _ _ _ Hk j ej Hj Huj) as (pj & Hpj & Hdj & _). rewrite (env_dir_kdir ej pj) by done. by apply Hmap.
Qed.

(** A mapped page can be mapped again. *)
Lemma mapped_page pd v p f : pd ∈ PD → user_vpn v → mapping (phys s) pd v = Some (p, f) →
  p ∉ fl ∧ p ∉ PD ∪ PT ∧ 0 ≤ p < npages s ∧ ext p = 0 ∧ ∃ i, pages s !! p = Some i.
Proof.
  intros Hpd Hv Hmap. pose proof (kc_mem _ _ _ _ _ _ Hk) as Hm. unfold mapping in Hmap.
  destruct (present (word (phys s) (pd * 1024 + v / 1024))) eqn:Hp; [|done].
  set (w := PGNUM _ * 1024 + _) in Hmap. destruct (present (word (phys s) w)) eqn:Hp2; [|done].
  injection Hmap as <- _.
  assert (Hw : w ∈ tslots PT).
  { apply tab_slot; [|mlia]. apply (mi_dir _ _ _ _ _ _ _ _ Hm); [by apply dir_slot_vpn|done]. }
  destruct (mi_tab _ _ _ _ _ _ _ _ Hm w Hw Hp2) as [HT Hlt].
  pose proof (PGNUM_range (word (phys s) w)).
  destruct (minv_page PD PT ext fl _ _ _ _ (PGNUM (word (phys s) w)) Hm) as [i Hi]; [lia|].
  split_and!; try done; [|lia|by apply (mi_uext _ _ _ _ _ _ _ _ Hm)|by eauto].
  intros Hin. destruct (mi_free _ _ _ _ _ _ _ _ Hm _ i Hin Hi) as [_ Hr].
  destruct (minv_unreferenced _ _ _ _ _ _ _ _ _ i Hm Hi Hr) as [_ Hun].
  by apply (Hun w); [apply slots_split; right|..].
Qed.

(** Tables grow by free pages only: no mapped page is written. *)
Lemma mem_kept_contents PT' s' :
  (∀ p, p ∈ PT' → p ∈ PT ∨ p ∈ fl) → mem_kept PD PT' fl s s' → contents_kept s s'.
Proof.
  intros HPT Hkept j x p f w (e & He & Hu) Hx Hmap <-.
  destruct (in_use_dir j e He Hu) as (pd & Hpd & _ & _ & Has). rewrite Has in Hmap.
  destruct (mapped_page pd x _ f Hpd Hx Hmap) as (Hfl & HT & _). rewrite not_elem_of_union in HT. destruct HT as [HD HT].
  apply Hkept; [|done]. rewrite slots_split, elem_of_dslots, elem_of_tslots. intros [[? _]|Hin]; [done|].
  destruct (HPT _ Hin); done.
Qed.

Lemma contents_step s1 s2 p :
  p ∈ fl → envs s1 = envs s → (∀ w, w / 1024 ≠ p → word (phys s1) w = word (phys s) w) →
  (∀ pd x, pd ∈ PD → user_vpn x → mapping (phys s1) pd x = mapping (phys s) pd x) →
  contents_kept s1 s2 → contents_kept s s2.
Proof.
  intros Hp Henvs Hoth Hmap1 Hc j x q f w (e & He & Hu) Hx Hmap Hw.
  destruct (in_use_dir j e He Hu) as (pd & Hpd & Hdir & _ & Has). pose proof Hmap as Hm. rewrite Has in Hm.
  destruct (mapped_page pd x _ f Hpd Hx Hm) as (Hfl & _).
  assert (Has1 : aspace s1 j x = Some (q, f)).
  { unfold aspace. rewrite Henvs, He, (env_dir_kdir e pd), Hmap1 by done. done. }
  rewrite (Hc j x q f w); [|rewrite Henvs; by eauto|done|done|done]. apply Hoth. congruence.
Qed.

Lemma paged_intro PT' fl' s' :
  frame s s' → kminv PD PT' ext fl' s' → (∀ p, p ∈ PT' → p ∈ PT ∨ p ∈ fl) → mem_kept PD PT' fl s s' →
  refs_grow 1 s s' → paged s s'.
Proof.
  intros Hf Hm HPT Hkept Hrefs. split; [|by eapply frame_cur_ok|done|by eapply mem_kept_contents|done].
  exists PD, PT', ext, fl', efl. by eapply kcore_frame.
Qed.

Lemma paged_refl : paged s s.
Proof.
  split; [by exists PD, PT, ext, fl, efl|done|apply frame_refl|by intros ?????????|].
  apply (refs_grow_le 0); [lia|by apply refs_grow_same].
Qed.

End Paging.

(** page_insert and page_remove at the level of the kernel invariant. *)
Lemma insert_step PD PT ext fl efl s pd va pp k perm :
  kcore PD PT ext fl efl s → cur_ok s → pd ∈ PD → 0 ≤ va < UTOP →
  pages s !! pp = Some k → pp ∉ fl → pp ∉ PD ∪ PT → ext pp = 0 → pp_ref k < 65535 → 0 ≤ perm < 4096 →
  wp (page_insert (kdir pd) pp va perm) (λ r s',
    (r = - E_NO_MEM ∧ s' = s ∧ fl = []) ∨
    (r = 0 ∧ paged s s' ∧ inserted PD s pd va pp perm s' ∧
     (∀ w, w / 1024 = pp → word (phys s') w = word (phys s) w))) no_stop s.
Proof.
  intros Hk Hcur Hpd Hva Hpp Hfl HT He0 Hr Hperm. pose proof (kc_mem _ _ _ _ _ _ Hk) as Hm.
  eapply wp_mono; [by apply (page_insert_spec PD ext PT fl s pd va pp k perm Hm (cur_ok_cpu_ok _ Hcur))| |done].
  intros r s' [?|[(-> & Hf & Hins & PT' & fl' & Hm' & _ & Hnew & _ & Hkept) Hrefs]]; [by left|right].
  split; [done|]. split; [|split; [done|]].
  - by eapply (paged_intro Hk Hcur).
  - intros w <-. apply Hkept; [|done]. rewrite not_elem_of_union in HT. destruct HT as [HD HT].
    rewrite slots_split, elem_of_dslots, elem_of_tslots. intros [[? _]|Hin]; [done|].
    destruct (Hnew _ Hin); done.
Qed.

Lemma remove_step PD PT ext fl efl s pd va :
  kcore PD PT ext fl efl s → cur_ok s → pd ∈ PD → 0 ≤ va < UTOP →
  wp (page_remove (kdir pd) va) (λ _ s', paged s s' ∧
    ∀ pd' x, pd' ∈ PD → user_vpn x →
      mapping (phys s') pd' x = if decide (pd' = pd ∧ x = PGNUM va) then None else mapping (phys s) pd' x) no_stop s.
Proof.
  intros Hk Hcur Hpd Hva. pose proof (kc_mem _ _ _ _ _ _ Hk) as Hm.
  eapply wp_mono; [by apply (page_remove_spec PD ext PT fl s pd va Hm (cur_ok_cpu_ok _ Hcur))| |done].
  intros [] s' Hrm. unfold removed in Hrm. rewrite mapping_pte in Hrm.
  assert (Hnone : s' = s → mapping (phys s) pd (PGNUM va) = None → paged s s' ∧ ∀ pd' x, pd' ∈ PD → user_vpn x →
      mapping (phys s') pd' x = if decide (pd' = pd ∧ x = PGNUM va) then None else mapping (phys s) pd' x).
  { intros -> Hn. split; [by apply (paged_refl Hk)|].
    intros pd' x Hpd' Hx. case_decide as Hd; [|done]. by destruct Hd as [-> ->]. }
  destruct (present (word (phys s) (pd * 1024 + PDX va))) eqn:Hp;
    [|apply Hnone; [done|by rewrite mapping_pte, Hp]].
  destruct (present (word (phys s) (pte_word (phys s) pd va))) eqn:Hp2;
    [|apply Hnone; [done|by rewrite mapping_pte, Hp, Hp2]].
  destruct Hrm as (k & Hi & Hfl & Hm' & Hf & Hph & Hpg & Hpgi). split.
  - eapply (paged_intro Hk Hcur); [done|exact Hm'|by left| |].
    + intros w Hw _. rewrite Hph, word_insert_ne; [done|]. intros <-. apply Hw, slots_split. right.
      by eapply (pte_word_slot PD ext PT fl).
    + intros p k' Hk'. destruct (decide (p = PGNUM (word (phys s) (pte_word (phys s) pd va)))) as [->|Hp'].
      * rewrite Hk' in Hpgi. injection Hpgi as Hpgi. exists k. split; [done|lia].
      * exists k'. rewrite <- Hpg by done. split; [done|lia].
  - intros pd' x Hpd' Hx. rewrite Hph, (mapping_set_va PD ext PT fl) by done. by case_decide.
Qed.

Lemma refs_grow_free s s' p l k : pages s !! p = Some k → pp_ref k = 0 →
  pages s' = <[p := {| pp_link := l; pp_ref := 0 |}]> (pages s) → refs_grow 0 s s'.
Proof.
  intros Hk H0 Hpg q k'. rewrite Hpg, lookup_insert. case_decide; intros Hk'; [simplify_eq/=; exists k|exists k'];
    (split; [done|cbn; lia]).
Qed.

Lemma alloc_step PD PT ext fl efl s flags :
  kcore PD PT ext fl efl s → cur_ok s →
  wp (page_alloc flags) (λ r s', match r with
    | None => fl = [] ∧ s' = s
    | Some p => ∃ fl', fl = p :: fl' ∧ kcore PD PT ext fl' efl s' ∧ cur_ok s' ∧ frame s s' ∧
        p ∉ PD ∪ PT ∧ p ∉ fl' ∧ ext p = 0 ∧ pages s' !! p = Some {| pp_link := None; pp_ref := 0 |} ∧
        (∀ w, w / 1024 ≠ p → word (phys s') w = word (phys s) w) ∧ refs_grow 0 s s' ∧
        (ctrue (Z.land flags ALLOC_ZERO) = true → ∀ w, w / 1024 = p → word (phys s') w = 0)
    end) no_stop s.
Proof.
  intros Hk Hcur. pose proof (kc_mem _ _ _ _ _ _ Hk) as Hm.
  eapply wp_mono; [by apply (page_alloc_spec PD ext PT fl)| |done].
  intros [p|] s'; [|done]. intros (fl' & i & -> & Hm' & Hf & _ & Hi & Hr & HpT & Hpfl & Hpg & Hph).
  assert (Hoth : ∀ w, w / 1024 ≠ p → word (phys s') w = word (phys s) w).
  { intros w Hw. rewrite Hph. destruct (ctrue _); [|done]. rewrite word_zero_words, decide_False; [done|]. mlia. }
  exists fl'. split; [done|]. split.
  { eapply kcore_frame; [done|done|done|]. intros w _ [Hw _]%not_elem_of_cons. by apply Hoth. }
  split; [by eapply frame_cur_ok|]. split_and!; try done;
    [by apply (minv_unreferenced _ _ _ _ _ _ _ _ p i Hm Hi Hr)|by rewrite Hpg, lookup_insert_eq|by eapply refs_grow_free|].
  intros Hz w Hw. rewrite Hph, Hz, word_zero_words, decide_True; [done|]. mlia.
Qed.

(** Zeroing a free page is invisible in every address space. *)
Lemma alloc_mapping PD PT ext fl efl s s' p :
  kcore PD PT ext fl efl s → p ∉ PD ∪ PT → (∀ w, w / 1024 ≠ p → word (phys s') w = word (phys s) w) →
  ∀ pd x, pd ∈ PD → user_vpn x → mapping (phys s') pd x = mapping (phys s) pd x.
Proof.
  intros Hk HpT Hoth pd x Hpd Hx. eapply (mapping_ext PD ext PT fl); [apply (kc_mem _ _ _ _ _ _ Hk)| |done|done].
  intros w Hw. symmetry. apply Hoth. intros <-. apply HpT.
  rewrite slots_split, elem_of_dslots, elem_of_tslots in Hw. rewrite elem_of_union. tauto.
Qed.

(** ** sys_page_alloc *)

(** Everything sys_page_alloc may do, by return value. *)
Definition page_alloc_result (fl : list Z) (s : KState) (envid va perm r : Z) (s' : KState) : Prop :=
  (r = - E_BAD_ENV ∧ s' = s ∧ ∀ i, ¬ resolves s true envid i) ∨
  (∃ i, resolves s true envid i ∧
    ((r = - E_INVAL ∧ s' = s ∧ (bad_va va || bad_perm perm) = true) ∨
     ((bad_va va || bad_perm perm) = false ∧
      ((r = - E_NO_MEM ∧ (length fl ≤ 1)%nat ∧ paged s s' ∧ spaces_kept s s') ∨
       (r = 0 ∧ ∃ p, p ∈ fl ∧ paged s s' ∧ spaces_set s s' i (PGNUM va) (Some (p, perm)) ∧
          ∀ w, w / 1024 = p → word (phys s') w = 0))))).

Lemma sys_page_alloc_spec PD PT ext fl efl s c envid va perm :
  kcore PD PT ext fl efl s → cur_ok s → cur s = Some c → 0 ≤ va →
  wp (sys_page_alloc envid va perm) (page_alloc_result fl s envid va perm) no_stop s.
Proof.
  intros Hk Hcur Hc Hva. unfold sys_page_alloc. apply wp_bind.
  eapply wp_mono; [by apply (envid2env_spec Hk Hcur envid true c)| |done].
  intros [r [i|]] s1 [-> Hres]; unfold resolved in Hres; cbn in Hres.
  2:{ destruct Hres as [-> Hno]. apply wp_ret. by left. }
  destruct Hres as (-> & Hi & e & He & Hu). cbn [Z.ltb Z.compare].
  destruct (bad_va va) eqn:Hbv; [apply wp_ret; right; exists i; split; [done|]; by left; rewrite ?Hbv|].
  destruct (bad_perm perm) eqn:Hbp; [apply wp_ret; right; exists i; split; [done|]; left; by rewrite ?Hbv, ?Hbp|].
  apply (bad_va_false va Hva) in Hbv as Hvar. destruct (bad_perm_false perm Hbp) as [Hpr Hpp].
  destruct (in_use_dir Hk i e He Hu) as (pd & Hpd & Hdir & _ & _).
  assert (Hgoal : ∀ r s', ((r = - E_NO_MEM ∧ (length fl ≤ 1)%nat ∧ paged s s' ∧ spaces_kept s s') ∨
       (r = 0 ∧ ∃ p, p ∈ fl ∧ paged s s' ∧ spaces_set s s' i (PGNUM va) (Some (p, perm)) ∧
          ∀ w, w / 1024 = p → word (phys s') w = 0)) → page_alloc_result fl s envid va perm r s').
  { intros r s' H. right. exists i. split; [done|]. right. by rewrite Hbv, Hbp. }
  apply wp_bind. eapply wp_mono; [by apply (alloc_step PD PT ext fl efl)| |done].
  intros [p|] s1.
  2:{ intros [-> ->]. apply wp_ret, Hgoal. left. split; [done|]. split; [cbn; lia|].
      split; [by apply (paged_refl Hk)|]. by intros ????. }
  intros (fl' & -> & Hk1 & Hcur1 & Hf1 & HpT & Hpfl & He0 & Hpg1 & Hoth & Hg1 & Hz).
  assert (He1 : envs s1 = envs s) by by apply frame_envs.
  pose proof (alloc_mapping _ _ _ _ _ _ s1 p Hk HpT Hoth) as Hmap1.
  apply wp_bind, wp_deref, wp_bind, (wp_get_env _ e); [by rewrite He1|]. rewrite Hdir. apply wp_bind.
  eapply wp_mono; [by apply (insert_step PD PT ext fl' efl s1 pd va p {| pp_link := None; pp_ref := 0 |} perm)| |done].
  intros r s2 [(-> & -> & ->)|(-> & [Hk2 Hcur2 Hf2 Hc2 Hg2] & Hins & Hcont)].
  - change (- E_NO_MEM <? 0) with true. cbv iota. apply wp_bind.
    eapply wp_mono; [apply (page_free_spec PD ext PT [] s1 p {| pp_link := None; pp_ref := 0 |}); try done| |done].
    { apply (kc_mem _ _ _ _ _ _ Hk1). }
    intros [] s3 (Hm3 & Hf3 & _ & Hph3 & Hpg3). apply wp_ret, Hgoal. left. split; [done|]. split; [done|].
    assert (Hf : frame s s3) by by eapply frame_trans.
    split; [eapply (paged_intro Hk Hcur); [done|done|by left| |]|].
    + intros w _ [Hw _]%not_elem_of_cons. rewrite Hph3. by apply Hoth.
    + apply (refs_grow_le 0); [lia|]. apply (refs_grow_trans 0 0 s s1); [done|]. by eapply refs_grow_free.
    + apply (mapping_spaces_kept Hk); [by apply frame_envs|]. intros. rewrite Hph3. auto.
  - change (0 <? 0) with false. cbv iota. apply wp_ret, Hgoal. right. split; [done|]. exists p. split; [left|].
    split; [split; [done|done|by eapply frame_trans| |by apply (refs_grow_trans 0 1 s s1)]|split].
    + apply (contents_step Hk s1 s2 p); [left|by apply frame_envs|done|done|done].
    + apply (mapping_spaces Hk s2 i e pd); try done; [by rewrite (frame_envs _ _ Hf2)|].
      intros pd' x Hpd' Hx. rewrite Hins, Hmap1 by done. by rewrite Hpp.
    + intros w Hw. rewrite Hcont by done. by apply Hz.
Qed.

(** ** sys_page_unmap *)

Definition page_unmap_result (s : KState) (envid va r : Z) (s' : KState) : Prop :=
  (r = - E_BAD_ENV ∧ s' = s ∧ ∀ i, ¬ resolves s true envid i) ∨
  (∃ i, resolves s true envid i ∧
    ((r = - E_INVAL ∧ s' = s ∧ bad_va va = true) ∨
     (r = 0 ∧ bad_va va = false ∧ paged s s' ∧ spaces_set s s' i (PGNUM va) None))).

Lemma sys_page_unmap_spec PD PT ext fl efl s c envid va :
  kcore PD PT ext fl efl s → cur_ok s → cur s = Some c → 0 ≤ va →
  wp (sys_page_unmap envid va) (page_unmap_result s envid va) no_stop s.
Proof.
  intros Hk Hcur Hc Hva. unfold sys_page_unmap. apply wp_bind.
  eapply wp_mono; [by apply (envid2env_spec Hk Hcur envid true c)| |done].
  intros [r [i|]] s1 [-> Hres]; unfold resolved in Hres; cbn in Hres.
  2:{ destruct Hres as [-> Hno]. apply wp_ret. by left. }
  destruct Hres as (-> & Hi & e & He & Hu). cbn [Z.ltb Z.compare].
  destruct (bad_va va) eqn:Hbv; [apply wp_ret; right; exists i; split; [done|]; by left|].
  apply (bad_va_false va Hva) in Hbv as Hvar. destruct (in_use_dir Hk i e He Hu) as (pd & Hpd & Hdir & _ & _).
  apply wp_bind, wp_deref, wp_bind, (wp_get_env _ e); [done|]. rewrite Hdir. apply wp_bind.
  eapply wp_mono; [by apply (remove_step PD PT ext fl efl)| |done].
  intros [] s' [Hpaged Hmap]. apply wp_ret. right. exists i. split; [done|]. right. split; [done|]. split; [done|]. split; [done|].
  pose proof (pg_frame _ _ Hpaged) as Hf. by apply (mapping_spaces Hk s' i e pd); [apply frame_envs|..].
Qed.

(** ** sys_page_map *)

(** Room in every reference count for one more mapping (pp_ref is 16 bits). *)
Definition refs_room (s : KState) : Prop := ∀ p k, pages s !! p = Some k → pp_ref k < 65535.

Definition page_map_args_bad (srcva dstva perm : Z) : bool := bad_va srcva || bad_va dstva || bad_perm perm.

(** [perm] asks for write access that the source mapping [f] does not have. *)
Definition grants_write (perm f : Z) : bool := ctrue (Z.land perm PTE_W) && (Z.land f PTE_W =? 0).

Definition page_map_result (fl : list Z) (s : KState) (srcid srcva dstid dstva perm r : Z) (s' : KState) : Prop :=
  (r = - E_BAD_ENV ∧ s' = s ∧ ((∀ i, ¬ resolves s true srcid i) ∨ (∀ i, ¬ resolves s true dstid i))) ∨
  (∃ i j, resolves s true srcid i ∧ resolves s true dstid j ∧
    ((r = - E_INVAL ∧ s' = s ∧
       (page_map_args_bad srcva dstva perm = true ∨ aspace s i (PGNUM srcva) = None ∨
        ∃ p f, aspace s i (PGNUM srcva) = Some (p, f) ∧ grants_write perm f = true)) ∨
     (page_map_args_bad srcva dstva perm = false ∧
      ∃ p f, aspace s i (PGNUM srcva) = Some (p, f) ∧ grants_write perm f = false ∧
      ((r = - E_NO_MEM ∧ s' = s ∧ fl = []) ∨
       (r = 0 ∧ paged s s' ∧ spaces_set s s' j (PGNUM dstva) (Some (p, perm)) ∧
          ∀ w, w / 1024 = p → word (phys s') w = word (phys s) w))))).

Lemma sys_page_map_spec PD PT ext fl efl s c srcid srcva dstid dstva perm :
  kcore PD PT ext fl efl s → cur_ok s → cur s = Some c → refs_room s → 0 ≤ srcva → 0 ≤ dstva →
  wp (sys_page_map srcid srcva dstid dstva perm) (page_map_result fl s srcid srcva dstid dstva perm) no_stop s.
Proof.
  intros Hk Hcur Hc Hroom Hsv Hdv. unfold sys_page_map. apply wp_bind.
  eapply wp_mono; [by apply (envid2env_spec Hk Hcur srcid true c)| |done].
  intros [r [i|]] s1 [-> Hres]; unfold resolved in Hres; cbn in Hres.
  2:{ destruct Hres as [-> Hno]. apply wp_ret. left. by split_and!; auto. }
  destruct Hres as (-> & Hi & e & He & Hu). cbn [Z.ltb Z.compare]. apply wp_bind.
  eapply wp_mono; [by apply (envid2env_spec Hk Hcur dstid true c)| |done].
  intros [r [j|]] s1 [-> Hres]; unfold resolved in Hres; cbn in Hres.
  2:{ destruct Hres as [-> Hno]. apply wp_ret. left. by split_and!; auto. }
  destruct Hres as (-> & Hj & ej & Hej & Huj). cbn [Z.ltb Z.compare].
  assert (Hinval : ∀ P, (P → page_map_args_bad srcva dstva perm = true ∨ aspace s i (PGNUM srcva) = None ∨
      ∃ p f, aspace s i (PGNUM srcva) = Some (p, f) ∧ grants_write perm f = true) →
    P → page_map_result fl s srcid srcva dstid dstva perm (- E_INVAL) s).
  { intros P HP Hp. right. exists i, j. do 2 (split; [done|]). left. auto. }
  destruct (bad_va srcva || bad_va dstva) eqn:Hbv.
  { apply wp_ret, (Hinval True); [|done]. intros _. left. unfold page_map_args_bad. by rewrite Hbv. }
  destruct (bad_perm perm) eqn:Hbp.
  { apply wp_ret, (Hinval True); [|done]. intros _. left. unfold page_map_args_bad. by rewrite Hbv, Hbp. }
  assert (Hargs : page_map_args_bad srcva dstva perm = false) by (unfold page_map_args_bad; by rewrite Hbv, Hbp).
  apply orb_false_iff in Hbv as [Hbs Hbd].
  apply (bad_va_false srcva Hsv) in Hbs. apply (bad_va_false dstva Hdv) in Hbd.
  destruct (bad_perm_false perm Hbp) as [Hpr Hpp].
  destruct (in_use_dir Hk i e He Hu) as (pd & Hpd & Hdir & _ & Has).
  destruct (in_use_dir Hk j ej Hej Huj) as (pj & Hpj & Hdirj & _ & _).
  pose proof (kc_mem _ _ _ _ _ _ Hk) as Hm.
  apply wp_bind, wp_deref, wp_bind, (wp_get_env _ e); [done|]. rewrite Hdir. apply wp_bind.
  eapply wp_ok; [by apply (page_lookup_eq PD ext PT fl)|].
  destruct (mapping (phys s) pd (PGNUM srcva)) as [[p f]|] eqn:Hmap; cbn [fmap option_fmap option_map].
  2:{ apply wp_ret, (Hinval True); [|done]. intros _. right; left. by rewrite Has. }
  apply wp_bind, wp_kload32.
  replace (kidx (KERNBASE + 4 * pte_word (phys s) pd srcva)) with (pte_word (phys s) pd srcva) by (unfold kidx; mlia).
  assert (Hf : f = Z.land (word (phys s) (pte_word (phys s) pd srcva)) 0xFFF).
  { rewrite mapping_pte in Hmap. repeat (destruct (present _); [|done]). by injection Hmap. }
  rewrite <- (land_W (word _ _)), <- Hf. fold (grants_write perm f). cbn [fst].
  destruct (grants_write perm f) eqn:Hgw.
  { apply wp_ret, (Hinval True); [|done]. intros _. right; right. exists p, f. by rewrite Has. }
  destruct (mapped_page Hk pd (PGNUM srcva) p f Hpd (user_vpn_UTOP _ Hbs) Hmap) as (Hpfl & HpT & _ & He0 & k & Hpg).
  apply wp_bind, wp_deref, wp_bind, (wp_get_env _ ej); [done|]. rewrite Hdirj. apply wp_bind.
  eapply wp_mono; [apply (insert_step PD PT ext fl efl s pj dstva p k perm); by eauto| |done].
  intros r s' Hins.
  assert (Hgoal : ∀ r s', ((r = - E_NO_MEM ∧ s' = s ∧ fl = []) ∨
       (r = 0 ∧ paged s s' ∧ spaces_set s s' j (PGNUM dstva) (Some (p, perm)) ∧
          ∀ w, w / 1024 = p → word (phys s') w = word (phys s) w)) →
       page_map_result fl s srcid srcva dstid dstva perm r s').
  { intros r' s0 H. right. exists i, j. do 2 (split; [done|]). right. split; [done|]. exists p, f. by rewrite Has. }
  destruct Hins as [(-> & -> & ->)|(-> & Hpaged & Hins & Hcont)]; [apply wp_ret, Hgoal; by left|].
  change (0 <? 0) with false. cbv iota. apply wp_ret, Hgoal. right. split; [done|]. split; [done|]. split; [|done].
  pose proof (pg_frame _ _ Hpaged) as Hfr. apply (mapping_spaces Hk s' j ej pj); try done; [by apply frame_envs|].
  intros pd' x Hpd' Hx. rewrite Hins by done. by rewrite Hpp.
Qed.
