(* ===== verification/SyscallSafe.v ===== *)
(** * Every system call keeps the kernel invariant

    Specifications of the system calls of kern/syscall.c that SyscallProofs
    does not cover, and the dispatcher: from a state with the kernel
    invariant a system call either returns to the same environment with the
    invariant intact or gives up the CPU in one of the ways [leaves] allows.
    [syscall_stops] lists the system calls that can make the kernel stop for
    good instead (a panic, a read past a table, a loop without end), and
    [corrupts] the two that can break the invariant: each is a flaw of the
    code. *)

From S2P Require Import Prelude Console Mmu KState KWp Pmap PmapInv PmapSpec PmapDir PmapOps VMem Env EnvFree KInv.
From S2P Require Import SchedProofs EnvProofs UserMem Syscall SyscallProofs.

Lemma returns_refl s : kinv s → cur_ok s → held s → returns s s.
Proof. by split. Qed.

Lemma returns_paged s s' : held s → paged s s' → returns s s'.
Proof. intros Hh [? ? Hf _ _]. split; [done|done|by eapply frame_held|by apply frame_cur]. Qed.

Lemma returns_trans s1 s2 s3 : returns s1 s2 → returns s2 s3 → returns s1 s3.
Proof. intros [] []. split; [done..|congruence]. Qed.

(** [curenv] when an environment is current. *)
Lemma wp_current c (Q : option Z → KState → Prop) E s :
  cur_ok s → cur s = Some c → (∀ e, envs s !! c = Some e → in_use e → Q (Some c) s) → wp curenv Q E s.
Proof.
  intros (cpu & Hcpu & Hce) Hc HQ. eapply wp_curenv; [done|].
  assert (Hcc : cpu_env cpu = Some c) by (unfold cur in Hc; by rewrite Hcpu in Hc).
  rewrite Hcc. destruct (Hce c Hcc) as (e & He & Hu). by eapply HQ.
Qed.

(** An update of a slot in use that leaves its id and directory alone. *)
Lemma wp_upd_user PD PT ext fl efl s i f e (Q : unit → KState → Prop) E :
  kcore PD PT ext fl efl s → cur_ok s → held s → envs s !! i = Some e → in_use e →
  in_use (f e) → env_id (f e) = env_id e → env_pgdir (f e) = env_pgdir e →
  (∀ s', s' = set_envs (<[i := f e]> (envs s)) s → kcore PD PT ext fl efl s' → returns s s' → Q tt s') →
  wp (upd_env i f) Q E s.
Proof.
  intros Hk Hcur Hh He Hu Hu' Hid Hd HQ. eapply wp_upd_env; [done|].
  assert (Hk' : kcore PD PT ext fl efl (set_envs (<[i := f e]> (envs s)) s)) by by eapply kcore_upd.
  apply HQ; [done|done|]. split; [by exists PD, PT, ext, fl, efl|by apply cur_ok_upd|done|done].
Qed.

(** Applies [wp_upd_user] in state [s]; the entry is a hypothesis or was just written. *)
Ltac entry_of s :=
  match goal with
  | H : envs s !! ?i = Some _ |- envs s !! ?i = _ => exact H
  | H : s = set_envs (<[?i := _]> _) _ |- envs s !! ?i = _ => rewrite H; cbn; apply lookup_insert_eq
  end.
Ltac upd_user s :=
  eapply (wp_upd_user _ _ _ _ _ s);
  [eassumption|assumption|assumption|entry_of s|done|done|reflexivity|reflexivity|].

(** Failure of envid2env, or the slot [i] it found. *)
Definition env_result (s : KState) (chk : bool) (envid r : Z) (s' : KState) (P : Z → Env → Prop) : Prop :=
  (r = - E_BAD_ENV ∧ s' = s ∧ ∀ i, ¬ resolves s chk envid i) ∨
  (∃ i e, resolves s chk envid i ∧ envs s !! i = Some e ∧ in_use e ∧ P i e).

(** ** Arguments of a send *)

Lemma land_pow2_ne0 x k : 0 ≤ k → Z.land x (2 ^ k) ≠ 0 → Z.testbit x k = true.
Proof.
  intros Hk H. destruct (Z.testbit x k) eqn:E; [done|]. destruct H. apply Z.bits_inj'. intros n Hn.
  rewrite Z.land_spec, Z.bits_0. destruct (decide (n = k)) as [->|]; [by rewrite E|].
  rewrite Z.pow2_bits_false by lia. by rewrite andb_false_r.
Qed.

(** The permission test of sys_ipc_try_send accepts what sys_page_map accepts. *)
Lemma ipc_perm_ok perm :
  (Z.land perm PTE_P =? 0) || (Z.land perm PTE_U =? 0) || ctrue (Z.land perm (Z.lnot PTE_SYSCALL)) = bad_perm perm.
Proof.
  unfold bad_perm, ctrue. destruct (negb (Z.land perm (Z.lnot PTE_SYSCALL) =? 0)); [by rewrite !orb_true_r|].
  rewrite !orb_false_r. destruct (Z.land perm PTE_P =? 0) eqn:HP; [|destruct (Z.land perm PTE_U =? 0) eqn:HU]; symmetry.
  { apply Z.eqb_eq in HP. apply negb_true_iff, Z.eqb_neq. intros H5.
    assert (Z.land (Z.land perm (Z.lor PTE_U PTE_P)) PTE_P = PTE_P) as Hx by (by rewrite H5).
    rewrite <- Z.land_assoc in Hx. change (Z.land (Z.lor PTE_U PTE_P) PTE_P) with PTE_P in Hx. by rewrite HP in Hx. }
  { apply Z.eqb_eq in HU. apply negb_true_iff, Z.eqb_neq. intros H5.
    assert (Z.land (Z.land perm (Z.lor PTE_U PTE_P)) PTE_U = PTE_U) as Hx by (by rewrite H5).
    rewrite <- Z.land_assoc in Hx. change (Z.land (Z.lor PTE_U PTE_P) PTE_U) with PTE_U in Hx. by rewrite HU in Hx. }
  apply Z.eqb_neq in HP, HU. apply negb_false_iff, Z.eqb_eq.
  apply (land_pow2_ne0 _ 0) in HP; [|lia]. apply (land_pow2_ne0 _ 2) in HU; [|lia].
  apply Z.bits_inj'. intros n Hn. rewrite Z.land_spec. change (Z.lor PTE_U PTE_P) with 5.
  destruct (decide (n = 0)) as [->|]; [by rewrite HP|]. destruct (decide (n = 2)) as [->|]; [by rewrite HU|].
  destruct (decide (n = 1)) as [->|]; [by rewrite andb_false_r|].
  rewrite (Z.bits_above_log2 5 n) by (cbn; lia). by rewrite andb_false_r.
Qed.

(** Changing fields of an entry other than its directory. *)
Lemma aspace_upd s s1 i d d' :
  phys s1 = phys s → envs s !! i = Some d → envs s1 = <[i := d']> (envs s) → env_pgdir d' = env_pgdir d →
  ∀ j x, aspace s1 j x = aspace s j x.
Proof.
  intros Hp Hd He Hdir j x. unfold aspace. rewrite He, Hp. destruct (decide (j = i)) as [->|].
  - rewrite lookup_insert_eq, Hd. unfold env_dir. by rewrite Hdir.
  - by rewrite lookup_insert_ne.
Qed.

Section Calls.
Context {PD PT : gset Z} {ext : Z → Z} {fl efl : list Z} {s : KState} {c : Z}.
Context (Hk : kcore PD PT ext fl efl s) (Hcur : cur_ok s) (Hh : held s) (Hc : cur s = Some c).

Lemma s_kinv : kinv s.
Proof. by exists PD, PT, ext, fl, efl. Qed.

Lemma s_returns : returns s s.
Proof. apply returns_refl; [apply s_kinv|done|done]. Qed.

Lemma sys_getenvid_spec E :
  wp sys_getenvid (λ r s', s' = s ∧ ∃ e, envs s !! c = Some e ∧ r = env_id e) E s.
Proof.
  unfold sys_getenvid. apply wp_bind, (wp_current c); [done|done|]. intros e He Hu.
  apply wp_bind, wp_deref, wp_bind, (wp_get_env _ e); [done|]. apply wp_ret. eauto.
Qed.

(** The start of most system calls. *)
Lemma with_env {A} chk envid (k : Z * option Z → K A) (Q : A → KState → Prop) E :
  ((∀ i, ¬ resolves s chk envid i) → wp (k (- E_BAD_ENV, None)) Q E s) →
  (∀ i e, resolves s chk envid i → envs s !! i = Some e → in_use e → wp (k (0, Some i)) Q E s) →
  wp (r ← envid2env envid chk; k r) Q E s.
Proof.
  intros Hbad Hok. apply wp_bind. eapply wp_call; [by apply (envid2env_spec Hk Hcur envid chk c)|].
  intros [r [i|]] s1 [-> Hres]; unfold resolved in Hres; cbn in Hres.
  - destruct Hres as (-> & Hi & e & He & Hu). by eapply Hok.
  - destruct Hres as [-> Hno]. by apply Hbad.
Qed.

Definition set_status_done (s' : KState) (status r : Z) (i : Z) (e : Env) : Prop :=
  match status_of_int status with
  | None => r = - E_INVAL ∧ s' = s
  | Some st => r = 0 ∧ s' = set_envs (<[i := set_env_status st e]> (envs s)) s
  end.

Lemma status_of_int_in_use st z e : status_of_int z = Some st → in_use (set_env_status st e).
Proof. unfold status_of_int, in_use. cbn. intros H. repeat case_match; by simplify_eq. Qed.

Lemma sys_env_set_status_spec envid status E :
  wp (sys_env_set_status envid status)
    (λ r s', returns s s' ∧ env_result s true envid r s' (set_status_done s' status r)) E s.
Proof.
  unfold sys_env_set_status. apply (with_env true envid).
  { intros Hno. apply wp_ret. split; [apply s_returns|]. by left. }
  intros i e Hi He Hu. cbn [Z.ltb Z.compare]. destruct (status_of_int status) as [st|] eqn:Hst.
  - apply wp_bind, wp_deref, wp_bind.
    eapply (wp_upd_user PD PT ext fl efl); try done; [by eapply status_of_int_in_use|].
    intros s' Hs' _ Hret. apply wp_ret. split; [done|]. right. exists i, e. unfold set_status_done. by rewrite Hst.
  - apply wp_ret. split; [apply s_returns|]. right. exists i, e. unfold set_status_done. by rewrite Hst.
Qed.

Lemma sys_env_set_pgfault_upcall_spec envid func E :
  wp (sys_env_set_pgfault_upcall envid func)
    (λ r s', returns s s' ∧ env_result s true envid r s' (λ i e, r = 0 ∧
       s' = set_envs (<[i := set_env_pgfault_upcall func e]> (envs s)) s)) E s.
Proof.
  unfold sys_env_set_pgfault_upcall. apply (with_env true envid).
  { intros Hno. apply wp_ret. split; [apply s_returns|]. by left. }
  intros i e Hi He Hu. cbn [Z.ltb Z.compare]. apply wp_bind, wp_deref, wp_bind.
  eapply (wp_upd_user PD PT ext fl efl); try done.
  intros s' Hs' _ Hret. apply wp_ret. split; [done|]. right. by exists i, e.
Qed.

Lemma sys_env_destroy_spec envid :
  wp (sys_env_destroy envid)
    (λ r s', returns s s' ∧ env_result s true envid r s' (λ i _, r = 0 ∧ cur s ≠ Some i ∧ gone s' i))
    (λ r s', resolves s true envid c ∧ leaves r s') s.
Proof.
  unfold sys_env_destroy. apply (with_env true envid).
  { intros Hno. apply wp_ret. split; [apply s_returns|]. by left. }
  intros i e Hi He Hu. cbn [Z.ltb Z.compare]. apply wp_bind, wp_deref, wp_bind, (wp_current c); [done|done|].
  intros v Hv Huv. apply wp_bind. eapply wp_mono; [apply (sys_getenvid_spec no_stop)|..|by intros ??[]].
  intros id s1 [-> _]. apply wp_bind, (wp_get_env _ e); [done|]. apply wp_bind.
  assert (Hd : ∀ ev, wp (env_destroy i ;; mret 0)
    (λ r s', returns s s' ∧ env_result s true envid r s' (λ i _, r = 0 ∧ cur s ≠ Some i ∧ gone s' i))
    (λ r s', resolves s true envid c ∧ leaves r s') (set_trace ev s)).
  { intros ev. apply wp_bind. eapply wp_mono; [eapply (env_destroy_spec PD PT ext fl efl _ i e)|..]; try done.
    - by eapply kcore_ext.
    - intros [] s' (Hne & ? & ? & ? & ? & ?). apply wp_ret. split; [by split|]. right. by exists i, e.
    - intros r s' [Hself Hl]. split; [|done]. change (cur s = Some i) in Hself. by rewrite Hc in Hself; simplify_eq. }
  case_bool_decide; apply wp_cprintf, Hd.
Qed.

(** *** sys_exofork *)

(** The child of [v0] in slot [e] with page directory page [p]: the parent's
    registers with a 0 return value, not yet runnable. *)
Definition forked (v0 : Env) (e p : Z) (v : Env) : Env :=
  set_env_tf (set_tf_regs (set_reg_eax 0 (tf_regs (env_tf v0))) (env_tf v0))
    (set_env_status ENV_NOT_RUNNABLE (new_env (env_id v0) e p v)).

Lemma forked_id v0 e p v : env_id (forked v0 e p v) = next_env_id (env_id v) e.
Proof. done. Qed.

Definition exofork_result (r : Z) (s' : KState) : Prop :=
  (r = - E_NO_FREE_ENV ∧ efl = [] ∧ s' = s) ∨ (r = - E_NO_MEM ∧ fl = [] ∧ s' = s) ∨
  ∃ v0 e p v, envs s !! c = Some v0 ∧ envs s !! e = Some v ∧ env_status v = ENV_FREE ∧
    r = next_env_id (env_id v) e ∧ envs s' = <[e := forked v0 e p v]> (envs s) ∧
    (∀ x, user_vpn x → aspace s' e x = None) ∧ spaces_kept s s' ∧ cr3 s' = cr3 s ∧
    contents_kept s s' ∧ refs_grow 1 s s'.

Lemma sys_exofork_spec E : wp sys_exofork (λ r s', returns s s' ∧ exofork_result r s') E s.
Proof.
  unfold sys_exofork. apply wp_bind. eapply wp_mono; [apply (sys_getenvid_spec no_stop)|..|by intros ??[]].
  intros id s1 (-> & v0 & Hv0 & ->). apply wp_bind. eapply wp_call; [by eapply (env_alloc_spec PD PT ext fl efl)|].
  intros r s1 [(-> & ? & ->)|[(-> & ? & ->)|(e & p & -> & Hal & Hcur1)]]; cbn;
    [apply wp_ret; split; [apply s_returns|by left]|apply wp_ret; split; [apply s_returns|by right; left]|].
  destruct Hal as [(fl' & efl' & -> & -> & Hk1) Hfresh (v & Hv & Hst & Henvs) Hempty Hoth Hf Hcr Hrefs].
  assert (Huv0 : in_use v0).
  { destruct Hcur as (cpu & Hcpu & Hce). unfold cur in Hc. rewrite Hcpu in Hc. destruct (Hce c Hc) as (? & ? & ?). congruence. }
  assert (Hec : e ≠ c) by congruence.
  remember (new_env (env_id v0) e p v) as n eqn:Hn. assert (Hun : in_use n) by by rewrite Hn.
  pose proof (kframe_held _ _ Hf Hh) as Hh1. pose proof (kframe_cur _ _ Hf) as Hc1.
  assert (He1 : envs s1 !! e = Some n) by by rewrite Henvs, lookup_insert_eq.
  apply wp_bind, wp_deref, wp_bind. upd_user s1.
  intros s2 Hs2 Hk2 Hr2. destruct (Hr2) as [_ Hcur2 Hh2 Hc2].
  apply wp_bind, (wp_current c); [done|congruence|]. intros v0' Hv0' _.
  assert (v0' = v0) as -> by (rewrite Hs2 in Hv0'; cbn in Hv0'; rewrite lookup_insert_ne, Henvs, lookup_insert_ne in Hv0' by done; congruence).
  apply wp_bind, wp_deref, wp_bind, (wp_get_env _ v0); [done|].
  assert (He2 : envs s2 !! e = Some (set_env_status ENV_NOT_RUNNABLE n)) by by rewrite Hs2; cbn; rewrite lookup_insert_eq.
  apply wp_bind. upd_user s2. intros s3 Hs3 Hk3 Hr3. destruct (Hr3) as [_ Hcur3 Hh3 Hc3].
  apply wp_bind. upd_user s3.
  intros s4 Hs4 Hk4 Hr4.
  assert (Hen4 : envs s4 = <[e := forked v0 e p v]> (envs s)).
  { rewrite Hs4, Hs3, Hs2. cbn. rewrite Henvs, !insert_insert_eq. unfold forked. by rewrite <- Hn. }
  apply wp_bind, (wp_get_env _ (forked v0 e p v)); [by rewrite Hen4, lookup_insert_eq|].
  apply wp_ret. split.
  { destruct Hr4 as [H1 H2 H3 H4]. split; [done|done|done|]. rewrite H4, Hc3, Hc2, Hc1. done. }
  assert (Hph4 : phys s4 = phys s1) by (rewrite Hs4, Hs3, Hs2; done).
  right; right. exists v0, e, p, v. do 3 (split; [done|]). split; [apply forked_id|]. split; [done|]. split; [|split; [|split; [|split]]].
  - intros x Hx. unfold aspace. rewrite Hen4, lookup_insert_eq, Hph4, (env_dir_kdir _ p) by done. by apply Hempty.
  - intros j x (ej & Hj & Huj) Hx. unfold aspace. rewrite Hen4, Hj, Hph4, lookup_insert_ne, Hj by congruence.
    destruct (kc_dir _ _ _ _ _ _ Hk j ej Hj Huj) as (pj & Hpj & Hdj & _). rewrite (env_dir_kdir ej pj) by done.
    by eapply (alloc_mapping PD PT ext).
  - rewrite Hs4, Hs3, Hs2. done.
  - apply (mem_kept_contents Hk PT); [by left|]. intros w _ [Hw _]%not_elem_of_cons. rewrite Hph4. by apply Hoth.
  - rewrite Hs4, Hs3, Hs2. exact Hrefs.
Qed.

(** *** Blocking *)

Lemma sys_yield_spec : wp sys_yield (λ _ _, False) (exits c) s.
Proof.
  unfold sys_yield. eapply wp_mono; [by eapply (sched_yield_any PD PT ext fl efl)|done|].
  intros r s'. by apply sched_outcome_exits.
Qed.

(** The receiver's entry while it waits. *)
Definition blocked (dstva : Z) (e : Env) : Env :=
  set_env_ipc_from 0 (set_env_status ENV_NOT_RUNNABLE (set_env_ipc_dstva dstva (set_env_ipc_recving true e))).

Lemma sys_ipc_recv_spec dstva :
  wp (sys_ipc_recv dstva) (λ r s', r = - E_INVAL ∧ s' = s ∧ dstva < UTOP ∧ PGOFF dstva ≠ 0)
    (λ r s', exits c r s' ∧ ∃ e, envs s !! c = Some e ∧
       sched_outcome (set_envs (<[c := blocked dstva e]> (envs s)) s) r s') s.
Proof.
  unfold sys_ipc_recv. destruct ((dstva <? UTOP) && ctrue (PGOFF dstva)) eqn:Hbad.
  { apply wp_ret. apply andb_true_iff in Hbad as [H1 H2]. apply ctrue_true in H2. split_and!; try done. lia. }
  apply wp_bind, (wp_current c); [done|done|]. intros e He Hu. apply wp_bind, wp_deref, wp_bind.
  eapply (wp_upd_user PD PT ext fl efl); try done. intros s1 Hs1 Hk1 [_ Hcur1 Hh1 Hc1]. apply wp_bind.
  upd_user s1.
  intros s2 Hs2 Hk2 [_ Hcur2 Hh2 Hc2]. apply wp_bind.
  upd_user s2.
  intros s3 Hs3 Hk3 [_ Hcur3 Hh3 Hc3]. apply wp_bind.
  upd_user s3.
  intros s4 Hs4 Hk4 [_ Hcur4 Hh4 Hc4].
  assert (Heq : s4 = set_envs (<[c := blocked dstva e]> (envs s)) s).
  { rewrite Hs4, Hs3, Hs2, Hs1. cbn. by rewrite !insert_insert_eq. }
  eapply wp_mono; [by eapply (sched_yield_any PD PT ext fl efl s4)|done|].
  intros r s' Hp. split; [eapply (sched_outcome_exits c s4); [congruence|done]|]. exists e. by rewrite <- Heq.
Qed.

(** *** sys_ipc_try_send *)

(** The page argument of a send is acceptable, and is page [p]. *)
Definition sent_page (srcva perm p : Z) : Prop :=
  PGOFF srcva = 0 ∧ bad_perm perm = false ∧ ∃ f, aspace s c (PGNUM srcva) = Some (p, f) ∧ grants_write perm f = false.

(** The page argument is refused: unaligned, bad permissions, nothing mapped,
    or write permission on a read-only page. *)
Definition send_refused (srcva perm : Z) : Prop :=
  PGOFF srcva ≠ 0 ∨ bad_perm perm = true ∨
  ∀ p f, aspace s c (PGNUM srcva) = Some (p, f) → grants_write perm f = true.

Definition send_page_result (i : Z) (d : Env) (srcva perm : Z) (r : Z + unit) (s' : KState) : Prop :=
  match r with
  | inl z => s' = s ∧ ((z = - E_INVAL ∧ send_refused srcva perm) ∨
      (z = - E_NO_MEM ∧ fl = [] ∧ env_ipc_dstva d ≠ 0 ∧ ∃ p, sent_page srcva perm p))
  | inr _ => ∃ p, sent_page srcva perm p ∧
      if decide (env_ipc_dstva d = 0) then s' = s
      else ∃ s1, paged s s1 ∧ spaces_set s s1 i (PGNUM (env_ipc_dstva d)) (Some (p, perm)) ∧
             s' = set_envs (<[i := set_env_ipc_perm perm d]> (envs s1)) s1
  end.

Lemma ipc_send_page_spec i d srcva perm E :
  envs s !! i = Some d → in_use d → 0 ≤ env_ipc_dstva d < UTOP → refs_room s → 0 ≤ srcva < UTOP →
  wp (ipc_send_page i srcva perm) (send_page_result i d srcva perm) E s.
Proof.
  intros Hd Hu Hdst Hroom Hsrc. unfold ipc_send_page.
  assert (Hbad : send_refused srcva perm → send_page_result i d srcva perm (inl (- E_INVAL)) s) by (split; auto).
  rewrite <- !orb_assoc, (orb_assoc (Z.land perm PTE_P =? 0)), ipc_perm_ok.
  destruct (ctrue (PGOFF srcva)) eqn:Hoff; [apply ctrue_true in Hoff; by apply wp_ret, Hbad; left|].
  apply ctrue_false in Hoff. cbn [orb]. destruct (bad_perm perm) eqn:Hargs; [by apply wp_ret, Hbad; right; left|].
  destruct (bad_perm_false perm Hargs) as [Hpr Hpp].
  apply wp_bind, (wp_current c); [done|done|]. intros v Hv Huv.
  apply wp_bind, wp_deref, wp_bind, (wp_get_env _ v); [done|].
  destruct (in_use_dir Hk c v Hv Huv) as (pd & Hpd & Hdir & _ & Has).
  destruct (in_use_dir Hk i d Hd Hu) as (pj & Hpj & Hdirj & _ & _).
  pose proof (kc_mem _ _ _ _ _ _ Hk) as Hm. rewrite Hdir. apply wp_bind.
  eapply wp_ok; [by apply (page_lookup_eq PD ext PT fl)|].
  destruct (mapping (phys s) pd (PGNUM srcva)) as [[p f]|] eqn:Hmap; cbn [fmap option_fmap option_map].
  2:{ apply wp_ret, Hbad. right; right. intros p f. by rewrite Has, Hmap. }
  apply wp_bind, wp_kload32.
  replace (kidx (KERNBASE + 4 * pte_word (phys s) pd srcva)) with (pte_word (phys s) pd srcva) by (unfold kidx; mlia).
  assert (Hf : f = Z.land (word (phys s) (pte_word (phys s) pd srcva)) 0xFFF).
  { rewrite mapping_pte in Hmap. repeat (destruct (present _); [|done]). by injection Hmap. }
  rewrite <- (land_W (word _ _)), <- Hf.
  assert (Hgr : negb (ctrue (Z.land f PTE_W)) = (Z.land f PTE_W =? 0)) by (unfold ctrue; by rewrite negb_involutive).
  rewrite Hgr. fold (grants_write perm f). cbn [fst].
  destruct (grants_write perm f) eqn:Hgw.
  { apply wp_ret, Hbad. right; right. intros p' f'. rewrite Has, Hmap. congruence. }
  assert (Hsent : sent_page srcva perm p) by (split; [done|]; split; [done|]; exists f; by rewrite Has).
  destruct (mapped_page Hk pd (PGNUM srcva) p f Hpd (user_vpn_UTOP _ Hsrc) Hmap) as (Hpfl & HpT & _ & He0 & k & Hpg).
  apply wp_bind, (wp_get_env _ d); [done|]. destruct (ctrue (env_ipc_dstva d)) eqn:Hz.
  2:{ apply ctrue_false in Hz. apply wp_ret. exists p. split; [done|]. by rewrite decide_True. }
  apply ctrue_true in Hz. rewrite Hdirj. apply wp_bind.
  eapply wp_call; [apply (insert_step PD PT ext fl efl s pj _ p k perm); by eauto|].
  intros r s1 [(-> & -> & Hfl)|(-> & Hpaged & Hins & _)]; [apply wp_ret; split; [done|]; right; by eauto|].
  change (0 <? 0) with false. cbv iota. pose proof (pg_frame _ _ Hpaged) as Hfr.
  apply wp_bind. eapply wp_upd_env; [by rewrite (frame_envs _ _ Hfr)|]. apply wp_ret. exists p. split; [done|].
  rewrite decide_False by done. exists s1. split; [done|]. split; [|done].
  apply (mapping_spaces Hk s1 i d pj); try done; [by apply frame_envs|].
  intros pd' x Hpd' Hx. rewrite Hins by done. by rewrite Hpp.
Qed.

End Calls.

Lemma set_envs_twice a b s : set_envs a (set_envs b s) = set_envs a s.
Proof. done. Qed.

(** What a successful send writes into the receiver's entry. *)
Definition delivered (id value : Z) (d : Env) : Env :=
  set_env_tf (set_tf_regs (set_reg_eax 0 (tf_regs (env_tf d))) (env_tf d))
    (set_env_status ENV_RUNNABLE (set_env_ipc_value value (set_env_ipc_recving false (set_env_ipc_from id d)))).

Lemma deliver_spec s c i d value E :
  kinv s → cur_ok s → held s → cur s = Some c → envs s !! i = Some d → in_use d →
  wp (ipc_deliver i value)
    (λ r s', r = 0 ∧ returns s s' ∧ ∃ v0, envs s !! c = Some v0 ∧
       s' = set_envs (<[i := delivered (env_id v0) value d]> (envs s)) s) E s.
Proof.
  intros (PD & PT & ext & fl & efl & Hk) Hcur Hh Hc Hd Hu. unfold ipc_deliver. apply wp_bind.
  eapply wp_mono; [apply (sys_getenvid_spec (c := c) Hcur Hc no_stop)|..|by intros ??[]].
  intros id s0 (-> & v0 & Hv0 & ->).
  apply wp_bind. upd_user s. intros s1 Hs1 Hk1 [_ Hcur1 Hh1 Hc1].
  apply wp_bind. upd_user s1. intros s2 Hs2 Hk2 [_ Hcur2 Hh2 Hc2].
  apply wp_bind. upd_user s2. intros s3 Hs3 Hk3 [_ Hcur3 Hh3 Hc3].
  apply wp_bind. upd_user s3. intros s4 Hs4 Hk4 [_ Hcur4 Hh4 Hc4].
  apply wp_bind. upd_user s4. intros s5 Hs5 Hk5 [Hi5 Hcur5 Hh5 Hc5]. apply wp_ret. split; [done|].
  split; [by split; [done..|congruence]|]. exists v0. split; [done|].
  rewrite Hs5, Hs4, Hs3, Hs2, Hs1. cbn. by rewrite !insert_insert_eq.
Qed.

Section Send.
Context {PD PT : gset Z} {ext : Z → Z} {fl efl : list Z} {s : KState} {c : Z}.
Context (Hk : kcore PD PT ext fl efl s) (Hcur : cur_ok s) (Hh : held s) (Hc : cur s = Some c).

(** The receiver [i] with entry [d] has got the message.  A page that is sent
    is acceptable; it is mapped at the receiver's [env_ipc_dstva], unless that
    is 0, and only then does [env_ipc_perm] change. *)
Definition ipc_done (value srcva perm : Z) (s' : KState) (i : Z) (d : Env) : Prop :=
  ∃ v0 d1, envs s !! c = Some v0 ∧ envs s' = <[i := delivered (env_id v0) value d1]> (envs s) ∧
    (srcva < UTOP → ∃ p, sent_page (s := s) (c := c) srcva perm p) ∧
    if decide (srcva < UTOP ∧ env_ipc_dstva d ≠ 0)
    then ∃ p, sent_page (s := s) (c := c) srcva perm p ∧ d1 = set_env_ipc_perm perm d ∧
           spaces_set s s' i (PGNUM (env_ipc_dstva d)) (Some (p, perm))
    else d1 = d ∧ spaces_kept s s'.

Definition ipc_sent (value srcva perm r : Z) (s' : KState) (i : Z) (d : Env) : Prop :=
  (r = - E_IPC_NOT_RECV ∧ s' = s ∧ (env_ipc_recving d = false ∨ env_ipc_from d ≠ 0)) ∨
  (env_ipc_recving d = true ∧ env_ipc_from d = 0 ∧
   ((r = - E_INVAL ∧ s' = s ∧ srcva < UTOP ∧ send_refused (s := s) (c := c) srcva perm) ∨
    (r = - E_NO_MEM ∧ s' = s ∧ srcva < UTOP ∧ fl = [] ∧ env_ipc_dstva d ≠ 0 ∧ ∃ p, sent_page (s := s) (c := c) srcva perm p) ∨
    (r = 0 ∧ ipc_done value srcva perm s' i d))).

(** A page is sent to an environment that waits at or above UTOP, the address
    for "no page": the code maps the page there, over the kernel's tables. *)
Definition page_above_UTOP (envid srcva : Z) : Prop :=
  srcva < UTOP ∧ ∃ i d, resolves s false envid i ∧ envs s !! i = Some d ∧
    env_ipc_recving d = true ∧ env_ipc_from d = 0 ∧ ¬ (0 ≤ env_ipc_dstva d < UTOP).

(** Delivery of a message without a page. *)
Lemma done_plain value srcva perm i d v0 :
  ¬ (srcva < UTOP ∧ env_ipc_dstva d ≠ 0) → (srcva < UTOP → ∃ p, sent_page (s := s) (c := c) srcva perm p) →
  envs s !! i = Some d → envs s !! c = Some v0 →
  ipc_done value srcva perm (set_envs (<[i := delivered (env_id v0) value d]> (envs s)) s) i d.
Proof.
  intros Hno Hsent Hd Hv0. exists v0, d. do 3 (split; [done|]). rewrite decide_False by done.
  split; [done|]. intros j x _ _. by apply (aspace_upd s _ i d (delivered (env_id v0) value d)).
Qed.

(** Delivery after the page operations that lead to [s2]. *)
Lemma done_page value srcva perm i d p s2 v0 :
  srcva < UTOP → env_ipc_dstva d ≠ 0 → envs s !! i = Some d →
  sent_page (s := s) (c := c) srcva perm p → envs s2 = envs s →
  spaces_set s s2 i (PGNUM (env_ipc_dstva d)) (Some (p, perm)) →
  <[i := set_env_ipc_perm perm d]> (envs s2) !! c = Some v0 →
  ipc_done value srcva perm
    (set_envs (<[i := delivered (env_id v0) value (set_env_ipc_perm perm d)]> (envs s2)) s2) i d.
Proof.
  intros Hlt Hz Hd Hsent He2 Hset Hv0. destruct Hcur as (cpu & Hcpu & Hce).
  assert (Hcc : cpu_env cpu = Some c) by (unfold cur in Hc; by rewrite Hcpu in Hc).
  destruct (Hce c Hcc) as (v1 & Hv1 & _). exists v1, (set_env_ipc_perm perm d). split; [done|].
  assert (Hid : env_id v0 = env_id v1).
  { rewrite He2 in Hv0. destruct (decide (c = i)) as [->|];
      [rewrite lookup_insert_eq in Hv0|rewrite lookup_insert_ne in Hv0 by done]; simplify_eq; done. }
  rewrite Hid, decide_True by done. split; [by cbn; rewrite He2|]. split; [by eauto|]. exists p. do 2 (split; [done|]).
  intros j x Hj Hx. rewrite <- Hset by done. eapply (aspace_upd s2 _ i d); [done|by rewrite He2|done|done].
Qed.

Lemma sys_ipc_try_send_spec envid value srcva perm E :
  ¬ page_above_UTOP envid srcva → refs_room s → 0 ≤ srcva →
  wp (sys_ipc_try_send envid value srcva perm)
    (λ r s', returns s s' ∧ env_result s false envid r s' (ipc_sent value srcva perm r s')) E s.
Proof.
  intros Hrecv Hroom Hsrc. unfold sys_ipc_try_send. apply (with_env Hk Hcur Hc).
  { intros Hno. apply wp_ret. split; [by eapply s_returns|]. by left. }
  intros i d Hi Hd Hu. cbn [Z.ltb Z.compare]. apply wp_bind, wp_deref, wp_bind, (wp_get_env _ d); [done|].
  assert (Hgoal : ∀ r s', returns s s' → ipc_sent value srcva perm r s' i d →
    returns s s' ∧ env_result s false envid r s' (ipc_sent value srcva perm r s')).
  { intros r s' Hret H. split; [done|]. right. by exists i, d. }
  destruct (negb (env_ipc_recving d) || negb (env_ipc_from d =? 0)) eqn:Hnr.
  { apply wp_ret, Hgoal; [by eapply s_returns|]. left. do 2 (split; [done|]).
    apply orb_true_iff in Hnr as [H|H]; [left; by apply negb_true_iff|right; by apply negb_true_iff, Z.eqb_neq in H]. }
  apply orb_false_iff in Hnr as [Hr Hfr]. apply negb_false_iff in Hr, Hfr. apply Z.eqb_eq in Hfr.
  assert (Hplain : ¬ (srcva < UTOP ∧ env_ipc_dstva d ≠ 0) → (srcva < UTOP → ∃ p, sent_page (s := s) (c := c) srcva perm p) → ∀ E, wp (ipc_deliver i value)
    (λ r s', returns s s' ∧ env_result s false envid r s' (ipc_sent value srcva perm r s')) E s).
  { intros Hno Hs E'. eapply wp_mono; [by apply (deliver_spec s c i d value E'); [eapply s_kinv| ..]| |done].
    intros r s' (-> & Hret & v0 & Hv0 & ->). apply Hgoal; [done|]. right. do 2 (split; [done|]). right; right.
    split; [done|]. by apply done_plain. }
  apply wp_bind. destruct (srcva <? UTOP) eqn:Hlt; [|apply wp_ret, Hplain; lia].
  apply Z.ltb_lt in Hlt.
  assert (Hdst : 0 ≤ env_ipc_dstva d < UTOP).
  { destruct (decide (0 ≤ env_ipc_dstva d < UTOP)); [done|]. destruct Hrecv. split; [done|]. by exists i, d. }
  eapply wp_call; [by eapply (ipc_send_page_spec Hk Hcur Hc i d); eauto|].
  intros [z|[]] s1 Hres; cbn in Hres.
  { destruct Hres as [-> Hz]. apply wp_ret, Hgoal; [by eapply s_returns|]. right. do 2 (split; [done|]). naive_solver. }
  destruct Hres as (p & Hsent & Hres). case_decide as Hz; [subst s1; apply Hplain; [tauto|by eauto]|].
  destruct Hres as (s2 & Hpaged & Hset & ->). pose proof (pg_frame _ _ Hpaged) as Hf. pose proof (frame_envs _ _ Hf) as He2.
  destruct (returns_paged _ _ Hh Hpaged) as [(PD2 & PT2 & ext2 & fl2 & efl2 & Hk2) Hcur2 Hh2 Hc2].
  eapply wp_mono; [eapply (deliver_spec _ c i (set_env_ipc_perm perm d))| |done].
  - exists PD2, PT2, ext2, fl2, efl2. eapply kcore_upd; [done|by rewrite He2|done|done|done|done].
  - by apply cur_ok_upd.
  - done.
  - by rewrite <- Hc, <- Hc2.
  - cbn. by rewrite lookup_insert_eq.
  - done.
  - intros r s' (-> & [Hr1 Hr2 Hr3 Hr4] & v0 & Hv0 & ->). apply Hgoal; [by split; [done..|exact Hc2]|].
    right. do 2 (split; [done|]). right; right. split; [done|]. rewrite set_envs_twice. cbn [envs set_envs]. rewrite insert_insert_eq.
    by apply (done_page _ _ _ _ _ p).
Qed.

End Send.

(** ** System calls that read user memory *)

(** A page fault in the kernel. *)
Definition kernel_fault : kstop := Panic "page_falut in kernel mode".

Lemma vload8_any a s : wp (vload8 a) (λ _ s', s' = s) (λ r s', r = kernel_fault ∧ s' = s) s.
Proof. unfold vload8. apply wp_bind, wp_gets. cbn [id]. by destruct (mmu_translate _ _ _ _). Qed.

Lemma print_str_any fuel p precision acc s :
  wp (print_str fuel p precision acc) (λ _ s', s' = s) (λ r s', (r = kernel_fault ∨ r = Spin) ∧ s' = s) s.
Proof.
  revert p precision acc. induction fuel as [|fuel IH]; intros p precision acc; [apply wp_stop; by auto|].
  cbn [print_str]. apply wp_bind. eapply wp_mono; [apply vload8_any| |intros r s' [-> ->]; by auto].
  intros ch s1 ->. by repeat case_match; first [apply IH|apply wp_ret].
Qed.

Lemma load_trapframe_any p s : wp (load_trapframe p) (λ _ s', s' = s) (λ r s', r = kernel_fault ∧ s' = s) s.
Proof.
  assert (H16 : ∀ a (Q : Z → KState → Prop), (∀ x, Q x s) → wp (vload16 a) Q (λ r s', r = kernel_fault ∧ s' = s) s).
  { intros a Q HQ. unfold vload16. apply wp_bind. eapply wp_mono; [apply vload8_any| |done]. intros b0 s1 ->.
    apply wp_bind. eapply wp_mono; [apply vload8_any| |done]. intros b1 s1 ->. apply wp_ret, HQ. }
  assert (H32 : ∀ a (Q : Z → KState → Prop), (∀ x, Q x s) → wp (vload32 a) Q (λ r s', r = kernel_fault ∧ s' = s) s).
  { intros a Q HQ. unfold vload32. apply wp_bind, H16. intros h0. apply wp_bind, H16. intros h1. apply wp_ret, HQ. }
  unfold load_trapframe, load_regs. repeat first [apply H32; intros ?|apply H16; intros ?|apply wp_ret; done|apply wp_ret|apply wp_bind].
Qed.

(** Readable in the loaded address space: only presence matters. *)
Lemma readable_present m pd a : readable m pd a ↔ 0 ≤ a ∧ page_allows m pd 0 a = true.
Proof.
  split; [|intros [H0 Ha]; split; [done|by exists 0]]. intros [H0 (perm & Ha)]. split; [done|].
  unfold page_allows in *. rewrite Z.land_0_r. rewrite !andb_true_iff in *. tauto.
Qed.
Global Instance readable_dec m pd a : Decision (readable m pd a).
Proof. refine (cast_if (decide (0 ≤ a ∧ page_allows m pd 0 a = true))); by rewrite readable_present. Defined.

(** What sys_cputs takes for granted: the buffer is shorter than 2 GB, does
    not reach into the last page, and the byte after it can be read. *)
Definition cputs_ok (s : KState) (a len : Z) : Prop :=
  len < 2147483648 ∧ a + len ≤ 4294963200 ∧ readable (phys s) (cr3 s / 4096) (a + len).

(** What sys_env_set_trapframe takes for granted: the caller can read the
    frame. *)
Definition frame_ok (s : KState) (tf : Z) : Prop :=
  Forall (λ k, readable (phys s) (cr3 s / 4096) (tf + k)) (range 0 SIZEOF_TRAPFRAME).

(** The target is another environment and does not have all of the frame
    mapped. *)
Definition target_lacks (s : KState) (c envid tf : Z) : Prop :=
  ∃ i e k, resolves s true envid i ∧ i ≠ c ∧ envs s !! i = Some e ∧ 0 ≤ k < SIZEOF_TRAPFRAME ∧
    page_allows (phys s) (env_dir e) PTE_U (tf + k) = false.

(** A check of a trap frame that fails does so because of one of its bytes. *)
Lemma check_fails_byte m pd tf a : 0 ≤ tf < 4294967296 → tf ≤ a < check_end tf SIZEOF_TRAPFRAME →
  page_allows m pd PTE_U a = false → ∃ k, 0 ≤ k < SIZEOF_TRAPFRAME ∧ page_allows m pd PTE_U (tf + k) = false.
Proof.
  intros Htf Ha Hbad. unfold SIZEOF_TRAPFRAME in *. destruct (decide (tf + 68 ≤ 4294963200)).
  2:{ pose proof (check_end_low tf 68). lia. }
  pose proof (check_end_covers tf 68 ltac:(lia) ltac:(lia) ltac:(lia)).
  destruct (check_end_page tf 68) as (hi & Hhi & _). rewrite Hhi in *.
  set (b := Z.max tf (a / 4096 * 4096)). exists (b - tf). split; [unfold b; mlia|].
  replace (tf + (b - tf)) with b by lia. rewrite <- Hbad.
  replace a with (a / 4096 * 4096 + a `mod` 4096) at 1 by mlia. rewrite page_allows_page by mlia.
  replace b with (a / 4096 * 4096 + (b - a / 4096 * 4096)) by lia. apply page_allows_page; unfold b; mlia.
Qed.

(** Changing an entry without touching its status. *)
Lemma cur_ok_same s i e e' : envs s !! i = Some e → env_status e' = env_status e → cur_ok s →
  cur_ok (set_envs (<[i := e']> (envs s)) s).
Proof.
  intros Hi Hst (cpu & Hcpu & H). exists cpu. split; [done|]. intros j Hj. destruct (H j Hj) as (v & Hv & Hu). cbn.
  destruct (decide (i = j)) as [->|]; [|exists v; by rewrite lookup_insert_ne].
  exists e'. rewrite lookup_insert_eq. split; [done|]. unfold in_use in *. congruence.
Qed.

Lemma frame_ok_bytes s tf k : frame_ok s tf → 0 ≤ k < SIZEOF_TRAPFRAME → readable (phys s) (cr3 s / 4096) (tf + k).
Proof. unfold frame_ok. rewrite Forall_forall. intros H Hk. by apply H, elem_of_range. Qed.

Section Reads.
Context {PD PT : gset Z} {ext : Z → Z} {fl efl : list Z} {s : KState} {c : Z} {v : Env} {pd : Z}.
Context (Hk : kcore PD PT ext fl efl s) (Hcur : cur_ok s) (Hh : held s) (Hc : cur s = Some c).
Context (Hv : envs s !! c = Some v) (Huv : in_use v) (Hdir : env_pgdir v = kdir pd) (Hpd : pd ∈ PD).
Context (Hcr3 : cr3 s = pd * 4096).

Lemma print_str_S fuel p precision acc :
  print_str (S fuel) p precision acc =
    (ch ← vload8 p;
     if ch =? 0 then mret (reverse acc)
     else if precision <? 0 then print_str fuel (u32 (p + 1)) precision (ch :: acc)
     else if precision - 1 >=? 0 then print_str fuel (u32 (p + 1)) (precision - 1) (ch :: acc)
     else mret (reverse acc)).
Proof. done. Qed.

Lemma print_str_spec n p acc E :
  0 ≤ p → (∀ k, 0 ≤ k ≤ Z.of_nat n → readable (phys s) pd (p + k)) →
  wp (print_str (S n) p (Z.of_nat n) acc) (λ _ s', s' = s) E s.
Proof.
  revert p acc. induction n as [|n IH]; intros p acc Hp Hr.
  all: rewrite print_str_S; apply wp_bind; eapply wp_mono;
    [apply (vload8_spec Hk Hcr3 Hpd _ E); rewrite <- (Z.add_0_r p); apply Hr; lia| |done];
    intros ch s1 [-> _]; destruct (ch =? 0); [by apply wp_ret|].
  - by apply wp_ret.
  - assert (Z.of_nat (S n) <? 0 = false) as -> by (apply Z.ltb_ge; lia).
    assert (Z.of_nat (S n) - 1 >=? 0 = true) as -> by (apply Z.geb_le; lia).
    replace (Z.of_nat (S n) - 1) with (Z.of_nat n) by lia.
    assert (Hp1 : 0 ≤ p + 1 < 4294967296).
    { split; [lia|]. destruct (Hr 1) as (_ & perm & Hal); [lia|]. unfold page_allows in Hal.
      rewrite !andb_true_iff in Hal. destruct Hal as [[[Hlt _] _] _]. apply Z.ltb_lt in Hlt. mlia. }
    rewrite u32_small by done. apply IH; [lia|]. intros k Hkr. rewrite <- Z.add_assoc. apply Hr. lia.
Qed.

(** sys_cputs on any arguments: the kernel checks the buffer, but reads the
    byte after it too, takes a length of 2 GB or more for "up to the first
    zero byte", and checks nothing when the range wraps around. *)
Lemma sys_cputs_spec a len :
  0 ≤ a < 4294967296 → 0 ≤ len < 4294967296 →
  wp (sys_cputs a len) (λ _ s', returns s s')
    (λ r s', leaves r s' ∨ (¬ cputs_ok s a len ∧ (r = kernel_fault ∨ r = Spin))) s.
Proof.
  intros Ha Hlen. unfold sys_cputs. apply wp_bind, (wp_current c); [done|done|]. intros _ _ _.
  apply wp_bind, wp_deref, wp_bind. eapply wp_mono; [by eapply (user_mem_assert_spec PD PT ext fl efl s c v pd)|..].
  2:{ intros r s' [_ Hl]. by left. }
  intros [] s1 [[-> Hall]|[Hne _]]; [|done]. unfold cprintf_str.
  assert (Hret : ∀ ev, returns s (set_trace ev s)).
  { intros ev. split; [|done|done|done]. exists PD, PT, ext, fl, efl. by eapply kcore_ext. }
  apply wp_bind. destruct (a =? 0); [by apply wp_ret, wp_cprintf|].
  destruct (decide (cputs_ok s a len)) as [(Hl & Hend & Hlast)|Hbad].
  - assert (Hs32 : s32 len = len) by (unfold s32; mlia). rewrite Hs32. destruct (len <? 0) eqn:El; [lia|].
    apply wp_mono with (Q := λ _ s', s' = s) (E := no_stop); [|intros bytes s1 ->; by apply wp_cprintf|by intros ? ? []].
    replace (Z.to_nat (len + 1)) with (S (Z.to_nat len)) by lia.
    rewrite <- (Z2Nat.id len) at 2 by lia. apply print_str_spec; [lia|]. intros k Hkr.
    assert (Hdiv : cr3 s / 4096 = pd) by (rewrite Hcr3; mlia). rewrite Hdiv in Hlast.
    destruct (decide (k = len)) as [->|]; [done|]. pose proof (check_end_covers a len ltac:(lia) ltac:(lia) Hend).
    split; [lia|]. eexists. apply Hall. lia.
  - eapply wp_mono; [apply print_str_any|intros bytes s1 ->; by apply wp_cprintf|]. intros r s' [Hr _]. by right.
Qed.

Lemma load_trapframe_spec p E :
  (∀ k, 0 ≤ k < SIZEOF_TRAPFRAME → readable (phys s) pd (p + k)) →
  wp (load_trapframe p) (λ _ s', s' = s) E s.
Proof.
  intros Hr.
  assert (H32 : ∀ off (Q : Z → KState → Prop), 0 ≤ off → off + 4 ≤ SIZEOF_TRAPFRAME → (∀ x, Q x s) → wp (vload32 (p + off)) Q E s).
  { intros off Q H0 H1 HQ. eapply wp_mono; [apply (vload32_spec Hk Hcr3 Hpd _ E)|intros x s1 [-> _]; apply HQ|done].
    intros k Hkr. rewrite <- Z.add_assoc. apply Hr. lia. }
  assert (H16 : ∀ off (Q : Z → KState → Prop), 0 ≤ off → off + 2 ≤ SIZEOF_TRAPFRAME → (∀ x, Q x s) → wp (vload16 (p + off)) Q E s).
  { intros off Q H0 H1 HQ. eapply wp_mono; [apply (vload16_spec Hk Hcr3 Hpd _ E)|intros x s1 [-> _]; apply HQ|done].
    intros k Hkr. rewrite <- Z.add_assoc. apply Hr. lia. }
  unfold load_trapframe, load_regs. rewrite <- (Z.add_0_r p) at 1.
  repeat first [apply H32; [done|done|intros ?]|apply H16; [done|done|intros ?]|apply wp_ret; done|apply wp_ret|apply wp_bind].
Qed.

(** The frame is read in the caller's address space, whoever the target is;
    another target that does not have it mapped is destroyed on the way. *)
Lemma sys_env_set_trapframe_spec envid tf :
  0 ≤ tf < 4294967296 →
  wp (sys_env_set_trapframe envid tf) (λ _ s', returns s s')
    (λ r s', leaves r s' ∨ ((¬ frame_ok s tf ∨ target_lacks s c envid tf) ∧ r = kernel_fault)) s.
Proof.
  intros Htf. unfold sys_env_set_trapframe. apply (with_env Hk Hcur Hc).
  { intros Hno. apply wp_ret. by eapply s_returns. }
  intros i e Hi He Hu. cbn [Z.ltb Z.compare]. apply wp_bind, wp_deref, wp_bind.
  destruct (in_use_dir Hk i e He Hu) as (pi & Hpi & Hdi & _ & _).
  eapply wp_mono; [by eapply (user_mem_assert_spec PD PT ext fl efl s i e pi)|..].
  2:{ intros r s' [_ Hl]. by left. }
  intros [] s1 Hs1. apply wp_bind.
  assert (Hret : returns s s1 ∧ ∃ e1, envs s1 !! i = Some e1).
  { destruct Hs1 as [[-> _]|(_ & Hr & Hg & _)]; [split; [by eapply s_returns|by eauto]|]. split; [done|].
    destruct Hg as [(e1 & ? & _)|(e1 & ? & _)]; eauto. }
  eapply wp_mono with (Q := λ _ s', s' = s1) (E := λ r s', leaves r s' ∨ ((¬ frame_ok s tf ∨ target_lacks s c envid tf) ∧ r = kernel_fault)); [| |done].
  - destruct Hs1 as [[-> _]|(Hne & _ & _ & a & Ha & Hbad)].
    + destruct (decide (frame_ok s tf)) as [Hok|Hno].
      * eapply wp_mono; [apply (load_trapframe_spec tf no_stop)|done|by intros ??[]]. intros k Hkr.
        assert (Hdiv : cr3 s / 4096 = pd) by (rewrite Hcr3; mlia). rewrite <- Hdiv. by apply frame_ok_bytes.
      * eapply wp_mono; [apply load_trapframe_any|done|]. intros r s' [-> _]. by right; auto.
    + eapply wp_mono; [apply load_trapframe_any|done|]. intros r s' [-> _]. right. split; [right|done].
      rewrite <- (env_dir_kdir e pi Hdi) in Hbad. apply (check_fails_byte (phys s) (env_dir e) tf a Htf Ha) in Hbad as (k & Hkr & Hbad).
      exists i, e, k. split_and!; try done; try lia. congruence.
  - intros t s2 ->. destruct Hret as [Hret (e1 & He1)]. apply wp_bind. eapply wp_upd_env; [done|]. apply wp_ret.
    eapply returns_trans; [done|]. destruct Hret as [(PD1 & PT1 & ext1 & fl1 & efl1 & Hk1) Hcur1 Hh1 _].
    split; [exists PD1, PT1, ext1, fl1, efl1; by eapply kcore_same|by apply (cur_ok_same s1 i e1)|done|done].
Qed.

End Reads.

(** ** The dispatcher *)

(** Environment [c] is current and its address space is loaded. *)
Definition on_cpu (s : KState) (c : Z) : Prop :=
  cur s = Some c ∧ ∃ v, envs s !! c = Some v ∧ cr3 s = env_pgdir v - KERNBASE.

Definition u32s (l : list Z) : Prop := Forall (λ a, 0 ≤ a < 4294967296) l.

(** System call [no] of environment [c] makes the kernel stop with [r]:
    - the scheduler reads past [envs] when it is called from the last slot;
    - sys_cputs reads memory it has not checked, and faults or never ends;
    - sys_env_set_trapframe faults on a frame only the target was checked for. *)
Inductive syscall_stops (s : KState) (c no a1 a2 : Z) : kstop → Prop :=
| stops_sched : c = NENV - 1 → no = SYS_yield ∨ no = SYS_ipc_recv → syscall_stops s c no a1 a2 past_table
| stops_cputs r : no = SYS_cputs → ¬ cputs_ok s a1 a2 → r = kernel_fault ∨ r = Spin → syscall_stops s c no a1 a2 r
| stops_trapframe : no = SYS_env_set_trapframe → ¬ frame_ok s a2 ∨ target_lacks s c (s32 a1) a2 →
    syscall_stops s c no a1 a2 kernel_fault.

(** The system calls that can break the invariant:
    - a mapping is added while a reference count is at its maximum (pp_ref has
      16 bits and wraps around to 0);
    - a page is sent to a receiver waiting at or above UTOP. *)
Definition corrupts (s : KState) (no a1 a3 : Z) : Prop :=
  ((no = SYS_page_map ∨ no = SYS_ipc_try_send) ∧ ¬ refs_room s) ∨
  (no = SYS_ipc_try_send ∧ page_above_UTOP (s := s) (s32 a1) a3).

Global Instance refs_room_dec s : Decision (refs_room s).
Proof. change (Decision (map_Forall (λ (_ : Z) k, pp_ref k < 65535) (pages s))). apply _. Defined.

Lemma page_above_UTOP_dec s c envid srcva : kinv s → cur_ok s → cur s = Some c →
  page_above_UTOP (s := s) envid srcva ∨ ¬ page_above_UTOP (s := s) envid srcva.
Proof.
  intros (PD & PT & ext & fl & efl & Hk) Hcur Hc. unfold page_above_UTOP.
  destruct (decide (srcva < UTOP)) as [Hlt|]; [|right; tauto].
  destruct (wp_no_stop _ _ _ (envid2env_spec Hk Hcur envid false c Hc)) as ([r [i|]] & s' & _ & _ & Hres); unfold resolved in Hres; cbn in Hres.
  2:{ right. intros (_ & i & d & Hi & _). by destruct (proj2 Hres i). }
  destruct Hres as (_ & Hi & d & Hd & _).
  destruct (decide (env_ipc_recving d = true ∧ env_ipc_from d = 0 ∧ ¬ (0 ≤ env_ipc_dstva d < UTOP))) as [(? & ? & ?)|Hno].
  - left. split; [done|]. by exists i, d.
  - right. intros (_ & j & d' & Hj & Hd' & Hrest). apply Hno. assert (j = i) as -> by (by eapply (resolves_inj Hk)). congruence.
Qed.

Lemma corrupts_dec s c no a1 a3 : kinv s → cur_ok s → cur s = Some c → corrupts s no a1 a3 ∨ ¬ corrupts s no a1 a3.
Proof.
  intros Hinv Hcur Hc. unfold corrupts. destruct (page_above_UTOP_dec s c (s32 a1) a3 Hinv Hcur Hc);
    destruct (decide (refs_room s)), (decide (no = SYS_page_map)), (decide (no = SYS_ipc_try_send)); tauto.
Qed.

Lemma wp_console {A} (m : C A) (Q : A → KState → Prop) E s :
  (∀ a cs, Q a (set_cons cs s)) → wp (console m) Q E s.
Proof. intros HQ. unfold wp, console. destruct (m (cons s)) as [a cs|[]]. apply HQ. Qed.

Lemma returns_cons s cs : kinv s → cur_ok s → held s → returns s (set_cons cs s).
Proof.
  intros (PD & PT & ext & fl & efl & Hk) ? ?. split; [|done|done|done].
  exists PD, PT, ext, fl, efl. by eapply kcore_ext.
Qed.

Lemma page_alloc_returns fl s envid va perm r s' :
  kinv s → cur_ok s → held s → page_alloc_result fl s envid va perm r s' → returns s s'.
Proof.
  intros Hk Hcur Hh [(_ & -> & _)|(i & _ & [(_ & -> & _)|(_ & [(_ & _ & Hp & _)|(_ & p & _ & Hp & _)])])];
    by apply returns_refl || by apply returns_paged.
Qed.

Lemma page_unmap_returns s envid va r s' :
  kinv s → cur_ok s → held s → page_unmap_result s envid va r s' → returns s s'.
Proof.
  intros Hk Hcur Hh [(_ & -> & _)|(i & _ & [(_ & -> & _)|(_ & _ & Hp & _)])];
    by apply returns_refl || by apply returns_paged.
Qed.

Lemma page_map_returns fl s a b c d perm r s' :
  kinv s → cur_ok s → held s → page_map_result fl s a b c d perm r s' → returns s s'.
Proof.
  intros Hk Hcur Hh [(_ & -> & _)|(i & j & _ & _ & [(_ & -> & _)|(_ & p & f & _ & _ & [(_ & -> & _)|(_ & Hp & _)])])];
    by apply returns_refl || by apply returns_paged.
Qed.

Section Dispatch.
Context {s : KState} {c : Z} (Hinv : kinv s) (Hcur : cur_ok s) (Hh : held s) (Hon : on_cpu s c).

Lemma syscall_spec no a1 a2 a3 a4 a5 :
  u32s [a1; a2; a3; a4; a5] → ¬ corrupts s no a1 a3 →
  wp (syscall no a1 a2 a3 a4 a5) (λ _ s', returns s s') (λ r s', leaves r s' ∨ syscall_stops s c no a1 a2 r) s.
Proof.
  intros Hu Hsafe. destruct Hinv as (PD & PT & ext & fl & efl & Hk). destruct Hon as [Hc (v & Hv & Hcr3)].
  repeat (apply Forall_cons in Hu as [? Hu]). clear Hu.
  assert (Huv : in_use v).
  { destruct Hcur as (cpu & Hcpu & Hce). unfold cur in Hc. rewrite Hcpu in Hc. destruct (Hce c Hc) as (? & ? & ?). congruence. }
  destruct (in_use_dir Hk c v Hv Huv) as (pd & Hpd & Hdir & _ & _).
  assert (Hpd3 : cr3 s = pd * 4096) by (rewrite Hcr3, Hdir; unfold kdir; lia).
  assert (Hexit : no = SYS_yield ∨ no = SYS_ipc_recv → ∀ r s', exits c r s' → leaves r s' ∨ syscall_stops s c no a1 a2 r).
  { intros Hno r s' [Hl|[Hlast ->]]; [by left|right]. by constructor. }
  unfold syscall.
  destruct (no =? SYS_cputs) eqn:E1; [apply Z.eqb_eq in E1|].
  { apply wp_bind. eapply wp_mono; [by apply (sys_cputs_spec Hk Hcur Hh Hc Hv Huv Hdir Hpd Hpd3)|..].
    - intros [] s' Hret. by apply wp_ret.
    - intros r s' [Hl|[Hbad Hr]]; [by left|right]. by apply stops_cputs. }
  destruct (no =? SYS_cgetc) eqn:E2; [apply wp_console; intros; by apply returns_cons|].
  destruct (no =? SYS_getenvid) eqn:E3.
  { eapply wp_mono; [apply (sys_getenvid_spec Hcur Hc no_stop)|intros r s' [-> _]; by eapply s_returns|by intros ??[]]. }
  destruct (no =? SYS_env_destroy) eqn:E4.
  { eapply wp_mono; [apply (sys_env_destroy_spec Hk Hcur Hh Hc)|by intros r s' []|by intros r s' []; left]. }
  destruct (no =? SYS_yield) eqn:E5; [apply Z.eqb_eq in E5|].
  { apply wp_bind. eapply wp_mono; [by apply (sys_yield_spec Hk Hcur Hh Hc)|by intros ??[]|]. apply Hexit; auto. }
  destruct (no =? SYS_exofork) eqn:E6.
  { eapply wp_mono; [apply (sys_exofork_spec Hk Hcur Hh Hc) with (E := no_stop)|by intros r s' []|by intros ??[]]. }
  destruct (no =? SYS_env_set_status) eqn:E7.
  { eapply wp_mono; [apply (sys_env_set_status_spec Hk Hcur Hh Hc) with (E := no_stop)|by intros r s' []|by intros ??[]]. }
  destruct (no =? SYS_page_alloc) eqn:E8.
  { eapply wp_call; [eapply sys_page_alloc_spec; done || lia|]. intros r s'. by apply page_alloc_returns. }
  assert (Hroom : no = SYS_page_map ∨ no = SYS_ipc_try_send → refs_room s).
  { intros Hno. destruct (decide (refs_room s)); [done|]. destruct Hsafe. by left. }
  destruct (no =? SYS_page_map) eqn:E9; [apply Z.eqb_eq in E9|].
  { eapply wp_call; [eapply sys_page_map_spec; done || lia || by auto|]. intros r s'. by apply page_map_returns. }
  destruct (no =? SYS_page_unmap) eqn:E10.
  { eapply wp_call; [eapply sys_page_unmap_spec; done || lia|]. intros r s'. by apply page_unmap_returns. }
  destruct (no =? SYS_env_set_pgfault_upcall) eqn:E11.
  { eapply wp_mono; [apply (sys_env_set_pgfault_upcall_spec Hk Hcur Hh Hc) with (E := no_stop)|by intros r s' []|by intros ??[]]. }
  destruct (no =? SYS_ipc_try_send) eqn:E12; [apply Z.eqb_eq in E12|].
  { assert (Hn : ¬ page_above_UTOP (s := s) (s32 a1) a3) by (intros Ha; apply Hsafe; by right).
    eapply wp_mono; [apply (sys_ipc_try_send_spec Hk Hcur Hh Hc _ _ _ _ no_stop Hn); [by auto|lia]|by intros r s' []|by intros ??[]]. }
  destruct (no =? SYS_ipc_recv) eqn:E13; [apply Z.eqb_eq in E13|].
  { eapply wp_mono; [by apply (sys_ipc_recv_spec Hk Hcur Hh Hc)|intros r s' (_ & -> & _); by eapply s_returns|].
    intros r s' [He _]. apply Hexit in He; auto. }
  destruct (no =? SYS_env_set_trapframe) eqn:E14; [apply Z.eqb_eq in E14|].
  { eapply wp_mono; [by apply (sys_env_set_trapframe_spec Hk Hcur Hh Hc Hpd Hpd3)|done|].
    intros r s' [Hl|[Hbad ->]]; [by left|right]. by apply stops_trapframe. }
  destruct (no =? SYS_time_msec) eqn:E15; [unfold sys_time_msec, time_msec; apply wp_bind, wp_bind, wp_gets, wp_ret|];
    apply wp_ret; by eapply s_returns.
Qed.

End Dispatch.
