(* ===== verification/Trap.v ===== *)
(** * Traps

    kern/trap.c and the entry points of kern/trapentry.S: the interrupt
    descriptor table, the trap dispatcher, and page-fault upcalls into user
    space.  What the hardware delivers with a trap (the frame on the kernel
    stack, cr2, eflags) and whether another CPU has panicked are arguments of
    [trap].  The kernel monitor, entered on a breakpoint, is an event. *)

From S2P Require Import Prelude Console Mmu KState Pmap VMem Env Syscall.

Definition T_DIVIDE : Z := 0.
Definition T_DEBUG : Z := 1.
Definition T_NMI : Z := 2.
Definition T_BRKPT : Z := 3.
Definition T_OFLOW : Z := 4.
Definition T_BOUND : Z := 5.
Definition T_ILLOP : Z := 6.
Definition T_DEVICE : Z := 7.
Definition T_DBLFLT : Z := 8.
Definition T_TSS : Z := 10.
Definition T_SEGNP : Z := 11.
Definition T_STACK : Z := 12.
Definition T_GPFLT : Z := 13.
Definition T_PGFLT : Z := 14.
Definition T_FPERR : Z := 16.
Definition T_ALIGN : Z := 17.
Definition T_MCHK : Z := 18.
Definition T_SIMDERR : Z := 19.
Definition T_SYSCALL : Z := 48.
Definition IRQ_OFFSET : Z := 32.
Definition IRQ_TIMER : Z := 0.
Definition IRQ_SPURIOUS : Z := 7.

(** ** The interrupt descriptor table *)

(** The entry points of trapentry.S: the number each pushes and whether it
    pushes a 0 in place of a missing error code (TRAPHANDLER_NOEC). *)
Inductive entry :=
| divide_handler | debug_handler | nmi_handler | brkpt_handler | oflow_handler
| bound_handler | illop_handler | device_handler | dblflt_handler | tss_handler
| segnp_handler | stack_handler | gpflt_handler | pgflt_handler | fperr_handler
| align_handler | mchk_handler | simderr_handler | syscall_handler
| irq_handler (n : Z).

Definition TRAPHANDLER (h : entry) : Z * bool :=
  match h with
  | divide_handler => (T_DIVIDE, true) | debug_handler => (T_DEBUG, true)
  | nmi_handler => (T_NMI, true) | brkpt_handler => (T_BRKPT, true)
  | oflow_handler => (T_OFLOW, true) | bound_handler => (T_BOUND, true)
  | illop_handler => (T_ILLOP, true) | device_handler => (T_DEVICE, true)
  | dblflt_handler => (T_DBLFLT, false) | tss_handler => (T_TSS, false)
  | segnp_handler => (T_SEGNP, false) | stack_handler => (T_STACK, false)
  | gpflt_handler => (T_GPFLT, false) | pgflt_handler => (T_PGFLT, false)
  | fperr_handler => (T_FPERR, true) | align_handler => (T_ALIGN, false)
  | mchk_handler => (T_MCHK, true) | simderr_handler => (T_SIMDERR, true)
  | syscall_handler => (T_SYSCALL, true)
  | irq_handler n => (IRQ_OFFSET + n, true)
  end.

(** The calls of SETGATE in trap_init: vector, entry point, DPL. *)
Definition gates : list (Z * entry * Z) :=
  [(T_DIVIDE, divide_handler, 0); (T_DEBUG, debug_handler, 0); (T_NMI, nmi_handler, 0);
   (T_BRKPT, brkpt_handler, 3); (T_OFLOW, oflow_handler, 0); (T_BOUND, bound_handler, 0);
   (T_ILLOP, illop_handler, 0); (T_DEVICE, device_handler, 0); (T_DBLFLT, dblflt_handler, 0);
   (T_TSS, tss_handler, 0); (T_SEGNP, segnp_handler, 0); (T_STACK, stack_handler, 0);
   (T_GPFLT, gpflt_handler, 0); (T_PGFLT, pgflt_handler, 0); (T_FPERR, fperr_handler, 0);
   (T_ALIGN, align_handler, 0); (T_MCHK, mchk_handler, 0); (T_SIMDERR, simderr_handler, 0);
   (T_SYSCALL, syscall_handler, 3)]
  ++ ((λ n, (IRQ_OFFSET + n, irq_handler n, 0)) <$> range 0 16).

(** ** Per-CPU state *)

Definition SIZEOF_TASKSTATE : Z := 104.

Section TrapInit.
(** Where the linker puts the entry points, and [&cpus[i].cpu_ts]. *)
Variables (addr : entry → Z) (cpu_ts : Z → Z).

Definition trap_init_percpu : K unit :=
  i ← gets cpunum;
  c ← get_cpu;
  put_cpu (Build_CpuInfo (cpu_id c) (cpu_status c) (cpu_env c)
             (u32 (KSTACKTOP - i * (KSTKSIZE + KSTKGAP))) GD_KD SIZEOF_TASKSTATE) ;;
  let slot := Z.shiftr GD_TSS0 3 + i in
  modify (λ s, set_gdt (<[slot := SEG16 STS_T32A (u32 (cpu_ts i)) (SIZEOF_TASKSTATE - 1) 0]> (gdt s)) s) ;;
  modify (λ s, set_gdt (alter (set_sd_s 0) slot (gdt s)) s) ;;
  emit (Ltr (GD_TSS0 + Z.shiftl i 3)) ;;
  emit Lidt.

Definition trap_init : K unit :=
  forM gates (λ '(v, h, dpl), modify (λ s, set_idt (<[v := SETGATE 0 GD_KT (addr h) dpl]> (idt s)) s)) ;;
  trap_init_percpu.

End TrapInit.

(** ** Trap frames

    [tf] points into [envs] when the trap came from user mode, and at the
    frame on the kernel stack otherwise. *)

Inductive tfptr := TfEnv (i : Z) | TfStack (t : Trapframe).

Definition read_tf (p : tfptr) : K Trapframe :=
  match p with TfEnv i => e ← get_env i; mret (env_tf e) | TfStack t => mret t end.

(** [tf->tf_regs.reg_eax = v]; a store to the kernel stack frame is not
    visible to anything modelled. *)
Definition write_tf_eax (p : tfptr) (v : Z) : K unit :=
  match p with
  | TfEnv i => upd_env i (λ e, set_env_tf (set_tf_regs (set_reg_eax (u32 v) (tf_regs (env_tf e))) (env_tf e)) e)
  | TfStack _ => mret tt
  end.

Definition excnames : list string :=
  ["Divide error"; "Debug"; "Non-Maskable Interrupt"; "Breakpoint"; "Overflow";
   "BOUND Range Exceeded"; "Invalid Opcode"; "Device Not Available"; "Double Fault";
   "Coprocessor Segment Overrun"; "Invalid TSS"; "Segment Not Present"; "Stack Fault";
   "General Protection"; "Page Fault"; "(unknown trap)"; "x87 FPU Floating-Point Error";
   "Alignment Check"; "Machine-Check"; "SIMD Floating-Point Exception"]%string.

(** [trapno < ARRAY_SIZE(excnames)] compares as unsigned. *)
Definition trapname (trapno : Z) : string :=
  if u32 trapno <? Z.of_nat (length excnames) then default "" (excnames !! Z.to_nat (u32 trapno))
  else if trapno =? T_SYSCALL then "System call"
  else if (trapno >=? IRQ_OFFSET) && (trapno <? IRQ_OFFSET + 16) then "Hardware Interrupt"
  else "(unknown trap)".

Definition print_regs (r : PushRegs) : K unit :=
  cprintf "  edi  0x%08x\n" [reg_edi r] ;;
  cprintf "  esi  0x%08x\n" [reg_esi r] ;;
  cprintf "  ebp  0x%08x\n" [reg_ebp r] ;;
  cprintf "  oesp 0x%08x\n" [reg_oesp r] ;;
  cprintf "  ebx  0x%08x\n" [reg_ebx r] ;;
  cprintf "  edx  0x%08x\n" [reg_edx r] ;;
  cprintf "  ecx  0x%08x\n" [reg_ecx r] ;;
  cprintf "  eax  0x%08x\n" [reg_eax r].

Section Trap.
(** The faulting address register, the flags on kernel entry, and whether
    [panicstr] is set. *)
Variables (cr2 eflags : Z) (panicked : bool).

(** [last] is [tf == last_tf]: trap sets last_tf to the frame it passes to
    trap_dispatch, and the calls below print that frame.  The value of the
    pointer itself, which the first line prints, is not modelled.  A [%s]
    argument is appended to the format. *)
Definition print_trapframe (last : bool) (t : Trapframe) : K unit :=
  c ← gets cpunum;
  cprintf "TRAP frame at %p from CPU %d\n" [c] ;;
  print_regs (tf_regs t) ;;
  cprintf "  es   0x----%04x\n" [tf_es t] ;;
  cprintf "  ds   0x----%04x\n" [tf_ds t] ;;
  cprintf ("  trap 0x%08x %s\n" ++ trapname (s32 (tf_trapno t)))%string [tf_trapno t] ;;
  (if last && (tf_trapno t =? T_PGFLT) then cprintf "  cr2  0x%08x\n" [cr2] else mret tt) ;;
  cprintf "  err  0x%08x" [tf_err t] ;;
  (if tf_trapno t =? T_PGFLT
   then cprintf (" [%s, %s, %s]\n" ++ (if ctrue (Z.land (tf_err t) 4) then "user" else "kernel")
                  ++ (if ctrue (Z.land (tf_err t) 2) then "write" else "read")
                  ++ (if ctrue (Z.land (tf_err t) 1) then "protection" else "not-present"))%string []
   else cprintf "\n" []) ;;
  cprintf "  eip  0x%08x\n" [tf_eip t] ;;
  cprintf "  cs   0x----%04x\n" [tf_cs t] ;;
  cprintf "  flag 0x%08x\n" [tf_eflags t] ;;
  if negb (Z.land (tf_cs t) 3 =? 0)
  then cprintf "  esp  0x%08x\n" [tf_esp t] ;; cprintf "  ss   0x----%04x\n" [tf_ss t]
  else mret tt.

Definition SIZEOF_UTRAPFRAME : Z := 52.

(** Where the fault record goes on the user exception stack. *)
Definition utf_addr (esp : Z) : Z :=
  if (esp >=? UXSTACKTOP - PGSIZE) && (esp <? UXSTACKTOP)
  then u32 (esp - SIZEOF_UTRAPFRAME - 4)
  else u32 (UXSTACKTOP - SIZEOF_UTRAPFRAME).

(** [*utf = r] for a register block at [p]. *)
Definition store_regs (p : Z) (r : PushRegs) : K unit :=
  vstore32 p (reg_edi r) ;; vstore32 (p + 4) (reg_esi r) ;;
  vstore32 (p + 8) (reg_ebp r) ;; vstore32 (p + 12) (reg_oesp r) ;;
  vstore32 (p + 16) (reg_ebx r) ;; vstore32 (p + 20) (reg_edx r) ;;
  vstore32 (p + 24) (reg_ecx r) ;; vstore32 (p + 28) (reg_eax r).

Definition page_fault_handler (p : tfptr) : K unit :=
  let fault_va := cr2 in
  tf ← read_tf p;
  if Z.land (tf_cs tf) 3 =? 0 then panic "page_falut in kernel mode"
  else
    c ← curenv; c ← deref c;
    cur ← get_env c;
    if ctrue (env_pgfault_upcall cur) then
      let utf := utf_addr (tf_esp tf) in
      user_mem_assert c utf SIZEOF_UTRAPFRAME (Z.lor (Z.lor PTE_P PTE_W) PTE_U) ;;
      vstore32 utf fault_va ;;
      vstore32 (utf + 4) (tf_err tf) ;;
      vstore32 (utf + 4) (tf_trapno tf) ;;
      store_regs (utf + 8) (tf_regs tf) ;;
      vstore32 (utf + 44) (tf_eflags tf) ;;
      vstore32 (utf + 40) (tf_eip tf) ;;
      vstore32 (utf + 48) (tf_esp tf) ;;
      upd_env c (λ e, set_env_tf (set_tf_eip (env_pgfault_upcall e) (env_tf e)) e) ;;
      upd_env c (λ e, set_env_tf (set_tf_esp utf (env_tf e)) e) ;;
      env_run c
    else
      cprintf "[%08x] user fault va %08x ip %08x\n" [env_id cur; fault_va; tf_eip tf] ;;
      print_trapframe true tf ;;
      env_destroy c.

Definition trap_dispatch (p : tfptr) : K unit :=
  tf ← read_tf p;
  if tf_trapno tf =? T_PGFLT then page_fault_handler p
  else
    (if tf_trapno tf =? T_BRKPT then emit Monitor else mret tt) ;;
    if tf_trapno tf =? T_SYSCALL then
      let regs := tf_regs tf in
      r ← syscall (reg_eax regs) (reg_edx regs) (reg_ecx regs) (reg_ebx regs) (reg_edi regs) (reg_esi regs);
      write_tf_eax p r
    else if tf_trapno tf =? IRQ_OFFSET + IRQ_SPURIOUS then
      cprintf "Spurious interrupt on irq 7\n" [] ;; print_trapframe true tf
    else if tf_trapno tf =? IRQ_OFFSET + IRQ_TIMER then
      emit LapicEoi ;; time_tick ;; sched_yield
    else if tf_trapno tf =? IRQ_OFFSET + IRQ_KBD then console kbd_intr
    else if tf_trapno tf =? IRQ_OFFSET + IRQ_SERIAL then console serial_intr
    else
      print_trapframe true tf ;;
      if tf_cs tf =? GD_KT then panic "unhandled trap in kernel"
      else c ← curenv; c ← deref c; env_destroy c.

(** The end of trap: back to the current environment if it is still running. *)
Definition trap_resume : K unit :=
  ce ← curenv;
  match ce with
  | Some c =>
      e ← get_env c;
      if bool_decide (env_status e = ENV_RUNNING) then env_run c else sched_yield
  | None => sched_yield
  end.

Definition trap (frame : Trapframe) : K unit :=
  if panicked then stop Halted
  else
    cpu ← get_cpu;
    put_cpu (set_cpu_status CPU_STARTED cpu) ;;
    (if bool_decide (cpu_status cpu = CPU_HALTED) then lock_kernel else mret tt) ;;
    kassert (Z.land eflags FL_IF =? 0) "!(read_eflags() & FL_IF)" ;;
    p ← (if Z.land (tf_cs frame) 3 =? 3 then
           lock_kernel ;;
           ce ← curenv;
           kassert (bool_decide (is_Some ce)) "curenv" ;;
           c ← deref ce;
           cur ← get_env c;
           (if bool_decide (env_status cur = ENV_DYING)
            then env_free c ;; set_curenv None ;; sched_yield
            else mret tt) ;;
           upd_env c (set_env_tf frame) ;;
           mret (TfEnv c)
         else mret (TfStack frame));
    trap_dispatch p ;;
    trap_resume.

End Trap.
