(* ===== verification/TrapProofs.v ===== *)
(** * Traps keep the kernel invariant

    page_fault_handler, trap_dispatch and trap (kern/trap.c): a trap taken in
    user mode, and an interrupt that wakes a halted CPU, end with the CPU
    given away again in one of the ways [leaves] allows, or with the kernel
    stopped in one of the ways [trap_stops] lists. *)

From S2P Require Import Prelude Console Mmu KState KWp Pmap PmapInv PmapSpec PmapDir PmapOps VMem Env EnvFree KInv.
From S2P Require Import SchedProofs EnvProofs UserMem Syscall SyscallProofs SyscallSafe Trap.

(** ** Output *)

(** The state after printing. *)
Definition printed (s s' : KState) : Prop := ∃ ev, s' = set_trace ev s.

Lemma printed_refl s : printed s s.
Proof. exists (trace s). by destruct s. Qed.

Lemma wp_printed fmt args (Q : unit → KState → Prop) E s s0 :
  printed s0 s → (∀ s', printed s0 s' → Q tt s') → wp (cprintf fmt args) Q E s.
Proof. intros [ev ->] HQ. apply wp_cprintf, HQ. by eexists. Qed.

Ltac wpp := repeat first [eapply wp_printed; [eassumption|]; intros ? ? | apply wp_bind].

Lemma print_trapframe_spec cr2 last t s E : wp (print_trapframe cr2 last t) (λ _ s', printed s s') E s.
Proof.
  unfold print_trapframe. pose proof (printed_refl s) as H0. apply wp_bind, wp_gets. wpp.
  destruct last, (_ =? T_PGFLT); cbn [andb]; [wpp|apply wp_ret..]; wpp;
    (destruct (negb _); [wpp; done|by apply wp_ret]).
Qed.

(** ** Page faults *)

Section Fault.
Context {PD PT : gset Z} {ext : Z → Z} {fl efl : list Z} {s : KState} {c : Z} {v : Env} {pd : Z}.
Context (Hk : kcore PD PT ext fl efl s) (Hcur : cur_ok s) (Hh : held s) (Hc : cur s = Some c).
Context (Hv : envs s !! c = Some v) (Huv : in_use v) (Hdir : env_pgdir v = kdir pd) (Hpd : pd ∈ PD).
Context (Hcr3 : cr3 s = pd * 4096).

(** One of several word stores into the same writable range. *)
Lemma vstore32_chain s1 utf n off x (Q : unit → KState → Prop) E :
  (∀ a, utf ≤ a < utf + n → user_writable (phys s) pd a) → 0 ≤ off → off + 4 ≤ n →
  user_stored PD PT ext fl efl s s1 → (∀ s2, user_stored PD PT ext fl efl s s2 → Q tt s2) →
  wp (vstore32 (utf + off) x) Q E s1.
Proof.
  intros Hw Ho Hn Hus HQ. eapply wp_call.
  - eapply (vstore32_spec PD PT ext fl efl s1 pd); [apply (us_core _ _ _ _ _ _ _ Hus)| |done|].
    + by rewrite (user_stored_cr3 _ _ _ _ _ _ _ Hus).
    + intros k Hkr. eapply (user_writable_kept Hk); [done|apply (us_slots _ _ _ _ _ _ _ Hus)|]. apply Hw. lia.
  - intros [] s2 Hus2. apply HQ. by eapply user_stored_trans.
Qed.

Lemma utf_addr_range esp : 0 ≤ esp < 4294967296 →
  0 ≤ utf_addr esp ∧ utf_addr esp + SIZEOF_UTRAPFRAME ≤ UTOP.
Proof.
  intros He. unfold utf_addr, SIZEOF_UTRAPFRAME. destruct (_ && _) eqn:E.
  - apply andb_true_iff in E as [E1 E2]. assert (H1 : UXSTACKTOP - PGSIZE ≤ esp) by lia.
    assert (H2 : esp < UXSTACKTOP) by lia. rewrite u32_small; mlia.
  - rewrite u32_small; mlia.
Qed.

Lemma runs_leaves i s0 r s' : runs i s0 r s' → leaves r s'.
Proof.
  intros (-> & Hrun & PD' & PT' & ext' & fl' & efl' & _ & Hk' & _ & Hc').
  split; [by exists PD', PT', ext', fl', efl'|]. left. by exists i.
Qed.

(** Entering the upcall once the fault record is written. *)
Lemma upcall_spec s1 utf :
  user_stored PD PT ext fl efl s s1 →
  wp (upd_env c (λ e, set_env_tf (set_tf_eip (env_pgfault_upcall e) (env_tf e)) e) ;;
      upd_env c (λ e, set_env_tf (set_tf_esp utf (env_tf e)) e) ;; env_run c : K unit) (λ _ _, False) leaves s1.
Proof.
  intros [Hk1 Hs1 _].
  assert (Hcur1 : cur_ok s1) by by rewrite Hs1. assert (Hh1 : held s1) by by rewrite Hs1.
  assert (Hv1 : envs s1 !! c = Some v) by by rewrite Hs1.
  apply wp_bind. upd_user s1. intros s2 Hs2 Hk2 [_ Hcur2 Hh2 _].
  apply wp_bind. upd_user s2. intros s3 Hs3 Hk3 [_ Hcur3 Hh3 _].
  eapply wp_mono; [eapply (env_run_spec _ _ _ _ _ s3 c); [done|done|done|entry_of s3|done]|done|].
  intros r s' [Hr _]. by eapply runs_leaves.
Qed.

Lemma destroy_current s1 : printed s s1 → wp (env_destroy c) (λ _ _, False) leaves s1.
Proof.
  intros [ev ->]. eapply wp_mono; [eapply (env_destroy_spec PD PT ext fl efl _ c v)|..]; try done.
  - by eapply kcore_ext.
  - by intros [] s' (Hne & _).
  - by intros r s' [_ ?].
Qed.

(** What happens to an environment with an unexpected trap. *)
Lemma kill_current cr2 t (Q : unit → KState → Prop) :
  Z.land (tf_cs t) 3 = 3 → ∀ s1, printed s s1 →
  wp (print_trapframe cr2 true t ;;
      if tf_cs t =? GD_KT then panic "unhandled trap in kernel"
      else c ← curenv; c ← deref c; env_destroy c) Q leaves s1.
Proof.
  intros Hcs s1 [ev1 ->]. apply wp_bind. eapply wp_call; [apply (print_trapframe_spec _ _ _ _ no_stop)|].
  intros [] s2 [ev ->]. destruct (tf_cs t =? GD_KT) eqn:Ek; [apply Z.eqb_eq in Ek; by rewrite Ek in Hcs|].
  apply wp_bind, (wp_current c); [done|done|]. intros _ _ _. apply wp_bind, wp_deref.
  eapply wp_mono; [apply destroy_current; by exists ev|by intros ??[]|done].
Qed.

Lemma page_fault_handler_spec cr2 :
  Z.land (tf_cs (env_tf v)) 3 ≠ 0 → 0 ≤ tf_esp (env_tf v) < 4294967296 →
  wp (page_fault_handler cr2 (TfEnv c)) (λ _ _, False) leaves s.
Proof.
  intros Hcs Hesp. unfold page_fault_handler, read_tf.
  apply wp_bind, wp_bind, (wp_get_env _ v); [done|]. apply wp_ret.
  destruct (_ =? 0) eqn:E; [lia|]. apply wp_bind, (wp_current c); [done|done|]. intros _ _ _.
  apply wp_bind, wp_deref, wp_bind, (wp_get_env _ v); [done|].
  destruct (ctrue (env_pgfault_upcall v)) eqn:Hup.
  2:{ apply wp_bind, wp_cprintf, wp_bind. eapply wp_call; [apply (print_trapframe_spec _ _ _ _ no_stop)|].
      intros [] s2 [ev2 ->]. apply destroy_current. by exists ev2. }
  destruct (utf_addr_range (tf_esp (env_tf v)) Hesp) as [Hu0 Hu1].
  set (utf := utf_addr _) in *. clearbody utf. unfold SIZEOF_UTRAPFRAME in *.
  apply wp_bind. eapply wp_mono; [eapply (user_mem_assert_spec PD PT ext fl efl s c v pd); done || mlia|..].
  2:{ by intros r s' [_ ?]. }
  intros [] s1 [[-> Hall]|[Hne _]]; [|done].
  assert (Hw : ∀ a, utf ≤ a < utf + 52 → user_writable (phys s) pd a).
  { pose proof (check_end_covers utf 52 ltac:(lia) ltac:(lia) ltac:(mlia)).
    intros a Ha. split; [mlia|]. exists 7. split; [apply Hall; lia|done]. }
  pose proof (user_stored_refl PD PT ext fl efl s Hk) as Hus.
  replace (vstore32 utf cr2) with (vstore32 (utf + 0) cr2) by by rewrite Z.add_0_r.
  unfold store_regs. rewrite <- !(Z.add_assoc utf 8).
  repeat lazymatch goal with
    | |- wp (vstore32 _ _) _ _ _ =>
        eapply (vstore32_chain _ utf 52 _ _ _ _ Hw); [done|done|exact Hus|]; clear Hus; intros ? Hus
    | |- wp (upd_env _ _ ≫= _) _ _ _ => by apply upcall_spec
    | |- wp (_ ≫= _) _ _ _ => apply wp_bind
    end.
Qed.

End Fault.

(** ** The dispatcher *)

(** A frame that came from user mode: the registers are 32-bit words. *)
Record user_frame (t : Trapframe) : Prop := {
  uf_cs : Z.land (tf_cs t) 3 = 3;
  uf_esp : 0 ≤ tf_esp t < 4294967296;
  uf_regs : let r := tf_regs t in u32s [reg_edx r; reg_ecx r; reg_ebx r; reg_edi r; reg_esi r]
}.

(** The millisecond counter overflows at the next tick. *)
Definition time_overflows (s : KState) : Prop := u32 (u32 (ticks s + 1) * 10) < u32 (ticks s + 1).
Definition time_panic : kstop := Panic "time_tick: time overflowed".

(** A trap of environment [c] with frame [t], dispatched in state [s], makes
    the kernel stop with [r]. *)
Inductive trap_stops (t : Trapframe) (c : Z) (s : KState) : kstop → Prop :=
| ts_sched : c = NENV - 1 → trap_stops t c s past_table
| ts_time : tf_trapno t = IRQ_OFFSET + IRQ_TIMER → time_overflows s → trap_stops t c s time_panic
| ts_syscall r : let g := tf_regs t in tf_trapno t = T_SYSCALL →
    syscall_stops s c (reg_eax g) (reg_edx g) (reg_ecx g) r → trap_stops t c s r.

(** The trap is a system call that breaks the invariant. *)
Definition trap_corrupts (t : Trapframe) (s : KState) : Prop :=
  let g := tf_regs t in tf_trapno t = T_SYSCALL ∧ corrupts s (reg_eax g) (reg_edx g) (reg_ebx g).

Section Dispatch.
Context {s : KState} {c : Z} {v : Env}.
Context (Hinv : kinv s) (Hcur : cur_ok s) (Hh : held s) (Hon : on_cpu s c) (Hv : envs s !! c = Some v).

Lemma write_eax_spec s1 r E : returns s s1 → wp (write_tf_eax (TfEnv c) r) (λ _ s', returns s s') E s1.
Proof.
  intros Hr. destruct (Hr) as [(PD & PT & ext & fl & efl & Hk) Hcur1 Hh1 Hc1].
  destruct (Hcur1) as (cpu & Hcpu & Hce). destruct Hon as [Hc _].
  assert (Hcc : cpu_env cpu = Some c) by (rewrite Hc in Hc1; unfold cur in Hc1; by rewrite Hcpu in Hc1).
  destruct (Hce c Hcc) as (e & He & Hu). unfold write_tf_eax. upd_user s1. intros s2 _ _ Hr2. by eapply returns_trans.
Qed.

Lemma trap_dispatch_spec cr2 :
  user_frame (env_tf v) → ¬ trap_corrupts (env_tf v) s →
  wp (trap_dispatch cr2 (TfEnv c)) (λ _ s', returns s s') (λ r s', leaves r s' ∨ trap_stops (env_tf v) c s r) s.
Proof.
  intros [Hcs Hesp Hregs] Hsafe. destruct Hinv as (PD & PT & ext & fl & efl & Hk). destruct Hon as [Hc (v' & Hv' & Hcr3)].
  assert (v' = v) as -> by congruence.
  assert (Huv : in_use v).
  { destruct Hcur as (cpu & Hcpu & Hce). unfold cur in Hc. rewrite Hcpu in Hc. destruct (Hce c Hc) as (? & ? & ?). congruence. }
  destruct (in_use_dir Hk c v Hv Huv) as (pd & Hpd & Hdir & _ & _).
  assert (Hpd3 : cr3 s = pd * 4096) by (rewrite Hcr3, Hdir; unfold kdir; lia).
  assert (Hret : ∀ ev cs, returns s (set_cons cs (set_trace ev s))).
  { intros ev cs. split; [|done|done|done]. exists PD, PT, ext, fl, efl. by eapply kcore_ext. }
  assert (Hprint : ∀ s1, printed s s1 → returns s s1).
  { intros s1 [ev ->]. exact (Hret ev (cons s)). }
  pose proof (kill_current Hk Hcur Hh Hc Hv Huv cr2 (env_tf v) (λ _ s', returns s s') Hcs) as Hkill.
  unfold trap_dispatch, read_tf. apply wp_bind, wp_bind, (wp_get_env _ v); [done|]. apply wp_ret.
  destruct (tf_trapno (env_tf v) =? T_PGFLT).
  { eapply wp_mono; [by apply (page_fault_handler_spec Hk Hcur Hh Hc Hv Huv Hdir Hpd Hpd3); lia|by intros ??[]|by left]. }
  apply wp_bind. destruct (tf_trapno (env_tf v) =? T_BRKPT) eqn:Eb.
  { apply Z.eqb_eq in Eb. apply wp_emit. rewrite Eb. cbn [Z.eqb T_BRKPT T_SYSCALL]. eapply wp_mono; [apply Hkill; by eexists|done|by left]. }
  apply wp_ret. destruct (tf_trapno (env_tf v) =? T_SYSCALL) eqn:Es; [apply Z.eqb_eq in Es|].
  { apply wp_bind. eapply wp_mono; [apply (syscall_spec ltac:(by exists PD, PT, ext, fl, efl) Hcur Hh Hon); [done|]|..].
    - intros Hbad. by apply Hsafe.
    - intros r s' Hr. by apply write_eax_spec.
    - intros r s' [Hl|Hst]; [by left|right]. by apply ts_syscall. }
  destruct (_ =? IRQ_OFFSET + IRQ_SPURIOUS).
  { apply wp_bind, wp_cprintf. eapply wp_call; [apply (print_trapframe_spec _ _ _ _ no_stop)|].
    intros [] s2 [ev ->]. apply Hprint. by exists ev. }
  destruct (_ =? IRQ_OFFSET + IRQ_TIMER) eqn:Et; [apply Z.eqb_eq in Et|].
  { apply wp_bind, wp_emit, wp_bind. unfold time_tick. apply wp_bind, wp_gets, wp_bind, wp_modify. cbn [ticks set_trace].
    destruct (_ <? _) eqn:Eo; [apply Z.ltb_lt in Eo; apply wp_stop; right; by apply ts_time|].
    apply wp_ret. eapply wp_mono; [eapply (sched_yield_any PD PT ext fl efl); [by eapply kcore_ext|done|done]|by intros ??[]|].
    intros r s' Ho. apply (sched_outcome_exits c) in Ho; [|done]. destruct Ho as [Hl|[-> ->]]; [by left|right]. by constructor. }
  destruct (_ =? IRQ_OFFSET + IRQ_KBD); [apply wp_console; intros; by apply returns_cons; [exists PD, PT, ext, fl, efl|..]|].
  destruct (_ =? IRQ_OFFSET + IRQ_SERIAL); [apply wp_console; intros; by apply returns_cons; [exists PD, PT, ext, fl, efl|..]|].
  eapply wp_mono; [apply Hkill, printed_refl|done|by left].
Qed.

End Dispatch.

(** ** trap *)

(** The CPU in user mode, running environment [c] (which another CPU may
    have marked DYING in the meantime). *)
Record in_user (c : Z) (s : KState) : Prop := {
  iu_inv : kinv s;
  iu_cur : cur_ok s;
  iu_on : on_cpu s c;
  iu_lock : released s;
  iu_cpu : started s
}.

(** The state in which the dispatcher runs: this CPU is STARTED and holds the
    kernel lock, and the trap frame is in the environment. *)
Definition entered (s : KState) : KState :=
  set_kernel_lock {| locked := 1; lk_cpu := Some (cpunum s) |}
    (set_cpus (alter (set_cpu_status CPU_STARTED) (cpunum s) (cpus s)) s).
Definition trapped (frame : Trapframe) (c : Z) (s : KState) : KState :=
  set_envs (alter (set_env_tf frame) c (envs (entered s))) (entered s).

Lemma alter_lookup_insert {A} (f : A → A) (k : Z) (m : gmap Z A) x :
  m !! k = Some x → alter f k m = <[k := f x]> m.
Proof.
  intros Hx. apply map_eq. intros j. destruct (decide (k = j)) as [<-|].
  - by rewrite lookup_alter_eq, Hx, lookup_insert_eq.
  - by rewrite lookup_alter_ne, lookup_insert_ne.
Qed.

Lemma entered_facts s : kinv s → cur_ok s →
  kinv (entered s) ∧ cur_ok (entered s) ∧ held (entered s) ∧ cur (entered s) = cur s.
Proof.
  intros (PD & PT & ext & fl & efl & Hk) (cpu & Hcpu & Hce). split_and!.
  - exists PD, PT, ext, fl, efl. by eapply kcore_ext.
  - exists (set_cpu_status CPU_STARTED cpu). cbn. rewrite lookup_alter_eq, Hcpu. done.
  - split; [done|]. exists (set_cpu_status CPU_STARTED cpu). cbn. by rewrite lookup_alter_eq, Hcpu.
  - unfold cur. cbn. by rewrite lookup_alter_eq, Hcpu.
Qed.

Lemma wp_lock (Q : unit → KState → Prop) E s :
  released s → Q tt (set_kernel_lock {| locked := 1; lk_cpu := Some (cpunum s) |} s) → wp lock_kernel Q E s.
Proof.
  intros Hr HQ. unfold lock_kernel, spin_lock. apply wp_bind, wp_gets, wp_bind, wp_gets. by rewrite Hr.
Qed.

(** Freeing the current environment and scheduling another. *)
Lemma free_current_spec PD PT ext fl efl s c v :
  kcore PD PT ext fl efl s → cur_ok s → held s → cur s = Some c → envs s !! c = Some v → in_use v →
  wp (env_free c ;; set_curenv None ;; sched_yield : K unit) (λ _ _, False) leaves s.
Proof.
  intros Hk Hcur Hh Hc Hv Hu. destruct (kc_dir _ _ _ _ _ _ Hk c v Hv Hu) as (pd & Hpd & Hdir & Hext). apply wp_bind.
  eapply wp_call; [apply (env_free_spec PD PT ext fl s c v pd); try done|].
  { apply (kc_mem _ _ _ _ _ _ Hk). } { by apply cur_ok_cpu_ok. } { by eapply kern_pgdir_range. }
  intros [] s1 Hfr. destruct (kcore_freed _ _ _ _ _ _ _ _ _ _ Hk Hv Hu Hdir Hpd Hfr) as (PT1 & fl1 & Hk1 & _).
  pose proof (ef_frame _ _ _ _ _ _ _ _ Hfr) as Hf. destruct (kframe_cpus _ _ Hf) as [Hcp1 Hcp2].
  destruct Hcur as (cpu & Hcpu & _). apply wp_bind, (wp_set_curenv cpu); [by rewrite Hcp1, Hcp2|].
  eapply wp_mono; [eapply (sched_yield_spec (PD ∖ {[pd]}) PT1 (ext_set pd 0 ext) fl1 (c :: efl))|done|].
  - by eapply kcore_ext.
  - eexists. cbn. rewrite lookup_insert_eq. split; [done|]. done.
  - eapply (held_set_env s1 _ cpu None); [by eapply kframe_held|by rewrite Hcp1, Hcp2|done|done|done].
  - unfold cur. cbn. by rewrite lookup_insert_eq.
  - intros r s'. apply sched_post_leaves.
Qed.

(** The end of trap: back to the environment, or to the scheduler. *)
Lemma resume_spec s s1 c :
  cur s = Some c → returns s s1 →
  wp trap_resume (λ _ _, False) (exits c) s1.
Proof.
  intros Hc [(PD & PT & ext & fl & efl & Hk) Hcur Hh Hc1]. rewrite Hc in Hc1. unfold trap_resume.
  apply wp_bind, (wp_current c); [done|done|]. intros e He Hu.
  apply wp_bind, (wp_get_env _ e); [done|]. case_bool_decide.
  - eapply wp_mono; [by eapply (env_run_spec PD PT ext fl efl s1 c e)|done|]. intros r s' [Hr _]. left. by eapply runs_leaves.
  - eapply wp_mono; [by eapply (sched_yield_any PD PT ext fl efl s1)|done|].
    intros r s'. by apply sched_outcome_exits.
Qed.

Section User.
Context {s : KState} {c : Z} {frame : Trapframe} {v : Env} (cr2 eflags : Z).
Context (Hiu : in_user c s) (Hv : envs s !! c = Some v).

(** A trap from user mode. *)
Lemma trap_user_spec :
  Z.land eflags FL_IF = 0 → user_frame frame → ¬ trap_corrupts frame (trapped frame c s) →
  wp (trap cr2 eflags false frame) (λ _ _, False) (λ r s', leaves r s' ∨ trap_stops frame c (trapped frame c s) r) s.
Proof.
  intros Hfl Hfr Hsafe. pose proof (uf_cs _ Hfr) as Hcs. destruct Hiu as [Hinv Hcur Hon Hrel (cpu & Hcpu & Hst)].
  destruct (entered_facts s Hinv Hcur) as (Hinv1 & Hcur1 & Hh1 & Hc1). destruct (Hon) as [Hc (v' & Hv' & Hcr3)].
  assert (v' = v) as -> by congruence. clear Hv'. rewrite Hc in Hc1.
  assert (Hu : in_use v).
  { destruct Hcur as (cpu' & Hcpu' & Hce). unfold cur in Hc. rewrite Hcpu' in Hc. destruct (Hce c Hc) as (? & ? & ?). congruence. }
  unfold trap. apply wp_bind, (wp_get_cpu cpu); [done|]. apply wp_bind. unfold put_cpu at 1. apply wp_modify.
  rewrite <- (alter_lookup_insert _ _ _ _ Hcpu). rewrite bool_decide_eq_false_2 by done. apply wp_bind, wp_ret, wp_bind.
  rewrite (proj2 (Z.eqb_eq _ _) Hfl). apply wp_ret. rewrite (proj2 (Z.eqb_eq _ _) Hcs). apply wp_bind, wp_bind, wp_lock; [done|].
  change (set_kernel_lock _ _) with (entered s). apply wp_bind, (wp_current c); [done|done|]. intros _ _ _.
  apply wp_bind. rewrite bool_decide_eq_true_2 by eauto. apply wp_ret, wp_bind, wp_deref, wp_bind, (wp_get_env _ v); [done|].
  destruct Hinv1 as (PD & PT & ext & fl & efl & Hk1). apply wp_bind. case_bool_decide as Hdy.
  { eapply wp_mono; [by eapply (free_current_spec PD PT ext fl efl (entered s) c v)|by intros ??[]|by left]. }
  assert (Heq : set_envs (<[c := set_env_tf frame v]> (envs (entered s))) (entered s) = trapped frame c s).
  { unfold trapped. by rewrite (alter_lookup_insert _ _ _ v). }
  apply wp_ret, wp_bind. eapply (wp_upd_user PD PT ext fl efl (entered s) c _ v); [done..|].
  intros s2 Hs2 Hk2 [_ Hcur2 Hh2 Hc2]. rewrite Heq in Hs2. subst s2. rewrite Hc1 in Hc2. apply wp_ret, wp_bind.
  assert (Hv2 : envs (trapped frame c s) !! c = Some (set_env_tf frame v)) by by rewrite <- Heq; cbn; rewrite lookup_insert_eq.
  eapply wp_mono; [eapply (trap_dispatch_spec (s := trapped frame c s) (c := c) _ Hcur2 Hh2 _ Hv2); done| |done].
  intros [] s3 Hret. eapply wp_mono; [by eapply (resume_spec (trapped frame c s))|done|].
  intros r s' [Hl|[-> ->]]; [by left|right]. by constructor.
  Unshelve. { by exists PD, PT, ext, fl, efl. } { split; [done|]. exists (set_env_tf frame v). done. }
Qed.

End User.

(** The interrupts a halted CPU waits for. *)
Definition wakes (trapno : Z) : Prop :=
  trapno = IRQ_OFFSET + IRQ_TIMER ∨ trapno = IRQ_OFFSET + IRQ_KBD ∨
  trapno = IRQ_OFFSET + IRQ_SERIAL ∨ trapno = IRQ_OFFSET + IRQ_SPURIOUS.

Record halted (s : KState) : Prop := {
  hl_inv : kinv s;
  hl_cur : cur_ok s;
  hl_none : cur s = None;
  hl_lock : released s;
  hl_cpu : ∃ cpu, cpus s !! cpunum s = Some cpu ∧ cpu_status cpu = CPU_HALTED
}.

(** Scheduling with no current environment. *)
Lemma yield_none s : kinv s → cur_ok s → held s → cur s = None → wp (sched_yield : K unit) (λ _ _, False) leaves s.
Proof.
  intros (PD & PT & ext & fl & efl & Hk) Hcur Hh Hc.
  eapply wp_mono; [eapply (sched_yield_spec PD PT ext fl efl s); try done; congruence|done|].
  intros r s'. apply sched_post_leaves.
Qed.

Lemma trap_halted_spec s frame cr2 eflags :
  halted s → Z.land eflags FL_IF = 0 → tf_cs frame = GD_KT → wakes (tf_trapno frame) →
  wp (trap cr2 eflags false frame) (λ _ _, False)
    (λ r s', leaves r s' ∨ (tf_trapno frame = IRQ_OFFSET + IRQ_TIMER ∧ time_overflows s ∧ r = time_panic)) s.
Proof.
  intros [Hinv Hcur Hnone Hrel (cpu & Hcpu & Hst)] Hfl Hcs Hwk.
  destruct (entered_facts s Hinv Hcur) as (Hinv1 & Hcur1 & Hh1 & Hc1). rewrite Hnone in Hc1.
  unfold trap. apply wp_bind, (wp_get_cpu cpu); [done|]. apply wp_bind. unfold put_cpu at 1. apply wp_modify.
  rewrite <- (alter_lookup_insert _ _ _ _ Hcpu). rewrite bool_decide_eq_true_2 by done. apply wp_bind, wp_lock; [done|].
  change (set_kernel_lock _ _) with (entered s). apply wp_bind.
  rewrite (proj2 (Z.eqb_eq _ _) Hfl). apply wp_ret. rewrite Hcs. cbn [Z.land GD_KT Z.eqb]. apply wp_bind, wp_ret, wp_bind.
  assert (Hend : ∀ s1 E, cur s1 = None → returns (entered s) s1 → wp trap_resume (λ _ _, False) (λ r s', leaves r s' ∨ E r s') s1).
  { intros s1 E Hn [Hi1 (cpu1 & Hcpu1 & Hce1) Hh1' _]. unfold trap_resume. apply wp_bind, (wp_curenv cpu1); [done|].
    assert (Hcc : cpu_env cpu1 = None) by (unfold cur in Hn; by rewrite Hcpu1 in Hn). rewrite Hcc.
    eapply wp_mono; [apply yield_none; [done|by exists cpu1|done|done]|done|by left]. }
  assert (Hret : ∀ ev tk cs, returns (entered s) (set_cons cs (set_ticks tk (set_trace ev (entered s))))).
  { intros ev tk cs. destruct Hinv1 as (PD & PT & ext & fl & efl & Hk1). split; [|done|done|done].
    exists PD, PT, ext, fl, efl. by eapply kcore_ext. }
  unfold trap_dispatch, read_tf. apply wp_bind, wp_ret.
  destruct Hwk as [Hw|[Hw|[Hw|Hw]]]; rewrite Hw; cbn [Z.eqb Z.add Pos.eqb IRQ_OFFSET IRQ_TIMER IRQ_KBD IRQ_SERIAL IRQ_SPURIOUS T_PGFLT T_BRKPT T_SYSCALL Pos.add Pos.succ];
    apply wp_bind, wp_ret.
  - apply wp_bind, wp_emit, wp_bind. unfold time_tick. apply wp_bind, wp_gets, wp_bind, wp_modify.
    change (ticks _) with (ticks s). destruct (_ <? _) eqn:Et; [apply Z.ltb_lt in Et; apply wp_stop; by right|].
    apply wp_ret. destruct (Hret (LapicEoi :: trace (entered s)) (u32 (ticks s + 1)) (cons s)) as [H1 H2 H3 _].
    eapply wp_mono; [apply yield_none; [exact H1|exact H2|exact H3|done]|by intros ??[]|by left].
  - apply wp_console. intros [] cs. apply Hend; [done|]. apply (Hret (trace s) (ticks s)).
  - apply wp_console. intros [] cs. apply Hend; [done|]. apply (Hret (trace s) (ticks s)).
  - apply wp_bind, wp_cprintf. eapply wp_call; [apply (print_trapframe_spec _ _ _ _ no_stop)|].
    intros [] s1 [ev ->]. apply Hend; [done|]. apply (Hret ev (ticks s) (cons s)).
Qed.
