(* ===== verification/Machine.v ===== *)
(** * One CPU as a state machine

    The CPU alternates between user code and the kernel.  A step is a store
    by user code to memory it may write, a trap taken in user mode, or an
    interrupt that wakes the halted CPU; kernel code runs to completion in a
    step ([trap] of Trap).  Steps are not filtered: whatever registers user
    code has when it traps, the step is there, also when the kernel panics.
    [flaw] singles out the steps on which the code goes wrong; until one of
    them is taken the invariant of the kernel holds. *)

From S2P Require Import Prelude Console Mmu KState KWp Pmap PmapInv PmapSpec PmapDir PmapOps VMem Env EnvFree KInv.
From S2P Require Import SchedProofs EnvProofs UserMem Syscall SyscallProofs SyscallSafe Trap TrapProofs.

Inductive mode := User (c : Z) | Idle | Monitoring | Dead (r : kstop).

(** What the CPU does after the kernel gave it away, or stopped. *)
Definition next_mode (r : kstop) : mode :=
  match r with RunEnv j => User j | Halted => Idle | InMonitor => Monitoring | _ => Dead r end.

Definition machine_ok (m : mode) (s : KState) : Prop :=
  match m with User c => in_user c s | Idle => halted s | Monitoring => kinv s | Dead _ => False end.

(** The CPU, in user mode, takes a trap with the saved frame [frame].  The
    hardware saves 32-bit registers and the user's code segment, and clears
    the interrupt flag; no CPU has panicked. *)
Record takes_trap (frame : Trapframe) (s : KState) (r : kstop) (s' : KState) : Prop := {
  tt_frame : user_frame frame;
  tt_run : ∃ cr2 eflags, Z.land eflags FL_IF = 0 ∧ trap cr2 eflags false frame s = Stop r s'
}.

(** The halted CPU takes an interrupt, one of those the kernel enables. *)
Record takes_irq (frame : Trapframe) (s : KState) (r : kstop) (s' : KState) : Prop := {
  ti_cs : tf_cs frame = GD_KT;
  ti_irq : wakes (tf_trapno frame);
  ti_run : ∃ cr2 eflags, Z.land eflags FL_IF = 0 ∧ trap cr2 eflags false frame s = Stop r s'
}.

Inductive step : mode * KState → mode * KState → Prop :=
| step_store c s s' a b :
    user_writable (phys s) (cr3 s / 4096) a → vstore8 a b s = Ok tt s' → step (User c, s) (User c, s')
| step_trap c s frame r s' : takes_trap frame s r s' → step (User c, s) (next_mode r, s')
| step_wake s frame r s' : takes_irq frame s r s' → step (Idle, s) (next_mode r, s').

(** The steps on which the code goes wrong: a system call breaks the
    invariant ([corrupts]), or the kernel stops ([trap_stops], or the clock of
    an idle CPU overflows). *)
Inductive flaw : mode * KState → mode * KState → Prop :=
| flaw_corrupts c s frame r s' : takes_trap frame s r s' → trap_corrupts frame (trapped frame c s) → flaw (User c, s) (next_mode r, s')
| flaw_stops c s frame r s' : takes_trap frame s r s' → trap_stops frame c (trapped frame c s) r → flaw (User c, s) (Dead r, s')
| flaw_timer s frame s' : takes_irq frame s time_panic s' → time_overflows s → flaw (Idle, s) (Dead time_panic, s').

Lemma leaves_machine_ok r s : leaves r s → machine_ok (next_mode r) s.
Proof.
  intros [Hinv [(j & -> & [Hc (e & He & Hst & Hcr3 & _) Hrel Hup] & Hcur)|[(-> & Hrel & Hn & Hcur & Hcpu)| ->]]]; cbn.
  - split; [done|done| |done|done]. split; [done|]. by exists e.
  - by split.
  - done.
Qed.

(** Kernel entries run to completion. *)
Lemma trap_ends c s frame cr2 eflags :
  in_user c s → Z.land eflags FL_IF = 0 → user_frame frame → ¬ trap_corrupts frame (trapped frame c s) →
  ∃ r s', trap cr2 eflags false frame s = Stop r s' ∧ (leaves r s' ∨ trap_stops frame c (trapped frame c s) r).
Proof.
  intros Hiu Hfl Hfr Hsafe. destruct (iu_on _ _ Hiu) as [_ (v & Hv & _)].
  exact (wp_stops _ _ _ (trap_user_spec cr2 eflags Hiu Hv Hfl Hfr Hsafe)).
Qed.

(** The kernel never stops in a way that looks like giving the CPU away. *)
Lemma trap_stops_dead frame c s r : trap_stops frame c s r → next_mode r = Dead r.
Proof. intros [|? _|r' ? _ [|r'' _ _ [-> | ->]|]]; done. Qed.

Lemma trapped_user c s frame : in_user c s →
  kinv (trapped frame c s) ∧ cur_ok (trapped frame c s) ∧ cur (trapped frame c s) = Some c.
Proof.
  intros [Hinv Hcur [Hc (v & Hv & _)] _ _]. destruct (entered_facts s Hinv Hcur) as ((PD & PT & ext & fl & efl & Hk) & Hcur1 & _ & Hc1).
  assert (Hv1 : envs (entered s) !! c = Some v) by done. unfold trapped. rewrite (alter_lookup_insert _ _ _ v Hv1).
  split; [exists PD, PT, ext, fl, efl; by eapply kcore_same|]. split; [by apply (cur_ok_same _ c v)|]. by rewrite <- Hc, <- Hc1.
Qed.

Lemma trap_corrupts_dec c s frame : in_user c s →
  trap_corrupts frame (trapped frame c s) ∨ ¬ trap_corrupts frame (trapped frame c s).
Proof.
  intros Hiu. destruct (trapped_user c s frame Hiu) as (Hk & Hcur & Hc). unfold trap_corrupts. cbv zeta.
  destruct (decide (tf_trapno frame = T_SYSCALL)); [|right; tauto].
  destruct (corrupts_dec _ c (reg_eax (tf_regs frame)) (reg_edx (tf_regs frame)) (reg_ebx (tf_regs frame)) Hk Hcur Hc); tauto.
Qed.

Lemma user_store_ok c s s' a b :
  in_user c s → user_writable (phys s) (cr3 s / 4096) a → vstore8 a b s = Ok tt s' → in_user c s'.
Proof.
  intros [(PD & PT & ext & fl & efl & Hk) Hcur [Hc (v & Hv & Hcr3)] Hrel Hup] Hw Hst.
  assert (Hu : in_use v).
  { destruct Hcur as (cpu & Hcpu & Hce). unfold cur in Hc. rewrite Hcpu in Hc. destruct (Hce c Hc) as (? & ? & ?). congruence. }
  destruct (in_use_dir Hk c v Hv Hu) as (pd & Hpd & Hdir & _ & _).
  assert (Hpd3 : cr3 s = pd * 4096) by (rewrite Hcr3, Hdir; unfold kdir; lia).
  rewrite Hpd3 in Hw. replace (pd * 4096 / 4096) with pd in Hw by mlia.
  pose proof (vstore8_spec PD PT ext fl efl s pd a b Hk Hpd3 Hpd Hw) as Hwp. unfold wp in Hwp. rewrite Hst in Hwp.
  destruct Hwp as [Hk' Hs' _]. rewrite Hs'. rewrite Hs' in Hk'.
  split; [by exists PD, PT, ext, fl, efl|done| |done|done]. split; [done|]. by exists v.
Qed.

(** A step keeps the invariant or is a flaw. *)
Lemma step_ok x y : step x y → machine_ok x.1 x.2 → machine_ok y.1 y.2 ∨ flaw x y.
Proof.
  intros [c s s' a b Hw Hst|c s frame r s' Ht|s frame r s' Ht]; cbn; intros Hok.
  - left. by eapply user_store_ok.
  - destruct (trap_corrupts_dec c s frame Hok) as [Hbad|Hsafe]; [right; by eapply flaw_corrupts|].
    destruct (tt_run _ _ _ _ Ht) as (cr2 & eflags & Hfl & Hrun).
    destruct (trap_ends c s frame cr2 eflags Hok Hfl (tt_frame _ _ _ _ Ht) Hsafe) as (r0 & s0 & Hrun0 & Hend).
    assert (r0 = r ∧ s0 = s') as [-> ->] by (split; congruence). destruct Hend as [Hl|Hs]; [left; by apply leaves_machine_ok|].
    right. rewrite (trap_stops_dead _ _ _ _ Hs). by eapply flaw_stops.
  - destruct (ti_run _ _ _ _ Ht) as (cr2 & eflags & Hfl & Hrun).
    destruct (wp_stops _ _ _ (trap_halted_spec s frame cr2 eflags Hok Hfl (ti_cs _ _ _ _ Ht) (ti_irq _ _ _ _ Ht))) as (r0 & s0 & Hrun0 & Hend).
    assert (r0 = r ∧ s0 = s') as [-> ->] by (split; congruence). destruct Hend as [Hl|(_ & Ho & ->)]; [left; by apply leaves_machine_ok|].
    right. by eapply flaw_timer.
Qed.

(** A run keeps the invariant up to its first flaw. *)
Lemma steps_ok x y : rtc step x y → machine_ok x.1 x.2 →
  machine_ok y.1 y.2 ∨ ∃ a b, rtc step x a ∧ machine_ok a.1 a.2 ∧ flaw a b ∧ rtc step b y.
Proof.
  intros Hr. induction Hr as [|x x1 y Hs Hr IH]; [by left|]. intros Hok. destruct (step_ok x x1 Hs Hok) as [Hok1|Hf].
  - destruct (IH Hok1) as [|(a & b & Ha & Hoka & Hf & Hb)]; [by left|right]. exists a, b. split; [by eapply rtc_l|done].
  - right. exists x, x1. by split; [apply rtc_refl|].
Qed.
