(* ===== verification/KernProps.v ===== *)
(** * Properties of the kernel

    What the kernel promises: the machine's invariant, system calls and
    traps that always run to completion, memory and IPC system calls as
    updates of the environments' address spaces, the scheduler's choice. *)

From S2P Require Import Prelude Console Mmu KState KWp Pmap PmapInv PmapSpec PmapDir PmapOps VMem Env EnvFree KInv.
From S2P Require Import SchedProofs EnvProofs UserMem Demo Syscall SyscallProofs SyscallSafe Trap TrapProofs Machine.

(** ** The small machine in user mode *)

Lemma demo_refs_room : refs_room demo.
Proof.
  intros p k. cbn. unfold demo_pages. rewrite !lookup_insert_Some. unfold demo_pages0. rewrite lookup_tabulate.
  intros [[_ <-]|[_ [[_ <-]|[_ [[_ <-]|[_ Hk]]]]]]; [done..|]. case_decide; [|done]. injection Hk as <-.
  cbn. unfold demo_ext0. case_decide; lia.
Qed.

(** Environment 0 has entered user mode: the kernel lock is free. *)
Definition demo_user : KState := set_kernel_lock {| locked := 0; lk_cpu := None |} demo.

Lemma demo_user_core : kcore {[2]} {[3]} demo_ext [5; 6; 7] (range 1 1024) demo_user.
Proof. destruct demo_kcore. by split. Qed.

Lemma demo_in_user : in_user 0 demo_user.
Proof.
  split; [do 5 eexists; exact demo_user_core|exact demo_cur_ok| |done|eexists; by split].
  split; [done|]. exists (demo_env 0). unfold demo_user. cbn [envs set_kernel_lock]. by rewrite demo_lookup.
Qed.

(** A system call: sys_getenvid from user mode. *)
Definition demo_frame : Trapframe :=
  {| tf_regs := set_reg_eax SYS_getenvid zero_regs; tf_es := 0x23; tf_padding1 := 0; tf_ds := 0x23; tf_padding2 := 0;
     tf_trapno := T_SYSCALL; tf_err := 0; tf_eip := UTEXT; tf_cs := Z.lor GD_UT 3; tf_padding3 := 0; tf_eflags := FL_IF;
     tf_esp := USTACKTOP; tf_ss := 0x23; tf_padding4 := 0 |}.

(** Only page mapping and sending can break the invariant. *)
Lemma corrupts_other s no a1 a3 : no ≠ SYS_page_map → no ≠ SYS_ipc_try_send → ¬ corrupts s no a1 a3.
Proof. intros H1 H2 [[[H|H] _]|[H _]]; [exact (H1 H)|exact (H2 H)|exact (H2 H)]. Qed.

Lemma demo_user_frame : user_frame demo_frame.
Proof. split; [reflexivity|done|repeat constructor; done]. Qed.
Lemma demo_trap_safe : ¬ trap_corrupts demo_frame (trapped demo_frame 0 demo_user).
Proof. intros [_ Hbad]. revert Hbad. apply corrupts_other; discriminate. Qed.

Lemma demo_on_cpu : on_cpu demo 0.
Proof. split; [done|]. exists (demo_env 0). by rewrite demo_lookup. Qed.
Lemma demo_kinv : kinv demo.
Proof. do 5 eexists. exact demo_kcore. Qed.

(** ** The machine *)

(** C1: user code stores what it likes where it may write, traps with any
    registers, and interrupts arrive: page accounting, environment table,
    kernel mappings and lock satisfy the kernel's invariant in every state
    the machine reaches, or the run has taken a step that is one of the
    known flaws of the code, [flaw].  These are: a mapping added while a
    reference count is at its 16-bit maximum; a page sent to a receiver that
    waits at or above UTOP; and steps on which the kernel stops: the
    scheduler called from the last slot of [envs], the clock at its
    overflow, sys_cputs or sys_env_set_trapframe on memory they did not
    check.  Up to the first of them the invariant held. *)
Theorem machine_invariant m s m' s' :
  rtc step (m, s) (m', s') → machine_ok m s →
  machine_ok m' s' ∨
  ∃ a b, rtc step (m, s) a ∧ machine_ok a.1 a.2 ∧ flaw a b ∧ rtc step b (m', s').
Proof. intros Hr. exact (steps_ok _ _ Hr). Qed.

Lemma machine_invariant_witness : ∃ m s, step (User 0, demo_user) (m, s) ∧
  (machine_ok m s ∨ ∃ a b, rtc step (User 0, demo_user) a ∧ machine_ok a.1 a.2 ∧ flaw a b ∧ rtc step b (m, s)).
Proof.
  destruct (trap_ends 0 demo_user demo_frame 0 0 demo_in_user eq_refl demo_user_frame demo_trap_safe) as (r & s & Hrun & _).
  assert (Hs : step (User 0, demo_user) (next_mode r, s)).
  { eapply step_trap. split; [exact demo_user_frame|]. exists 0, 0. split; [reflexivity|exact Hrun]. }
  exists (next_mode r), s. split; [exact Hs|].
  apply (machine_invariant (User 0) demo_user); [by apply rtc_once|exact demo_in_user].
Defined.

(** C2: a trap from user mode that is not one of the two corrupting system
    calls ([corrupts]) runs the kernel to an end: the CPU is in a user
    environment with the lock released, halted waiting for an interrupt, or
    in the kernel monitor, with the invariant; or the kernel has stopped in
    one of the ways [trap_stops] lists with their causes: the scheduler read
    past [envs] from the last slot, the clock overflowed at a timer
    interrupt, sys_cputs or sys_env_set_trapframe touched unchecked memory.
    There is no other panic, fault, deadlock or return. *)
Theorem trap_from_user c s frame cr2 eflags :
  in_user c s → Z.land eflags FL_IF = 0 → user_frame frame → ¬ trap_corrupts frame (trapped frame c s) →
  ∃ r s', trap cr2 eflags false frame s = Stop r s' ∧ (leaves r s' ∨ trap_stops frame c (trapped frame c s) r).
Proof. apply trap_ends. Qed.

Lemma trap_from_user_witness : ∃ r s', trap 0 0 false demo_frame demo_user = Stop r s' ∧
  (leaves r s' ∨ trap_stops demo_frame 0 (trapped demo_frame 0 demo_user) r).
Proof. apply (trap_from_user 0); [exact demo_in_user|reflexivity|exact demo_user_frame|exact demo_trap_safe]. Defined.

(** C3: a system call with any number and any 32-bit arguments, apart from
    the two that corrupt ([corrupts]), returns to its caller with the
    invariant, the lock and the current environment kept, or gives the CPU
    away properly, or stops the kernel in one of three ways
    ([syscall_stops]): sys_yield and sys_ipc_recv from the last slot,
    sys_cputs of a buffer that is not followed by a readable byte, wraps
    around or has 2 GB or more, sys_env_set_trapframe of a frame the caller
    cannot read or another target has not mapped. *)
Theorem syscall_safe s c no a1 a2 a3 a4 a5 :
  kinv s → cur_ok s → held s → on_cpu s c → u32s [a1; a2; a3; a4; a5] → ¬ corrupts s no a1 a3 →
  (∃ r s', syscall no a1 a2 a3 a4 a5 s = Ok r s' ∧ returns s s') ∨
  (∃ r s', syscall no a1 a2 a3 a4 a5 s = Stop r s' ∧ (leaves r s' ∨ syscall_stops s c no a1 a2 r)).
Proof. intros. apply wp_runs. by eapply syscall_spec. Qed.

Lemma syscall_safe_witness :
  (∃ r s', syscall SYS_page_alloc 0 0x900000 7 0 0 demo = Ok r s' ∧ returns demo s') ∨
  (∃ r s', syscall SYS_page_alloc 0 0x900000 7 0 0 demo = Stop r s' ∧ (leaves r s' ∨ syscall_stops demo 0 SYS_page_alloc 0 0x900000 r)).
Proof.
  apply (syscall_safe demo 0); [exact demo_kinv|exact demo_cur_ok|exact demo_held|exact demo_on_cpu|repeat constructor; done|].
  apply corrupts_other; discriminate.
Defined.

(** ** Memory system calls *)

(** C9: sys_page_alloc reports a bad environment, a bad address or bad
    permissions without any effect; otherwise it maps a page that was free,
    filled with zeroes, at [va] of the target with exactly [perm], every
    other mapping of every environment is kept, and it fails with -E_NO_MEM
    only when at most one page is free. *)
Theorem sys_page_alloc_correct PD PT ext fl efl s c envid va perm :
  kcore PD PT ext fl efl s → cur_ok s → cur s = Some c → 0 ≤ va →
  ∃ r s', sys_page_alloc envid va perm s = Ok r s' ∧ page_alloc_result fl s envid va perm r s'.
Proof. intros. apply wp_no_stop. by eapply sys_page_alloc_spec. Qed.

Lemma sys_page_alloc_correct_witness :
  ∃ r s', sys_page_alloc demo_id 0x900000 7 demo = Ok r s' ∧ page_alloc_result [5; 6; 7] demo demo_id 0x900000 7 r s'.
Proof. eapply (sys_page_alloc_correct {[2]} {[3]}); [exact demo_kcore|exact demo_cur_ok|exact demo_cur|done]. Defined.

(** C8: sys_page_map shares the page mapped at [srcva] of the source at
    [dstva] of the destination with permission [perm] and changes no other
    mapping and no contents; it refuses bad environments, addresses and
    permissions, an unmapped source, and write permission on a read-only
    source, without any effect. *)
Theorem sys_page_map_correct PD PT ext fl efl s c srcid srcva dstid dstva perm :
  kcore PD PT ext fl efl s → cur_ok s → cur s = Some c → refs_room s → 0 ≤ srcva → 0 ≤ dstva →
  ∃ r s', sys_page_map srcid srcva dstid dstva perm s = Ok r s' ∧
    page_map_result fl s srcid srcva dstid dstva perm r s'.
Proof. intros. apply wp_no_stop. by eapply sys_page_map_spec. Qed.

Lemma sys_page_map_correct_witness :
  ∃ r s', sys_page_map 0 UTEXT demo_id 0x10000000 5 demo = Ok r s' ∧
    page_map_result [5; 6; 7] demo 0 UTEXT demo_id 0x10000000 5 r s'.
Proof.
  eapply (sys_page_map_correct {[2]} {[3]});
    [exact demo_kcore|exact demo_cur_ok|exact demo_cur|exact demo_refs_room|done|done].
Defined.

(** sys_page_unmap removes the mapping at [va] of the target, if there is
    one, and no other; bad environments and addresses are refused. *)
Theorem sys_page_unmap_correct PD PT ext fl efl s c envid va :
  kcore PD PT ext fl efl s → cur_ok s → cur s = Some c → 0 ≤ va →
  ∃ r s', sys_page_unmap envid va s = Ok r s' ∧ page_unmap_result s envid va r s'.
Proof. intros. apply wp_no_stop. by eapply sys_page_unmap_spec. Qed.

Lemma sys_page_unmap_correct_witness :
  ∃ r s', sys_page_unmap 0 UTEXT demo = Ok r s' ∧ page_unmap_result demo 0 UTEXT r s'.
Proof. eapply (sys_page_unmap_correct {[2]} {[3]}); [exact demo_kcore|exact demo_cur_ok|exact demo_cur|done]. Defined.



(** ** IPC *)







(** sys_ipc_recv refuses an unaligned destination below UTOP without any
    effect; otherwise it marks the caller as waiting, not runnable, and calls
    the scheduler, which takes the CPU away from it (or, from the last slot,
    reads past the table). *)
Theorem sys_ipc_recv_correct PD PT ext fl efl s c dstva :
  kcore PD PT ext fl efl s → cur_ok s → held s → cur s = Some c →
  (sys_ipc_recv dstva s = Ok (- E_INVAL) s ∧ dstva < UTOP ∧ PGOFF dstva ≠ 0) ∨
  (∃ r s' e, sys_ipc_recv dstva s = Stop r s' ∧ exits c r s' ∧ envs s !! c = Some e ∧
     sched_outcome (set_envs (<[c := blocked dstva e]> (envs s)) s) r s').
Proof.
  intros Hk Hcur Hh Hc.
  destruct (wp_runs _ _ _ _ (sys_ipc_recv_spec Hk Hcur Hh Hc dstva)) as [(r & s' & Hrun & -> & -> & H)|(r & s' & Hrun & Hl & e & He & Hp)].
  - left. split; [exact Hrun|exact H].
  - right. exists r, s', e. split; [exact Hrun|]. split; [exact Hl|]. split; [exact He|exact Hp].
Qed.

Lemma sys_ipc_recv_correct_witness : ∃ r s', sys_ipc_recv UTEMP demo = Stop r s' ∧ exits 0 r s'.
Proof.
  destruct (sys_ipc_recv_correct {[2]} {[3]} demo_ext [5; 6; 7] (range 1 1024) demo 0 UTEMP
    demo_kcore demo_cur_ok demo_held demo_cur) as [(_ & _ & H)|(r & s' & e & Hrun & Hl & _)].
  - destruct (H eq_refl).
  - exists r, s'. split; [exact Hrun|exact Hl].
Defined.

(** ** Environments *)

(** C12: sys_exofork fails without any effect when no slot or no page is
    free; otherwise a free slot holds a copy of the caller's registers, not
    runnable, with a result register of 0 and an empty user address space,
    and the caller gets its fresh id. *)
Theorem sys_exofork_correct PD PT ext fl efl s c :
  kcore PD PT ext fl efl s → cur_ok s → held s → cur s = Some c →
  ∃ r s', sys_exofork s = Ok r s' ∧ returns s s' ∧ exofork_result (fl := fl) (efl := efl) (s := s) (c := c) r s'.
Proof. intros Hk Hcur Hh Hc. apply wp_no_stop. apply (sys_exofork_spec Hk Hcur Hh Hc). Qed.

Lemma sys_exofork_correct_witness : ∃ r s', sys_exofork demo = Ok r s' ∧ returns demo s'.
Proof.
  destruct (sys_exofork_correct {[2]} {[3]} demo_ext [5; 6; 7] (range 1 1024) demo 0
    demo_kcore demo_cur_ok demo_held demo_cur) as (r & s' & Hrun & Hret & _).
  exists r, s'. split; [exact Hrun|exact Hret].
Defined.

(** C11: env_alloc takes the first free slot and one free page, which becomes
    a page directory with the kernel's mappings and no user mapping; the
    environment is runnable with a fresh id and no other environment and no
    other memory changes.  It fails, without any effect, exactly when there
    is no free slot or no free page. *)
Theorem env_alloc_correct PD PT ext fl efl s parent_id :
  kcore PD PT ext fl efl s → cur_ok s →
  ∃ r s', env_alloc parent_id s = Ok r s' ∧
    ((r = (- E_NO_FREE_ENV, None) ∧ efl = [] ∧ s' = s) ∨
     (r = (- E_NO_MEM, None) ∧ fl = [] ∧ s' = s) ∨
     ∃ e p, r = (0, Some e) ∧ env_allocated PD PT ext fl efl parent_id e p s s' ∧ cur_ok s').
Proof. intros. apply wp_no_stop. by apply env_alloc_spec. Qed.

Lemma env_alloc_correct_witness : ∃ r s', env_alloc demo_id demo = Ok r s' ∧ (r.1 = 0 → cur_ok s').
Proof.
  destruct (env_alloc_correct {[2]} {[3]} demo_ext [5; 6; 7] (range 1 1024) demo demo_id demo_kcore demo_cur_ok)
    as (r & s' & Hrun & Hres). exists r, s'. split; [exact Hrun|].
  destruct Hres as [(-> & _)|[(-> & _)|(e & p & _ & _ & H)]]; [discriminate|discriminate|intros _; exact H].
Defined.



(** C14: envid2env finds exactly the environment an id names: 0 is the
    current one, stale ids and ids of free slots are refused, and with
    [checkperm] so are environments that are neither the current one nor its
    children.  It changes nothing. *)
Theorem envid2env_correct PD PT ext fl efl s id chk c :
  kcore PD PT ext fl efl s → cur_ok s → cur s = Some c →
  ∃ r, envid2env id chk s = Ok r s ∧ resolved s chk id r.
Proof.
  intros Hk Hcur Hc. destruct (wp_no_stop _ _ _ (envid2env_spec Hk Hcur id chk c Hc)) as (r & s' & Hrun & -> & Hr).
  by exists r.
Qed.

Lemma envid2env_correct_witness : ∃ r, envid2env 8192 true demo = Ok r demo ∧ resolved demo true 8192 r.
Proof.
  exact (envid2env_correct {[2]} {[3]} demo_ext [5; 6; 7] (range 1 1024) demo 8192 true 0 demo_kcore demo_cur_ok demo_cur).
Defined.

(** ** The scheduler *)

(** C15: sched_yield runs the first runnable environment after the current
    slot, in circular order; without one it goes on with the current
    environment if that is still running; otherwise the CPU halts, or the
    monitor starts when no environment is left.  This holds from every slot
    but the last: from slot NENV - 1 the search does not wrap around, the
    first index is NENV, outside the table. *)
Theorem sched_yield_correct PD PT ext fl efl s :
  kcore PD PT ext fl efl s → cur_ok s → held s →
  ∃ r s', (sched_yield : K unit) s = Stop r s' ∧
    if decide (cur s = Some (NENV - 1)) then r = Ub "envs[] out of bounds" ∧ s' = s else sched_post s r s'.
Proof. intros. apply wp_stops. by eapply sched_yield_any. Qed.






Lemma sched_yield_correct_witness : ∃ r s', (sched_yield : K unit) demo = Stop r s' ∧ sched_post demo r s'.
Proof.
  destruct (sched_yield_correct {[2]} {[3]} demo_ext [5; 6; 7] (range 1 1024) demo demo_kcore demo_cur_ok demo_held) as (r & s' & Hrun & Hp).
  rewrite decide_False in Hp by discriminate. exists r, s'. split; [exact Hrun|exact Hp].
Defined.
