(* ===== verification/ULib.v ===== *)
(** * User-level fork

    lib/syscall.c, lib/pgfault.c and lib/fork.c, run by the current
    environment on top of the modelled kernel: a system call is the trap
    [int $T_SYSCALL] into [trap] (kern/trap.c), a memory access goes through
    the page tables in cr3 with user rights.

    C local variables and the stack are not in the modelled memory; what the
    page-fault handler does to a stack page is what it does to any page. *)

From S2P Require Import Prelude Console Mmu KState Pmap VMem Env Syscall Trap.

(** lib/fork.c *)
Definition PTE_COW : Z := 0x800.

(** How user code can stop. *)
Inductive ustop :=
| UPanic (msg : string)    (* panic(): a message, then int3 for ever *)
| UFault (va : Z)          (* an access the page tables do not allow *)
| ULeft (r : kstop).       (* the kernel did not come back to the caller *)

(** The machine, and the library's global variables; [thisenv] is an index
    into [envs]. *)
Record UState := { kern : KState; _pgfault_handler : Z; thisenv : Z }.

Definition set_kern (s : KState) (u : UState) : UState :=
  {| kern := s; _pgfault_handler := _pgfault_handler u; thisenv := thisenv u |}.

Definition U (A : Type) : Type := M UState ustop A.
(** [_panic] never returns; the printing of its message is left out. *)
Definition upanic {A} (msg : string) : U A := stop (UPanic msg).

(** ** Memory *)

(** The walk of the MMU in user mode: every level must allow the user. *)
Definition user_translate (m : gmap Z Z) (cr3 va : Z) (write : bool) : option Z :=
  let pde := word m (PTE_ADDR cr3 / 4 + PDX va) in
  let pte := word m (PTE_ADDR pde / 4 + PTX va) in
  let has b e := negb (Z.land e b =? 0) in
  if present pde && present pte && (has PTE_U pde && has PTE_U pte)
     && (negb write || (has PTE_W pde && has PTE_W pte))
  then Some (PTE_ADDR pte + PGOFF va)
  else None.

Definition user_access {A} (va : Z) (write : bool) (k : Z → U A) : U A :=
  s ← gets kern;
  match user_translate (phys s) (cr3 s) va write with
  | Some pa => k pa
  | None => stop (UFault va)
  end.

Definition uload8 (va : Z) : U Z :=
  user_access va false (λ pa, s ← gets kern; mret (get_byte (word (phys s) (pa / 4)) (pa `mod` 4))).
Definition ustore8 (va b : Z) : U unit :=
  user_access va true (λ pa, modify (λ u,
    let m := phys (kern u) in
    set_kern (set_phys (<[pa / 4 := set_byte (word m (pa / 4)) (pa `mod` 4) b]> m) (kern u)) u)).

(** Aligned words; [v] is a word. *)
Definition uload32 (va : Z) : U Z :=
  user_access va false (λ pa, s ← gets kern; mret (word (phys s) (pa / 4))).
Definition ustore32 (va v : Z) : U unit :=
  user_access va true (λ pa, modify (λ u,
    set_kern (set_phys (<[pa / 4 := v]> (phys (kern u))) (kern u)) u)).

(** [rep movsl] and [rep movsb], upwards ([dir] = 1) or downwards (-1). *)
Fixpoint urep_movsl (n : nat) (dir d s : Z) : U unit :=
  match n with
  | O => mret tt
  | S n => v ← uload32 s; ustore32 d v ;; urep_movsl n dir (u32 (d + dir * 4)) (u32 (s + dir * 4))
  end.
Fixpoint urep_movsb (n : nat) (dir d s : Z) : U unit :=
  match n with
  | O => mret tt
  | S n => v ← uload8 s; ustore8 d v ;; urep_movsb n dir (u32 (d + dir)) (u32 (s + dir))
  end.

Definition umemmove (dst src n : Z) : U unit :=
  if (src <? dst) && (u32 (src + n) >? dst) then
    let s := u32 (src + n) in
    let d := u32 (dst + n) in
    if (s `mod` 4 =? 0) && (d `mod` 4 =? 0) && (n `mod` 4 =? 0)
    then urep_movsl (Z.to_nat (n / 4)) (-1) (u32 (d - 4)) (u32 (s - 4))
    else urep_movsb (Z.to_nat n) (-1) (u32 (d - 1)) (u32 (s - 1))
  else
    if (src `mod` 4 =? 0) && (dst `mod` 4 =? 0) && (n `mod` 4 =? 0)
    then urep_movsl (Z.to_nat (n / 4)) 1 dst src
    else urep_movsb (Z.to_nat n) 1 dst src.

(** The page tables as the user sees them (lib/entry.S). *)
Definition uvpt (pn : Z) : U Z := uload32 (UVPT + 4 * pn).
Definition uvpd (i : Z) : U Z := uload32 (UVPT + Z.shiftr UVPT 12 * 4 + 4 * i).

(** [e->env_id] through the read-only mapping of [envs] at UENVS: the table
    itself, which is not in the modelled memory.  A [struct Env] has 124 bytes,
    [env_id] is at 72. *)
Definition uenv_id (i : Z) : U Z :=
  s ← gets kern;
  match envs s !! i with Some e => mret (env_id e) | None => stop (UFault (UENVS + 124 * i + 72)) end.

Section Lib.
(** What the caller's registers hold besides the arguments of the call, cr2
    and the flags at the time of the trap, and where the linker put pgfault
    and _pgfault_upcall. *)
Variables (frame : Trapframe) (cr2 eflags : Z) (pgfault_addr _pgfault_upcall : Z).

(** ** System calls *)

(** The frame that [int $T_SYSCALL] and trapentry.S build. *)
Definition syscall_frame (no a1 a2 a3 a4 a5 : Z) : Trapframe :=
  Build_Trapframe
    {| reg_edi := a4; reg_esi := a5; reg_ebp := reg_ebp (tf_regs frame); reg_oesp := reg_oesp (tf_regs frame);
       reg_ebx := a3; reg_edx := a1; reg_ecx := a2; reg_eax := no |}
    (tf_es frame) (tf_padding1 frame) (tf_ds frame) (tf_padding2 frame) T_SYSCALL 0
    (tf_eip frame) (tf_cs frame) (tf_padding3 frame) (tf_eflags frame) (tf_esp frame) (tf_ss frame) (tf_padding4 frame).

(** The trap, up to the [iret] back into the calling environment: the result
    is in its saved %eax. *)
Definition int_syscall (no a1 a2 a3 a4 a5 : Z) : U Z := λ u,
  match trap cr2 eflags false (syscall_frame no a1 a2 a3 a4 a5) (kern u) with
  | Stop (RunEnv i) s' =>
      if bool_decide (cpus (kern u) !! cpunum (kern u) ≫= cpu_env = Some i) then
        match envs s' !! i with
        | Some e => Ok (s32 (reg_eax (tf_regs (env_tf e)))) (set_kern s' u)
        | None => Stop (ULeft (RunEnv i)) (set_kern s' u)
        end
      else Stop (ULeft (RunEnv i)) (set_kern s' u)
  | Stop r s' => Stop (ULeft r) (set_kern s' u)
  | Ok _ s' => Stop (ULeft (Ub "trap returned")) (set_kern s' u)
  end.

Definition usyscall (num : Z) (check : bool) (a1 a2 a3 a4 a5 : Z) : U Z :=
  ret ← int_syscall num (u32 a1) (u32 a2) (u32 a3) (u32 a4) (u32 a5);
  if check && (ret >? 0) then upanic "syscall %d returned %d (> 0)" else mret ret.

Definition usys_getenvid : U Z := usyscall SYS_getenvid false 0 0 0 0 0.
Definition usys_page_alloc (envid va perm : Z) : U Z := usyscall SYS_page_alloc true envid va perm 0 0.
Definition usys_page_map (srcenv srcva dstenv dstva perm : Z) : U Z :=
  usyscall SYS_page_map true srcenv srcva dstenv dstva perm.
Definition usys_page_unmap (envid va : Z) : U Z := usyscall SYS_page_unmap true envid va 0 0 0.
Definition usys_env_set_status (envid status : Z) : U Z := usyscall SYS_env_set_status true envid status 0 0 0.
Definition usys_env_set_pgfault_upcall (envid upcall : Z) : U Z :=
  usyscall SYS_env_set_pgfault_upcall true envid upcall 0 0 0.
(** Inlined in inc/lib.h; the other argument registers keep their values. *)
Definition usys_exofork : U Z :=
  let r := tf_regs frame in
  int_syscall SYS_exofork (reg_edx r) (reg_ecx r) (reg_ebx r) (reg_edi r) (reg_esi r).

(** ** lib/pgfault.c *)

Definition set_pgfault_handler (handler : Z) : U unit :=
  h ← gets _pgfault_handler;
  (if h =? 0 then
     t ← gets thisenv;
     id ← uenv_id t;
     r ← usys_page_alloc id (UXSTACKTOP - PGSIZE) (Z.lor (Z.lor PTE_P PTE_W) PTE_U);
     if r <? 0 then upanic "set_pgfault_handler: %e"
     else id ← uenv_id t; _ ← usys_env_set_pgfault_upcall id _pgfault_upcall; mret tt
   else mret tt) ;;
  modify (λ u, {| kern := kern u; _pgfault_handler := handler; thisenv := thisenv u |}).

(** ** lib/fork.c *)

(** [utf->utf_fault_va] and [utf->utf_err] are all pgfault reads of the record. *)
Definition pgfault (utf_fault_va utf_err : Z) : U unit :=
  let addr := utf_fault_va in
  let err := utf_err in
  ok ← (if ctrue (Z.land err FEC_WR) then pte ← uvpt (PGNUM addr); mret (ctrue (Z.land pte PTE_COW)) else mret false);
  if negb ok then upanic "pgfault:not writabled or a COW page!\n"
  else
    envid ← usys_getenvid;
    r ← usys_page_alloc envid PFTEMP (Z.lor (Z.lor PTE_P PTE_W) PTE_U);
    if r <? 0 then upanic "pgfault:page allocation failed: %e"
    else
      let addr := ROUNDDOWN addr PGSIZE in
      umemmove PFTEMP addr PGSIZE ;;
      r ← usys_page_map envid PFTEMP envid addr (Z.lor (Z.lor PTE_P PTE_W) PTE_U);
      if r <? 0 then upanic "pgfault:page map failed: %e"
      else
        r ← usys_page_unmap envid PFTEMP;
        if r <? 0 then upanic "pgfault: page unmap failed: %e" else mret tt.

Definition duppage (envid pn : Z) : U Z :=
  let addr := u32 (pn * PGSIZE) in
  let cow := Z.lor (Z.lor PTE_P PTE_U) PTE_COW in
  pte ← uvpt pn;
  if ctrue (Z.land pte PTE_SHARE) then
    pte ← uvpt pn;
    r ← usys_page_map 0 addr envid addr (Z.land pte PTE_SYSCALL);
    mret (if r <? 0 then r else 0)
  else
    pte ← uvpt pn;
    w ← (if ctrue (Z.land pte PTE_W) then mret true else pte ← uvpt pn; mret (ctrue (Z.land pte PTE_COW)));
    if w : bool then
      r ← usys_page_map 0 addr envid addr cow;
      if r <? 0 then mret r
      else r ← usys_page_map 0 addr 0 addr cow; mret (if r <? 0 then r else 0)
    else
      r ← usys_page_map 0 addr envid addr (Z.lor PTE_P PTE_U);
      mret (if r <? 0 then r else 0).

(** One round of fork's loop. *)
Definition fork_page (eid pn : Z) : U (option Z) :=
  pde ← uvpd (Z.shiftr pn 10);
  p ← (if ctrue (Z.land pde PTE_P) then pte ← uvpt pn; mret (ctrue (Z.land pte PTE_P)) else mret false);
  if p : bool then r ← duppage eid pn; mret (if r <? 0 then Some r else None) else mret None.

Definition fork : U Z :=
  set_pgfault_handler pgfault_addr ;;
  eid ← usys_exofork;
  if eid <? 0 then upanic "fork failed: sys_exofork faied: %e"
  else if eid =? 0 then
    id ← usys_getenvid;
    modify (λ u, {| kern := kern u; _pgfault_handler := _pgfault_handler u; thisenv := ENVX id |}) ;;
    mret 0
  else
    o ← forE (range (PGNUM UTEXT) (PGNUM USTACKTOP)) (fork_page eid);
    match o with
    | Some r => mret r
    | None =>
        r ← usys_page_alloc eid (UXSTACKTOP - PGSIZE) (Z.lor (Z.lor PTE_U PTE_P) PTE_W);
        if r <? 0 then mret r
        else
          r ← usys_env_set_pgfault_upcall eid _pgfault_upcall;
          if r <? 0 then mret r
          else
            r ← usys_env_set_status eid 2;
            if r <? 0 then upanic "sys_env_set_status failed: %e" else mret eid
    end.

End Lib.
