(* ===== verification/ULibProofs.v ===== *)
(** * System calls seen from user space

    A system call made by the environment that runs: the trap, the kernel's
    work and the return are one step from a user state to a user state.  The
    memory of all environments is described by [aspace] (which page and
    permission a page number maps to) and [view] (what the page holds). *)

From S2P Require Import Prelude Console Mmu KState KWp Pmap PmapInv PmapSpec PmapDir PmapOps VMem Env EnvFree KInv.
From S2P Require Import SchedProofs EnvProofs UserMem Syscall SyscallProofs SyscallSafe Trap TrapProofs ULib.

(** This CPU runs environment [c] in user mode. *)
Record at_user (c : Z) (s : KState) : Prop := {
  au_in : in_user c s;
  au_run : ∃ e, envs s !! c = Some e ∧ env_status e = ENV_RUNNING
}.

(** What a system call of another environment leaves of an entry. *)
Record same_env (e e' : Env) : Prop := {
  se_id : env_id e' = env_id e;
  se_parent : env_parent_id e' = env_parent_id e;
  se_dir : env_pgdir e' = env_pgdir e;
  se_status : env_status e' = env_status e;
  se_upcall : env_pgfault_upcall e' = env_pgfault_upcall e
}.

Lemma same_env_refl e : same_env e e.
Proof. by split. Qed.
Lemma same_env_trans e1 e2 e3 : same_env e1 e2 → same_env e2 e3 → same_env e1 e3.
Proof. intros [] []. split; congruence. Qed.
Lemma same_env_in_use e e' : same_env e e' → in_use e → in_use e'.
Proof. intros [_ _ _ H _]. unfold in_use. by rewrite H. Qed.

(** The caller's entry is the same up to its saved registers and counters,
    all others are untouched. *)
Definition envs_same (c : Z) (es es' : gmap Z Env) : Prop :=
  (∀ j, j ≠ c → es' !! j = es !! j) ∧ ∃ e e', es !! c = Some e ∧ es' !! c = Some e' ∧ same_env e e'.

Lemma envs_same_lookup c es es' j e : envs_same c es es' → es !! j = Some e → ∃ e', es' !! j = Some e' ∧ same_env e e'.
Proof.
  intros [Hj (ec & ec' & Hc & Hc' & Hs)] He. destruct (decide (j = c)) as [->|Hne].
  - exists ec'. by simplify_eq.
  - exists e. rewrite Hj by done. split; [done|apply same_env_refl].
Qed.
Lemma envs_same_rev c es es' j e' : envs_same c es es' → es' !! j = Some e' → ∃ e, es !! j = Some e ∧ same_env e e'.
Proof.
  intros [Hj (ec & ec' & Hc & Hc' & Hs)] He. destruct (decide (j = c)) as [->|Hne].
  - exists ec. by simplify_eq.
  - exists e'. rewrite <- Hj by done. split; [done|apply same_env_refl].
Qed.
Lemma envs_same_trans c es1 es2 es3 : envs_same c es1 es2 → envs_same c es2 es3 → envs_same c es1 es3.
Proof.
  intros [H1 (e1 & e2 & ? & ? & S1)] [H2 (e2' & e3 & ? & ? & S2)]. split; [intros j Hj; by rewrite H2, H1|].
  exists e1, e3. simplify_eq. split; [done|]. split; [done|by eapply same_env_trans].
Qed.

(** ** The trap of a system call *)

Lemma at_user_use c s e : at_user c s → envs s !! c = Some e → in_use e.
Proof. intros [_ (e' & He' & Hst)] He. simplify_eq. unfold in_use. by rewrite Hst. Qed.

(** The state in which the dispatcher runs. *)
Lemma trapped_facts frame c s v : at_user c s → envs s !! c = Some v →
  let s0 := trapped frame c s in
  kinv s0 ∧ cur_ok s0 ∧ held s0 ∧ cur s0 = Some c ∧ envs s0 = <[c := set_env_tf frame v]> (envs s) ∧
  phys s0 = phys s ∧ pages s0 = pages s ∧ cr3 s0 = cr3 s.
Proof.
  intros Hau Hv s0. pose proof (at_user_use _ _ _ Hau Hv) as Hu. destruct Hau as [[Hinv Hcur [Hc _] Hrel Hst] _].
  destruct (entered_facts s Hinv Hcur) as ((PD & PT & ext & fl & efl & Hk1) & Hcur1 & Hh1 & Hc1).
  assert (Heq : s0 = set_envs (<[c := set_env_tf frame v]> (envs (entered s))) (entered s)).
  { unfold s0, trapped. by rewrite (alter_lookup_insert _ _ _ v). }
  rewrite Heq. split; [|split; [by apply cur_ok_upd|split; [done|split; [by rewrite Hc in Hc1|done]]]].
  exists PD, PT, ext, fl, efl. by eapply (kcore_upd _ _ _ _ _ _ c v).
Qed.

(** What the return to user mode adds to the state [s1] the call ended in. *)
Definition resumed (c r : Z) (s1 s' : KState) : Prop :=
  phys s' = phys s1 ∧ pages s' = pages s1 ∧
  (∀ j, j ≠ c → envs s' !! j = envs s1 !! j) ∧
  ∃ e1 e', envs s1 !! c = Some e1 ∧ envs s' !! c = Some e' ∧ same_env e1 e' ∧ reg_eax (tf_regs (env_tf e')) = u32 r.

Definition status_running (c : Z) (s : KState) : Prop := ∃ e, envs s !! c = Some e ∧ env_status e = ENV_RUNNING.

Lemma env_run_self c s1 e :
  kinv s1 → cur_ok s1 → held s1 → cur s1 = Some c → envs s1 !! c = Some e → env_status e = ENV_RUNNING →
  wp (env_run c : K unit) (λ _ _, False) (λ k s', k = RunEnv c ∧ at_user c s' ∧ phys s' = phys s1 ∧ pages s' = pages s1 ∧
    envs s' = <[c := set_env_cpunum (cpunum s1) (set_env_runs (u32 (env_runs e + 1)) e)]> (envs s1)) s1.
Proof.
  intros (PD & PT & ext & fl & efl & Hk) Hcur Hh Hc He Hst.
  assert (Hu : in_use e) by (unfold in_use; by rewrite Hst).
  eapply wp_mono; [by eapply (env_run_spec PD PT ext fl efl s1 c e)|by intros ??[]|].
  intros k s' [(-> & [Hc' (e' & He' & Hst' & Hcr & _) Hrel Hup] & PD' & PT' & ext' & fl' & efl' & _ & Hk' & [Hph Hpg] & Hcur') Hes].
  split; [done|]. split; [split; [split|]|]; [by exists PD', PT', ext', fl', efl'|done|split; [done|by exists e']|done|done|by exists e'|].
  split; [done|]. split; [done|]. rewrite Hes. unfold env_run_envs. rewrite Hc, He, bool_decide_eq_true_2 by done.
  rewrite lookup_insert_eq, insert_insert_eq. cbn. do 2 f_equal. destruct e; cbn in *. by subst.
Qed.

(** A trap for a system call that returns [r] in a state where the caller
    still runs: control is back in the caller with [r] in %eax. *)
Lemma trap_call c s frame cr2 eflags (Q : Z → KState → Prop) :
  at_user c s → Z.land eflags FL_IF = 0 → Z.land (tf_cs frame) 3 = 3 → tf_trapno frame = T_SYSCALL →
  (let r := tf_regs frame in
   wp (syscall (reg_eax r) (reg_edx r) (reg_ecx r) (reg_ebx r) (reg_edi r) (reg_esi r))
     (λ r s1, returns (trapped frame c s) s1 ∧ status_running c s1 ∧ Q r s1) no_stop (trapped frame c s)) →
  wp (trap cr2 eflags false frame) (λ _ _, False)
    (λ k s', k = RunEnv c ∧ at_user c s' ∧ ∃ r s1, Q r s1 ∧ resumed c r s1 s') s.
Proof.
  intros Hau Hfl Hcs Hno Hsys. destruct (Hau) as [[Hinv Hcur [Hc _] Hrel (cpu & Hcpu & Hst)] (v & Hv & Hrun)].
  pose proof (at_user_use _ _ _ Hau Hv) as Hu. destruct (trapped_facts frame c s v Hau Hv) as (Hk0 & Hcur0 & Hh0 & Hc0 & He0 & _).
  destruct (entered_facts s Hinv Hcur) as (_ & Hcur1 & _ & Hc1). rewrite Hc in Hc1.
  unfold trap. apply wp_bind, (wp_get_cpu cpu); [done|]. apply wp_bind. unfold put_cpu at 1. apply wp_modify.
  rewrite <- (alter_lookup_insert _ _ _ _ Hcpu). rewrite bool_decide_eq_false_2 by done. apply wp_bind, wp_ret, wp_bind.
  rewrite (proj2 (Z.eqb_eq _ _) Hfl). apply wp_ret. rewrite (proj2 (Z.eqb_eq _ _) Hcs). apply wp_bind, wp_bind, wp_lock; [done|].
  change (set_kernel_lock _ _) with (entered s). apply wp_bind, (wp_current c); [done|done|]. intros _ _ _.
  apply wp_bind. rewrite bool_decide_eq_true_2 by eauto. apply wp_ret, wp_bind, wp_deref, wp_bind, (wp_get_env _ v); [done|].
  apply wp_bind. rewrite bool_decide_eq_false_2 by congruence. apply wp_ret, wp_bind. apply (wp_upd_env _ _ v); [done|].
  rewrite <- (alter_lookup_insert _ _ _ v) by done. fold (trapped frame c s). apply wp_ret, wp_bind.
  unfold trap_dispatch, read_tf. apply wp_bind, wp_bind, (wp_get_env _ (set_env_tf frame v)); [by rewrite He0, lookup_insert_eq|].
  apply wp_ret. cbn [env_tf set_env_tf]. rewrite Hno. apply wp_bind, wp_ret, wp_bind. cbn [Z.eqb T_SYSCALL T_PGFLT T_BRKPT].
  eapply wp_call; [exact Hsys|]. intros r s1 ([Hk1 Hcr1 Hh1 Hcc1] & (e1 & He1 & Hr1) & HQ). rewrite Hc0 in Hcc1.
  unfold write_tf_eax. eapply wp_upd_env; [done|].
  assert (Hu1 : in_use e1) by (unfold in_use; by rewrite Hr1).
  set (e2 := set_env_tf _ e1). set (s2 := set_envs _ s1).
  assert (He2 : envs s2 !! c = Some e2) by by cbn; rewrite lookup_insert_eq.
  assert (Hcur2 : cur_ok s2) by by apply cur_ok_upd.
  destruct Hk1 as (PD & PT & ext & fl & efl & Hk1).
  assert (Hk2 : kinv s2) by (exists PD, PT, ext, fl, efl; by eapply (kcore_upd _ _ _ _ _ _ c e1 e2)).
  unfold trap_resume. apply wp_bind, (wp_current c); [done|done|]. intros _ _ _.
  apply wp_bind, (wp_get_env _ e2); [done|]. rewrite bool_decide_eq_true_2 by done.
  eapply wp_mono; [by apply (env_run_self c s2 e2)|by intros ??[]|].
  intros k s' (-> & Hau' & Hph & Hpg & Hes). split; [done|]. split; [done|]. exists r, s1. split; [done|].
  split; [done|]. split; [done|]. cbn in Hes. rewrite insert_insert_eq in Hes. split.
  - intros j Hj. rewrite Hes, lookup_insert_ne; done.
  - eexists e1, _. split; [done|]. rewrite Hes, lookup_insert_eq. split; [done|]. split; [by split|done].
Qed.

(** ** Observing memory *)

Definition used (s : KState) (j : Z) : Prop := ∃ e, envs s !! j = Some e ∧ in_use e.

(** Word [o] of the page at [x] in the address space of [j]. *)
Definition view (s : KState) (j x o : Z) : option Z := (λ pf : Z * Z, word (phys s) (pf.1 * 1024 + o)) <$> aspace s j x.

Definition views_same (s s' : KState) (j x : Z) : Prop :=
  aspace s' j x = aspace s j x ∧ ∀ o, 0 ≤ o < 1024 → view s' j x o = view s j x o.

(** The memory of all environments is unchanged. *)
Definition mem_same (s s' : KState) : Prop := ∀ j x, used s j → user_vpn x → views_same s s' j x.

(** One page of environment [i] changed: it maps to [pf] and holds [w]. *)
Definition mem_set (s s' : KState) (i v : Z) (pf : option (Z * Z)) (w : Z → option Z) : Prop :=
  (∀ j x, used s j → user_vpn x → ¬ (j = i ∧ x = v) → views_same s s' j x) ∧
  aspace s' i v = pf ∧ ∀ o, 0 ≤ o < 1024 → view s' i v o = w o.

Section Same.
Context {c : Z} {s s' : KState} (Hes : envs_same c (envs s) (envs s')).

Lemma aspace_same j x : phys s' = phys s → aspace s' j x = aspace s j x.
Proof.
  intros Hph. unfold aspace. rewrite Hph. destruct (envs s !! j) as [e|] eqn:He.
  - destruct (envs_same_lookup _ _ _ _ _ Hes He) as (e' & -> & Hs). unfold env_dir. by rewrite (se_dir _ _ Hs).
  - destruct (envs s' !! j) as [e'|] eqn:He'; [|done]. destruct (envs_same_rev _ _ _ _ _ Hes He') as (? & ? & _). congruence.
Qed.

Lemma used_same j : used s' j ↔ used s j.
Proof.
  split; intros (e & He & Hu).
  - destruct (envs_same_rev _ _ _ _ _ Hes He) as (e' & He' & Hs). exists e'. split; [done|].
    unfold in_use. by rewrite <- (se_status _ _ Hs).
  - destruct (envs_same_lookup _ _ _ _ _ Hes He) as (e' & He' & Hs). exists e'. split; [done|by eapply same_env_in_use].
Qed.

Lemma resolves_same b id i : cur s' = cur s → resolves s' b id i ↔ resolves s b id i.
Proof.
  intros Hc. unfold resolves. case_decide; [by rewrite Hc|]. unfold env_named, permitted. rewrite Hc. split.
  - intros [(e & He & Hu & Hid) Hp]. destruct (envs_same_rev _ _ _ _ _ Hes He) as (e0 & He0 & Hs). split.
    + exists e0. split; [done|]. split; [unfold in_use; by rewrite <- (se_status _ _ Hs)|]. by rewrite <- (se_id _ _ Hs).
    + intros Hb. destruct (Hp Hb) as [?|(e' & c' & v' & He' & Hc' & Hv' & Hpar)]; [by left|right].
      destruct (envs_same_rev _ _ _ _ _ Hes Hv') as (v0 & Hv0 & Hsv). exists e0, c', v0. simplify_eq.
      split; [done|]. split; [done|]. split; [done|]. by rewrite <- (se_parent _ _ Hs), <- (se_id _ _ Hsv).
  - intros [(e & He & Hu & Hid) Hp]. destruct (envs_same_lookup _ _ _ _ _ Hes He) as (e0 & He0 & Hs). split.
    + exists e0. split; [done|]. split; [by eapply same_env_in_use|]. by rewrite (se_id _ _ Hs).
    + intros Hb. destruct (Hp Hb) as [?|(e' & c' & v' & He' & Hc' & Hv' & Hpar)]; [by left|right].
      destruct (envs_same_lookup _ _ _ _ _ Hes Hv') as (v0 & Hv0 & Hsv). exists e0, c', v0. simplify_eq.
      split; [done|]. split; [done|]. split; [done|]. by rewrite (se_parent _ _ Hs), (se_id _ _ Hsv).
Qed.
End Same.

Lemma view_word s j x p f o : aspace s j x = Some (p, f) → view s j x o = Some (word (phys s) (p * 1024 + o)).
Proof. intros H. unfold view. by rewrite H. Qed.

(** A mapping that is kept shows the same contents. *)
Lemma kept_views s s' j x :
  contents_kept s s' → used s j → user_vpn x → aspace s' j x = aspace s j x → views_same s s' j x.
Proof.
  intros Hc Hu Hx Ha. split; [done|]. intros o Ho. unfold view. rewrite Ha.
  destruct (aspace s j x) as [[p f]|] eqn:E; [|done]. cbn. f_equal. eapply (Hc j x p f); [done..|mlia].
Qed.

Lemma kept_mem_same s s' : contents_kept s s' → spaces_kept s s' → mem_same s s'.
Proof. intros Hc Hs j x Hu Hx. apply kept_views; [done..|]. by apply Hs. Qed.

Lemma set_mem_set s s' i v pf w :
  contents_kept s s' → spaces_set s s' i v pf → used s i → user_vpn v →
  (∀ o, 0 ≤ o < 1024 → view s' i v o = w o) → mem_set s s' i v pf w.
Proof.
  intros Hc Hs Hu Hv Hw. split; [|split; [|done]].
  - intros j x Hj Hx Hne. apply kept_views; [done..|]. rewrite Hs by done. by rewrite decide_False.
  - rewrite Hs by done. by rewrite decide_True.
Qed.

(** Ids name one environment. *)
Lemma kinv_resolves_inj PD PT ext fl efl s b id i j :
  kcore PD PT ext fl efl s → resolves s b id i → resolves s b id j → i = j.
Proof.
  intros Hk. unfold resolves. case_decide; [congruence|]. intros [(e & He & Hu & Hid) _] [(e' & He' & Hu' & Hid') _].
  destruct (kc_id _ _ _ _ _ _ Hk i e He Hu) as [<- _]. destruct (kc_id _ _ _ _ _ _ Hk j e' He' Hu') as [<- _]. congruence.
Qed.

(** ** Calls *)

(** The kernel state [s0] in which a call from user state [s] is handled. *)
Record handles (c : Z) (s s0 : KState) : Prop := {
  hd_core : kinv s0;
  hd_cur_ok : cur_ok s0;
  hd_held : held s0;
  hd_cur : cur s0 = Some c;
  hd_envs : envs_same c (envs s) (envs s0);
  hd_phys : phys s0 = phys s;
  hd_pages : pages s0 = pages s;
  hd_cr3 : cr3 s0 = cr3 s;
  hd_run : status_running c s0
}.

Lemma trapped_handles frame c s : at_user c s → handles c s (trapped frame c s).
Proof.
  intros Hau. destruct (au_run _ _ Hau) as (v & Hv & Hst).
  destruct (trapped_facts frame c s v Hau Hv) as (? & ? & ? & ? & He & ? & ? & ?). split; try done.
  - split; [intros j Hj; by rewrite He, lookup_insert_ne by done|]. eexists v, _. split; [done|].
    rewrite He, lookup_insert_eq. split; [done|by split].
  - eexists. rewrite He, lookup_insert_eq. split; done.
Qed.

Lemma s32_u32 x : s32 (u32 x) = s32 x.
Proof. unfold s32, u32. by rewrite Zplus_mod_idemp_l. Qed.

Section Calls.
Context {frame : Trapframe} {cr2 eflags : Z}.
Context (Hfl : Z.land eflags FL_IF = 0) (Hcs : Z.land (tf_cs frame) 3 = 3).

Lemma int_syscall_spec c u no a1 a2 a3 a4 a5 (Q : Z → KState → Prop) :
  at_user c (kern u) →
  (∀ s0, handles c (kern u) s0 → envs s0 !! c = (set_env_tf (syscall_frame frame no a1 a2 a3 a4 a5)) <$> envs (kern u) !! c →
    wp (syscall no a1 a2 a3 a4 a5) (λ r s1, returns s0 s1 ∧ status_running c s1 ∧ Q r s1) no_stop s0) →
  wp (int_syscall frame cr2 eflags no a1 a2 a3 a4 a5) (λ r' u', ∃ r s1 s', r' = s32 r ∧ u' = set_kern s' u ∧
    at_user c s' ∧ Q r s1 ∧ resumed c r s1 s') no_stop u.
Proof.
  intros Hau Hsys. set (tf := syscall_frame frame no a1 a2 a3 a4 a5). destruct (au_run _ _ Hau) as (v & Hv & _).
  assert (Ht : wp (trap cr2 eflags false tf) (λ _ _, False)
    (λ k s', k = RunEnv c ∧ at_user c s' ∧ ∃ r s1, Q r s1 ∧ resumed c r s1 s') (kern u)).
  { apply trap_call; [done..|]. apply Hsys; [by apply trapped_handles|].
    destruct (trapped_facts tf c _ v Hau Hv) as (_ & _ & _ & _ & He & _). by rewrite He, lookup_insert_eq, Hv. }
  destruct (wp_stops _ _ _ Ht) as (k & s' & Hrun & -> & Hau' & r & s1 & HQ & Hres).
  unfold wp, int_syscall. fold tf. rewrite Hrun.
  destruct Hau as [[_ _ [Hc _] _ _] _]. unfold cur in Hc. rewrite bool_decide_eq_true_2 by exact Hc.
  destruct (Hres) as (_ & _ & _ & e1 & e' & _ & -> & _ & ->). rewrite s32_u32. by exists r, s1, s'.
Qed.

Lemma usyscall_spec c u no check a1 a2 a3 a4 a5 (Q : Z → KState → Prop) :
  at_user c (kern u) →
  (∀ s0, handles c (kern u) s0 →
    wp (syscall no (u32 a1) (u32 a2) (u32 a3) (u32 a4) (u32 a5)) (λ r s1, returns s0 s1 ∧ status_running c s1 ∧ Q r s1) no_stop s0) →
  (∀ r s1, Q r s1 → -2147483648 ≤ r < 2147483648 ∧ (check = true → r ≤ 0)) →
  wp (usyscall frame cr2 eflags no check a1 a2 a3 a4 a5) (λ r u', ∃ s1 s', u' = set_kern s' u ∧
    at_user c s' ∧ Q r s1 ∧ resumed c r s1 s') no_stop u.
Proof.
  intros Hau Hsys Hr. unfold usyscall. apply wp_bind.
  eapply wp_mono; [apply (int_syscall_spec c u); [done|by intros s0 Hs0 _; apply Hsys]| |done].
  intros ? ? (r & s1 & s' & -> & -> & Hau' & HQ & Hres). destruct (Hr r s1 HQ) as [Hrr Hc]. rewrite s32_small by done.
  assert (check && (r >? 0) = false) as ->. { destruct check; [|done]. pose proof (Hc eq_refl). cbn. lia. }
  apply wp_ret. by exists s1, s'.
Qed.

End Calls.

(** From the kernel's side to the caller's side. *)
Record ucall (c : Z) (s s' : KState) : Prop := {
  uc_at : at_user c s';
  uc_envs : envs_same c (envs s) (envs s')
}.

Lemma ucall_trans c s1 s2 s3 : ucall c s1 s2 → ucall c s2 s3 → ucall c s1 s3.
Proof. intros [_ H1] [H2 H3]. split; [done|by eapply envs_same_trans]. Qed.

Lemma ucall_used c s s' j : ucall c s s' → used s' j ↔ used s j.
Proof. intros [_ H]. by eapply used_same. Qed.

Lemma at_user_cur c s : at_user c s → cur s = Some c.
Proof. by intros [[_ _ [H _] _ _] _]. Qed.

Lemma ucall_resolves c s s' id i : at_user c s → ucall c s s' → resolves s true id i → resolves s' true id i.
Proof.
  intros Hau [Hau' Hes] H. eapply (resolves_same Hes); [|done]. by rewrite (at_user_cur _ _ Hau), (at_user_cur _ _ Hau').
Qed.

Section Sides.
Context {c r : Z} {s s0 s1 s' : KState}.
Context (Hau : at_user c s) (Hh : handles c s s0) (Hret : envs s1 = envs s0) (Hau' : at_user c s') (Hres : resumed c r s1 s').

Lemma sides_ucall : ucall c s s'.
Proof.
  split; [done|]. eapply envs_same_trans; [apply (hd_envs _ _ _ Hh)|]. destruct Hres as (_ & _ & Hj & e1 & e' & He1 & He' & Hs & _).
  rewrite <- Hret. split; [done|]. by exists e1, e'.
Qed.

Lemma res_same : envs_same c (envs s1) (envs s').
Proof. destruct Hres as (_ & _ & Hj & e1 & e' & He1 & He' & Hs & _). split; [done|]. by exists e1, e'. Qed.

Lemma sides_aspace j x : aspace s' j x = aspace s1 j x ∧ aspace s0 j x = aspace s j x.
Proof.
  split; [apply (aspace_same res_same); by destruct Hres|apply (aspace_same (hd_envs _ _ _ Hh)), (hd_phys _ _ _ Hh)].
Qed.

Lemma sides_view j x o : view s' j x o = view s1 j x o ∧ view s0 j x o = view s j x o.
Proof.
  unfold view. destruct (sides_aspace j x) as [-> ->]. rewrite (hd_phys _ _ _ Hh). destruct Hres as (-> & _). done.
Qed.

Lemma sides_used j : used s j ↔ used s0 j.
Proof. symmetry. apply (used_same (hd_envs _ _ _ Hh)). Qed.

Lemma sides_views j x : views_same s0 s1 j x → views_same s s' j x.
Proof.
  intros [Ha Hv]. destruct (sides_aspace j x) as [A1 A2]. split; [congruence|]. intros o Ho.
  destruct (sides_view j x o) as [V1 V2]. rewrite V1, <- V2. by apply Hv.
Qed.

Lemma sides_mem_same : mem_same s0 s1 → mem_same s s'.
Proof. intros H j x Hj Hx. apply sides_views, H; [by apply sides_used|done]. Qed.

Lemma sides_mem_set i v pf w : mem_set s0 s1 i v pf w → mem_set s s' i v pf w.
Proof.
  intros (Hoth & Ha & Hw). split; [|split].
  - intros j x Hj Hx Hne. apply sides_views, Hoth; [by apply sides_used|done|done].
  - destruct (sides_aspace i v) as [-> _]. done.
  - intros o Ho. destruct (sides_view i v o) as [-> _]. by apply Hw.
Qed.

Lemma sides_refs n : refs_grow n s0 s1 → refs_grow n s s'.
Proof.
  intros H p k'. destruct Hres as (_ & Hpg & _). rewrite Hpg. intros Hk'. destruct (H p k' Hk') as (k & Hk & ?).
  exists k. by rewrite <- (hd_pages _ _ _ Hh).
Qed.
End Sides.

(** ** Each call *)

Definition int_ok (x : Z) : Prop := -2147483648 ≤ x < 2147483648.

Lemma paged_running c s0 s1 : paged s0 s1 → status_running c s0 → status_running c s1.
Proof. intros Hp. unfold status_running. by rewrite (frame_envs _ _ (pg_frame _ _ Hp)). Qed.

(** A mapped page is not on the free list. *)
Lemma mapped_not_free PD PT ext fl efl s j x p f :
  kcore PD PT ext fl efl s → used s j → user_vpn x → aspace s j x = Some (p, f) → p ∉ fl.
Proof.
  intros Hk (e & He & Hu) Hx Ha. destruct (in_use_dir Hk j e He Hu) as (pd & Hpd & _ & _ & Has). rewrite Has in Ha.
  by destruct (mapped_page Hk pd x p f Hpd Hx Ha) as (? & _).
Qed.

Section UCalls.
Context {frame : Trapframe} {cr2 eflags : Z}.
Context (Hfl : Z.land eflags FL_IF = 0) (Hcs : Z.land (tf_cs frame) 3 = 3).

Definition resolved_in (s : KState) (id i : Z) : Prop := int_ok id ∧ resolves s true id i.

Lemma resolves_handles c s s0 id i : at_user c s → handles c s s0 → resolves s true id i → resolves s0 true id i.
Proof.
  intros Hau Hh. apply (resolves_same (hd_envs _ _ _ Hh)). by rewrite (hd_cur _ _ _ Hh), (at_user_cur _ _ Hau).
Qed.

Lemma resolves_used c s id i : at_user c s → resolves s true id i → used s i.
Proof.
  intros Hau. unfold resolves. case_decide.
  - rewrite (at_user_cur _ _ Hau). intros [= <-]. destruct (au_run _ _ Hau) as (e & He & Hst). exists e. split; [done|].
    unfold in_use. by rewrite Hst.
  - intros [(e & He & Hu & _) _]. by exists e.
Qed.

Definition map_effect (s : KState) (i srcv j dstv p perm r : Z) (s' : KState) : Prop :=
  (r = - E_NO_MEM ∧ mem_same s s') ∨ (r = 0 ∧ mem_set s s' j dstv (Some (p, perm)) (view s i srcv)).

Lemma usys_page_map_spec c u srcid srcva dstid dstva perm i j p f :
  at_user c (kern u) → refs_room (kern u) → resolved_in (kern u) srcid i → resolved_in (kern u) dstid j →
  page_map_args_bad srcva dstva perm = false → 0 ≤ srcva → 0 ≤ dstva →
  aspace (kern u) i (PGNUM srcva) = Some (p, f) → grants_write perm f = false →
  wp (usys_page_map frame cr2 eflags srcid srcva dstid dstva perm) (λ r u', ∃ s', u' = set_kern s' u ∧
    ucall c (kern u) s' ∧ refs_grow 1 (kern u) s' ∧ map_effect (kern u) i (PGNUM srcva) j (PGNUM dstva) p perm r s') no_stop u.
Proof.
  intros Hau Hroom [Hs1 Hs2] [Hd1 Hd2] Hargs Hsv Hdv Hmap Hgw. set (s := kern u) in *.
  pose proof Hargs as Hargs2. unfold page_map_args_bad in Hargs2. rewrite !orb_false_iff in Hargs2.
  destruct Hargs2 as [[Hbs Hbd] Hbp]. apply (bad_va_false _ Hsv) in Hbs. apply (bad_va_false _ Hdv) in Hbd.
  destruct (bad_perm_false _ Hbp) as [Hpr _].
  pose proof (user_vpn_UTOP _ Hbs) as Hus. pose proof (user_vpn_UTOP _ Hbd) as Hud.
  eapply wp_mono; [apply (usyscall_spec Hfl Hcs c u _ _ _ _ _ _ _ (λ r s1, ∃ s0, handles c s s0 ∧ envs s1 = envs s0 ∧
    refs_grow 1 s0 s1 ∧ map_effect s0 i (PGNUM srcva) j (PGNUM dstva) p perm r s1) Hau)| |done].
  - intros s0 Hh. change (syscall _ _ _ _ _ _) with (sys_page_map (s32 (u32 srcid)) (u32 srcva) (s32 (u32 dstid)) (u32 dstva) (s32 (u32 perm))).
    rewrite !s32_u32, !s32_small, !u32_small by (unfold int_ok in *; mlia). destruct (hd_core _ _ _ Hh) as (PD & PT & ext & fl & efl & Hk).
    assert (Hroom0 : refs_room s0) by (intros q k; rewrite (hd_pages _ _ _ Hh); apply Hroom).
    eapply wp_mono; [eapply (sys_page_map_spec PD PT ext fl efl s0 c); [done|apply Hh|apply Hh|done|lia|lia]| |done].
    intros r s1 Hpm. pose proof (page_map_returns _ _ _ _ _ _ _ _ _ (hd_core _ _ _ Hh) (hd_cur_ok _ _ _ Hh) (hd_held _ _ _ Hh) Hpm) as Hrt.
    pose proof (resolves_handles _ _ _ _ _ Hau Hh Hs2) as R1. pose proof (resolves_handles _ _ _ _ _ Hau Hh Hd2) as R2.
    assert (Ha0 : aspace s0 i (PGNUM srcva) = Some (p, f)) by by rewrite (aspace_same (hd_envs _ _ _ Hh)); [|apply Hh].
    pose proof (resolves_used _ _ _ _ Hau Hd2) as Huj. apply (used_same (hd_envs _ _ _ Hh)) in Huj.
    pose proof (resolves_used _ _ _ _ Hau Hs2) as Hui. apply (used_same (hd_envs _ _ _ Hh)) in Hui.
    split; [done|]. destruct Hpm as [(_ & _ & [Hno|Hno])|(i' & j' & R1' & R2' & Hpm)]; [by destruct (Hno i)|by destruct (Hno j)|].
    pose proof (kinv_resolves_inj _ _ _ _ _ _ _ _ _ _ Hk R1 R1') as <-. pose proof (kinv_resolves_inj _ _ _ _ _ _ _ _ _ _ Hk R2 R2') as <-.
    destruct Hpm as [(_ & _ & [?|[?|(p' & f' & ? & ?)]])|(_ & p' & f' & Ha & _ & Hpm)]; [congruence..|].
    rewrite Ha0 in Ha. injection Ha as <- <-. destruct Hpm as [(-> & -> & _)|(-> & Hpaged & Hset & Hcont)].
    + split; [apply Hh|]. exists s0. do 2 (split; [done|]). split; [apply (refs_grow_le 0); [lia|by apply refs_grow_same]|].
      left. split; [done|]. by intros ????.
    + split; [by eapply paged_running, Hh|]. exists s0. split; [done|]. split; [by apply frame_envs, pg_frame|].
      split; [by apply pg_refs|]. right. split; [done|]. apply set_mem_set; [by apply pg_kept|done|done|done|].
      intros o Ho. rewrite (view_word s1 j _ p perm), (view_word s0 i _ p f) by (done || (rewrite Hset by done; by rewrite decide_True)).
      f_equal. apply Hcont. mlia.
  - intros r s1 (s0 & _ & _ & _ & [[-> _]|[-> _]]); (split; [mlia|mlia]).
  - intros r u' (s1 & s' & -> & Hau' & (s0 & Hh & Hes & Hg & Heff) & Hres). exists s'. split; [done|].
    split; [by eapply (sides_ucall Hh Hes Hau' Hres)|]. split; [by eapply (sides_refs Hh Hres)|].
    destruct Heff as [[-> Hm]|[-> Hm]]; [left|right]; (split; [done|]).
    + by eapply (sides_mem_same Hh Hres).
    + apply (sides_mem_set Hh Hres) in Hm. destruct Hm as (M1 & M2 & M3). split; [done|]. split; [done|].
      intros o Ho. rewrite M3 by done. by destruct (sides_view Hh Hres i (PGNUM srcva) o) as [_ ->].
Qed.

(** Page [p] is mapped nowhere. *)
Definition unmapped (s : KState) (p : Z) : Prop := ∀ j x f, used s j → user_vpn x → aspace s j x ≠ Some (p, f).

Definition alloc_effect (s : KState) (i v perm r : Z) (s' : KState) : Prop :=
  (r = - E_NO_MEM ∧ mem_same s s') ∨
  (r = 0 ∧ ∃ p, unmapped s p ∧ mem_set s s' i v (Some (p, perm)) (λ _, Some 0)).

Lemma usys_page_alloc_spec c u id va perm i :
  at_user c (kern u) → resolved_in (kern u) id i → bad_va va = false → bad_perm perm = false → 0 ≤ va →
  wp (usys_page_alloc frame cr2 eflags id va perm) (λ r u', ∃ s', u' = set_kern s' u ∧
    ucall c (kern u) s' ∧ refs_grow 1 (kern u) s' ∧ alloc_effect (kern u) i (PGNUM va) perm r s') no_stop u.
Proof.
  intros Hau [Hi1 Hi2] Hbv Hbp Hva. set (s := kern u) in *. apply (bad_va_false _ Hva) in Hbv as Hvr.
  destruct (bad_perm_false _ Hbp) as [Hpr _]. pose proof (user_vpn_UTOP _ Hvr) as Huv.
  eapply wp_mono; [apply (usyscall_spec Hfl Hcs c u _ _ _ _ _ _ _ (λ r s1, ∃ s0, handles c s s0 ∧ envs s1 = envs s0 ∧
    refs_grow 1 s0 s1 ∧ alloc_effect s0 i (PGNUM va) perm r s1) Hau)| |done].
  - intros s0 Hh. change (syscall _ _ _ _ _ _) with (sys_page_alloc (s32 (u32 id)) (u32 va) (s32 (u32 perm))).
    rewrite !s32_u32, !s32_small, !u32_small by (unfold int_ok in *; mlia). destruct (hd_core _ _ _ Hh) as (PD & PT & ext & fl & efl & Hk).
    eapply wp_mono; [eapply (sys_page_alloc_spec PD PT ext fl efl s0 c); [done|apply Hh|apply Hh|lia]| |done].
    intros r s1 Hpa. pose proof (page_alloc_returns _ _ _ _ _ _ _ (hd_core _ _ _ Hh) (hd_cur_ok _ _ _ Hh) (hd_held _ _ _ Hh) Hpa) as Hrt.
    pose proof (resolves_handles _ _ _ _ _ Hau Hh Hi2) as R1.
    pose proof (resolves_used _ _ _ _ Hau Hi2) as Hui. apply (used_same (hd_envs _ _ _ Hh)) in Hui.
    split; [done|]. destruct Hpa as [(_ & _ & Hno)|(i' & R1' & Hpa)]; [by destruct (Hno i)|].
    pose proof (kinv_resolves_inj _ _ _ _ _ _ _ _ _ _ Hk R1 R1') as <-. rewrite Hbv, Hbp in Hpa.
    destruct Hpa as [(_ & _ & ?)|(_ & [(-> & _ & Hpaged & Hkept)|(-> & p & Hp & Hpaged & Hset & Hz)])]; [done|..];
      (split; [by eapply paged_running, Hh|exists s0; split; [done|]; split; [by apply frame_envs, pg_frame|]; split; [by apply pg_refs|]]).
    + left. split; [done|]. by apply kept_mem_same; [apply pg_kept|].
    + right. split; [done|]. exists p. split; [intros j x f Hj Hx Ha; by eapply mapped_not_free|].
      apply set_mem_set; [by apply pg_kept|done|done|done|]. intros o Ho.
      rewrite (view_word s1 i _ p perm) by (rewrite Hset by done; by rewrite decide_True). f_equal. apply Hz. mlia.
  - intros r s1 (s0 & _ & _ & _ & [[-> _]|[-> _]]); (split; [mlia|mlia]).
  - intros r u' (s1 & s' & -> & Hau' & (s0 & Hh & Hes & Hg & Heff) & Hres). exists s'. split; [done|].
    split; [by eapply (sides_ucall Hh Hes Hau' Hres)|]. split; [by eapply (sides_refs Hh Hres)|].
    destruct Heff as [[-> Hm]|[-> (p & Hp & Hm)]]; [left|right]; (split; [done|]).
    + by eapply (sides_mem_same Hh Hres).
    + exists p. split; [|by apply (sides_mem_set Hh Hres)]. intros j x f Hj Hx Ha.
      apply (Hp j x f); [by apply (sides_used Hh)|done|]. by destruct (sides_aspace Hh Hres j x) as [_ ->].
Qed.

Lemma usys_page_unmap_spec c u id va i :
  at_user c (kern u) → resolved_in (kern u) id i → bad_va va = false → 0 ≤ va →
  wp (usys_page_unmap frame cr2 eflags id va) (λ r u', ∃ s', u' = set_kern s' u ∧
    ucall c (kern u) s' ∧ refs_grow 1 (kern u) s' ∧ r = 0 ∧ mem_set (kern u) s' i (PGNUM va) None (λ _, None)) no_stop u.
Proof.
  intros Hau [Hi1 Hi2] Hbv Hva. set (s := kern u) in *. apply (bad_va_false _ Hva) in Hbv as Hvr.
  pose proof (user_vpn_UTOP _ Hvr) as Huv.
  eapply wp_mono; [apply (usyscall_spec Hfl Hcs c u _ _ _ _ _ _ _ (λ r s1, ∃ s0, handles c s s0 ∧ envs s1 = envs s0 ∧
    refs_grow 1 s0 s1 ∧ r = 0 ∧ mem_set s0 s1 i (PGNUM va) None (λ _, None)) Hau)| |done].
  - intros s0 Hh. change (syscall _ _ _ _ _ _) with (sys_page_unmap (s32 (u32 id)) (u32 va)).
    rewrite !s32_u32, !s32_small, !u32_small by (unfold int_ok in *; mlia). destruct (hd_core _ _ _ Hh) as (PD & PT & ext & fl & efl & Hk).
    eapply wp_mono; [eapply (sys_page_unmap_spec PD PT ext fl efl s0 c); [done|apply Hh|apply Hh|lia]| |done].
    intros r s1 Hpu. pose proof (page_unmap_returns _ _ _ _ _ (hd_core _ _ _ Hh) (hd_cur_ok _ _ _ Hh) (hd_held _ _ _ Hh) Hpu) as Hrt.
    pose proof (resolves_handles _ _ _ _ _ Hau Hh Hi2) as R1.
    pose proof (resolves_used _ _ _ _ Hau Hi2) as Hui. apply (used_same (hd_envs _ _ _ Hh)) in Hui.
    split; [done|]. destruct Hpu as [(_ & _ & Hno)|(i' & R1' & Hpu)]; [by destruct (Hno i)|].
    pose proof (kinv_resolves_inj _ _ _ _ _ _ _ _ _ _ Hk R1 R1') as <-.
    destruct Hpu as [(_ & _ & ?)|(-> & _ & Hpaged & Hset)]; [congruence|].
    split; [by eapply paged_running, Hh|]. exists s0. split; [done|]. split; [by apply frame_envs, pg_frame|].
    split; [by apply pg_refs|]. split; [done|]. apply set_mem_set; [by apply pg_kept|done|done|done|].
    intros o Ho. unfold view. rewrite Hset by done. by rewrite decide_True.
  - intros r s1 (s0 & _ & _ & _ & -> & _). split; [mlia|mlia].
  - intros r u' (s1 & s' & -> & Hau' & (s0 & Hh & Hes & Hg & -> & Hm) & Hres). exists s'. split; [done|].
    split; [by eapply (sides_ucall Hh Hes Hau' Hres)|]. split; [by eapply (sides_refs Hh Hres)|]. split; [done|].
    by apply (sides_mem_set Hh Hres).
Qed.

Lemma usys_getenvid_spec c u e : at_user c (kern u) → envs (kern u) !! c = Some e →
  wp (usys_getenvid frame cr2 eflags) (λ r u', ∃ s', u' = set_kern s' u ∧
    ucall c (kern u) s' ∧ refs_grow 0 (kern u) s' ∧ r = env_id e ∧ mem_same (kern u) s') no_stop u.
Proof.
  intros Hau He. set (s := kern u) in *.
  assert (Hid : int_ok (env_id e)).
  { destruct (iu_inv _ _ (au_in _ _ Hau)) as (PD & PT & ext & fl & efl & Hk).
    destruct (kc_id _ _ _ _ _ _ Hk c e He (at_user_use _ _ _ Hau He)) as [_ ?]. unfold int_ok. lia. }
  eapply wp_mono; [apply (usyscall_spec Hfl Hcs c u _ _ _ _ _ _ _ (λ r s1, ∃ s0, handles c s s0 ∧ s1 = s0 ∧ r = env_id e) Hau)| |done].
  - intros s0 Hh. destruct (hd_core _ _ _ Hh) as (PD & PT & ext & fl & efl & Hk).
    change (syscall _ _ _ _ _ _) with sys_getenvid.
    eapply wp_mono; [apply (sys_getenvid_spec (hd_cur_ok _ _ _ Hh) (hd_cur _ _ _ Hh) no_stop)| |done].
    intros r s1 (-> & e0 & He0 & ->). split; [apply returns_refl; apply Hh|]. split; [apply Hh|]. exists s0. split; [done|]. split; [done|].
    destruct (envs_same_rev _ _ _ _ _ (hd_envs _ _ _ Hh) He0) as (e1 & He1 & Hs). fold s in He1. simplify_eq. apply Hs.
  - intros r s1 (s0 & _ & _ & ->). by split.
  - intros r u' (s1 & s' & -> & Hau' & (s0 & Hh & -> & ->) & Hres). exists s'. split; [done|].
    split; [by eapply (sides_ucall Hh eq_refl Hau' Hres)|].
    split; [by eapply (sides_refs Hh Hres), refs_grow_same|]. split; [done|]. apply (sides_mem_same Hh Hres). by intros ????.
Qed.

(** *** Calls that edit an entry *)

(** The entries after a call that applies [f] to slot [i]. *)
Definition edited (c i : Z) (f : Env → Env) (s s' : KState) : Prop :=
  at_user c s' ∧ envs_same c (alter f i (envs s)) (envs s') ∧ refs_grow 0 s s' ∧ mem_same s s'.

Lemma edit_side c r i f s s0 s1 s' e0 :
  handles c s s0 → envs s0 !! i = Some e0 → s1 = set_envs (<[i := f e0]> (envs s0)) s0 →
  (∀ e e', same_env e e' → same_env (f e) (f e')) → env_pgdir (f e0) = env_pgdir e0 →
  at_user c s' → resumed c r s1 s' → edited c i f s s'.
Proof.
  intros Hh Hi -> Hf Hdir Hau' Hres. pose proof (hd_envs _ _ _ Hh) as Hes. pose proof (res_same Hres) as Hes'. cbn in Hes'.
  split; [done|]. split; [|split].
  - eapply envs_same_trans; [|exact Hes']. destruct (Hes) as [Hj (ec & ec' & Hc & Hc' & Hs)].
    destruct (decide (i = c)) as [->|Hne].
    + split; [intros j Hne; by rewrite lookup_insert_ne, lookup_alter_ne, Hj by done|].
      exists (f ec), (f e0). rewrite lookup_alter_eq, Hc, lookup_insert_eq. split; [done|]. split; [done|].
      apply Hf. by simplify_eq.
    + split.
      * intros j Hjc. destruct (decide (i = j)) as [<-|Hij].
        -- by rewrite lookup_insert_eq, lookup_alter_eq, <- Hj, Hi by done.
        -- by rewrite lookup_insert_ne, lookup_alter_ne, Hj by done.
      * exists ec, ec'. by rewrite lookup_alter_ne, lookup_insert_ne by done.
  - by eapply (sides_refs Hh Hres), refs_grow_same.
  - apply (sides_mem_same Hh Hres). intros j x _ _.
    pose proof (aspace_upd s0 (set_envs (<[i := f e0]> (envs s0)) s0) i e0 (f e0) eq_refl Hi eq_refl Hdir) as Ha.
    split; [apply Ha|]. intros o _. unfold view. by rewrite Ha.
Qed.

(** Edits that keep names keep what ids resolve to. *)
Lemma edited_resolved c i f s s' id j :
  at_user c s → edited c i f s s' →
  (∀ e, env_id (f e) = env_id e ∧ env_parent_id (f e) = env_parent_id e ∧ (in_use e → in_use (f e))) →
  resolved_in s id j → resolved_in s' id j.
Proof.
  intros Hau (Hau' & Hes & _) Hf [Hi Hr]. split; [done|].
  apply (resolves_same (s := set_envs (alter f i (envs s)) s) Hes); [by rewrite (at_user_cur _ _ Hau'), <- (at_user_cur _ _ Hau)|].
  assert (Hl : ∀ k e, envs s !! k = Some e → ∃ e', alter f i (envs s) !! k = Some e' ∧ env_id e' = env_id e ∧
    env_parent_id e' = env_parent_id e ∧ (in_use e → in_use e')).
  { intros k e He. destruct (decide (i = k)) as [<-|].
    - exists (f e). rewrite lookup_alter_eq, He. split; [done|apply Hf].
    - exists e. by rewrite lookup_alter_ne. }
  unfold resolves in *. case_decide; [done|]. destruct Hr as [(e & He & Hu & Hid) Hp].
  destruct (Hl j e He) as (e' & He' & Hid' & Hpar' & Hu'). split; [exists e'; cbn; split_and!; auto; congruence|].
  intros Hb. destruct (Hp Hb) as [?|(e1 & c1 & v1 & He1 & Hc1 & Hv1 & Hpar1)]; [by left|right].
  destruct (Hl c1 v1 Hv1) as (v1' & Hv1' & Hvid & _). exists e', c1, v1'. cbn. split_and!; try done. congruence.
Qed.

Lemma edited_used c i f s s' j : edited c i f s s' → (∀ e, in_use e → in_use (f e)) → used s j → used s' j.
Proof.
  intros (_ & Hes & _) Hf (e & He & Hu).
  assert (Hl : ∃ e', alter f i (envs s) !! j = Some e' ∧ in_use e').
  { destruct (decide (i = j)) as [<-|]; [exists (f e); rewrite lookup_alter_eq, He; auto|exists e; by rewrite lookup_alter_ne]. }
  destruct Hl as (e' & He' & Hu'). destruct (envs_same_lookup _ _ _ _ _ Hes He') as (e'' & He'' & Hs).
  exists e''. split; [done|by eapply same_env_in_use].
Qed.

Lemma usys_set_upcall_spec c u id func i :
  at_user c (kern u) → resolved_in (kern u) id i → 0 ≤ func < 4294967296 →
  wp (usys_env_set_pgfault_upcall frame cr2 eflags id func) (λ r u', ∃ s', u' = set_kern s' u ∧ r = 0 ∧
    edited c i (set_env_pgfault_upcall func) (kern u) s') no_stop u.
Proof.
  intros Hau [Hi1 Hi2] Hfu. set (s := kern u) in *.
  eapply wp_mono; [apply (usyscall_spec Hfl Hcs c u _ _ _ _ _ _ _ (λ r s1, ∃ s0 e0, handles c s s0 ∧ r = 0 ∧ envs s0 !! i = Some e0 ∧
    s1 = set_envs (<[i := set_env_pgfault_upcall func e0]> (envs s0)) s0) Hau)| |done].
  - intros s0 Hh. change (syscall _ _ _ _ _ _) with (sys_env_set_pgfault_upcall (s32 (u32 id)) (u32 func)).
    rewrite s32_u32, s32_small, u32_small by (unfold int_ok in *; lia). destruct (hd_core _ _ _ Hh) as (PD & PT & ext & fl & efl & Hk).
    eapply wp_mono; [apply (sys_env_set_pgfault_upcall_spec Hk (hd_cur_ok _ _ _ Hh) (hd_held _ _ _ Hh) (hd_cur _ _ _ Hh) id func no_stop)| |done].
    intros r s1 [Hrt [(_ & _ & Hno)|(i' & e0 & R & He0 & Hu0 & -> & ->)]]; [by destruct (Hno i); eapply resolves_handles|].
    pose proof (kinv_resolves_inj _ _ _ _ _ _ _ _ _ _ Hk (resolves_handles _ _ _ _ _ Hau Hh Hi2) R) as <-.
    split; [done|]. split; [|by exists s0, e0]. destruct (hd_run _ _ _ Hh) as (ec & Hec & Hst). unfold status_running. cbn.
    destruct (decide (i = c)) as [->|Hne]; [|exists ec; by rewrite lookup_insert_ne].
    eexists. rewrite lookup_insert_eq. split; [done|]. by simplify_eq.
  - intros r s1 (s0 & e0 & _ & -> & _). by split.
  - intros r u' (s1 & s' & -> & Hau' & (s0 & e0 & Hh & -> & He0 & Hs1) & Hres). exists s'. split; [done|]. split; [done|].
    eapply edit_side; [done|done|done| |done|done|done]. intros e e' []. by split.
Qed.

Lemma usys_set_runnable_spec c u id i :
  at_user c (kern u) → resolved_in (kern u) id i → i ≠ c →
  wp (usys_env_set_status frame cr2 eflags id 2) (λ r u', ∃ s', u' = set_kern s' u ∧ r = 0 ∧
    edited c i (set_env_status ENV_RUNNABLE) (kern u) s') no_stop u.
Proof.
  intros Hau [Hi1 Hi2] Hic. set (s := kern u) in *.
  eapply wp_mono; [apply (usyscall_spec Hfl Hcs c u _ _ _ _ _ _ _ (λ r s1, ∃ s0 e0, handles c s s0 ∧ r = 0 ∧ envs s0 !! i = Some e0 ∧
    s1 = set_envs (<[i := set_env_status ENV_RUNNABLE e0]> (envs s0)) s0) Hau)| |done].
  - intros s0 Hh. change (syscall _ _ _ _ _ _) with (sys_env_set_status (s32 (u32 id)) 2).
    rewrite s32_u32, s32_small by (unfold int_ok in *; lia). destruct (hd_core _ _ _ Hh) as (PD & PT & ext & fl & efl & Hk).
    eapply wp_mono; [apply (sys_env_set_status_spec Hk (hd_cur_ok _ _ _ Hh) (hd_held _ _ _ Hh) (hd_cur _ _ _ Hh) id 2 no_stop)| |done].
    intros r s1 [Hrt [(_ & _ & Hno)|(i' & e0 & R & He0 & Hu0 & -> & ->)]]; [by destruct (Hno i); eapply resolves_handles|].
    pose proof (kinv_resolves_inj _ _ _ _ _ _ _ _ _ _ Hk (resolves_handles _ _ _ _ _ Hau Hh Hi2) R) as <-.
    split; [done|]. split; [|by exists s0, e0]. destruct (hd_run _ _ _ Hh) as (ec & Hec & Hst). exists ec. cbn.
    by rewrite lookup_insert_ne.
  - intros r s1 (s0 & e0 & _ & -> & _). by split.
  - intros r u' (s1 & s' & -> & Hau' & (s0 & e0 & Hh & -> & He0 & Hs1) & Hres). exists s'. split; [done|]. split; [done|].
    eapply edit_side; [done|done|done| |done|done|done]. intros e e' []. by split.
Qed.

(** *** sys_exofork *)

(** The registers the child starts with. *)
Definition exofork_frame : Trapframe :=
  let r := tf_regs frame in
  syscall_frame frame SYS_exofork (reg_edx r) (reg_ecx r) (reg_ebx r) (reg_edi r) (reg_esi r).
Definition child_tf : Trapframe := set_tf_regs (set_reg_eax 0 (tf_regs exofork_frame)) exofork_frame.

(** A new environment in the free slot [e], with nothing mapped. *)
Record child_of (c e id : Z) (child : Env) (s s' : KState) : Prop := {
  ch_free : ∃ v, envs s !! e = Some v ∧ env_status v = ENV_FREE;
  ch_entry : envs s' !! e = Some child;
  ch_id : env_id child = id ∧ 0 < id < 2147483648;
  ch_parent : ∃ v, envs s !! c = Some v ∧ env_parent_id child = env_id v;
  ch_status : env_status child = ENV_NOT_RUNNABLE;
  ch_tf : env_tf child = child_tf;
  ch_other : envs_same c (<[e := child]> (envs s)) (envs s');
  ch_empty : ∀ x, user_vpn x → aspace s' e x = None
}.

Definition exofork_effect (c : Z) (s : KState) (r : Z) (s' : KState) : Prop :=
  mem_same s s' ∧
  (((r = - E_NO_FREE_ENV ∨ r = - E_NO_MEM) ∧ ucall c s s') ∨ ∃ e child, child_of c e r child s s').

Lemma child_side c s s0 s1 s' v0 e p v :
  handles c s s0 → envs s0 !! c = set_env_tf exofork_frame <$> envs s !! c → kinv s1 →
  envs s0 !! c = Some v0 → envs s0 !! e = Some v → env_status v = ENV_FREE → envs s1 = <[e := forked v0 e p v]> (envs s0) →
  (∀ x, user_vpn x → aspace s1 e x = None) → resumed c (next_env_id (env_id v) e) s1 s' →
  child_of c e (s32 (next_env_id (env_id v) e)) (forked v0 e p v) s s'.
Proof.
  intros Hh Htf (PD & PT & ext & fl & efl & Hk) Hv0 Hv Hvf Hes Hemp Hres.
  destruct (hd_run _ _ _ Hh) as (ec & Hec & Hst). assert (Hne : e ≠ c) by congruence.
  destruct (hd_envs _ _ _ Hh) as [Hj (e1 & e1' & Hc & Hc' & Hs)].
  assert (He1 : envs s1 !! e = Some (forked v0 e p v)) by by rewrite Hes, lookup_insert_eq.
  destruct (kc_id _ _ _ _ _ _ Hk e _ He1 ltac:(done)) as [_ Hid]. rewrite forked_id in Hid.
  rewrite Hc, Hv0 in Htf. injection Htf as ->. rewrite s32_small by lia.
  pose proof (res_same Hres) as Hes'. destruct (Hes') as [Hj' _]. split.
  - exists v. by rewrite <- Hj.
  - by rewrite Hj'.
  - done.
  - by exists e1.
  - done.
  - done.
  - eapply envs_same_trans; [|exact Hes']. rewrite Hes. split.
    + intros j Hjc. destruct (decide (e = j)) as [<-|]; [by rewrite !lookup_insert_eq|]. by rewrite !lookup_insert_ne, Hj by done.
    + exists e1, e1'. by rewrite !lookup_insert_ne by done.
  - intros x Hx. destruct (sides_aspace Hh Hres e x) as [-> _]. by apply Hemp.
Qed.

Lemma usys_exofork_spec c u : at_user c (kern u) →
  wp (usys_exofork frame cr2 eflags) (λ r u', ∃ s', u' = set_kern s' u ∧ at_user c s' ∧ refs_grow 1 (kern u) s' ∧
    exofork_effect c (kern u) r s') no_stop u.
Proof.
  intros Hau. set (s := kern u) in *. unfold usys_exofork.
  eapply wp_mono; [apply (int_syscall_spec Hfl Hcs c u _ _ _ _ _ _ (λ r s1, ∃ s0 fl efl, handles c s s0 ∧
    envs s0 !! c = set_env_tf exofork_frame <$> envs s !! c ∧ returns s0 s1 ∧ exofork_result (fl := fl) (efl := efl) (s := s0) (c := c) r s1) Hau)| |done].
  - intros s0 Hh Htf. change (syscall _ _ _ _ _ _) with sys_exofork. destruct (hd_core _ _ _ Hh) as (PD & PT & ext & fl & efl & Hk).
    eapply wp_mono; [apply (sys_exofork_spec Hk (hd_cur_ok _ _ _ Hh) (hd_held _ _ _ Hh) (hd_cur _ _ _ Hh) no_stop)| |done].
    intros r s1 [Hrt Hex]. split; [done|]. split; [|by exists s0, fl, efl].
    destruct (hd_run _ _ _ Hh) as (ec & Hec & Hst).
    destruct Hex as [(_ & _ & ->)|[(_ & _ & ->)|(v0 & e & p & v & _ & Hv & Hvf & _ & Hes & _)]]; [by exists ec..|].
    exists ec. rewrite Hes, lookup_insert_ne; [done|]. intros ->. congruence.
  - intros r' u' (r & s1 & s' & -> & -> & Hau' & (s0 & fl & efl & Hh & Htf & Hrt & Hex) & Hres). exists s'. split; [done|]. split; [done|].
    assert (Hsame : s1 = s0 → refs_grow 1 s s' ∧ mem_same s s' ∧ ucall c s s').
    { intros ->. split; [|split; [|by eapply (sides_ucall Hh eq_refl Hau' Hres)]].
      - apply (refs_grow_le 0); [lia|]. by eapply (sides_refs Hh Hres), refs_grow_same.
      - apply (sides_mem_same Hh Hres). by intros ????. }
    destruct Hex as [(-> & _ & E)|[(-> & _ & E)|(v0 & e & p & v & Hv0 & Hv & Hvf & -> & Hes & Hemp & Hkept & _ & Hcont & Hg)]];
      [destruct (Hsame E) as (? & ? & ?); split; [done|]; split; [done|left; split; [by (left + right)|done]]..|].
    split; [by apply (sides_refs Hh Hres)|]. split; [by apply (sides_mem_same Hh Hres), kept_mem_same|]. right.
    exists e, (forked v0 e p v). eapply child_side; [done|done|apply Hrt|done..].
Qed.
End UCalls.
