(* ===== verification/ForkProofs.v ===== *)
(** * Copy-on-write fork

    What lib/fork.c does to the memory of the environments: the page-fault
    handler replaces a copy-on-write page by a private copy without changing
    what any environment sees, and fork gives the child the memory of the
    parent. *)

From S2P Require Import Prelude Console Mmu KState KWp Pmap PmapInv PmapSpec PmapDir PmapOps VMem Env EnvFree KInv.
From S2P Require Import SchedProofs EnvProofs UserMem Syscall SyscallProofs SyscallSafe Trap TrapProofs ULib ULibProofs.

(** ** User accesses *)

Definition has (b e : Z) : bool := negb (Z.land e b =? 0).

Lemma has_sub b m e : Z.land e m = m → Z.land m b ≠ 0 → has b e = true.
Proof.
  intros He Hm. unfold has. apply negb_true_iff, Z.eqb_neq. intros H0. apply Hm.
  rewrite <- He, (Z.land_comm e m), <- Z.land_assoc, H0. apply Z.land_0_r.
Qed.
Lemma has_low b e : 0 ≤ b < 4096 → has b (Z.land e 0xFFF) = has b e.
Proof.
  intros Hb. unfold has. rewrite <- Z.land_assoc. do 3 f_equal. rewrite Z.land_comm. change 0xFFF with (Z.ones 12).
  rewrite Z.land_ones by lia. apply Z.mod_small. lia.
Qed.
Lemma has_ctrue b e : ctrue (Z.land e b) = has b e.
Proof. done. Qed.

(** The directory of the environment that runs. *)
Lemma at_user_dir c s : at_user c s → ∃ PD PT ext fl efl pd,
  kcore PD PT ext fl efl s ∧ pd ∈ PD ∧ 0 ≤ pd < 65536 ∧ cr3 s = pd * 4096 ∧ ∀ x, aspace s c x = mapping (phys s) pd x.
Proof.
  intros Hau. destruct (au_run _ _ Hau) as (v & Hv & _). pose proof (at_user_use _ _ _ Hau Hv) as Hu.
  destruct Hau as [[(PD & PT & ext & fl & efl & Hk) _ [_ (v' & Hv' & Hcr)] _ _] _]. assert (v' = v) as -> by congruence.
  destruct (in_use_dir Hk c v Hv Hu) as (pd & Hpd & Hdir & _ & Has). exists PD, PT, ext, fl, efl, pd.
  split; [done|]. split; [done|]. split; [|split; [rewrite Hcr, Hdir; unfold kdir; lia|done]].
  pose proof (mi_np _ _ _ _ _ _ _ _ (kc_mem _ _ _ _ _ _ Hk)).
  pose proof (mi_range _ _ _ _ _ _ _ _ (kc_mem _ _ _ _ _ _ Hk) pd ltac:(by apply elem_of_union_l)). lia.
Qed.

Lemma PGNUM_page pd : 0 ≤ pd < 65536 → PGNUM (pd * 4096) = pd.
Proof. intros H. rewrite PGNUM_div, u32_small by lia. mlia. Qed.

Lemma translate_user c s va write : at_user c s → 0 ≤ va < UTOP →
  user_translate (phys s) (cr3 s) va write =
    match aspace s c (PGNUM va) with
    | Some (p, f) => if has PTE_U f && (negb write || has PTE_W f) then Some (p * 4096 + PGOFF va) else None
    | None => None
    end.
Proof.
  intros Hau Hva. destruct (at_user_dir c s Hau) as (PD & PT & ext & fl & efl & pd & Hk & Hpd & Hr & -> & Has).
  rewrite Has, mapping_pte. unfold user_translate, pte_word. rewrite !PTE_ADDR_div4, PGNUM_page by done.
  destruct (present (word (phys s) (pd * 1024 + PDX va))) eqn:Hp; [|done].
  pose proof (mi_pde _ _ _ _ _ _ _ _ (kc_mem _ _ _ _ _ _ Hk) _ (dir_slot PD pd va Hpd Hva) Hp) as H7.
  set (pde := word (phys s) (pd * 1024 + PDX va)) in *. set (pte := word (phys s) (PGNUM pde * 1024 + PTX va)).
  destruct (present pte); [|done]. cbn [andb]. rewrite !has_low by (unfold PTE_U, PTE_W; lia).
  fold (has PTE_U pde) (has PTE_W pde) (has PTE_U pte) (has PTE_W pte).
  rewrite (has_sub PTE_U 7 pde), (has_sub PTE_W 7 pde) by done. cbn [andb]. by rewrite PTE_ADDR_PGNUM.
Qed.

(** The page tables through UVPT. *)
Section Uvpt.
Context {c : Z} {u : UState} (Hau : at_user c (kern u)).

Lemma self_map : ∃ pd, 0 ≤ pd < 65536 ∧ cr3 (kern u) = pd * 4096 ∧
  word (phys (kern u)) (pd * 1024 + 957) = pd * 4096 + 5 ∧
  (∀ x, aspace (kern u) c x = mapping (phys (kern u)) pd x) ∧
  ∀ x, user_vpn x → present (word (phys (kern u)) (pd * 1024 + x / 1024)) = true →
    has PTE_U (word (phys (kern u)) (pd * 1024 + x / 1024)) = true.
Proof.
  destruct (at_user_dir c _ Hau) as (PD & PT & ext & fl & efl & pd & Hk & Hpd & Hr & Hcr & Has). exists pd.
  split; [done|]. split; [done|]. destruct (kc_kpd _ _ _ _ _ _ Hk) as (kp & _ & _ & _ & _ & _ & Hsh).
  split; [|split; [done|]].
  - rewrite (Hsh pd 957) by (done || lia). by rewrite decide_True.
  - intros x Hx Hp. apply (has_sub PTE_U 7); [|done].
    by apply (mi_pde _ _ _ _ _ _ _ _ (kc_mem _ _ _ _ _ _ Hk)); [apply dir_slot_vpn|].
Qed.

Lemma self_pde pd : 0 ≤ pd < 65536 → present (pd * 4096 + 5) = true ∧ has PTE_U (pd * 4096 + 5) = true ∧ PGNUM (pd * 4096 + 5) = pd.
Proof.
  intros Hr. split; [by rewrite present_add_page|]. split; [|by rewrite PGNUM_entry by lia].
  rewrite <- has_low by (unfold PTE_U; lia). rewrite entry_perm by lia. done.
Qed.

Lemma uvpt_va pn : user_vpn pn → PDX (UVPT + 4 * pn) = 957 ∧ PTX (UVPT + 4 * pn) = pn / 1024 ∧ PGOFF (UVPT + 4 * pn) = 4 * (pn `mod` 1024).
Proof.
  unfold user_vpn. intros H. rewrite PDX_div, PTX_mod, PGOFF_mod, !u32_small by mlia. split_and!; mlia.
Qed.

(** uvpd[pn >> 10] tells whether uvpt[pn] can be read. *)
Lemma uvpt_spec pn : user_vpn pn → ∃ d, uvpd (Z.shiftr pn 10) u = Ok d u ∧
  (present d = false → aspace (kern u) c pn = None) ∧
  (present d = true → ∃ w, uvpt pn u = Ok w u ∧
     aspace (kern u) c pn = if present w then Some (PGNUM w, Z.land w 0xFFF) else None).
Proof.
  intros Hpn. destruct self_map as (pd & Hr & Hcr & Hself & Has & HU). destruct (self_pde pd Hr) as (Sp & SU & SG).
  set (d := word (phys (kern u)) (pd * 1024 + pn / 1024)). exists d. split; [|split].
  - unfold uvpd, uload32, user_access, mbind, M_bind, gets. rewrite Hcr. unfold user_translate.
    set (va := UVPT + _ + _). assert (Hva : va = 4017868800 + 4 * (pn / 1024)).
    { unfold va. rewrite (Z.shiftr_div_pow2 pn) by lia. reflexivity. }
    assert (H3 : PDX va = 957 ∧ PTX va = 957 ∧ PGOFF va = 4 * (pn / 1024)).
    { rewrite Hva. unfold user_vpn in Hpn. rewrite PDX_div, PTX_mod, PGOFF_mod, !u32_small by mlia. split_and!; mlia. }
    destruct H3 as (-> & -> & ->). rewrite !PTE_ADDR_div4, PGNUM_page, Hself, SG, Hself, Sp by done.
    fold (has PTE_U (pd * 4096 + 5)). rewrite SU. cbn [andb negb orb]. rewrite PTE_ADDR_PGNUM, SG. unfold mret, M_ret.
    f_equal. unfold d. f_equal. mlia.
  - intros Hd. rewrite Has. unfold mapping. fold d. by rewrite Hd.
  - intros Hd. set (w := word (phys (kern u)) (PGNUM d * 1024 + pn `mod` 1024)). exists w. split.
    + unfold uvpt, uload32, user_access, mbind, M_bind, gets. rewrite Hcr. unfold user_translate.
      destruct (uvpt_va pn Hpn) as (-> & -> & ->). rewrite !PTE_ADDR_div4, PGNUM_page, Hself, SG, Sp by done. fold d.
      fold (has PTE_U (pd * 4096 + 5)) (has PTE_U d). rewrite SU, Hd, (HU pn Hpn Hd : has PTE_U d = true). cbn [andb negb orb].
      rewrite PTE_ADDR_PGNUM. unfold mret, M_ret. f_equal. unfold w. f_equal. mlia.
    + rewrite Has. unfold mapping. fold d w. by rewrite Hd.
Qed.

Lemma uvpt_mapped pn p f : user_vpn pn → aspace (kern u) c pn = Some (p, f) →
  ∃ w, uvpt pn u = Ok w u ∧ Z.land w 0xFFF = f.
Proof.
  intros Hpn Ha. destruct (uvpt_spec pn Hpn) as (d & _ & H0 & H1). destruct (present d); [|by rewrite H0 in Ha].
  destruct (H1 eq_refl) as (w & Hw & Ha'). exists w. split; [done|]. rewrite Ha in Ha'. destruct (present w); [|done]. by injection Ha' as _ ->.
Qed.
End Uvpt.

(** ** Stores *)

(** A mapped page is a user page: writing it touches no table. *)
Section Store.
Context {c : Z} {s : KState} {pt : Z} {m' : gmap Z Z} (Hau : at_user c s).
Context (Hpt : ∃ j x f, used s j ∧ user_vpn x ∧ aspace s j x = Some (pt, f)).
Context (Hoth : ∀ w, w / 1024 ≠ pt → word m' w = word (phys s) w).

Lemma store_page PD PT ext fl efl : kcore PD PT ext fl efl s → pt ∉ PD ∪ PT ∧ ext pt = 0.
Proof.
  intros Hk. destruct Hpt as (j & x & f & (e & He & Hu) & Hx & Ha).
  destruct (in_use_dir Hk j e He Hu) as (pd & Hpd & _ & _ & Has). rewrite Has in Ha.
  by destruct (mapped_page Hk pd x pt f Hpd Hx Ha) as (_ & ? & _ & ? & _).
Qed.

Lemma store_at_user : at_user c (set_phys m' s).
Proof.
  destruct Hau as [[(PD & PT & ext & fl & efl & Hk) Hcur Hon Hrel Hst] Hrun]. destruct (store_page _ _ _ _ _ Hk) as [HT He].
  split; [split; [|done|done|done|done]|done]. exists PD, PT, ext, fl, efl. by eapply (kcore_store Hk pt).
Qed.

Lemma store_aspace j x : used s j → user_vpn x → aspace (set_phys m' s) j x = aspace s j x.
Proof.
  intros (e & He & Hu) Hx. destruct Hau as [[(PD & PT & ext & fl & efl & Hk) _ _ _ _] _].
  destruct (store_page _ _ _ _ _ Hk) as [HT _]. destruct (in_use_dir Hk j e He Hu) as (pd & Hpd & Hdir & _ & Has).
  rewrite Has. unfold aspace. cbn. rewrite He, (env_dir_kdir e pd) by done.
  eapply (mapping_ext PD ext PT fl); [apply (kc_mem _ _ _ _ _ _ Hk)| |done|done]. intros w Hw. symmetry. apply Hoth. intros <-.
  rewrite slots_split, elem_of_dslots, elem_of_tslots in Hw. rewrite not_elem_of_union in HT. tauto.
Qed.

Lemma store_view j x p f o : used s j → user_vpn x → aspace s j x = Some (p, f) → p ≠ pt → 0 ≤ o < 1024 →
  view (set_phys m' s) j x o = view s j x o.
Proof.
  intros Hu Hx Ha Hne Ho. rewrite (view_word _ _ _ p f), (view_word s _ _ p f) by (done || by rewrite store_aspace).
  cbn. f_equal. apply Hoth. mlia.
Qed.
End Store.

Lemma at_user_used c s : at_user c s → used s c.
Proof. intros Hau. destruct (au_run _ _ Hau) as (e & He & _). exists e. split; [done|by eapply at_user_use]. Qed.

(** Copying a page, word by word. *)
Section Copy.
Context {c : Z} {s : KState} (Hau : at_user c s).
Context {src dst ps fs pt ft : Z}.
Context (Hsrc : user_vpn src) (Hdst : user_vpn dst) (Hne : ps ≠ pt).
Context (Has : aspace s c src = Some (ps, fs)) (HUs : has PTE_U fs = true).
Context (Hat : aspace s c dst = Some (pt, ft)) (HUt : has PTE_U ft = true) (HWt : has PTE_W ft = true).

Lemma page_addr v k : user_vpn v → 0 ≤ k < 1024 →
  0 ≤ v * 4096 + 4 * k < UTOP ∧ PGNUM (v * 4096 + 4 * k) = v ∧ PGOFF (v * 4096 + 4 * k) = 4 * k.
Proof.
  unfold user_vpn. intros Hv Hk. split; [mlia|]. rewrite PGNUM_div, PGOFF_mod, u32_small by mlia. split; mlia.
Qed.

Lemma copy_words n k u m : kern u = set_phys m s → 0 ≤ k → k + Z.of_nat n = 1024 →
  (∀ w, w / 1024 ≠ pt → word m w = word (phys s) w) →
  (∀ o, 0 ≤ o < k → word m (pt * 1024 + o) = word (phys s) (ps * 1024 + o)) →
  ∃ m', urep_movsl n 1 (dst * 4096 + 4 * k) (src * 4096 + 4 * k) u = Ok tt (set_kern (set_phys m' s) u) ∧
    (∀ w, w / 1024 ≠ pt → word m' w = word (phys s) w) ∧
    (∀ o, 0 ≤ o < 1024 → word m' (pt * 1024 + o) = word (phys s) (ps * 1024 + o)).
Proof.
  assert (Hpt : ∃ j x f, used s j ∧ user_vpn x ∧ aspace s j x = Some (pt, f)) by (exists c, dst, ft; by split; [apply at_user_used|]).
  revert k u m. induction n as [|n IH]; intros k u m Hu Hk Hkn Hoth Hdone.
  { exists m. cbn. unfold mret, M_ret. split; [f_equal; destruct u; cbn in *; by subst|]. split; [done|]. intros. apply Hdone. lia. }
  pose proof (store_at_user Hau Hpt Hoth) as Hau1. pose proof (at_user_used _ _ Hau) as Huc.
  destruct (page_addr src k Hsrc) as (S1 & S2 & S3); [lia|]. destruct (page_addr dst k Hdst) as (D1 & D2 & D3); [lia|].
  cbn [urep_movsl]. unfold uload32, ustore32, user_access, mbind, M_bind, gets, modify. rewrite Hu.
  rewrite (translate_user c _ _ false Hau1 S1), S2, (store_aspace Hau Hpt Hoth c src Huc Hsrc), Has, HUs, S3. cbn [negb andb orb].
  unfold mret, M_ret.
  rewrite Hu, (translate_user c _ _ true Hau1 D1), D2, (store_aspace Hau Hpt Hoth c dst Huc Hdst), Hat, HUt, HWt, D3. cbn [negb andb orb].
  replace ((pt * 4096 + 4 * k) / 4) with (pt * 1024 + k) by mlia. replace ((ps * 4096 + 4 * k) / 4) with (ps * 1024 + k) by mlia.
  rewrite !(u32_small (_ + 1 * 4)) by mlia. cbn [phys set_phys].
  replace (dst * 4096 + 4 * k + 1 * 4) with (dst * 4096 + 4 * (k + 1)) by lia.
  replace (src * 4096 + 4 * k + 1 * 4) with (src * 4096 + 4 * (k + 1)) by lia.
  set (m1 := <[pt * 1024 + k := word m (ps * 1024 + k)]> m).
  destruct (IH (k + 1) (set_kern (set_phys m1 s) u) m1) as (m' & Hrun & H1 & H2); [done|lia|lia| | |].
  - intros w Hw. unfold m1. rewrite word_insert_ne by mlia. by apply Hoth.
  - intros o Ho. unfold m1. destruct (decide (o = k)) as [->|].
    + rewrite word_insert_eq. apply Hoth. mlia.
    + rewrite word_insert_ne by lia. apply Hdone. lia.
  - exists m'. rewrite Hu. split; [exact Hrun|done].
Qed.

Lemma umemmove_page u : kern u = s → src ≠ dst →
  ∃ m', umemmove (dst * 4096) (src * 4096) PGSIZE u = Ok tt (set_kern (set_phys m' s) u) ∧
    (∀ w, w / 1024 ≠ pt → word m' w = word (phys s) w) ∧
    (∀ o, 0 ≤ o < 1024 → word m' (pt * 1024 + o) = word (phys s) (ps * 1024 + o)).
Proof.
  intros Hu Hsd. unfold umemmove. change PGSIZE with 4096. unfold user_vpn in *.
  rewrite u32_small by lia. assert ((src * 4096 <? dst * 4096) && (src * 4096 + 4096 >? dst * 4096) = false) as -> by lia.
  assert (((src * 4096) `mod` 4 =? 0) && ((dst * 4096) `mod` 4 =? 0) && (4096 `mod` 4 =? 0) = true) as ->.
  { rewrite !andb_true_iff, !Z.eqb_eq. split_and!; [mlia|mlia|done]. }
  change (Z.to_nat (4096 / 4)) with 1024%nat.
  destruct (copy_words 1024 0 u (phys s)) as (m' & Hrun & H1 & H2); [by rewrite Hu; destruct s|lia|lia|done|lia|].
  rewrite !Z.add_0_r in Hrun. by exists m'.
Qed.
End Copy.

(** ** pgfault *)

Definition room (n : Z) (s : KState) : Prop := ∀ p k, pages s !! p = Some k → pp_ref k + n < 65535.

Lemma room_refs n s : 0 ≤ n → room n s → refs_room s.
Proof. intros Hn H p k Hk. pose proof (H p k Hk). lia. Qed.
Lemma room_step n m s s' : room (n + m) s → refs_grow m s s' → room n s'.
Proof. intros H Hg p k' Hk'. destruct (Hg p k' Hk') as (k & Hk & ?). pose proof (H p k Hk). lia. Qed.

Lemma views_refl s j x : views_same s s j x.
Proof. by split. Qed.
Lemma views_trans s1 s2 s3 j x : views_same s1 s2 j x → views_same s2 s3 j x → views_same s1 s3 j x.
Proof. intros [A1 V1] [A2 V2]. split; [congruence|]. intros o Ho. by rewrite V2, V1. Qed.

(** An environment may always name itself. *)
Lemma self_resolves c s e : at_user c s → envs s !! c = Some e → resolved_in s (env_id e) c.
Proof.
  intros Hau He. pose proof (at_user_use _ _ _ Hau He) as Hu. destruct (iu_inv _ _ (au_in _ _ Hau)) as (PD & PT & ext & fl & efl & Hk).
  destruct (kc_id _ _ _ _ _ _ Hk c e He Hu) as [_ Hid]. split; [unfold int_ok; lia|]. unfold resolves.
  rewrite decide_False by lia. split; [by exists e|]. intros _. left. by apply at_user_cur.
Qed.

Lemma ucall_resolved c s s' id i : at_user c s → ucall c s s' → resolved_in s id i → resolved_in s' id i.
Proof. intros Hau Hc [H1 H2]. split; [done|by eapply ucall_resolves]. Qed.

Lemma views_view s s' j x o : views_same s s' j x → 0 ≤ o < 1024 → view s' j x o = view s j x o.
Proof. intros [_ H]. apply H. Qed.

Definition tmp : Z := PGNUM PFTEMP.

(** The page at [x] is now private to [c]; nobody sees any other memory than before. *)
Record cow_resolved (c x : Z) (s s' : KState) : Prop := {
  cr_at : ucall c s s';
  cr_page : ∃ p', unmapped s p' ∧ aspace s' c x = Some (p', 7);
  cr_temp : aspace s' c tmp = None;
  cr_other : ∀ j y, used s j → user_vpn y → ¬ (j = c ∧ (y = x ∨ y = tmp)) → aspace s' j y = aspace s j y;
  cr_view : ∀ j y o, used s j → user_vpn y → ¬ (j = c ∧ y = tmp) → 0 ≤ o < 1024 → view s' j y o = view s j y o;
  cr_refs : refs_grow 3 s s'
}.

(** Out of memory: the handler panics; only its scratch page may differ. *)
Definition cow_failed (c : Z) (s : KState) (r : ustop) (s' : KState) : Prop :=
  (r = UPanic "pgfault:page allocation failed: %e" ∨ r = UPanic "pgfault:page map failed: %e") ∧
  ∀ j y, used s j → user_vpn y → ¬ (j = c ∧ y = tmp) → views_same s s' j y.

Section Pgfault.
Context {frame : Trapframe} {cr2 eflags : Z}.
Context (Hfl : Z.land eflags FL_IF = 0) (Hcs : Z.land (tf_cs frame) 3 = 3).

(** The middle of the handler: a scratch page with a copy of page [x]. *)
Lemma copy_to_tmp c s x p f p' (Hau : at_user c s) :
  user_vpn x → x ≠ tmp → aspace s c x = Some (p, f) → has PTE_U f = true → aspace s c tmp = Some (p', 7) →
  (∀ j y f', used s j → user_vpn y → ¬ (j = c ∧ y = tmp) → aspace s j y ≠ Some (p', f')) →
  ∀ u, kern u = s → ∃ s', umemmove PFTEMP (x * 4096) PGSIZE u = Ok tt (set_kern s' u) ∧ at_user c s' ∧ envs s' = envs s ∧
    pages s' = pages s ∧ mem_set s s' c tmp (Some (p', 7)) (view s c x).
Proof.
  intros Hx Hne Ha HU Ht Hfresh u Hu. pose proof (at_user_used _ _ Hau) as Huc.
  assert (Htmp : user_vpn tmp) by (unfold user_vpn; vm_compute; split; done || congruence).
  assert (Hpp : p ≠ p') by (intros ->; eapply (Hfresh c x f); try done; by intros [_ ?]).
  change PFTEMP with (tmp * 4096).
  destruct (umemmove_page Hau Hx Htmp Hpp Ha HU Ht eq_refl eq_refl u Hu Hne) as (m' & Hrun & H1 & H2).
  assert (Hpt : ∃ j x f, used s j ∧ user_vpn x ∧ aspace s j x = Some (p', f)) by by exists c, tmp, 7.
  exists (set_phys m' s). split; [done|]. split; [by apply (store_at_user Hau Hpt H1)|]. split; [done|]. split; [done|].
  split; [|split].
  - intros j y Hj Hy Hjy. split; [by apply (store_aspace Hau Hpt H1)|]. intros o Ho.
    destruct (aspace s j y) as [[q g]|] eqn:E.
    + eapply (store_view Hau Hpt H1); [done..| |done]. intros ->. by eapply Hfresh.
    + unfold view. by rewrite (store_aspace Hau Hpt H1), E by done.
  - by rewrite (store_aspace Hau Hpt H1).
  - intros o Ho. rewrite (view_word _ _ _ p' 7), (view_word s _ _ p f) by (done || by rewrite (store_aspace Hau Hpt H1)).
    cbn. f_equal. by apply H2.
Qed.

Lemma bad_va_page x : user_vpn x → bad_va (x * 4096) = false.
Proof.
  intros Hx. destruct (page_addr x 0 Hx ltac:(lia)) as (X1 & _ & X3). rewrite Z.add_0_r in X1, X3. unfold bad_va.
  rewrite X3. rewrite orb_false_iff. split; [lia|done].
Qed.

(** The last two calls: the copy takes the place of page [x]. *)
Lemma pgfault_move c s x p' id : at_user c s → refs_room s → user_vpn x → x ≠ tmp → resolved_in s id c →
  aspace s c tmp = Some (p', 7) → ∀ u, kern u = s →
  wp (r ← usys_page_map frame cr2 eflags id PFTEMP id (x * 4096) 7;
      if r <? 0 then upanic "pgfault:page map failed: %e"
      else r ← usys_page_unmap frame cr2 eflags id PFTEMP;
           if r <? 0 then upanic "pgfault: page unmap failed: %e" else mret tt)
    (λ _ u', ∃ s', u' = set_kern s' u ∧ ucall c s s' ∧ refs_grow 2 s s' ∧ aspace s' c x = Some (p', 7) ∧ aspace s' c tmp = None ∧
       (∀ o, 0 ≤ o < 1024 → view s' c x o = view s c tmp o) ∧
       ∀ j y, used s j → user_vpn y → ¬ (j = c ∧ (y = x ∨ y = tmp)) → views_same s s' j y)
    (λ r u', r = UPanic "pgfault:page map failed: %e" ∧ ∃ s', u' = set_kern s' u ∧ mem_same s s') u.
Proof.
  intros Hau Hroom Hx Hne Hid Ht u Hu. subst s. destruct (page_addr x 0 Hx ltac:(lia)) as (X1 & X2 & _). rewrite Z.add_0_r in X1, X2.
  pose proof (at_user_used _ _ Hau) as Huc. assert (Htmp : user_vpn tmp) by (unfold user_vpn; vm_compute; split; done || congruence).
  apply wp_bind. eapply wp_mono; [apply (usys_page_map_spec Hfl Hcs c u id PFTEMP id (x * 4096) 7 c c p' 7 Hau Hroom Hid Hid)| |by intros ??[]].
  { unfold page_map_args_bad. by rewrite bad_va_page. }
  { done. } { lia. } { done. } { done. }
  rewrite X2. intros r u1 (s1 & -> & Hc1 & Hg1 & [[-> Hm]|[-> (M1 & M2 & M3)]]).
  { apply wp_stop. split; [done|]. by exists s1. }
  change (0 <? 0) with false. cbv iota. apply wp_bind.
  eapply wp_mono; [apply (usys_page_unmap_spec Hfl Hcs c (set_kern s1 u) id PFTEMP c (uc_at _ _ _ Hc1)); [by eapply ucall_resolved|done|done]| |by intros ??[]].
  intros r u2 (s2 & -> & Hc2 & Hg2 & -> & N1 & N2 & N3). apply wp_ret. exists s2. split; [done|]. fold tmp in M3, N1, N2, N3.
  cbn [kern set_kern] in *. assert (Hu1 : ∀ j, used (kern u) j → used s1 j) by (intros j; by apply (ucall_used _ _ _ _ Hc1)).
  split; [by eapply ucall_trans|]. split; [by eapply (refs_grow_trans 1 1)|].
  destruct (N1 c x (Hu1 _ Huc) Hx ltac:(by intros [_ ?])) as [A2 V2]. split; [by rewrite A2|]. split; [done|]. split.
  - intros o Ho. by rewrite V2, M3.
  - intros j y Hj Hy Hjy. eapply views_trans; [apply M1; [done|done|]|apply N1; [by apply Hu1|done|]]; naive_solver.
Qed.

Lemma pgfault_spec c u va err p f :
  at_user c (kern u) → room 3 (kern u) → 0 ≤ va < UTOP → PGNUM va ≠ tmp →
  aspace (kern u) c (PGNUM va) = Some (p, f) → has PTE_U f = true → has PTE_COW f = true → has FEC_WR err = true →
  wp (pgfault frame cr2 eflags va err) (λ _ u', ∃ s', u' = set_kern s' u ∧ cow_resolved c (PGNUM va) (kern u) s')
    (λ r u', ∃ s', u' = set_kern s' u ∧ cow_failed c (kern u) r s') u.
Proof.
  intros Hau Hroom Hva Hne Ha HU HC HW. set (s := kern u) in *. set (x := PGNUM va) in *.
  pose proof (user_vpn_UTOP va Hva : user_vpn x) as Hx. pose proof (at_user_used _ _ Hau) as Huc.
  assert (Htmp : user_vpn tmp) by (unfold user_vpn; vm_compute; split; done || congruence).
  destruct (au_run _ _ Hau) as (e & He & _). pose proof (self_resolves _ _ _ Hau He) as Hid.
  unfold pgfault. apply wp_bind. rewrite has_ctrue, HW. destruct (uvpt_mapped Hau x p f Hx Ha) as (w & Hw & Hwf).
  apply wp_bind. fold x. eapply wp_ok; [exact Hw|]. apply wp_ret. rewrite has_ctrue, <- has_low, Hwf, HC by (unfold PTE_COW; lia).
  cbn [negb]. apply wp_bind. eapply wp_mono; [apply (usys_getenvid_spec Hfl Hcs c u e Hau He)| |by intros ??[]].
  intros id u1 (s1 & -> & Hc1 & Hg1 & -> & Hm1). fold s in Hc1, Hg1, Hm1.
  assert (Hu1 : ∀ j, used s1 j ↔ used s j) by (intros j; by apply (ucall_used _ _ _ _ Hc1)).
  apply wp_bind. eapply wp_mono; [apply (usys_page_alloc_spec Hfl Hcs c (set_kern s1 u) (env_id e) PFTEMP 7 c (uc_at _ _ _ Hc1));
    [by eapply ucall_resolved|done|done|done]| |by intros ??[]].
  cbn [kern set_kern]. fold tmp. intros r u2 (s2 & -> & Hc2 & Hg2 & [[-> Hm2]|[-> (p' & Hun & M1 & M2 & M3)]]).
  { apply wp_stop. exists s2. split; [done|]. split; [by left|]. intros j y Hj Hy _.
    eapply views_trans; [by apply Hm1|]. apply Hm2; [by apply Hu1|done]. }
  change (0 <? 0) with false. cbv iota.
  assert (Hva' : ROUNDDOWN va PGSIZE = x * 4096) by (rewrite ROUNDDOWN_page; unfold x; by rewrite PGNUM_div). rewrite Hva'.
  assert (Hu2 : ∀ j, used s2 j ↔ used s j) by (intros j; rewrite (ucall_used _ _ _ _ Hc2); apply Hu1).
  assert (Ha2 : aspace s2 c x = Some (p, f)).
  { destruct (M1 c x) as [-> _]; [by apply Hu1|done|by intros [_ ?]|]. by destruct (Hm1 c x Huc Hx) as [-> _]. }
  assert (Hfresh : ∀ j y f', used s2 j → user_vpn y → ¬ (j = c ∧ y = tmp) → aspace s2 j y ≠ Some (p', f')).
  { intros j y f' Hj Hy Hjy. destruct (M1 j y) as [-> _]; [by apply Hu1, Hu2|done|done|]. apply Hun; [by apply Hu1, Hu2|done]. }
  destruct (copy_to_tmp c s2 x p f p' (uc_at _ _ _ Hc2) Hx Hne Ha2 HU M2 Hfresh (set_kern s2 (set_kern s1 u)) eq_refl)
    as (s3 & Hrun & Hau3 & He3 & Hp3 & C1 & C2 & C3).
  apply wp_bind. eapply wp_ok; [exact Hrun|].
  assert (Hc3 : ucall c s s3).
  { split; [done|]. rewrite He3. by eapply envs_same_trans; [apply Hc1|apply Hc2]. }
  assert (Hg3 : refs_grow 1 s s3).
  { apply (refs_grow_trans 0 1 s s1); [done|]. apply (refs_grow_trans 1 0 s1 s2); [done|]. by apply refs_grow_same. }
  eapply wp_mono; [apply (pgfault_move c s3 x p' (env_id e) Hau3); [|done|done|by apply (ucall_resolved c s)|done|done]|..].
  { eapply (room_refs 2); [lia|]. by apply (room_step 2 1 s). }
  - intros [] u4 (s4 & -> & Hc4 & Hg4 & D1 & D2 & D3 & D4). exists s4. split; [done|].
    assert (Hsame : ∀ j y, used s j → user_vpn y → ¬ (j = c ∧ (y = x ∨ y = tmp)) → views_same s s4 j y).
    { intros j y Hj Hy Hjy. eapply views_trans; [by apply Hm1|]. eapply views_trans; [apply M1; [by apply Hu1|done|naive_solver]|].
      eapply views_trans; [apply C1; [by apply Hu2|done|naive_solver]|]. apply D4; [|done|done]. by apply (ucall_used _ _ _ _ Hc3). }
    split; [by eapply ucall_trans| |done| | |by apply (refs_grow_trans 1 2 s s3)].
    + exists p'. split; [|done]. intros j y f' Hj Hy. destruct (Hm1 j y Hj Hy) as [<- _]. apply Hun; [by apply Hu1|done].
    + intros j y Hj Hy Hjy. by apply Hsame.
    + intros j y o Hj Hy Hjy Ho. destruct (decide (j = c ∧ y = x)) as [[-> ->]|Hn].
      * rewrite D3, C3 by done. destruct (M1 c x) as [_ Hv]; [by apply Hu1|done|by intros [_ ?]|]. rewrite Hv by done.
        by apply views_view, Ho; apply Hm1.
      * apply views_view; [apply Hsame; naive_solver|done].
  - intros r u4 (-> & s4 & -> & Hm4). exists s4. split; [done|]. split; [by right|]. intros j y Hj Hy Hjy.
    eapply views_trans; [by apply Hm1|]. eapply views_trans; [apply M1; [by apply Hu1|done|naive_solver]|].
    eapply views_trans; [apply C1; [by apply Hu2|done|naive_solver]|]. apply Hm4; [|done]. by apply (ucall_used _ _ _ _ Hc3).
Qed.
End Pgfault.

(** ** duppage *)

(** The permissions duppage gives the child, and leaves in the parent. *)
Definition cow_perm : Z := Z.lor (Z.lor PTE_P PTE_U) PTE_COW.
Definition child_perm (f : Z) : Z :=
  if has PTE_SHARE f then Z.land f PTE_SYSCALL
  else if has PTE_W f || has PTE_COW f then cow_perm else Z.lor PTE_P PTE_U.
Definition parent_perm (f : Z) : Z :=
  if has PTE_SHARE f then f else if has PTE_W f || has PTE_COW f then cow_perm else f.

Lemma share_perm f : Z.land f 5 = 5 → bad_perm (Z.land f PTE_SYSCALL) = false ∧ grants_write (Z.land f PTE_SYSCALL) f = false.
Proof.
  intros H5. split.
  - unfold bad_perm. rewrite <- !Z.land_assoc. change (Z.land PTE_SYSCALL (Z.lor PTE_U PTE_P)) with 5.
    change (Z.land PTE_SYSCALL (Z.lnot PTE_SYSCALL)) with 0. rewrite H5, Z.land_0_r. done.
  - unfold grants_write. rewrite <- Z.land_assoc. change (Z.land PTE_SYSCALL PTE_W) with PTE_W. unfold ctrue.
    by destruct (Z.land f PTE_W =? 0).
Qed.

(** One page shared between [c] and [e]. *)
Record dupped (c e pn p f : Z) (s s' : KState) : Prop := {
  du_child : aspace s' e pn = Some (p, child_perm f);
  du_parent : aspace s' c pn = Some (p, parent_perm f);
  du_view : ∀ o, 0 ≤ o < 1024 → view s' e pn o = view s c pn o ∧ view s' c pn o = view s c pn o;
  du_other : ∀ j y, used s j → user_vpn y → ¬ (y = pn ∧ (j = e ∨ j = c)) → views_same s s' j y
}.

Definition dup_effect (c e pn p f : Z) (s : KState) (r : Z) (s' : KState) : Prop :=
  (r = - E_NO_MEM ∧ ∀ j y, used s j → user_vpn y → j ≠ e → ∀ o, 0 ≤ o < 1024 → view s' j y o = view s j y o) ∨
  (r = 0 ∧ dupped c e pn p f s s').

Section Duppage.
Context {frame : Trapframe} {cr2 eflags : Z}.
Context (Hfl : Z.land eflags FL_IF = 0) (Hcs : Z.land (tf_cs frame) 3 = 3).
Context {c e eid pn p f : Z} {u : UState}.
Context (Hau : at_user c (kern u)) (Hpn : user_vpn pn) (Hec : e ≠ c).
Context (Hid : resolved_in (kern u) eid e) (Ha : aspace (kern u) c pn = Some (p, f)).

Lemma self_zero s : at_user c s → resolved_in s 0 c.
Proof. intros H. split; [done|]. unfold resolves. rewrite decide_True by done. by apply at_user_cur. Qed.

(** The call that gives the child the page. *)
Lemma dup_child perm : refs_room (kern u) → bad_perm perm = false → grants_write perm f = false →
  wp (usys_page_map frame cr2 eflags 0 (pn * 4096) eid (pn * 4096) perm) (λ r u', ∃ s', u' = set_kern s' u ∧
    ucall c (kern u) s' ∧ refs_grow 1 (kern u) s' ∧ map_effect (kern u) c pn e pn p perm r s') no_stop u.
Proof.
  intros Hroom Hbp Hgw. destruct (page_addr pn 0 Hpn ltac:(lia)) as (X1 & X2 & _). rewrite Z.add_0_r in X1, X2.
  pose proof (usys_page_map_spec (cr2 := cr2) Hfl Hcs c u 0 (pn * 4096) eid (pn * 4096) perm c e p f Hau Hroom (self_zero _ Hau) Hid) as H.
  rewrite X2 in H. apply H; [|lia|lia|done|done]. unfold page_map_args_bad. by rewrite bad_va_page.
Qed.

Lemma child_only perm r s' : parent_perm f = f → perm = child_perm f → map_effect (kern u) c pn e pn p perm r s' →
  dup_effect c e pn p f (kern u) (if r <? 0 then r else 0) s'.
Proof.
  intros Hpp -> [[-> Hm]|[-> (M1 & M2 & M3)]]; [left; split; [done|]; intros j y Hj Hy _; by apply Hm|right].
  pose proof (at_user_used _ _ Hau) as Huc. split; [done|].
  destruct (M1 c pn Huc Hpn) as [A V]; [by intros [<- _]|]. split; [done|by rewrite A, Hpp| |].
  - intros o Ho. by rewrite M3, V.
  - intros j y Hj Hy Hne. apply M1; [done|done|]. naive_solver.
Qed.

(** The second call for a writable page: the parent loses write access. *)
Lemma dup_both s1 : refs_room s1 → ucall c (kern u) s1 → mem_set (kern u) s1 e pn (Some (p, cow_perm)) (view (kern u) c pn) →
  child_perm f = cow_perm → parent_perm f = cow_perm →
  wp (r ← usys_page_map frame cr2 eflags 0 (pn * 4096) 0 (pn * 4096) cow_perm; mret (if r <? 0 then r else 0))
    (λ r u', ∃ s', u' = set_kern s' u ∧ ucall c (kern u) s' ∧ refs_grow 1 s1 s' ∧ dup_effect c e pn p f (kern u) r s')
    no_stop (set_kern s1 u).
Proof.
  intros Hroom Hc1 (M1 & M2 & M3) Hcp Hpp. pose proof (uc_at _ _ _ Hc1) as Hau1. pose proof (at_user_used _ _ Hau) as Huc.
  destruct (page_addr pn 0 Hpn ltac:(lia)) as (X1 & X2 & _). rewrite Z.add_0_r in X1, X2.
  destruct (M1 c pn Huc Hpn) as [A V]; [by intros [<- _]|].
  assert (Hu1 : ∀ j, used (kern u) j → used s1 j) by (intros j; by apply (ucall_used _ _ _ _ Hc1)).
  pose proof (resolves_used _ _ _ _ Hau (proj2 Hid)) as Hue.
  apply wp_bind. eapply wp_mono; [eapply (usys_page_map_spec Hfl Hcs c (set_kern s1 u) 0 (pn * 4096) 0 (pn * 4096) cow_perm c c p f Hau1 Hroom
    (self_zero _ Hau1) (self_zero _ Hau1)); [|lia|lia|cbn [kern set_kern]; by rewrite X2, A|done]| |done].
  { unfold page_map_args_bad. by rewrite bad_va_page. }
  cbn [kern set_kern]. rewrite X2. intros r u2 (s2 & -> & Hc2 & Hg2 & Heff). apply wp_ret. exists s2. split; [done|].
  split; [by eapply ucall_trans|]. split; [done|]. destruct Heff as [[-> Hm]|[-> (N1 & N2 & N3)]]; [left|right]; (split; [done|]).
  - intros j y Hj Hy Hje o Ho. rewrite (views_view s1) by (done || by apply Hm; [apply Hu1|]). apply views_view; [|done].
    apply M1; [done|done|]. by intros [? _].
  - destruct (N1 e pn (Hu1 _ Hue) Hpn) as [A' V']; [by intros [? _]|]. split.
    + by rewrite A', M2, Hcp.
    + by rewrite N2, Hpp.
    + intros o Ho. by rewrite V', M3, N3, V.
    + intros j y Hj Hy Hne. eapply views_trans; [apply M1|apply N1]; try done; [naive_solver|by apply Hu1|naive_solver].
Qed.

(** The part of duppage for pages that are not shared. *)
Lemma dup_rest (b : bool) : room 1 (kern u) → has PTE_SHARE f = false → b = has PTE_W f || has PTE_COW f →
  wp (if b then r ← usys_page_map frame cr2 eflags 0 (pn * 4096) eid (pn * 4096) cow_perm;
        if r <? 0 then mret r else r ← usys_page_map frame cr2 eflags 0 (pn * 4096) 0 (pn * 4096) cow_perm; mret (if r <? 0 then r else 0)
      else r ← usys_page_map frame cr2 eflags 0 (pn * 4096) eid (pn * 4096) (Z.lor PTE_P PTE_U); mret (if r <? 0 then r else 0))
    (λ r u', ∃ s', u' = set_kern s' u ∧ ucall c (kern u) s' ∧ refs_grow 2 (kern u) s' ∧ dup_effect c e pn p f (kern u) r s') no_stop u.
Proof.
  intros Hroom Hsh Hb. pose proof (room_refs 1 _ ltac:(lia) Hroom) as Hroom0. destruct b; apply wp_bind.
  - assert (Hcp : child_perm f = cow_perm) by (unfold child_perm; by rewrite Hsh, <- Hb).
    assert (Hpp : parent_perm f = cow_perm) by (unfold parent_perm; by rewrite Hsh, <- Hb).
    eapply wp_mono; [by apply dup_child| |done]. intros r u1 (s1 & -> & Hc1 & Hg1 & [[-> Hm]|[-> Hm]]).
    + apply wp_ret. exists s1. split; [done|]. split; [done|]. split; [by apply (refs_grow_le 1); [lia|]|].
      left. split; [done|]. intros j y Hj Hy _. by apply Hm.
    + change (0 <? 0) with false. cbv iota.
      assert (Hr1 : refs_room s1) by (eapply (room_refs 0); [lia|]; by apply (room_step 0 1 (kern u))).
      eapply wp_mono; [by apply (dup_both s1)| |done]. intros r u2 (s2 & -> & Hc2 & Hg2 & Heff). exists s2. split; [done|].
      split; [done|]. split; [by apply (refs_grow_trans 1 1 (kern u) s1)|done].
  - eapply wp_mono; [by apply dup_child| |done]. intros r u1 (s1 & -> & Hc1 & Hg1 & Heff). apply wp_ret.
    exists s1. split; [done|]. split; [done|]. split; [by apply (refs_grow_le 1); [lia|]|].
    eapply child_only; [..|exact Heff]; unfold parent_perm, child_perm; by rewrite Hsh, <- Hb.
Qed.

Lemma duppage_spec : room 1 (kern u) → Z.land f 5 = 5 →
  wp (duppage frame cr2 eflags eid pn) (λ r u', ∃ s', u' = set_kern s' u ∧ ucall c (kern u) s' ∧ refs_grow 2 (kern u) s' ∧
    dup_effect c e pn p f (kern u) r s') no_stop u.
Proof.
  intros Hroom H5. destruct (uvpt_mapped Hau pn p f Hpn Ha) as (w & Hw & Hwf). pose proof (room_refs 1 _ ltac:(lia) Hroom) as Hroom0.
  assert (Hbit : ∀ b, 0 ≤ b < 4096 → ctrue (Z.land w b) = has b f) by (intros b Hb; by rewrite has_ctrue, <- has_low, Hwf).
  unfold duppage. rewrite (u32_small (pn * PGSIZE)) by (unfold user_vpn in Hpn; mlia). change PGSIZE with 4096. fold cow_perm.
  apply wp_bind. eapply wp_ok; [exact Hw|]. rewrite Hbit by (unfold PTE_SHARE; lia).
  destruct (has PTE_SHARE f) eqn:Hsh.
  - apply wp_bind. eapply wp_ok; [exact Hw|]. destruct (share_perm f H5) as [Hbp Hgw].
    assert (Hperm : Z.land w PTE_SYSCALL = Z.land f PTE_SYSCALL) by by rewrite <- Hwf, <- Z.land_assoc. rewrite Hperm.
    apply wp_bind. eapply wp_mono; [by apply dup_child| |done]. intros r u1 (s1 & -> & Hc1 & Hg1 & Heff). apply wp_ret.
    exists s1. split; [done|]. split; [done|]. split; [by apply (refs_grow_le 1); [lia|]|].
    eapply child_only; [..|exact Heff]; unfold parent_perm, child_perm; by rewrite Hsh.
  - apply wp_bind. eapply wp_ok; [exact Hw|]. apply wp_bind. rewrite Hbit by (unfold PTE_W; lia). pose proof dup_rest as Hrest.
    destruct (has PTE_W f); [apply wp_ret; by apply (Hrest true)|]. apply wp_bind. eapply wp_ok; [exact Hw|]. apply wp_ret.
    rewrite Hbit by (unfold PTE_COW; lia). by apply (Hrest (has PTE_COW f)).
Qed.
End Duppage.
