(* ===== verification/ForkSpec.v ===== *)
(** * fork copies the address space

    The loop of fork over the pages of the parent, and fork as a whole
    (lib/fork.c): the child sees the memory of the parent, nobody's memory
    changes, and no page that is not shared on purpose stays writable on
    either side. *)

From S2P Require Import Prelude Console Mmu KState KWp Pmap PmapInv PmapSpec PmapDir PmapOps VMem Env EnvFree KInv.
From S2P Require Import SchedProofs EnvProofs UserMem Syscall SyscallProofs SyscallSafe Trap TrapProofs ULib ULibProofs ForkProofs.

(** The pages fork copies, and the page of the exception stack. *)
Definition image (x : Z) : Prop := PGNUM UTEXT ≤ x < PGNUM USTACKTOP.
Definition xstack : Z := PGNUM (UXSTACKTOP - PGSIZE).

Lemma image_vpn x : image x → user_vpn x ∧ x ≠ xstack.
Proof. unfold image, user_vpn. change (PGNUM UTEXT) with 2048. change (PGNUM USTACKTOP) with 977918. change xstack with 977919. lia. Qed.
Lemma xstack_vpn : user_vpn xstack.
Proof. unfold user_vpn. change xstack with 977919. lia. Qed.

Definition child_entry (o : option (Z * Z)) : option (Z * Z) := (λ pf, (pf.1, child_perm pf.2)) <$> o.
Definition parent_entry (o : option (Z * Z)) : option (Z * Z) := (λ pf, (pf.1, parent_perm pf.2)) <$> o.

(** At most [n] numbers satisfy [P]. *)
Definition at_most (n : Z) (P : Z → Prop) : Prop :=
  ∀ l, NoDup l → (∀ x, x ∈ l → P x) → Z.of_nat (length l) ≤ n.

(** What fork needs of the parent: every page is accessible to the user, and
    the reference counts have room for another mapping of each. *)
Record forkable (c n : Z) (s : KState) : Prop := {
  fo_at : at_user c s;
  fo_user : ∀ x p f, image x → aspace s c x = Some (p, f) → Z.land f 5 = 5;
  fo_count : at_most n (λ x, image x ∧ is_Some (aspace s c x))
}.

(** ** The loop *)

(** The pages below [pn] have been copied; [s2] is the state before the loop. *)
Record copying (c e pn : Z) (s2 s : KState) : Prop := {
  cp_at : ucall c s2 s;
  cp_child : ∀ x, user_vpn x → aspace s e x = if decide (PGNUM UTEXT ≤ x < pn) then child_entry (aspace s2 c x) else None;
  cp_parent : ∀ x, user_vpn x → aspace s c x = if decide (PGNUM UTEXT ≤ x < pn) then parent_entry (aspace s2 c x) else aspace s2 c x;
  cp_copy : ∀ x o, PGNUM UTEXT ≤ x < pn → 0 ≤ o < 1024 → view s e x o = view s2 c x o;
  cp_view : ∀ x o, user_vpn x → 0 ≤ o < 1024 → view s c x o = view s2 c x o;
  cp_other : ∀ j x, used s2 j → j ≠ c → j ≠ e → user_vpn x → views_same s2 s j x
}.

(** Room for the pages that are left; [l] are the mapped pages copied so far. *)
Definition room_left (c n pn : Z) (s2 s : KState) : Prop :=
  ∃ l, NoDup l ∧ (∀ x, x ∈ l → PGNUM UTEXT ≤ x < pn ∧ is_Some (aspace s2 c x)) ∧ room (2 * (n - Z.of_nat (length l))) s.

(** Nobody but [e] sees a change. *)
Definition views_kept_but (e : Z) (s s' : KState) : Prop :=
  ∀ j x o, used s j → j ≠ e → user_vpn x → 0 ≤ o < 1024 → view s' j x o = view s j x o.

Section Loop.
Context {frame : Trapframe} {cr2 eflags : Z}.
Context (Hfl : Z.land eflags FL_IF = 0) (Hcs : Z.land (tf_cs frame) 3 = 3).
Context {c n e eid : Z} {s2 : KState} (Hf : forkable c n s2) (Hec : e ≠ c) (Hid : resolved_in s2 eid e).

Lemma copying_views pn s : copying c e pn s2 s → views_kept_but e s2 s.
Proof.
  intros Hcp j x o Hj Hje Hx Ho. destruct (decide (j = c)) as [->|Hjc]; [by apply (cp_view _ _ _ _ _ Hcp)|].
  apply views_view; [by apply (cp_other _ _ _ _ _ Hcp)|done].
Qed.

(** A page that is not mapped. *)
Lemma copying_skip pn s : image pn → aspace s c pn = None → copying c e pn s2 s → copying c e (pn + 1) s2 s.
Proof.
  intros Hpn Hn [A B C D E F]. destruct (image_vpn pn Hpn) as [Hv _].
  assert (Hn2 : aspace s2 c pn = None) by (rewrite C, decide_False in Hn by (done || lia); done).
  split; [done| | | |done|done].
  - intros x Hx. rewrite B by done. destruct (decide (x = pn)) as [->|]; [|repeat case_decide; lia || done].
    rewrite decide_False, decide_True by (unfold image in *; lia). by rewrite Hn2.
  - intros x Hx. rewrite C by done. destruct (decide (x = pn)) as [->|]; [|repeat case_decide; lia || done].
    rewrite decide_False, decide_True by (unfold image in *; lia). by rewrite Hn2.
  - intros x o Hx Ho. destruct (decide (x = pn)) as [->|]; [|apply D; [lia|done]].
    unfold view. rewrite Hn2, B, decide_False by (done || lia). done.
Qed.

(** A page duppage has copied. *)
Lemma copying_step pn p f s s' : image pn → aspace s c pn = Some (p, f) → ucall c s s' →
  copying c e pn s2 s → dupped c e pn p f s s' → copying c e (pn + 1) s2 s'.
Proof.
  intros Hpn Ha Hc [A B C D E F] [U1 U2 U3 U4]. destruct (image_vpn pn Hpn) as [Hv _].
  assert (Ha2 : aspace s2 c pn = Some (p, f)) by (rewrite C, decide_False in Ha by (done || lia); done).
  pose proof (fo_at _ _ _ Hf) as Hau2. pose proof (at_user_used _ _ Hau2) as Huc2.
  assert (Hus : ∀ j, used s2 j → used s j) by (intros j; by apply (ucall_used _ _ _ _ A)).
  pose proof (resolves_used _ _ _ _ Hau2 (proj2 Hid)) as Hue.
  assert (Hsame : ∀ j x, used s2 j → user_vpn x → x ≠ pn → views_same s s' j x).
  { intros j x Hj Hx Hne. apply U4; [by apply Hus|done|]. naive_solver. }
  split; [by eapply ucall_trans| | | | |].
  - intros x Hx. destruct (decide (x = pn)) as [->|Hne].
    + rewrite U1, decide_True by (unfold image in *; lia). by rewrite Ha2.
    + destruct (Hsame e x Hue Hx Hne) as [-> _]. rewrite B by done. repeat case_decide; lia || done.
  - intros x Hx. destruct (decide (x = pn)) as [->|Hne].
    + rewrite U2, decide_True by (unfold image in *; lia). by rewrite Ha2.
    + destruct (Hsame c x Huc2 Hx Hne) as [-> _]. rewrite C by done. repeat case_decide; lia || done.
  - intros x o Hx Ho. destruct (decide (x = pn)) as [->|Hne].
    + destruct (U3 o Ho) as [-> _]. by apply E.
    + assert (Hxv : user_vpn x) by (apply image_vpn; unfold image in *; lia).
      rewrite (views_view s) by (done || by apply Hsame). apply D; [lia|done].
  - intros x o Hx Ho. destruct (decide (x = pn)) as [->|Hne].
    + destruct (U3 o Ho) as [_ ->]. by apply E.
    + rewrite (views_view s) by (done || by apply Hsame). by apply E.
  - intros j x Hj Hjc Hje Hx. eapply views_trans; [by apply F|]. apply U4; [by apply Hus|done|]. naive_solver.
Qed.

(** A round of the loop. *)
Definition loop_inv (u0 : UState) (pn : Z) (u : UState) : Prop :=
  ∃ s, u = set_kern s u0 ∧ copying c e pn s2 s ∧ room_left c n pn s2 s.
Definition loop_failed (u0 : UState) (r : Z) (u : UState) : Prop :=
  r = - E_NO_MEM ∧ ∃ s, u = set_kern s u0 ∧ ucall c s2 s ∧ views_kept_but e s2 s.

Lemma room_take pn p f s : image pn → aspace s2 c pn = Some (p, f) → room_left c n pn s2 s →
  room 1 s ∧ ∀ s', refs_grow 2 s s' → room_left c n (pn + 1) s2 s'.
Proof.
  intros Hpn Ha (l & Hnd & Hl & Hroom).
  assert (Hnd' : NoDup (pn :: l)). { apply NoDup_cons. split; [|done]. intros Hin. destruct (Hl pn Hin). lia. }
  assert (Hle : Z.of_nat (length (pn :: l)) ≤ n).
  { apply (fo_count _ _ _ Hf); [done|]. intros x [->|Hin]%elem_of_cons; [by split; [|eexists]|].
    destruct (Hl x Hin). split; [unfold image in *; lia|done]. }
  cbn [length] in Hle. split.
  - intros q k Hk. pose proof (Hroom q k Hk). lia.
  - intros s' Hg. exists (pn :: l). split; [done|]. split.
    + intros x [->|Hin]%elem_of_cons; [split; [unfold image in *; lia|by eexists]|]. destruct (Hl x Hin). split; [lia|done].
    + cbn [length]. eapply (room_step _ 2); [|done]. eapply (eq_ind _ (λ k, room k s) Hroom). lia.
Qed.

Lemma fork_page_spec u0 pn u : image pn → loop_inv u0 pn u →
  wp (fork_page frame cr2 eflags eid pn) (λ r u', match r with
    | Some b => loop_failed u0 b u'
    | None => loop_inv u0 (pn + 1) u'
    end) no_stop u.
Proof.
  intros Hpn (s & -> & Hcp & Hroom). destruct (image_vpn pn Hpn) as [Hv _]. pose proof (cp_at _ _ _ _ _ Hcp) as Hc.
  assert (Hauk : at_user c (kern (set_kern s u0))) by apply Hc.
  destruct (uvpt_spec Hauk pn Hv) as (d & Hd & Hd0 & Hd1). cbn [kern set_kern] in Hd0, Hd1.
  assert (Hskip : aspace s c pn = None → loop_inv u0 (pn + 1) (set_kern s u0)).
  { intros Hn. exists s. split; [done|]. split; [by apply copying_skip|]. destruct Hroom as (l & ? & Hl & ?). exists l.
    split; [done|]. split; [|done]. intros x Hx. destruct (Hl x Hx). split; [lia|done]. }
  unfold fork_page. apply wp_bind. eapply wp_ok; [exact Hd|]. apply wp_bind. fold (present d).
  destruct (present d) eqn:Ed; [|apply wp_ret, wp_ret; auto].
  destruct (Hd1 eq_refl) as (w & Hw & Ha). apply wp_bind. eapply wp_ok; [exact Hw|]. apply wp_ret. fold (present w).
  destruct (present w); [|apply wp_ret; auto].
  assert (Ha2 : aspace s2 c pn = aspace s c pn) by (rewrite (cp_parent _ _ _ _ _ Hcp), decide_False by (done || lia); done).
  assert (H5 : Z.land (Z.land w 0xFFF) 5 = 5) by (eapply (fo_user _ _ _ Hf pn); [done|]; by rewrite Ha2).
  destruct (room_take pn _ _ s Hpn (eq_trans Ha2 Ha) Hroom) as [Hr1 Hr2].
  apply wp_bind. eapply wp_mono; [eapply (duppage_spec Hfl Hcs (e := e) Hauk Hv Hec); [|done|done|done]| |done].
  { by apply (ucall_resolved c s2); [apply Hf|..]. }
  cbn [kern set_kern]. intros r u1 (s1 & -> & Hc1 & Hg1 & [[-> Hm]|[-> Hdup]]); apply wp_ret.
  - split; [done|]. exists s1. split; [done|]. split; [by eapply ucall_trans|]. intros j x o Hj Hje Hx Ho.
    rewrite Hm; [by apply (copying_views _ _ Hcp)|by apply (ucall_used _ _ _ _ Hc)|done..].
  - exists s1. split; [done|]. split; [by eapply copying_step|by apply Hr2].
Qed.

Lemma fork_loop_spec u0 : kern u0 = s2 → (∀ x, user_vpn x → aspace s2 e x = None) → room (2 * n) s2 →
  wp (forE (range (PGNUM UTEXT) (PGNUM USTACKTOP)) (fork_page frame cr2 eflags eid)) (λ r u', match r with
    | Some b => loop_failed u0 b u'
    | None => ∃ s, u' = set_kern s u0 ∧ copying c e (PGNUM USTACKTOP) s2 s
    end) no_stop u0.
Proof.
  intros Hu He Hroom. apply wp_forE_range with (I := loop_inv u0).
  - done.
  - exists s2. split; [destruct u0; cbn in *; by subst|]. split.
    + split; [split; [apply Hf|]| | | |done|].
      * split; [done|]. destruct (au_run _ _ (fo_at _ _ _ Hf)) as (v & Hv & _). exists v, v. split; [done|]. split; [done|apply same_env_refl].
      * intros x Hx. rewrite decide_False by lia. by apply He.
      * intros x Hx. by rewrite decide_False by lia.
      * lia.
      * intros. apply views_refl.
    + exists []. split; [by apply NoDup_nil|]. split; [by intros x ?%elem_of_nil|]. by rewrite Z.sub_0_r.
  - intros pn u Hpn Hinv. by apply fork_page_spec.
  - intros u (s & -> & Hcp & _). by exists s.
Qed.
End Loop.

(** ** The end of fork *)

(** The memory after a successful fork of [c] into [e]. *)
Record fork_copied (c e : Z) (s s' : KState) : Prop := {
  fk_child : ∀ x, image x → aspace s' e x = child_entry (aspace s c x);
  fk_copy : ∀ x o, image x → 0 ≤ o < 1024 → view s' e x o = view s c x o;
  fk_xstack : ∃ p, aspace s' e xstack = Some (p, 7) ∧ (∀ o, 0 ≤ o < 1024 → view s' e xstack o = Some 0) ∧
    ∀ j x f, used s j ∨ j = e → user_vpn x → ¬ (j = e ∧ x = xstack) → aspace s' j x ≠ Some (p, f);
  fk_rest : ∀ x, user_vpn x → ¬ image x → x ≠ xstack → aspace s' e x = None;
  fk_parent : ∀ x, image x → aspace s' c x = parent_entry (aspace s c x);
  fk_keep : ∀ x, user_vpn x → ¬ image x → x ≠ xstack → aspace s' c x = aspace s c x;
  fk_other : ∀ j x, used s j → j ≠ c → user_vpn x → aspace s' j x = aspace s j x;
  fk_views : ∀ j x o, used s j → user_vpn x → ¬ (j = c ∧ x = xstack) → 0 ≤ o < 1024 → view s' j x o = view s j x o
}.

(** [e] is ready to run at the point where the parent called sys_exofork. *)
Record child_ready (frame : Trapframe) (upcall c e id : Z) (s s' : KState) : Prop := {
  cd_free : ∃ v, envs s !! e = Some v ∧ env_status v = ENV_FREE;
  cd_entry : ∃ child v, envs s' !! e = Some child ∧ envs s !! c = Some v ∧ env_id child = id ∧ 0 < id ∧
    env_parent_id child = env_id v ∧ env_status child = ENV_RUNNABLE ∧ env_pgfault_upcall child = upcall ∧
    env_tf child = child_tf (frame := frame)
}.

Lemma mem_same_trans c s1 s2 s3 : ucall c s1 s2 → mem_same s1 s2 → mem_same s2 s3 → mem_same s1 s3.
Proof.
  intros Hc H1 H2 j x Hj Hx. eapply views_trans; [by apply H1|]. apply H2; [|done]. by apply (ucall_used _ _ _ _ Hc).
Qed.

(** The loop and the exception stack together, seen from before the loop. *)
Lemma copied_alloc c e s2 s3 s4 p :
  at_user c s2 → used s2 e → e ≠ c → copying c e (PGNUM USTACKTOP) s2 s3 → unmapped s3 p →
  mem_set s3 s4 e xstack (Some (p, 7)) (λ _, Some 0) →
  (∀ x, image x → aspace s4 e x = child_entry (aspace s2 c x)) ∧
  (∀ x o, image x → 0 ≤ o < 1024 → view s4 e x o = view s2 c x o) ∧
  (∀ x, user_vpn x → ¬ image x → x ≠ xstack → aspace s4 e x = None) ∧
  (∀ x, image x → aspace s4 c x = parent_entry (aspace s2 c x)) ∧
  (∀ x, user_vpn x → ¬ image x → aspace s4 c x = aspace s2 c x) ∧
  (∀ j x, used s2 j → j ≠ c → j ≠ e → user_vpn x → views_same s2 s4 j x) ∧
  (∀ x o, user_vpn x → 0 ≤ o < 1024 → view s4 c x o = view s2 c x o) ∧
  (∀ j x f, used s2 j → user_vpn x → ¬ (j = e ∧ x = xstack) → aspace s4 j x ≠ Some (p, f)).
Proof.
  intros Hau2 Hue Hec [A B C D E F] Hun (M1 & M2 & M3). pose proof (at_user_used _ _ Hau2) as Huc.
  assert (Hu3 : ∀ j, used s2 j → used s3 j) by (intros j; by apply (ucall_used _ _ _ _ A)).
  assert (Hch : ∀ x, user_vpn x → x ≠ xstack → views_same s3 s4 e x).
  { intros x Hx Hne. apply M1; [by apply Hu3|done|]. by intros [_ ?]. }
  assert (Hpar : ∀ x, user_vpn x → views_same s3 s4 c x).
  { intros x Hx. apply M1; [by apply Hu3|done|]. by intros [<- _]. }
  split_and!.
  - intros x Hx. destruct (image_vpn x Hx) as [Hv Hne]. destruct (Hch x Hv Hne) as [-> _]. by rewrite B, decide_True.
  - intros x o Hx Ho. destruct (image_vpn x Hx) as [Hv Hne]. rewrite (views_view s3) by (done || by apply Hch). by apply D.
  - intros x Hx Hni Hne. destruct (Hch x Hx Hne) as [-> _]. by rewrite B, decide_False.
  - intros x Hx. destruct (image_vpn x Hx) as [Hv Hne]. destruct (Hpar x Hv) as [-> _]. by rewrite C, decide_True.
  - intros x Hx Hni. destruct (Hpar x Hx) as [-> _]. by rewrite C, decide_False.
  - intros j x Hj Hjc Hje Hx. eapply views_trans; [by apply F|]. apply M1; [by apply Hu3|done|]. by intros [? _].
  - intros x o Hx Ho. rewrite (views_view s3) by (done || by apply Hpar). by apply E.
  - intros j x f Hj Hx Hne. destruct (M1 j x (Hu3 j Hj) Hx Hne) as [-> _]. by apply Hun; [apply Hu3|].
Qed.

Lemma envs_same_ne c es es' j : envs_same c es es' → j ≠ c → es' !! j = es !! j.
Proof. intros [H _]. apply H. Qed.

Lemma child_used c e id child s s' (frame : Trapframe) : child_of (frame := frame) c e id child s s' → used s' e.
Proof. intros H. exists child. split; [apply H|]. unfold in_use. by rewrite (ch_status _ _ _ _ _ _ H). Qed.

Lemma child_ne frame c e id child s s' : at_user c s → child_of (frame := frame) c e id child s s' → e ≠ c.
Proof. intros Hau H ->. destruct (ch_free _ _ _ _ _ _ H) as (v & Hv & Hst). destruct (au_run _ _ Hau) as (w & Hw & ?). congruence. Qed.

(** The parent may name its child. *)
Lemma child_resolved frame c e id child s s' :
  at_user c s → at_user c s' → child_of (frame := frame) c e id child s s' → resolved_in s' id e.
Proof.
  intros Hau Hau' H. pose proof (child_ne _ _ _ _ _ _ _ Hau H) as Hec. destruct (ch_id _ _ _ _ _ _ H) as [Hid Hr].
  split; [unfold int_ok; lia|]. unfold resolves. rewrite decide_False by lia. split.
  - destruct (child_used _ _ _ _ _ _ _ H) as (ch & He & Hu). exists ch. split; [done|]. split; [done|].
    pose proof (ch_entry _ _ _ _ _ _ H). congruence.
  - intros _. right. destruct (ch_parent _ _ _ _ _ _ H) as (v & Hv & Hp).
    destruct (envs_same_lookup _ _ _ c v (ch_other _ _ _ _ _ _ H)) as (v' & Hv' & Hs); [by rewrite lookup_insert_ne|].
    exists child, c, v'. split; [apply H|]. split; [by apply at_user_cur|]. split; [done|]. by rewrite (se_id _ _ Hs).
Qed.

(** fork goes on with the parent's memory as it was. *)
Lemma forkable_same c n s s' : forkable c n s → at_user c s' → mem_same s s' → forkable c n s'.
Proof.
  intros [Hau Hu Hn] Hau' Hm. pose proof (at_user_used _ _ Hau) as Huc.
  assert (Ha : ∀ x, image x → aspace s' c x = aspace s c x) by (intros x Hx; by apply Hm, image_vpn).
  split; [done| |].
  - intros x p f Hx. rewrite Ha by done. by apply Hu.
  - intros l Hnd Hl. apply Hn; [done|]. intros x Hx. destruct (Hl x Hx) as [Hi Hs]. split; [done|]. by rewrite <- Ha.
Qed.

Definition fork_result (frame : Trapframe) (upcall c : Z) (s : KState) (r : Z) (s' : KState) : Prop :=
  (r = - E_NO_MEM ∧ ∀ j x o, used s j → user_vpn x → ¬ (j = c ∧ x = xstack) → 0 ≤ o < 1024 → view s' j x o = view s j x o) ∨
  ∃ e, child_ready frame upcall c e r s s' ∧ fork_copied c e s s'.

Section Finish.
Context {frame : Trapframe} {cr2 eflags upcall : Z}.
Context (Hfl : Z.land eflags FL_IF = 0) (Hcs : Z.land (tf_cs frame) 3 = 3) (Hup : 0 ≤ upcall < 4294967296).
Context {c e eid : Z} {child : Env} {s1 s2 s3 : KState} {u : UState}.
Context (Hau1 : at_user c s1) (Hau2 : at_user c s2) (Hch : child_of (frame := frame) c e eid child s1 s2) (Hm2 : mem_same s1 s2).
Context (Hcp : copying c e (PGNUM USTACKTOP) s2 s3).

Lemma used_child j : used s1 j → used s2 j ∧ j ≠ e.
Proof.
  intros (v & Hv & Hu). split.
  - assert (Hje : j ≠ e) by (intros ->; destruct (ch_free _ _ _ _ _ _ Hch) as (? & ? & ?); unfold in_use in Hu; congruence).
    destruct (envs_same_lookup _ _ _ j v (ch_other _ _ _ _ _ _ Hch)) as (v' & Hv' & Hs); [by rewrite lookup_insert_ne|].
    exists v'. split; [done|by eapply same_env_in_use].
  - intros ->. destruct (ch_free _ _ _ _ _ _ Hch) as (? & ? & ?). unfold in_use in Hu. congruence.
Qed.

Lemma finish_memory s4 s' p : unmapped s3 p → mem_set s3 s4 e xstack (Some (p, 7)) (λ _, Some 0) → ucall c s3 s4 → mem_same s4 s' →
  fork_copied c e s1 s'.
Proof.
  intros Hun Hset Hc4 Hm'. pose proof (child_used _ _ _ _ _ _ _ Hch) as Hue. pose proof (child_ne _ _ _ _ _ _ _ Hau1 Hch) as Hec.
  destruct (copied_alloc c e s2 s3 s4 p Hau2 Hue Hec Hcp Hun Hset) as (F1 & F2 & F3 & F4 & F5 & F6 & F7 & F8).
  destruct Hset as (_ & X1 & X2). pose proof (at_user_used _ _ Hau1) as Huc1.
  assert (Hu4 : ∀ j, used s2 j → used s4 j).
  { intros j Hj. apply (ucall_used _ _ _ _ Hc4), (ucall_used _ _ _ _ (cp_at _ _ _ _ _ Hcp)), Hj. }
  assert (Ha2 : ∀ x, user_vpn x → aspace s2 c x = aspace s1 c x) by (intros x Hx; by apply Hm2).
  assert (Hv2 : ∀ x o, user_vpn x → 0 ≤ o < 1024 → view s2 c x o = view s1 c x o) by (intros x o Hx; by apply Hm2).
  assert (He' : ∀ x, user_vpn x → views_same s4 s' e x) by (intros x Hx; apply Hm'; [by apply Hu4|done]).
  assert (Hc' : ∀ x, user_vpn x → views_same s4 s' c x) by (intros x Hx; apply Hm'; [by apply Hu4, at_user_used|done]).
  assert (Hj' : ∀ j x, used s1 j → j ≠ c → user_vpn x → views_same s1 s' j x).
  { intros j x Hj Hjc Hx. destruct (used_child j Hj) as [Hj2 Hje]. eapply views_trans; [by apply Hm2|].
    eapply views_trans; [by apply F6|]. apply Hm'; [by apply Hu4|done]. }
  split.
  - intros x Hx. destruct (image_vpn x Hx) as [Hv _]. destruct (He' x Hv) as [-> _]. by rewrite F1, Ha2.
  - intros x o Hx Ho. destruct (image_vpn x Hx) as [Hv _]. rewrite (views_view s4) by auto. by rewrite F2, Hv2.
  - exists p. split; [|split].
    + destruct (He' xstack xstack_vpn) as [-> _]. done.
    + intros o Ho. rewrite (views_view s4) by (done || apply He', xstack_vpn). by apply X2.
    + intros j x f Hj Hx Hne. assert (Hj2 : used s2 j) by (destruct Hj as [Hj| ->]; [by apply used_child|done]).
      destruct (Hm' j x (Hu4 j Hj2) Hx) as [-> _]. by apply F8.
  - intros x Hx Hni Hne. destruct (He' x Hx) as [-> _]. by apply F3.
  - intros x Hx. destruct (image_vpn x Hx) as [Hv _]. destruct (Hc' x Hv) as [-> _]. by rewrite F4, Ha2.
  - intros x Hx Hni Hne. destruct (Hc' x Hx) as [-> _]. by rewrite F5, Ha2.
  - intros j x Hj Hjc Hx. by apply Hj'.
  - intros j x o Hj Hx _ Ho. destruct (decide (j = c)) as [->|Hjc]; [|by apply views_view, Ho; apply Hj'].
    rewrite (views_view s4) by auto. by rewrite F7, Hv2.
Qed.

Lemma kept_but_result s' : views_kept_but e s2 s' → fork_result frame upcall c s1 (- E_NO_MEM) s'.
Proof.
  intros Hk. left. split; [done|]. intros j x o Hj Hx _ Ho. destruct (used_child j Hj) as [Hj2 Hje].
  rewrite Hk by done. by apply views_view, Ho; apply Hm2.
Qed.

(** What follows the loop. *)
Lemma fork_finish_spec :
  wp (r ← usys_page_alloc frame cr2 eflags eid (UXSTACKTOP - PGSIZE) 7;
      if r <? 0 then mret r
      else r ← usys_env_set_pgfault_upcall frame cr2 eflags eid upcall;
           if r <? 0 then mret r
           else r ← usys_env_set_status frame cr2 eflags eid 2;
                if r <? 0 then upanic "sys_env_set_status failed: %e" else mret eid)
    (λ r u', ∃ s', u' = set_kern s' u ∧ at_user c s' ∧ fork_result frame upcall c s1 r s') no_stop (set_kern s3 u).
Proof.
  pose proof (child_ne _ _ _ _ _ _ _ Hau1 Hch) as Hec. pose proof (cp_at _ _ _ _ _ Hcp) as Hc3.
  pose proof (child_resolved _ _ _ _ _ _ _ Hau1 Hau2 Hch) as Hid2. pose proof (ucall_resolved _ _ _ _ _ Hau2 Hc3 Hid2) as Hid3.
  apply wp_bind. eapply wp_mono; [by apply (usys_page_alloc_spec Hfl Hcs c (set_kern s3 u) eid (UXSTACKTOP - PGSIZE) 7 e (uc_at _ _ _ Hc3))| |done].
  cbn [kern set_kern]. fold xstack. intros r u4 (s4 & -> & Hc4 & _ & [[-> Hm4]|[-> (p & Hun & Hset)]]).
  { apply wp_ret. exists s4. split; [done|]. split; [apply Hc4|]. apply kept_but_result. intros j x o Hj Hje Hx Ho.
    pose proof (Hm4 j x (proj2 (ucall_used _ _ _ j Hc3) Hj) Hx) as Hv4. rewrite (views_view s3) by done.
    by apply (copying_views _ _ Hcp). }
  change (0 <? 0) with false. cbv iota. pose proof (ucall_resolved _ _ _ _ _ (uc_at _ _ _ Hc3) Hc4 Hid3) as Hid4.
  apply wp_bind. eapply wp_mono; [by apply (usys_set_upcall_spec Hfl Hcs c (set_kern s4 (set_kern s3 u)) eid upcall e (uc_at _ _ _ Hc4))| |done].
  cbn [kern set_kern]. intros r u5 (s5 & -> & -> & Hed5). destruct (Hed5) as (Hau5 & Hes5 & _ & Hm5). change (0 <? 0) with false. cbv iota.
  assert (He4 : envs s4 !! e = Some child).
  { rewrite (envs_same_ne _ _ _ _ (uc_envs _ _ _ Hc4)), (envs_same_ne _ _ _ _ (uc_envs _ _ _ Hc3)) by done. apply Hch. }
  assert (He5 : envs s5 !! e = Some (set_env_pgfault_upcall upcall child)).
  { rewrite (envs_same_ne _ _ _ _ Hes5), lookup_alter_eq, He4 by done. done. }
  assert (Hid5 : resolved_in s5 eid e).
  { eapply (edited_resolved c e _ s4 s5); [apply Hc4|exact Hed5|by intros|done]. }
  apply wp_bind. eapply wp_mono; [by apply (usys_set_runnable_spec Hfl Hcs c (set_kern s5 (set_kern s4 (set_kern s3 u))) eid e Hau5)| |done].
  cbn [kern set_kern]. intros r u6 (s6 & -> & -> & Hau6 & Hes6 & _ & Hm6). apply wp_ret. exists s6. split; [done|]. split; [done|].
  right. exists e. split.
  - split; [apply Hch|]. destruct (ch_parent _ _ _ _ _ _ Hch) as (v & Hv & Hpar). destruct (ch_id _ _ _ _ _ _ Hch) as [Hi Hr].
    eexists _, v. rewrite (envs_same_ne _ _ _ _ Hes6), lookup_alter_eq, He5 by done. split_and!; try done; [lia|apply Hch].
  - apply (finish_memory s4 s6 p); [done|done|done|]. intros j x Hj Hx. eapply views_trans; [by apply Hm5|].
    apply Hm6; [|done]. by eapply edited_used.
Qed.
End Finish.

(** ** set_pgfault_handler *)

(** Installing the handler changes at most the caller's exception stack. *)
Record installed (c : Z) (s s1 : KState) : Prop := {
  in_at : at_user c s1;
  in_other : ∀ j, j ≠ c → envs s1 !! j = envs s !! j;
  in_self : ∃ v v1, envs s !! c = Some v ∧ envs s1 !! c = Some v1 ∧ env_id v1 = env_id v;
  in_refs : refs_grow 1 s s1;
  in_views : ∀ j x, used s j → user_vpn x → ¬ (j = c ∧ x = xstack) → views_same s s1 j x
}.

Definition set_handler (h : Z) (s : KState) (u : UState) : UState :=
  {| kern := s; _pgfault_handler := h; thisenv := thisenv u |}.

Section Fork.
Context {frame : Trapframe} {cr2 eflags upcall handler : Z}.
Context (Hfl : Z.land eflags FL_IF = 0) (Hcs : Z.land (tf_cs frame) 3 = 3) (Hup : 0 ≤ upcall < 4294967296).

Lemma installed_same c s v : at_user c s → envs s !! c = Some v → installed c s s.
Proof.
  intros Hau Hv. split; [done|done|by exists v, v|apply (refs_grow_le 0); [lia|by apply refs_grow_same]|].
  intros. apply views_refl.
Qed.

Lemma set_pgfault_handler_spec c u : at_user c (kern u) → thisenv u = c →
  wp (set_pgfault_handler frame cr2 eflags upcall handler)
    (λ _ u', ∃ s1, u' = set_handler handler s1 u ∧ installed c (kern u) s1)
    (λ r u', r = UPanic "set_pgfault_handler: %e" ∧ ∃ s', u' = set_kern s' u ∧ mem_same (kern u) s') u.
Proof.
  intros Hau Ht. destruct (au_run _ _ Hau) as (v & Hv & _). unfold set_pgfault_handler. apply wp_bind, wp_gets, wp_bind.
  destruct (_pgfault_handler u =? 0); [|apply wp_ret, wp_modify; exists (kern u); split; [done|by eapply installed_same]].
  apply wp_bind, wp_gets. rewrite Ht. apply wp_bind. unfold uenv_id at 1. apply wp_bind, wp_gets. rewrite Hv. apply wp_ret.
  pose proof (self_resolves _ _ _ Hau Hv) as Hid.
  apply wp_bind. eapply wp_mono; [by apply (usys_page_alloc_spec Hfl Hcs c u (env_id v) (UXSTACKTOP - PGSIZE) 7 c Hau)| |by intros ??[]].
  fold xstack. intros r u1 (s1 & -> & Hc1 & Hg1 & [[-> Hm1]|[-> (p & _ & M1 & M2 & M3)]]).
  { apply wp_stop. split; [done|]. by exists s1. }
  change (0 <? 0) with false. cbv iota. destruct (envs_same_lookup _ _ _ _ _ (uc_envs _ _ _ Hc1) Hv) as (v1 & Hv1 & Hs1).
  apply wp_bind. unfold uenv_id. apply wp_bind, wp_gets. cbn [kern set_kern]. rewrite Hv1. apply wp_ret, wp_bind.
  eapply wp_mono; [by apply (usys_set_upcall_spec Hfl Hcs c (set_kern s1 u) (env_id v1) upcall c (uc_at _ _ _ Hc1));
    [apply self_resolves; [apply Hc1|]|]| |by intros ??[]].
  cbn [kern set_kern]. intros r u2 (s2 & -> & -> & Hau2 & Hes2 & Hg2 & Hm2). apply wp_ret, wp_modify. exists s2. split; [done|]. split.
  - done.
  - intros j Hj. by rewrite (envs_same_ne _ _ _ _ Hes2), lookup_alter_ne, (envs_same_ne _ _ _ _ (uc_envs _ _ _ Hc1)) by done.
  - destruct (envs_same_lookup _ _ _ c (set_env_pgfault_upcall upcall v1) Hes2) as (v2 & Hv2 & Hs2); [by rewrite lookup_alter_eq, Hv1|].
    exists v, v2. split; [done|]. split; [done|]. by rewrite (se_id _ _ Hs2), <- (se_id _ _ Hs1).
  - by apply (refs_grow_trans 1 0 _ s1).
  - intros j x Hj Hx Hne. eapply views_trans; [by apply M1|]. apply Hm2; [|done]. by apply (ucall_used _ _ _ _ Hc1).
Qed.

Lemma installed_used c s s1 j : installed c s s1 → used s j → used s1 j.
Proof.
  intros H (e & He & Hu). destruct (decide (j = c)) as [->|Hj]; [apply at_user_used, H|]. exists e. by rewrite (in_other _ _ _ H).
Qed.

Lemma installed_forkable c n s s1 : at_user c s → installed c s s1 → forkable c n s → forkable c n s1.
Proof.
  intros Hau H [_ Hu Hn]. pose proof (at_user_used _ _ Hau) as Huc.
  assert (Ha : ∀ x, image x → aspace s1 c x = aspace s c x).
  { intros x Hx. destruct (image_vpn x Hx) as [Hv Hne]. apply (in_views _ _ _ H); [done|done|]. by intros [_ ?]. }
  split; [apply H| |].
  - intros x p f Hx. rewrite Ha by done. by apply Hu.
  - intros l Hnd Hl. apply Hn; [done|]. intros x Hx. destruct (Hl x Hx) as [Hi Hs]. split; [done|]. by rewrite <- Ha.
Qed.

(** The result of fork, seen from before the handler was installed. *)
Lemma fork_before c s s1 r s' : at_user c s → installed c s s1 → fork_result frame upcall c s1 r s' → fork_result frame upcall c s r s'.
Proof.
  intros Hau H [[-> Hv]|(e & [(v & Hv & Hvf) (child & vc & He & Hvc & Hid & Hpos & Hpar & Hrest)] & Hcp)].
  { left. split; [done|]. intros j x o Hj Hx Hne Ho. rewrite Hv by (done || by eapply installed_used).
    apply views_view; [by apply (in_views _ _ _ H)|done]. }
  right. exists e. pose proof (at_user_used _ _ Hau) as Huc. destruct (in_self _ _ _ H) as (v0 & v1 & Hv0 & Hv1 & Hid1).
  assert (Hec : e ≠ c) by (intros ->; destruct (au_run _ _ (in_at _ _ _ H)) as (w & Hw & ?); congruence).
  assert (Hi : ∀ x, image x → views_same s s1 c x).
  { intros x Hx. destruct (image_vpn x Hx) as [Hvx Hne]. apply (in_views _ _ _ H); [done|done|]. by intros [_ ?]. }
  split; [split|].
  - exists v. by rewrite <- (in_other _ _ _ H).
  - exists child, v0. simplify_eq. rewrite <- Hid1. done.
  - destruct Hcp as [F1 F2 (p & X1 & X2 & X3) F3 F4 F5 F6 F7]. split.
    + intros x Hx. rewrite F1 by done. by destruct (Hi x Hx) as [-> _].
    + intros x o Hx Ho. rewrite F2 by done. apply views_view; [by apply Hi|done].
    + exists p. split; [done|]. split; [done|]. intros j x f Hj. apply X3. destruct Hj; [left; by eapply installed_used|by right].
    + done.
    + intros x Hx. rewrite F4 by done. by destruct (Hi x Hx) as [-> _].
    + intros x Hx Hni Hne. rewrite F5 by done. apply (in_views _ _ _ H); [done|done|]. by intros [_ ?].
    + intros j x Hj Hjc Hx. rewrite F6 by (done || by eapply installed_used). apply (in_views _ _ _ H); [done|done|]. by intros [? _].
    + intros j x o Hj Hx Hne Ho. rewrite F7 by (done || by eapply installed_used). apply views_view; [by apply (in_views _ _ _ H)|done].
Qed.

(** fork stops the caller only when there is no memory or no environment. *)
Definition fork_stopped (c : Z) (s : KState) (r : ustop) (s' : KState) : Prop :=
  (r = UPanic "set_pgfault_handler: %e" ∨ r = UPanic "fork failed: sys_exofork faied: %e") ∧
  ∀ j x, used s j → user_vpn x → ¬ (j = c ∧ x = xstack) → views_same s s' j x.

Lemma fork_spec c n u : forkable c n (kern u) → room (2 * n + 2) (kern u) → thisenv u = c →
  wp (fork frame cr2 eflags handler upcall)
    (λ r u', ∃ s', u' = set_handler handler s' u ∧ at_user c s' ∧ fork_result frame upcall c (kern u) r s')
    (λ r u', fork_stopped c (kern u) r (kern u')) u.
Proof.
  intros Hf Hroom Ht. pose proof (fo_at _ _ _ Hf) as Hau. unfold fork. apply wp_bind.
  eapply wp_mono; [by apply (set_pgfault_handler_spec c u)| |].
  2:{ intros r u' (-> & s' & -> & Hm). split; [by left|]. intros j x Hj Hx _. by apply Hm. }
  intros [] u1 (s1 & -> & Hin). pose proof (in_at _ _ _ Hin) as Hau1. pose proof (installed_forkable _ _ _ _ Hau Hin Hf) as Hf1.
  apply wp_bind. eapply wp_mono; [by apply (usys_exofork_spec Hfl Hcs c (set_handler handler s1 u))| |by intros ??[]].
  cbn [kern set_handler]. intros r u2 (s2 & -> & Hau2 & Hg2 & Hm2 & [[Hr Hc2]|(e & child & Hch)]).
  { assert (r <? 0 = true) as -> by (destruct Hr as [->| ->]; done). apply wp_stop. split; [by right|].
    intros j x Hj Hx Hne. eapply views_trans; [by apply (in_views _ _ _ Hin)|]. apply Hm2; [by eapply installed_used|done]. }
  destruct (ch_id _ _ _ _ _ _ Hch) as [_ Hpos].
  assert (r <? 0 = false) as -> by lia. assert (r =? 0 = false) as -> by lia.
  pose proof (child_ne _ _ _ _ _ _ _ Hau1 Hch) as Hec. pose proof (child_resolved _ _ _ _ _ _ _ Hau1 Hau2 Hch) as Hid2.
  pose proof (forkable_same _ _ _ _ Hf1 Hau2 Hm2) as Hf2.
  assert (Hroom2 : room (2 * n) s2).
  { apply (room_step _ 1 s1); [|done]. apply (room_step _ 1 (kern u)); [|apply Hin]. by rewrite <- Z.add_assoc. }
  apply wp_bind. eapply wp_mono; [apply (fork_loop_spec Hfl Hcs (e := e) Hf2 Hec Hid2 (set_kern s2 (set_handler handler s1 u)));
    [done|apply Hch|done]| |by intros ??[]].
  intros [b|] u3.
  - intros (-> & s3 & -> & Hc3 & Hk). apply wp_ret. exists s3. split; [done|]. split; [apply Hc3|].
    apply (fork_before _ _ s1); [done|done|]. by eapply (kept_but_result Hch Hm2).
  - intros (s3 & -> & Hcp).
    eapply wp_mono; [by apply (fork_finish_spec Hfl Hcs Hup (u := set_handler handler s1 u) Hau1 Hau2 Hch Hm2 Hcp)| |by intros ??[]].
    intros r' u4 (s4 & -> & Hau4 & Hres). exists s4. split; [done|]. split; [done|]. by apply (fork_before _ _ s1).
Qed.
End Fork.

(** ** Writing to a copy-on-write page *)

Section CowStore.
Context (frame : Trapframe) (cr2 eflags : Z).

(** A store: when it faults, the handler runs with the address and with what
    page_fault_handler (kern/trap.c) leaves in utf_err, the trap number; then
    the instruction is executed again. *)
Definition cow_store (va v : Z) : U unit := λ u,
  match ustore32 va v u with
  | Stop (UFault a) u' => (pgfault frame cr2 eflags a T_PGFLT ;; ustore32 va v) u'
  | o => o
  end.

Definition word_of (va : Z) : Z := PGOFF va / 4.

(** The word at [va] of [c] is [v]; nothing else changed for anybody. *)
Record stored (c va v : Z) (s s' : KState) : Prop := {
  sd_at : ucall c s s';
  sd_word : view s' c (PGNUM va) (word_of va) = Some v;
  sd_other : ∀ j y o, used s j → user_vpn y → 0 ≤ o < 1024 → ¬ (j = c ∧ y = tmp) →
    ¬ (j = c ∧ y = PGNUM va ∧ o = word_of va) → view s' j y o = view s j y o
}.

(** A store to a page nobody else maps. *)
Lemma private_store c s va v p f : at_user c s → 0 ≤ va < UTOP → va `mod` 4 = 0 →
  aspace s c (PGNUM va) = Some (p, f) → has PTE_U f = true → has PTE_W f = true →
  (∀ j y g, used s j → user_vpn y → ¬ (j = c ∧ y = PGNUM va) → aspace s j y ≠ Some (p, g)) →
  ∀ u, kern u = s → ∃ s', ustore32 va v u = Ok tt (set_kern s' u) ∧ at_user c s' ∧ envs s' = envs s ∧
    view s' c (PGNUM va) (word_of va) = Some v ∧
    ∀ j y o, used s j → user_vpn y → 0 ≤ o < 1024 → ¬ (j = c ∧ y = PGNUM va ∧ o = word_of va) → view s' j y o = view s j y o.
Proof.
  intros Hau Hva Hal Ha HU HW Hpriv u Hu. pose proof (user_vpn_UTOP va Hva) as Hx. pose proof (at_user_used _ _ Hau) as Huc.
  assert (Hoff : 0 ≤ word_of va < 1024 ∧ (p * 4096 + PGOFF va) / 4 = p * 1024 + word_of va).
  { unfold word_of. rewrite PGOFF_mod, u32_small by mlia. split; mlia. }
  destruct Hoff as [Hw Hpa]. set (m' := <[p * 1024 + word_of va := v]> (phys s)).
  assert (Hpt : ∃ j x f, used s j ∧ user_vpn x ∧ aspace s j x = Some (p, f)) by by exists c, (PGNUM va), f.
  assert (Hoth : ∀ w, w / 1024 ≠ p → word m' w = word (phys s) w) by (intros w Hne; unfold m'; rewrite word_insert_ne by mlia; done).
  exists (set_phys m' s). split.
  { unfold ustore32, user_access, mbind, M_bind, gets, modify. rewrite Hu, (translate_user c s va true Hau Hva), Ha, HU, HW.
    cbn [negb andb orb]. by rewrite Hpa, Hu. }
  split; [by apply (store_at_user Hau Hpt Hoth)|]. split; [done|]. pose proof (store_aspace Hau Hpt Hoth) as Has. split.
  - rewrite (view_word _ _ _ p f) by by rewrite Has. cbn. unfold m'. by rewrite word_insert_eq.
  - intros j y o Hj Hy Ho Hne. destruct (decide (j = c ∧ y = PGNUM va)) as [[-> ->]|Hn].
    + rewrite (view_word _ _ _ p f), (view_word s _ _ p f) by (done || by rewrite Has). cbn. unfold m'.
      rewrite word_insert_ne; [done|]. intros Heq. apply Hne. split; [done|]. split; [done|lia].
    + destruct (aspace s j y) as [[q g]|] eqn:E.
      * eapply (store_view Hau Hpt Hoth); [done..| |done]. intros ->. by eapply Hpriv.
      * unfold view. by rewrite Has, E.
Qed.

Lemma cow_store_spec c u va v p f :
  Z.land eflags FL_IF = 0 → Z.land (tf_cs frame) 3 = 3 →
  at_user c (kern u) → room 3 (kern u) → 0 ≤ va < UTOP → va `mod` 4 = 0 → PGNUM va ≠ tmp →
  aspace (kern u) c (PGNUM va) = Some (p, f) → has PTE_U f = true → has PTE_COW f = true → has PTE_W f = false →
  wp (cow_store va v) (λ _ u', ∃ s', u' = set_kern s' u ∧ stored c va v (kern u) s')
    (λ r u', ∃ s', u' = set_kern s' u ∧ cow_failed c (kern u) r s') u.
Proof.
  intros Hfl Hcs Hau Hroom Hva Hal Hne Ha HU HC HW. pose proof (user_vpn_UTOP va Hva) as Hx.
  assert (Hf : ustore32 va v u = Stop (UFault va) u).
  { unfold ustore32, user_access, mbind, M_bind, gets. by rewrite (translate_user c _ va true Hau Hva), Ha, HU, HW. }
  unfold wp, cow_store. rewrite Hf. change (wp (pgfault frame cr2 eflags va T_PGFLT ;; ustore32 va v)
    (λ _ u', ∃ s', u' = set_kern s' u ∧ stored c va v (kern u) s') (λ r u', ∃ s', u' = set_kern s' u ∧ cow_failed c (kern u) r s') u).
  apply wp_bind. eapply wp_mono; [by eapply (pgfault_spec Hfl Hcs c u va T_PGFLT p f)| |done].
  intros [] u1 (s1 & -> & [Hc1 (p' & Hun & Hp') Htmp Hoth Hview _]).
  assert (Hpriv : ∀ j y g, used s1 j → user_vpn y → ¬ (j = c ∧ y = PGNUM va) → aspace s1 j y ≠ Some (p', g)).
  { intros j y g Hj Hy Hjy. apply (ucall_used _ _ _ _ Hc1) in Hj. destruct (decide (j = c ∧ y = tmp)) as [[-> ->]|Hn]; [by rewrite Htmp|].
    rewrite Hoth by naive_solver. by apply Hun. }
  destruct (private_store c s1 va v p' 7 (uc_at _ _ _ Hc1) Hva Hal Hp' eq_refl eq_refl Hpriv (set_kern s1 u) eq_refl)
    as (s2 & Hrun & Hau2 & He2 & Hw & Ho).
  eapply wp_ok; [exact Hrun|]. exists s2. split; [done|]. split; [split; [done|rewrite He2; apply Hc1]|done|].
  intros j y o Hj Hy Ho' Hnt Hne'. rewrite Ho by (done || by apply (ucall_used _ _ _ _ Hc1)). by apply Hview.
Qed.
End CowStore.
