(* ===== verification/ForkProps.v ===== *)
(** * Properties of user-level fork

    What lib/fork.c promises to programs, on top of the kernel's system
    calls: fork copies the parent, copy-on-write pages are private on the
    first write, and the page-fault handler is invisible. *)

From S2P Require Import Prelude Console Mmu KState KWp Pmap PmapInv PmapSpec PmapDir PmapOps VMem Env EnvFree KInv.
From S2P Require Import SchedProofs EnvProofs UserMem Demo Syscall SyscallProofs SyscallSafe Trap TrapProofs Machine KernProps.
From S2P Require Import ULib ULibProofs ForkProofs ForkSpec.

(** ** The small machine *)

Lemma demo_at_user : at_user 0 demo_user.
Proof. split; [exact demo_in_user|]. exists (demo_env 0). unfold demo_user. cbn [envs set_kernel_lock]. by rewrite demo_lookup. Qed.

Lemma demo_mapping f x : user_vpn x →
  mapping (<[3 * 1024 := 4 * 4096 + f]> demo_phys) 2 x = if decide (x = 2048) then mapping (<[3 * 1024 := 4 * 4096 + f]> demo_phys) 2 2048 else None.
Proof.
  intros Hx. case_decide as Hd; [by rewrite Hd|]. unfold user_vpn in Hx. unfold mapping, demo_phys. change (PDX UVPT) with 957.
  assert (Hdiv : x / 1024 ≠ 957) by mlia. destruct (decide (x / 1024 = 2)) as [E|E].
  - rewrite E, (word_insert_ne _ (3 * 1024)), (word_insert_ne _ (3 * 1024)), word_insert_eq by lia. cbn [present].
    change (present (3 * 4096 + 7)) with true. change (PGNUM (3 * 4096 + 7)) with 3. cbv iota.
    rewrite !word_insert_ne by mlia. done.
  - rewrite !word_insert_ne by mlia. done.
Qed.

Lemma demo_phys_same : <[3 * 1024 := 4 * 4096 + 7]> demo_phys = demo_phys.
Proof. unfold demo_phys. by rewrite insert_insert_eq. Qed.

Lemma demo_aspace x : user_vpn x → aspace demo_user 0 x = if decide (x = 2048) then Some (4, 7) else None.
Proof.
  intros Hx. unfold aspace, demo_user. cbn [envs set_kernel_lock phys]. rewrite demo_lookup, decide_True by lia.
  change (env_dir (demo_env 0)) with 2. change (phys demo) with demo_phys. rewrite <- demo_phys_same, demo_mapping by done.
  case_decide; [|done]. vm_compute. reflexivity.
Qed.

Lemma demo_room : room 4 demo_user.
Proof.
  intros p k. cbn. unfold demo_pages. rewrite !lookup_insert_Some. unfold demo_pages0. rewrite lookup_tabulate.
  intros [[_ <-]|[_ [[_ <-]|[_ [[_ <-]|[_ Hk]]]]]]; [done..|]. case_decide; [|done]. injection Hk as <-.
  cbn. unfold demo_ext0. case_decide; lia.
Qed.

Lemma demo_forkable : forkable 0 1 demo_user.
Proof.
  split; [exact demo_at_user| |].
  - intros x p f Hx. rewrite demo_aspace by by apply image_vpn. case_decide; [|done]. by intros [= <- <-].
  - intros l Hnd Hl.
    assert (H : ∀ x, x ∈ l → x = 2048).
    { intros x Hx. destruct (Hl x Hx) as [Hi Hs]. rewrite demo_aspace in Hs by by apply image_vpn. case_decide; [done|by destruct Hs]. }
    destruct l as [|a [|b l]]; [cbn; lia..|]. apply NoDup_cons in Hnd as [Hnd _]. destruct Hnd.
    rewrite (H a), (H b) by (rewrite !elem_of_cons; auto). left.
Qed.

(** A program that has not forked before. *)
Definition demo_process : UState := {| kern := demo_user; _pgfault_handler := 0; thisenv := 0 |}.

(** ** fork *)

(** C4: fork either fails (-E_NO_MEM, or a panic when the handler or the new
    environment cannot be set up), or creates a child: a free slot becomes a
    runnable environment with the parent's registers, result 0 and the fault
    upcall; the child sees, at every address between UTEXT and USTACKTOP, what
    the parent saw; its exception stack is a fresh zero page that nobody else
    maps and nothing else is mapped; pages that are not shared on purpose are
    writable on neither side; and in every case no environment's memory
    contents change, the parent's exception stack excepted. *)
Theorem fork_correct frame cr2 eflags handler upcall c n u :
  Z.land eflags FL_IF = 0 → Z.land (tf_cs frame) 3 = 3 → 0 ≤ upcall < 4294967296 →
  forkable c n (kern u) → room (2 * n + 2) (kern u) → thisenv u = c →
  (∃ r s', fork frame cr2 eflags handler upcall u = Ok r (set_handler handler s' u) ∧ at_user c s' ∧
     fork_result frame upcall c (kern u) r s') ∨
  (∃ r u', fork frame cr2 eflags handler upcall u = Stop r u' ∧ fork_stopped c (kern u) r (kern u')).
Proof.
  intros Hfl Hcs Hup Hf Hroom Ht.
  destruct (wp_runs _ _ _ _ (fork_spec (cr2 := cr2) (handler := handler) Hfl Hcs Hup c n u Hf Hroom Ht)) as [(r & u' & Hrun & s' & -> & H)|H]; [left; by exists r, s'|by right].
Qed.

Lemma fork_correct_witness :
  (∃ r s', fork demo_frame 0 0 0x800100 0x800200 demo_process = Ok r (set_handler 0x800100 s' demo_process) ∧ at_user 0 s' ∧
     fork_result demo_frame 0x800200 0 demo_user r s') ∨
  (∃ r u', fork demo_frame 0 0 0x800100 0x800200 demo_process = Stop r u' ∧ fork_stopped 0 demo_user r (kern u')).
Proof. apply (fork_correct demo_frame 0 0 0x800100 0x800200 0 1 demo_process); [done|done|done|exact demo_forkable|exact demo_room|done]. Defined.

(** ** Copy on write *)

(** The small machine with its page copy-on-write. *)
Definition demo_cow : KState := set_phys (<[3 * 1024 := 4 * 4096 + cow_perm]> demo_phys) demo_user.
Definition demo_cow_process : UState := {| kern := demo_cow; _pgfault_handler := 0x800100; thisenv := 0 |}.

Lemma demo_cow_core : kcore {[2]} {[3]} demo_ext [5; 6; 7] (range 1 1024) demo_cow.
Proof.
  assert (Hw : 3 * 1024 ∈ tslots {[3]}) by (rewrite elem_of_tslots; set_solver).
  apply (kcore_frame {[2]} {[3]} {[3]} demo_ext [5; 6; 7] [5; 6; 7] (range 1 1024) demo_user demo_cow demo_user_core); [done| |].
  - assert (Hword : word demo_phys (3 * 1024) = 4 * 4096 + 7) by (unfold demo_phys; apply word_insert_eq).
    apply (minv_set_perm {[2]} {[3]} demo_ext [5; 6; 7] 8 demo_phys demo_pages (Some 5) (3 * 1024) (4 * 4096 + cow_perm) demo_minv);
      [apply slots_split; by right|rewrite Hword; reflexivity|reflexivity|rewrite Hword; reflexivity|vm_compute; split; [discriminate|reflexivity]|].
    intros Hd. by destruct (slots_not_both {[2]} {[3]} (3 * 1024) ltac:(set_solver) Hd Hw).
  - intros w Hwn _. cbn. rewrite word_insert_ne; [done|]. intros <-. apply Hwn, slots_split. by right.
Qed.

Lemma demo_cow_at : at_user 0 demo_cow.
Proof.
  destruct demo_at_user as [[_ Hcur Hon Hrel Hst] Hrun]. split; [split; [|done..]|done]. do 5 eexists. exact demo_cow_core.
Qed.

Lemma demo_cow_aspace : aspace demo_cow 0 2048 = Some (4, cow_perm).
Proof.
  unfold aspace, demo_cow, demo_user. cbn [envs set_kernel_lock set_phys phys]. rewrite demo_lookup, decide_True by lia.
  change (env_dir (demo_env 0)) with 2. vm_compute. reflexivity.
Qed.

Lemma demo_cow_room : room 3 demo_cow.
Proof. intros p k Hk. pose proof (demo_room p k Hk). lia. Qed.

(** The three free pages of the small machine are enough for the handler. *)
Definition finishes {S R A} (o : outcome S R A) : bool := match o with Ok _ _ => true | Stop _ _ => false end.

Lemma demo_pgfault_runs : finishes (pgfault demo_frame 0 0 0x800010 7 demo_cow_process) = true.
Proof. vm_compute. reflexivity. Qed.
Lemma demo_cow_store_runs : finishes (cow_store demo_frame 0 0 0x800010 42 demo_cow_process) = true.
Proof. vm_compute. reflexivity. Qed.

(** C6: the page-fault handler on a write to a copy-on-write page either
    panics for lack of memory or gives the process a page of its own at that
    address, writable and mapped nowhere else before; in both cases every
    environment sees exactly the memory it saw before, the handler's scratch
    page excepted. *)
Theorem pgfault_correct frame cr2 eflags c u va err p f :
  Z.land eflags FL_IF = 0 → Z.land (tf_cs frame) 3 = 3 → at_user c (kern u) → room 3 (kern u) → 0 ≤ va < UTOP →
  PGNUM va ≠ tmp → aspace (kern u) c (PGNUM va) = Some (p, f) → has PTE_U f = true → has PTE_COW f = true → has FEC_WR err = true →
  (∃ s', pgfault frame cr2 eflags va err u = Ok tt (set_kern s' u) ∧ cow_resolved c (PGNUM va) (kern u) s') ∨
  (∃ r s', pgfault frame cr2 eflags va err u = Stop r (set_kern s' u) ∧ cow_failed c (kern u) r s').
Proof.
  intros Hfl Hcs Hau Hroom Hva Hne Ha HU HC HW.
  destruct (wp_runs _ _ _ _ (pgfault_spec (cr2 := cr2) Hfl Hcs c u va err p f Hau Hroom Hva Hne Ha HU HC HW))
    as [([] & u' & Hrun & s' & -> & H)|(r & u' & Hrun & s' & -> & H)]; [left; by exists s'|right; by exists r, s'].
Qed.

Lemma pgfault_correct_witness :
  ∃ s', pgfault demo_frame 0 0 0x800010 7 demo_cow_process = Ok tt (set_kern s' demo_cow_process) ∧ cow_resolved 0 2048 demo_cow s'.
Proof.
  destruct (pgfault_correct demo_frame 0 0 0 demo_cow_process 0x800010 7 4 cow_perm) as [H|(r & s' & Hrun & _)];
    [done|done|exact demo_cow_at|exact demo_cow_room|done|done|exact demo_cow_aspace|done|done|done|exact H|].
  pose proof demo_pgfault_runs as Hok. rewrite Hrun in Hok. discriminate Hok.
Defined.

(** C5: a store to a copy-on-write page, with the fault it causes handled
    by pgfault and the store repeated, ends with the word written for the
    storing environment and with every other word of every environment as
    before: parent and child do not see each other's writes.  It can only
    fail by the handler's panic when memory is exhausted. *)
Theorem cow_store_private frame cr2 eflags c u va v p f :
  Z.land eflags FL_IF = 0 → Z.land (tf_cs frame) 3 = 3 → at_user c (kern u) → room 3 (kern u) → 0 ≤ va < UTOP → va `mod` 4 = 0 →
  PGNUM va ≠ tmp → aspace (kern u) c (PGNUM va) = Some (p, f) → has PTE_U f = true → has PTE_COW f = true → has PTE_W f = false →
  (∃ s', cow_store frame cr2 eflags va v u = Ok tt (set_kern s' u) ∧ stored c va v (kern u) s') ∨
  (∃ r s', cow_store frame cr2 eflags va v u = Stop r (set_kern s' u) ∧ cow_failed c (kern u) r s').
Proof.
  intros Hfl Hcs Hau Hroom Hva Hal Hne Ha HU HC HW.
  destruct (wp_runs _ _ _ _ (cow_store_spec frame cr2 eflags c u va v p f Hfl Hcs Hau Hroom Hva Hal Hne Ha HU HC HW))
    as [([] & u' & Hrun & s' & -> & H)|(r & u' & Hrun & s' & -> & H)]; [left; by exists s'|right; by exists r, s'].
Qed.

Lemma cow_store_private_witness :
  ∃ s', cow_store demo_frame 0 0 0x800010 42 demo_cow_process = Ok tt (set_kern s' demo_cow_process) ∧ stored 0 0x800010 42 demo_cow s'.
Proof.
  destruct (cow_store_private demo_frame 0 0 0 demo_cow_process 0x800010 42 4 cow_perm) as [H|(r & s' & Hrun & _)];
    [done|done|exact demo_cow_at|exact demo_cow_room|done|done|done|exact demo_cow_aspace|done|done|done|exact H|].
  pose proof demo_cow_store_runs as Hok. rewrite Hrun in Hok. discriminate Hok.
Defined.
