(* ===== verification/CMem.v ===== *)
(** * C loops over byte memory

    The user library runs in a flat 32-bit address space.  Memory is a map
    from addresses to bytes (absent is 0); pointers are 32-bit integers.
    Pointer-chasing loops are written with [while]: a body that either goes
    on with a new loop state or leaves with a result.  2^33 rounds are more
    than any such loop can make before it has seen every address, so [None]
    means the loop does not end.  [while_total] is the rule that proves a
    loop ends and what it computes. *)

From S2P Require Import Prelude.

(** Linear arithmetic with division and remainder. *)
Ltac dlia := Z.to_euclidean_division_equations; lia.

Section While.
Context {X Y : Type} (f : X → X + Y).

Fixpoint iter_nat (n : nat) (x : X) : X + Y :=
  match n with
  | O => inl x
  | S n => match f x with inl x' => iter_nat n x' | inr y => inr y end
  end.

(** The same number of rounds, with the count in binary. *)
Fixpoint iter_pos (p : positive) (x : X) : X + Y :=
  match p with
  | xH => f x
  | xO p => match iter_pos p x with inl x' => iter_pos p x' | inr y => inr y end
  | xI p => match f x with
            | inl x' => match iter_pos p x' with inl x'' => iter_pos p x'' | inr y => inr y end
            | inr y => inr y
            end
  end.

Lemma iter_S n x : iter_nat (S n) x = match f x with inl x' => iter_nat n x' | inr y => inr y end.
Proof. done. Qed.

Lemma iter_nat_add n m x :
  iter_nat (n + m) x = match iter_nat n x with inl x' => iter_nat m x' | inr y => inr y end.
Proof. revert x. induction n as [|n IH]; intros x; cbn; [done|]. by destruct (f x). Qed.

Lemma iter_pos_nat p x : iter_pos p x = iter_nat (Pos.to_nat p) x.
Proof.
  revert x. induction p as [p IH|p IH|]; intros x; cbn [iter_pos].
  - rewrite Pos2Nat.inj_xI. replace (2 * Pos.to_nat p)%nat with (Pos.to_nat p + Pos.to_nat p)%nat by lia.
    cbn [iter_nat]. destruct (f x) as [x'|]; [|done].
    rewrite IH, iter_nat_add. by destruct (iter_nat (Pos.to_nat p) x').
  - rewrite Pos2Nat.inj_xO. replace (2 * Pos.to_nat p)%nat with (Pos.to_nat p + Pos.to_nat p)%nat by lia.
    rewrite IH, iter_nat_add. by destruct (iter_nat (Pos.to_nat p) x).
  - change (Pos.to_nat 1) with 1%nat. cbn. by destruct (f x).
Qed.

Definition while (x : X) : option Y :=
  match iter_pos 8589934592 x with inr y => Some y | inl _ => None end.

Lemma iter_nat_done n k x y : iter_nat n x = inr y → (n ≤ k)%nat → iter_nat k x = inr y.
Proof. intros Hn Hk. replace k with (n + (k - n))%nat by lia. by rewrite iter_nat_add, Hn. Qed.

Lemma while_iter n x y : iter_nat n x = inr y → Z.of_nat n ≤ 8589934592 → while x = Some y.
Proof. intros Hn Hb. unfold while. rewrite iter_pos_nat, (iter_nat_done _ _ _ _ Hn); [done|lia]. Qed.

(** Total correctness: an invariant and a measure that decreases. *)
Lemma while_total (I : X → Prop) (meas : X → nat) (Q : Y → Prop) x :
  I x → Z.of_nat (meas x) < 8589934592 →
  (∀ x, I x → match f x with inl x' => I x' ∧ (meas x' < meas x)%nat | inr y => Q y end) →
  ∃ y, while x = Some y ∧ Q y.
Proof.
  intros HI Hm Hf.
  assert (Hn : ∀ n x, I x → (meas x < n)%nat → ∃ y, iter_nat n x = inr y ∧ Q y).
  { intros n. induction n as [|n IH]; intros x' HI' Hlt; [lia|]. cbn. pose proof (Hf x' HI') as Hx.
    destruct (f x') as [x''|y]; [|by eauto]. destruct Hx. apply IH; [done|lia]. }
  destruct (Hn (S (meas x)) x HI ltac:(lia)) as (y & Hy & HQ). exists y. split; [|done].
  unfold while. rewrite iter_pos_nat, (iter_nat_done _ _ _ _ Hy); [done|lia].
Qed.

End While.

(** ** Memory *)

Notation mem := (gmap Z Z).
Definition ld (m : mem) (a : Z) : Z := default 0 (m !! u32 a).
Definition st (m : mem) (a v : Z) : mem := <[u32 a := u8 v]> m.

(** Every byte is a byte. *)
Definition bytes_ok (m : mem) : Prop := ∀ a, 0 ≤ ld m a < 256.

Lemma ld_u32 m a : ld m (u32 a) = ld m a.
Proof. unfold ld. by rewrite u32_idem. Qed.

Lemma ld_st m a v b : ld (st m a v) b = if decide (u32 a = u32 b) then u8 v else ld m b.
Proof. unfold ld, st. rewrite lookup_insert. by case_decide. Qed.

Lemma ld_st_small m a v b : 0 ≤ a < 4294967296 → 0 ≤ b < 4294967296 →
  ld (st m a v) b = if decide (a = b) then u8 v else ld m b.
Proof. intros. by rewrite ld_st, !u32_small. Qed.

Lemma st_bytes_ok m a v : bytes_ok m → bytes_ok (st m a v).
Proof. intros H b. rewrite ld_st. case_decide; [apply u8_range|apply H]. Qed.

(** The bytes of a range. *)
Definition lds (m : mem) (a n : Z) : list Z := (λ i, ld m (a + i)) <$> range 0 n.

Lemma lds_nil m a : lds m a 0 = [].
Proof. reflexivity. Qed.
Lemma lds_app m a k j : 0 ≤ k → 0 ≤ j → lds m a (k + j) = lds m a k ++ lds m (a + k) j.
Proof.
  intros Hk Hj. unfold lds, range. rewrite !Z.sub_0_r. rewrite seqZ_app by lia. rewrite fmap_app. f_equal.
  rewrite Z.add_0_l. apply list_eq. intros i. rewrite !list_lookup_fmap. destruct (decide (Z.of_nat i < j)).
  - rewrite !lookup_seqZ_lt by lia. cbn. do 2 f_equal. lia.
  - by rewrite !lookup_seqZ_ge by lia.
Qed.
Lemma length_lds m a n : 0 ≤ n → Z.of_nat (length (lds m a n)) = n.
Proof. intros Hn. unfold lds, range. rewrite length_fmap, length_seqZ. lia. Qed.
Lemma lds_ext m m' a n : (∀ x, a ≤ x < a + n → ld m' x = ld m x) → lds m' a n = lds m a n.
Proof. intros H. unfold lds. apply list_fmap_ext. intros i x Hx%list_elem_of_lookup_2%elem_of_range. apply H. lia. Qed.

(** Writing a list of bytes. *)
Fixpoint sts (m : mem) (a : Z) (l : list Z) : mem :=
  match l with [] => m | x :: l => sts (st m a x) (a + 1) l end.

Lemma ld_sts m a l b :
  0 ≤ a → a + Z.of_nat (length l) ≤ 4294967296 → 0 ≤ b < 4294967296 →
  ld (sts m a l) b = match (if decide (a ≤ b) then l !! Z.to_nat (b - a) else None) with
                     | Some x => u8 x | None => ld m b end.
Proof.
  revert m a. induction l as [|x l IH]; intros m a Ha Hl Hb; cbn [sts length] in *.
  { by case_decide. }
  rewrite IH by lia. destruct (decide (a = b)) as [->|].
  - rewrite decide_False by lia. rewrite decide_True by lia. replace (b - b) with 0 by lia. cbn.
    rewrite ld_st_small by lia. by rewrite decide_True.
  - rewrite ld_st_small by lia. rewrite (decide_False (P := a = b)) by done.
    destruct (decide (a + 1 ≤ b)) as [H|H].
    + rewrite decide_True by lia. replace (Z.to_nat (b - a)) with (S (Z.to_nat (b - (a + 1)))) by lia. done.
    + rewrite decide_False by lia. done.
Qed.

Lemma sts_bytes_ok m a l : bytes_ok m → bytes_ok (sts m a l).
Proof. revert m a. induction l as [|x l IH]; intros m a H; [done|]. by apply IH, st_bytes_ok. Qed.

(** A NUL-terminated string at [a]. *)
Definition cstr (m : mem) (a : Z) (l : list Z) : Prop :=
  0 ≤ a ∧ a + Z.of_nat (length l) < 4294967296 ∧ Forall (λ c, c ≠ 0) l ∧
  (∀ i c, l !! i = Some c → ld m (a + Z.of_nat i) = c) ∧ ld m (a + Z.of_nat (length l)) = 0.

Lemma cstr_nil m a : 0 ≤ a < 4294967296 → ld m a = 0 → cstr m a [].
Proof. intros Ha H. split_and!; try done; cbn; rewrite ?Z.add_0_r; try done; lia. Qed.

Lemma cstr_cons m a c l : cstr m a (c :: l) → ld m a = c ∧ c ≠ 0 ∧ cstr m (a + 1) l.
Proof.
  intros (Ha & Hl & Hne & Hi & Hz). apply Forall_cons in Hne as [Hc Hne]. cbn in *.
  split; [rewrite <- (Z.add_0_r a); by apply (Hi 0%nat)|]. split; [done|]. split; [lia|]. split; [lia|]. split; [done|]. split.
  - intros i x Hx. replace (a + 1 + Z.of_nat i) with (a + Z.of_nat (S i)) by lia. by apply Hi.
  - rewrite <- Hz. f_equal. lia.
Qed.

Lemma cstr_end m a : cstr m a [] → ld m a = 0.
Proof. intros (_ & _ & _ & _ & H). by rewrite Z.add_0_r in H. Qed.
