(* ===== verification/Str.v ===== *)
(** * lib/string.c

    The string routines over byte memory.  A routine that chases a
    terminator returns an option ([None]: it never returns); routines that
    write return the memory and the pointer result.  memset and memmove are
    the assembly versions (ASM is 1): the rep stos and rep movs instructions
    are written out as loops over bytes or words with the direction flag as a
    step of +1 or -1. *)

From S2P Require Import Prelude CMem.

Definition strlen (m : mem) (s : Z) : option Z :=
  while (λ '(s, n), if ld m s =? 0 then inr n else inl (u32 (s + 1), s32 (n + 1))) (s, 0).

Definition strnlen (m : mem) (s size : Z) : option Z :=
  while (λ '(s, size, n),
    if (size >? 0) && negb (ld m s =? 0) then inl (u32 (s + 1), size - 1, s32 (n + 1)) else inr n) (s, size, 0).

Definition strcpy (m : mem) (dst src : Z) : option (mem * Z) :=
  m' ← while (λ '(m, dst, src),
         let c := ld m src in
         let m := st m dst c in
         if c =? 0 then inr m else inl (m, u32 (dst + 1), u32 (src + 1))) (m, dst, src);
  Some (m', dst).

Definition strcat (m : mem) (dst src : Z) : option (mem * Z) :=
  len ← strlen m dst;
  '(m', _) ← strcpy m (u32 (dst + len)) src;
  Some (m', dst).

(** The loop has a counter, so it always ends. *)
Fixpoint strncpy_loop (n : nat) (m : mem) (dst src : Z) : mem :=
  match n with
  | O => m
  | S n =>
      let c := ld m src in
      let m := st m dst c in
      strncpy_loop n m (u32 (dst + 1)) (if negb (ld m src =? 0) then u32 (src + 1) else src)
  end.
Definition strncpy (m : mem) (dst src size : Z) : mem * Z := (strncpy_loop (Z.to_nat size) m dst src, dst).

Definition strlcpy (m : mem) (dst src size : Z) : option (mem * Z) :=
  if size >? 0 then
    '(m', d) ← while (λ '(m, d, s, size),
         let size := size - 1 in
         if (size >? 0) && negb (ld m s =? 0) then inl (st m d (ld m s), u32 (d + 1), u32 (s + 1), size)
         else inr (m, d)) (m, dst, src, size);
    Some (st m' d 0, u32 (d - dst))
  else Some (m, 0).

Definition strcmp (m : mem) (p q : Z) : option Z :=
  while (λ '(p, q),
    if negb (ld m p =? 0) && (ld m p =? ld m q) then inl (u32 (p + 1), u32 (q + 1))
    else inr (ld m p - ld m q)) (p, q).

Definition strncmp (m : mem) (p q n : Z) : option Z :=
  while (λ '(p, q, n),
    if (n >? 0) && negb (ld m p =? 0) && (ld m p =? ld m q) then inl (u32 (p + 1), u32 (q + 1), n - 1)
    else inr (if n =? 0 then 0 else ld m p - ld m q)) (p, q, n).

(** The null pointer is 0. *)
Definition strchr (m : mem) (s c : Z) : option Z :=
  while (λ s, if ld m s =? 0 then inr 0 else if ld m s =? u8 c then inr s else inl (u32 (s + 1))) s.

Definition strfind (m : mem) (s c : Z) : option Z :=
  while (λ s, if ld m s =? 0 then inr s else if ld m s =? u8 c then inr s else inl (u32 (s + 1))) s.

(** ** Block operations *)

Definition st32 (m : mem) (a v : Z) : mem :=
  st (st (st (st m a v) (a + 1) (Z.shiftr v 8)) (a + 2) (Z.shiftr v 16)) (a + 3) (Z.shiftr v 24).
Definition ld32 (m : mem) (a : Z) : Z :=
  ld m a + 256 * ld m (a + 1) + 65536 * ld m (a + 2) + 16777216 * ld m (a + 3).

Fixpoint rep_stosb (n : nat) (m : mem) (d c : Z) : mem :=
  match n with O => m | S n => rep_stosb n (st m d c) (u32 (d + 1)) c end.
Fixpoint rep_stosl (n : nat) (m : mem) (d c : Z) : mem :=
  match n with O => m | S n => rep_stosl n (st32 m d c) (u32 (d + 4)) c end.
(** [dir] is 1 with the direction flag clear and -1 with it set. *)
Fixpoint rep_movsb (n : nat) (dir : Z) (m : mem) (d s : Z) : mem :=
  match n with O => m | S n => rep_movsb n dir (st m d (ld m s)) (u32 (d + dir)) (u32 (s + dir)) end.
Fixpoint rep_movsl (n : nat) (dir : Z) (m : mem) (d s : Z) : mem :=
  match n with O => m | S n => rep_movsl n dir (st32 m d (ld32 m s)) (u32 (d + 4 * dir)) (u32 (s + 4 * dir)) end.

Definition memset (m : mem) (v c n : Z) : mem :=
  if n =? 0 then m
  else if (v `mod` 4 =? 0) && (n `mod` 4 =? 0) then
    let c := Z.land c 0xFF in
    let c := Z.lor (Z.lor (Z.lor (Z.shiftl c 24) (Z.shiftl c 16)) (Z.shiftl c 8)) c in
    rep_stosl (Z.to_nat (n / 4)) m v c
  else rep_stosb (Z.to_nat n) m v c.

Definition memmove (m : mem) (dst src n : Z) : mem :=
  if (src <? dst) && (u32 (src + n) >? dst) then
    let s := u32 (src + n) in
    let d := u32 (dst + n) in
    if (s `mod` 4 =? 0) && (d `mod` 4 =? 0) && (n `mod` 4 =? 0)
    then rep_movsl (Z.to_nat (n / 4)) (-1) m (u32 (d - 4)) (u32 (s - 4))
    else rep_movsb (Z.to_nat n) (-1) m (u32 (d - 1)) (u32 (s - 1))
  else
    if (src `mod` 4 =? 0) && (dst `mod` 4 =? 0) && (n `mod` 4 =? 0)
    then rep_movsl (Z.to_nat (n / 4)) 1 m dst src
    else rep_movsb (Z.to_nat n) 1 m dst src.

Definition memcpy (m : mem) (dst src n : Z) : mem := memmove m dst src n.

Fixpoint memcmp_loop (n : nat) (m : mem) (s1 s2 : Z) : Z :=
  match n with
  | O => 0
  | S n => if negb (ld m s1 =? ld m s2) then ld m s1 - ld m s2 else memcmp_loop n m (u32 (s1 + 1)) (u32 (s2 + 1))
  end.
Definition memcmp (m : mem) (v1 v2 n : Z) : Z := memcmp_loop (Z.to_nat n) m v1 v2.

Definition memfind (m : mem) (s c n : Z) : option Z :=
  let ends := u32 (s + n) in
  while (λ s, if s <? ends then if ld m s =? u8 c then inr s else inl (u32 (s + 1)) else inr s) s.

(** ** strtol *)

(** The digit a character stands for. *)
Definition digit_of (ch : Z) : option Z :=
  if (ch >=? 48) && (ch <=? 57) then Some (ch - 48)
  else if (ch >=? 97) && (ch <=? 122) then Some (ch - 97 + 10)
  else if (ch >=? 65) && (ch <=? 90) then Some (ch - 65 + 10)
  else None.

(** Returns the value and [*endptr]; long is 32 bits. *)
Definition strtol (m : mem) (s base : Z) : option (Z * Z) :=
  s ← while (λ s, if (ld m s =? 32) || (ld m s =? 9) then inl (u32 (s + 1)) else inr s) s;
  let '(s, neg) :=
    if ld m s =? 43 then (u32 (s + 1), false)
    else if ld m s =? 45 then (u32 (s + 1), true)
    else (s, false) in
  let '(s, base) :=
    if ((base =? 0) || (base =? 16)) && ((ld m s =? 48) && (ld m (s + 1) =? 120)) then (u32 (s + 2), 16)
    else if (base =? 0) && (ld m s =? 48) then (u32 (s + 1), 8)
    else if base =? 0 then (s, 10)
    else (s, base) in
  '(s, val) ← while (λ '(s, val),
    match digit_of (ld m s) with
    | None => inr (s, val)
    | Some dig => if dig >=? base then inr (s, val) else inl (u32 (s + 1), s32 (val * base + dig))
    end) (s, 0);
  Some (if neg : bool then s32 (- val) else val, s).
