(* ===== verification/StrProofs.v ===== *)
(** * lib/string.c meets its specification

    Strings are lists of non-zero bytes ([cstr]); block operations are
    compared with what they should do to every address. *)

From S2P Require Import Prelude CMem Str.

Section Strings.
Implicit Types (m : mem) (l : list Z).

Lemma cstr_next m a c l : cstr m a (c :: l) → u32 (a + 1) = a + 1.
Proof. intros (? & ? & _). cbn in *. apply u32_small. lia. Qed.

Lemma strlen_iter m l s n : cstr m s l → 0 ≤ n → n + Z.of_nat (length l) < 2147483648 →
  iter_nat (λ '(s, n), if ld m s =? 0 then inr n else inl (u32 (s + 1), s32 (n + 1))) (S (length l)) (s, n)
    = inr (n + Z.of_nat (length l)).
Proof.
  revert s n. induction l as [|c l IH]; intros s n Hs Hn Hb; rewrite iter_S; cbn [length].
  - rewrite (cstr_end _ _ Hs). cbn. f_equal. lia.
  - pose proof (cstr_next _ _ _ _ Hs) as Hu. destruct (cstr_cons _ _ _ _ Hs) as (Hc & Hne & Hs').
    rewrite Hc, (proj2 (Z.eqb_neq _ _) Hne), Hu. cbn in Hb. rewrite s32_small by lia.
    rewrite IH; [f_equal; lia|done|lia|lia].
Qed.

Lemma strlen_spec m s l : cstr m s l → Z.of_nat (length l) < 2147483648 → strlen m s = Some (Z.of_nat (length l)).
Proof.
  intros Hs Hl. unfold strlen. rewrite (while_iter _ (S (length l)) _ _ (strlen_iter m l s 0 Hs ltac:(lia) ltac:(lia))).
  - f_equal.
  - lia.
Qed.

(** strcmp on lists: the difference at the first position where the strings
    differ (the terminator counts as 0). *)
Fixpoint list_strcmp (l1 l2 : list Z) : Z :=
  match l1, l2 with
  | [], [] => 0
  | [], c :: _ => 0 - c
  | c :: _, [] => c - 0
  | c :: l1, d :: l2 => if c =? d then list_strcmp l1 l2 else c - d
  end.

Lemma list_strcmp_eq l1 l2 : Forall (λ c, c ≠ 0) l1 → Forall (λ c, c ≠ 0) l2 → list_strcmp l1 l2 = 0 ↔ l1 = l2.
Proof.
  intros H1. revert l2. induction H1 as [|c l1 Hc _ IH]; intros [|d l2] H2; cbn; try (apply Forall_cons in H2 as [Hd H2]).
  - done.
  - split; [lia|done].
  - split; [lia|done].
  - destruct (c =? d) eqn:E.
    + apply Z.eqb_eq in E as ->. rewrite (IH l2 H2). split; congruence.
    + apply Z.eqb_neq in E. split; [lia|congruence].
Qed.

Lemma strcmp_iter m l1 l2 p q : cstr m p l1 → cstr m q l2 →
  iter_nat (λ '(p, q), if negb (ld m p =? 0) && (ld m p =? ld m q) then inl (u32 (p + 1), u32 (q + 1))
                       else inr (ld m p - ld m q)) (S (length l1)) (p, q) = inr (list_strcmp l1 l2).
Proof.
  revert l2 p q. induction l1 as [|c l1 IH]; intros l2 p q Hp Hq; rewrite iter_S; cbn [length].
  - rewrite (cstr_end _ _ Hp). cbn. destruct l2 as [|d l2]; [by rewrite (cstr_end _ _ Hq)|].
    destruct (cstr_cons _ _ _ _ Hq) as (-> & _). done.
  - pose proof (cstr_next _ _ _ _ Hp) as Hup. destruct (cstr_cons _ _ _ _ Hp) as (Hc & Hne & Hp').
    rewrite Hc, (proj2 (Z.eqb_neq _ _) Hne). cbn. destruct l2 as [|d l2].
    + by rewrite (cstr_end _ _ Hq), (proj2 (Z.eqb_neq _ _) Hne).
    + pose proof (cstr_next _ _ _ _ Hq) as Huq. destruct (cstr_cons _ _ _ _ Hq) as (-> & _ & Hq').
      destruct (c =? d); [|done]. rewrite Hup, Huq. by apply IH.
Qed.

Lemma strcmp_spec m p q l1 l2 : cstr m p l1 → cstr m q l2 → strcmp m p q = Some (list_strcmp l1 l2).
Proof.
  intros Hp Hq. eapply while_iter; [by apply (strcmp_iter m l1 l2)|]. destruct Hp as (? & ? & _). lia.
Qed.

Lemma list_strcmp_0 l1 l2 : Forall (λ c, c ≠ 0) l1 → Forall (λ c, c ≠ 0) l2 → list_strcmp l1 l2 = 0 ↔ l1 = l2.
Proof.
  revert l2. induction l1 as [|c l1 IH]; intros [|d l2] H1 H2; cbn; [done|..].
  - apply Forall_cons in H2 as [? _]. split; [lia|done].
  - apply Forall_cons in H1 as [? _]. split; [lia|done].
  - apply Forall_cons in H1 as [_ H1]. apply Forall_cons in H2 as [_ H2]. destruct (c =? d) eqn:E.
    + apply Z.eqb_eq in E as ->. rewrite IH by done. split; congruence.
    + apply Z.eqb_neq in E. split; [lia|congruence].
Qed.

Lemma strchr_iter m l s c : 0 < c < 256 → cstr m s l →
  iter_nat (λ s, if ld m s =? 0 then inr 0 else if ld m s =? u8 c then inr s else inl (u32 (s + 1))) (S (length l)) s
    = inr (match list_find (λ x, x = c) l with Some (i, _) => s + Z.of_nat i | None => 0 end).
Proof.
  intros Hc. rewrite u8_small by lia. revert s. induction l as [|x l IH]; intros s Hs; rewrite iter_S; cbn [length list_find].
  - by rewrite (cstr_end _ _ Hs).
  - pose proof (cstr_next _ _ _ _ Hs) as Hu. destruct (cstr_cons _ _ _ _ Hs) as (-> & Hne & Hs').
    rewrite (proj2 (Z.eqb_neq _ _) Hne). case_decide as Hx.
    + subst. rewrite Z.eqb_refl. f_equal. lia.
    + rewrite (proj2 (Z.eqb_neq _ _) Hx), Hu, IH by done. destruct (list_find _ l) as [[i y]|]; cbn; [f_equal; lia|done].
Qed.

(** strchr finds the first occurrence. *)
Lemma strchr_spec m s l c : 0 < c < 256 → cstr m s l →
  strchr m s c = Some (match list_find (λ x, x = c) l with Some (i, _) => s + Z.of_nat i | None => 0 end).
Proof.
  intros Hc Hs. eapply while_iter; [by apply strchr_iter|]. destruct Hs as (? & ? & _). lia.
Qed.

(** *** Copying *)

Lemma cstr_ext m m' s l : cstr m s l → (∀ i, 0 ≤ i ≤ Z.of_nat (length l) → ld m' (s + i) = ld m (s + i)) → cstr m' s l.
Proof.
  intros (H1 & H2 & H3 & H4 & H5) He. split_and!; try done.
  - intros i c Hi. rewrite He; [by apply H4|]. apply lookup_lt_Some in Hi. lia.
  - rewrite He; [done|lia].
Qed.

Lemma strcpy_iter l m d s : cstr m s l → bytes_ok m → 0 ≤ d → d + Z.of_nat (length l) < 4294967296 →
  (d + Z.of_nat (length l) < s ∨ s + Z.of_nat (length l) < d) →
  iter_nat (λ '(m, dst, src), let c := ld m src in let m := st m dst c in
              if c =? 0 then inr m else inl (m, u32 (dst + 1), u32 (src + 1))) (S (length l)) (m, d, s)
    = inr (sts m d (l ++ [0])).
Proof.
  revert m d s. induction l as [|c l IH]; intros m d s Hs Hok Hd Hb Hdis; rewrite iter_S; cbn [length app sts] in *.
  - by rewrite (cstr_end _ _ Hs).
  - pose proof (cstr_next _ _ _ _ Hs) as Hu. destruct (cstr_cons _ _ _ _ Hs) as (Hc & Hne & Hs').
    rewrite Hc, (proj2 (Z.eqb_neq _ _) Hne), Hu, u32_small by lia. apply IH; [|by apply st_bytes_ok|lia|lia|lia].
    destruct Hs as (? & Hs2 & _). cbn in Hs2.
    eapply cstr_ext; [done|]. intros i Hi. rewrite ld_st_small by lia. rewrite decide_False; [done|lia].
Qed.

Lemma strcpy_spec m d s l : cstr m s l → bytes_ok m → 0 ≤ d → d + Z.of_nat (length l) < 4294967296 →
  (d + Z.of_nat (length l) < s ∨ s + Z.of_nat (length l) < d) →
  strcpy m d s = Some (sts m d (l ++ [0]), d).
Proof.
  intros Hs Hok Hd Hb Hdis. unfold strcpy.
  erewrite (while_iter _ (S (length l))); [done|by apply strcpy_iter|]. lia.
Qed.

End Strings.

(** ** Block operations *)

(** [m'] is [m] with the [n] bytes from [s] copied to [d], all at once. *)
Definition copied (m m' : mem) (d s n : Z) : Prop :=
  ∀ a, 0 ≤ a < 4294967296 → ld m' a = if decide (d ≤ a < d + n) then ld m (s + (a - d)) else ld m a.

(** [m'] is [m] with [n] bytes from [d] set to [c]. *)
Definition filled (m m' : mem) (d c n : Z) : Prop :=
  ∀ a, 0 ≤ a < 4294967296 → ld m' a = if decide (d ≤ a < d + n) then u8 c else ld m a.

Lemma u8_byte x : 0 ≤ x < 256 → u8 x = x.
Proof. apply u8_small. Qed.

Lemma copied_bytes_ok m m' d s n : bytes_ok m → copied m m' d s n → bytes_ok m'.
Proof.
  intros Hok Hc a. pose proof (Hc (u32 a) (u32_range a)) as H.
  assert (Hld : ∀ m : mem, ld m (u32 a) = ld m a) by (intros; unfold ld; by rewrite u32_idem). rewrite !Hld in H. rewrite H.
  case_decide; [apply Hok|]. apply Hok.
Qed.

Section Blocks.
Implicit Types (m : mem).

Lemma copied_byte m d s : bytes_ok m → 0 ≤ d < 4294967296 → copied m (st m d (ld m s)) d s 1.
Proof.
  intros Hok Hd a Ha. rewrite ld_st_small by done. rewrite u8_byte by apply Hok.
  repeat case_decide; try lia; try done. f_equal. lia.
Qed.

Lemma ld32_bytes m s : bytes_ok m →
  u8 (ld32 m s) = ld m s ∧ u8 (Z.shiftr (ld32 m s) 8) = ld m (s + 1) ∧
  u8 (Z.shiftr (ld32 m s) 16) = ld m (s + 2) ∧ u8 (Z.shiftr (ld32 m s) 24) = ld m (s + 3).
Proof.
  intros Hok. unfold ld32, u8. rewrite !Z.shiftr_div_pow2 by lia.
  pose proof (Hok s). pose proof (Hok (s + 1)). pose proof (Hok (s + 2)). pose proof (Hok (s + 3)).
  generalize dependent (ld m s). generalize dependent (ld m (s + 1)). generalize dependent (ld m (s + 2)).
  generalize dependent (ld m (s + 3)). intros b3 ? b2 ? b1 ? b0 ?.
  change (2 ^ 8) with 256. change (2 ^ 16) with 65536. change (2 ^ 24) with 16777216.
  split_and!; Z.to_euclidean_division_equations; lia.
Qed.

Lemma ld_st32 m d v a : 0 ≤ d → d + 4 ≤ 4294967296 → 0 ≤ a < 4294967296 →
  ld (st32 m d v) a = if decide (a = d) then u8 v else if decide (a = d + 1) then u8 (Z.shiftr v 8)
    else if decide (a = d + 2) then u8 (Z.shiftr v 16) else if decide (a = d + 3) then u8 (Z.shiftr v 24) else ld m a.
Proof. intros. unfold st32. rewrite !ld_st_small by lia. repeat case_decide; try lia; done. Qed.

Lemma copied_word m d s : bytes_ok m → 0 ≤ d → d + 4 ≤ 4294967296 → copied m (st32 m d (ld32 m s)) d s 4.
Proof.
  intros Hok Hd Hd4 a Ha. rewrite ld_st32 by lia. destruct (ld32_bytes m s Hok) as (-> & -> & -> & ->).
  repeat case_decide; try lia; try done; f_equal; lia.
Qed.

(** One more unit of [k] bytes at the front or at the back. *)
Lemma copied_front m m1 m2 d s k n :
  0 ≤ k → 0 ≤ n → 0 ≤ d → 0 ≤ s → d + k + n ≤ 4294967296 → s + k + n ≤ 4294967296 →
  (d ≤ s ∨ s + k + n ≤ d) → copied m m1 d s k → copied m1 m2 (d + k) (s + k) n → copied m m2 d s (k + n).
Proof.
  intros Hk Hn Hd Hs Hdb Hsb Hdis H1 H2 a Ha. rewrite H2 by done. case_decide as Hin.
  - rewrite H1 by lia. rewrite decide_False, decide_True by lia. f_equal. lia.
  - rewrite H1 by done. repeat case_decide; try lia; done.
Qed.

Lemma copied_back m m1 m2 d s k n :
  0 ≤ k → 0 ≤ n → 0 ≤ d → 0 ≤ s → d + k + n ≤ 4294967296 → s + k + n ≤ 4294967296 →
  s ≤ d → copied m m1 (d + n) (s + n) k → copied m1 m2 d s n → copied m m2 d s (n + k).
Proof.
  intros Hk Hn Hd Hs Hdb Hsb Hdis H1 H2 a Ha. rewrite H2 by done. case_decide as Hin.
  - rewrite H1 by lia. rewrite decide_False, decide_True by lia. done.
  - rewrite H1 by done. repeat case_decide; try lia; try done. f_equal. lia.
Qed.

Lemma copied_0 m d s : copied m m d s 0.
Proof. intros a Ha. by rewrite decide_False by lia. Qed.

Lemma rep_movsb_forward n m d s : bytes_ok m → 0 ≤ d → 0 ≤ s → d + Z.of_nat n ≤ 4294967296 → s + Z.of_nat n ≤ 4294967296 →
  (d ≤ s ∨ s + Z.of_nat n ≤ d) → copied m (rep_movsb n 1 m d s) d s (Z.of_nat n).
Proof.
  revert m d s. induction n as [|n IH]; intros m d s Hok Hd Hs Hdb Hsb Hdis; cbn [rep_movsb]; [apply copied_0|].
  assert (H1 : copied m (st m d (ld m s)) d s 1) by (apply copied_byte; [done|lia]).
  replace (Z.of_nat (S n)) with (1 + Z.of_nat n) by lia.
  eapply copied_front; [lia..|exact H1|]. destruct n as [|n]; [apply copied_0|].
  rewrite !u32_small by lia. apply IH; [by eapply copied_bytes_ok|lia..].
Qed.

Lemma rep_movsl_forward n m d s : bytes_ok m → 0 ≤ d → 0 ≤ s → d + 4 * Z.of_nat n ≤ 4294967296 → s + 4 * Z.of_nat n ≤ 4294967296 →
  (d ≤ s ∨ s + 4 * Z.of_nat n ≤ d) → copied m (rep_movsl n 1 m d s) d s (4 * Z.of_nat n).
Proof.
  revert m d s. induction n as [|n IH]; intros m d s Hok Hd Hs Hdb Hsb Hdis; cbn [rep_movsl]; [apply copied_0|].
  assert (H1 : copied m (st32 m d (ld32 m s)) d s 4) by (apply copied_word; [done|lia|lia]).
  replace (4 * Z.of_nat (S n)) with (4 + 4 * Z.of_nat n) by lia.
  eapply copied_front; [lia..|exact H1|]. destruct n as [|n]; [apply copied_0|].
  rewrite !u32_small by lia. apply IH; [by eapply copied_bytes_ok|lia..].
Qed.

Lemma rep_movsb_back n m d s : bytes_ok m → 0 ≤ d → 0 ≤ s → d + Z.of_nat n ≤ 4294967296 → s + Z.of_nat n ≤ 4294967296 →
  s ≤ d → copied m (rep_movsb n (-1) m (u32 (d + Z.of_nat n - 1)) (u32 (s + Z.of_nat n - 1))) d s (Z.of_nat n).
Proof.
  revert m. induction n as [|n IH]; intros m Hok Hd Hs Hdb Hsb Hdis; cbn [rep_movsb]; [apply copied_0|].
  rewrite !(u32_small (_ + Z.of_nat (S n) - 1)) by lia.
  set (m1 := st _ _ _). replace (Z.of_nat (S n)) with (Z.of_nat n + 1) by lia.
  assert (H1 : copied m m1 (d + Z.of_nat n) (s + Z.of_nat n) 1).
  { unfold m1. replace (d + Z.of_nat (S n) - 1) with (d + Z.of_nat n) by lia. replace (s + Z.of_nat (S n) - 1) with (s + Z.of_nat n) by lia.
    apply copied_byte; [done|lia]. }
  eapply copied_back; [lia..|exact H1|].
  replace (d + (Z.of_nat n + 1) - 1 + -1) with (d + Z.of_nat n - 1) by lia.
  replace (s + (Z.of_nat n + 1) - 1 + -1) with (s + Z.of_nat n - 1) by lia.
  apply IH; [by eapply copied_bytes_ok|lia..].
Qed.

Lemma rep_movsl_back n m d s : bytes_ok m → 0 ≤ d → 0 ≤ s → d + 4 * Z.of_nat n ≤ 4294967296 → s + 4 * Z.of_nat n ≤ 4294967296 →
  s ≤ d → copied m (rep_movsl n (-1) m (u32 (d + 4 * Z.of_nat n - 4)) (u32 (s + 4 * Z.of_nat n - 4))) d s (4 * Z.of_nat n).
Proof.
  revert m. induction n as [|n IH]; intros m Hok Hd Hs Hdb Hsb Hdis; cbn [rep_movsl]; [apply copied_0|].
  rewrite !(u32_small (_ + 4 * Z.of_nat (S n) - 4)) by lia.
  set (m1 := st32 _ _ _). replace (4 * Z.of_nat (S n)) with (4 * Z.of_nat n + 4) by lia.
  assert (H1 : copied m m1 (d + 4 * Z.of_nat n) (s + 4 * Z.of_nat n) 4).
  { unfold m1. replace (d + 4 * Z.of_nat (S n) - 4) with (d + 4 * Z.of_nat n) by lia.
    replace (s + 4 * Z.of_nat (S n) - 4) with (s + 4 * Z.of_nat n) by lia. apply copied_word; [done|lia|lia]. }
  eapply copied_back; [lia..|exact H1|].
  replace (d + (4 * Z.of_nat n + 4) - 4 + 4 * -1) with (d + 4 * Z.of_nat n - 4) by lia.
  replace (s + (4 * Z.of_nat n + 4) - 4 + 4 * -1) with (s + 4 * Z.of_nat n - 4) by lia.
  apply IH; [by eapply copied_bytes_ok|lia..].
Qed.

Lemma memmove_spec m d s n : bytes_ok m → 0 ≤ d → 0 ≤ s → 0 ≤ n → d + n < 4294967296 → s + n < 4294967296 →
  copied m (memmove m d s n) d s n.
Proof.
  intros Hok Hd Hs Hn Hdb Hsb. unfold memmove. rewrite !(u32_small (_ + n)) by lia.
  destruct ((s <? d) && (s + n >? d)) eqn:Hov.
  - destruct (_ && (n `mod` 4 =? 0)) eqn:Hal.
    + apply andb_true_iff in Hal as [_ Hal%Z.eqb_eq]. assert (Hn4 : n = 4 * Z.of_nat (Z.to_nat (n / 4))) by dlia.
      rewrite Hn4 at 2 3 4. apply rep_movsl_back; [done|lia..].
    + assert (Hn1 : n = Z.of_nat (Z.to_nat n)) by lia. rewrite Hn1 at 2 3 4. apply rep_movsb_back; [done|lia..].
  - destruct (_ && (n `mod` 4 =? 0)) eqn:Hal.
    + apply andb_true_iff in Hal as [_ Hal%Z.eqb_eq]. assert (Hn4 : n = 4 * Z.of_nat (Z.to_nat (n / 4))) by dlia.
      rewrite Hn4 at 2. apply rep_movsl_forward; [done|lia..].
    + assert (Hn1 : n = Z.of_nat (Z.to_nat n)) by lia. rewrite Hn1 at 2. apply rep_movsb_forward; [done|lia..].
Qed.

(** *** memset *)

Lemma rep_stosb_spec n m d c : 0 ≤ d → d + Z.of_nat n ≤ 4294967296 → filled m (rep_stosb n m d c) d c (Z.of_nat n).
Proof.
  revert m d. induction n as [|n IH]; intros m d Hd Hb a Ha; cbn [rep_stosb]; [by rewrite decide_False by lia|].
  destruct n as [|n].
  - cbn. rewrite ld_st_small by lia. repeat case_decide; try lia; done.
  - rewrite u32_small by lia. rewrite IH by lia. rewrite ld_st_small by lia. repeat case_decide; try lia; done.
Qed.

(** The four bytes of the word memset stores. *)
Lemma fill_word c : let w := Z.land c 0xFF in
  let w4 := Z.lor (Z.lor (Z.lor (Z.shiftl w 24) (Z.shiftl w 16)) (Z.shiftl w 8)) w in
  u8 w4 = u8 c ∧ u8 (Z.shiftr w4 8) = u8 c ∧ u8 (Z.shiftr w4 16) = u8 c ∧ u8 (Z.shiftr w4 24) = u8 c.
Proof.
  intros w. assert (Hw : w = u8 c) by (unfold w, u8; change 0xFF with (Z.ones 8); by rewrite Z.land_ones).
  assert (Hr : 0 ≤ w < 256) by (rewrite Hw; apply u8_range). clearbody w. rewrite <- Hw. clear c Hw.
  assert (H4 : Z.lor (Z.lor (Z.lor (Z.shiftl w 24) (Z.shiftl w 16)) (Z.shiftl w 8)) w = w * 16777216 + w * 65536 + w * 256 + w).
  { rewrite !Z.shiftl_mul_pow2 by lia. change (2 ^ 24) with 16777216. change (2 ^ 16) with 65536. change (2 ^ 8) with 256.
    rewrite (lor_add_disjoint (w * 16777216) (w * 65536) 24) by (try dlia; change (2 ^ 24) with 16777216; dlia).
    rewrite (lor_add_disjoint (w * 16777216 + w * 65536) (w * 256) 16) by (try dlia; change (2 ^ 16) with 65536; dlia).
    rewrite (lor_add_disjoint _ w 8) by (try dlia; change (2 ^ 8) with 256; dlia). done. }
  intros w4. unfold w4. rewrite H4. unfold u8. rewrite !Z.shiftr_div_pow2 by lia.
  change (2 ^ 8) with 256. change (2 ^ 16) with 65536. change (2 ^ 24) with 16777216. split_and!; dlia.
Qed.

Lemma rep_stosl_spec n m d w c : 0 ≤ d → d + 4 * Z.of_nat n ≤ 4294967296 →
  u8 w = u8 c → u8 (Z.shiftr w 8) = u8 c → u8 (Z.shiftr w 16) = u8 c → u8 (Z.shiftr w 24) = u8 c →
  filled m (rep_stosl n m d w) d c (4 * Z.of_nat n).
Proof.
  intros Hd Hb H0 H1 H2 H3. revert m d Hd Hb. induction n as [|n IH]; intros m d Hd Hb a Ha; cbn [rep_stosl].
  { by rewrite decide_False by lia. }
  destruct n as [|n].
  - cbn [rep_stosl]. rewrite ld_st32, H0, H1, H2, H3 by lia. repeat case_decide; try lia; done.
  - rewrite u32_small by lia. rewrite IH by lia. rewrite ld_st32, H0, H1, H2, H3 by lia. repeat case_decide; try lia; done.
Qed.

Lemma memset_spec m v c n : 0 ≤ v → 0 ≤ n → v + n ≤ 4294967296 → filled m (memset m v c n) v c n.
Proof.
  intros Hv Hn Hb. unfold memset. destruct (n =? 0) eqn:E0.
  { apply Z.eqb_eq in E0 as ->. intros a Ha. by rewrite decide_False by lia. }
  destruct (_ && _) eqn:Hal.
  - apply andb_true_iff in Hal as [_ Hal%Z.eqb_eq]. assert (Hn4 : n = 4 * Z.of_nat (Z.to_nat (n / 4))) by dlia.
    destruct (fill_word c) as (H0 & H1 & H2 & H3). rewrite Hn4 at 2. apply rep_stosl_spec; [lia|lia|done..].
  - assert (Hn1 : n = Z.of_nat (Z.to_nat n)) by lia. rewrite Hn1 at 2. apply rep_stosb_spec; lia.
Qed.

(** *** memcmp *)

Lemma memcmp_loop_spec n m a b : 0 ≤ a → 0 ≤ b → a + Z.of_nat n ≤ 4294967296 → b + Z.of_nat n ≤ 4294967296 →
  memcmp_loop n m a b = 0 ↔ ∀ i, 0 ≤ i < Z.of_nat n → ld m (a + i) = ld m (b + i).
Proof.
  revert a b. induction n as [|n IH]; intros a b Ha Hb Hab Hbb; cbn [memcmp_loop]; [split; [lia|done]|].
  destruct (ld m a =? ld m b) eqn:E; cbn.
  - apply Z.eqb_eq in E. destruct n as [|n].
    + cbn. split; [|done]. intros _ i Hi. replace i with 0 by lia. by rewrite !Z.add_0_r.
    + rewrite !u32_small, IH by lia. split; intros H i Hi.
      * destruct (decide (i = 0)) as [->|]; [by rewrite !Z.add_0_r|].
        replace (a + i) with (a + 1 + (i - 1)) by lia. replace (b + i) with (b + 1 + (i - 1)) by lia. apply H. lia.
      * rewrite <- !Z.add_assoc. apply H. lia.
  - apply Z.eqb_neq in E. split; [lia|]. intros H. destruct E. rewrite <- (Z.add_0_r a), <- (Z.add_0_r b). apply H. lia.
Qed.

Lemma memcmp_spec m a b n : 0 ≤ a → 0 ≤ b → 0 ≤ n → a + n ≤ 4294967296 → b + n ≤ 4294967296 →
  memcmp m a b n = 0 ↔ ∀ i, 0 ≤ i < n → ld m (a + i) = ld m (b + i).
Proof. intros. unfold memcmp. rewrite memcmp_loop_spec by lia. by rewrite Z2Nat.id. Qed.

End Blocks.

(** *** strlcpy *)

Lemma strlcpy_iter l (m : mem) d s k : cstr m s l → bytes_ok m → 0 ≤ d → (1 ≤ k)%nat → d + Z.of_nat k ≤ 4294967296 →
  (d + Z.of_nat k ≤ s ∨ s + Z.of_nat (length l) < d) →
  iter_nat (λ '(m, d, s, size), let size := size - 1 in
         if (size >? 0) && negb (ld m s =? 0) then inl (st m d (ld m s), u32 (d + 1), u32 (s + 1), size)
         else inr (m, d)) k (m, d, s, Z.of_nat k)
    = inr (sts m d (take (k - 1) l), d + Z.of_nat (length (take (k - 1) l))).
Proof.
  intros Hs Hok Hd Hk. destruct k as [|k]; [lia|]. clear Hk. revert l m d s Hs Hok Hd.
  induction k as [|k IH]; intros l m d s Hs Hok Hd Hb Hdis; rewrite iter_S.
  - cbn. by rewrite Z.add_0_r.
  - cbv beta iota zeta. replace (Z.of_nat (S (S k)) - 1) with (Z.of_nat (S k)) by lia. assert (Z.of_nat (S k) >? 0 = true) as -> by (apply Z.gtb_lt; lia).
    replace (S (S k) - 1)%nat with (S k) by lia. destruct l as [|c l]; cbn [andb].
    + rewrite (cstr_end _ _ Hs). cbn. by rewrite Z.add_0_r.
    + pose proof (cstr_next _ _ _ _ Hs) as Hu. destruct (cstr_cons _ _ _ _ Hs) as (Hc & Hne & Hs').
      rewrite Hc, (proj2 (Z.eqb_neq _ _) Hne), Hu, u32_small by lia. cbn [negb]. cbn in Hdis.
      rewrite (IH l); [|eapply cstr_ext; [done|]|by apply st_bytes_ok|lia..].
      * cbn [take sts length]. replace (S k - 1)%nat with k by lia. f_equal. f_equal. lia.
      * destruct Hs as (? & Hs2 & _). cbn in Hs2. intros i Hi. rewrite ld_st_small by lia. rewrite decide_False; [done|lia].
Qed.

Lemma strlcpy_spec (m : mem) d s l size : cstr m s l → bytes_ok m → 0 ≤ d → 1 ≤ size → d + size ≤ 4294967296 →
  (d + size ≤ s ∨ s + Z.of_nat (length l) < d) →
  let l' := take (Z.to_nat size - 1) l in
  strlcpy m d s size = Some (st (sts m d l') (d + Z.of_nat (length l')) 0, Z.of_nat (length l')).
Proof.
  intros Hs Hok Hd Hsz Hb Hdis l'. unfold strlcpy. destruct (size >? 0) eqn:E; [|lia].
  assert (Hk : size = Z.of_nat (Z.to_nat size)) by lia. rewrite Hk at 1.
  erewrite (while_iter _ (Z.to_nat size)); [|apply strlcpy_iter; try done; lia|lia]. cbn. do 2 f_equal.
  unfold l'. rewrite length_take. rewrite u32_small; lia.
Qed.
