(* ===== verification/Printf.v ===== *)
(** * Formatted output

    lib/printfmt.c, and its clients kern/printf.c, lib/printf.c and
    lib/fprintf.c.  Characters are integers; the calls of [putch] are the
    output list.  A format is the list of the characters before its
    terminator.  The variable arguments are a list of [varg]; reading one of
    the wrong kind, or one too many, is undefined behaviour ([Undefined]),
    and so are the signed overflows of "-err", "-(long long) num" and
    "width - 1".

    vprintfmt recurs on the rest of the format: every round consumes at least
    one character, so fuel [S (length fmt)] is enough ([vprintfmt_total]).
    printnum recurs on the number: 64 levels are enough for an unsigned long
    long in base 2 or more ([printnum_spec]).  Both report missing fuel as
    [NoFuel], which [vprintfmt_total] rules out for the two together. *)

From S2P Require Import Prelude Mmu CMem Str.

(** The bytes of a string literal. *)
Definition bytes_of (s : string) : list Z := (λ c, Z.of_N (Ascii.N_of_ascii c)) <$> String.list_ascii_of_string s.

Definition error_string (err : Z) : option string :=
  if err =? E_UNSPECIFIED then Some "unspecified error"
  else if err =? E_BAD_ENV then Some "bad environment"
  else if err =? E_INVAL then Some "invalid parameter"
  else if err =? E_NO_MEM then Some "out of memory"
  else if err =? E_NO_FREE_ENV then Some "out of environments"
  else if err =? E_FAULT then Some "segmentation fault"
  else if err =? E_IPC_NOT_RECV then Some "env is not recving"
  else if err =? E_EOF then Some "unexpected end of file"
  else if err =? E_NO_DISK then Some "no free space on disk"
  else if err =? E_MAX_OPEN then Some "too many files are open"
  else if err =? E_NOT_FOUND then Some "file or block not found"
  else if err =? E_BAD_PATH then Some "invalid path"
  else if err =? E_FILE_EXISTS then Some "file already exists"
  else if err =? E_NOT_EXEC then Some "file is not a valid executable"
  else if err =? E_NOT_SUPP then Some "operation not supported"
  else None.

(** ** Results *)

(** What formatting gives: the output, undefined behaviour of C, or more
    rounds than the fuel allows. *)
Inductive fres (A : Type) := Out (a : A) | Undefined | NoFuel.
Arguments Out {A} a.
Arguments Undefined {A}.
Arguments NoFuel {A}.
Global Instance fres_ret : MRet fres := λ A a, Out a.
Global Instance fres_bind : MBind fres := λ A B f m,
  match m with Out a => f a | Undefined => Undefined | NoFuel => NoFuel end.

(** ** Numbers *)

Definition INT_MIN : Z := -2147483648.
Definition LLONG_MIN : Z := -9223372036854775808.

(** [x] copies of [c] when [x > 0]: the loops [while (--width > 0)] and
    [for (; width > 0; width--)]. *)
Definition pad (x c : Z) : list Z := replicate (Z.to_nat x) c.

(** "0123456789abcdef"[d] *)
Definition digit_char (d : Z) : Z := if d <? 10 then 48 + d else 87 + d.

Fixpoint printnum_fuel (fuel : nat) (num base width padc : Z) : fres (list Z) :=
  match fuel with
  | O => NoFuel
  | S fuel =>
      if width =? INT_MIN then Undefined
      else
        out ← (if num >=? base then printnum_fuel fuel (num / base) base (width - 1) padc
               else Out (pad (width - 1) padc));
        Out (out ++ [digit_char (num `mod` base)])
  end.
Definition printnum (num base width padc : Z) : fres (list Z) := printnum_fuel 64 num base width padc.

(** ** Arguments *)

Inductive varg :=
| VInt (z : Z)                    (* a 32-bit word *)
| VLong (z : Z)                   (* a 64-bit word *)
| VStr (s : option (list Z)).     (* a string, or NULL *)

Definition u64 (x : Z) : Z := x `mod` 18446744073709551616.
Definition s64 (x : Z) : Z := (x + 9223372036854775808) `mod` 18446744073709551616 - 9223372036854775808.

Definition va_int (ap : list varg) : fres (Z * list varg) :=
  match ap with VInt z :: ap => Out (s32 z, ap) | _ => Undefined end.

Definition getuint (ap : list varg) (lflag : Z) : fres (Z * list varg) :=
  match ap with
  | VLong z :: ap => if lflag >=? 2 then Out (u64 z, ap) else Undefined
  | VInt z :: ap => if lflag >=? 2 then Undefined else Out (u32 z, ap)
  | _ => Undefined
  end.

Definition getint (ap : list varg) (lflag : Z) : fres (Z * list varg) :=
  match ap with
  | VLong z :: ap => if lflag >=? 2 then Out (s64 z, ap) else Undefined
  | VInt z :: ap => if lflag >=? 2 then Undefined else Out (s32 z, ap)
  | _ => Undefined
  end.

(** ** Escape sequences *)

Record flags := { padc : Z; width : Z; precision : Z; lflag : Z; altflag : bool }.
Definition no_flags : flags := {| padc := 32; width := -1; precision := -1; lflag := 0; altflag := false |}.

(** process_precision with the number [p] just read. *)
Definition process_precision (p : Z) (f : flags) : flags :=
  if width f <? 0 then Build_flags (padc f) p (-1) (lflag f) (altflag f)
  else Build_flags (padc f) (width f) p (lflag f) (altflag f).

Definition is_digit (c : Z) : bool := (48 <=? c) && (c <=? 57).

(** From reswitch to the conversion character: the flags, the character (0 at
    the end of the format), what follows it and the arguments left.  [num] is
    the number being read by the width-field loop. *)
Fixpoint scan (fmt : list Z) (num : option Z) (f : flags) (ap : list varg) : fres (flags * Z * list Z * list varg) :=
  match fmt with
  | [] => let f := match num with Some p => process_precision p f | None => f end in Out (f, 0, [], ap)
  | c :: fmt' =>
      let dispatch (f : flags) :=
        if c =? 45 then scan fmt' None (Build_flags 45 (width f) (precision f) (lflag f) (altflag f)) ap
        else if c =? 48 then scan fmt' None (Build_flags 48 (width f) (precision f) (lflag f) (altflag f)) ap
        else if is_digit c then scan fmt' (Some (c - 48)) f ap
        else if c =? 42 then '(p, ap) ← va_int ap; scan fmt' None (process_precision p f) ap
        else if c =? 46 then
          scan fmt' None (Build_flags (padc f) (if width f <? 0 then 0 else width f) (precision f) (lflag f) (altflag f)) ap
        else if c =? 35 then scan fmt' None (Build_flags (padc f) (width f) (precision f) (lflag f) true) ap
        else if c =? 108 then scan fmt' None (Build_flags (padc f) (width f) (precision f) (lflag f + 1) (altflag f)) ap
        else Out (f, c, fmt', ap) in
      match num with
      | Some p => if is_digit c then scan fmt' (Some (s32 (p * 10 + c - 48))) f ap else dispatch (process_precision p f)
      | None => dispatch f
      end
  end.

(** A char as an int. *)
Definition schar (c : Z) : Z := if c <? 128 then c else c - 256.

(** The %s conversion. *)
Definition put_str (f : flags) (o : option (list Z)) : list Z :=
  let p := default (bytes_of "(null)") o in
  let n := if precision f <? 0 then Z.of_nat (length p) else Z.min (Z.of_nat (length p)) (precision f) in
  let left := (width f >? 0) && negb (padc f =? 45) in
  let w := if left then width f - n else width f in
  let body := (λ c, let c := schar c in if altflag f && ((c <? 32) || (c >? 126)) then 63 else c)
              <$> take (Z.to_nat n) p in
  let w' := (if left then Z.min w 0 else w) - n in
  (if left then pad w (padc f) else []) ++ body ++ pad w' 32.

(** The %d conversion of a value already fetched. *)
Definition put_int (num : Z) (f : flags) : fres (list Z) :=
  if num <? 0 then
    if num =? LLONG_MIN then Undefined
    else out ← printnum (- num) 10 (width f) (padc f); Out (45 :: out)
  else printnum num 10 (width f) (padc f).

(** The %e conversion.  The smallest int has no negation: where it wraps
    around, it passes the test against MAXERROR and indexes the table far
    below its start. *)
Definition put_err (err : Z) : fres (list Z) :=
  if err =? INT_MIN then Undefined
  else
    let err := if err <? 0 then - err else err in
    match error_string err with
    | Some s => Out (bytes_of s)
    | None => out ← put_int err no_flags; Out (bytes_of "error " ++ out)
    end.

Fixpoint vprintfmt_fuel (fuel : nat) (fmt : list Z) (ap : list varg) : fres (list Z) :=
  match fuel with
  | O => NoFuel
  | S fuel =>
      match fmt with
      | [] => Out []
      | c :: fmt =>
          if negb (c =? 37) then out ← vprintfmt_fuel fuel fmt ap; Out (c :: out)
          else
            '(f, c, rest, ap) ← scan fmt None no_flags ap;
            let go (m : fres (list Z)) (ap : list varg) := out ← m; out' ← vprintfmt_fuel fuel rest ap; Out (out ++ out') in
            if c =? 99 then '(z, ap) ← va_int ap; go (Out [z]) ap
            else if c =? 101 then '(err, ap) ← va_int ap; go (put_err err) ap
            else if c =? 115 then match ap with VStr o :: ap => go (Out (put_str f o)) ap | _ => Undefined end
            else if c =? 100 then '(num, ap) ← getint ap (lflag f); go (put_int num f) ap
            else if c =? 117 then '(num, ap) ← getuint ap (lflag f); go (printnum num 10 (width f) (padc f)) ap
            else if c =? 111 then '(num, ap) ← getuint ap (lflag f); go (printnum num 8 (width f) (padc f)) ap
            else if c =? 112 then '(num, ap) ← getuint ap 0; go (out ← printnum num 16 (width f) (padc f); Out (48 :: 120 :: out)) ap
            else if c =? 120 then '(num, ap) ← getuint ap (lflag f); go (printnum num 16 (width f) (padc f)) ap
            else if c =? 37 then go (Out [37]) ap
            else out ← vprintfmt_fuel fuel fmt ap; Out (37 :: out)
      end
  end.
Definition vprintfmt (fmt : list Z) (ap : list varg) : fres (list Z) := vprintfmt_fuel (S (length fmt)) fmt ap.

(** ** snprintf *)

(** struct sprintbuf *)
Record sprintbuf := { sb_mem : mem; sb_buf : Z; sb_ebuf : Z; sb_cnt : Z }.

Definition sprintputch (b : sprintbuf) (c : Z) : sprintbuf :=
  let cnt := s32 (sb_cnt b + 1) in
  if sb_buf b <? sb_ebuf b
  then {| sb_mem := st (sb_mem b) (sb_buf b) c; sb_buf := sb_buf b + 1; sb_ebuf := sb_ebuf b; sb_cnt := cnt |}
  else {| sb_mem := sb_mem b; sb_buf := sb_buf b; sb_ebuf := sb_ebuf b; sb_cnt := cnt |}.

Definition vsnprintf (m : mem) (buf n : Z) (fmt : list Z) (ap : list varg) : fres (mem * Z) :=
  if (buf =? 0) || (n <? 1) then Out (m, - E_INVAL)
  else
    out ← vprintfmt fmt ap;
    let b := foldl sprintputch {| sb_mem := m; sb_buf := buf; sb_ebuf := buf + n - 1; sb_cnt := 0 |} out in
    Out (st (sb_mem b) (sb_buf b) 0, sb_cnt b).

(** ** The users of vprintfmt *)

(** kern/printf.c: the characters go to cputchar; [*cnt++] moves the pointer,
    so the count stays 0. *)
Definition kern_vcprintf (fmt : list Z) (ap : list varg) : fres (list Z * Z) :=
  out ← vprintfmt fmt ap; Out (out, 0).

(** lib/printf.c: [sent] are the buffers passed to sys_cputs, oldest first. *)
Record printbuf := { pb_buf : list Z; pb_cnt : Z; pb_sent : list (list Z) }.

Definition putch (b : printbuf) (c : Z) : printbuf :=
  let buf := pb_buf b ++ [u8 c] in
  let cnt := s32 (pb_cnt b + 1) in
  if Z.of_nat (length buf) =? 256 - 1
  then {| pb_buf := []; pb_cnt := cnt; pb_sent := pb_sent b ++ [buf] |}
  else {| pb_buf := buf; pb_cnt := cnt; pb_sent := pb_sent b |}.

Definition user_vcprintf (fmt : list Z) (ap : list varg) : fres (list (list Z) * Z) :=
  out ← vprintfmt fmt ap;
  let b := foldl putch {| pb_buf := []; pb_cnt := 0; pb_sent := [] |} out in
  Out (pb_sent b ++ [pb_buf b], pb_cnt b).

(** lib/fprintf.c, for a descriptor whose write is [write]: given the number
    of the call and the buffer it returns what the call returns. *)
Record fprintbuf := { fb_buf : list Z; fb_result : Z; fb_error : Z; fb_sent : list (list Z) }.

Section Fprintf.
Variable write : nat → list Z → Z.

Definition writebuf (b : fprintbuf) : fprintbuf :=
  if fb_error b >? 0 then
    let result := write (length (fb_sent b)) (fb_buf b) in
    let total := if result >? 0 then s32 (fb_result b + result) else fb_result b in
    let error := if negb (result =? Z.of_nat (length (fb_buf b)))
                 then (if result <? 0 then result else 0) else fb_error b in
    {| fb_buf := fb_buf b; fb_result := total; fb_error := error; fb_sent := fb_sent b ++ [fb_buf b] |}
  else b.

Definition fputch (b : fprintbuf) (c : Z) : fprintbuf :=
  let b := {| fb_buf := fb_buf b ++ [u8 c]; fb_result := fb_result b; fb_error := fb_error b; fb_sent := fb_sent b |} in
  if Z.of_nat (length (fb_buf b)) =? 256
  then let b := writebuf b in {| fb_buf := []; fb_result := fb_result b; fb_error := fb_error b; fb_sent := fb_sent b |}
  else b.

Definition vfprintf (fmt : list Z) (ap : list varg) : fres (fprintbuf * Z) :=
  out ← vprintfmt fmt ap;
  let b := foldl fputch {| fb_buf := []; fb_result := 0; fb_error := 1; fb_sent := [] |} out in
  let b := if Z.of_nat (length (fb_buf b)) >? 0 then writebuf b else b in
  Out (b, if ctrue (fb_result b) then fb_result b else fb_error b).
End Fprintf.
