(* ===== verification/PrintfProofs.v ===== *)
(** * Formatted output is correct

    printnum prints the digits of its number, vprintfmt ends on every
    format, snprintf stays inside its buffer, the buffered writers lose no
    character, and strtol reads back what "%d" printed. *)

From S2P Require Import Prelude Mmu CMem Str StrProofs Printf.

(** ** Digits *)

(** The number a list of digits denotes, most significant digit first. *)
Definition digits_value (base : Z) (ds : list Z) : Z := foldl (λ acc d, acc * base + d) 0 ds.

Lemma digits_value_app base ds d : digits_value base (ds ++ [d]) = digits_value base ds * base + d.
Proof. unfold digits_value. by rewrite foldl_app. Qed.

(** [ds] is the shortest list of digits for [num]. *)
Definition digits_of (base num : Z) (ds : list Z) : Prop :=
  digits_value base ds = num ∧ Forall (λ d, 0 ≤ d < base) ds ∧ ds ≠ [] ∧ (hd_error ds = Some 0 → ds = [0]).

(** One more digit. *)
Lemma digits_of_snoc base num ds : 2 ≤ base → base ≤ num →
  digits_of base (num / base) ds → digits_of base num (ds ++ [num `mod` base]).
Proof.
  intros Hb Hge (Hv & Hr & Hne & Hhd). split_and!.
  - rewrite digits_value_app, Hv. pose proof (Z.div_mod num base). lia.
  - apply Forall_app. split; [done|]. constructor; [|done]. apply Z.mod_pos_bound. lia.
  - by destruct ds.
  - destruct ds as [|d ds]; [done|]. cbn. intros [= ->]. specialize (Hhd eq_refl). injection Hhd as ->.
    cbn in Hv. assert (base / base ≤ num / base) by (apply Z.div_le_mono; lia). rewrite Z.div_same in H by lia. lia.
Qed.

(** printnum either prints the number or runs into the overflow of [width],
    which only a width next to INT_MIN allows. *)
Lemma printnum_fuel_spec fuel num base width padc :
  2 ≤ base → 0 ≤ num < base ^ Z.of_nat fuel → (0 < fuel)%nat →
  (printnum_fuel fuel num base width padc = Undefined ∧ width < INT_MIN + Z.of_nat fuel) ∨
  ∃ ds, digits_of base num ds ∧
    printnum_fuel fuel num base width padc = Out (pad (width - Z.of_nat (length ds)) padc ++ (digit_char <$> ds)).
Proof.
  intros Hb. revert num width. induction fuel as [|fuel IH]; intros num width Hn Hf; [lia|]. cbn [printnum_fuel].
  destruct (width =? INT_MIN) eqn:Hw; [left; split; [done|lia]|].
  destruct (num >=? base) eqn:Hge.
  - assert (Hge' : base ≤ num) by lia. assert (Hfuel : (0 < fuel)%nat).
    { destruct fuel; [|lia]. change (Z.of_nat 1) with 1 in Hn. rewrite Z.pow_1_r in Hn. lia. }
    rewrite Nat2Z.inj_succ, Z.pow_succ_r in Hn by lia.
    destruct (IH (num / base) (width - 1)) as [[-> ?]|(ds & Hds & ->)]; [|done|left; split; [done|lia]|].
    { split; [apply Z.div_pos; lia|]. apply Z.div_lt_upper_bound; lia. }
    right. exists (ds ++ [num `mod` base]). split; [by apply digits_of_snoc|].
    unfold mbind, fres_bind. rewrite length_app, fmap_app, <- app_assoc. cbn [length fmap list_fmap]. do 3 f_equal. lia.
  - right. exists [num]. assert (Hlt : num < base) by lia. unfold mbind, fres_bind. rewrite Z.mod_small by lia. split; [|done].
    split_and!; [cbn; lia|by constructor; [lia|]|done|]. intros [= ->]. done.
Qed.

Lemma printnum_cases num base width padc : 2 ≤ base → 0 ≤ num < 18446744073709551616 →
  (printnum num base width padc = Undefined ∧ width < INT_MIN + 64) ∨
  ∃ ds, digits_of base num ds ∧
    printnum num base width padc = Out (pad (width - Z.of_nat (length ds)) padc ++ (digit_char <$> ds)).
Proof.
  intros Hb Hn. apply (printnum_fuel_spec 64); [done| |lia]. split; [lia|].
  assert (2 ^ 64 ≤ base ^ 64) by (apply Z.pow_le_mono_l; lia). change (Z.of_nat 64) with 64.
  change (2 ^ 64) with 18446744073709551616 in *. lia.
Qed.

Lemma printnum_spec num base width padc : 2 ≤ base → 0 ≤ num < 18446744073709551616 → INT_MIN + 64 ≤ width →
  ∃ ds, digits_of base num ds ∧
    printnum num base width padc = Out (pad (width - Z.of_nat (length ds)) padc ++ (digit_char <$> ds)).
Proof. intros Hb Hn Hw. destruct (printnum_cases num base width padc Hb Hn) as [[_ ?]|?]; [lia|done]. Qed.

(** ** Termination *)

(** A result that is not for want of fuel, and whose value satisfies [P]. *)
Definition ends {A} (P : A → Prop) (r : fres A) : Prop :=
  match r with Out a => P a | Undefined => True | NoFuel => False end.

Lemma ends_bind {A B} (P : A → Prop) (Q : B → Prop) (m : fres A) (k : A → fres B) :
  ends P m → (∀ a, P a → ends Q (k a)) → ends Q (m ≫= k).
Proof. destruct m as [a| |]; cbn; auto. Qed.

Lemma printnum_ends num base width padc : 2 ≤ base → 0 ≤ num < 18446744073709551616 →
  ends (λ _, True) (printnum num base width padc).
Proof. intros Hb Hn. by destruct (printnum_cases num base width padc Hb Hn) as [[-> _]|(ds & _ & ->)]. Qed.

Lemma va_int_ends ap : ends (λ '(z, _), -2147483648 ≤ z < 2147483648) (va_int ap).
Proof. destruct ap as [|[z|z|o] ap]; cbn; [done|apply s32_range|done|done]. Qed.
Lemma getuint_ends ap l : ends (λ '(z, _), 0 ≤ z < 18446744073709551616) (getuint ap l).
Proof.
  unfold getuint. destruct ap as [|[z|z|o] ap]; cbn; [done| |..|done]; destruct (l >=? 2); cbn; try done.
  - unfold u32. pose proof (Z.mod_pos_bound z 4294967296). lia.
  - apply Z.mod_pos_bound. lia.
Qed.
Lemma getint_ends ap l : ends (λ '(z, _), LLONG_MIN ≤ z < 9223372036854775808) (getint ap l).
Proof.
  unfold getint, LLONG_MIN. destruct ap as [|[z|z|o] ap]; cbn; [done| |..|done]; destruct (l >=? 2); cbn; try done.
  - pose proof (s32_range z). lia.
  - unfold s64. pose proof (Z.mod_pos_bound (z + 9223372036854775808) 18446744073709551616). lia.
Qed.

Lemma put_int_ends num f : LLONG_MIN ≤ num < 9223372036854775808 → ends (λ _, True) (put_int num f).
Proof.
  unfold LLONG_MIN. intros Hn. unfold put_int. destruct (num <? 0) eqn:E; [|apply printnum_ends; lia].
  destruct (num =? LLONG_MIN); [done|]. eapply ends_bind; [apply printnum_ends; lia|]. done.
Qed.
Lemma put_err_ends err : -2147483648 ≤ err < 2147483648 → ends (λ _, True) (put_err err).
Proof.
  intros He. unfold put_err. destruct (err =? INT_MIN) eqn:E; [done|]. unfold INT_MIN in E. cbv zeta.
  destruct (error_string _); [done|]. eapply ends_bind; [|by intros]. apply put_int_ends. unfold LLONG_MIN. destruct (err <? 0); lia.
Qed.

(** Scanning an escape sequence leaves at most the characters it was given. *)
Lemma scan_ends fmt num f ap : ends (λ '(_, _, rest, _), (length rest ≤ length fmt)%nat) (scan fmt num f ap).
Proof.
  revert num f ap. induction fmt as [|c fmt IH]; intros num f ap; [cbn; lia|].
  assert (Hgo : ∀ num f ap, ends (λ '(_, _, rest, _), (length rest ≤ S (length fmt))%nat) (scan fmt num f ap)).
  { intros num' f' ap'. pose proof (IH num' f' ap') as H. destruct (scan fmt num' f' ap') as [[[[? ?] ?] ?]| |]; cbn in *; lia || done. }
  assert (Hva : ∀ f, ends (λ '(_, _, rest, _), (length rest ≤ S (length fmt))%nat)
                       ('(p, ap) ← va_int ap; scan fmt None (process_precision p f) ap)).
  { intros f'. eapply ends_bind; [apply va_int_ends|]. intros [p ap'] _. apply Hgo. }
  cbn [scan length]. cbv zeta. repeat first [apply Hgo | apply Hva | case_match | cbn; lia].
Qed.

Lemma vprintfmt_fuel_ends fuel fmt ap : (length fmt < fuel)%nat → ends (λ _, True) (vprintfmt_fuel fuel fmt ap).
Proof.
  revert fmt ap. induction fuel as [|fuel IH]; intros fmt ap Hf; [lia|]. destruct fmt as [|c fmt]; [done|]. cbn [length] in Hf.
  cbn [vprintfmt_fuel]. destruct (negb (c =? 37)); [by eapply ends_bind; [apply IH; lia|]|].
  eapply ends_bind; [apply scan_ends|]. intros [[[f c'] rest] ap'] Hs. cbv zeta.
  assert (Hgo : ∀ (m : fres (list Z)) ap, ends (λ _, True) m →
    ends (λ _, True) (out ← m; out' ← vprintfmt_fuel fuel rest ap; Out (out ++ out'))).
  { intros m ap0 Hm. eapply ends_bind; [exact Hm|]. intros out _. by eapply ends_bind; [apply IH; lia|]. }
  pose proof (va_int_ends ap') as Hv. pose proof (getint_ends ap' (lflag f)) as Hg. pose proof (getuint_ends ap') as Hu.
  repeat case_match; try done; try by apply Hgo.
  all: try (eapply ends_bind; [first [exact Hv|exact Hg|apply Hu]|]; intros [z ap0] Hz; apply Hgo).
  all: try first [done | by apply put_err_ends | by apply put_int_ends | by apply printnum_ends].
  - by eapply ends_bind; [by apply printnum_ends|].
  - by eapply ends_bind; [apply IH; lia|].
Qed.

Lemma vprintfmt_total fmt ap : vprintfmt fmt ap ≠ NoFuel.
Proof.
  pose proof (vprintfmt_fuel_ends (S (length fmt)) fmt ap ltac:(lia)) as H. unfold vprintfmt. intros E. by rewrite E in H.
Qed.

(** ** Buffers *)

Lemma sts_app m a l1 l2 : sts m a (l1 ++ l2) = sts (sts m a l1) (a + Z.of_nat (length l1)) l2.
Proof.
  revert m a. induction l1 as [|x l1 IH]; intros m a; cbn; [by rewrite Z.add_0_r|]. rewrite IH. f_equal. lia.
Qed.

Lemma sprintputch_spec out m buf k cnt : 0 ≤ cnt → cnt + Z.of_nat (length out) < 2147483648 →
  foldl sprintputch {| sb_mem := m; sb_buf := buf; sb_ebuf := buf + Z.of_nat k; sb_cnt := cnt |} out =
  {| sb_mem := sts m buf (take k out); sb_buf := buf + Z.of_nat (length (take k out));
     sb_ebuf := buf + Z.of_nat k; sb_cnt := cnt + Z.of_nat (length out) |}.
Proof.
  revert m buf k cnt. induction out as [|x out IH]; intros m buf k cnt Hc Hb; cbn [foldl length] in *.
  - rewrite take_nil. cbn. by rewrite !Z.add_0_r.
  - unfold sprintputch at 2. cbn [sb_buf sb_ebuf sb_cnt sb_mem]. rewrite s32_small by lia. destruct k as [|k].
    + rewrite Z.add_0_r, Z.ltb_irrefl. pose proof (IH m buf 0%nat (cnt + 1) ltac:(lia) ltac:(lia)) as H.
      rewrite Z.add_0_r in H. rewrite H. cbn. f_equal. lia.
    + assert (buf <? buf + Z.of_nat (S k) = true) as -> by (apply Z.ltb_lt; lia).
      replace (buf + Z.of_nat (S k)) with (buf + 1 + Z.of_nat k) by lia. rewrite IH by lia. cbn. f_equal; lia.
Qed.

(** snprintf writes the output, cut off to fit, and a terminator. *)
Lemma vsnprintf_spec m buf n fmt ap out :
  vprintfmt fmt ap = Out out → 0 < buf → 1 ≤ n → Z.of_nat (length out) < 2147483648 →
  vsnprintf m buf n fmt ap = Out (sts m buf (take (Z.to_nat (n - 1)) out ++ [0]), Z.of_nat (length out)).
Proof.
  intros Hout Hbuf Hn Hlen. unfold vsnprintf. destruct (_ || _) eqn:E; [lia|]. rewrite Hout. cbn.
  replace (buf + n - 1) with (buf + Z.of_nat (Z.to_nat (n - 1))) by lia.
  rewrite sprintputch_spec by lia. cbn. by rewrite sts_app.
Qed.

Lemma putch_spec out b : (length (pb_buf b) < 255)%nat → 0 ≤ pb_cnt b → pb_cnt b + Z.of_nat (length out) < 2147483648 →
  let b' := foldl putch b out in
  concat (pb_sent b') ++ pb_buf b' = concat (pb_sent b) ++ pb_buf b ++ (u8 <$> out) ∧
  (length (pb_buf b') < 255)%nat ∧ pb_cnt b' = pb_cnt b + Z.of_nat (length out) ∧
  (Forall (λ l, length l = 255%nat) (pb_sent b) → Forall (λ l, length l = 255%nat) (pb_sent b')).
Proof.
  revert b. induction out as [|x out IH]; intros b Hb Hc Hl; cbn [foldl length] in *.
  - rewrite fmap_nil, app_nil_r. split_and!; [done..|lia|done].
  - assert (Hp : let b1 := putch b x in concat (pb_sent b1) ++ pb_buf b1 = concat (pb_sent b) ++ pb_buf b ++ [u8 x] ∧
        (length (pb_buf b1) < 255)%nat ∧ pb_cnt b1 = pb_cnt b + 1 ∧
        (Forall (λ l, length l = 255%nat) (pb_sent b) → Forall (λ l, length l = 255%nat) (pb_sent b1))).
    { unfold putch. rewrite s32_small, length_app by lia. cbn [length]. destruct (_ =? 256 - 1) eqn:E; [apply Z.eqb_eq in E|apply Z.eqb_neq in E]; cbn [pb_buf pb_cnt pb_sent].
      - rewrite concat_app. cbn [concat]. rewrite !app_nil_r. split_and!; [done|cbn; lia|done|]. intros H. apply Forall_app. split; [done|].
        constructor; [|done]. rewrite length_app. cbn [length]. lia.
      - rewrite length_app. cbn [length]. split_and!; [done|lia|done|done]. }
    cbv zeta in Hp. destruct Hp as (H1 & H2 & H3 & H4). destruct (IH (putch b x)) as (I1 & I2 & I3 & I4); [done|lia|lia|].
    split_and!; [|done|lia|by auto]. rewrite I1, app_assoc, H1, fmap_cons. by rewrite <- !app_assoc.
Qed.

(** Everything printed reaches the console, in order, in chunks that fit the
    buffer. *)
Lemma user_vcprintf_spec fmt ap out :
  vprintfmt fmt ap = Out out → Z.of_nat (length out) < 2147483648 →
  ∃ sent, user_vcprintf fmt ap = Out (sent, Z.of_nat (length out)) ∧ concat sent = u8 <$> out ∧
    Forall (λ l, (length l ≤ 255)%nat) sent.
Proof.
  intros Hout Hlen. unfold user_vcprintf. rewrite Hout. cbn.
  destruct (putch_spec out {| pb_buf := []; pb_cnt := 0; pb_sent := [] |}) as (H1 & H2 & H3 & H4); [cbn; lia|done|done|].
  eexists. rewrite H3. split; [done|]. rewrite concat_app. cbn [concat]. rewrite app_nil_r, H1. split; [done|].
  apply Forall_app. split; [|constructor; [lia|done]].
  eapply Forall_impl; [apply H4; constructor|]. intros l ->. lia.
Qed.

(** ** Reading numbers back *)

Lemma digit_of_char d : 0 ≤ d < 10 → digit_of (digit_char d) = Some d.
Proof.
  intros Hd. unfold digit_of, digit_char. assert (d <? 10 = true) as -> by lia.
  assert ((48 + d >=? 48) && (48 + d <=? 57) = true) as -> by lia. f_equal. lia.
Qed.

Lemma digit_char_range d : 0 ≤ d < 10 → 48 ≤ digit_char d ≤ 57.
Proof. intros. unfold digit_char. destruct (d <? 10) eqn:E; lia. Qed.

Lemma digits_grow l a : 0 ≤ a → Forall (λ d, 0 ≤ d < 10) l → a ≤ foldl (λ acc d, acc * 10 + d) a l.
Proof.
  revert a. induction l as [|x l IH]; intros a Ha Hl; cbn; [lia|]. apply Forall_cons in Hl as [Hx Hl].
  specialize (IH (a * 10 + x) ltac:(lia) Hl). lia.
Qed.

(** The digit loop of strtol over the decimal digits [ds], from value [v]. *)
Lemma strtol_digits m s ds v : cstr m s (digit_char <$> ds) → Forall (λ d, 0 ≤ d < 10) ds → 0 ≤ v →
  foldl (λ acc d, acc * 10 + d) v ds < 2147483648 →
  iter_nat (λ '(s, val), match digit_of (ld m s) with
    | None => inr (s, val)
    | Some dig => if dig >=? 10 then inr (s, val) else inl (u32 (s + 1), s32 (val * 10 + dig))
    end) (S (length ds)) (s, v) = inr (s + Z.of_nat (length ds), foldl (λ acc d, acc * 10 + d) v ds).
Proof.
  revert s v. induction ds as [|d ds IH]; intros s v Hs Hd Hv Hb; rewrite iter_S; cbn [length foldl fmap list_fmap] in *.
  - rewrite (cstr_end _ _ Hs). cbn. by rewrite Z.add_0_r.
  - apply Forall_cons in Hd as [Hd Hds]. pose proof (cstr_next _ _ _ _ Hs) as Hu. destruct (cstr_cons _ _ _ _ Hs) as (Hc & _ & Hs').
    rewrite Hc, digit_of_char by lia. assert (d >=? 10 = false) as -> by lia.
    pose proof (digits_grow ds (v * 10 + d) ltac:(lia) Hds). rewrite Hu, s32_small by lia. rewrite IH; [|done|done|lia|done].
    do 2 f_equal. lia.
Qed.

Lemma cstr_sts (m : mem) a l : 0 ≤ a → a + Z.of_nat (length l) < 4294967296 → Forall (λ c, 0 < c < 256) l →
  cstr (sts m a (l ++ [0])) a l.
Proof.
  intros Ha Hb Hl. split; [done|]. split; [done|]. split; [eapply Forall_impl; [done|]; intros; cbn in *; lia|].
  assert (Hlen : Z.of_nat (length (l ++ [0])) = Z.of_nat (length l) + 1) by (rewrite length_app; cbn; lia). split.
  - intros i c Hi. pose proof (lookup_lt_Some _ _ _ Hi). rewrite ld_sts by lia. rewrite decide_True by lia.
    replace (Z.to_nat (a + Z.of_nat i - a)) with i by lia. rewrite lookup_app_l, Hi by lia.
    apply u8_small. rewrite Forall_lookup in Hl. apply Hl in Hi. lia.
  - rewrite ld_sts by lia. rewrite decide_True by lia. replace (Z.to_nat (a + Z.of_nat (length l) - a)) with (length l) by lia.
    rewrite lookup_app_r, Nat.sub_diag by lia. done.
Qed.

Lemma vprintfmt_d n : vprintfmt (bytes_of "%d") [VInt n] = put_int (s32 n) no_flags.
Proof.
  unfold vprintfmt. change (bytes_of "%d") with [37; 100]. cbn [length vprintfmt_fuel Z.eqb Pos.eqb negb scan].
  unfold mbind, fres_bind. cbn. destruct (put_int (s32 n) no_flags); [by rewrite app_nil_r|done..].
Qed.

(** The loops of strtol. *)
Lemma strtol_blank (m : mem) s : ld m s ≠ 32 → ld m s ≠ 9 →
  while (λ s, if (ld m s =? 32) || (ld m s =? 9) then inl (u32 (s + 1)) else inr s) s = Some s.
Proof.
  intros H1 H2. apply (while_iter _ 1); [|lia]. cbn.
  by rewrite (proj2 (Z.eqb_neq _ _) H1), (proj2 (Z.eqb_neq _ _) H2).
Qed.

(** strtol on decimal digits after an optional sign. *)
Lemma strtol_decimal (m : mem) s ds (neg : bool) :
  cstr m s ((if neg then [45] else []) ++ (digit_char <$> ds)) → ds ≠ [] → Forall (λ d, 0 ≤ d < 10) ds →
  digits_value 10 ds < 2147483648 →
  ∃ e, strtol m s 10 = Some (if neg then - digits_value 10 ds else digits_value 10 ds, e).
Proof.
  intros Hs Hne Hd Hv. pose proof (digits_grow ds 0 ltac:(lia) Hd) as Hnn. fold (digits_value 10 ds) in Hnn.
  destruct ds as [|d ds]; [done|]. pose proof (Forall_inv Hd) as Hd0. pose proof (digit_char_range d Hd0) as Hr. unfold strtol.
  assert (Hlen : ∀ s', cstr m s' (digit_char <$> d :: ds) → Z.of_nat (S (length (d :: ds))) ≤ 8589934592).
  { intros s' (? & Hl & _). rewrite length_fmap in Hl. lia. }
  destruct neg; cbn [app] in Hs.
  - pose proof (cstr_next _ _ _ _ Hs) as Hu. destruct (cstr_cons _ _ _ _ Hs) as (Hc & _ & Hs').
    rewrite strtol_blank by lia. cbn. rewrite Hc. cbn. rewrite Hu.
    erewrite (while_iter _ (S (length (d :: ds)))); [|by apply strtol_digits|by eapply Hlen].
    cbn [mbind option_bind]. fold (digits_value 10 (d :: ds)). rewrite s32_small by lia. eauto.
  - destruct (cstr_cons _ _ _ _ Hs) as (Hc & _ & _). rewrite strtol_blank by lia. cbn. rewrite Hc.
    rewrite !(proj2 (Z.eqb_neq (digit_char d) _)) by lia. cbn.
    erewrite (while_iter _ (S (length (d :: ds)))); [|by apply strtol_digits|by eapply Hlen]. cbn. eauto.
Qed.

(** What "%d" prints. *)
Lemma put_int_spec n : -2147483648 < n < 2147483648 →
  ∃ ds, digits_of 10 (Z.abs n) ds ∧ put_int n no_flags = Out ((if n <? 0 then [45] else []) ++ (digit_char <$> ds)).
Proof.
  intros Hn. unfold put_int. cbn [width padc no_flags]. destruct (n <? 0) eqn:E.
  all: rewrite ?(proj2 (Z.eqb_neq n LLONG_MIN)) by (unfold LLONG_MIN; lia).
  - destruct (printnum_spec (- n) 10 (-1) 32) as (ds & Hds & ->); [lia|lia|done|]. exists ds.
    replace (Z.abs n) with (- n) by lia. split; [done|]. unfold pad. replace (Z.to_nat _) with 0%nat by lia. done.
  - destruct (printnum_spec n 10 (-1) 32) as (ds & Hds & ->); [lia|lia|done|]. exists ds.
    replace (Z.abs n) with n by lia. split; [done|]. unfold pad. replace (Z.to_nat _) with 0%nat by lia. done.
Qed.

Lemma digits_lower l a : 0 ≤ a → Forall (λ d, 0 ≤ d < 10) l →
  a * 10 ^ Z.of_nat (length l) ≤ foldl (λ acc d, acc * 10 + d) a l.
Proof.
  revert a. induction l as [|x l IH]; intros a Ha Hl; cbn [length foldl]; [lia|]. apply Forall_cons in Hl as [Hx Hl].
  specialize (IH (a * 10 + x) ltac:(lia) Hl). rewrite Nat2Z.inj_succ, Z.pow_succ_r by lia.
  assert (0 < 10 ^ Z.of_nat (length l)) by (apply Z.pow_pos_nonneg; lia). nia.
Qed.

Lemma digits_length n ds : digits_of 10 n ds → n < 10000000000 → (length ds ≤ 10)%nat.
Proof.
  intros (Hv & Hd & Hne & Hhd) Hn. destruct ds as [|d ds]; [done|]. destruct (decide (d = 0)) as [->|Hd0].
  { rewrite (Hhd eq_refl). cbn. lia. }
  apply Forall_cons in Hd as [Hd Hds]. unfold digits_value in Hv. cbn [foldl] in Hv.
  pose proof (digits_lower ds (0 * 10 + d) ltac:(lia) Hds) as Hlow. rewrite Hv in Hlow. cbn [length].
  destruct (decide (length ds ≤ 9)%nat); [lia|exfalso].
  assert (10 ^ 10 ≤ 10 ^ Z.of_nat (length ds)) by (apply Z.pow_le_mono_r; lia). change (10 ^ 10) with 10000000000 in *. nia.
Qed.

(** Printing with "%d" into a large enough buffer and reading with strtol. *)
Lemma print_read_spec (m : mem) buf n size :
  -2147483648 < n < 2147483648 → 0 < buf → 12 ≤ size → buf + size ≤ 4294967296 →
  ∃ m' len e, vsnprintf m buf size (bytes_of "%d") [VInt n] = Out (m', len) ∧ strtol m' buf 10 = Some (n, e).
Proof.
  intros Hn Hbuf Hsz Hb. destruct (put_int_spec n Hn) as (ds & Hds & Hput).
  pose proof (digits_length _ _ Hds ltac:(lia)) as Hlen. destruct Hds as (Hv & Hd & Hne & _).
  set (out := (if n <? 0 then [45] else []) ++ (digit_char <$> ds)) in *.
  assert (Hol : (length out ≤ 11)%nat) by (unfold out; rewrite length_app, length_fmap; destruct (n <? 0); cbn; lia).
  assert (Hpr : vprintfmt (bytes_of "%d") [VInt n] = Out out) by (rewrite vprintfmt_d, s32_small by lia; done).
  do 2 eexists. rewrite (vsnprintf_spec m buf size _ _ out) by (done || lia). rewrite take_ge by lia.
  destruct (strtol_decimal (sts m buf (out ++ [0])) buf ds (n <? 0)) as [e He].
  - fold out. apply cstr_sts; [lia|lia|]. apply Forall_app. split; [destruct (n <? 0); repeat constructor|].
    apply Forall_fmap. eapply Forall_impl; [exact Hd|]. intros d Hd'. cbn. pose proof (digit_char_range d Hd'). lia.
  - done.
  - done.
  - lia.
  - exists e. split; [done|]. rewrite He, Hv. do 2 f_equal. destruct (n <? 0) eqn:E; lia.
Qed.
