(* ===== verification/LibProps.v ===== *)
(** * Properties of the C library

    lib/string.c, lib/printfmt.c and the printing functions built on them:
    the routines implement the list functions they are meant to, stay within
    the memory they are given, and always terminate. *)

From S2P Require Import Prelude Mmu CMem Str StrProofs Printf PrintfProofs.

(** A memory that holds two strings. *)
Definition two_strings : mem := sts (sts ∅ 4096 (bytes_of "hello" ++ [0])) 8192 (bytes_of "help" ++ [0]).

Lemma two_strings_ok : bytes_ok two_strings.
Proof. do 2 apply sts_bytes_ok. intros a. unfold ld. rewrite lookup_empty. cbn. lia. Qed.
Lemma hello_cstr : cstr two_strings 4096 (bytes_of "hello").
Proof.
  split; [done|]. split; [done|]. split; [repeat constructor; discriminate|]. split; [|reflexivity].
  intros i c Hi. do 5 (destruct i as [|i]; [injection Hi as <-; reflexivity|]). discriminate Hi.
Qed.
Lemma help_cstr : cstr two_strings 8192 (bytes_of "help").
Proof.
  split; [done|]. split; [done|]. split; [repeat constructor; discriminate|]. split; [|reflexivity].
  intros i c Hi. do 4 (destruct i as [|i]; [injection Hi as <-; reflexivity|]). discriminate Hi.
Qed.

(** ** Memory *)

(** C27: memmove copies [n] bytes as if through a temporary buffer, whatever
    the overlap and the alignment of source and destination, and changes
    nothing else. *)
Theorem memmove_correct m d s n :
  bytes_ok m → 0 ≤ d → 0 ≤ s → 0 ≤ n → d + n < 4294967296 → s + n < 4294967296 →
  copied m (memmove m d s n) d s n.
Proof. apply memmove_spec. Qed.

Lemma memmove_correct_witness : copied two_strings (memmove two_strings 4098 4096 8) 4098 4096 8.
Proof. apply memmove_correct; [exact two_strings_ok|done..]. Defined.

(** memset fills exactly the [n] bytes from [v] with the low byte of
    [c], by words or by bytes. *)
Theorem memset_correct m v c n : 0 ≤ v → 0 ≤ n → v + n ≤ 4294967296 → filled m (memset m v c n) v c n.
Proof. apply memset_spec. Qed.

Lemma memset_correct_witness : filled two_strings (memset two_strings 4096 (-1) 12) 4096 (-1) 12.
Proof. apply memset_correct; done. Defined.

(** ** Strings *)

(** strlcpy copies at most [size - 1] characters, always terminates the
    destination and returns the length of what it copied; nothing outside
    the [size] bytes of the destination changes. *)
Theorem strlcpy_correct m d s l size :
  cstr m s l → bytes_ok m → 0 ≤ d → 1 ≤ size → d + size ≤ 4294967296 →
  (d + size ≤ s ∨ s + Z.of_nat (length l) < d) →
  let l' := take (Z.to_nat size - 1) l in
  strlcpy m d s size = Some (st (sts m d l') (d + Z.of_nat (length l')) 0, Z.of_nat (length l')).
Proof. apply strlcpy_spec. Qed.

Lemma strlcpy_correct_witness :
  strlcpy two_strings 100 4096 4 =
  Some (st (sts two_strings 100 (take (Z.to_nat 4 - 1) (bytes_of "hello"))) (100 + Z.of_nat (length (take (Z.to_nat 4 - 1) (bytes_of "hello")))) 0,
        Z.of_nat (length (take (Z.to_nat 4 - 1) (bytes_of "hello")))).
Proof. apply (strlcpy_correct two_strings 100 4096 (bytes_of "hello") 4); [exact hello_cstr|exact two_strings_ok|done|done|done|left; done]. Defined.

(** strcmp terminates on two terminated strings and returns the
    difference of the first characters in which they differ, as unsigned
    bytes; it is 0 exactly for equal strings. *)
Theorem strcmp_correct m p q l1 l2 : cstr m p l1 → cstr m q l2 →
  strcmp m p q = Some (list_strcmp l1 l2) ∧ (list_strcmp l1 l2 = 0 ↔ l1 = l2).
Proof. intros H1 H2. split; [by apply strcmp_spec|]. apply list_strcmp_eq; [by apply H1|by apply H2]. Qed.

Lemma strcmp_correct_witness : strcmp two_strings 4096 8192 = Some (-4).
Proof. exact (proj1 (strcmp_correct two_strings 4096 8192 _ _ hello_cstr help_cstr)). Defined.

(** ** Formatted output *)

(** printnum prints the digits of the number in the given base, most
    significant first and without leading zeros, padded on the left to the
    width. *)
Theorem printnum_correct num base width padc : 2 ≤ base → 0 ≤ num < 18446744073709551616 → INT_MIN + 64 ≤ width →
  ∃ ds, digits_of base num ds ∧
    printnum num base width padc = Out (pad (width - Z.of_nat (length ds)) padc ++ (digit_char <$> ds)).
Proof. apply printnum_spec. Qed.

Lemma printnum_correct_witness :
  ∃ ds, digits_of 16 0xBEEF ds ∧ printnum 0xBEEF 16 8 48 = Out (pad (8 - Z.of_nat (length ds)) 48 ++ (digit_char <$> ds)).
Proof. apply printnum_correct; done. Defined.

(** C28: vprintfmt terminates on every format, well formed or not, and on
    every list of arguments: neither the rounds over the format nor the
    recursion of printnum on a number of 64 bits, in each of the bases 8, 10
    and 16, runs out of the fuel they are given. *)
Theorem vprintfmt_terminates fmt ap : vprintfmt fmt ap ≠ NoFuel.
Proof. apply vprintfmt_total. Qed.

(** Vsnprintf stores at most [n] bytes: the formatted text cut after
    [n - 1] characters and a terminator; it returns the length of the whole
    text. *)
Theorem vsnprintf_bounded m buf n fmt ap out :
  vprintfmt fmt ap = Out out → 0 < buf → 1 ≤ n → Z.of_nat (length out) < 2147483648 →
  vsnprintf m buf n fmt ap = Out (sts m buf (take (Z.to_nat (n - 1)) out ++ [0]), Z.of_nat (length out)).
Proof. apply vsnprintf_spec. Qed.

Lemma vsnprintf_bounded_witness :
  vsnprintf ∅ 4096 4 (bytes_of "%d items") [VInt 12] = Out (sts ∅ 4096 (bytes_of "12 " ++ [0]), 8).
Proof. exact (vsnprintf_bounded ∅ 4096 4 (bytes_of "%d items") [VInt 12] (bytes_of "12 items") eq_refl eq_refl ltac:(discriminate) eq_refl). Defined.

(** cprintf of a user environment sends everything it formats to the
    console, in order, in system calls of at most 255 characters, and returns
    the number of characters. *)
Theorem user_cprintf_complete fmt ap out :
  vprintfmt fmt ap = Out out → Z.of_nat (length out) < 2147483648 →
  ∃ sent, user_vcprintf fmt ap = Out (sent, Z.of_nat (length out)) ∧ concat sent = u8 <$> out ∧
    Forall (λ l, (length l ≤ 255)%nat) sent.
Proof. apply user_vcprintf_spec. Qed.

Lemma user_cprintf_complete_witness :
  ∃ sent, user_vcprintf (bytes_of "%08x") [VInt 0xBEEF] = Out (sent, 8) ∧ concat sent = u8 <$> bytes_of "0000beef" ∧
    Forall (λ l, (length l ≤ 255)%nat) sent.
Proof. exact (user_cprintf_complete (bytes_of "%08x") [VInt 0xBEEF] (bytes_of "0000beef") eq_refl eq_refl). Defined.

(** C29: strtol reads back what snprintf printed with %d. *)
Theorem print_read_roundtrip m buf n size :
  -2147483648 < n < 2147483648 → 0 < buf → 12 ≤ size → buf + size ≤ 4294967296 →
  ∃ m' len e, vsnprintf m buf size (bytes_of "%d") [VInt n] = Out (m', len) ∧ strtol m' buf 10 = Some (n, e).
Proof. apply print_read_spec. Qed.

Lemma print_read_roundtrip_witness :
  ∃ m' len e, vsnprintf ∅ 4096 12 (bytes_of "%d") [VInt (-2147483647)] = Out (m', len) ∧
    strtol m' 4096 10 = Some (-2147483647, e).
Proof. apply print_read_roundtrip; done. Defined.
