(* ===== verification/FsState.v ===== *)
(** * The file server's machine

    fs/fs.h, inc/fs.h and the state the file server (fs/) works on: its
    memory, the disk it drives, and what it sees of the kernel.

    The disk controller is hardware: its ports are the operational class
    [Ata], and [Ata] is a parameter of everything that does I/O.  The pages
    of the block cache region [DISKMAP, DISKMAP+DISKSIZE) come and go
    ([mapped]) and carry a dirty bit ([dirty]); the rest of the server's
    memory (stack, data, the request page, descriptor pages) is always
    accessible.  [nomem] are the kernel's coming answers to sys_page_alloc:
    true is -E_NO_MEM, and it has memory once the list is used up. *)

From S2P Require Import Prelude Mmu CMem Str.

(** ** The controller *)

Class Ata (D : Type) := {
  ata_inb : Z → D → Z * D;                (* port *)
  ata_outb : Z → Z → D → D;               (* port, byte *)
  ata_insl : Z → Z → D → list Z * D;      (* port, number of 32-bit words *)
  ata_outsl : Z → list Z → D → D          (* port, bytes *)
}.

(** ** Constants *)

Definition SECTSIZE : Z := 512.
Definition BLKSIZE : Z := PGSIZE.
Definition BLKSECTS : Z := BLKSIZE / SECTSIZE.
Definition DISKMAP : Z := 0x10000000.
Definition DISKSIZE : Z := 0xC0000000.
Definition BLKBITSIZE : Z := BLKSIZE * 8.
Definition MAXNAMELEN : Z := 128.
Definition MAXPATHLEN : Z := 1024.
Definition NDIRECT : Z := 10.
Definition NINDIRECT : Z := BLKSIZE / 4.
Definition MAXFILESIZE : Z := (NDIRECT + NINDIRECT) * BLKSIZE.
Definition SIZEOF_FILE : Z := 256.
Definition BLKFILES : Z := BLKSIZE / SIZEOF_FILE.
Definition FTYPE_REG : Z := 0.
Definition FTYPE_DIR : Z := 1.
Definition FS_MAGIC : Z := 0x4A0530AE.

(** Field addresses of [struct File] at [f] and [struct Super] at [p]. *)
Definition f_name (f : Z) : Z := f.
Definition f_size (f : Z) : Z := f + 128.
Definition f_type (f : Z) : Z := f + 132.
Definition f_direct (f i : Z) : Z := f + 136 + 4 * i.
Definition f_indirect (f : Z) : Z := f + 176.
Definition s_magic (p : Z) : Z := p.
Definition s_nblocks (p : Z) : Z := p + 4.
Definition s_root (p : Z) : Z := p + 8.

(** ** State *)

(** struct OpenFile; [o_fd] is the address of its descriptor page. *)
Record OpenFile := { o_fileid : Z; o_file : Z; o_mode : Z; o_fd : Z }.

Record FState (D : Type) := {
  um : mem;                     (* memory *)
  mapped : gset Z;              (* cached blocks *)
  dirty : gset Z;               (* cached blocks with PTE_D set *)
  dev : D;                      (* the disk controller *)
  diskno : Z;
  super : Z;                    (* 0 until fs_init sets it *)
  bitmap : Z;
  nomem : list bool;
  pagerefs : gmap Z Z;          (* pp_ref of the pages at descriptor addresses *)
  opentab : gmap Z OpenFile;
  log : list string             (* cprintf, newest first *)
}.
Arguments um {D}. Arguments mapped {D}. Arguments dirty {D}. Arguments dev {D}. Arguments diskno {D}.
Arguments super {D}. Arguments bitmap {D}. Arguments nomem {D}. Arguments pagerefs {D}. Arguments opentab {D}.
Arguments log {D}. Arguments Build_FState {D}.

Section Setters.
Context {D : Type}.
Implicit Types s : FState D.
Definition set_um v s := Build_FState v (mapped s) (dirty s) (dev s) (diskno s) (super s) (bitmap s) (nomem s) (pagerefs s) (opentab s) (log s).
Definition set_mapped v s := Build_FState (um s) v (dirty s) (dev s) (diskno s) (super s) (bitmap s) (nomem s) (pagerefs s) (opentab s) (log s).
Definition set_dirty v s := Build_FState (um s) (mapped s) v (dev s) (diskno s) (super s) (bitmap s) (nomem s) (pagerefs s) (opentab s) (log s).
Definition set_dev (v : D) s := Build_FState (um s) (mapped s) (dirty s) v (diskno s) (super s) (bitmap s) (nomem s) (pagerefs s) (opentab s) (log s).
Definition set_diskno v s := Build_FState (um s) (mapped s) (dirty s) (dev s) v (super s) (bitmap s) (nomem s) (pagerefs s) (opentab s) (log s).
Definition set_super v s := Build_FState (um s) (mapped s) (dirty s) (dev s) (diskno s) v (bitmap s) (nomem s) (pagerefs s) (opentab s) (log s).
Definition set_bitmap v s := Build_FState (um s) (mapped s) (dirty s) (dev s) (diskno s) (super s) v (nomem s) (pagerefs s) (opentab s) (log s).
Definition set_nomem v s := Build_FState (um s) (mapped s) (dirty s) (dev s) (diskno s) (super s) (bitmap s) v (pagerefs s) (opentab s) (log s).
Definition set_pagerefs v s := Build_FState (um s) (mapped s) (dirty s) (dev s) (diskno s) (super s) (bitmap s) (nomem s) v (opentab s) (log s).
Definition set_opentab v s := Build_FState (um s) (mapped s) (dirty s) (dev s) (diskno s) (super s) (bitmap s) (nomem s) (pagerefs s) v (log s).
Definition set_log v s := Build_FState (um s) (mapped s) (dirty s) (dev s) (diskno s) (super s) (bitmap s) (nomem s) (pagerefs s) (opentab s) v.
End Setters.

(** Why the server does not go on: a panic, a loop or a chain of nested page
    faults that does not end, or an index outside [opentab]. *)
Inductive fstop := FPanic (msg : string) | FSpin | FUb.

Definition FS (D A : Type) : Type := M (FState D) fstop A.

Section Prims.
Context {D : Type}.
Notation F := (FS D).
Definition fpanic {A} (msg : string) : F A := stop (FPanic msg).
Definition fassert (b : bool) (msg : string) : F unit := if b then mret tt else fpanic msg.
Definition fprint (msg : string) : F unit := modify (λ s, set_log (msg :: log s) s).

(** The page of the disk map an address lies in. *)
Definition in_cache (a : Z) : bool := (DISKMAP <=? a) && (a <? DISKMAP + DISKSIZE).
Definition blk_of (a : Z) : Z := (a - DISKMAP) / BLKSIZE.

(** A page of zeroes at [va], or -E_NO_MEM. *)
Definition sys_page_alloc_at (va : Z) : F Z :=
  l ← gets nomem;
  match l with
  | true :: l => modify (set_nomem l) ;; mret (- E_NO_MEM)
  | _ =>
      modify (set_nomem (tail l)) ;;
      modify (λ s, set_um (memset (um s) va 0 PGSIZE) s) ;;
      (if in_cache va then modify (λ s, set_mapped ({[blk_of va]} ∪ mapped s) s)
       else modify (λ s, set_pagerefs (<[va := 1]> (pagerefs s)) s)) ;;
      mret 0
  end.

(** Remapping a page of the cache onto itself clears its dirty bit. *)
Definition sys_page_remap (va : Z) : F Z :=
  modify (λ s, set_dirty (dirty s ∖ {[blk_of va]}) s) ;; mret 0.
End Prims.
