(* ===== verification/Ide.v ===== *)
(** * The IDE driver: fs/ide.c

    Programmed I/O through the controller [Ata].  Polling the status port is
    a [while] loop; 2^33 polls without an answer count as a hang. *)

From S2P Require Import Prelude Mmu CMem FsState.

Definition IDE_BSY : Z := 0x80.
Definition IDE_DRDY : Z := 0x40.
Definition IDE_DF : Z := 0x20.
Definition IDE_ERR : Z := 0x01.

Section Ide.
Context {D : Type} `{Ata D}.
Notation F := (FS D).

Definition inb (port : Z) : F Z :=
  d ← gets dev; let '(r, d') := ata_inb port d in modify (set_dev d') ;; mret r.
Definition outb (port v : Z) : F unit := modify (λ s, set_dev (ata_outb port (u8 v) (dev s)) s).
(** The blocks of the cache that [n] bytes from [a] lie in. *)
Definition cache_blocks (a n : Z) : gset Z :=
  list_to_set (blk_of <$> filter (λ x, in_cache x = true) ((λ i, u32 (a + i)) <$> range 0 n)).

(** The stores make the pages they hit dirty.  A destination in the cache is
    mapped: bc_pgfault, the only caller, has just allocated it. *)
Definition insl (port dst cnt : Z) : F unit :=
  d ← gets dev;
  let '(bytes, d') := ata_insl port cnt d in
  modify (set_dev d') ;;
  modify (λ s, set_um (sts (um s) dst bytes) s) ;;
  modify (λ s, set_dirty (cache_blocks dst (4 * cnt) ∪ dirty s) s).
Definition outsl (port src cnt : Z) : F unit :=
  modify (λ s, set_dev (ata_outsl port (lds (um s) src (4 * cnt)) (dev s)) s).

Definition ide_wait_ready (check_error : bool) : F Z :=
  d ← gets dev;
  match while (λ d, let '(r, d') := ata_inb 0x1F7 d in
                    if Z.land r (Z.lor IDE_BSY IDE_DRDY) =? IDE_DRDY then inr (r, d') else inl d') d with
  | None => stop FSpin
  | Some (r, d') =>
      modify (set_dev d') ;;
      mret (if check_error && negb (Z.land r (Z.lor IDE_DF IDE_ERR) =? 0) then -1 else 0)
  end.

(** The polling loop of ide_probe_disk1: the value of [x] when it ends. *)
Fixpoint probe_loop (fuel : nat) (x : Z) : F Z :=
  match fuel with
  | O => mret x
  | S fuel =>
      if x <? 1000 then
        r ← inb 0x1F7;
        if negb (Z.land r (Z.lor IDE_BSY (Z.lor IDE_DF IDE_ERR)) =? 0) then probe_loop fuel (x + 1) else mret x
      else mret x
  end.

Definition ide_probe_disk1 : F bool :=
  ide_wait_ready false ;;
  outb 0x1F6 (Z.lor 0xE0 (Z.shiftl 1 4)) ;;
  x ← probe_loop 1000 0;
  outb 0x1F6 (Z.lor 0xE0 (Z.shiftl 0 4)) ;;
  fprint "Device 1 presence: %d" ;;
  mret (x <? 1000).

Definition ide_set_disk (d : Z) : F unit :=
  if negb (d =? 0) && negb (d =? 1) then fpanic "bad disk number" else modify (set_diskno d).

Fixpoint ide_read_loop (nsecs : nat) (dst : Z) : F Z :=
  match nsecs with
  | O => mret 0
  | S nsecs =>
      r ← ide_wait_ready true;
      if r <? 0 then mret r
      else insl 0x1F0 dst (SECTSIZE / 4) ;; ide_read_loop nsecs (u32 (dst + SECTSIZE))
  end.

Definition ide_read (secno dst nsecs : Z) : F Z :=
  fassert (nsecs <=? 256) "nsecs <= 256" ;;
  ide_wait_ready false ;;
  outb 0x1F2 nsecs ;;
  outb 0x1F3 (Z.land secno 0xFF) ;;
  outb 0x1F4 (Z.land (Z.shiftr secno 8) 0xFF) ;;
  outb 0x1F5 (Z.land (Z.shiftr secno 16) 0xFF) ;;
  d ← gets diskno;
  outb 0x1F6 (Z.lor (Z.lor 0xE0 (Z.shiftl (Z.land d 1) 4)) (Z.land (Z.shiftr secno 24) 0x0F)) ;;
  outb 0x1F7 0x20 ;;
  ide_read_loop (Z.to_nat nsecs) dst.

Fixpoint ide_write_loop (nsecs : nat) (src : Z) : F Z :=
  match nsecs with
  | O => mret 0
  | S nsecs =>
      r ← ide_wait_ready true;
      if r <? 0 then mret r
      else outsl 0x1F0 src (SECTSIZE / 4) ;; ide_write_loop nsecs (u32 (src + SECTSIZE))
  end.

Definition ide_write (secno src nsecs : Z) : F Z :=
  fassert (nsecs <=? 256) "nsecs <= 256" ;;
  ide_wait_ready false ;;
  outb 0x1F2 nsecs ;;
  outb 0x1F3 (Z.land secno 0xFF) ;;
  outb 0x1F4 (Z.land (Z.shiftr secno 8) 0xFF) ;;
  outb 0x1F5 (Z.land (Z.shiftr secno 16) 0xFF) ;;
  d ← gets diskno;
  outb 0x1F6 (Z.lor (Z.lor 0xE0 (Z.shiftl (Z.land d 1) 4)) (Z.land (Z.shiftr secno 24) 0x0F)) ;;
  outb 0x1F7 0x30 ;;
  ide_write_loop (Z.to_nat nsecs) src.

End Ide.
