(* ===== verification/Bc.v ===== *)
(** * The block cache: fs/bc.c

    Every access of the server to the disk map goes through the MMU: an
    access to a page that is not mapped runs bc_pgfault, which loads the
    block, and a store sets the page's dirty bit.  bc_pgfault itself reads
    the super block and the bitmap, so faults nest; [FAULT_DEPTH] levels are
    enough once the super block is cached ([touch_spec]).  Accesses of 32-bit
    fields are aligned, so they touch one page. *)

From S2P Require Import Prelude Mmu CMem Str FsState Ide.

Section Bc.
Context {D : Type} `{Ata D}.
Notation F := (FS D).

(** ** Accesses, for a given fault handler *)

Section Access.
Variable fault : Z → F unit.

Definition touch_with (a : Z) : F unit :=
  if in_cache a then
    m ← gets mapped;
    if bool_decide (blk_of a ∈ m) then mret tt else fault a
  else mret tt.

Definition load32_with (a : Z) : F Z := touch_with a ;; gets (λ s, ld32 (um s) a).

Definition block_is_free_with (blockno : Z) : F bool :=
  sup ← gets super;
  if sup =? 0 then mret false
  else
    n ← load32_with (s_nblocks sup);
    if blockno >=? n then mret false
    else
      bm ← gets bitmap;
      w ← load32_with (bm + 4 * (blockno / 32));
      mret (ctrue (Z.land w (Z.shiftl 1 (blockno `mod` 32)))).
End Access.

(** ** The page fault handler *)

Fixpoint bc_pgfault (depth : nat) (addr : Z) : F unit :=
  match depth with
  | O => stop FSpin
  | S depth =>
      let blockno := u32 (addr - DISKMAP) / BLKSIZE in
      if negb (in_cache addr) then fpanic "page fault in FS"
      else
        sup ← gets super;
        bad ← (if ctrue sup
               then n ← load32_with (bc_pgfault depth) (s_nblocks sup); mret (blockno >=? n)
               else mret false);
        if bad : bool then fpanic "reading non-existent block"
        else
          let addr := ROUNDDOWN addr PGSIZE in
          r ← sys_page_alloc_at addr;
          if r <? 0 then fpanic "bc_pgfault failed: sys_page_alloc"
          else
            r ← ide_read (u32 (blockno * BLKSECTS)) addr BLKSECTS;
            if r <? 0 then fpanic "bc_pgfault failed: ide_read"
            else
              r ← sys_page_remap addr;
              if r <? 0 then fpanic "in bc_pgfault, sys_page_map"
              else
                bm ← gets bitmap;
                free ← (if ctrue bm then block_is_free_with (bc_pgfault depth) blockno else mret false);
                if free : bool then fpanic "reading free block" else mret tt
  end.

Definition FAULT_DEPTH : nat := 3.

(** ** Accesses *)

Definition touch (a : Z) : F unit := touch_with (bc_pgfault FAULT_DEPTH) a.
Definition load32 (a : Z) : F Z := load32_with (bc_pgfault FAULT_DEPTH) a.
Definition block_is_free (blockno : Z) : F bool := block_is_free_with (bc_pgfault FAULT_DEPTH) blockno.
Definition load8 (a : Z) : F Z := touch a ;; gets (λ s, ld (um s) a).

(** A store to the page of [a]. *)
Definition touch_w (a : Z) : F unit :=
  touch a ;; if in_cache a then modify (λ s, set_dirty ({[blk_of a]} ∪ dirty s) s) else mret tt.
Definition store8 (a v : Z) : F unit := touch_w a ;; modify (λ s, set_um (st (um s) a v) s).
Definition store32 (a v : Z) : F unit := touch_w a ;; modify (λ s, set_um (st32 (um s) a v) s).

(** The first address of every page [a, a+n) meets. *)
Definition pages_of (a n : Z) : list Z :=
  if n =? 0 then []
  else (λ p, p * PGSIZE) <$> range (a / PGSIZE) ((a + n - 1) / PGSIZE + 1).

(** memset and memmove of lib/string.c on the server's memory; a fault in the
    middle of a rep instruction resumes it. *)
Definition fs_memset (a c n : Z) : F unit :=
  forM (pages_of a n) touch_w ;; modify (λ s, set_um (memset (um s) a c n) s).
Definition fs_memmove (dst src n : Z) : F unit :=
  forM (pages_of src n) touch ;;
  forM (pages_of dst n) touch_w ;;
  modify (λ s, set_um (memmove (um s) dst src n) s).

(** ** bc.c *)

Definition diskaddr (blockno : Z) : F Z :=
  if blockno =? 0 then fpanic "bad block number in diskaddr"
  else
    sup ← gets super;
    bad ← (if ctrue sup then n ← load32 (s_nblocks sup); mret (blockno >=? n) else mret false);
    if bad : bool then fpanic "bad block number in diskaddr"
    else mret (u32 (DISKMAP + blockno * BLKSIZE)).

Definition va_is_mapped (va : Z) : F bool := gets (λ s, bool_decide (blk_of va ∈ mapped s)).
Definition va_is_dirty (va : Z) : F bool := gets (λ s, bool_decide (blk_of va ∈ dirty s)).

Definition flush_block (addr : Z) : F unit :=
  let blockno := u32 (addr - DISKMAP) / BLKSIZE in
  if negb (in_cache addr) then fpanic "flush_block of bad va"
  else
    let addr := ROUNDDOWN addr PGSIZE in
    m ← va_is_mapped addr;
    d ← (if m : bool then va_is_dirty addr else mret false);
    if d : bool then
      r ← ide_write (u32 (blockno * BLKSECTS)) addr BLKSECTS;
      if r <? 0 then fpanic "flush_block failed: ide_write"
      else
        r ← sys_page_remap addr;
        if r <? 0 then fpanic "flush_block failed: sys_page_map" else mret tt
    else mret tt.

(** sizeof(struct Super) *)
Definition SIZEOF_SUPER : Z := 264.

(** A local copy of [n] bytes, and putting it back. *)
Definition backup (a n : Z) : F (list Z) := forM (pages_of a n) touch ;; gets (λ s, lds (um s) a n).
Definition restore (a : Z) (l : list Z) : F unit :=
  forM (pages_of a (Z.of_nat (length l))) touch_w ;; modify (λ s, set_um (sts (um s) a l) s).

(** strcmp of the string at [a] with a literal; strcpy of a literal to [a]. *)
Fixpoint strcmp_mem (a : Z) (q : list Z) : F Z :=
  c ← load8 a;
  match q with
  | [] => mret c
  | x :: q => if negb (c =? 0) && (c =? x) then strcmp_mem (a + 1) q else mret (c - x)
  end.
Fixpoint strcpy_mem (a : Z) (l : list Z) : F unit :=
  match l with
  | [] => store8 a 0
  | x :: l => store8 a x ;; strcpy_mem (a + 1) l
  end.

Definition sys_page_unmap_at (va : Z) : F unit :=
  modify (λ s, set_mapped (mapped s ∖ {[blk_of va]}) s) ;;
  modify (λ s, set_dirty (dirty s ∖ {[blk_of va]}) s).

(** "OOPS!\n" *)
Definition oops : list Z := [79; 79; 80; 83; 33; 10].

(** One of the two rounds of check_bc: flush at offset [off] of the block,
    checking the dirty bit afterwards when [chk] is set. *)
Definition check_bc_round (off : Z) (chk : bool) : F unit :=
  a ← diskaddr 1;
  b ← backup a SIZEOF_SUPER;
  a ← diskaddr 1; strcpy_mem a oops ;;
  a ← diskaddr 1; flush_block (a + off) ;;
  a ← diskaddr 1; m ← va_is_mapped a; fassert m "va_is_mapped(diskaddr(1))" ;;
  (if chk then a ← diskaddr 1; d ← va_is_dirty a; fassert (negb d) "!va_is_dirty(diskaddr(1))" else mret tt) ;;
  a ← diskaddr 1; sys_page_unmap_at a ;;
  a ← diskaddr 1; m ← va_is_mapped a; fassert (negb m) "!va_is_mapped(diskaddr(1))" ;;
  a ← diskaddr 1; r ← strcmp_mem a oops; fassert (r =? 0) "strcmp(diskaddr(1), ...) == 0" ;;
  a ← diskaddr 1; restore a b ;;
  a ← diskaddr 1; flush_block a.

Definition check_bc : F unit := check_bc_round 0 true ;; check_bc_round 20 false.

(** set_pgfault_handler(bc_pgfault) is implicit in [touch]. *)
Definition bc_init : F unit :=
  check_bc ;;
  a ← diskaddr 1;
  _ ← backup a SIZEOF_SUPER;
  mret tt.

End Bc.
