(* ===== verification/Fs.v ===== *)
(** * The file system: fs/fs.c

    The on-disk structures live in the disk map and are accessed through the
    block cache (Bc).  A [struct File *] is its address, a path or file name
    is the list of its characters without the terminator; functions that
    store through pointer arguments return the stored values beside their
    result.  [off_t] is a signed 32-bit integer, [size_t] an unsigned one:
    the conversions of mixed expressions are written out. *)

From S2P Require Import Prelude Mmu CMem Str FsState Ide Bc.

Section Fs.
Context {D : Type} `{Ata D}.
Notation F := (FS D).

(** ** Super block and bitmap *)

Definition check_super : F unit :=
  sup ← gets super;
  m ← load32 (s_magic sup);
  (if negb (m =? FS_MAGIC) then fpanic "bad file system magic number" else mret tt) ;;
  n ← load32 (s_nblocks sup);
  if n >? DISKSIZE / BLKSIZE then fpanic "file system is too large" else mret tt.

Definition free_block (blockno : Z) : F unit :=
  if blockno =? 0 then fpanic "attempt to free zero block"
  else
    bm ← gets bitmap;
    let a := bm + 4 * (blockno / 32) in
    w ← load32 a;
    store32 a (Z.lor w (Z.shiftl 1 (blockno `mod` 32))).

Definition alloc_block : F Z :=
  sup ← gets super;
  n ← load32 (s_nblocks sup);
  r ← forE (range 1 n) (λ blockno,
    free ← block_is_free blockno;
    if free : bool then
      bm ← gets bitmap;
      let a := bm + 4 * (blockno / 32) in
      w ← load32 a;
      store32 a (Z.land w (Z.lnot (Z.shiftl 1 (blockno `mod` 32)))) ;;
      flush_block a ;;
      mret (Some blockno)
    else mret None);
  mret (default (- E_NO_DISK) r).

(** [for (i = 0; i * BLKBITSIZE < super->s_nblocks; i++)] *)
Definition check_bitmap : F unit :=
  sup ← gets super;
  n ← load32 (s_nblocks sup);
  forM (range 0 ((n + BLKBITSIZE - 1) / BLKBITSIZE)) (λ i,
    b ← block_is_free (2 + i); fassert (negb b) "!block_is_free(2 + i)") ;;
  b ← block_is_free 0; fassert (negb b) "!block_is_free(0)" ;;
  b ← block_is_free 1; fassert (negb b) "!block_is_free(1)".

Definition fs_init : F unit :=
  p ← ide_probe_disk1;
  (if p : bool then ide_set_disk 1 else ide_set_disk 0) ;;
  bc_init ;;
  a ← diskaddr 1;
  modify (set_super a) ;;
  check_super ;;
  a ← diskaddr 2;
  modify (set_bitmap a) ;;
  check_bitmap.

(** ** Blocks of a file *)

(** Clears a block just allocated. *)
Definition clear_block (bno : Z) : F unit :=
  a ← diskaddr bno; fs_memset a 0 BLKSIZE ;;
  a ← diskaddr bno; flush_block a.

(** Returns the result and [*ppdiskbno] ([None] when it is not set). *)
Definition file_block_walk (f filebno : Z) (alloc : bool) : F (Z * option Z) :=
  if filebno >=? NDIRECT + NINDIRECT then mret (- E_INVAL, None)
  else if filebno <? NDIRECT then mret (0, Some (f_direct f filebno))
  else
    ind ← load32 (f_indirect f);
    if ctrue ind then
      a ← diskaddr ind;
      mret (0, Some (a + 4 * (filebno - NDIRECT)))
    else if negb alloc then mret (- E_NOT_FOUND, None)
    else
      bno ← alloc_block;
      if bno <? 0 then mret (bno, None)
      else
        store32 (f_indirect f) bno ;;
        clear_block bno ;;
        a ← diskaddr bno;
        mret (0, Some (a + 4 * (filebno - NDIRECT))).

(** Returns the result and [*blk]. *)
Definition file_get_block (f filebno : Z) : F (Z * option Z) :=
  '(ret, op) ← file_block_walk f filebno true;
  match op with
  | None => mret (ret, None)
  | Some slot =>
      b ← load32 slot;
      if b =? 0 then
        bno ← alloc_block;
        if bno <? 0 then mret (bno, None)
        else
          store32 slot bno ;;
          clear_block bno ;;
          b ← load32 slot; a ← diskaddr b; mret (0, Some a)
      else a ← diskaddr b; mret (0, Some a)
  end.

(** ** Directories *)

(** [dir->f_size], a signed integer. *)
Definition load_size (f : Z) : F Z := w ← load32 (f_size f); mret (s32 w).

(** The entries of a directory block: the first [File] of the block at [blk]
    whose test answers true. *)
Definition scan_entries (test : Z → F bool) (blk : Z) : F (option Z) :=
  forE (range 0 BLKFILES) (λ j,
    let f := blk + SIZEOF_FILE * j in
    t ← test f;
    mret (if t : bool then Some f else None)).

(** The search loop of dir_lookup and dir_alloc_file over the blocks of
    [dir]: [inl r] when file_get_block fails with [r], [inr f] when an entry
    passes the test. *)
Definition scan_dir (test : Z → F bool) (dir nblock : Z) : F (option (Z + Z)) :=
  forE (range 0 nblock) (λ i,
    '(r, ob) ← file_get_block dir i;
    match ob with
    | None => mret (Some (inl r))
    | Some blk => o ← scan_entries test blk; mret (inr <$> o)
    end).

Definition dir_lookup (dir : Z) (name : list Z) : F (Z * option Z) :=
  size ← load_size dir;
  fassert (Z.rem size BLKSIZE =? 0) "(dir->f_size % BLKSIZE) == 0" ;;
  let nblock := u32 (Z.quot size BLKSIZE) in
  r ← scan_dir (λ f, c ← strcmp_mem (f_name f) name; mret (c =? 0)) dir nblock;
  mret (match r with
        | Some (inl r) => (r, None)
        | Some (inr f) => (0, Some f)
        | None => (- E_NOT_FOUND, None)
        end).

Definition dir_alloc_file (dir : Z) : F (Z * option Z) :=
  size ← load_size dir;
  fassert (Z.rem size BLKSIZE =? 0) "(dir->f_size % BLKSIZE) == 0" ;;
  let nblock := u32 (Z.quot size BLKSIZE) in
  r ← scan_dir (λ f, c ← load8 (f_name f); mret (c =? 0)) dir nblock;
  match r with
  | Some (inl r) => mret (r, None)
  | Some (inr f) => mret (0, Some f)
  | None =>
      store32 (f_size dir) (size + BLKSIZE) ;;
      '(r, ob) ← file_get_block dir nblock;
      mret (match ob with None => (r, None) | Some blk => (0, Some blk) end)
  end.

(** ** Paths *)

Fixpoint skip_slash (p : list Z) : list Z :=
  match p with
  | c :: p' => if c =? 47 then skip_slash p' else p
  | [] => []
  end.

(** The characters up to the next slash, and the rest. *)
Fixpoint path_elem (p : list Z) : list Z * list Z :=
  match p with
  | c :: p' => if c =? 47 then ([], p) else let '(n, r) := path_elem p' in (c :: n, r)
  | [] => ([], [])
  end.

(** What walk_path returns and stores: the result, [*pdir], [*pf] and
    [lastelem]. *)
Record walk := { w_ret : Z; w_dir : option Z; w_file : option Z; w_last : list Z }.

Fixpoint walk_loop (fuel : nat) (path : list Z) (dir : option Z) (f : Z) : F walk :=
  match fuel with
  | O => stop FSpin
  | S fuel =>
      match path with
      | [] => mret {| w_ret := 0; w_dir := dir; w_file := Some f; w_last := [] |}
      | _ =>
          let dir := f in
          let '(name, path) := path_elem path in
          if Z.of_nat (length name) >=? MAXNAMELEN
          then mret {| w_ret := - E_BAD_PATH; w_dir := None; w_file := None; w_last := [] |}
          else
            let path := skip_slash path in
            t ← load32 (f_type dir);
            if negb (t =? FTYPE_DIR) then mret {| w_ret := - E_NOT_FOUND; w_dir := None; w_file := None; w_last := [] |}
            else
              '(r, o) ← dir_lookup dir name;
              match o with
              | Some f => walk_loop fuel path (Some dir) f
              | None =>
                  mret (if (r =? - E_NOT_FOUND) && bool_decide (path = [])
                        then {| w_ret := r; w_dir := Some dir; w_file := None; w_last := name |}
                        else {| w_ret := r; w_dir := None; w_file := None; w_last := [] |})
              end
      end
  end.

(** Every round consumes a character of the path. *)
Definition walk_path (path : list Z) : F walk :=
  let path := skip_slash path in
  sup ← gets super;
  walk_loop (S (length path)) path None (s_root sup).

(** ** File size *)

Definition file_free_block (f filebno : Z) : F Z :=
  '(r, op) ← file_block_walk f filebno false;
  match op with
  | None => mret r
  | Some ptr =>
      b ← load32 ptr;
      (if ctrue b then free_block b ;; store32 ptr 0 else mret tt) ;;
      mret 0
  end.

Definition file_truncate_blocks (f newsize : Z) : F unit :=
  size ← load_size f;
  let old_nblocks := u32 (Z.quot (s32 (s32 (size + BLKSIZE) - 1)) BLKSIZE) in
  let new_nblocks := u32 (Z.quot (s32 (s32 (newsize + BLKSIZE) - 1)) BLKSIZE) in
  forM (range new_nblocks old_nblocks) (λ bno,
    r ← file_free_block f bno;
    if r <? 0 then fprint "warning: file_free_block: %e" else mret tt) ;;
  if new_nblocks <=? NDIRECT then
    ind ← load32 (f_indirect f);
    if ctrue ind then free_block ind ;; store32 (f_indirect f) 0 else mret tt
  else mret tt.

Definition file_set_size (f newsize : Z) : F Z :=
  size ← load_size f;
  (if size >? newsize then file_truncate_blocks f newsize else mret tt) ;;
  store32 (f_size f) newsize ;;
  flush_block f ;;
  mret 0.

(** The loop bound is evaluated in every round; the body leaves [f_size]
    alone. *)
Definition file_flush (f : Z) : F unit :=
  size ← load_size f;
  forM (range 0 (Z.quot (s32 (s32 (size + BLKSIZE) - 1)) BLKSIZE)) (λ i,
    '(r, op) ← file_block_walk f i false;
    match op with
    | None => mret tt
    | Some p =>
        b ← load32 p;
        if b =? 0 then mret tt else a ← diskaddr b; flush_block a
    end) ;;
  flush_block f ;;
  ind ← load32 (f_indirect f);
  if ctrue ind then a ← diskaddr ind; flush_block a else mret tt.

Definition fs_sync : F unit :=
  sup ← gets super;
  n ← load32 (s_nblocks sup);
  forM (range 1 n) (λ i, a ← diskaddr i; flush_block a).

(** ** File operations *)

Definition file_create (path : list Z) : F (Z * option Z) :=
  w ← walk_path path;
  if w_ret w =? 0 then mret (- E_FILE_EXISTS, None)
  else
    match w_dir w with
    | None => mret (w_ret w, None)
    | Some dir =>
        if negb (w_ret w =? - E_NOT_FOUND) then mret (w_ret w, None)
        else
          '(r, o) ← dir_alloc_file dir;
          match o with
          | None => mret (r, None)
          | Some f =>
              strcpy_mem (f_name f) (w_last w) ;;
              file_flush dir ;;
              mret (0, Some f)
          end
    end.

Definition file_open (path : list Z) : F (Z * option Z) :=
  w ← walk_path path; mret (w_ret w, w_file w).

(** [MIN(BLKSIZE - pos % BLKSIZE, offset + count - pos)], an unsigned value
    stored in an int. *)
Definition chunk (offset count pos : Z) : Z :=
  s32 (MIN (u32 (BLKSIZE - Z.rem pos BLKSIZE)) (u32 (offset + count - pos))).

(** The copy loops of file_read and file_write: [copy blk bufp bn] moves one
    chunk.  Each round moves at least one byte when the arguments are in
    range, so [count] rounds are enough; [Some r] is an error return. *)
Fixpoint copy_loop (fuel : nat) (f offset count : Z) (copy : Z → Z → Z → F unit) (pos buf : Z) : F (option Z) :=
  if u32 pos <? u32 (offset + count) then
    match fuel with
    | O => stop FSpin
    | S fuel =>
        '(r, ob) ← file_get_block f (u32 (Z.quot pos BLKSIZE));
        match ob with
        | None => mret (Some r)
        | Some blk =>
            let bn := chunk offset count pos in
            copy (u32 (blk + Z.rem pos BLKSIZE)) buf bn ;;
            copy_loop fuel f offset count copy (s32 (pos + bn)) (u32 (buf + bn))
        end
    end
  else mret None.

Definition file_read (f buf count offset : Z) : F Z :=
  size ← load_size f;
  if offset >=? size then mret 0
  else
    let count := MIN count (u32 (size - offset)) in
    r ← copy_loop (Z.to_nat count) f offset count (λ a b n, fs_memmove b a (u32 n)) offset buf;
    mret (default (s32 count) r).

Definition file_write (f buf count offset : Z) : F Z :=
  size ← load_size f;
  r ← (if u32 (offset + count) >? u32 size then file_set_size f (s32 (offset + count)) else mret 0);
  if r <? 0 then mret r
  else
    r ← copy_loop (Z.to_nat count) f offset count (λ a b n, fs_memmove a b (u32 n)) offset buf;
    mret (default (s32 count) r).

End Fs.
