(* ===== verification/Serv.v ===== *)
(** * The file server: fs/serv.c

    The open file table, the request handlers and the server loop.  A round
    of the loop receives a request, which the kernel and the client decide
    (record [request]), and gives the reply with the contents of the argument
    page afterwards, which the client shares. *)

From S2P Require Import Prelude Mmu CMem Str FsState Ide Bc Fs.

Definition MAXOPEN : Z := 1024.
Definition FILEVA : Z := 0xD0000000.
Definition fsreq : Z := 0x0ffff000.

Definition O_RDONLY : Z := 0x0000.
Definition O_WRONLY : Z := 0x0001.
Definition O_RDWR : Z := 0x0002.
Definition O_ACCMODE : Z := 0x0003.
Definition O_CREAT : Z := 0x0100.
Definition O_TRUNC : Z := 0x0200.
Definition O_EXCL : Z := 0x0400.

Definition FSREQ_OPEN : Z := 1.
Definition FSREQ_SET_SIZE : Z := 2.
Definition FSREQ_READ : Z := 3.
Definition FSREQ_WRITE : Z := 4.
Definition FSREQ_STAT : Z := 5.
Definition FSREQ_FLUSH : Z := 6.
Definition FSREQ_REMOVE : Z := 7.
Definition FSREQ_SYNC : Z := 8.

(** devfile.dev_id is the character f. *)
Definition devfile_dev_id : Z := 102.

(** Field addresses of [struct Fd]. *)
Definition fd_dev_id (fd : Z) : Z := fd.
Definition fd_offset (fd : Z) : Z := fd + 4.
Definition fd_omode (fd : Z) : Z := fd + 8.
Definition fd_file_id (fd : Z) : Z := fd + 12.

(** The C string in a buffer. *)
Fixpoint cstring (l : list Z) : list Z :=
  match l with
  | c :: l => if c =? 0 then [] else c :: cstring l
  | [] => []
  end.

(** What ipc_recv returns, and the answers of the kernel in this round. *)
Record request := {
  rq_type : Z; rq_whom : Z; rq_perm : Z;   (* the value, the sender and env_ipc_perm *)
  rq_page : option (list Z);               (* the page it mapped at fsreq *)
  rq_dropped : list Z;                     (* descriptor pages clients unmapped since the last round *)
  rq_sent : Z                              (* sys_ipc_try_send of the reply, once it is not -E_IPC_NOT_RECV *)
}.
Record reply := { rp_whom : Z; rp_ret : Z; rp_pg : option Z; rp_perm : Z; rp_page : list Z }.

Section Serv.
Context {D : Type} `{Ata D}.
Notation F := (FS D).

(** ** The open file table *)

Definition get_open (i : Z) : F OpenFile :=
  t ← gets opentab; match t !! i with Some o => mret o | None => stop FUb end.
Definition put_open (i : Z) (o : OpenFile) : F unit := modify (λ s, set_opentab (<[i := o]> (opentab s)) s).

Definition serve_init : F unit :=
  forM (range 0 MAXOPEN) (λ i,
    o ← get_open i;
    put_open i {| o_fileid := i; o_file := o_file o; o_mode := o_mode o; o_fd := u32 (FILEVA + i * PGSIZE) |}).

Definition pageref (va : Z) : F Z := gets (λ s, default 0 (pagerefs s !! va)).

(** Takes the entry [i]: the code after [case 1]. *)
Definition openfile_take (i : Z) : F (Z * option Z) :=
  o ← get_open i;
  let id := u32 (o_fileid o + MAXOPEN) in
  put_open i {| o_fileid := id; o_file := o_file o; o_mode := o_mode o; o_fd := o_fd o |} ;;
  fs_memset (o_fd o) 0 PGSIZE ;;
  mret (s32 id, Some i).

(** Returns the result and the index of the entry. *)
Definition openfile_alloc : F (Z * option Z) :=
  r ← forE (range 0 MAXOPEN) (λ i,
    o ← get_open i;
    n ← pageref (o_fd o);
    if n =? 0 then
      r ← sys_page_alloc_at (o_fd o);
      if r <? 0 then mret (Some (r, None)) else x ← openfile_take i; mret (Some x)
    else if n =? 1 then x ← openfile_take i; mret (Some x)
    else mret None);
  mret (default (- E_MAX_OPEN, None) r).

Definition openfile_lookup (fileid : Z) : F (Z * option OpenFile) :=
  o ← get_open (fileid `mod` MAXOPEN);
  n ← pageref (o_fd o);
  mret (if (n <=? 1) || negb (o_fileid o =? fileid) then (- E_INVAL, None) else (0, Some o)).

(** ** Handlers *)

(** Creating or opening: [inl r] is an error return. *)
Definition serve_open_file (path : list Z) (omode : Z) : F (Z + Z) :=
  let try_open : F (Z + Z) :=
    '(r, o) ← file_open path;
    mret (match o with Some f => inr f | None => inl r end) in
  if ctrue (Z.land omode O_CREAT) then
    '(r, o) ← file_create path;
    match o with
    | Some f => mret (inr f)
    | None => if negb (ctrue (Z.land omode O_EXCL)) && (r =? - E_FILE_EXISTS) then try_open else mret (inl r)
    end
  else try_open.

(** Returns the result, [*pg_store] and [*perm_store] when they are set. *)
Definition serve_open (req : Z) : F (Z * option (Z * Z)) :=
  path ← gets (λ s, cstring (take 1023 (lds (um s) req MAXPATHLEN)));
  '(r, oi) ← openfile_alloc;
  match oi with
  | None => mret (r, None)
  | Some i =>
    if r <? 0 then mret (r, None)
    else
      omode ← load32 (req + 1024);
      rf ← serve_open_file path omode;
      match rf with
      | inl r => mret (r, None)
      | inr f =>
          r ← (if ctrue (Z.land omode O_TRUNC) then file_set_size f 0 else mret 0);
          if r <? 0 then mret (r, None)
          else
            '(r, of_) ← file_open path;
            match of_ with
            | None => mret (r, None)
            | Some f =>
                o ← get_open i;
                put_open i {| o_fileid := o_fileid o; o_file := f; o_mode := o_mode o; o_fd := o_fd o |} ;;
                store32 (fd_file_id (o_fd o)) (o_fileid o) ;;
                store32 (fd_omode (o_fd o)) (Z.land omode O_ACCMODE) ;;
                store32 (fd_dev_id (o_fd o)) devfile_dev_id ;;
                put_open i {| o_fileid := o_fileid o; o_file := f; o_mode := omode; o_fd := o_fd o |} ;;
                mret (0, Some (o_fd o, Z.lor (Z.lor (Z.lor PTE_P PTE_U) PTE_W) PTE_SHARE))
            end
      end
  end.

Definition serve_set_size (req : Z) : F Z :=
  id ← load32 req;
  '(r, oo) ← openfile_lookup id;
  match oo with
  | None => mret r
  | Some o => size ← load32 (req + 4); file_set_size (o_file o) (s32 size)
  end.

(** [of->o_fd->fd_offset += r] *)
Definition advance (fd r : Z) : F unit := off ← load32 (fd_offset fd); store32 (fd_offset fd) (off + r).

Definition serve_read (ipc : Z) : F Z :=
  id ← load32 ipc;
  '(r, oo) ← openfile_lookup id;
  match oo with
  | None => mret r
  | Some o =>
      n ← load32 (ipc + 4);
      off ← load32 (fd_offset (o_fd o));
      r ← file_read (o_file o) ipc n (s32 off);
      if r <? 0 then mret r else advance (o_fd o) r ;; mret r
  end.

Definition serve_write (req : Z) : F Z :=
  id ← load32 req;
  '(r, oo) ← openfile_lookup id;
  match oo with
  | None => mret r
  | Some o =>
      n ← load32 (req + 4);
      off ← load32 (fd_offset (o_fd o));
      r ← file_write (o_file o) (req + 8) n (s32 off);
      if r <? 0 then mret r else advance (o_fd o) r ;; mret r
  end.

(** strcpy between two places of the server's memory. *)
Definition fs_strcpy (dst src : Z) : F unit := λ s,
  match while (λ '(d, p, s),
          match (c ← load8 p; store8 d c ;; mret c) s with
          | Stop r s => inr (Stop r s)
          | Ok c s => if c =? 0 then inr (Ok tt s) else inl (u32 (d + 1), u32 (p + 1), s)
          end) (dst, src, s) with
  | Some o => o
  | None => Stop FSpin s
  end.

Definition serve_stat (ipc : Z) : F Z :=
  id ← load32 ipc;
  '(r, oo) ← openfile_lookup id;
  match oo with
  | None => mret r
  | Some o =>
      fs_strcpy ipc (f_name (o_file o)) ;;
      size ← load32 (f_size (o_file o));
      store32 (ipc + 128) size ;;
      t ← load32 (f_type (o_file o));
      store32 (ipc + 132) (cbool (t =? FTYPE_DIR)) ;;
      mret 0
  end.

Definition serve_flush (req : Z) : F Z :=
  id ← load32 req;
  '(r, oo) ← openfile_lookup id;
  match oo with
  | None => mret r
  | Some o => file_flush (o_file o) ;; mret 0
  end.

Definition serve_sync (req : Z) : F Z := fs_sync ;; mret 0.

Definition handlers (req : Z) : option (Z → F Z) :=
  if req =? FSREQ_READ then Some serve_read
  else if req =? FSREQ_STAT then Some serve_stat
  else if req =? FSREQ_FLUSH then Some serve_flush
  else if req =? FSREQ_WRITE then Some serve_write
  else if req =? FSREQ_SET_SIZE then Some serve_set_size
  else if req =? FSREQ_SYNC then Some serve_sync
  else None.

(** ** The server loop *)

(** What ipc_recv(&whom, fsreq, &perm) does to the server's memory. *)
Definition recv_request (q : request) : F unit :=
  modify (λ s, set_pagerefs (foldr (alter Z.pred) (pagerefs s) (rq_dropped q)) s) ;;
  match rq_page q with
  | Some page => modify (λ s, set_um (sts (um s) fsreq page) s)
  | None => mret tt
  end.

(** The first access of a handler to the request page.  env_ipc_perm may be
    that of an earlier message: then no page is there and bc_pgfault gets an
    address outside the disk map. *)
Definition req_access (page : option (list Z)) : F unit :=
  match page with
  | Some _ => mret tt
  | None => fpanic "page fault in FS"
  end.

(** What ipc_send(whom, r, pg, perm) does: an answer of the kernel other than
    0 is a panic; a page that is sent has one more reference, that of the
    client. *)
Definition send_reply (sent : Z) (pg : option Z) : F unit :=
  if negb (sent =? 0) then fpanic "ipc_send failed: %e"
  else match pg with
       | Some va => modify (λ s, set_pagerefs (alter (Z.add 1) va (pagerefs s)) s)
       | None => mret tt
       end.

(** sys_page_unmap(0, va): the bytes of the page are gone. *)
Definition sys_page_unmap_at (va : Z) : F unit :=
  modify (λ s, set_um (filter (λ '(a, _), ¬ (va ≤ a < va + PGSIZE)) (um s)) s).

Definition serve_dispatch (type perm : Z) (page : option (list Z)) : F (Z * option Z * Z) :=
  if type =? FSREQ_OPEN then
    req_access page ;;
    '(r, o) ← serve_open fsreq;
    mret (match o with Some (pg, perm) => (r, Some pg, perm) | None => (r, None, perm) end)
  else
    match handlers type with
    | Some h =>
        (if type =? FSREQ_SYNC then mret tt else req_access page) ;;
        r ← h fsreq; mret (r, None, perm)
    | None => fprint "Invalid request code %d from %08x" ;; mret (- E_INVAL, None, perm)
    end.

(** One round of the loop.  [None]: a request without a page is left
    hanging. *)
Definition serve_one (q : request) : F (option reply) :=
  recv_request q ;;
  if Z.land (rq_perm q) PTE_P =? 0 then
    fprint "Invalid request from %08x: no argument page" ;; mret None
  else
    '(r, pg, perm) ← serve_dispatch (rq_type q) (rq_perm q) (rq_page q);
    send_reply (rq_sent q) pg ;;
    page ← gets (λ s, lds (um s) fsreq PGSIZE);
    sys_page_unmap_at fsreq ;;
    mret (Some {| rp_whom := rq_whom q; rp_ret := r; rp_pg := pg; rp_perm := perm; rp_page := page |}).

Fixpoint serve (l : list request) : F (list (option reply)) :=
  match l with
  | [] => mret []
  | q :: l => r ← serve_one q; rs ← serve l; mret (r :: rs)
  end.

Definition umain (l : list request) : F (list (option reply)) :=
  fprint "FS is running" ;;
  fprint "FS can do I/O" ;;
  serve_init ;;
  fs_init ;;
  serve l.

End Serv.
