(* ===== verification/IdeProofs.v ===== *)
(** * The IDE driver reads and writes sectors

    [AtaDisk] states what the driver relies on about the controller: the
    command protocol of a healthy ATA disk in LBA28 PIO mode, with the disk
    contents [image] as its observable state.  After a command or a sector
    the controller may be busy; registers, commands and data are only
    understood once the status has been read as ready ([polled]), so the
    waits of the driver are needed.  Against that interface
    ide_read and ide_write transfer the sectors they name
    ([ide_read_spec], [ide_write_spec]). *)

From S2P Require Import Prelude Mmu CMem Str StrProofs FsState Ide.

(** What the controller is doing: [n] sectors left to transfer from sector
    [lba] of [disk]. *)
Inductive ata_phase := AtaIdle | AtaRead (disk lba : Z) (n : nat) | AtaWrite (disk lba : Z) (n : nat).

(** The sector address, drive and count the task file registers hold; a
    count of 0 means 256. *)
Definition lba_of (regs : Z → Z) : Z :=
  regs 0x1F3 + 256 * regs 0x1F4 + 65536 * regs 0x1F5 + 16777216 * (regs 0x1F6 `mod` 16).
Definition drive_of (regs : Z → Z) : Z := (regs 0x1F6 / 16) `mod` 2.
Definition count_of (regs : Z → Z) : nat := Z.to_nat (if regs 0x1F2 =? 0 then 256 else regs 0x1F2).

Definition after_sector (ph : Z → Z → nat → ata_phase) (disk lba : Z) (n : nat) : ata_phase :=
  match n with O => AtaIdle | _ => ph disk (lba + 1) n end.

Fixpoint polls {D} `{Ata D} (n : nat) (d : D) : D :=
  match n with O => d | S n => polls n (ata_inb 0x1F7 d).2 end.

Class AtaDisk (D : Type) `{Ata D} := {
  image : D → Z → Z → Z;        (* disk, byte offset *)
  phase : D → ata_phase;
  regs : D → Z → Z;
  (** The status has been read as ready (BSY clear, DRDY set) since the last
      command or transfer. *)
  polled : D → Prop;
  image_byte d k a : 0 ≤ image d k a < 256;
  (** Reading the status changes nothing but what is known of it, ... *)
  poll_phase d : phase (ata_inb 0x1F7 d).2 = phase d;
  poll_regs d p : regs (ata_inb 0x1F7 d).2 p = regs d p;
  poll_image d k a : image (ata_inb 0x1F7 d).2 k a = image d k a;
  (** ... after finitely many polls the disk is ready, ... *)
  poll_ready d : ∃ n, Z.of_nat n < 8589934591 ∧
    Z.land (ata_inb 0x1F7 (polls n d)).1 (Z.lor IDE_BSY IDE_DRDY) = IDE_DRDY;
  poll_polled d : Z.land (ata_inb 0x1F7 d).1 (Z.lor IDE_BSY IDE_DRDY) = IDE_DRDY → polled (ata_inb 0x1F7 d).2;
  poll_keeps d : polled d → polled (ata_inb 0x1F7 d).2;
  (** ... and, being healthy, it reports no error. *)
  poll_healthy d : Z.land (ata_inb 0x1F7 d).1 (Z.lor IDE_BSY IDE_DRDY) = IDE_DRDY →
    Z.land (ata_inb 0x1F7 d).1 (Z.lor IDE_DF IDE_ERR) = 0;
  (** Task file registers; selecting a drive keeps the controller ready. *)
  outb_polled d p v : phase d = AtaIdle → polled d → 0x1F2 ≤ p ≤ 0x1F6 → polled (ata_outb p v d);
  outb_phase d p v : phase d = AtaIdle → polled d → 0x1F2 ≤ p ≤ 0x1F6 → phase (ata_outb p v d) = AtaIdle;
  outb_regs d p v q : phase d = AtaIdle → polled d → 0x1F2 ≤ p ≤ 0x1F6 →
    regs (ata_outb p v d) q = if decide (q = p) then v else regs d q;
  outb_image d p v k a : phase d = AtaIdle → polled d → 0x1F2 ≤ p ≤ 0x1F7 → image (ata_outb p v d) k a = image d k a;
  (** Commands. *)
  cmd_read d : phase d = AtaIdle → polled d →
    phase (ata_outb 0x1F7 0x20 d) = AtaRead (drive_of (regs d)) (lba_of (regs d)) (count_of (regs d));
  cmd_write d : phase d = AtaIdle → polled d →
    phase (ata_outb 0x1F7 0x30 d) = AtaWrite (drive_of (regs d)) (lba_of (regs d)) (count_of (regs d));
  (** Data: one sector is 128 words. *)
  insl_data d k lba n : phase d = AtaRead k lba (S n) → polled d →
    (ata_insl 0x1F0 128 d).1 = (λ i, image d k (lba * 512 + i)) <$> range 0 512;
  insl_phase d k lba n : phase d = AtaRead k lba (S n) → polled d →
    phase (ata_insl 0x1F0 128 d).2 = after_sector AtaRead k lba n;
  insl_image d k lba n k' a : phase d = AtaRead k lba (S n) → polled d →
    image (ata_insl 0x1F0 128 d).2 k' a = image d k' a;
  outsl_phase d k lba n l : phase d = AtaWrite k lba (S n) → polled d → length l = 512%nat →
    phase (ata_outsl 0x1F0 l d) = after_sector AtaWrite k lba n;
  outsl_image d k lba n l k' a : phase d = AtaWrite k lba (S n) → polled d → length l = 512%nat →
    Forall (λ c, 0 ≤ c < 256) l →
    image (ata_outsl 0x1F0 l d) k' a =
      if decide (k' = k ∧ lba * 512 ≤ a < lba * 512 + 512) then default 0 (l !! Z.to_nat (a - lba * 512)) else image d k' a
}.

Section IdeProofs.
Context {D : Type} `{AtaDisk D}.
Implicit Types (s : FState D) (d : D).

Definition same_image d d' : Prop := ∀ k a, image d' k a = image d k a.

(** ** Waiting *)

Lemma polls_same n d :
  phase (polls n d) = phase d ∧ (∀ p, regs (polls n d) p = regs d p) ∧ same_image d (polls n d).
Proof.
  revert d. induction n as [|n IH]; intros d; cbn; [by repeat split|].
  destruct (IH (ata_inb 0x1F7 d).2) as (-> & Hr & Hi). rewrite poll_phase. split; [done|]. split.
  - intros p. by rewrite Hr, poll_regs.
  - intros k a. by rewrite Hi, poll_image.
Qed.

Lemma polls_last n d : polls (S n) d = (ata_inb 0x1F7 (polls n d)).2.
Proof. revert d. induction n as [|n IH]; intros d; [done|]. exact (IH (ata_inb 0x1F7 d).2). Qed.

Lemma poll_loop n d :
  Z.land (ata_inb 0x1F7 (polls n d)).1 (Z.lor IDE_BSY IDE_DRDY) = IDE_DRDY →
  ∃ m, iter_nat (λ d, let '(r, d') := ata_inb 0x1F7 d in
                      if Z.land r (Z.lor IDE_BSY IDE_DRDY) =? IDE_DRDY then inr (r, d') else inl d') (S n) d
       = inr ((ata_inb 0x1F7 (polls m d)).1, polls (S m) d) ∧
       Z.land (ata_inb 0x1F7 (polls m d)).1 (Z.lor IDE_BSY IDE_DRDY) = IDE_DRDY.
Proof.
  revert d. induction n as [|n IH]; intros d Hn; rewrite iter_S; cbn [polls] in *.
  - exists 0%nat. cbn. destruct (ata_inb 0x1F7 d) as [r d']. cbn in *. by rewrite Hn, Z.eqb_refl.
  - destruct (Z.land (ata_inb 0x1F7 d).1 (Z.lor IDE_BSY IDE_DRDY) =? IDE_DRDY) eqn:Hr.
    + exists 0%nat. cbn. apply Z.eqb_eq in Hr. destruct (ata_inb 0x1F7 d) as [r d']. cbn in *. by rewrite Hr, Z.eqb_refl.
    + destruct (IH (ata_inb 0x1F7 d).2 Hn) as (m & Hm & Hready). exists (S m). cbn.
      destruct (ata_inb 0x1F7 d) as [r d']. cbn in *. by rewrite Hr.
Qed.

Lemma ide_wait_ready_spec c (Q : Z → FState D → Prop) E s :
  (∀ d', phase d' = phase (dev s) → polled d' → same_image (dev s) d' → Q 0 (set_dev d' s)) →
  wp (ide_wait_ready c) Q E s.
Proof.
  intros HQ. destruct (poll_ready (dev s)) as (n & Hn & Hready).
  destruct (poll_loop n (dev s) Hready) as (m & Hm & Hm').
  unfold ide_wait_ready. apply wp_bind, wp_gets. rewrite (while_iter _ _ _ _ Hm) by lia.
  apply wp_bind, wp_modify, wp_ret. rewrite (poll_healthy _ Hm'). cbn. rewrite andb_false_r.
  destruct (polls_same (S m) (dev s)) as (? & _ & ?). apply HQ; [done| |done]. pose proof (polls_last m (dev s)) as Hl.
  cbn [polls] in Hl. rewrite Hl. by apply poll_polled.
Qed.

(** ** Commands *)

Lemma wp_outb p v (Q : unit → FState D → Prop) E s :
  Q tt (set_dev (ata_outb p (u8 v) (dev s)) s) → wp (outb p v) Q E s.
Proof. done. Qed.

Lemma secno_bytes secno : 0 ≤ secno < 268435456 →
  u8 (Z.land secno 0xFF) + 256 * u8 (Z.land (Z.shiftr secno 8) 0xFF) + 65536 * u8 (Z.land (Z.shiftr secno 16) 0xFF)
    + 16777216 * (Z.land (Z.shiftr secno 24) 0x0F) = secno.
Proof.
  intros Hs. unfold u8. rewrite !Z.shiftr_div_pow2 by lia.
  change 0xFF with (Z.ones 8). change 0x0F with (Z.ones 4). rewrite !Z.land_ones by lia.
  change (2 ^ 4) with 16. change (2 ^ 8) with 256. change (2 ^ 16) with 65536. change (2 ^ 24) with 16777216.
  rewrite !Z.mod_mod by lia. dlia.
Qed.

(** The drive register: bits 0-3 are the top of the address, bit 4 the
    drive. *)
Lemma drive_reg k h : (k = 0 ∨ k = 1) → 0 ≤ h < 16 →
  u8 (Z.lor (Z.lor 0xE0 (Z.shiftl (Z.land k 1) 4)) h) = 0xE0 + 16 * k + h.
Proof.
  intros Hk Hh. rewrite (lor_add_disjoint _ h 4); [|lia| |exact Hh].
  - unfold u8. destruct Hk as [-> | ->];
      [change (Z.lor 0xE0 _) with 224|change (Z.lor 0xE0 _) with 240]; rewrite Z.mod_small; lia.
  - destruct Hk as [-> | ->]; done.
Qed.

(** The registers are loaded and the command is written; [k] goes on. *)
Lemma ide_setup secno nsecs cmd {A} (k : FS D A) (Q : A → FState D → Prop) E s :
  phase (dev s) = AtaIdle → polled (dev s) → 0 ≤ secno < 268435456 → 0 < nsecs ≤ 256 → (diskno s = 0 ∨ diskno s = 1) → 0 ≤ cmd < 256 →
  (∀ d', phase d' = AtaIdle → polled d' → same_image (dev s) d' → drive_of (regs d') = diskno s → lba_of (regs d') = secno →
     count_of (regs d') = Z.to_nat nsecs → wp k Q E (set_dev (ata_outb 0x1F7 cmd d') s)) →
  wp (outb 0x1F2 nsecs ;; outb 0x1F3 (Z.land secno 0xFF) ;; outb 0x1F4 (Z.land (Z.shiftr secno 8) 0xFF) ;;
      outb 0x1F5 (Z.land (Z.shiftr secno 16) 0xFF) ;; d ← gets diskno;
      outb 0x1F6 (Z.lor (Z.lor 0xE0 (Z.shiftl (Z.land d 1) 4)) (Z.land (Z.shiftr secno 24) 0x0F)) ;;
      outb 0x1F7 cmd ;; k) Q E s.
Proof.
  intros Hp Hpo Hs Hn Hk Hc HQ.
  apply wp_bind, wp_outb, wp_bind, wp_outb, wp_bind, wp_outb, wp_bind, wp_outb, wp_bind, wp_gets, wp_bind, wp_outb, wp_bind, wp_outb.
  cbn [dev set_dev diskno]. rewrite (u8_small cmd) by lia.
  set (h := Z.land (Z.shiftr secno 24) 0x0F). assert (Hh : 0 ≤ h < 16).
  { unfold h. change 0x0F with (Z.ones 4). rewrite Z.land_ones by lia. apply Z.mod_pos_bound. lia. }
  rewrite drive_reg by done.
  set (d1 := ata_outb 0x1F2 _ (dev s)). set (d2 := ata_outb 0x1F3 _ d1). set (d3 := ata_outb 0x1F4 _ d2).
  set (d4 := ata_outb 0x1F5 _ d3). set (d5 := ata_outb 0x1F6 _ d4).
  assert (Hstep : ∀ p v d, 0x1F2 ≤ p ≤ 0x1F6 → phase d = AtaIdle ∧ polled d → phase (ata_outb p v d) = AtaIdle ∧ polled (ata_outb p v d)).
  { intros p v d Hr [? ?]. split; [by apply outb_phase|by apply outb_polled]. }
  assert (H1 : phase d1 = AtaIdle ∧ polled d1) by (by apply Hstep). assert (H2 : phase d2 = AtaIdle ∧ polled d2) by (by apply Hstep).
  assert (H3 : phase d3 = AtaIdle ∧ polled d3) by (by apply Hstep). assert (H4 : phase d4 = AtaIdle ∧ polled d4) by (by apply Hstep).
  assert (H5 : phase d5 = AtaIdle ∧ polled d5) by (by apply Hstep).
  destruct H1, H2, H3, H4, H5 as [H5 H5'].
  pose proof (secno_bytes secno Hs) as Hsec. fold h in Hsec.
  apply (HQ d5 H5 H5').
  - intros k0 a. unfold d5, d4, d3, d2, d1. by rewrite !outb_image.
  - unfold drive_of, d5. rewrite outb_regs by done. rewrite decide_True by done. destruct Hk as [-> | ->]; dlia.
  - unfold lba_of, d5, d4, d3, d2. repeat rewrite outb_regs by done. repeat (case_decide; try lia).
    replace ((0xE0 + 16 * diskno s + h) `mod` 16) with h by (destruct Hk as [-> | ->]; dlia). exact Hsec.
  - unfold count_of, d5, d4, d3, d2, d1. repeat rewrite outb_regs by done. repeat (case_decide; try lia).
    unfold u8. destruct (decide (nsecs = 256)) as [->|]; [done|]. rewrite Z.mod_small by lia.
    by replace (nsecs =? 0) with false by lia.
Qed.

(** ** Transfers *)

Lemma wp_insl dst (Q : unit → FState D → Prop) E s :
  Q tt (set_dirty (cache_blocks dst 512 ∪ dirty s) (set_um (sts (um s) dst (ata_insl 0x1F0 128 (dev s)).1)
          (set_dev (ata_insl 0x1F0 128 (dev s)).2 s))) →
  wp (insl 0x1F0 dst (SECTSIZE / 4)) Q E s.
Proof. unfold insl, wp, gets, modify, mbind, M_bind. change (SECTSIZE / 4) with 128. by destruct (ata_insl _ _ _). Qed.

Definition phase_left (ph : Z → Z → nat → ata_phase) (k lba : Z) (n : nat) : ata_phase :=
  match n with O => AtaIdle | _ => ph k lba n end.

Lemma after_left ph k lba n : after_sector ph k lba n = phase_left ph k (lba + 1) n.
Proof. by destruct n. Qed.

(** Memory after reading [n] bytes of disk [k] from [off] to [dst]. *)
Definition filled_from d k (m m' : mem) (dst off n : Z) : Prop :=
  ∀ a, 0 ≤ a < 4294967296 → ld m' a = if decide (dst ≤ a < dst + n) then image d k (off + (a - dst)) else ld m a.

Lemma lookup_sector (f : Z → Z) i : 0 ≤ i < 512 → (f <$> range 0 512) !! Z.to_nat i = Some (f i).
Proof.
  intros Hi. rewrite list_lookup_fmap. unfold range. rewrite (lookup_seqZ_lt _ _ _) by lia.
  cbn. do 2 f_equal. lia.
Qed.

Lemma filled_from_sector d k m dst off : 0 ≤ dst → dst + 512 ≤ 4294967296 →
  filled_from d k m (sts m dst ((λ i, image d k (off + i)) <$> range 0 512)) dst off 512.
Proof.
  intros Hd Hd2 a Ha. rewrite ld_sts; [|lia| |lia].
  - case_decide; cbn.
    + destruct (decide (a < dst + 512)).
      * rewrite decide_True by lia. rewrite lookup_sector by lia. apply u8_small, image_byte.
      * rewrite decide_False by lia. rewrite lookup_ge_None_2; [done|].
        rewrite length_fmap. unfold range. rewrite length_seqZ. lia.
    + by rewrite decide_False by lia.
  - rewrite length_fmap. unfold range. rewrite length_seqZ. lia.
Qed.

Lemma filled_from_app d k m m1 m2 dst off n1 n2 : 0 ≤ n1 → 0 ≤ n2 →
  filled_from d k m m1 dst off n1 → filled_from d k m1 m2 (dst + n1) (off + n1) n2 →
  filled_from d k m m2 dst off (n1 + n2).
Proof.
  intros Hn1 Hn2 H1 H2 a Ha. rewrite H2 by done. case_decide.
  - rewrite decide_True by lia. f_equal. lia.
  - rewrite H1 by done. repeat case_decide; lia || done.
Qed.

Lemma filled_from_image d d' k m m' dst off n : same_image d d' →
  filled_from d' k m m' dst off n → filled_from d k m m' dst off n.
Proof. intros Hi Hf a Ha. rewrite Hf by done. case_decide; [by rewrite Hi|done]. Qed.

Lemma same_image_trans d1 d2 d3 : same_image d1 d2 → same_image d2 d3 → same_image d1 d3.
Proof. intros H1 H2 k a. by rewrite H2, H1. Qed.

(** The blocks that stores to [n] bytes from [dst] make dirty. *)
Definition dirtied (X Y : gset Z) (dst n : Z) : Prop :=
  ∀ b, b ∈ Y ↔ b ∈ X ∨ ∃ x, dst ≤ x < dst + n ∧ in_cache x = true ∧ blk_of x = b.

Lemma dirtied_blocks X dst n : 0 ≤ dst → dst + n ≤ 4294967296 → dirtied X (cache_blocks dst n ∪ X) dst n.
Proof.
  intros Hd Hn b. rewrite elem_of_union. unfold cache_blocks. rewrite elem_of_list_to_set, list_elem_of_fmap.
  split; [intros [(x & -> & [Hc Hx]%list_elem_of_filter)|]; [right|by left]|intros [|(x & Hx & Hc & <-)]; [by right|left]].
  - apply list_elem_of_fmap in Hx as (i & -> & Hi%elem_of_range). exists (dst + i). rewrite u32_small in * by lia. split; [lia|done].
  - exists x. split; [done|]. apply list_elem_of_filter. split; [done|]. apply list_elem_of_fmap. exists (x - dst).
    rewrite u32_small by lia. split; [lia|]. apply elem_of_range. lia.
Qed.

Lemma dirtied_app X Y Z0 dst n1 n2 : 0 ≤ n1 → 0 ≤ n2 → dirtied X Y dst n1 → dirtied Y Z0 (dst + n1) n2 → dirtied X Z0 dst (n1 + n2).
Proof.
  intros Hn1 Hn2 H1 H2 b. rewrite (H2 b), (H1 b). split.
  - intros [[|(x & ? & ?)]|(x & ? & ?)]; [by left|right; exists x..]; (split; [lia|done]).
  - intros [|(x & Hx & ?)]; [by left; left|]. destruct (decide (x < dst + n1)); [left; right|right]; exists x; (split; [lia|done]).
Qed.

(** Stores inside block [b] concern [b] only. *)
Lemma dirtied_block X Y dst n b : (∀ x, dst ≤ x < dst + n → blk_of x = b) → dirtied X Y dst n → Y ∖ {[b]} = X ∖ {[b]}.
Proof.
  intros Hb HY. apply set_eq. intros c. rewrite !elem_of_difference, (HY c), elem_of_singleton.
  split; [|tauto]. intros [[?|(x & Hx & _ & <-)] Hne]; [done|]. by destruct Hne; apply Hb.
Qed.

Lemma ide_read_loop_spec n dst k lba s :
  phase (dev s) = phase_left AtaRead k lba n → bytes_ok (um s) → 0 ≤ dst → dst + 512 * Z.of_nat n < 4294967296 →
  wp (ide_read_loop n dst) (λ r s', r = 0 ∧ ∃ d' m' X, s' = set_dirty X (set_um m' (set_dev d' s)) ∧
    phase d' = AtaIdle ∧ same_image (dev s) d' ∧ dirtied (dirty s) X dst (512 * Z.of_nat n) ∧ bytes_ok m' ∧
    filled_from (dev s) k (um s) m' dst (lba * 512) (512 * Z.of_nat n)) no_stop s.
Proof.
  revert dst lba s. induction n as [|n IH]; intros dst lba s Hp Hok Hd Hdn.
  - apply wp_ret. split; [done|]. exists (dev s), (um s), (dirty s). split; [by destruct s|].
    do 2 (split; [done|]). split; [intros b; split; [by left|intros [|(x & ? & _)]; [done|lia]]|].
    split; [done|]. intros a Ha. by rewrite decide_False by lia.
  - cbn [ide_read_loop]. apply wp_bind, ide_wait_ready_spec. intros d1 Hd1 Hpo1 Hi1. cbn [Z.ltb Z.compare].
    apply wp_bind, wp_insl. cbn [dirty um dev set_dev].
    assert (Hph : phase d1 = AtaRead k lba (S n)) by (rewrite Hd1, Hp; done).
    set (d2 := (ata_insl 0x1F0 128 d1).2). set (m2 := sts (um s) dst _).
    assert (Hf : filled_from d1 k (um s) m2 dst (lba * 512) 512).
    { unfold m2. rewrite (insl_data _ _ _ _ Hph Hpo1). apply filled_from_sector; lia. }
    assert (Hok2 : bytes_ok m2).
    { intros a. rewrite <- (ld_u32 m2), Hf by apply u32_range. case_decide; [apply image_byte|rewrite ld_u32; apply Hok]. }
    rewrite u32_small by (change SECTSIZE with 512; lia). change SECTSIZE with 512.
    eapply wp_mono; [apply (IH (dst + 512) (lba + 1))| |done]; cbn [dev um dirty set_dirty set_um set_dev].
    + unfold d2. by rewrite (insl_phase _ _ _ _ Hph Hpo1), after_left.
    + done.
    + lia.
    + lia.
    + intros r s' (-> & d' & m' & X & -> & Hd' & Hi' & HX & Hok' & Hf'). split; [done|].
      assert (Hi2 : same_image (dev s) d2).
      { eapply same_image_trans; [exact Hi1|]. intros k' a. unfold d2. by eapply insl_image. }
      exists d', m', X. split; [done|]. split; [done|]. split; [by eapply same_image_trans|].
      replace (512 * Z.of_nat (S n)) with (512 + 512 * Z.of_nat n) by lia.
      split; [by eapply dirtied_app; [lia|lia|apply dirtied_blocks; lia|]|]. split; [done|].
      eapply filled_from_app; [lia|lia|eapply filled_from_image; [exact Hi1|exact Hf]|].
      eapply filled_from_image; [exact Hi2|]. by replace (lba * 512 + 512) with ((lba + 1) * 512) by lia.
Qed.

(** ide_read of [nsecs] sectors from [secno] to [dst]. *)
Lemma ide_read_spec secno dst nsecs s :
  phase (dev s) = AtaIdle → bytes_ok (um s) → (diskno s = 0 ∨ diskno s = 1) →
  0 ≤ secno < 268435456 → 0 < nsecs ≤ 256 → 0 ≤ dst → dst + 512 * nsecs < 4294967296 →
  wp (ide_read secno dst nsecs) (λ r s', r = 0 ∧ ∃ d' m' X, s' = set_dirty X (set_um m' (set_dev d' s)) ∧
    phase d' = AtaIdle ∧ same_image (dev s) d' ∧ dirtied (dirty s) X dst (512 * nsecs) ∧ bytes_ok m' ∧
    filled_from (dev s) (diskno s) (um s) m' dst (secno * 512) (512 * nsecs)) no_stop s.
Proof.
  intros Hp Hok Hk Hs Hn Hd Hdn. unfold ide_read.
  replace (nsecs <=? 256) with true by lia. apply wp_bind, wp_ret.
  apply wp_bind, ide_wait_ready_spec. intros d1 Hd1 Hpo1 Hi1.
  apply ide_setup; cbn [dev set_dev diskno]; [by rewrite Hd1|done|done|done|done|lia|].
  intros d2 Hd2 Hpo2 Hi2 Hdr Hlba Hcnt.
  assert (Hi3 : same_image (dev s) (ata_outb 0x1F7 0x20 d2)).
  { eapply same_image_trans; [exact Hi1|]. eapply same_image_trans; [exact Hi2|]. intros k a. by apply outb_image. }
  eapply wp_mono; [apply (ide_read_loop_spec _ _ (diskno s) secno)| |done]; cbn [dev um dirty set_dev].
  - rewrite cmd_read by done. rewrite Hdr, Hlba, Hcnt. by destruct (Z.to_nat nsecs) eqn:E; [lia|].
  - done.
  - done.
  - lia.
  - intros r s' (-> & d' & m' & X & -> & Hd' & Hi' & HX & Hok' & Hf'). split; [done|].
    exists d', m', X. split; [done|]. split; [done|]. split; [by eapply same_image_trans|].
    rewrite Z2Nat.id in HX, Hf' by lia. do 2 (split; [done|]). by eapply filled_from_image.
Qed.

(** The disk after writing [n] bytes of memory from [src] at [off]. *)
Definition written_to d d' (k : Z) (m : mem) (src off n : Z) : Prop :=
  ∀ k' a, image d' k' a = if decide (k' = k ∧ off ≤ a < off + n) then ld m (src + (a - off)) else image d k' a.

Lemma written_to_app d d1 d2 k m src off n1 n2 : 0 ≤ n1 → 0 ≤ n2 →
  written_to d d1 k m src off n1 → written_to d1 d2 k m (src + n1) (off + n1) n2 →
  written_to d d2 k m src off (n1 + n2).
Proof.
  intros Hn1 Hn2 H1 H2 k' a. rewrite H2. case_decide.
  - rewrite decide_True by lia. f_equal. lia.
  - rewrite H1. repeat case_decide; lia || done.
Qed.

Lemma lookup_lds m a n i : 0 ≤ i < n → lds m a n !! Z.to_nat i = Some (ld m (a + i)).
Proof.
  intros Hi. unfold lds. rewrite list_lookup_fmap. unfold range. rewrite (lookup_seqZ_lt _ _ _) by lia.
  cbn. do 2 f_equal. lia.
Qed.
Lemma length_lds_nat m a n : length (lds m a n) = Z.to_nat n.
Proof. unfold lds, range. rewrite length_fmap, length_seqZ. lia. Qed.

Lemma ide_write_loop_spec n src k lba s :
  phase (dev s) = phase_left AtaWrite k lba n → bytes_ok (um s) → 0 ≤ src → src + 512 * Z.of_nat n < 4294967296 →
  wp (ide_write_loop n src) (λ r s', r = 0 ∧ ∃ d', s' = set_dev d' s ∧ phase d' = AtaIdle ∧
    written_to (dev s) d' k (um s) src (lba * 512) (512 * Z.of_nat n)) no_stop s.
Proof.
  revert src lba s. induction n as [|n IH]; intros src lba s Hp Hok Hd Hdn.
  - apply wp_ret. split; [done|]. exists (dev s). split; [by destruct s|]. split; [done|].
    intros k' a. by rewrite decide_False by lia.
  - cbn [ide_write_loop]. apply wp_bind, ide_wait_ready_spec. intros d1 Hd1 Hpo1 Hi1. cbn [Z.ltb Z.compare].
    assert (Hph : phase d1 = AtaWrite k lba (S n)) by (rewrite Hd1, Hp; done).
    apply wp_bind, wp_modify. cbn [um dev set_dev]. change (4 * (SECTSIZE / 4)) with 512.
    set (d2 := ata_outsl 0x1F0 _ d1).
    assert (Hl : length (lds (um s) src 512) = 512%nat) by (by rewrite length_lds_nat).
    assert (Hw : written_to (dev s) d2 k (um s) src (lba * 512) 512).
    { intros k' a. unfold d2. rewrite (outsl_image _ _ _ _ _ _ _ Hph Hpo1); [|done|].
      - case_decide; [by rewrite lookup_lds by lia|apply Hi1].
      - unfold lds. rewrite Forall_fmap. apply Forall_forall. intros i _. apply Hok. }
    rewrite u32_small by (change SECTSIZE with 512; lia). change SECTSIZE with 512.
    eapply wp_mono; [apply (IH (src + 512) (lba + 1))| |done]; cbn [dev um set_dev].
    + unfold d2. by rewrite (outsl_phase _ _ _ _ _ Hph Hpo1), after_left.
    + done.
    + lia.
    + lia.
    + intros r s' (-> & d' & -> & Hd' & Hw'). split; [done|]. exists d'. split; [done|]. split; [done|].
      replace (512 * Z.of_nat (S n)) with (512 + 512 * Z.of_nat n) by lia.
      eapply written_to_app; [lia|lia|exact Hw|]. by replace (lba * 512 + 512) with ((lba + 1) * 512) by lia.
Qed.

Lemma written_to_image d d0 d' k m src off n : same_image d d0 →
  written_to d0 d' k m src off n → written_to d d' k m src off n.
Proof. intros Hi Hw k' a. rewrite Hw. case_decide; [done|apply Hi]. Qed.

Lemma ide_write_spec secno src nsecs s :
  phase (dev s) = AtaIdle → bytes_ok (um s) → (diskno s = 0 ∨ diskno s = 1) →
  0 ≤ secno < 268435456 → 0 < nsecs ≤ 256 → 0 ≤ src → src + 512 * nsecs < 4294967296 →
  wp (ide_write secno src nsecs) (λ r s', r = 0 ∧ ∃ d', s' = set_dev d' s ∧ phase d' = AtaIdle ∧
    written_to (dev s) d' (diskno s) (um s) src (secno * 512) (512 * nsecs)) no_stop s.
Proof.
  intros Hp Hok Hk Hs Hn Hd Hdn. unfold ide_write.
  replace (nsecs <=? 256) with true by lia. apply wp_bind, wp_ret.
  apply wp_bind, ide_wait_ready_spec. intros d1 Hd1 Hpo1 Hi1.
  apply ide_setup; cbn [dev set_dev diskno]; [by rewrite Hd1|done|done|done|done|lia|].
  intros d2 Hd2 Hpo2 Hi2 Hdr Hlba Hcnt.
  assert (Hi3 : same_image (dev s) (ata_outb 0x1F7 0x30 d2)).
  { eapply same_image_trans; [exact Hi1|]. eapply same_image_trans; [exact Hi2|]. intros k a. by apply outb_image. }
  eapply wp_mono; [apply (ide_write_loop_spec _ _ (diskno s) secno)| |done]; cbn [dev um set_dev].
  - rewrite cmd_write by done. rewrite Hdr, Hlba, Hcnt. by destruct (Z.to_nat nsecs) eqn:E; [lia|].
  - done.
  - done.
  - lia.
  - intros r s' (-> & d' & -> & Hd' & Hw). split; [done|]. exists d'. split; [done|]. split; [done|].
    eapply written_to_image; [exact Hi3|]. by rewrite Z2Nat.id in Hw by lia.
Qed.

End IdeProofs.
