(* ===== verification/BcProofs.v ===== *)
(** * The block cache is transparent

    [vw s a] is the byte the server sees at address [a]: memory, or the disk
    for a block of the disk map that is not cached.  Loading a block and
    writing it back do not change the view ([touch_spec], [flush_spec]);
    loads and stores read and write it.  The rest of the file system is
    verified against the view only. *)

From S2P Require Import Prelude Mmu CMem Str StrProofs FsState Ide IdeProofs Bc.

(** Blocks the disk map has room for. *)
Definition NBLK : Z := 786432.

Section BcProofs.
Context {D : Type} `{AtaDisk D}.
Implicit Types (s : FState D) (d : D).

(** ** The view *)

Definition vw s (a : Z) : Z :=
  if in_cache a && negb (bool_decide (blk_of a ∈ mapped s)) then image (dev s) (diskno s) (a - DISKMAP)
  else ld (um s) a.
Definition vw32 s (a : Z) : Z := vw s a + 256 * vw s (a + 1) + 65536 * vw s (a + 2) + 16777216 * vw s (a + 3).

(** Clean cached blocks agree with the disk, the controller is idle, and the
    kernel has memory for the pages of the cache ([nomem] is empty: without
    memory bc_pgfault panics). *)
Record cache_ok s : Prop := {
  co_idle : phase (dev s) = AtaIdle;
  co_bytes : bytes_ok (um s);
  co_disk : diskno s = 0 ∨ diskno s = 1;
  co_nomem : nomem s = [];
  co_mapped : ∀ b, b ∈ mapped s → 0 ≤ b < NBLK;
  co_dirty : dirty s ⊆ mapped s;
  co_clean : ∀ b i, b ∈ mapped s → b ∉ dirty s → 0 ≤ i < 4096 →
    ld (um s) (DISKMAP + b * 4096 + i) = image (dev s) (diskno s) (b * 4096 + i)
}.

(** Same view; cached blocks stay cached. *)
Record vsame s s' : Prop := {
  vs_view : ∀ a, 0 ≤ a < 4294967296 → vw s' a = vw s a;
  vs_super : super s' = super s;
  vs_bitmap : bitmap s' = bitmap s;
  vs_diskno : diskno s' = diskno s;
  vs_refs : pagerefs s' = pagerefs s;
  vs_open : opentab s' = opentab s;
  vs_mapped : mapped s ⊆ mapped s'
}.

(** Also the same disk contents: blocks were only loaded. *)
Record csame s s' : Prop := {
  cs_view : vsame s s';
  cs_image : same_image (dev s) (dev s');
  cs_dirty : dirty s' = dirty s
}.

Lemma vsame_refl s : vsame s s.
Proof. by split. Qed.
Lemma vsame_trans s1 s2 s3 : vsame s1 s2 → vsame s2 s3 → vsame s1 s3.
Proof.
  intros [A1 A2 A3 A4 A5 A6 A7] [B1 B2 B3 B4 B5 B6 B7]. split; try congruence.
  - intros a Ha. by rewrite B1, A1.
  - by etrans.
Qed.
Lemma csame_refl s : csame s s.
Proof. split; [apply vsame_refl|done|done]. Qed.
Lemma csame_trans s1 s2 s3 : csame s1 s2 → csame s2 s3 → csame s1 s3.
Proof.
  intros [A1 A2 A3] [B1 B2 B3]. split; [by eapply vsame_trans|by eapply same_image_trans|congruence].
Qed.

(** ** Addresses *)

Lemma in_cache_iff a : in_cache a = true ↔ DISKMAP ≤ a < DISKMAP + DISKSIZE.
Proof. unfold in_cache. rewrite andb_true_iff, Z.leb_le, Z.ltb_lt. done. Qed.

Lemma in_cache_range a : in_cache a = true → 0x10000000 ≤ a < 0xD0000000.
Proof. by intros ?%in_cache_iff. Qed.

Lemma blk_of_range a : in_cache a = true → 0 ≤ blk_of a < NBLK.
Proof. intros Ha%in_cache_range. unfold blk_of, NBLK. change BLKSIZE with 4096. change DISKMAP with 0x10000000. dlia. Qed.

Lemma blk_of_u32 a : in_cache a = true → u32 (a - DISKMAP) / BLKSIZE = blk_of a.
Proof. intros Ha%in_cache_range. unfold blk_of. rewrite u32_small; [done|]. change DISKMAP with 0x10000000. lia. Qed.

Lemma rounddown_blk a : in_cache a = true → ROUNDDOWN a PGSIZE = DISKMAP + blk_of a * 4096.
Proof.
  intros Ha%in_cache_range. unfold ROUNDDOWN, blk_of. rewrite u32_small by lia.
  change PGSIZE with 4096. change BLKSIZE with 4096. change DISKMAP with 0x10000000. dlia.
Qed.

Lemma blk_addr b i : 0 ≤ i < 4096 → blk_of (DISKMAP + b * 4096 + i) = b.
Proof. intros Hi. unfold blk_of. change BLKSIZE with 4096. dlia. Qed.
Lemma in_cache_addr b i : 0 ≤ b < NBLK → 0 ≤ i < 4096 → in_cache (DISKMAP + b * 4096 + i) = true.
Proof. unfold NBLK. intros. apply in_cache_iff. change DISKMAP with 0x10000000. change DISKSIZE with 0xC0000000. lia. Qed.

(** An address of the cache is its block and offset. *)
Lemma addr_split a : in_cache a = true → a = DISKMAP + blk_of a * 4096 + a `mod` 4096 ∧ 0 ≤ a `mod` 4096 < 4096.
Proof.
  intros Ha%in_cache_range. unfold blk_of. change BLKSIZE with 4096. change DISKMAP with 0x10000000. dlia.
Qed.

Lemma aligned_same a i : a `mod` 4 = 0 → 0 ≤ i < 4 → in_cache (a + i) = in_cache a ∧ blk_of (a + i) = blk_of a.
Proof.
  intros Ha Hi. split.
  - apply eq_true_iff_eq. rewrite !in_cache_iff. change DISKMAP with 0x10000000. change DISKSIZE with 0xC0000000. dlia.
  - unfold blk_of. change BLKSIZE with 4096. change DISKMAP with 0x10000000. dlia.
Qed.

(** The page of [a] can be accessed without a fault. *)
Definition present_at s a : Prop := in_cache a = true → blk_of a ∈ mapped s.

Lemma vw_present s a : present_at s a → vw s a = ld (um s) a.
Proof.
  intros Hp. unfold vw. destruct (in_cache a) eqn:Ha; [|done]. by rewrite bool_decide_true by auto.
Qed.
Lemma vw32_present s a : a `mod` 4 = 0 → present_at s a → vw32 s a = ld32 (um s) a.
Proof.
  intros Hal Hp. unfold vw32, ld32.
  assert (Hi : ∀ i, 0 ≤ i < 4 → vw s (a + i) = ld (um s) (a + i)).
  { intros i Hi. apply vw_present. destruct (aligned_same a i Hal Hi) as [Hc Hb]. unfold present_at. by rewrite Hc, Hb. }
  rewrite !Hi by lia. rewrite (vw_present s a) by done. done.
Qed.
Lemma vw32_bytes s s' a : (∀ k, 0 ≤ k < 4 → vw s' (a + k) = vw s (a + k)) → vw32 s' a = vw32 s a.
Proof.
  intros Hk. unfold vw32. rewrite !Hk by lia. pose proof (Hk 0 ltac:(lia)) as H0'. rewrite !Z.add_0_r in H0'. by rewrite H0'.
Qed.
Lemma vw32_same s s' a : vsame s s' → 0 ≤ a → a + 4 ≤ 4294967296 → vw32 s' a = vw32 s a.
Proof. intros Hv Ha Ha4. unfold vw32. by rewrite !(vs_view _ _ Hv) by lia. Qed.

Lemma vw_byte s a : bytes_ok (um s) → 0 ≤ vw s a < 256.
Proof. intros Hok. unfold vw. destruct (_ && _); [apply image_byte|apply Hok]. Qed.
Lemma vw32_range s a : bytes_ok (um s) → 0 ≤ vw32 s a < 4294967296.
Proof.
  intros Hok. unfold vw32. pose proof (vw_byte s a Hok). pose proof (vw_byte s (a + 1) Hok).
  pose proof (vw_byte s (a + 2) Hok). pose proof (vw_byte s (a + 3) Hok). lia.
Qed.

Lemma present_mono s s' a : vsame s s' → present_at s a → present_at s' a.
Proof. intros Hv Hp Ha. apply (vs_mapped _ _ Hv). by apply Hp. Qed.

(** ** Loading a block *)

(** The state after the page of block [b] has been filled from the disk. *)
Lemma filled_state b s d' m0 m' X :
  cache_ok s → 0 ≤ b < NBLK → b ∉ mapped s →
  filled (um s) m0 (DISKMAP + b * 4096) 0 4096 → phase d' = AtaIdle → same_image (dev s) d' →
  X ∖ {[b]} = dirty s ∖ {[b]} → bytes_ok m' →
  filled_from (dev s) (diskno s) m0 m' (DISKMAP + b * 4096) (b * 4096) 4096 →
  let s' := set_dirty (X ∖ {[b]}) (set_dirty X (set_um m' (set_dev d' (set_mapped ({[b]} ∪ mapped s) (set_um m0 (set_nomem [] s)))))) in
  csame s s' ∧ cache_ok s' ∧ b ∈ mapped s'.
Proof.
  intros Hc Hb Hnb Hz Hp Hi HX Hok Hf s'.
  assert (Hnd : b ∉ dirty s) by (intros Hd; by apply Hnb, (co_dirty _ Hc)).
  assert (HX' : X ∖ {[b]} = dirty s) by (rewrite HX; sets using Hnd).
  assert (Hld : ∀ a, 0 ≤ a < 4294967296 → ld m' a = if decide (DISKMAP + b * 4096 ≤ a < DISKMAP + b * 4096 + 4096)
            then image (dev s) (diskno s) (a - DISKMAP) else ld (um s) a).
  { intros a Ha. rewrite Hf by done. case_decide as Hd; [f_equal; lia|]. rewrite Hz by done. by rewrite decide_False. }
  assert (Hin : ∀ a, in_cache a = true → DISKMAP + b * 4096 ≤ a < DISKMAP + b * 4096 + 4096 ↔ blk_of a = b).
  { intros a Ha. unfold blk_of. change BLKSIZE with 4096. clear. split; intros; dlia. }
  split_and!.
  - split; [split; try done|done|done].
    + intros a Ha. unfold vw, s'. cbn [mapped um dev diskno set_um set_dev set_dirty set_mapped set_nomem].
      destruct (in_cache a) eqn:Hca; cbn [andb].
      * pose proof (Hin a Hca) as Hia. destruct (decide (blk_of a = b)) as [Heq|Hne].
        -- rewrite !(bool_decide_eq_false_2 (blk_of a ∈ mapped s)) by (by rewrite Heq).
           rewrite bool_decide_true by set_solver. cbn. rewrite Hld by done. by rewrite decide_True by (by apply Hia).
        -- replace (bool_decide (blk_of a ∈ {[b]} ∪ mapped s)) with (bool_decide (blk_of a ∈ mapped s))
             by (apply bool_decide_ext; sets using Hne).
           destruct (bool_decide _); cbn; [|apply Hi]. rewrite Hld by done. by rewrite decide_False by (by rewrite Hia).
      * rewrite Hld by done. rewrite decide_False; [done|]. intros Hr.
        assert (in_cache a = true); [|congruence]. apply in_cache_iff. unfold NBLK in Hb.
        change DISKMAP with 0x10000000 in *. change DISKSIZE with 0xC0000000. lia.
    + cbn. sets using Hnb.
  - split; try done; cbn [mapped um dev diskno dirty nomem s' set_um set_dev set_dirty set_mapped set_nomem].
    + apply (co_disk _ Hc).
    + intros b' [->%elem_of_singleton|Hb']%elem_of_union; [done|]. by apply (co_mapped _ Hc).
    + rewrite HX'. pose proof (co_dirty _ Hc) as Hd. sets using Hd.
    + intros b' i Hb' Hd' Hi'. rewrite HX' in Hd'. rewrite Hi.
      assert (0 ≤ b' < NBLK) as Hr by (apply elem_of_union in Hb' as [->%elem_of_singleton|Hb']; [done|by apply (co_mapped _ Hc)]).
      rewrite Hld by (unfold NBLK in Hr; change DISKMAP with 0x10000000; lia).
      case_decide as Hd; [f_equal; lia|]. apply elem_of_union in Hb' as [->%elem_of_singleton|Hb']; [lia|].
      by apply (co_clean _ Hc).
  - cbn. sets using Hnb.
Qed.

(** The part of bc_pgfault that allocates the page and reads the block. *)
Lemma wp_fill b (k : FS D unit) (Q : unit → FState D → Prop) E s :
  cache_ok s → 0 ≤ b < NBLK → b ∉ mapped s →
  (∀ s', csame s s' → cache_ok s' → b ∈ mapped s' → wp k Q E s') →
  wp (r ← sys_page_alloc_at (DISKMAP + b * 4096);
      if r <? 0 then fpanic "bc_pgfault failed: sys_page_alloc"
      else
        r ← ide_read (u32 (b * BLKSECTS)) (DISKMAP + b * 4096) BLKSECTS;
        if r <? 0 then fpanic "bc_pgfault failed: ide_read"
        else
          r ← sys_page_remap (DISKMAP + b * 4096);
          if r <? 0 then fpanic "in bc_pgfault, sys_page_map" else k) Q E s.
Proof.
  intros Hc Hb Hnb Hk. assert (HbN : b < 786432) by (unfold NBLK in Hb; lia).
  assert (Hcache : in_cache (DISKMAP + b * 4096) = true) by (rewrite <- (Z.add_0_r (_ + _)); apply in_cache_addr; [done|lia]).
  assert (Hblk : blk_of (DISKMAP + b * 4096) = b) by (rewrite <- (Z.add_0_r (_ + _)); apply blk_addr; lia).
  apply wp_bind. unfold sys_page_alloc_at. apply wp_bind, wp_gets. rewrite (co_nomem _ Hc). rewrite Hcache. cbn [tail].
  apply wp_bind, wp_modify, wp_bind, wp_modify, wp_bind, wp_modify, wp_ret. cbn [Z.ltb Z.compare um mapped set_nomem set_um]. rewrite Hblk.
  set (m0 := memset (um s) _ 0 PGSIZE).
  assert (Hz : filled (um s) m0 (DISKMAP + b * 4096) 0 4096).
  { apply memset_spec; change DISKMAP with 0x10000000; lia. }
  apply wp_bind. change BLKSECTS with 8. rewrite u32_small by lia.
  set (s1 := set_mapped _ _).
  eapply wp_mono; [apply (ide_read_spec (b * 8) (DISKMAP + b * 4096) 8 s1)| |by intros ?? []].
  - apply (co_idle _ Hc).
  - intros a. cbn. rewrite <- ld_u32, Hz by apply u32_range. case_decide; [apply u8_range|]. apply (co_bytes _ Hc).
  - apply (co_disk _ Hc).
  - lia.
  - lia.
  - change DISKMAP with 0x10000000. lia.
  - change DISKMAP with 0x10000000. lia.
  - intros r s2 (-> & d' & m' & X & -> & Hp & Hi & HX & Hok & Hf).
    apply (dirtied_block _ _ _ _ b) in HX.
    2:{ intros x Hx. replace x with (DISKMAP + b * 4096 + (x - (DISKMAP + b * 4096))) by lia. apply blk_addr. lia. }
    cbn [Z.ltb Z.compare].
    apply wp_bind. unfold sys_page_remap. apply wp_bind, wp_modify, wp_ret. cbn [Z.ltb Z.compare]. rewrite Hblk.
    cbn [dirty set_dirty]. replace (b * 8 * 512) with (b * 4096) in Hf by lia. change (512 * 8) with 4096 in Hf.
    destruct (filled_state b s d' m0 m' X) as (H1 & H2 & H3); try done. by apply Hk.
Qed.

(** ** Mounted file systems *)

Definition SUPER : Z := DISKMAP + 4096.
Definition BITMAP : Z := DISKMAP + 8192.
Definition nblocks s : Z := vw32 s (SUPER + 4).
(** The bitmap word and bit of block [b]. *)
Definition bit_addr (b : Z) : Z := BITMAP + 4 * (b / 32).
Definition is_free s (b : Z) : bool := ctrue (Z.land (vw32 s (bit_addr b)) (Z.shiftl 1 (b `mod` 32))).
(** The number of bitmap blocks. *)
Definition nbitmap s : Z := (nblocks s + 32767) / 32768.

(** Once fs_init is done: the super block is cached, the disk fits the disk
    map, and the super block and the bitmap are marked in use. *)
Record mounted s : Prop := {
  mo_super : super s = SUPER;
  mo_bitmap : bitmap s = BITMAP;
  mo_cached : 1 ∈ mapped s;
  mo_size : 2 < nblocks s ≤ 786432;
  mo_reserved : ∀ b, 1 ≤ b < 2 + nbitmap s → is_free s b = false
}.

Definition in_use s (b : Z) : Prop := 1 ≤ b < nblocks s ∧ is_free s b = false.

(** [a] can be accessed: outside the disk map, cached, or on a block in use. *)
Definition accessible s (a : Z) : Prop := in_cache a = true → blk_of a ∈ mapped s ∨ in_use s (blk_of a).

Lemma SUPER_val : SUPER = 0x10001000.
Proof. done. Qed.
Lemma BITMAP_val : BITMAP = 0x10002000.
Proof. done. Qed.

Lemma nblocks_same s s' : vsame s s' → nblocks s' = nblocks s.
Proof. intros Hv. apply (vw32_same _ _ _ Hv); rewrite SUPER_val; lia. Qed.
Lemma is_free_same s s' b : vsame s s' → 0 ≤ b < NBLK → is_free s' b = is_free s b.
Proof.
  intros Hv Hb. unfold is_free. rewrite (vw32_same _ _ _ Hv); [done|..]; unfold bit_addr, NBLK in *; rewrite BITMAP_val; dlia.
Qed.

Lemma nbitmap_range s : 2 < nblocks s ≤ 786432 → 1 ≤ nbitmap s ≤ 24 ∧ 2 + nbitmap s ≤ nblocks s.
Proof. intros Hn. unfold nbitmap. dlia. Qed.

Lemma mounted_same s s' : vsame s s' → mounted s → mounted s'.
Proof.
  intros Hv [H1 H2 H3 H4 H5]. split.
  - by rewrite (vs_super _ _ Hv).
  - by rewrite (vs_bitmap _ _ Hv).
  - by apply (vs_mapped _ _ Hv).
  - by rewrite (nblocks_same _ _ Hv).
  - intros b Hb. unfold nbitmap in Hb. rewrite (nblocks_same _ _ Hv) in Hb. fold (nbitmap s) in Hb.
    pose proof (nbitmap_range s H4). rewrite (is_free_same _ _ _ Hv) by (unfold NBLK; lia). by apply H5.
Qed.
Lemma in_use_same s s' b : vsame s s' → 2 < nblocks s ≤ 786432 → in_use s b → in_use s' b.
Proof.
  intros Hv Hn [Hb Hf]. split; [by rewrite (nblocks_same _ _ Hv)|].
  by rewrite (is_free_same _ _ _ Hv) by (unfold NBLK; lia).
Qed.
Lemma accessible_same s s' a : vsame s s' → mounted s → accessible s a → accessible s' a.
Proof.
  intros Hv Hm Ha Hc. destruct (Ha Hc) as [Hb|Hb]; [left; by apply (vs_mapped _ _ Hv)|right].
  eapply in_use_same; [done|apply (mo_size _ Hm)|done].
Qed.

(** The block that holds the bitmap word of [b] is one of the bitmap blocks. *)
Lemma bit_addr_blk b : 0 ≤ b < 786432 →
  in_cache (bit_addr b) = true ∧ blk_of (bit_addr b) = 2 + b / 32768 ∧ bit_addr b `mod` 4 = 0.
Proof.
  intros Hb. unfold bit_addr. rewrite BITMAP_val. split; [|split].
  - apply in_cache_iff. change DISKMAP with 0x10000000. change DISKSIZE with 0xC0000000. dlia.
  - unfold blk_of. change BLKSIZE with 4096. change DISKMAP with 0x10000000. dlia.
  - dlia.
Qed.

(** ** Accesses *)

Lemma wp_touch_present fault a (Q : unit → FState D → Prop) E s :
  present_at s a → Q tt s → wp (touch_with fault a) Q E s.
Proof.
  intros Hp HQ. unfold touch_with. destruct (in_cache a) eqn:Ha; [|by apply wp_ret].
  apply wp_bind, wp_gets. rewrite bool_decide_true by auto. by apply wp_ret.
Qed.

Lemma wp_load32_with fault a (Q : Z → FState D → Prop) E s :
  a `mod` 4 = 0 → wp (touch_with fault a) (λ _ s', present_at s' a ∧ Q (vw32 s' a) s') E s →
  wp (load32_with fault a) Q E s.
Proof.
  intros Hal Ht. apply wp_bind. eapply wp_mono; [exact Ht| |done]. intros _ s' [Hp HQ].
  apply wp_gets. by rewrite <- vw32_present.
Qed.

Lemma present_super s i : 1 ∈ mapped s → 0 ≤ i < 4096 → present_at s (SUPER + i).
Proof.
  intros Hm Hi _. replace (SUPER + i) with (DISKMAP + 1 * 4096 + i) by (unfold SUPER; lia). by rewrite blk_addr.
Qed.

(** block_is_free on a block below [nblocks] whose bitmap word can be
    touched. *)
Lemma block_is_free_with_spec fault b s :
  mounted s → 0 ≤ b < nblocks s →
  wp (touch_with fault (bit_addr b)) (λ _ s', csame s s' ∧ cache_ok s' ∧ present_at s' (bit_addr b)) no_stop s →
  wp (block_is_free_with fault b) (λ r s', r = is_free s b ∧ csame s s' ∧ cache_ok s') no_stop s.
Proof.
  intros Hm Hb Ht. unfold block_is_free_with. pose proof (mo_size _ Hm) as Hn.
  apply wp_bind, wp_gets. rewrite (mo_super _ Hm). change (SUPER =? 0) with false. cbv iota.
  apply wp_bind, wp_load32_with; [done|]. unfold s_nblocks.
  apply wp_touch_present; [by apply present_super; [apply (mo_cached _ Hm)|]|].
  split; [by apply present_super; [apply (mo_cached _ Hm)|]|].
  fold (nblocks s). replace (b >=? nblocks s) with false by lia.
  apply wp_bind, wp_gets. rewrite (mo_bitmap _ Hm). fold (bit_addr b).
  destruct (bit_addr_blk b) as (Hca & Hbk & Hal); [lia|].
  apply wp_bind, wp_load32_with; [done|]. eapply wp_mono; [exact Ht| |done].
  intros _ s' (Hcs & Hc & Hp). split; [done|]. apply wp_ret. split; [|done].
  fold (is_free s' b). apply is_free_same; [apply Hcs|unfold NBLK; lia].
Qed.

(** bc_pgfault, given that the check of the bitmap passes. *)
Lemma bc_pgfault_gen n a s :
  cache_ok s → in_cache a = true → blk_of a ∉ mapped s →
  (super s = 0 ∨ super s = SUPER ∧ 1 ∈ mapped s ∧ blk_of a < nblocks s) →
  (∀ s', csame s s' → cache_ok s' → blk_of a ∈ mapped s' →
     wp (if ctrue (bitmap s') then block_is_free_with (bc_pgfault n) (blk_of a) else mret false)
       (λ r s'', r = false ∧ csame s' s'' ∧ cache_ok s'') no_stop s') →
  wp (bc_pgfault (S n) a) (λ _ s', csame s s' ∧ cache_ok s' ∧ blk_of a ∈ mapped s') no_stop s.
Proof.
  intros Hc Ha Hb Hsup Hfree. cbn [bc_pgfault]. rewrite blk_of_u32, rounddown_blk by done. rewrite Ha. cbn [negb].
  apply wp_bind, wp_gets. set (b := blk_of a) in *. apply wp_bind.
  eapply wp_mono with (Q := λ bad s', bad = false ∧ s' = s) (E := no_stop); [| |done].
  { destruct Hsup as [-> |(-> & H1 & Hlt)]; [by apply wp_ret|]. change (ctrue SUPER) with true. cbv iota.
    apply wp_bind, wp_load32_with; [done|]. unfold s_nblocks.
    apply wp_touch_present; [by apply present_super|]. split; [by apply present_super|].
    apply wp_ret. split; [|done]. fold (nblocks s). lia. }
  intros bad s' [-> ->]. apply wp_fill; [done|by apply blk_of_range|done|].
  intros s1 Hs1 Hc1 Hb1. apply wp_bind, wp_gets. apply wp_bind.
  eapply wp_mono; [by apply Hfree| |done]. intros free s2 (-> & Hs2 & Hc2). apply wp_ret.
  split; [by eapply csame_trans|]. split; [done|]. by apply (vs_mapped _ _ (cs_view _ _ Hs2)).
Qed.

(** One level of nesting: [a] can be touched if the bitmap word of its block
    can be touched with one level less. *)
Lemma touch_level n a s :
  cache_ok s → mounted s → in_cache a = true → in_use s (blk_of a) →
  (∀ s', csame s s' → cache_ok s' → blk_of a ∈ mapped s' →
     wp (touch_with (bc_pgfault n) (bit_addr (blk_of a)))
       (λ _ s'', csame s' s'' ∧ cache_ok s'' ∧ present_at s'' (bit_addr (blk_of a))) no_stop s') →
  wp (touch_with (bc_pgfault (S n)) a) (λ _ s', csame s s' ∧ cache_ok s' ∧ present_at s' a) no_stop s.
Proof.
  intros Hc Hm Ha [Hb Hf] Hbit. unfold touch_with. rewrite Ha. apply wp_bind, wp_gets.
  case_bool_decide as Hmap; [apply wp_ret; split; [apply csame_refl|split; [done|by intros _]]|].
  eapply wp_mono; [apply bc_pgfault_gen; [done|done|done| |]| |done].
  - right. split; [apply (mo_super _ Hm)|]. split; [apply (mo_cached _ Hm)|lia].
  - intros s' Hs' Hc' Hb'. pose proof (mounted_same _ _ (cs_view _ _ Hs') Hm) as Hm'.
    rewrite (mo_bitmap _ Hm'). change (ctrue BITMAP) with true. cbv iota.
    eapply wp_mono; [apply block_is_free_with_spec; [done| |by apply Hbit]| |done].
    + rewrite (nblocks_same _ _ (cs_view _ _ Hs')). lia.
    + intros r s'' (-> & Hs'' & Hc''). split; [|done].
      rewrite (is_free_same _ _ _ (cs_view _ _ Hs')); [done|]. pose proof (mo_size _ Hm). unfold NBLK. lia.
  - intros _ s' (Hs' & Hc' & Hb'). split; [done|]. split; [done|by intros _].
Qed.

(** A bitmap block is in use. *)
Lemma bitmap_in_use s b : mounted s → 0 ≤ b < nblocks s → in_use s (2 + b / 32768).
Proof.
  intros Hm Hb. pose proof (mo_size _ Hm) as Hn. pose proof (nbitmap_range s Hn) as Hr.
  assert (b / 32768 < nbitmap s) by (unfold nbitmap; dlia). assert (0 ≤ b / 32768) by dlia.
  split; [lia|]. apply (mo_reserved _ Hm). lia.
Qed.

(** A bitmap word is touched with two levels of faults: its block, and the
    first bitmap block. *)
Lemma touch_bitmap n b s : cache_ok s → mounted s → 0 ≤ b < nblocks s →
  wp (touch_with (bc_pgfault (S (S n))) (bit_addr b))
    (λ _ s', csame s s' ∧ cache_ok s' ∧ present_at s' (bit_addr b)) no_stop s.
Proof.
  intros Hc Hm Hb. pose proof (mo_size _ Hm) as Hn. destruct (bit_addr_blk b) as (Hca & Hbk & _); [lia|].
  pose proof (bitmap_in_use s b Hm Hb) as Hu. assert (Hq : 0 ≤ b / 32768 < 24) by dlia.
  apply touch_level; [done|done|done|by rewrite Hbk|]. intros s1 Hs1 Hc1 _. rewrite Hbk.
  set (c := 2 + b / 32768) in *. assert (Hc0 : c / 32768 = 0) by (unfold c; dlia).
  destruct (bit_addr_blk c) as (Hca' & Hbk' & _); [lia|]. rewrite Hc0 in Hbk'. change (2 + 0) with 2 in Hbk'.
  pose proof (mounted_same _ _ (cs_view _ _ Hs1) Hm) as Hm1. pose proof (mo_size _ Hm1) as Hn1.
  apply touch_level; [done|done|done| |].
  - rewrite Hbk'. exact (bitmap_in_use s1 0 Hm1 ltac:(lia)).
  - intros s2 Hs2 Hc2 Hb2. rewrite Hbk' in Hb2 |- *. destruct (bit_addr_blk 2) as (_ & Hbk2 & _); [lia|].
    assert (Hp : present_at s2 (bit_addr 2)) by (intros _; rewrite Hbk2; exact Hb2).
    apply wp_touch_present; [exact Hp|]. split; [apply csame_refl|done].
Qed.

(** Any accessible address can be touched. *)
Lemma touch_spec a s : cache_ok s → mounted s → accessible s a →
  wp (touch a) (λ _ s', csame s s' ∧ cache_ok s' ∧ present_at s' a) no_stop s.
Proof.
  intros Hc Hm Ha. unfold touch. destruct (in_cache a) eqn:Hca.
  - destruct (Ha Hca) as [Hmap|Hu].
    + apply wp_touch_present; [by intros _|]. split; [apply csame_refl|]. split; [done|by intros _].
    + apply touch_level; [done|done|done|done|]. intros s' Hs' Hc' _.
      apply touch_bitmap; [done|by eapply mounted_same, Hm; apply Hs'|].
      rewrite (nblocks_same _ _ (cs_view _ _ Hs')). destruct Hu. lia.
  - apply wp_touch_present; [by unfold present_at; rewrite Hca|]. split; [apply csame_refl|]. split; [done|].
    by unfold present_at; rewrite Hca.
Qed.

(** Before the super block is known every block can be touched. *)
Lemma touch_unmounted a s : cache_ok s → super s = 0 → bitmap s = 0 →
  wp (touch a) (λ _ s', csame s s' ∧ cache_ok s' ∧ present_at s' a) no_stop s.
Proof.
  intros Hc Hs0 Hb0. unfold touch, touch_with. destruct (in_cache a) eqn:Hca.
  - apply wp_bind, wp_gets. case_bool_decide as Hmap.
    + apply wp_ret. split; [apply csame_refl|]. split; [done|by intros _].
    + eapply wp_mono; [apply bc_pgfault_gen; [done|done|done|by left|]| |done].
      * intros s' Hs' Hc' Hb'. rewrite (vs_bitmap _ _ (cs_view _ _ Hs')), Hb0. apply wp_ret.
        split; [done|]. split; [apply csame_refl|done].
      * intros _ s' (? & ? & ?). split; [done|]. split; [done|by intros _].
  - apply wp_ret. split; [apply csame_refl|]. split; [done|]. by unfold present_at; rewrite Hca.
Qed.

(** ** Writing back *)

(** The disk contents. *)
Definition dk s (x : Z) : Z := image (dev s) (diskno s) x.

(** After a flush of block [b] the disk holds what the server saw there. *)
Definition flushed s s' (b : Z) : Prop :=
  ∀ x, 0 ≤ x < 3221225472 → dk s' x = if decide (x / 4096 = b) then vw s (DISKMAP + x) else dk s x.

Lemma vw_disk s b i : 0 ≤ b < NBLK → 0 ≤ i < 4096 →
  vw s (DISKMAP + b * 4096 + i) = if bool_decide (b ∈ mapped s) then ld (um s) (DISKMAP + b * 4096 + i) else dk s (b * 4096 + i).
Proof.
  intros Hb Hi. unfold vw, dk. rewrite in_cache_addr, blk_addr by done. cbn. case_bool_decide; cbn; [done|f_equal; lia].
Qed.

Lemma disk_split x : 0 ≤ x < 3221225472 → x = x / 4096 * 4096 + x `mod` 4096 ∧ 0 ≤ x / 4096 < NBLK ∧ 0 ≤ x `mod` 4096 < 4096.
Proof. unfold NBLK. intros. dlia. Qed.

(** The state after block [b] has been written. *)
Lemma written_state b s d' :
  cache_ok s → b ∈ mapped s → phase d' = AtaIdle →
  written_to (dev s) d' (diskno s) (um s) (DISKMAP + b * 4096) (b * 4096) 4096 →
  let s' := set_dirty (dirty s ∖ {[b]}) (set_dev d' s) in
  vsame s s' ∧ cache_ok s' ∧ flushed s s' b.
Proof.
  intros Hc Hb Hp Hw s'. pose proof (co_mapped _ Hc b Hb) as HbN.
  assert (Hi : ∀ x, image d' (diskno s) x = if decide (b * 4096 ≤ x < b * 4096 + 4096) then ld (um s) (DISKMAP + x) else dk s x).
  { intros x. rewrite Hw. repeat case_decide; try (naive_solver lia); f_equal; lia. }
  split_and!.
  - split; try done. intros a Ha. unfold vw. cbn. destruct (in_cache a) eqn:Hca; [cbn|done].
    case_bool_decide as Hm; cbn; [done|]. rewrite Hi. rewrite decide_False; [done|].
    intros Hr. apply Hm. destruct (addr_split a Hca) as [Hsp Hmod]. replace (blk_of a) with b; [done|].
    change DISKMAP with 0x10000000 in *. lia.
  - destruct Hc as [C1 C2 C3 C4 C5 C6 C7]. split; try done; cbn.
    + clear -C6. set_solver.
    + intros b' i Hb' Hd Hi'. rewrite Hi. case_decide as Hr; [f_equal; lia|].
      apply C7; [done| |done]. intros Hd'. apply Hd. apply elem_of_difference. split; [done|].
      intros ->%elem_of_singleton. lia.
  - intros x Hx. unfold dk at 1. cbn. rewrite Hi. destruct (disk_split x Hx) as (Hsp & HxN & Hxm).
    destruct (decide (x / 4096 = b)) as [Hq|Hq].
    + rewrite decide_True by lia. rewrite Hsp, Z.add_assoc, vw_disk by done. by rewrite bool_decide_true by (by rewrite Hq).
    + rewrite decide_False; [done|]. lia.
Qed.

Lemma flush_full a s : cache_ok s → in_cache a = true →
  wp (flush_block a) (λ _ s', (vsame s s' ∧ cache_ok s' ∧ flushed s s' (blk_of a)) ∧
    mapped s' = mapped s ∧ dirty s' = dirty s ∖ {[blk_of a]}) no_stop s.
Proof.
  intros Hc Ha. unfold flush_block. rewrite blk_of_u32, rounddown_blk by done. rewrite Ha. cbn [negb].
  set (b := blk_of a). assert (Hblk : blk_of (DISKMAP + b * 4096) = b) by (rewrite <- (Z.add_0_r (_ + _)); apply blk_addr; lia).
  pose proof (blk_of_range a Ha) as HbN. fold b in HbN.
  apply wp_bind, wp_gets. rewrite Hblk. apply wp_bind.
  eapply wp_mono with (Q := λ dd s', dd = bool_decide (b ∈ dirty s) ∧ s' = s) (E := no_stop); [| |done].
  { case_bool_decide as Hm; [apply wp_gets; by rewrite Hblk|apply wp_ret; split; [|done]].
    symmetry. apply bool_decide_eq_false. intros Hd. by apply Hm, (co_dirty _ Hc). }
  intros dd s0 [-> ->]. case_bool_decide as Hd.
  - pose proof (co_dirty _ Hc b Hd) as Hm. apply wp_bind. change BLKSECTS with 8. unfold NBLK in HbN. rewrite u32_small by lia.
    eapply wp_mono; [apply (ide_write_spec (b * 8) (DISKMAP + b * 4096) 8 s)| |done].
    + apply (co_idle _ Hc).
    + apply (co_bytes _ Hc).
    + apply (co_disk _ Hc).
    + lia.
    + lia.
    + change DISKMAP with 0x10000000. lia.
    + change DISKMAP with 0x10000000. lia.
    + intros r s1 (-> & d' & -> & Hp & Hw). cbn [Z.ltb Z.compare]. apply wp_bind. unfold sys_page_remap.
      apply wp_bind, wp_modify, wp_ret. cbn [Z.ltb Z.compare]. rewrite Hblk. apply wp_ret. cbn [dirty set_dev].
      split; [|split; reflexivity].
      apply written_state; [done|done|done|]. by replace (b * 8 * 512) with (b * 4096) in Hw by lia.
  - apply wp_ret. split; [|split; [done|clear -Hd; set_solver]].
    split; [apply vsame_refl|]. split; [done|]. intros x Hx.
    destruct (disk_split x Hx) as (Hsp & HxN & Hxm). case_decide as Hq; [|done].
    rewrite Hsp at 2. rewrite Z.add_assoc, vw_disk by done. case_bool_decide as Hm; [|by rewrite <- Hsp].
    rewrite Hq in Hm. rewrite (co_clean _ Hc) by (done || by rewrite Hq). unfold dk. by rewrite <- Hsp.
Qed.

Lemma flush_spec a s : cache_ok s → in_cache a = true →
  wp (flush_block a) (λ _ s', vsame s s' ∧ cache_ok s' ∧ flushed s s' (blk_of a)) no_stop s.
Proof. intros Hc Ha. eapply wp_mono; [by apply flush_full| |done]. intros _ s' [Hf _]. exact Hf. Qed.

End BcProofs.
