(* ===== verification/BcMem.v ===== *)
(** * Loads and stores through the block cache

    The rules the file system proofs use: a load returns the view, a store
    updates it ([vput]), and memset and memmove do so for ranges.  Also
    check_bc and bc_init, which exercise the cache before the file system is
    mounted. *)

From S2P Require Import Prelude Mmu CMem Str StrProofs FsState Ide IdeProofs Bc BcProofs.

(** [f] with the bytes [l] at [a]. *)
Definition over (f : Z → Z) (a : Z) (l : list Z) (x : Z) : Z :=
  match (if decide (a ≤ x) then l !! Z.to_nat (x - a) else None) with Some c => c | None => f x end.

Lemma over_in f a l x c : a ≤ x → l !! Z.to_nat (x - a) = Some c → over f a l x = c.
Proof. intros Hx Hl. unfold over. by rewrite decide_True, Hl. Qed.
Lemma over_out f a l x : x < a ∨ a + Z.of_nat (length l) ≤ x → over f a l x = f x.
Proof.
  intros Hx. unfold over. case_decide; [|done]. by rewrite lookup_ge_None_2 by lia.
Qed.
Lemma over_ext f g a l x : f x = g x → over f a l x = over g a l x.
Proof. intros Hx. unfold over. case_decide; [|done]. by destruct (l !! _). Qed.

(** The bytes of a 32-bit word. *)
Definition bytes32 (v : Z) : list Z := [u8 v; u8 (Z.shiftr v 8); u8 (Z.shiftr v 16); u8 (Z.shiftr v 24)].

Lemma bytes32_value v : u8 v + 256 * u8 (Z.shiftr v 8) + 65536 * u8 (Z.shiftr v 16) + 16777216 * u8 (Z.shiftr v 24) = u32 v.
Proof.
  unfold u8, u32. rewrite !Z.shiftr_div_pow2 by lia.
  change (2 ^ 8) with 256. change (2 ^ 16) with 65536. change (2 ^ 24) with 16777216. dlia.
Qed.

Section BcMem.
Context {D : Type} `{AtaDisk D}.
Implicit Types (s : FState D).

(** Everything but the view. *)
Record vstep s s' : Prop := {
  st_super : super s' = super s;
  st_bitmap : bitmap s' = bitmap s;
  st_diskno : diskno s' = diskno s;
  st_refs : pagerefs s' = pagerefs s;
  st_open : opentab s' = opentab s;
  st_mapped : mapped s ⊆ mapped s'
}.

(** The view with [l] written at [a]. *)
Definition vput s s' (a : Z) (l : list Z) : Prop :=
  vstep s s' ∧ ∀ x, 0 ≤ x < 4294967296 → vw s' x = over (vw s) a l x.

Lemma vsame_step s s' : vsame s s' → vstep s s'.
Proof. intros []. by split. Qed.
Lemma vstep_refl s : vstep s s.
Proof. by split. Qed.
Lemma vstep_trans s1 s2 s3 : vstep s1 s2 → vstep s2 s3 → vstep s1 s3.
Proof. intros [A1 A2 A3 A4 A5 A6] [B1 B2 B3 B4 B5 B6]. split; try congruence. by etrans. Qed.
Lemma vput_after s s1 s2 a l : vsame s s1 → vput s1 s2 a l → vput s s2 a l.
Proof.
  intros Hv [Hst Hw]. split; [eapply vstep_trans; [by apply vsame_step|done]|].
  intros x Hx. rewrite Hw by done. apply over_ext. by apply (vs_view _ _ Hv).
Qed.
Lemma vput_before s s1 s2 a l : vput s s1 a l → vsame s1 s2 → vput s s2 a l.
Proof.
  intros [Hst Hw] Hv. split; [eapply vstep_trans; [done|by apply vsame_step]|].
  intros x Hx. by rewrite (vs_view _ _ Hv), Hw by done.
Qed.

(** The page of [x] can be written: present, and dirty if it is in the
    cache. *)
Definition open_at s x : Prop := in_cache x = true → blk_of x ∈ mapped s ∧ blk_of x ∈ dirty s.

Lemma write_mem s m' a l :
  cache_ok s → 0 ≤ a → a + Z.of_nat (length l) ≤ 4294967296 →
  (∀ x, a ≤ x < a + Z.of_nat (length l) → open_at s x) →
  (∀ x, 0 ≤ x < 4294967296 → ld m' x = over (ld (um s)) a l x) → bytes_ok m' →
  vput s (set_um m' s) a l ∧ cache_ok (set_um m' s).
Proof.
  intros Hc Ha Hal Hop Hld Hok. split.
  - split; [by split|]. intros x Hx. unfold vw. cbn.
    destruct (decide (a ≤ x < a + Z.of_nat (length l))) as [Hr|Hr].
    + pose proof (Hop x Hr) as Ho. unfold open_at in Ho.
      destruct (lookup_lt_is_Some_2 l (Z.to_nat (x - a))) as [c Hl]; [lia|].
      rewrite (over_in _ _ _ _ c) by (done || lia).
      destruct (in_cache x); cbn; [|rewrite Hld by done; by apply over_in; [lia|]].
      rewrite bool_decide_true by (by apply Ho). cbn. rewrite Hld by done. by apply over_in; [lia|].
    + rewrite (over_out _ a l) by lia. destruct (_ && _); [done|]. rewrite Hld by done. apply over_out. lia.
  - destruct Hc as [C1 C2 C3 C4 C5 C6 C7]. split; try done. cbn. intros b i Hb Hd Hi.
    pose proof (C5 b Hb) as HbN. rewrite Hld by (unfold NBLK in HbN; change DISKMAP with 0x10000000; lia).
    rewrite over_out; [by apply C7|].
    destruct (decide (a ≤ DISKMAP + b * 4096 + i < a + Z.of_nat (length l))) as [Hr|Hr]; [|lia].
    destruct (Hop _ Hr) as [_ Hd']; [by apply in_cache_addr|]. rewrite blk_addr in Hd' by done. done.
Qed.

(** ** Touching pages *)

(** What touching leaves: the same view and disk, more cached and dirty
    blocks. *)
Record tsame s s' : Prop := {
  ts_view : vsame s s';
  ts_image : same_image (dev s) (dev s');
  ts_dirty : dirty s ⊆ dirty s'
}.
Lemma tsame_refl s : tsame s s.
Proof. split; [apply vsame_refl|done|done]. Qed.
Lemma tsame_trans s1 s2 s3 : tsame s1 s2 → tsame s2 s3 → tsame s1 s3.
Proof.
  intros [A1 A2 A3] [B1 B2 B3]. split; [by eapply vsame_trans|by eapply same_image_trans|by etrans].
Qed.
Lemma csame_tsame s s' : csame s s' → tsame s s'.
Proof. intros [A1 A2 A3]. split; [done|done|by rewrite A3]. Qed.

(** Every block can be touched: mounted and accessible, or not mounted
    yet. *)
Definition touchable s a : Prop := mounted s ∧ accessible s a ∨ super s = 0 ∧ bitmap s = 0.

Lemma touchable_same s s' a : vsame s s' → touchable s a → touchable s' a.
Proof.
  intros Hv [[Hm Ha]|[H1 H2]]; [left; split; [by eapply mounted_same|by eapply accessible_same]|right].
  by rewrite (vs_super _ _ Hv), (vs_bitmap _ _ Hv).
Qed.

Lemma touch_ok a s : cache_ok s → touchable s a →
  wp (touch a) (λ _ s', csame s s' ∧ cache_ok s' ∧ present_at s' a) no_stop s.
Proof. intros Hc [[Hm Ha]|[H1 H2]]; [by apply touch_spec|by apply touch_unmounted]. Qed.

Lemma set_dirty_state s b : cache_ok s → b ∈ mapped s →
  tsame s (set_dirty ({[b]} ∪ dirty s) s) ∧ cache_ok (set_dirty ({[b]} ∪ dirty s) s).
Proof.
  intros Hc Hb. split; [split; [by split|done|cbn; clear; set_solver]|].
  destruct Hc as [C1 C2 C3 C4 C5 C6 C7]. split; try done; cbn.
  - clear -C6 Hb. set_solver.
  - intros b' i Hb' Hd. apply C7; [done|]. clear -Hd. set_solver.
Qed.

Lemma touch_w_ok a s : cache_ok s → touchable s a →
  wp (touch_w a) (λ _ s', tsame s s' ∧ cache_ok s' ∧ open_at s' a) no_stop s.
Proof.
  intros Hc Ht. unfold touch_w. apply wp_bind. eapply wp_mono; [by apply touch_ok| |done].
  intros _ s1 (Hs1 & Hc1 & Hp). destruct (in_cache a) eqn:Hca.
  - apply wp_modify. destruct (set_dirty_state s1 (blk_of a) Hc1 (Hp Hca)) as [H1 H2].
    split; [eapply tsame_trans; [by apply csame_tsame|done]|]. split; [done|]. intros _. cbn. split; [by apply Hp|]. clear. set_solver.
  - apply wp_ret. split; [by apply csame_tsame|]. split; [done|]. unfold open_at. by rewrite Hca.
Qed.

(** ** Pages of a range *)

Lemma page_same x : 0 ≤ x → in_cache (x / 4096 * 4096) = in_cache x ∧ blk_of (x / 4096 * 4096) = blk_of x.
Proof.
  intros Hx. split.
  - apply eq_true_iff_eq. rewrite !in_cache_iff. change DISKMAP with 0x10000000. change DISKSIZE with 0xC0000000. dlia.
  - unfold blk_of. change BLKSIZE with 4096. change DISKMAP with 0x10000000. dlia.
Qed.
Lemma touchable_page s x : 0 ≤ x → touchable s x → touchable s (x / 4096 * 4096).
Proof.
  intros Hx [[Hm Ha]|Hu]; [left; split; [done|]|by right]. destruct (page_same x Hx) as [H1 H2].
  unfold accessible. by rewrite H1, H2.
Qed.
Lemma open_page s x : 0 ≤ x → open_at s (x / 4096 * 4096) → open_at s x.
Proof. intros Hx. destruct (page_same x Hx) as [H1 H2]. unfold open_at. by rewrite H1, H2. Qed.
Lemma present_page s x : 0 ≤ x → present_at s (x / 4096 * 4096) → present_at s x.
Proof. intros Hx. destruct (page_same x Hx) as [H1 H2]. unfold present_at. by rewrite H1, H2. Qed.

(** Touching the pages of a range, with [f] touching one page. *)
Lemma pages_ok (f : Z → FS D unit) (P : FState D → Z → Prop) a n s :
  (∀ x s, cache_ok s → touchable s x → wp (f x) (λ _ s', tsame s s' ∧ cache_ok s' ∧ P s' x) no_stop s) →
  (∀ s s' x, tsame s s' → P s x → P s' x) → (∀ s x, 0 ≤ x → P s (x / 4096 * 4096) → P s x) →
  cache_ok s → 0 ≤ a → 0 ≤ n → (∀ x, a ≤ x < a + n → touchable s x) →
  wp (forM (pages_of a n) f) (λ _ s', tsame s s' ∧ cache_ok s' ∧ ∀ x, a ≤ x < a + n → P s' x) no_stop s.
Proof.
  intros Hf Hmono Hpage Hc Ha Hn Ht. unfold pages_of. destruct (n =? 0) eqn:E.
  { apply wp_ret. split; [apply tsame_refl|]. split; [done|]. intros. lia. }
  change PGSIZE with 4096.
  apply wp_forM with (I := λ l s', tsame s s' ∧ cache_ok s' ∧ ∀ x, x ∈ l → P s' x).
  - split; [apply tsame_refl|]. split; [done|]. intros x Hx. by apply elem_of_nil in Hx.
  - intros dn x todo s1 Hl (Hs1 & Hc1 & HP).
    assert (Hx : ∃ y, x = y / 4096 * 4096 ∧ a ≤ y < a + n).
    { assert (Hin : x ∈ (λ p, p * 4096) <$> range (a / 4096) ((a + n - 1) / 4096 + 1)).
      { rewrite Hl. apply elem_of_app. right. by left. }
      apply list_elem_of_fmap in Hin as (p & -> & Hp%elem_of_range).
      destruct (decide (p * 4096 ≤ a)); [exists a|exists (p * 4096)]; split; dlia. }
    destruct Hx as (y & -> & Hy).
    eapply wp_mono; [apply Hf; [done|]| |done].
    + apply touchable_page; [lia|]. eapply touchable_same; [apply Hs1|by apply Ht].
    + intros _ s2 (Hs2 & Hc2 & HP2). split; [by eapply tsame_trans|]. split; [done|].
      intros z [Hz| ->%list_elem_of_singleton]%elem_of_app; [|done]. by eapply Hmono, HP.
  - intros s1 (Hs1 & Hc1 & HP). split; [done|]. split; [done|]. intros x Hx. apply Hpage; [lia|]. apply HP.
    apply list_elem_of_fmap. exists (x / 4096). split; [done|]. apply elem_of_range. dlia.
Qed.

Lemma open_mono s s' x : tsame s s' → open_at s x → open_at s' x.
Proof.
  intros Hs Ho Hx. destruct (Ho Hx). split; [by apply (vs_mapped _ _ (ts_view _ _ Hs))|by apply (ts_dirty _ _ Hs)].
Qed.

Lemma touch_pages a n s : cache_ok s → 0 ≤ a → 0 ≤ n → (∀ x, a ≤ x < a + n → touchable s x) →
  wp (forM (pages_of a n) touch) (λ _ s', tsame s s' ∧ cache_ok s' ∧ ∀ x, a ≤ x < a + n → present_at s' x) no_stop s.
Proof.
  intros. apply (pages_ok touch present_at); try done.
  - intros x s1 Hc1 Ht1. eapply wp_mono; [by apply touch_ok| |done]. intros _ s2 (? & ? & ?). split; [by apply csame_tsame|done].
  - intros s1 s2 x Hs. apply present_mono, Hs.
  - apply present_page.
Qed.
Lemma touch_w_pages a n s : cache_ok s → 0 ≤ a → 0 ≤ n → (∀ x, a ≤ x < a + n → touchable s x) →
  wp (forM (pages_of a n) touch_w) (λ _ s', tsame s s' ∧ cache_ok s' ∧ ∀ x, a ≤ x < a + n → open_at s' x) no_stop s.
Proof. intros. apply (pages_ok touch_w open_at); try done; [apply touch_w_ok|apply open_mono|apply open_page]. Qed.

(** ** Loads *)

Lemma load8_ok a (Q : Z → FState D → Prop) s : cache_ok s → touchable s a → 0 ≤ a < 4294967296 →
  (∀ s', csame s s' → cache_ok s' → Q (vw s a) s') → wp (load8 a) Q no_stop s.
Proof.
  intros Hc Ht Ha HQ. unfold load8. apply wp_bind. eapply wp_mono; [by apply touch_ok| |done].
  intros _ s' (Hs' & Hc' & Hp). apply wp_gets. rewrite <- vw_present by done.
  rewrite (vs_view _ _ (cs_view _ _ Hs')) by done. by apply HQ.
Qed.

Lemma load32_ok a (Q : Z → FState D → Prop) s : cache_ok s → touchable s a → 0 ≤ a → a + 4 ≤ 4294967296 → a `mod` 4 = 0 →
  (∀ s', csame s s' → cache_ok s' → Q (vw32 s a) s') → wp (load32 a) Q no_stop s.
Proof.
  intros Hc Ht Ha Ha4 Hal HQ. apply wp_load32_with; [done|]. eapply wp_mono; [by apply touch_ok| |done].
  intros _ s' (Hs' & Hc' & Hp). split; [done|]. rewrite (vw32_same _ _ _ (cs_view _ _ Hs')) by done. by apply HQ.
Qed.

(** ** Stores *)

Lemma ld_st_over m a v x : 0 ≤ a < 4294967296 → 0 ≤ x < 4294967296 → ld (st m a v) x = over (ld m) a [u8 v] x.
Proof.
  intros Ha Hx. rewrite ld_st_small by done. case_decide as Hd.
  - subst. symmetry. apply over_in; [lia|]. by rewrite Z.sub_diag.
  - symmetry. apply over_out. cbn. lia.
Qed.

Lemma ld_st32_over m a v x : 0 ≤ a → a + 4 ≤ 4294967296 → 0 ≤ x < 4294967296 → ld (st32 m a v) x = over (ld m) a (bytes32 v) x.
Proof.
  intros Ha Ha4 Hx. rewrite ld_st32 by done.
  assert (Hin : ∀ k, x = a + k → 0 ≤ k < 4 → Some (over (ld m) a (bytes32 v) x) = bytes32 v !! Z.to_nat k).
  { intros k -> Hk. destruct (lookup_lt_is_Some_2 (bytes32 v) (Z.to_nat k)) as [c Hl]; [cbn; lia|]. rewrite Hl. f_equal.
    apply over_in; [lia|]. by replace (a + k - a) with k by lia. }
  case_decide; [by injection (Hin 0 ltac:(lia) ltac:(lia))|]. case_decide; [by injection (Hin 1 ltac:(lia) ltac:(lia))|].
  case_decide; [by injection (Hin 2 ltac:(lia) ltac:(lia))|]. case_decide; [by injection (Hin 3 ltac:(lia) ltac:(lia))|].
  symmetry. apply over_out. cbn. lia.
Qed.

Lemma st32_bytes_ok m a v : bytes_ok m → bytes_ok (st32 m a v).
Proof. intros Hok. unfold st32. by repeat apply st_bytes_ok. Qed.

Lemma store8_ok a v (Q : unit → FState D → Prop) s : cache_ok s → touchable s a → 0 ≤ a < 4294967296 →
  (∀ s', vput s s' a [u8 v] → cache_ok s' → Q tt s') → wp (store8 a v) Q no_stop s.
Proof.
  intros Hc Ht Ha HQ. unfold store8. apply wp_bind. eapply wp_mono; [by apply touch_w_ok| |done].
  intros _ s1 (Hs1 & Hc1 & Ho). apply wp_modify.
  destruct (write_mem s1 (st (um s1) a v) a [u8 v] Hc1) as [H1 H2]; [lia|cbn; lia| | |by apply st_bytes_ok, (co_bytes _ Hc1)|].
  - intros x Hx. cbn in Hx. by replace x with a by lia.
  - intros x Hx. by apply ld_st_over.
  - apply HQ; [|done]. by eapply vput_after; [apply Hs1|].
Qed.

Lemma open_aligned s a i : a `mod` 4 = 0 → 0 ≤ i < 4 → open_at s a → open_at s (a + i).
Proof. intros Hal Hi. destruct (aligned_same a i Hal Hi) as [H1 H2]. unfold open_at. by rewrite H1, H2. Qed.

Lemma store32_ok a v (Q : unit → FState D → Prop) s : cache_ok s → touchable s a → 0 ≤ a → a + 4 ≤ 4294967296 → a `mod` 4 = 0 →
  (∀ s', vput s s' a (bytes32 v) → cache_ok s' → Q tt s') → wp (store32 a v) Q no_stop s.
Proof.
  intros Hc Ht Ha Ha4 Hal HQ. unfold store32. apply wp_bind. eapply wp_mono; [by apply touch_w_ok| |done].
  intros _ s1 (Hs1 & Hc1 & Ho). apply wp_modify.
  destruct (write_mem s1 (st32 (um s1) a v) a (bytes32 v) Hc1) as [H1 H2]; [lia|cbn; lia| | |by apply st32_bytes_ok, (co_bytes _ Hc1)|].
  - intros x Hx. cbn in Hx. replace x with (a + (x - a)) by lia. apply open_aligned; [done|lia|done].
  - intros x Hx. by apply ld_st32_over.
  - apply HQ; [|done]. by eapply vput_after; [apply Hs1|].
Qed.

(** ** Ranges *)

(** [n] copies of the byte [c]. *)
Lemma filled_over m m' a c n : filled m m' a c n → 0 ≤ n → ∀ x, 0 ≤ x < 4294967296 →
  ld m' x = over (ld m) a (replicate (Z.to_nat n) (u8 c)) x.
Proof.
  intros Hf Hn x Hx. rewrite Hf by done. case_decide as Hd; symmetry.
  - apply over_in; [lia|]. apply lookup_replicate. split; [done|lia].
  - apply over_out. rewrite length_replicate. lia.
Qed.

Lemma fs_memset_ok a c n (Q : unit → FState D → Prop) s :
  cache_ok s → 0 ≤ a → 0 ≤ n → a + n ≤ 4294967296 → (∀ x, a ≤ x < a + n → touchable s x) →
  (∀ s', vput s s' a (replicate (Z.to_nat n) (u8 c)) → cache_ok s' → Q tt s') → wp (fs_memset a c n) Q no_stop s.
Proof.
  intros Hc Ha Hn Han Ht HQ. unfold fs_memset. apply wp_bind. eapply wp_mono; [by apply touch_w_pages| |done].
  intros _ s1 (Hs1 & Hc1 & Ho). apply wp_modify. pose proof (memset_spec (um s1) a c n Ha Hn Han) as Hf.
  destruct (write_mem s1 (memset (um s1) a c n) a (replicate (Z.to_nat n) (u8 c)) Hc1) as [H1 H2];
    [lia|rewrite length_replicate; lia| | | |].
  - intros x Hx. rewrite length_replicate in Hx. apply Ho. lia.
  - by apply filled_over.
  - intros x. rewrite <- ld_u32, Hf by apply u32_range. case_decide; [apply u8_range|apply (co_bytes _ Hc1)].
  - apply HQ; [|done]. by eapply vput_after; [apply Hs1|].
Qed.

(** The bytes the server sees in a range. *)
Definition vws s (a n : Z) : list Z := (λ i, vw s (a + i)) <$> range 0 n.

Lemma lookup_vws s a n i : 0 ≤ i < n → vws s a n !! Z.to_nat i = Some (vw s (a + i)).
Proof.
  intros Hi. unfold vws. rewrite list_lookup_fmap. unfold range. rewrite (lookup_seqZ_lt _ _ _) by lia.
  cbn. do 2 f_equal. lia.
Qed.
Lemma length_vws s a n : 0 ≤ n → Z.of_nat (length (vws s a n)) = n.
Proof. intros. unfold vws, range. rewrite length_fmap, length_seqZ. lia. Qed.

Lemma vws_same s s' a n : (∀ x, 0 ≤ x < 4294967296 → vw s' x = vw s x) → 0 ≤ a → a + n ≤ 4294967296 → vws s' a n = vws s a n.
Proof.
  intros Hv Ha Hn. unfold vws. apply list_fmap_ext. intros i x Hi.
  apply list_elem_of_lookup_2, elem_of_range in Hi. apply Hv. lia.
Qed.

Lemma fs_memmove_ok dst src n (Q : unit → FState D → Prop) s :
  cache_ok s → 0 ≤ dst → 0 ≤ src → 0 ≤ n → dst + n < 4294967296 → src + n < 4294967296 →
  (∀ x, src ≤ x < src + n → touchable s x) → (∀ x, dst ≤ x < dst + n → touchable s x) →
  (∀ s', vput s s' dst (vws s src n) → cache_ok s' → Q tt s') → wp (fs_memmove dst src n) Q no_stop s.
Proof.
  intros Hc Hd Hs Hn Hdn Hsn Hts Htd HQ. unfold fs_memmove. apply wp_bind.
  eapply wp_mono; [by apply touch_pages| |done]. intros _ s1 (Hs1 & Hc1 & Hp1). apply wp_bind.
  eapply wp_mono; [apply touch_w_pages; [done..|]| |done].
  { intros x Hx. eapply touchable_same; [apply Hs1|auto]. }
  intros _ s2 (Hs2 & Hc2 & Ho). apply wp_modify.
  pose proof (tsame_trans _ _ _ Hs1 Hs2) as Hs12.
  pose proof (memmove_spec (um s2) dst src n (co_bytes _ Hc2) Hd Hs Hn Hdn Hsn) as Hm.
  assert (Hl : ∀ x, 0 ≤ x < 4294967296 → ld (memmove (um s2) dst src n) x = over (ld (um s2)) dst (vws s src n) x).
  { intros x Hx. rewrite Hm by done. case_decide as Hr; symmetry.
    - apply over_in; [lia|]. rewrite lookup_vws by lia. f_equal.
      rewrite <- (vs_view _ _ (ts_view _ _ Hs12)) by lia. apply vw_present.
      eapply present_mono; [apply Hs2|]. apply Hp1. lia.
    - apply over_out. rewrite length_vws by done. lia. }
  destruct (write_mem s2 (memmove (um s2) dst src n) dst (vws s src n) Hc2) as [H1 H2];
    [done|rewrite length_vws; lia| |done| |].
  - intros x Hx. rewrite length_vws in Hx by done. apply Ho. lia.
  - by eapply copied_bytes_ok, Hm; apply (co_bytes _ Hc2).
  - apply HQ; [|done]. by eapply vput_after; [apply Hs12|].
Qed.

Lemma vput_app s s1 s2 a l1 l2 :
  vput s s1 a l1 → vput s1 s2 (a + Z.of_nat (length l1)) l2 → vput s s2 a (l1 ++ l2).
Proof.
  intros [Hst1 H1] [Hst2 H2]. split; [by eapply vstep_trans|]. intros x Hx. rewrite H2 by done.
  unfold over. repeat case_decide; try lia.
  - rewrite lookup_app_r by lia. replace (Z.to_nat (x - a) - length l1)%nat with (Z.to_nat (x - (a + Z.of_nat (length l1)))) by lia.
    destruct (l2 !! _); [done|]. rewrite H1 by done. apply over_out. lia.
  - rewrite lookup_app_l by lia. rewrite H1 by done. unfold over. by rewrite decide_True by lia.
  - rewrite H1 by done. apply over_out. lia.
Qed.

(** ** Writes that leave the super block and the bitmap alone *)

Definition off_meta s (a n : Z) : Prop :=
  (a + n ≤ SUPER + 4 ∨ SUPER + 8 ≤ a) ∧ (a + n ≤ BITMAP ∨ BITMAP + 4096 * nbitmap s ≤ a).

Lemma vput_out s s' a l x : vput s s' a l → 0 ≤ x < 4294967296 → x < a ∨ a + Z.of_nat (length l) ≤ x → vw s' x = vw s x.
Proof. intros [_ Hv] Hx Ho. rewrite Hv by done. by apply over_out. Qed.
Lemma vput_out32 s s' a l x : vput s s' a l → 0 ≤ x → x + 4 ≤ 4294967296 →
  x + 4 ≤ a ∨ a + Z.of_nat (length l) ≤ x → vw32 s' x = vw32 s x.
Proof. intros Hv Hx Hx4 Ho. unfold vw32. by rewrite !(vput_out _ _ _ _ _ Hv) by lia. Qed.
Lemma vput_in32 s s' a v : vput s s' a (bytes32 v) → 0 ≤ a → a + 4 ≤ 4294967296 → vw32 s' a = u32 v.
Proof.
  intros [_ Hv] Ha Ha4. unfold vw32. rewrite !Hv by lia. rewrite <- bytes32_value.
  rewrite (over_in _ _ _ a (u8 v)); [|lia|by replace (a - a) with 0 by lia].
  rewrite (over_in _ _ _ (a + 1) (u8 (Z.shiftr v 8))); [|lia|by replace (a + 1 - a) with 1 by lia].
  rewrite (over_in _ _ _ (a + 2) (u8 (Z.shiftr v 16))); [|lia|by replace (a + 2 - a) with 2 by lia].
  rewrite (over_in _ _ _ (a + 3) (u8 (Z.shiftr v 24))); [|lia|by replace (a + 3 - a) with 3 by lia]. done.
Qed.

Lemma off_meta_nblocks s s' a l : vput s s' a l → off_meta s a (Z.of_nat (length l)) → nblocks s' = nblocks s.
Proof. intros Hv [Ho _]. unfold nblocks. rewrite (vput_out32 _ _ _ _ _ Hv); [done|rewrite SUPER_val in *; lia..]. Qed.
Lemma off_meta_free s s' a l b : vput s s' a l → off_meta s a (Z.of_nat (length l)) → nblocks s ≤ 786432 →
  0 ≤ b < nblocks s → is_free s' b = is_free s b.
Proof.
  intros Hv [_ Ho] Hn Hb. unfold is_free, nbitmap, bit_addr in *.
  rewrite (vput_out32 _ _ _ _ _ Hv); [done|rewrite BITMAP_val in *; dlia..].
Qed.

Lemma mounted_put s s' a l : vput s s' a l → off_meta s a (Z.of_nat (length l)) → mounted s → mounted s'.
Proof.
  intros Hv Ho [H1 H2 H3 H4 H5]. pose proof (off_meta_nblocks _ _ _ _ Hv Ho) as Hn. destruct Hv as [Hst Hvw]. split.
  - by rewrite (st_super _ _ Hst).
  - by rewrite (st_bitmap _ _ Hst).
  - by apply (st_mapped _ _ Hst).
  - by rewrite Hn.
  - intros b Hb. unfold nbitmap in Hb. rewrite Hn in Hb. fold (nbitmap s) in Hb. pose proof (nbitmap_range s H4).
    rewrite (off_meta_free s s' a l) by (done || lia). by apply H5.
Qed.
Lemma in_use_put s s' a l b : vput s s' a l → off_meta s a (Z.of_nat (length l)) → nblocks s ≤ 786432 →
  in_use s b → in_use s' b.
Proof.
  intros Hv Ho Hn [Hb Hf]. split; [by rewrite (off_meta_nblocks _ _ _ _ Hv Ho)|].
  by rewrite (off_meta_free s s' a l) by (done || lia).
Qed.

(** ** diskaddr *)

Lemma diskaddr_ok b (Q : Z → FState D → Prop) s : cache_ok s → mounted s → 0 < b < nblocks s →
  (∀ s', csame s s' → cache_ok s' → Q (DISKMAP + b * 4096) s') → wp (diskaddr b) Q no_stop s.
Proof.
  intros Hc Hm Hb HQ. pose proof (mo_size _ Hm) as Hn. unfold diskaddr. replace (b =? 0) with false by lia.
  apply wp_bind, wp_gets. rewrite (mo_super _ Hm). change (ctrue SUPER) with true. cbv iota.
  apply wp_bind, wp_bind. apply load32_ok; [done| |done|done|done|].
  { left. split; [done|]. intros _. left. unfold s_nblocks. exact (present_super s 4 (mo_cached _ Hm) ltac:(lia) eq_refl). }
  intros s' Hs' Hc'. apply wp_ret. change (vw32 s (s_nblocks SUPER)) with (nblocks s). replace (b >=? nblocks s) with false by lia.
  rewrite u32_small by (change DISKMAP with 0x10000000; change BLKSIZE with 4096; lia). apply wp_ret. by apply HQ.
Qed.

Lemma diskaddr_unmounted b (Q : Z → FState D → Prop) E s : super s = 0 → 0 < b < 786432 →
  Q (DISKMAP + b * 4096) s → wp (diskaddr b) Q E s.
Proof.
  intros Hs Hb HQ. unfold diskaddr. replace (b =? 0) with false by lia. apply wp_bind, wp_gets. rewrite Hs.
  apply wp_bind, wp_ret. rewrite u32_small by (change DISKMAP with 0x10000000; change BLKSIZE with 4096; lia). by apply wp_ret.
Qed.

End BcMem.
