(* ===== verification/FsAlloc.v ===== *)
(** * The free block bitmap

    alloc_block and free_block (fs/fs.c) as operations on the set of free
    blocks: alloc_block takes the lowest free block and tells the disk,
    free_block gives one back, and nothing else that the server sees
    changes. *)

From S2P Require Import Prelude Mmu CMem Str StrProofs FsState Ide IdeProofs Bc BcProofs BcMem Fs.

(** ** Bits of a word *)

Lemma ctrue_bit w k : 0 ≤ k → ctrue (Z.land w (Z.shiftl 1 k)) = Z.testbit w k.
Proof.
  intros Hk. rewrite Z.shiftl_1_l. destruct (Z.testbit w k) eqn:E.
  - apply ctrue_true. intros H0. assert (Hb : Z.testbit (Z.land w (2 ^ k)) k = true).
    { rewrite Z.land_spec, E, Z.pow2_bits_true by lia. done. }
    by rewrite H0, Z.bits_0 in Hb.
  - apply ctrue_false. apply Z.bits_inj'. intros i Hi. rewrite Z.land_spec, Z.bits_0.
    destruct (decide (i = k)) as [->|]; [by rewrite E|]. rewrite (Z.pow2_bits_false k i) by lia. apply andb_false_r.
Qed.

Lemma u32_testbit w k : 0 ≤ k < 32 → Z.testbit (u32 w) k = Z.testbit w k.
Proof. intros Hk. unfold u32. change 4294967296 with (2 ^ 32). by rewrite Z.mod_pow2_bits_low by lia. Qed.

Lemma clear_testbit w j k : 0 ≤ j → 0 ≤ k → Z.testbit (Z.land w (Z.lnot (Z.shiftl 1 j))) k = if decide (k = j) then false else Z.testbit w k.
Proof.
  intros Hj Hk. rewrite Z.land_spec, Z.lnot_spec by done. rewrite Z.shiftl_1_l. case_decide as Hd.
  - subst. rewrite Z.pow2_bits_true by done. apply andb_false_r.
  - rewrite Z.pow2_bits_false by lia. apply andb_true_r.
Qed.
Lemma set_testbit w j k : 0 ≤ j → 0 ≤ k → Z.testbit (Z.lor w (Z.shiftl 1 j)) k = if decide (k = j) then true else Z.testbit w k.
Proof.
  intros Hj Hk. rewrite Z.lor_spec. rewrite Z.shiftl_1_l. case_decide as Hd.
  - subst. rewrite Z.pow2_bits_true by done. apply orb_true_r.
  - rewrite Z.pow2_bits_false by lia. apply orb_false_r.
Qed.

Section FsAlloc.
Context {D : Type} `{AtaDisk D}.
Implicit Types (s : FState D).

(** The server is up and the file system mounted. *)
Definition ready s : Prop := cache_ok s ∧ mounted s.

Lemma ready_same s s' : vsame s s' → cache_ok s' → mounted s → ready s'.
Proof. intros Hv Hc Hm. split; [done|by eapply mounted_same]. Qed.

Lemma is_free_bit s b : is_free s b = Z.testbit (vw32 s (bit_addr b)) (b `mod` 32).
Proof. unfold is_free. apply ctrue_bit. dlia. Qed.

Lemma block_is_free_ok b (Q : bool → FState D → Prop) s : ready s → 0 ≤ b < nblocks s →
  (∀ s', csame s s' → ready s' → Q (is_free s b) s') → wp (block_is_free b) Q no_stop s.
Proof.
  intros [Hc Hm] Hb HQ. eapply wp_mono; [apply block_is_free_with_spec; [done|done|by apply touch_bitmap]| |done].
  intros r s' (-> & Hs' & Hc'). apply HQ; [done|]. by eapply ready_same; [apply Hs'| |].
Qed.

(** ** A change of one bit *)

(** The bit of [b] is now [v]; everything the server sees outside the bitmap
    is the same. *)
Record bit_set s s' (b : Z) (v : bool) : Prop := {
  bs_step : vstep s s';
  bs_ready : ready s';
  bs_nblocks : nblocks s' = nblocks s;
  bs_free : ∀ c, 0 ≤ c < nblocks s → is_free s' c = if decide (c = b) then v else is_free s c;
  bs_view : ∀ x, 0 ≤ x < 4294967296 → x < BITMAP ∨ BITMAP + 4096 * nbitmap s ≤ x → vw s' x = vw s x
}.

Lemma bit_addr_range s b : 2 < nblocks s ≤ 786432 → 0 ≤ b < nblocks s →
  BITMAP ≤ bit_addr b ∧ bit_addr b + 4 ≤ BITMAP + 4096 * nbitmap s ∧ nbitmap s ≤ 24.
Proof. intros Hn Hb. unfold bit_addr, nbitmap. rewrite BITMAP_val. dlia. Qed.

(** Writing a word that differs from the bitmap word of [b] in that bit
    only. *)
Lemma bit_put s s' b w v :
  ready s → 0 ≤ b < nblocks s → vput s s' (bit_addr b) (bytes32 w) → cache_ok s' →
  (∀ k, 0 ≤ k < 32 → Z.testbit w k = if decide (k = b `mod` 32) then v else Z.testbit (vw32 s (bit_addr b)) k) →
  (v = true → 2 + nbitmap s ≤ b) → bit_set s s' b v.
Proof.
  intros [Hc Hm] Hb Hput Hc' Hw Hres. pose proof (mo_size _ Hm) as Hn.
  destruct (bit_addr_range s b Hn Hb) as (Hlo & Hhi & H24). pose proof (nbitmap_range s Hn) as [Hnb Hnb2].
  rewrite BITMAP_val in *. change SUPER with 0x10001000 in *.
  assert (Hnbl : nblocks s' = nblocks s).
  { unfold nblocks. rewrite (vput_out32 _ _ _ _ _ Hput); [done|rewrite SUPER_val; lia..]. }
  assert (Hfree : ∀ c, 0 ≤ c < nblocks s → is_free s' c = if decide (c = b) then v else is_free s c).
  { intros c Hcr. rewrite !is_free_bit. destruct (decide (bit_addr c = bit_addr b)) as [Heq|Hne].
    - rewrite Heq, (vput_in32 _ _ _ _ Hput) by lia. rewrite u32_testbit by dlia. rewrite Hw by dlia.
      assert (c / 32 = b / 32) by (unfold bit_addr in Heq; lia). repeat case_decide; try done; dlia.
    - rewrite (vput_out32 _ _ _ _ _ Hput).
      + rewrite decide_False; [done|]. by intros ->.
      + destruct (bit_addr_range s c Hn Hcr) as (H1 & H2 & _). rewrite BITMAP_val in *. lia.
      + destruct (bit_addr_range s c Hn Hcr) as (H1 & H2 & _). rewrite BITMAP_val in *. lia.
      + unfold bit_addr in *. cbn. lia. }
  split; [apply Hput| |done|done|].
  - split; [done|]. destruct Hput as [Hst _]. split.
    + rewrite (st_super _ _ Hst). apply (mo_super _ Hm).
    + rewrite (st_bitmap _ _ Hst). apply (mo_bitmap _ Hm).
    + apply (st_mapped _ _ Hst), (mo_cached _ Hm).
    + by rewrite Hnbl.
    + unfold nbitmap. rewrite Hnbl. fold (nbitmap s). intros c Hcr. rewrite Hfree by lia. case_decide as Hd.
      * destruct v; [|done]. specialize (Hres eq_refl). lia.
      * by apply (mo_reserved _ Hm).
  - intros x Hx Hout. rewrite (vput_out _ _ _ _ _ Hput); [done|done|]. cbn. rewrite BITMAP_val in Hout. lia.
Qed.

Lemma bit_set_same s s1 s2 b v : bit_set s s1 b v → vsame s1 s2 → cache_ok s2 → bit_set s s2 b v.
Proof.
  intros [H1 H2 H3 H4 H5] Hv Hc. pose proof (mo_size _ (proj2 H2)) as Hn. split.
  - eapply vstep_trans; [done|by apply vsame_step].
  - eapply ready_same; [done|done|apply H2].
  - by rewrite (nblocks_same _ _ Hv).
  - intros c Hcr. rewrite (is_free_same _ _ _ Hv) by (unfold NBLK; lia). by apply H4.
  - intros x Hx Ho. rewrite (vs_view _ _ Hv) by done. by apply H5.
Qed.
Lemma bit_set_after s s1 s2 b v : vsame s s1 → mounted s → bit_set s1 s2 b v → bit_set s s2 b v.
Proof.
  intros Hv Hm [H1 H2 H3 H4 H5]. pose proof (mo_size _ Hm) as Hn. pose proof (nblocks_same _ _ Hv) as Hnb. split.
  - eapply vstep_trans; [by apply vsame_step|done].
  - done.
  - by rewrite H3.
  - intros c Hcr. rewrite H4 by lia. by rewrite (is_free_same _ _ _ Hv) by (unfold NBLK; lia).
  - intros x Hx Ho. rewrite H5; [by apply (vs_view _ _ Hv)|done|]. unfold nbitmap. by rewrite Hnb.
Qed.

(** The bitmap word of [b] can be accessed. *)
Lemma bit_touchable s b : ready s → 0 ≤ b < nblocks s → touchable s (bit_addr b).
Proof.
  intros [Hc Hm] Hb. left. split; [done|]. intros _. right. pose proof (mo_size _ Hm).
  destruct (bit_addr_blk b) as (_ & -> & _); [lia|]. by apply bitmap_in_use.
Qed.

(** ** alloc_block and free_block *)

(** Block [b] on the disk is what the server sees. *)
Definition synced s (b : Z) : Prop := ∀ i, 0 ≤ i < 4096 → dk s (b * 4096 + i) = vw s (DISKMAP + b * 4096 + i).

Lemma flushed_synced s s' b : 0 ≤ b < 786432 → vsame s s' → flushed s s' b → synced s' b.
Proof.
  intros Hb Hv Hf i Hi. rewrite Hf by lia. rewrite decide_True by dlia.
  rewrite (vs_view _ _ Hv) by (change DISKMAP with 0x10000000; lia). f_equal. lia.
Qed.

(** What alloc_block does: all blocks are taken and nothing changes, or the
    lowest free block is taken. *)
Definition alloc_result s (r : Z) s' : Prop :=
  (r = - E_NO_DISK ∧ vsame s s' ∧ ready s' ∧ ∀ c, 1 ≤ c < nblocks s → is_free s c = false) ∨
  (2 + nbitmap s ≤ r < nblocks s ∧ is_free s r = true ∧ (∀ c, 1 ≤ c < r → is_free s c = false) ∧
   bit_set s s' r false ∧ synced s' (2 + r / 32768)).

Lemma free_above s b : mounted s → 1 ≤ b → is_free s b = true → 2 + nbitmap s ≤ b.
Proof.
  intros Hm Hb Hf. destruct (decide (b < 2 + nbitmap s)) as [Hlt|]; [|lia].
  by rewrite (mo_reserved _ Hm) in Hf by lia.
Qed.

(** Taking the free block [b]. *)
Lemma alloc_take b s : ready s → 1 ≤ b < nblocks s → is_free s b = true →
  wp (bm ← gets bitmap;
      let a := bm + 4 * (b / 32) in
      w ← load32 a;
      store32 a (Z.land w (Z.lnot (Z.shiftl 1 (b `mod` 32)))) ;;
      flush_block a ;;
      mret (Some b)) (λ r s', r = Some b ∧ bit_set s s' b false ∧ synced s' (2 + b / 32768)) no_stop s.
Proof.
  intros Hr Hb Hf. destruct Hr as [Hc Hm]. pose proof (mo_size _ Hm) as Hn. destruct (bit_addr_blk b) as (Hca & Hbk & Hal); [lia|].
  destruct (bit_addr_range s b Hn) as (Hlo & Hhi & H24); [lia|]. rewrite BITMAP_val in *.
  apply wp_bind, wp_gets. rewrite (mo_bitmap _ Hm). cbv zeta. fold (bit_addr b).
  apply wp_bind, load32_ok; [done|by apply bit_touchable; [|lia]|lia|lia|done|]. intros s1 Hs1 Hc1.
  assert (Hr1 : ready s1) by (by eapply ready_same; [apply Hs1| |]).
  apply wp_bind, store32_ok; [done| |lia|lia|done|].
  { apply bit_touchable; [done|]. rewrite (nblocks_same _ _ (cs_view _ _ Hs1)). lia. }
  intros s2 Hput Hc2. pose proof (vput_after _ _ _ _ _ (cs_view _ _ Hs1) Hput) as Hput'.
  assert (Hb2 : bit_set s s2 b false).
  { eapply bit_put; [done|lia|done|done| |done]. intros k Hk. apply clear_testbit; dlia. }
  apply wp_bind. eapply wp_mono; [by apply flush_spec| |done]. intros _ s3 (Hv3 & Hc3 & Hf3). apply wp_ret.
  split; [done|]. split; [by eapply bit_set_same|]. rewrite Hbk in Hf3. eapply flushed_synced; [dlia|done|done].
Qed.

Lemma alloc_block_ok s : ready s → wp alloc_block (alloc_result s) no_stop s.
Proof.
  intros Hr. destruct Hr as [Hc Hm]. pose proof (mo_size _ Hm) as Hn. unfold alloc_block.
  apply wp_bind, wp_gets. rewrite (mo_super _ Hm). apply wp_bind, load32_ok; [done| |done|done|done|].
  { left. split; [done|]. intros _. left. exact (present_super s 4 (mo_cached _ Hm) ltac:(lia) eq_refl). }
  intros s1 Hs1 Hc1. change (vw32 s (s_nblocks SUPER)) with (nblocks s). apply wp_bind.
  eapply wp_mono with (Q := λ r s', alloc_result s (default (- E_NO_DISK) r) s') (E := no_stop);
    [|by intros r s' Hres; apply wp_ret|done].
  apply wp_forE with (I := λ dn s', vsame s s' ∧ ready s' ∧ ∀ c, c ∈ dn → is_free s c = false).
  - split; [apply Hs1|]. split; [by eapply ready_same; [apply Hs1| |]|]. intros c Hcr. by apply elem_of_nil in Hcr.
  - intros dn b todo s2 Hl (Hv2 & Hr2 & Hdn). destruct (range_split _ _ _ _ _ Hl) as [-> Hb].
    pose proof (nblocks_same _ _ Hv2) as Hnb.
    apply wp_bind, block_is_free_ok; [done|lia|]. intros s3 Hs3 Hr3.
    pose proof (vsame_trans _ _ _ Hv2 (cs_view _ _ Hs3)) as Hv3.
    assert (Hfb : is_free s2 b = is_free s b) by (by apply is_free_same; [|unfold NBLK; lia]). rewrite Hfb.
    destruct (is_free s b) eqn:Hfree.
    + eapply wp_mono; [apply alloc_take; [done|by rewrite (nblocks_same _ _ Hv3)|]| |done].
      { rewrite (is_free_same _ _ _ Hv3) by (unfold NBLK; lia). done. }
      intros r s4 (-> & Hb4 & Hsy). right. cbn. split.
      { split; [apply free_above; [done|lia|done]|lia]. }
      split; [done|]. split; [|split; [by eapply bit_set_after|done]].
      intros c Hcr. apply Hdn. by apply elem_of_range.
    + apply wp_ret. split; [done|]. split; [done|]. intros c [Hcr| ->%list_elem_of_singleton]%elem_of_app; [by apply Hdn|done].
  - intros s2 (Hv2 & Hr2 & Hdn). left. split; [done|]. split; [done|]. split; [done|].
    intros c Hcr. apply Hdn. by apply elem_of_range.
Qed.

Lemma free_block_ok b (Q : unit → FState D → Prop) s : ready s → 2 + nbitmap s ≤ b < nblocks s →
  (∀ s', bit_set s s' b true → Q tt s') → wp (free_block b) Q no_stop s.
Proof.
  intros [Hc Hm] Hb HQ. pose proof (mo_size _ Hm) as Hn. pose proof (nbitmap_range s Hn) as [Hnb _].
  unfold free_block. replace (b =? 0) with false by lia.
  destruct (bit_addr_blk b) as (Hca & Hbk & Hal); [lia|].
  destruct (bit_addr_range s b Hn) as (Hlo & Hhi & H24); [lia|]. rewrite BITMAP_val in *.
  apply wp_bind, wp_gets. rewrite (mo_bitmap _ Hm). cbv zeta. fold (bit_addr b).
  apply wp_bind, load32_ok; [done|by apply bit_touchable; [|lia]|lia|lia|done|]. intros s1 Hs1 Hc1.
  assert (Hr1 : ready s1) by (by eapply ready_same; [apply Hs1| |]).
  apply store32_ok; [done| |lia|lia|done|].
  { apply bit_touchable; [done|]. rewrite (nblocks_same _ _ (cs_view _ _ Hs1)). lia. }
  intros s2 Hput Hc2. apply HQ. eapply bit_put; [done|lia|by eapply vput_after; [apply Hs1|]|done| |lia].
  intros k Hk. apply set_testbit; dlia.
Qed.

End FsAlloc.
