(* ===== verification/FsInit.v ===== *)
(** * Mounting: bc_init and fs_init

    The self test of the block cache smashes and restores the super block;
    fs_init then selects the disk, checks super block and bitmap.  On a disk
    that holds a file system the server ends up [ready], and neither what it
    sees nor what is on the disk has changed. *)

From S2P Require Import Prelude Mmu CMem Str StrProofs FsState Ide Bc Fs IdeProofs BcProofs BcMem FsAlloc.

Section FsInit.
Context {D : Type} `{AtaDisk D}.
Implicit Types s : FState D.

(** ** Strings in the view *)

(** The server sees the string [l] at [a]. *)
Definition vstr s (a : Z) (l : list Z) : Prop :=
  Forall (λ c, c ≠ 0) l ∧ (∀ i c, l !! i = Some c → vw s (a + Z.of_nat i) = c) ∧ vw s (a + Z.of_nat (length l)) = 0.

Lemma vstr_cons s a c l : vstr s a (c :: l) → vw s a = c ∧ c ≠ 0 ∧ vstr s (a + 1) l.
Proof.
  intros (Hn & Hl & Hz). apply Forall_cons in Hn as [Hc Hn].
  split; [rewrite <- (Hl 0%nat c eq_refl); f_equal; lia|]. split; [exact Hc|]. split; [exact Hn|]. split.
  - intros i x Hi. rewrite <- (Hl (S i) x Hi). f_equal. lia.
  - rewrite <- Hz. f_equal. cbn [length]. lia.
Qed.

Lemma vstr_same s s' a l : vsame s s' → 0 ≤ a → a + Z.of_nat (length l) < 4294967296 → vstr s a l → vstr s' a l.
Proof.
  intros Hs Ha Hb (Hn & Hl & Hz). split; [exact Hn|]. split.
  - intros i c Hi. pose proof (lookup_lt_Some _ _ _ Hi). rewrite (vs_view _ _ Hs) by lia. by apply Hl.
  - rewrite (vs_view _ _ Hs) by lia. exact Hz.
Qed.

Lemma strcmp_mem_ok q : ∀ l a (Q : Z → FState D → Prop) s,
  cache_ok s → vstr s a l → 0 ≤ a → a + Z.of_nat (length l) < 4294967296 →
  (∀ x, a ≤ x ≤ a + Z.of_nat (length l) → touchable s x) →
  (∀ s', csame s s' → cache_ok s' → Q (list_strcmp l q) s') → wp (strcmp_mem a q) Q no_stop s.
Proof.
  induction q as [|y q IH]; intros l a Q s Hc Hv Ha Hb Ht HQ; cbn [strcmp_mem]; apply wp_bind;
    (apply load8_ok; [exact Hc|apply Ht; lia|lia|]); intros s1 Hs1 Hc1.
  - apply wp_ret. destruct l as [|c l].
    + destruct Hv as (_ & _ & Hz). cbn [length] in Hz. rewrite Z.add_0_r in Hz. rewrite Hz. by apply HQ.
    + apply vstr_cons in Hv as (-> & _). cbn [list_strcmp] in HQ. rewrite Z.sub_0_r in HQ. by apply HQ.
  - destruct l as [|c l].
    + destruct Hv as (_ & _ & Hz). cbn [length] in Hz. rewrite Z.add_0_r in Hz. rewrite Hz. cbn [Z.eqb negb andb]. apply wp_ret. by apply HQ.
    + apply vstr_cons in Hv as (-> & Hc0 & Hv). cbn [length list_strcmp] in *.
      replace (c =? 0) with false by lia. cbn [negb andb]. destruct (c =? y) eqn:E.
      * apply (IH l); [exact Hc1|eapply vstr_same; [apply Hs1|lia|lia|exact Hv]|lia|lia| |].
        -- intros x Hx. eapply touchable_same; [apply Hs1|]. apply Ht. lia.
        -- intros s2 Hs2 Hc2. apply HQ; [by eapply csame_trans|exact Hc2].
      * apply wp_ret. by apply HQ.
Qed.

(** Storing a string, for a set [T] of states that stays within it. *)
Lemma strcpy_mem_ok l : ∀ a (T : FState D → Prop) (Q : unit → FState D → Prop) s,
  0 ≤ a → a + Z.of_nat (length l) < 4294967296 → Forall (λ c, 0 ≤ c < 256) l →
  (∀ s x, T s → a ≤ x ≤ a + Z.of_nat (length l) → cache_ok s ∧ touchable s x) →
  (∀ s s' x v, T s → vput s s' x [v] → cache_ok s' → a ≤ x ≤ a + Z.of_nat (length l) → T s') → T s →
  (∀ s', vput s s' a (l ++ [0]) → T s' → Q tt s') → wp (strcpy_mem a l) Q no_stop s.
Proof.
  induction l as [|c l IH]; intros a T Q s Ha Hb Hf Ht HT Hs HQ; cbn [strcpy_mem app].
  - destruct (Ht s a Hs) as [Hc Hta]; [cbn; lia|]. apply store8_ok; [exact Hc|exact Hta|cbn in Hb; lia|].
    intros s1 Hp Hc1. apply HQ; [exact Hp|]. eapply HT; [exact Hs|exact Hp|exact Hc1|cbn; lia].
  - apply Forall_cons in Hf as [Hcb Hf]. cbn [length] in *. destruct (Ht s a Hs) as [Hc Hta]; [lia|].
    apply wp_bind. apply store8_ok; [exact Hc|exact Hta|lia|]. intros s1 Hp Hc1. rewrite u8_small in Hp by exact Hcb.
    apply (IH (a + 1) T); [lia|lia|exact Hf| | | |].
    + intros s2 x H2 Hx. apply Ht; [exact H2|lia].
    + intros s2 s3 x v H2 H3 H4 Hx. eapply HT; [exact H2|exact H3|exact H4|lia].
    + eapply HT; [exact Hs|exact Hp|exact Hc1|lia].
    + intros s2 Hp2 H2. apply HQ; [|exact H2]. apply (vput_app s s1 s2 a [c] (l ++ [0])); [exact Hp|exact Hp2].
Qed.

(** ** Copies of a range *)

Lemma backup_ok a n (Q : list Z → FState D → Prop) s :
  cache_ok s → 0 ≤ a → 0 ≤ n → a + n ≤ 4294967296 → (∀ x, a ≤ x < a + n → touchable s x) →
  (∀ s', tsame s s' → cache_ok s' → (∀ x, a ≤ x < a + n → present_at s' x) → Q (vws s a n) s') →
  wp (backup a n) Q no_stop s.
Proof.
  intros Hc Ha Hn Hb Ht HQ. unfold backup. apply wp_bind. eapply wp_mono; [by apply touch_pages| |done].
  intros _ s1 (Hs1 & Hc1 & Hp). apply wp_gets.
  replace (lds (um s1) a n) with (vws s a n); [by apply HQ|]. unfold vws, lds. apply list_fmap_ext.
  intros i x Hi. apply list_elem_of_lookup_2, elem_of_range in Hi.
  rewrite <- (vs_view _ _ (ts_view _ _ Hs1)) by lia. apply vw_present, Hp. lia.
Qed.

Lemma restore_ok a l (Q : unit → FState D → Prop) s :
  cache_ok s → 0 ≤ a → a + Z.of_nat (length l) ≤ 4294967296 → Forall (λ c, 0 ≤ c < 256) l →
  (∀ x, a ≤ x < a + Z.of_nat (length l) → touchable s x) →
  (∀ s', vput s s' a l → cache_ok s' → Q tt s') → wp (restore a l) Q no_stop s.
Proof.
  intros Hc Ha Hb Hf Ht HQ. unfold restore. apply wp_bind. eapply wp_mono; [apply touch_w_pages; [done|lia|lia|done]| |done].
  intros _ s1 (Hs1 & Hc1 & Ho). apply wp_modify.
  destruct (write_mem s1 (sts (um s1) a l) a l Hc1) as [H1 H2]; [lia|lia|exact Ho| | |].
  - intros x Hx. rewrite ld_sts by lia. unfold over. case_decide; [|done].
    destruct (l !! Z.to_nat (x - a)) as [c|] eqn:E; [|done]. apply u8_small.
    apply (proj1 (Forall_lookup _ _) Hf _ _ E).
  - apply sts_bytes_ok, (co_bytes _ Hc1).
  - apply HQ; [|done]. by eapply vput_after; [apply Hs1|].
Qed.

Lemma vws_bytes s a n : bytes_ok (um s) → Forall (λ c, 0 ≤ c < 256) (vws s a n).
Proof. intros Hb. unfold vws. apply Forall_fmap, Forall_forall. intros i _. by apply vw_byte. Qed.

(** ** Before the file system is mounted *)

(** The server sees what it saw in [s0], and no file system is mounted. *)
Record unmounted s0 s : Prop := {
  un_cache : cache_ok s;
  un_super : super s = 0;
  un_bitmap : bitmap s = 0;
  un_diskno : diskno s = diskno s0;
  un_refs : pagerefs s = pagerefs s0;
  un_open : opentab s = opentab s0;
  un_view : ∀ a, 0 ≤ a < 4294967296 → vw s a = vw s0 a
}.

Lemma unmounted_refl s : cache_ok s → super s = 0 → bitmap s = 0 → unmounted s s.
Proof. by split. Qed.

Lemma unmounted_same s0 s s' : unmounted s0 s → vsame s s' → cache_ok s' → unmounted s0 s'.
Proof.
  intros [H1 H2 H3 H4 H5 H6 H7] [V1 V2 V3 V4 V5 V6 _] Hc. split; try congruence.
  intros a Ha. by rewrite V1, H7.
Qed.

(** Writing. *)
Lemma unmounted_put s0 s s' a l : unmounted s0 s → vput s s' a l → cache_ok s' →
  unmounted s' s' ∧ diskno s' = diskno s0 ∧ pagerefs s' = pagerefs s0 ∧ opentab s' = opentab s0.
Proof. intros [H1 H2 H3 H4 H5 H6 H7] [[V1 V2 V3 V4 V5 _] _] Hc. split; [apply unmounted_refl; congruence|]. split_and!; congruence. Qed.

(** Dropping a clean block from the cache. *)
Lemma unmap_state b s : cache_ok s → b ∉ dirty s →
  let s' := set_dirty (dirty s ∖ {[b]}) (set_mapped (mapped s ∖ {[b]}) s) in
  cache_ok s' ∧ ∀ a, vw s' a = vw s a.
Proof.
  intros [H1 H2 H3 H4 H5 H6 H7] Hd s'. split; [split|].
  - exact H1.
  - exact H2.
  - exact H3.
  - exact H4.
  - intros c Hc. apply H5. cbn in Hc. clear -Hc. set_solver.
  - cbn. clear -H6. set_solver.
  - intros c i Hc Hc' Hi. cbn in Hc, Hc'. apply H7; [clear -Hc; set_solver| |exact Hi].
    intros Hin. apply Hc'. apply elem_of_difference. split; [exact Hin|]. clear -Hc. set_solver.
  - intros a. unfold vw. cbn [mapped dev diskno um set_dirty set_mapped s'].
    destruct (in_cache a) eqn:Ha; [|done]. cbn [andb]. destruct (decide (blk_of a = b)) as [Hb|Hb].
    + rewrite (bool_decide_eq_false_2 (blk_of a ∈ mapped s ∖ {[b]})) by (clear -Hb; set_solver). cbn [negb].
      case_bool_decide as Hm; [|done]. cbn [negb]. destruct (addr_split a Ha) as [Hs Hr]. symmetry.
      rewrite Hs at 1. rewrite H7; [|exact Hm|by rewrite Hb|exact Hr]. f_equal. rewrite Hs at 3. lia.
    + rewrite (bool_decide_ext (blk_of a ∈ mapped s ∖ {[b]}) (blk_of a ∈ mapped s)); [done|]. clear -Hb. set_solver.
Qed.

(** ** The self test *)

Lemma diskaddr_1 (Q : Z → FState D → Prop) E s : super s = 0 → Q SUPER s → wp (diskaddr 1) Q E s.
Proof. intros Hs HQ. apply diskaddr_unmounted; [exact Hs|lia|exact HQ]. Qed.

Lemma unmounted_touchable s0 s x : unmounted s0 s → touchable s x.
Proof. intros Hu. right. split; [apply (un_super _ _ Hu)|apply (un_bitmap _ _ Hu)]. Qed.

Lemma super_blk i : 0 ≤ i < 4096 → in_cache (SUPER + i) = true ∧ blk_of (SUPER + i) = 1.
Proof. intros Hi. change (SUPER + i) with (DISKMAP + 1 * 4096 + i). split; [by apply in_cache_addr|by apply blk_addr]. Qed.

Lemma smash_ok (Q : unit → FState D → Prop) s : unmounted s s → 1 ∈ mapped s →
  (∀ s', vput s s' SUPER (oops ++ [0]) → unmounted s' s' → 1 ∈ mapped s' → Q tt s') → wp (strcpy_mem SUPER oops) Q no_stop s.
Proof.
  intros Hu Hm HQ.
  apply (strcpy_mem_ok oops SUPER (λ s', unmounted s' s')); [done|done|repeat constructor; done| | |exact Hu|].
  - intros s1 x H1 _. split; [apply (un_cache _ _ H1)|by eapply unmounted_touchable].
  - intros s1 s2 x v H1 H2 H3 _. by apply (unmounted_put _ _ _ _ _ H1 H2 H3).
  - intros s1 Hp H1. apply HQ; [exact Hp|exact H1|]. apply (st_mapped _ _ (proj1 Hp)), Hm.
Qed.

Lemma flush_super off (Q : unit → FState D → Prop) s : 0 ≤ off < 4096 → unmounted s s →
  (∀ s', unmounted s s' → mapped s' = mapped s → 1 ∉ dirty s' → synced s' 1 → Q tt s') →
  wp (flush_block (SUPER + off)) Q no_stop s.
Proof.
  intros Hoff Hu HQ. destruct (super_blk off Hoff) as [Hin Hb].
  eapply wp_mono; [apply flush_full; [apply (un_cache _ _ Hu)|exact Hin]| |done]. rewrite Hb.
  intros [] s2 [(Hv & Hc & Hf) [Hmp Hd]]. apply HQ; [by eapply unmounted_same|exact Hmp| |by eapply flushed_synced].
  rewrite Hd. clear. set_solver.
Qed.

(** Dropping the super block from the cache. *)
Lemma unmap_super (Q : unit → FState D → Prop) E s : unmounted s s → 1 ∉ dirty s →
  (∀ s', unmounted s s' → 1 ∉ mapped s' → Q tt s') → wp (sys_page_unmap_at SUPER) Q E s.
Proof.
  intros Hu Hd HQ. apply wp_bind, wp_modify, wp_modify. change (blk_of SUPER) with 1.
  destruct (unmap_state 1 s (un_cache _ _ Hu) Hd) as [Hc Hv]. destruct Hu. apply HQ; [by split|].
  cbn. clear. set_solver.
Qed.

(** The smashed super block, dropped and read back. *)
Lemma smashed_str s s1 s' : vput s s1 SUPER (oops ++ [0]) → (∀ a, 0 ≤ a < 4294967296 → vw s' a = vw s1 a) → vstr s' SUPER oops.
Proof.
  intros [_ Hv] Hs. split; [repeat constructor; discriminate|]. split.
  - intros i c Hi. pose proof (lookup_lt_Some _ _ _ Hi) as Hlt. cbn [length oops] in Hlt.
    rewrite Hs, Hv by (change SUPER with 0x10001000; lia). apply over_in; [lia|].
    replace (SUPER + Z.of_nat i - SUPER) with (Z.of_nat i) by lia. rewrite Nat2Z.id. by apply lookup_app_l_Some.
  - rewrite Hs, Hv by done. reflexivity.
Qed.

(** Putting the backup back restores the view. *)
Lemma restored_view s s1 s1' s2 n a l : vput s s1 a l → Z.of_nat (length l) ≤ n → 0 ≤ a →
  (∀ x, 0 ≤ x < 4294967296 → vw s1' x = vw s1 x) → vput s1' s2 a (vws s a n) →
  ∀ x, 0 ≤ x < 4294967296 → vw s2 x = vw s x.
Proof.
  intros [_ H1] Hl Ha Hv [_ H2] x Hx. rewrite H2 by exact Hx. destruct (decide (a ≤ x < a + n)) as [Hin|Hout].
  - rewrite (over_in _ _ _ _ (vw s (a + (x - a)))); [f_equal; lia|lia|]. apply lookup_vws. lia.
  - assert (x < a ∨ a + n ≤ x) as Hx' by lia. rewrite over_out; [|rewrite length_vws by lia; exact Hx'].
    rewrite Hv, H1 by exact Hx. apply over_out. lia.
Qed.

Lemma unmounted_view s0 s1 s2 : unmounted s0 s1 → unmounted s1 s2 → unmounted s0 s2.
Proof.
  intros [H1 H2 H3 H4 H5 H6 H7] [G1 G2 G3 G4 G5 G6 G7]. split; try congruence. intros a Ha. by rewrite G7, H7.
Qed.

Lemma wp_fassert b msg (Q : unit → FState D → Prop) E s : b = true → Q tt s → wp (fassert b msg) Q E s.
Proof. intros -> HQ. by apply wp_ret. Qed.

Lemma wp_mapped a (Q : bool → FState D → Prop) E s :
  Q (bool_decide (blk_of a ∈ mapped s)) s → wp (va_is_mapped a) Q E s.
Proof. intros HQ. by apply wp_gets. Qed.

(** After the smashed block went to disk: it is dropped, read back, compared
    and repaired from the backup of [s]. *)
Lemma repair_ok s s1 s2 : unmounted s s → vput s s1 SUPER (oops ++ [0]) → unmounted s1 s2 → 1 ∉ dirty s2 →
  wp (a ← diskaddr 1; sys_page_unmap_at a ;;
      a ← diskaddr 1; m ← va_is_mapped a; fassert (negb m) "!va_is_mapped(diskaddr(1))" ;;
      a ← diskaddr 1; r ← strcmp_mem a oops; fassert (r =? 0) "strcmp(diskaddr(1), ...) == 0" ;;
      a ← diskaddr 1; restore a (vws s SUPER 264) ;;
      a ← diskaddr 1; flush_block a) (λ _ s', unmounted s s' ∧ synced s' 1) no_stop s2.
Proof.
  intros Hu Hp Hu2 Hd2. assert (Hself : ∀ x y, unmounted x y → unmounted y y) by (intros x y []; by split).
  apply wp_bind, diskaddr_1; [apply (un_super _ _ Hu2)|]. apply wp_bind, unmap_super; [by eapply Hself|exact Hd2|].
  intros s3 Hu3 Hm3. apply wp_bind, diskaddr_1; [apply (un_super _ _ Hu3)|]. apply wp_bind, wp_mapped.
  apply wp_bind, wp_fassert; [apply negb_true_iff, bool_decide_eq_false, Hm3|].
  pose proof (unmounted_view _ _ _ Hu2 Hu3) as Hu13.
  apply wp_bind, diskaddr_1; [apply (un_super _ _ Hu3)|]. apply wp_bind.
  apply (strcmp_mem_ok oops oops); [apply (un_cache _ _ Hu3)|apply (smashed_str _ _ _ Hp (un_view _ _ Hu13))|done|done|
    intros; by eapply unmounted_touchable|]. intros s4 Hs4 Hc4. apply wp_bind, wp_fassert; [reflexivity|].
  pose proof (unmounted_same _ _ _ Hu13 (cs_view _ _ Hs4) Hc4) as Hu4.
  apply wp_bind, diskaddr_1; [apply (un_super _ _ Hu4)|]. apply wp_bind.
  apply restore_ok; [exact Hc4|done|rewrite length_vws by done; done|apply vws_bytes, (co_bytes _ (un_cache _ _ Hu))|
    intros; by eapply unmounted_touchable|]. intros s5 Hp5 Hc5.
  pose proof (restored_view s s1 s4 s5 264 SUPER _ Hp ltac:(done) ltac:(done) (un_view _ _ Hu4) Hp5) as Hv5.
  destruct (unmounted_put _ _ _ _ _ Hu4 Hp5 Hc5) as (Hu5 & E1 & E2 & E3).
  apply wp_bind, diskaddr_1; [apply (un_super _ _ Hu5)|]. rewrite <- (Z.add_0_r SUPER).
  apply flush_super; [lia|exact Hu5|]. intros s6 Hu6 _ _ Hsy. split; [|exact Hsy].
  eapply unmounted_view; [|exact Hu6]. destruct Hp as [[] _], Hu5. split; congruence || exact Hv5.
Qed.

Lemma check_bc_round_ok off chk s0 s : 0 ≤ off < 4096 → unmounted s0 s →
  wp (check_bc_round off chk) (λ _ s', unmounted s0 s' ∧ synced s' 1) no_stop s.
Proof.
  intros Hoff Hu0. assert (Hself : ∀ x y, unmounted x y → unmounted y y) by (intros x y []; by split).
  pose proof (Hself _ _ Hu0) as Hu. unfold check_bc_round. change SIZEOF_SUPER with 264.
  apply wp_bind, diskaddr_1; [apply (un_super _ _ Hu)|]. apply wp_bind.
  apply backup_ok; [apply (un_cache _ _ Hu)|done|done|done|intros; by eapply unmounted_touchable|].
  intros s1 Ht1 Hc1 Hp1. pose proof (unmounted_same _ _ _ Hu (ts_view _ _ Ht1) Hc1) as Hu1.
  assert (Hm1 : 1 ∈ mapped s1) by exact (Hp1 SUPER ltac:(lia) eq_refl).
  assert (Hl : vws s SUPER 264 = vws s1 SUPER 264) by (symmetry; apply vws_same; [apply (un_view _ _ Hu1)|done|done]). rewrite Hl.
  apply wp_bind, diskaddr_1; [apply (un_super _ _ Hu1)|]. apply wp_bind, smash_ok; [by eapply Hself|exact Hm1|].
  intros s2 Hp2 Hu2 Hm2. apply wp_bind, diskaddr_1; [apply (un_super _ _ Hu2)|].
  apply wp_bind, flush_super; [exact Hoff|exact Hu2|]. intros s3 Hu3 Hm3 Hd3 _. rewrite <- Hm3 in Hm2.
  apply wp_bind, diskaddr_1; [apply (un_super _ _ Hu3)|]. apply wp_bind, wp_mapped.
  apply wp_bind, wp_fassert; [by apply bool_decide_eq_true|]. apply wp_bind.
  eapply wp_mono with (Q := λ _ s', s' = s3) (E := no_stop); [| |done].
  - destruct chk; [|by apply wp_ret]. apply wp_bind, diskaddr_1; [apply (un_super _ _ Hu3)|].
    apply wp_bind, wp_gets, wp_fassert; [apply negb_true_iff, bool_decide_eq_false; exact Hd3|done].
  - intros _ s' ->. eapply wp_mono; [apply (repair_ok s1 s2 s3); [by eapply Hself|exact Hp2|exact Hu3|exact Hd3]| |done].
    intros _ s4 [Hu4 Hsy]. split; [|exact Hsy]. eapply unmounted_view; [exact Hu0|]. by eapply unmounted_view.
Qed.

(** bc_init leaves the super block in the cache. *)
Lemma bc_init_ok s0 s : unmounted s0 s →
  wp bc_init (λ _ s', unmounted s0 s' ∧ 1 ∈ mapped s') no_stop s.
Proof.
  intros Hu. unfold bc_init, check_bc. apply wp_bind, wp_bind. eapply wp_mono; [by apply check_bc_round_ok| |done].
  intros _ s1 [Hu1 _]. eapply wp_mono; [by apply check_bc_round_ok| |done]. intros _ s2 [Hu2 _].
  apply wp_bind, diskaddr_1; [apply (un_super _ _ Hu2)|]. apply wp_bind. change SIZEOF_SUPER with 264.
  apply backup_ok; [apply (un_cache _ _ Hu2)|done|done|done|intros; by eapply unmounted_touchable|].
  intros s3 Ht3 Hc3 Hp3. apply wp_ret. split; [by eapply unmounted_same; [exact Hu2|apply Ht3|]|].
  exact (Hp3 SUPER ltac:(lia) eq_refl).
Qed.

(** ** Selecting the disk *)

(** Polling and selecting a device change nothing on the disks. *)
Definition quiet s s' : Prop :=
  ∃ d' l, s' = set_log l (set_dev d' s) ∧ phase d' = phase (dev s) ∧ same_image (dev s) d'.

Lemma quiet_dev d' s : phase d' = phase (dev s) → same_image (dev s) d' → quiet s (set_dev d' s).
Proof. intros Hp Hi. exists d', (log s). by destruct s. Qed.

Lemma quiet_trans s1 s2 s3 : quiet s1 s2 → quiet s2 s3 → quiet s1 s3.
Proof.
  intros (d & l & -> & Hp & Hi) (d' & l' & -> & Hp' & Hi'). exists d', l'. split; [done|]. cbn in *.
  split; [congruence|]. intros k a. by rewrite Hi', Hi.
Qed.

Lemma probe_loop_ok fuel : ∀ x s, polled (dev s) → wp (probe_loop fuel x) (λ _ s', quiet s s' ∧ polled (dev s')) no_stop s.
Proof.
  induction fuel as [|fuel IH]; intros x s Hpo; cbn [probe_loop].
  { apply wp_ret. split; [|done]. exists (dev s), (log s). by destruct s. }
  destruct (x <? 1000).
  - apply wp_bind. unfold inb. apply wp_bind, wp_gets. destruct (ata_inb 503 (dev s)) as [r d'] eqn:E.
    apply wp_bind, wp_modify, wp_ret.
    assert (Hq : quiet s (set_dev d' s)).
    { replace d' with (ata_inb 503 (dev s)).2 by by rewrite E. apply quiet_dev; [apply poll_phase|]. intros k a. apply poll_image. }
    assert (Hpo' : polled d') by (replace d' with (ata_inb 503 (dev s)).2 by (by rewrite E); by apply poll_keeps).
    case_match; [|by apply wp_ret]. eapply wp_mono; [by apply IH| |done]. intros y s' [Hs' ?]. split; [by eapply quiet_trans|done].
  - apply wp_ret. split; [|done]. exists (dev s), (log s). by destruct s.
Qed.

Lemma select_quiet v s : phase (dev s) = AtaIdle → polled (dev s) → quiet s (set_dev (ata_outb 0x1F6 (u8 v) (dev s)) s).
Proof.
  intros Hp Hpo. apply quiet_dev; [by rewrite outb_phase by (done || lia)|]. intros k a. by apply outb_image.
Qed.

Lemma ide_probe_disk1_ok s : phase (dev s) = AtaIdle → wp ide_probe_disk1 (λ _ s', quiet s s') no_stop s.
Proof.
  intros Hp. unfold ide_probe_disk1. apply wp_bind, ide_wait_ready_spec. intros d1 Hp1 Hpo1 Hi1.
  pose proof (quiet_dev d1 s Hp1 Hi1) as Q1. apply wp_bind, wp_outb.
  assert (Q2 := select_quiet (Z.lor 224 (Z.shiftl 1 4)) (set_dev d1 s) ltac:(cbn; congruence) Hpo1).
  pose proof (quiet_trans _ _ _ Q1 Q2) as Q12.
  apply wp_bind. eapply wp_mono; [apply probe_loop_ok; cbn; apply outb_polled; [congruence|done|lia]| |done]. intros x s3 [Q3 Hpo3].
  pose proof (quiet_trans _ _ _ Q12 Q3) as Q13. apply wp_bind, wp_outb.
  assert (Hp3 : phase (dev s3) = AtaIdle) by (destruct Q13 as (d & l & -> & Hd & _); cbn; congruence).
  pose proof (quiet_trans _ _ _ Q13 (select_quiet (Z.lor 224 (Z.shiftl 0 4)) s3 Hp3 Hpo3)) as Q14.
  apply wp_bind, wp_modify, wp_ret. destruct Q14 as (d & l & -> & Hd). by eexists d, _.
Qed.

(** ** fs_init *)

(** A disk that holds a file system: magic number, size, and bitmap blocks
    and the blocks before them in use. *)
Record formatted s : Prop := {
  fm_magic : vw32 s (s_magic SUPER) = FS_MAGIC;
  fm_size : 2 < nblocks s ≤ 786432;
  fm_reserved : ∀ b, 0 ≤ b < 2 + nbitmap s → is_free s b = false
}.

Lemma load32_present a (Q : Z → FState D → Prop) E s :
  a `mod` 4 = 0 → present_at s a → Q (vw32 s a) s → wp (load32 a) Q E s.
Proof. intros Ha Hp HQ. apply wp_load32_with; [exact Ha|]. by apply wp_touch_present. Qed.

Lemma nblocks_view s s' : (∀ a, 0 ≤ a < 4294967296 → vw s' a = vw s a) → nblocks s' = nblocks s.
Proof. intros Hv. apply vw32_bytes. intros k Hk. apply Hv. change (SUPER + 4) with 0x10001004. lia. Qed.

Lemma is_free_view s s' b : (∀ a, 0 ≤ a < 4294967296 → vw s' a = vw s a) → 0 ≤ b < 786432 → is_free s' b = is_free s b.
Proof.
  intros Hv Hb. unfold is_free. f_equal. f_equal. apply vw32_bytes. intros k Hk. apply Hv.
  destruct (bit_addr_blk b Hb) as (Hin%in_cache_range & _). lia.
Qed.

Lemma formatted_view s s' : (∀ a, 0 ≤ a < 4294967296 → vw s' a = vw s a) → formatted s → formatted s'.
Proof.
  intros Hv [H1 H2 H3]. pose proof (nblocks_view _ _ Hv) as Hn. pose proof (nbitmap_range s H2). split.
  - rewrite <- H1. apply vw32_bytes. intros k Hk. apply Hv. change (s_magic SUPER) with 0x10001000. lia.
  - by rewrite Hn.
  - intros b. unfold nbitmap. rewrite Hn. fold (nbitmap s). intros Hb. rewrite (is_free_view s) by (done || lia). by apply H3.
Qed.

(** Setting the two pointers mounts a formatted disk. *)
Lemma mounted_state s0 s : unmounted s0 s → 1 ∈ mapped s → formatted s →
  ready (set_bitmap BITMAP (set_super SUPER s)).
Proof.
  intros [] Hm [H1 H2 H3]. destruct un_cache0. split; [by split|]. split; try done.
  intros b Hb. apply H3. change (nbitmap (set_bitmap BITMAP (set_super SUPER s))) with (nbitmap s) in Hb. lia.
Qed.

Lemma check_bitmap_ok s : ready s → is_free s 0 = false →
  wp check_bitmap (λ _ s', csame s s' ∧ ready s') no_stop s.
Proof.
  intros [Hc Hm] H0'. pose proof (mo_size _ Hm) as Hn. pose proof (nbitmap_range s Hn) as Hnb.
  unfold check_bitmap. apply wp_bind, wp_gets. rewrite (mo_super _ Hm). apply wp_bind.
  apply load32_present; [done|apply present_super; [apply (mo_cached _ Hm)|lia]|].
  change (vw32 s (s_nblocks SUPER)) with (nblocks s). change BLKBITSIZE with 32768.
  replace ((nblocks s + 32768 - 1) / 32768) with (nbitmap s) by (unfold nbitmap; f_equal; lia).
  assert (Hfree : ∀ b s1, csame s s1 ∧ ready s1 → 0 ≤ b < nblocks s → is_free s b = false →
    wp (block_is_free b) (λ x s2, x = false ∧ csame s s2 ∧ ready s2) no_stop s1).
  { intros b s1 [Hs1 Hr1] Hb Hf. pose proof (nblocks_same _ _ (cs_view _ _ Hs1)) as Hn1.
    apply block_is_free_ok; [exact Hr1|lia|]. intros s2 Hs2 Hr2.
    split; [rewrite (is_free_same _ _ _ (cs_view _ _ Hs1)), Hf by (unfold NBLK; lia); done|].
    split; [by eapply csame_trans|exact Hr2]. }
  apply wp_bind, (wp_for_range 0 (nbitmap s) _ (λ _ s', csame s s' ∧ ready s')); [lia|split; [apply csame_refl|by split]| |].
  - intros i s1 Hi Hs1. apply wp_bind. eapply wp_mono; [apply Hfree; [exact Hs1|lia|apply (mo_reserved _ Hm); lia]| |done].
    intros x s2 [-> Hs2]. by apply wp_fassert.
  - intros s1 Hs1. apply wp_bind. eapply wp_mono; [apply Hfree; [exact Hs1|lia|exact H0']| |done].
    intros x s2 [-> Hs2]. apply wp_bind, wp_fassert; [done|]. apply wp_bind.
    eapply wp_mono; [apply Hfree; [exact Hs2|lia|apply (mo_reserved _ Hm); lia]| |done].
    intros x s3 [-> Hs3]. by apply wp_fassert.
Qed.

(** Mounting the disk [fs_init] selected: the server is ready and sees what
    was on the disk. *)
Definition mounts s0 s' : Prop :=
  ready s' ∧ diskno s' = diskno s0 ∧ pagerefs s' = pagerefs s0 ∧ opentab s' = opentab s0 ∧
  ∀ a, 0 ≤ a < 4294967296 → vw s' a = vw s0 a.

Lemma mount_ok s : unmounted s s → formatted s →
  wp (bc_init ;;
      a ← diskaddr 1; modify (set_super a) ;; check_super ;;
      a ← diskaddr 2; modify (set_bitmap a) ;; check_bitmap) (λ _ s', mounts s s') no_stop s.
Proof.
  intros Hu Hf. apply wp_bind. eapply wp_mono; [by apply bc_init_ok| |done]. intros _ s1 [Hu1 Hm1].
  pose proof (formatted_view _ _ (un_view _ _ Hu1) Hf) as Hf1. pose proof (fm_size _ Hf1) as Hn1.
  apply wp_bind, diskaddr_1; [apply (un_super _ _ Hu1)|]. apply wp_bind, wp_modify.
  set (s2 := set_super SUPER s1). assert (Hp : ∀ i, 0 ≤ i < 4096 → present_at s2 (SUPER + i)) by (intros; by apply present_super).
  apply wp_bind. unfold check_super. apply wp_bind, wp_gets. change (super s2) with SUPER.
  apply wp_bind, load32_present; [done|apply (Hp 0); lia|]. change (vw32 s2 (s_magic SUPER)) with (vw32 s1 (s_magic SUPER)).
  rewrite (fm_magic _ Hf1). rewrite Z.eqb_refl. cbn [negb]. apply wp_bind, wp_ret.
  apply wp_bind, load32_present; [done|apply (Hp 4); lia|]. change (vw32 s2 (s_nblocks SUPER)) with (nblocks s1).
  change (DISKSIZE / BLKSIZE) with 786432. replace (nblocks s1 >? 786432) with false by lia. apply wp_ret.
  apply wp_bind. unfold diskaddr. cbn [Z.eqb]. apply wp_bind, wp_gets. change (super s2) with SUPER.
  change (ctrue SUPER) with true. cbv iota. apply wp_bind, wp_bind, load32_present; [done|apply (Hp 4); lia|].
  change (vw32 s2 (s_nblocks SUPER)) with (nblocks s1). apply wp_ret. replace (2 >=? nblocks s1) with false by lia.
  apply wp_ret. apply wp_bind, wp_modify. change (u32 (DISKMAP + 2 * BLKSIZE)) with BITMAP.
  eapply wp_mono; [apply check_bitmap_ok; [by eapply mounted_state|apply (fm_reserved _ Hf1)]| |done].
  { pose proof (nbitmap_range s1 Hn1). lia. }
  intros _ s3 [Hs3 Hr3]. destruct (cs_view _ _ Hs3) as [V1 V2 V3 V4 V5 V6 V7], Hu1. split; [exact Hr3|].
  split_and!; [cbn in *; congruence..|]. intros a Ha. rewrite V1 by exact Ha. by rewrite <- un_view0.
Qed.

(** The server before fs_init: nothing cached, nothing mounted. *)
Record booted s : Prop := {
  bo_cache : cache_ok s;
  bo_mapped : mapped s = ∅;
  bo_super : super s = 0;
  bo_bitmap : bitmap s = 0
}.

Lemma booted_select s s1 k : booted s → quiet s s1 → (k = 0 ∨ k = 1) →
  unmounted (set_diskno k s1) (set_diskno k s1) ∧ ∀ a, vw (set_diskno k s1) a = vw (set_diskno k s) a.
Proof.
  intros [[] Hm Hs Hb] (d & l & -> & Hp & Hi) Hk. split.
  - apply unmounted_refl; [|exact Hs|exact Hb]. split; cbn; [congruence|done|done|done|done|done|].
    intros b i Hin. rewrite Hm in Hin. clear -Hin. set_solver.
  - intros a. unfold vw. cbn. by rewrite Hi.
Qed.

(** The disk that probing for the second one selects. *)
Definition selects s (k : Z) : Prop := ∃ p s1, ide_probe_disk1 s = Ok p s1 ∧ k = if p : bool then 1 else 0.

Lemma selects_unique s k k' : selects s k → selects s k' → k = k'.
Proof. intros (p & s1 & H1 & ->) (p' & s1' & H2 & ->). rewrite H1 in H2. by injection H2 as -> _. Qed.

Lemma fs_init_ok s : booted s →
  ∃ k, selects s k ∧ (formatted (set_diskno k s) → ∃ s', fs_init s = Ok tt s' ∧ mounts (set_diskno k s) s').
Proof.
  intros Hb. destruct (wp_no_stop _ _ _ (ide_probe_disk1_ok s (co_idle _ (bo_cache _ Hb)))) as (p & s1 & Hrun & Hq).
  set (k := if p : bool then 1 else 0). exists k. assert (Hk : k = 0 ∨ k = 1) by (unfold k; destruct p; auto).
  split; [by exists p, s1|]. intros Hf. destruct (booted_select s s1 k Hb Hq Hk) as [Hu Hv].
  assert (Hf1 : formatted (set_diskno k s1)) by (eapply formatted_view; [intros a _; apply Hv|exact Hf]).
  assert (Hset : (if p then ide_set_disk 1 else ide_set_disk 0 : FS D unit) s1 = Ok tt (set_diskno k s1)) by (unfold k; by destruct p).
  destruct (wp_no_stop _ _ _ (mount_ok _ Hu Hf1)) as ([] & s' & Hrun' & (H1 & H2 & H3 & H4 & H5)).
  exists s'. split.
  - unfold fs_init. unfold mbind at 1, M_bind. rewrite Hrun. unfold mbind at 1. rewrite Hset. exact Hrun'.
  - destruct Hq as (d & l & -> & _). split; [exact H1|]. split_and!; [exact H2|exact H3|exact H4|].
    intros a Ha. by rewrite H5, Hv.
Qed.

End FsInit.
