(* ===== verification/FsFile.v ===== *)
(** * The blocks of a file

    file_block_walk and file_get_block (fs/fs.c).  [ptr s f i] is the block
    number of the [i]th block of file [f] (0 for a hole), [fbyte s f p] the
    byte at offset [p].  [file_ok]: the blocks of the file are in use, none
    is used twice, and none holds the file system's own structures.
    file_get_block keeps all of that and the contents of the file; it may
    turn a hole into a block of zeroes ([grows]). *)

From S2P Require Import Prelude Mmu CMem Str StrProofs FsState Ide IdeProofs Bc BcProofs BcMem Fs FsAlloc.

Section FsFile.
Context {D : Type} `{AtaDisk D}.
Implicit Types (s : FState D).

(** ** Files *)

Definition data_block s (b : Z) : Prop := 2 + nbitmap s ≤ b < nblocks s ∧ is_free s b = false.

(** A [struct File]: in the super block or in a directory block. *)
Definition file_at s (f : Z) : Prop :=
  in_cache f = true ∧ f `mod` 4 = 0 ∧ f `mod` 4096 + 256 ≤ 4096 ∧ (f = SUPER + 8 ∨ data_block s (blk_of f)).

Definition indirect s (f : Z) : Z := vw32 s (f_indirect f).
(** The address of the [i]th block pointer. *)
Definition slot s (f i : Z) : Z :=
  if i <? NDIRECT then f_direct f i else DISKMAP + indirect s f * 4096 + 4 * (i - NDIRECT).
Definition ptr s (f i : Z) : Z := if (NDIRECT <=? i) && (indirect s f =? 0) then 0 else vw32 s (slot s f i).

Record file_ok s (f : Z) : Prop := {
  fo_at : file_at s f;
  fo_ind : indirect s f = 0 ∨ data_block s (indirect s f) ∧ indirect s f ≠ blk_of f;
  fo_ptr : ∀ i, 0 ≤ i < 1034 → ptr s f i = 0 ∨
    data_block s (ptr s f i) ∧ ptr s f i ≠ blk_of f ∧ ptr s f i ≠ indirect s f;
  fo_inj : ∀ i j, 0 ≤ i < 1034 → 0 ≤ j < 1034 → i ≠ j → ptr s f i ≠ 0 → ptr s f i ≠ ptr s f j
}.

(** The contents of the file. *)
Definition fbyte s (f p : Z) : Z :=
  if ptr s f (p / 4096) =? 0 then 0 else vw s (DISKMAP + ptr s f (p / 4096) * 4096 + p `mod` 4096).

Lemma file_at_range s f : mounted s → file_at s f →
  0x10001000 ≤ f ∧ f + 256 ≤ 0xD0000000 ∧ off_meta s f 256 ∧ in_use s (blk_of f).
Proof.
  intros Hm (Hca & Hal & Hin & Hr). pose proof (mo_size _ Hm) as Hn. pose proof (nbitmap_range s Hn) as [Hnb Hnb2].
  destruct (addr_split f Hca) as [Hf Hmod]. pose proof (in_cache_range f Hca) as Hrg.
  unfold off_meta. rewrite BITMAP_val. change SUPER with 0x10001000 in *. change DISKMAP with 0x10000000 in *.
  destruct Hr as [->|[Hd Hfree]].
  - split_and!; try lia. unfold in_use. change (blk_of (0x10001000 + 8)) with 1. split; [lia|].
    apply (mo_reserved _ Hm). lia.
  - split_and!; try lia. split; [lia|done].
Qed.

(** Addresses of a block in use, or of the server's own memory, are
    touchable. *)
Lemma touchable_use s x : mounted s → (in_cache x = true → in_use s (blk_of x)) → touchable s x.
Proof. intros Hm Hx. left. split; [done|]. intros Hc. right. auto. Qed.
Lemma touchable_file s f k : mounted s → file_at s f → 0 ≤ k < 256 → touchable s (f + k).
Proof.
  intros Hm Hf Hk. destruct (file_at_range s f Hm Hf) as (_ & _ & _ & Hu). apply touchable_use; [done|]. intros _.
  destruct Hf as (Hca & _ & Hin & _). destruct (addr_split f Hca) as [He Hmod].
  replace (f + k) with (DISKMAP + blk_of f * 4096 + (f `mod` 4096 + k)) by lia. by rewrite blk_addr by lia.
Qed.
Lemma touchable_block s b i : mounted s → in_use s b → 0 ≤ i < 4096 → touchable s (DISKMAP + b * 4096 + i).
Proof. intros Hm Hu Hi. apply touchable_use; [done|]. intros _. by rewrite blk_addr. Qed.

Lemma touchable_in_block s b x : mounted s → in_use s b → DISKMAP + b * 4096 ≤ x < DISKMAP + b * 4096 + 4096 → touchable s x.
Proof.
  intros Hm Hu Hx. assert (He : x = DISKMAP + b * 4096 + (x - (DISKMAP + b * 4096))) by lia. rewrite He.
  apply touchable_block; [done|done|lia].
Qed.

Lemma blk_bounds b : 0 ≤ b < 786432 → 0x10000000 ≤ DISKMAP + b * 4096 ∧ DISKMAP + b * 4096 + 4096 ≤ 0xD0000000.
Proof. change DISKMAP with 0x10000000. lia. Qed.

Lemma data_in_use s b : mounted s → data_block s b → in_use s b.
Proof. intros Hm [Hb Hf]. pose proof (nbitmap_range s (mo_size _ Hm)). split; [lia|done]. Qed.

(** ** Attaching a fresh block *)

(** Block [b] was free; it is now in use, zero, and its number is stored at
    [a]. *)
Record attached s s' (a b : Z) : Prop := {
  at_step : vstep s s';
  at_ready : ready s';
  at_nblocks : nblocks s' = nblocks s;
  at_range : 2 + nbitmap s ≤ b < nblocks s;
  at_was : is_free s b = true;
  at_free : ∀ c, 0 ≤ c < nblocks s → is_free s' c = if decide (c = b) then false else is_free s c;
  at_slot : vw32 s' a = b;
  at_zero : ∀ i, 0 ≤ i < 4096 → vw s' (DISKMAP + b * 4096 + i) = 0;
  at_view : ∀ x, 0 ≤ x < 4294967296 → x < BITMAP ∨ BITMAP + 4096 * nbitmap s ≤ x → x < a ∨ a + 4 ≤ x →
    x < DISKMAP + b * 4096 ∨ DISKMAP + b * 4096 + 4096 ≤ x → vw s' x = vw s x
}.

(** Where a block pointer may be stored. *)
Definition slot_ok s (a : Z) : Prop :=
  in_cache a = true ∧ a `mod` 4 = 0 ∧ off_meta s a 4 ∧ in_use s (blk_of a).

Lemma off_meta_block s b : mounted s → 2 + nbitmap s ≤ b → off_meta s (DISKMAP + b * 4096) 4096.
Proof.
  intros Hm Hb. pose proof (nbitmap_range s (mo_size _ Hm)). unfold off_meta. rewrite BITMAP_val.
  change SUPER with 0x10001000. change DISKMAP with 0x10000000. lia.
Qed.

Lemma clear_block_ok b (Q : unit → FState D → Prop) s : ready s → data_block s b →
  (∀ s', vput s s' (DISKMAP + b * 4096) (replicate 4096 0) → ready s' → Q tt s') →
  wp (clear_block b) Q no_stop s.
Proof.
  intros [Hc Hm] Hd HQ. pose proof (data_in_use s b Hm Hd) as Hu. destruct Hd as [Hb Hf].
  pose proof (mo_size _ Hm) as Hn. pose proof (nbitmap_range s Hn) as Hnb. unfold clear_block.
  apply wp_bind, diskaddr_ok; [done|done|lia|]. intros s1 Hs1 Hc1.
  pose proof (mounted_same _ _ (cs_view _ _ Hs1) Hm) as Hm1. pose proof (nblocks_same _ _ (cs_view _ _ Hs1)) as Hnb1.
  pose proof (blk_bounds b ltac:(lia)) as Hbb.
  apply wp_bind, fs_memset_ok; change BLKSIZE with 4096; [done|lia|lia|lia| |].
  { intros x Hx. apply (touchable_in_block _ b); [done| |lia]. eapply in_use_same; [apply Hs1|done|done]. }
  change (u8 0) with 0. change (Z.to_nat 4096) with 4096%nat. intros s2 Hput Hc2.
  assert (Hm2 : mounted s2).
  { eapply mounted_put; [done| |done]. change (Z.of_nat (length (replicate 4096 0))) with 4096. apply off_meta_block; [done|].
    unfold nbitmap. rewrite Hnb1. fold (nbitmap s). lia. }
  assert (Hnb2 : nblocks s2 = nblocks s).
  { rewrite (off_meta_nblocks _ _ _ _ Hput); [done|]. change (Z.of_nat (length (replicate 4096 0))) with 4096. apply off_meta_block; [done|].
    unfold nbitmap. rewrite Hnb1. fold (nbitmap s). lia. }
  apply wp_bind, diskaddr_ok; [done|done|lia|]. intros s3 Hs3 Hc3.
  eapply wp_mono; [apply flush_spec; [done|]| |done].
  { rewrite <- (Z.add_0_r (_ + _)). apply in_cache_addr; unfold NBLK; lia. }
  intros [] s4 (Hv4 & Hc4 & _). apply HQ.
  - eapply vput_before; [|exact (vsame_trans _ _ _ (cs_view _ _ Hs3) Hv4)]. by eapply vput_after; [apply Hs1|].
  - eapply ready_same; [exact (vsame_trans _ _ _ (cs_view _ _ Hs3) Hv4)|done|done].
Qed.

Lemma replicate_zero_at i : 0 ≤ i < 4096 → replicate 4096 0 !! Z.to_nat i = Some 0.
Proof. intros Hi. apply lookup_replicate. split; [done|lia]. Qed.

(** The state after the three steps. *)
Lemma attached_state s s1 s2 s3 a b :
  ready s → slot_ok s a → 2 + nbitmap s ≤ b < nblocks s → is_free s b = true → bit_set s s1 b false →
  vput s1 s2 a (bytes32 b) → vput s2 s3 (DISKMAP + b * 4096) (replicate 4096 0) → ready s3 → attached s s3 a b.
Proof.
  intros [Hc Hm] (Hca & Hal & Hoff & Hu) Hb Hf Hbs Hp2 Hp3 Hr3. pose proof (mo_size _ Hm) as Hn.
  pose proof (nbitmap_range s Hn) as Hnb. pose proof (blk_bounds b ltac:(lia)) as Hbb.
  pose proof (in_cache_range a Hca) as Har. destruct (addr_split a Hca) as [Hae Hmod].
  assert (Hab : blk_of a ≠ b) by (intros He; rewrite He in Hu; destruct Hu; congruence).
  assert (Hdis : a + 4 ≤ DISKMAP + b * 4096 ∨ DISKMAP + b * 4096 + 4096 ≤ a).
  { clear Hoff. assert ((a `mod` 4096) `mod` 4 = 0) by dlia. assert (a `mod` 4096 ≤ 4092) by dlia. lia. }
  pose proof (bs_nblocks _ _ _ _ Hbs) as Hn1.
  assert (Ho1 : off_meta s1 a (Z.of_nat (length (bytes32 b)))) by (unfold off_meta, nbitmap; by rewrite Hn1).
  pose proof (off_meta_nblocks _ _ _ _ Hp2 Ho1) as Hn2.
  assert (Ho2 : off_meta s2 (DISKMAP + b * 4096) (Z.of_nat (length (replicate 4096 0)))).
  { change (Z.of_nat (length (replicate 4096 0))) with 4096. unfold off_meta, nbitmap. rewrite Hn2, Hn1.
    exact (off_meta_block s b Hm ltac:(lia)). }
  pose proof (off_meta_nblocks _ _ _ _ Hp3 Ho2) as Hn3.
  split.
  - eapply vstep_trans; [apply Hbs|]. eapply vstep_trans; [apply Hp2|apply Hp3].
  - done.
  - congruence.
  - done.
  - done.
  - intros c Hcr. rewrite (off_meta_free _ _ _ _ _ Hp3 Ho2) by lia. rewrite (off_meta_free _ _ _ _ _ Hp2 Ho1) by lia.
    by apply (bs_free _ _ _ _ Hbs).
  - rewrite (vput_out32 _ _ _ _ _ Hp3); [|lia|lia|change (Z.of_nat (length (replicate 4096 0))) with 4096; lia].
    rewrite (vput_in32 _ _ _ _ Hp2) by lia. rewrite u32_small; [done|lia].
  - intros i Hi. destruct Hp3 as [_ Hv3]. rewrite Hv3 by lia. apply over_in; [lia|].
    replace (DISKMAP + b * 4096 + i - (DISKMAP + b * 4096)) with i by lia. by apply replicate_zero_at.
  - intros x Hx Hbm Ha Hbx. rewrite (vput_out _ _ _ _ _ Hp3); [|done|change (Z.of_nat (length (replicate 4096 0))) with 4096; lia].
    rewrite (vput_out _ _ _ _ _ Hp2); [|done|cbn; lia]. by apply (bs_view _ _ _ _ Hbs).
Qed.

(** Allocating a block, storing its number at [a] and clearing it, as
    file_block_walk and file_get_block do. *)
Lemma attach_ok {B} (e : Z → B) (k : Z → FS D B) a (Q : B → FState D → Prop) s :
  ready s → slot_ok s a →
  (∀ s', vsame s s' → ready s' → (∀ c, 1 ≤ c < nblocks s → is_free s c = false) → Q (e (- E_NO_DISK)) s') →
  (∀ s' b, attached s s' a b → wp (k b) Q no_stop s') →
  wp (bno ← alloc_block; if bno <? 0 then mret (e bno) else store32 a bno ;; clear_block bno ;; k bno) Q no_stop s.
Proof.
  intros Hr Hsl HQ1 HQ2. pose proof Hr as [Hc Hm]. pose proof (mo_size _ Hm) as Hn. pose proof (nbitmap_range s Hn) as Hnb.
  apply wp_bind. eapply wp_mono; [by apply alloc_block_ok| |done].
  intros r s1 [(-> & Hv & Hr1 & Hall)|(Hb & Hf & _ & Hbs & _)].
  { apply wp_ret. by apply HQ1. }
  replace (r <? 0) with false by lia. pose proof (bs_ready _ _ _ _ Hbs) as [Hc1 Hm1].
  pose proof (bs_nblocks _ _ _ _ Hbs) as Hn1. destruct Hsl as (Hca & Hal & Hoff & Hu).
  assert (Hu1 : in_use s1 (blk_of a)).
  { destruct Hu as [Hur Huf]. split; [by rewrite Hn1|]. rewrite (bs_free _ _ _ _ Hbs) by lia. by case_decide. }
  pose proof (in_cache_range a Hca) as Har.
  assert (Hal4 : a + 4 ≤ 4294967296) by lia.
  apply wp_bind, store32_ok; [done|by apply touchable_use|lia|done|done|]. intros s2 Hp2 Hc2.
  assert (Ho1 : off_meta s1 a (Z.of_nat (length (bytes32 r)))) by (unfold off_meta, nbitmap; by rewrite Hn1).
  assert (Hm2 : mounted s2) by (by eapply mounted_put).
  pose proof (off_meta_nblocks _ _ _ _ Hp2 Ho1) as Hn2.
  apply wp_bind, clear_block_ok; [by split| |].
  { unfold data_block, nbitmap. rewrite Hn2, Hn1. split; [exact Hb|]. rewrite (off_meta_free _ _ _ _ _ Hp2 Ho1) by lia.
    rewrite (bs_free _ _ _ _ Hbs) by lia. by rewrite decide_True. }
  intros s3 Hp3 Hr3. apply HQ2. by eapply attached_state.
Qed.

(** ** Block pointers *)

Lemma slot_ok_file s f k : mounted s → file_at s f → 0 ≤ k → k + 4 ≤ 256 → k `mod` 4 = 0 → slot_ok s (f + k).
Proof.
  intros Hm Hf Hk Hk4 Hal. destruct (file_at_range s f Hm Hf) as (Hlo & Hhi & [Ho1 Ho2] & Hu).
  destruct Hf as (Hca & Hfal & Hin & _). destruct (addr_split f Hca) as [He Hmod].
  assert (Hb : blk_of (f + k) = blk_of f).
  { replace (f + k) with (DISKMAP + blk_of f * 4096 + (f `mod` 4096 + k)) by lia. by rewrite blk_addr by lia. }
  split; [apply in_cache_iff; change DISKMAP with 0x10000000; change DISKSIZE with 0xC0000000; lia|].
  split; [dlia|]. split; [unfold off_meta; lia|]. by rewrite Hb.
Qed.

Lemma slot_ok_data s b k : mounted s → data_block s b → 0 ≤ k → k + 4 ≤ 4096 → k `mod` 4 = 0 → slot_ok s (DISKMAP + b * 4096 + k).
Proof.
  intros Hm Hd Hk Hk4 Hal. pose proof (data_in_use s b Hm Hd) as Hu. destruct Hd as [Hb Hf].
  pose proof (mo_size _ Hm). pose proof (nbitmap_range s (mo_size _ Hm)).
  split; [apply in_cache_addr; unfold NBLK; lia|]. split; [change DISKMAP with 0x10000000; dlia|].
  rewrite blk_addr by lia. split; [|done]. destruct (off_meta_block s b Hm) as [Ho1 Ho2]; [lia|]. unfold off_meta. lia.
Qed.

(** A word of a block in use is not changed, unless it is the slot. *)
Lemma attached_word s s' a b x : attached s s' a b → slot_ok s a → slot_ok s x → x ≠ a → vw32 s' x = vw32 s x.
Proof.
  intros Ha (Hca & Hal & _ & _) (Hcx & Hxal & Hoff & Hu) Hne.
  assert (Hb : blk_of x ≠ b) by (intros He; rewrite He in Hu; destruct Hu; pose proof (at_was _ _ _ _ Ha); congruence).
  destruct (addr_split x Hcx) as [He Hmod]. pose proof (in_cache_range x Hcx). destruct Hoff as [_ Hoff].
  assert (Hi : ∀ i, 0 ≤ i < 4 → vw s' (x + i) = vw s (x + i)).
  { intros i Hi. apply (at_view _ _ _ _ Ha); [lia|lia|dlia|]. assert (x `mod` 4096 ≤ 4092) by dlia. lia. }
  by apply vw32_bytes.
Qed.

(** The slots of a file. *)
Definition has_slot s (f i : Z) : Prop := 0 ≤ i < 1034 ∧ (i < 10 ∨ indirect s f ≠ 0).

Lemma has_slot_ok s f i : mounted s → file_ok s f → has_slot s f i → slot_ok s (slot s f i).
Proof.
  intros Hm Hf [Hi Hh]. unfold slot. change NDIRECT with 10. destruct (i <? 10) eqn:E.
  - unfold f_direct. rewrite <- Z.add_assoc. apply slot_ok_file; [done|apply Hf|lia|lia|dlia].
  - destruct (fo_ind _ _ Hf) as [|[Hd _]]; [lia|]. apply slot_ok_data; [done|done|lia|lia|dlia].
Qed.

Lemma ptr_slot s f i : has_slot s f i → ptr s f i = vw32 s (slot s f i).
Proof.
  intros [Hi Hh]. unfold ptr. change NDIRECT with 10. destruct (10 <=? i) eqn:E1; [|done].
  destruct (indirect s f =? 0) eqn:E2; [lia|done].
Qed.
Lemma ptr_no_slot s f i : 10 ≤ i → indirect s f = 0 → ptr s f i = 0.
Proof. intros Hi Hh. unfold ptr. change NDIRECT with 10. rewrite Hh. by replace (10 <=? i) with true by lia. Qed.

(** Slots are different from each other and from the other fields. *)
Lemma slot_blk s f i : file_at s f → has_slot s f i → blk_of (slot s f i) = (if i <? 10 then blk_of f else indirect s f).
Proof.
  intros (Hca & _ & Hin & _) [Hi Hh]. unfold slot. change NDIRECT with 10. destruct (i <? 10) eqn:E.
  - destruct (addr_split f Hca) as [He Hmod]. unfold f_direct.
    replace (f + 136 + 4 * i) with (DISKMAP + blk_of f * 4096 + (f `mod` 4096 + 136 + 4 * i)) by lia. by rewrite blk_addr by lia.
  - by rewrite blk_addr by lia.
Qed.
Lemma slot_inj s f i j : file_ok s f → has_slot s f i → has_slot s f j → slot s f i = slot s f j → i = j.
Proof.
  intros Hf Hi Hj He. pose proof (slot_blk s f i (fo_at _ _ Hf) Hi) as Hbi. pose proof (slot_blk s f j (fo_at _ _ Hf) Hj) as Hbj.
  rewrite He, Hbj in Hbi. unfold slot in He. change NDIRECT with 10 in He. unfold f_direct in He.
  destruct Hi, Hj. destruct (i <? 10) eqn:Ei, (j <? 10) eqn:Ej; try lia; destruct (fo_ind _ _ Hf) as [|[_ Hne]]; lia.
Qed.
Lemma slot_not_field s f i k : file_ok s f → has_slot s f i → 0 ≤ k < 256 → k < 136 ∨ 176 ≤ k → slot s f i ≠ f + k.
Proof.
  intros Hf Hi Hk Hk' He. pose proof (slot_blk s f i (fo_at _ _ Hf) Hi) as Hb. unfold slot in He. change NDIRECT with 10 in He.
  destruct Hi as [Hi Hh]. destruct (i <? 10) eqn:E; [unfold f_direct in He; lia|].
  destruct (fo_at _ _ Hf) as (Hca & _ & Hin & _). destruct (addr_split f Hca) as [Hfe Hmod].
  destruct (fo_ind _ _ Hf) as [|[_ Hne]]; [lia|]. apply Hne.
  rewrite <- (blk_addr (indirect s f) (4 * (i - 10))) by lia. rewrite He.
  replace (f + k) with (DISKMAP + blk_of f * 4096 + (f `mod` 4096 + k)) by lia. by rewrite blk_addr by lia.
Qed.

(** ** Growing *)

(** Addresses that growing file [f] leaves alone: the server's memory, and
    blocks in use except the bitmap, the pointers of [f] and its indirect
    block. *)
Definition untouched s (f x : Z) : Prop :=
  in_cache x = true → in_use s (blk_of x) ∧ (x < BITMAP ∨ BITMAP + 4096 * nbitmap s ≤ x) ∧
    (x < f + 136 ∨ f + 180 ≤ x) ∧ blk_of x ≠ indirect s f.

(** Holes of [f] may have been filled with blocks of zeroes. *)
Record grows s s' (f : Z) : Prop := {
  gr_step : vstep s s';
  gr_ready : ready s';
  gr_nblocks : nblocks s' = nblocks s;
  gr_used : ∀ c, 1 ≤ c < nblocks s → is_free s c = false → is_free s' c = false;
  gr_file : file_ok s' f;
  gr_ind : indirect s' f = indirect s f ∨ indirect s f = 0 ∧ indirect s' f ≠ 0 ∧ is_free s (indirect s' f) = true;
  gr_ptr : ∀ i, 0 ≤ i < 1034 → ptr s' f i = ptr s f i ∨
    ptr s f i = 0 ∧ ptr s' f i ≠ 0 ∧ is_free s (ptr s' f i) = true ∧
    ∀ o, 0 ≤ o < 4096 → vw s' (DISKMAP + ptr s' f i * 4096 + o) = 0;
  gr_view : ∀ x, 0 ≤ x < 4294967296 → untouched s f x → vw s' x = vw s x
}.

Lemma attached_data s s' a b c : attached s s' a b → mounted s → data_block s c → data_block s' c.
Proof.
  intros Ha Hm [Hc Hf]. pose proof (nbitmap_range s (mo_size _ Hm)). unfold data_block, nbitmap. rewrite (at_nblocks _ _ _ _ Ha).
  split; [done|]. rewrite (at_free _ _ _ _ Ha) by lia. by case_decide.
Qed.
Lemma attached_new s s' a b : attached s s' a b → mounted s → data_block s' b ∧ ∀ c, in_use s c → c ≠ b.
Proof.
  intros Ha Hm. pose proof (at_range _ _ _ _ Ha) as Hb. pose proof (nbitmap_range s (mo_size _ Hm)). split.
  - unfold data_block, nbitmap. rewrite (at_nblocks _ _ _ _ Ha). split; [done|].
    rewrite (at_free _ _ _ _ Ha) by lia. by rewrite decide_True.
  - intros c [_ Hf] ->. pose proof (at_was _ _ _ _ Ha). congruence.
Qed.
Lemma attached_at s s' a b f : attached s s' a b → mounted s → file_at s f → file_at s' f.
Proof.
  intros Ha Hm (H1 & H2 & H3 & [H4|H4]); split_and!; try done; [by left|right]. by eapply attached_data.
Qed.
Lemma file_ok_blk s f : mounted s → file_ok s f → in_use s (blk_of f).
Proof. intros Hm Hf. by destruct (file_at_range s f Hm (fo_at _ _ Hf)) as (_ & _ & _ & ?). Qed.

(** The view part of [grows], for a slot that belongs to the file. *)
Lemma attached_view_untouched s s' a b f x :
  attached s s' a b → mounted s → (f + 136 ≤ a ∧ a + 4 ≤ f + 180 ∨ in_cache a = true ∧ a `mod` 4 = 0 ∧ blk_of a = indirect s f) →
  0 ≤ x < 4294967296 → 0x10000000 ≤ f → f + 256 ≤ 0xD0000000 → untouched s f x → vw s' x = vw s x.
Proof.
  intros Ha Hm Hsl Hx Hf1 Hf2 Hun. pose proof (mo_size _ Hm) as Hn. pose proof (nbitmap_range s Hn) as Hnb.
  pose proof (at_range _ _ _ _ Ha) as Hb. pose proof (blk_bounds b ltac:(lia)) as Hbb.
  destruct (in_cache x) eqn:Hcx.
  - destruct (Hun Hcx) as (Hu & Hbm & Hff & Hne). destruct (addr_split x Hcx) as [He Hmod].
    destruct (attached_new _ _ _ _ Ha Hm) as [_ Hnew]. specialize (Hnew _ Hu).
    apply (at_view _ _ _ _ Ha); [done|done| |lia]. destruct Hsl as [|(Hca & Hal & Hba)]; [lia|].
    destruct (addr_split a Hca) as [Hea Hmoda]. assert (a `mod` 4096 ≤ 4092) by dlia. lia.
  - assert (Hout : x < 0x10000000 ∨ 0xD0000000 ≤ x).
    { assert (¬ (DISKMAP ≤ x < DISKMAP + DISKSIZE)) as Hno by (rewrite <- in_cache_iff; by rewrite Hcx).
      change DISKMAP with 0x10000000 in Hno. change DISKSIZE with 0xC0000000 in Hno. lia. }
    apply (at_view _ _ _ _ Ha); rewrite ?BITMAP_val; try lia.
    destruct Hsl as [|(Hca & Hal & _)]; [lia|]. pose proof (in_cache_range a Hca). clear - Hout Hal H1. dlia.
Qed.

(** A fresh indirect block: all its pointers are zero. *)
Lemma attach_indirect s s' f b :
  ready s → file_ok s f → indirect s f = 0 → attached s s' (f_indirect f) b →
  grows s s' f ∧ indirect s' f = b ∧ ∀ i, 0 ≤ i < 1034 → ptr s' f i = ptr s f i.
Proof.
  intros [Hc Hm] Hf Hz0 Ha. pose proof (at_range _ _ _ _ Ha) as Hb. pose proof (nbitmap_range s (mo_size _ Hm)) as Hnb.
  destruct (file_at_range s f Hm (fo_at _ _ Hf)) as (Hlo & Hhi & _ & Hu).
  destruct (attached_new _ _ _ _ Ha Hm) as [Hdb Hnew].
  assert (Hsl : slot_ok s (f_indirect f)) by (apply slot_ok_file; [done|apply Hf|lia|lia|done]).
  assert (Hind : indirect s' f = b) by apply (at_slot _ _ _ _ Ha).
  assert (Hptr : ∀ i, 0 ≤ i < 1034 → ptr s' f i = ptr s f i).
  { intros i Hi. destruct (decide (i < 10)) as [Hlt|Hge].
    - rewrite !ptr_slot by (split; lia). unfold slot. change NDIRECT with 10. replace (i <? 10) with true by lia.
      eapply attached_word; [done|done| |unfold f_direct, f_indirect; lia].
      unfold f_direct. rewrite <- Z.add_assoc. apply slot_ok_file; [done|apply Hf|lia|lia|dlia].
    - rewrite (ptr_no_slot s) by lia. rewrite ptr_slot by (split; lia). unfold slot. change NDIRECT with 10.
      replace (i <? 10) with false by lia. rewrite Hind. unfold vw32.
      rewrite <- !Z.add_assoc. rewrite !Z.add_assoc with (n := DISKMAP). rewrite !(at_zero _ _ _ _ Ha) by lia. done. }
  split; [|by split]. split.
  - apply Ha.
  - apply Ha.
  - apply Ha.
  - intros c Hcr Hfr. rewrite (at_free _ _ _ _ Ha) by lia. by case_decide.
  - split.
    + by eapply attached_at; [| |apply Hf].
    + right. rewrite Hind. split; [done|]. intros He. by apply (Hnew _ Hu).
    + intros i Hi. rewrite Hptr by done. destruct (fo_ptr _ _ Hf i Hi) as [|(Hd & Hne & _)]; [by left|right].
      split; [by eapply attached_data|]. split; [done|]. rewrite Hind. apply Hnew. by apply data_in_use.
    + intros i j Hi Hj Hij. rewrite !Hptr by done. by apply (fo_inj _ _ Hf).
  - right. rewrite Hind. split; [done|]. split; [lia|apply (at_was _ _ _ _ Ha)].
  - intros i Hi. left. by apply Hptr.
  - intros x Hx Hun. eapply (attached_view_untouched _ _ _ _ f); [done|done| |done|lia|lia|done]. left. unfold f_indirect. lia.
Qed.

(** A fresh data block in slot [i]. *)
Lemma attach_slot s s' f i b :
  ready s → file_ok s f → has_slot s f i → ptr s f i = 0 → attached s s' (slot s f i) b →
  grows s s' f ∧ ptr s' f i = b ∧ b ≠ 0 ∧ ∀ j, 0 ≤ j < 1034 → j ≠ i → ptr s' f j = ptr s f j.
Proof.
  intros [Hc Hm] Hf Hi Hz0 Ha. pose proof (at_range _ _ _ _ Ha) as Hb. pose proof (nbitmap_range s (mo_size _ Hm)) as Hnb.
  destruct (file_at_range s f Hm (fo_at _ _ Hf)) as (Hlo & Hhi & _ & Hu).
  destruct (attached_new _ _ _ _ Ha Hm) as [Hdb Hnew]. pose proof (has_slot_ok s f i Hm Hf Hi) as Hsl.
  assert (Hind : indirect s' f = indirect s f).
  { eapply attached_word; [done|done| |].
    - apply slot_ok_file; [done|apply Hf|lia|lia|done].
    - symmetry. apply (slot_not_field s f i 176); [done|done|lia|lia]. }
  assert (Hslot : ∀ j, slot s' f j = slot s f j) by (intros j; unfold slot; by rewrite Hind).
  assert (Hptr : ∀ j, 0 ≤ j < 1034 → ptr s' f j = if decide (j = i) then b else ptr s f j).
  { intros j Hj. destruct (decide (has_slot s f j)) as [Hjs|Hjs].
    - assert (Hjs' : has_slot s' f j) by (unfold has_slot; by rewrite Hind). rewrite !ptr_slot by done. rewrite Hslot.
      case_decide as Hd; [subst; apply (at_slot _ _ _ _ Ha)|].
      eapply attached_word; [done|done|by apply has_slot_ok|]. intros He. apply Hd. by eapply slot_inj.
    - assert (10 ≤ j ∧ indirect s f = 0) as [Hj1 Hj2] by (unfold has_slot in Hjs; lia).
      rewrite !ptr_no_slot by (done || congruence). rewrite decide_False; [done|]. by intros ->. }
  split; [|split; [rewrite Hptr by apply Hi; by rewrite decide_True|split; [lia|]]].
  2:{ intros j Hj Hne. rewrite Hptr by done. by rewrite decide_False. }
  split.
  - apply Ha.
  - apply Ha.
  - apply Ha.
  - intros c Hcr Hfr. rewrite (at_free _ _ _ _ Ha) by lia. by case_decide.
  - split.
    + by eapply attached_at; [| |apply Hf].
    + rewrite Hind. destruct (fo_ind _ _ Hf) as [|[Hd Hne]]; [by left|right]. split; [by eapply attached_data|done].
    + intros j Hj. rewrite Hptr, Hind by done. case_decide as Hd.
      * right. split; [done|]. split; [intros He; by apply (Hnew _ Hu)|].
        intros He. destruct (fo_ind _ _ Hf) as [|[Hd' _]]; [lia|]. by apply (Hnew (indirect s f)); [apply data_in_use|].
      * destruct (fo_ptr _ _ Hf j Hj) as [|(Hd' & Hne & Hne2)]; [by left|right]. split; [by eapply attached_data|done].
    + intros j k Hj Hk Hjk. rewrite !Hptr by done.
      assert (Hother : ∀ l, 0 ≤ l < 1034 → b ≠ 0 → b ≠ ptr s f l).
      { intros l Hl _ He. destruct (fo_ptr _ _ Hf l Hl) as [|(Hd' & _)]; [lia|]. by apply (Hnew (ptr s f l)); [apply data_in_use|]. }
      repeat case_decide; subst; try done; [by apply Hother|intros Hp He; by eapply (Hother j); [|lia|]|by apply (fo_inj _ _ Hf)].
  - by left.
  - intros j Hj. rewrite Hptr by done. case_decide as Hd; [subst; right|by left].
    split; [done|]. split; [lia|]. split; [apply (at_was _ _ _ _ Ha)|apply (at_zero _ _ _ _ Ha)].
  - intros x Hx Hun. eapply (attached_view_untouched _ _ _ _ f); [done|done| |done|lia|lia|done].
    pose proof (slot_blk s f i (fo_at _ _ Hf) Hi) as Hbk. destruct Hsl as (Hca & Hal & _).
    destruct (i <? 10) eqn:E; [left; unfold slot, f_direct; change NDIRECT with 10; rewrite E; destruct Hi; lia|right; done].
Qed.

(** ** Cache moves and composition *)

Lemma slot_ok_range s a : slot_ok s a → 0 ≤ a ∧ a + 4 ≤ 4294967296.
Proof. intros (Hca & _). pose proof (in_cache_range a Hca). lia. Qed.

Lemma indirect_same s s' f : vsame s s' → mounted s → file_at s f → indirect s' f = indirect s f.
Proof.
  intros Hv Hm Hf. destruct (file_at_range s f Hm Hf) as (? & ? & _). apply (vw32_same _ _ _ Hv); unfold f_indirect; lia.
Qed.
Lemma ptr_same s s' f i : vsame s s' → mounted s → file_ok s f → 0 ≤ i < 1034 → ptr s' f i = ptr s f i.
Proof.
  intros Hv Hm Hf Hi. pose proof (indirect_same s s' f Hv Hm (fo_at _ _ Hf)) as Hind.
  destruct (decide (has_slot s f i)) as [Hs|Hs].
  - assert (Hs' : has_slot s' f i) by (unfold has_slot; by rewrite Hind). rewrite !ptr_slot by done.
    unfold slot at 1. rewrite Hind. fold (slot s f i). destruct (slot_ok_range s _ (has_slot_ok s f i Hm Hf Hs)).
    by apply (vw32_same _ _ _ Hv).
  - assert (10 ≤ i ∧ indirect s f = 0) as [Hj1 Hj2] by (unfold has_slot in Hs; lia).
    by rewrite !ptr_no_slot by (done || congruence).
Qed.
Lemma data_same s s' b : vsame s s' → mounted s → data_block s b → data_block s' b.
Proof.
  intros Hv Hm [Hb Hf]. pose proof (mo_size _ Hm). pose proof (nbitmap_range s (mo_size _ Hm)).
  unfold data_block, nbitmap. rewrite (nblocks_same _ _ Hv). split; [done|].
  by rewrite (is_free_same _ _ _ Hv) by (unfold NBLK; lia).
Qed.
Lemma file_at_same s s' f : vsame s s' → mounted s → file_at s f → file_at s' f.
Proof. intros Hv Hm (H1 & H2 & H3 & [H4|H4]); split_and!; try done; [by left|right]. by eapply data_same. Qed.
Lemma file_ok_same s s' f : vsame s s' → mounted s → file_ok s f → file_ok s' f.
Proof.
  intros Hv Hm Hf. split.
  - by eapply file_at_same; [| |apply Hf].
  - rewrite (indirect_same s s') by (done || apply Hf). destruct (fo_ind _ _ Hf) as [|[? ?]]; [by left|right]. split; [by eapply data_same|done].
  - intros i Hi. rewrite (indirect_same s s'), (ptr_same s s') by (done || apply Hf).
    destruct (fo_ptr _ _ Hf i Hi) as [|[? ?]]; [by left|right]. split; [by eapply data_same|done].
  - intros i j Hi Hj Hij. rewrite !(ptr_same s s') by done. by apply (fo_inj _ _ Hf).
Qed.

Lemma grows_same s s' f : vsame s s' → ready s' → mounted s → file_ok s f → grows s s' f.
Proof.
  intros Hv Hr Hm Hf. pose proof (mo_size _ Hm). split.
  - by apply vsame_step.
  - done.
  - by apply nblocks_same.
  - intros c Hc Hfr. by rewrite (is_free_same _ _ _ Hv) by (unfold NBLK; lia).
  - by eapply file_ok_same.
  - left. by apply indirect_same; [| |apply Hf].
  - intros i Hi. left. by apply ptr_same.
  - intros x Hx _. by apply (vs_view _ _ Hv).
Qed.

(** Data blocks of the file itself are untouched by growing. *)
Lemma untouched_data s f i o : mounted s → file_ok s f → 0 ≤ i < 1034 → ptr s f i ≠ 0 → 0 ≤ o < 4096 →
  untouched s f (DISKMAP + ptr s f i * 4096 + o) ∧ 0 ≤ DISKMAP + ptr s f i * 4096 + o < 4294967296.
Proof.
  intros Hm Hf Hi Hp Ho. destruct (fo_ptr _ _ Hf i Hi) as [|(Hd & Hne & Hni)]; [done|].
  destruct (fo_at _ _ Hf) as (Hca & _ & Hin & _). destruct (addr_split f Hca) as [He Hmod].
  pose proof (data_in_use s _ Hm Hd) as Hu. destruct Hd as [Hb _]. pose proof (mo_size _ Hm) as Hn.
  pose proof (nbitmap_range s Hn). pose proof (blk_bounds (ptr s f i) ltac:(lia)). split; [|lia].
  intros _. rewrite blk_addr by done. split; [done|]. split; [|split; [|done]].
  - rewrite BITMAP_val. change DISKMAP with 0x10000000. lia.
  - lia.
Qed.

Lemma grows_trans s1 s2 s3 f : mounted s1 → file_ok s1 f → grows s1 s2 f → grows s2 s3 f → grows s1 s3 f.
Proof.
  intros Hm1 Hf1 [A1 A2 A3 A4 A5 A6 A7 A8] [B1 B2 B3 B4 B5 B6 B7 B8]. pose proof (proj2 A2) as Hm2.
  pose proof (mo_size _ Hm1) as Hn. pose proof (nbitmap_range s1 Hn) as Hnb.
  assert (Hfree : ∀ b, data_block s3 b → is_free s2 b = true → is_free s1 b = true).
  { intros b [Hb _] Hf2. destruct (is_free s1 b) eqn:E; [done|]. unfold nbitmap in Hb. rewrite B3, A3 in Hb. fold (nbitmap s1) in Hb.
    rewrite A4 in Hf2 by (done || lia). done. }
  split.
  - by eapply vstep_trans.
  - done.
  - congruence.
  - intros c Hc Hf. apply B4; [by rewrite A3|by apply A4].
  - done.
  - destruct B6 as [->|(B6 & B6' & B6f)]; [done|]. destruct A6 as [A6|(_ & A6' & _)]; [|done].
    right. split; [congruence|]. split; [done|]. apply Hfree; [|done]. by destruct (fo_ind _ _ B5) as [|[? _]].
  - intros i Hi. destruct (B7 i Hi) as [E|(E0 & E1 & E2 & E3)]; [destruct (A7 i Hi) as [A|(A0 & A' & A2' & A3')]|destruct (A7 i Hi) as [A|(_ & A' & _)]].
    + left. congruence.
    + right. rewrite E. do 3 (split; [done|]). intros o Ho. destruct (untouched_data s2 f i o Hm2 A5 Hi A' Ho) as [Hun Hr].
      rewrite B8 by done. by apply A3'.
    + right. split; [congruence|]. split; [done|]. split; [|done]. apply Hfree; [|done]. by destruct (fo_ptr _ _ B5 i Hi) as [|[? _]].
    + congruence.
  - intros x Hx Hun. rewrite B8; [by apply A8|done|]. intros Hcx. destruct (Hun Hcx) as (Hu & Hbm & Hff & Hne).
    unfold nbitmap. rewrite A3. fold (nbitmap s1). destruct Hu as [Hur Huf].
    split; [split; [by rewrite A3|by apply A4]|]. split; [done|]. split; [done|].
    destruct A6 as [->|(_ & _ & A6f)]; [done|]. intros He. rewrite He in Huf. congruence.
Qed.

(** Growing does not change the contents. *)
Lemma grows_fbyte s s' f p : mounted s → file_ok s f → grows s s' f → 0 ≤ p < 4235264 → fbyte s' f p = fbyte s f p.
Proof.
  intros Hm Hf Hg Hp. assert (Hi : 0 ≤ p / 4096 < 1034) by dlia. assert (Ho : 0 ≤ p `mod` 4096 < 4096) by dlia. unfold fbyte.
  destruct (gr_ptr _ _ _ Hg _ Hi) as [->|(-> & Hne & _ & Hz)].
  - destruct (_ =? 0) eqn:E; [done|]. destruct (untouched_data s f (p / 4096) (p `mod` 4096)) as [Hun Hr]; [done|done|done|lia|done|].
    by apply (gr_view _ _ _ Hg).
  - cbn. destruct (_ =? 0) eqn:E; [done|]. by apply Hz.
Qed.

End FsFile.
