(* ===== verification/FsData.v ===== *)
(** * Reading and writing files

    file_block_walk, file_get_block, file_read and file_write (fs/fs.c)
    against the contents [fbyte] of a file: reading returns the bytes of the
    file, writing replaces them, and every other block in use, in particular
    the blocks of other files, is left alone. *)

From S2P Require Import Prelude Mmu CMem Str StrProofs FsState Ide IdeProofs Bc BcProofs BcMem Fs FsAlloc FsFile.

Section FsData.
Context {D : Type} `{AtaDisk D}.
Implicit Types (s : FState D).

(** ** Finding blocks *)

Definition no_free s : Prop := ∀ c, 1 ≤ c < nblocks s → is_free s c = false.

Lemma no_free_same s s' : vsame s s' → mounted s → no_free s → no_free s'.
Proof.
  intros Hv Hm Hf c Hc. rewrite (nblocks_same _ _ Hv) in Hc. pose proof (mo_size _ Hm).
  rewrite (is_free_same _ _ _ Hv) by (unfold NBLK; lia). by apply Hf.
Qed.

Lemma load_field f k (Q : Z → FState D → Prop) s : ready s → file_at s f → 0 ≤ k → k + 4 ≤ 256 → k `mod` 4 = 0 →
  (∀ s', csame s s' → ready s' → Q (vw32 s (f + k)) s') → wp (load32 (f + k)) Q no_stop s.
Proof.
  intros [Hc Hm] Hf Hk Hk4 Hal HQ. destruct (file_at_range s f Hm Hf) as (? & ? & _).
  assert (Hfal : f `mod` 4 = 0) by apply Hf.
  apply load32_ok; [done|by apply touchable_file; [done|done|lia]|lia|lia|dlia|].
  intros s' Hs' Hc'. apply HQ; [done|]. by eapply ready_same; [apply Hs'| |].
Qed.

Lemma file_block_walk_alloc f i s : ready s → file_ok s f → 0 ≤ i < 1034 →
  wp (file_block_walk f i true) (λ '(r, o) s', grows s s' f ∧ (∀ j, 0 ≤ j < 1034 → ptr s' f j = ptr s f j) ∧
    (r = - E_NO_DISK ∧ o = None ∧ no_free s' ∨ r = 0 ∧ has_slot s' f i ∧ o = Some (slot s' f i))) no_stop s.
Proof.
  intros Hr Hf Hi. pose proof Hr as [Hc Hm]. unfold file_block_walk. change (NDIRECT + NINDIRECT) with 1034. change NDIRECT with 10.
  replace (i >=? 1034) with false by lia. destruct (i <? 10) eqn:E.
  { apply wp_ret. split; [by apply grows_same; [apply vsame_refl| | |]|]. split; [done|right]. split; [done|]. split; [split; lia|].
    unfold slot. change NDIRECT with 10. by rewrite E. }
  apply wp_bind. apply (load_field f 176); [done|apply Hf|lia|lia|done|]. intros s1 Hs1 Hr1. change (vw32 s (f + 176)) with (indirect s f).
  pose proof (grows_same s s1 f (cs_view _ _ Hs1) Hr1 Hm Hf) as Hg1.
  pose proof (indirect_same s s1 f (cs_view _ _ Hs1) Hm (fo_at _ _ Hf)) as Hi1.
  destruct (decide (indirect s f = 0)) as [H00|Hne].
  - assert (ctrue (indirect s f) = false) as -> by (by apply ctrue_false). cbn [negb].
    apply (attach_ok (λ r, (r, None))); [done| | |].
    + apply slot_ok_file; [apply Hr1|apply Hg1|lia|lia|done].
    + intros s' Hv Hr' Hall. pose proof (proj2 Hr1) as Hm1.
      split; [eapply grows_trans; [done|done|done|by apply grows_same; [| |apply Hr1|apply Hg1]]|]. split.
      { intros j Hj. eapply ptr_same; [exact (vsame_trans _ _ _ (cs_view _ _ Hs1) Hv)|done|done|done]. }
      left. split; [done|]. split; [done|]. by eapply no_free_same.
    + intros s2 b Ha. destruct (attach_indirect s1 s2 f b Hr1 (gr_file _ _ _ Hg1) ltac:(congruence) Ha) as (Hg2 & Hind & Hpt2).
      pose proof (gr_ready _ _ _ Hg2) as [Hc2 Hm2]. pose proof (at_range _ _ _ _ Ha) as Hb.
      pose proof (nbitmap_range s1 (mo_size _ (proj2 Hr1))).
      apply wp_bind, diskaddr_ok; [done|done|rewrite (gr_nblocks _ _ _ Hg2); lia|]. intros s3 Hs3 Hc3.
      assert (Hr3 : ready s3) by (by eapply ready_same; [apply Hs3| |]).
      assert (Hind3 : indirect s3 f = b) by (rewrite (indirect_same s2 s3); [done|apply Hs3|done|apply Hg2]).
      apply wp_ret. split.
      * eapply grows_trans; [done|done|done|]. eapply grows_trans; [apply Hr1|apply Hg1|done|].
        apply grows_same; [apply Hs3|done|done|apply Hg2].
      * split; [intros j Hj; rewrite (ptr_same s2 s3), Hpt2 by (done || apply Hs3 || apply Hg2); by apply ptr_same; [apply Hs1| | |]|].
        right. split; [done|]. split; [split; lia|]. unfold slot. change NDIRECT with 10. rewrite E, Hind3. done.
  - assert (ctrue (indirect s f) = true) as -> by (by apply ctrue_true).
    destruct (fo_ind _ _ Hf) as [|[[Hb _] _]]; [done|]. pose proof (nbitmap_range s (mo_size _ Hm)).
    apply wp_bind, diskaddr_ok; [apply Hr1|apply Hr1|rewrite (gr_nblocks _ _ _ Hg1); lia|]. intros s2 Hs2 Hc2.
    pose proof (csame_trans _ _ _ Hs1 Hs2) as Hs12.
    apply wp_ret. split; [apply grows_same; [apply Hs12|by eapply ready_same; [apply Hs12| |]|done|done]|].
    split; [intros j Hj; by apply ptr_same; [apply Hs12| | |]|right].
    pose proof (indirect_same s s2 f (cs_view _ _ Hs12) Hm (fo_at _ _ Hf)) as Hi2.
    split; [done|]. split; [split; [done|right; congruence]|]. unfold slot. change NDIRECT with 10. by rewrite E, Hi2.
Qed.

Lemma slot_touchable s f i : mounted s → file_ok s f → has_slot s f i → touchable s (slot s f i).
Proof.
  intros Hm Hf Hi. destruct (has_slot_ok s f i Hm Hf Hi) as (_ & _ & _ & Hu). by apply touchable_use.
Qed.

(** file_get_block: the disk is full, or the block is there. *)
Definition got_block s (f i r : Z) (o : option Z) s' : Prop :=
  grows s s' f ∧ (∀ j, 0 ≤ j < 1034 → j ≠ i → ptr s' f j = ptr s f j) ∧
  (r = - E_NO_DISK ∧ o = None ∧ no_free s' ∧ ptr s f i = 0 ∨
   r = 0 ∧ ptr s' f i ≠ 0 ∧ o = Some (DISKMAP + ptr s' f i * 4096)).

Lemma data_range s f i : mounted s → file_ok s f → 0 ≤ i < 1034 → ptr s f i ≠ 0 → 0 < ptr s f i < nblocks s.
Proof.
  intros Hm Hf Hi Hp. pose proof (nbitmap_range s (mo_size _ Hm)). destruct (fo_ptr _ _ Hf i Hi) as [|[[? _] _]]; [done|lia].
Qed.

Lemma data_bounds s f i : mounted s → file_ok s f → 0 ≤ i < 1034 → ptr s f i ≠ 0 →
  0x10000000 ≤ DISKMAP + ptr s f i * 4096 ∧ DISKMAP + ptr s f i * 4096 + 4096 ≤ 0xD0000000.
Proof.
  intros Hm Hf Hi Hp. pose proof (data_range s f i Hm Hf Hi Hp). pose proof (mo_size _ Hm). apply blk_bounds. lia.
Qed.

(** Without holes nothing is allocated. *)
Lemma file_block_walk_slot f i alloc s : ready s → file_ok s f → has_slot s f i →
  wp (file_block_walk f i alloc) (λ x s', csame s s' ∧ ready s' ∧ x = (0, Some (slot s f i))) no_stop s.
Proof.
  intros Hr Hf [Hi Hh]. pose proof Hr as [Hc Hm]. unfold file_block_walk. change (NDIRECT + NINDIRECT) with 1034. unfold slot. change NDIRECT with 10.
  replace (i >=? 1034) with false by lia. destruct (i <? 10) eqn:E.
  { apply wp_ret. split; [apply csame_refl|done]. }
  apply wp_bind. apply (load_field f 176); [done|apply Hf|lia|lia|done|]. intros s1 Hs1 Hr1. change (vw32 s (f + 176)) with (indirect s f).
  assert (ctrue (indirect s f) = true) as -> by (apply ctrue_true; lia).
  destruct (fo_ind _ _ Hf) as [|[[Hb _] _]]; [lia|]. pose proof (nbitmap_range s (mo_size _ Hm)).
  apply wp_bind, diskaddr_ok; [apply Hr1|apply Hr1|rewrite (nblocks_same _ _ (cs_view _ _ Hs1)); lia|]. intros s2 Hs2 Hc2.
  pose proof (csame_trans _ _ _ Hs1 Hs2) as Hs12. apply wp_ret. split; [done|]. split; [by eapply ready_same; [apply Hs12| |]|done].
Qed.

Lemma ptr_has_slot s f i : 0 ≤ i < 1034 → ptr s f i ≠ 0 → has_slot s f i.
Proof.
  intros Hi Hp. split; [done|]. destruct (decide (i < 10)); [by left|right]. intros Hz. apply Hp. apply ptr_no_slot; [lia|done].
Qed.

Lemma file_get_block_there f i s : ready s → file_ok s f → 0 ≤ i < 1034 → ptr s f i ≠ 0 →
  wp (file_get_block f i) (λ x s', csame s s' ∧ ready s' ∧ x = (0, Some (DISKMAP + ptr s f i * 4096))) no_stop s.
Proof.
  intros Hr Hf Hi Hp. pose proof Hr as [Hc Hm]. pose proof (ptr_has_slot s f i Hi Hp) as Hh. unfold file_get_block. apply wp_bind.
  eapply wp_mono; [by apply file_block_walk_slot| |done]. intros x s1 (Hs1 & Hr1 & ->).
  destruct (has_slot_ok s f i Hm Hf Hh) as (Hca & Hal & _). destruct (slot_ok_range s _ (has_slot_ok s f i Hm Hf Hh)) as [Hlo Hhi].
  apply wp_bind, load32_ok; [apply Hr1| |done|done|done|].
  { eapply touchable_same; [apply Hs1|by apply slot_touchable]. }
  intros s2 Hs2 Hc2. pose proof (csame_trans _ _ _ Hs1 Hs2) as Hs12. rewrite (vw32_same _ _ _ (cs_view _ _ Hs1)) by done.
  rewrite <- (ptr_slot s f i Hh). replace (ptr s f i =? 0) with false by lia.
  assert (Hr2 : ready s2) by (by eapply ready_same; [apply Hs12| |]). pose proof (data_range s f i Hm Hf Hi Hp).
  apply wp_bind, diskaddr_ok; [done|apply Hr2|rewrite (nblocks_same _ _ (cs_view _ _ Hs12)); lia|]. intros s3 Hs3 Hc3.
  pose proof (csame_trans _ _ _ Hs12 Hs3) as Hs13. apply wp_ret. split; [done|]. split; [by eapply ready_same; [apply Hs13| |]|done].
Qed.

Lemma file_get_block_ok f i s : ready s → file_ok s f → 0 ≤ i < 1034 →
  wp (file_get_block f i) (λ '(r, o) s', got_block s f i r o s') no_stop s.
Proof.
  intros Hr Hf Hi. pose proof Hr as [Hc Hm]. destruct (decide (ptr s f i = 0)) as [Hz0|Hn0].
  2:{ eapply wp_mono; [by apply file_get_block_there| |done]. intros x s1 (Hs1 & Hr1 & ->).
      pose proof (ptr_same s s1 f i (cs_view _ _ Hs1) Hm Hf Hi) as Hp1.
      split; [apply grows_same; [apply Hs1|exact Hr1|exact Hm|exact Hf]|].
      split; [intros j Hj _; by apply ptr_same; [apply Hs1| | |]|right]. by rewrite Hp1. }
  unfold file_get_block. apply wp_bind. eapply wp_mono; [by apply file_block_walk_alloc| |done].
  intros [r o] s1 (Hg1 & Hpt1 & [(-> & -> & Hno)|(-> & Hh & ->)]).
  { apply wp_ret. split; [done|]. split; [auto|by left]. }
  pose proof (gr_ready _ _ _ Hg1) as [Hc1 Hm1]. pose proof (gr_file _ _ _ Hg1) as Hf1.
  destruct (has_slot_ok s1 f i Hm1 Hf1 Hh) as (Hca & Hal & _ & Hu). destruct (slot_ok_range s1 _ (has_slot_ok s1 f i Hm1 Hf1 Hh)).
  apply wp_bind, load32_ok; [done|by apply slot_touchable|done|done|done|]. intros s2 Hs2 Hc2.
  rewrite <- (ptr_slot s1 f i Hh).
  assert (Hr2 : ready s2) by (by eapply ready_same; [apply Hs2| |]). pose proof Hr2 as [_ Hm2].
  pose proof (grows_same s1 s2 f (cs_view _ _ Hs2) Hr2 Hm1 Hf1) as Hg12.
  pose proof (grows_trans _ _ _ _ Hm Hf Hg1 Hg12) as Hg2. pose proof (gr_file _ _ _ Hg2) as Hf2.
  pose proof (ptr_same s1 s2 f i (cs_view _ _ Hs2) Hm1 Hf1 Hi) as Hp2.
  assert (Hpt2 : ∀ j, 0 ≤ j < 1034 → ptr s2 f j = ptr s f j).
  { intros j Hj. rewrite (ptr_same s1 s2 f j (cs_view _ _ Hs2) Hm1 Hf1 Hj). by apply Hpt1. }
  assert (Hind2 : indirect s2 f = indirect s1 f) by (apply indirect_same; [apply Hs2|done|apply Hf1]).
  assert (Hh2 : has_slot s2 f i) by (unfold has_slot; by rewrite Hind2).
  assert (Hsl2 : slot s2 f i = slot s1 f i) by (unfold slot; by rewrite Hind2).
  destruct (decide (ptr s1 f i = 0)) as [Hz|Hnz].
  - rewrite Hz. cbn [Z.eqb]. rewrite <- Hsl2.
    apply (attach_ok (λ r, (r, None))); [done|by apply has_slot_ok| |].
    + intros s' Hv Hr' Hall. split; [eapply grows_trans; [done|done|done|by apply grows_same]|].
      split; [intros j Hj _; rewrite (ptr_same s2 s') by done; by apply Hpt2|left]. split; [done|]. split; [done|]. split; [by eapply no_free_same|exact Hz0].
    + intros s3 b Ha. destruct (attach_slot s2 s3 f i b Hr2 Hf2 Hh2 ltac:(congruence) Ha) as (Hg3 & Hp3 & Hb0 & Hpt3).
      pose proof (grows_trans _ _ _ _ Hm Hf Hg2 Hg3) as Hg03.
      pose proof (gr_ready _ _ _ Hg3) as [Hc3 Hm3]. pose proof (gr_file _ _ _ Hg3) as Hf3.
      rewrite Hsl2. apply wp_bind, load32_ok; [done| |done|done|done|].
      { apply touchable_use; [done|]. intros _. destruct Hu as [Hur Huf]. pose proof (gr_nblocks _ _ _ Hg12) as Hn12.
        pose proof (mo_size _ Hm1) as Hsz. assert (Hfs : is_free s2 (blk_of (slot s1 f i)) = false).
        { rewrite (is_free_same _ _ _ (cs_view _ _ Hs2)); [done|]. unfold NBLK. lia. }
        split; [rewrite (gr_nblocks _ _ _ Hg3); lia|]. apply (gr_used _ _ _ Hg3); [lia|done]. }
      intros s4 Hs4 Hc4. rewrite <- Hsl2, (at_slot _ _ _ _ Ha). assert (Hr4 : ready s4) by (by eapply ready_same; [apply Hs4| |]).
      pose proof (data_range s3 f i Hm3 Hf3 Hi ltac:(congruence)) as Hrg. pose proof (nblocks_same _ _ (cs_view _ _ Hs4)) as Hn4.
      apply wp_bind, diskaddr_ok; [done|apply Hr4|lia|]. intros s5 Hs5 Hc5. apply wp_ret.
      pose proof (csame_trans _ _ _ Hs4 Hs5) as Hs45. assert (Hr5 : ready s5) by (by eapply ready_same; [apply Hs45| |]).
      pose proof (ptr_same s3 s5 f i (cs_view _ _ Hs45) Hm3 Hf3 Hi) as Hp5.
      split; [eapply grows_trans; [done|done|done|]; by apply grows_same; [apply Hs45| | |]|].
      split; [intros j Hj Hne; rewrite (ptr_same s3 s5 f j (cs_view _ _ Hs45) Hm3 Hf3 Hj), Hpt3 by done; by apply Hpt2|right].
      split; [done|]. split; [congruence|]. by rewrite Hp5, Hp3.
  - replace (ptr s1 f i =? 0) with false by lia.
    pose proof (data_range s2 f i Hm2 Hf2 Hi ltac:(congruence)) as Hrg.
    apply wp_bind, diskaddr_ok; [done|done|lia|]. intros s3 Hs3 Hc3. apply wp_ret.
    assert (Hr3 : ready s3) by (by eapply ready_same; [apply Hs3| |]).
    pose proof (ptr_same s2 s3 f i (cs_view _ _ Hs3) Hm2 Hf2 Hi) as Hp3.
    split; [eapply grows_trans; [done|done|done|]; by apply grows_same; [apply Hs3| | |]|].
    split; [intros j Hj Hne; rewrite (ptr_same s2 s3 f j (cs_view _ _ Hs3) Hm2 Hf2 Hj); by apply Hpt2|right].
    split; [done|]. split; [congruence|]. by rewrite Hp3, Hp2.
Qed.

(** ** The copy loop *)

Lemma chunk_small offset count pos : 0 ≤ offset ≤ pos → pos < offset + count → offset + count ≤ 4235264 →
  chunk offset count pos = Z.min (4096 - pos `mod` 4096) (offset + count - pos).
Proof.
  intros Ho Hp Hb. unfold chunk. rewrite Z.rem_mod_nonneg by (change BLKSIZE with 4096; lia). change BLKSIZE with 4096.
  rewrite !u32_small by dlia. unfold MIN. rewrite s32_small; [|destruct (_ <=? _) eqn:E; dlia]. destruct (_ <=? _) eqn:E; lia.
Qed.

Lemma copy_loop_ok f offset count copy buf (I : Z → FState D → Prop) (Q : option Z → FState D → Prop) :
  0 ≤ offset → 0 ≤ count → offset + count ≤ 4235264 → 0 ≤ buf → buf + count < 4294967296 →
  (∀ pos s, I pos s → ready s ∧ file_ok s f) →
  (∀ pos s1 s2, I pos s1 → offset ≤ pos < offset + count → grows s1 s2 f → ptr s2 f (pos / 4096) ≠ 0 →
     let n := Z.min (4096 - pos `mod` 4096) (offset + count - pos) in
     wp (copy (DISKMAP + ptr s2 f (pos / 4096) * 4096 + pos `mod` 4096) (buf + (pos - offset)) n) (λ _ s3, I (pos + n) s3) no_stop s2) →
  (∀ pos s1 s2, I pos s1 → offset ≤ pos < offset + count → grows s1 s2 f → no_free s2 → ptr s1 f (pos / 4096) = 0 →
     Q (Some (- E_NO_DISK)) s2) →
  (∀ s1, I (offset + count) s1 → Q None s1) →
  ∀ fuel pos s, I pos s → offset ≤ pos ≤ offset + count → offset + count - pos ≤ Z.of_nat fuel →
    wp (copy_loop fuel f offset count copy pos (buf + (pos - offset))) Q no_stop s.
Proof.
  intros Ho Hcn Hmax Hb Hbc HI Hstep Hfull Hdone. induction fuel as [|fuel IH]; intros pos s HIs Hpos Hfuel.
  - assert (pos = offset + count) as -> by lia. cbn [copy_loop]. rewrite Z.ltb_irrefl. by apply wp_ret, Hdone.
  - cbn [copy_loop]. rewrite !u32_small by lia. destruct (pos <? offset + count) eqn:E.
    2:{ apply Z.ltb_ge in E. apply wp_ret, Hdone. by replace (offset + count) with pos by lia. }
    apply Z.ltb_lt in E. assert (Hq : 0 ≤ pos / 4096 < 1034) by (clear - Ho Hmax Hpos E; dlia).
    assert (Hq2 : 0 ≤ pos `mod` 4096 < 4096) by (clear; dlia). destruct (HI pos s HIs) as [Hr Hf]. rewrite Z.quot_div_nonneg by (change BLKSIZE with 4096; lia). change BLKSIZE with 4096.
    rewrite (u32_small (pos / 4096)) by lia. apply wp_bind. eapply wp_mono; [by apply file_get_block_ok| |done].
    intros [r o] s1 (Hg & _ & [(-> & -> & Hno & Hz)|(-> & Hp & ->)]).
    { apply wp_ret. by eapply (Hfull pos); [done|lia|done| |]. }
    rewrite chunk_small by lia. rewrite Z.rem_mod_nonneg by lia. set (n := Z.min _ _).
    pose proof (Hstep pos s s1 HIs ltac:(lia) Hg Hp) as Hcp. fold n in Hcp. cbv zeta in Hcp.
    assert (Hn : 1 ≤ n ≤ 4096) by (unfold n; lia).
    pose proof (data_bounds s1 f (pos / 4096) (proj2 (gr_ready _ _ _ Hg)) (gr_file _ _ _ Hg) Hq Hp) as Hbb.
    rewrite (u32_small (DISKMAP + _ + _)) by lia. apply wp_bind. eapply wp_mono; [exact Hcp| |done]. intros [] s2 HI2.
    rewrite s32_small by lia. rewrite u32_small by lia.
    replace (buf + (pos - offset) + n) with (buf + (pos + n - offset)) by lia. apply IH; [done|unfold n; lia|unfold n; lia].
Qed.

(** ** Steps of one file *)

(** [grows], with the view changed at [P]. *)
Record fstep s s' (f : Z) (P : Z → Prop) : Prop := {
  fs_step : vstep s s';
  fs_ready : ready s';
  fs_nblocks : nblocks s' = nblocks s;
  fs_used : ∀ c, 1 ≤ c < nblocks s → is_free s c = false → is_free s' c = false;
  fs_file : file_ok s' f;
  fs_ind : indirect s' f = indirect s f ∨ indirect s f = 0 ∧ is_free s (indirect s' f) = true;
  fs_ptr : ∀ i, 0 ≤ i < 1034 → ptr s' f i = ptr s f i ∨ ptr s f i = 0 ∧ is_free s (ptr s' f i) = true;
  fs_view : ∀ x, 0 ≤ x < 4294967296 → untouched s f x → ¬ P x → vw s' x = vw s x
}.

Lemma grows_fstep s s' f P : grows s s' f → fstep s s' f P.
Proof.
  intros [A1 A2 A3 A4 A5 A6 A7 A8]. split; try done.
  - destruct A6 as [|(? & ? & ?)]; [by left|by right].
  - intros i Hi. destruct (A7 i Hi) as [|(? & ? & ? & ?)]; [by left|by right].
  - intros x Hx Hun _. by apply A8.
Qed.

Lemma untouched_fstep s s' f P x : fstep s s' f P → untouched s f x → untouched s' f x.
Proof.
  intros [A1 A2 A3 A4 A5 A6 A7 A8] Hun Hcx. destruct (Hun Hcx) as (Hu & Hbm & Hff & Hne).
  unfold nbitmap. rewrite A3. fold (nbitmap s). destruct Hu as [Hur Huf].
  split; [split; [by rewrite A3|by apply A4]|]. split; [done|]. split; [done|].
  destruct A6 as [->|(_ & A6f)]; [done|]. intros He. rewrite He in Huf. congruence.
Qed.

Lemma fstep_trans s1 s2 s3 f P P' :
  fstep s1 s2 f P → fstep s2 s3 f P' → (∀ x, untouched s1 f x → ¬ P x → ¬ P' x) → fstep s1 s3 f P.
Proof.
  intros HA HB HP. pose proof HA as [A1 A2 A3 A4 A5 A6 A7 A8]. pose proof HB as [B1 B2 B3 B4 B5 B6 B7 B8].
  pose proof (nbitmap_range s2 (mo_size _ (proj2 A2))) as Hnb.
  assert (Hfree : ∀ b, b = 0 ∨ data_block s3 b → is_free s2 b = true → b = 0 ∨ is_free s1 b = true).
  { intros b [->|[Hb _]] Hf2; [by left|right]. destruct (is_free s1 b) eqn:E; [done|]. unfold nbitmap in Hb. rewrite B3 in Hb. fold (nbitmap s2) in Hb.
    rewrite A4 in Hf2 by (done || lia). done. }
  split.
  - by eapply vstep_trans.
  - done.
  - congruence.
  - intros c Hc Hf. apply B4; [by rewrite A3|by apply A4].
  - done.
  - destruct B6 as [->|(B6 & B6f)]; [done|].
    destruct (Hfree (indirect s3 f)) as [Hz|Hz]; [destruct (fo_ind _ _ B5) as [|[? _]]; [by left|by right]|done| |].
    + replace (indirect s3 f) with (indirect s2 f) by congruence. exact A6.
    + destruct A6 as [A6|(A6 & _)]; [|by right]. right. split; [congruence|done].
  - intros i Hi. destruct (B7 i Hi) as [->|(E0 & E2)]; [by apply A7|].
    destruct (Hfree (ptr s3 f i)) as [Hz|Hz]; [destruct (fo_ptr _ _ B5 i Hi) as [|[? _]]; [by left|by right]|done| |].
    + replace (ptr s3 f i) with (ptr s2 f i) by congruence. by apply A7.
    + destruct (A7 i Hi) as [A|(A & _)]; [|by right]. right. split; [congruence|done].
  - intros x Hx Hun HPx. rewrite B8; [by apply A8|done|by eapply untouched_fstep|by apply HP].
Qed.

(** A write that keeps away from the pointers of [f] and the file system's
    own structures. *)
Definition clear_of s (f a n : Z) : Prop :=
  off_meta s a n ∧
  ∀ x, a ≤ x < a + n → (x < f + 136 ∨ f + 180 ≤ x) ∧ (in_cache x = true → blk_of x ≠ indirect s f).

Lemma put_fstep s s' f a l : ready s → file_ok s f → vput s s' a l → cache_ok s' → 0 ≤ a →
  clear_of s f a (Z.of_nat (length l)) → fstep s s' f (λ x, a ≤ x < a + Z.of_nat (length l)) ∧
  indirect s' f = indirect s f ∧ ∀ i, 0 ≤ i < 1034 → ptr s' f i = ptr s f i.
Proof.
  intros [Hc Hm] Hf Hput Hc' Ha [Hoff Hcl]. pose proof (mo_size _ Hm) as Hn.
  destruct (file_at_range s f Hm (fo_at _ _ Hf)) as (Hlo & Hhi & _ & Hu).
  assert (Hw : ∀ x, 0 ≤ x → x + 4 ≤ 4294967296 → (∀ k, 0 ≤ k < 4 → ¬ (a ≤ x + k < a + Z.of_nat (length l))) → vw32 s' x = vw32 s x).
  { intros x Hx Hx4 Hk. apply vw32_bytes. intros k Hk4. apply (vput_out _ _ _ _ _ Hput); [lia|]. specialize (Hk k Hk4). lia. }
  assert (Hind : indirect s' f = indirect s f).
  { apply Hw; unfold f_indirect; [lia|lia|]. intros k Hk Hin. destruct (Hcl _ Hin) as [Hx _]. lia. }
  assert (Hptr : ∀ i, 0 ≤ i < 1034 → ptr s' f i = ptr s f i).
  { intros i Hi. destruct (decide (has_slot s f i)) as [Hs|Hs].
    - assert (Hs' : has_slot s' f i) by (unfold has_slot; by rewrite Hind). rewrite !ptr_slot by done.
      unfold slot at 1. rewrite Hind. fold (slot s f i). destruct (slot_ok_range s _ (has_slot_ok s f i Hm Hf Hs)) as [Hs1 Hs2].
      apply Hw; [done|done|]. intros k Hk Hin. destruct (Hcl _ Hin) as [Hx Hx2].
      destruct (has_slot_ok s f i Hm Hf Hs) as (Hca & Hal & _). destruct (aligned_same _ k Hal Hk) as [Hk1 Hk2].
      rewrite Hk1, Hk2, (slot_blk s f i (fo_at _ _ Hf) Hs) in Hx2. destruct (i <? 10) eqn:E; [|by apply Hx2].
      unfold slot, f_direct in Hx, Hin. change NDIRECT with 10 in Hx, Hin. rewrite E in Hx, Hin. apply Z.ltb_lt in E. lia.
    - assert (10 ≤ i ∧ indirect s f = 0) as [Hj1 Hj2] by (unfold has_slot in Hs; lia).
      by rewrite !ptr_no_slot by (done || congruence). }
  pose proof (off_meta_nblocks _ _ _ _ Hput Hoff) as Hnb.
  assert (Hfree : ∀ c, 0 ≤ c < nblocks s → is_free s' c = is_free s c) by (intros c Hcr; eapply off_meta_free; [done|done|lia|done]).
  assert (Hdata : ∀ c, data_block s c → data_block s' c).
  { intros c [Hcr Hcf]. unfold data_block, nbitmap. rewrite Hnb. pose proof (nbitmap_range s Hn). split; [done|]. by rewrite Hfree by lia. }
  split; [|done]. split.
  - apply Hput.
  - split; [done|by eapply mounted_put].
  - done.
  - intros c Hcr Hcf. by rewrite Hfree by lia.
  - split.
    + destruct (fo_at _ _ Hf) as (H1 & H2 & H3 & [H4|H4]); split_and!; try done; [by left|right; by apply Hdata].
    + rewrite Hind. destruct (fo_ind _ _ Hf) as [|[? ?]]; [by left|right]. split; [by apply Hdata|done].
    + intros i Hi. rewrite Hind, Hptr by done. destruct (fo_ptr _ _ Hf i Hi) as [|[? ?]]; [by left|right]. split; [by apply Hdata|done].
    + intros i j Hi Hj Hij. rewrite !Hptr by done. by apply (fo_inj _ _ Hf).
  - by left.
  - intros i Hi. left. by apply Hptr.
  - intros x Hx _ HP. apply (vput_out _ _ _ _ _ Hput); [done|lia].
Qed.

End FsData.
