(* ===== verification/FsRw.v ===== *)
(** * file_read and file_write

    [file_read_ok]: the bytes of the file appear in the buffer.
    [file_write_ok]: the bytes of the buffer appear in the file, the rest of
    the file and everything else is unchanged.  If the disk fills up both
    stop early with -E_NO_DISK. *)

From S2P Require Import Prelude Mmu CMem Str StrProofs FsState Ide IdeProofs Bc BcProofs BcMem Fs FsAlloc FsFile FsData.

Section FsRw.
Context {D : Type} `{AtaDisk D}.
Implicit Types (s : FState D).

Definition fsize s (f : Z) : Z := s32 (vw32 s (f_size f)).

(** The server's own memory. *)
Definition outside (a n : Z) : Prop := 0 ≤ a ∧ 0 ≤ n ∧ (a + n ≤ 0x10000000 ∨ 0xD0000000 ≤ a ∧ a + n < 4294967296).

Lemma outside_cache a n x : outside a n → a ≤ x < a + n → in_cache x = false.
Proof.
  intros (Ha & Hn & Ho) Hx. destruct (in_cache x) eqn:E; [|done]. pose proof (in_cache_range x E). lia.
Qed.
Lemma outside_bound a n : outside a n → a + n < 4294967296.
Proof. intros (? & ? & ?). lia. Qed.
Lemma outside_sub a n b m : outside a n → a ≤ b → 0 ≤ m → b + m ≤ a + n → outside b m.
Proof. unfold outside. lia. Qed.
Lemma outside_clear s f a n : mounted s → file_at s f → outside a n → clear_of s f a n.
Proof.
  intros Hm Hf Ho. destruct (file_at_range s f Hm Hf) as (Hlo & Hhi & _). pose proof (nbitmap_range s (mo_size _ Hm)).
  split; [destruct Ho as (? & ? & ?); unfold off_meta; rewrite BITMAP_val; change SUPER with 0x10001000; lia|].
  intros x Hx. rewrite (outside_cache a n x) by done. destruct Ho as (? & ? & ?). split; [lia|done].
Qed.
Lemma outside_untouched s f a n x : outside a n → a ≤ x < a + n → untouched s f x.
Proof. intros Ho Hx Hc. by rewrite (outside_cache a n x) in Hc. Qed.

(** ** Contents *)

Lemma fbyte_at s f p j : ptr s f (p / 4096) ≠ 0 → 0 ≤ j → p `mod` 4096 + j < 4096 →
  fbyte s f (p + j) = vw s (DISKMAP + ptr s f (p / 4096) * 4096 + p `mod` 4096 + j).
Proof.
  intros Hp Hj Hm. assert ((p + j) / 4096 = p / 4096) as Hq by dlia. assert ((p + j) `mod` 4096 = p `mod` 4096 + j) as Hr by dlia.
  unfold fbyte. rewrite Hq, Hr. replace (ptr s f (p / 4096) =? 0) with false by lia. f_equal. lia.
Qed.

(** Writing outside the data blocks keeps the contents. *)
Lemma fbyte_put_out s s' f a l : ready s → file_ok s f → vput s s' a l → (∀ i, 0 ≤ i < 1034 → ptr s' f i = ptr s f i) →
  (∀ x i, a ≤ x < a + Z.of_nat (length l) → 0 ≤ i < 1034 → ptr s f i ≠ 0 →
     ¬ (DISKMAP + ptr s f i * 4096 ≤ x < DISKMAP + ptr s f i * 4096 + 4096)) →
  ∀ p, 0 ≤ p < 4235264 → fbyte s' f p = fbyte s f p.
Proof.
  intros [Hc Hm] Hf Hput Hptr Hout p Hp. assert (Hi : 0 ≤ p / 4096 < 1034) by dlia. assert (Ho : 0 ≤ p `mod` 4096 < 4096) by dlia.
  unfold fbyte. rewrite Hptr by done. destruct (ptr s f (p / 4096) =? 0) eqn:E; [done|]. apply Z.eqb_neq in E.
  destruct (untouched_data s f (p / 4096) (p `mod` 4096) Hm Hf Hi E Ho) as [_ Hr].
  apply (vput_out _ _ _ _ _ Hput); [done|].
  destruct (decide (a ≤ DISKMAP + ptr s f (p / 4096) * 4096 + p `mod` 4096 < a + Z.of_nat (length l))) as [Hin|]; [|lia].
  exfalso. apply (Hout _ _ Hin Hi E). lia.
Qed.

Lemma outside_data s f i a n x : mounted s → file_ok s f → 0 ≤ i < 1034 → ptr s f i ≠ 0 → outside a n → a ≤ x < a + n →
  ¬ (DISKMAP + ptr s f i * 4096 ≤ x < DISKMAP + ptr s f i * 4096 + 4096).
Proof.
  intros Hm Hf Hi Hp Ho Hx Hin. pose proof (data_bounds s f i Hm Hf Hi Hp). destruct Ho as (? & ? & ?). lia.
Qed.

(** ** file_read *)

Definition read_inv s (f buf offset n pos : Z) s1 : Prop :=
  fstep s s1 f (λ x, buf ≤ x < buf + n) ∧
  (∀ k, 0 ≤ k < pos - offset → vw s1 (buf + k) = fbyte s f (offset + k)) ∧
  (∀ p, 0 ≤ p < 4235264 → fbyte s1 f p = fbyte s f p).

Lemma touchable_outside s a n x : mounted s → outside a n → a ≤ x < a + n → touchable s x.
Proof. intros Hm Ho Hx. apply touchable_use; [done|]. by rewrite (outside_cache a n x). Qed.

(** One chunk of file_read. *)
Lemma read_step s f buf offset n pos s1 s2 :
  outside buf n → 0 ≤ offset → offset + n ≤ 4235264 → read_inv s f buf offset n pos s1 → offset ≤ pos < offset + n →
  grows s1 s2 f → ptr s2 f (pos / 4096) ≠ 0 →
  let m := Z.min (4096 - pos `mod` 4096) (offset + n - pos) in
  wp (fs_memmove (buf + (pos - offset)) (DISKMAP + ptr s2 f (pos / 4096) * 4096 + pos `mod` 4096) (u32 m))
    (λ _ s3, read_inv s f buf offset n (pos + m) s3) no_stop s2.
Proof.
  intros Ho Hof Hmax (Hfs & Hbuf & Hcont) Hpos Hg Hp m.
  assert (Hq : 0 ≤ pos / 4096 < 1034) by (clear - Hof Hmax Hpos; dlia). assert (Hq2 : 0 ≤ pos `mod` 4096 < 4096) by (clear; dlia).
  assert (Hm1 : 1 ≤ m ≤ 4096) by (unfold m; lia). pose proof (outside_bound _ _ Ho) as Hob. pose proof Ho as (Hb0 & _ & _).
  pose proof (gr_ready _ _ _ Hg) as [Hc2 Hm2]. pose proof (gr_file _ _ _ Hg) as Hf2.
  pose proof (data_bounds s2 f _ Hm2 Hf2 Hq Hp) as Hbb.
  pose proof (proj2 (fs_ready _ _ _ _ Hfs)) as Hmt1. pose proof (fs_file _ _ _ _ Hfs) as Hf1.
  assert (Hmm : m ≤ 4096 - pos `mod` 4096 ∧ m ≤ offset + n - pos) by (unfold m; lia). clearbody m.
  assert (Hsub : outside (buf + (pos - offset)) m) by (eapply outside_sub; [done|lia|lia|lia]).
  rewrite u32_small by lia.
  destruct (fo_ptr _ _ Hf2 _ Hq) as [|(Hdb & _)]; [done|].
  apply fs_memmove_ok; [done|lia|lia|lia|lia|lia| | |].
  - intros x Hx. apply (touchable_in_block _ (ptr s2 f (pos / 4096))); [done|by apply data_in_use|lia].
  - intros x Hx. by eapply touchable_outside.
  - intros s3 Hput Hc3. set (l := vws s2 _ m) in *. assert (Hl : Z.of_nat (length l) = m) by (apply length_vws; lia).
    destruct (put_fstep s2 s3 f _ l (gr_ready _ _ _ Hg) Hf2 Hput Hc3) as (Hfs3 & Hi3 & Hp3); [lia|rewrite Hl; apply outside_clear; [done|apply Hf2|done]|].
    assert (Hcont3 : ∀ p, 0 ≤ p < 4235264 → fbyte s3 f p = fbyte s f p).
    { intros p Hpr. rewrite (fbyte_put_out s2 s3 f _ l (gr_ready _ _ _ Hg) Hf2 Hput Hp3); [|rewrite Hl|done].
      - rewrite (grows_fbyte s1 s2) by done. by apply Hcont.
      - intros x i Hx Hi Hpi. by eapply outside_data. }
    split; [|split; [|done]].
    + eapply fstep_trans; [eapply fstep_trans; [exact Hfs|by apply (grows_fstep _ _ _ (λ _, False))|by intros ? ? ? []]|exact Hfs3|].
      rewrite Hl. cbn. intros x _ HP. lia.
    + intros k Hk. destruct Hput as [Hst Hv]. rewrite Hv by lia. destruct (decide (k < pos - offset)) as [Hlt|Hge].
      * rewrite over_out by lia. rewrite (gr_view _ _ _ Hg); [apply Hbuf; lia|lia|].
        by apply (outside_untouched _ _ buf n); [|lia].
      * assert (Hlk : l !! Z.to_nat (buf + k - (buf + (pos - offset))) = Some (vw s2 (DISKMAP + ptr s2 f (pos / 4096) * 4096 + pos `mod` 4096 + (offset + k - pos)))).
        { unfold l. rewrite lookup_vws by lia. do 2 f_equal. lia. }
        erewrite over_in; [|lia|exact Hlk]. rewrite <- fbyte_at by (done || lia).
        replace (pos + (offset + k - pos)) with (offset + k) by lia.
        rewrite (grows_fbyte s1 s2) by (done || lia). apply Hcont. lia.
Qed.

Lemma load_size_ok f (Q : Z → FState D → Prop) s : ready s → file_at s f →
  (∀ s', csame s s' → ready s' → Q (fsize s f) s') → wp (load_size f) Q no_stop s.
Proof.
  intros Hr Hf HQ. unfold load_size. apply wp_bind. apply (load_field f 128); [done|done|lia|lia|done|].
  intros s' Hs' Hr'. apply wp_ret. by apply HQ.
Qed.

(** How much file_read reads. *)
Definition readable_bytes s (f count offset : Z) : Z := Z.max 0 (Z.min count (fsize s f - offset)).

(** The result of file_read: the bytes are in the buffer, or the disk is
    full.  The contents of the file do not change. *)
Definition read_result s (f buf count offset r : Z) s' : Prop :=
  let n := readable_bytes s f count offset in
  fstep s s' f (λ x, buf ≤ x < buf + n) ∧ (∀ p, 0 ≤ p < 4235264 → fbyte s' f p = fbyte s f p) ∧
  (r = n ∧ (∀ k, 0 ≤ k < n → vw s' (buf + k) = fbyte s f (offset + k)) ∨
   r = - E_NO_DISK ∧ no_free s' ∧ ∃ p, offset ≤ p < offset + n ∧ ptr s f (p / 4096) = 0).

Lemma file_read_ok f buf count offset s :
  ready s → file_ok s f → 0 ≤ fsize s f ≤ 4235264 → 0 ≤ offset → 0 ≤ count < 4294967296 →
  outside buf (readable_bytes s f count offset) →
  wp (file_read f buf count offset) (λ r s', read_result s f buf count offset r s') no_stop s.
Proof.
  intros Hr Hf Hsz Hof Hcn Hout. pose proof Hr as [Hc Hm]. unfold file_read. apply wp_bind.
  apply load_size_ok; [done|apply Hf|]. intros s1 Hs1 Hr1.
  pose proof (grows_same s s1 f (cs_view _ _ Hs1) Hr1 Hm Hf) as Hg1.
  assert (Hinv : ∀ n, read_inv s f buf offset n offset s1).
  { intros n. split; [by apply grows_fstep|]. split; [intros; lia|]. intros p Hp. by apply grows_fbyte. }
  destruct (offset >=? fsize s f) eqn:E.
  { assert (Hn : readable_bytes s f count offset = 0) by (unfold readable_bytes; lia).
    apply wp_ret. unfold read_result. rewrite Hn. destruct (Hinv 0) as (H1 & H2 & H3). split; [done|]. split; [done|].
    left. split; [done|]. intros. lia. }
  rewrite u32_small by lia. set (n := MIN count (fsize s f - offset)).
  assert (Hn : readable_bytes s f count offset = n) by (unfold readable_bytes, n, MIN; destruct (_ <=? _) eqn:E2; lia).
  unfold read_result. rewrite Hn in *.
  assert (Hnr : 0 ≤ n ∧ offset + n ≤ fsize s f) by (unfold n, MIN; destruct (_ <=? _) eqn:E2; lia). clearbody n.
  apply wp_bind. pose proof (outside_bound _ _ Hout) as Hob. pose proof Hout as (Hb0 & _ & _).
  replace buf with (buf + (offset - offset)) at 1 by lia.
  eapply copy_loop_ok with (I := read_inv s f buf offset n); [lia|lia|lia|lia|lia| | | | |apply Hinv|lia|lia].
  - intros pos s2 (Hfs & _). split; [apply Hfs|apply Hfs].
  - intros pos s2 s3 HI Hpos Hg Hp. by eapply read_step; [done|lia|lia|..].
  - intros pos s2 s3 (Hfs & _ & Hcont) Hpos Hg Hno Hz. apply wp_ret. cbn. split.
    + eapply fstep_trans; [exact Hfs|by apply (grows_fstep _ _ _ (λ _, False))|by intros ? ? ? []].
    + split; [|right; split; [reflexivity|split; [exact Hno|exists pos; split; [lia|]]]].
      2:{ destruct (fs_ptr _ _ _ _ Hfs (pos / 4096)) as [E1|[E1 _]]; [clear -Hof Hpos Hnr Hsz; dlia|congruence|exact E1]. }
      intros p Hp. rewrite (grows_fbyte s2 s3) by (done || apply Hfs). by apply Hcont.
  - intros s2 (Hfs & Hbuf & Hcont). apply wp_ret. cbn. rewrite s32_small by lia. split; [done|]. split; [done|].
    left. split; [done|]. intros k Hk. apply Hbuf. lia.
Qed.

(** ** file_write *)

(** What a write to [f] may change besides the holes it fills: the size field
    and the data blocks of [f]. *)
Definition own_data s (f x : Z) : Prop :=
  f + 128 ≤ x < f + 132 ∨ in_cache x = true ∧ ∃ i, 0 ≤ i < 1034 ∧ ptr s f i ≠ 0 ∧ blk_of x = ptr s f i.

Definition write_inv s (f buf offset sz pos : Z) s1 : Prop :=
  fstep s s1 f (own_data s f) ∧ fsize s1 f = sz ∧
  (∀ p, 0 ≤ p < 4235264 → fbyte s1 f p = if decide (offset ≤ p < pos) then vw s (buf + (p - offset)) else fbyte s f p) ∧
  (∀ p, offset ≤ p < pos → ptr s1 f (p / 4096) ≠ 0).

(** A block of [f] in a later state was a block of [f] or free. *)
Lemma own_later s s' f P x i : fstep s s' f P → 0 ≤ i < 1034 → ptr s' f i ≠ 0 → in_cache x = true → blk_of x = ptr s' f i →
  untouched s f x → own_data s f x.
Proof.
  intros Hfs Hi Hp Hca Hx Hun. right. split; [done|]. exists i. split; [done|].
  destruct (fs_ptr _ _ _ _ Hfs i Hi) as [E|[_ E]]; [by rewrite <- E|].
  destruct (Hun Hca) as ([_ Hf] & _). rewrite Hx in Hf. congruence.
Qed.

(** The contents after writing [l] into the block at [pos]. *)
Lemma fbyte_put_in s s' f pos l : ready s → file_ok s f → 0 ≤ pos < 4235264 → ptr s f (pos / 4096) ≠ 0 →
  vput s s' (DISKMAP + ptr s f (pos / 4096) * 4096 + pos `mod` 4096) l → pos `mod` 4096 + Z.of_nat (length l) ≤ 4096 →
  (∀ i, 0 ≤ i < 1034 → ptr s' f i = ptr s f i) →
  ∀ p, 0 ≤ p < 4235264 → fbyte s' f p = over (fbyte s f) pos l p.
Proof.
  intros [Hc Hm] Hf Hpos Hpp Hput Hl Hptr p Hp.
  assert (Hi : 0 ≤ p / 4096 < 1034) by (clear - Hp; dlia). assert (Ho : 0 ≤ p `mod` 4096 < 4096) by (clear; dlia).
  assert (Hi2 : 0 ≤ pos / 4096 < 1034) by (clear - Hpos; dlia). assert (Ho2 : 0 ≤ pos `mod` 4096 < 4096) by (clear; dlia).
  assert (Hps : p = p / 4096 * 4096 + p `mod` 4096) by (clear; dlia). assert (Hpos' : pos = pos / 4096 * 4096 + pos `mod` 4096) by (clear; dlia).
  destruct (decide (p / 4096 = pos / 4096)) as [Hq|Hq].
  - unfold fbyte at 1. rewrite Hptr, Hq by done. replace (ptr s f (pos / 4096) =? 0) with false by lia.
    destruct Hput as [_ Hv]. pose proof (data_bounds s f _ Hm Hf Hi2 Hpp) as Hbb. rewrite Hv by lia. unfold over.
    replace (DISKMAP + ptr s f (pos / 4096) * 4096 + p `mod` 4096 - (DISKMAP + ptr s f (pos / 4096) * 4096 + pos `mod` 4096)) with (p - pos) by lia.
    assert (Hfb : fbyte s f p = vw s (DISKMAP + ptr s f (pos / 4096) * 4096 + p `mod` 4096)).
    { unfold fbyte. rewrite Hq. by replace (ptr s f (pos / 4096) =? 0) with false by lia. }
    repeat case_decide; try lia; (done || by destruct (l !! _)).
  - rewrite over_out by lia. unfold fbyte. rewrite Hptr by done. destruct (ptr s f (p / 4096) =? 0) eqn:E; [done|]. apply Z.eqb_neq in E.
    pose proof (data_bounds s f _ Hm Hf Hi E) as Hb1. pose proof (fo_inj _ _ Hf _ _ Hi Hi2 Hq E) as Hne.
    apply (vput_out _ _ _ _ _ Hput); lia.
Qed.

(** Growing keeps the other fields of the file. *)
Lemma untouched_file s f k : mounted s → file_ok s f → 0 ≤ k < 136 ∨ 180 ≤ k < 256 → untouched s f (f + k).
Proof.
  intros Hm Hf Hk. destruct (file_at_range s f Hm (fo_at _ _ Hf)) as (Hlo & Hhi & [_ Ho] & Hu).
  pose proof (fo_at _ _ Hf) as (Hca & _ & Hin & _). destruct (addr_split f Hca) as [He Hmod].
  assert (Hb : blk_of (f + k) = blk_of f).
  { replace (f + k) with (DISKMAP + blk_of f * 4096 + (f `mod` 4096 + k)) by lia. by rewrite blk_addr by lia. }
  intros _. rewrite Hb. split; [done|]. split; [lia|]. split; [lia|].
  destruct (fo_ind _ _ Hf) as [E|[_ E]]; [|done]. rewrite E. destruct Hu. lia.
Qed.
Lemma grows_field s s' f k : mounted s → file_ok s f → grows s s' f → 0 ≤ k → k + 4 ≤ 136 → vw32 s' (f + k) = vw32 s (f + k).
Proof.
  intros Hm Hf Hg Hk Hk4. destruct (file_at_range s f Hm (fo_at _ _ Hf)) as (Hlo & Hhi & _). apply vw32_bytes. intros j Hj.
  rewrite <- Z.add_assoc. apply (gr_view _ _ _ Hg); [lia|]. apply untouched_file; [done|done|lia].
Qed.
Lemma grows_fsize s s' f : mounted s → file_ok s f → grows s s' f → fsize s' f = fsize s f.
Proof. intros Hm Hf Hg. unfold fsize, f_size. by rewrite (grows_field s s' f 128) by (done || lia). Qed.

(** A range inside a data block keeps clear of everything else. *)
Lemma data_clear s f i o n : mounted s → file_ok s f → 0 ≤ i < 1034 → ptr s f i ≠ 0 → 0 ≤ o → 0 ≤ n → o + n ≤ 4096 →
  clear_of s f (DISKMAP + ptr s f i * 4096 + o) n.
Proof.
  intros Hm Hf Hi Hp Ho Hn Hon. destruct (fo_ptr _ _ Hf i Hi) as [|(Hd & Hne & Hni)]; [done|].
  destruct (fo_at _ _ Hf) as (Hca & _ & Hin & _). destruct (addr_split f Hca) as [He Hmod].
  destruct Hd as [Hb _]. destruct (off_meta_block s (ptr s f i) Hm ltac:(apply Hb)) as [H1 H2].
  split; [unfold off_meta; lia|]. intros x Hx. split; [lia|]. intros _.
  replace x with (DISKMAP + ptr s f i * 4096 + (x - (DISKMAP + ptr s f i * 4096))) by lia. by rewrite blk_addr by lia.
Qed.

(** One chunk of file_write. *)
Lemma write_step s f buf offset sz n pos s1 s2 :
  outside buf n → 0 ≤ offset → offset + n ≤ 4235264 → write_inv s f buf offset sz pos s1 → offset ≤ pos < offset + n →
  grows s1 s2 f → ptr s2 f (pos / 4096) ≠ 0 → file_at s f → mounted s →
  let m := Z.min (4096 - pos `mod` 4096) (offset + n - pos) in
  wp (fs_memmove (DISKMAP + ptr s2 f (pos / 4096) * 4096 + pos `mod` 4096) (buf + (pos - offset)) (u32 m))
    (λ _ s3, write_inv s f buf offset sz (pos + m) s3) no_stop s2.
Proof.
  intros Ho Hof Hmax (Hfs & Hsz & Hcont & Hthere) Hpos Hg Hp Hfat Hms m.
  assert (Hq : 0 ≤ pos / 4096 < 1034) by (clear - Hof Hmax Hpos; dlia). assert (Hq2 : 0 ≤ pos `mod` 4096 < 4096) by (clear; dlia).
  assert (Hm1 : 1 ≤ m ≤ 4096) by (unfold m; lia). pose proof (outside_bound _ _ Ho) as Hob. pose proof Ho as (Hb0 & _ & _).
  pose proof (gr_ready _ _ _ Hg) as [Hc2 Hm2]. pose proof (gr_file _ _ _ Hg) as Hf2.
  pose proof (data_bounds s2 f _ Hm2 Hf2 Hq Hp) as Hbb.
  assert (Hmm : m ≤ 4096 - pos `mod` 4096 ∧ m ≤ offset + n - pos) by (unfold m; lia). clearbody m.
  assert (Hfs2 : fstep s s2 f (own_data s f)).
  { eapply fstep_trans; [exact Hfs|by apply (grows_fstep _ _ _ (λ _, False))|by intros ? ? ? []]. }
  rewrite u32_small by lia. destruct (fo_ptr _ _ Hf2 _ Hq) as [|(Hdb & _)]; [done|].
  apply fs_memmove_ok; [done|lia|lia|lia|lia|lia| | |].
  - intros x Hx. eapply touchable_outside; [done|exact Ho|lia].
  - intros x Hx. apply (touchable_in_block _ (ptr s2 f (pos / 4096))); [done|by apply data_in_use|lia].
  - intros s3 Hput Hc3. set (l := vws s2 _ m) in *. assert (Hl : Z.of_nat (length l) = m) by (apply length_vws; lia).
    destruct (put_fstep s2 s3 f _ l (gr_ready _ _ _ Hg) Hf2 Hput Hc3) as (Hfs3 & Hi3 & Hp3);
      [lia|rewrite Hl; apply data_clear; (done || lia)|].
    split; [|split; [|split]].
    4:{ intros p Hpr. assert (Hi : 0 ≤ p / 4096 < 1034) by (clear - Hof Hmax Hpr Hmm; dlia). rewrite Hp3 by exact Hi.
        destruct (decide (p < pos)) as [Hlt|Hge].
        - destruct (gr_ptr _ _ _ Hg _ Hi) as [E1|(_ & E1 & _)]; [rewrite E1; apply Hthere; lia|exact E1].
        - replace (p / 4096) with (pos / 4096) by (clear - Hge Hpr Hmm; dlia). exact Hp. }
    + eapply fstep_trans; [exact Hfs2|exact Hfs3|]. rewrite Hl. cbn. intros x Hun HP Hx. apply HP.
      eapply (own_later s s2 f _ x (pos / 4096)); [exact Hfs2|done|done| | |done].
      * apply in_cache_iff. change DISKMAP with 0x10000000 in *. change DISKSIZE with 0xC0000000. lia.
      * replace x with (DISKMAP + ptr s2 f (pos / 4096) * 4096 + (x - (DISKMAP + ptr s2 f (pos / 4096) * 4096))) by lia. by rewrite blk_addr by lia.
    + rewrite <- Hsz, <- (grows_fsize s1 s2 f) by (done || apply Hfs). unfold fsize. f_equal.
      apply (vput_out32 _ _ _ _ _ Hput); unfold f_size; destruct (file_at_range s f Hms Hfat) as (Hlo & Hhi & _); [lia|lia|].
      rewrite Hl. destruct (fo_ptr _ _ Hf2 _ Hq) as [|(_ & Hne & _)]; [done|].
      destruct Hfat as (Hca & _ & Hin & _). destruct (addr_split f Hca) as [He Hmod]. lia.
    + intros p Hpr. rewrite (fbyte_put_in s2 s3 f pos l (gr_ready _ _ _ Hg) Hf2) by (done || lia).
      assert (Hc12 : fbyte s2 f p = if decide (offset ≤ p < pos) then vw s (buf + (p - offset)) else fbyte s f p).
      { rewrite (grows_fbyte s1 s2) by (done || apply Hfs). by apply Hcont. }
      destruct (decide (pos ≤ p < pos + m)) as [Hin|Hnin].
      * rewrite decide_True by lia.
        assert (Hlk : l !! Z.to_nat (p - pos) = Some (vw s2 (buf + (pos - offset) + (p - pos)))) by (unfold l; by rewrite lookup_vws by lia).
        erewrite over_in; [|lia|exact Hlk]. replace (buf + (pos - offset) + (p - pos)) with (buf + (p - offset)) by lia.
        apply (fs_view _ _ _ _ Hfs2); [lia|by apply (outside_untouched _ _ buf n); [|lia]|].
        destruct (file_at_range s f Hms Hfat) as (Hlo & Hhi & _).
        intros [Hx|[Hx _]]; [|rewrite (outside_cache buf n) in Hx; [done|done|lia]]. destruct Ho as (? & ? & ?). lia.
      * rewrite over_out by lia. rewrite Hc12. repeat case_decide; (done || lia).
Qed.

Lemma fstep_weaken s s' f (P P' : Z → Prop) : fstep s s' f P → (∀ x, P x → P' x) → fstep s s' f P'.
Proof. intros [A1 A2 A3 A4 A5 A6 A7 A8] HP. split; try done. intros x Hx Hun Hx'. apply A8; auto. Qed.

(** The size field. *)
Lemma put_size_field s f v s' : ready s → file_ok s f → vput s s' (f + 128) (bytes32 v) → cache_ok s' →
  fstep s s' f (λ x, f + 128 ≤ x < f + 132) ∧ fsize s' f = s32 (u32 v) ∧
  (∀ i, 0 ≤ i < 1034 → ptr s' f i = ptr s f i) ∧ (∀ p, 0 ≤ p < 4235264 → fbyte s' f p = fbyte s f p).
Proof.
  intros Hr Hf Hput Hc'. pose proof Hr as [Hc Hm]. destruct (file_at_range s f Hm (fo_at _ _ Hf)) as (Hlo & Hhi & [Ho1 Ho2] & Hu).
  pose proof (fo_at _ _ Hf) as (Hca & _ & Hin & _). destruct (addr_split f Hca) as [He Hmod].
  assert (Hblk : ∀ x, f ≤ x < f + 256 → blk_of x = blk_of f).
  { intros x Hx. replace x with (DISKMAP + blk_of f * 4096 + (x - (DISKMAP + blk_of f * 4096))) by lia. by rewrite blk_addr by lia. }
  destruct (put_fstep s s' f (f + 128) (bytes32 v) Hr Hf Hput Hc') as (Hfs & Hind & Hptr); [lia| |].
  { cbn. split; [unfold off_meta; lia|]. intros x Hx. split; [lia|]. intros _. rewrite Hblk by lia.
    destruct (fo_ind _ _ Hf) as [E|[_ E]]; [|done]. rewrite E. destruct Hu. lia. }
  split; [|split; [|split; [exact Hptr|]]].
  - eapply fstep_weaken; [exact Hfs|]. cbn. lia.
  - unfold fsize, f_size. by rewrite (vput_in32 _ _ _ _ Hput) by lia.
  - apply (fbyte_put_out s s' f (f + 128) (bytes32 v)); [done|done|done|done|]. cbn. intros x i Hx Hi Hp Hd.
    destruct (fo_ptr _ _ Hf i Hi) as [|(_ & Hne & _)]; [done|]. apply Hne. rewrite <- (Hblk x) by lia.
    replace x with (DISKMAP + ptr s f i * 4096 + (x - (DISKMAP + ptr s f i * 4096))) by lia. by rewrite blk_addr by lia.
Qed.

Lemma put_size s f v s' : ready s → file_ok s f → vput s s' (f + 128) (bytes32 v) → cache_ok s' →
  fstep s s' f (own_data s f) ∧ fsize s' f = s32 (u32 v) ∧ (∀ p, 0 ≤ p < 4235264 → fbyte s' f p = fbyte s f p).
Proof.
  intros Hr Hf Hput Hc'. destruct (put_size_field s f v s' Hr Hf Hput Hc') as (H1 & H2 & _ & H3).
  split; [|by split]. eapply fstep_weaken; [exact H1|]. intros x Hx. by left.
Qed.

(** file_set_size to a larger size. *)
Lemma file_set_size_grow f newsize s : ready s → file_ok s f → fsize s f ≤ newsize < 2147483648 → 0 ≤ newsize →
  wp (file_set_size f newsize) (λ r s', r = 0 ∧ fstep s s' f (own_data s f) ∧ fsize s' f = newsize ∧
    ∀ p, 0 ≤ p < 4235264 → fbyte s' f p = fbyte s f p) no_stop s.
Proof.
  intros Hr Hf Hsz Hn0. pose proof Hr as [Hc Hm]. unfold file_set_size. apply wp_bind.
  apply load_size_ok; [done|apply Hf|]. intros s1 Hs1 Hr1.
  pose proof (grows_same s s1 f (cs_view _ _ Hs1) Hr1 Hm Hf) as Hg1. pose proof (gr_file _ _ _ Hg1) as Hf1.
  replace (fsize s f >? newsize) with false by lia. apply wp_bind, wp_ret.
  destruct (file_at_range s f Hm (fo_at _ _ Hf)) as (Hlo & Hhi & _). assert (Hfal : f `mod` 4 = 0) by apply Hf.
  assert (Hca : in_cache f = true) by apply Hf.
  apply wp_bind, store32_ok; [apply Hr1| |unfold f_size; lia|unfold f_size; lia|unfold f_size; dlia|].
  { apply touchable_file; [apply Hr1|apply Hf1|lia]. }
  intros s2 Hput Hc2. destruct (put_size s1 f newsize s2 Hr1 Hf1 Hput Hc2) as (Hfs2 & Hsz2 & Hcont2).
  pose proof (fs_ready _ _ _ _ Hfs2) as [_ Hm2]. pose proof (fs_file _ _ _ _ Hfs2) as Hf2.
  apply wp_bind. eapply wp_mono; [by apply flush_spec| |done]. intros _ s3 (Hv3 & Hc3 & _). apply wp_ret. split; [done|].
  assert (Hr3 : ready s3) by (by eapply ready_same). pose proof (grows_same s2 s3 f Hv3 Hr3 Hm2 Hf2) as Hg3.
  split; [|split].
  - eapply fstep_trans; [by apply (grows_fstep _ _ _ (own_data s f))| |].
    + eapply fstep_trans; [exact Hfs2|by apply (grows_fstep _ _ _ (λ _, False))|by intros ? ? ? []].
    + intros x Hun HP [Hx|(Hx & i & Hi & Hp & Hb)]; apply HP; [by left|].
      by eapply (own_later s s1 f (λ _, False)); [apply grows_fstep| | | | |].
  - rewrite (grows_fsize s2 s3 f) by done. rewrite Hsz2. rewrite u32_small by lia. apply s32_small. lia.
  - intros p Hp. rewrite (grows_fbyte s2 s3) by done. rewrite Hcont2 by done. by apply grows_fbyte.
Qed.

(** The result of file_write: [count] bytes written, or as many as fit on the
    disk. *)
Definition write_result s (f buf count offset r : Z) s' : Prop :=
  fstep s s' f (own_data s f) ∧ fsize s' f = Z.max (fsize s f) (offset + count) ∧
  ∃ m, 0 ≤ m ≤ count ∧
    (∀ p, 0 ≤ p < 4235264 → fbyte s' f p = if decide (offset ≤ p < offset + m) then vw s (buf + (p - offset)) else fbyte s f p) ∧
    (r = count ∧ m = count ∧ (∀ p, offset ≤ p < offset + count → ptr s' f (p / 4096) ≠ 0) ∨ r = - E_NO_DISK ∧ no_free s').

Lemma file_write_ok f buf count offset s :
  ready s → file_ok s f → 0 ≤ fsize s f → 0 ≤ offset → 0 ≤ count → offset + count ≤ 4235264 → outside buf count →
  wp (file_write f buf count offset) (λ r s', write_result s f buf count offset r s') no_stop s.
Proof.
  intros Hr Hf Hsz Hof Hcn Hmax Hout. pose proof Hr as [Hc Hm]. unfold file_write. apply wp_bind.
  apply load_size_ok; [done|apply Hf|]. intros s1 Hs1 Hr1. pose proof (s32_range (vw32 s (f_size f))) as Hszr. fold (fsize s f) in Hszr.
  pose proof (grows_same s s1 f (cs_view _ _ Hs1) Hr1 Hm Hf) as Hg1. pose proof (gr_file _ _ _ Hg1) as Hf1.
  pose proof (grows_fsize s s1 f Hm Hf Hg1) as Hfz1.
  rewrite !(u32_small (offset + count)), !(u32_small (fsize s f)) by lia.
  pose proof (outside_bound _ _ Hout) as Hob. pose proof Hout as (Hb0 & _ & _).
  set (sz := Z.max (fsize s f) (offset + count)). apply wp_bind.
  eapply wp_mono with (Q := λ r s2, r = 0 ∧ write_inv s f buf offset sz offset s2) (E := no_stop); [| |done].
  { destruct (offset + count >? fsize s f) eqn:E.
    - rewrite s32_small by lia. eapply wp_mono; [apply file_set_size_grow; [done|done|lia|lia]| |done].
      intros r s2 (-> & Hfs & Hsz2 & Hcont). split; [done|]. split; [|split; [|split; [|intros; lia]]].
      + eapply fstep_trans; [by apply (grows_fstep _ _ _ (own_data s f))|exact Hfs|].
        intros x Hun HP [Hx|(Hx & i & Hi & Hp & Hb)]; apply HP; [by left|].
        by eapply (own_later s s1 f (λ _, False)); [apply grows_fstep| | | | |].
      + rewrite Hsz2. unfold sz. lia.
      + intros p Hp. rewrite decide_False by lia. rewrite Hcont by done. by apply grows_fbyte.
    - apply wp_ret. split; [done|]. split; [by apply grows_fstep|]. split; [rewrite Hfz1; unfold sz; lia|].
      split; [|intros; lia]. intros p Hp. rewrite decide_False by lia. by apply grows_fbyte. }
  intros r s2 [-> HI2]. cbn [Z.ltb Z.compare]. apply wp_bind. replace buf with (buf + (offset - offset)) at 1 by lia.
  eapply copy_loop_ok with (I := write_inv s f buf offset sz); [lia|lia|lia|lia|lia| | | | |exact HI2|lia|lia].
  - intros pos s3 (Hfs & _). split; [apply Hfs|apply Hfs].
  - intros pos s3 s4 HI Hpos Hg Hp. by eapply write_step; [done|lia|lia|done|lia|done|done|apply Hf|done].
  - intros pos s3 s4 (Hfs & Hsz3 & Hcont & _) Hpos Hg Hno _. apply wp_ret. cbn. split; [|split].
    + eapply fstep_trans; [exact Hfs|by apply (grows_fstep _ _ _ (λ _, False))|by intros ? ? ? []].
    + by rewrite (grows_fsize s3 s4 f (proj2 (fs_ready _ _ _ _ Hfs)) (fs_file _ _ _ _ Hfs) Hg).
    + exists (pos - offset). split; [lia|]. split; [|right; split; [reflexivity|exact Hno]]. intros p Hp.
      rewrite (grows_fbyte s3 s4 f p (proj2 (fs_ready _ _ _ _ Hfs)) (fs_file _ _ _ _ Hfs) Hg) by done.
      rewrite Hcont by done. by replace (offset + (pos - offset)) with pos by lia.
  - intros s3 (Hfs & Hsz3 & Hcont & Hthere). apply wp_ret. cbn. rewrite s32_small by lia. split; [done|]. split; [done|].
    exists count. split; [lia|]. split; [exact Hcont|left; split; [reflexivity|split; [reflexivity|exact Hthere]]].
Qed.

End FsRw.
