(* ===== verification/FsSync.v ===== *)
(** * Writing back: file_flush and fs_sync

    After fs_sync every block of the file system on the disk is what the
    server sees, so a server started later on the same disk sees the same
    file system ([sync_reboot]).  file_flush does it for the blocks of one
    file. *)

From S2P Require Import Prelude Mmu CMem Str FsState Ide Bc Fs IdeProofs BcProofs BcMem FsAlloc FsInit FsFile FsData FsRw.

Section FsSync.
Context {D : Type} `{AtaDisk D}.
Implicit Types s : FState D.

(** [s'] is [s] with some blocks written back. *)
Record wrote s s' : Prop := {
  wr_view : vsame s s';
  wr_ready : ready s';
  wr_synced : ∀ b, 0 ≤ b < 786432 → synced s b → synced s' b
}.

Lemma wrote_refl s : ready s → wrote s s.
Proof. intros Hr. split; [apply vsame_refl|exact Hr|by intros]. Qed.

Lemma wrote_trans s1 s2 s3 : wrote s1 s2 → wrote s2 s3 → wrote s1 s3.
Proof. intros [A1 A2 A3] [B1 B2 B3]. split; [by eapply vsame_trans|exact B2|]. intros b Hb Hs. by apply B3, A3. Qed.

Lemma csame_wrote s s' : csame s s' → ready s' → wrote s s'.
Proof.
  intros Hs Hr. split; [apply Hs|exact Hr|]. intros b Hb Hsy i Hi. pose proof (blk_bounds b Hb).
  rewrite (vs_view _ _ (cs_view _ _ Hs)) by lia. rewrite <- Hsy by exact Hi. unfold dk.
  rewrite (cs_image _ _ Hs), (vs_diskno _ _ (cs_view _ _ Hs)). reflexivity.
Qed.

(** Flushing the block of [a]. *)
Lemma flush_wrote a (Q : unit → FState D → Prop) s : ready s → in_cache a = true →
  (∀ s', wrote s s' → synced s' (blk_of a) → Q tt s') → wp (flush_block a) Q no_stop s.
Proof.
  intros [Hc Hm] Ha HQ. eapply wp_mono; [by apply flush_spec| |done]. intros [] s' (Hv & Hc' & Hf).
  pose proof (blk_of_range a Ha) as Hb. unfold NBLK in Hb.
  apply HQ; [|by eapply flushed_synced]. split; [exact Hv|by eapply ready_same|].
  intros b Hb' Hsy i Hi. pose proof (blk_bounds b Hb'). rewrite (vs_view _ _ Hv) by lia. rewrite Hf by lia.
  case_decide; [f_equal; lia|]. by apply Hsy.
Qed.

Lemma flush_disk b (Q : unit → FState D → Prop) s : ready s → 0 < b < nblocks s →
  (∀ s', wrote s s' → synced s' b → Q tt s') → wp (a ← diskaddr b; flush_block a) Q no_stop s.
Proof.
  intros Hr Hb HQ. pose proof (mo_size _ (proj2 Hr)) as Hn. apply wp_bind, diskaddr_ok; [apply Hr|apply Hr|exact Hb|].
  intros s1 Hs1 Hc1. assert (Hr1 : ready s1) by (eapply ready_same; [apply Hs1|exact Hc1|apply Hr]).
  assert (Hblk : blk_of (DISKMAP + b * 4096) = b) by (rewrite <- (Z.add_0_r (_ + _)); apply blk_addr; lia).
  apply flush_wrote; [exact Hr1| |].
  - rewrite <- (Z.add_0_r (_ + _)). apply in_cache_addr; [unfold NBLK; lia|lia].
  - rewrite Hblk. intros s2 Hw Hsy. apply HQ; [|exact Hsy]. eapply wrote_trans; [by apply csame_wrote|exact Hw].
Qed.

(** ** fs_sync *)

Lemma fs_sync_ok s : ready s →
  wp fs_sync (λ _ s', wrote s s' ∧ ∀ b, 1 ≤ b < nblocks s → synced s' b) no_stop s.
Proof.
  intros Hr. pose proof Hr as [Hc Hm]. pose proof (mo_size _ Hm) as Hn. unfold fs_sync. apply wp_bind, wp_gets.
  rewrite (mo_super _ Hm). apply wp_bind, load32_present; [done|apply present_super; [apply (mo_cached _ Hm)|lia]|].
  change (vw32 s (s_nblocks SUPER)) with (nblocks s).
  apply (wp_for_range 1 (nblocks s) _ (λ i s', wrote s s' ∧ ∀ b, 1 ≤ b < i → synced s' b)); [lia| | |done].
  - split; [by apply wrote_refl|]. intros b Hb. lia.
  - intros i s1 Hi [Hw Hsy]. apply flush_disk; [apply (wr_ready _ _ Hw)|rewrite (nblocks_same _ _ (wr_view _ _ Hw)); lia|].
    intros s2 Hw2 Hi2. split; [by eapply wrote_trans|]. intros b Hb.
    destruct (decide (b = i)) as [->|]; [exact Hi2|]. apply (wr_synced _ _ Hw2); [lia|]. apply Hsy. lia.
Qed.

(** ** Rebooting *)

(** The blocks of the file system. *)
Definition fs_range s (a : Z) : Prop := SUPER ≤ a < DISKMAP + nblocks s * 4096.

Lemma formatted_on s s' : (∀ a, fs_range s a → vw s' a = vw s a) → formatted s → formatted s'.
Proof.
  intros Hv [H1 H2 H3]. assert (Hr : ∀ a, SUPER ≤ a < BITMAP + 4096 * nbitmap s → vw s' a = vw s a).
  { intros a Ha. apply Hv. unfold fs_range. pose proof (nbitmap_range s H2). change BITMAP with (DISKMAP + 8192) in Ha. lia. }
  pose proof (nbitmap_range s H2) as Hnb. change BITMAP with 0x10002000 in Hr. change SUPER with 0x10001000 in Hr.
  assert (Hn : nblocks s' = nblocks s).
  { apply vw32_bytes. intros k Hk. apply Hr. change (SUPER + 4) with 0x10001004. lia. }
  split.
  - rewrite <- H1. apply vw32_bytes. intros k Hk. apply Hr. change (s_magic SUPER) with 0x10001000. lia.
  - by rewrite Hn.
  - intros b. unfold nbitmap. rewrite Hn. fold (nbitmap s). intros Hb. rewrite <- (H3 b Hb). unfold is_free. f_equal. f_equal.
    apply vw32_bytes. intros k Hk. apply Hr. destruct (bit_addr_range s b H2 ltac:(lia)) as (Hlo & Hhi & _).
    change BITMAP with 0x10002000 in *. lia.
Qed.

(** What a server sees that starts on the disk of [s1] with nothing cached. *)
Lemma boot_view s s0 s1 : booted s0 → dev s0 = dev s1 → wrote s s1 → 2 < nblocks s ≤ 786432 →
  (∀ b, 1 ≤ b < nblocks s → synced s1 b) → ∀ a, fs_range s a → vw (set_diskno (diskno s) s0) a = vw s a.
Proof.
  intros Hb Hd Hw Hn Hsy a Ha. unfold fs_range in Ha. change SUPER with (DISKMAP + 4096) in Ha.
  assert (Hin : in_cache a = true) by (apply in_cache_iff; change DISKMAP with 0x10000000 in *; change DISKSIZE with 0xC0000000; lia).
  destruct (addr_split a Hin) as [Hsp Hm]. assert (Hblk : 1 ≤ blk_of a < nblocks s) by lia.
  rewrite Hsp. rewrite vw_disk by (unfold NBLK; lia). cbn [mapped set_diskno]. rewrite (bo_mapped _ Hb).
  rewrite bool_decide_eq_false_2 by (clear; set_solver). unfold dk. cbn [dev diskno set_diskno]. rewrite Hd.
  rewrite <- (vs_diskno _ _ (wr_view _ _ Hw)). fold (dk s1 (blk_of a * 4096 + a `mod` 4096)).
  rewrite (Hsy _ Hblk) by exact Hm. apply (vs_view _ _ (wr_view _ _ Hw)). pose proof (blk_bounds (blk_of a) ltac:(lia)). lia.
Qed.

Lemma sync_reboot_ok s s0 s1 : formatted s → wrote s s1 → (∀ b, 1 ≤ b < nblocks s → synced s1 b) →
  booted s0 → dev s0 = dev s1 → selects s0 (diskno s) →
  ∃ s2, fs_init s0 = Ok tt s2 ∧ ready s2 ∧ ∀ a, fs_range s a → vw s2 a = vw s a.
Proof.
  intros Hf Hw Hsy Hb Hd Hp. destruct (fs_init_ok s0 Hb) as (k & Hk & Hinit). rewrite (selects_unique _ _ _ Hk Hp) in Hinit.
  pose proof (boot_view s s0 s1 Hb Hd Hw (fm_size _ Hf) Hsy) as Hv.
  destruct (Hinit (formatted_on _ _ Hv Hf)) as (s2 & Hrun & Hr2 & _ & _ & _ & Hv2).
  exists s2. split; [exact Hrun|]. split; [exact Hr2|]. intros a Ha. rewrite <- Hv by exact Ha. apply Hv2.
  unfold fs_range in Ha. pose proof (fm_size _ Hf). change SUPER with 0x10001000 in Ha. change DISKMAP with 0x10000000 in Ha. lia.
Qed.

(** ** file_flush *)

(** file_block_walk without allocation. *)
Lemma file_block_walk_find f i s : ready s → file_ok s f → 0 ≤ i →
  wp (file_block_walk f i false) (λ x s', csame s s' ∧ ready s' ∧
    (x.2 = None ∧ x.1 < 0 ∧ (i < 1034 → ptr s f i = 0) ∨ has_slot s f i ∧ x = (0, Some (slot s f i)))) no_stop s.
Proof.
  intros Hr Hf Hi. pose proof Hr as [Hc Hm].
  destruct (decide (i < 1034)) as [Hlt|Hge].
  2:{ unfold file_block_walk. change (NDIRECT + NINDIRECT) with 1034. replace (i >=? 1034) with true by lia.
      apply wp_ret. split; [apply csame_refl|]. split; [exact Hr|]. left. split; [done|]. split; [done|lia]. }
  destruct (decide (i < 10 ∨ indirect s f ≠ 0)) as [Hh|Hh].
  - eapply wp_mono; [apply file_block_walk_slot; [exact Hr|exact Hf|split; [lia|exact Hh]]| |done].
    intros x s1 (Hs1 & Hr1 & ->). split; [exact Hs1|]. split; [exact Hr1|]. right. split; [split; [lia|exact Hh]|done].
  - assert (Hz : indirect s f = 0) by lia.
    unfold file_block_walk. change (NDIRECT + NINDIRECT) with 1034. change NDIRECT with 10.
    replace (i >=? 1034) with false by lia. replace (i <? 10) with false by lia.
    apply wp_bind. apply (load_field f 176); [exact Hr|apply Hf|lia|lia|done|]. intros s1 Hs1 Hr1.
    change (vw32 s (f + 176)) with (indirect s f). rewrite Hz. apply wp_ret. split; [exact Hs1|]. split; [exact Hr1|].
    left. split; [done|]. split; [done|]. intros _. apply ptr_no_slot; [lia|exact Hz].
Qed.

(** One round of the loop of file_flush. *)
Lemma flush_file_block f i s : ready s → file_ok s f → 0 ≤ i →
  wp ('(r, op) ← file_block_walk f i false;
      match op with
      | None => mret tt
      | Some p => b ← load32 p; if b =? 0 then mret tt else a ← diskaddr b; flush_block a
      end)
    (λ _ s', wrote s s' ∧ (i < 1034 → ptr s f i ≠ 0 → synced s' (ptr s f i))) no_stop s.
Proof.
  intros Hr Hf Hi. pose proof Hr as [Hc Hm]. apply wp_bind. eapply wp_mono; [by apply file_block_walk_find| |done].
  intros [r o] s1 (Hs1 & Hr1 & Hres). cbn [fst snd] in Hres. pose proof (csame_wrote _ _ Hs1 Hr1) as Hw1.
  destruct Hres as [(-> & _ & Hz)|[Hh E]]; [|injection E as -> ->].
  { apply wp_ret. split; [exact Hw1|]. intros Hlt Hp. destruct (Hp (Hz Hlt)). }
  destruct (has_slot_ok s f i Hm Hf Hh) as (Hca & Hal & _). destruct (slot_ok_range s _ (has_slot_ok s f i Hm Hf Hh)) as [Hlo Hhi].
  apply wp_bind, load32_ok; [apply Hr1|eapply touchable_same; [apply Hs1|by apply slot_touchable]|exact Hlo|exact Hhi|exact Hal|].
  intros s2 Hs2 Hc2. rewrite (vw32_same _ _ _ (cs_view _ _ Hs1)) by assumption. rewrite <- (ptr_slot s f i Hh).
  assert (Hr2 : ready s2) by (eapply ready_same; [apply Hs2|exact Hc2|apply Hr1]).
  pose proof (wrote_trans _ _ _ Hw1 (csame_wrote _ _ Hs2 Hr2)) as Hw2.
  destruct (ptr s f i =? 0) eqn:E.
  { apply Z.eqb_eq in E. apply wp_ret. split; [exact Hw2|]. intros _ Hp. destruct (Hp E). }
  apply Z.eqb_neq in E. destruct Hh as [Hi' _]. pose proof (data_range s f i Hm Hf Hi' E) as Hrg.
  apply flush_disk; [exact Hr2|rewrite (nblocks_same _ _ (wr_view _ _ Hw2)); exact Hrg|].
  intros s3 Hw3 Hsy. split; [by eapply wrote_trans|]. intros _ _. exact Hsy.
Qed.

Lemma wrote_file s s' f : wrote s s' → ready s → file_ok s f →
  file_ok s' f ∧ indirect s' f = indirect s f ∧ (∀ i, 0 ≤ i < 1034 → ptr s' f i = ptr s f i).
Proof.
  intros Hw [Hc Hm] Hf. split; [by apply (file_ok_same s); [apply Hw|..]|].
  split; [apply indirect_same; [apply Hw|exact Hm|apply Hf]|]. intros i Hi. by apply ptr_same; [apply Hw|..].
Qed.

(** All blocks of the file are on the disk. *)
Definition file_synced s s' (f : Z) : Prop :=
  (∀ p, 0 ≤ p < fsize s f → ptr s f (p / 4096) ≠ 0 → synced s' (ptr s f (p / 4096))) ∧
  synced s' (blk_of f) ∧ (indirect s f ≠ 0 → synced s' (indirect s f)).

Lemma file_flush_ok f s : ready s → file_ok s f → 0 ≤ fsize s f ≤ 4235264 →
  wp (file_flush f) (λ _ s', wrote s s' ∧ file_synced s s' f) no_stop s.
Proof.
  intros Hr Hf Hsz. pose proof Hr as [Hc Hm]. pose proof (mo_size _ Hm) as Hn. unfold file_flush. apply wp_bind.
  apply load_size_ok; [exact Hr|apply Hf|]. intros s1 Hs1 Hr1. pose proof (csame_wrote _ _ Hs1 Hr1) as Hw1.
  rewrite (s32_small (fsize s f + BLKSIZE)), s32_small by (change BLKSIZE with 4096; lia).
  rewrite Z.quot_div_nonneg by (change BLKSIZE with 4096; lia). change BLKSIZE with 4096.
  replace (fsize s f + 4096 - 1) with (fsize s f + 4095) by lia.
  apply wp_bind, (wp_for_range 0 ((fsize s f + 4095) / 4096) _
    (λ i s', wrote s s' ∧ ∀ j, 0 ≤ j < i → j < 1034 → ptr s f j ≠ 0 → synced s' (ptr s f j))); [apply Z.div_pos; lia|split; [exact Hw1|intros; lia]| |].
  - intros i s2 Hi [Hw2 Hsy]. destruct (wrote_file _ _ f Hw2 Hr Hf) as (Hf2 & _ & Hp2).
    eapply wp_mono; [apply flush_file_block; [apply (wr_ready _ _ Hw2)|exact Hf2|lia]| |done].
    intros _ s3 [Hw3 H3]. split; [by eapply wrote_trans|]. intros j Hj Hj2 Hpj.
    destruct (decide (j = i)) as [->|]; [rewrite <- Hp2 by lia; apply H3; [lia|by rewrite Hp2 by lia]|].
    pose proof (data_range s f j Hm Hf ltac:(lia) Hpj). apply (wr_synced _ _ Hw3); [lia|]. apply Hsy; [lia|lia|exact Hpj].
  - intros s2 [Hw2 Hsy]. destruct (wrote_file _ _ f Hw2 Hr Hf) as (Hf2 & Hi2 & _).
    apply wp_bind, flush_wrote; [apply (wr_ready _ _ Hw2)|apply Hf|]. intros s3 Hw3 Hb3.
    destruct (wrote_file _ _ f Hw3 (wr_ready _ _ Hw2) Hf2) as (Hf3 & Hi3 & _). rewrite Hi2 in Hi3.
    apply wp_bind, (load_field f 176); [apply (wr_ready _ _ Hw3)|apply Hf3|lia|lia|done|]. intros s4 Hs4 Hr4.
    change (vw32 s3 (f + 176)) with (indirect s3 f). rewrite Hi3.
    pose proof (wrote_trans _ _ _ Hw2 (wrote_trans _ _ _ Hw3 (csame_wrote _ _ Hs4 Hr4))) as Hw24.
    pose proof (blk_of_range f ltac:(apply Hf)) as Hbf. unfold NBLK in Hbf.
    assert (Hkeep : ∀ s5, wrote s4 s5 → (indirect s f ≠ 0 → synced s5 (indirect s f)) → wrote s s5 ∧ file_synced s s5 f).
    { intros s5 Hw5 Hind. pose proof (csame_wrote _ _ Hs4 Hr4) as Hw4. split; [by eapply wrote_trans|]. split_and!; [|by apply Hw5, Hw4|exact Hind].
      intros p Hp Hpp. assert (Hq : 0 ≤ p / 4096 < 1034) by (clear -Hp Hsz; dlia).
      pose proof (data_range s f _ Hm Hf Hq Hpp). apply Hw5, Hw4, Hw3; [lia..|]. apply Hsy; [clear -Hp; dlia|lia|exact Hpp]. }
    destruct (decide (indirect s f = 0)) as [Hz|Hnz]; [rewrite Hz; apply wp_ret, Hkeep; [by apply wrote_refl|intros Hx; destruct (Hx Hz)]|].
    rewrite (proj2 (ctrue_true _) Hnz). destruct (fo_ind _ _ Hf) as [|[[Hrg _] _]]; [done|]. pose proof (nbitmap_range s Hn).
    apply flush_disk; [exact Hr4|rewrite (nblocks_same _ _ (wr_view _ _ Hw24)); lia|].
    intros s5 Hw5 H5. apply Hkeep; [exact Hw5|]. intros _. exact H5.
Qed.

End FsSync.
