(* ===== verification/FsTrunc.v ===== *)
(** * Shrinking files: file_free_block, file_truncate_blocks, file_set_size

    Freeing a block clears its pointer and sets its bit; truncation frees
    exactly the blocks beyond the new size, and the indirect block when no
    block needs it any more. *)

From S2P Require Import Prelude Mmu CMem Str FsState Ide Bc Fs IdeProofs BcProofs BcMem FsAlloc FsInit FsFile FsData FsRw FsSync.

Section FsTrunc.
Context {D : Type} `{AtaDisk D}.
Implicit Types s : FState D.

(** ** Dropping a block *)

(** Block [b] was freed and the pointer to it at [a] cleared. *)
Record detached s s' (a b : Z) : Prop := {
  de_step : vstep s s';
  de_ready : ready s';
  de_nblocks : nblocks s' = nblocks s;
  de_free : ∀ c, 0 ≤ c < nblocks s → is_free s' c = if decide (c = b) then true else is_free s c;
  de_slot : vw32 s' a = 0;
  de_view : ∀ x, 0 ≤ x < 4294967296 → x < BITMAP ∨ BITMAP + 4096 * nbitmap s ≤ x → x < a ∨ a + 4 ≤ x → vw s' x = vw s x
}.

Lemma detach_ok a b (Q : unit → FState D → Prop) s : ready s → slot_ok s a → data_block s b → blk_of a ≠ b →
  (∀ s', detached s s' a b → Q tt s') → wp (free_block b ;; store32 a 0) Q no_stop s.
Proof.
  intros Hr (Hca & Hal & Hoff & Hu) [Hb Hf] Hne HQ. pose proof Hr as [Hc Hm]. pose proof (nbitmap_range s (mo_size _ Hm)) as Hnb.
  pose proof (in_cache_range a Hca) as Har. pose proof (mo_size _ Hm) as Hn. apply wp_bind, free_block_ok; [exact Hr|exact Hb|].
  intros s1 Hbs. pose proof (bs_nblocks _ _ _ _ Hbs) as Hn1. pose proof (bs_ready _ _ _ _ Hbs) as [Hc1 Hm1].
  assert (Ho1 : off_meta s1 a (Z.of_nat (length (bytes32 0)))) by (unfold off_meta, nbitmap; rewrite Hn1; exact Hoff).
  apply store32_ok; [exact Hc1| |lia|lia|exact Hal|].
  { apply touchable_use; [exact Hm1|]. intros _. destruct Hu as [Hur Huf]. split; [by rewrite Hn1|].
    rewrite (bs_free _ _ _ _ Hbs) by lia. by rewrite decide_False. }
  intros s2 Hp Hc2. apply HQ. split.
  - eapply vstep_trans; [apply Hbs|apply Hp].
  - split; [exact Hc2|by eapply mounted_put].
  - by rewrite (off_meta_nblocks _ _ _ _ Hp Ho1).
  - intros c Hcr. rewrite (off_meta_free _ _ _ _ _ Hp Ho1) by lia. by apply (bs_free _ _ _ _ Hbs).
  - by rewrite (vput_in32 _ _ _ _ Hp) by lia.
  - intros x Hx Hbm Ha. rewrite (vput_out _ _ _ _ _ Hp) by (cbn; lia). by apply (bs_view _ _ _ _ Hbs).
Qed.

Lemma detached_word s s' a b x : detached s s' a b → slot_ok s a → slot_ok s x → x ≠ a → vw32 s' x = vw32 s x.
Proof.
  intros Hd (_ & Hal & _ & _) (Hcx & Hxal & [_ Hoff] & _) Hne. pose proof (in_cache_range x Hcx).
  apply vw32_bytes. intros i Hi. apply (de_view _ _ _ _ Hd); [lia|lia|dlia].
Qed.

Lemma detached_data s s' a b c : detached s s' a b → mounted s → c ≠ b → data_block s c → data_block s' c.
Proof.
  intros Hd Hm Hne [Hc Hf]. pose proof (nbitmap_range s (mo_size _ Hm)). unfold data_block, nbitmap. rewrite (de_nblocks _ _ _ _ Hd).
  split; [exact Hc|]. rewrite (de_free _ _ _ _ Hd) by lia. by rewrite decide_False.
Qed.

Lemma detached_at s s' a b f : detached s s' a b → mounted s → blk_of f ≠ b → file_at s f → file_at s' f.
Proof. intros Hd Hm Hne (H1 & H2 & H3 & [H4|H4]); split_and!; try done; [by left|right]. by eapply detached_data. Qed.

(** Addresses freeing blocks of [f] leaves alone. *)
Definition apart s (f x : Z) : Prop :=
  in_cache x = true → (x < BITMAP ∨ BITMAP + 4096 * nbitmap s ≤ x) ∧ (x < f + 136 ∨ f + 180 ≤ x) ∧ blk_of x ≠ indirect s f.

Lemma detached_apart s s' a b f x : detached s s' a b → mounted s → file_at s f →
  (f + 136 ≤ a ∧ a + 4 ≤ f + 180 ∨ in_cache a = true ∧ a `mod` 4 = 0 ∧ blk_of a = indirect s f) →
  0 ≤ x < 4294967296 → apart s f x → vw s' x = vw s x.
Proof.
  intros Hd Hm Hf Hsl Hx Hap. destruct (file_at_range s f Hm Hf) as (Hlo & Hhi & _). pose proof (nbitmap_range s (mo_size _ Hm)) as Hnb.
  destruct (in_cache x) eqn:Hcx.
  - destruct (Hap Hcx) as (Hbm & Hff & Hne). apply (de_view _ _ _ _ Hd); [exact Hx|exact Hbm|].
    destruct Hsl as [|(Hca & Hal & Hba)]; [lia|]. destruct (addr_split x Hcx) as [He Hmod].
    destruct (addr_split a Hca) as [Hea Hmoda]. assert (a `mod` 4096 ≤ 4092) by dlia. lia.
  - assert (Hout : ¬ (DISKMAP ≤ x < DISKMAP + DISKSIZE)) by (rewrite <- in_cache_iff; by rewrite Hcx).
    change DISKMAP with 0x10000000 in Hout. change DISKSIZE with 0xC0000000 in Hout.
    apply (de_view _ _ _ _ Hd); [exact Hx|rewrite BITMAP_val; lia|].
    destruct Hsl as [|(Hca & Hal & _)]; [lia|]. pose proof (in_cache_range a Hca) as Har. clear -Hout Hal Har. dlia.
Qed.

(** ** file_free_block *)

(** The pointers in the set [I] were cleared and their blocks freed. *)
Record dropped s s' (f : Z) (I : Z → Prop) : Prop := {
  dr_step : vstep s s';
  dr_ready : ready s';
  dr_nblocks : nblocks s' = nblocks s;
  dr_file : file_ok s' f;
  dr_ind : indirect s' f = indirect s f;
  dr_ptr : ∀ j, 0 ≤ j < 1034 → I j ∧ ptr s' f j = 0 ∨ ¬ I j ∧ ptr s' f j = ptr s f j;
  dr_free : ∀ c, 1 ≤ c < nblocks s → is_free s' c = true ↔ is_free s c = true ∨ ∃ j, 0 ≤ j < 1034 ∧ I j ∧ ptr s f j = c;
  dr_view : ∀ x, 0 ≤ x < 4294967296 → apart s f x → vw s' x = vw s x
}.

Lemma drop_slot s s' f i : ready s → file_ok s f → has_slot s f i → ptr s f i ≠ 0 →
  detached s s' (slot s f i) (ptr s f i) → dropped s s' f (λ j, j = i).
Proof.
  intros [Hc Hm] Hf Hi Hp Hd. pose proof (has_slot_ok s f i Hm Hf Hi) as Hsl. pose proof Hi as [Hir _].
  destruct (fo_ptr _ _ Hf i Hir) as [|(Hdb & Hnf & Hni)]; [done|].
  assert (Hind : indirect s' f = indirect s f).
  { eapply detached_word; [exact Hd|exact Hsl|apply slot_ok_file; [done|apply Hf|lia|lia|done]|].
    symmetry. apply (slot_not_field s f i 176); [done|done|lia|lia]. }
  assert (Hslot : ∀ j, slot s' f j = slot s f j) by (intros j; unfold slot; by rewrite Hind).
  assert (Hptr : ∀ j, 0 ≤ j < 1034 → ptr s' f j = if decide (j = i) then 0 else ptr s f j).
  { intros j Hj. destruct (decide (has_slot s f j)) as [Hjs|Hjs].
    - assert (Hjs' : has_slot s' f j) by (unfold has_slot; by rewrite Hind). rewrite !ptr_slot by done. rewrite Hslot.
      case_decide as He; [subst; apply (de_slot _ _ _ _ Hd)|].
      eapply detached_word; [exact Hd|exact Hsl|by apply has_slot_ok|]. intros E. apply He. by eapply slot_inj.
    - assert (10 ≤ j ∧ indirect s f = 0) as [Hj1 Hj2] by (unfold has_slot in Hjs; lia).
      rewrite !ptr_no_slot by (done || congruence). by case_decide. }
  split; [apply Hd|apply Hd|apply Hd| |exact Hind| | |].
  - split.
    + by eapply detached_at; [exact Hd|done|by apply not_eq_sym|apply Hf].
    + rewrite Hind. destruct (fo_ind _ _ Hf) as [|[Hd1 Hd2]]; [by left|right]. split; [|exact Hd2].
      by eapply detached_data; [exact Hd|done|by apply not_eq_sym|].
    + intros j Hj. rewrite Hptr, Hind by exact Hj. case_decide as He; [by left|].
      destruct (fo_ptr _ _ Hf j Hj) as [|(H1 & H2 & H3)]; [by left|]. destruct (decide (ptr s f j = 0)) as [|Hj0]; [by left|right].
      split; [|done]. eapply detached_data; [exact Hd|done| |done]. by apply (fo_inj _ _ Hf).
    + intros j k Hj Hk Hjk. rewrite !Hptr by assumption. repeat case_decide; try done. by apply (fo_inj _ _ Hf).
  - intros j Hj. rewrite Hptr by exact Hj. case_decide; [left|right]; by split.
  - intros c Hcr. rewrite (de_free _ _ _ _ Hd) by lia. case_decide as He.
    + split; [|done]. intros _. right. exists i. split; [exact Hir|]. by split.
    + split; [by left|]. intros [|(j & _ & -> & E)]; congruence.
  - intros x Hx Hap. eapply (detached_apart _ _ _ _ f); [exact Hd|done|apply Hf| |exact Hx|exact Hap].
    pose proof (slot_blk s f i (fo_at _ _ Hf) Hi) as Hbk. destruct Hsl as (Hca & Hal & _).
    destruct (i <? 10) eqn:E; [left; unfold slot, f_direct; change NDIRECT with 10; rewrite E; lia|right; by split_and!].
Qed.

Lemma dropped_same s s' f (I : Z → Prop) : vsame s s' → ready s' → mounted s → file_ok s f →
  (∀ j, 0 ≤ j < 1034 → I j → ptr s f j = 0) → (∀ j, I j ∨ ¬ I j) → dropped s s' f I.
Proof.
  intros Hv Hr Hm Hf HI Hdec. pose proof (mo_size _ Hm) as Hn. split.
  - by apply vsame_step.
  - exact Hr.
  - by apply nblocks_same.
  - by apply (file_ok_same s).
  - by apply indirect_same; [| |apply Hf].
  - intros j Hj. rewrite (ptr_same s s') by assumption. destruct (Hdec j) as [H1|H1]; [left; split; [done|by apply HI]|by right].
  - intros c Hc. rewrite (is_free_same _ _ _ Hv) by (unfold NBLK; lia). split; [by left|]. intros [|(j & Hj & H1 & E)]; [done|].
    rewrite HI in E by assumption. lia.
  - intros x Hx _. by apply Hv.
Qed.

Lemma dropped_trans s1 s2 s3 f I1 I2 : dropped s1 s2 f I1 → dropped s2 s3 f I2 → dropped s1 s3 f (λ j, I1 j ∨ I2 j).
Proof.
  intros [A1 A2 A3 A4 A5 A6 A7 A8] [B1 B2 B3 B4 B5 B6 B7 B8]. split.
  - by eapply vstep_trans.
  - exact B2.
  - congruence.
  - exact B4.
  - congruence.
  - intros j Hj. destruct (A6 j Hj) as [[]|[]], (B6 j Hj) as [[]|[]]; intuition congruence.
  - intros c Hc. rewrite B7, A7 by lia. split.
    + intros [[|(j & Hj & H1 & H2)]|(j & Hj & H1 & H2)]; [by left|right; exists j; auto|].
      destruct (A6 j Hj) as [[_ E]|[_ E]]; [lia|]. right. exists j. split; [done|]. split; [by right|congruence].
    + intros [|(j & Hj & [H1|H1] & H2)]; [by left; left|left; right; exists j; auto|].
      destruct (A6 j Hj) as [[H3 _]|[H3 E]]; [left; right; exists j; auto|right]. exists j. split; [done|]. split; [done|congruence].
  - intros x Hx Hap. rewrite B8; [by apply A8|exact Hx|]. intros Hca. destruct (Hap Hca) as (H1 & H2 & H3).
    unfold nbitmap. rewrite A3, A5. by split_and!.
Qed.

Lemma dropped_ext s s' f (I I' : Z → Prop) : dropped s s' f I → (∀ j, 0 ≤ j < 1034 → I j ↔ I' j) → dropped s s' f I'.
Proof.
  intros [A1 A2 A3 A4 A5 A6 A7 A8] HI. split; try assumption.
  - intros j Hj. rewrite <- HI by exact Hj. by apply A6.
  - intros c Hc. rewrite A7 by exact Hc. split; (intros [|(j & Hj & H1 & H2)]; [by left|right; exists j]);
      (split; [exact Hj|split; [by apply HI|exact H2]]).
Qed.

(** Moves of the cache before and after. *)
Lemma dropped_after s s1 s2 f I : csame s s1 → ready s1 → mounted s → file_ok s f → dropped s1 s2 f I → dropped s s2 f I.
Proof.
  intros Hs Hr Hm Hf Hd. eapply dropped_ext; [eapply dropped_trans; [|exact Hd]|].
  - apply (dropped_same s s1 f (λ _, False)); [apply Hs|exact Hr|exact Hm|exact Hf|done|tauto].
  - tauto.
Qed.

Lemma vsame_log l s : vsame s (set_log l s).
Proof. split; reflexivity. Qed.
Lemma ready_log l s : ready s → ready (set_log l s).
Proof. intros [[A1 A2 A3 A4 A5 A6 A7] [B1 B2 B3 B4 B5]]. split; split; assumption. Qed.
Lemma dropped_log s s' f I l : dropped s s' f I → dropped s (set_log l s') f I.
Proof.
  intros Hd. eapply dropped_ext; [eapply dropped_trans; [exact Hd|]|].
  - apply (dropped_same s' _ f (λ _, False)); [apply vsame_log|apply ready_log, Hd|apply Hd|apply Hd|done|tauto].
  - tauto.
Qed.

Lemma file_free_block_ok f i s : ready s → file_ok s f → 0 ≤ i →
  wp (file_free_block f i) (λ _ s', dropped s s' f (λ j, j = i)) no_stop s.
Proof.
  intros Hr Hf Hi. pose proof Hr as [Hc Hm]. unfold file_free_block. apply wp_bind.
  eapply wp_mono; [by apply file_block_walk_find| |done].
  intros [r o] s1 (Hs1 & Hr1 & Hres). cbn [fst snd] in Hres. destruct Hres as [(-> & _ & Hz)|[Hh E]]; [|injection E as -> ->].
  { apply wp_ret. apply dropped_same; [apply Hs1|exact Hr1|exact Hm|exact Hf| |intros j; lia]. intros j Hj ->. apply Hz. lia. }
  destruct (has_slot_ok s f i Hm Hf Hh) as (Hca & Hal & _ & Hu). destruct (slot_ok_range s _ (has_slot_ok s f i Hm Hf Hh)) as [Hlo Hhi].
  apply wp_bind, load32_ok; [apply Hr1|eapply touchable_same; [apply Hs1|by apply slot_touchable]|exact Hlo|exact Hhi|exact Hal|].
  intros s2 Hs2 Hc2. rewrite (vw32_same _ _ _ (cs_view _ _ Hs1)) by assumption. rewrite <- (ptr_slot s f i Hh).
  pose proof (csame_trans _ _ _ Hs1 Hs2) as Hs12. assert (Hr2 : ready s2) by (eapply ready_same; [apply Hs12|exact Hc2|exact Hm]).
  pose proof (file_ok_same s s2 f (cs_view _ _ Hs12) Hm Hf) as Hf2. pose proof Hh as [Hir _].
  destruct (decide (ptr s f i = 0)) as [Hz|Hnz].
  { rewrite Hz. apply wp_bind, wp_ret, wp_ret. apply dropped_same; [apply Hs12|exact Hr2|exact Hm|exact Hf| |intros j; lia].
    by intros j Hj ->. }
  rewrite (proj2 (ctrue_true _) Hnz).
  assert (Hsl : slot s2 f i = slot s f i) by (unfold slot; by rewrite (indirect_same s s2 f (cs_view _ _ Hs12) Hm (fo_at _ _ Hf))).
  assert (Hp2 : ptr s2 f i = ptr s f i) by (by apply ptr_same; [apply Hs12|..]).
  assert (Hh2 : has_slot s2 f i) by (apply ptr_has_slot; [exact Hir|congruence]).
  destruct (fo_ptr _ _ Hf2 i Hir) as [|(Hdb & Hnf & Hni)]; [congruence|]. rewrite <- Hp2, <- Hsl.
  apply wp_bind, detach_ok; [exact Hr2|apply has_slot_ok; [apply Hr2|exact Hf2|exact Hh2]|exact Hdb| |].
  { rewrite (slot_blk s2 f i (fo_at _ _ Hf2) Hh2). destruct (i <? 10); by apply not_eq_sym. }
  intros s3 Hd. apply wp_ret. eapply dropped_after; [exact Hs12|exact Hr2|exact Hm|exact Hf|].
  apply drop_slot; [exact Hr2|exact Hf2|exact Hh2|congruence|exact Hd].
Qed.

(** ** file_truncate_blocks *)

(** Truncation to [lo] blocks of a file without blocks beyond its size; the
    view may also have changed at [P]. *)
Record truncated s s' (f lo : Z) (P : Z → Prop) : Prop := {
  tr_step : vstep s s';
  tr_ready : ready s';
  tr_nblocks : nblocks s' = nblocks s;
  tr_file : file_ok s' f;
  tr_ind : indirect s' f = if decide (lo ≤ 10) then 0 else indirect s f;
  tr_ptr : ∀ j, 0 ≤ j < 1034 → ptr s' f j = if decide (j < lo) then ptr s f j else 0;
  tr_free : ∀ c, 1 ≤ c < nblocks s → is_free s' c = true ↔
    is_free s c = true ∨ (∃ j, lo ≤ j < 1034 ∧ ptr s f j = c) ∨ lo ≤ 10 ∧ indirect s f = c;
  tr_view : ∀ x, 0 ≤ x < 4294967296 → apart s f x → ¬ P x → vw s' x = vw s x
}.

Lemma dropped_truncated s s1 f lo : dropped s s1 f (λ j, lo ≤ j) → (lo ≤ 10 → indirect s f = 0) → 0 ≤ lo → truncated s s1 f lo (λ _, False).
Proof.
  intros [A1 A2 A3 A4 A5 A6 A7 A8] Hz Hlo. split; try assumption.
  - rewrite A5. by case_decide; [apply Hz|].
  - intros j Hj. destruct (A6 j Hj) as [[H1 ->]|[H1 ->]]; case_decide; (done || lia).
  - intros c Hc. rewrite A7 by exact Hc. split.
    + intros [|(j & Hj & H1 & H2)]; [by left|]. right. left. exists j. split; [lia|exact H2].
    + intros [|[(j & Hj & H2)|[H1 H2]]]; [by left| |rewrite (Hz H1) in H2; lia]. right. exists j. split; [lia|]. split; [lia|exact H2].
  - intros x Hx Hap _. by apply A8.
Qed.

Lemma drop_indirect s s1 s2 f lo : dropped s s1 f (λ j, lo ≤ j) → 0 ≤ lo ≤ 10 → indirect s f ≠ 0 → mounted s1 →
  detached s1 s2 (f_indirect f) (indirect s f) → truncated s s2 f lo (λ _, False).
Proof.
  intros [A1 A2 A3 A4 A5 A6 A7 A8] Hlo Hnz Hm1 Hd. rewrite <- A5 in Hd.
  destruct (fo_ind _ _ A4) as [|[Hdb Hnf]]; [congruence|].
  assert (Hsl : slot_ok s1 (f_indirect f)) by (apply slot_ok_file; [done|apply A4|lia|lia|done]).
  assert (Hind : indirect s2 f = 0) by apply (de_slot _ _ _ _ Hd).
  assert (Hptr : ∀ j, 0 ≤ j < 1034 → ptr s2 f j = if decide (j < 10) then ptr s1 f j else 0).
  { intros j Hj. case_decide as Hj10; [|apply ptr_no_slot; [lia|exact Hind]].
    rewrite !ptr_slot by (split; lia). unfold slot. change NDIRECT with 10. replace (j <? 10) with true by lia.
    eapply detached_word; [exact Hd|exact Hsl| |unfold f_direct, f_indirect; lia].
    unfold f_direct. rewrite <- Z.add_assoc. apply slot_ok_file; [done|apply A4|lia|lia|dlia]. }
  split.
  - eapply vstep_trans; [exact A1|apply Hd].
  - apply Hd.
  - rewrite (de_nblocks _ _ _ _ Hd). exact A3.
  - split.
    + by eapply detached_at; [exact Hd|done|by apply not_eq_sym|apply A4].
    + by left.
    + intros j Hj. rewrite Hptr, Hind by exact Hj. case_decide; [|by left].
      destruct (decide (ptr s1 f j = 0)) as [|Hj0]; [by left|]. destruct (fo_ptr _ _ A4 j Hj) as [|(G1 & G2 & G3)]; [done|right].
      split; [by eapply detached_data|]. by split.
    + intros j k Hj Hk Hjk. rewrite !Hptr by assumption. repeat case_decide; try done. by apply (fo_inj _ _ A4).
  - rewrite Hind. by rewrite decide_True by lia.
  - intros j Hj. rewrite Hptr by exact Hj. destruct (A6 j Hj) as [[H1 ->]|[H1 ->]]; repeat case_decide; (done || lia).
  - intros c Hc. rewrite (de_free _ _ _ _ Hd) by lia. rewrite A5. case_decide as He; [split; [intros _; right; right; split; [lia|done]|done]|].
    rewrite A7 by exact Hc. split.
    + intros [|(j & Hj & H1 & H2)]; [by left|]. right. left. exists j. split; [lia|exact H2].
    + intros [|[(j & Hj & H2)|[H1 H2]]]; [by left| |congruence]. right. exists j. split; [lia|]. split; [lia|exact H2].
  - intros x Hx Hap _. rewrite <- A8 by assumption. eapply (detached_apart _ _ _ _ f); [exact Hd|done|apply A4| |exact Hx|].
    + left. unfold f_indirect. lia.
    + intros Hca. destruct (Hap Hca) as (H1 & H2 & H3). unfold nbitmap. rewrite A3, A5. by split.
Qed.

(** The number of blocks of a file of [n] bytes. *)
Definition blocks_for (n : Z) : Z := (n + 4095) / 4096.

Lemma blocks_quot n : 0 ≤ n ≤ 4235264 → u32 (Z.quot (s32 (s32 (n + BLKSIZE) - 1)) BLKSIZE) = blocks_for n ∧ 0 ≤ blocks_for n ≤ 1034.
Proof.
  intros Hn. change BLKSIZE with 4096. unfold blocks_for. rewrite (s32_small (n + 4096)), s32_small by lia.
  rewrite Z.quot_div_nonneg by lia. replace (n + 4096 - 1) with (n + 4095) by lia.
  assert (0 ≤ (n + 4095) / 4096 ≤ 1034) by dlia. split; [apply u32_small; lia|done].
Qed.

(** No blocks beyond the size. *)
Definition tight s (f : Z) : Prop := ∀ i, blocks_for (fsize s f) ≤ i < 1034 → ptr s f i = 0.

Lemma free_blocks_loop f lo hi s : ready s → file_ok s f → 0 ≤ lo ≤ hi →
  wp (forM (range lo hi) (λ bno, r ← file_free_block f bno; if r <? 0 then fprint "warning: file_free_block: %e" else mret tt))
    (λ _ s', dropped s s' f (λ j, lo ≤ j < hi)) no_stop s.
Proof.
  intros Hr Hf Hlo. apply (wp_for_range lo hi _ (λ i s', dropped s s' f (λ j, lo ≤ j < i))); [lia| | |done].
  - apply dropped_same; [apply vsame_refl|exact Hr|apply Hr|exact Hf|intros; lia|intros; lia].
  - intros i s1 Hi Hd. apply wp_bind. eapply wp_mono; [apply file_free_block_ok; [apply Hd|apply Hd|lia]| |done].
    intros r s2 Hd2.
    assert (Hd12 : dropped s s2 f (λ j, lo ≤ j < i + 1)).
    { eapply dropped_ext; [eapply dropped_trans; [exact Hd|exact Hd2]|]. intros j Hj. cbn. lia. }
    destruct (r <? 0); [|by apply wp_ret]. apply wp_modify. by apply dropped_log.
Qed.

Lemma file_truncate_blocks_ok f newsize s : ready s → file_ok s f → tight s f → 0 ≤ newsize ≤ fsize s f → fsize s f ≤ 4235264 →
  wp (file_truncate_blocks f newsize) (λ _ s', truncated s s' f (blocks_for newsize) (λ _, False)) no_stop s.
Proof.
  intros Hr Hf Ht Hn Hsz. pose proof Hr as [Hc Hm]. unfold file_truncate_blocks. apply wp_bind.
  apply load_size_ok; [exact Hr|apply Hf|]. intros s1 Hs1 Hr1. pose proof (file_ok_same s s1 f (cs_view _ _ Hs1) Hm Hf) as Hf1.
  assert (Hszr : 0 ≤ fsize s f ≤ 4235264) by lia. assert (Hnr : 0 ≤ newsize ≤ 4235264) by lia.
  destruct (blocks_quot _ Hszr) as [-> Hhi]. destruct (blocks_quot _ Hnr) as [-> Hlo].
  set (hi := blocks_for (fsize s f)) in *. set (lo := blocks_for newsize) in *.
  assert (Hlh : lo ≤ hi) by (unfold lo, hi, blocks_for; apply Z.div_le_mono; lia).
  apply wp_bind. eapply wp_mono; [apply free_blocks_loop; [exact Hr1|exact Hf1|lia]| |done]. intros [] s2 Hd. cbv beta in Hd.
  assert (Hd2 : dropped s s2 f (λ j, lo ≤ j)).
  { eapply dropped_ext; [eapply dropped_trans|].
    - apply (dropped_same s s1 f (λ j, hi ≤ j)); [apply Hs1|exact Hr1|exact Hm|exact Hf| |intros; lia]. intros j Hj Hj2. apply Ht. fold hi. lia.
    - exact Hd.
    - intros j Hj. cbn. lia. }
  change NDIRECT with 10. destruct (lo <=? 10) eqn:E.
  2:{ apply wp_ret, dropped_truncated; [exact Hd2|lia|lia]. }
  apply wp_bind, (load_field f 176); [apply Hd2|apply (dr_file _ _ _ _ Hd2)|lia|lia|done|]. intros s3 Hs3 Hr3.
  change (vw32 s2 (f + 176)) with (indirect s2 f). rewrite (dr_ind _ _ _ _ Hd2).
  pose proof (file_ok_same s2 s3 f (cs_view _ _ Hs3) (proj2 (dr_ready _ _ _ _ Hd2)) (dr_file _ _ _ _ Hd2)) as Hf3.
  assert (Hd3 : dropped s s3 f (λ j, lo ≤ j)).
  { eapply dropped_ext; [eapply dropped_trans; [exact Hd2|]|].
    - apply (dropped_same s2 s3 f (λ _, False)); [apply Hs3|exact Hr3|apply Hd2|apply Hd2|done|tauto].
    - tauto. }
  destruct (decide (indirect s f = 0)) as [Hz|Hnz].
  { rewrite Hz. apply wp_ret, dropped_truncated; [exact Hd3|done|lia]. }
  rewrite (proj2 (ctrue_true _) Hnz). destruct (fo_ind _ _ Hf3) as [|[Hdb Hnf]]; [rewrite (dr_ind _ _ _ _ Hd3) in *; done|].
  rewrite (dr_ind _ _ _ _ Hd3) in Hdb, Hnf.
  apply detach_ok; [exact Hr3|apply slot_ok_file; [apply Hr3|apply Hf3|lia|lia|done]|exact Hdb| |].
  { destruct (slot_ok_file s3 f 176 (proj2 Hr3) (fo_at _ _ Hf3)) as (Hca & _); [lia|lia|done|].
    destruct (fo_at _ _ Hf3) as (Hcf & _ & Hin & _). destruct (addr_split f Hcf) as [He Hmod]. unfold f_indirect.
    replace (f + 176) with (DISKMAP + blk_of f * 4096 + (f `mod` 4096 + 176)) by lia. rewrite blk_addr by lia. by apply not_eq_sym. }
  intros s4 Hd4. by apply (drop_indirect s s3 s4 f lo); [exact Hd3|lia|exact Hnz|apply Hr3|].
Qed.

(** ** file_set_size *)

Lemma truncated_same s s1 s2 f lo P : truncated s s1 f lo P → vsame s1 s2 → cache_ok s2 → truncated s s2 f lo P.
Proof.
  intros [A1 A2 A3 A4 A5 A6 A7 A8] Hv Hc. pose proof A2 as [_ Hm]. pose proof (mo_size _ Hm) as Hn. split.
  - eapply vstep_trans; [exact A1|by apply vsame_step].
  - by eapply ready_same.
  - by rewrite (nblocks_same _ _ Hv).
  - by eapply file_ok_same.
  - by rewrite (indirect_same s1 s2 f Hv Hm (fo_at _ _ A4)).
  - intros j Hj. rewrite (ptr_same s1 s2) by assumption. by apply A6.
  - intros c Hcr. rewrite (is_free_same _ _ _ Hv) by (unfold NBLK; lia). by apply A7.
  - intros x Hx Hap HP. rewrite (vs_view _ _ Hv) by exact Hx. by apply A8.
Qed.

Lemma truncated_after s s1 s2 f lo P : 0 ≤ lo → csame s s1 → mounted s → file_ok s f → truncated s1 s2 f lo P → truncated s s2 f lo P.
Proof.
  intros Hlo Hs Hm Hf [A1 A2 A3 A4 A5 A6 A7 A8]. pose proof (cs_view _ _ Hs) as Hv. pose proof (mo_size _ Hm) as Hn.
  pose proof (nblocks_same _ _ Hv) as Hn1. pose proof (indirect_same s s1 f Hv Hm (fo_at _ _ Hf)) as Hi1. split.
  - eapply vstep_trans; [by apply vsame_step|exact A1].
  - exact A2.
  - congruence.
  - exact A4.
  - by rewrite <- Hi1.
  - intros j Hj. rewrite A6 by exact Hj. by rewrite (ptr_same s s1).
  - intros c Hcr. rewrite A7 by lia. rewrite (is_free_same _ _ _ Hv), Hi1 by (unfold NBLK; lia).
    assert (Hex : (∃ j, lo ≤ j < 1034 ∧ ptr s1 f j = c) ↔ ∃ j, lo ≤ j < 1034 ∧ ptr s f j = c); [|by rewrite Hex].
    split; intros (j & Hj & E); exists j; (split; [exact Hj|]); rewrite <- E; [symmetry|]; apply ptr_same; done || lia.
  - intros x Hx Hap HP. rewrite A8; [by apply Hv|exact Hx| |exact HP]. intros Hca. destruct (Hap Hca) as (H1 & H2 & H3).
    unfold nbitmap. rewrite Hn1, Hi1. by split.
Qed.

(** The size field of a file. *)
Lemma size_clear s f : mounted s → file_ok s f → clear_of s f (f + 128) 4.
Proof.
  intros Hm Hf. destruct (file_at_range s f Hm (fo_at _ _ Hf)) as (Hlo & Hhi & [Ho1 Ho2] & Hu).
  destruct (fo_at _ _ Hf) as (Hca & _ & Hin & _). destruct (addr_split f Hca) as [He Hmod].
  split; [unfold off_meta; lia|]. intros x Hx. split; [lia|]. intros _.
  replace x with (DISKMAP + blk_of f * 4096 + (x - (DISKMAP + blk_of f * 4096))) by lia. rewrite blk_addr by lia.
  destruct (fo_ind _ _ Hf) as [E|[_ E]]; [|by apply not_eq_sym]. rewrite E. destruct Hu. lia.
Qed.

Lemma truncated_put s s1 s2 f lo v : truncated s s1 f lo (λ _, False) → vput s1 s2 (f + 128) (bytes32 v) → cache_ok s2 →
  truncated s s2 f lo (λ x, f + 128 ≤ x < f + 132) ∧ fsize s2 f = s32 (u32 v).
Proof.
  intros [A1 A2 A3 A4 A5 A6 A7 A8] Hput Hc. pose proof A2 as [_ Hm]. pose proof (mo_size _ Hm) as Hn.
  destruct (file_at_range s1 f Hm (fo_at _ _ A4)) as (Hlo & Hhi & _). pose proof (size_clear s1 f Hm A4) as Hcl.
  destruct (put_fstep s1 s2 f (f + 128) (bytes32 v) A2 A4 Hput Hc ltac:(lia) Hcl) as (Hfs & Hind & Hptr).
  split; [split|].
  - eapply vstep_trans; [exact A1|apply Hput].
  - apply Hfs.
  - by rewrite (fs_nblocks _ _ _ _ Hfs).
  - apply Hfs.
  - by rewrite Hind.
  - intros j Hj. rewrite Hptr by exact Hj. by apply A6.
  - intros c Hcr. rewrite (off_meta_free _ _ _ _ _ Hput (proj1 Hcl)) by lia. by apply A7.
  - intros x Hx Hap HP. rewrite (vput_out _ _ _ _ _ Hput); [by apply A8; [| |tauto]|exact Hx|cbn; lia].
  - unfold fsize, f_size. by rewrite (vput_in32 _ _ _ _ Hput) by lia.
Qed.

(** Shrinking: the size is [n], the blocks beyond it are free. *)
Definition shrunk s (f n : Z) s' : Prop :=
  truncated s s' f (blocks_for n) (λ x, f + 128 ≤ x < f + 132) ∧ fsize s' f = n.

Lemma file_set_size_shrink f newsize s : ready s → file_ok s f → tight s f → 0 ≤ newsize < fsize s f → fsize s f ≤ 4235264 →
  wp (file_set_size f newsize) (λ r s', r = 0 ∧ shrunk s f newsize s') no_stop s.
Proof.
  intros Hr Hf Ht Hn Hsz. pose proof Hr as [Hc Hm]. unfold file_set_size. apply wp_bind.
  apply load_size_ok; [exact Hr|apply Hf|]. intros s1 Hs1 Hr1. pose proof (file_ok_same s s1 f (cs_view _ _ Hs1) Hm Hf) as Hf1.
  replace (fsize s f >? newsize) with true by lia.
  assert (Hsz1 : fsize s1 f = fsize s f).
  { destruct (file_at_range s f Hm (fo_at _ _ Hf)) as (Hlo & Hhi & _). unfold fsize, f_size.
    by rewrite (vw32_same _ _ _ (cs_view _ _ Hs1)) by lia. }
  assert (Ht1 : tight s1 f).
  { intros i Hi. rewrite Hsz1 in Hi. assert (0 ≤ blocks_for (fsize s f)) by (apply Z.div_pos; lia).
    rewrite (ptr_same s s1 f i (cs_view _ _ Hs1) Hm Hf ltac:(lia)). by apply Ht. }
  apply wp_bind. eapply wp_mono; [apply file_truncate_blocks_ok; [exact Hr1|exact Hf1|exact Ht1|lia|lia]| |done]. intros [] s2 Hd. cbv beta in Hd.
  assert (Hlo : 0 ≤ blocks_for newsize) by (apply Z.div_pos; lia).
  pose proof (truncated_after s s1 s2 f _ _ Hlo Hs1 Hm Hf Hd) as Ht2. pose proof (tr_ready _ _ _ _ _ Ht2) as [Hc2 Hm2].
  pose proof (tr_file _ _ _ _ _ Ht2) as Hf2. destruct (file_at_range s2 f Hm2 (fo_at _ _ Hf2)) as (Hl2 & Hh2 & _).
  assert (Hfal : f `mod` 4 = 0) by apply Hf. assert (Hca : in_cache f = true) by apply Hf.
  apply wp_bind, store32_ok; [exact Hc2|apply touchable_file; [exact Hm2|apply Hf2|lia]|unfold f_size; lia|unfold f_size; lia|unfold f_size; dlia|].
  intros s3 Hput Hc3. destruct (truncated_put _ _ _ _ _ _ Ht2 Hput Hc3) as [Ht3 Hsz3].
  apply wp_bind. eapply wp_mono; [by apply flush_spec| |done]. intros _ s4 (Hv4 & Hc4 & _). apply wp_ret. split; [reflexivity|].
  split; [by eapply truncated_same|]. rewrite u32_small, s32_small in Hsz3 by lia. rewrite <- Hsz3.
  unfold fsize, f_size. by rewrite (vw32_same _ _ _ Hv4) by lia.
Qed.

(** The contents up to the last kept block stay. *)
Lemma truncated_fbyte s s' f lo p : mounted s → file_ok s f → truncated s s' f lo (λ x, f + 128 ≤ x < f + 132) →
  0 ≤ p < 4235264 → fbyte s' f p = if decide (p / 4096 < lo) then fbyte s f p else 0.
Proof.
  intros Hm Hf Ht Hp. assert (Hi : 0 ≤ p / 4096 < 1034) by (clear -Hp; dlia). assert (Ho : 0 ≤ p `mod` 4096 < 4096) by (clear; dlia).
  unfold fbyte. rewrite (tr_ptr _ _ _ _ _ Ht) by exact Hi. case_decide; [|done].
  destruct (ptr s f (p / 4096) =? 0) eqn:E; [done|]. apply Z.eqb_neq in E.
  destruct (fo_ptr _ _ Hf _ Hi) as [|([Hb _] & Hnf & Hni)]; [done|]. pose proof (data_bounds s f _ Hm Hf Hi E) as Hbb.
  destruct (off_meta_block s _ Hm (proj1 Hb)) as [G1 G2].
  destruct (fo_at _ _ Hf) as (Hca & _ & Hin & _). destruct (addr_split f Hca) as [He Hmod].
  apply (tr_view _ _ _ _ _ Ht); [lia| |lia]. intros _. rewrite blk_addr by exact Ho. split; [lia|]. split; [lia|exact Hni].
Qed.

End FsTrunc.
