(* ===== verification/FsIso.v ===== *)
(** * Files do not disturb each other

    Two files are [separate] when they share no descriptor, indirect or data
    block.  Reading, writing and truncating one of them leaves the other, its
    size and its contents alone, and keeps them separate. *)

From S2P Require Import Prelude Mmu CMem Str FsState Ide Bc Fs IdeProofs BcProofs BcMem FsAlloc FsInit FsFile FsData FsRw FsSync FsTrunc.

Section FsIso.
Context {D : Type} `{AtaDisk D}.
Implicit Types s : FState D.

(** Block [b] holds the indirect block or data of [f]. *)
Definition holds s (f b : Z) : Prop := b ≠ 0 ∧ (b = indirect s f ∨ ∃ i, 0 ≤ i < 1034 ∧ ptr s f i = b).

(** The address [x] belongs to [f]. *)
Definition owns s (f x : Z) : Prop := f ≤ x < f + 256 ∨ in_cache x = true ∧ holds s f (blk_of x).

Record separate s (f g : Z) : Prop := {
  se_desc : f + 256 ≤ g ∨ g + 256 ≤ f;
  se_f : ¬ holds s g (blk_of f);
  se_g : ¬ holds s f (blk_of g);
  se_blocks : ∀ b, holds s f b → ¬ holds s g b
}.

Lemma separate_sym s f g : separate s f g → separate s g f.
Proof. intros [H1 H2 H3 H4]. split; [lia|exact H3|exact H2|]. intros b Hg Hf. by apply (H4 b). Qed.

Lemma desc_addr s f x : file_at s f → f ≤ x < f + 256 → in_cache x = true ∧ blk_of x = blk_of f.
Proof.
  intros (Hca & _ & Hin & _) Hx. destruct (addr_split f Hca) as [He Hmod]. pose proof (blk_of_range f Hca).
  replace x with (DISKMAP + blk_of f * 4096 + (x - (DISKMAP + blk_of f * 4096))) by lia.
  split; [apply in_cache_addr; lia|apply blk_addr; lia].
Qed.

Lemma holds_data s f b : file_ok s f → holds s f b → data_block s b ∧ b ≠ blk_of f.
Proof.
  intros Hf [Hnz [->|(i & Hi & <-)]].
  - destruct (fo_ind _ _ Hf) as [|[]]; [done|by split].
  - destruct (fo_ptr _ _ Hf i Hi) as [|(H1 & H2 & _)]; [done|by split].
Qed.

Lemma owned_blk s f x : mounted s → file_ok s f → owns s f x →
  in_cache x = true ∧ in_use s (blk_of x) ∧ (x < BITMAP ∨ BITMAP + 4096 * nbitmap s ≤ x).
Proof.
  intros Hm Hf [Hx|[Hca Hh]].
  - destruct (desc_addr s f x (fo_at _ _ Hf) Hx) as [Hc ->]. destruct (file_at_range s f Hm (fo_at _ _ Hf)) as (_ & _ & [_ Ho] & Hu).
    split; [exact Hc|]. split; [exact Hu|]. lia.
  - destruct (holds_data s f _ Hf Hh) as [Hd _]. split; [exact Hca|]. split; [by apply data_in_use|].
    destruct (off_meta_block s (blk_of x) Hm) as [_ Ho]; [apply Hd|]. destruct (addr_split x Hca) as [He Hmod]. lia.
Qed.

(** Addresses of [g] are untouched by operations on [f]. *)
Lemma separate_untouched s f g x : mounted s → file_ok s f → file_ok s g → separate s f g → owns s g x →
  untouched s f x ∧ ¬ own_data s f x.
Proof.
  intros Hm Hf Hg Hs Hx. destruct (owned_blk s g x Hm Hg Hx) as (Hca & Hu & Hbm).
  assert (Hnh : ¬ holds s f (blk_of x)).
  { destruct Hx as [Hx|[_ Hh]]; [|intros Hfh; exact (se_blocks _ _ _ Hs _ Hfh Hh)].
    destruct (desc_addr s g x (fo_at _ _ Hg) Hx) as [_ ->]. apply Hs. }
  assert (Hnz : blk_of x ≠ 0) by (destruct Hu; lia).
  assert (Hdesc : x < f ∨ f + 256 ≤ x).
  { destruct Hx as [Hx|[_ Hh]]; [pose proof (se_desc _ _ _ Hs); lia|]. destruct (decide (f ≤ x < f + 256)) as [Hin|]; [|lia].
    destruct (desc_addr s f x (fo_at _ _ Hf) Hin) as [_ E]. rewrite E in Hh. by destruct (se_f _ _ _ Hs). }
  split.
  - intros _. split; [exact Hu|]. split; [exact Hbm|]. split; [lia|]. intros E. apply Hnh. split; [exact Hnz|by left].
  - intros [Hsz|(_ & i & Hi & Hp & E)]; [lia|]. apply Hnh. split; [exact Hnz|]. right. exists i. by split.
Qed.

(** ** A file whose bytes and blocks are kept *)

Record kept s s' (g : Z) : Prop := {
  ke_file : file_ok s' g;
  ke_size : fsize s' g = fsize s g;
  ke_ind : indirect s' g = indirect s g;
  ke_ptr : ∀ i, 0 ≤ i < 1034 → ptr s' g i = ptr s g i;
  ke_byte : ∀ p, 0 ≤ p < 4235264 → fbyte s' g p = fbyte s g p
}.

Lemma kept_holds s s' g b : kept s s' g → holds s' g b ↔ holds s g b.
Proof.
  intros [_ _ Hi Hp _]. unfold holds. rewrite Hi.
  assert (Hex : (∃ i, 0 ≤ i < 1034 ∧ ptr s' g i = b) ↔ ∃ i, 0 ≤ i < 1034 ∧ ptr s g i = b); [|by rewrite Hex].
  split; intros (i & Hi' & E); exists i; (split; [exact Hi'|]); rewrite <- E; [symmetry|]; by apply Hp.
Qed.

(** Where the pointers and the size of [g] are stored. *)
Definition structure s (g x : Z) : Prop :=
  g ≤ x < g + 256 ∨ in_cache x = true ∧ indirect s g ≠ 0 ∧ blk_of x = indirect s g.

Lemma structure_kept s s' g : mounted s → file_ok s g → nblocks s' = nblocks s → (∀ x, structure s g x → vw s' x = vw s x) →
  (∀ c, data_block s c → c = blk_of g ∨ holds s g c → is_free s' c = false) →
  file_ok s' g ∧ fsize s' g = fsize s g ∧ indirect s' g = indirect s g ∧ ∀ i, 0 ≤ i < 1034 → ptr s' g i = ptr s g i.
Proof.
  intros Hm Hg Hn Hv Hused. destruct (file_at_range s g Hm (fo_at _ _ Hg)) as (Hlo & Hhi & _).
  assert (Hw : ∀ k, 0 ≤ k → k + 4 ≤ 256 → vw32 s' (g + k) = vw32 s (g + k)).
  { intros k Hk Hk4. apply vw32_bytes. intros j Hj. apply Hv. left. lia. }
  assert (Hind : indirect s' g = indirect s g) by (apply (Hw 176); lia).
  assert (Hslot : ∀ i, slot s' g i = slot s g i) by (intros i; unfold slot; by rewrite Hind).
  assert (Hptr : ∀ i, 0 ≤ i < 1034 → ptr s' g i = ptr s g i).
  { intros i Hi. destruct (decide (has_slot s g i)) as [Hs|Hs].
    - assert (Hs' : has_slot s' g i) by (unfold has_slot; by rewrite Hind). rewrite !ptr_slot by assumption. rewrite Hslot.
      apply vw32_bytes. intros j Hj. apply Hv. destruct (has_slot_ok s g i Hm Hg Hs) as (Hca & Hal & _).
      destruct (aligned_same _ j Hal Hj) as [Hk1 Hk2]. pose proof (slot_blk s g i (fo_at _ _ Hg) Hs) as Hb.
      destruct (i <? 10) eqn:E.
      + left. apply Z.ltb_lt in E. unfold slot, f_direct. change NDIRECT with 10. replace (i <? 10) with true by lia. lia.
      + right. rewrite Hk1, Hk2, Hb. split; [exact Hca|]. destruct Hs as [_ [|]]; [lia|]. by split.
    - assert (10 ≤ i ∧ indirect s g = 0) as [Hj1 Hj2] by (unfold has_slot in Hs; lia). by rewrite !ptr_no_slot by (done || congruence). }
  assert (Hdata : ∀ c, data_block s c → c = blk_of g ∨ holds s g c → data_block s' c).
  { intros c Hd Hc. split; [unfold nbitmap; rewrite Hn; apply Hd|by apply Hused]. }
  split; [split|split; [|by split]].
  - destruct (fo_at _ _ Hg) as (H1 & H2 & H3 & [H4|H4]); split_and!; try assumption; [by left|right; apply Hdata; [exact H4|by left]].
  - rewrite Hind. destruct (fo_ind _ _ Hg) as [|[H1 H2]]; [by left|]. destruct (decide (indirect s g = 0)) as [|Hnz]; [by left|right].
    split; [|exact H2]. apply Hdata; [exact H1|]. right. split; [exact Hnz|by left].
  - intros i Hi. rewrite Hptr, Hind by exact Hi. destruct (decide (ptr s g i = 0)) as [|Hnz]; [by left|].
    destruct (fo_ptr _ _ Hg i Hi) as [|(H1 & H2 & H3)]; [by left|right]. split; [|by split].
    apply Hdata; [exact H1|]. right. split; [exact Hnz|]. right. by exists i.
  - intros i j Hi Hj Hij. rewrite !Hptr by assumption. by apply (fo_inj _ _ Hg).
  - unfold fsize, f_size. by rewrite Hw by lia.
Qed.

Lemma kept_file s s' g : mounted s → file_ok s g → nblocks s' = nblocks s → (∀ x, owns s g x → vw s' x = vw s x) →
  (∀ c, data_block s c → c = blk_of g ∨ holds s g c → is_free s' c = false) → kept s s' g.
Proof.
  intros Hm Hg Hn Hv Hused. destruct (structure_kept s s' g Hm Hg Hn) as (H1 & H2 & H3 & Hptr); [|exact Hused|].
  { intros x [Hx|(Hx & Hnz & Hb)]; apply Hv; [by left|right]. split; [exact Hx|]. rewrite Hb. split; [exact Hnz|by left]. }
  split; [exact H1|exact H2|exact H3|exact Hptr|].
  intros p Hp. assert (Hi : 0 ≤ p / 4096 < 1034) by (clear -Hp; dlia). assert (Ho : 0 ≤ p `mod` 4096 < 4096) by (clear; dlia).
  unfold fbyte. rewrite Hptr by exact Hi. destruct (ptr s g (p / 4096) =? 0) eqn:E; [done|]. apply Z.eqb_neq in E.
  apply Hv. right. pose proof (data_range s g _ Hm Hg Hi E). pose proof (mo_size _ Hm).
  split; [apply in_cache_addr; unfold NBLK; lia|]. rewrite blk_addr by exact Ho. split; [exact E|]. right. exists (p / 4096). split; [exact Hi|reflexivity].
Qed.

(** ** Isolation *)

(** Steps on [f] that grow it. *)
Lemma fstep_kept s s' f g P : mounted s → file_ok s f → file_ok s g → separate s f g → fstep s s' f P →
  (∀ x, P x → own_data s f x ∨ in_cache x = false) → kept s s' g ∧ separate s' f g.
Proof.
  intros Hm Hf Hg Hs Hfs HP.
  assert (Hk : kept s s' g).
  { apply kept_file; [exact Hm|exact Hg|apply Hfs| |].
    - intros x Hx. destruct (separate_untouched s f g x Hm Hf Hg Hs Hx) as [Hun Hno].
      destruct (owned_blk s g x Hm Hg Hx) as (Hca & _). pose proof (in_cache_range x Hca).
      apply (fs_view _ _ _ _ Hfs); [lia|exact Hun|]. intros Hpx. destruct (HP x Hpx) as [|E]; [done|congruence].
    - intros c [Hc Hfc] _. pose proof (nbitmap_range s (mo_size _ Hm)). apply (fs_used _ _ _ _ Hfs); [lia|exact Hfc]. }
  split; [exact Hk|].
  assert (Hnew : ∀ b, holds s' f b → holds s f b ∨ is_free s b = true).
  { intros b [Hnz [->|(i & Hi & <-)]].
    - destruct (fs_ind _ _ _ _ Hfs) as [E|[_ E]]; [left; rewrite E in *; split; [done|by left]|by right].
    - destruct (fs_ptr _ _ _ _ Hfs i Hi) as [E|[_ E]]; [left; rewrite E in *; split; [done|right; by exists i]|by right]. }
  assert (Huse : ∀ b, holds s g b → is_free s b = false) by (intros b Hb; by destruct (holds_data s g b Hg Hb) as [[_ ?] _]).
  split; [apply Hs|rewrite kept_holds by exact Hk; apply Hs| |].
  - intros Hh. destruct (Hnew _ Hh) as [|E]; [by apply (se_g _ _ _ Hs)|]. destruct (file_ok_blk s g Hm Hg) as [_ E2]. congruence.
  - intros b Hb. rewrite kept_holds by exact Hk. intros Hgb. destruct (Hnew _ Hb) as [Hfb|E]; [by apply (se_blocks _ _ _ Hs b)|].
    rewrite (Huse b Hgb) in E. done.
Qed.

(** Truncating [f]. *)
Lemma truncated_kept s s' f g lo : mounted s → file_ok s f → file_ok s g → separate s f g → 0 ≤ lo →
  truncated s s' f lo (λ x, f + 128 ≤ x < f + 132) → kept s s' g ∧ separate s' f g.
Proof.
  intros Hm Hf Hg Hs Hlo Ht. pose proof (nbitmap_range s (mo_size _ Hm)) as Hnb.
  assert (Hk : kept s s' g).
  { apply kept_file; [exact Hm|exact Hg|apply Ht| |].
    - intros x Hx. destruct (separate_untouched s f g x Hm Hf Hg Hs Hx) as [Hun Hno].
      destruct (owned_blk s g x Hm Hg Hx) as (Hca & _). pose proof (in_cache_range x Hca).
      destruct (Hun Hca) as (_ & H2 & H3 & H4). apply (tr_view _ _ _ _ _ Ht); [lia|by intros _|]. intros Hsz. apply Hno. by left.
    - intros c [Hc Hfc] Hc2. apply not_true_is_false. rewrite (tr_free _ _ _ _ _ Ht) by lia.
      intros [E|Hh]; [congruence|]. assert (Hfh : holds s f c).
      { split; [lia|]. destruct Hh as [(j & Hj & E)|[_ E]]; [right; exists j; split; [lia|exact E]|by left]. }
      destruct Hc2 as [->|Hgh]; [by apply (se_g _ _ _ Hs)|by apply (se_blocks _ _ _ Hs c)]. }
  split; [exact Hk|].
  assert (Hsub : ∀ b, holds s' f b → holds s f b).
  { intros b [Hnz [->|(i & Hi & <-)]].
    - rewrite (tr_ind _ _ _ _ _ Ht) in *. case_decide; [done|]. split; [done|by left].
    - rewrite (tr_ptr _ _ _ _ _ Ht) in * by exact Hi. case_decide; [|done]. split; [done|]. right. by exists i. }
  split; [apply Hs|rewrite kept_holds by exact Hk; apply Hs| |].
  - intros Hh. by apply (se_g _ _ _ Hs), Hsub.
  - intros b Hb. rewrite kept_holds by exact Hk. by apply (se_blocks _ _ _ Hs), Hsub.
Qed.

End FsIso.
