(* ===== verification/FsDir.v ===== *)
(** * Directories: dir_lookup and dir_alloc_file

    A directory is a file without holes whose contents are 256-byte entries.
    [vname] is the name the server sees in an entry; dir_lookup finds the
    first entry with a given name, dir_alloc_file the first entry without a
    name, or a new block of such entries. *)

From S2P Require Import Prelude Mmu CMem Str StrProofs FsState Ide Bc Fs IdeProofs BcProofs BcMem FsAlloc FsInit FsFile FsData FsRw FsSync.

(** The characters before the first NUL. *)
Fixpoint nul_prefix (l : list Z) : list Z :=
  match l with c :: l => if c =? 0 then [] else c :: nul_prefix l | [] => [] end.

Lemma nul_prefix_spec l : 0 ∈ l → Forall (λ c, c ≠ 0) (nul_prefix l) ∧ (length (nul_prefix l) < length l)%nat ∧
  (∀ i c, nul_prefix l !! i = Some c → l !! i = Some c) ∧ l !! length (nul_prefix l) = Some 0.
Proof.
  induction l as [|c l IH]; intros Hin; [by apply elem_of_nil in Hin|]. cbn [nul_prefix]. destruct (c =? 0) eqn:E.
  - apply Z.eqb_eq in E as ->. cbn. split; [constructor|]. split; [lia|]. split; [intros i x Hx; destruct i; discriminate Hx|done].
  - apply Z.eqb_neq in E. apply elem_of_cons in Hin as [E0|Hin]; [lia|]. destruct (IH Hin) as (H1 & H2 & H3 & H4).
    cbn. split; [by constructor|]. split; [lia|]. split; [|exact H4]. intros [|i] x Hx; [exact Hx|by apply H3].
Qed.

Lemma nul_prefix_eq l n : Forall (λ c, c ≠ 0) n → (∀ i c, n !! i = Some c → l !! i = Some c) → l !! length n = Some 0 → nul_prefix l = n.
Proof.
  intros Hn. revert l. induction Hn as [|c n Hc _ IH]; intros l Hl Hz.
  - destruct l as [|x l]; [done|]. cbn in Hz. injection Hz as ->. done.
  - destruct l as [|x l]; [done|]. pose proof (Hl 0%nat c eq_refl) as E. injection E as ->. cbn.
    replace (c =? 0) with false by lia. f_equal. apply IH; [|exact Hz]. intros i y Hi. exact (Hl (S i) y Hi).
Qed.

Lemma list_find_local {A} (P Q : A → Prop) `{∀ x, Decision (P x), ∀ x, Decision (Q x)} l :
  Forall (λ x, P x ↔ Q x) l → list_find P l = list_find Q l.
Proof.
  induction 1 as [|x l Hx _ IH]; [done|]. cbn. rewrite IH. destruct (decide (P x)), (decide (Q x)); tauto || done.
Qed.

Section FsDir.
Context {D : Type} `{AtaDisk D}.
Implicit Types s : FState D.

(** ** Names *)

Definition vname s (a : Z) : list Z := nul_prefix (vws s a 128).
Definition named s (a : Z) : Prop := 0 ∈ vws s a 128.

Lemma vname_str s a : named s a → vstr s a (vname s a) ∧ (length (vname s a) < 128)%nat.
Proof.
  intros Hn. destruct (nul_prefix_spec _ Hn) as (H1 & H2 & H3 & H4). fold (vname s a) in *.
  assert (Hl : length (vws s a 128) = 128%nat) by (pose proof (length_vws s a 128 ltac:(lia)); lia). rewrite Hl in H2.
  split; [|exact H2]. split; [exact H1|]. split.
  - intros i c Hi. pose proof (lookup_lt_Some _ _ _ Hi) as Hlt. apply H3 in Hi. rewrite <- (Nat2Z.id i) in Hi.
    rewrite lookup_vws in Hi by lia. by injection Hi.
  - rewrite <- (Nat2Z.id (length (vname s a))) in H4. rewrite lookup_vws in H4 by lia. by injection H4.
Qed.

Lemma vstr_vname s a l : vstr s a l → (length l < 128)%nat → vname s a = l ∧ named s a.
Proof.
  intros (H1 & H2 & H3) Hl.
  assert (Hz : vws s a 128 !! length l = Some 0) by (rewrite <- (Nat2Z.id (length l)), lookup_vws by lia; by rewrite H3).
  split.
  - apply nul_prefix_eq; [exact H1| |exact Hz]. intros i c Hi. pose proof (lookup_lt_Some _ _ _ Hi).
    rewrite <- (Nat2Z.id i), lookup_vws by lia. by rewrite (H2 i c Hi).
  - by eapply list_elem_of_lookup_2.
Qed.

Lemma vname_view s s' a : (∀ x, a ≤ x < a + 128 → vw s' x = vw s x) → vname s' a = vname s a ∧ (named s' a ↔ named s a).
Proof.
  intros Hv. assert (E : vws s' a 128 = vws s a 128).
  { unfold vws. apply list_fmap_ext. intros i x Hi. apply list_elem_of_lookup_2, elem_of_range in Hi. apply Hv. lia. }
  unfold vname, named. by rewrite E.
Qed.

(** ** Entries *)

Definition dblocks s (dir : Z) : Z := fsize s dir / 4096.
Definition entry s (dir k : Z) : Z := DISKMAP + ptr s dir (k / 16) * 4096 + 256 * (k `mod` 16).

Record dir_ok s (dir : Z) : Prop := {
  do_file : file_ok s dir;
  do_size : fsize s dir = dblocks s dir * 4096 ∧ 0 ≤ dblocks s dir ≤ 1034;
  do_dense : ∀ i, 0 ≤ i < dblocks s dir → ptr s dir i ≠ 0;
  do_names : ∀ k, 0 ≤ k < 16 * dblocks s dir → named s (entry s dir k)
}.

(** The first of the entries of [dir] below [n] that satisfies [T]. *)
Definition first_entry s (dir n : Z) (T : Z → bool) (k : Z) : Prop :=
  0 ≤ k < n ∧ T (entry s dir k) = true ∧ ∀ j, 0 ≤ j < k → T (entry s dir j) = false.
Definition no_entry s (dir n : Z) (T : Z → bool) : Prop := ∀ j, 0 ≤ j < n → T (entry s dir j) = false.

Lemma entry_split i j s dir : 0 ≤ j < 16 → entry s dir (16 * i + j) = DISKMAP + ptr s dir i * 4096 + 256 * j.
Proof.
  intros Hj. unfold entry. replace ((16 * i + j) / 16) with i by dlia. by replace ((16 * i + j) `mod` 16) with j by dlia.
Qed.

Lemma entry_addr s dir k : mounted s → dir_ok s dir → 0 ≤ k < 16 * dblocks s dir →
  0x10000000 ≤ entry s dir k ∧ entry s dir k + 256 ≤ 0xD0000000 ∧
  ∀ x, entry s dir k ≤ x < entry s dir k + 256 → touchable s x.
Proof.
  intros Hm [Hf Hs Hd _] Hk. assert (Hi : 0 ≤ k / 16 < dblocks s dir) by dlia. assert (Hj : 0 ≤ k `mod` 16 < 16) by dlia.
  assert (Hi2 : 0 ≤ k / 16 < 1034) by lia. pose proof (Hd _ Hi) as Hp. pose proof (data_bounds s dir _ Hm Hf Hi2 Hp) as Hb.
  unfold entry. split; [lia|]. split; [lia|]. intros x Hx. destruct (fo_ptr _ _ Hf _ Hi2) as [|(Hdb & _)]; [done|].
  apply (touchable_in_block _ (ptr s dir (k / 16))); [exact Hm|by apply data_in_use|lia].
Qed.

(** ** Scanning *)

(** The test of an entry answers [T] and at most moves blocks into the
    cache. *)
Definition tests s (test : Z → FS D bool) (T : Z → bool) (a : Z) : Prop :=
  ∀ s1, csame s s1 → ready s1 → wp (test a) (λ b s2, b = T a ∧ csame s s2 ∧ ready s2) no_stop s1.

Lemma scan_entries_ok test T blk s1 s : csame s s1 → ready s1 → (∀ j, 0 ≤ j < 16 → tests s test T (blk + 256 * j)) →
  wp (scan_entries test blk) (λ o s', (csame s s' ∧ ready s') ∧
    match o with
    | Some f => ∃ j, 0 ≤ j < 16 ∧ f = blk + 256 * j ∧ T f = true ∧ ∀ i, 0 ≤ i < j → T (blk + 256 * i) = false
    | None => ∀ i, 0 ≤ i < 16 → T (blk + 256 * i) = false
    end) no_stop s1.
Proof.
  intros Hs1 Hr1 Ht. unfold scan_entries. change BLKFILES with 16. change SIZEOF_FILE with 256.
  apply (wp_forE_range 0 16 _ (λ j s', (csame s s' ∧ ready s') ∧ ∀ i, 0 ≤ i < j → T (blk + 256 * i) = false)); [lia|split; [done|intros; lia]| |done].
  intros j s2 Hj [[Hs2 Hr2] Hno]. apply wp_bind. eapply wp_mono; [by apply Ht| |done].
  intros b s3 (-> & Hs3 & Hr3). apply wp_ret. destruct (T (blk + 256 * j)) eqn:E.
  - split; [done|]. exists j. split_and!; [lia|lia|done|exact E|exact Hno].
  - split; [done|]. intros i Hi. destruct (decide (i = j)) as [->|]; [exact E|]. apply Hno. lia.
Qed.

Lemma scan_dir_ok test T dir s0 s : csame s s0 → ready s0 → ready s → dir_ok s dir → (∀ k, 0 ≤ k < 16 * dblocks s dir → tests s test T (entry s dir k)) →
  wp (scan_dir test dir (dblocks s dir)) (λ o s', (csame s s' ∧ ready s') ∧
    match o with
    | Some (inr f) => ∃ k, first_entry s dir (16 * dblocks s dir) T k ∧ f = entry s dir k
    | Some (inl _) => False
    | None => no_entry s dir (16 * dblocks s dir) T
    end) no_stop s0.
Proof.
  intros Hs0 Hr0 Hr [Hf Hsz Hd Hn] Ht. pose proof Hr as [Hc Hm]. unfold scan_dir.
  apply (wp_forE_range 0 (dblocks s dir) _ (λ i s', (csame s s' ∧ ready s') ∧ no_entry s dir (16 * i) T)); [lia| | |done].
  { split; [by split|]. intros j Hj. lia. }
  intros i s1 Hi [[Hs1 Hr1] Hno]. pose proof (file_ok_same s s1 dir (cs_view _ _ Hs1) Hm Hf) as Hf1.
  assert (Hp1 : ptr s1 dir i = ptr s dir i) by (apply ptr_same; [apply Hs1|exact Hm|exact Hf|lia]).
  apply wp_bind. eapply wp_mono; [apply file_get_block_there; [exact Hr1|exact Hf1|lia|rewrite Hp1; by apply Hd]| |done].
  intros x s2 (Hs2 & Hr2 & ->). pose proof (csame_trans _ _ _ Hs1 Hs2) as Hs02. rewrite Hp1.
  apply wp_bind. eapply wp_mono; [apply (scan_entries_ok test T _ s2 s Hs02 Hr2)| |done].
  { intros j Hj. rewrite <- entry_split by exact Hj. apply Ht. lia. }
  intros o s3 [Hs3 Ho]. apply wp_ret. destruct o as [f|]; cbn.
  - split; [exact Hs3|]. destruct Ho as (j & Hj & -> & HT & Hbefore). exists (16 * i + j). rewrite entry_split by exact Hj.
    split; [|done]. split; [lia|]. split; [by rewrite entry_split|]. intros m Hm'. destruct (decide (m < 16 * i)) as [|Hge].
    + apply Hno. lia.
    + replace m with (16 * i + (m - 16 * i)) by lia. rewrite entry_split by lia. apply Hbefore. lia.
  - split; [exact Hs3|]. intros m Hm'. destruct (decide (m < 16 * i)) as [|Hge]; [apply Hno; lia|].
    replace m with (16 * i + (m - 16 * i)) by lia. rewrite entry_split by lia. apply Ho. lia.
Qed.

(** ** dir_lookup *)

Definition has_name s (name : list Z) (a : Z) : bool := bool_decide (vname s a = name).

Lemma name_test s dir k name : ready s → dir_ok s dir → 0 ≤ k < 16 * dblocks s dir → Forall (λ c, c ≠ 0) name →
  tests s (λ f, c ← strcmp_mem (f_name f) name; mret (c =? 0)) (has_name s name) (entry s dir k).
Proof.
  intros [Hc Hm] Hd Hk Hn s1 Hs1 Hr1. destruct (entry_addr s dir k Hm Hd Hk) as (Hlo & Hhi & Ht).
  destruct (vname_str s _ (do_names _ _ Hd k Hk)) as [Hv Hl]. apply wp_bind. unfold f_name.
  apply (strcmp_mem_ok name (vname s (entry s dir k))); [apply Hr1| |lia|lia| |].
  - eapply vstr_same; [apply Hs1|lia|lia|exact Hv].
  - intros x Hx. eapply touchable_same; [apply Hs1|]. apply Ht. lia.
  - intros s2 Hs2 Hc2. apply wp_ret. pose proof (csame_trans _ _ _ Hs1 Hs2) as Hs02.
    split; [|split; [exact Hs02|by eapply ready_same; [apply Hs02| |]]]. unfold has_name.
    pose proof (list_strcmp_eq (vname s (entry s dir k)) name (proj1 Hv) Hn) as He. symmetry.
    destruct (decide (vname s (entry s dir k) = name)) as [E|E].
    + rewrite bool_decide_eq_true_2 by exact E. symmetry. by apply Z.eqb_eq, He.
    + rewrite bool_decide_eq_false_2 by exact E. symmetry. apply Z.eqb_neq. by rewrite He.
Qed.

Lemma dir_size s dir : mounted s → dir_ok s dir →
  (Z.rem (fsize s dir) BLKSIZE =? 0) = true ∧ u32 (Z.quot (fsize s dir) BLKSIZE) = dblocks s dir.
Proof.
  intros Hm Hd. destruct (do_size _ _ Hd) as [Hs Hr]. change BLKSIZE with 4096. split.
  - rewrite Z.rem_mod_nonneg by lia. rewrite Hs. apply Z.eqb_eq, Z_mod_mult.
  - rewrite Z.quot_div_nonneg by lia. fold (dblocks s dir). apply u32_small. lia.
Qed.

Lemma dir_lookup_ok dir name s : ready s → dir_ok s dir → Forall (λ c, c ≠ 0) name →
  wp (dir_lookup dir name) (λ x s', (csame s s' ∧ ready s') ∧
    ((∃ k, first_entry s dir (16 * dblocks s dir) (has_name s name) k ∧ x = (0, Some (entry s dir k))) ∨
     no_entry s dir (16 * dblocks s dir) (has_name s name) ∧ x = (- E_NOT_FOUND, None))) no_stop s.
Proof.
  intros Hr Hd Hn. pose proof Hr as [Hc Hm]. unfold dir_lookup. apply wp_bind.
  apply load_size_ok; [exact Hr|apply (do_file _ _ Hd)|]. intros s1 Hs1 Hr1.
  destruct (dir_size s dir Hm Hd) as [-> ->]. apply wp_bind, wp_fassert; [reflexivity|]. apply wp_bind.
  eapply wp_mono; [apply (scan_dir_ok _ (has_name s name) dir s1 s Hs1 Hr1 Hr Hd)| |done].
  { intros k Hk. by apply name_test. }
  intros o s2 [Hs2 Ho]. apply wp_ret. split; [exact Hs2|]. destruct o as [[r|f]|]; [done| |by right].
  left. destruct Ho as (k & Hk & ->). by exists k.
Qed.

(** ** dir_alloc_file *)

Definition unnamed s (a : Z) : bool := vw s a =? 0.

Lemma free_test s dir k : ready s → dir_ok s dir → 0 ≤ k < 16 * dblocks s dir →
  tests s (λ f, c ← load8 (f_name f); mret (c =? 0)) (unnamed s) (entry s dir k).
Proof.
  intros [Hc Hm] Hd Hk s1 Hs1 Hr1. destruct (entry_addr s dir k Hm Hd Hk) as (Hlo & Hhi & Ht). apply wp_bind. unfold f_name.
  apply load8_ok; [apply Hr1|eapply touchable_same; [apply Hs1|apply Ht; lia]|lia|]. intros s2 Hs2 Hc2. apply wp_ret.
  pose proof (csame_trans _ _ _ Hs1 Hs2) as Hs02. rewrite (vs_view _ _ (cs_view _ _ Hs1)) by lia.
  split; [reflexivity|]. split; [exact Hs02|]. by eapply ready_same; [apply Hs02| |].
Qed.

(** ** Lookup as a function *)

Definition entries s (dir : Z) : list Z := entry s dir <$> range 0 (16 * dblocks s dir).
Definition dfind s (dir : Z) (name : list Z) : option Z :=
  snd <$> list_find (λ a, has_name s name a = true) (entries s dir).

Lemma lookup_entries s dir k : 0 ≤ k < 16 * dblocks s dir → entries s dir !! Z.to_nat k = Some (entry s dir k).
Proof.
  intros Hk. unfold entries. rewrite list_lookup_fmap. unfold range. rewrite lookup_seqZ_lt by lia. cbn. f_equal. f_equal. lia.
Qed.

Lemma entries_lookup s dir i a : entries s dir !! i = Some a → 0 ≤ Z.of_nat i < 16 * dblocks s dir ∧ a = entry s dir (Z.of_nat i).
Proof.
  unfold entries. rewrite list_lookup_fmap_Some. intros (x & -> & Hx). unfold range in Hx. apply lookup_seqZ in Hx as [-> Hx].
  split; [lia|]. f_equal.
Qed.

Lemma first_entry_find s dir name k : first_entry s dir (16 * dblocks s dir) (has_name s name) k → dfind s dir name = Some (entry s dir k).
Proof.
  intros (Hk & HT & Hb). unfold dfind. assert (Hf : list_find (λ a, has_name s name a = true) (entries s dir) = Some (Z.to_nat k, entry s dir k)); [|by rewrite Hf].
  apply list_find_Some. split; [by apply lookup_entries|]. split; [exact HT|]. intros j y Hj Hlt.
  apply entries_lookup in Hj as [_ ->]. rewrite Hb by lia. done.
Qed.

Lemma no_entry_find s dir name : no_entry s dir (16 * dblocks s dir) (has_name s name) → dfind s dir name = None.
Proof.
  intros Hno. unfold dfind. replace (list_find (λ a, has_name s name a = true) (entries s dir)) with (@None (nat * Z)); [done|].
  symmetry. apply list_find_None, Forall_forall. intros a (i & Hi)%list_elem_of_lookup. apply entries_lookup in Hi as [Hr ->].
  by rewrite Hno.
Qed.

Lemma dfind_some s dir name a : dfind s dir name = Some a → ∃ k, first_entry s dir (16 * dblocks s dir) (has_name s name) k ∧ a = entry s dir k.
Proof.
  unfold dfind. destruct (list_find _ _) as [[i b]|] eqn:E; [|done]. cbn. intros [= ->].
  apply list_find_Some in E as (Hi & HT & Hb). apply entries_lookup in Hi as [Hr ->]. exists (Z.of_nat i). split; [|done].
  split; [exact Hr|]. split; [exact HT|]. intros j Hj. apply not_true_is_false.
  apply (Hb (Z.to_nat j) (entry s dir j)); [apply lookup_entries; lia|lia].
Qed.

(** dir_lookup computes it. *)
Lemma dir_lookup_find dir name s : ready s → dir_ok s dir → Forall (λ c, c ≠ 0) name →
  wp (dir_lookup dir name) (λ x s', (csame s s' ∧ ready s') ∧
    x = match dfind s dir name with Some f => (0, Some f) | None => (- E_NOT_FOUND, None) end) no_stop s.
Proof.
  intros Hr Hd Hn. eapply wp_mono; [by apply dir_lookup_ok| |done]. intros x s' [Hs Hx]. split; [exact Hs|].
  destruct Hx as [(k & Hk & ->)|[Hno ->]]; [by rewrite (first_entry_find _ _ _ _ Hk)|by rewrite (no_entry_find _ _ _ Hno)].
Qed.

(** Directories only depend on the view. *)
Lemma entry_same s s' dir k : vsame s s' → mounted s → dir_ok s dir → 0 ≤ k < 16 * dblocks s dir → entry s' dir k = entry s dir k.
Proof.
  intros Hv Hm [Hf Hs _ _] Hk. unfold entry. rewrite (ptr_same s s'); [done|exact Hv|exact Hm|exact Hf|].
  destruct Hs. split; [apply Z.div_pos; lia|]. apply Z.div_lt_upper_bound; lia.
Qed.

Lemma fsize_same s s' f : vsame s s' → mounted s → file_ok s f → fsize s' f = fsize s f.
Proof.
  intros Hv Hm Hf. destruct (file_at_range s f Hm (fo_at _ _ Hf)) as (Hlo & Hhi & _). unfold fsize, f_size.
  by rewrite (vw32_same _ _ _ Hv) by lia.
Qed.

Lemma dir_same s s' dir : vsame s s' → mounted s → dir_ok s dir →
  dir_ok s' dir ∧ dblocks s' dir = dblocks s dir ∧ ∀ name, dfind s' dir name = dfind s dir name.
Proof.
  intros Hv Hm Hd. pose proof Hd as [Hf Hs Hdn Hn]. pose proof (fsize_same s s' dir Hv Hm Hf) as Hsz.
  assert (Hdb : dblocks s' dir = dblocks s dir) by (unfold dblocks; by rewrite Hsz).
  assert (Hnm : ∀ k, 0 ≤ k < 16 * dblocks s dir → vname s' (entry s dir k) = vname s (entry s dir k) ∧ (named s' (entry s dir k) ↔ named s (entry s dir k))).
  { intros k Hk. destruct (entry_addr s dir k Hm Hd Hk) as (Hlo & Hhi & _). apply vname_view. intros x Hx. apply Hv. lia. }
  split; [|split; [exact Hdb|]].
  - split; [by eapply file_ok_same|by rewrite Hdb, Hsz| |].
    + intros i Hi. rewrite Hdb in Hi. rewrite (ptr_same s s'); [by apply Hdn|exact Hv|exact Hm|exact Hf|lia].
    + intros k Hk. rewrite Hdb in Hk. rewrite (entry_same s s') by assumption. by apply Hnm, Hn.
  - intros name. unfold dfind.
    assert (He : entries s' dir = entries s dir).
    { unfold entries. rewrite Hdb. apply list_fmap_ext. intros i k Hk. apply list_elem_of_lookup_2, elem_of_range in Hk. by apply entry_same. }
    rewrite He.
    assert (Hfe : list_find (λ a, has_name s' name a = true) (entries s dir) = list_find (λ a, has_name s name a = true) (entries s dir)).
    { apply list_find_local, Forall_forall. intros a (i & Ha)%list_elem_of_lookup. apply entries_lookup in Ha as [Hr ->]. unfold has_name.
      rewrite !bool_decide_eq_true. by rewrite (proj1 (Hnm _ Hr)). }
    rewrite Hfe. reflexivity.
Qed.

End FsDir.
