(* ===== verification/FsPath.v ===== *)
(** * Paths

    walk_path (fs/fs.c) against a reference: the components of a path are
    the non-empty words between its slashes ([path_names]), and a path is
    resolved by looking its components up one after the other ([resolve]).
    [reachable] are the files below the root; in a file system whose
    reachable directories are well formed ([tree_ok]) walk_path computes
    [resolve] for every path. *)

From S2P Require Import Prelude Mmu CMem Str FsState Ide Bc Fs IdeProofs BcProofs BcMem FsAlloc FsInit FsFile FsData FsRw FsDir.

(** ** Components of a path *)

Fixpoint split_slash (p : list Z) : list (list Z) :=
  match p with
  | [] => [[]]
  | c :: p' =>
      if c =? 47 then [] :: split_slash p'
      else match split_slash p' with w :: ws => (c :: w) :: ws | [] => [[c]] end
  end.
Definition path_names (p : list Z) : list (list Z) := filter (λ w, w ≠ []) (split_slash p).

Lemma split_slash_ne p : split_slash p ≠ [].
Proof. destruct p as [|c p]; cbn; [done|]. destruct (c =? 47); [done|]. by destruct (split_slash p). Qed.

Lemma path_names_skip p : path_names (skip_slash p) = path_names p.
Proof. induction p as [|c p IH]; [done|]. cbn [skip_slash]. destruct (c =? 47) eqn:E; [|done]. rewrite IH. unfold path_names. cbn. by rewrite E. Qed.

(** path_elem takes the first word off. *)
Lemma split_elem p n r : path_elem p = (n, r) →
  split_slash p = n :: (match r with [] => [] | _ :: r' => split_slash r' end) ∧
  (r = [] ∨ ∃ r', r = 47 :: r') ∧ p = n ++ r.
Proof.
  revert n r. induction p as [|c p IH]; intros n r; cbn.
  - intros [= <- <-]. split; [done|]. split; [by left|done].
  - destruct (c =? 47) eqn:E.
    + intros [= <- <-]. apply Z.eqb_eq in E as ->. split; [done|]. split; [right; by exists p|done].
    + destruct (path_elem p) as [n' r'] eqn:Ep. intros [= <- <-]. destruct (IH n' r' eq_refl) as (H1 & H2 & H3).
      rewrite H1. split; [done|]. split; [exact H2|]. by rewrite H3.
Qed.

Lemma skip_slash_head p c q : skip_slash p = c :: q → c ≠ 47.
Proof. induction p as [|d p IH]; [done|]. cbn. destruct (d =? 47) eqn:E; [exact IH|]. intros [= -> ->]. lia. Qed.
Lemma skip_slash_length p : (length (skip_slash p) ≤ length p)%nat.
Proof. induction p as [|c p IH]; cbn; [lia|]. destruct (c =? 47); cbn; lia. Qed.
Lemma skip_slash_idem p : skip_slash (skip_slash p) = skip_slash p.
Proof. induction p as [|c p IH]; [done|]. cbn. destruct (c =? 47) eqn:E; [done|]. cbn. by rewrite E. Qed.

(** One round of the loop of walk_path. *)
Lemma path_step p c q n r : p = c :: q → c ≠ 47 → path_elem p = (n, r) →
  n ≠ [] ∧ path_names p = n :: path_names (skip_slash r) ∧ (length (skip_slash r) < length p)%nat.
Proof.
  intros -> Hc He. destruct (split_elem _ _ _ He) as (H1 & H2 & H3).
  assert (Hn : n ≠ []).
  { intros ->. cbn in He. replace (c =? 47) with false in He by lia. destruct (path_elem q). discriminate. }
  split; [exact Hn|]. rewrite path_names_skip. unfold path_names at 1. rewrite H1. split.
  - rewrite filter_cons_True by exact Hn. f_equal. destruct H2 as [->|[r' ->]]; [done|]. unfold path_names. cbn. done.
  - pose proof (skip_slash_length r). rewrite H3, length_app. destruct n; [done|]. cbn. lia.
Qed.

Lemma path_names_nil p : skip_slash p = p → path_names p = [] → p = [].
Proof.
  intros Hs Hn. destruct p as [|c q] eqn:Ep; [done|]. rewrite <- Ep in *. destruct (path_elem p) as [n r] eqn:E.
  assert (Hc : c ≠ 47) by (eapply (skip_slash_head p); by rewrite Hs, Ep).
  destruct (path_step p c q n r Ep Hc E) as (_ & H2 & _). congruence.
Qed.

(** ** Resolution *)

Section FsPath.
Context {D : Type} `{AtaDisk D}.
Implicit Types s : FState D.

Definition ftype s (f : Z) : Z := vw32 s (f_type f).

(** The files below the root directory. *)
Inductive reachable s : Z → Prop :=
| reach_root : reachable s (s_root SUPER)
| reach_entry d k : reachable s d → ftype s d = FTYPE_DIR → 0 ≤ k < 16 * dblocks s d → vname s (entry s d k) ≠ [] →
    reachable s (entry s d k).

Definition tree_ok s : Prop := ∀ d, reachable s d → ftype s d = FTYPE_DIR → dir_ok s d.

Definition failed (r : Z) : walk := {| w_ret := r; w_dir := None; w_file := None; w_last := [] |}.

(** What walk_path answers for the components [names], starting in [f]. *)
Fixpoint resolve s (dir : option Z) (f : Z) (names : list (list Z)) : walk :=
  match names with
  | [] => {| w_ret := 0; w_dir := dir; w_file := Some f; w_last := [] |}
  | n :: rest =>
      if decide (128 ≤ length n)%nat then failed (- E_BAD_PATH)
      else if decide (ftype s f ≠ FTYPE_DIR) then failed (- E_NOT_FOUND)
      else match dfind s f n with
           | Some f' => resolve s (Some f) f' rest
           | None => if decide (rest = [])
                     then {| w_ret := - E_NOT_FOUND; w_dir := Some f; w_file := None; w_last := n |}
                     else failed (- E_NOT_FOUND)
           end
  end.

Lemma dfind_reachable s d n f : reachable s d → ftype s d = FTYPE_DIR → n ≠ [] → dfind s d n = Some f → reachable s f.
Proof.
  intros Hr Ht Hn Hd. apply dfind_some in Hd as (k & (Hk & HT & _) & ->). apply bool_decide_eq_true in HT.
  apply reach_entry; [exact Hr|exact Ht|exact Hk|]. by rewrite HT.
Qed.

(** Entries of a data block are file descriptors. *)
Lemma entry_file_at s b k : mounted s → data_block s b → 0 ≤ k < 16 → file_at s (DISKMAP + b * 4096 + 256 * k).
Proof.
  intros Hm Hdb Hk. pose proof (mo_size _ Hm) as Hn. pose proof (nbitmap_range s Hn) as Hnb. pose proof Hdb as [Hb _].
  split; [apply in_cache_addr; unfold NBLK; lia|]. split; [change DISKMAP with (65536 * 4096); dlia|].
  split; [change DISKMAP with (65536 * 4096); dlia|]. right. by rewrite blk_addr by lia.
Qed.

(** A reachable file is a file descriptor. *)
Lemma reachable_at s f : mounted s → tree_ok s → reachable s f → file_at s f.
Proof.
  intros Hm Ht Hr. destruct Hr as [|d k Hr Hty Hk _].
  - split; [reflexivity|]. split; [reflexivity|]. split; [done|by left].
  - pose proof (Ht d Hr Hty) as [Hf Hs Hd _]. assert (Hi : 0 ≤ k / 16 < dblocks s d) by dlia. assert (Hj : 0 ≤ k `mod` 16 < 16) by dlia.
    destruct (fo_ptr _ _ Hf (k / 16) ltac:(lia)) as [Hz|(Hdb & _)]; [by apply Hd in Hz|]. by apply entry_file_at.
Qed.

Lemma ftype_same s s' f : vsame s s' → mounted s → file_at s f → ftype s' f = ftype s f.
Proof. intros Hv Hm Hf. destruct (file_at_range s f Hm Hf) as (Hlo & Hhi & _). apply (vw32_same _ _ _ Hv); unfold f_type; lia. Qed.

Lemma path_elem_nonzero p n r : Forall (λ c, c ≠ 0) p → path_elem p = (n, r) → Forall (λ c, c ≠ 0) n ∧ Forall (λ c, c ≠ 0) (skip_slash r).
Proof.
  intros Hp He. destruct (split_elem _ _ _ He) as (_ & _ & ->). apply Forall_app in Hp as [H1 H2]. split; [exact H1|].
  clear -H2. induction r as [|c r IH]; [done|]. cbn. destruct (c =? 47); [|done]. apply IH. by inversion H2.
Qed.

(** The directories a walk visits are well formed. *)
Fixpoint walk_ok s (f : Z) (names : list (list Z)) : Prop :=
  file_at s f ∧
  match names with
  | [] => True
  | n :: rest =>
      ftype s f = FTYPE_DIR → dir_ok s f ∧ match dfind s f n with Some f' => walk_ok s f' rest | None => True end
  end.

Lemma tree_walk_ok s names : mounted s → tree_ok s → Forall (λ n, n ≠ []) names → ∀ f, reachable s f → walk_ok s f names.
Proof.
  intros Hm Ht Hn. induction Hn as [|n rest Hn _ IH]; intros f Hf; (split; [by apply reachable_at|]); [done|].
  intros Hty. split; [by apply Ht|]. destruct (dfind s f n) as [f'|] eqn:E; [|done]. by eapply IH, dfind_reachable.
Qed.

Lemma walk_loop_ok s : ready s → ∀ fuel path dir f s1, csame s s1 → ready s1 → walk_ok s f (path_names path) →
  skip_slash path = path → Forall (λ c, c ≠ 0) path → (length path < fuel)%nat →
  wp (walk_loop fuel path dir f) (λ w s', (csame s s' ∧ ready s') ∧ w = resolve s dir f (path_names path)) no_stop s1.
Proof.
  intros Hr. pose proof Hr as [Hc Hm]. induction fuel as [|fuel IH]; intros path dir f s1 Hs1 Hr1 Hf Hsk Hnz Hfuel; [lia|].
  cbn [walk_loop]. destruct path as [|c q] eqn:Ep; [by apply wp_ret|]. rewrite <- Ep in *.
  assert (Hc0 : c ≠ 47) by (eapply (skip_slash_head path); by rewrite Hsk, Ep).
  destruct (path_elem path) as [n r] eqn:Ee. destruct (path_step path c q n r Ep Hc0 Ee) as (Hn & Hnames & Hlen). rewrite Hnames in *.
  destruct (path_elem_nonzero _ _ _ Hnz Ee) as [Hn0 Hr0]. cbn [resolve]. change MAXNAMELEN with 128.
  destruct (decide (128 ≤ length n)%nat) as [Hl|Hl].
  { replace (Z.of_nat (length n) >=? 128) with true by lia. by apply wp_ret. }
  replace (Z.of_nat (length n) >=? 128) with false by lia.
  destruct Hf as [Hat Hf]. apply wp_bind.
  assert (Hat1 : file_at s1 f) by (eapply file_at_same; [apply Hs1|exact Hm|exact Hat]).
  apply (load_field f 132); [exact Hr1|exact Hat1|lia|lia|done|]. intros s2 Hs2 Hr2. change (vw32 s1 (f + 132)) with (ftype s1 f).
  pose proof (csame_trans _ _ _ Hs1 Hs2) as Hs02. rewrite (ftype_same s s1 f (cs_view _ _ Hs1) Hm Hat).
  destruct (decide (ftype s f ≠ FTYPE_DIR)) as [Hty|Hty].
  { replace (ftype s f =? FTYPE_DIR) with false by lia. by apply wp_ret. }
  assert (Hty' : ftype s f = FTYPE_DIR) by lia. replace (ftype s f =? FTYPE_DIR) with true by lia. cbn [negb].
  destruct (Hf Hty') as [Hd Hrest]. destruct (dir_same s s2 f (cs_view _ _ Hs02) Hm Hd) as (Hd2 & _ & Hfind).
  apply wp_bind. eapply wp_mono; [exact (dir_lookup_find f n s2 Hr2 Hd2 Hn0)| |done]. intros x s3 [[Hs3 Hr3] ->]. rewrite Hfind.
  pose proof (csame_trans _ _ _ Hs02 Hs3) as Hs03. destruct (dfind s f n) as [f'|] eqn:Ed.
  - apply IH; [exact Hs03|exact Hr3|exact Hrest|apply skip_slash_idem|exact Hr0|lia].
  - apply wp_ret. split; [by split|]. rewrite Z.eqb_refl. cbn [andb]. destruct (decide (path_names (skip_slash r) = [])) as [Hz|Hz].
    + rewrite bool_decide_eq_true_2; [reflexivity|]. apply path_names_nil; [apply skip_slash_idem|exact Hz].
    + rewrite bool_decide_eq_false_2; [reflexivity|]. intros E. by rewrite E in Hz.
Qed.

Lemma walk_path_ok path s : ready s → walk_ok s (s_root SUPER) (path_names path) → Forall (λ c, c ≠ 0) path →
  wp (walk_path path) (λ w s', (csame s s' ∧ ready s') ∧ w = resolve s None (s_root SUPER) (path_names path)) no_stop s.
Proof.
  intros Hr Ht Hnz. unfold walk_path. apply wp_bind, wp_gets. rewrite (mo_super _ (proj2 Hr)). rewrite <- (path_names_skip path) in *.
  apply walk_loop_ok; [exact Hr|apply csame_refl|exact Hr|exact Ht|apply skip_slash_idem| |lia].
  clear -Hnz. induction path as [|c p IH]; [done|]. cbn. destruct (c =? 47); [|done]. apply IH. by inversion Hnz.
Qed.

Lemma path_names_ne p : Forall (λ n, n ≠ []) (path_names p).
Proof. apply Forall_forall. intros n Hn. by apply list_elem_of_filter in Hn as [? _]. Qed.

End FsPath.
