(* ===== verification/FsCreate.v ===== *)
(** * Creating files

    dir_alloc_file and file_create (fs/fs.c).  A new entry is the first one
    without a name, or the first of a fresh block of zeroes ([extended]).
    file_create gives it the name: the directory finds the new file under its
    name and every other name as before, and the directory is on the disk. *)

From S2P Require Import Prelude Mmu CMem Str FsState Ide Bc Fs IdeProofs BcProofs BcMem FsAlloc FsInit FsFile FsData FsRw FsSync FsTrunc FsIso FsDir FsPath.

Section FsCreate.
Context {D : Type} `{AtaDisk D}.
Implicit Types s : FState D.

(** ** Entries of a directory *)

Lemma unnamed_name s a : unnamed s a = true ↔ vname s a = [].
Proof.
  unfold unnamed, vname, vws. rewrite Z.eqb_eq. unfold range. rewrite (seqZ_cons 0) by lia. cbn. rewrite Z.add_0_r.
  destruct (vw s a =? 0) eqn:E; [split; [done|lia]|split; [lia|done]].
Qed.

Lemma zero_named s a : (∀ x, a ≤ x < a + 128 → vw s x = 0) → vname s a = [] ∧ named s a.
Proof.
  intros Hz. split; [apply unnamed_name; unfold unnamed; rewrite Hz by lia; done|].
  unfold named. apply list_elem_of_lookup. exists 0%nat. change 0%nat with (Z.to_nat 0). rewrite lookup_vws by lia. f_equal. apply Hz. lia.
Qed.

(** Giving a name to one entry, possibly after adding unnamed ones. *)
Record renamed s s' (dir k0 : Z) (name : list Z) : Prop := {
  rn_more : dblocks s dir ≤ dblocks s' dir;
  rn_entry : ∀ k, 0 ≤ k < 16 * dblocks s dir → entry s' dir k = entry s dir k;
  rn_at : 0 ≤ k0 < 16 * dblocks s' dir;
  rn_was : k0 < 16 * dblocks s dir → vname s (entry s dir k0) = [];
  rn_name : vname s' (entry s' dir k0) = name;
  rn_old : ∀ k, 0 ≤ k < 16 * dblocks s dir → k ≠ k0 → vname s' (entry s dir k) = vname s (entry s dir k);
  rn_new : ∀ k, 16 * dblocks s dir ≤ k < 16 * dblocks s' dir → k ≠ k0 → vname s' (entry s' dir k) = []
}.

Lemma dfind_none s dir name k : dfind s dir name = None → 0 ≤ k < 16 * dblocks s dir → vname s (entry s dir k) ≠ name.
Proof.
  unfold dfind. destruct (list_find _ _) as [[i a]|] eqn:E; [done|]. intros _ Hk Hn. apply list_find_None in E.
  rewrite Forall_lookup in E. apply (E _ _ (lookup_entries s dir k Hk)). by apply bool_decide_eq_true_2.
Qed.

Lemma renamed_other s s' dir k0 name n' k : renamed s s' dir k0 name → n' ≠ name → n' ≠ [] → 0 ≤ k < 16 * dblocks s' dir →
  has_name s' n' (entry s' dir k) = if decide (k < 16 * dblocks s dir) then has_name s n' (entry s dir k) else false.
Proof.
  intros [H1 H2 H3 H4 H5 H6 H7] Hn Hn0 Hk. unfold has_name.
  destruct (decide (k = k0)) as [->|Hne].
  - rewrite H5. rewrite bool_decide_eq_false_2 by done. case_decide; [|done]. rewrite H4 by done. by rewrite bool_decide_eq_false_2 by done.
  - case_decide as Hlt; [by rewrite H2, H6 by lia|]. rewrite H7 by lia. by rewrite bool_decide_eq_false_2 by done.
Qed.

Lemma renamed_find s s' dir k0 name : renamed s s' dir k0 name → name ≠ [] → dfind s dir name = None →
  dfind s' dir name = Some (entry s' dir k0) ∧ ∀ n', n' ≠ name → n' ≠ [] → dfind s' dir n' = dfind s dir n'.
Proof.
  intros Hren Hne Hno. pose proof Hren as [H1 H2 H3 H4 H5 H6 H7]. split.
  - apply first_entry_find. split; [exact H3|]. split; [by apply bool_decide_eq_true_2|]. intros j Hj. apply bool_decide_eq_false_2.
    destruct (decide (j < 16 * dblocks s dir)); [rewrite H2, H6 by lia; apply dfind_none; [exact Hno|lia]|].
    rewrite H7 by lia. intros <-. done.
  - intros n' Hn Hn0. destruct (dfind s dir n') as [a|] eqn:E.
    + apply dfind_some in E as (k & (Hk & HT & Hb) & ->). rewrite <- H2 by lia. apply first_entry_find.
      split; [lia|]. split; [rewrite (renamed_other s s' dir k0 name) by (done || lia); by rewrite decide_True by lia|].
      intros j Hj. rewrite (renamed_other s s' dir k0 name) by (done || lia). rewrite decide_True by lia. apply Hb. lia.
    + apply no_entry_find. intros j Hj. rewrite (renamed_other s s' dir k0 name) by (done || lia).
      case_decide; [|done]. apply bool_decide_eq_false_2. apply dfind_none; [exact E|lia].
Qed.

(** ** dir_alloc_file *)

(** The directory has one more block, of zeroes. *)
Record extended s s' (dir : Z) : Prop := {
  ex_step : fstep s s' dir (λ x, dir + 128 ≤ x < dir + 132);
  ex_dir : dir_ok s' dir;
  ex_blocks : dblocks s' dir = dblocks s dir + 1;
  ex_ptr : ∀ i, 0 ≤ i < dblocks s dir → ptr s' dir i = ptr s dir i;
  ex_new : ptr s' dir (dblocks s dir) ≠ 0 ∧ is_free s (ptr s' dir (dblocks s dir)) = true;
  ex_zero : ∀ o, 0 ≤ o < 4096 → vw s' (DISKMAP + ptr s' dir (dblocks s dir) * 4096 + o) = 0;
  ex_tight : tight s' dir
}.

Definition entry_alloc s (dir r : Z) (o : option Z) s' : Prop :=
  (∃ k, first_entry s dir (16 * dblocks s dir) (unnamed s) k ∧ r = 0 ∧ o = Some (entry s dir k) ∧ csame s s' ∧ ready s') ∨
  no_entry s dir (16 * dblocks s dir) (unnamed s) ∧
  (r = 0 ∧ o = Some (entry s' dir (16 * dblocks s dir)) ∧ extended s s' dir ∨
   r = - E_NO_DISK ∧ o = None ∧ no_free s' ∧ fstep s s' dir (λ x, dir + 128 ≤ x < dir + 132) ∧
     fsize s' dir = fsize s dir + 4096).

Lemma size_field_data s dir i o : mounted s → file_ok s dir → 0 ≤ i < 1034 → ptr s dir i ≠ 0 → 0 ≤ o < 4096 →
  ¬ (dir + 128 ≤ DISKMAP + ptr s dir i * 4096 + o < dir + 132).
Proof.
  intros Hm Hf Hi Hp Ho Hx. destruct (fo_ptr _ _ Hf i Hi) as [|(_ & Hne & _)]; [done|]. apply Hne.
  destruct (fo_at _ _ Hf) as (Hca & _ & Hin & _). destruct (addr_split dir Hca) as [He Hmod]. lia.
Qed.

(** The blocks a file has keep their contents while it grows. *)
Lemma fstep_old_data s s' dir i o : mounted s → file_ok s dir → fstep s s' dir (λ x, dir + 128 ≤ x < dir + 132) →
  0 ≤ i < 1034 → ptr s dir i ≠ 0 → 0 ≤ o < 4096 →
  ptr s' dir i = ptr s dir i ∧ vw s' (DISKMAP + ptr s dir i * 4096 + o) = vw s (DISKMAP + ptr s dir i * 4096 + o).
Proof.
  intros Hm Hf Hst Hi Hp Ho. destruct (untouched_data s dir i o Hm Hf Hi Hp Ho) as [Hun Hr].
  split; [by destruct (fs_ptr _ _ _ _ Hst i Hi) as [|[]]|]. apply (fs_view _ _ _ _ Hst); [exact Hr|exact Hun|by apply size_field_data].
Qed.

(** A directory after adding a block of zeroes. *)
Lemma extended_dir s s' dir : mounted s → dir_ok s dir → dblocks s dir < 1034 →
  fstep s s' dir (λ x, dir + 128 ≤ x < dir + 132) → fsize s' dir = fsize s dir + 4096 → ptr s' dir (dblocks s dir) ≠ 0 →
  (∀ o, 0 ≤ o < 4096 → vw s' (DISKMAP + ptr s' dir (dblocks s dir) * 4096 + o) = 0) → dir_ok s' dir ∧ dblocks s' dir = dblocks s dir + 1.
Proof.
  intros Hm [Hf [Hs1 Hs2] Hd Hn] Hlt Hst Hsz Hp Hz.
  assert (Hdb : dblocks s' dir = dblocks s dir + 1).
  { unfold dblocks at 1. rewrite Hsz, Hs1. rewrite Z.div_add_l by lia. done. }
  split; [|exact Hdb]. split; [apply Hst|rewrite Hdb; lia| |].
  - intros i Hi. rewrite Hdb in Hi. destruct (decide (i = dblocks s dir)) as [->|]; [exact Hp|].
    rewrite (proj1 (fstep_old_data s s' dir i 0 Hm Hf Hst ltac:(lia) (Hd i ltac:(lia)) ltac:(lia))). apply Hd. lia.
  - intros k Hk. rewrite Hdb in Hk. assert (Hq : 0 ≤ k `mod` 16 < 16) by dlia. destruct (decide (k / 16 = dblocks s dir)) as [Hq2|Hq2].
    + apply zero_named. intros x Hx. unfold entry in Hx. rewrite Hq2 in Hx.
      replace x with (DISKMAP + ptr s' dir (dblocks s dir) * 4096 + (x - (DISKMAP + ptr s' dir (dblocks s dir) * 4096))) by lia. apply Hz. lia.
    + assert (Hi : 0 ≤ k / 16 < dblocks s dir) by dlia. assert (Hk2 : 0 ≤ k < 16 * dblocks s dir) by dlia.
      assert (He : entry s' dir k = entry s dir k).
      { unfold entry. by rewrite (proj1 (fstep_old_data s s' dir (k / 16) 0 Hm Hf Hst ltac:(lia) (Hd _ Hi) ltac:(lia))). }
      rewrite He. apply (vname_view s s'); [|by apply Hn]. intros x Hx. unfold entry in Hx.
      replace x with (DISKMAP + ptr s dir (k / 16) * 4096 + (x - (DISKMAP + ptr s dir (k / 16) * 4096))) by lia.
      apply (fstep_old_data s s' dir (k / 16)); [exact Hm|exact Hf|exact Hst|lia|by apply Hd|lia].
Qed.

(** Storing the size, then getting the block behind the old end. *)
Lemma extend_ok s dir s1 : ready s → dir_ok s dir → tight s dir → dblocks s dir < 1034 → csame s s1 → ready s1 →
  wp (store32 (f_size dir) (fsize s dir + BLKSIZE) ;;
      '(r, ob) ← file_get_block dir (dblocks s dir);
      mret (match ob with None => (r, None) | Some blk => (0, Some blk) end))
    (λ '(r, o) s', r = 0 ∧ o = Some (entry s' dir (16 * dblocks s dir)) ∧ extended s s' dir ∨
       r = - E_NO_DISK ∧ o = None ∧ no_free s' ∧ fstep s s' dir (λ x, dir + 128 ≤ x < dir + 132) ∧
         fsize s' dir = fsize s dir + 4096) no_stop s1.
Proof.
  intros Hr Hd Ht Hlt Hs1 Hr1. pose proof Hr as [Hc Hm]. pose proof Hd as [Hf [Hz1 Hz2] Hdn Hnm].
  pose proof (file_ok_same s s1 dir (cs_view _ _ Hs1) Hm Hf) as Hf1.
  destruct (file_at_range s dir Hm (fo_at _ _ Hf)) as (Hlo & Hhi & _). assert (Hfal : dir `mod` 4 = 0) by apply Hf.
  apply wp_bind, store32_ok; [apply Hr1| |unfold f_size; lia|unfold f_size; lia|unfold f_size; dlia|].
  { apply touchable_file; [apply Hr1|apply Hf1|lia]. }
  intros s2 Hput Hc2. destruct (put_size_field s1 dir _ s2 Hr1 Hf1 Hput Hc2) as (Hst2 & Hsz2 & Hptr2 & _).
  rewrite u32_small in Hsz2 by (change BLKSIZE with 4096; lia). rewrite s32_small in Hsz2 by (change BLKSIZE with 4096; lia).
  change BLKSIZE with 4096 in Hsz2. pose proof (fs_ready _ _ _ _ Hst2) as Hr2. pose proof (fs_file _ _ _ _ Hst2) as Hf2.
  assert (Hst02 : fstep s s2 dir (λ x, dir + 128 ≤ x < dir + 132)).
  { eapply fstep_trans; [apply (grows_fstep _ _ _ (λ x, dir + 128 ≤ x < dir + 132)), (grows_same s s1 dir (cs_view _ _ Hs1) Hr1 Hm Hf)|exact Hst2|].
    cbn. tauto. }
  assert (Hp02 : ∀ i, 0 ≤ i < 1034 → ptr s2 dir i = ptr s dir i).
  { intros i Hi. rewrite Hptr2 by exact Hi. apply ptr_same; [apply Hs1|exact Hm|exact Hf|exact Hi]. }
  apply wp_bind. eapply wp_mono; [apply file_get_block_ok; [exact Hr2|exact Hf2|lia]| |done].
  intros [r o] s3 (Hg & Hoth & Hres). pose proof (grows_fsize s2 s3 dir (proj2 Hr2) Hf2 Hg) as Hsz3. rewrite Hsz2 in Hsz3. apply wp_ret.
  assert (Hst03 : fstep s s3 dir (λ x, dir + 128 ≤ x < dir + 132)).
  { eapply fstep_trans; [exact Hst02|by apply (grows_fstep _ _ _ (λ _, False))|by intros ? ? ? []]. }
  destruct Hres as [(-> & -> & Hno & _)|(-> & Hnz & ->)]; [right; split_and!; done|left].
  assert (Hpn : ptr s dir (dblocks s dir) = 0).
  { apply Ht. unfold blocks_for. split; [|lia]. rewrite Hz1, Z.div_add_l by lia. change (4095 / 4096) with 0. lia. }
  assert (Hrng : 0 ≤ dblocks s dir < 1034) by (split; [apply Hz2|exact Hlt]). destruct (gr_ptr _ _ _ Hg (dblocks s dir) Hrng) as [E|(_ & _ & Hfree & Hzero)]; [rewrite E, Hp02, Hpn in Hnz by lia; done|].
  destruct (extended_dir s s3 dir Hm Hd Hlt Hst03 Hsz3 Hnz Hzero) as [Hd3 Hdb3].
  split; [done|]. split; [f_equal; unfold entry; replace (16 * dblocks s dir / 16) with (dblocks s dir) by dlia;
    replace ((16 * dblocks s dir) `mod` 16) with 0 by dlia; lia|].
  split; [exact Hst03|exact Hd3|exact Hdb3| | |exact Hzero|].
  - intros i Hi. apply (fstep_old_data s s3 dir i 0 Hm Hf Hst03); [lia|by apply Hdn|lia].
  - split; [exact Hnz|]. destruct (is_free s (ptr s3 dir (dblocks s dir))) eqn:E; [done|exfalso].
    pose proof (data_range s3 dir _ (proj2 (gr_ready _ _ _ Hg)) (gr_file _ _ _ Hg) Hrng Hnz) as Hrg.
    rewrite (gr_nblocks _ _ _ Hg), (fs_nblocks _ _ _ _ Hst02) in Hrg.
    rewrite (fs_used _ _ _ _ Hst02) in Hfree; [done|lia|exact E].
  - intros i Hi. unfold blocks_for in Hi. rewrite Hsz3, Hz1 in Hi.
    replace (dblocks s dir * 4096 + 4096 + 4095) with ((dblocks s dir + 1) * 4096 + 4095) in Hi by lia.
    rewrite Z.div_add_l in Hi by lia. change (4095 / 4096) with 0 in Hi. rewrite Hoth, Hp02 by lia. apply Ht.
    unfold blocks_for. rewrite Hz1, Z.div_add_l by lia. change (4095 / 4096) with 0. lia.
Qed.

Lemma dir_alloc_file_ok dir s : ready s → dir_ok s dir → tight s dir → dblocks s dir < 1034 →
  wp (dir_alloc_file dir) (λ '(r, o) s', entry_alloc s dir r o s') no_stop s.
Proof.
  intros Hr Hd Ht Hlt. pose proof Hr as [Hc Hm]. unfold dir_alloc_file. apply wp_bind.
  apply load_size_ok; [exact Hr|apply (do_file _ _ Hd)|]. intros s1 Hs1 Hr1.
  destruct (dir_size s dir Hm Hd) as [-> ->]. apply wp_bind, wp_fassert; [reflexivity|]. apply wp_bind.
  eapply wp_mono; [apply (scan_dir_ok _ (unnamed s) dir s1 s Hs1 Hr1 Hr Hd); intros k Hk; by apply free_test| |done].
  intros [[|f]|] s2 [[Hs2 Hr2] Hx]; [done| |].
  - destruct Hx as (k & Hk & ->). apply wp_ret. left. exists k. by split_and!.
  - eapply wp_mono; [by apply (extend_ok s dir s2 Hr Hd Ht Hlt Hs2 Hr2)| |done]. intros [r o] s3 Hres. right. by split.
Qed.

(** ** Naming an entry *)

Record named_entry s s' (dir k : Z) (name : list Z) : Prop := {
  ne_step : fstep s s' dir (λ x, entry s dir k ≤ x < entry s dir k + 128);
  ne_ptr : ∀ i, 0 ≤ i < 1034 → ptr s' dir i = ptr s dir i;
  ne_dir : dir_ok s' dir;
  ne_size : fsize s' dir = fsize s dir;
  ne_name : vname s' (entry s dir k) = name;
  ne_other : ∀ j, 0 ≤ j < 16 * dblocks s dir → j ≠ k → vname s' (entry s dir j) = vname s (entry s dir j)
}.

Lemma entry_in_block s dir k : entry s dir k = DISKMAP + ptr s dir (k / 16) * 4096 + 256 * (k `mod` 16).
Proof. reflexivity. Qed.

(** Entries do not overlap. *)
Lemma entry_apart s dir j k : dir_ok s dir → 0 ≤ j < 16 * dblocks s dir → 0 ≤ k < 16 * dblocks s dir → j ≠ k →
  entry s dir j + 256 ≤ entry s dir k ∨ entry s dir k + 256 ≤ entry s dir j.
Proof.
  intros [Hf Hs Hd _] Hj Hk Hne. rewrite !entry_in_block. assert (Hq1 : 0 ≤ j / 16 < dblocks s dir) by dlia.
  assert (Hq2 : 0 ≤ k / 16 < dblocks s dir) by dlia. assert (Hr1 : 0 ≤ j `mod` 16 < 16) by dlia. assert (Hr2 : 0 ≤ k `mod` 16 < 16) by dlia.
  destruct (decide (j / 16 = k / 16)) as [E|E]; [rewrite E; dlia|].
  pose proof (fo_inj _ _ Hf (j / 16) (k / 16) ltac:(lia) ltac:(lia) E (Hd _ Hq1)) as Hp. lia.
Qed.

Lemma named_entry_state s s' dir k name : ready s → dir_ok s dir → 0 ≤ k < 16 * dblocks s dir →
  Forall (λ c, c ≠ 0) name → (length name < 128)%nat → vput s s' (entry s dir k) (name ++ [0]) → cache_ok s' →
  named_entry s s' dir k name.
Proof.
  intros Hr Hd Hk Hnz Hlen Hput Hc'. pose proof Hr as [Hc Hm]. pose proof Hd as [Hf Hs Hdn Hnm].
  assert (Hq : 0 ≤ k / 16 < dblocks s dir) by dlia. assert (Hq2 : 0 ≤ k `mod` 16 < 16) by dlia. assert (Hi : 0 ≤ k / 16 < 1034) by lia.
  destruct (entry_addr s dir k Hm Hd Hk) as (Hlo & Hhi & _). assert (Hl : Z.of_nat (length (name ++ [0])) ≤ 128) by (rewrite length_app; cbn; lia).
  destruct (put_fstep s s' dir (entry s dir k) (name ++ [0]) Hr Hf Hput Hc') as (Hst & _ & Hptr); [lia| |].
  { rewrite entry_in_block. apply data_clear; [exact Hm|exact Hf|exact Hi|by apply Hdn|lia|lia|lia]. }
  assert (Hsz : fsize s' dir = fsize s dir).
  { unfold fsize. f_equal. apply (vput_out32 _ _ _ _ _ Hput); unfold f_size; destruct (file_at_range s dir Hm (fo_at _ _ Hf)) as (Hl1 & Hl2 & _); [lia|lia|].
    destruct (fo_ptr _ _ Hf _ Hi) as [Hz|(_ & Hne & _)]; [destruct (Hdn _ Hq Hz)|].
    destruct (fo_at _ _ Hf) as (Hca & _ & Hin & _). destruct (addr_split dir Hca) as [He Hmod]. rewrite entry_in_block. lia. }
  assert (Hdb : dblocks s' dir = dblocks s dir) by (unfold dblocks; by rewrite Hsz).
  assert (Hent : ∀ j, 0 ≤ j < 16 * dblocks s dir → entry s' dir j = entry s dir j).
  { intros j Hj. rewrite !entry_in_block, Hptr; [done|]. clear -Hj Hs. dlia. }
  assert (Hother : ∀ j, 0 ≤ j < 16 * dblocks s dir → j ≠ k → vname s' (entry s dir j) = vname s (entry s dir j) ∧ named s' (entry s dir j)).
  { intros j Hj Hne. destruct (vname_view s s' (entry s dir j)) as [E1 E2]; [|split; [exact E1|by apply E2, Hnm]].
    intros x Hx. destruct (entry_addr s dir j Hm Hd Hj) as (? & ? & _). apply (vput_out _ _ _ _ _ Hput); [lia|].
    destruct (entry_apart s dir j k Hd Hj Hk Hne); lia. }
  assert (Hname : vname s' (entry s dir k) = name ∧ named s' (entry s dir k)).
  { apply vstr_vname; [|exact Hlen]. destruct Hput as [_ Hv]. split; [exact Hnz|]. split.
    - intros i c Hc2. pose proof (lookup_lt_Some _ _ _ Hc2). rewrite Hv by lia. apply over_in; [lia|].
      replace (entry s dir k + Z.of_nat i - entry s dir k) with (Z.of_nat i) by lia. rewrite Nat2Z.id. by apply lookup_app_l_Some.
    - rewrite Hv by lia. apply over_in; [lia|]. replace (entry s dir k + Z.of_nat (length name) - entry s dir k) with (Z.of_nat (length name)) by lia.
      rewrite Nat2Z.id, lookup_app_r, Nat.sub_diag by lia. reflexivity. }
  split; [eapply fstep_weaken; [exact Hst|cbn; lia]|exact Hptr| |exact Hsz|apply Hname|intros j Hj Hne; by apply Hother].
  split; [apply Hst|by rewrite Hdb, Hsz| |].
  - intros i Hi2. rewrite Hdb in Hi2. rewrite Hptr by lia. by apply Hdn.
  - intros j Hj. rewrite Hdb in Hj. rewrite Hent by exact Hj. destruct (decide (j = k)) as [->|Hne]; [apply Hname|by apply Hother].
Qed.

Lemma put_in_data s s' b x v : ready s → data_block s b → DISKMAP + b * 4096 ≤ x < DISKMAP + b * 4096 + 4096 →
  vput s s' x [v] → cache_ok s' → ready s' ∧ data_block s' b.
Proof.
  intros [Hc Hm] [Hb Hfr] Hx Hput Hc'. destruct (off_meta_block s b Hm) as [H1 H2]; [lia|].
  assert (Ho : off_meta s x (Z.of_nat (length [v]))) by (cbn; unfold off_meta; lia). pose proof (mo_size _ Hm). pose proof (nbitmap_range s (mo_size _ Hm)).
  split; [split; [exact Hc'|by eapply mounted_put]|]. unfold data_block, nbitmap. rewrite (off_meta_nblocks _ _ _ _ Hput Ho).
  split; [exact Hb|]. by rewrite (off_meta_free _ _ _ _ _ Hput Ho) by lia.
Qed.

Lemma name_entry_ok dir k name (Q : unit → FState D → Prop) s : ready s → dir_ok s dir → 0 ≤ k < 16 * dblocks s dir →
  Forall (λ c, 0 < c < 256) name → (length name < 128)%nat →
  (∀ s', ready s' → named_entry s s' dir k name → Q tt s') → wp (strcpy_mem (entry s dir k) name) Q no_stop s.
Proof.
  intros Hr Hd Hk Hb Hlen HQ. pose proof Hr as [Hc Hm]. pose proof Hd as [Hf Hs Hdn Hnm].
  destruct (entry_addr s dir k Hm Hd Hk) as (Hlo & Hhi & _). assert (Hq : 0 ≤ k / 16 < dblocks s dir) by dlia.
  assert (Hq2 : 0 ≤ k `mod` 16 < 16) by dlia. assert (Hi : 0 ≤ k / 16 < 1034) by lia.
  destruct (fo_ptr _ _ Hf _ Hi) as [Hz|(Hdb & _)]; [destruct (Hdn _ Hq Hz)|]. set (b := ptr s dir (k / 16)) in *.
  apply (strcpy_mem_ok name (entry s dir k) (λ s1, ready s1 ∧ data_block s1 b)); [lia|lia| | | |by split|].
  - eapply Forall_impl; [exact Hb|]. cbn. lia.
  - intros s1 x [Hr1 Hd1] Hx. split; [apply Hr1|]. apply (touchable_in_block _ b); [apply Hr1|by apply data_in_use; [apply Hr1|]|].
    rewrite entry_in_block in Hx. fold b in Hx. lia.
  - intros s1 s2 x v [Hr1 Hd1] Hput Hc2 Hx. eapply put_in_data; [exact Hr1|exact Hd1| |exact Hput|exact Hc2].
    rewrite entry_in_block in Hx. fold b in Hx. lia.
  - intros s' Hput [Hr' _]. apply HQ; [exact Hr'|]. apply named_entry_state; [exact Hr|exact Hd|exact Hk| |exact Hlen|exact Hput|apply Hr'].
    eapply Forall_impl; [exact Hb|]. cbn. lia.
Qed.

(** ** A new file in a directory *)

(** After dir_alloc_file: entry [k0] has no name, the old entries are as
    before and the new ones have no names. *)
Record room s s1 (dir k0 : Z) : Prop := {
  ro_dir : dir_ok s1 dir;
  ro_more : dblocks s dir ≤ dblocks s1 dir;
  ro_entry : ∀ k, 0 ≤ k < 16 * dblocks s dir → entry s1 dir k = entry s dir k;
  ro_at : 0 ≤ k0 < 16 * dblocks s1 dir;
  ro_free : vname s1 (entry s1 dir k0) = [];
  ro_old : ∀ k, 0 ≤ k < 16 * dblocks s dir → vname s1 (entry s dir k) = vname s (entry s dir k);
  ro_new : ∀ k, 16 * dblocks s dir ≤ k < 16 * dblocks s1 dir → vname s1 (entry s1 dir k) = []
}.

Lemma room_same s s1 dir k : csame s s1 → mounted s → dir_ok s dir → 0 ≤ k < 16 * dblocks s dir → unnamed s (entry s dir k) = true →
  room s s1 dir k.
Proof.
  intros Hs Hm Hd Hk Hu. destruct (dir_same s s1 dir (cs_view _ _ Hs) Hm Hd) as (Hd1 & Hdb & _).
  assert (He : ∀ j, 0 ≤ j < 16 * dblocks s dir → entry s1 dir j = entry s dir j) by (intros j Hj; by apply entry_same; [apply Hs| | |]).
  assert (Hn : ∀ j, 0 ≤ j < 16 * dblocks s dir → vname s1 (entry s dir j) = vname s (entry s dir j)).
  { intros j Hj. destruct (entry_addr s dir j Hm Hd Hj) as (? & ? & _). apply vname_view. intros x Hx. apply (vs_view _ _ (cs_view _ _ Hs)). lia. }
  split; [exact Hd1|lia|exact He|lia| |exact Hn|lia]. rewrite He, Hn by exact Hk. by apply unnamed_name.
Qed.

Lemma room_extended s s1 dir : mounted s → dir_ok s dir → extended s s1 dir → room s s1 dir (16 * dblocks s dir).
Proof.
  intros Hm Hd Hx. pose proof Hd as [Hf Hsz Hdn Hnm]. pose proof (ex_blocks _ _ _ Hx) as Hb.
  assert (Hi : ∀ k, 0 ≤ k < 16 * dblocks s dir → 0 ≤ k / 16 < dblocks s dir) by (intros; dlia).
  assert (He : ∀ k, 0 ≤ k < 16 * dblocks s dir → entry s1 dir k = entry s dir k).
  { intros k Hk. rewrite !entry_in_block. by rewrite (ex_ptr _ _ _ Hx) by (by apply Hi). }
  assert (Hnew : ∀ k, 16 * dblocks s dir ≤ k < 16 * dblocks s1 dir → vname s1 (entry s1 dir k) = []).
  { intros k Hk. apply zero_named. intros x Hx2. rewrite entry_in_block in Hx2.
    assert (Hq : k / 16 = dblocks s dir) by (clear -Hk Hb; dlia). assert (Hq2 : 0 ≤ k `mod` 16 < 16) by (clear; dlia). rewrite Hq in Hx2.
    replace x with (DISKMAP + ptr s1 dir (dblocks s dir) * 4096 + (x - (DISKMAP + ptr s1 dir (dblocks s dir) * 4096))) by lia.
    apply (ex_zero _ _ _ Hx). lia. }
  split; [apply Hx|lia|exact He|lia|apply Hnew; lia| |exact Hnew].
  intros k Hk. apply vname_view. intros x Hx2. rewrite entry_in_block in Hx2. pose proof (Hi k Hk). assert (Hq2 : 0 ≤ k `mod` 16 < 16) by (clear; dlia).
  replace x with (DISKMAP + ptr s dir (k / 16) * 4096 + (x - (DISKMAP + ptr s dir (k / 16) * 4096))) by lia.
  apply (fstep_old_data s s1 dir (k / 16)); [exact Hm|exact Hf|apply Hx|lia|by apply Hdn|lia].
Qed.

Lemma room_renamed s s1 s2 dir k0 name : mounted s → dir_ok s dir → room s s1 dir k0 → named_entry s1 s2 dir k0 name → renamed s s2 dir k0 name.
Proof.
  intros Hm Hd [H1 H2 H3 H4 H5 H6 H7] [N1 N2 N3 N4 N5 N6].
  assert (Hdb : dblocks s2 dir = dblocks s1 dir) by (unfold dblocks; by rewrite N4). destruct H1 as [_ [_ Hsz] _ _]. destruct (do_size _ _ Hd) as [_ Hsz0].
  assert (He : ∀ k, 0 ≤ k < 16 * dblocks s1 dir → entry s2 dir k = entry s1 dir k).
  { intros k Hk. rewrite !entry_in_block, N2; [done|]. clear -Hk Hsz. dlia. }
  split; [lia|intros k Hk; rewrite He by lia; by apply H3|lia| |rewrite He by lia; exact N5| |].
  - intros Hk. rewrite <- H6, <- H3 by lia. exact H5.
  - intros k Hk Hne. rewrite <- H3 by lia. rewrite N6 by lia. rewrite H3 by lia. by apply H6.
  - intros k Hk Hne. rewrite He, N6 by lia. apply H7. lia.
Qed.

Definition created s (dir : Z) (name : list Z) (r : Z) (o : option Z) s' : Prop :=
  fstep s s' dir (own_data s dir) ∧
  (r = - E_NO_DISK ∧ o = None ∧ no_free s' ∨
   ∃ f, r = 0 ∧ o = Some f ∧ dir_ok s' dir ∧ tight s' dir ∧ dfind s' dir name = Some f ∧
     (∀ n', n' ≠ name → n' ≠ [] → dfind s' dir n' = dfind s dir n') ∧ file_synced s' s' dir).

(** Naming the entry and flushing the directory. *)
Lemma finish_file dir k0 name s s1 : ready s → dir_ok s dir → ready s1 → room s s1 dir k0 → tight s1 dir →
  fstep s s1 dir (own_data s dir) → dfind s dir name = None →
  name ≠ [] → Forall (λ c, 0 < c < 256) name → (length name < 128)%nat →
  wp (strcpy_mem (f_name (entry s1 dir k0)) name ;; file_flush dir ;; mret (0, Some (entry s1 dir k0)))
    (λ '(r, o) s', created s dir name r o s') no_stop s1.
Proof.
  intros Hr Hd Hr1 Hroom Ht1 Hst Hno Hne Hb Hlen. pose proof (proj2 Hr) as Hm. pose proof (ro_dir _ _ _ _ Hroom) as Hd1.
  apply wp_bind, name_entry_ok; [exact Hr1|exact Hd1|apply (ro_at _ _ _ _ Hroom)|exact Hb|exact Hlen|]. intros s2 Hr2 Hne2.
  pose proof (ne_dir _ _ _ _ _ Hne2) as Hd2. destruct (do_size _ _ Hd2) as [Hz1 Hz2].
  apply wp_bind. eapply wp_mono; [apply file_flush_ok; [exact Hr2|apply (do_file _ _ Hd2)|lia]| |done].
  intros [] s3 [Hw Hsy]. apply wp_ret. pose proof (wr_view _ _ Hw) as Hv3.
  destruct (dir_same s2 s3 dir Hv3 (proj2 Hr2) Hd2) as (Hd3 & _ & Hf3).
  destruct (renamed_find s s2 dir k0 name (room_renamed s s1 s2 dir k0 name Hm Hd Hroom Hne2) Hne Hno) as [Hfind Hother].
  assert (Hp3 : ∀ i, 0 ≤ i < 1034 → ptr s3 dir i = ptr s2 dir i).
  { intros i Hi. apply ptr_same; [exact Hv3|apply Hr2|apply (do_file _ _ Hd2)|exact Hi]. }
  assert (Hsz3 : fsize s3 dir = fsize s2 dir) by (apply fsize_same; [exact Hv3|apply Hr2|apply (do_file _ _ Hd2)]).
  assert (He : entry s2 dir k0 = entry s1 dir k0).
  { rewrite !entry_in_block, (ne_ptr _ _ _ _ _ Hne2); [done|]. pose proof (ro_at _ _ _ _ Hroom) as Hk. destruct (do_size _ _ Hd1). clear -Hk H2. dlia. }
  split.
  - eapply fstep_trans; [eapply fstep_trans; [exact Hst|exact (ne_step _ _ _ _ _ Hne2)|]| |].
    + intros x Hun HP Hx. apply HP. pose proof (ro_at _ _ _ _ Hroom) as Hk. destruct (do_size _ _ Hd1) as [_ Hs1].
      assert (Hi : 0 ≤ k0 / 16 < dblocks s1 dir) by (clear -Hk; dlia). assert (Hq : 0 ≤ k0 `mod` 16 < 16) by (clear; dlia).
      pose proof (do_dense _ _ Hd1 _ Hi) as Hnz. assert (Hi2 : 0 ≤ k0 / 16 < 1034) by lia.
      pose proof (data_range s1 dir _ (proj2 Hr1) (do_file _ _ Hd1) Hi2 Hnz). pose proof (mo_size _ (proj2 Hr1)). rewrite entry_in_block in Hx.
      replace x with (DISKMAP + ptr s1 dir (k0 / 16) * 4096 + (x - (DISKMAP + ptr s1 dir (k0 / 16) * 4096))) in * by lia.
      eapply (own_later s s1 dir _ _ (k0 / 16)); [exact Hst|exact Hi2|exact Hnz|apply in_cache_addr; unfold NBLK; lia|apply blk_addr; lia|exact Hun].
    + apply (grows_fstep _ _ _ (λ _, False)), grows_same; [exact Hv3|apply Hw|apply Hr2|apply (do_file _ _ Hd2)].
    + by intros ? ? ? [].
  - right. exists (entry s1 dir k0). split; [done|]. split; [done|]. split; [exact Hd3|]. split; [|split; [rewrite Hf3, <- He; exact Hfind|split]].
    + intros i Hi. rewrite Hsz3, (ne_size _ _ _ _ _ Hne2) in Hi. assert (Hi2 : 0 ≤ i < 1034).
      { split; [|lia]. assert (0 ≤ blocks_for (fsize s1 dir)); [|lia]. destruct (do_size _ _ Hd1) as [E1 E2]. unfold blocks_for. apply Z.div_pos; lia. }
      rewrite Hp3, (ne_ptr _ _ _ _ _ Hne2) by exact Hi2. by apply Ht1.
    + intros n' H1 H2. rewrite Hf3. by apply Hother.
    + destruct Hsy as (S1 & S2 & S3). assert (Hi3 : indirect s3 dir = indirect s2 dir) by (apply indirect_same; [exact Hv3|apply Hr2|apply (do_file _ _ Hd2)]).
      split; [|split; [exact S2|by rewrite Hi3]]. intros p Hp. rewrite Hsz3 in Hp. rewrite Hp3 by (clear -Hp Hz1 Hz2; dlia). by apply S1.
Qed.

Lemma own_data_same s s1 dir x : vsame s s1 → mounted s → file_ok s dir → own_data s1 dir x → own_data s dir x.
Proof.
  intros Hv Hm Hf [Hx|(Hca & i & Hi & Hp & Hb)]; [by left|right]. split; [exact Hca|]. exists i. split; [exact Hi|].
  by rewrite (ptr_same s s1 dir i Hv Hm Hf Hi) in Hp, Hb.
Qed.

Lemma size_own s dir x : dir + 128 ≤ x < dir + 132 → own_data s dir x.
Proof. by left. Qed.

Lemma new_file_ok dir name s s0 : csame s s0 → ready s0 → ready s → dir_ok s dir → tight s dir → dblocks s dir < 1034 → dfind s dir name = None →
  name ≠ [] → Forall (λ c, 0 < c < 256) name → (length name < 128)%nat →
  wp ('(r, o) ← dir_alloc_file dir;
      match o with
      | None => mret (r, None)
      | Some f => strcpy_mem (f_name f) name ;; file_flush dir ;; mret (0, Some f)
      end) (λ '(r, o) s', created s dir name r o s') no_stop s0.
Proof.
  intros Hs0 Hr0 Hr Hd Ht Hlt Hno Hne Hb Hlen. pose proof (cs_view _ _ Hs0) as Hv. pose proof (proj2 Hr) as Hm. pose proof (do_file _ _ Hd) as Hf.
  destruct (dir_same s s0 dir Hv Hm Hd) as (Hd0 & Hdb0 & Hfind0).
  assert (Ht0 : tight s0 dir).
  { intros i Hi. rewrite (fsize_same s s0 dir Hv Hm Hf) in Hi. assert (0 ≤ blocks_for (fsize s dir)).
    { destruct (do_size _ _ Hd). unfold blocks_for. apply Z.div_pos; lia. }
    rewrite (ptr_same s s0 dir i Hv Hm Hf) by lia. by apply Ht. }
  assert (Hgrow : fstep s s0 dir (own_data s dir)) by (apply grows_fstep, grows_same; assumption).
  assert (Hback : ∀ s', fstep s0 s' dir (own_data s0 dir) → fstep s s' dir (own_data s dir)).
  { intros s' Hst. eapply fstep_trans; [exact Hgrow|exact Hst|]. intros x _ HP Hx. apply HP. by apply (own_data_same s s0). }
  assert (Hcr : ∀ r o s', created s0 dir name r o s' → created s dir name r o s').
  { intros r o s' [Hst Hres]. split; [by apply Hback|]. destruct Hres as [Hf0|(f & H1 & H2 & H3 & H4 & H5 & H6 & H7)]; [left; exact Hf0|right].
    exists f. do 5 (split; [assumption|]). split; [|exact H7]. intros n' Hn Hn0. rewrite H6 by assumption. apply Hfind0. }
  apply wp_bind. eapply wp_mono; [apply (dir_alloc_file_ok dir s0 Hr0 Hd0 Ht0); lia| |done].
  intros [r o] s1 [(k & (Hk & Hu & _) & -> & -> & Hs1 & Hr1)|[_ [(-> & -> & Hx)|(-> & -> & Hfull & Hst & _)]]].
  - rewrite <- (entry_same s0 s1 dir k (cs_view _ _ Hs1) (proj2 Hr0) Hd0 Hk).
    assert (Hst : fstep s0 s1 dir (own_data s0 dir)) by (apply grows_fstep, grows_same; [apply Hs1|exact Hr1|apply Hr0|apply (do_file _ _ Hd0)]).
    eapply wp_mono; [apply (finish_file dir k name s0 s1 Hr0 Hd0 Hr1 (room_same s0 s1 dir k Hs1 (proj2 Hr0) Hd0 Hk Hu))| |done];
      [|exact Hst|by rewrite Hfind0|exact Hne|exact Hb|exact Hlen|].
    { intros i Hi. rewrite (fsize_same s0 s1 dir (cs_view _ _ Hs1) (proj2 Hr0) (do_file _ _ Hd0)) in Hi. assert (0 ≤ blocks_for (fsize s0 dir)).
      { destruct (do_size _ _ Hd0). unfold blocks_for. apply Z.div_pos; lia. }
      rewrite (ptr_same s0 s1 dir i (cs_view _ _ Hs1) (proj2 Hr0) (do_file _ _ Hd0)) by lia. by apply Ht0. }
    intros [r o] s2. apply Hcr.
  - eapply wp_mono; [apply (finish_file dir _ name s0 s1 Hr0 Hd0 (fs_ready _ _ _ _ (ex_step _ _ _ Hx)) (room_extended s0 s1 dir (proj2 Hr0) Hd0 Hx) (ex_tight _ _ _ Hx))| |done];
      [|by rewrite Hfind0|exact Hne|exact Hb|exact Hlen|].
    { eapply fstep_weaken; [apply (ex_step _ _ _ Hx)|]. apply size_own. }
    intros [r o] s2. apply Hcr.
  - apply wp_ret. split; [|left; split; [reflexivity|split; [reflexivity|exact Hfull]]]. apply Hback. eapply fstep_weaken; [exact Hst|]. apply size_own.
Qed.

(** ** file_create *)

(** A walk that ends at a missing last component. *)
Lemma resolve_missing s names : Forall (λ n, n ≠ []) names → ∀ dir f d, walk_ok s f names →
  w_ret (resolve s dir f names) ≠ 0 → w_dir (resolve s dir f names) = Some d →
  w_ret (resolve s dir f names) = - E_NOT_FOUND ∧ dir_ok s d ∧ ftype s d = FTYPE_DIR ∧
  dfind s d (w_last (resolve s dir f names)) = None ∧ w_last (resolve s dir f names) ∈ names ∧
  (length (w_last (resolve s dir f names)) < 128)%nat.
Proof.
  induction 1 as [|n rest Hn _ IH]; intros dir f d Hw; cbn [resolve]; [done|]. destruct Hw as [Hat Hw].
  destruct (decide _) as [|Hl]; [discriminate|]. destruct (decide _) as [|Hty]; [discriminate|]. assert (Hty' : ftype s f = FTYPE_DIR) by lia.
  destruct (Hw Hty') as [Hd Hrest]. destruct (dfind s f n) as [f'|] eqn:E.
  - intros H1 H2. destruct (IH (Some f) f' d Hrest H1 H2) as (A & B & C & X & Y & Z0). split_and!; try assumption. by right.
  - destruct (decide (rest = [])) as [->|]; [|done]. cbn. intros _ [= <-]. split_and!; try assumption; [done|by left|lia].
Qed.

(** Where the last component goes must have room for another block. *)
Definition room_for s (w : walk) : Prop := ∀ d, w_dir w = Some d → w_ret w ≠ 0 → tight s d ∧ dblocks s d < 1034.

Definition create_result s (path : list Z) (r : Z) (o : option Z) s' : Prop :=
  let w := resolve s None (s_root SUPER) (path_names path) in
  if decide (w_ret w = 0) then r = - E_FILE_EXISTS ∧ o = None ∧ csame s s' ∧ ready s'
  else match w_dir w with
       | None => r = w_ret w ∧ o = None ∧ csame s s' ∧ ready s'
       | Some d => created s d (w_last w) r o s'
       end.

Lemma split_slash_bytes (P : Z → Prop) p : Forall P p → Forall (Forall P) (split_slash p).
Proof.
  induction 1 as [|c p Hc _ IH]; cbn; [repeat constructor|]. destruct (c =? 47); [by constructor|].
  destruct (split_slash p) as [|w ws]; [repeat constructor; assumption|]. apply Forall_cons in IH as [H1 H2]. constructor; [by constructor|exact H2].
Qed.

Lemma file_create_ok path s : ready s → walk_ok s (s_root SUPER) (path_names path) → Forall (λ c, 0 < c < 256) path →
  room_for s (resolve s None (s_root SUPER) (path_names path)) →
  wp (file_create path) (λ '(r, o) s', create_result s path r o s') no_stop s.
Proof.
  intros Hr Hw Hb Hroom. unfold file_create. apply wp_bind.
  assert (Hnz : Forall (λ c, c ≠ 0) path) by (eapply Forall_impl; [exact Hb|cbn; lia]).
  eapply wp_mono; [by apply walk_path_ok| |done]. intros w s1 [[Hs1 Hr1] ->]. unfold create_result.
  set (w := resolve s None (s_root SUPER) (path_names path)) in *. cbv zeta. case_decide as Hz.
  { replace (w_ret w =? 0) with true by lia. apply wp_ret. by split_and!. }
  replace (w_ret w =? 0) with false by lia. destruct (w_dir w) as [d|] eqn:Ed; [|apply wp_ret; by split_and!].
  destruct (resolve_missing s _ (path_names_ne path) None (s_root SUPER) d Hw Hz Ed) as (H1 & H2 & H3 & H4 & H5 & H6). fold w in H1, H4, H5, H6.
  rewrite H1. rewrite Z.eqb_refl. cbn [negb]. destruct (Hroom d Ed Hz) as [Ht Hlt].
  apply (new_file_ok d (w_last w) s s1 Hs1 Hr1 Hr H2 Ht Hlt H4); [|
    |exact H6].
  - pose proof (path_names_ne path) as Hne. rewrite Forall_forall in Hne. by apply Hne.
  - apply list_elem_of_filter in H5 as [_ H5]. pose proof (split_slash_bytes _ _ Hb) as Hbs. rewrite Forall_forall in Hbs. by apply Hbs.
Qed.

(** ** The directories above *)

(** [g] is a directory other than [d]; if it holds the descriptor of [d],
    then as one of its entries. *)
Record above s (d g : Z) : Prop := {
  ab_blocks : ∀ b, holds s d b → ¬ holds s g b;
  ab_desc : ¬ holds s d (blk_of g);
  ab_ne : d + 256 ≤ g ∨ g + 256 ≤ d;
  ab_in : holds s g (blk_of d) → ∃ k, 0 ≤ k < 16 * dblocks s g ∧ d = entry s g k
}.

Lemma step_away s s' d x : mounted s → fstep s s' d (own_data s d) → in_cache x = true → in_use s (blk_of x) →
  (x < BITMAP ∨ BITMAP + 4096 * nbitmap s ≤ x) → (x < d + 128 ∨ x = d + 132 ∨ x = d + 133 ∨ x = d + 134 ∨ x = d + 135 ∨ d + 180 ≤ x) →
  ¬ holds s d (blk_of x) → vw s' x = vw s x.
Proof.
  intros Hm Hst Hca Hu Hbm Hd Hh. pose proof (in_cache_range x Hca) as Hr. assert (Hnz : blk_of x ≠ 0) by (destruct Hu; lia).
  apply (fs_view _ _ _ _ Hst); [lia| |].
  - intros _. split; [exact Hu|]. split; [exact Hbm|]. split; [lia|]. intros E. apply Hh. split; [exact Hnz|by left].
  - intros [Hx|(_ & i & Hi & Hp & Hb)]; [lia|]. apply Hh. split; [exact Hnz|]. right. exists i. split; [exact Hi|congruence].
Qed.

(** What dir_lookup reads of [g] is not changed by a step on [d]. *)
Lemma above_structure s s' d g x : mounted s → file_ok s d → dir_ok s g → above s d g → fstep s s' d (own_data s d) →
  structure s g x → vw s' x = vw s x.
Proof.
  intros Hm Hfd Hg Hab Hst Hx. pose proof (do_file _ _ Hg) as Hfg. destruct (do_size _ _ Hg) as [_ Hsz].
  assert (Hown : owns s g x). { destruct Hx as [|(H1 & H2 & H3)]; [by left|right]. split; [exact H1|]. rewrite H3. split; [exact H2|by left]. }
  destruct (owned_blk s g x Hm Hfg Hown) as (Hca & Hu & Hbm). destruct Hx as [Hx|(_ & Hnz & Hb)].
  - apply (step_away s s' d x Hm Hst Hca Hu Hbm); [destruct (ab_ne _ _ _ Hab); lia|].
    destruct (desc_addr s g x (fo_at _ _ Hfg) Hx) as [_ ->]. apply Hab.
  - assert (Hhg : holds s g (blk_of x)) by (rewrite Hb; split; [exact Hnz|by left]).
    apply (step_away s s' d x Hm Hst Hca Hu Hbm); [|intros Hd; by apply (ab_blocks _ _ _ Hab _ Hd)].
    destruct (decide (d ≤ x < d + 256)) as [Hin|]; [exfalso|lia].
    destruct (desc_addr s d x (fo_at _ _ Hfd) Hin) as [_ E]. rewrite E in Hhg, Hb. destruct (ab_in _ _ _ Hab Hhg) as (k & Hk & ->).
    assert (Hi : 0 ≤ k / 16 < dblocks s g) by (clear -Hk; dlia). assert (Hq : 0 ≤ k `mod` 16 < 16) by (clear; dlia).
    rewrite entry_in_block, blk_addr in Hb by lia. assert (Hi2 : 0 ≤ k / 16 < 1034) by lia.
    destruct (fo_ptr _ _ Hfg _ Hi2) as [Hz|(_ & _ & Hne)]; [by apply (do_dense _ _ Hg _ Hi)|by apply Hne].
Qed.

Lemma above_name s s' d g k x : mounted s → file_ok s d → dir_ok s g → above s d g → fstep s s' d (own_data s d) →
  0 ≤ k < 16 * dblocks s g → entry s g k ≤ x < entry s g k + 128 → vw s' x = vw s x.
Proof.
  intros Hm Hfd Hg Hab Hst Hk Hx. pose proof (do_file _ _ Hg) as Hfg. destruct (do_size _ _ Hg) as [_ Hsz].
  assert (Hi : 0 ≤ k / 16 < dblocks s g) by (clear -Hk; dlia). assert (Hq : 0 ≤ k `mod` 16 < 16) by (clear; dlia). assert (Hi2 : 0 ≤ k / 16 < 1034) by lia.
  pose proof (do_dense _ _ Hg _ Hi) as Hnz. pose proof (data_range s g _ Hm Hfg Hi2 Hnz). pose proof (mo_size _ Hm).
  assert (Hxe : in_cache x = true ∧ blk_of x = ptr s g (k / 16)).
  { rewrite entry_in_block in Hx. replace x with (DISKMAP + ptr s g (k / 16) * 4096 + (x - (DISKMAP + ptr s g (k / 16) * 4096))) by lia.
    split; [apply in_cache_addr; unfold NBLK; lia|apply blk_addr; lia]. }
  destruct Hxe as [Hca Hb]. assert (Hhg : holds s g (blk_of x)) by (rewrite Hb; split; [exact Hnz|right; by exists (k / 16)]).
  destruct (owned_blk s g x Hm Hfg (or_intror (conj Hca Hhg))) as (_ & Hu & Hbm).
  apply (step_away s s' d x Hm Hst Hca Hu Hbm); [|intros Hd; by apply (ab_blocks _ _ _ Hab _ Hd)].
  destruct (decide (d ≤ x < d + 256)) as [Hin|]; [|lia].
  destruct (desc_addr s d x (fo_at _ _ Hfd) Hin) as [_ E]. rewrite E in Hhg. destruct (ab_in _ _ _ Hab Hhg) as (j & Hj & ->).
  destruct (decide (j = k)) as [->|Hne]; [lia|]. destruct (entry_apart s g j k Hg Hj Hk Hne); lia.
Qed.

Lemma above_kept s s' d g : mounted s → file_ok s d → dir_ok s g → above s d g → fstep s s' d (own_data s d) →
  dir_ok s' g ∧ ftype s' g = ftype s g ∧ ∀ n, dfind s' g n = dfind s g n.
Proof.
  intros Hm Hfd Hg Hab Hst. pose proof Hg as [Hfg [Hz1 Hz2] Hdn Hnm].
  pose proof (λ x, above_structure s s' d g x Hm Hfd Hg Hab Hst) as Hstr.
  destruct (structure_kept s s' g Hm Hfg (fs_nblocks _ _ _ _ Hst) Hstr) as (Hf' & Hsz & _ & Hptr).
  { intros c [Hc Hfc] _. pose proof (nbitmap_range s (mo_size _ Hm)). apply (fs_used _ _ _ _ Hst); [lia|exact Hfc]. }
  assert (Hdb : dblocks s' g = dblocks s g) by (unfold dblocks; by rewrite Hsz).
  assert (He : ∀ k, 0 ≤ k < 16 * dblocks s g → entry s' g k = entry s g k).
  { intros k Hk. rewrite !entry_in_block, Hptr; [done|]. clear -Hk Hz2. dlia. }
  assert (Hn : ∀ k, 0 ≤ k < 16 * dblocks s g → vname s' (entry s g k) = vname s (entry s g k) ∧ (named s' (entry s g k) ↔ named s (entry s g k))).
  { intros k Hk. apply vname_view. intros x Hx. by apply (above_name s s' d g k x Hm Hfd Hg Hab Hst Hk). }
  split; [|split].
  - split; [exact Hf'|rewrite Hdb, Hsz; split; [exact Hz1|exact Hz2]| |].
    + intros i Hi. rewrite Hdb in Hi. rewrite Hptr by lia. by apply Hdn.
    + intros k Hk. rewrite Hdb in Hk. rewrite He by exact Hk. by apply Hn, Hnm.
  - apply vw32_bytes. intros j Hj. apply Hstr. left. unfold f_type. lia.
  - intros n. unfold dfind. assert (Hent : entries s' g = entries s g).
    { unfold entries. rewrite Hdb. apply list_fmap_ext. intros i k Hk. apply list_elem_of_lookup_2, elem_of_range in Hk. by apply He. }
    rewrite Hent. assert (Hfe : list_find (λ a, has_name s' n a = true) (entries s g) = list_find (λ a, has_name s n a = true) (entries s g)); [|by rewrite Hfe].
    apply list_find_local, Forall_forall. intros a (i & Ha)%list_elem_of_lookup. apply entries_lookup in Ha as [Hr ->]. unfold has_name.
    rewrite !bool_decide_eq_true. by rewrite (proj1 (Hn _ Hr)).
Qed.

(** ** Opening what was created *)

(** The directories a walk passes through are above [d]. *)
Fixpoint walk_above s (d f : Z) (names : list (list Z)) : Prop :=
  match names with
  | [] => True
  | n :: rest => match dfind s f n with Some f' => above s d f ∧ walk_above s d f' rest | None => True end
  end.

Lemma type_kept s s' d : mounted s → file_ok s d → fstep s s' d (own_data s d) → ftype s' d = ftype s d.
Proof.
  intros Hm Hf Hst. apply vw32_bytes. intros j Hj. unfold f_type.
  assert (Hx : d ≤ d + 132 + j < d + 256) by lia. destruct (owned_blk s d _ Hm Hf (or_introl Hx)) as (Hca & Hu & Hbm).
  apply (step_away s s' d _ Hm Hst Hca Hu Hbm); [lia|]. destruct (desc_addr s d _ (fo_at _ _ Hf) Hx) as [_ ->].
  intros Hh. by destruct (holds_data s d _ Hf Hh).
Qed.

Lemma created_at s dir f name : mounted s → dir_ok s dir → dfind s dir name = Some f → file_at s f.
Proof.
  intros Hm Hd Hf. apply dfind_some in Hf as (k & (Hk & _) & ->). pose proof (do_file _ _ Hd) as Hfd. destruct (do_size _ _ Hd) as [_ Hsz].
  assert (Hi : 0 ≤ k / 16 < dblocks s dir) by (clear -Hk; dlia). assert (Hq : 0 ≤ k `mod` 16 < 16) by (clear; dlia). assert (Hi2 : 0 ≤ k / 16 < 1034) by lia.
  pose proof (do_dense _ _ Hd _ Hi) as Hp. destruct (fo_ptr _ _ Hfd _ Hi2) as [Hz|(Hdb & _)]; [done|]. rewrite entry_in_block.
  by apply entry_file_at.
Qed.

Lemma reopen s s' d new : mounted s → mounted s' → file_ok s d → fstep s s' d (own_data s d) → dir_ok s' d →
  ∀ names dir f, walk_ok s f names → walk_above s d f names →
  w_ret (resolve s dir f names) ≠ 0 → w_dir (resolve s dir f names) = Some d →
  dfind s' d (w_last (resolve s dir f names)) = Some new →
  walk_ok s' f names ∧ resolve s' dir f names = {| w_ret := 0; w_dir := Some d; w_file := Some new; w_last := [] |}.
Proof.
  intros Hm Hm' Hfd Hst Hd'. induction names as [|n rest IH]; intros dir f Hw Hab; cbn [resolve walk_ok walk_above] in *; [done|].
  destruct Hw as [Hat Hw]. destruct (decide (128 ≤ length n)%nat) as [|Hl]; [discriminate|]. destruct (decide _) as [|Hty]; [discriminate|].
  assert (Hty' : ftype s f = FTYPE_DIR) by lia. destruct (Hw Hty') as [Hd Hrest]. destruct (dfind s f n) as [f'|] eqn:E.
  - destruct Hab as [Hab Habr]. intros H1 H2 H3. destruct (above_kept s s' d f Hm Hfd Hd Hab Hst) as (Kd & Kt & Kf).
    destruct (IH (Some f) f' Hrest Habr H1 H2 H3) as [I1 I2]. rewrite Kf, E, Kt. split.
    + split; [apply (fo_at _ _ (do_file _ _ Kd))|]. intros _. by split.
    + rewrite decide_False by (rewrite Hty'; intros X; by apply X). exact I2.
  - destruct (decide (rest = [])) as [->|]; [|done]. cbn. intros _ [= <-] Hnew. rewrite Hnew. rewrite (type_kept s s' f Hm Hfd Hst). split.
    + split; [apply (fo_at _ _ (do_file _ _ Hd'))|]. intros _. split; [exact Hd'|]. split; [|done]. by eapply created_at.
    + rewrite decide_False by (rewrite Hty'; intros X; by apply X). reflexivity.
Qed.

End FsCreate.
