(* ===== verification/FsDemo.v ===== *)
(** * A disk in memory

    A controller that satisfies the laws of [AtaDisk]: two disks of bytes,
    task file registers, and one busy answer after every command and every
    sector; while it is busy it ignores registers, commands and data.  On it
    a small file system of 64 blocks whose root directory holds a file with
    one block of data and an empty one; fs_init mounts it
    ([fs_demo_mounted]).  It shows that the hypotheses of the theorems about
    the file server can hold. *)

From S2P Require Import Prelude Mmu CMem Str FsState Ide Bc Fs IdeProofs BcProofs BcMem FsAlloc FsInit FsFile FsData FsRw FsSync FsTrunc FsIso FsDir FsPath FsCreate.

Record RamDisk := { rd_image : Z → Z → Z; rd_phase : ata_phase; rd_regs : Z → Z; rd_busy : bool }.

Definition rd_inb (port : Z) (d : RamDisk) : Z * RamDisk :=
  if rd_busy d then (IDE_BSY, {| rd_image := rd_image d; rd_phase := rd_phase d; rd_regs := rd_regs d; rd_busy := false |})
  else (IDE_DRDY, d).

Definition rd_command (v : Z) (d : RamDisk) : ata_phase :=
  if v =? 0x20 then AtaRead (drive_of (rd_regs d)) (lba_of (rd_regs d)) (count_of (rd_regs d))
  else if v =? 0x30 then AtaWrite (drive_of (rd_regs d)) (lba_of (rd_regs d)) (count_of (rd_regs d))
  else AtaIdle.

Definition rd_outb (port v : Z) (d : RamDisk) : RamDisk :=
  if rd_busy d then d
  else if port =? 0x1F7 then {| rd_image := rd_image d; rd_phase := rd_command v d; rd_regs := rd_regs d; rd_busy := true |}
  else {| rd_image := rd_image d; rd_phase := rd_phase d;
          rd_regs := λ q, if decide (q = port) then v else rd_regs d q; rd_busy := rd_busy d |}.

Definition rd_insl (port cnt : Z) (d : RamDisk) : list Z * RamDisk :=
  match rd_busy d, rd_phase d with
  | false, AtaRead k lba (S n) =>
      ((λ i, u8 (rd_image d k (lba * 512 + i))) <$> range 0 (4 * cnt),
       {| rd_image := rd_image d; rd_phase := after_sector AtaRead k lba n; rd_regs := rd_regs d; rd_busy := true |})
  | _, _ => ([], d)
  end.

Definition rd_outsl (port : Z) (l : list Z) (d : RamDisk) : RamDisk :=
  match rd_busy d, rd_phase d with
  | false, AtaWrite k lba (S n) =>
      {| rd_image := λ k' a, if decide (k' = k ∧ lba * 512 ≤ a < lba * 512 + 512)
                             then default 0 (l !! Z.to_nat (a - lba * 512)) else rd_image d k' a;
         rd_phase := after_sector AtaWrite k lba n; rd_regs := rd_regs d; rd_busy := true |}
  | _, _ => d
  end.

#[global] Instance ram_ata : Ata RamDisk :=
  {| ata_inb := rd_inb; ata_outb := rd_outb; ata_insl := rd_insl; ata_outsl := rd_outsl |}.

#[global, program] Instance ram_disk : AtaDisk RamDisk :=
  {| image d k a := u8 (rd_image d k a); phase := rd_phase; regs := rd_regs; polled d := rd_busy d = false |}.
Next Obligation. intros. apply u8_range. Qed.
Next Obligation. intros [im ph rg []]; reflexivity. Qed.
Next Obligation. intros [im ph rg []]; reflexivity. Qed.
Next Obligation. intros [im ph rg []]; reflexivity. Qed.
Next Obligation.
  intros [im ph rg []]; [exists 1%nat|exists 0%nat]; split; done || reflexivity.
Qed.
Next Obligation. intros [im ph rg []]; [discriminate|reflexivity]. Qed.
Next Obligation. intros [im ph rg []] Hb; [discriminate Hb|reflexivity]. Qed.
Next Obligation. intros [im ph rg []]; [discriminate|reflexivity]. Qed.
Next Obligation. intros d p v Hp Hb Hr. cbn in *. unfold rd_outb. rewrite Hb. replace (p =? 503) with false by lia. reflexivity. Qed.
Next Obligation. intros d p v Hp Hb Hr. cbn in *. unfold rd_outb. rewrite Hb. replace (p =? 503) with false by lia. exact Hp. Qed.
Next Obligation. intros d p v q Hp Hb Hr. cbn in *. unfold rd_outb. rewrite Hb. replace (p =? 503) with false by lia. reflexivity. Qed.
Next Obligation. intros d p v k a Hp Hb Hr. cbn in *. unfold rd_outb. rewrite Hb. by destruct (p =? 503). Qed.
Next Obligation. intros d Hp Hb. cbn in *. unfold rd_outb. rewrite Hb. reflexivity. Qed.
Next Obligation. intros d Hp Hb. cbn in *. unfold rd_outb. rewrite Hb. reflexivity. Qed.
Next Obligation. intros d k lba n Hp Hb. cbn in *. unfold rd_insl. rewrite Hb, Hp. reflexivity. Qed.
Next Obligation. intros d k lba n Hp Hb. cbn in *. unfold rd_insl. rewrite Hb, Hp. reflexivity. Qed.
Next Obligation. intros d k lba n k' a Hp Hb. cbn in *. unfold rd_insl. rewrite Hb, Hp. reflexivity. Qed.
Next Obligation. intros d k lba n l Hp Hb Hl. cbn in *. unfold rd_outsl. rewrite Hb, Hp. reflexivity. Qed.
Next Obligation.
  intros d k lba n l k' a Hp Hb Hl Hf. cbn in *. unfold rd_outsl. rewrite Hb, Hp. cbn. case_decide; [|reflexivity].
  destruct (l !! Z.to_nat (a - lba * 512)) as [c|] eqn:E; [|reflexivity]. cbn. apply u8_small.
  exact (proj1 (Forall_lookup _ _) Hf _ _ E).
Qed.

(** ** A small file system *)

(** Super block (magic number, 64 blocks, root directory "/" of one block),
    bitmap (blocks 5 to 63 are free), the root directory in block 3 with the
    files "a" (100 bytes in block 4) and "b" (empty). *)
Definition demo_bytes : list (Z * Z) :=
  [(4096, 0xAE); (4097, 0x30); (4098, 0x05); (4099, 0x4A); (4100, 64); (4104, 47); (4233, 16); (4236, 1); (4240, 3);
   (8192, 0xE0); (8193, 0xFF); (8194, 0xFF); (8195, 0xFF); (8196, 0xFF); (8197, 0xFF); (8198, 0xFF); (8199, 0xFF);
   (12288, 97); (12416, 100); (12424, 4); (12544, 98); (16384, 104); (16385, 105)].
Fixpoint byte_at (l : list (Z * Z)) (a : Z) : Z :=
  match l with (k, v) :: l => if a =? k then v else byte_at l a | [] => 0 end.
Definition demo_image (k a : Z) : Z := byte_at demo_bytes a.

Lemma byte_at_zero l a : Forall (λ kv, a ≠ kv.1) l → byte_at l a = 0.
Proof. induction 1 as [|[k v] l Hk _ IH]; [done|]. cbn in *. by replace (a =? k) with false by lia. Qed.

Definition demo_disk : RamDisk := {| rd_image := demo_image; rd_phase := AtaIdle; rd_regs := λ _, 0; rd_busy := true |}.

Definition fs_boot : FState RamDisk :=
  {| um := ∅; mapped := ∅; dirty := ∅; dev := demo_disk; diskno := 1; super := 0; bitmap := 0; nomem := [];
     pagerefs := ∅; opentab := list_to_map ((λ i, (i, Build_OpenFile 0 0 0 0)) <$> range 0 1024); log := [] |}.

Lemma boot_with_disk d : phase d = AtaIdle → booted (set_dev d fs_boot).
Proof.
  intros Hd. split; [split|reflexivity..].
  - exact Hd.
  - intros a. unfold ld. cbn. rewrite lookup_empty. cbn. lia.
  - by right.
  - reflexivity.
  - intros b Hb. cbn in Hb. set_solver.
  - cbn. set_solver.
  - intros b i Hb. cbn in Hb. set_solver.
Qed.
Lemma fs_boot_booted : booted fs_boot.
Proof. exact (boot_with_disk demo_disk eq_refl). Qed.

(** Both disks are there: the second one is selected. *)
Lemma ram_selects (s : FState RamDisk) : selects s 1.
Proof. destruct s as [? ? ? [im ph rg []]]; eexists true, _; (split; [reflexivity|reflexivity]). Qed.

(** Nothing is cached: the view of the disk map is the disk. *)
Lemma fs_boot_view k a : in_cache a = true → vw (set_diskno k fs_boot) a = u8 (demo_image k (a - DISKMAP)).
Proof. intros Ha. unfold vw. rewrite Ha. cbn [dev diskno mapped set_diskno]. rewrite bool_decide_eq_false_2 by set_solver. reflexivity. Qed.

Lemma fs_boot_formatted k : formatted (set_diskno k fs_boot).
Proof.
  assert (Hn : nblocks (set_diskno k fs_boot) = 64) by (unfold nblocks, vw32; rewrite !fs_boot_view by reflexivity; reflexivity).
  split.
  - unfold vw32. rewrite !fs_boot_view by reflexivity. reflexivity.
  - rewrite Hn. lia.
  - unfold nbitmap. rewrite Hn. change (2 + (64 + 32767) / 32768) with 3. intros b Hb.
    unfold is_free, vw32. assert (b = 0 ∨ b = 1 ∨ b = 2) as [->|[->| ->]] by lia;
      rewrite !fs_boot_view by reflexivity; reflexivity.
Qed.

(** fs_init mounts it. *)
Lemma fs_demo_mounted : ∃ s, fs_init fs_boot = Ok tt s ∧ mounts (set_diskno 1 fs_boot) s.
Proof.
  destruct (fs_init_ok fs_boot fs_boot_booted) as (k & Hk & Hm). rewrite (selects_unique _ _ _ Hk (ram_selects fs_boot)) in Hm.
  destruct (Hm (fs_boot_formatted 1)) as (s & Hrun & Hs). exists s. by split.
Qed.

(** ** What the server sees of it *)

Section Mounted.
Variable s : FState RamDisk.
Hypothesis Hs : mounts (set_diskno 1 fs_boot) s.

Definition root : Z := SUPER + 8.
Definition file_a : Z := DISKMAP + 12288.
Definition file_b : Z := DISKMAP + 12544.

Lemma demo_ready : ready s.
Proof. apply Hs. Qed.
Lemma demo_view a : in_cache a = true → vw s a = u8 (demo_image 1 (a - DISKMAP)).
Proof.
  intros Ha. pose proof (in_cache_range a Ha). destruct Hs as (_ & _ & _ & _ & Hv). rewrite Hv by lia. by apply fs_boot_view.
Qed.
Lemma demo_zero a : in_cache a = true → Forall (λ kv, a - DISKMAP ≠ kv.1) demo_bytes → vw s a = 0.
Proof. intros Ha Hf. rewrite demo_view by exact Ha. unfold demo_image. by rewrite byte_at_zero. Qed.
Lemma demo_word_zero a : in_cache a = true → in_cache (a + 3) = true → Forall (λ kv, a - DISKMAP + 3 < kv.1 ∨ kv.1 < a - DISKMAP) demo_bytes → vw32 s a = 0.
Proof.
  intros Ha Ha3 Hf. assert (Hz : ∀ i, 0 ≤ i < 4 → vw s (a + i) = 0).
  { intros i Hi. apply demo_zero.
    - apply in_cache_iff. apply in_cache_iff in Ha, Ha3. lia.
    - eapply Forall_impl; [exact Hf|]. cbn. lia. }
  unfold vw32. rewrite (Hz 1), (Hz 2), (Hz 3) by lia. pose proof (Hz 0 ltac:(lia)) as H0. rewrite Z.add_0_r in H0. by rewrite H0.
Qed.

Ltac away := unfold demo_bytes; change DISKMAP with 0x10000000; repeat (apply Forall_cons_2; [cbn [fst]; lia|]); apply Forall_nil_2.
Ltac cached := apply in_cache_iff; unfold root, file_a, file_b, f_direct; change SUPER with 0x10001000; change DISKMAP with 0x10000000; change DISKSIZE with 0xC0000000; lia.

Lemma demo_nblocks : nblocks s = 64.
Proof. unfold nblocks, vw32. rewrite !demo_view by reflexivity. reflexivity. Qed.
Lemma demo_data b : 3 ≤ b < 5 → data_block s b.
Proof.
  intros Hb. unfold data_block, nbitmap. rewrite demo_nblocks. change (2 + (64 + 32767) / 32768) with 3. split; [lia|].
  unfold is_free, vw32. assert (b = 3 ∨ b = 4) as [->| ->] by lia; rewrite !demo_view by reflexivity; reflexivity.
Qed.

(** Block pointers: one direct block at most. *)
Lemma demo_ptr f b i : f = root ∧ b = 3 ∨ f = file_a ∧ b = 4 ∨ f = file_b ∧ b = 0 → 0 ≤ i < 1034 →
  indirect s f = 0 ∧ ptr s f i = if decide (i = 0) then b else 0.
Proof.
  intros Hf Hi.
  assert (Hind : indirect s f = 0).
  { unfold indirect. destruct Hf as [[-> _]|[[-> _]|[-> _]]]; unfold vw32; rewrite !demo_view by reflexivity; reflexivity. }
  split; [exact Hind|]. unfold ptr. rewrite Hind. change NDIRECT with 10. destruct (10 <=? i) eqn:E; [cbn; by rewrite decide_False by lia|].
  cbn [andb]. unfold slot. change NDIRECT with 10. replace (i <? 10) with true by lia. case_decide as Hz.
  - subst i. destruct Hf as [[-> ->]|[[-> ->]|[-> ->]]]; unfold vw32; rewrite !demo_view by reflexivity; reflexivity.
  - apply demo_word_zero; destruct Hf as [[-> _]|[[-> _]|[-> _]]]; (cached || (unfold root, file_a, file_b, f_direct; change SUPER with 0x10001000; away)).
Qed.

Lemma demo_file f b : f = root ∧ b = 3 ∨ f = file_a ∧ b = 4 ∨ f = file_b ∧ b = 0 → file_ok s f.
Proof.
  intros Hf. split.
  - destruct Hf as [[-> _]|[[-> _]|[-> _]]]; (split; [reflexivity|split; [reflexivity|split; [done|]]]); [by left|right..];
      [change (blk_of file_a) with 3|change (blk_of file_b) with 3]; apply demo_data; lia.
  - left. by apply (demo_ptr f b 0 Hf).
  - intros i Hi. destruct (demo_ptr f b i Hf Hi) as [Hind ->]. case_decide; [|by left]. destruct Hf as [[-> ->]|[[-> ->]|[-> ->]]]; [right..|by left];
      (split; [apply demo_data; lia|]); rewrite Hind; split; discriminate.
  - intros i j Hi Hj Hij. destruct (demo_ptr f b i Hf Hi) as [_ ->], (demo_ptr f b j Hf Hj) as [_ ->]. repeat case_decide; lia.
Qed.

Lemma root_file : file_ok s root.
Proof. apply (demo_file root 3). by left. Qed.
Lemma a_file : file_ok s file_a.
Proof. apply (demo_file file_a 4). right. by left. Qed.
Lemma b_file : file_ok s file_b.
Proof. apply (demo_file file_b 0). right. by right. Qed.
Lemma demo_sizes : fsize s root = 4096 ∧ fsize s file_a = 100 ∧ fsize s file_b = 0.
Proof. unfold fsize, vw32. rewrite !demo_view by reflexivity. done. Qed.
Lemma root_tight : tight s root.
Proof.
  intros i Hi. destruct demo_sizes as (E & _). rewrite E in Hi. change (blocks_for 4096) with 1 in Hi.
  destruct (demo_ptr root 3 i) as [_ ->]; [by left|lia|]. by rewrite decide_False by lia.
Qed.
Lemma a_tight : tight s file_a.
Proof.
  intros i Hi. destruct demo_sizes as (_ & E & _). rewrite E in Hi. change (blocks_for 100) with 1 in Hi.
  destruct (demo_ptr file_a 4 i) as [_ ->]; [right; by left|lia|]. by rewrite decide_False by lia.
Qed.

(** The two files share nothing. *)
Lemma a_b_separate : separate s file_a file_b.
Proof.
  assert (Hfb : file_b = root ∧ 0 = 3 ∨ file_b = file_a ∧ 0 = 4 ∨ file_b = file_b ∧ 0 = 0) by (right; by right).
  assert (Hb : ∀ c, ¬ holds s file_b c).
  { intros c [Hnz [->|(i & Hi & E)]].
    - by rewrite (proj1 (demo_ptr file_b 0 0 Hfb ltac:(lia))) in Hnz.
    - rewrite (proj2 (demo_ptr file_b 0 i Hfb Hi)) in E. case_decide; lia. }
  split; [by left|apply Hb| |intros c _; apply Hb].
  intros [Hnz [E|(i & Hi & E)]]; [destruct (demo_ptr file_a 4 0) as [Hind _]; [right; by left|lia|]; by rewrite Hind in E|].
  destruct (demo_ptr file_a 4 i) as [_ E2]; [right; by left|exact Hi|]. rewrite E2 in E. change (blk_of file_b) with 3 in E. case_decide; lia.
Qed.

(** The root directory: 16 entries, none of them a directory. *)
Lemma root_dblocks : dblocks s root = 1.
Proof. unfold dblocks. destruct demo_sizes as (-> & _). reflexivity. Qed.
Lemma root_entry k : 0 ≤ k < 16 → entry s root k = DISKMAP + 12288 + 256 * k.
Proof.
  intros Hk. unfold entry. replace (k / 16) with 0 by dlia. replace (k `mod` 16) with k by dlia.
  destruct (demo_ptr root 3 0) as [_ ->]; [by left|lia|]. rewrite decide_True by lia. lia.
Qed.
Lemma root_dir : dir_ok s root.
Proof.
  destruct demo_sizes as (E & _). split; [exact root_file|rewrite root_dblocks, E; lia| |].
  - rewrite root_dblocks. intros i Hi. destruct (demo_ptr root 3 i) as [_ ->]; [by left|lia|]. by rewrite decide_True by lia.
  - rewrite root_dblocks. intros k Hk. rewrite root_entry by lia. unfold named. apply list_elem_of_lookup. exists 127%nat.
    change 127%nat with (Z.to_nat 127). rewrite lookup_vws by lia. f_equal. apply demo_zero; [cached|away].
Qed.
Lemma demo_types : ftype s root = FTYPE_DIR ∧ ∀ k, 0 ≤ k < 16 → ftype s (entry s root k) ≠ FTYPE_DIR.
Proof.
  split; [unfold ftype, vw32; rewrite !demo_view by reflexivity; reflexivity|]. intros k Hk. rewrite root_entry by exact Hk.
  assert (E : ftype s (DISKMAP + 12288 + 256 * k) = 0); [|by rewrite E]. unfold ftype, f_type.
  apply demo_word_zero; [cached|cached|away].
Qed.
Lemma demo_tree : tree_ok s.
Proof.
  assert (Hr : ∀ d, reachable s d → d = root ∨ ftype s d ≠ FTYPE_DIR).
  { intros d Hd. induction Hd as [|d k Hd IH Hty Hk Hn]; [by left|right]. destruct IH as [->|]; [|done].
    rewrite root_dblocks in Hk. by apply demo_types. }
  intros d Hd Hty. destruct (Hr d Hd) as [->|]; [exact root_dir|done].
Qed.

(** There is no file "c". *)
Lemma demo_no_c : dfind s root [99] = None.
Proof.
  apply no_entry_find. rewrite root_dblocks. intros k Hk. apply bool_decide_eq_false_2. intros E.
  rewrite root_entry in E by lia. assert (Hh : head (vname s (DISKMAP + 12288 + 256 * k)) = Some 99) by by rewrite E. revert Hh.
  unfold vname, vws, range. rewrite (seqZ_cons 0) by lia. cbn [fmap list_fmap nul_prefix]. rewrite Z.add_0_r.
  destruct (decide (k = 0)) as [->|]; [by rewrite demo_view by reflexivity|].
  destruct (decide (k = 1)) as [->|]; [by rewrite demo_view by reflexivity|].
  rewrite demo_zero; [done|cached|away].
Qed.
Lemma demo_missing : resolve s None (s_root SUPER) [[99]] = {| w_ret := - E_NOT_FOUND; w_dir := Some root; w_file := None; w_last := [99] |}.
Proof.
  cbn [resolve]. rewrite decide_False by (cbn; lia). change (s_root SUPER) with root. rewrite decide_False by (rewrite (proj1 demo_types); intros X; by apply X).
  rewrite demo_no_c. by rewrite decide_True by done.
Qed.

End Mounted.
