(* ===== verification/FsProps.v ===== *)
(** * Properties of the file server

    From the disk driver up: what is written to the disk is read back, the
    block cache is transparent, the allocator hands out free blocks, files
    hold the bytes written to them and do not disturb each other. *)

From S2P Require Import Prelude Mmu CMem Str StrProofs FsState Ide Bc Fs IdeProofs BcProofs BcMem FsAlloc FsInit FsFile FsData FsRw FsSync FsTrunc FsIso FsDir FsPath FsCreate FsDemo.

Section FsProps.
Context {D : Type} `{AtaDisk D}.
Implicit Types s : FState D.

(** ** The driver *)

(** C26: ide_write stores [512 * nsecs] bytes of memory in exactly the
    sectors from [secno] on of the selected disk and changes nothing else;
    ide_read brings exactly those sectors into memory, changes neither the
    disk nor other memory, and makes dirty the cache blocks it stores to.
    Both wait for the controller before each command and each sector: its
    laws promise nothing about one that has not been polled ready. *)
Theorem ide_transfers_sectors secno a nsecs s :
  phase (dev s) = AtaIdle → bytes_ok (um s) → (diskno s = 0 ∨ diskno s = 1) →
  0 ≤ secno < 268435456 → 0 < nsecs ≤ 256 → 0 ≤ a → a + 512 * nsecs < 4294967296 →
  (∃ d', ide_write secno a nsecs s = Ok 0 (set_dev d' s) ∧ phase d' = AtaIdle ∧
     ∀ k x, image d' k x =
       if decide (k = diskno s ∧ secno * 512 ≤ x < secno * 512 + 512 * nsecs) then ld (um s) (a + (x - secno * 512))
       else image (dev s) k x) ∧
  (∃ d' m' X, ide_read secno a nsecs s = Ok 0 (set_dirty X (set_um m' (set_dev d' s))) ∧ phase d' = AtaIdle ∧
     same_image (dev s) d' ∧ dirtied (dirty s) X a (512 * nsecs) ∧
     ∀ x, 0 ≤ x < 4294967296 → ld m' x =
       if decide (a ≤ x < a + 512 * nsecs) then image (dev s) (diskno s) (secno * 512 + (x - a)) else ld (um s) x).
Proof.
  intros Hp Hb Hk Hs Hn H1 H2. split.
  - destruct (wp_no_stop _ _ _ (ide_write_spec secno a nsecs s Hp Hb Hk Hs Hn H1 H2)) as (r & s1 & Hw & -> & d1 & -> & Hp1 & Hw1).
    exists d1. split; [exact Hw|]. split; [exact Hp1|exact Hw1].
  - destruct (wp_no_stop _ _ _ (ide_read_spec secno a nsecs s Hp Hb Hk Hs Hn H1 H2))
      as (r & s2 & Hr & -> & d2 & m2 & X & -> & Hp2 & Hi & HX & _ & Hf).
    exists d2, m2, X. split; [exact Hr|]. do 3 (split; [assumption|]). exact Hf.
Qed.

(** ** The block cache *)

(** C25: touching an address of a block in use brings the block into the
    cache, whatever nested faults that takes, without a panic as long as the
    kernel has pages ([cache_ok]), and does not change what the server sees,
    the disk, or which blocks are dirty. *)
Theorem block_cache_transparent a s : cache_ok s → mounted s → accessible s a →
  ∃ s', touch a s = Ok tt s' ∧ csame s s' ∧ cache_ok s' ∧ present_at s' a.
Proof.
  intros Hc Hm Ha. destruct (wp_no_stop _ _ _ (touch_spec a s Hc Hm Ha)) as ([] & s' & Hrun & Hs).
  exists s'. split; [exact Hrun|exact Hs].
Qed.

(** flush_block writes the block of [a] back: afterwards the disk holds
    what the server sees of it, the block is clean, and nothing else on the
    disk and nothing the server sees has changed. *)
Theorem flush_block_correct a s : cache_ok s → in_cache a = true →
  ∃ s', flush_block a s = Ok tt s' ∧ vsame s s' ∧ cache_ok s' ∧ flushed s s' (blk_of a) ∧
    mapped s' = mapped s ∧ dirty s' = dirty s ∖ {[blk_of a]}.
Proof.
  intros Hc Ha. destruct (wp_no_stop _ _ _ (flush_full a s Hc Ha)) as ([] & s' & Hrun & (H1 & H2 & H3) & H4 & H5).
  exists s'. split_and!; assumption.
Qed.

(** C24: fs_init selects a disk, and when that disk holds a file system it
    mounts it: the self test of the block cache restores the super block, the
    server is ready, and it sees what was on the disk. *)
Theorem fs_init_mounts s : booted s →
  ∃ k, selects s k ∧ (formatted (set_diskno k s) → ∃ s', fs_init s = Ok tt s' ∧ mounts (set_diskno k s) s').
Proof. apply fs_init_ok. Qed.

(** ** Blocks *)

(** alloc_block returns the first free block, marks it in use on the
    disk, and changes nothing else; it fails with -E_NO_DISK, without any
    effect, exactly when no block is free. *)
Theorem alloc_block_correct s : ready s → ∃ r s', alloc_block s = Ok r s' ∧ alloc_result s r s'.
Proof. intros Hr. apply wp_no_stop. by apply alloc_block_ok. Qed.

(** file_get_block returns the cache address of the block, allocating it
    (and the indirect block) zeroed when it is missing; the file stays well
    formed, its other blocks and all memory it does not own are unchanged.  It
    fails only when the block is missing and the disk is full. *)
Theorem file_get_block_correct f i s : ready s → file_ok s f → 0 ≤ i < 1034 →
  ∃ r o s', file_get_block f i s = Ok (r, o) s' ∧ got_block s f i r o s'.
Proof.
  intros Hr Hf Hi. destruct (wp_no_stop _ _ _ (file_get_block_ok f i s Hr Hf Hi)) as ([r o] & s' & Hrun & Hs).
  exists r, o, s'. split; [exact Hrun|exact Hs].
Qed.

(** ** Files *)

(** file_read puts the bytes of the file from [offset] into the buffer,
    as many as there are, and returns their number; the file's contents, and
    everything else but the buffer, stay the same. *)
Theorem file_read_correct f buf count offset s :
  ready s → file_ok s f → 0 ≤ fsize s f ≤ 4235264 → 0 ≤ offset → 0 ≤ count < 4294967296 →
  outside buf (readable_bytes s f count offset) →
  ∃ r s', file_read f buf count offset s = Ok r s' ∧ read_result s f buf count offset r s'.
Proof. intros. apply wp_no_stop. by apply file_read_ok. Qed.

(** C18: file_write makes the bytes of the buffer the contents of the file
    from [offset], extends the size as needed, and changes neither other
    contents of the file nor anything that is not its own. *)
Theorem file_write_correct f buf count offset s :
  ready s → file_ok s f → 0 ≤ fsize s f → 0 ≤ offset → 0 ≤ count → offset + count ≤ 4235264 → outside buf count →
  ∃ r s', file_write f buf count offset s = Ok r s' ∧ write_result s f buf count offset r s'.
Proof. intros. apply wp_no_stop. by apply file_write_ok. Qed.

(** C17: what file_write wrote, file_read reads back. *)
Theorem file_write_read f buf buf' count offset s :
  ready s → file_ok s f → 0 ≤ fsize s f ≤ 4235264 → 0 ≤ offset → 0 ≤ count → offset + count ≤ 4235264 →
  outside buf count → outside buf' count →
  ∃ r s1, file_write f buf count offset s = Ok r s1 ∧ (r = count ∨ r = - E_NO_DISK ∧ no_free s1) ∧
    (r = count → ∃ s2, file_read f buf' count offset s1 = Ok count s2 ∧
       ∀ k, 0 ≤ k < count → vw s2 (buf' + k) = vw s (buf + k)).
Proof.
  intros Hr Hf Hsz Ho Hc Hmax Hb Hb'.
  destruct (wp_no_stop _ _ _ (file_write_ok f buf count offset s Hr Hf (proj1 Hsz) Ho Hc Hmax Hb))
    as (r & s1 & Hw & Hfs & Hsz1 & m & Hm & Hcont & Hres).
  exists r, s1. split; [exact Hw|]. split; [destruct Hres as [(-> & _)|[-> Hno]]; [by left|by right]|]. intros ->.
  destruct Hres as [(_ & -> & Hthere)|[E _]]; [|unfold E_NO_DISK in E; lia].
  assert (Hn : readable_bytes s1 f count offset = count) by (unfold readable_bytes; lia).
  destruct (wp_no_stop _ _ _ (file_read_ok f buf' count offset s1 (fs_ready _ _ _ _ Hfs) (fs_file _ _ _ _ Hfs)
    ltac:(lia) Ho ltac:(lia) ltac:(rewrite Hn; exact Hb'))) as (r2 & s2 & Hrd & Hres2).
  unfold read_result in Hres2. rewrite Hn in Hres2. destruct Hres2 as (_ & _ & [[-> Hbytes]|(_ & _ & p & Hp & Hz)]).
  - exists s2. split; [exact Hrd|]. intros k Hk. rewrite Hbytes, Hcont by lia. rewrite decide_True by lia. f_equal. lia.
  - destruct (Hthere p Hp Hz).
Qed.

(** C22: after fs_sync everything the server sees of the file system is on
    the disk: a server that starts with this disk and mounts it sees the same
    bytes. *)
Theorem fs_sync_survives_reboot s : ready s → formatted s →
  ∃ s1, fs_sync s = Ok tt s1 ∧ vsame s s1 ∧ ready s1 ∧
    ∀ s0, booted s0 → dev s0 = dev s1 → selects s0 (diskno s) →
      ∃ s2, fs_init s0 = Ok tt s2 ∧ ready s2 ∧ ∀ a, fs_range s a → vw s2 a = vw s a.
Proof.
  intros Hr Hf. destruct (wp_no_stop _ _ _ (fs_sync_ok s Hr)) as ([] & s1 & Hrun & Hw & Hsy).
  exists s1. split; [exact Hrun|]. split; [apply Hw|]. split; [apply Hw|].
  intros s0 Hb Hd Hk. exact (sync_reboot_ok s s0 s1 Hf Hw Hsy Hb Hd Hk).
Qed.

(** C23: file_set_size to a smaller size always succeeds: the blocks behind
    the new end are free again, the bytes in the blocks that remain are
    unchanged, and nothing outside the file's own structures is touched. *)
Theorem file_set_size_shrinks f n s :
  ready s → file_ok s f → tight s f → 0 ≤ n < fsize s f → fsize s f ≤ 4235264 →
  ∃ s', file_set_size f n s = Ok 0 s' ∧ shrunk s f n s' ∧
    ∀ p, 0 ≤ p < 4235264 → fbyte s' f p = if decide (p / 4096 < blocks_for n) then fbyte s f p else 0.
Proof.
  intros Hr Hf Ht Hn Hsz. destruct (wp_no_stop _ _ _ (file_set_size_shrink f n s Hr Hf Ht Hn Hsz)) as (r & s' & Hrun & -> & Hs).
  exists s'. split; [exact Hrun|]. split; [exact Hs|]. intros p Hp. exact (truncated_fbyte s s' f _ p (proj2 Hr) Hf (proj1 Hs) Hp).
Qed.

(** C19: files are isolated: writing to one file, whether it succeeds or the
    disk fills up, changes neither the size nor a byte of another file that
    shares no block with it and whose blocks do not hold its header (so not
    of the directory it is in), and the two still share nothing afterwards. *)
Theorem file_write_isolated f g buf count offset s :
  ready s → file_ok s f → file_ok s g → separate s f g →
  0 ≤ fsize s f → 0 ≤ offset → 0 ≤ count → offset + count ≤ 4235264 → outside buf count →
  ∃ r s', file_write f buf count offset s = Ok r s' ∧ kept s s' g ∧ separate s' f g.
Proof.
  intros Hr Hf Hg Hsep Hsz Ho Hc Hmax Hb.
  destruct (wp_no_stop _ _ _ (file_write_ok f buf count offset s Hr Hf Hsz Ho Hc Hmax Hb)) as (r & s' & Hrun & Hst & _).
  exists r, s'. split; [exact Hrun|]. eapply fstep_kept; [apply Hr|exact Hf|exact Hg|exact Hsep|exact Hst|]. intros x Hx. left. exact Hx.
Qed.

(** ** Paths *)

(** C21: walk_path computes the reference resolution of every path: its
    components are looked up one after the other from the root, with the
    code's answers for missing files, files used as directories and names
    that are too long; the file system is not changed. *)
Theorem walk_path_resolves path s : ready s → tree_ok s → Forall (λ c, c ≠ 0) path →
  ∃ s', walk_path path s = Ok (resolve s None (s_root SUPER) (path_names path)) s' ∧ csame s s' ∧ ready s'.
Proof.
  intros Hr Ht Hp. pose proof (tree_walk_ok s (path_names path) (proj2 Hr) Ht (path_names_ne path) _ (reach_root s)) as Hw.
  destruct (wp_no_stop _ _ _ (walk_path_ok path s Hr Hw Hp)) as (w & s' & Hrun & [Hs Hr'] & ->). exists s'. split; [exact Hrun|]. by split.
Qed.

(** C20: file_create answers as specified (the file exists, its directory
    does not, the disk is full), and a file it created is found under the
    same path by file_open and by no other name of its directory. *)
Theorem file_create_open path s : ready s → tree_ok s → Forall (λ c, 0 < c < 256) path →
  room_for s (resolve s None (s_root SUPER) (path_names path)) →
  (∀ d, w_dir (resolve s None (s_root SUPER) (path_names path)) = Some d → walk_above s d (s_root SUPER) (path_names path)) →
  ∃ r o s1, file_create path s = Ok (r, o) s1 ∧ create_result s path r o s1 ∧
    (r = 0 → ∃ f s2, o = Some f ∧ file_open path s1 = Ok (0, Some f) s2 ∧ csame s1 s2).
Proof.
  intros Hr Ht Hp Hroom Hab. pose proof (tree_walk_ok s (path_names path) (proj2 Hr) Ht (path_names_ne path) _ (reach_root s)) as Hw.
  assert (Hnz : Forall (λ c, c ≠ 0) path) by (eapply Forall_impl; [exact Hp|cbn; lia]).
  destruct (wp_no_stop _ _ _ (file_create_ok path s Hr Hw Hp Hroom)) as ([r o] & s1 & Hrun & Hres).
  exists r, o, s1. split; [exact Hrun|]. split; [exact Hres|]. intros ->. unfold create_result in Hres. cbv zeta in Hres.
  set (w := resolve s None (s_root SUPER) (path_names path)) in *. case_decide as Hz; [destruct Hres as [E _]; discriminate E|].
  destruct (w_dir w) as [d|] eqn:Ed; [|destruct Hres as [E _]; congruence].
  destruct Hres as [Hst [[E _]|(f & _ & -> & Hd1 & _ & Hf1 & _)]]; [discriminate E|]. exists f.
  destruct (resolve_missing s _ (path_names_ne path) None (s_root SUPER) d Hw Hz Ed) as (_ & Hd & _).
  destruct (reopen s s1 d f (proj2 Hr) (proj2 (fs_ready _ _ _ _ Hst)) (do_file _ _ Hd) Hst Hd1 _ None _ Hw (Hab d eq_refl) Hz Ed Hf1) as [Hw1 Hres1].
  destruct (wp_no_stop _ _ _ (walk_path_ok path s1 (fs_ready _ _ _ _ Hst) Hw1 Hnz)) as (w2 & s2 & Hrun2 & [Hs2 _] & ->).
  exists s2. split; [reflexivity|]. split; [|exact Hs2]. unfold file_open, mbind, M_bind. rewrite Hrun2, Hres1. reflexivity.
Qed.

End FsProps.

(** ** The theorems on the disk in memory *)

Lemma ide_transfers_sectors_witness :
  (∃ d', ide_write 80 0x800000 8 fs_boot = Ok 0 (set_dev d' fs_boot)) ∧
  (∃ s', ide_read 80 0x800000 8 fs_boot = Ok 0 s').
Proof.
  destruct (ide_transfers_sectors 80 0x800000 8 fs_boot) as [(d' & Hw & _) (d2 & m' & X & Hr & _)];
    [reflexivity|apply (co_bytes _ (bo_cache _ fs_boot_booted))|by right|lia|lia|lia|lia|].
  split; [exists d'; exact Hw|eexists; exact Hr].
Defined.

Lemma block_cache_transparent_witness : ∃ s s', touch BITMAP s = Ok tt s' ∧ 2 ∈ mapped (D := RamDisk) s'.
Proof.
  destruct fs_demo_mounted as (s & _ & [Hc Hm] & _). exists s.
  destruct (block_cache_transparent BITMAP s Hc Hm) as (s' & Hrun & _ & _ & Hp).
  - intros _. right. pose proof (mo_size _ Hm). pose proof (nbitmap_range s (mo_size _ Hm)). change (blk_of BITMAP) with 2.
    split; [lia|]. apply (mo_reserved _ Hm). lia.
  - exists s'. split; [exact Hrun|exact (Hp eq_refl)].
Defined.

Lemma flush_block_correct_witness : ∃ s s', flush_block SUPER s = Ok tt s' ∧ dirty (D := RamDisk) s' = dirty s ∖ {[1]}.
Proof.
  destruct fs_demo_mounted as (s & _ & [Hc Hm] & _). exists s.
  destruct (flush_block_correct SUPER s Hc eq_refl) as (s' & Hrun & _ & _ & _ & _ & Hd). exists s'. split; [exact Hrun|exact Hd].
Defined.

Lemma fs_init_mounts_witness : ∃ k s', fs_init fs_boot = Ok tt s' ∧ mounts (set_diskno k fs_boot) s'.
Proof.
  destruct (fs_init_mounts fs_boot fs_boot_booted) as (k & _ & Hm). destruct (Hm (fs_boot_formatted k)) as (s' & H1 & H2).
  exists k, s'. split; [exact H1|exact H2].
Defined.

Lemma alloc_block_correct_witness : ∃ s r s', alloc_block s = Ok r s' ∧ alloc_result (D := RamDisk) s r s'.
Proof.
  destruct fs_demo_mounted as (s & _ & Hr & _). exists s. exact (alloc_block_correct s Hr).
Defined.

Lemma file_get_block_correct_witness : ∃ s r o s', file_get_block root 12 s = Ok (r, o) s' ∧ got_block (D := RamDisk) s root 12 r o s'.
Proof.
  destruct fs_demo_mounted as (s & _ & Hm). exists s.
  exact (file_get_block_correct root 12 s (proj1 Hm) (root_file s Hm) ltac:(lia)).
Defined.

Lemma file_read_correct_witness : ∃ s r s', file_read root 0x800000 100 0 s = Ok r s' ∧ read_result (D := RamDisk) s root 0x800000 100 0 r s'.
Proof.
  destruct fs_demo_mounted as (s & _ & Hm). exists s. pose proof (root_file s Hm) as Hf. destruct (demo_sizes s Hm) as (Hs & _).
  apply (file_read_correct root 0x800000 100 0 s (proj1 Hm) Hf); [lia|lia|lia|].
  unfold readable_bytes. rewrite Hs. split; [lia|]. split; [lia|]. left. lia.
Defined.

Lemma file_write_correct_witness : ∃ s r s', file_write root 0x800000 5000 100 s = Ok r s' ∧ write_result (D := RamDisk) s root 0x800000 5000 100 r s'.
Proof.
  destruct fs_demo_mounted as (s & _ & Hm). exists s. pose proof (root_file s Hm) as Hf. destruct (demo_sizes s Hm) as (Hs & _).
  apply (file_write_correct root 0x800000 5000 100 s (proj1 Hm) Hf); [lia|lia|lia|lia|].
  split; [lia|]. split; [lia|]. left. lia.
Defined.

Lemma file_write_read_witness :
  ∃ s r s1, file_write root 0x800000 5000 100 s = Ok r s1 ∧
    (r = 5000 → ∃ s2, file_read root 0x900000 5000 100 s1 = Ok 5000 s2 ∧
       ∀ k, 0 ≤ k < 5000 → vw (D := RamDisk) s2 (0x900000 + k) = vw s (0x800000 + k)).
Proof.
  destruct fs_demo_mounted as (s & _ & Hm). exists s. pose proof (root_file s Hm) as Hf. destruct (demo_sizes s Hm) as (Hs & _).
  destruct (file_write_read root 0x800000 0x900000 5000 100 s (proj1 Hm) Hf) as (r & s1 & Hw & _ & Hrd);
    [lia|lia|lia|lia|split; [lia|split; [lia|left; lia]]|split; [lia|split; [lia|left; lia]]|].
  exists r, s1. split; [exact Hw|exact Hrd].
Defined.

Lemma fs_sync_survives_reboot_witness :
  ∃ s s1 s2, fs_sync s = Ok tt s1 ∧ fs_init (set_dev (dev s1) fs_boot) = Ok tt s2 ∧ ∀ a, fs_range s a → vw s2 a = vw s a.
Proof.
  destruct fs_demo_mounted as (s & _ & Hm). exists s.
  assert (Hf : formatted s) by (eapply formatted_view; [exact (proj2 (proj2 (proj2 (proj2 Hm))))|exact (fs_boot_formatted 1)]).
  destruct (fs_sync_survives_reboot s (proj1 Hm) Hf) as (s1 & Hrun & _ & [Hc1 _] & Hboot). exists s1.
  destruct (Hboot (set_dev (dev s1) fs_boot)) as (s2 & Hrun2 & _ & Hv).
  - apply boot_with_disk. exact (co_idle _ Hc1).
  - reflexivity.
  - rewrite (proj1 (proj2 Hm)). apply ram_selects.
  - exists s2. split; [exact Hrun|]. split; [exact Hrun2|exact Hv].
Defined.

Lemma file_set_size_shrinks_witness : ∃ s s', file_set_size file_a 0 s = Ok 0 s' ∧ shrunk (D := RamDisk) s file_a 0 s'.
Proof.
  destruct fs_demo_mounted as (s & _ & Hm). exists s. destruct (demo_sizes s Hm) as (_ & Hs & _).
  destruct (file_set_size_shrinks file_a 0 s (proj1 Hm) (a_file s Hm) (a_tight s Hm)) as (s' & Hrun & Hsh & _); [lia|lia|].
  exists s'. split; [exact Hrun|exact Hsh].
Defined.

Lemma file_write_isolated_witness :
  ∃ s r s', file_write file_a 0x800000 5000 100 s = Ok r s' ∧ kept (D := RamDisk) s s' file_b.
Proof.
  destruct fs_demo_mounted as (s & _ & Hm). exists s. destruct (demo_sizes s Hm) as (_ & Hs & _).
  destruct (file_write_isolated file_a file_b 0x800000 5000 100 s (proj1 Hm) (a_file s Hm) (b_file s Hm) (a_b_separate s Hm)) as (r & s' & Hrun & Hk & _);
    [lia|lia|lia|lia|split; [lia|split; [lia|left; lia]]|].
  exists r, s'. split; [exact Hrun|exact Hk].
Defined.

Lemma walk_path_resolves_witness :
  ∃ s s', walk_path [47; 97] s = Ok (resolve (D := RamDisk) s None (s_root SUPER) [[97]]) s'.
Proof.
  destruct fs_demo_mounted as (s & _ & Hm). exists s.
  destruct (walk_path_resolves [47; 97] s (proj1 Hm) (demo_tree s Hm)) as (s' & Hrun & _); [repeat constructor; discriminate|].
  exists s'. exact Hrun.
Defined.

Lemma file_create_open_witness :
  ∃ s r o s1, file_create [47; 99] s = Ok (r, o) s1 ∧
    (r = 0 → ∃ f s2, o = Some f ∧ file_open [47; 99] s1 = Ok (0, Some f) s2 ∧ csame (D := RamDisk) s1 s2).
Proof.
  destruct fs_demo_mounted as (s & _ & Hm). exists s.
  destruct (file_create_open [47; 99] s (proj1 Hm) (demo_tree s Hm)) as (r & o & s1 & Hrun & _ & Hopen);
    [repeat constructor; lia| | |exists r, o, s1; split; [exact Hrun|exact Hopen]].
  - intros d Hd Hz. change (path_names [47; 99]) with [[99]] in *. rewrite (demo_missing s Hm) in Hd. injection Hd as <-.
    split; [exact (root_tight s Hm)|rewrite (root_dblocks s Hm); lia].
  - intros d Hd. change (path_names [47; 99]) with [[99]]. cbn [walk_above]. change (s_root SUPER) with root. by rewrite (demo_no_c s Hm).
Defined.
