(* ===== verification/Inet.v ===== *)
(** * Internet addresses and checksums

    net/lwip/core/ipv4/inet.c, inet_chksum.c and ip_addr.c: byte order,
    dotted addresses, the Internet checksum over memory and over chains of
    pbufs.  A struct pbuf is read from memory: next at offset 0, payload at
    4, tot_len at 8, len at 10.  The loops end ([InetProofs]); [None] would
    mean that they do not. *)

From S2P Require Import Prelude CMem Str.

Definition ld16 (m : mem) (a : Z) : Z := ld m a + 256 * ld m (a + 1).
Definition st16 (m : mem) (a v : Z) : mem := st (st m a v) (a + 1) (v / 256).

(** ** Byte order *)

Definition htons (n : Z) : Z := u16 (Z.lor (Z.shiftl (Z.land n 0xff) 8) (Z.shiftr (Z.land n 0xff00) 8)).
Definition ntohs (n : Z) : Z := htons n.
Definition htonl (n : Z) : Z :=
  u32 (Z.lor (Z.lor (Z.lor (Z.shiftl (Z.land n 0xff) 24) (Z.shiftl (Z.land n 0xff00) 8))
                    (Z.shiftr (Z.land n 0xff0000) 8))
             (Z.shiftr (Z.land n 0xff000000) 24)).
Definition ntohl (n : Z) : Z := htonl n.

(** ** Checksums *)

Definition SWAP_BYTES_IN_WORD (w : Z) : Z := Z.lor (Z.shiftl (Z.land w 0xff) 8) (Z.shiftr (Z.land w 0xff00) 8).
Definition FOLD_U32T (u : Z) : Z := u32 (Z.shiftr u 16 + Z.land u 0xffff).

(** Version 1, the one the stack is built with. *)
Definition lwip_standard_chksum (m : mem) (dataptr len : Z) : option Z :=
  '(octetptr, len, acc) ← while (λ '(octetptr, len, acc),
    if len >? 1 then
      let src := u16 (Z.shiftl (ld m octetptr) 8) in
      let src := Z.lor src (ld m (octetptr + 1)) in
      inl (u32 (octetptr + 2), u16 (len - 2), u32 (acc + src))
    else inr (octetptr, len, acc)) (dataptr, len, 0);
  let acc := if len >? 0 then u32 (acc + u16 (Z.shiftl (ld m octetptr) 8)) else acc in
  let acc := FOLD_U32T acc in
  let acc := if ctrue (Z.land acc 0xffff0000) then FOLD_U32T acc else acc in
  Some (htons (u16 acc)).

(** Adding 16-bit words. *)
Definition sum_words (m : mem) (ps len sum : Z) : option (Z * Z * Z) :=
  while (λ '(ps, len, sum),
    if len >? 1 then inl (u32 (ps + 2), len - 2, u32 (sum + ld16 m ps)) else inr (ps, len, sum)) (ps, len, sum).

(** Version 2: two bytes at a time from the first even address. *)
Definition lwip_standard_chksum_2 (m : mem) (dataptr len : Z) : option Z :=
  let odd := ctrue (Z.land dataptr 1) in
  let '(pb, len, t1) := if odd && (len >? 0) then (u32 (dataptr + 1), len - 1, ld m dataptr) else (dataptr, len, 0) in
  '(ps, len, sum) ← sum_words m pb len 0;
  let t0 := if len >? 0 then ld m ps else 0 in
  let sum := u32 (sum + (t0 + 256 * t1)) in
  let sum := FOLD_U32T (FOLD_U32T sum) in
  Some (u16 (if odd then SWAP_BYTES_IN_WORD sum else sum)).

(** A 32-bit addition with the carry added back. *)
Definition add_carry (sum w : Z) : Z :=
  let tmp := u32 (sum + w) in if tmp <? sum then u32 (tmp + 1) else tmp.

(** Version 3: eight bytes at a time from an address divisible by four. *)
Definition sum_longs (m : mem) (pl len sum : Z) : option (Z * Z * Z) :=
  while (λ '(pl, len, sum),
    if len >? 7 then
      let tmp := add_carry sum (ld32 m pl) in
      let sum := add_carry tmp (ld32 m (pl + 4)) in
      inl (u32 (pl + 8), len - 8, sum)
    else inr (pl, len, sum)) (pl, len, sum).

Definition lwip_standard_chksum_3 (m : mem) (dataptr len : Z) : option Z :=
  let odd := ctrue (Z.land dataptr 1) in
  let '(pb, len, t1) := if odd && (len >? 0) then (u32 (dataptr + 1), len - 1, ld m dataptr) else (dataptr, len, 0) in
  let '(ps, len, sum) := if ctrue (Z.land pb 3) && (len >? 1) then (u32 (pb + 2), len - 2, ld16 m pb) else (pb, len, 0) in
  '(pl, len, sum) ← sum_longs m ps len sum;
  let sum := FOLD_U32T sum in
  '(ps, len, sum) ← sum_words m pl len sum;
  let t0 := if len >? 0 then ld m ps else 0 in
  let sum := u32 (sum + (t0 + 256 * t1)) in
  let sum := FOLD_U32T (FOLD_U32T sum) in
  Some (u16 (if odd then SWAP_BYTES_IN_WORD sum else sum)).

Definition inet_chksum (m : mem) (dataptr len : Z) : option Z :=
  c ← lwip_standard_chksum m dataptr len; Some (u16 (Z.lnot c)).

(** struct pbuf *)
Definition p_next (m : mem) (p : Z) : Z := ld32 m p.
Definition p_payload (m : mem) (p : Z) : Z := ld32 m (p + 4).
Definition p_tot_len (m : mem) (p : Z) : Z := ld16 m (p + 8).
Definition p_len (m : mem) (p : Z) : Z := ld16 m (p + 10).

(** One pbuf of the chain: [acc] and [swapped] after it; the checksum covers
    [n] bytes of its payload. *)
Definition chksum_pbuf_step (m : mem) (q n acc : Z) (swapped : bool) : option (Z * bool) :=
  c ← lwip_standard_chksum m (p_payload m q) n;
  let acc := FOLD_U32T (u32 (acc + c)) in
  Some (if ctrue (Z.rem (p_len m q) 2) then (SWAP_BYTES_IN_WORD acc, negb swapped) else (acc, swapped)).

(** The loop over the chain; the result of the loop is [None] when a step
    does not end. *)
Definition chksum_chain (m : mem) (p : Z) : option (Z * bool) :=
  r ← while (λ '(q, acc, swapped),
    if q =? 0 then inr (Some (acc, swapped))
    else match chksum_pbuf_step m q (p_len m q) acc swapped with
         | Some (acc, swapped) => inl (p_next m q, acc, swapped)
         | None => inr None
         end) (p, 0, false);
  r.

Definition inet_chksum_pbuf (m : mem) (p : Z) : option Z :=
  '(acc, swapped) ← chksum_chain m p;
  let acc := if swapped : bool then SWAP_BYTES_IN_WORD acc else acc in
  Some (u16 (Z.lnot (Z.land acc 0xffff))).

(** The pseudo header is added to the sum of the chain. *)
Definition add_pseudo (acc : Z) (swapped : bool) (src dest proto proto_len : Z) : Z :=
  let acc := if swapped then SWAP_BYTES_IN_WORD acc else acc in
  let acc := u32 (acc + Z.land src 0xffff) in
  let acc := u32 (acc + Z.land (Z.shiftr src 16) 0xffff) in
  let acc := u32 (acc + Z.land dest 0xffff) in
  let acc := u32 (acc + Z.land (Z.shiftr dest 16) 0xffff) in
  let acc := u32 (acc + htons (u16 proto)) in
  let acc := u32 (acc + htons proto_len) in
  let acc := FOLD_U32T (FOLD_U32T acc) in
  u16 (Z.lnot (Z.land acc 0xffff)).

Definition inet_chksum_pseudo (m : mem) (p src dest proto proto_len : Z) : option Z :=
  '(acc, swapped) ← chksum_chain m p;
  Some (add_pseudo acc swapped src dest proto proto_len).

(** [inl msg] is a failed assertion. *)
Definition inet_chksum_pseudo_partial (m : mem) (p src dest proto proto_len chksum_len : Z) : option (string + Z) :=
  r ← while (λ '(q, chksum_len, acc, swapped),
    if (q =? 0) || negb (chksum_len >? 0) then inr (Some (inr (acc, swapped)))
    else
      let chklen := p_len m q in
      let chklen := if chklen >? chksum_len then chksum_len else chklen in
      match chksum_pbuf_step m q chklen acc swapped with
      | None => inr None
      | Some (acc, swapped) =>
          let chksum_len := u16 (chksum_len - chklen) in
          if negb (chksum_len <? 0x7fff) then inr (Some (inl "delete me"%string))
          else inl (p_next m q, chksum_len, acc, swapped)
      end) (p, chksum_len, 0, false);
  r ← r;
  Some (match r with
        | inl msg => inl msg
        | inr (acc, swapped) => inr (add_pseudo acc swapped src dest proto proto_len)
        end).

(** ** Dotted addresses *)

Definition in_range (c lo up : Z) : bool := (c >=? lo) && (c <=? up).
Definition isprint (c : Z) : bool := in_range c 0x20 0x7f.
Definition isdigit (c : Z) : bool := in_range c 48 57.
Definition isxdigit (c : Z) : bool := isdigit c || in_range c 97 102 || in_range c 65 70.
Definition islower (c : Z) : bool := in_range c 97 122.
Definition isspace (c : Z) : bool :=
  (c =? 32) || (c =? 12) || (c =? 10) || (c =? 13) || (c =? 9) || (c =? 11).

Definition INADDR_NONE : Z := 0xffffffff.

(** One round of the loop over the digits of a number. *)
Definition aton_digit (m : mem) (base : Z) : Z * Z → Z * Z + Z * Z := λ '(cp, val),
  let c := ld m cp in
  if isdigit c then inl (u32 (cp + 1), u32 (u32 (val * base) + (c - 48)))
  else if (base =? 16) && isxdigit c then
    inl (u32 (cp + 1), Z.lor (u32 (Z.shiftl val 4)) (c + 10 - (if islower c then 97 else 65)))
  else inr (cp, val).

(** One number: the pointer behind it and its value. *)
Definition aton_number (m : mem) (cp : Z) : option (Z * Z) :=
  let '(cp, base) :=
    if ld m cp =? 48 then
      let cp := u32 (cp + 1) in
      if (ld m cp =? 120) || (ld m cp =? 88) then (u32 (cp + 1), 16) else (cp, 8)
    else (cp, 10) in
  while (aton_digit m base) (cp, 0).

(** The numbers up to the last: [inl] when the address is refused, else the
    pointer, the parts before the last number and the last number. *)
Definition aton_parts (m : mem) (cp : Z) : option (unit + Z * list Z * Z) :=
  r ← while (λ '(cp, parts),
    if negb (isdigit (ld m cp)) then inr (Some (inl tt))
    else match aton_number m cp with
         | None => inr None
         | Some (cp, val) =>
             if ld m cp =? 46 then
               if Z.of_nat (length parts) >=? 3 then inr (Some (inl tt))
               else inl (u32 (cp + 1), parts ++ [val])
             else inr (Some (inr (cp, parts, val)))
         end) (cp, []);
  r.

(** [Some None] is the result 0, [Some (Some a)] the result 1 with
    [addr->s_addr = a]. *)
Definition inet_aton (m : mem) (cp : Z) : option (option Z) :=
  r ← aton_parts m cp;
  match r with
  | inl _ => Some None
  | inr (cp, parts, val) =>
      let c := ld m cp in
      if negb (c =? 0) && (negb (isprint c) || negb (isspace c)) then Some None
      else
        Some (match parts with
              | [] => Some (htonl val)
              | [a] => if val >? 0xffffff then None else Some (htonl (Z.lor val (u32 (Z.shiftl a 24))))
              | [a; b] =>
                  if val >? 0xffff then None
                  else Some (htonl (Z.lor val (Z.lor (u32 (Z.shiftl a 24)) (u32 (Z.shiftl b 16)))))
              | a :: b :: c :: _ =>
                  if val >? 0xff then None
                  else Some (htonl (Z.lor val (Z.lor (Z.lor (u32 (Z.shiftl a 24)) (u32 (Z.shiftl b 16))) (u32 (Z.shiftl c 8)))))
              end)
  end.

Definition inet_addr (m : mem) (cp : Z) : option Z :=
  r ← inet_aton m cp; Some (default INADDR_NONE r).

(** The digits of a byte, most significant first ([inv] is filled from the
    other end): three rounds are enough. *)
Fixpoint ntoa_digits (fuel : nat) (v : Z) (inv : list Z) : list Z :=
  match fuel with
  | O => inv
  | S fuel =>
      let inv := 48 + v `mod` 10 :: inv in
      let v := v / 10 in
      if v =? 0 then inv else ntoa_digits fuel v inv
  end.

(** [str] is the static buffer; the bytes of [addr] are taken in the order
    they have in memory.  The last dot is overwritten with NUL. *)
Definition inet_ntoa (m : mem) (str addr : Z) : mem :=
  let chars := (λ n, ntoa_digits 3 (u8 (Z.shiftr addr (8 * n))) [] ++ [46]) <$> [0; 1; 2; 3] in
  let chars := mjoin chars in
  let m := sts m str chars in
  st m (str + Z.of_nat (length chars) - 1) 0.

(** ** Addresses (ip_addr.h, ip_addr.c) *)

Definition IP4_ADDR (a b c d : Z) : Z :=
  htonl (Z.lor (Z.lor (Z.lor (Z.shiftl (Z.land a 0xff) 24) (Z.shiftl (Z.land b 0xff) 16)) (Z.shiftl (Z.land c 0xff) 8)) (Z.land d 0xff)).
Definition ip_addr_netcmp (addr1 addr2 mask : Z) : bool := Z.land addr1 mask =? Z.land addr2 mask.
Definition ip_addr_ismulticast (addr : Z) : bool := Z.land addr (ntohl 0xf0000000) =? ntohl 0xe0000000.
Definition ip_addr_islinklocal (addr : Z) : bool := Z.land addr (ntohl 0xffff0000) =? ntohl 0xa9fe0000.
Definition ip4_addr1 (addr : Z) : Z := Z.land (u16 (Z.shiftr (ntohl addr) 24)) 0xff.
Definition ip4_addr2 (addr : Z) : Z := Z.land (u16 (Z.shiftr (ntohl addr) 16)) 0xff.
Definition ip4_addr3 (addr : Z) : Z := Z.land (u16 (Z.shiftr (ntohl addr) 8)) 0xff.
Definition ip4_addr4 (addr : Z) : Z := Z.land (u16 (ntohl addr)) 0xff.

Definition NETIF_FLAG_BROADCAST : Z := 0x02.

(** [ip_addr], [netmask] and [flags] are those of the interface. *)
Definition ip_addr_isbroadcast (addr ip_addr netmask flags : Z) : Z :=
  if (u32 (Z.lnot addr) =? 0) || (addr =? 0) then 1
  else if Z.land flags NETIF_FLAG_BROADCAST =? 0 then 0
  else if addr =? ip_addr then 0
  else if ip_addr_netcmp addr ip_addr netmask &&
          (Z.land addr (u32 (Z.lnot netmask)) =? Z.land 0xffffffff (u32 (Z.lnot netmask))) then 1
  else 0.
