(* ===== verification/InetProofs.v ===== *)
(** * Checksums and addresses: proofs

    The Internet checksum of RFC 1071 is the complement of the ones'
    complement sum of the big-endian 16-bit words of the data ([osum]).
    [wsum] is the plain sum with the weights 256, 1, 256, ...; both agree
    modulo 65535, and exchanging the weights multiplies by 256, which is what
    makes the swapping of odd-length pbufs correct. *)

From S2P Require Import Prelude CMem Str StrProofs PrintfProofs Inet.

(** ** The reference *)

Fixpoint be_words (l : list Z) : list Z :=
  match l with
  | a :: b :: l => 256 * a + b :: be_words l
  | [a] => [256 * a]
  | [] => []
  end.
(** Addition with the carry added back. *)
Definition add1c (a b : Z) : Z := if a + b <? 65536 then a + b else a + b - 65535.
Definition osum (l : list Z) : Z := foldl add1c 0 (be_words l).
(** The checksum as it stands in memory on a little-endian machine. *)
Definition checksum (l : list Z) : Z := 65535 - htons (osum l).

Definition octets (l : list Z) : Prop := Forall (λ b, 0 ≤ b < 256) l.

(** ** Sums modulo 65535 *)

Fixpoint wsum (hi : bool) (l : list Z) : Z :=
  match l with [] => 0 | a :: l => (if hi then 256 * a else a) + wsum (negb hi) l end.

(** The representative in 1..65535 (0 only for 0). *)
Definition canon (z : Z) : Z := if z =? 0 then 0 else (z - 1) `mod` 65535 + 1.

Lemma canon_range z : 0 ≤ canon z ≤ 65535.
Proof. unfold canon. destruct (z =? 0); [lia|]. pose proof (Z.mod_pos_bound (z - 1) 65535). lia. Qed.

Lemma canon_unique x z : 0 ≤ x ≤ 65535 → 0 ≤ z → x `mod` 65535 = z `mod` 65535 → (x = 0 ↔ z = 0) → x = canon z.
Proof. intros Hx Hz Hm Hi. unfold canon. destruct (z =? 0) eqn:E; [lia|]. assert (x ≠ 0) by lia. dlia. Qed.

Lemma canon_mod z : 0 ≤ z → canon z `mod` 65535 = z `mod` 65535.
Proof. intros Hz. unfold canon. destruct (z =? 0) eqn:E; [by replace z with 0 by lia|]. dlia. Qed.
Lemma canon_zero z : 0 ≤ z → canon z = 0 ↔ z = 0.
Proof. intros Hz. unfold canon. destruct (z =? 0) eqn:E; [lia|]. pose proof (Z.mod_pos_bound (z - 1) 65535). lia. Qed.
Lemma canon_small z : 0 ≤ z ≤ 65535 → canon z = z.
Proof. intros Hz. symmetry. apply canon_unique; [exact Hz|lia|reflexivity|tauto]. Qed.

Lemma wsum_nonneg h l : octets l → 0 ≤ wsum h l.
Proof. intros Hl. revert h. induction Hl as [|a l Ha _ IH]; intros h; cbn; [lia|]. specialize (IH (negb h)). destruct h; lia. Qed.

Lemma wsum_bound h l : octets l → wsum h l ≤ 65280 * Z.of_nat (length l).
Proof. intros Hl. revert h. induction Hl as [|a l Ha _ IH]; intros h; cbn [wsum length]; [lia|]. specialize (IH (negb h)). destruct h; lia. Qed.

Lemma wsum_zero h h' l : octets l → wsum h l = 0 → wsum h' l = 0.
Proof.
  intros Hl. revert h h'. induction Hl as [|a l Ha Hl IH]; intros h h' Hz; cbn in *; [done|].
  pose proof (wsum_nonneg (negb h) l Hl). rewrite (IH (negb h) (negb h')) by (destruct h; lia). destruct h, h'; lia.
Qed.

(** Exchanging the weights multiplies by 256. *)
Lemma wsum_swap h l : wsum (negb h) l `mod` 65535 = (256 * wsum h l) `mod` 65535.
Proof.
  revert h. induction l as [|a l IH]; intros h; [done|]. cbn [wsum]. rewrite Z.mul_add_distr_l.
  rewrite <- Zplus_mod_idemp_r, (IH (negb h)), Zplus_mod_idemp_r. rewrite <- (Zplus_mod_idemp_l (256 * _)), <- Zplus_mod_idemp_l.
  f_equal. f_equal. destruct h; cbn [negb]; [|done]. replace (256 * (256 * a)) with (a + a * 65535) by lia. by rewrite Z.mod_add by lia.
Qed.

Lemma wsum_app h l1 l2 : wsum h (l1 ++ l2) = wsum h l1 + wsum (if Nat.even (length l1) then h else negb h) l2.
Proof.
  revert h. induction l1 as [|a l1 IH]; intros h; [done|]. cbn [wsum app length]. rewrite IH, Nat.even_succ, <- Nat.negb_even.
  destruct (Nat.even (length l1)); cbn [negb]; rewrite ?negb_involutive; lia.
Qed.

Lemma osum_canon l : octets l → osum l = canon (wsum true l).
Proof.
  intros Hl. unfold osum.
  assert (Hgo : ∀ n l x, (length l ≤ n)%nat → octets l → 0 ≤ x → foldl add1c (canon x) (be_words l) = canon (x + wsum true l)).
  { induction n as [|n IH]; intros k x Hn Hk Hx; [destruct k; [cbn; by rewrite Z.add_0_r|cbn in Hn; lia]|].
    assert (Hadd : ∀ w, 0 ≤ w ≤ 65535 → add1c (canon x) w = canon (x + w)).
    { intros w Hw. pose proof (canon_range x) as Hc. pose proof (canon_mod x Hx) as Hm. pose proof (canon_zero x Hx) as Hz. unfold add1c.
      apply canon_unique; [destruct (_ <? _) eqn:E; lia|lia| |destruct (_ <? _) eqn:E; lia].
      rewrite <- (Zplus_mod_idemp_l x), <- Hm, Zplus_mod_idemp_l. destruct (_ <? _) eqn:E; [done|].
      replace (canon x + w - 65535) with (canon x + w + (-1) * 65535) by lia. by rewrite Z.mod_add by lia. }
    destruct k as [|a [|b k]]; cbn [be_words foldl wsum negb].
    - by rewrite Z.add_0_r.
    - apply Forall_cons in Hk as [Ha _]. rewrite Hadd by lia. f_equal. lia.
    - apply Forall_cons in Hk as [Ha Hk]. apply Forall_cons in Hk as [Hb Hk]. rewrite Hadd by lia.
      rewrite IH; [f_equal; lia|cbn in Hn; lia|exact Hk|lia]. }
  specialize (Hgo (length l) l 0 (le_n _) Hl ltac:(lia)). by rewrite Z.add_0_l in Hgo.
Qed.

(** ** Words *)

Lemma fold_spec u : 0 ≤ u < 4294967296 → FOLD_U32T u = u / 65536 + u `mod` 65536.
Proof.
  intros Hu. unfold FOLD_U32T. change 0xffff with (Z.ones 16). rewrite Z.land_ones, Z.shiftr_div_pow2 by lia.
  change (2 ^ 16) with 65536. apply u32_small. dlia.
Qed.

Lemma fold_mod u : 0 ≤ u < 4294967296 →
  FOLD_U32T u `mod` 65535 = u `mod` 65535 ∧ (FOLD_U32T u = 0 ↔ u = 0) ∧ 0 ≤ FOLD_U32T u ≤ 131070.
Proof. intros Hu. rewrite fold_spec by exact Hu. split; [dlia|]. dlia. Qed.

Lemma fold_small u : 0 ≤ u ≤ 131070 → 0 ≤ FOLD_U32T u ≤ 65535.
Proof. intros Hu. rewrite fold_spec by lia. dlia. Qed.

(** Two foldings reduce any 32-bit sum. *)
Lemma fold_twice u : 0 ≤ u < 4294967296 → FOLD_U32T (FOLD_U32T u) = canon u.
Proof.
  intros Hu. destruct (fold_mod u Hu) as (H1 & H2 & H3). assert (H4 : 0 ≤ FOLD_U32T u < 4294967296) by lia.
  destruct (fold_mod _ H4) as (K1 & K2 & _). pose proof (fold_small _ H3). apply canon_unique; [lia|lia|congruence|tauto].
Qed.

(** Swapping the bytes of a 16-bit value. *)
Lemma swap_spec w : 0 ≤ w ≤ 65535 → SWAP_BYTES_IN_WORD w = 256 * (w `mod` 256) + w / 256.
Proof.
  intros Hw. unfold SWAP_BYTES_IN_WORD. change 0xff with (Z.ones 8). rewrite Z.land_ones, Z.shiftl_mul_pow2 by lia. change (2 ^ 8) with 256.
  assert (Hhi : Z.shiftr (Z.land w 65280) 8 = w / 256).
  { change 65280 with (Z.shiftl (Z.ones 8) 8). apply Z.bits_inj'. intros i Hi. rewrite Z.shiftr_spec, Z.land_spec, Z.shiftl_spec by lia.
    replace (i + 8 - 8) with i by lia. change 256 with (2 ^ 8). rewrite Z.div_pow2_bits by lia. rewrite Z.testbit_ones by lia.
    destruct (decide (i < 8)); [by replace ((0 <=? i) && (i <? 8)) with true by lia; rewrite andb_true_r|].
    replace ((0 <=? i) && (i <? 8)) with false by lia. rewrite andb_false_r. symmetry. apply Z.bits_above_log2; [lia|].
    destruct (decide (w = 0)) as [->|]; [cbn; lia|]. assert (Z.log2 w < 16) by (apply Z.log2_lt_pow2; [lia|change (2 ^ 16) with 65536; lia]). lia. }
  rewrite Hhi. rewrite (lor_add_disjoint _ _ 8); [lia|lia|change (2 ^ 8) with 256; by rewrite Z.mod_mul by lia|].
  change (2 ^ 8) with 256. dlia.
Qed.

Lemma swap_range w : 0 ≤ w ≤ 65535 → 0 ≤ SWAP_BYTES_IN_WORD w ≤ 65535.
Proof. intros Hw. rewrite swap_spec by exact Hw. dlia. Qed.
Lemma swap_swap w : 0 ≤ w ≤ 65535 → SWAP_BYTES_IN_WORD (SWAP_BYTES_IN_WORD w) = w.
Proof. intros Hw. rewrite (swap_spec (SWAP_BYTES_IN_WORD w)) by (by apply swap_range). rewrite swap_spec by exact Hw. dlia. Qed.
Lemma swap_mod w : 0 ≤ w ≤ 65535 →
  SWAP_BYTES_IN_WORD w `mod` 65535 = (256 * w) `mod` 65535 ∧ (SWAP_BYTES_IN_WORD w = 0 ↔ w = 0).
Proof. intros Hw. rewrite swap_spec by exact Hw. split; dlia. Qed.
Lemma htons_swap w : 0 ≤ w ≤ 65535 → htons w = SWAP_BYTES_IN_WORD w.
Proof. intros Hw. unfold htons. fold (SWAP_BYTES_IN_WORD w). pose proof (swap_range w Hw). apply u16_small. lia. Qed.
Lemma htons_htons w : 0 ≤ w ≤ 65535 → ntohs (htons w) = w.
Proof. intros Hw. unfold ntohs. rewrite (htons_swap w) by exact Hw. rewrite htons_swap by (by apply swap_range). by apply swap_swap. Qed.

(** Swapping and exchanging the weights cancel. *)
Lemma swap_canon h l : octets l → SWAP_BYTES_IN_WORD (canon (wsum h l)) = canon (wsum (negb h) l).
Proof.
  intros Hl. pose proof (wsum_nonneg h l Hl) as Hn. pose proof (wsum_nonneg (negb h) l Hl) as Hn'. pose proof (canon_range (wsum h l)) as Hc.
  destruct (swap_mod _ Hc) as [Hm Hz]. apply canon_unique; [by apply swap_range|exact Hn'| |].
  - rewrite Hm, wsum_swap. rewrite <- (Zmult_mod_idemp_r (canon _)), canon_mod, Zmult_mod_idemp_r by exact Hn. done.
  - rewrite Hz, canon_zero by exact Hn. split; intros H; by eapply wsum_zero.
Qed.
Lemma htons_canon h l : octets l → htons (canon (wsum h l)) = canon (wsum (negb h) l).
Proof. intros Hl. rewrite htons_swap by apply canon_range. by apply swap_canon. Qed.

(** ** Bytes in memory *)

Lemma lds_one m a : lds m a 1 = [ld m a].
Proof. change (lds m a 1) with [ld m (a + 0)]. by rewrite Z.add_0_r. Qed.
Lemma lds_two m a : lds m a 2 = [ld m a; ld m (a + 1)].
Proof. change (lds m a 2) with [ld m (a + 0); ld m (a + 1)]. by rewrite Z.add_0_r. Qed.
Lemma lds_octets m a n : bytes_ok m → octets (lds m a n).
Proof. intros Hm. apply Forall_fmap, Forall_forall. intros i _. apply Hm. Qed.

Lemma nat_even_mod n : Nat.even n = (Z.of_nat n `mod` 2 =? 0).
Proof.
  destruct (Nat.even n) eqn:E; symmetry.
  - apply Nat.even_spec in E as [j ->]. apply Z.eqb_eq. dlia.
  - apply Z.eqb_neq. intros H. assert (Nat.even n = true); [|congruence]. apply Nat.even_spec. exists (n / 2)%nat.
    pose proof (Nat.div_mod n 2). assert (n mod 2 = 0)%nat by (apply Nat2Z.inj; rewrite Nat2Z.inj_mod; exact H). lia.
Qed.
Lemma even_length_lds m a k : 0 ≤ k → Nat.even (length (lds m a k)) = (k `mod` 2 =? 0).
Proof. intros Hk. rewrite nat_even_mod, length_lds by exact Hk. done. Qed.

(** The sum over the first [k] bytes, extended. *)
Lemma wsum_more m a h k l : 0 ≤ k → k `mod` 2 = 0 → wsum h (lds m a k ++ l) = wsum h (lds m a k) + wsum h l.
Proof. intros Hk Hev. by rewrite wsum_app, even_length_lds, Hev by exact Hk. Qed.
Lemma wsum_two m a h k : 0 ≤ k → k `mod` 2 = 0 →
  wsum h (lds m a (k + 2)) = wsum h (lds m a k) + if h then 256 * ld m (a + k) + ld m (a + k + 1) else ld m (a + k) + 256 * ld m (a + k + 1).
Proof. intros Hk Hev. rewrite lds_app, wsum_more, lds_two by lia. cbn. destruct h; cbn; lia. Qed.
Lemma wsum_one m a h k : 0 ≤ k → k `mod` 2 = 0 →
  wsum h (lds m a (k + 1)) = wsum h (lds m a k) + if h then 256 * ld m (a + k) else ld m (a + k).
Proof. intros Hk Hev. rewrite lds_app, wsum_more, lds_one by lia. cbn. destruct h; lia. Qed.

Lemma lds_wsum_range m a n h : bytes_ok m → 0 ≤ n ≤ 65535 → 0 ≤ wsum h (lds m a n) < 4278190081.
Proof.
  intros Hm Hn. pose proof (lds_octets m a n Hm) as Ho. pose proof (wsum_nonneg h _ Ho). pose proof (wsum_bound h _ Ho).
  rewrite length_lds in * by lia. lia.
Qed.

(** ** Version 1 *)

Lemma octet_pair x y : 0 ≤ x < 256 → 0 ≤ y < 256 → Z.lor (u16 (Z.shiftl x 8)) y = 256 * x + y.
Proof.
  intros Hx Hy. rewrite Z.shiftl_mul_pow2 by lia. change (2 ^ 8) with 256. rewrite u16_small by lia.
  rewrite (lor_add_disjoint _ _ 8); [lia|lia|change (2 ^ 8) with 256; by rewrite Z.mod_mul by lia|change (2 ^ 8) with 256; lia].
Qed.
Lemma octet_high x : 0 ≤ x < 256 → u16 (Z.shiftl x 8) = 256 * x.
Proof. intros Hx. rewrite Z.shiftl_mul_pow2 by lia. change (2 ^ 8) with 256. rewrite u16_small; lia. Qed.

(** The conditional second folding is as good as an unconditional one. *)
Lemma fold_if u : 0 ≤ u < 4294967296 →
  (let acc := FOLD_U32T u in if ctrue (Z.land acc 0xffff0000) then FOLD_U32T acc else acc) = canon u.
Proof.
  intros Hu. cbv zeta. destruct (fold_mod u Hu) as (H1 & H2 & H3). destruct (ctrue _) eqn:E; [by apply fold_twice|].
  apply ctrue_false in E. apply canon_unique; [|lia|exact H1|exact H2]. split; [lia|].
  destruct (decide (FOLD_U32T u ≤ 65535)) as [|Hbig]; [done|exfalso].
  assert (Hb : Z.testbit (Z.land (FOLD_U32T u) 0xffff0000) 16 = true); [|by rewrite E, Z.bits_0 in Hb].
  rewrite Z.land_spec. change (Z.testbit 0xffff0000 16) with true. rewrite andb_true_r. apply Z.testbit_true; [lia|].
  change (2 ^ 16) with 65536. dlia.
Qed.

Lemma lwip_standard_chksum_ok m a n : bytes_ok m → 0 ≤ a → 0 ≤ n ≤ 65535 → a + n < 4294967296 →
  lwip_standard_chksum m a n = Some (htons (osum (lds m a n))).
Proof.
  intros Hm Ha Hn Han. rewrite osum_canon by (by apply lds_octets). unfold lwip_standard_chksum.
  match goal with |- context [while ?f _] => set (body := f) end.
  destruct (while_total body (λ '(p, len, acc), ∃ k, 0 ≤ k ≤ n ∧ k `mod` 2 = 0 ∧ p = a + k ∧ len = n - k ∧ acc = wsum true (lds m a k))
    (λ '(p, len, acc), Z.to_nat len)
    (λ '(p, len, acc), ∃ k, 0 ≤ k ≤ n ∧ k `mod` 2 = 0 ∧ p = a + k ∧ len = n - k ∧ len ≤ 1 ∧ acc = wsum true (lds m a k)) (a, n, 0))
    as ([[p len] acc] & -> & k & Hk & Hev & -> & -> & Hl & ->).
  - exists 0. rewrite lds_nil. cbn. split; [lia|]. split; [done|]. lia.
  - cbn. lia.
  - intros [[p len] acc] (k & Hk & Hev & -> & -> & ->). cbn. destruct (n - k >? 1) eqn:E; [|exists k; repeat (split; [lia || done|]); done].
    rewrite octet_pair by apply Hm. pose proof (lds_wsum_range m a (k + 2) true Hm ltac:(lia)) as Hw. rewrite wsum_two in Hw by lia.
    rewrite !u32_small, u16_small by lia. split; [|lia]. exists (k + 2). split; [lia|]. split; [dlia|]. split; [lia|]. split; [lia|].
    rewrite wsum_two by lia. done.
  - cbn [mbind option_bind]. f_equal.
    assert (Hacc : (if n - k >? 0 then u32 (wsum true (lds m a k) + u16 (Z.shiftl (ld m (a + k)) 8)) else wsum true (lds m a k)) = wsum true (lds m a n)).
    { destruct (n - k >? 0) eqn:E; [|by replace n with k by lia]. rewrite octet_high by apply Hm.
      replace n with (k + 1) by lia. pose proof (lds_wsum_range m a (k + 1) true Hm ltac:(lia)) as Hw. rewrite wsum_one in * by lia. apply u32_small. lia. }
    rewrite Hacc. pose proof (lds_wsum_range m a n true Hm ltac:(lia)) as Hw. pose proof (fold_if (wsum true (lds m a n)) ltac:(lia)) as Hf.
    cbv zeta in Hf. rewrite Hf. rewrite u16_small; [done|]. pose proof (canon_range (wsum true (lds m a n))). lia.
Qed.

(** ** Versions 2 and 3 *)

Lemma canon_cong x y : 0 ≤ x → 0 ≤ y → x `mod` 65535 = y `mod` 65535 → (x = 0 ↔ y = 0) → canon x = canon y.
Proof.
  intros Hx Hy Hm Hz. apply canon_unique; [apply canon_range|exact Hy|by rewrite canon_mod|]. by rewrite canon_zero.
Qed.

Lemma wsum_tail m a n : 0 ≤ n → wsum false (lds m a n) = wsum false (lds m a (2 * (n / 2))) + if n `mod` 2 >? 0 then ld m (a + 2 * (n / 2)) else 0.
Proof.
  intros Hn. assert (Hn2 : n = 2 * (n / 2) + n `mod` 2) by dlia. destruct (n `mod` 2 >? 0) eqn:E.
  - replace (lds m a n) with (lds m a (2 * (n / 2) + 1)) by (f_equal; dlia). rewrite wsum_one; [done|dlia|dlia].
  - replace (lds m a n) with (lds m a (2 * (n / 2))) by (f_equal; dlia). lia.
Qed.

Lemma sum_words_ok m ps len sum : bytes_ok m → 0 ≤ ps → 0 ≤ len → ps + len < 4294967296 → 0 ≤ sum → sum + 65280 * len < 4294967296 →
  sum_words m ps len sum = Some (ps + 2 * (len / 2), len `mod` 2, sum + wsum false (lds m ps (2 * (len / 2)))).
Proof.
  intros Hm Hp Hl Hpl Hs Hb. unfold sum_words. match goal with |- context [while ?f _] => set (body := f) end.
  destruct (while_total body
    (λ '(p, n, s), ∃ k, 0 ≤ k ≤ len ∧ k `mod` 2 = 0 ∧ p = ps + k ∧ n = len - k ∧ s = sum + wsum false (lds m ps k))
    (λ '(p, n, s), Z.to_nat n)
    (λ '(p, n, s), ∃ k, 0 ≤ k ≤ len ∧ k `mod` 2 = 0 ∧ p = ps + k ∧ n = len - k ∧ n ≤ 1 ∧ s = sum + wsum false (lds m ps k)) (ps, len, sum))
    as ([[p n] s] & -> & k & Hk & Hev & -> & -> & H1 & ->).
  - exists 0. rewrite lds_nil. cbn. split; [lia|]. split; [done|]. lia.
  - cbn. lia.
  - intros [[p n] s] (k & Hk & Hev & -> & -> & ->). cbn. destruct (len - k >? 1) eqn:E; [|exists k; repeat (split; [lia || done|]); done].
    assert (Hk2 : 0 ≤ k + 2) by lia. pose proof (wsum_bound false _ (lds_octets m ps (k + 2) Hm)) as Hw. rewrite length_lds in Hw by lia.
    pose proof (wsum_nonneg false _ (lds_octets m ps (k + 2) Hm)). rewrite wsum_two in * by lia. unfold ld16.
    rewrite !u32_small by lia. split; [|lia]. exists (k + 2). split; [lia|]. split; [dlia|]. split; [lia|]. split; [lia|].
    rewrite wsum_two by lia. lia.
  - assert (k = 2 * (len / 2)) as -> by dlia. do 3 f_equal. dlia.
Qed.

(** The end of both versions: the sum has the weights 1, 256, ... from the
    first even address on. *)
Lemma chksum_end (m : mem) a n sum : bytes_ok m → 0 ≤ sum < 4294967296 →
  sum `mod` 65535 = wsum (ctrue (Z.land a 1)) (lds m a n) `mod` 65535 → (sum = 0 ↔ wsum (ctrue (Z.land a 1)) (lds m a n) = 0) →
  u16 (if ctrue (Z.land a 1) then SWAP_BYTES_IN_WORD (FOLD_U32T (FOLD_U32T sum)) else FOLD_U32T (FOLD_U32T sum)) = htons (osum (lds m a n)).
Proof.
  intros Hm Hs H1 H2. pose proof (lds_octets m a n Hm) as Ho. rewrite osum_canon, (htons_canon true) by exact Ho. cbn [negb].
  rewrite fold_twice, (canon_cong sum _ (proj1 Hs) (wsum_nonneg _ _ Ho) H1 H2) by exact Hs.
  assert (Hr : u16 (canon (wsum false (lds m a n))) = canon (wsum false (lds m a n))).
  { pose proof (canon_range (wsum false (lds m a n))). apply u16_small. lia. }
  destruct (ctrue (Z.land a 1)); [rewrite (swap_canon true) by exact Ho|]; exact Hr.
Qed.

Lemma lds_cons m a n : 0 < n → lds m a n = ld m a :: lds m (a + 1) (n - 1).
Proof. intros Hn. replace n with (1 + (n - 1)) at 1 by lia. rewrite lds_app, lds_one by lia. done. Qed.

(** The bytes from the first even address on, and the byte before it. *)
Lemma split_odd m a n : bytes_ok m → 0 ≤ n → 
  let odd := ctrue (Z.land a 1) in
  let '(pb, len, t1) := if odd && (n >? 0) then (a + 1, n - 1, ld m a) else (a, n, 0) in
  0 ≤ len ≤ n ∧ pb + len = a + n ∧ a ≤ pb ∧ 0 ≤ t1 < 256 ∧ 256 * t1 + wsum false (lds m pb len) = wsum odd (lds m a n).
Proof.
  intros Hm Hn. cbv zeta. pose proof (Hm a). destruct (ctrue (Z.land a 1)) eqn:E; cbn [andb].
  - destruct (n >? 0) eqn:En; [rewrite (lds_cons m a n) by lia; cbn [wsum negb]; repeat split; lia|].
    replace n with 0 by lia. rewrite lds_nil. cbn. lia.
  - repeat split; lia.
Qed.

Lemma lwip_standard_chksum_2_ok m a n : bytes_ok m → 0 ≤ a → 0 ≤ n ≤ 65535 → a + n < 4294967296 →
  lwip_standard_chksum_2 m a n = Some (htons (osum (lds m a n))).
Proof.
  intros Hm Ha Hn Han. pose proof (split_odd m a n Hm (proj1 Hn)) as Hsp. cbv zeta in Hsp. unfold lwip_standard_chksum_2. cbv zeta.
  assert (Hu : ctrue (Z.land a 1) && (n >? 0) = true → u32 (a + 1) = a + 1) by (intros E; apply u32_small; apply andb_true_iff in E as [_ E]; lia).
  replace (if ctrue (Z.land a 1) && (n >? 0) then (u32 (a + 1), n - 1, ld m a) else (a, n, 0))
    with (if ctrue (Z.land a 1) && (n >? 0) then (a + 1, n - 1, ld m a) else (a, n, 0))
    by (destruct (ctrue (Z.land a 1) && (n >? 0)) eqn:E; [by rewrite Hu|done]).
  destruct (if ctrue (Z.land a 1) && (n >? 0) then _ else _) as [[pb len] t1]. destruct Hsp as (Hlen & Hpl & Hapb & Ht1 & Hsum).
  rewrite sum_words_ok by (done || lia). cbn [mbind option_bind]. f_equal.
  pose proof (wsum_tail m pb len ltac:(lia)) as Htail. pose proof (lds_octets m pb len Hm) as Ho.
  pose proof (wsum_bound false _ Ho) as Hb. rewrite length_lds in Hb by lia. pose proof (wsum_nonneg false _ Ho).
  rewrite Z.add_0_l. replace (wsum false (lds m pb (2 * (len / 2))) + ((if len `mod` 2 >? 0 then ld m (pb + 2 * (len / 2)) else 0) + 256 * t1))
    with (wsum (ctrue (Z.land a 1)) (lds m a n)) by lia.
  assert (Hrange : 0 ≤ wsum (ctrue (Z.land a 1)) (lds m a n) < 4294967296) by lia.
  rewrite (u32_small (wsum _ _)) by exact Hrange. by apply (chksum_end m a n).
Qed.

Lemma add_carry_ok x w : 0 ≤ x < 4294967296 → 0 ≤ w < 4294967296 →
  add_carry x w `mod` 65535 = (x + w) `mod` 65535 ∧ (add_carry x w = 0 ↔ x + w = 0) ∧ 0 ≤ add_carry x w < 4294967296.
Proof.
  intros Hx Hw. unfold add_carry. cbv zeta. destruct (decide (x + w < 4294967296)) as [Hlt|Hge].
  - rewrite (u32_small (x + w)) by lia. replace (x + w <? x) with false by lia. split; [done|]. split; [done|]. lia.
  - assert (E : u32 (x + w) = x + w - 4294967296) by (unfold u32; dlia). rewrite E. replace (x + w - 4294967296 <? x) with true by lia.
    rewrite u32_small by lia. split; [|split; lia]. rewrite <- (Z.mod_add _ 65537 65535) by lia. f_equal. lia.
Qed.

(** [x] and [y] give the same checksum. *)
Definition same_sum (x y : Z) : Prop := x `mod` 65535 = y `mod` 65535 ∧ (x = 0 ↔ y = 0).

Lemma same_sum_refl x : same_sum x x.
Proof. by split. Qed.
Lemma same_sum_add x y z : 0 ≤ x → 0 ≤ y → 0 ≤ z → same_sum x y → same_sum (x + z) (y + z).
Proof. intros Hx Hy Hz [H1 H2]. split; [|lia]. by rewrite (Z.add_mod x), H1, <- Z.add_mod by lia. Qed.
Lemma same_sum_trans x y z : same_sum x y → same_sum y z → same_sum x z.
Proof. intros [H1 H2] [H3 H4]. split; [congruence|lia]. Qed.

Lemma ld32_words m a : bytes_ok m → 0 ≤ ld32 m a < 4294967296 ∧
  same_sum (ld32 m a) (ld m a + 256 * ld m (a + 1) + (ld m (a + 2) + 256 * ld m (a + 3))).
Proof.
  intros Hm. pose proof (Hm a). pose proof (Hm (a + 1)). pose proof (Hm (a + 2)). pose proof (Hm (a + 3)).
  assert (E : ld32 m a = ld m a + 256 * ld m (a + 1) + 65536 * (ld m (a + 2) + 256 * ld m (a + 3))) by (unfold ld32; lia).
  rewrite E. split; [lia|]. split; [|lia].
  rewrite <- (Z.mod_add (ld m a + 256 * ld m (a + 1) + (ld m (a + 2) + 256 * ld m (a + 3))) (ld m (a + 2) + 256 * ld m (a + 3)) 65535) by lia.
  f_equal. lia.
Qed.

Lemma add_carry_word m a sum w : bytes_ok m → 0 ≤ sum < 4294967296 → 0 ≤ w → same_sum sum w →
  0 ≤ add_carry sum (ld32 m a) < 4294967296 ∧ same_sum (add_carry sum (ld32 m a)) (w + (ld m a + 256 * ld m (a + 1) + (ld m (a + 2) + 256 * ld m (a + 3)))).
Proof.
  intros Hm Hs Hw Hsw. destruct (ld32_words m a Hm) as [Hr Hsame]. destruct (add_carry_ok sum (ld32 m a) Hs Hr) as (H1 & H2 & H3).
  pose proof (Hm a). pose proof (Hm (a + 1)). pose proof (Hm (a + 2)). pose proof (Hm (a + 3)).
  split; [exact H3|]. apply (same_sum_trans _ (sum + ld32 m a)); [by split|].
  apply (same_sum_trans _ (w + ld32 m a)); [apply same_sum_add; try lia; exact Hsw|]. rewrite !(Z.add_comm w). apply same_sum_add; try lia. exact Hsame.
Qed.

Lemma wsum_four m a k : 0 ≤ k → k `mod` 2 = 0 → wsum false (lds m a (k + 4)) =
  wsum false (lds m a k) + (ld m (a + k) + 256 * ld m (a + k + 1) + (ld m (a + k + 2) + 256 * ld m (a + k + 3))).
Proof.
  intros Hk Hev. replace (k + 4) with (k + 2 + 2) by lia. rewrite !wsum_two by dlia.
  replace (a + (k + 2)) with (a + k + 2) by lia. replace (a + k + 2 + 1) with (a + k + 3) by lia. lia.
Qed.

(** The loop over eight bytes. *)
Lemma sum_longs_ok m b n k0 sum : bytes_ok m → 0 ≤ b → 0 ≤ k0 ≤ n → k0 `mod` 2 = 0 → b + n < 4294967296 → 0 ≤ sum < 4294967296 →
  same_sum sum (wsum false (lds m b k0)) → ∃ k sum',
  sum_longs m (b + k0) (n - k0) sum = Some (b + k, n - k, sum') ∧
  k0 ≤ k ≤ n ∧ k `mod` 2 = 0 ∧ n - k ≤ 7 ∧ 0 ≤ sum' < 4294967296 ∧ same_sum sum' (wsum false (lds m b k)).
Proof.
  intros Hm Hb Hk0 Hev0 Hbn Hs Hsame. unfold sum_longs. match goal with |- context [while ?f _] => set (body := f) end.
  destruct (while_total body
    (λ '(p, len, s), ∃ k, k0 ≤ k ≤ n ∧ k `mod` 2 = 0 ∧ p = b + k ∧ len = n - k ∧ 0 ≤ s < 4294967296 ∧ same_sum s (wsum false (lds m b k)))
    (λ '(p, len, s), Z.to_nat len)
    (λ '(p, len, s), ∃ k, k0 ≤ k ≤ n ∧ k `mod` 2 = 0 ∧ p = b + k ∧ len = n - k ∧ len ≤ 7 ∧ 0 ≤ s < 4294967296 ∧ same_sum s (wsum false (lds m b k)))
    (b + k0, n - k0, sum)) as ([[p len] s] & Hw & k & Hk & Hev & -> & -> & H7 & Hs' & Hsame').
  - exists k0. repeat (split; [done || lia|]). done.
  - cbn. lia.
  - intros [[p len] s] (k & Hk & Hev & -> & -> & Hs1 & Hsame1). cbn. destruct (n - k >? 7) eqn:E; [|exists k; repeat (split; [done || lia|]); done].
    pose proof (wsum_nonneg false _ (lds_octets m b k Hm)) as N1. pose proof (wsum_nonneg false _ (lds_octets m b (k + 4) Hm)) as N2.
    destruct (add_carry_word m (b + k) s _ Hm Hs1 N1 Hsame1) as [Ht Htsame]. rewrite <- wsum_four in Htsame by lia.
    destruct (add_carry_word m (b + k + 4) _ _ Hm Ht N2 Htsame) as [Ht2 Ht2same].
    rewrite <- (Z.add_assoc b k 4), <- wsum_four in Ht2same by dlia. replace (k + 4 + 4) with (k + 8) in Ht2same by lia.
    rewrite u32_small by lia. split; [|lia]. exists (k + 8). split; [lia|]. split; [dlia|]. split; [lia|]. split; [lia|].
    rewrite <- (Z.add_assoc b k 4) in *. by split.
  - exists k, s. by repeat (split; [done|]).
Qed.

Lemma bind_some {A B} (f : A → option B) x : Some x ≫= f = f x.
Proof. reflexivity. Qed.

Lemma lwip_standard_chksum_3_ok m a n : bytes_ok m → 0 ≤ a → 0 ≤ n ≤ 65535 → a + n < 4294967296 →
  lwip_standard_chksum_3 m a n = Some (htons (osum (lds m a n))).
Proof.
  intros Hm Ha Hn Han. pose proof (split_odd m a n Hm (proj1 Hn)) as Hsp. cbv zeta in Hsp. unfold lwip_standard_chksum_3. cbv zeta.
  assert (Hu : ctrue (Z.land a 1) && (n >? 0) = true → u32 (a + 1) = a + 1) by (intros E; apply u32_small; apply andb_true_iff in E as [_ E]; lia).
  replace (if ctrue (Z.land a 1) && (n >? 0) then (u32 (a + 1), n - 1, ld m a) else (a, n, 0))
    with (if ctrue (Z.land a 1) && (n >? 0) then (a + 1, n - 1, ld m a) else (a, n, 0))
    by (destruct (ctrue (Z.land a 1) && (n >? 0)) eqn:E; [by rewrite Hu|done]).
  destruct (if ctrue (Z.land a 1) && (n >? 0) then _ else _) as [[pb len] t1]. destruct Hsp as (Hlen & Hpl & Hapb & Ht1 & Hsum).
  assert (Hk0 : ∃ k0 s0, (if ctrue (Z.land pb 3) && (len >? 1) then (u32 (pb + 2), len - 2, ld16 m pb) else (pb, len, 0)) = (pb + k0, len - k0, s0) ∧
    0 ≤ k0 ≤ len ∧ k0 `mod` 2 = 0 ∧ 0 ≤ s0 < 4294967296 ∧ s0 = wsum false (lds m pb k0)).
  { destruct (ctrue (Z.land pb 3) && (len >? 1)) eqn:E.
    - apply andb_true_iff in E as [_ E]. exists 2, (ld16 m pb). rewrite u32_small by lia. pose proof (Hm pb). pose proof (Hm (pb + 1)).
      split; [done|]. split; [lia|]. split; [done|]. unfold ld16. rewrite lds_two. cbn. lia.
    - exists 0, 0. rewrite lds_nil, Z.add_0_r, Z.sub_0_r. split; [done|]. split; [lia|]. done. }
  destruct Hk0 as (k0 & s0 & -> & Hk0 & Hev0 & Hs0 & Es0).
  destruct (sum_longs_ok m pb len k0 s0 Hm ltac:(lia) Hk0 Hev0 ltac:(lia) Hs0) as (k & s1 & Hw & Hk & Hev & H7 & Hs1 & Hsame); [rewrite Es0; apply same_sum_refl|]. rewrite Hw.
  rewrite bind_some. cbv beta iota. destruct (fold_mod s1 Hs1) as (F1 & F2 & F3).
  rewrite sum_words_ok, bind_some by (done || lia). cbv beta iota. f_equal.
  pose proof (wsum_tail m (pb + k) (len - k) ltac:(lia)) as Htail.
  pose proof (lds_octets m (pb + k) (len - k) Hm) as Ho. pose proof (wsum_bound false _ Ho) as Hb. rewrite length_lds in Hb by lia.
  pose proof (wsum_nonneg false _ Ho). pose proof (wsum_nonneg false _ (lds_octets m pb k Hm)) as Hnn.
  assert (Hall : wsum false (lds m pb len) = wsum false (lds m pb k) + wsum false (lds m (pb + k) (len - k))).
  { replace len with (k + (len - k)) at 1 by lia. by rewrite lds_app, wsum_more by lia. }
  match goal with |- context [u32 (?s + ?t)] => replace (s + t) with (FOLD_U32T s1 + (wsum false (lds m (pb + k) (len - k)) + 256 * t1)) by lia end.
  rewrite u32_small by lia. assert (Hfinal : same_sum (FOLD_U32T s1 + (wsum false (lds m (pb + k) (len - k)) + 256 * t1)) (wsum (ctrue (Z.land a 1)) (lds m a n))).
  { rewrite <- Hsum, Hall. replace (256 * t1 + _) with (wsum false (lds m pb k) + (wsum false (lds m (pb + k) (len - k)) + 256 * t1)) by lia.
    apply same_sum_add; [lia|lia|lia|]. apply (same_sum_trans _ s1); [by split|exact Hsame]. }
  destruct Hfinal. apply (chksum_end m a n); [exact Hm|lia|done|done].
Qed.

(** ** Chains of pbufs *)

(** The bytes a pbuf holds, and the pbufs of a chain. *)
Definition payload (m : mem) (q : Z) : list Z := lds m (p_payload m q) (p_len m q).
Fixpoint chain (m : mem) (p : Z) (qs : list Z) : Prop :=
  match qs with
  | [] => p = 0
  | q :: qs => p = q ∧ q ≠ 0 ∧ p_payload m q + p_len m q < 4294967296 ∧ chain m (p_next m q) qs
  end.
Definition chain_data (m : mem) (qs : list Z) : list Z := mjoin (payload m <$> qs).

Lemma chain_unique m p qs qs' : chain m p qs → chain m p qs' → qs = qs'.
Proof.
  revert p qs'. induction qs as [|q qs IH]; intros p [|q' qs']; cbn; [done|intros -> (<- & Hne & _); done|intros (-> & Hne & _) ->; done|].
  intros (-> & _ & _ & H1) (<- & _ & _ & H2). f_equal. by apply (IH (p_next m q)).
Qed.

Lemma chain_suffix m p l q qs : chain m p (l ++ q :: qs) → chain m q (q :: qs).
Proof. revert p. induction l as [|x l IH]; intros p; cbn; [intros (-> & H); done|]. intros (_ & _ & _ & H). by apply (IH _ H). Qed.

Lemma chain_nodup m p qs : chain m p qs → NoDup qs.
Proof.
  revert p. induction qs as [|q qs IH]; intros p H; [constructor|]. pose proof H as (_ & _ & _ & Hn). constructor; [|by apply (IH _ Hn)].
  intros Hin. apply list_elem_of_split in Hin as (l1 & l2 & ->). pose proof (chain_suffix m p [] q _ H) as H1.
  pose proof (chain_suffix m _ l1 q l2 Hn) as H2. pose proof (chain_unique _ _ _ _ H1 H2) as E. apply (f_equal length) in E. cbn in E. rewrite app_length in E. cbn in E. lia.
Qed.

Lemma ld32_range m a : bytes_ok m → 0 ≤ ld32 m a < 4294967296.
Proof. intros Hm. apply (ld32_words m a Hm). Qed.
Lemma ld16_range m a : bytes_ok m → 0 ≤ ld16 m a ≤ 65535.
Proof. intros Hm. pose proof (Hm a). pose proof (Hm (a + 1)). unfold ld16. lia. Qed.

Lemma chain_range m p qs : bytes_ok m → 0 ≤ p < 4294967296 → chain m p qs → Forall (λ q, 0 ≤ q < 4294967296) qs.
Proof.
  intros Hm. revert p. induction qs as [|q qs IH]; intros p Hp; cbn; [constructor|]. intros (-> & _ & _ & H). constructor; [exact Hp|].
  apply (IH (p_next m q)); [apply ld32_range, Hm|exact H].
Qed.

(** A chain has less than 2^32 pbufs: following [next] never meets one twice. *)
Lemma chain_length m p qs : bytes_ok m → 0 ≤ p < 4294967296 → chain m p qs → Z.of_nat (length qs) ≤ 4294967296.
Proof.
  intros Hm Hp H. assert (Hsub : qs ⊆+ seqZ 0 4294967296).
  { apply NoDup_submseteq; [by apply (chain_nodup m p)|]. intros q Hq. apply elem_of_seqZ.
    pose proof (proj1 (Forall_forall _ _) (chain_range m p qs Hm Hp H) q Hq) as Hr. cbv beta in Hr. lia. }
  apply submseteq_length in Hsub. rewrite length_seqZ in Hsub. apply Nat2Z.inj_le in Hsub. rewrite Z2Nat.id in Hsub by lia. exact Hsub.
Qed.

Lemma payload_octets m q : bytes_ok m → octets (payload m q).
Proof. intros Hm. apply lds_octets, Hm. Qed.
Lemma chain_octets m qs : bytes_ok m → octets (chain_data m qs).
Proof.
  intros Hm. unfold chain_data, octets. induction qs as [|q qs IH]; cbn; [constructor|]. apply Forall_app. split; [apply payload_octets, Hm|exact IH].
Qed.

(** The state of the loop once the bytes [l] are summed. *)
Definition summed (l : list Z) (acc : Z) (swapped : bool) : Prop := swapped = negb (Nat.even (length l)) ∧ acc = canon (wsum swapped l).

Lemma fold_add x y : 0 ≤ x → 0 ≤ y → FOLD_U32T (u32 (canon x + canon y)) = canon (x + y).
Proof.
  intros Hx Hy. pose proof (canon_range x) as Rx. pose proof (canon_range y) as Ry. rewrite u32_small by lia.
  destruct (fold_mod (canon x + canon y) ltac:(lia)) as (H1 & H2 & H3). pose proof (fold_small (canon x + canon y) ltac:(lia)).
  apply canon_unique; [lia|lia| |].
  - rewrite H1, Z.add_mod, !canon_mod, <- Z.add_mod by lia. done.
  - rewrite H2. pose proof (canon_zero x Hx). pose proof (canon_zero y Hy). lia.
Qed.

Lemma chksum_step_ok m q l acc swapped : bytes_ok m → p_payload m q + p_len m q < 4294967296 → octets l → summed l acc swapped →
  ∃ acc' swapped', chksum_pbuf_step m q (p_len m q) acc swapped = Some (acc', swapped') ∧ summed (l ++ payload m q) acc' swapped'.
Proof.
  intros Hm Hr Hl [-> ->]. pose proof (ld16_range m (q + 10) Hm) as Hlen. fold (p_len m q) in Hlen.
  pose proof (ld32_range m (q + 4) Hm) as Hpay. fold (p_payload m q) in Hpay. pose proof (payload_octets m q Hm) as Ho.
  assert (Hlo : octets (l ++ payload m q)) by (by apply Forall_app).
  unfold chksum_pbuf_step. rewrite lwip_standard_chksum_ok, bind_some by (done || lia). fold (payload m q).
  rewrite osum_canon, (htons_canon true), fold_add by (done || by apply wsum_nonneg). cbn [negb].
  set (h := negb (Nat.even (length l))).
  assert (E : wsum h l + wsum false (payload m q) = wsum h (l ++ payload m q)).
  { rewrite wsum_app. subst h. by destruct (Nat.even (length l)). }
  rewrite E. unfold summed. rewrite app_length, Nat.even_add. fold (Nat.even (length l)).
  assert (Ep : Nat.even (length (payload m q)) = (p_len m q `mod` 2 =? 0)) by (unfold payload; apply even_length_lds; lia).
  rewrite Ep, Z.rem_mod_nonneg by lia. unfold ctrue. destruct (p_len m q `mod` 2 =? 0) eqn:Em; cbn [negb].
  - eexists _, _. split; [done|]. subst h. by destruct (Nat.even (length l)).
  - eexists _, _. split; [done|]. rewrite (swap_canon h) by exact Hlo. subst h. by destruct (Nat.even (length l)).
Qed.

Lemma chksum_chain_ok m p qs : bytes_ok m → 0 ≤ p < 4294967296 → chain m p qs →
  ∃ acc swapped, chksum_chain m p = Some (acc, swapped) ∧ summed (chain_data m qs) acc swapped.
Proof.
  intros Hm Hp Hc. pose proof (chain_length m p qs Hm Hp Hc) as Hlen. unfold chksum_chain. match goal with |- context [while ?f _] => set (body := f) end.
  assert (Hit : ∀ qs p l acc sw, chain m p qs → octets l → summed l acc sw → ∃ acc' sw',
    iter_nat body (S (length qs)) (p, acc, sw) = inr (Some (acc', sw')) ∧ summed (l ++ chain_data m qs) acc' sw').
  { clear p qs Hp Hc Hlen. intros qs. induction qs as [|q qs IH]; intros p l acc sw; cbn [chain length].
    - intros -> Hl Hs. exists acc, sw. split; [reflexivity|]. unfold chain_data. cbn. by rewrite app_nil_r.
    - intros (-> & Hq & Hr & Hc) Hl Hs. destruct (chksum_step_ok m q l acc sw) as (acc1 & sw1 & E1 & Hs1); [exact Hm|exact Hr|exact Hl|exact Hs|].
      rewrite iter_S. unfold body at 1. rewrite (proj2 (Z.eqb_neq q 0) Hq), E1.
      destruct (IH (p_next m q) (l ++ payload m q) acc1 sw1 Hc) as (acc2 & sw2 & E2 & Hs2); [by apply Forall_app; split; [|apply payload_octets]|exact Hs1|].
      exists acc2, sw2. split; [exact E2|]. unfold chain_data. cbn. unfold chain_data in Hs2. by rewrite app_assoc. }
  destruct (Hit qs p [] 0 false Hc) as (acc & sw & E & Hs); [constructor|done|].
  exists acc, sw. split; [|exact Hs]. rewrite (while_iter _ _ _ _ E) by lia. done.
Qed.

Lemma land_ffff z : Z.land z 0xffff = z `mod` 65536.
Proof. exact (Z.land_ones z 16 ltac:(lia)). Qed.

Lemma lnot16 z : 0 ≤ z ≤ 65535 → u16 (Z.lnot z) = 65535 - z.
Proof. intros Hz. unfold u16, Z.lnot. dlia. Qed.

Lemma summed_word l acc swapped : octets l → summed l acc swapped → (if swapped then SWAP_BYTES_IN_WORD acc else acc) = canon (wsum false l).
Proof. intros Hl [Hs ->]. destruct swapped; [by rewrite (swap_canon true)|done]. Qed.

Lemma checksum_canon l : octets l → checksum l = 65535 - canon (wsum false l).
Proof. intros Hl. unfold checksum. by rewrite osum_canon, (htons_canon true) by done. Qed.

Lemma inet_chksum_ok m a n : bytes_ok m → 0 ≤ a → 0 ≤ n ≤ 65535 → a + n < 4294967296 → inet_chksum m a n = Some (checksum (lds m a n)).
Proof.
  intros Hm Ha Hn Han. pose proof (lds_octets m a n Hm) as Ho. unfold inet_chksum. rewrite lwip_standard_chksum_ok, bind_some by done.
  unfold checksum. f_equal. apply lnot16. rewrite osum_canon, (htons_canon true) by done. apply canon_range.
Qed.

Lemma inet_chksum_pbuf_ok m p qs : bytes_ok m → 0 ≤ p < 4294967296 → chain m p qs → inet_chksum_pbuf m p = Some (checksum (chain_data m qs)).
Proof.
  intros Hm Hp Hc. destruct (chksum_chain_ok m p qs Hm Hp Hc) as (acc & sw & E & Hs). unfold inet_chksum_pbuf. rewrite E, bind_some. cbv beta iota zeta.
  pose proof (chain_octets m qs Hm) as Ho. rewrite (summed_word _ _ _ Ho Hs), checksum_canon by done. f_equal.
  pose proof (canon_range (wsum false (chain_data m qs))). rewrite land_ffff, Z.mod_small by lia. by apply lnot16.
Qed.

(** The bytes of a word in memory. *)
Definition le_bytes (a : Z) : list Z := [a `mod` 256; (a / 256) `mod` 256; (a / 65536) `mod` 256; a / 65536 / 256].

Lemma le_bytes_octets a : 0 ≤ a < 4294967296 → octets (le_bytes a).
Proof.
  intros Ha. assert (0 ≤ a / 65536 < 65536) by dlia. unfold le_bytes.
  repeat (apply Forall_cons_2; [first [apply Z.mod_pos_bound; lia|dlia]|]). apply Forall_nil_2.
Qed.
Lemma le_bytes_wsum a : wsum false (le_bytes a) = a `mod` 65536 + a / 65536.
Proof.
  unfold le_bytes. cbn [wsum negb]. pose proof (Z.div_mod (a / 65536) 256 ltac:(lia)). assert (a `mod` 65536 = a `mod` 256 + 256 * ((a / 256) `mod` 256)); [|lia].
  change 65536 with (256 * 256). apply Z.rem_mul_r; lia.
Qed.

(** The pseudo header of RFC 793: the two addresses as they are in memory, a
    zero byte, the protocol and the length. *)
Definition pseudo_header (src dest proto proto_len : Z) : list Z :=
  le_bytes src ++ le_bytes dest ++ [0; proto; proto_len / 256; proto_len `mod` 256].

Lemma pseudo_header_octets src dest proto proto_len : 0 ≤ src < 4294967296 → 0 ≤ dest < 4294967296 → 0 ≤ proto < 256 → 0 ≤ proto_len ≤ 65535 →
  octets (pseudo_header src dest proto proto_len).
Proof.
  intros Hs Hd Hp Hl. apply Forall_app. split; [by apply le_bytes_octets|]. apply Forall_app. split; [by apply le_bytes_octets|].
  repeat (apply Forall_cons_2; [dlia|]). apply Forall_nil_2.
Qed.

Lemma pseudo_header_wsum src dest proto proto_len : 0 ≤ proto < 256 → 0 ≤ proto_len ≤ 65535 →
  wsum false (pseudo_header src dest proto proto_len) = src `mod` 65536 + src / 65536 + dest `mod` 65536 + dest / 65536 + htons proto + htons proto_len.
Proof.
  intros Hp Hl. unfold pseudo_header. rewrite !wsum_app, !le_bytes_wsum, !htons_swap, !swap_spec by lia. cbn. dlia.
Qed.

Lemma inet_chksum_pseudo_ok m p qs src dest proto proto_len : bytes_ok m → 0 ≤ p < 4294967296 → chain m p qs →
  0 ≤ src < 4294967296 → 0 ≤ dest < 4294967296 → 0 ≤ proto < 256 → 0 ≤ proto_len ≤ 65535 →
  inet_chksum_pseudo m p src dest proto proto_len = Some (checksum (pseudo_header src dest proto proto_len ++ chain_data m qs)).
Proof.
  intros Hm Hp Hc Hsrc Hdst Hpr Hpl. destruct (chksum_chain_ok m p qs Hm Hp Hc) as (acc & sw & E & Hs).
  pose proof (chain_octets m qs Hm) as Ho. unfold inet_chksum_pseudo. rewrite E, bind_some. cbv beta iota. f_equal.
  unfold add_pseudo. rewrite (summed_word _ _ _ Ho Hs). cbv zeta.
  pose proof (pseudo_header_octets src dest proto proto_len Hsrc Hdst Hpr Hpl) as Hph.
  rewrite checksum_canon by (by apply Forall_app). rewrite wsum_app. replace (Nat.even (length (pseudo_header src dest proto proto_len))) with true by reflexivity.
  pose proof (canon_range (wsum false (chain_data m qs))) as Hr. pose proof (wsum_nonneg false _ Ho) as Hn. pose proof (wsum_nonneg false _ Hph) as Hn2.
  rewrite !land_ffff, !Z.shiftr_div_pow2 by lia. change (2 ^ 16) with 65536. rewrite (u16_small proto) by lia.
  rewrite (pseudo_header_wsum src dest proto proto_len Hpr Hpl) in *.
  assert (0 ≤ src / 65536 < 65536 ∧ 0 ≤ dest / 65536 < 65536) as [Hs1 Hd1] by dlia. rewrite (Z.mod_small (src / 65536)), (Z.mod_small (dest / 65536)) by lia.
  pose proof (Z.mod_pos_bound src 65536 ltac:(lia)). pose proof (Z.mod_pos_bound dest 65536 ltac:(lia)).
  assert (0 ≤ htons proto ≤ 65535 ∧ 0 ≤ htons proto_len ≤ 65535) as [Hh1 Hh2] by (rewrite !htons_swap by lia; split; apply swap_range; lia).
  repeat match goal with |- context [u32 ?x] => lazymatch x with context [u32 _] => fail | _ => rewrite (u32_small x) by lia end end.
  rewrite fold_twice by lia.
  match goal with |- context [canon (?s + htons proto_len)] => set (t := s + htons proto_len) end.
  assert (Ht : canon t = canon (src `mod` 65536 + src / 65536 + dest `mod` 65536 + dest / 65536 + htons proto + htons proto_len + wsum false (chain_data m qs))).
  { set (w := wsum false (chain_data m qs)) in *. set (h := src `mod` 65536 + src / 65536 + dest `mod` 65536 + dest / 65536 + htons proto + htons proto_len) in *.
    destruct (same_sum_add (canon w) w h) as [H1 H2]; [lia|lia|lia|split; [by apply canon_mod|by apply canon_zero]|].
    replace t with (canon w + h) by lia. rewrite (Z.add_comm h). apply canon_cong; [lia|lia|exact H1|exact H2]. }
  rewrite Ht. match goal with |- context [canon ?x] => pose proof (canon_range x); rewrite (Z.mod_small (canon x)) by lia end. by apply lnot16.
Qed.

(** ** Verification *)

Lemma lds_st16 m a n k v : 0 ≤ a → a + n < 4294967296 → 0 ≤ k → k + 2 ≤ n →
  lds (st16 m (a + k) v) a n = lds m a k ++ [u8 v; u8 (v / 256)] ++ lds m (a + k + 2) (n - k - 2).
Proof.
  intros Ha Han Hk Hkn. replace n with (k + (2 + (n - k - 2))) at 1 by lia. rewrite !lds_app by lia.
  assert (Hother : ∀ b j, 0 ≤ b → b + j ≤ 4294967296 → b + j ≤ a + k ∨ a + k + 2 ≤ b → lds (st16 m (a + k) v) b j = lds m b j).
  { intros b j Hb Hbj Hd. unfold lds. apply list_fmap_ext. intros i x Hx%list_elem_of_lookup_2%elem_of_range. unfold st16.
    rewrite !ld_st_small, !decide_False by lia. done. }
  rewrite Hother, (Hother (a + k + 2)) by lia. do 2 f_equal.
  rewrite lds_two. unfold st16. rewrite !ld_st_small by lia. rewrite decide_False, !decide_True by lia. done.
Qed.

Lemma wsum_field h l1 x y l2 : Nat.even (length l1) = true → wsum h (l1 ++ [x; y] ++ l2) = wsum h (l1 ++ [0; 0] ++ l2) + if h then 256 * x + y else x + 256 * y.
Proof. intros He. rewrite !wsum_app, He. cbn. destruct h; cbn; lia. Qed.

(** A block of bytes with its checksum stored in a field that was zero when
    the checksum was computed has the checksum 0. *)
Lemma chksum_verifies_ok m a n k : bytes_ok m → 0 ≤ a → 0 ≤ n ≤ 65535 → a + n < 4294967296 → 0 ≤ k → k `mod` 2 = 0 → k + 2 ≤ n → ld16 m (a + k) = 0 →
  ∃ c, inet_chksum m a n = Some c ∧ 0 ≤ c ≤ 65535 ∧ inet_chksum (st16 m (a + k) c) a n = Some 0.
Proof.
  intros Hm Ha Hn Han Hk Hev Hkn Hz. eexists. rewrite inet_chksum_ok by done. split; [reflexivity|].
  pose proof (lds_octets m a n Hm) as Ho. rewrite checksum_canon by exact Ho. pose proof (canon_range (wsum false (lds m a n))) as Hr.
  split; [lia|]. set (c := 65535 - canon (wsum false (lds m a n))).
  assert (Hm' : bytes_ok (st16 m (a + k) c)) by (by apply st_bytes_ok, st_bytes_ok). rewrite inet_chksum_ok by done. f_equal.
  rewrite checksum_canon by (by apply lds_octets). rewrite lds_st16 by lia.
  pose proof (Hm (a + k)). pose proof (Hm (a + k + 1)). unfold ld16 in Hz.
  assert (E : lds m a n = lds m a k ++ [0; 0] ++ lds m (a + k + 2) (n - k - 2)).
  { replace n with (k + (2 + (n - k - 2))) at 1 by lia. rewrite !lds_app, lds_two by lia.
    by replace (ld m (a + k)) with 0 by lia; replace (ld m (a + k + 1)) with 0 by lia. }
  rewrite wsum_field, <- E by (rewrite even_length_lds by lia; rewrite Hev; done). cbv iota.
  assert (Hc : u8 c + 256 * u8 (c / 256) = c) by (unfold u8; dlia). rewrite Hc.
  pose proof (wsum_nonneg false _ Ho) as Hn0. assert (Hf : 65535 = canon (wsum false (lds m a n) + c)); [|lia].
  apply canon_unique; [lia|lia| |pose proof (canon_zero _ Hn0); lia]. rewrite Z.add_mod, <- (canon_mod _ Hn0), <- Z.add_mod by lia.
  replace (canon (wsum false (lds m a n)) + c) with 65535 by lia. done.
Qed.

(** ** Dotted addresses *)

(** The word with the bytes [a], [b], [c], [d], [a] the most significant. *)
Definition be32 (a b c d : Z) : Z := 16777216 * a + 65536 * b + 256 * c + d.

Lemma land_byte n k : 0 ≤ k → Z.land n (Z.shiftl 255 k) = Z.shiftl ((n / 2 ^ k) `mod` 256) k.
Proof.
  intros Hk. rewrite <- Z.shiftr_div_pow2 by lia. change 256 with (2 ^ 8). rewrite <- Z.land_ones by lia. change (Z.ones 8) with 255.
  apply Z.bits_inj'. intros i Hi. rewrite Z.land_spec, !Z.shiftl_spec by lia. destruct (decide (i < k)) as [Hlt|Hge].
  - rewrite !(Z.testbit_neg_r _ (i - k)) by lia. apply andb_false_r.
  - rewrite Z.land_spec, Z.shiftr_spec by lia. by replace (i - k + k) with i by lia.
Qed.

Lemma lor_bytes a b c d : 0 ≤ a < 256 → 0 ≤ b < 256 → 0 ≤ c < 256 → 0 ≤ d < 256 →
  Z.lor (Z.lor (Z.lor (16777216 * a) (65536 * b)) (256 * c)) d = be32 a b c d.
Proof.
  intros Ha Hb Hc Hd. unfold be32.
  rewrite (lor_add_disjoint (16777216 * a) _ 24); [|lia|change (2 ^ 24) with 16777216; dlia|change (2 ^ 24) with 16777216; lia].
  rewrite (lor_add_disjoint (_ + 65536 * b) _ 16); [|lia|change (2 ^ 16) with 65536; dlia|change (2 ^ 16) with 65536; lia].
  rewrite (lor_add_disjoint (_ + 256 * c) _ 8); [done|lia|change (2 ^ 8) with 256; dlia|change (2 ^ 8) with 256; lia].
Qed.

Lemma htonl_be32 a b c d : 0 ≤ a < 256 → 0 ≤ b < 256 → 0 ≤ c < 256 → 0 ≤ d < 256 → htonl (be32 a b c d) = be32 d c b a.
Proof.
  intros Ha Hb Hc Hd. unfold htonl. change 0xff with (Z.shiftl 255 0). change 0xff00 with (Z.shiftl 255 8). change 0xff0000 with (Z.shiftl 255 16).
  change 0xff000000 with (Z.shiftl 255 24). rewrite !land_byte by lia. 
  change (2 ^ 0) with 1. change (2 ^ 8) with 256. change (2 ^ 16) with 65536. change (2 ^ 24) with 16777216.
  assert ((be32 a b c d / 1) `mod` 256 = d) as -> by (unfold be32; dlia). assert ((be32 a b c d / 256) `mod` 256 = c) as -> by (unfold be32; dlia).
  assert ((be32 a b c d / 65536) `mod` 256 = b) as -> by (unfold be32; dlia). assert ((be32 a b c d / 16777216) `mod` 256 = a) as -> by (unfold be32; dlia).
  rewrite !Z.shiftl_mul_pow2, !Z.shiftr_div_pow2 by lia. change (2 ^ 0) with 1. change (2 ^ 8) with 256. change (2 ^ 16) with 65536. change (2 ^ 24) with 16777216.
  replace (d * 1 * 16777216) with (16777216 * d) by lia. replace (c * 256 * 256) with (65536 * c) by lia.
  replace (b * 65536 / 256) with (256 * b) by dlia. replace (a * 16777216 / 16777216) with a by dlia.
  rewrite lor_bytes by done. apply u32_small. unfold be32. lia.
Qed.

(** The decimal digits inet_ntoa writes for a byte. *)
Definition byte_digits (v : Z) : list Z :=
  if v <? 10 then [v] else if v <? 100 then [v / 10; v `mod` 10] else [v / 100; (v / 10) `mod` 10; v `mod` 10].

Lemma ntoa_digits_ok v : 0 ≤ v < 256 → ntoa_digits 3 v [] = Z.add 48 <$> byte_digits v.
Proof.
  intros Hv. unfold byte_digits. cbn [ntoa_digits]. destruct (v <? 10) eqn:E1.
  { replace (v / 10 =? 0) with true by dlia. replace (v `mod` 10) with v by dlia. done. }
  replace (v / 10 =? 0) with false by dlia. destruct (v <? 100) eqn:E2.
  { replace (v / 10 / 10 =? 0) with true by dlia. replace ((v / 10) `mod` 10) with (v / 10) by dlia. done. }
  replace (v / 10 / 10 =? 0) with false by dlia. replace (v / 10 / 10 / 10 =? 0) with true by dlia.
  replace ((v / 10 / 10) `mod` 10) with (v / 100) by dlia. done.
Qed.

Lemma byte_digits_range v : 0 ≤ v < 256 → Forall (λ d, 0 ≤ d < 10) (byte_digits v) ∧ (1 ≤ length (byte_digits v) ≤ 3)%nat.
Proof.
  intros Hv. unfold byte_digits. destruct (v <? 10) eqn:E1; [|destruct (v <? 100) eqn:E2];
    (split; [repeat (apply Forall_cons_2; [dlia|]); apply Forall_nil_2|cbn; lia]).
Qed.
Lemma byte_digits_value v : 0 ≤ v < 256 → foldl (λ acc d, acc * 10 + d) 0 (byte_digits v) = v.
Proof. intros Hv. unfold byte_digits. destruct (v <? 10) eqn:E1; [|destruct (v <? 100) eqn:E2]; cbn; dlia. Qed.
Lemma byte_digits_head v d ds : 0 ≤ v < 256 → byte_digits v = d :: ds → d = 0 → v = 0 ∧ ds = [].
Proof. intros Hv. unfold byte_digits. destruct (v <? 10) eqn:E1; [|destruct (v <? 100) eqn:E2]; intros [= <- <-]; intros; (split; [dlia|try done; dlia]). Qed.

(** What may follow a number of a dotted address. *)
Definition number_end (rest : list Z) : Prop := rest = [] ∨ ∃ r, rest = 46 :: r.

Lemma number_end_char m a rest : cstr m a rest → number_end rest → ld m a = 0 ∨ ld m a = 46.
Proof. intros Hs [-> |[r ->]]; [left; by apply cstr_end|right; by apply (cstr_cons _ _ _ _ Hs)]. Qed.

Lemma isdigit_digit d : 0 ≤ d < 10 → isdigit (48 + d) = true.
Proof. intros Hd. unfold isdigit, in_range. lia. Qed.

Lemma aton_digits m base : base = 8 ∨ base = 10 → ∀ ds s v rest, cstr m s ((Z.add 48 <$> ds) ++ rest) → number_end rest → Forall (λ d, 0 ≤ d < 10) ds →
  0 ≤ v → (base = 8 → ds = []) → foldl (λ acc d, acc * 10 + d) v ds < 4294967296 →
  iter_nat (aton_digit m base) (S (length ds)) (s, v) = inr (s + Z.of_nat (length ds), foldl (λ acc d, acc * 10 + d) v ds) ∧
  cstr m (s + Z.of_nat (length ds)) rest.
Proof.
  intros Hbase ds. induction ds as [|d ds IH]; intros s v rest Hs Hend Hd Hv H8 Hb; rewrite iter_S; unfold aton_digit at 1; cbn [length foldl fmap list_fmap app] in *.
  - cbn [Z.of_nat]. rewrite Z.add_0_r. split; [|exact Hs]. assert ((base =? 16) = false) as -> by lia.
    by destruct (number_end_char m s rest Hs Hend) as [-> | ->].
  - apply Forall_cons in Hd as [Hd Hds]. pose proof (cstr_next _ _ _ _ Hs) as Hu. destruct (cstr_cons _ _ _ _ Hs) as (Hc & _ & Hs').
    assert (base = 10) as -> by (destruct Hbase as [E| ->]; [by specialize (H8 E)|done]).
    pose proof (digits_grow ds (v * 10 + d) ltac:(lia) Hds). cbv zeta. rewrite Hc, isdigit_digit, Hu, (u32_small (v * 10)), u32_small by lia.
    replace (v * 10 + (48 + d - 48)) with (v * 10 + d) by lia.
    destruct (IH (s + 1) (v * 10 + d) rest Hs' Hend Hds ltac:(lia) ltac:(done) Hb) as [E Hr]. rewrite E.
    replace (s + Z.of_nat (S (length ds))) with (s + 1 + Z.of_nat (length ds)) by lia. done.
Qed.

Lemma aton_number_ok m cp v rest : 0 ≤ v < 256 → cstr m cp ((Z.add 48 <$> byte_digits v) ++ rest) → number_end rest →
  ∃ cp', aton_number m cp = Some (cp', v) ∧ cstr m cp' rest ∧ isdigit (ld m cp) = true.
Proof.
  intros Hv Hs Hend. destruct (byte_digits_range v Hv) as [Hr Hl]. destruct (byte_digits v) as [|d ds] eqn:E; [cbn in Hl; lia|].
  pose proof (Forall_inv Hr) as Hd. cbv beta in Hd. cbn [fmap list_fmap app] in Hs. pose proof (cstr_next _ _ _ _ Hs) as Hu. destruct (cstr_cons _ _ _ _ Hs) as (Hc & _ & Hs').
  unfold aton_number. rewrite Hc, (isdigit_digit d Hd). destruct (decide (d = 0)) as [->|Hne].
  - destruct (byte_digits_head v 0 ds Hv E eq_refl) as [-> ->]. change (48 + 0 =? 48) with true. cbn [fmap list_fmap app] in Hs'. cbv zeta iota. rewrite Hu.
    assert (((ld m (cp + 1) =? 120) || (ld m (cp + 1) =? 88)) = false) as -> by (by destruct (number_end_char m _ _ Hs' Hend) as [-> | ->]). cbv iota.
    destruct (aton_digits m 8 (or_introl eq_refl) [] (cp + 1) 0 rest) as [E1 H1]; [exact Hs'|exact Hend|apply Forall_nil_2|lia|done|cbn; lia|].
    exists (cp + 1). split; [|split; [by rewrite Z.add_0_r in H1|done]]. rewrite (while_iter _ _ _ _ E1) by (cbn; lia). cbn. by rewrite Z.add_0_r.
  - assert ((48 + d =? 48) = false) as -> by lia. cbv iota.
    destruct (aton_digits m 10 (or_intror eq_refl) (d :: ds) cp 0 rest) as [E1 H1]; [exact Hs|exact Hend|exact Hr|lia|done|rewrite <- E, byte_digits_value by done; lia|].
    eexists. split; [|split; [exact H1|done]]. rewrite (while_iter _ _ _ _ E1) by (cbn in *; lia). by rewrite <- E, byte_digits_value.
Qed.

Lemma aton_parts_ok m cp v0 v1 v2 v3 : 0 ≤ v0 < 256 → 0 ≤ v1 < 256 → 0 ≤ v2 < 256 → 0 ≤ v3 < 256 →
  cstr m cp ((Z.add 48 <$> byte_digits v0) ++ 46 :: (Z.add 48 <$> byte_digits v1) ++ 46 :: (Z.add 48 <$> byte_digits v2) ++ 46 :: (Z.add 48 <$> byte_digits v3) ++ []) →
  ∃ cp', aton_parts m cp = Some (inr (cp', [v0; v1; v2], v3)) ∧ ld m cp' = 0.
Proof.
  intros H0 H1 H2 H3 Hs. unfold aton_parts. match goal with |- context [while ?f _] => set (body := f) end.
  assert (Hstep : ∀ cp v rest parts, 0 ≤ v < 256 → cstr m cp ((Z.add 48 <$> byte_digits v) ++ 46 :: rest) → (length parts < 3)%nat →
    ∃ cp', body (cp, parts) = inl (cp', parts ++ [v]) ∧ cstr m cp' rest).
  { intros a v rest parts Hv Hc Hp. destruct (aton_number_ok m a v (46 :: rest) Hv Hc) as (a1 & E1 & Hc1 & Hd1); [right; by exists rest|].
    destruct (cstr_cons _ _ _ _ Hc1) as (Hdot & _ & Hc2). exists (a1 + 1). split; [|exact Hc2].
    unfold body. rewrite Hd1, E1, Hdot, (cstr_next _ _ _ _ Hc1). cbn [negb Z.eqb Pos.eqb]. replace (Z.of_nat (length parts) >=? 3) with false by lia. done. }
  destruct (Hstep cp v0 _ [] H0 Hs) as (c1 & E1 & Hs1); [cbn; lia|]. destruct (Hstep c1 v1 _ [v0] H1 Hs1) as (c2 & E2 & Hs2); [cbn; lia|].
  destruct (Hstep c2 v2 _ [v0; v1] H2 Hs2) as (c3 & E3 & Hs3); [cbn; lia|]. destruct (aton_number_ok m c3 v3 [] H3 Hs3) as (c4 & E4 & Hs4 & Hd4); [by left|].
  exists c4. split; [|by apply cstr_end]. cbn [app] in E1, E2, E3.
  assert (Hit : iter_nat body 4 (cp, []) = inr (Some (inr (c4, [v0; v1; v2], v3)))).
  { rewrite iter_S, E1, iter_S, E2, iter_S, E3, iter_S. unfold body. rewrite Hd4, E4, (cstr_end _ _ Hs4). done. }
  rewrite (while_iter _ _ _ _ Hit) by lia. reflexivity.
Qed.

Lemma be32_bytes a : 0 ≤ a < 4294967296 →
  a = be32 (u8 (Z.shiftr a (8 * 3))) (u8 (Z.shiftr a (8 * 2))) (u8 (Z.shiftr a (8 * 1))) (u8 (Z.shiftr a (8 * 0))).
Proof.
  intros Ha. rewrite !Z.shiftr_div_pow2 by lia. change (2 ^ (8 * 3)) with 16777216. change (2 ^ (8 * 2)) with 65536. change (2 ^ (8 * 1)) with 256. change (2 ^ (8 * 0)) with 1.
  unfold be32, u8. pose proof (Z.div_mod a 256 ltac:(lia)) as E1. pose proof (Z.div_mod (a / 256) 256 ltac:(lia)) as E2. pose proof (Z.div_mod (a / 65536) 256 ltac:(lia)) as E3.
  rewrite Z.div_div in E2, E3 by lia. change (256 * 256) with 65536 in E2. change (65536 * 256) with 16777216 in E3.
  rewrite (Z.mod_small (a / 16777216)) by dlia. rewrite Z.div_1_r. lia.
Qed.

(** The text of an address. *)
Definition dotted (v0 v1 v2 v3 : Z) : list Z :=
  (Z.add 48 <$> byte_digits v0) ++ 46 :: (Z.add 48 <$> byte_digits v1) ++ 46 :: (Z.add 48 <$> byte_digits v2) ++ 46 :: (Z.add 48 <$> byte_digits v3).

Lemma dotted_chars v0 v1 v2 v3 : 0 ≤ v0 < 256 → 0 ≤ v1 < 256 → 0 ≤ v2 < 256 → 0 ≤ v3 < 256 →
  Forall (λ c, 0 < c < 256) (dotted v0 v1 v2 v3) ∧ (7 ≤ length (dotted v0 v1 v2 v3) ≤ 15)%nat.
Proof.
  assert (Hd : ∀ v, 0 ≤ v < 256 → Forall (λ c, 0 < c < 256) (Z.add 48 <$> byte_digits v)).
  { intros v Hv. apply Forall_fmap. eapply Forall_impl; [apply (byte_digits_range v Hv)|]. intros d Hr. cbn in *. lia. }
  intros H0 H1 H2 H3. unfold dotted. split.
  - repeat (apply Forall_app; split; [by apply Hd|]; apply Forall_cons_2; [lia|]). by apply Hd.
  - destruct (byte_digits_range v0 H0) as [_ L0], (byte_digits_range v1 H1) as [_ L1], (byte_digits_range v2 H2) as [_ L2], (byte_digits_range v3 H3) as [_ L3].
    repeat (rewrite length_app; cbn [length]). rewrite !length_fmap. lia.
Qed.

(** inet_ntoa writes the dotted text of the bytes of the address, at most 16
    bytes with the NUL. *)
Lemma inet_ntoa_ok m str addr : 0 ≤ str → str + 16 ≤ 4294967296 →
  ∃ l, l = dotted (u8 addr) (u8 (Z.shiftr addr 8)) (u8 (Z.shiftr addr 16)) (u8 (Z.shiftr addr 24)) ∧
    inet_ntoa m str addr = sts m str (l ++ [0]) ∧ cstr (inet_ntoa m str addr) str l ∧ (length l ≤ 15)%nat.
Proof.
  intros Hs Hb. eexists. split; [reflexivity|].
  pose proof (u8_range addr) as R0. pose proof (u8_range (Z.shiftr addr 8)) as R1. pose proof (u8_range (Z.shiftr addr 16)) as R2. pose proof (u8_range (Z.shiftr addr 24)) as R3.
  destruct (dotted_chars _ _ _ _ R0 R1 R2 R3) as [Hc Hl]. set (l := dotted _ _ _ _) in *.
  assert (E : inet_ntoa m str addr = sts m str (l ++ [0])).
  { unfold inet_ntoa. cbv zeta. cbn [fmap list_fmap mjoin list_join]. change (8 * 0) with 0. change (8 * 1) with 8. change (8 * 2) with 16. change (8 * 3) with 24.
    rewrite Z.shiftr_0_r, !ntoa_digits_ok, app_nil_r by done.
    match goal with |- st (sts m str ?x) _ _ = _ => assert (Hx : x = l ++ [46]) by (unfold l, dotted; rewrite <- !app_assoc; cbn [app]; rewrite <- !app_assoc; cbn [app]; rewrite <- !app_assoc; done) end.
    rewrite Hx, length_app. cbn [length]. rewrite !sts_app. cbn [sts].
    replace (str + Z.of_nat (length l + 1) - 1) with (str + Z.of_nat (length l)) by lia. unfold st. by rewrite insert_insert_eq. }
  split; [exact E|]. split; [rewrite E; apply cstr_sts; [lia|lia|exact Hc]|lia].
Qed.

Lemma inet_addr_dotted m cp v0 v1 v2 v3 : 0 ≤ v0 < 256 → 0 ≤ v1 < 256 → 0 ≤ v2 < 256 → 0 ≤ v3 < 256 →
  cstr m cp (dotted v0 v1 v2 v3) → inet_aton m cp = Some (Some (be32 v3 v2 v1 v0)).
Proof.
  intros H0 H1 H2 H3 Hs. destruct (aton_parts_ok m cp v0 v1 v2 v3 H0 H1 H2 H3) as (cp' & E & Hz); [by rewrite app_nil_r|].
  unfold inet_aton. rewrite E, bind_some, Hz. cbn [Z.eqb negb andb]. replace (v3 >? 255) with false by lia.
  rewrite Z.lor_comm, !Z.shiftl_mul_pow2 by lia. change (2 ^ 8) with 256. change (2 ^ 16) with 65536. change (2 ^ 24) with 16777216. rewrite !u32_small by lia.
  rewrite (Z.mul_comm v0), (Z.mul_comm v1), (Z.mul_comm v2), lor_bytes, htonl_be32 by done. done.
Qed.

Lemma inet_addr_ntoa_ok m str addr : 0 ≤ str → str + 16 ≤ 4294967296 → 0 ≤ addr < 4294967296 → inet_addr (inet_ntoa m str addr) str = Some addr.
Proof.
  intros Hs Hb Ha. destruct (inet_ntoa_ok m str addr Hs Hb) as (l & -> & _ & Hc & _).
  unfold inet_addr. rewrite (inet_addr_dotted _ _ _ _ _ _ (u8_range _) (u8_range _) (u8_range _) (u8_range _) Hc), bind_some. cbn [default]. f_equal.
  symmetry. pose proof (be32_bytes addr Ha) as E. change (8 * 3) with 24 in E. change (8 * 2) with 16 in E. change (8 * 1) with 8 in E. change (8 * 0) with 0 in E.
  by rewrite Z.shiftr_0_r in E.
Qed.

(** Parts before the last are not checked against 255. *)
Lemma inet_aton_256 : inet_aton (sts ∅ 0x3000 [50; 53; 54; 46; 49; 46; 50; 46; 51; 0]) 0x3000 = Some (Some (be32 3 2 1 0)).
Proof. vm_compute. reflexivity. Qed.
