(* ===== verification/SysArch.v ===== *)
(** * Threads, semaphores and mailboxes of the network server

    net/lwip/jos/arch/thread.c, threadq.h and sys_arch.c: the cooperative
    threads lwIP runs on.  A thread runs until it calls thread_yield, which
    happens only inside thread_wait; [thread_queue] is the queue of the other
    threads, first to run first.

    A thread is the list of the calls it still makes ([tc_calls]) and its
    place in the first of them ([tc_pc]).  [thread_step] runs the current
    thread from one loop head to the next; the clock may advance between two
    steps ([sys_step]).  [log] records what calls returned, newest first.

    A failed assertion or a panic stops the machine.  Reading an entry outside
    a table, undefined in C, is [Fault]. *)

From S2P Require Import Prelude.

Definition NSEM : Z := 256.
Definition NMBOX : Z := 128.
Definition MBOXSLOTS : Z := 32.
Definition SYS_MBOX_NULL : Z := -1.
Definition SYS_SEM_NULL : Z := -1.
Definition SYS_ARCH_NOWAIT : Z := 0xfffffffe.
Definition SYS_ARCH_TIMEOUT : Z := 0xffffffff.
Definition ERR_OK : Z := 0.
Definition ERR_MEM : Z := -1.

Record sys_sem_entry := Sem {
  sem_freed : bool;
  sem_gen : Z;                 (* int *)
  sem_counter : Z;             (* uint16_t *)
  sem_waiters : Z              (* uint16_t *)
}.

(** The word the counter and the waiters share. *)
Definition sem_v (e : sys_sem_entry) : Z := sem_counter e + 65536 * sem_waiters e.

Record sys_mbox_entry := Mbox {
  mbox_freed : bool;
  mbox_head : Z;
  mbox_nextq : Z;
  mbox_msg : gmap Z Z;
  mbox_queued_msg : Z;
  mbox_free_msg : Z
}.

(** The calls of a thread. *)
Inductive call :=
| CPost (mb msg : Z)           (* sys_mbox_post *)
| CTrypost (mb msg : Z)        (* sys_mbox_trypost *)
| CFetch (mb tm : Z)           (* sys_arch_mbox_fetch *)
| CWait (s tm : Z)             (* sys_arch_sem_wait *)
| CSignal (s : Z)              (* sys_sem_signal *)
| CYield.                      (* thread_yield *)

(** The local variables of sys_arch_sem_wait. *)
Record sem_wait := SemWait { w_sem : Z; w_tm_msec : Z; w_gen : Z; w_waited : Z }.

(** Before a call; at the head of the loop of sys_arch_sem_wait; about to
    call thread_wait with [val] and [msec]; at the head of the loop of
    thread_wait, with [p] unless it is to be read from the clock; behind
    thread_wait.  [a] and [s] are the times sys_arch_sem_wait and thread_wait
    read first. *)
Inductive place :=
| PCall
| PSem (w : sem_wait)
| PEnter (w : sem_wait) (a val msec : Z)
| PThread (w : sem_wait) (a val msec s : Z) (p : option Z)
| PBack (w : sem_wait) (a : Z).

Record thread_context := Thread {
  tc_tid : Z;
  tc_wait_addr : option Z;     (* the semaphore whose [v] it is *)
  tc_wakeup : bool;
  tc_pc : place;
  tc_calls : list call
}.

Inductive event :=
| EPost (tid mb msg r : Z)
| EFetch (tid mb : Z) (msg : option Z) (r : Z)
| EWait (tid s r : Z).

Record sys := Sys {
  sems : gmap Z sys_sem_entry;
  sem_free : list Z;
  mboxes : gmap Z sys_mbox_entry;
  mbox_free : list Z;
  thread_queue : list thread_context;
  cur_tc : option thread_context;
  now : Z;                     (* sys_time_msec *)
  log : list event
}.

Section SysSet.
Implicit Types s : sys.
Definition set_sems v s := Sys v (sem_free s) (mboxes s) (mbox_free s) (thread_queue s) (cur_tc s) (now s) (log s).
Definition set_sem_free v s := Sys (sems s) v (mboxes s) (mbox_free s) (thread_queue s) (cur_tc s) (now s) (log s).
Definition set_mboxes v s := Sys (sems s) (sem_free s) v (mbox_free s) (thread_queue s) (cur_tc s) (now s) (log s).
Definition set_mbox_free v s := Sys (sems s) (sem_free s) (mboxes s) v (thread_queue s) (cur_tc s) (now s) (log s).
Definition set_thread_queue v s := Sys (sems s) (sem_free s) (mboxes s) (mbox_free s) v (cur_tc s) (now s) (log s).
Definition set_cur_tc v s := Sys (sems s) (sem_free s) (mboxes s) (mbox_free s) (thread_queue s) v (now s) (log s).
Definition set_now v s := Sys (sems s) (sem_free s) (mboxes s) (mbox_free s) (thread_queue s) (cur_tc s) v (log s).
Definition set_log v s := Sys (sems s) (sem_free s) (mboxes s) (mbox_free s) (thread_queue s) (cur_tc s) (now s) v.
End SysSet.

Inductive sstop := SPanic (msg : string) | Fault.

Definition Y (A : Type) : Type := M sys sstop A.

Definition sassert (b : bool) (msg : string) : Y unit := if b then mret tt else stop (SPanic msg).
Definition emit_event (e : event) : Y unit := modify (λ s, set_log (e :: log s) s).

Definition get_sem (i : Z) : Y sys_sem_entry :=
  t ← gets sems; match t !! i with Some e => mret e | None => stop Fault end.
Definition put_sem (i : Z) (e : sys_sem_entry) : Y unit := modify (λ s, set_sems (<[i := e]> (sems s)) s).
Definition get_mbox (i : Z) : Y sys_mbox_entry :=
  t ← gets mboxes; match t !! i with Some e => mret e | None => stop Fault end.
Definition put_mbox (i : Z) (e : sys_mbox_entry) : Y unit := modify (λ s, set_mboxes (<[i := e]> (mboxes s)) s).

(** ** Semaphores *)

Definition sys_sem_new (count : Z) : Y Z :=
  l ← gets sem_free;
  match l with
  | [] => mret SYS_SEM_NULL
  | i :: l =>
      modify (set_sem_free l);;
      e ← get_sem i;
      sassert (sem_freed e) "se->freed";;
      put_sem i (Sem false (s32 (sem_gen e + 1)) count (sem_waiters e));;
      mret i
  end.

Definition sys_sem_free (i : Z) : Y unit :=
  e ← get_sem i;
  sassert (negb (sem_freed e)) "!sems[sem].freed";;
  put_sem i (Sem true (s32 (sem_gen e + 1)) (sem_counter e) (sem_waiters e));;
  modify (λ s, set_sem_free (i :: sem_free s) s).

(** thread_wakeup: every queued thread that waits at the address. *)
Definition wake (i : Z) (tc : thread_context) : thread_context :=
  if decide (tc_wait_addr tc = Some i)
  then Thread (tc_tid tc) (tc_wait_addr tc) true (tc_pc tc) (tc_calls tc) else tc.
Definition thread_wakeup (i : Z) : Y unit := modify (λ s, set_thread_queue (wake i <$> thread_queue s) s).

Definition sys_sem_signal (i : Z) : Y unit :=
  e ← get_sem i;
  sassert (negb (sem_freed e)) "!sems[sem].freed";;
  let counter := u16 (sem_counter e + 1) in
  if ctrue (sem_waiters e) then
    put_sem i (Sem (sem_freed e) (sem_gen e) counter 0);;
    thread_wakeup i
  else put_sem i (Sem (sem_freed e) (sem_gen e) counter (sem_waiters e)).

(** ** Mailboxes *)

Definition sys_mbox_free (i : Z) : Y unit :=
  e ← get_mbox i;
  sassert (negb (mbox_freed e)) "!mboxes[mbox].freed";;
  sys_sem_free (mbox_queued_msg e);;
  sys_sem_free (mbox_free_msg e);;
  modify (λ s, set_mbox_free (i :: mbox_free s) s);;
  put_mbox i (Mbox true (mbox_head e) (mbox_nextq e) (mbox_msg e) (mbox_queued_msg e) (mbox_free_msg e)).

Definition sys_mbox_new (size : Z) : Y Z :=
  sassert (size <? MBOXSLOTS) "size < MBOXSLOTS";;
  l ← gets mbox_free;
  match l with
  | [] => mret SYS_MBOX_NULL
  | i :: l =>
      modify (set_mbox_free l);;
      e ← get_mbox i;
      sassert (mbox_freed e) "mbe->freed";;
      q ← sys_sem_new 0;
      f ← sys_sem_new MBOXSLOTS;
      put_mbox i (Mbox false (-1) 0 (mbox_msg e) q f);;
      if (q =? SYS_SEM_NULL) || (f =? SYS_SEM_NULL) then
        sys_mbox_free i;;
        mret SYS_MBOX_NULL
      else mret i
  end.

(** sys_mbox_trypost behind the wait for a free slot. *)
Definition trypost_rest (mb msg : Z) : Y Z :=
  e ← get_mbox mb;
  if mbox_nextq e =? mbox_head e then mret ERR_MEM
  else
    let slot := mbox_nextq e in
    put_mbox mb (Mbox (mbox_freed e) (if mbox_head e =? -1 then slot else mbox_head e)
                      (Z.rem (slot + 1) MBOXSLOTS) (<[slot := msg]> (mbox_msg e)) (mbox_queued_msg e) (mbox_free_msg e));;
    sys_sem_signal (mbox_queued_msg e);;
    mret ERR_OK.

(** sys_arch_mbox_fetch behind the wait for a message; the message read. *)
Definition fetch_rest (mb waited : Z) : Y (option Z) :=
  e ← get_mbox mb;
  if waited =? SYS_ARCH_TIMEOUT then mret None
  else
    let slot := mbox_head e in
    if slot =? -1 then stop (SPanic "lwip: sys_arch_mbox_fetch: no message")
    else
      let msg := default 0 (mbox_msg e !! slot) in
      let head := Z.rem (slot + 1) MBOXSLOTS in
      put_mbox mb (Mbox (mbox_freed e) (if head =? mbox_nextq e then -1 else head)
                        (mbox_nextq e) (mbox_msg e) (mbox_queued_msg e) (mbox_free_msg e));;
      sys_sem_signal (mbox_free_msg e);;
      mret (Some msg).

Definition sys_init : Y unit :=
  forM (range 0 NSEM) (λ i,
    e ← get_sem i;
    put_sem i (Sem true (sem_gen e) (sem_counter e) (sem_waiters e));;
    modify (λ s, set_sem_free (i :: sem_free s) s));;
  forM (range 0 NMBOX) (λ i,
    e ← get_mbox i;
    put_mbox i (Mbox true (mbox_head e) (mbox_nextq e) (mbox_msg e) (mbox_queued_msg e) (mbox_free_msg e));;
    modify (λ s, set_mbox_free (i :: mbox_free s) s)).

(** ** Threads *)

Definition set_place (pc : place) (tc : thread_context) : thread_context :=
  Thread (tc_tid tc) (tc_wait_addr tc) (tc_wakeup tc) pc (tc_calls tc).
Definition goto (pc : place) (tc : thread_context) : Y unit := modify (set_cur_tc (Some (set_place pc tc))).

(** The first call is over. *)
Definition returned (tc : thread_context) : Y unit :=
  modify (set_cur_tc (Some (Thread (tc_tid tc) (tc_wait_addr tc) (tc_wakeup tc) PCall (tail (tc_calls tc))))).

(** thread_yield: [tc] is the current thread, the places it goes on from
    included; with no other thread it goes on itself. *)
Definition thread_yield (tc : thread_context) : Y unit :=
  q ← gets thread_queue;
  match q with
  | [] => modify (set_cur_tc (Some tc))
  | next :: q =>
      modify (set_thread_queue (q ++ [tc]));;
      modify (set_cur_tc (Some next))
  end.

(** The thread is over: it leaves for good. *)
Definition thread_halt : Y unit :=
  q ← gets thread_queue;
  match q with
  | [] => modify (set_cur_tc None)
  | next :: q =>
      modify (set_thread_queue q);;
      modify (set_cur_tc (Some next))
  end.

(** sys_arch_sem_wait up to its loop. *)
Definition sem_wait_enter (tc : thread_context) (i tm_msec : Z) : Y unit :=
  e ← get_sem i;
  sassert (negb (sem_freed e)) "!sems[sem].freed";;
  goto (PSem (SemWait i tm_msec (sem_gen e) 0)) tc.

(** What the first call of [tc] does with the result of the wait. *)
Definition sem_wait_return (tc : thread_context) (waited : Z) : Y unit :=
  match tc_calls tc with
  | CPost mb msg :: _ =>
      r ← trypost_rest mb msg;
      sassert (r =? ERR_OK) "sys_mbox_trypost(mbox, msg) == ERR_OK";;
      emit_event (EPost (tc_tid tc) mb msg r);;
      returned tc
  | CTrypost mb msg :: _ =>
      r ← trypost_rest mb msg;
      emit_event (EPost (tc_tid tc) mb msg r);;
      returned tc
  | CFetch mb _ :: _ =>
      msg ← fetch_rest mb waited;
      emit_event (EFetch (tc_tid tc) mb msg waited);;
      returned tc
  | CWait i _ :: _ =>
      emit_event (EWait (tc_tid tc) i waited);;
      returned tc
  | _ => returned tc
  end.

(** One round of the loop of sys_arch_sem_wait, up to the call of
    thread_wait. *)
Definition sem_wait_round (tc : thread_context) (w : sem_wait) : Y unit :=
  if (w_tm_msec w =? 0) || (w_waited w <? w_tm_msec w) then
    e ← get_sem (w_sem w);
    if sem_counter e >? 0 then
      put_sem (w_sem w) (Sem (sem_freed e) (sem_gen e) (sem_counter e - 1) (sem_waiters e));;
      sem_wait_return tc (w_waited w)
    else if w_tm_msec w =? SYS_ARCH_NOWAIT then sem_wait_return tc SYS_ARCH_TIMEOUT
    else
      a ← gets now;
      let sleep_until := if ctrue (w_tm_msec w) then u32 (a + (w_tm_msec w - w_waited w)) else 0xffffffff in
      let e := Sem (sem_freed e) (sem_gen e) (sem_counter e) 1 in
      put_sem (w_sem w) e;;
      goto (PEnter w a (sem_v e) sleep_until) tc
  else sem_wait_return tc SYS_ARCH_TIMEOUT.

Definition thread_wait_enter (tc : thread_context) (w : sem_wait) (a val msec : Z) : Y unit :=
  s0 ← gets now;
  modify (set_cur_tc (Some (Thread (tc_tid tc) (Some (w_sem w)) false (PThread w a val msec s0 (Some s0)) (tc_calls tc)))).

(** One round of the loop of thread_wait. *)
Definition thread_wait_round (tc : thread_context) (w : sem_wait) (a val msec s0 : Z) (p : option Z) : Y unit :=
  t ← gets now;
  let p := default t p in
  e ← get_sem (w_sem w);
  if (p <? msec) && negb (p <? s0) && (sem_v e =? val) && negb (tc_wakeup tc) then
    thread_yield (set_place (PThread w a val msec s0 None) tc)
  else modify (set_cur_tc (Some (Thread (tc_tid tc) None false (PBack w a) (tc_calls tc)))).

(** sys_arch_sem_wait behind thread_wait, up to the head of its loop. *)
Definition sem_wait_back (tc : thread_context) (w : sem_wait) (a : Z) : Y unit :=
  e ← get_sem (w_sem w);
  if negb (w_gen w =? sem_gen e) then sem_wait_return tc SYS_ARCH_TIMEOUT
  else
    b ← gets now;
    goto (PSem (SemWait (w_sem w) (w_tm_msec w) (w_gen w) (u32 (w_waited w + u32 (b - a))))) tc.

Definition enter_call (tc : thread_context) : Y unit :=
  match tc_calls tc with
  | [] => thread_halt
  | CPost mb msg :: _ | CTrypost mb msg :: _ =>
      e ← get_mbox mb;
      sassert (negb (mbox_freed e)) "!mboxes[mbox].freed";;
      sem_wait_enter tc (mbox_free_msg e) 0
  | CFetch mb tm :: _ =>
      e ← get_mbox mb;
      sassert (negb (mbox_freed e)) "!mboxes[mbox].freed";;
      sem_wait_enter tc (mbox_queued_msg e) tm
  | CWait i tm :: _ => sem_wait_enter tc i tm
  | CSignal i :: _ => sys_sem_signal i;; returned tc
  | CYield :: cs => thread_yield (Thread (tc_tid tc) (tc_wait_addr tc) (tc_wakeup tc) PCall cs)
  end.

Definition thread_step : Y unit :=
  c ← gets cur_tc;
  match c with
  | None => mret tt
  | Some tc =>
      match tc_pc tc with
      | PCall => enter_call tc
      | PSem w => sem_wait_round tc w
      | PEnter w a val msec => thread_wait_enter tc w a val msec
      | PThread w a val msec s0 p => thread_wait_round tc w a val msec s0 p
      | PBack w a => sem_wait_back tc w a
      end
  end.

(** A step of the machine: the current thread runs, or time passes.  The
    kernel stops the clock (time_tick panics) before the milliseconds leave 32
    bits. *)
Inductive sys_step (s : sys) : outcome sys sstop unit → Prop :=
| step_thread : sys_step s (thread_step s)
| step_time t : now s ≤ t ≤ 4294967290 → sys_step s (Ok tt (set_now t s)).
