(* ===== verification/SysProofs.v ===== *)
(** * Mailboxes are bounded queues

    [replay] runs the events of a log on abstract queues: a message posted
    goes to the end of the queue of its mailbox, which never holds more than
    32, and a message fetched is the one at its front.  [sinv] relates the
    tables and the threads to these queues; every step of the machine keeps
    it and adds only events the queues allow, whatever the threads call and
    however they alternate.  No assertion fails on the way. *)

From S2P Require Import Prelude SysArch.

(** ** The abstract queues *)

Notation queues := (gmap Z (list Z)).

(** One event.  A post appears in the log when it has its slot: like
    sys_mbox_post, sys_mbox_trypost of this port first waits for the semaphore
    of the free slots, so both are the blocking put of a bounded queue, and
    the answer ERR_MEM for a full mailbox is not allowed here.  A fetch gives
    the oldest message, or nothing when its time is over. *)
Definition replay1 (e : event) (Q : queues) : option queues :=
  match e with
  | EPost _ mb msg r =>
      c ← Q !! mb;
      if (r =? ERR_OK) && (Z.of_nat (length c) <? MBOXSLOTS) then Some (<[mb := c ++ [msg]]> Q) else None
  | EFetch _ mb (Some msg) r =>
      c ← Q !! mb;
      match c with
      | x :: c => if (x =? msg) && negb (r =? SYS_ARCH_TIMEOUT) then Some (<[mb := c]> Q) else None
      | [] => None
      end
  | EFetch _ mb None r => if r =? SYS_ARCH_TIMEOUT then Some Q else None
  | EWait _ _ _ => Some Q
  end.

(** The log has the newest event first. *)
Fixpoint replay (l : list event) (Q : queues) : option queues :=
  match l with [] => Some Q | e :: l => Q' ← replay l Q; replay1 e Q' end.

(** ** The invariant *)

(** The slots of the ring hold [c]. *)
Definition ring (e : sys_mbox_entry) (c : list Z) : Prop :=
  0 ≤ mbox_nextq e < 32 ∧
  match c with
  | [] => mbox_head e = -1
  | _ => 0 ≤ mbox_head e < 32 ∧ mbox_nextq e = (mbox_head e + Z.of_nat (length c)) `mod` 32 ∧
      ∀ i x, c !! i = Some x → mbox_msg e !! ((mbox_head e + Z.of_nat i) `mod` 32) = Some x
  end.

Definition counts (s : sys) (i n : Z) : Prop := ∃ e, sems s !! i = Some e ∧ sem_freed e = false ∧ sem_counter e = n.

Definition box (s : sys) (mb : Z) (c : list Z) : Prop := ∃ e,
  mboxes s !! mb = Some e ∧ mbox_freed e = false ∧ ring e c ∧ mbox_queued_msg e ≠ mbox_free_msg e ∧
  Z.of_nat (length c) ≤ 32 ∧ counts s (mbox_queued_msg e) (Z.of_nat (length c)) ∧ counts s (mbox_free_msg e) (32 - Z.of_nat (length c)).

(** The semaphore belongs to the mailbox. *)
Definition sem_of (s : sys) (mb i : Z) : Prop := ∃ e, mboxes s !! mb = Some e ∧ (i = mbox_queued_msg e ∨ i = mbox_free_msg e).
Definition own_sem (s : sys) (Q : queues) (i : Z) : Prop := (∃ n, counts s i n) ∧ ∀ mb, is_Some (Q !! mb) → ¬ sem_of s mb i.

(** The calls a thread may make: on mailboxes of [Q] and on semaphores that
    are not theirs. *)
Definition call_ok (s : sys) (Q : queues) (c : call) : Prop :=
  match c with
  | CPost mb _ | CTrypost mb _ => is_Some (Q !! mb)
  | CFetch mb tm => is_Some (Q !! mb)
  | CWait i _ | CSignal i => own_sem s Q i
  | CYield => True
  end.

(** The wait a thread is in belongs to its first call. *)
Definition wait_ok (s : sys) (cs : list call) (w : sem_wait) : Prop :=
  (∃ e, sems s !! w_sem w = Some e ∧ sem_gen e = w_gen w) ∧
  match cs with
  | CPost mb _ :: _ | CTrypost mb _ :: _ => w_tm_msec w = 0 ∧ ∃ e, mboxes s !! mb = Some e ∧ mbox_free_msg e = w_sem w
  | CFetch mb tm :: _ => ∃ e, mboxes s !! mb = Some e ∧ mbox_queued_msg e = w_sem w
  | CWait i tm :: _ => w_sem w = i
  | _ => False
  end.

Definition place_ok (s : sys) (cs : list call) (pc : place) : Prop :=
  match pc with
  | PCall => True
  | PSem w => wait_ok s cs w ∧ 0 ≤ w_waited w ≤ now s
  | PEnter w a _ _ | PThread w a _ _ _ _ | PBack w a => wait_ok s cs w ∧ 0 ≤ w_waited w ≤ a ∧ a ≤ now s
  end.

Definition thread_ok (s : sys) (Q : queues) (tc : thread_context) : Prop :=
  Forall (call_ok s Q) (tc_calls tc) ∧ place_ok s (tc_calls tc) (tc_pc tc).

Record sinv (s : sys) (Q : queues) : Prop := {
  si_box : ∀ mb c, Q !! mb = Some c → box s mb c;
  si_apart : ∀ mb1 mb2 i, is_Some (Q !! mb1) → is_Some (Q !! mb2) → sem_of s mb1 i → sem_of s mb2 i → mb1 = mb2;
  si_threads : Forall (thread_ok s Q) (thread_queue s);
  si_cur : ∀ tc, cur_tc s = Some tc → thread_ok s Q tc;
  si_now : 0 ≤ now s ≤ 4294967290
}.

(** ** What other threads rely on *)

Record steady (s s' : sys) : Prop := {
  st_sems : ∀ i e, sems s !! i = Some e → ∃ e', sems s' !! i = Some e' ∧ sem_gen e' = sem_gen e ∧ sem_freed e' = sem_freed e;
  st_boxes : ∀ mb e, mboxes s !! mb = Some e → ∃ e', mboxes s' !! mb = Some e' ∧ mbox_queued_msg e' = mbox_queued_msg e ∧ mbox_free_msg e' = mbox_free_msg e;
  st_boxes' : dom (mboxes s') = dom (mboxes s);
  st_now : now s ≤ now s'
}.

Lemma steady_sem_of s s' mb i : steady s s' → sem_of s' mb i → sem_of s mb i.
Proof.
  intros Hs (e' & He' & Hi). assert (Hd : mb ∈ dom (mboxes s)) by (rewrite <- (st_boxes' _ _ Hs); by apply elem_of_dom_2 in He').
  apply elem_of_dom in Hd as [e He]. destruct (st_boxes _ _ Hs mb e He) as (e2 & He2 & Hq & Hf). rewrite He' in He2. injection He2 as <-.
  exists e. split; [exact He|]. by rewrite <- Hq, <- Hf.
Qed.

Lemma steady_call s s' Q Q' c : steady s s' → dom Q' = dom Q → call_ok s Q c → call_ok s' Q' c.
Proof.
  intros Hs Hd. assert (HQ : ∀ mb, is_Some (Q !! mb) ↔ is_Some (Q' !! mb)) by (intros mb; by rewrite <- !elem_of_dom, Hd).
  assert (Hown : ∀ i, own_sem s Q i → own_sem s' Q' i).
  { intros i ((n & e & He & Hf & _) & Hno). destruct (st_sems _ _ Hs i e He) as (e' & He' & _ & Hf').
    split; [exists (sem_counter e'), e'; split; [exact He'|split; [congruence|done]]|]. intros mb Hmb Hso. by apply (Hno mb); [apply HQ|apply (steady_sem_of s s')]. }
  destruct c; cbn; intros H; try (by apply HQ); try (by apply Hown). done.
Qed.

Lemma steady_wait s s' cs w : steady s s' → wait_ok s cs w → wait_ok s' cs w.
Proof.
  intros Hs ((e & He & Hg) & Hc). destruct (st_sems _ _ Hs _ _ He) as (e' & He' & Hg' & _). split; [exists e'; split; [exact He'|congruence]|].
  assert (Hb : ∀ mb (P : sys_mbox_entry → Prop), (∀ e e', mbox_queued_msg e' = mbox_queued_msg e → mbox_free_msg e' = mbox_free_msg e → P e → P e') →
    (∃ e, mboxes s !! mb = Some e ∧ P e) → ∃ e, mboxes s' !! mb = Some e ∧ P e).
  { intros mb P HP (b & Hb & HPb). destruct (st_boxes _ _ Hs mb b Hb) as (b' & Hb' & Hq & Hf). exists b'. split; [exact Hb'|]. by apply (HP b). }
  destruct cs as [|[mb msg|mb msg|mb tm|i tm|i|] cs]; try done.
  1,2: destruct Hc as [H0 Hc]; split; [exact H0|]; revert Hc; apply Hb; congruence.
  revert Hc. apply Hb. congruence.
Qed.

Lemma steady_thread s s' Q Q' tc : steady s s' → dom Q' = dom Q → thread_ok s Q tc → thread_ok s' Q' tc.
Proof.
  intros Hs Hd [Hc Hp]. split; [eapply Forall_impl; [exact Hc|]; intros c; by apply steady_call|].
  pose proof (st_now _ _ Hs). destruct (tc_pc tc); cbn in *; [done|..]; (destruct Hp as [Hw Hn]; split; [by apply (steady_wait s)|lia]).
Qed.

Lemma steady_refl s : steady s s.
Proof. split; eauto. lia. Qed.

Lemma sinv_move s s' Q Q' : sinv s Q → steady s s' → dom Q' = dom Q → (∀ mb c, Q' !! mb = Some c → box s' mb c) → now s' ≤ 4294967290 →
  Forall (thread_ok s Q) (thread_queue s') → (∀ tc, cur_tc s' = Some tc → thread_ok s Q tc ∨ thread_ok s' Q' tc) → sinv s' Q'.
Proof.
  intros HI Hs Hd Hb Hn Hq Hc. pose proof (si_now _ _ HI). pose proof (st_now _ _ Hs). constructor; [exact Hb| | | |lia].
  - intros mb1 mb2 i H1 H2 S1 S2. rewrite <- elem_of_dom, Hd, elem_of_dom in H1, H2.
    by apply (si_apart _ _ HI mb1 mb2 i H1 H2); apply (steady_sem_of s s').
  - eapply Forall_impl; [exact Hq|]. intros tc. by apply steady_thread.
  - intros tc E. destruct (Hc tc E) as [H1|H1]; [by apply (steady_thread s s' Q)|exact H1].
Qed.

Lemma box_frame s s' mb c : box s mb c → mboxes s' !! mb = mboxes s !! mb → (∀ i n, sem_of s mb i → counts s i n → counts s' i n) → box s' mb c.
Proof.
  intros (e & He & H1 & H2 & H3 & H4 & H5 & H6) Hm Hs. exists e. rewrite Hm. repeat (split; [done|]). split; apply Hs; try done; exists e; eauto.
Qed.

(** ** The ring *)

Lemma ring_room e c : ring e c → Z.of_nat (length c) < 32 → (mbox_nextq e =? mbox_head e) = false.
Proof.
  intros [Hn Hc] Hl. apply Z.eqb_neq. destruct c as [|x c]; [lia|]. destruct Hc as (Hh & -> & _). cbn [length] in *. Z.to_euclidean_division_equations; lia.
Qed.

Lemma ring_post e c msg b q f : ring e c → Z.of_nat (length c) < 32 →
  ring (Mbox b (if mbox_head e =? -1 then mbox_nextq e else mbox_head e) (Z.rem (mbox_nextq e + 1) 32) (<[mbox_nextq e := msg]> (mbox_msg e)) q f) (c ++ [msg]).
Proof.
  intros [Hn Hc] Hl. unfold ring. cbn [mbox_head mbox_nextq mbox_msg]. rewrite Z.rem_mod_nonneg by lia. split; [apply Z.mod_pos_bound; lia|].
  destruct c as [|x c]; cbn [app].
  - rewrite Hc, Z.eqb_refl. split; [lia|]. split; [done|]. intros [|i] y Hy; [|by destruct i]. injection Hy as <-.
    rewrite Z.add_0_r, Z.mod_small, lookup_insert_eq by lia. done.
  - destruct Hc as (Hh & Hq & Hi). assert ((mbox_head e =? -1) = false) as -> by lia. split; [lia|]. split.
    + rewrite Hq. cbn [length]. rewrite length_app. cbn [length]. rewrite Zplus_mod_idemp_l. f_equal. lia.
    + change (x :: c ++ [msg]) with ((x :: c) ++ [msg]). intros i y Hy. apply lookup_app_Some in Hy as [Hy|[Hge Hy]].
      * pose proof (lookup_lt_Some _ _ _ Hy) as Hlt. rewrite lookup_insert_ne; [by apply Hi|]. rewrite Hq. cbn [length] in *. Z.to_euclidean_division_equations; lia.
      * destruct (i - length (x :: c))%nat as [|k] eqn:Ek; [|by destruct k]. injection Hy as <-. rewrite Hq. assert (i = length (x :: c)) as -> by lia. by rewrite lookup_insert_eq.
Qed.

Lemma ring_front e x c : ring e (x :: c) → (mbox_head e =? -1) = false ∧ mbox_msg e !! mbox_head e = Some x.
Proof.
  intros [_ (Hh & _ & Hi)]. split; [lia|]. specialize (Hi 0%nat x eq_refl). rewrite Z.add_0_r, Z.mod_small in Hi by lia. exact Hi.
Qed.

Lemma ring_fetch e x c b q f : ring e (x :: c) → Z.of_nat (length (x :: c)) ≤ 32 →
  ring (Mbox b (if Z.rem (mbox_head e + 1) 32 =? mbox_nextq e then -1 else Z.rem (mbox_head e + 1) 32) (mbox_nextq e) (mbox_msg e) q f) c.
Proof.
  intros [Hn (Hh & Hq & Hi)] Hl. unfold ring. cbn [mbox_head mbox_nextq mbox_msg]. split; [exact Hn|]. rewrite Z.rem_mod_nonneg by lia. cbn [length] in *.
  destruct c as [|y c].
  - rewrite Hq. cbn [length]. change (Z.of_nat 1) with 1. by rewrite Z.eqb_refl.
  - cbn [length] in *. assert (((mbox_head e + 1) `mod` 32 =? mbox_nextq e) = false) as -> by (apply Z.eqb_neq; rewrite Hq; Z.to_euclidean_division_equations; lia).
    split; [apply Z.mod_pos_bound; lia|]. split.
    + rewrite Hq, Zplus_mod_idemp_l. f_equal. lia.
    + intros i z Hz. rewrite Zplus_mod_idemp_l. replace (mbox_head e + 1 + Z.of_nat i) with (mbox_head e + Z.of_nat (S i)) by lia. by apply Hi.
Qed.

(** ** Running the operations *)

Lemma run_bind {A B} (m : Y A) (f : A → Y B) s a s' : m s = Ok a s' → (m ≫= f) s = f a s'.
Proof. intros H. unfold mbind, M_bind. by rewrite H. Qed.

Lemma get_sem_run s i e : sems s !! i = Some e → get_sem i s = Ok e s.
Proof. intros H. unfold get_sem, mbind, M_bind, gets. by rewrite H. Qed.
Lemma get_mbox_run s i e : mboxes s !! i = Some e → get_mbox i s = Ok e s.
Proof. intros H. unfold get_mbox, mbind, M_bind, gets. by rewrite H. Qed.
Lemma sassert_run s b msg : b = true → sassert b msg s = Ok tt s.
Proof. by intros ->. Qed.

(** The queue of the threads after a signal. *)
Definition woken (i : Z) (s : sys) (tq : list thread_context) : Prop := tq = thread_queue s ∨ tq = wake i <$> thread_queue s.

Lemma signal_run s i e : sems s !! i = Some e → sem_freed e = false → ∃ w tq, woken i s tq ∧
  sys_sem_signal i s = Ok tt (set_thread_queue tq (set_sems (<[i := Sem false (sem_gen e) (u16 (sem_counter e + 1)) w]> (sems s)) s)).
Proof.
  intros He Hf. unfold sys_sem_signal. rewrite (run_bind _ _ _ _ _ (get_sem_run _ _ _ He)). rewrite Hf. cbv zeta.
  rewrite (run_bind _ _ _ _ _ (sassert_run _ (negb false) _ eq_refl)). destruct (ctrue (sem_waiters e)).
  - exists 0, (wake i <$> thread_queue s). split; [by right|reflexivity].
  - exists (sem_waiters e), (thread_queue s). split; [by left|]. by destruct s.
Qed.

Lemma wake_ok s Q i tq : woken i s tq → Forall (thread_ok s Q) (thread_queue s) → Forall (thread_ok s Q) tq.
Proof.
  intros [-> | ->]; [done|]. intros H. apply Forall_fmap. eapply Forall_impl; [exact H|]. intros tc Ht. cbn. unfold wake. case_decide; exact Ht.
Qed.

Lemma trypost_run s mb msg e c qe : mboxes s !! mb = Some e → ring e c → Z.of_nat (length c) < 32 → sems s !! mbox_queued_msg e = Some qe → sem_freed qe = false →
  ∃ e' w tq, ring e' (c ++ [msg]) ∧ mbox_freed e' = mbox_freed e ∧ mbox_queued_msg e' = mbox_queued_msg e ∧ mbox_free_msg e' = mbox_free_msg e ∧ woken (mbox_queued_msg e) s tq ∧
  trypost_rest mb msg s = Ok ERR_OK (set_thread_queue tq (set_sems (<[mbox_queued_msg e := Sem false (sem_gen qe) (u16 (sem_counter qe + 1)) w]> (sems s))
    (set_mboxes (<[mb := e']> (mboxes s)) s))).
Proof.
  intros He Hr Hl Hq Hf. unfold trypost_rest. rewrite (run_bind _ _ _ _ _ (get_mbox_run _ _ _ He)). rewrite (ring_room e c Hr Hl). cbv zeta.
  pose proof (ring_post e c msg (mbox_freed e) (mbox_queued_msg e) (mbox_free_msg e) Hr Hl) as Hr'. change 32 with MBOXSLOTS in Hr'.
  set (e' := Mbox _ _ _ _ _ _) in *. destruct (signal_run (set_mboxes (<[mb := e']> (mboxes s)) s) (mbox_queued_msg e) qe Hq Hf) as (w & tq & Hw & Es).
  exists e', w, tq. repeat (split; [done|]). unfold put_mbox, modify, mbind, M_bind. by rewrite Es.
Qed.

Lemma fetch_run s mb waited e x c fe : mboxes s !! mb = Some e → ring e (x :: c) → Z.of_nat (length (x :: c)) ≤ 32 → waited ≠ SYS_ARCH_TIMEOUT →
  sems s !! mbox_free_msg e = Some fe → sem_freed fe = false →
  ∃ e' w tq, ring e' c ∧ mbox_freed e' = mbox_freed e ∧ mbox_queued_msg e' = mbox_queued_msg e ∧ mbox_free_msg e' = mbox_free_msg e ∧ woken (mbox_free_msg e) s tq ∧
  fetch_rest mb waited s = Ok (Some x) (set_thread_queue tq (set_sems (<[mbox_free_msg e := Sem false (sem_gen fe) (u16 (sem_counter fe + 1)) w]> (sems s))
    (set_mboxes (<[mb := e']> (mboxes s)) s))).
Proof.
  intros He Hr Hl Ht Hq Hf. unfold fetch_rest. rewrite (run_bind _ _ _ _ _ (get_mbox_run _ _ _ He)). rewrite (proj2 (Z.eqb_neq _ _) Ht).
  destruct (ring_front e x c Hr) as [Hh Hx]. cbv zeta. rewrite Hh, Hx. cbn [default].
  pose proof (ring_fetch e x c (mbox_freed e) (mbox_queued_msg e) (mbox_free_msg e) Hr Hl) as Hr'. change 32 with MBOXSLOTS in Hr'.
  set (e' := Mbox _ _ _ _ _ _) in *. destruct (signal_run (set_mboxes (<[mb := e']> (mboxes s)) s) (mbox_free_msg e) fe Hq Hf) as (w & tq & Hw & Es).
  exists e', w, tq. repeat (split; [done|]). unfold put_mbox, modify, mbind, M_bind. by rewrite Es.
Qed.

Lemma fetch_timeout s mb e : mboxes s !! mb = Some e → fetch_rest mb SYS_ARCH_TIMEOUT s = Ok None s.
Proof. intros He. unfold fetch_rest. by rewrite (run_bind _ _ _ _ _ (get_mbox_run _ _ _ He)). Qed.

(** ** The steps *)

Lemma box_update s s' Q mb c c' e e' : sinv s Q → Q !! mb = Some c → mboxes s !! mb = Some e → mboxes s' = <[mb := e']> (mboxes s) →
  mbox_freed e' = false → mbox_queued_msg e' = mbox_queued_msg e → mbox_free_msg e' = mbox_free_msg e → ring e' c' → Z.of_nat (length c') ≤ 32 →
  (∀ i x, sems s !! i = Some x → ∃ x', sems s' !! i = Some x' ∧ sem_gen x' = sem_gen x ∧ sem_freed x' = sem_freed x) →
  (∀ i, i ≠ mbox_queued_msg e → i ≠ mbox_free_msg e → sems s' !! i = sems s !! i) →
  counts s' (mbox_queued_msg e) (Z.of_nat (length c')) → counts s' (mbox_free_msg e) (32 - Z.of_nat (length c')) → now s' = now s →
  Forall (thread_ok s Q) (thread_queue s') → (∀ tc, cur_tc s' = Some tc → thread_ok s Q tc) → sinv s' (<[mb := c']> Q).
Proof.
  intros HI HQ He Hm Hfr Hq Hf Hr Hl Hs Hother Hcq Hcf Hn Hqueue Hcur. pose proof (si_now _ _ HI).
  assert (Hst : steady s s').
  { split; [exact Hs| | |lia].
    - intros k x Hx. destruct (decide (k = mb)) as [->|Hk]; rewrite Hm; [rewrite lookup_insert_eq; exists e'; split; [done|]; rewrite He in Hx; injection Hx as <-; done|].
      rewrite lookup_insert_ne by done. eauto.
    - rewrite Hm, dom_insert_L. apply elem_of_dom_2 in He. set_solver. }
  apply (sinv_move s s' Q); [exact HI|exact Hst| | |lia|exact Hqueue|intros tc E; left; by apply Hcur].
  - rewrite dom_insert_L. apply elem_of_dom_2 in HQ. set_solver.
  - intros k ck Hk. destruct (decide (k = mb)) as [->|Hne].
    + rewrite lookup_insert_eq in Hk. injection Hk as <-. destruct (si_box _ _ HI mb c HQ) as (e0 & He0 & _ & _ & Hqf & _). rewrite He in He0. injection He0 as <-.
      exists e'. rewrite Hm, lookup_insert_eq, Hq, Hf. by repeat (split; [done|]).
    + rewrite lookup_insert_ne in Hk by done. apply (box_frame s); [by apply (si_box _ _ HI)|by rewrite Hm, lookup_insert_ne|].
      intros i n Hi (x & Hx & Hx1). exists x. split; [|exact Hx1]. rewrite <- Hx. apply Hother; intros ->; apply Hne, (si_apart _ _ HI k mb _ ltac:(eauto) ltac:(eauto) Hi);
        exists e; eauto.
Qed.

(** The first call of the thread is over. *)
Lemma thread_ok_tail s Q tc wa wk : thread_ok s Q tc → thread_ok s Q (Thread (tc_tid tc) wa wk PCall (tail (tc_calls tc))).
Proof. intros [H _]. split; [|done]. cbn. by destruct H. Qed.

Lemma replay_post Q tid mb msg c : Q !! mb = Some c → Z.of_nat (length c) < 32 → replay1 (EPost tid mb msg ERR_OK) Q = Some (<[mb := c ++ [msg]]> Q).
Proof. intros HQ Hl. cbn. rewrite HQ. cbn. assert ((Z.of_nat (length c) <? MBOXSLOTS) = true) as -> by (unfold MBOXSLOTS; lia). done. Qed.
Lemma replay_fetch Q tid mb x c r : Q !! mb = Some (x :: c) → r ≠ SYS_ARCH_TIMEOUT → replay1 (EFetch tid mb (Some x) r) Q = Some (<[mb := c]> Q).
Proof. intros HQ Hr. cbn. rewrite HQ. cbn. by rewrite Z.eqb_refl, (proj2 (Z.eqb_neq _ _) Hr). Qed.

(** A step of a thread: the machine does not stop, and the event it adds, if
    any, is one the queues allow. *)
Definition step_ok (s : sys) (Q : queues) (o : outcome sys sstop unit) : Prop :=
  ∃ s' Q', o = Ok tt s' ∧ sinv s' Q' ∧ ((log s' = log s ∧ Q' = Q) ∨ ∃ e, log s' = e :: log s ∧ replay1 e Q = Some Q').

Section Thread.
Variables (s : sys) (Q : queues) (tc : thread_context).
Hypotheses (HI : sinv s Q) (Hcur : cur_tc s = Some tc).

Let Htc : thread_ok s Q tc := si_cur _ _ HI tc Hcur.

(** The semaphores a step on a mailbox changes: [i] is taken, [j] signalled. *)
Lemma two_sems i j ei ej w : sems s !! i = Some ei → sems s !! j = Some ej → i ≠ j → sem_freed ei = false → sem_freed ej = false →
  let t := <[j := Sem false (sem_gen ej) (u16 (sem_counter ej + 1)) w]> (<[i := Sem (sem_freed ei) (sem_gen ei) (sem_counter ei - 1) (sem_waiters ei)]> (sems s)) in
  (∀ k x, sems s !! k = Some x → ∃ x', t !! k = Some x' ∧ sem_gen x' = sem_gen x ∧ sem_freed x' = sem_freed x) ∧
  (∀ k, k ≠ i → k ≠ j → t !! k = sems s !! k).
Proof.
  intros Hi Hj Hij Fi Fj. cbv zeta. split.
  - intros k x Hx. destruct (decide (k = j)) as [->|]; [rewrite lookup_insert_eq; rewrite Hj in Hx; injection Hx as <-; eexists; split; [done|]; cbn; by rewrite Fj|].
    rewrite lookup_insert_ne by done. destruct (decide (k = i)) as [->|]; [rewrite lookup_insert_eq; rewrite Hi in Hx; injection Hx as <-; eexists; done|].
    rewrite lookup_insert_ne by done. eauto.
  - intros k Hki Hkj. by rewrite !lookup_insert_ne.
Qed.

(** The semaphore [i] with one taken. *)
Definition sem_taken (i : Z) (e : sys_sem_entry) : sys :=
  set_sems (<[i := Sem (sem_freed e) (sem_gen e) (sem_counter e - 1) (sem_waiters e)]> (sems s)) s.

Lemma post_return waited mb msg cs e fe : tc_calls tc = CPost mb msg :: cs ∨ tc_calls tc = CTrypost mb msg :: cs → is_Some (Q !! mb) →
  mboxes s !! mb = Some e → sems s !! mbox_free_msg e = Some fe → sem_counter fe > 0 → step_ok s Q (sem_wait_return tc waited (sem_taken (mbox_free_msg e) fe)).
Proof.
  intros Hcs [c HQ] He Hfe Hpos. destruct (si_box _ _ HI mb c HQ) as (e0 & He0 & Hlive & Hr & Hqf & Hl & (qe & Hqe & Hqfr & Hqc) & (fe0 & Hfe0 & Hffr & Hfc)).
  rewrite He in He0. injection He0 as <-. rewrite Hfe in Hfe0. injection Hfe0 as <-.
  assert (Hqe' : sems (sem_taken (mbox_free_msg e) fe) !! mbox_queued_msg e = Some qe) by (cbn; by rewrite lookup_insert_ne).
  destruct (trypost_run (sem_taken (mbox_free_msg e) fe) mb msg e c qe He Hr ltac:(lia) Hqe' Hqfr) as (e' & w & tq & Hr' & Hl' & Hq' & Hf' & Hw & Erun).
  destruct (two_sems (mbox_free_msg e) (mbox_queued_msg e) fe qe w Hfe Hqe ltac:(done) Hffr Hqfr) as [Hs1 Hs2].
  match type of Erun with _ = Ok _ ?x => set (s1 := x) in * end.
  set (s' := set_cur_tc (Some (Thread (tc_tid tc) (tc_wait_addr tc) (tc_wakeup tc) PCall (tail (tc_calls tc)))) (set_log (EPost (tc_tid tc) mb msg ERR_OK :: log s1) s1)).
  exists s', (<[mb := c ++ [msg]]> Q). split; [|split].
  - unfold sem_wait_return. destruct Hcs as [Hcs|Hcs]; rewrite Hcs, (run_bind _ _ _ _ _ Erun); reflexivity.
  - assert (Hlen : Z.of_nat (length (c ++ [msg])) = Z.of_nat (length c) + 1) by (rewrite length_app; cbn; lia).
    apply (box_update s s' Q mb c (c ++ [msg]) e e'); try done; try congruence; [lia| |rewrite Hlen|rewrite Hlen| |].
    + intros i Hi1 Hi2. by apply Hs2.
    + eexists. cbn. rewrite lookup_insert_eq. split; [done|]. cbn. rewrite u16_small by lia. lia.
    + eexists. cbn. rewrite lookup_insert_ne, lookup_insert_eq by done. split; [done|]. cbn. split; [done|]. lia.
    + apply (wake_ok s Q (mbox_queued_msg e)); [exact Hw|apply (si_threads _ _ HI)].
    + intros tc' [= <-]. by apply thread_ok_tail.
  - right. eexists. split; [done|]. apply replay_post; [done|lia].
Qed.

Lemma fetch_return waited mb tm cs e qe : tc_calls tc = CFetch mb tm :: cs → is_Some (Q !! mb) → waited ≠ SYS_ARCH_TIMEOUT →
  mboxes s !! mb = Some e → sems s !! mbox_queued_msg e = Some qe → sem_counter qe > 0 → step_ok s Q (sem_wait_return tc waited (sem_taken (mbox_queued_msg e) qe)).
Proof.
  intros Hcs [c HQ] Ht He Hqe Hpos. destruct (si_box _ _ HI mb c HQ) as (e0 & He0 & Hlive & Hr & Hqf & Hl & (qe0 & Hqe0 & Hqfr & Hqc) & (fe & Hfe & Hffr & Hfc)).
  rewrite He in He0. injection He0 as <-. rewrite Hqe in Hqe0. injection Hqe0 as <-. destruct c as [|x c]; [cbn in Hqc; lia|].
  assert (Hfe' : sems (sem_taken (mbox_queued_msg e) qe) !! mbox_free_msg e = Some fe) by (cbn; by rewrite lookup_insert_ne).
  destruct (fetch_run (sem_taken (mbox_queued_msg e) qe) mb waited e x c fe He Hr Hl Ht Hfe' Hffr) as (e' & w & tq & Hr' & Hl' & Hq' & Hf' & Hw & Erun).
  destruct (two_sems (mbox_queued_msg e) (mbox_free_msg e) qe fe w Hqe Hfe ltac:(done) Hqfr Hffr) as [Hs1 Hs2].
  match type of Erun with _ = Ok _ ?x => set (s1 := x) in * end.
  set (s' := set_cur_tc (Some (Thread (tc_tid tc) (tc_wait_addr tc) (tc_wakeup tc) PCall (tail (tc_calls tc)))) (set_log (EFetch (tc_tid tc) mb (Some x) waited :: log s1) s1)).
  exists s', (<[mb := c]> Q). cbn [length] in *. split; [|split].
  - unfold sem_wait_return. rewrite Hcs, (run_bind _ _ _ _ _ Erun). reflexivity.
  - apply (box_update s s' Q mb (x :: c) c e e'); try done; try congruence; [lia| | | |].
    + eexists. cbn. rewrite lookup_insert_ne, lookup_insert_eq by done. split; [done|]. cbn. split; [done|]. lia.
    + eexists. cbn. rewrite lookup_insert_eq. split; [done|]. cbn. rewrite u16_small by lia. lia.
    + apply (wake_ok s Q (mbox_free_msg e)); [exact Hw|apply (si_threads _ _ HI)].
    + intros tc' [= <-]. by apply thread_ok_tail.
  - right. eexists. split; [done|]. by apply replay_fetch.
Qed.

(** Steps that leave the mailboxes and the counters alone. *)
Lemma quiet_step s' : mboxes s' = mboxes s → (∀ i x, sems s !! i = Some x → ∃ x', sems s' !! i = Some x' ∧ sem_gen x' = sem_gen x ∧ sem_freed x' = sem_freed x) →
  (∀ i n, ((∃ mb, is_Some (Q !! mb) ∧ sem_of s mb i) → counts s i n → counts s' i n)) → now s' = now s →
  Forall (thread_ok s Q) (thread_queue s') → (∀ tc, cur_tc s' = Some tc → thread_ok s Q tc ∨ thread_ok s' Q tc) → sinv s' Q.
Proof.
  intros Hm Hs Hcnt Hn Hq Hc. pose proof (si_now _ _ HI). apply (sinv_move s s' Q); try done; [|intros mb c HQ|lia].
  - split; [exact Hs| |by rewrite Hm|lia]. intros mb e He. rewrite Hm. eauto.
  - apply (box_frame s); [by apply (si_box _ _ HI)|by rewrite Hm|]. intros i n Hi. apply Hcnt. eauto.
Qed.

(** Only the threads change. *)
Lemma threads_step s' : mboxes s' = mboxes s → sems s' = sems s → now s' = now s → Forall (thread_ok s Q) (thread_queue s') →
  (∀ tc, cur_tc s' = Some tc → thread_ok s Q tc ∨ thread_ok s' Q tc) → sinv s' Q.
Proof.
  intros Hm Hs Hn Hq Hc. apply quiet_step; try done; rewrite ?Hs; [eauto|]. intros i n _ (x & Hx & H). exists x. by rewrite Hs.
Qed.

Lemma cur_step s' tc' ev : s' = set_cur_tc (Some tc') (set_log (ev ++ log s) s) → thread_ok s Q tc' → sinv s' Q.
Proof. intros -> Ht. apply threads_step; try done; [apply (si_threads _ _ HI)|]. intros tc2 [= <-]. by left. Qed.

Lemma yield_step tc' : thread_ok s Q tc' → step_ok s Q (thread_yield tc' s).
Proof.
  intros Ht. pose proof (si_threads _ _ HI) as Hq. unfold thread_yield, gets, mbind, M_bind, modify. destruct (thread_queue s) as [|next q] eqn:E.
  - eexists _, Q. split; [reflexivity|]. split; [|by left]. apply threads_step; try done; cbn; [rewrite E; constructor|]. intros tc2 [= <-]. by left.
  - apply Forall_cons in Hq as [Hnext Hq]. eexists _, Q. split; [reflexivity|]. split; [|by left]. apply threads_step; try done; cbn.
    + apply Forall_app. split; [done|]. by constructor.
    + intros tc2 [= <-]. by left.
Qed.

Lemma halt_step : step_ok s Q (thread_halt s).
Proof.
  pose proof (si_threads _ _ HI) as Hq. unfold thread_halt, gets, mbind, M_bind, modify. destruct (thread_queue s) as [|next q] eqn:E.
  - eexists _, Q. split; [reflexivity|]. split; [|by left]. apply threads_step; try done. cbn. rewrite E. constructor.
  - apply Forall_cons in Hq as [Hnext Hq]. eexists _, Q. split; [reflexivity|]. split; [|by left]. apply threads_step; try done. cbn.
    intros tc2 [= <-]. by left.
Qed.

(** Another value of a semaphore that no mailbox has. *)
Lemma own_sem_step i e e' tq tc' ev : own_sem s Q i → sems s !! i = Some e → sem_gen e' = sem_gen e → sem_freed e' = sem_freed e → woken i s tq → thread_ok s Q tc' →
  sinv (set_cur_tc (Some tc') (set_log (ev ++ log s) (set_thread_queue tq (set_sems (<[i := e']> (sems s)) s)))) Q.
Proof.
  intros [_ Hno] He Hg Hf Hw Ht. apply quiet_step; try done; cbn.
  - intros k x Hx. destruct (decide (k = i)) as [->|]; [rewrite lookup_insert_eq; exists e'; rewrite He in Hx; injection Hx as <-; done|].
    rewrite lookup_insert_ne by done. eauto.
  - intros k n (mb & Hmb & Hso) (x & Hx & H). exists x. cbn. rewrite lookup_insert_ne; [done|]. intros ->. by apply (Hno mb Hmb).
  - apply (wake_ok s Q i); [exact Hw|apply (si_threads _ _ HI)].
  - intros tc2 [= <-]. by left.
Qed.

Lemma signal_step i cs : tc_calls tc = CSignal i :: cs → step_ok s Q ((sys_sem_signal i;; returned tc) s).
Proof.
  intros Hcs. pose proof Htc as [Hc _]. rewrite Hcs in Hc. apply Forall_cons in Hc as [Hown _]. cbn in Hown. pose proof Hown as ((n & e & He & Hf & _) & _).
  destruct (signal_run s i e He Hf) as (w & tq & Hw & Erun). rewrite (run_bind _ _ _ _ _ Erun). eexists _, Q. split; [reflexivity|]. split; [|by left].
  apply (own_sem_step i e _ tq _ []); try done. by apply thread_ok_tail.
Qed.

Lemma enter_step i tm : wait_ok s (tc_calls tc) (SemWait i tm (default 0 (sem_gen <$> sems s !! i)) 0) → (∃ n, counts s i n) → step_ok s Q (sem_wait_enter tc i tm s).
Proof.
  intros Hw (n & e & He & Hf & _). unfold sem_wait_enter. rewrite (run_bind _ _ _ _ _ (get_sem_run _ _ _ He)), Hf.
  rewrite (run_bind _ _ _ _ _ (sassert_run _ (negb false) _ eq_refl)). eexists _, Q. split; [reflexivity|]. split; [|by left].
  eapply (cur_step _ _ []); [reflexivity|]. rewrite He in Hw. cbn in Hw. destruct Htc as [Hc _]. split; [done|]. cbn. split; [done|]. pose proof (si_now _ _ HI). lia.
Qed.

Lemma call_step : tc_pc tc = PCall → step_ok s Q (enter_call tc s).
Proof.
  intros Hpc. pose proof Htc as [Hc _]. unfold enter_call. destruct (tc_calls tc) as [|[mb msg|mb msg|mb tm|i tm|i|] cs] eqn:Hcs.
  1: apply halt_step. all: apply Forall_cons in Hc as [Hok Hc]; cbn in Hok.
  1,2,3: destruct Hok as [c HQ]; destruct (si_box _ _ HI mb c HQ) as (e & He & Hlive & _ & _ & _ & Hq & Hf);
    rewrite (run_bind _ _ _ _ _ (get_mbox_run _ _ _ He)), Hlive, (run_bind _ _ _ _ _ (sassert_run _ (negb false) _ eq_refl)).
  1,2: apply enter_step; [|by eexists]; rewrite Hcs; destruct Hf as (x & Hx & _); split; [exists x; cbn; by rewrite Hx|]; cbn; split; [done|]; by exists e.
  - apply enter_step; [|by eexists]; rewrite Hcs; destruct Hq as (x & Hx & _); split; [exists x; cbn; by rewrite Hx|]; cbn; by exists e.
  - pose proof Hok as ((n & x & Hx & Hxf & _) & _). apply enter_step; [|exists (sem_counter x), x; done]. rewrite Hcs. split; [exists x; cbn; by rewrite Hx|done].
  - by apply (signal_step i cs).
  - apply yield_step. by split.
Qed.

(** The wait is over without the semaphore. *)
Lemma timeout_step w : wait_ok s (tc_calls tc) w → (w_tm_msec w = 0 → ∀ mb msg cs, tc_calls tc ≠ CPost mb msg :: cs ∧ tc_calls tc ≠ CTrypost mb msg :: cs) →
  step_ok s Q (sem_wait_return tc SYS_ARCH_TIMEOUT s).
Proof.
  intros [_ Hw] Hno. unfold sem_wait_return. pose proof (thread_ok_tail s Q tc (tc_wait_addr tc) (tc_wakeup tc) Htc) as Ht.
  destruct (tc_calls tc) as [|[mb msg|mb msg|mb tm|i tm|i|] cs] eqn:Hcs; try done.
  - destruct Hw as [H0 _]. by destruct (Hno H0 mb msg cs).
  - destruct Hw as [H0 _]. by destruct (Hno H0 mb msg cs).
  - destruct Hw as (e & He & _). rewrite (run_bind _ _ _ _ _ (fetch_timeout s mb e He)).
    eexists _, Q. split; [reflexivity|]. split; [|right; eexists; split; [reflexivity|done]]. rewrite Hcs. eapply (cur_step _ _ [_]); [reflexivity|exact Ht].
  - eexists _, Q. split; [reflexivity|]. split; [|right; eexists; split; [reflexivity|done]]. rewrite Hcs. eapply (cur_step _ _ [_]); [reflexivity|exact Ht].
Qed.

Lemma wait_taken w e : wait_ok s (tc_calls tc) w → 0 ≤ w_waited w ≤ now s → sems s !! w_sem w = Some e → sem_counter e > 0 →
  step_ok s Q (sem_wait_return tc (w_waited w) (sem_taken (w_sem w) e)).
Proof.
  intros [_ Hw] Hn He Hpos. pose proof (si_now _ _ HI). pose proof Htc as [Hc _]. pose proof (thread_ok_tail s Q tc (tc_wait_addr tc) (tc_wakeup tc) Htc) as Ht.
  destruct (tc_calls tc) as [|[mb msg|mb msg|mb tm|i tm|i|] cs] eqn:Hcs; try done; apply Forall_cons in Hc as [Hok _]; cbn in Hok.
  - destruct Hw as (_ & b & Hb & Hf). rewrite <- Hf in *. apply (post_return _ mb msg cs b e); auto.
  - destruct Hw as (_ & b & Hb & Hf). rewrite <- Hf in *. apply (post_return _ mb msg cs b e); auto.
  - destruct Hw as (b & Hb & Hf). rewrite <- Hf in *. apply (fetch_return _ mb tm cs b e); auto. unfold SYS_ARCH_TIMEOUT. lia.
  - rewrite Hw in *. unfold sem_wait_return. rewrite Hcs. eexists _, Q. split; [reflexivity|]. split; [|right; eexists; split; [reflexivity|done]].
    rewrite Hcs. apply (own_sem_step i e _ (thread_queue s) _ [_]); try done. by left.
Qed.

Lemma wait_round_step w : tc_pc tc = PSem w → step_ok s Q (sem_wait_round tc w s).
Proof.
  intros Hpc. pose proof Htc as [Hc Hp]. rewrite Hpc in Hp. destruct Hp as [Hw Hn]. pose proof Hw as ((e & He & Hg) & Hhead). unfold sem_wait_round.
  destruct ((w_tm_msec w =? 0) || (w_waited w <? w_tm_msec w)) eqn:E.
  2: { apply (timeout_step w Hw). intros H0. rewrite H0 in E. done. }
  rewrite (run_bind _ _ _ _ _ (get_sem_run _ _ _ He)). destruct (sem_counter e >? 0) eqn:Epos.
  { unfold put_sem. rewrite (run_bind _ _ _ tt (sem_taken (w_sem w) e)) by reflexivity. apply wait_taken; [done|done|done|lia]. }
  destruct (w_tm_msec w =? SYS_ARCH_NOWAIT) eqn:Ew.
  { apply (timeout_step w Hw). intros H0. by rewrite H0 in Ew. }
  unfold gets at 1. unfold mbind at 1, M_bind at 1. cbv zeta. eexists _, Q. split; [reflexivity|]. split; [|by left].
  apply quiet_step; try done; cbn.
  - intros k x Hx. destruct (decide (k = w_sem w)) as [->|]; [rewrite lookup_insert_eq; rewrite He in Hx; injection Hx as <-; by eexists|].
    rewrite lookup_insert_ne by done. eauto.
  - intros k n _ (x & Hx & Hxf & Hxc). destruct (decide (k = w_sem w)) as [->|]; [|exists x; cbn; by rewrite lookup_insert_ne].
    rewrite He in Hx. injection Hx as <-. eexists. cbn. rewrite lookup_insert_eq. by split.
  - apply (si_threads _ _ HI).
  - intros tc2 [= <-]. left. split; [exact Hc|]. cbn. split; [exact Hw|]. lia.
Qed.

Lemma wait_enter_step w a val msec : tc_pc tc = PEnter w a val msec → step_ok s Q (thread_wait_enter tc w a val msec s).
Proof.
  intros Hpc. pose proof Htc as [Hc Hp]. rewrite Hpc in Hp. eexists _, Q. split; [reflexivity|]. split; [|by left].
  eapply (cur_step _ _ []); [reflexivity|]. by split.
Qed.

Lemma thread_round_step w a val msec s0 p : tc_pc tc = PThread w a val msec s0 p → step_ok s Q (thread_wait_round tc w a val msec s0 p s).
Proof.
  intros Hpc. pose proof Htc as [Hc Hp]. rewrite Hpc in Hp. pose proof Hp as [((e & He & Hg) & _) _]. unfold thread_wait_round.
  unfold gets at 1. unfold mbind at 1, M_bind at 1. cbv zeta. rewrite (run_bind _ _ _ _ _ (get_sem_run _ _ _ He)). destruct (_ && _).
  - apply yield_step. by split.
  - eexists _, Q. split; [reflexivity|]. split; [|by left]. eapply (cur_step _ _ []); [reflexivity|]. by split.
Qed.

Lemma back_step w a : tc_pc tc = PBack w a → step_ok s Q (sem_wait_back tc w a s).
Proof.
  intros Hpc. pose proof Htc as [Hc Hp]. rewrite Hpc in Hp. destruct Hp as [Hw Hn]. pose proof Hw as ((e & He & Hg) & _). unfold sem_wait_back.
  rewrite (run_bind _ _ _ _ _ (get_sem_run _ _ _ He)), Hg, Z.eqb_refl. cbn [negb]. eexists _, Q. split; [reflexivity|]. split; [|by left].
  eapply (cur_step _ _ []); [reflexivity|]. split; [exact Hc|]. cbn. split; [exact Hw|]. pose proof (si_now _ _ HI).
  rewrite (u32_small (now s - a)), u32_small by lia. lia.
Qed.
End Thread.

Lemma thread_step_ok s Q : sinv s Q → step_ok s Q (thread_step s).
Proof.
  intros HI. unfold thread_step. unfold gets at 1. unfold mbind at 1, M_bind at 1. destruct (cur_tc s) as [tc|] eqn:Hcur.
  - destruct (tc_pc tc) as [|w|w a val msec|w a val msec s0 p|w a] eqn:Hpc.
    + by apply (call_step s Q tc).
    + by apply (wait_round_step s Q tc).
    + by apply (wait_enter_step s Q tc).
    + by apply (thread_round_step s Q tc).
    + by apply (back_step s Q tc).
  - exists s, Q. split; [reflexivity|]. split; [exact HI|by left].
Qed.

Lemma time_step_ok s Q t : sinv s Q → now s ≤ t ≤ 4294967290 → sinv (set_now t s) Q.
Proof.
  intros HI Ht. apply (sinv_move s _ Q); try done; cbn; [split; eauto; cbn; lia| |lia|apply (si_threads _ _ HI)|].
  - intros mb c HQ. apply (box_frame s); [by apply (si_box _ _ HI)|done|]. by intros i n _ H.
  - intros tc E. left. by apply (si_cur _ _ HI).
Qed.

(** The runs of the machine. *)
Inductive runs (s : sys) : outcome sys sstop unit → Prop :=
| runs_nil : runs s (Ok tt s)
| runs_step s1 o : runs s (Ok tt s1) → sys_step s1 o → runs s o.

Lemma replay_app l1 l2 Q : replay (l1 ++ l2) Q = replay l2 Q ≫= replay l1.
Proof. induction l1 as [|e l1 IH]; cbn; [by destruct (replay l2 Q)|]. rewrite IH. by destruct (replay l2 Q). Qed.

Lemma runs_ok s Q o : sinv s Q → runs s o → ∃ s' Q' l, o = Ok tt s' ∧ sinv s' Q' ∧ log s' = l ++ log s ∧ replay l Q = Some Q'.
Proof.
  intros HI Hr. induction Hr as [|s1 o Hr IH Hstep].
  - exists s, Q, []. done.
  - destruct IH as (s1' & Q1 & l & [= <-] & HI1 & Hl & Hre). destruct Hstep as [|t Ht].
    + destruct (thread_step_ok s1 Q1 HI1) as (s2 & Q2 & -> & HI2 & [[Hlog ->]|(e & Hlog & He)]).
      * exists s2, Q1, l. split; [done|]. split; [done|]. by rewrite Hlog.
      * exists s2, Q2, (e :: l). split; [done|]. split; [done|]. split; [by rewrite Hlog, Hl|]. cbn. by rewrite Hre.
    + exists (set_now t s1), Q1, l. split; [done|]. split; [by apply time_step_ok|]. done.
Qed.

(** ** New mailboxes *)

(** The entries of the free lists are free. *)
Record tables (s : sys) : Prop := {
  tb_sems : NoDup (sem_free s) ∧ ∀ i, i ∈ sem_free s → i ≠ SYS_SEM_NULL ∧ ∃ e, sems s !! i = Some e ∧ sem_freed e = true;
  tb_boxes : NoDup (mbox_free s) ∧ ∀ i, i ∈ mbox_free s → ∃ e, mboxes s !! i = Some e ∧ mbox_freed e = true
}.

Lemma sem_new_run s i l e n : sem_free s = i :: l → sems s !! i = Some e → sem_freed e = true →
  sys_sem_new n s = Ok i (set_sems (<[i := Sem false (s32 (sem_gen e + 1)) n (sem_waiters e)]> (sems s)) (set_sem_free l s)).
Proof.
  intros Hl He Hf. unfold sys_sem_new. unfold gets at 1. unfold mbind at 1, M_bind at 1. rewrite Hl.
  unfold modify at 1. unfold mbind at 1, M_bind at 1. rewrite (run_bind _ _ (set_sem_free l s) e (set_sem_free l s)) by (by apply get_sem_run). by rewrite Hf.
Qed.

Lemma mbox_new_run s size mb bl e i j sl : tables s → size < MBOXSLOTS → mbox_free s = mb :: bl → mboxes s !! mb = Some e → sem_free s = i :: j :: sl →
  ∃ ei ej, sem_freed ei = false ∧ sem_freed ej = false ∧ sem_counter ei = 0 ∧ sem_counter ej = 32 ∧ i ≠ j ∧ i ≠ -1 ∧ j ≠ -1 ∧
  sys_mbox_new size s = Ok mb (set_mboxes (<[mb := Mbox false (-1) 0 (mbox_msg e) i j]> (mboxes s))
    (set_sems (<[j := ej]> (<[i := ei]> (sems s))) (set_sem_free sl (set_mbox_free bl s)))).
Proof.
  intros [[Hnd Hs] [_ Hb]] Hsize Hbl He Hsl. rewrite Hsl in Hnd, Hs. rewrite Hbl in Hb.
  destruct (Hb mb ltac:(left)) as (e0 & He0 & Hfr). rewrite He in He0. injection He0 as <-.
  destruct (Hs i ltac:(left)) as (Hi1 & ei & Hei & Hif). destruct (Hs j ltac:(right; left)) as (Hj1 & ej & Hej & Hjf).
  assert (Hij : i ≠ j) by (apply NoDup_cons in Hnd as [Hnin _]; intros ->; apply Hnin; left).
  exists (Sem false (s32 (sem_gen ei + 1)) 0 (sem_waiters ei)), (Sem false (s32 (sem_gen ej + 1)) MBOXSLOTS (sem_waiters ej)).
  do 7 (split; [by (reflexivity || assumption)|]). unfold sys_mbox_new. rewrite (run_bind _ _ _ _ _ (sassert_run _ _ _ (proj2 (Z.ltb_lt _ _) Hsize))).
  unfold gets at 1. unfold mbind at 1, M_bind at 1. rewrite Hbl. unfold modify at 1. unfold mbind at 1, M_bind at 1.
  rewrite (run_bind _ _ (set_mbox_free bl s) e (set_mbox_free bl s)) by (by apply get_mbox_run). rewrite Hfr.
  rewrite (run_bind _ _ _ _ _ (sassert_run _ true _ eq_refl)).
  rewrite (run_bind _ _ _ _ _ (sem_new_run (set_mbox_free bl s) i (j :: sl) ei 0 Hsl Hei Hif)).
  match goal with |- (sys_sem_new _ ≫= _) ?s1 = _ => rewrite (run_bind _ _ _ _ _ (sem_new_run s1 j sl ej MBOXSLOTS eq_refl ltac:(cbn; by rewrite lookup_insert_ne) Hjf)) end.
  unfold put_mbox, modify at 1. unfold mbind at 1, M_bind at 1. rewrite (proj2 (Z.eqb_neq i SYS_SEM_NULL) Hi1), (proj2 (Z.eqb_neq j SYS_SEM_NULL) Hj1). reflexivity.
Qed.

(** The new mailbox is an empty queue beside the others; this is before the
    threads run. *)
Lemma mbox_new_ok s Q size : sinv s Q → tables s → thread_queue s = [] → cur_tc s = None → size < 32 → mbox_free s ≠ [] → (2 ≤ length (sem_free s))%nat →
  ∃ mb s', sys_mbox_new size s = Ok mb s' ∧ Q !! mb = None ∧ sinv s' (<[mb := []]> Q) ∧ tables s' ∧ thread_queue s' = [] ∧ cur_tc s' = None ∧
    length (mbox_free s) = S (length (mbox_free s')) ∧ length (sem_free s) = S (S (length (sem_free s'))) ∧ log s' = log s.
Proof.
  intros HI HT Htq Htc Hsize Hbl Hsl. destruct (mbox_free s) as [|mb bl] eqn:Eb; [done|]. destruct (sem_free s) as [|i [|j sl]] eqn:Es; [cbn in Hsl; lia..|].
  destruct (tb_boxes _ HT) as [Hbnd Hb]. rewrite Eb in Hb, Hbnd. destruct (Hb mb ltac:(left)) as (e & He & Hfr). destruct (tb_sems _ HT) as [Hsnd Hsf]. rewrite Es in Hsf, Hsnd.
  destruct (mbox_new_run s size mb bl e i j sl HT Hsize Eb He Es) as (ei & ej & Fi & Fj & Ci & Cj & Hij & Hi1 & Hj1 & Erun).
  match type of Erun with _ = Ok _ ?x => set (s' := x) in * end.
  assert (HQ : Q !! mb = None).
  { destruct (Q !! mb) as [c|] eqn:E; [|done]. destruct (si_box _ _ HI mb c E) as (e0 & He0 & Hl & _). congruence. }
  assert (Hlive : ∀ k n, counts s k n → k ≠ i ∧ k ≠ j).
  { intros k n (x & Hx & Hxf & _). split; intros ->; [destruct (Hsf i ltac:(left)) as (_ & y & Hy & Hyf)|destruct (Hsf j ltac:(right; left)) as (_ & y & Hy & Hyf)]; congruence. }
  assert (Hold : ∀ k c, Q !! k = Some c → box s' k c).
  { intros k c Hk. pose proof (si_box _ _ HI k c Hk) as Hbox. apply (box_frame s); [exact Hbox|cbn; rewrite lookup_insert_ne; [done|congruence]|].
    intros x n _ Hc. destruct (Hlive x n Hc). destruct Hc as (y & Hy & Hyf). exists y. cbn. by rewrite !lookup_insert_ne. }
  assert (Hso : ∀ k x, is_Some (Q !! k) → sem_of s' k x → sem_of s k x ∧ x ≠ i ∧ x ≠ j).
  { intros k x [c Hk] (b & Hb2 & Hx). cbn in Hb2. rewrite lookup_insert_ne in Hb2 by congruence. split; [by exists b|].
    destruct (si_box _ _ HI k c Hk) as (b0 & Hb0 & _ & _ & _ & _ & Hq & Hf). rewrite Hb2 in Hb0. injection Hb0 as <-. destruct Hx as [-> | ->]; by eapply Hlive. }
  assert (Hnew : ∀ x, sem_of s' mb x → x = i ∨ x = j) by (intros x (b & Hb2 & Hx); cbn in Hb2; rewrite lookup_insert_eq in Hb2; injection Hb2 as <-; exact Hx).
  exists mb, s'. split; [exact Erun|]. split; [exact HQ|]. split; [constructor|split; [constructor|]].
  - intros k c Hk. destruct (decide (k = mb)) as [->|Hne]; [|rewrite lookup_insert_ne in Hk by done; by apply Hold].
    rewrite lookup_insert_eq in Hk. injection Hk as <-. eexists. cbn. rewrite lookup_insert_eq. split; [reflexivity|]. split; [done|]. split; [split; cbn; [lia|done]|].
    split; [done|]. split; [lia|]. split; [exists ei; cbn; rewrite lookup_insert_ne, lookup_insert_eq by done; done|]. exists ej. cbn. rewrite lookup_insert_eq. done.
  - intros k1 k2 x H1 H2 S1 S2. destruct (decide (k1 = mb)) as [->|N1], (decide (k2 = mb)) as [->|N2]; [done| | |].
    + rewrite lookup_insert_ne in H2 by done. destruct (Hso k2 x H2 S2) as (_ & ? & ?). destruct (Hnew x S1); congruence.
    + rewrite lookup_insert_ne in H1 by done. destruct (Hso k1 x H1 S1) as (_ & ? & ?). destruct (Hnew x S2); congruence.
    + rewrite lookup_insert_ne in H1, H2 by done. apply (si_apart _ _ HI k1 k2 x H1 H2); by apply Hso.
  - cbn. rewrite Htq. constructor.
  - cbn. by rewrite Htc.
  - apply (si_now _ _ HI).
  - cbn. apply NoDup_cons in Hsnd as [Hi Hsnd]. apply NoDup_cons in Hsnd as [Hj Hsnd]. split; [exact Hsnd|]. intros k Hk.
    destruct (Hsf k ltac:(by right; right)) as (Hk1 & y & Hy & Hyf). split; [exact Hk1|]. exists y. rewrite !lookup_insert_ne; [done|intros ->; apply Hi; by right|by intros ->].
  - cbn. apply NoDup_cons in Hbnd as [Hm Hbnd]. split; [exact Hbnd|]. intros k Hk. destruct (Hb k ltac:(by right)) as (y & Hy & Hyf). exists y. rewrite lookup_insert_ne; [done|by intros ->].
  - done.
Qed.

(** With fewer than two semaphores left, sys_mbox_new frees the semaphore
    SYS_SEM_NULL and reads in front of the table. *)
Lemma mbox_new_no_sem s size mb bl e : size < 32 → mbox_free s = mb :: bl → mboxes s !! mb = Some e → mbox_freed e = true →
  sem_free s = [] → sems s !! SYS_SEM_NULL = None → ∃ s', sys_mbox_new size s = Stop Fault s'.
Proof.
  intros Hsize Hbl He Hfr Hsl Hnull. eexists. unfold sys_mbox_new. rewrite (run_bind _ _ _ _ _ (sassert_run _ _ _ (proj2 (Z.ltb_lt _ MBOXSLOTS) Hsize))).
  unfold gets at 1. unfold mbind at 1, M_bind at 1. rewrite Hbl. unfold modify at 1. unfold mbind at 1, M_bind at 1.
  rewrite (run_bind _ _ (set_mbox_free bl s) e (set_mbox_free bl s)) by (by apply get_mbox_run). rewrite Hfr.
  rewrite (run_bind _ _ _ _ _ (sassert_run _ true _ eq_refl)).
  assert (Enew : ∀ n, sys_sem_new n (set_mbox_free bl s) = Ok SYS_SEM_NULL (set_mbox_free bl s)).
  { intros n. unfold sys_sem_new, gets, mbind, M_bind. cbn. by rewrite Hsl. }
  rewrite (run_bind _ _ _ _ _ (Enew 0)), (run_bind _ _ _ _ _ (Enew MBOXSLOTS)). cbn. unfold sys_mbox_free, get_mbox, put_mbox, modify, gets, mbind, M_bind. cbn.
  rewrite lookup_insert_eq. cbn. unfold sys_sem_free, get_sem, gets, mbind, M_bind. cbn. rewrite Hnull. reflexivity.
Qed.
