(* ===== verification/Heap.v ===== *)
(** * The heap of lwIP

    net/lwip/core/mem.c as it is built here (lwipopts.h: MEM_ALIGNMENT 4, no
    pools, no frees from other contexts): a list of blocks in one array, each
    headed by a struct mem with the offsets of its neighbours.  The headers
    are in the byte memory [hm] with the data; offsets and sizes are 32-bit.

    [mem_sem] is the number of the semaphore of sys_arch.c that protects the
    heap.  [HBlock] is a thread that goes to sleep on it; a failed LWIP_ASSERT
    panics.  The two loops of mem_malloc only read the heap; [HLoop] is one
    that does not end. *)

From S2P Require Import Prelude CMem Str SysArch.

Definition MEM_ALIGNMENT : Z := 4.
Definition MEM_SIZE : Z := 65536 * 32 + 4096 * 32.

(** LWIP_MEM_ALIGN_SIZE and LWIP_MEM_ALIGN, at 32 bits. *)
Definition LWIP_MEM_ALIGN_SIZE (size : Z) : Z := Z.land (u32 (size + MEM_ALIGNMENT - 1)) (u32 (Z.lnot (MEM_ALIGNMENT - 1))).
Definition LWIP_MEM_ALIGN (addr : Z) : Z := Z.land (u32 (addr + MEM_ALIGNMENT - 1)) (u32 (Z.lnot (MEM_ALIGNMENT - 1))).

(** struct mem: next at 0, prev at 4, used at 8, 12 bytes. *)
Definition MIN_SIZE_ALIGNED : Z := LWIP_MEM_ALIGN_SIZE 12.
Definition SIZEOF_STRUCT_MEM : Z := LWIP_MEM_ALIGN_SIZE 12.
Definition MEM_SIZE_ALIGNED : Z := LWIP_MEM_ALIGN_SIZE MEM_SIZE.

Definition m_next (m : mem) (p : Z) : Z := ld32 m p.
Definition m_prev (m : mem) (p : Z) : Z := ld32 m (p + 4).
Definition m_used (m : mem) (p : Z) : Z := ld m (p + 8).
Definition set_next (p v : Z) (m : mem) : mem := st32 m p v.
Definition set_prev (p v : Z) (m : mem) : mem := st32 m (p + 4) v.
Definition set_used (p v : Z) (m : mem) : mem := st m (p + 8) v.

Record heap := Heap {
  hm : mem;
  ram : Z;
  ram_end : Z;
  lfree : Z;
  mem_sem : Z;
  hsys : sys
}.

Definition set_hm v (h : heap) := Heap v (ram h) (ram_end h) (lfree h) (mem_sem h) (hsys h).
Definition set_lfree v (h : heap) := Heap (hm h) (ram h) (ram_end h) v (mem_sem h) (hsys h).
Definition set_hsys v (h : heap) := Heap (hm h) (ram h) (ram_end h) (lfree h) (mem_sem h) v.

Inductive hstop := HPanic (msg : string) | HBlock | HLoop | HSys (r : sstop).

Definition H (A : Type) : Type := M heap hstop A.

Definition on_mem (f : mem → mem) : H unit := modify (λ h, set_hm (f (hm h)) h).
Definition LWIP_ASSERT (msg : string) (b : bool) : H unit := if b then mret tt else stop (HPanic msg).
Definition lift {A} (m : Y A) : H A := λ h,
  match m (hsys h) with
  | Ok a s => Ok a (set_hsys s h)
  | Stop r s => Stop (HSys r) (set_hsys s h)
  end.
Definition ends {A} (r : option A) : H A := match r with Some a => mret a | None => stop HLoop end.

(** &ram[i] *)
Definition at_ram (h : heap) (i : Z) : Z := u32 (ram h + i).

(** sys_arch_sem_wait(mem_sem, 0) *)
Definition mem_sem_wait : H unit :=
  i ← gets mem_sem;
  e ← lift (get_sem i);
  lift (sassert (negb (sem_freed e)) "!sems[sem].freed");;
  if sem_counter e >? 0 then lift (put_sem i (Sem (sem_freed e) (sem_gen e) (sem_counter e - 1) (sem_waiters e)))
  else stop HBlock.
Definition mem_sem_signal : H unit := i ← gets mem_sem; lift (sys_sem_signal i).

(** The two halves of plug_holes. *)
Definition plug_forward (mem : Z) : H unit :=
  h ← gets id;
  let nmem := at_ram h (m_next (hm h) mem) in
  if negb (mem =? nmem) && (m_used (hm h) nmem =? 0) && negb (nmem =? ram_end h) then
    (if lfree h =? nmem then modify (set_lfree mem) else mret tt);;
    on_mem (set_next mem (m_next (hm h) nmem));;
    m ← gets hm;
    on_mem (set_prev (at_ram h (m_next m nmem)) (u32 (mem - ram h)))
  else mret tt.

Definition plug_backward (mem : Z) : H unit :=
  h ← gets id;
  let pmem := at_ram h (m_prev (hm h) mem) in
  if negb (pmem =? mem) && (m_used (hm h) pmem =? 0) then
    (if lfree h =? mem then modify (set_lfree pmem) else mret tt);;
    on_mem (set_next pmem (m_next (hm h) mem));;
    m ← gets hm;
    on_mem (set_prev (at_ram h (m_next m mem)) (u32 (pmem - ram h)))
  else mret tt.

Definition plug_holes (mem : Z) : H unit :=
  h ← gets id;
  LWIP_ASSERT "plug_holes: mem >= ram" (mem >=? ram h);;
  LWIP_ASSERT "plug_holes: mem < ram_end" (mem <? ram_end h);;
  LWIP_ASSERT "plug_holes: mem->used == 0" (m_used (hm h) mem =? 0);;
  LWIP_ASSERT "plug_holes: mem->next <= MEM_SIZE_ALIGNED" (m_next (hm h) mem <=? MEM_SIZE_ALIGNED);;
  plug_forward mem;;
  plug_backward mem.

(** [ram_heap] is the address of the array. *)
Definition mem_init (ram_heap : Z) : H unit :=
  LWIP_ASSERT "Sanity check alignment" (Z.land SIZEOF_STRUCT_MEM (MEM_ALIGNMENT - 1) =? 0);;
  let r := LWIP_MEM_ALIGN ram_heap in
  modify (λ h, Heap (hm h) r (ram_end h) (lfree h) (mem_sem h) (hsys h));;
  on_mem (set_next r MEM_SIZE_ALIGNED);;
  on_mem (set_prev r 0);;
  on_mem (set_used r 0);;
  let e := u32 (r + MEM_SIZE_ALIGNED) in
  modify (λ h, Heap (hm h) (ram h) e (lfree h) (mem_sem h) (hsys h));;
  on_mem (set_used e 1);;
  on_mem (set_next e MEM_SIZE_ALIGNED);;
  on_mem (set_prev e MEM_SIZE_ALIGNED);;
  i ← lift (sys_sem_new 1);
  modify (λ h, Heap (hm h) (ram h) (ram_end h) (lfree h) i (hsys h));;
  modify (set_lfree r).

Definition mem_free (rmem : Z) : H unit :=
  if rmem =? 0 then mret tt
  else
    h ← gets id;
    LWIP_ASSERT "mem_free: sanity check alignment" (Z.land rmem (MEM_ALIGNMENT - 1) =? 0);;
    LWIP_ASSERT "mem_free: legal memory" ((rmem >=? ram h) && (rmem <? ram_end h));;
    if (rmem <? ram h) || (rmem >=? ram_end h) then mret tt
    else
      mem_sem_wait;;
      let mem := u32 (rmem - SIZEOF_STRUCT_MEM) in
      LWIP_ASSERT "mem_free: mem->used" (ctrue (m_used (hm h) mem));;
      on_mem (set_used mem 0);;
      (if mem <? lfree h then modify (set_lfree mem) else mret tt);;
      plug_holes mem;;
      mem_sem_signal.

(** The two ways of shrinking a block: the unused block behind it moves down,
    or a new unused block is made behind it. *)
Definition realloc_move (mem ptr newsize : Z) : H unit :=
  h ← gets id;
  let mem2 := at_ram h (m_next (hm h) mem) in
  let next := m_next (hm h) mem2 in
  let ptr2 := u32 (ptr + SIZEOF_STRUCT_MEM + newsize) in
  (if lfree h =? mem2 then modify (set_lfree (at_ram h ptr2)) else mret tt);;
  let mem2 := at_ram h ptr2 in
  on_mem (set_used mem2 0);;
  on_mem (set_next mem2 next);;
  on_mem (set_prev mem2 ptr);;
  on_mem (set_next mem ptr2);;
  m ← gets hm;
  if negb (m_next m mem2 =? MEM_SIZE_ALIGNED) then on_mem (set_prev (at_ram h (m_next m mem2)) ptr2) else mret tt.

Definition realloc_split (mem ptr newsize : Z) : H unit :=
  h ← gets id;
  let ptr2 := u32 (ptr + SIZEOF_STRUCT_MEM + newsize) in
  let mem2 := at_ram h ptr2 in
  (if mem2 <? lfree h then modify (set_lfree mem2) else mret tt);;
  on_mem (set_used mem2 0);;
  on_mem (set_next mem2 (m_next (hm h) mem));;
  on_mem (set_prev mem2 ptr);;
  on_mem (set_next mem ptr2);;
  m ← gets hm;
  if negb (m_next m mem2 =? MEM_SIZE_ALIGNED) then on_mem (set_prev (at_ram h (m_next m mem2)) ptr2) else mret tt.

Definition mem_realloc (rmem newsize : Z) : H Z :=
  let newsize := LWIP_MEM_ALIGN_SIZE newsize in
  let newsize := if newsize <? MIN_SIZE_ALIGNED then MIN_SIZE_ALIGNED else newsize in
  if newsize >? MEM_SIZE_ALIGNED then mret 0
  else
    h ← gets id;
    LWIP_ASSERT "mem_realloc: legal memory" ((rmem >=? ram h) && (rmem <? ram_end h));;
    if (rmem <? ram h) || (rmem >=? ram_end h) then mret rmem
    else
      let mem := u32 (rmem - SIZEOF_STRUCT_MEM) in
      let ptr := u32 (mem - ram h) in
      let size := u32 (m_next (hm h) mem - ptr - SIZEOF_STRUCT_MEM) in
      LWIP_ASSERT "mem_realloc can only shrink memory" (newsize <=? size);;
      if newsize >? size then mret 0
      else if newsize =? size then mret rmem
      else
        mem_sem_wait;;
        (if m_used (hm h) (at_ram h (m_next (hm h) mem)) =? 0 then realloc_move mem ptr newsize
         else if u32 (newsize + SIZEOF_STRUCT_MEM + MIN_SIZE_ALIGNED) <=? size then realloc_split mem ptr newsize
         else mret tt);;
        mem_sem_signal;;
        mret rmem.

(** The scan of mem_malloc: the offset of the block it takes. *)
Definition malloc_search (h : heap) (size : Z) : option (option Z) :=
  while (λ ptr,
    if ptr <? u32 (MEM_SIZE_ALIGNED - size) then
      let mem := at_ram h ptr in
      if negb (ctrue (m_used (hm h) mem)) && (u32 (m_next (hm h) mem - u32 (ptr + SIZEOF_STRUCT_MEM)) >=? size) then inr (Some ptr)
      else inl (m_next (hm h) mem)
    else inr None) (u32 (lfree h - ram h)).

(** The next free block at or behind [l]. *)
Definition next_free (h : heap) (l : Z) : option Z :=
  while (λ l,
    if ctrue (m_used (hm h) l) && negb (l =? ram_end h) then inl (at_ram h (m_next (hm h) l)) else inr l) l.

(** What mem_malloc does with the block it found. *)
Definition malloc_take (ptr size : Z) : H unit :=
  h ← gets id;
  let mem := at_ram h ptr in
  if u32 (m_next (hm h) mem - u32 (ptr + SIZEOF_STRUCT_MEM)) >=? u32 (size + SIZEOF_STRUCT_MEM + MIN_SIZE_ALIGNED) then
    let ptr2 := u32 (ptr + SIZEOF_STRUCT_MEM + size) in
    let mem2 := at_ram h ptr2 in
    on_mem (set_used mem2 0);;
    on_mem (set_next mem2 (m_next (hm h) mem));;
    on_mem (set_prev mem2 ptr);;
    on_mem (set_next mem ptr2);;
    on_mem (set_used mem 1);;
    m ← gets hm;
    if negb (m_next m mem2 =? MEM_SIZE_ALIGNED) then on_mem (set_prev (at_ram h (m_next m mem2)) ptr2) else mret tt
  else on_mem (set_used mem 1).

(** The lowest free block once the block at [mem] is taken. *)
Definition lfree_update (mem : Z) : H unit :=
  h ← gets id;
  if mem =? lfree h then
    l ← ends (next_free h (lfree h));
    modify (set_lfree l);;
    LWIP_ASSERT "mem_malloc: !lfree->used" ((l =? ram_end h) || negb (ctrue (m_used (hm h) l)))
  else mret tt.

Definition mem_malloc (size : Z) : H Z :=
  if size =? 0 then mret 0
  else
    let size := LWIP_MEM_ALIGN_SIZE size in
    let size := if size <? MIN_SIZE_ALIGNED then MIN_SIZE_ALIGNED else size in
    if size >? MEM_SIZE_ALIGNED then mret 0
    else
      mem_sem_wait;;
      h ← gets id;
      found ← ends (malloc_search h size);
      match found with
      | None => mem_sem_signal;; mret 0
      | Some ptr =>
          let mem := at_ram h ptr in
          malloc_take ptr size;;
          lfree_update mem;;
          mem_sem_signal;;
          LWIP_ASSERT "mem_malloc: allocated memory not above ram_end." (u32 (mem + SIZEOF_STRUCT_MEM + size) <=? ram_end h);;
          LWIP_ASSERT "mem_malloc: allocated memory properly aligned." (u32 (mem + SIZEOF_STRUCT_MEM) `mod` MEM_ALIGNMENT =? 0);;
          LWIP_ASSERT "mem_malloc: sanity check alignment" (Z.land mem (MEM_ALIGNMENT - 1) =? 0);;
          mret (u32 (mem + SIZEOF_STRUCT_MEM))
      end.

Definition mem_calloc (count size : Z) : H Z :=
  p ← mem_malloc (u32 (count * size));
  if ctrue p then on_mem (λ m, memset m p 0 (u32 (count * size)));; mret p else mret p.
