(* ===== verification/HeapProofs.v ===== *)
(** * The heap of lwIP: proofs

    The blocks of the heap are a list of their ends, each with its used flag
    ([seg]); the heap is in order ([heap_ok]) when the headers spell such a
    list from 0 to MEM_SIZE, no two unused blocks are neighbours and [lfree]
    is the lowest unused block.  The operations are operations on the list. *)

From S2P Require Import Prelude CMem Str StrProofs SysArch SysProofs Heap.

Notation N := 2228224.

Lemma N_eq : MEM_SIZE_ALIGNED = N.
Proof. reflexivity. Qed.
Lemma sizeof_eq : SIZEOF_STRUCT_MEM = 12.
Proof. reflexivity. Qed.
Lemma min_eq : MIN_SIZE_ALIGNED = 12.
Proof. reflexivity. Qed.

(** ** Sizes *)

Lemma align4 x : 0 ≤ x < 4294967296 → Z.land x 0xfffffffc = x - x `mod` 4.
Proof.
  intros Hx. assert (E : Z.lor (Z.land x 0xfffffffc) (Z.land x 3) = x).
  { rewrite <- Z.land_lor_distr_r. change (Z.lor 0xfffffffc 3) with (Z.ones 32). rewrite Z.land_ones by lia. apply Z.mod_small. exact Hx. }
  change 3 with (Z.ones 2) in E. rewrite (Z.land_ones x 2) in E by lia. change (2 ^ 2) with 4 in E.
  rewrite (lor_add_disjoint _ _ 2) in E; [lia|lia| |change (2 ^ 2) with 4; apply Z.mod_pos_bound; lia].
  rewrite <- Z.land_ones, <- Z.land_assoc by lia. change (Z.land 0xfffffffc (Z.ones 2)) with 0. apply Z.land_0_r.
Qed.

(** The size mem_malloc and mem_realloc work with. *)
Definition block_size (size : Z) : Z := let s := 4 * ((size + 3) / 4) in if s <? 12 then 12 else s.

Lemma align_size size : 0 ≤ size ≤ 4294967292 → LWIP_MEM_ALIGN_SIZE size = 4 * ((size + 3) / 4).
Proof.
  intros Hs. unfold LWIP_MEM_ALIGN_SIZE, MEM_ALIGNMENT. change (u32 (Z.lnot (4 - 1))) with 0xfffffffc. replace (size + 4 - 1) with (size + 3) by lia.
  rewrite u32_small by lia. rewrite align4 by lia. Z.to_euclidean_division_equations; lia.
Qed.
Lemma block_size_spec size : 0 ≤ size → size ≤ block_size size ∧ 12 ≤ block_size size ∧ block_size size `mod` 4 = 0.
Proof. intros Hs. unfold block_size. cbv zeta. destruct (_ <? 12) eqn:E; Z.to_euclidean_division_equations; lia. Qed.

(** ** Headers *)

Definition inside (a : Z) : Prop := 0 ≤ a ∧ a + 12 ≤ 4294967296.

Lemma ld32_agree m m' a : (∀ x, a ≤ x < a + 4 → ld m' x = ld m x) → ld32 m' a = ld32 m a.
Proof. intros Hx. unfold ld32. by rewrite !Hx by lia. Qed.

Lemma ld_set_next m b v x : inside b → 0 ≤ x < 4294967296 → ¬ (b ≤ x < b + 4) → ld (set_next b v m) x = ld m x.
Proof. intros [? ?] Hx Hn. unfold set_next. rewrite ld_st32 by lia. repeat case_decide; try lia; done. Qed.
Lemma ld_set_prev m b v x : inside b → 0 ≤ x < 4294967296 → ¬ (b + 4 ≤ x < b + 8) → ld (set_prev b v m) x = ld m x.
Proof. intros [? ?] Hx Hn. unfold set_prev. rewrite ld_st32 by lia. repeat case_decide; try lia; done. Qed.
Lemma ld_set_used m b v x : inside b → 0 ≤ x < 4294967296 → x ≠ b + 8 → ld (set_used b v m) x = ld m x.
Proof. intros [? ?] Hx Hn. unfold set_used. rewrite ld_st_small by lia. by rewrite decide_False by lia. Qed.

Lemma ld32_st32 m b v : 0 ≤ b → b + 4 ≤ 4294967296 → 0 ≤ v < 4294967296 → ld32 (st32 m b v) b = v.
Proof.
  intros Hb Hb4 Hv. unfold ld32. rewrite !ld_st32 by lia. repeat case_decide; try lia.
  unfold u8. rewrite !Z.shiftr_div_pow2 by lia. change (2 ^ 8) with 256. change (2 ^ 16) with 65536. change (2 ^ 24) with 16777216.
  pose proof (Z.div_mod v 256 ltac:(lia)) as E1. pose proof (Z.div_mod (v / 256) 256 ltac:(lia)) as E2. pose proof (Z.div_mod (v / 65536) 256 ltac:(lia)) as E3.
  rewrite Z.div_div in E2, E3 by lia. change (256 * 256) with 65536 in E2. change (65536 * 256) with 16777216 in E3.
  rewrite (Z.mod_small (v / 16777216)) by (Z.to_euclidean_division_equations; lia). lia.
Qed.

(** Reading a header behind writes to headers. *)
Definition away (a b : Z) : Prop := inside a ∧ inside b ∧ (a + 12 ≤ b ∨ b + 12 ≤ a).

Lemma next_next m b v : inside b → 0 ≤ v < 4294967296 → m_next (set_next b v m) b = v.
Proof. intros [? ?] Hv. apply ld32_st32; lia. Qed.
Lemma prev_prev m b v : inside b → 0 ≤ v < 4294967296 → m_prev (set_prev b v m) b = v.
Proof. intros [? ?] Hv. apply ld32_st32; lia. Qed.
Lemma used_used m b v : inside b → 0 ≤ v < 256 → m_used (set_used b v m) b = v.
Proof. intros [? ?] Hv. unfold m_used, set_used. rewrite ld_st_small, decide_True by lia. by apply u8_small. Qed.
Lemma next_prev m b v : inside b → m_next (set_prev b v m) b = m_next m b.
Proof. intros Hb. apply ld32_agree. intros x Hx. apply ld_set_prev; [done|destruct Hb; lia|lia]. Qed.
Lemma next_used m b v : inside b → m_next (set_used b v m) b = m_next m b.
Proof. intros Hb. apply ld32_agree. intros x Hx. apply ld_set_used; [done|destruct Hb; lia|lia]. Qed.
Lemma prev_next m b v : inside b → m_prev (set_next b v m) b = m_prev m b.
Proof. intros Hb. apply ld32_agree. intros x Hx. apply ld_set_next; [done|destruct Hb; lia|lia]. Qed.
Lemma prev_used m b v : inside b → m_prev (set_used b v m) b = m_prev m b.
Proof. intros Hb. apply ld32_agree. intros x Hx. apply ld_set_used; [done|destruct Hb; lia|lia]. Qed.
Lemma used_next m b v : inside b → m_used (set_next b v m) b = m_used m b.
Proof. intros Hb. apply ld_set_next; [done|destruct Hb; lia|lia]. Qed.
Lemma used_prev m b v : inside b → m_used (set_prev b v m) b = m_used m b.
Proof. intros Hb. apply ld_set_prev; [done|destruct Hb; lia|lia]. Qed.

(** A header whose bytes are the same. *)
Definition hdr_same (m m' : mem) (a : Z) : Prop := m_next m' a = m_next m a ∧ m_prev m' a = m_prev m a ∧ m_used m' a = m_used m a.

Lemma hdr_agree m m' a : (∀ x, a ≤ x < a + 12 → ld m' x = ld m x) → hdr_same m m' a.
Proof. intros Hx. split; [apply ld32_agree; intros; apply Hx; lia|]. split; [apply ld32_agree; intros; apply Hx; lia|]. apply Hx. lia. Qed.

Lemma away_next m a b v : away a b → hdr_same m (set_next b v m) a.
Proof. intros ([? ?] & [? ?] & ?). apply hdr_agree. intros x Hx. apply ld_set_next; [by split|lia|lia]. Qed.
Lemma away_prev m a b v : away a b → hdr_same m (set_prev b v m) a.
Proof. intros ([? ?] & [? ?] & ?). apply hdr_agree. intros x Hx. apply ld_set_prev; [by split|lia|lia]. Qed.
Lemma away_used m a b v : away a b → hdr_same m (set_used b v m) a.
Proof. intros ([? ?] & [? ?] & ?). apply hdr_agree. intros x Hx. apply ld_set_used; [by split|lia|lia]. Qed.

(** One step of reading a header field behind a write. *)
Ltac hread1 :=
  first
  [ rewrite next_next by (first [split; lia|lia]) | rewrite prev_prev by (first [split; lia|lia]) | rewrite used_used by (first [split; lia|lia])
  | rewrite next_prev by (split; lia) | rewrite next_used by (split; lia) | rewrite prev_next by (split; lia)
  | rewrite prev_used by (split; lia) | rewrite used_next by (split; lia) | rewrite used_prev by (split; lia)
  | match goal with
    | |- context [m_next (set_next ?b ?v ?m) ?a] => rewrite (proj1 (away_next m a b v ltac:(split_and!; [split; lia|split; lia|lia])))
    | |- context [m_next (set_prev ?b ?v ?m) ?a] => rewrite (proj1 (away_prev m a b v ltac:(split_and!; [split; lia|split; lia|lia])))
    | |- context [m_next (set_used ?b ?v ?m) ?a] => rewrite (proj1 (away_used m a b v ltac:(split_and!; [split; lia|split; lia|lia])))
    | |- context [m_prev (set_next ?b ?v ?m) ?a] => rewrite (proj1 (proj2 (away_next m a b v ltac:(split_and!; [split; lia|split; lia|lia]))))
    | |- context [m_prev (set_prev ?b ?v ?m) ?a] => rewrite (proj1 (proj2 (away_prev m a b v ltac:(split_and!; [split; lia|split; lia|lia]))))
    | |- context [m_prev (set_used ?b ?v ?m) ?a] => rewrite (proj1 (proj2 (away_used m a b v ltac:(split_and!; [split; lia|split; lia|lia]))))
    | |- context [m_used (set_next ?b ?v ?m) ?a] => rewrite (proj2 (proj2 (away_next m a b v ltac:(split_and!; [split; lia|split; lia|lia]))))
    | |- context [m_used (set_prev ?b ?v ?m) ?a] => rewrite (proj2 (proj2 (away_prev m a b v ltac:(split_and!; [split; lia|split; lia|lia]))))
    | |- context [m_used (set_used ?b ?v ?m) ?a] => rewrite (proj2 (proj2 (away_used m a b v ltac:(split_and!; [split; lia|split; lia|lia]))))
    end ].
Ltac hread := repeat hread1.

(** ** The list of blocks *)

Definition hdr (m : mem) (a n pv : Z) (u : bool) : Prop := m_next m a = n ∧ m_prev m a = pv ∧ m_used m a = cbool u.

(** The headers from offset [p] to offset [q] of the heap at [r] spell the
    blocks [l]; [pv] is the offset of the block before [p], [qpv] that of the
    block before [q]. *)
Fixpoint seg (m : mem) (r p pv : Z) (l : list (Z * bool)) (q qpv : Z) : Prop :=
  match l with
  | [] => p = q ∧ pv = qpv
  | (n, u) :: l => hdr m (r + p) n pv u ∧ p + 24 ≤ n ∧ n `mod` 4 = 0 ∧ seg m r n p l q qpv
  end.

Fixpoint end_of (p : Z) (l : list (Z * bool)) : Z := match l with [] => p | (n, _) :: l => end_of n l end.
Fixpoint first_free (p : Z) (l : list (Z * bool)) : Z :=
  match l with [] => p | (n, u) :: l => if u : bool then first_free n l else p end.
(** The used blocks: begin and end. *)
Fixpoint live (p : Z) (l : list (Z * bool)) : list (Z * Z) :=
  match l with [] => [] | (n, u) :: l => (if u : bool then [(p, n)] else []) ++ live n l end.
Fixpoint noadj (free : bool) (l : list (Z * bool)) : Prop :=
  match l with [] => True | (_, u) :: l => (u = true ∨ free = false) ∧ noadj (negb u) l end.

Lemma seg_le m r p pv l q qpv : seg m r p pv l q qpv → p ≤ q ∧ (l ≠ [] → p + 24 ≤ q).
Proof.
  revert p pv. induction l as [|[n u] l IH]; intros p pv; cbn; [intros [-> _]; split; [lia|done]|].
  intros (_ & Hn & _ & Hl). destruct (IH _ _ Hl) as [? _]. split; [lia|]. intros _. lia.
Qed.

Lemma seg_end m r p pv l q qpv : seg m r p pv l q qpv → end_of p l = q.
Proof. revert p pv. induction l as [|[n u] l IH]; intros p pv; cbn; [by intros [-> _]|]. intros (_ & _ & _ & Hl). by apply (IH _ _ Hl). Qed.

Lemma seg_app m r p pv l1 l2 q qpv : seg m r p pv (l1 ++ l2) q qpv ↔ ∃ k kpv, seg m r p pv l1 k kpv ∧ seg m r k kpv l2 q qpv.
Proof.
  revert p pv. induction l1 as [|[n u] l1 IH]; intros p pv; cbn.
  - split; [intros Hl; exists p, pv; done|intros (k & kpv & [-> ->] & Hl); done].
  - split.
    + intros (Hh & Hn & Ha & Hl). apply IH in Hl as (k & kpv & H1 & H2). exists k, kpv. done.
    + intros (k & kpv & (Hh & Hn & Ha & H1) & H2). split; [done|]. split; [done|]. split; [done|]. apply IH. eauto.
Qed.

Lemma end_of_app p l1 l2 : end_of p (l1 ++ l2) = end_of (end_of p l1) l2.
Proof. revert p. induction l1 as [|[n u] l1 IH]; intros p; cbn; [done|apply IH]. Qed.
Lemma live_app p l1 l2 : live p (l1 ++ l2) = live p l1 ++ live (end_of p l1) l2.
Proof. revert p. induction l1 as [|[n u] l1 IH]; intros p; cbn; [done|]. by rewrite IH, app_assoc. Qed.

Lemma seg_same m m' r p pv l q qpv : 0 ≤ r → seg m r p pv l q qpv → (∀ x, r + p ≤ x < r + q → ld m' x = ld m x) → seg m' r p pv l q qpv.
Proof.
  intros Hr. revert p pv. induction l as [|[n u] l IH]; intros p pv; cbn; [done|]. intros ((H1 & H2 & H3) & Hn & Ha & Hl) Hx.
  destruct (seg_le _ _ _ _ _ _ _ Hl) as [Hnq _]. destruct (hdr_agree m m' (r + p)) as (E1 & E2 & E3); [intros x Hx'; apply Hx; lia|].
  split; [unfold hdr; by rewrite E1, E2, E3|]. split; [done|]. split; [done|]. apply IH; [done|]. intros x Hx'. apply Hx. lia.
Qed.

(** The segment behind a change of its predecessor. *)
Lemma seg_reprev m m' r n pv pv' l q qpv : 0 ≤ r → seg m r n pv l q qpv →
  (l ≠ [] → m_next m' (r + n) = m_next m (r + n) ∧ m_prev m' (r + n) = pv' ∧ m_used m' (r + n) = m_used m (r + n)) →
  (∀ x, r + n + 12 ≤ x < r + q → ld m' x = ld m x) → ∃ qpv', seg m' r n pv' l q qpv'.
Proof.
  intros Hr Hs Hh Hx. destruct l as [|[k u] l]; cbn in Hs; [exists pv'; cbn; by destruct Hs|].
  destruct Hs as ((H1 & H2 & H3) & Hn & Ha & Hl). destruct (Hh ltac:(done)) as (E1 & E2 & E3). exists qpv. cbn. unfold hdr.
  rewrite E1, E2, E3. split; [done|]. split; [done|]. split; [done|]. apply (seg_same m); [done|done|]. intros x Hx'. apply Hx. lia.
Qed.

(** The used blocks lie in their segment, one behind the other. *)
Lemma live_range m r p pv l q qpv a b : seg m r p pv l q qpv → (a, b) ∈ live p l → p ≤ a ∧ a + 24 ≤ b ∧ b ≤ q.
Proof.
  revert p pv. induction l as [|[n u] l IH]; intros p pv; cbn; [intros _ Hin; by apply not_elem_of_nil in Hin|].
  intros (_ & Hn & _ & Hl) Hin. destruct (seg_le _ _ _ _ _ _ _ Hl) as [Hnq _]. apply elem_of_app in Hin as [Hin|Hin].
  - destruct u; [|by apply not_elem_of_nil in Hin]. apply list_elem_of_singleton in Hin. injection Hin as -> ->. lia.
  - destruct (IH _ _ Hl Hin) as (? & ? & ?). lia.
Qed.

Fixpoint last_free (f : bool) (l : list (Z * bool)) : bool := match l with [] => f | (_, u) :: l => last_free (negb u) l end.

Lemma noadj_app f l1 l2 : noadj f (l1 ++ l2) ↔ noadj f l1 ∧ noadj (last_free f l1) l2.
Proof. revert f. induction l1 as [|[n u] l1 IH]; intros f; cbn; [tauto|]. rewrite IH. tauto. Qed.
Lemma noadj_weak f l : noadj f l → noadj false l.
Proof. destruct l as [|[n u] l]; cbn; [done|]. intros [_ H]. split; [by right|done]. Qed.
Lemma last_free_app f l1 l2 : last_free f (l1 ++ l2) = last_free (last_free f l1) l2.
Proof. revert f. induction l1 as [|[n u] l1 IH]; intros f; cbn; [done|apply IH]. Qed.

Definition all_used (l : list (Z * bool)) : Prop := Forall (λ b, b.2 = true) l.

Lemma first_free_used p l1 l2 : all_used l1 → first_free p (l1 ++ l2) = first_free (end_of p l1) l2.
Proof. revert p. induction l1 as [|[n u] l1 IH]; intros p Hu; cbn; [done|]. apply Forall_cons in Hu as [Hu Hl]. cbn in Hu. rewrite Hu. by apply IH. Qed.
Lemma first_free_some p l1 l2 : ¬ all_used l1 → first_free p (l1 ++ l2) = first_free p l1.
Proof.
  revert p. induction l1 as [|[n u] l1 IH]; intros p Hu; cbn; [by destruct Hu; constructor|]. destruct u; [|done]. apply IH. intros H. apply Hu. by constructor.
Qed.
Lemma all_used_dec l : {all_used l} + {¬ all_used l}.
Proof. apply Forall_dec. intros b. apply bool_eq_dec. Defined.
Lemma first_free_range m r p pv l q qpv : seg m r p pv l q qpv → p ≤ first_free p l ≤ q ∧ (¬ all_used l → first_free p l + 24 ≤ q).
Proof.
  revert p pv. induction l as [|[n u] l IH]; intros p pv; cbn; [intros [-> _]; split; [lia|]; intros H; by destruct H; constructor|].
  intros (_ & Hn & _ & Hl). destruct (IH _ _ Hl) as [? H2]. destruct (seg_le _ _ _ _ _ _ _ Hl) as [? _]. destruct u; (split; [lia|]); intros Hu; [|lia].
  destruct (all_used_dec l) as [Ha|Ha]; [destruct Hu; by constructor|]. by apply H2.
Qed.

(** ** The heap in memory *)

Definition layout (m : mem) (r : Z) (l : list (Z * bool)) : Prop :=
  (∃ qpv, seg m r 0 0 l N qpv) ∧ m_used m (r + N) = 1 ∧ m_next m (r + N) = N.

Definition placed (r : Z) : Prop := 0 ≤ r ∧ r `mod` 4 = 0 ∧ r + N + 12 ≤ 4294967296.

(** The blocks [mid] between [l1] and [l2] become [mid']. *)
Lemma layout_replace m m' r l1 mid mid' l2 : placed r → layout m r (l1 ++ mid ++ l2) →
  (∀ p pv n npv, seg m r 0 0 l1 p pv → seg m r p pv mid n npv → 0 ≤ p → n ≤ N → (l2 ≠ [] → n + 24 ≤ N ∧ m_prev m (r + n) = npv) → (l2 = [] → n = N) → ∃ npv',
    seg m' r p pv mid' n npv' ∧
    (l2 ≠ [] → m_next m' (r + n) = m_next m (r + n) ∧ m_prev m' (r + n) = npv' ∧ m_used m' (r + n) = m_used m (r + n)) ∧
    m_used m' (r + N) = m_used m (r + N) ∧ m_next m' (r + N) = m_next m (r + N) ∧
    (∀ x, 0 ≤ x < 4294967296 → ¬ (r + p ≤ x < r + n + 12) → ld m' x = ld m x)) →
  layout m' r (l1 ++ mid' ++ l2).
Proof.
  intros (Hr & _ & HrN) [[qpv Hs] [Hu Hn]] Hmid. apply seg_app in Hs as (p & pv & H1 & Hs). apply seg_app in Hs as (n & npv & H2 & H3).
  destruct (seg_le _ _ _ _ _ _ _ H1) as [Hp _]. destruct (seg_le _ _ _ _ _ _ _ H2) as [Hpn _]. destruct (seg_le _ _ _ _ _ _ _ H3) as [HnN HnN'].
  destruct (Hmid p pv n npv H1 H2 Hp HnN) as (npv' & H2' & Hh & Hu' & Hn' & Hx).
  { intros Hne. split; [by apply HnN'|]. destruct l2 as [|[k u] l2]; [done|]. apply H3. }
  { intros ->. by destruct H3. }
  destruct (seg_reprev m m' r n npv npv' l2 N qpv Hr H3 Hh) as [qpv' H3']; [intros x Hx'; apply Hx; lia|].
  split; [|by rewrite Hu', Hn']. exists qpv'. apply seg_app. exists p, pv. split.
  - apply (seg_same m); [done|done|]. intros x Hx'. apply Hx; lia.
  - apply seg_app. eauto.
Qed.

Ltac hx := intros ? ? ?; repeat first [rewrite ld_set_next by (first [split; lia|lia])|rewrite ld_set_prev by (first [split; lia|lia])|rewrite ld_set_used by (first [split; lia|lia])]; reflexivity.

Lemma cbool_byte b : 0 ≤ cbool b < 256.
Proof. destruct b; cbn; lia. Qed.

Lemma layout_mark m r l1 n u u' l2 : placed r → layout m r (l1 ++ [(n, u)] ++ l2) →
  layout (set_used (r + end_of 0 l1) (cbool u') m) r (l1 ++ [(n, u')] ++ l2).
Proof.
  intros Hr HL. pose proof Hr as (Hr0 & _ & HrN). apply (layout_replace m _ r l1 [(n, u)]); [done|done|]. pose proof (cbool_byte u').
  intros p pv n' npv H1 ((E1 & E2 & E3) & Hn & Ha & [<- <-]) Hp HnN Hl Hl'. rewrite (seg_end _ _ _ _ _ _ _ H1). exists p.
  split; [cbn; unfold hdr; hread; rewrite E1, E2; done|]. split; [intros Hne; destruct (Hl Hne); hread; done|]. split; [hread; done|]. split; [hread; done|hx].
Qed.

(** The block [p, n) becomes two blocks, the second unused; with [mark] the
    first becomes used. *)
Definition split_at (mark : bool) (r p p2 n : Z) (m : mem) : mem :=
  let m := set_next (r + p) p2 (set_prev (r + p2) p (set_next (r + p2) n (set_used (r + p2) 0 m))) in
  let m := if mark then set_used (r + p) 1 m else m in
  if n =? N then m else set_prev (r + n) p2 m.

Lemma layout_split mark m r l1 n u p2 l2 : placed r → layout m r (l1 ++ [(n, u)] ++ l2) → let p := end_of 0 l1 in p + 24 ≤ p2 → p2 + 24 ≤ n → p2 `mod` 4 = 0 →
  layout (split_at mark r p p2 n m) r (l1 ++ [(p2, mark || u); (n, false)] ++ l2).
Proof.
  intros Hr HL p0 H1' H2' H3'. pose proof Hr as (Hr0 & _ & HrN). apply (layout_replace m _ r l1 [(n, u)]); [done|done|].
  intros p pv n' npv H1 ((E1 & E2 & E3) & Hn & Ha & [<- <-]) Hp HnN Hl Hl'. subst p0. rewrite (seg_end _ _ _ _ _ _ _ H1) in *. exists p2.
  unfold split_at. cbv zeta. destruct (n =? N) eqn:En.
  - split; [destruct mark; cbn; unfold hdr; hread; rewrite ?E2, ?E3; split_and!; first [done|lia]|]. split; [intros Hne; destruct (Hl Hne); lia|].
    split; [destruct mark; hread; done|]. split; [destruct mark; hread; done|destruct mark; hx].
  - assert (Hne : l2 ≠ []) by (intros ->; specialize (Hl' eq_refl); lia). destruct (Hl Hne).
    split; [destruct mark; cbn; unfold hdr; hread; rewrite ?E2, ?E3; split_and!; first [done|lia]|]. split; [intros _; destruct mark; hread; done|].
    split; [destruct mark; hread; done|]. split; [destruct mark; hread; done|destruct mark; hx].
Qed.

(** The block [p, n) and the unused block [n, n2) behind it become one. *)
Definition merge_at (r p n2 : Z) (m : mem) : mem := set_prev (r + n2) p (set_next (r + p) n2 m).

Lemma layout_merge m r l1 n u n2 l2 : placed r → layout m r (l1 ++ [(n, u); (n2, false)] ++ l2) →
  layout (merge_at r (end_of 0 l1) n2 m) r (l1 ++ [(n2, u)] ++ l2).
Proof.
  intros Hr HL. pose proof Hr as (Hr0 & _ & HrN). apply (layout_replace m _ r l1 [(n, u); (n2, false)]); [done|done|].
  intros p pv n' npv H1 ((E1 & E2 & E3) & Hn & Ha & (F1 & F2 & F3) & Hn2 & Ha2 & [<- <-]) Hp HnN Hl Hl'. rewrite (seg_end _ _ _ _ _ _ _ H1) in *. exists p.
  unfold merge_at. split; [cbn; unfold hdr; hread; rewrite E2, E3; split_and!; first [done|lia]|]. split; [intros Hne; destruct (Hl Hne); hread; done|].
  destruct (decide (n2 = N)) as [->|Hne].
  - split; [hread; done|]. split; [hread; done|hx].
  - assert (Hne2 : l2 ≠ []) by (intros ->; by apply Hne, Hl'). destruct (Hl Hne2). split; [hread; done|]. split; [hread; done|hx].
Qed.

(** The unused block behind [p, n) moves down to [p2]. *)
Definition move_at (r p p2 n2 : Z) (m : mem) : mem := split_at false r p p2 n2 m.

Lemma layout_move m r l1 n u n2 p2 l2 : placed r → layout m r (l1 ++ [(n, u); (n2, false)] ++ l2) → let p := end_of 0 l1 in p + 24 ≤ p2 → p2 < n → p2 `mod` 4 = 0 →
  layout (move_at r p p2 n2 m) r (l1 ++ [(p2, u); (n2, false)] ++ l2).
Proof.
  intros Hr HL p0 H1' H2' H3'. pose proof Hr as (Hr0 & _ & HrN). apply (layout_replace m _ r l1 [(n, u); (n2, false)]); [done|done|].
  intros p pv n' npv H1 ((E1 & E2 & E3) & Hn & Ha & (F1 & F2 & F3) & Hn2 & Ha2 & [<- <-]) Hp HnN Hl Hl'. subst p0. rewrite (seg_end _ _ _ _ _ _ _ H1) in *. exists p2.
  unfold move_at, split_at. cbv zeta. destruct (n2 =? N) eqn:En.
  - split; [cbn; unfold hdr; hread; rewrite E2, E3; split_and!; first [done|lia]|]. split; [intros Hne; destruct (Hl Hne); lia|].
    split; [hread; done|]. split; [hread; done|hx].
  - assert (Hne : l2 ≠ []) by (intros ->; specialize (Hl' eq_refl); lia). destruct (Hl Hne).
    split; [cbn; unfold hdr; hread; rewrite E2, E3; split_and!; first [done|lia]|]. split; [intros _; hread; done|].
    split; [hread; done|]. split; [hread; done|hx].
Qed.

(** ** Reading the layout *)

Lemma seg_aligned m r p pv l q qpv : p `mod` 4 = 0 → seg m r p pv l q qpv → q `mod` 4 = 0.
Proof. revert p pv. induction l as [|[n u] l IH]; intros p pv Hp; cbn; [by intros [<- _]|]. intros (_ & _ & Ha & Hl). by apply (IH n p). Qed.

Lemma layout_at m r l1 n u l2 : layout m r (l1 ++ (n, u) :: l2) → let p := end_of 0 l1 in
  m_next m (r + p) = n ∧ m_used m (r + p) = cbool u ∧ 0 ≤ p ∧ p + 24 ≤ n ∧ n ≤ N ∧ p `mod` 4 = 0 ∧ n `mod` 4 = 0.
Proof.
  intros [[qpv Hs] _]. apply seg_app in Hs as (p & pv & H1 & (E1 & E2 & E3) & Hn & Ha & H3). rewrite (seg_end _ _ _ _ _ _ _ H1). cbv zeta.
  destruct (seg_le _ _ _ _ _ _ _ H1) as [? _]. destruct (seg_le _ _ _ _ _ _ _ H3) as [? _]. pose proof (seg_aligned m r 0 0 l1 p pv eq_refl H1). done.
Qed.

Lemma layout_prev m r l1 p u1 n u l2 : layout m r ((l1 ++ [(p, u1)]) ++ (n, u) :: l2) → m_prev m (r + p) = end_of 0 l1.
Proof.
  intros [[qpv Hs] _]. apply seg_app in Hs as (p' & pv & H1 & (E1 & E2 & E3) & _). apply seg_app in H1 as (p1 & pv1 & H1 & H2).
  cbn in H2. destruct H2 as (_ & _ & _ & [<- <-]). by rewrite E2, (seg_end _ _ _ _ _ _ _ H1).
Qed.
Lemma layout_prev_first m r n u l2 : layout m r ((n, u) :: l2) → m_prev m (r + 0) = 0.
Proof. intros [[qpv ((_ & E & _) & _)] _]. exact E. Qed.

Lemma layout_le m r l1 l2 : layout m r (l1 ++ l2) → 0 ≤ end_of 0 l1 ≤ N ∧ (l2 ≠ [] → end_of 0 l1 + 24 ≤ N) ∧ (l2 = [] → end_of 0 l1 = N).
Proof.
  intros [[qpv Hs] _]. apply seg_app in Hs as (p & pv & H1 & H2). rewrite (seg_end _ _ _ _ _ _ _ H1).
  destruct (seg_le _ _ _ _ _ _ _ H1) as [? _]. destruct (seg_le _ _ _ _ _ _ _ H2) as [? ?]. split; [lia|]. split; [done|]. intros ->. by destruct H2.
Qed.

Lemma first_free_le m r l1 l2 : layout m r (l1 ++ l2) → 0 ≤ first_free 0 l1 ≤ end_of 0 l1 ∧ (¬ all_used l1 → first_free 0 l1 + 24 ≤ end_of 0 l1).
Proof.
  intros [[qpv Hs] _]. apply seg_app in Hs as (p & pv & H1 & H2). rewrite (seg_end _ _ _ _ _ _ _ H1). by apply (first_free_range _ _ _ _ _ _ _ H1).
Qed.

(** ** Joining neighbours *)

(** The heap [h] with the blocks [l]; [lfree] is the lowest unused one. *)
Definition in_order (h : heap) (l : list (Z * bool)) : Prop :=
  placed (ram h) ∧ ram_end h = ram h + N ∧ layout (hm h) (ram h) l ∧ lfree h = ram h + first_free 0 l.

Lemma at_ram_ok h i : placed (ram h) → 0 ≤ i ≤ N → at_ram h i = ram h + i.
Proof. intros (? & _ & ?) Hi. apply u32_small. lia. Qed.

Lemma hrun_bind {A B} (m : H A) (f : A → H B) s a s' : m s = Ok a s' → (m ≫= f) s = f a s'.
Proof. intros E. unfold mbind, M_bind. by rewrite E. Qed.

Lemma plug_forward_merge h l1 n n2 l2 : in_order h (l1 ++ (n, false) :: (n2, false) :: l2) → let p := end_of 0 l1 in
  plug_forward (ram h + p) h = Ok tt (set_hm (merge_at (ram h) p n2 (hm h)) h) ∧ in_order (set_hm (merge_at (ram h) p n2 (hm h)) h) (l1 ++ (n2, false) :: l2).
Proof.
  intros (Hr & He & HL & Hf). cbv zeta. pose proof Hr as (Hr0 & _ & HrN). destruct (layout_at _ _ _ _ _ _ HL) as (E1 & E2 & Hp & Hn & HnN & Ha & _). set (p := end_of 0 l1) in *.
  pose proof HL as HL2. change ((n, false) :: (n2, false) :: l2) with ([(n, false)] ++ (n2, false) :: l2) in HL2. rewrite app_assoc in HL2.
  destruct (layout_at _ _ _ _ _ _ HL2) as (F1 & F2 & Hn0 & Hn2 & HnN2 & _). rewrite end_of_app in F1, F2, Hn0, Hn2. cbn [end_of] in F1, F2, Hn0, Hn2.
  destruct (first_free_le _ _ _ _ HL) as [Hff _]. fold p in Hff.
  assert (Hff2 : first_free 0 (l1 ++ (n, false) :: (n2, false) :: l2) ≤ p).
  { destruct (all_used_dec l1); [rewrite first_free_used by done; cbn; lia|rewrite first_free_some by done; lia]. }
  split.
  - unfold plug_forward, gets, mbind, M_bind, id. rewrite E1, at_ram_ok by (done || lia).
    assert (((ram h + p =? ram h + n) = false) ∧ ((ram h + n =? ram_end h) = false) ∧ ((lfree h =? ram h + n) = false)) as (-> & -> & ->) by lia.
    rewrite F2. cbn [negb andb cbool Z.eqb]. unfold on_mem, modify, mret, M_ret. cbn [hm set_hm]. rewrite F1.
    assert (Enext : m_next (set_next (ram h + p) n2 (hm h)) (ram h + n) = n2) by (hread; exact F1). rewrite Enext, at_ram_ok by (done || lia).
    replace (ram h + p - ram h) with p by lia. rewrite u32_small by lia. reflexivity.
  - split; [done|]. split; [done|]. split; [exact (layout_merge (hm h) (ram h) l1 n false n2 l2 Hr HL)|]. cbn [lfree set_hm ram]. rewrite Hf. f_equal.
    destruct (all_used_dec l1); [rewrite !first_free_used by done; done|by rewrite !first_free_some by done].
Qed.

Lemma plug_forward_none h l1 n l2 : in_order h (l1 ++ (n, false) :: l2) → noadj true l2 → plug_forward (ram h + end_of 0 l1) h = Ok tt h.
Proof.
  intros (Hr & He & HL & Hf) Hna. pose proof Hr as (Hr0 & _ & HrN). destruct (layout_at _ _ _ _ _ _ HL) as (E1 & E2 & Hp & Hn & HnN & Ha & _). set (p := end_of 0 l1) in *.
  unfold plug_forward, gets, mbind, M_bind, id. rewrite E1, at_ram_ok by (done || lia). destruct l2 as [|[n2 u2] l2].
  - pose proof (layout_le _ _ _ _ HL) as _. pose proof HL as HL2. change ([(n, false)]) with ([(n, false)] ++ []) in HL2. rewrite app_assoc in HL2.
    destruct (layout_le _ _ _ _ HL2) as (_ & _ & HN). rewrite end_of_app in HN. cbn in HN. specialize (HN eq_refl).
    assert ((ram h + n =? ram_end h) = true) as -> by lia. cbn [negb]. rewrite andb_false_r. done.
  - cbn in Hna. destruct Hna as [[->|?] _]; [|done]. pose proof HL as HL2. change ((n, false) :: (n2, true) :: l2) with ([(n, false)] ++ (n2, true) :: l2) in HL2. rewrite app_assoc in HL2.
    destruct (layout_at _ _ _ _ _ _ HL2) as (F1 & F2 & _). rewrite end_of_app in F2. cbn [end_of] in F2. rewrite F2. cbn [cbool Z.eqb]. rewrite andb_false_r. done.
Qed.

Lemma plug_backward_merge h l1 p n l2 : in_order h (l1 ++ (p, false) :: (n, false) :: l2) → let p0 := end_of 0 l1 in
  plug_backward (ram h + p) h = Ok tt (set_hm (merge_at (ram h) p0 n (hm h)) h) ∧ in_order (set_hm (merge_at (ram h) p0 n (hm h)) h) (l1 ++ (n, false) :: l2).
Proof.
  intros (Hr & He & HL & Hf). cbv zeta. pose proof Hr as (Hr0 & _ & HrN). destruct (layout_at _ _ _ _ _ _ HL) as (E1 & E2 & Hp & Hn & HnN & Ha & _). set (p0 := end_of 0 l1) in *.
  pose proof HL as HL2. change ((p, false) :: (n, false) :: l2) with ([(p, false)] ++ (n, false) :: l2) in HL2. rewrite app_assoc in HL2.
  destruct (layout_at _ _ _ _ _ _ HL2) as (F1 & F2 & Hn0 & Hn2 & HnN2 & _). rewrite end_of_app in F1, F2, Hn0, Hn2. cbn [end_of] in F1, F2, Hn0, Hn2.
  pose proof (layout_prev _ _ _ _ _ _ _ _ HL2) as Hprev. fold p0 in Hprev. destruct (first_free_le _ _ _ _ HL) as [Hff _]. fold p0 in Hff.
  assert (Hff2 : first_free 0 (l1 ++ (p, false) :: (n, false) :: l2) ≤ p0).
  { destruct (all_used_dec l1); [rewrite first_free_used by done; cbn; lia|rewrite first_free_some by done; lia]. }
  split.
  - unfold plug_backward, gets, mbind, M_bind, id. rewrite Hprev, at_ram_ok by (done || lia).
    assert (((ram h + p0 =? ram h + p) = false) ∧ ((lfree h =? ram h + p) = false)) as (-> & ->) by lia.
    rewrite E2. cbn [negb andb cbool Z.eqb]. unfold on_mem, modify, mret, M_ret. cbn [hm set_hm]. rewrite F1.
    assert (Enext : m_next (set_next (ram h + p0) n (hm h)) (ram h + p) = n) by (hread; exact F1). rewrite Enext, at_ram_ok by (done || lia).
    replace (ram h + p0 - ram h) with p0 by lia. rewrite u32_small by lia. reflexivity.
  - split; [done|]. split; [done|]. split; [exact (layout_merge (hm h) (ram h) l1 p false n l2 Hr HL)|]. cbn [lfree set_hm ram]. rewrite Hf. f_equal.
    destruct (all_used_dec l1); [rewrite !first_free_used by done; done|by rewrite !first_free_some by done].
Qed.

Lemma plug_backward_none h l1 n l2 : in_order h (l1 ++ (n, false) :: l2) → last_free false l1 = false → plug_backward (ram h + end_of 0 l1) h = Ok tt h.
Proof.
  intros (Hr & He & HL & Hf) Hna. pose proof Hr as (Hr0 & _ & HrN). destruct (layout_at _ _ _ _ _ _ HL) as (E1 & E2 & Hp & Hn & HnN & Ha & _).
  unfold plug_backward, gets, mbind, M_bind, id. destruct l1 as [|[k u] l1 _] using rev_ind.
  - cbn [end_of]. rewrite (layout_prev_first _ _ _ _ _ HL), at_ram_ok by (done || lia). by rewrite Z.eqb_refl.
  - rewrite last_free_app in Hna. cbn in Hna. destruct u; [|done]. rewrite end_of_app in *. cbn [end_of] in *. rewrite (layout_prev _ _ _ _ _ _ _ _ HL).
    rewrite <- app_assoc in HL. cbn [app] in HL. destruct (layout_at _ _ _ _ _ _ HL) as (F1 & F2 & F3 & F4 & F5 & _). rewrite at_ram_ok by (done || lia). rewrite F2. cbn [cbool Z.eqb]. by rewrite andb_false_r.
Qed.

(** ** The heap at rest *)

Definition sem_ready (s : sys) (i : Z) : Prop := ∃ e, sems s !! i = Some e ∧ sem_freed e = false ∧ 0 < sem_counter e < 65536.
Definition sem_held (s : sys) (i : Z) : Prop := ∃ e, sems s !! i = Some e ∧ sem_freed e = false ∧ 0 ≤ sem_counter e < 65535.

Definition heap_ok (h : heap) (l : list (Z * bool)) : Prop := in_order h l ∧ noadj false l ∧ sem_ready (hsys h) (mem_sem h).

Lemma wait_run h : sem_ready (hsys h) (mem_sem h) → ∃ s, mem_sem_wait h = Ok tt (set_hsys s h) ∧ sem_held s (mem_sem h).
Proof.
  intros (e & He & Hf & Hc). eexists. split.
  - unfold mem_sem_wait, lift, gets, mbind, M_bind. rewrite (get_sem_run _ _ _ He). rewrite Hf. cbn [negb sassert].
    assert ((sem_counter e >? 0) = true) as -> by lia. reflexivity.
  - eexists. cbn. rewrite lookup_insert_eq. split; [done|]. cbn. split; [done|lia].
Qed.

Lemma signal_ready h : sem_held (hsys h) (mem_sem h) → ∃ s, mem_sem_signal h = Ok tt (set_hsys s h) ∧ sem_ready s (mem_sem h).
Proof.
  intros (e & He & Hf & Hc). destruct (signal_run (hsys h) (mem_sem h) e He Hf) as (w & tq & _ & Erun). eexists. split.
  - unfold mem_sem_signal, lift, gets, mbind, M_bind. rewrite Erun. reflexivity.
  - eexists. cbn. rewrite lookup_insert_eq. split; [done|]. cbn. split; [done|]. rewrite u16_small by lia. lia.
Qed.

(** The bytes of the used blocks [lv] of the heap at [r], and all bytes
    outside the heap, are the same. *)
Definition data_kept (r : Z) (lv : list (Z * Z)) (m m' : mem) : Prop := ∀ x, 0 ≤ x < 4294967296 →
  x < r ∨ r + N + 12 ≤ x ∨ (∃ a b, (a, b) ∈ lv ∧ r + a + 12 ≤ x < r + b) → ld m' x = ld m x.

(** ** mem_free *)

(** The unused block between [l1] and [n] joined with its unused neighbours. *)
Definition join (l1 : list (Z * bool)) (n : Z) (l2 : list (Z * bool)) : list (Z * bool) :=
  (if last_free false l1 then removelast l1 else l1) ++
  match l2 with (n2, false) :: l2 => (n2, false) :: l2 | _ => (n, false) :: l2 end.

Lemma last_free_split l : last_free false l = true → ∃ l' p, l = l' ++ [(p, false)].
Proof. destruct l as [|[p u] l _] using rev_ind; [done|]. rewrite last_free_app. cbn. destruct u; [done|]. eauto. Qed.

Lemma join_cases l1 n l2 : noadj false l1 → noadj false l2 →
  ∃ k n' l1' l2', join l1 n l2 = l1' ++ (n', false) :: l2' ∧ last_free false l1' = false ∧ noadj true l2' ∧ noadj false l1' ∧
    (l1 = l1' ∨ l1 = l1' ++ [(k, false)]) ∧ ((n = n' ∧ l2 = l2') ∨ l2 = (n', false) :: l2').
Proof.
  intros H1 H2. unfold join. assert (Hl : ∃ n' l2', match l2 with (n2, false) :: l2 => (n2, false) :: l2 | _ => (n, false) :: l2 end = (n', false) :: l2' ∧ noadj true l2' ∧
    ((n = n' ∧ l2 = l2') ∨ l2 = (n', false) :: l2')).
  { destruct l2 as [|[n2 [|]] l2]; [exists n, []; eauto|exists n, ((n2, true) :: l2); split; [done|]; split; [cbn in *; split; [by left|apply H2]|by left]|].
    exists n2, l2. split; [done|]. split; [apply H2|by right]. }
  destruct Hl as (n' & l2' & -> & Hn & Hcase). destruct (last_free false l1) eqn:E.
  - destruct (last_free_split l1 E) as (l1' & k & ->). rewrite removelast_last. apply noadj_app in H1 as [Ha Hb]. cbn in Hb. destruct Hb as [[?|Hlast] _]; [done|].
    exists k, n', l1', l2'. split_and!; try done. by right.
  - exists 0, n', l1, l2'. split_and!; try done. by left.
Qed.

Lemma join_noadj l1 n l2 : noadj false l1 → noadj false l2 → noadj false (join l1 n l2).
Proof.
  intros H1 H2. destruct (join_cases l1 n l2 H1 H2) as (k & n' & l1' & l2' & -> & Hl & Ha & Hb & _). apply noadj_app. split; [done|]. cbn. split; [by right|done].
Qed.

Lemma join_live l1 n l2 : noadj false l1 → noadj false l2 → live 0 (join l1 n l2) = live 0 l1 ++ live n l2.
Proof.
  intros H1 H2. destruct (join_cases l1 n l2 H1 H2) as (k & n' & l1' & l2' & -> & Hl & Ha & Hb & Hc1 & Hc2). rewrite live_app. cbn. f_equal.
  - destruct Hc1 as [-> | ->]; [done|]. rewrite live_app. cbn. by rewrite app_nil_r.
  - by destruct Hc2 as [[-> ->] | ->].
Qed.

Lemma data_kept_refl r lv m : data_kept r lv m m.
Proof. by intros x _ _. Qed.
Lemma data_kept_trans r lv m1 m2 m3 : data_kept r lv m1 m2 → data_kept r lv m2 m3 → data_kept r lv m1 m3.
Proof. intros H1 H2 x Hx Hin. rewrite H2 by done. by apply H1. Qed.
Lemma data_kept_sub r lv lv' m m' : (∀ b, b ∈ lv' → b ∈ lv) → data_kept r lv m m' → data_kept r lv' m m'.
Proof. intros Hs H1 x Hx [H2|[H2|(a & b & Hin & H2)]]; apply H1; [done|by left|done|by right; left|done|]. right; right. exists a, b. split; [by apply Hs|done]. Qed.

(** Writes to headers that no block of [lv] covers. *)
Lemma mark_kept r lv m p v : placed r → 0 ≤ p ≤ N → (∀ a b, (a, b) ∈ lv → p ≤ a ∨ b ≤ p) → data_kept r lv m (set_used (r + p) v m).
Proof.
  intros (Hr & _ & HrN) Hp Hlv x Hx Hin. apply ld_set_used; [split; lia|done|]. destruct Hin as [?|[?|(a & b & Hin & Hab)]]; [lia|lia|]. destruct (Hlv a b Hin); lia.
Qed.
Lemma merge_kept r lv m p n2 : placed r → 0 ≤ p → p ≤ n2 → n2 ≤ N → (∀ a b, (a, b) ∈ lv → p ≤ a ∨ b ≤ p) → (∀ a b, (a, b) ∈ lv → n2 ≤ a ∨ b ≤ n2) →
  data_kept r lv m (merge_at r p n2 m).
Proof.
  intros (Hr & _ & HrN) Hp Hn HN Hlv Hlv2 x Hx Hin. unfold merge_at.
  rewrite ld_set_prev; [|split; lia|done|]; [rewrite ld_set_next; [done|split; lia|done|]|];
    (destruct Hin as [?|[?|(a & b & Hin & Hab)]]; [lia|lia|destruct (Hlv a b Hin), (Hlv2 a b Hin); lia]).
Qed.

(** The used blocks before and behind a place of the list. *)
Lemma live_sides m r l1 l2 a b : layout m r (l1 ++ l2) → ((a, b) ∈ live 0 l1 → b ≤ end_of 0 l1) ∧ ((a, b) ∈ live (end_of 0 l1) l2 → end_of 0 l1 ≤ a).
Proof.
  intros [[qpv Hs] _]. apply seg_app in Hs as (p & pv & H1 & H2). rewrite (seg_end _ _ _ _ _ _ _ H1).
  split; intros Hin; [apply (live_range _ _ _ _ _ _ _ _ _ H1) in Hin; lia|apply (live_range _ _ _ _ _ _ _ _ _ H2) in Hin; lia].
Qed.
Lemma live_apart m r l1 l2 a b : layout m r (l1 ++ l2) → (a, b) ∈ live 0 (l1 ++ l2) → end_of 0 l1 ≤ a ∨ b ≤ end_of 0 l1.
Proof. intros HL Hin. rewrite live_app in Hin. destruct (live_sides _ _ _ _ a b HL) as [H1 H2]. apply elem_of_app in Hin as [Hin|Hin]; auto. Qed.

Lemma forward_run h l1 n l2 : in_order h (l1 ++ (n, false) :: l2) → noadj false l2 → ∃ m1 n' l2',
  plug_forward (ram h + end_of 0 l1) h = Ok tt (set_hm m1 h) ∧ in_order (set_hm m1 h) (l1 ++ (n', false) :: l2') ∧
  match l2 with (n2, false) :: l2 => (n2, false) :: l2 | _ => (n, false) :: l2 end = (n', false) :: l2' ∧
  live n' l2' = live n l2 ∧ data_kept (ram h) (live 0 l1 ++ live n l2) (hm h) m1.
Proof.
  intros Hin Hna. pose proof Hin as (Hr & He & HL & Hf). destruct l2 as [|[n2 [|]] l2].
  - exists (hm h), n, []. rewrite (plug_forward_none h l1 n [] Hin I). destruct h. split_and!; first [done|apply data_kept_refl].
  - exists (hm h), n, ((n2, true) :: l2). rewrite (plug_forward_none h l1 n _ Hin) by (split; [by left|apply Hna]). destruct h. split_and!; first [done|apply data_kept_refl].
  - destruct (plug_forward_merge h l1 n n2 l2 Hin) as [E Hin']. exists (merge_at (ram h) (end_of 0 l1) n2 (hm h)), n2, l2. split_and!; try done.
    destruct (layout_at _ _ _ _ _ _ HL) as (_ & _ & Hp & Hn & HnN & _).
    pose proof HL as HL2. change ((n, false) :: (n2, false) :: l2) with ([(n, false); (n2, false)] ++ l2) in HL2. rewrite app_assoc in HL2.
    destruct (layout_le _ _ _ _ HL2) as [Hn2 _]. rewrite end_of_app in Hn2. cbn [end_of] in Hn2.
    assert (Hn2' : n ≤ n2). { rewrite <- app_assoc in HL2. change (l1 ++ [(n, false); (n2, false)] ++ l2) with (l1 ++ [(n, false)] ++ (n2, false) :: l2) in HL2. rewrite app_assoc in HL2.
      destruct (layout_at _ _ _ _ _ _ HL2) as (_ & _ & _ & Hlt & _). rewrite end_of_app in Hlt. cbn [end_of] in Hlt. lia. }
    apply merge_kept; [done|done|lia|lia| |].
    + intros a b Hab. apply (live_apart (hm h) (ram h) l1 _ a b HL). rewrite live_app. cbn. exact Hab.
    + intros a b Hab. pose proof (live_apart _ _ _ _ a b HL2) as Hap. rewrite end_of_app in Hap. cbn [end_of] in Hap. apply Hap. rewrite !live_app, end_of_app. cbn. by rewrite app_nil_r.
Qed.

Lemma backward_run h l1 n l2 : in_order h (l1 ++ (n, false) :: l2) → noadj false l1 → ∃ m1,
  plug_backward (ram h + end_of 0 l1) h = Ok tt (set_hm m1 h) ∧ in_order (set_hm m1 h) ((if last_free false l1 then removelast l1 else l1) ++ (n, false) :: l2) ∧
  data_kept (ram h) (live 0 l1 ++ live n l2) (hm h) m1.
Proof.
  intros Hin Hna. pose proof Hin as (Hr & He & HL & Hf). destruct (last_free false l1) eqn:E.
  - destruct (last_free_split l1 E) as (l0 & p & ->). rewrite removelast_last, end_of_app. cbn [end_of]. rewrite <- app_assoc in Hin. cbn [app] in Hin.
    destruct (plug_backward_merge h l0 p n l2 Hin) as [Erun Hin']. exists (merge_at (ram h) (end_of 0 l0) n (hm h)). split; [exact Erun|]. split; [exact Hin'|].
    destruct (layout_at _ _ _ _ _ _ HL) as (_ & _ & Hp & Hn & HnN & _). rewrite end_of_app in Hp, Hn. cbn [end_of] in Hp, Hn.
    destruct Hin as (_ & _ & HL0 & _). destruct (layout_at _ _ _ _ _ _ HL0) as (_ & _ & Hp0 & Hn0 & _).
    apply merge_kept; [done|done|lia|lia| |].
    + intros a b Hab. apply (live_apart (hm h) (ram h) l0 _ a b HL0). rewrite live_app in *. cbn in *. by rewrite app_nil_r in Hab.
    + intros a b Hab. pose proof HL as HL2. change ((n, false) :: l2) with ([(n, false)] ++ l2) in HL2. rewrite app_assoc in HL2.
      pose proof (live_apart _ _ _ _ a b HL2) as Hap. rewrite !end_of_app in Hap. cbn [end_of] in Hap. apply Hap. rewrite !live_app, !end_of_app. cbn. rewrite !app_nil_r.
      rewrite live_app in Hab. cbn in Hab. by rewrite app_nil_r in Hab.
  - exists (hm h). rewrite (plug_backward_none h l1 n l2 Hin E). destruct h. split_and!; first [done|apply data_kept_refl].
Qed.

Lemma assert_bind {A} msg b (f : unit → H A) h : b = true → (LWIP_ASSERT msg b ≫= f) h = f tt h.
Proof. by intros ->. Qed.

Lemma on_mem_run f h : on_mem f h = Ok tt (set_hm (f (hm h)) h).
Proof. reflexivity. Qed.

Lemma plug_run h l1 n l2 : in_order h (l1 ++ (n, false) :: l2) → noadj false l1 → noadj false l2 → ∃ m',
  plug_holes (ram h + end_of 0 l1) h = Ok tt (set_hm m' h) ∧ in_order (set_hm m' h) (join l1 n l2) ∧ data_kept (ram h) (live 0 l1 ++ live n l2) (hm h) m'.
Proof.
  intros Hin H1 H2. pose proof Hin as (Hr & He & HL & Hf). destruct (layout_at _ _ _ _ _ _ HL) as (E1 & E2 & Hp & Hn & HnN & _).
  destruct (forward_run h l1 n l2 Hin H2) as (m1 & n' & l2' & R1 & Hin1 & Hm & Hlv & K1). destruct (backward_run (set_hm m1 h) l1 n' l2' Hin1 H1) as (m2 & R2 & Hin2 & K2).
  cbn [ram set_hm hm] in *. exists m2. split; [|split].
  - unfold plug_holes. unfold gets at 1. unfold mbind at 1, M_bind at 1. cbn [id].
    rewrite !assert_bind by (first [lia|by rewrite E2|rewrite E1; by apply Z.leb_le]). rewrite (hrun_bind _ _ _ _ _ R1). exact R2.
  - unfold join. rewrite Hm. exact Hin2.
  - apply (data_kept_trans _ _ _ m1); [exact K1|]. by rewrite <- Hlv.
Qed.

Lemma free_order h l1 n l2 : in_order h (l1 ++ (n, true) :: l2) → let p := end_of 0 l1 in let h1 := set_hm (set_used (ram h + p) 0 (hm h)) h in
  in_order (if ram h + p <? lfree h then set_lfree (ram h + p) h1 else h1) (l1 ++ (n, false) :: l2).
Proof.
  intros (Hr & He & HL & Hf). cbv zeta. destruct (layout_at _ _ _ _ _ _ HL) as (E1 & E2 & Hp & Hn & HnN & _).
  pose proof (layout_mark (hm h) (ram h) l1 n true false l2 Hr HL) as HL'. cbn [cbool] in HL'. cbn [app] in HL'.
  destruct (first_free_le _ _ _ _ HL) as [Hff Hff2].
  assert (Hlf : if ram h + end_of 0 l1 <? lfree h then all_used l1 else ¬ all_used l1).
  { rewrite Hf. destruct (all_used_dec l1) as [Hu|Hu].
    - rewrite first_free_used by done. cbn [first_free]. change (l1 ++ (n, true) :: l2) with (l1 ++ [(n, true)] ++ l2) in HL. rewrite app_assoc in HL.
      destruct HL as [[qpv Hs] _]. apply seg_app in Hs as (k & kpv & H1 & H2). pose proof (seg_end _ _ _ _ _ _ _ H1) as Ek. rewrite end_of_app in Ek. cbn in Ek. subst k.
      destruct (first_free_range _ _ _ _ _ _ _ H2) as [? _]. assert ((ram h + end_of 0 l1 <? ram h + first_free n l2) = true) as -> by lia. done.
    - rewrite first_free_some by done. specialize (Hff2 Hu). assert ((ram h + end_of 0 l1 <? ram h + first_free 0 l1) = false) as -> by lia. done. }
  destruct (_ <? _).
  - split; [done|]. split; [done|]. split; [exact HL'|]. cbn. by rewrite first_free_used.
  - split; [done|]. split; [done|]. split; [exact HL'|]. cbn. rewrite Hf. by rewrite !first_free_some.
Qed.

Lemma land3 x : Z.land x 3 = x `mod` 4.
Proof. exact (Z.land_ones x 2 ltac:(lia)). Qed.

Lemma mem_free_ok h l1 n l2 : heap_ok h (l1 ++ (n, true) :: l2) → ∃ h', mem_free (ram h + end_of 0 l1 + 12) h = Ok tt h' ∧
  heap_ok h' (join l1 n l2) ∧ ram h' = ram h ∧ data_kept (ram h) (live 0 l1 ++ live n l2) (hm h) (hm h').
Proof.
  intros (Hin & Hna & Hsem). pose proof Hin as (Hr & He & HL & Hf). pose proof Hr as (Hr0 & Hr4 & HrN). destruct (layout_at _ _ _ _ _ _ HL) as (E1 & E2 & Hp & Hn & HnN & Hp4 & _).
  apply noadj_app in Hna as [Hn1 Hn2]. cbn in Hn2. destruct Hn2 as [_ Hn2]. set (p := end_of 0 l1) in *.
  destruct (wait_run h Hsem) as (s1 & Rw & Hheld). pose proof (free_order h l1 n l2 Hin) as Hin1. cbv zeta in Hin1. fold p in Hin1.
  set (h2 := if ram h + p <? lfree h then _ else _) in *.
  assert (Eh2 : ram h2 = ram h ∧ hm h2 = set_used (ram h + p) 0 (hm h) ∧ hsys h2 = hsys h ∧ mem_sem h2 = mem_sem h) by (unfold h2; by destruct (_ <? _)).
  destruct Eh2 as (Er & Em & Es & Ei). assert (Hin2 : in_order (set_hsys s1 h2) (l1 ++ (n, false) :: l2)) by (unfold h2 in *; destruct (_ <? _); exact Hin1).
  destruct (plug_run (set_hsys s1 h2) l1 n l2 Hin2 Hn1 Hn2) as (m' & Rp & Hin3 & K).
  destruct (signal_ready (set_hm m' (set_hsys s1 h2))) as (s2 & Rs & Hready); [cbn; by rewrite Ei|]. cbn [ram set_hsys hm set_hm mem_sem] in *. rewrite Er in *.
  exists (set_hsys s2 (set_hm m' (set_hsys s1 h2))). split; [|split; [|split]].
  - unfold mem_free. assert ((ram h + p + 12 =? 0) = false) as -> by lia. unfold gets at 1. unfold mbind at 1, M_bind at 1. cbn [id].
    rewrite !assert_bind by (first [unfold MEM_ALIGNMENT; rewrite land3; apply Z.eqb_eq; Z.to_euclidean_division_equations; lia|lia]).
    assert (((ram h + p + 12 <? ram h) || (ram h + p + 12 >=? ram_end h)) = false) as -> by lia.
    rewrite (hrun_bind _ _ _ _ _ Rw). rewrite sizeof_eq. replace (ram h + p + 12 - 12) with (ram h + p) by lia. rewrite u32_small by lia. cbv zeta.
    rewrite assert_bind by (by rewrite E2).
    rewrite (hrun_bind _ _ _ _ _ (on_mem_run _ _)). cbn [hm set_hsys].
    assert (Elf : (if ram h + p <? lfree h then modify (set_lfree (ram h + p)) else mret tt : H unit) (set_hm (set_used (ram h + p) 0 (hm h)) (set_hsys s1 h)) = Ok tt (set_hsys s1 h2)).
    { unfold h2. by destruct (_ <? _). }
    rewrite (hrun_bind _ _ _ _ _ Elf), (hrun_bind _ _ _ _ _ Rp). exact Rs.
  - split; [exact Hin3|]. split; [by apply join_noadj|]. cbn. by rewrite Ei in *.
  - exact Er.
  - cbn. apply (data_kept_trans _ _ _ (hm h2)); [|exact K]. rewrite Em. apply mark_kept; [done|lia|].
    intros a b Hab. destruct (live_sides _ _ _ _ a b HL) as [S1 S2]. fold p in S1, S2. apply elem_of_app in Hab as [Hab|Hab]; [right; auto|left; apply S2; cbn; by right].
Qed.

(** ** mem_malloc *)

Fixpoint no_fit (size p : Z) (l : list (Z * bool)) : Prop :=
  match l with [] => True | (n, u) :: l => (u = true ∨ n < p + 12 + size) ∧ no_fit size n l end.

Lemma no_fit_app size p l1 l2 : no_fit size p (l1 ++ l2) ↔ no_fit size p l1 ∧ no_fit size (end_of p l1) l2.
Proof. revert p. induction l1 as [|[n u] l1 IH]; intros p; cbn; [tauto|]. rewrite IH. tauto. Qed.
Lemma no_fit_used size p l : all_used l → no_fit size p l.
Proof. revert p. induction l as [|[n u] l IH]; intros p Hu; cbn; [done|]. apply Forall_cons in Hu as [Hu Hl]. split; [by left|by apply IH]. Qed.
Lemma no_fit_high m r size p pv l qpv : seg m r p pv l N qpv → N - size ≤ p → no_fit size p l.
Proof.
  revert p pv. induction l as [|[n u] l IH]; intros p pv; cbn; [done|]. intros (_ & Hn & _ & Hl) Hp. destruct (seg_le _ _ _ _ _ _ _ Hl) as [? _].
  split; [right; lia|]. apply (IH n p Hl). lia.
Qed.

Lemma first_free_prefix p l : ∃ l1 l2, l = l1 ++ l2 ∧ all_used l1 ∧ first_free p l = end_of p l1 ∧ (l2 = [] ∨ ∃ n l3, l2 = (n, false) :: l3).
Proof.
  revert p. induction l as [|[n u] l IH]; intros p.
  - exists [], []. split; [done|]. split; [constructor|]. split; [done|by left].
  - destruct u.
    + destruct (IH n) as (l1 & l2 & -> & Hu & Hf & Hc). exists ((n, true) :: l1), l2. split; [done|]. split; [by constructor|]. split; [exact Hf|exact Hc].
    + exists [], ((n, false) :: l). split; [done|]. split; [constructor|]. split; [done|]. right. eauto.
Qed.

Lemma layout_seg m r l1 l2 : layout m r (l1 ++ l2) → ∃ pv qpv, seg m r (end_of 0 l1) pv l2 N qpv.
Proof. intros [[qpv Hs] _]. apply seg_app in Hs as (p & pv & H1 & H2). rewrite (seg_end _ _ _ _ _ _ _ H1). eauto. Qed.

(** The scan takes the first unused block that is large enough. *)
Lemma search_ok h l size : in_order h l → 0 ≤ size ≤ N →
  (malloc_search h size = Some None ∧ no_fit size 0 l) ∨
  (∃ l1 n l2, l = l1 ++ (n, false) :: l2 ∧ malloc_search h size = Some (Some (end_of 0 l1)) ∧ no_fit size 0 l1 ∧ end_of 0 l1 + 12 + size ≤ n).
Proof.
  intros (Hr & He & HL & Hf) Hsize. pose proof Hr as (Hr0 & _ & HrN). unfold malloc_search. match goal with |- context [while ?f _] => set (body := f) end.
  destruct (first_free_prefix 0 l) as (l1 & l2 & El & Hu & Hff & _).
  assert (Hstart : u32 (lfree h - ram h) = end_of 0 l1).
  { rewrite Hf, Hff. replace (ram h + end_of 0 l1 - ram h) with (end_of 0 l1) by lia. rewrite El in HL. destruct (layout_le _ _ _ _ HL). apply u32_small. lia. }
  rewrite Hstart. destruct (while_total body
    (λ ptr, ∃ l1 l2, l = l1 ++ l2 ∧ ptr = end_of 0 l1 ∧ no_fit size 0 l1) (λ ptr, Z.to_nat (N - ptr))
    (λ res, match res with
            | None => no_fit size 0 l
            | Some ptr => ∃ l1 n l2, l = l1 ++ (n, false) :: l2 ∧ ptr = end_of 0 l1 ∧ no_fit size 0 l1 ∧ ptr + 12 + size ≤ n
            end) (end_of 0 l1)) as ([ptr|] & Ew & Hres).
  - exists l1, l2. split; [done|]. split; [done|]. by apply no_fit_used.
  - rewrite El in HL. destruct (layout_le _ _ _ _ HL). lia.
  - intros ptr (k1 & k2 & Ek & -> & Hnf). rewrite Ek in HL. unfold body. rewrite N_eq, sizeof_eq, u32_small by lia. destruct (layout_seg _ _ _ _ HL) as (pv & qpv & Hs).
    destruct (layout_le _ _ _ _ HL) as (Hk & Hk' & _). destruct (end_of 0 k1 <? N - size) eqn:E.
    + destruct k2 as [|[n u] k2]; [cbn in Hs; lia|]. destruct (layout_at _ _ _ _ _ _ HL) as (E1 & E2 & Hp & Hn & HnN & _). cbv zeta.
      rewrite at_ram_ok by (done || lia). rewrite E1, E2. rewrite (u32_small (end_of 0 k1 + 12)), u32_small by lia.
      destruct (negb (ctrue (cbool u)) && (n - (end_of 0 k1 + 12) >=? size)) eqn:Efit.
      * apply andb_true_iff in Efit as [Hfree Hfit]. destruct u; [done|]. exists k1, n, k2. split; [exact Ek|]. split; [done|]. split; [done|]. lia.
      * split; [|lia]. exists (k1 ++ [(n, u)]), k2. rewrite <- app_assoc. split; [exact Ek|]. split; [by rewrite end_of_app|]. apply no_fit_app. split; [done|]. cbn. split; [|done].
        destruct u; [by left|right]. cbn in Efit. lia.
    + rewrite Ek. apply no_fit_app. split; [done|]. apply (no_fit_high _ _ _ _ _ _ _ Hs). lia.
  - right. destruct Hres as (k1 & n & k2 & Ek & -> & Hnf & Hfit). exists k1, n, k2. done.
  - left. done.
Qed.

Lemma next_free_ok h l1 l2 : placed (ram h) → ram_end h = ram h + N → layout (hm h) (ram h) (l1 ++ l2) → all_used l1 →
  next_free h (ram h + end_of 0 l1) = Some (ram h + first_free 0 (l1 ++ l2)).
Proof.
  intros Hr He HL Hu. pose proof Hr as (Hr0 & _ & HrN). unfold next_free. match goal with |- context [while ?f _] => set (body := f) end.
  destruct (while_total body (λ x, ∃ k1 k2, l1 ++ l2 = k1 ++ k2 ∧ x = ram h + end_of 0 k1 ∧ all_used k1) (λ x, Z.to_nat (ram h + N - x))
    (λ x, x = ram h + first_free 0 (l1 ++ l2)) (ram h + end_of 0 l1)) as (x & Ew & ->); [by exists l1, l2|destruct (layout_le _ _ _ _ HL); lia| |exact Ew].
  intros x (k1 & k2 & Ek & -> & Hk). rewrite Ek in *. unfold body. destruct (layout_le _ _ _ _ HL) as (Hk0 & Hk1 & Hk2). rewrite first_free_used by done. destruct k2 as [|[n u] k2].
  - rewrite Hk2 by done. assert ((ram h + N =? ram_end h) = true) as -> by lia. rewrite andb_false_r. reflexivity.
  - destruct (layout_at _ _ _ _ _ _ HL) as (E1 & E2 & Hp & Hn & HnN & _). rewrite E1, E2. assert ((ram h + end_of 0 k1 =? ram_end h) = false) as -> by (specialize (Hk1 ltac:(done)); lia).
    cbn [negb]. rewrite andb_true_r. destruct u; cbn [ctrue cbool Z.eqb negb]; [|done]. rewrite at_ram_ok by (done || lia). split; [|lia].
    exists (k1 ++ [(n, true)]), k2. rewrite <- app_assoc. split; [done|]. rewrite end_of_app. split; [done|]. apply Forall_app. split; [done|]. by constructor.
Qed.

Lemma split_kept mark r lv m p p2 n : placed r → 0 ≤ p → p ≤ p2 → p2 ≤ n → n ≤ N →
  (∀ a b, (a, b) ∈ lv → (p ≤ a ∨ b ≤ p) ∧ (p2 ≤ a ∨ b ≤ p2) ∧ (n ≤ a ∨ b ≤ n)) → data_kept r lv m (split_at mark r p p2 n m).
Proof.
  intros (Hr & _ & HrN) Hp H2 Hn HN Hlv x Hx Hin.
  assert (Hout : (x < r + p ∨ r + p + 12 ≤ x) ∧ (x < r + p2 ∨ r + p2 + 12 ≤ x) ∧ (x < r + n ∨ r + n + 12 ≤ x)).
  { destruct Hin as [?|[?|(a & b & Hin & Hab)]]; [lia|lia|]. destruct (Hlv a b Hin) as (? & ? & ?). lia. }
  destruct Hout as (? & ? & ?). unfold split_at. cbv zeta.
  destruct (n =? N), mark; repeat first [rewrite ld_set_next by (first [split; lia|lia])|rewrite ld_set_prev by (first [split; lia|lia])|rewrite ld_set_used by (first [split; lia|lia])]; done.
Qed.

(** The block [p, n) when [size] bytes of it are taken. *)
Definition took (p n size : Z) : list (Z * bool) :=
  if p + 12 + size + 24 <=? n then [(p + 12 + size, true); (n, false)] else [(n, true)].

Lemma take_run h l1 n l2 size : placed (ram h) → layout (hm h) (ram h) (l1 ++ (n, false) :: l2) → let p := end_of 0 l1 in p + 12 + size ≤ n → 12 ≤ size → size `mod` 4 = 0 → ∃ m',
  malloc_take p size h = Ok tt (set_hm m' h) ∧ layout m' (ram h) (l1 ++ took p n size ++ l2) ∧ data_kept (ram h) (live 0 l1 ++ live n l2) (hm h) m'.
Proof.
  intros Hr HL p Hfit Hs Hs4. pose proof Hr as (Hr0 & _ & HrN). destruct (layout_at _ _ _ _ _ _ HL) as (E1 & E2 & Hp & Hn & HnN & Hp4 & Hn4). fold p in E1, E2, Hp, Hn, Hp4.
  assert (Hlv : ∀ a b, (a, b) ∈ live 0 l1 ++ live n l2 → b ≤ p ∨ n ≤ a).
  { intros a b Hab. destruct (live_sides _ _ _ _ a b HL) as [S1 _]. change ((n, false) :: l2) with ([(n, false)] ++ l2) in HL. rewrite app_assoc in HL.
    destruct (live_sides _ _ _ _ a b HL) as [_ S2]. rewrite end_of_app in S2. cbn [end_of] in S2. apply elem_of_app in Hab as [Hab|Hab]; auto. }
  unfold malloc_take, gets, mbind, M_bind, id, took. rewrite at_ram_ok by (done || lia). rewrite E1, sizeof_eq, min_eq, (u32_small (p + 12)), (u32_small (n - _)), (u32_small (size + 12 + 12)), (u32_small (p + 12 + size)) by lia.
  destruct (p + 12 + size + 24 <=? n) eqn:E.
  - assert ((n - (p + 12) >=? size + 12 + 12) = true) as -> by lia. rewrite at_ram_ok by (done || lia). unfold on_mem, modify. cbn [hm set_hm ram].
    exists (split_at true (ram h) p (p + 12 + size) n (hm h)). split; [|split].
    + match goal with |- context [negb (?x =? _)] => assert (x = n) as -> by (hread; done) end. rewrite N_eq. unfold split_at. cbv zeta.
      destruct (n =? N); [done|]. cbn [negb]. by rewrite at_ram_ok by (done || lia).
    + apply (layout_split true (hm h) (ram h) l1 n false (p + 12 + size) l2 Hr HL); fold p; [lia|lia|Z.to_euclidean_division_equations; lia].
    + apply split_kept; [done|lia..|]. intros a b Hab. destruct (Hlv a b Hab); lia.
  - assert ((n - (p + 12) >=? size + 12 + 12) = false) as -> by lia. exists (set_used (ram h + p) 1 (hm h)). split; [done|]. split.
    + exact (layout_mark (hm h) (ram h) l1 n false true l2 Hr HL).
    + apply mark_kept; [done|lia|]. intros a b Hab. destruct (Hlv a b Hab); lia.
Qed.

Lemma took_noadj l1 p n size l2 : noadj false (l1 ++ (n, false) :: l2) → noadj false (l1 ++ took p n size ++ l2).
Proof.
  intros H. apply noadj_app in H as [H1 [H2 H3]]. cbn in H3. apply noadj_app. split; [done|]. unfold took. destruct (_ <=? _); cbn.
  - split; [by left|]. split; [by right|done].
  - split; [by left|]. by apply (noadj_weak true).
Qed.

Lemma first_free_flag m r l : layout m r l → first_free 0 l = N ∨ m_used m (r + first_free 0 l) = 0.
Proof.
  intros HL. destruct (first_free_prefix 0 l) as (l1 & l2 & -> & Hu & Hf & [-> |(n & l3 & ->)]); rewrite Hf.
  - left. by apply (layout_le _ _ _ _ HL).
  - right. by destruct (layout_at _ _ _ _ _ _ HL) as (_ & E & _).
Qed.

Lemma lfree_run h m l1 n l2 k : in_order h (l1 ++ (n, false) :: l2) → layout m (ram h) (l1 ++ k ++ l2) → (∃ n' k', k = (n', true) :: k') →
  ∃ lf, lfree_update (ram h + end_of 0 l1) (set_hm m h) = Ok tt (set_lfree lf (set_hm m h)) ∧ in_order (set_lfree lf (set_hm m h)) (l1 ++ k ++ l2).
Proof.
  intros (Hr & He & HL & Hf) HL' (n' & k' & ->). destruct (layout_at _ _ _ _ _ _ HL) as (E1 & E2 & Hp & Hn & HnN & _). destruct (first_free_le _ _ _ _ HL) as [Hff Hff2].
  unfold lfree_update, gets. unfold mbind at 1, M_bind at 1. cbn [id set_hm lfree]. rewrite Hf. destruct (all_used_dec l1) as [Hu|Hu].
  - rewrite first_free_used by done. cbn [first_free]. rewrite Z.eqb_refl.
    exists (ram h + first_free 0 (l1 ++ ((n', true) :: k') ++ l2)). split.
    + unfold mbind at 1, M_bind at 1. pose proof (next_free_ok (set_hm m h) l1 (((n', true) :: k') ++ l2) Hr He HL' Hu) as Enf. cbn [ram set_hm] in Enf. rewrite Enf. cbn [ends].
      unfold mret, M_ret, modify, mbind, M_bind. cbn [ram_end set_hm hm set_lfree]. unfold LWIP_ASSERT.
      destruct (first_free_flag _ _ _ HL') as [E|E]; [rewrite E; assert ((ram h + N =? ram_end h) = true) as -> by lia; done|]. rewrite E. cbn [ctrue Z.eqb negb]. by rewrite orb_true_r.
    + split; [done|]. split; [done|]. split; [exact HL'|done].
  - rewrite first_free_some by done. specialize (Hff2 Hu). assert ((ram h + end_of 0 l1 =? ram h + first_free 0 l1) = false) as -> by lia.
    exists (lfree h). split; [reflexivity|]. split; [done|]. split; [done|]. split; [exact HL'|]. cbn [lfree set_lfree ram set_hm]. rewrite Hf. by rewrite !first_free_some.
Qed.

Lemma no_fit_large m r size l : layout m r l → N < size → no_fit size 0 l.
Proof. intros [[qpv Hs] _] Hsize. apply (no_fit_high m r size 0 0 l qpv Hs). lia. Qed.

Lemma live_took l1 p n size l2 a b : end_of 0 l1 = p → (a, b) ∈ live 0 (l1 ++ took p n size ++ l2) ↔
  (a, b) = (p, if p + 12 + size + 24 <=? n then p + 12 + size else n) ∨ (a, b) ∈ live 0 (l1 ++ (n, false) :: l2).
Proof.
  intros Hp. rewrite !live_app, Hp. unfold took. destruct (_ <=? _); cbn; rewrite !elem_of_app, elem_of_cons; tauto.
Qed.

(** What mem_malloc does with the request of [bs] bytes. *)
Definition malloc_post (h : heap) (l : list (Z * bool)) (bs r : Z) (h' : heap) : Prop :=
  (r = 0 ∧ heap_ok h' l ∧ hm h' = hm h ∧ no_fit bs 0 l) ∨
  (∃ l1 n l2, let p := end_of 0 l1 in l = l1 ++ (n, false) :: l2 ∧ no_fit bs 0 l1 ∧ p + 12 + bs ≤ n ∧ r = ram h + p + 12 ∧
    heap_ok h' (l1 ++ took p n bs ++ l2) ∧ data_kept (ram h) (live 0 l) (hm h) (hm h')).

Lemma gets_id h : (gets id : H heap) h = Ok h h.
Proof. reflexivity. Qed.
Lemma ends_run {A} (r : option A) a h : r = Some a → ends r h = Ok a h.
Proof. by intros ->. Qed.

Lemma mem_malloc_ok h l size : heap_ok h l → 0 < size ≤ 4294967292 →
  ∃ r h', mem_malloc size h = Ok r h' ∧ ram h' = ram h ∧ malloc_post h l (block_size size) r h'.
Proof.
  intros Hok Hsize. pose proof Hok as (Hin & Hna & Hsem). pose proof Hin as (Hr & He & HL & Hf). pose proof Hr as (Hr0 & Hr4 & HrN).
  destruct (block_size_spec size ltac:(lia)) as (Hbs & Hbs12 & Hbs4). unfold mem_malloc. assert ((size =? 0) = false) as -> by lia. rewrite align_size by lia.
  cbv zeta. rewrite min_eq. fold (block_size size). set (bs := block_size size) in *. rewrite N_eq. destruct (bs >? N) eqn:Ebig.
  { exists 0, h. split; [done|]. split; [done|]. left. split_and!; try done. apply (no_fit_large _ _ _ _ HL). lia. }
  destruct (wait_run h Hsem) as (s1 & Rw & Hheld). rewrite (hrun_bind _ _ _ _ _ Rw). rewrite (hrun_bind _ _ _ _ _ (gets_id _)).
  assert (Hin1 : in_order (set_hsys s1 h) l) by exact Hin. destruct (search_ok (set_hsys s1 h) l bs Hin1 ltac:(lia)) as [[Esearch Hnf]|(l1 & n & l2 & -> & Esearch & Hnf & Hfit)]; rewrite (hrun_bind _ _ _ _ _ (ends_run _ _ _ Esearch)).
  - destruct (signal_ready (set_hsys s1 h) Hheld) as (s2 & Rs & Hready). rewrite (hrun_bind _ _ _ _ _ Rs).
    eexists 0, _. split; [reflexivity|]. split; [done|]. left. split; [done|]. split; [|done]. by split.
  - cbv zeta. destruct (layout_at _ _ _ _ _ _ HL) as (E1 & E2 & Hp & Hn & HnN & Hp4 & _).
    rewrite at_ram_ok by (done || lia). cbn [ram set_hsys]. destruct (take_run (set_hsys s1 h) l1 n l2 bs Hr HL Hfit Hbs12 Hbs4) as (m' & Rt & HL' & K).
    rewrite (hrun_bind _ _ _ _ _ Rt). destruct (lfree_run (set_hsys s1 h) m' l1 n l2 (took (end_of 0 l1) n bs) Hin1 HL') as (lf & Rl & Hin2).
    { unfold took. destruct (_ <=? _); eauto. }
    cbn [ram set_hsys] in Rl. rewrite (hrun_bind _ _ _ _ _ Rl). set (h2 := set_lfree lf (set_hm m' (set_hsys s1 h))) in *.
    destruct (signal_ready h2 Hheld) as (s2 & Rs & Hready). rewrite (hrun_bind _ _ _ _ _ Rs). rewrite sizeof_eq. cbn [ram_end set_hsys].
    rewrite !assert_bind by (first [rewrite u32_small by lia; lia|unfold MEM_ALIGNMENT; rewrite ?land3, ?u32_small by lia; apply Z.eqb_eq; Z.to_euclidean_division_equations; lia]).
    rewrite u32_small by lia. eexists _, _. split; [reflexivity|]. split; [done|]. right. exists l1, n, l2. cbv zeta. split; [done|]. split; [done|]. split; [done|]. split; [done|]. split.
    + split; [exact Hin2|]. split; [by apply took_noadj|exact Hready].
    + rewrite live_app. cbn. exact K.
Qed.

(** ** mem_realloc *)

(** The blocks after [p, n) shrank to [size] bytes. *)
Definition shrunk_blocks (l1 : list (Z * bool)) (p n size : Z) (l2 : list (Z * bool)) : list (Z * bool) :=
  match l2 with
  | (n2, false) :: l2 => l1 ++ (p + 12 + size, true) :: (n2, false) :: l2
  | _ => if p + 12 + size + 24 <=? n then l1 ++ (p + 12 + size, true) :: (n, false) :: l2 else l1 ++ (n, true) :: l2
  end.

Section Realloc.
Variables (h : heap) (l1 l2 : list (Z * bool)) (n size : Z).
Hypotheses (Hin : in_order h (l1 ++ (n, true) :: l2)) (Hna : noadj false (l1 ++ (n, true) :: l2)).
Hypotheses (Hs12 : 12 ≤ size) (Hs4 : size `mod` 4 = 0) (Hlt : end_of 0 l1 + 12 + size < n).

Let p := end_of 0 l1.
Let p2 := p + 12 + size.

Lemma realloc_place : 0 ≤ p ∧ p + 24 ≤ p2 ∧ p2 < n ∧ n ≤ N ∧ p2 `mod` 4 = 0 ∧ n `mod` 4 = 0.
Proof.
  destruct Hin as (_ & _ & HL & _). destruct (layout_at _ _ _ _ _ _ HL) as (_ & _ & Hp & Hn & HnN & Hp4 & Hn4). fold p in Hp, Hn, Hp4, Hlt. subst p2.
  split_and!; try lia. Z.to_euclidean_division_equations; lia.
Qed.

Lemma realloc_move_run n2 l3 : l2 = (n2, false) :: l3 → ∃ h', realloc_move (ram h + p) p size h = Ok tt h' ∧ in_order h' (l1 ++ (p2, true) :: (n2, false) :: l3) ∧
  ram h' = ram h ∧ hsys h' = hsys h ∧ mem_sem h' = mem_sem h ∧ data_kept (ram h) ((p, p2) :: live 0 l1 ++ live n l2) (hm h) (hm h').
Proof.
  intros El. destruct realloc_place as (Hp & Hpp2 & Hp2n & HnN & Hp24 & Hn4). pose proof Hin as (Hr & He & HL & Hf). rewrite El in HL, Hf |- *. pose proof Hr as (Hr0 & _ & HrN).
  destruct (layout_at _ _ _ _ _ _ HL) as (E1 & E2 & _). fold p in E1, E2.
  pose proof HL as HL2. change (l1 ++ (n, true) :: (n2, false) :: l3) with (l1 ++ [(n, true)] ++ (n2, false) :: l3) in HL2. rewrite app_assoc in HL2.
  destruct (layout_at _ _ _ _ _ _ HL2) as (F1 & F2 & _ & Hnn2 & HnN2 & _). rewrite end_of_app in F1, F2, Hnn2. cbn [end_of] in F1, F2, Hnn2.
  set (lf := if lfree h =? ram h + n then ram h + p2 else lfree h). set (m' := move_at (ram h) p p2 n2 (hm h)).
  exists (set_hm m' (set_lfree lf h)). split; [|split; [|do 3 (split; [done|])]].
  - unfold realloc_move. rewrite (hrun_bind _ _ _ _ _ (gets_id _)). cbv zeta. rewrite E1, (at_ram_ok h n), F1, sizeof_eq by (done || lia). fold p2. rewrite (u32_small p2), (at_ram_ok h p2) by (done || lia).
    assert (Elf : (if lfree h =? ram h + n then modify (set_lfree (ram h + p2)) else mret tt : H unit) h = Ok tt (set_lfree lf h)) by (unfold lf; destruct h, (_ =? _); done).
    rewrite (hrun_bind _ _ _ _ _ Elf). rewrite !(hrun_bind _ _ _ _ _ (on_mem_run _ _)). cbn [hm set_hm set_lfree]. unfold gets at 1. unfold mbind at 1, M_bind at 1. cbn [hm set_hm].
    match goal with |- context [negb (?x =? _)] => assert (x = n2) as -> by (hread; done) end. rewrite N_eq. unfold m', move_at, split_at. cbv zeta.
    destruct (n2 =? N); [done|]. cbn [negb]. rewrite at_ram_ok by (done || lia). reflexivity.
  - split; [done|]. split; [done|]. split; [apply (layout_move (hm h) (ram h) l1 n true n2 p2 l3 Hr HL); fold p; [lia|lia|done]|].
    cbn [lfree set_hm set_lfree ram]. unfold lf. rewrite Hf. destruct (first_free_le _ _ _ _ HL) as [Hff Hff2]. fold p in Hff, Hff2. destruct (all_used_dec l1) as [Hu|Hu].
    + rewrite !first_free_used by done. cbn [first_free]. by rewrite Z.eqb_refl.
    + rewrite !first_free_some by done. specialize (Hff2 Hu). assert ((ram h + first_free 0 l1 =? ram h + n) = false) as -> by lia. done.
  - cbn [hm set_hm]. unfold m', move_at. apply split_kept; [done|lia..|]. intros a b Hab. rewrite elem_of_cons in Hab. destruct Hab as [[= -> ->]|Hab]; [lia|].
    destruct (live_sides _ _ _ _ a b HL) as [S1 _]. change (l1 ++ (n, true) :: (n2, false) :: l3) with (l1 ++ [(n, true); (n2, false)] ++ l3) in HL. rewrite app_assoc in HL.
    destruct (live_sides _ _ _ _ a b HL) as [_ S2]. rewrite end_of_app in S2. cbn [end_of] in S2. fold p in S1. cbn [live] in Hab.
    apply elem_of_app in Hab as [Hab|Hab]; [specialize (S1 Hab); lia|specialize (S2 Hab); lia].
Qed.

Lemma realloc_split_run : noadj true l2 → p2 + 24 ≤ n → ∃ h', realloc_split (ram h + p) p size h = Ok tt h' ∧ in_order h' (l1 ++ (p2, true) :: (n, false) :: l2) ∧
  ram h' = ram h ∧ hsys h' = hsys h ∧ mem_sem h' = mem_sem h ∧ data_kept (ram h) ((p, p2) :: live 0 l1 ++ live n l2) (hm h) (hm h').
Proof.
  intros Hna2 Hroom. destruct realloc_place as (Hp & Hpp2 & Hp2n & HnN & Hp24 & Hn4). pose proof Hin as (Hr & He & HL & Hf). pose proof Hr as (Hr0 & _ & HrN).
  destruct (layout_at _ _ _ _ _ _ HL) as (E1 & E2 & _). fold p in E1, E2.
  pose proof HL as HL2. change (l1 ++ (n, true) :: l2) with (l1 ++ [(n, true)] ++ l2) in HL2. rewrite app_assoc in HL2.
  set (lf := if ram h + p2 <? lfree h then ram h + p2 else lfree h). set (m' := split_at false (ram h) p p2 n (hm h)).
  exists (set_hm m' (set_lfree lf h)). split; [|split; [|do 3 (split; [done|])]].
  - unfold realloc_split. rewrite (hrun_bind _ _ _ _ _ (gets_id _)). cbv zeta. rewrite E1, sizeof_eq. fold p2. rewrite (u32_small p2), (at_ram_ok h p2) by (done || lia).
    assert (Elf : (if ram h + p2 <? lfree h then modify (set_lfree (ram h + p2)) else mret tt : H unit) h = Ok tt (set_lfree lf h)) by (unfold lf; destruct h, (_ <? _); done).
    rewrite (hrun_bind _ _ _ _ _ Elf). rewrite !(hrun_bind _ _ _ _ _ (on_mem_run _ _)). cbn [hm set_hm set_lfree]. unfold gets at 1. unfold mbind at 1, M_bind at 1. cbn [hm set_hm].
    match goal with |- context [negb (?x =? _)] => assert (x = n) as -> by (hread; done) end. rewrite N_eq. unfold m', split_at. cbv zeta.
    destruct (n =? N); [done|]. cbn [negb]. rewrite at_ram_ok by (done || lia). reflexivity.
  - split; [done|]. split; [done|]. split; [apply (layout_split false (hm h) (ram h) l1 n true p2 l2 Hr HL); fold p; [lia|lia|done]|].
    cbn [lfree set_hm set_lfree ram]. unfold lf. rewrite Hf. destruct (first_free_le _ _ _ _ HL) as [Hff Hff2]. fold p in Hff, Hff2. destruct (all_used_dec l1) as [Hu|Hu].
    + rewrite !first_free_used by done. cbn [first_free]. destruct (layout_seg _ _ _ _ HL2) as (pv & qpv & Hs). rewrite end_of_app in Hs. cbn [end_of] in Hs.
      destruct (first_free_range _ _ _ _ _ _ _ Hs) as [? _]. assert ((ram h + p2 <? ram h + first_free n l2) = true) as -> by lia. done.
    + rewrite !first_free_some by done. specialize (Hff2 Hu). assert ((ram h + p2 <? ram h + first_free 0 l1) = false) as -> by lia. done.
  - cbn [hm set_hm]. unfold m'. apply split_kept; [done|lia..|]. intros a b Hab. rewrite elem_of_cons in Hab. destruct Hab as [[= -> ->]|Hab]; [lia|].
    destruct (live_sides _ _ _ _ a b HL) as [S1 _]. destruct (live_sides _ _ _ _ a b HL2) as [_ S2]. rewrite end_of_app in S2. cbn [end_of] in S2. fold p in S1.
    apply elem_of_app in Hab as [Hab|Hab]; [specialize (S1 Hab); lia|specialize (S2 Hab); lia].
Qed.
End Realloc.

Definition starts_free (l : list (Z * bool)) : bool := match l with (_, false) :: _ => true | _ => false end.

Lemma next_flag m r l1 n u l2 : layout m r (l1 ++ (n, u) :: l2) → (m_used m (r + n) =? 0) = starts_free l2.
Proof.
  intros HL. change (l1 ++ (n, u) :: l2) with (l1 ++ [(n, u)] ++ l2) in HL. rewrite app_assoc in HL. destruct l2 as [|[n2 u2] l2].
  - destruct (layout_le _ _ _ _ HL) as (_ & _ & HN). rewrite end_of_app in HN. cbn in HN. rewrite HN by done. by destruct HL as (_ & -> & _).
  - destruct (layout_at _ _ _ _ _ _ HL) as (_ & F2 & _). rewrite end_of_app in F2. cbn [end_of] in F2. rewrite F2. by destruct u2.
Qed.

Lemma shrunk_used l1 p n size l2 : starts_free l2 = false →
  shrunk_blocks l1 p n size l2 = if p + 12 + size + 24 <=? n then l1 ++ (p + 12 + size, true) :: (n, false) :: l2 else l1 ++ (n, true) :: l2.
Proof. by destruct l2 as [|[n2 [|]] l2]. Qed.
Lemma noadj_used l : starts_free l = false → noadj false l → noadj true l.
Proof. destruct l as [|[n [|]] l]; cbn; [done| |done]. intros _ [_ H]. split; [by left|done]. Qed.

(** The part of mem_realloc under the semaphore. *)
Lemma shrink_run h l1 n l2 bs : in_order h (l1 ++ (n, true) :: l2) → noadj false (l1 ++ (n, true) :: l2) → 12 ≤ bs → bs `mod` 4 = 0 → let p := end_of 0 l1 in p + 12 + bs < n →
  ∃ h', (if m_used (hm h) (ram h + n) =? 0 then realloc_move (ram h + p) p bs
         else if u32 (bs + 12 + 12) <=? n - p - 12 then realloc_split (ram h + p) p bs else mret tt) h = Ok tt h' ∧
    in_order h' (shrunk_blocks l1 p n bs l2) ∧ noadj false (shrunk_blocks l1 p n bs l2) ∧ ram h' = ram h ∧ hsys h' = hsys h ∧ mem_sem h' = mem_sem h ∧
    data_kept (ram h) ((p, p + 12 + bs) :: live 0 l1 ++ live n l2) (hm h) (hm h').
Proof.
  intros Hin Hna Hbs12 Hbs4 p Hlt. pose proof Hin as (_ & _ & HL & _). destruct (layout_at _ _ _ _ _ _ HL) as (_ & _ & Hp & _ & HnN & _). fold p in Hp.
  apply noadj_app in Hna as [Hn1 [_ Hn2]]. cbn in Hn2. rewrite (next_flag _ _ _ _ _ _ HL), u32_small by lia. destruct (starts_free l2) eqn:Esf.
  - destruct l2 as [|[n2 [|]] l3]; [done|done|]. destruct (realloc_move_run h l1 _ n bs Hin Hbs12 Hbs4 Hlt n2 l3 eq_refl) as (h1 & R & Hin' & Er & Es & Em & K).
    exists h1. split; [exact R|]. split; [exact Hin'|]. split; [|done]. apply noadj_app. split; [done|]. cbn in *. tauto.
  - rewrite shrunk_used by done. pose proof (noadj_used l2 Esf Hn2) as Hn2'. destruct (p + 12 + bs + 24 <=? n) eqn:E.
    + assert ((bs + 12 + 12 <=? n - p - 12) = true) as -> by lia.
      destruct (realloc_split_run h l1 l2 n bs Hin Hbs12 Hbs4 Hlt Hn2') as (h1 & R & Hin' & Er & Es & Em & K); [fold p; lia|].
      exists h1. split; [exact R|]. split; [exact Hin'|]. split; [|done]. apply noadj_app. split; [done|]. cbn. tauto.
    + assert ((bs + 12 + 12 <=? n - p - 12) = false) as -> by lia. exists h. split; [done|]. split; [done|]. split; [apply noadj_app; split; [done|]; cbn; tauto|].
      do 3 (split; [done|]). apply data_kept_refl.
Qed.

Lemma mem_realloc_ok h l1 n l2 newsize : heap_ok h (l1 ++ (n, true) :: l2) → 0 ≤ newsize ≤ 4294967292 → let p := end_of 0 l1 in
  p + 12 + block_size newsize ≤ n → ∃ h', mem_realloc (ram h + p + 12) newsize h = Ok (ram h + p + 12) h' ∧ ram h' = ram h ∧
    heap_ok h' (if p + 12 + block_size newsize =? n then l1 ++ (n, true) :: l2 else shrunk_blocks l1 p n (block_size newsize) l2) ∧
    data_kept (ram h) ((p, p + 12 + block_size newsize) :: live 0 l1 ++ live n l2) (hm h) (hm h').
Proof.
  intros (Hin & Hna & Hsem) Hsize p Hfit. pose proof Hin as (Hr & He & HL & Hf). pose proof Hr as (Hr0 & Hr4 & HrN).
  destruct (layout_at _ _ _ _ _ _ HL) as (E1 & E2 & Hp & Hn & HnN & Hp4 & Hn4). fold p in E1, E2, Hp, Hn, Hp4.
  destruct (block_size_spec newsize ltac:(lia)) as (Hbs & Hbs12 & Hbs4). unfold mem_realloc. rewrite align_size by lia. cbv zeta. rewrite min_eq. fold (block_size newsize).
  set (bs := block_size newsize) in *. rewrite N_eq. assert ((bs >? N) = false) as -> by lia. rewrite (hrun_bind _ _ _ _ _ (gets_id _)). rewrite assert_bind by lia.
  assert (((ram h + p + 12 <? ram h) || (ram h + p + 12 >=? ram_end h)) = false) as -> by lia. rewrite sizeof_eq. replace (ram h + p + 12 - 12) with (ram h + p) by lia.
  rewrite (u32_small (ram h + p)) by lia. replace (ram h + p - ram h) with p by lia. rewrite (u32_small p), E1, (u32_small (n - p - 12)), (at_ram_ok h n) by (done || lia).
  rewrite assert_bind by lia. assert ((bs >? n - p - 12) = false) as -> by lia. destruct (bs =? n - p - 12) eqn:Eeq.
  { exists h. assert ((p + 12 + bs =? n) = true) as -> by lia. split; [done|]. split; [done|]. split; [done|]. apply data_kept_refl. }
  assert ((p + 12 + bs =? n) = false) as -> by lia. destruct (wait_run h Hsem) as (s1 & Rw & Hheld). rewrite (hrun_bind _ _ _ _ _ Rw).
  destruct (shrink_run (set_hsys s1 h) l1 n l2 bs Hin Hna Hbs12 Hbs4) as (h1 & R & Hin' & Hna' & Er & Es & Em & K); [fold p; lia|]. cbn [hm ram set_hsys] in R. fold p in R.
  rewrite (hrun_bind _ _ _ _ _ R). destruct (signal_ready h1) as (s2 & Rs & Hready); [rewrite Es, Em; exact Hheld|]. rewrite (hrun_bind _ _ _ _ _ Rs).
  eexists. split; [reflexivity|]. split; [exact Er|]. split; [|exact K]. split; [exact Hin'|]. split; [exact Hna'|exact Hready].
Qed.

(** A larger size fails the assertion; the heap is not touched. *)
Lemma mem_realloc_grow h l1 n l2 newsize : heap_ok h (l1 ++ (n, true) :: l2) → 0 ≤ newsize ≤ 4294967292 → block_size newsize ≤ N → let p := end_of 0 l1 in
  n < p + 12 + block_size newsize → mem_realloc (ram h + p + 12) newsize h = Stop (HPanic "mem_realloc can only shrink memory") h.
Proof.
  intros (Hin & Hna & Hsem) Hsize HbN p Hfit. pose proof Hin as (Hr & He & HL & Hf). pose proof Hr as (Hr0 & Hr4 & HrN).
  destruct (layout_at _ _ _ _ _ _ HL) as (E1 & E2 & Hp & Hn & HnN & Hp4 & Hn4). fold p in E1, E2, Hp, Hn, Hp4.
  unfold mem_realloc. rewrite align_size by lia. cbv zeta. rewrite min_eq. fold (block_size newsize). set (bs := block_size newsize) in *. rewrite N_eq.
  assert ((bs >? N) = false) as -> by lia. rewrite (hrun_bind _ _ _ _ _ (gets_id _)). rewrite assert_bind by lia.
  assert (((ram h + p + 12 <? ram h) || (ram h + p + 12 >=? ram_end h)) = false) as -> by lia. rewrite sizeof_eq. replace (ram h + p + 12 - 12) with (ram h + p) by lia.
  rewrite (u32_small (ram h + p)) by lia. replace (ram h + p - ram h) with p by lia. rewrite (u32_small p), E1, (u32_small (n - p - 12)) by lia.
  unfold LWIP_ASSERT. assert ((bs <=? n - p - 12) = false) as -> by lia. reflexivity.
Qed.

(** The size mem_realloc works with, for every [newsize]: rounding the three
    largest values of mem_size_t up to a multiple of 4 wraps around to 0. *)
Definition realloc_size (newsize : Z) : Z := if newsize <=? 4294967292 then block_size newsize else 12.

Lemma mem_realloc_wraps rmem newsize : 4294967292 < newsize < 4294967296 → mem_realloc rmem newsize = mem_realloc rmem 0.
Proof.
  intros Hn. unfold mem_realloc. assert (LWIP_MEM_ALIGN_SIZE newsize = LWIP_MEM_ALIGN_SIZE 0) as ->; [|done].
  assert (newsize = 4294967293 ∨ newsize = 4294967294 ∨ newsize = 4294967295) as [->|[->| ->]] by lia; reflexivity.
Qed.

(** A size larger than the heap. *)
Lemma mem_realloc_huge rmem newsize h : 0 ≤ newsize ≤ 4294967292 → N < block_size newsize → mem_realloc rmem newsize h = Ok 0 h.
Proof.
  intros Hs Hb. unfold mem_realloc. rewrite align_size by lia. cbv zeta. rewrite min_eq. fold (block_size newsize). rewrite N_eq.
  by assert ((block_size newsize >? N) = true) as -> by lia.
Qed.

(** mem_realloc of a used block, whatever the size. *)
Lemma mem_realloc_spec h l1 n l2 newsize : heap_ok h (l1 ++ (n, true) :: l2) → 0 ≤ newsize < 4294967296 →
  let p := end_of 0 l1 in let size := realloc_size newsize in
  if N <? size then mem_realloc (ram h + p + 12) newsize h = Ok 0 h
  else if n <? p + 12 + size then mem_realloc (ram h + p + 12) newsize h = Stop (HPanic "mem_realloc can only shrink memory") h
  else ∃ h', mem_realloc (ram h + p + 12) newsize h = Ok (ram h + p + 12) h' ∧ ram h' = ram h ∧
    heap_ok h' (if p + 12 + size =? n then l1 ++ (n, true) :: l2 else shrunk_blocks l1 p n size l2) ∧
    data_kept (ram h) ((p, p + 12 + size) :: live 0 l1 ++ live n l2) (hm h) (hm h').
Proof.
  intros Hok Hn p size.
  assert (∃ k, 0 ≤ k ≤ 4294967292 ∧ size = block_size k ∧ mem_realloc (ram h + p + 12) newsize = mem_realloc (ram h + p + 12) k) as (k & Hk & -> & ->).
  { unfold size, realloc_size. destruct (newsize <=? 4294967292) eqn:E; [exists newsize; split; [lia|done]|].
    exists 0. split; [lia|]. split; [done|]. apply mem_realloc_wraps. lia. }
  destruct (N <? block_size k) eqn:E1; [apply mem_realloc_huge; lia|].
  destruct (n <? p + 12 + block_size k) eqn:E2; [apply (mem_realloc_grow h l1 n l2); [done|lia|lia|lia]|].
  apply mem_realloc_ok; [done|lia|lia].
Qed.

(** ** mem_init and mem_calloc *)

Lemma mem_init_ok h ram_heap i sl : 0 ≤ ram_heap → ram_heap + N + 2 * 12 + 4 ≤ 4294967296 → tables (hsys h) → sem_free (hsys h) = i :: sl →
  ∃ h', mem_init ram_heap h = Ok tt h' ∧ heap_ok h' [(N, false)] ∧ ram_heap ≤ ram h' < ram_heap + 4.
Proof.
  intros H0 H1 [[Hnd Hs] _] Hsl. rewrite Hsl in Hs. destruct (Hs i ltac:(left)) as (_ & e & He & Hfr).
  assert (Ha : LWIP_MEM_ALIGN ram_heap = 4 * ((ram_heap + 3) / 4)) by (apply align_size; lia). unfold mem_init. rewrite Ha.
  set (r := 4 * ((ram_heap + 3) / 4)). assert (Hr : ram_heap ≤ r < ram_heap + 4 ∧ r `mod` 4 = 0) by (subst r; Z.to_euclidean_division_equations; lia). destruct Hr as [Hr Hr4].
  rewrite assert_bind by reflexivity. cbv zeta. rewrite N_eq, (u32_small (r + N)) by lia. set (m := set_prev (r + N) N (set_next (r + N) N (set_used (r + N) 1 (set_used r 0 (set_prev r 0 (set_next r N (hm h))))))).
  set (s1 := set_sems (<[i := Sem false (s32 (sem_gen e + 1)) 1 (sem_waiters e)]> (sems (hsys h))) (set_sem_free sl (hsys h))).
  exists (Heap m r (r + N) r i s1). split; [|split; [|done]].
  - unfold on_mem, lift, modify. cbn [hm set_hm]. unfold mbind, M_bind. cbn [hm set_hm hsys]. by rewrite (sem_new_run _ i sl e 1 Hsl He Hfr).
  - split; [|split; [cbn; split; [by right|done]|]].
    + split; [split_and!; cbn; lia|]. split; [done|]. split; [|cbn; lia]. cbn [hm ram]. split; [exists 0|]; subst m; cbn; unfold hdr; rewrite ?Z.add_0_r; hread; split_and!; try done; lia.
    + eexists. cbn. rewrite lookup_insert_eq. split; [done|]. cbn. split; [done|lia].
Qed.

(** The owner of a block may write its bytes. *)
Lemma layout_data m m' r l1 n u l2 : placed r → layout m r (l1 ++ (n, u) :: l2) →
  (∀ x, 0 ≤ x < 4294967296 → ¬ (r + end_of 0 l1 + 12 ≤ x < r + n) → ld m' x = ld m x) → layout m' r (l1 ++ (n, u) :: l2).
Proof.
  intros Hr HL Hx. pose proof Hr as (Hr0 & _ & HrN). apply (layout_replace m m' r l1 [(n, u)] [(n, u)] l2 Hr HL).
  intros p pv n' npv H1 ((E1 & E2 & E3) & Hn & Ha & [<- <-]) Hp HnN Hl Hl'. rewrite (seg_end _ _ _ _ _ _ _ H1) in Hx. exists p.
  destruct (hdr_agree m m' (r + p)) as (F1 & F2 & F3); [intros x Hx'; apply Hx; lia|]. destruct (hdr_agree m m' (r + N)) as (G1 & G2 & G3); [intros x Hx'; apply Hx; lia|].
  split; [cbn; unfold hdr; rewrite F1, F2, F3; split_and!; done|]. split; [|split; [done|split; [done|]]].
  - intros Hne. destruct (Hl Hne). destruct (hdr_agree m m' (r + n)) as (K1 & K2 & K3); [intros x Hx'; apply Hx; lia|]. rewrite K1, K2, K3. done.
  - intros x Hx1 Hx2. apply Hx; lia.
Qed.

(** A cleared block: the bytes of the other blocks are the same. *)
Lemma mem_calloc_ok h l count size : heap_ok h l → 0 < count * size ≤ 4294967292 →
  ∃ r h', mem_calloc count size h = Ok r h' ∧ ram h' = ram h ∧
    ((r = 0 ∧ heap_ok h' l ∧ hm h' = hm h ∧ no_fit (block_size (count * size)) 0 l) ∨
     (∃ l1 n l2, let p := end_of 0 l1 in l = l1 ++ (n, false) :: l2 ∧ p + 12 + block_size (count * size) ≤ n ∧ r = ram h + p + 12 ∧
       heap_ok h' (l1 ++ took p n (block_size (count * size)) ++ l2) ∧ data_kept (ram h) (live 0 l) (hm h) (hm h') ∧
       ∀ x, r ≤ x < r + count * size → ld (hm h') x = 0)).
Proof.
  intros Hok Hcs. unfold mem_calloc. rewrite u32_small by lia. destruct (mem_malloc_ok h l (count * size) Hok Hcs) as (r & h1 & R & Er & Hpost).
  rewrite (hrun_bind _ _ _ _ _ R). destruct Hpost as [(-> & H1 & H2 & H3)|(l1 & n & l2 & El & Hnf & Hfit & Hr & H1 & K)].
  { exists 0, h1. split; [reflexivity|]. split; [done|]. left. done. }
  destruct (block_size_spec (count * size) ltac:(lia)) as (Hbs & Hbs12 & _). set (p := end_of 0 l1) in *. set (bs := block_size (count * size)) in *.
  pose proof Hok as ((Hpl & _ & HL0 & _) & _). rewrite El in HL0. destruct (layout_at _ _ _ _ _ _ HL0) as (_ & _ & Hp & _ & HnN & _). fold p in Hp.
  destruct H1 as ((Hpl1 & He1 & HL1 & Hf1) & Hna1 & Hsem1). rewrite Er in *. pose proof Hpl as (Hr0 & _ & HrN).
  assert (Hsplit : ∃ n' k, took p n bs ++ l2 = (n', true) :: k ∧ p + 12 + bs ≤ n' ≤ n) by (unfold took; destruct (_ <=? _) eqn:E; eexists _, _; (split; [reflexivity|lia])).
  destruct Hsplit as (n' & k & Ek & Hn'). pose proof (memset_spec (hm h1) r 0 (count * size) ltac:(lia) ltac:(lia) ltac:(lia)) as Hfill. set (m2 := memset (hm h1) r 0 (count * size)) in *.
  assert (Hm2 : ∀ x, 0 ≤ x < 4294967296 → ¬ (r ≤ x < r + count * size) → ld m2 x = ld (hm h1) x) by (intros x Hx Hn; rewrite Hfill by done; by rewrite decide_False).
  exists r, (set_hm m2 h1). assert (ctrue r = true) as -> by (unfold ctrue; lia). split; [reflexivity|]. split; [done|]. right. exists l1, n, l2. cbv zeta. fold p.
  split; [done|]. split; [done|]. split; [done|]. split; [|split].
  - split; [|by split]. unfold in_order. cbn [ram set_hm ram_end hm lfree]. rewrite Er. split; [done|]. split; [done|]. split; [|done]. rewrite Ek in *.
    apply (layout_data (hm h1)); [done|done|]. fold p. intros x Hx Hout. apply Hm2; [done|lia].
  - cbn [hm set_hm]. apply (data_kept_trans _ _ _ (hm h1)); [exact K|]. intros x Hx Hin. apply Hm2; [done|]. destruct Hin as [?|[?|(a & b & Hab & Hx')]]; [lia|lia|].
    rewrite El, live_app in Hab. cbn in Hab. fold p in Hab. destruct (live_sides _ _ _ _ a b HL0) as [S1 _]. fold p in S1.
    change ((n, false) :: l2) with ([(n, false)] ++ l2) in HL0. rewrite app_assoc in HL0. destruct (live_sides _ _ _ _ a b HL0) as [_ S2]. rewrite end_of_app in S2. cbn [end_of] in S2.
    apply elem_of_app in Hab as [Hab|Hab]; [specialize (S1 Hab); lia|specialize (S2 Hab); lia].
  - intros x Hx. cbn [hm set_hm]. rewrite Hfill by lia. by rewrite decide_True.
Qed.

(** The used blocks do not overlap. *)
Lemma live_disjoint m r l a b a' b' : layout m r l → (a, b) ∈ live 0 l → (a', b') ∈ live 0 l → (a, b) = (a', b') ∨ b ≤ a' ∨ b' ≤ a.
Proof.
  intros [[qpv Hs] _]. revert Hs. generalize 0 at 1 3 4. generalize 0. intros pv p Hs. revert pv Hs. revert p. induction l as [|[n u] l IH]; intros p pv; cbn [live seg]; [intros _ Hin; by apply not_elem_of_nil in Hin|].
  intros (_ & Hn & _ & Hl) H1 H2. pose proof (live_range _ _ _ _ _ _ _ a b Hl) as R1. pose proof (live_range _ _ _ _ _ _ _ a' b' Hl) as R2.
  apply elem_of_app in H1 as [H1|H1], H2 as [H2|H2]; destruct u; try (by apply not_elem_of_nil in H1); try (by apply not_elem_of_nil in H2);
    try (apply list_elem_of_singleton in H1; injection H1 as -> ->); try (apply list_elem_of_singleton in H2; injection H2 as -> ->); auto.
  - right; left. by apply R2.
  - right; right. by apply R1.
  - by apply (IH n p).
  - by apply (IH n p).
Qed.

(** mem_free undoes mem_malloc: the blocks are as before. *)
Lemma join_took l1 n l2 bs : noadj false (l1 ++ (n, false) :: l2) → let p := end_of 0 l1 in
  ∃ n' k, took p n bs ++ l2 = (n', true) :: k ∧ join l1 n' k = l1 ++ (n, false) :: l2.
Proof.
  intros Hna. apply noadj_app in Hna as [H1 [H2 H3]]. cbn in H3. destruct H2 as [?|H2]; [done|]. unfold took, join. rewrite H2. cbv zeta. destruct (_ <=? _).
  - eexists _, _. split; [reflexivity|]. done.
  - exists n, l2. split; [done|]. destruct l2 as [|[n2 [|]] l2]; [done|done|]. destruct H3 as [[?|?] _]; done.
Qed.

(** A size in the last three values of 32 bits becomes the smallest one. *)
Lemma mem_malloc_wraps size : 4294967292 < size < 4294967296 → mem_malloc size = mem_malloc 1.
Proof.
  intros Hs. unfold mem_malloc. assert ((size =? 0) = false) as -> by lia. assert (LWIP_MEM_ALIGN_SIZE size = 0) as ->; [|reflexivity].
  unfold LWIP_MEM_ALIGN_SIZE, MEM_ALIGNMENT. assert (u32 (size + 4 - 1) < 4 ∧ 0 ≤ u32 (size + 4 - 1)) as [? ?] by (unfold u32; Z.to_euclidean_division_equations; lia).
  change (u32 (Z.lnot (4 - 1))) with 0xfffffffc. rewrite align4 by lia. rewrite Z.mod_small; lia.
Qed.
