(* ===== verification/HeapClient.v ===== *)
(** * The heap of lwIP and its clients

    A client allocates blocks, writes its bytes, shrinks and frees them, in
    any order, using only pointers it got and has not freed ([owned], with
    what it wrote there).  In every state it can reach no operation of the
    heap has stopped, its blocks are aligned, inside the heap and apart from
    each other, and each holds what was written to it last. *)

From S2P Require Import Prelude CMem Str StrProofs SysArch SysProofs Heap HeapProofs.

Record client := Client { ch : heap; owned : list (Z * list Z) }.

(** [None] is an operation that stopped. *)
Inductive cstep (c : client) : option client → Prop :=
| cs_malloc size r h' : 0 < size ≤ 4294967292 → mem_malloc size (ch c) = Ok r h' →
    cstep c (Some (Client h' (if r =? 0 then owned c else (r, lds (hm h') r size) :: owned c)))
| cs_malloc_stop size x h' : 0 < size ≤ 4294967292 → mem_malloc size (ch c) = Stop x h' → cstep c None
| cs_free r d rest h' : owned c ≡ₚ (r, d) :: rest → mem_free r (ch c) = Ok tt h' → cstep c (Some (Client h' rest))
| cs_free_stop r d rest x h' : owned c ≡ₚ (r, d) :: rest → mem_free r (ch c) = Stop x h' → cstep c None
| cs_realloc r d rest n r' h' : owned c ≡ₚ (r, d) :: rest → 0 ≤ n ≤ Z.of_nat (length d) → mem_realloc r n (ch c) = Ok r' h' →
    cstep c (Some (Client h' ((r', take (Z.to_nat n) d) :: rest)))
| cs_realloc_stop r d rest n x h' : owned c ≡ₚ (r, d) :: rest → 0 ≤ n ≤ Z.of_nat (length d) → mem_realloc r n (ch c) = Stop x h' → cstep c None
| cs_write r d rest i v : owned c ≡ₚ (r, d) :: rest → 0 ≤ i < Z.of_nat (length d) →
    cstep c (Some (Client (set_hm (st (hm (ch c)) (r + i) v) (ch c)) ((r, <[Z.to_nat i := u8 v]> d) :: rest))).

Inductive creach (c : client) : option client → Prop :=
| creach_nil : creach c (Some c)
| creach_step c1 o : creach c (Some c1) → cstep c1 o → creach c o.

(** ** The invariant *)

(** [b] is the block behind the pointer. *)
Definition owns (h : heap) (x : Z * list Z) (b : Z * Z) : Prop :=
  x.1 = ram h + b.1 + 12 ∧ Z.of_nat (length x.2) ≤ b.2 - b.1 - 12 ∧ lds (hm h) x.1 (Z.of_nat (length x.2)) = x.2.

Definition cinv (c : client) : Prop := ∃ l lv, heap_ok (ch c) l ∧ lv ≡ₚ live 0 l ∧ Forall2 (owns (ch c)) (owned c) lv.

Lemma owns_range h l a b : heap_ok h l → (a, b) ∈ live 0 l → 0 ≤ a ∧ a + 24 ≤ b ∧ b ≤ N.
Proof. intros ((_ & _ & [[qpv Hs] _] & _) & _) Hin. apply (live_range _ _ _ _ _ _ _ _ _ Hs Hin). Qed.

(** A block whose bytes are kept is still owned. *)
Lemma owns_kept h h' lv x b : owns h x b → ram h' = ram h → placed (ram h) → 0 ≤ b.1 → b.2 ≤ N → b ∈ lv → data_kept (ram h) lv (hm h) (hm h') → owns h' x b.
Proof.
  intros (Hx & Hlen & Hd) Er (Hr & _ & HrN) H1 H2 Hin K. split; [by rewrite Er|]. split; [done|]. etrans; [|exact Hd]. apply lds_ext. intros y Hy. apply K; [lia|].
  right; right. exists b.1, b.2. destruct b as [b1 b2]. cbn in *. split; [done|lia].
Qed.

Lemma owned_kept h h' l own lv lv' : heap_ok h l → (∀ b, b ∈ lv → b ∈ live 0 l) → (∀ b, b ∈ lv → b ∈ lv') → ram h' = ram h → data_kept (ram h) lv' (hm h) (hm h') →
  Forall2 (owns h) own lv → Forall2 (owns h') own lv.
Proof.
  intros Hok Hsub Hsub' Er K Hf. pose proof Hok as ((Hpl & _) & _).
  assert (Hb : Forall (λ b, b ∈ live 0 l ∧ b ∈ lv') lv) by (apply Forall_forall; intros b Hin; split; [by apply Hsub|by apply Hsub']).
  induction Hf as [|x b own lv Hx Hf IH]; [constructor|]. apply Forall_cons in Hb as [[Hb1 Hb2] Hb]. constructor.
  - destruct b as [b1 b2]. destruct (owns_range h l b1 b2 Hok Hb1) as (? & ? & ?). by apply (owns_kept h h' lv').
  - apply IH; [intros b' Hin; apply Hsub; by right|intros b' Hin; apply Hsub'; by right|exact Hb].
Qed.

(** The block of a pointer of the client. *)
Lemma owned_split c r d rest : cinv c → owned c ≡ₚ (r, d) :: rest → ∃ l1 n l2 lv, heap_ok (ch c) (l1 ++ (n, true) :: l2) ∧ let p := end_of 0 l1 in
  lv ≡ₚ live 0 l1 ++ live n l2 ∧ owns (ch c) (r, d) (p, n) ∧ Forall2 (owns (ch c)) rest lv.
Proof.
  intros (l & lv & Hok & Hp & Hf) Hown. assert (Hsplit : ∃ lv', lv ≡ₚ lv' ∧ Forall2 (owns (ch c)) ((r, d) :: rest) lv').
  { exact (Permutation_Forall2 Hown Hf). }
  destruct Hsplit as (lv' & Hlv' & Hf'). apply Forall2_cons_inv_l in Hf' as ([a b] & lv2 & Hx & Hf2 & ->).
  assert (Hin : (a, b) ∈ live 0 l) by (rewrite <- Hp, Hlv'; left).
  assert (Hl : ∃ l1 l2, l = l1 ++ (b, true) :: l2 ∧ end_of 0 l1 = a ∧ live 0 l = live 0 l1 ++ (a, b) :: live b l2).
  { clear - Hin. revert Hin. generalize 0. induction l as [|[n u] l IH]; intros p; cbn; [intros Hin; by apply not_elem_of_nil in Hin|]. intros Hin. apply elem_of_app in Hin as [Hin|Hin].
    - destruct u; [|by apply not_elem_of_nil in Hin]. apply list_elem_of_singleton in Hin. injection Hin as <- <-. exists [], l. done.
    - destruct (IH n Hin) as (l1 & l2 & -> & He & Hlive). exists ((n, u) :: l1), l2. split; [done|]. split; [done|]. cbn. rewrite Hlive. by rewrite app_assoc. }
  destruct Hl as (l1 & l2 & -> & He & Hlive). exists l1, b, l2, lv2. split; [done|]. rewrite He. split; [|by split]. apply (Permutation_cons_inv (a := (a, b))).
  rewrite <- Hlv', Hp, Hlive. by rewrite Permutation_middle.
Qed.

Lemma cinv_malloc c size r h' : cinv c → 0 < size ≤ 4294967292 → mem_malloc size (ch c) = Ok r h' → cinv (Client h' (if r =? 0 then owned c else (r, lds (hm h') r size) :: owned c)).
Proof.
  intros (l & lv & Hok & Hp & Hf) Hsize R. destruct (mem_malloc_ok (ch c) l size Hok Hsize) as (r2 & h2 & R2 & Er & Hpost). rewrite R in R2. injection R2 as <- <-.
  destruct Hpost as [(-> & Hok' & Em & _)|(l1 & n & l2 & El & Hnf & Hfit & Hr & Hok' & K)].
  - exists l, lv. split; [done|]. split; [done|]. cbn. apply (owned_kept (ch c) h' l _ lv lv); try done; [intros b Hin; by rewrite <- Hp|]. rewrite Em. apply data_kept_refl.
  - destruct (block_size_spec size ltac:(lia)) as (Hbs & Hbs12 & _). set (p := end_of 0 l1) in *. pose proof Hok as ((Hpl & _ & HL & _) & _). rewrite El in HL.
    destruct (layout_at _ _ _ _ _ _ HL) as (_ & _ & Hp0 & _ & HnN & _). fold p in Hp0. pose proof Hpl as (Hr0 & _ & HrN). assert ((r =? 0) = false) as -> by lia.
    set (n' := if p + 12 + block_size size + 24 <=? n then p + 12 + block_size size else n).
    exists (l1 ++ took p n (block_size size) ++ l2), ((p, n') :: lv). split; [done|]. split.
    + rewrite Hp, El, !live_app. cbn. fold p. rewrite Permutation_middle. apply Permutation_app_head. unfold took, n'. destruct (_ <=? _); reflexivity.
    + constructor.
      * split; [cbn; lia|]. cbn [fst snd]. rewrite length_lds by lia. split; [unfold n'; destruct (_ <=? _) eqn:E; lia|done].
      * apply (owned_kept (ch c) h' l _ lv (live 0 l)); try done; intros b Hin; by rewrite <- Hp.
Qed.

Lemma live_other l1 n l2 : ∀ b, b ∈ live 0 l1 ++ live n l2 → b ∈ live 0 (l1 ++ (n, true) :: l2).
Proof. intros b Hin. rewrite live_app. cbn. rewrite !elem_of_app, elem_of_cons in *. tauto. Qed.

Lemma free_runs c r d rest : cinv c → owned c ≡ₚ (r, d) :: rest → ∃ h', mem_free r (ch c) = Ok tt h' ∧ cinv (Client h' rest).
Proof.
  intros Hc Hown. destruct (owned_split c r d rest Hc Hown) as (l1 & n & l2 & lv & Hok & Hlv & (Hr & _) & Hf). cbn in Hr.
  destruct (mem_free_ok (ch c) l1 n l2 Hok) as (h' & R & Hok' & Er & K). exists h'. rewrite Hr. split; [exact R|].
  pose proof Hok as (_ & Hna & _). apply noadj_app in Hna as [Hn1 [_ Hn2]]. cbn in Hn2.
  exists (join l1 n l2), lv. split; [done|]. split; [by rewrite join_live|].
  apply (owned_kept (ch c) h' (l1 ++ (n, true) :: l2) _ lv (live 0 l1 ++ live n l2)); try done; intros b Hin; rewrite Hlv in Hin; [by apply live_other|done].
Qed.

Lemma block_size_fits size cap : 0 ≤ size ≤ cap → 12 ≤ cap → cap `mod` 4 = 0 → block_size size ≤ cap.
Proof. intros Hs Hc H4. unfold block_size. cbv zeta. destruct (_ <? 12) eqn:E; Z.to_euclidean_division_equations; lia. Qed.

Lemma shrunk_live l1 n size l2 : noadj false (l1 ++ (n, true) :: l2) → let p := end_of 0 l1 in p + 12 + size ≤ n → ∃ b, p + 12 + size ≤ b ∧ b ≤ n ∧
  live 0 (if p + 12 + size =? n then l1 ++ (n, true) :: l2 else shrunk_blocks l1 p n size l2) ≡ₚ (p, b) :: live 0 l1 ++ live n l2.
Proof.
  intros Hna p Hfit. assert (Hsame : live 0 (l1 ++ (n, true) :: l2) ≡ₚ (p, n) :: live 0 l1 ++ live n l2) by (rewrite live_app; cbn; fold p; by rewrite Permutation_middle).
  destruct (_ =? n) eqn:E; [exists n; split; [lia|]; split; [lia|done]|]. unfold shrunk_blocks.
  destruct l2 as [|[n2 [|]] l2]; [| |exists (p + 12 + size); split; [lia|]; split; [lia|]; rewrite live_app; cbn; fold p; by rewrite Permutation_middle].
  all: destruct (_ <=? n) eqn:E2; [exists (p + 12 + size); split; [lia|]; split; [lia|]; rewrite live_app; cbn; fold p; by rewrite Permutation_middle|exists n; split; [lia|]; split; [lia|done]].
Qed.

Lemma realloc_runs c r d rest n : cinv c → owned c ≡ₚ (r, d) :: rest → 0 ≤ n ≤ Z.of_nat (length d) →
  ∃ h', mem_realloc r n (ch c) = Ok r h' ∧ cinv (Client h' ((r, take (Z.to_nat n) d) :: rest)).
Proof.
  intros Hc Hown Hn. destruct (owned_split c r d rest Hc Hown) as (l1 & e & l2 & lv & Hok & Hlv & (Hr & Hlen & Hd) & Hf). cbn in Hr, Hlen, Hd. set (p := end_of 0 l1) in *.
  pose proof Hok as ((Hpl & _ & HL & _) & Hna & _). destruct (layout_at _ _ _ _ _ _ HL) as (_ & _ & Hp & Hpe & HeN & Hp4 & He4). fold p in Hp, Hpe, Hp4. pose proof Hpl as (Hr0 & _ & HrN).
  assert (Hbs : p + 12 + block_size n ≤ e). { assert (block_size n ≤ e - p - 12); [|lia]. apply block_size_fits; [lia|lia|]. Z.to_euclidean_division_equations; lia. }
  destruct (block_size_spec n ltac:(lia)) as (Hbn & _).
  destruct (mem_realloc_ok (ch c) l1 e l2 n Hok ltac:(lia) Hbs) as (h' & R & Er & Hok' & K). fold p in R, Hok', K. rewrite Hr. exists h'. split; [exact R|].
  destruct (shrunk_live l1 e (block_size n) l2 Hna Hbs) as (b & Hb1 & Hb2 & Hperm). fold p in Hperm. eexists _, ((p, b) :: lv). split; [exact Hok'|]. split; [rewrite Hlv; symmetry; exact Hperm|].
  constructor.
  - assert (Elen : Z.of_nat (length (take (Z.to_nat n) d)) = n) by (rewrite length_take; lia). split; [cbn; by rewrite Er|]. split; [cbn [fst snd]; rewrite Elen; lia|].
    cbn [fst snd]. rewrite Elen. assert (E1 : lds (hm (ch c)) (ram (ch c) + p + 12) n = take (Z.to_nat n) d).
    { rewrite <- Hd. rewrite Hr. replace (Z.of_nat (length d)) with (n + (Z.of_nat (length d) - n)) by lia. rewrite lds_app by lia.
      rewrite take_app_length'; [done|]. pose proof (length_lds (hm (ch c)) (ram (ch c) + p + 12) n ltac:(lia)). lia. }
    rewrite <- E1. apply lds_ext. intros x Hx. apply K; [lia|]. right; right. exists p, (p + 12 + block_size n). split; [left|lia].
  - apply (owned_kept (ch c) h' (l1 ++ (e, true) :: l2) _ lv ((p, p + 12 + block_size n) :: live 0 l1 ++ live e l2)); try done; intros x Hin; rewrite Hlv in Hin; [by apply live_other|by right].
Qed.

Lemma lds_lookup m a n i : 0 ≤ n → (i < Z.to_nat n)%nat → lds m a n !! i = Some (ld m (a + Z.of_nat i)).
Proof. intros Hn Hi. unfold lds, range. rewrite list_lookup_fmap, lookup_seqZ_lt by lia. cbn. by rewrite Z.add_0_l. Qed.

Lemma write_cinv c r d rest i v : cinv c → owned c ≡ₚ (r, d) :: rest → 0 ≤ i < Z.of_nat (length d) →
  cinv (Client (set_hm (st (hm (ch c)) (r + i) v) (ch c)) ((r, <[Z.to_nat i := u8 v]> d) :: rest)).
Proof.
  intros Hc Hown Hi. destruct (owned_split c r d rest Hc Hown) as (l1 & n & l2 & lv & Hok & Hlv & (Hr & Hlen & Hd) & Hf). cbn in Hr, Hlen, Hd. set (p := end_of 0 l1) in *.
  pose proof Hok as ((Hpl & He & HL & Hlf) & Hna & Hsem). destruct (layout_at _ _ _ _ _ _ HL) as (_ & _ & Hp & Hpn & HnN & _). fold p in Hp, Hpn. pose proof Hpl as (Hr0 & _ & HrN).
  assert (Hx : ∀ x, 0 ≤ x < 4294967296 → x ≠ r + i → ld (st (hm (ch c)) (r + i) v) x = ld (hm (ch c)) x) by (intros x Hx Hne; rewrite ld_st_small by lia; by rewrite decide_False by lia).
  exists (l1 ++ (n, true) :: l2), ((p, n) :: lv). split; [split; [|by split]|split].
  - split; [done|]. split; [done|]. split; [|done]. cbn [hm set_hm ram ch]. apply (layout_data (hm (ch c))); [done|done|]. fold p. intros x Hx1 Hx2. apply Hx; [done|lia].
  - rewrite Hlv, live_app. cbn. fold p. by rewrite Permutation_middle.
  - constructor.
    + split; [exact Hr|]. cbn [fst snd hm set_hm ch]. rewrite length_insert. split; [exact Hlen|]. apply list_eq. intros j. destruct (decide (j < length d)%nat) as [Hj|Hj].
      * rewrite lds_lookup by lia. destruct (decide (j = Z.to_nat i)) as [->|Hne].
        -- rewrite list_lookup_insert_eq by lia. rewrite Z2Nat.id, ld_st_small, decide_True by lia. done.
        -- rewrite list_lookup_insert_ne by done. rewrite Hx by lia. rewrite <- Hd at 1. rewrite <- (lds_lookup _ _ (Z.of_nat (length d))) by lia. done.
      * rewrite !lookup_ge_None_2; [done|rewrite length_insert; lia|]. pose proof (length_lds (st (hm (ch c)) (r + i) v) r (Z.of_nat (length d)) ltac:(lia)). lia.
    + apply (owned_kept (ch c) _ (l1 ++ (n, true) :: l2) _ lv (live 0 l1 ++ live n l2)); try done; [intros b Hin; rewrite Hlv in Hin; by apply live_other|intros b Hin; by rewrite Hlv in Hin|].
      intros x Hx1 Hx2. cbn [hm set_hm ch]. apply Hx; [done|]. intros ->. destruct Hx2 as [?|[?|(a & b & Hab & Hx2)]]; [lia|lia|].
      destruct (live_sides _ _ _ _ a b HL) as [S1 _]. fold p in S1. change ((n, true) :: l2) with ([(n, true)] ++ l2) in HL. rewrite app_assoc in HL.
      destruct (live_sides _ _ _ _ a b HL) as [_ S2]. rewrite end_of_app in S2. cbn [end_of] in S2. apply elem_of_app in Hab as [Hab|Hab]; [specialize (S1 Hab); lia|specialize (S2 Hab); lia].
Qed.

(** ** What a client can rely on *)

Lemma cstep_ok c o : cinv c → cstep c o → ∃ c', o = Some c' ∧ cinv c'.
Proof.
  intros Hc [size r h' Hs R|size x h' Hs R|r d rest h' Ho R|r d rest x h' Ho R|r d rest n r' h' Ho Hn R|r d rest n x h' Ho Hn R|r d rest i v Ho Hi].
  - eexists. split; [reflexivity|]. by apply cinv_malloc.
  - destruct Hc as (l & lv & Hok & _). destruct (mem_malloc_ok (ch c) l size Hok Hs) as (r & h2 & R2 & _). congruence.
  - destruct (free_runs c r d rest Hc Ho) as (h2 & R2 & Hc'). rewrite R in R2. injection R2 as <-. eauto.
  - destruct (free_runs c r d rest Hc Ho) as (h2 & R2 & _). congruence.
  - destruct (realloc_runs c r d rest n Hc Ho Hn) as (h2 & R2 & Hc'). rewrite R in R2. injection R2 as -> <-. eauto.
  - destruct (realloc_runs c r d rest n Hc Ho Hn) as (h2 & R2 & _). congruence.
  - eexists. split; [reflexivity|]. by apply write_cinv.
Qed.

Lemma creach_ok c o : cinv c → creach c o → ∃ c', o = Some c' ∧ cinv c'.
Proof. intros Hc Hr. induction Hr as [|c1 o Hr IH Hs]; [eauto|]. destruct IH as (c2 & [= <-] & Hc2). by apply (cstep_ok c1). Qed.

(** The contract: see the head of the file. *)
Definition contract (c : client) : Prop :=
  (∀ r d, (r, d) ∈ owned c → r `mod` 4 = 0 ∧ ram (ch c) + 12 ≤ r ∧ r + Z.of_nat (length d) ≤ ram (ch c) + N ∧ lds (hm (ch c)) r (Z.of_nat (length d)) = d) ∧
  (∀ i j r d r' d', i ≠ j → owned c !! i = Some (r, d) → owned c !! j = Some (r', d') → r + Z.of_nat (length d) < r' ∨ r' + Z.of_nat (length d') < r).

Lemma live_nodup m r p pv l q qpv : seg m r p pv l q qpv → NoDup (live p l).
Proof.
  revert p pv. induction l as [|[n u] l IH]; intros p pv; cbn; [constructor|]. intros (_ & Hn & _ & Hl). specialize (IH _ _ Hl). destruct u; [|exact IH].
  constructor; [|exact IH]. intros Hin. apply (live_range _ _ _ _ _ _ _ _ _ Hl) in Hin. lia.
Qed.

Lemma live_aligned m r p pv l q qpv a b : p `mod` 4 = 0 → seg m r p pv l q qpv → (a, b) ∈ live p l → a `mod` 4 = 0.
Proof.
  revert p pv. induction l as [|[n u] l IH]; intros p pv Hp4; cbn; [intros _ Hin; by apply not_elem_of_nil in Hin|].
  intros (_ & _ & Hn4 & Hl) Hin. apply elem_of_app in Hin as [Hin|Hin]; [|by apply (IH n p)]. destruct u; [|by apply not_elem_of_nil in Hin].
  apply list_elem_of_singleton in Hin. by injection Hin as -> ->.
Qed.

Lemma cinv_contract c : cinv c → contract c.
Proof.
  intros (l & lv & Hok & Hp & Hf). pose proof Hok as ((Hpl & _ & HL & _) & _). pose proof Hpl as (Hr0 & Hr4 & HrN). destruct HL as [[qpv Hs] HL2]. split.
  - intros r d Hin. apply list_elem_of_lookup in Hin as [i Hi]. destruct (Forall2_lookup_l _ _ _ _ _ Hf Hi) as ([a b] & Hb & Hx & Hlen & Hd). cbn in *.
    assert (Hab : (a, b) ∈ live 0 l) by (rewrite <- Hp; by apply list_elem_of_lookup_2 in Hb). destruct (owns_range _ _ _ _ Hok Hab) as (? & ? & ?).
    pose proof (live_aligned _ _ 0 _ _ _ _ a b eq_refl Hs Hab) as Ha4.
    split; [rewrite Hx; Z.to_euclidean_division_equations; lia|]. split; [lia|]. split; [lia|done].
  - intros i j r d r' d' Hij Hi Hj. destruct (Forall2_lookup_l _ _ _ _ _ Hf Hi) as ([a b] & Hb & Hx & Hlen & _). destruct (Forall2_lookup_l _ _ _ _ _ Hf Hj) as ([a' b'] & Hb' & Hx' & Hlen' & _). cbn in *.
    assert (Hab : (a, b) ∈ live 0 l) by (rewrite <- Hp; by apply list_elem_of_lookup_2 in Hb). assert (Hab' : (a', b') ∈ live 0 l) by (rewrite <- Hp; by apply list_elem_of_lookup_2 in Hb').
    assert (Hnd : NoDup lv) by (rewrite Hp; by apply (live_nodup _ _ _ _ _ _ _ Hs)).
    destruct (live_disjoint _ _ _ a b a' b' (conj (ex_intro _ qpv Hs) HL2) Hab Hab') as [[= -> ->]|[?|?]]; [|lia|lia].
    destruct Hij. by apply (NoDup_lookup lv _ _ _ Hnd Hb).
Qed.

Lemma client_init h l : heap_ok h l → live 0 l = [] → cinv (Client h []).
Proof. intros Hok Hl. exists l, []. split; [done|]. split; [by rewrite Hl|constructor]. Qed.
