(* ===== verification/NetDemo.v ===== *)
(** * A network server at work

    The tables as they are when the server starts, a mailbox with a producer
    and a consumer, and an empty heap: the witnesses of NetProps. *)

From S2P Require Import Prelude CMem SysArch SysProofs Heap HeapProofs.

(** The static tables are zero. *)
Definition boot_sys : sys :=
  Sys (list_to_map ((λ i, (i, Sem false 0 0 0)) <$> range 0 NSEM)) [] (list_to_map ((λ i, (i, Mbox false 0 0 ∅ 0 0)) <$> range 0 NMBOX)) [] [] None 0 [].

Definition state_of {A} (o : outcome sys sstop A) : sys := match o with Ok _ s | Stop _ s => s end.
Definition init_sys : sys := state_of (sys_init boot_sys).

Definition tables_b (s : sys) : bool :=
  bool_decide (NoDup (sem_free s)) && forallb (λ i, negb (i =? SYS_SEM_NULL) && match sems s !! i with Some e => sem_freed e | None => false end) (sem_free s) &&
  bool_decide (NoDup (mbox_free s)) && forallb (λ i, match mboxes s !! i with Some e => mbox_freed e | None => false end) (mbox_free s).

Lemma tables_b_ok s : tables_b s = true → tables s.
Proof.
  unfold tables_b. rewrite !andb_true_iff, !bool_decide_eq_true. intros (((H1 & H2) & H3) & H4). split; (split; [done|]).
  - intros i Hi. rewrite forallb_forall in H2. specialize (H2 i (proj1 (list_elem_of_In _ _) Hi)). apply andb_true_iff in H2 as [Hn H2].
    split; [intros ->; done|]. destruct (sems s !! i) as [e|]; [|done]. eauto.
  - intros i Hi. rewrite forallb_forall in H4. specialize (H4 i (proj1 (list_elem_of_In _ _) Hi)). cbn in H4. destruct (mboxes s !! i) as [e|]; [|done]. eauto.
Qed.

Lemma init_tables : tables init_sys.
Proof. apply tables_b_ok. vm_compute. reflexivity. Qed.

Lemma init_counts : length (sem_free init_sys) = 256%nat ∧ length (mbox_free init_sys) = 128%nat.
Proof. vm_compute. done. Qed.

(** The state of the threads and the clock. *)
Lemma init_idle : thread_queue init_sys = [] ∧ cur_tc init_sys = None ∧ now init_sys = 0 ∧ log init_sys = [].
Proof. vm_compute. done. Qed.

Lemma init_sinv : sinv init_sys ∅.
Proof.
  destruct init_idle as (Hq & Hc & Hn & _). constructor.
  - intros mb c H. by rewrite lookup_empty in H.
  - intros mb1 mb2 i [c H]. by rewrite lookup_empty in H.
  - rewrite Hq. constructor.
  - intros tc E. by rewrite Hc in E.
  - rewrite Hn. lia.
Qed.

(** Threads start in a state without threads. *)
Definition start (tcs : list thread_context) (s : sys) : sys := set_cur_tc (head tcs) (set_thread_queue (tail tcs) s).

Lemma start_sinv s Q tcs : sinv s Q → Forall (λ tc, tc_pc tc = PCall ∧ Forall (call_ok s Q) (tc_calls tc)) tcs → sinv (start tcs s) Q.
Proof.
  intros HI Ht. assert (Hok : Forall (thread_ok s Q) tcs) by (eapply Forall_impl; [exact Ht|]; intros tc [Hpc Hcs]; split; [done|by rewrite Hpc]).
  apply (sinv_move s _ Q); try done; [split; eauto; cbn; lia| |apply (si_now _ _ HI)| |].
  - intros mb c HQ. apply (box_frame s); [by apply (si_box _ _ HI)|done|]. by intros i n _ H.
  - cbn. destruct tcs; cbn; [constructor|]. by apply Forall_cons in Hok as [_ Hok].
  - cbn. intros tc E. left. destruct tcs; [done|]. injection E as <-. by apply Forall_cons in Hok as [Hok _].
Qed.

(** A producer that posts two messages and a consumer that waits for them. *)
Definition box_sys : sys := state_of (sys_mbox_new 10 init_sys).
Definition demo_threads : list thread_context :=
  [Thread 1 None false PCall [CFetch 127 0; CFetch 127 0]; Thread 2 None false PCall [CPost 127 7; CYield; CPost 127 8]].
Definition demo_sys : sys := start demo_threads box_sys.

Lemma ok_inj {A} (a a' : A) (s s' : sys) : @Ok sys sstop A a s = Ok a' s' → a = a' ∧ s = s'.
Proof. intros H. by injection H. Qed.

Lemma box_sinv : sinv box_sys {[127 := []]}.
Proof.
  destruct init_idle as (Hq & Hc & _). destruct init_counts as [H1 H2].
  assert (H10 : 10 < 32) by lia. assert (Hb : mbox_free init_sys ≠ []) by (intros E; rewrite E in H2; discriminate H2).
  assert (Hs : (2 ≤ length (sem_free init_sys))%nat) by (rewrite H1; apply Nat.leb_le; reflexivity).
  destruct (mbox_new_ok init_sys ∅ 10 init_sinv init_tables Hq Hc H10 Hb Hs) as (mb & s' & E & _ & HI & _).
  assert (Emb : sys_mbox_new 10 init_sys = Ok 127 box_sys) by (vm_compute; reflexivity). rewrite Emb in E. destruct (ok_inj _ _ _ _ E) as [<- <-]. exact HI.
Qed.

Lemma demo_sinv : sinv demo_sys {[127 := []]}.
Proof.
  apply start_sinv; [exact box_sinv|]. unfold demo_threads. repeat (apply Forall_cons_2; [split; [reflexivity|]; cbn [tc_calls]; repeat (apply Forall_cons_2; [cbn [call_ok]; first [exact I|exists []; reflexivity]|]); apply Forall_nil_2|]). apply Forall_nil_2.
Qed.

Fixpoint step_times (n : nat) (s : sys) : outcome sys sstop unit :=
  match n with O => Ok tt s | S n => match thread_step s with Ok _ s => step_times n s | r => r end end.

Lemma step_times_runs n s s0 : runs s0 (Ok tt s) → ∀ s', step_times n s = Ok tt s' → runs s0 (Ok tt s').
Proof.
  revert s. induction n as [|n IH]; intros s Hr s'; cbn; [by intros [= <-]|]. destruct (thread_step s) as [[] s1|] eqn:E; [|done].
  apply IH. apply (runs_step s0 s); [done|]. rewrite <- E. constructor.
Qed.

(** ** An empty heap *)

Definition boot_heap : heap := Heap ∅ 0 0 0 0 init_sys.
Definition demo_heap : heap := match mem_init 0x200000 boot_heap with Ok _ h | Stop _ h => h end.

Lemma demo_heap_ok : heap_ok demo_heap [(2228224, false)].
Proof.
  assert (Hsl : ∃ i sl, sem_free (hsys boot_heap) = i :: sl) by (vm_compute; eauto). destruct Hsl as (i & sl & Hsl).
  destruct (mem_init_ok boot_heap 0x200000 i sl ltac:(lia) ltac:(lia) init_tables Hsl) as (h' & E & Hok & _). unfold demo_heap. rewrite E. exact Hok.
Qed.
