(* ===== verification/NetProps.v ===== *)
(** * Properties of the network stack

    The heap, the mailboxes, the checksums and the addresses of lwIP, with
    witnesses. *)

From S2P Require Import Prelude CMem Str StrProofs PrintfProofs Inet InetProofs SysArch SysProofs Heap HeapProofs HeapClient NetDemo.

(** ** The heap *)

(** C32: the contract of the heap: once mem_init has run, a client that
    allocates, writes, shrinks and frees its blocks in any order never makes
    the heap stop (no assertion fails, no scan of the list runs forever);
    its blocks are aligned, inside the heap, apart from each other, and hold
    what it wrote. *)
Theorem heap_contract h ram_heap : 0 ≤ ram_heap → ram_heap + 2228224 + 2 * 12 + 4 ≤ 4294967296 → tables (hsys h) → sem_free (hsys h) ≠ [] →
  ∃ h', mem_init ram_heap h = Ok tt h' ∧ ∀ o, creach (Client h' []) o → ∃ c, o = Some c ∧ contract c.
Proof.
  intros H0 H1 HT Hs. destruct (sem_free (hsys h)) as [|i sl] eqn:E; [done|]. destruct (mem_init_ok h ram_heap i sl H0 H1 HT E) as (h' & R & Hok & _).
  exists h'. split; [exact R|]. intros o Ho. destruct (creach_ok (Client h' []) o) as (c & -> & Hc); [by apply (client_init h' _ Hok)|exact Ho|].
  exists c. split; [done|]. by apply cinv_contract.
Qed.

Lemma heap_contract_witness : tables (hsys boot_heap) ∧ ∃ h', mem_init 0x200000 boot_heap = Ok tt h' ∧ ∀ o, creach (Client h' []) o → ∃ c, o = Some c ∧ contract c.
Proof.
  split; [exact init_tables|]. apply heap_contract; [lia|lia|exact init_tables|].
  destruct init_counts as [E _]. intros E2. cbn [hsys boot_heap] in E2. rewrite E2 in E. discriminate E.
Defined.

(** C34: mem_malloc takes the first unused block that is large enough for
    the rounded size and its header, splits it when the rest can be a block,
    and returns NULL only when there is none; the other blocks keep their
    bytes. *)
Theorem mem_malloc_first_fit h l size : heap_ok h l → 0 < size ≤ 4294967292 →
  ∃ r h', mem_malloc size h = Ok r h' ∧ malloc_post h l (block_size size) r h' ∧ size ≤ block_size size.
Proof.
  intros Hok Hs. destruct (mem_malloc_ok h l size Hok Hs) as (r & h' & R & _ & Hp). exists r, h'. split; [done|]. split; [done|]. apply block_size_spec. lia.
Qed.

Lemma mem_malloc_first_fit_witness : heap_ok demo_heap [(2228224, false)] ∧
  ∃ r h', mem_malloc 100 demo_heap = Ok r h' ∧ malloc_post demo_heap [(2228224, false)] (block_size 100) r h' ∧ 100 ≤ block_size 100.
Proof. split; [exact demo_heap_ok|]. apply mem_malloc_first_fit; [exact demo_heap_ok|lia]. Defined.

(** C35: mem_free undoes mem_malloc: the blocks of the heap are the ones
    before, joined again, and the bytes of the other blocks are the same. *)
Theorem mem_malloc_free h l size : heap_ok h l → 0 < size ≤ 4294967292 →
  ∃ r h1, mem_malloc size h = Ok r h1 ∧ (r = 0 ∨ ∃ h2, mem_free r h1 = Ok tt h2 ∧ heap_ok h2 l ∧ data_kept (ram h) (live 0 l) (hm h) (hm h2)).
Proof.
  intros Hok Hs. destruct (mem_malloc_ok h l size Hok Hs) as (r & h1 & R & Er & Hp). exists r, h1. split; [done|].
  destruct Hp as [(-> & _)|(l1 & n & l2 & -> & Hnf & Hfit & Hr & Hok1 & K)]; [by left|right].
  pose proof Hok as (_ & Hna & _). destruct (join_took l1 n l2 (block_size size) Hna) as (n' & k & Ek & Ej). rewrite Ek in Hok1.
  destruct (mem_free_ok h1 l1 n' k Hok1) as (h2 & R2 & Hok2 & Er2 & K2). rewrite Ej in Hok2. exists h2. rewrite Hr, <- Er. split; [exact R2|]. split; [exact Hok2|].
  rewrite Er in *. apply (data_kept_trans _ _ _ (hm h1)); [exact K|]. pose proof Hok1 as (_ & Hna1 & _). apply noadj_app in Hna1 as [Ha [_ Hb]]. cbn in Hb.
  rewrite <- join_live in K2 by done. by rewrite Ej in K2.
Qed.

Lemma mem_malloc_free_witness : ∃ r h1, mem_malloc 1000 demo_heap = Ok r h1 ∧
  (r = 0 ∨ ∃ h2, mem_free r h1 = Ok tt h2 ∧ heap_ok h2 [(2228224, false)] ∧ data_kept (ram demo_heap) (live 0 [(2228224, false)]) (hm demo_heap) (hm h2)).
Proof. apply mem_malloc_free; [exact demo_heap_ok|lia]. Defined.

(** C36: mem_malloc, mem_calloc, mem_free and a mem_realloc that shrinks its
    block keep the list of blocks well formed: the links agree in both
    directions, no two unused blocks are neighbours, lfree is the lowest
    unused block, the semaphore is back. *)
Theorem heap_well_formed h l1 n l2 size count : heap_ok h (l1 ++ (n, true) :: l2) → 0 < size ≤ 4294967292 →
  (∃ r h' l', mem_malloc size h = Ok r h' ∧ heap_ok h' l') ∧
  (∃ h', mem_free (ram h + end_of 0 l1 + 12) h = Ok tt h' ∧ heap_ok h' (join l1 n l2)) ∧
  (end_of 0 l1 + 12 + block_size size ≤ n → ∃ h' l', mem_realloc (ram h + end_of 0 l1 + 12) size h = Ok (ram h + end_of 0 l1 + 12) h' ∧ heap_ok h' l') ∧
  (0 < count * size ≤ 4294967292 → ∃ r h' l', mem_calloc count size h = Ok r h' ∧ heap_ok h' l').
Proof.
  intros Hok Hs. split; [|split; [|split]].
  - destruct (mem_malloc_ok h _ size Hok Hs) as (r & h' & R & _ & [(_ & H & _)|(k1 & k & k2 & _ & _ & _ & _ & H & _)]); eauto.
  - destruct (mem_free_ok h l1 n l2 Hok) as (h' & R & H & _). eauto.
  - intros Hfit. destruct (mem_realloc_ok h l1 n l2 size Hok ltac:(lia) Hfit) as (h' & R & _ & H & _). eauto.
  - intros Hc. destruct (mem_calloc_ok h _ count size Hok Hc) as (r & h' & R & _ & [(_ & H & _)|(k1 & k & k2 & _ & _ & _ & H & _)]); eauto.
Qed.


(** A heap with one used block. *)
Lemma used_heap : ∃ h, heap_ok h [(112, true); (2228224, false)].
Proof.
  destruct (mem_malloc_ok demo_heap _ 100 demo_heap_ok ltac:(lia)) as (r & h' & _ & _ & [(_ & _ & _ & Hnf)|(l1 & n & l2 & El & _ & Hfit & _ & Hok & _)]).
  - destruct Hnf as [[H|Hlt] _]; [discriminate H|vm_compute in Hlt; discriminate Hlt].
  - exists h'. destruct l1 as [|b l1]; [injection El as <- <-|injection El as <- El; by destruct l1]. exact Hok.
Qed.

Lemma heap_well_formed_witness : ∃ h, heap_ok h [(112, true); (2228224, false)] ∧
  (∃ r h' l', mem_malloc 50 h = Ok r h' ∧ heap_ok h' l') ∧
  (∃ h', mem_free (ram h + 0 + 12) h = Ok tt h' ∧ heap_ok h' [(2228224, false)]) ∧
  (0 + 12 + block_size 50 ≤ 112 → ∃ h' l', mem_realloc (ram h + 0 + 12) 50 h = Ok (ram h + 0 + 12) h' ∧ heap_ok h' l') ∧
  (0 < 3 * 50 ≤ 4294967292 → ∃ r h' l', mem_calloc 3 50 h = Ok r h' ∧ heap_ok h' l').
Proof. destruct used_heap as [h Hok]. exists h. split; [exact Hok|]. apply (heap_well_formed h [] 112 [(2228224, false)] 50 3); [exact Hok|lia]. Defined.


(** ** Mailboxes *)

(** C33: mailboxes are queues: however the threads alternate and the clock
    advances, the log of their calls is one of bounded queues (each message
    fetched is the oldest one posted and not yet fetched, no mailbox holds
    more than 32, a post never fails), no assertion fails, and the tables
    hold these queues. *)
Theorem mailbox_queues s Q o : sinv s Q → runs s o →
  ∃ s' Q' l, o = Ok tt s' ∧ log s' = l ++ log s ∧ replay l Q = Some Q' ∧ ∀ mb c, Q' !! mb = Some c → box s' mb c.
Proof.
  intros HI Hr. destruct (runs_ok s Q o HI Hr) as (s' & Q' & l & -> & HI' & Hl & Hre). exists s', Q', l. do 3 (split; [done|]). apply (si_box _ _ HI').
Qed.

(** The consumer sleeps, the producer posts, the consumer wakes up. *)
Lemma demo_run : ∃ s', runs demo_sys (Ok tt s') ∧ log s' = [EFetch 1 127 (Some 8) 0; EPost 2 127 8 0; EFetch 1 127 (Some 7) 0; EPost 2 127 7 0].
Proof.
  assert (E : ∃ s', step_times 40 demo_sys = Ok tt s' ∧ log s' = [EFetch 1 127 (Some 8) 0; EPost 2 127 8 0; EFetch 1 127 (Some 7) 0; EPost 2 127 7 0]) by (eexists; split; vm_compute; reflexivity).
  destruct E as (s' & E & Hl). exists s'. split; [|exact Hl]. exact (step_times_runs 40 demo_sys demo_sys (runs_nil demo_sys) s' E).
Qed.

Lemma mailbox_queues_witness : ∃ s', runs demo_sys (Ok tt s') ∧ log s' = [EFetch 1 127 (Some 8) 0; EPost 2 127 8 0; EFetch 1 127 (Some 7) 0; EPost 2 127 7 0] ∧
  ∃ s1 Q' l, @Ok sys sstop unit tt s' = Ok tt s1 ∧ log s1 = l ++ log demo_sys ∧ replay l {[127 := []]} = Some Q' ∧ ∀ mb c, Q' !! mb = Some c → box s1 mb c.
Proof.
  destruct demo_run as (s' & Hr & Hl). exists s'. split; [exact Hr|]. split; [exact Hl|].
  apply (mailbox_queues demo_sys {[127 := []]} (Ok tt s') demo_sinv Hr).
Defined.

(** ** Checksums *)

(** C38: the three versions of lwip_standard_chksum (by bytes, by 16-bit
    words, by 32-bit words from an aligned address) are the same function:
    the Internet checksum of the bytes, whatever the alignment and the
    length. *)
Theorem chksum_versions_agree m a n : bytes_ok m → 0 ≤ a → 0 ≤ n ≤ 65535 → a + n < 4294967296 →
  lwip_standard_chksum m a n = Some (htons (osum (lds m a n))) ∧
  lwip_standard_chksum_2 m a n = lwip_standard_chksum m a n ∧ lwip_standard_chksum_3 m a n = lwip_standard_chksum m a n.
Proof.
  intros Hm Ha Hn Han. rewrite lwip_standard_chksum_ok, lwip_standard_chksum_2_ok, lwip_standard_chksum_3_ok by done. done.
Qed.

(** C39: inet_chksum_pseudo over a chain of pbufs of any lengths, odd ones
    included, is the checksum of the pseudo header followed by the bytes of
    the pbufs in order. *)
Theorem chksum_pseudo_chain m p qs src dest proto proto_len : bytes_ok m → 0 ≤ p < 4294967296 → chain m p qs →
  0 ≤ src < 4294967296 → 0 ≤ dest < 4294967296 → 0 ≤ proto < 256 → 0 ≤ proto_len ≤ 65535 →
  inet_chksum_pseudo m p src dest proto proto_len = Some (checksum (pseudo_header src dest proto proto_len ++ chain_data m qs)).
Proof. exact (inet_chksum_pseudo_ok m p qs src dest proto proto_len). Qed.

(** A header whose checksum was computed with the checksum field zero
    and then stored in that field has the checksum 0, which is what the
    receiver tests. *)
Theorem chksum_verifies m a n k : bytes_ok m → 0 ≤ a → 0 ≤ n ≤ 65535 → a + n < 4294967296 → 0 ≤ k → k `mod` 2 = 0 → k + 2 ≤ n → ld16 m (a + k) = 0 →
  ∃ c, inet_chksum m a n = Some c ∧ 0 ≤ c ≤ 65535 ∧ inet_chksum (st16 m (a + k) c) a n = Some 0.
Proof. exact (chksum_verifies_ok m a n k). Qed.

(** ** Addresses *)

(** C40: inet_ntoa and inet_addr are inverse: the text of any 32-bit address
    fits 16 bytes with its NUL and reads back as the address. *)
Theorem inet_addr_ntoa m str addr : 0 ≤ str → str + 16 ≤ 4294967296 → 0 ≤ addr < 4294967296 →
  inet_addr (inet_ntoa m str addr) str = Some addr ∧ ∃ l, cstr (inet_ntoa m str addr) str l ∧ (length l ≤ 15)%nat.
Proof.
  intros Hs Hb Ha. split; [by apply inet_addr_ntoa_ok|]. destruct (inet_ntoa_ok m str addr Hs Hb) as (l & _ & _ & Hc & Hl). exists l. by split.
Qed.

(** A pbuf at 0x1000 with three bytes at 0x2000, then one at 0x1010 with two
    at 0x2101. *)
Definition demo_packet : mem :=
  sts (sts (sts (sts ∅ 0x1000 [0x10; 0x10; 0; 0; 0; 0x20; 0; 0; 5; 0; 3; 0]) 0x1010 [0; 0; 0; 0; 0x01; 0x21; 0; 0; 2; 0; 2; 0])
    0x2000 [1; 2; 3]) 0x2101 [0xff; 0xfe].

Lemma empty_bytes : bytes_ok ∅.
Proof. intros a. unfold ld. rewrite lookup_empty. cbn. lia. Qed.
Lemma demo_packet_bytes : bytes_ok demo_packet.
Proof. unfold demo_packet. repeat apply sts_bytes_ok. exact empty_bytes. Qed.

Lemma chksum_versions_agree_witness : bytes_ok demo_packet ∧ lwip_standard_chksum demo_packet 0x2101 2 = Some (htons (osum (lds demo_packet 0x2101 2))) ∧
  lwip_standard_chksum_2 demo_packet 0x2101 2 = lwip_standard_chksum demo_packet 0x2101 2 ∧ lwip_standard_chksum_3 demo_packet 0x2101 2 = lwip_standard_chksum demo_packet 0x2101 2.
Proof. split; [exact demo_packet_bytes|]. apply chksum_versions_agree; [exact demo_packet_bytes|lia|lia|lia]. Defined.

Lemma demo_packet_chain : chain demo_packet 0x1000 [0x1000; 0x1010].
Proof. cbn [chain]. split_and!; first [reflexivity|discriminate|apply Z.ltb_lt; vm_compute; reflexivity|vm_compute; reflexivity]. Qed.

Lemma chksum_pseudo_chain_witness : chain demo_packet 0x1000 [0x1000; 0x1010] ∧ chain_data demo_packet [0x1000; 0x1010] = [1; 2; 3; 0xff; 0xfe] ∧
  inet_chksum_pseudo demo_packet 0x1000 0x0f02000a 0x0202000a 17 5 = Some (checksum (pseudo_header 0x0f02000a 0x0202000a 17 5 ++ chain_data demo_packet [0x1000; 0x1010])).
Proof. split; [exact demo_packet_chain|]. split; [vm_compute; reflexivity|]. apply chksum_pseudo_chain; [exact demo_packet_bytes|lia|exact demo_packet_chain|lia|lia|lia|lia]. Defined.

Lemma chksum_verifies_witness : ld16 demo_packet (0x1000 + 2) = 0 ∧
  ∃ c, inet_chksum demo_packet 0x1000 12 = Some c ∧ 0 ≤ c ≤ 65535 ∧ inet_chksum (st16 demo_packet (0x1000 + 2) c) 0x1000 12 = Some 0.
Proof. split; [vm_compute; reflexivity|]. apply chksum_verifies; [exact demo_packet_bytes|lia|lia|lia|lia|reflexivity|lia|vm_compute; reflexivity]. Defined.

Lemma inet_addr_ntoa_witness : inet_addr (inet_ntoa ∅ 0x3000 0x0f02000a) 0x3000 = Some 0x0f02000a ∧ ∃ l, cstr (inet_ntoa ∅ 0x3000 0x0f02000a) 0x3000 l ∧ (length l ≤ 15)%nat.
Proof. apply inet_addr_ntoa; lia. Defined.
